(* ===== verification/_CoqProject ===== *)
-Q . S2P
Prelude.v
Decimal.v
KvStore.v
KvConcurrent.v
SocketFairness.v
SocketCore.v
SocketSyscalls.v
SocketMsg.v
Xattr.v
SocketFile.v
SocketCompat.v
SkbQueue.v
SkbData.v
SkbRead.v
SkbShare.v
SkbInv.v
SkbValues.v
SkbNew.v
SkbJoin.v
SkbShift.v
SkbSeq.v
Namei.v
NameiWalk.v
Vdso.v
Acpi.v
XattrTool.v
Ext4Xattr.v
Ext4Set.v
Ext4Store.v
Ext4Fail.v
Ext4Expand.v
Ext4Ea.v
Ext4EaRefs.v
SysctlText.v
Sysctl.v
SysctlBitmap.v
RuntimeInfo.v
Ramfs.v
MmapTask.v
NcclWrapper.v
Tcpdump.v
