(* ===== verification/Prelude.v ===== *)
(** * Verification of the OS-HW repository

    The repository holds operating-system tasks: changes to Linux 5.15.178
    (under src/linux-5.15.178), UEFI code (src/MyPkg) and small user programs
    (src/Memory, src/Net, src/FS).  This development models the code that the
    repository itself contributes, and the kernel paths that it changes, as
    executable definitions, and proves what the parts promise.

    ** Parts and files

    - KvStore.v: kernel/kv_store.c, the per-process key-value store (1024 hash
      buckets in the main task of a process, spin locks, a slab of pairs), with
      its hooks in kernel/fork.c ([copy_process_ids]) and kernel/exit.c
      ([do_exit_kv]).  [write_kv], [read_kv], [kv_store_init] and
      [kv_store_exit] carry the names of the C functions.
    - KvConcurrent.v: the same calls made by the threads of a process at the
      same time, one shared access per step ([cstep]; [pc] names the points of
      the C code), with the owner of every bucket lock.  Invocations with
      their arguments and returns with their values are the visible events;
      the executions refine an atomic map (linearizability).
    - SocketFairness.v: net/core/socket_fairness.c, the list of per-thread
      statistics and the admission and throttling tests.
    - SocketCore.v: net/socket.c, the life of a socket (allocation, creation,
      file, release) and the transfer of messages, calling SocketFairness where
      the C code does.  SocketSyscalls.v: the system calls on top of it.
      SocketMsg.v: the calls with a message header or an array of them
      (sendmsg, recvmsg, sendmmsg, recvmmsg) and socketcall, with the option
      memory and the pending error of the protocol socket ([mst]).
      SocketFile.v: reads, writes and pages of socket files, the calls of other
      kernel code, ioctl, received control messages, the attributes of sockfs.
      SocketCompat.v: ioctl of 32-bit programs.
    - SkbQueue.v: include/linux/skbuff.h and net/core/skbuff.c, the rings of socket
      buffers in a memory of next and prev pointers, and the error queue of a socket.
      SkbData.v: the structure of a packet in a memory of structures, buffers and
      pages, its linear part, headers and fragments.  SkbRead.v: copying and summing
      a packet of several parts; [contents] is the byte string that it stands for.
      SkbShare.v: clones and the operations on packets that share buffers and pages;
      SkbInv.v: the invariant of such a memory; SkbValues.v: packets as values;
      SkbNew.v: new packets and copies; SkbJoin.v: cutting and joining packets;
      SkbShift.v: moving fragments from one packet to another.  SkbSeq.v:
      reading a packet block by block.
    - Xattr.v: fs/xattr.c, extended attributes from the system call to the
      handler of a file system, with the repository's [custom.] namespace, and
      the in-memory store [simple_xattrs].  The class [AttrStore] is what a
      file system promises to the VFS; [simple_xattrs] implements it.
      XattrTool.v: FS/Task1/read.c, a client of these calls.
    - Ext4Xattr.v: fs/ext4/xattr.c and xattr.h, the read side of the attributes
      on the disk: the checks of [ext4_xattr_check_entries] on arbitrary bytes,
      [xattr_find_entry], [ext4_xattr_get], [ext4_listxattr], and the handler of
      [custom.] (index 11).
      Ext4Set.v: [ext4_xattr_set_entry], which packs names and values in such a
      buffer, and the hashes.  Ext4Store.v: its callers, from the search in the
      inode and the block up to [ext4_xattr_set] and the set method of
      [custom.]; a block shared by inodes is cloned, and an identical block of
      the cache is shared ([insert_block]).  Ext4Fail.v: the same calls with any
      outcome of memory, journal, allocator and disk ([env_any]).  Ext4Expand.v:
      making room for a larger fixed part of the inode
      ([ext4_expand_extra_isize_ea]).
      Ext4Ea.v: the inodes that hold large values: reading, writing, sharing
      through the cache, references, quota, and the deletion of an inode; its
      state is the table of these inodes with their handles, and the calls that
      can fail take the next element of a list of outcomes.  Ext4EaRefs.v:
      the theorems that count references over whole buffers.
    - Namei.v, NameiWalk.v: fs/namei.c, who may do what with a file and a name,
      and the lookup of a path: the walk with its stack of links, its flags and the
      references that it holds, over mounts and file systems that are given
      ([space]), against resolution by rewriting ([lookup_at]).
    - Vdso.v: arch/x86/entry/vdso, the six pages that show the task structure to
      user space: [update_vtask_page] publishes, [map_vdso] maps, page faults
      fill the page table and the functions of vdso-access.c read.
    - SysctlText.v, Sysctl.v, SysctlBitmap.v: kernel/sysctl.c, the handlers of the
      files in /proc/sys: one number from and to text, arrays of numbers with
      bounds, strings, bitmaps as ranges, and the files with a state of their own.
      The text, bitmap and time functions of lib are classes.
    - Acpi.v: src/MyPkg, the UEFI application that prints the ACPI tables and
      erases the OEM ID of one of them.  RuntimeInfo.v: the text that the DXE
      driver stores in UEFI variables and that drivers/firmware/efi/
      my_runtime_info.c shows in sysfs, with the variable service between them
      as the class [VariableService].
    - Ramfs.v: fs/ramfs/file-mmu.c, backup on fsync.  MmapTask.v:
      src/Memory/Task1/impl.c.  NcclWrapper.v: src/Net/Task2/nccl_wrapper.c.
    - Tcpdump.v: src/Net/Task1/tcpdump/tcpdump.c, the length filter that the
      repository adds, in the three packet callbacks with the rotation of the
      output; Decimal.v has the decimal numbers that its options use.

    This file is the prelude: integers, error codes, the state monad, arrays,
    byte regions, flat memory, C strings, and the tactics and hints.

    ** Conventions

    A w-bit integer is a [Z] and every conversion is written with [wrapU] and
    [wrapS].  Stateful code is a function in [st S A], state passing with an
    option: [None] is undefined behaviour of the C program, an access outside
    an object, a NULL dereference, a use after free, or a lock that is never
    released.  A theorem that gives [Some] therefore also says that none of
    these happens, and that the call returns.  Loops run over lists or over the
    index range of the C loop; the name copy of the vDSO is at most 16 turns
    ([comm_loop], the length of the field); a path call is repeated once after
    ESTALE ([path_retry], the second turn carries LOOKUP_REVAL); a call that
    waits for a delegation takes the list of its outcomes ([retry_deleg]).  Fuel
    is carried where the code has no bound.  The entry loops of ext4 have the
    length of the buffer plus one, which is enough because every entry has at
    least 16 bytes, and the theorems show that it never runs out; the loop that
    moves attributes to the block has the same fuel, one entry less a turn.  The retries
    of a set call follow the list of what the allocator answers ([set_retry]),
    the value inode is tried once ([set_value], because in_inode stays set);
    the walk of a path has the components of its name and of forty links, 42 turns of
    path_lookupat and the height of the tree of mounts ([path_walk_resolves]), a
    sequential reader the length of the packet list;
    allocating the blocks of a value inode takes at most one turn for each answer
    of the list and one more ([map_loop]), writing it one for each byte.

    Services that the code calls but that the repository does not define
    (kmalloc, iget and iput, the descriptor table, security hooks, protocol
    operations, memory mappings, mnt_want_write, CUDA, the helper programs) are
    arguments: the outcome of each call is an argument of the function that
    makes it, and its documented effect on the state is written out.  Where
    the effect is needed as a law (variable service, base library, helper
    programs) it is a class with its laws and an instance that satisfies them.

    ** What the theorems show

    - Key-value store: each operation on every branch, fork and exit, the
      memory balance, the keys for which the bucket index is negative; for the
      threads, mutual exclusion, progress of a lock holder and linearizability
      with respect to one atomic map.
    - Fairness: every sequence of calls answers as a table of counters; the
      exact admission limit; what happens to threads without statistics.
    - Sockets: outcome and resources of every creation; socket followed by
      close restores the whole state; throttling does not change results; the
      countings that creations and closings leave unbalanced; first failing
      check of the address calls; copying addresses in and out; which messages
      of an array are sent or received, what is reported and when, and that
      only the first of them is throttled, admitted and counted; files of
      sockets as messages, accepting inside the kernel, time stamps.
    - Socket buffers: any sequence of queue calls answers as finite lists; any
      sequence of calls on a linear packet acts as on a byte string with room
      around it; copying and summing any range sees the flat string, however
      the packet is made up; packets that share memory behave as byte strings of
      their own, with every reference counted, and copies are alone with their memory.
    - Extended attributes: a value that was set is read back, for every file
      system that keeps the store interface, and nothing else changes; the
      guard of [custom.]; name resolution; the list format; [simple_xattrs]
      as a finite map; the user program end to end.
    - ext4: on any disk contents the read calls end and stay inside the
      buffers; on contents that pass the checks they give the stored values and
      names, and [custom.] names are listed to every caller.
      [ext4_xattr_set_entry] refines replacing, inserting or removing one
      element of the list of attributes, and answers ENOSPC exactly when there
      is no room; setting changes one name and no other, is read back, and keeps
      the format well formed (invariant [inode_repr]).  Whatever fails, a call
      of it leaves the format well formed and all other attributes alone
      ([inode_parts]; a name may then be both in the inode and in the block), and
      enlarging the fixed part ends and keeps every attribute.  A value stored in an inode of
      its own is read back; whatever fails, handles stay balanced; references of
      a buffer are taken all or none, and deleting an inode drops exactly its
      own.
    - Paths: a lookup ends, answers as resolution by rewriting does, balances its
      references on every way out and stays within its scope; access is decided
      as sets of rights say.
    - vDSO: the calls report the task that was published, which is the own task
      or, after a fork before the first access, another one; name copy; layout
      and clean-up of the mapping; placement bounds.
    - /proc/sys: bounds hold whatever is written; what a file shows can be written
      back (ints, bitmaps); how much a failing write has stored; strings in the
      strict and the other modes; flags that cannot be taken back.
    - UEFI: exactly the selected tables change and their sums stay zero; the
      walk reports every table; the round trip from firmware to sysfs.
    - ramfs: fsync returns 0 only with a complete backup, memory balance.
      Mapped writing, remapping and the NCCL wrappers on every combination of
      failing calls.
    - tcpdump: which packets every mode writes or shows, across the files of a
      rotation; the numbers and names of a ring; the range option.

    Where a theorem describes behaviour that the authors did not intend (a
    negative key, a socket closed by another thread, text pages left mapped),
    its comment says so.

    ** What is not modelled

    - Of ext4: the journal, the allocator, memory and the cache of blocks
      (arguments); what Ext4Set asks of value inodes is an argument there, and
      its theorems are for values kept in the buffers; the creation of caches.
    - Stock kernel code that the repository carries along unchanged or with a
      line of wiring: inode.c, tcp_ipv4.c, af_inet.c,
      the tables of sysctl.c, most of fork.c and exec.c, headers.
    - Of namei.c: the walk under RCU, automount points, changes of the name space
      during a walk, opening, and the calls that change directories.
    - Of skbuff.c and skbuff.h: packets around memory of a driver, segmentation, zero-copy data of user
      memory, page pools, extensions, time stamps of the sender, and the fields
      of a packet that are only copied.
    - The rest of tcpdump (libpcap, printers, devices), FS/Task2/gptfs.py (Python), build files,
      system call tables, linker scripts, test programs, and code that only
      prints. *)

From Stdlib Require Import ZArith Lia.
From stdpp Require Import base numbers list gmap strings.

#[global] Open Scope Z_scope.

(** ** Proof automation of the development *)

Create HintDb oshw.
Create Rewrite HintDb oshw_len.

(** Case analysis on every [if] and [match] scrutinee of the goal. *)
Ltac split_ifs :=
  repeat match goal with
  | |- context [if ?b then _ else _] => destruct b eqn:?
  end.

(** Turn boolean comparisons of the context and goal into propositions. *)
Ltac to_prop :=
  repeat match goal with
  | H : _ && _ = true |- _ => apply andb_prop in H as [? ?]
  | H : _ || _ = false |- _ => apply orb_false_elim in H as [? ?]
  | H : (_ =? _) = true |- _ => apply Z.eqb_eq in H
  | H : (_ =? _) = false |- _ => apply Z.eqb_neq in H
  | H : (_ <? _) = true |- _ => apply Z.ltb_lt in H
  | H : (_ <? _) = false |- _ => apply Z.ltb_ge in H
  | H : (_ <=? _) = true |- _ => apply Z.leb_le in H
  | H : (_ <=? _) = false |- _ => apply Z.leb_gt in H
  | H : negb _ = true |- _ => apply negb_true_iff in H
  | H : negb _ = false |- _ => apply negb_false_iff in H
  end.

(** Linear arithmetic with divisions and remainders by constants. *)
Ltac dlia := Z.to_euclidean_division_equations; lia.

(** ** Machine integers

    A w-bit integer is a [Z]; the wrap-around of a conversion or of an
    arithmetic operation is written out with [wrapU] and [wrapS]. *)

Definition wrapU (w z : Z) : Z := z mod 2 ^ w.
Definition wrapS (w z : Z) : Z := (z + 2 ^ (w - 1)) mod 2 ^ w - 2 ^ (w - 1).

Abbreviation u8 := (wrapU 8).
Abbreviation u16 := (wrapU 16).
Abbreviation u32 := (wrapU 32).
Abbreviation u64 := (wrapU 64).
Abbreviation s8 := (wrapS 8).
Abbreviation s32 := (wrapS 32).
Abbreviation s64 := (wrapS 64).

Definition is_u (w z : Z) : Prop := 0 ≤ z < 2 ^ w.
Definition is_s (w z : Z) : Prop := - 2 ^ (w - 1) ≤ z < 2 ^ (w - 1).

Lemma wrapU_range w z : 0 ≤ w → is_u w (wrapU w z).
Proof. intros. apply Z.mod_pos_bound. lia. Qed.

Lemma wrapU_small w z : is_u w z → wrapU w z = z.
Proof. intros. by apply Z.mod_small. Qed.

Lemma wrapU_idemp w z : 0 ≤ w → wrapU w (wrapU w z) = wrapU w z.
Proof. intros. by apply wrapU_small, wrapU_range. Qed.

Lemma wrapS_range w z : 1 ≤ w → is_s w (wrapS w z).
Proof.
  intros. unfold wrapS, is_s.
  assert (2 ^ w = 2 * 2 ^ (w - 1)) as E.
  { rewrite <-Z.pow_succ_r by lia. f_equal. lia. }
  pose proof (Z.mod_pos_bound (z + 2 ^ (w - 1)) (2 ^ w)).
  pose proof (Z.pow_pos_nonneg 2 w). lia.
Qed.

Lemma wrapS_small w z : 1 ≤ w → is_s w z → wrapS w z = z.
Proof.
  intros ? [? ?]. unfold wrapS.
  assert (2 ^ w = 2 * 2 ^ (w - 1)) as E.
  { rewrite <-Z.pow_succ_r by lia. f_equal. lia. }
  rewrite Z.mod_small; lia.
Qed.

#[export] Hint Resolve wrapU_range wrapS_range : oshw.

(** ** Error codes (include/uapi/asm-generic/errno-base.h, errno.h) *)

Definition EPERM : Z := 1.
Definition ENOENT : Z := 2.
Definition EINTR : Z := 4.
Definition EIO : Z := 5.
Definition E2BIG : Z := 7.
Definition EBADF : Z := 9.
Definition EAGAIN : Z := 11.
Definition ENOMEM : Z := 12.
Definition EFAULT : Z := 14.
Definition EEXIST : Z := 17.
Definition ENODEV : Z := 19.
Definition EINVAL : Z := 22.
Definition ENFILE : Z := 23.
Definition ENOSPC : Z := 28.
Definition ERANGE : Z := 34.
Definition ENOSYS : Z := 38.
Definition ENODATA : Z := 61.
Definition EBADMSG : Z := 74.
Definition EOPNOTSUPP : Z := 95.
Definition EAFNOSUPPORT : Z := 97.
Definition ESTALE : Z := 116.
Definition EUCLEAN : Z := 117.

(** ** State passing with memory faults

    [st S A] threads a state of type [S]; [None] is undefined behaviour of
    the C program (an access outside the object). *)

Definition st (S A : Type) : Type := S → option (A * S).

#[export] Instance st_ret {S} : MRet (st S) := λ A a s, Some (a, s).
#[export] Instance st_bind {S} : MBind (st S) := λ A B f m s,
  match m s with Some (a, s') => f a s' | None => None end.

Definition get {S} : st S S := λ s, Some (s, s).
Definition put {S} (s : S) : st S unit := λ _, Some (tt, s).
Definition gets {S A} (f : S → A) : st S A := λ s, Some (f s, s).
Definition modify {S} (f : S → S) : st S unit := λ s, Some (tt, f s).
Definition fault {S A} : st S A := λ _, None.
Definition lift {S A} (o : option A) : st S A :=
  λ s, match o with Some a => Some (a, s) | None => None end.

Lemma st_bind_Some {S A B} (m : st S A) (f : A → st S B) s b s'' :
  (m ≫= f) s = Some (b, s'') ↔ ∃ a s', m s = Some (a, s') ∧ f a s' = Some (b, s'').
Proof.
  unfold mbind, st_bind. split.
  - destruct (m s) as [[a s']|] eqn:E; [eauto|done].
  - intros (a & s' & -> & H). done.
Qed.

Lemma st_bind_step {S A B} (m : st S A) (f : A → st S B) s a s' :
  m s = Some (a, s') → (m ≫= f) s = f a s'.
Proof. intros H. unfold mbind, st_bind. by rewrite H. Qed.

Lemma st_bind_assoc {S A B C} (m : st S A) (f : A → st S B) (g : B → st S C) s :
  ((m ≫= f) ≫= g) s = (m ≫= λ a, f a ≫= g) s.
Proof. unfold mbind, st_bind. by destruct (m s) as [[a s']|]. Qed.

Lemma lift_step {S A B} (m : option A) (f : A → st S B) s a : m = Some a → (lift m ≫= f) s = f a s.
Proof. intros E. apply st_bind_step. unfold lift. by rewrite E. Qed.

(** A [for] loop over the elements of a list, in order. *)
Fixpoint for_each {S A} (l : list A) (body : A → st S unit) : st S unit :=
  match l with
  | [] => mret tt
  | x :: l => body x ≫= λ _, for_each l body
  end.

(** Invariant rule of [for_each]: [P] is indexed by the elements already done. *)
Lemma for_each_inv {S A} (P : list A → S → Prop) (body : A → st S unit) l done s :
  P done s →
  (∀ d x r s, done ++ l = d ++ x :: r → P d s →
     ∃ s', body x s = Some (tt, s') ∧ P (d ++ [x]) s') →
  ∃ s', for_each l body s = Some (tt, s') ∧ P (done ++ l) s'.
Proof.
  revert done s. induction l as [|x l IH]; intros done s HP Hb; simpl.
  { exists s. rewrite app_nil_r. done. }
  destruct (Hb done x l s eq_refl HP) as (s1 & E1 & P1).
  rewrite (st_bind_step _ _ _ _ _ E1).
  destruct (IH (done ++ [x]) s1 P1) as (s2 & E2 & P2).
  { intros d y r s0 Heq. apply Hb with (r := r). by rewrite <-Heq, <-app_assoc. }
  exists s2. split; [done|]. by rewrite <-app_assoc in P2.
Qed.

Lemma option_cases {A} (x : option A) : x = None ∨ ∃ a, x = Some a.
Proof. destruct x; eauto. Qed.

(** ** Arrays indexed by C integers *)

(** [l[i]]: out of range is a fault. *)
Definition zlookup {A} (l : list A) (i : Z) : option A :=
  if i <? 0 then None else l !! Z.to_nat i.

(** [l[i] = x]: out of range is a fault. *)
Definition zinsert {A} (l : list A) (i : Z) (x : A) : option (list A) :=
  if (0 <=? i) && (i <? Z.of_nat (length l)) then Some (<[Z.to_nat i := x]> l) else None.

Lemma zlookup_is_Some {A} (l : list A) i :
  is_Some (zlookup l i) ↔ 0 ≤ i < Z.of_nat (length l).
Proof.
  unfold zlookup. split_ifs; to_prop.
  - split; [by intros [? ?]|lia].
  - rewrite lookup_lt_is_Some. lia.
Qed.

Lemma zlookup_range {A} (l : list A) i x :
  zlookup l i = Some x → 0 ≤ i < Z.of_nat (length l).
Proof. intros. apply zlookup_is_Some. eauto. Qed.

Lemma zlookup_neg {A} (l : list A) i : i < 0 → zlookup l i = None.
Proof. intros. unfold zlookup. split_ifs; to_prop; [done|lia]. Qed.

Lemma zinsert_Some {A} (l : list A) i x :
  0 ≤ i < Z.of_nat (length l) → zinsert l i x = Some (<[Z.to_nat i := x]> l).
Proof. intros. unfold zinsert. split_ifs; [done|]. lia. Qed.

Lemma zinsert_length {A} (l l' : list A) i x :
  zinsert l i x = Some l' → length l' = length l.
Proof. unfold zinsert. split_ifs; [|done]. intros [= <-]. apply length_insert. Qed.

Lemma zlookup_insert_eq {A} (l l' : list A) i x :
  zinsert l i x = Some l' → zlookup l' i = Some x.
Proof.
  unfold zinsert, zlookup. destruct (_ && _) eqn:E; [|done]. intros [= <-]. to_prop.
  split_ifs; [to_prop; lia|]. apply list_lookup_insert_eq. lia.
Qed.

Lemma zlookup_insert_ne {A} (l l' : list A) i j x :
  zinsert l i x = Some l' → i ≠ j → zlookup l' j = zlookup l j.
Proof.
  unfold zinsert, zlookup. destruct (_ && _) eqn:E; [|done]. intros [= <-] ?. to_prop.
  split_ifs; [done|]. to_prop. apply list_lookup_insert_ne. lia.
Qed.

(** ** Byte regions: little-endian fields of a [list Z] of bytes *)

Definition is_bytes (l : list Z) : Prop := Forall (is_u 8) l.

Fixpoint le_combine (l : list Z) : Z :=
  match l with
  | [] => 0
  | b :: l => b + 256 * le_combine l
  end.

Fixpoint le_split (n : nat) (z : Z) : list Z :=
  match n with
  | O => []
  | S n => z mod 256 :: le_split n (z / 256)
  end.

Lemma le_split_length n z : length (le_split n z) = n.
Proof. revert z. induction n; intros; simpl; auto. Qed.

Lemma le_split_bytes n z : is_bytes (le_split n z).
Proof.
  unfold is_bytes. revert z. induction n; intros z; simpl; constructor; [|auto].
  pose proof (Z.mod_pos_bound z 256). unfold is_u. lia.
Qed.

Lemma le_combine_split n z : le_combine (le_split n z) = z mod 2 ^ (8 * Z.of_nat n).
Proof.
  revert z. induction n; intros z; simpl le_split; simpl le_combine.
  { by rewrite Z.mod_1_r. }
  rewrite IHn. replace (8 * Z.of_nat (S n)) with (8 + 8 * Z.of_nat n) by lia.
  rewrite Z.pow_add_r by lia. change (2 ^ 8) with 256.
  rewrite Z.rem_mul_r by lia. lia.
Qed.

Lemma le_combine_range l : is_bytes l → 0 ≤ le_combine l < 2 ^ (8 * Z.of_nat (length l)).
Proof.
  induction 1 as [|b l Hb _ IH]; simpl; [lia|]. unfold is_u in Hb.
  replace (8 * Z.of_nat (S (length l))) with (8 + 8 * Z.of_nat (length l)) by lia.
  rewrite Z.pow_add_r by lia. change (2 ^ 8) with 256 in *. lia.
Qed.

Lemma le_split_combine l : is_bytes l → le_split (length l) (le_combine l) = l.
Proof.
  induction 1 as [|b l Hb _ IH]; simpl; [done|]. unfold is_u in Hb.
  change (2 ^ 8) with 256 in Hb. f_equal.
  - rewrite Z.mul_comm, Z.mod_add by lia. apply Z.mod_small. lia.
  - rewrite Z.mul_comm, Z.div_add by lia. rewrite (Z.div_small b) by lia. done.
Qed.

#[export] Hint Rewrite le_split_length @length_app @length_take @length_drop @length_replicate
  @length_insert : oshw_len.

(** Reading [n] bytes at offset [off]; outside the region is a fault. *)
Definition bytes_at (l : list Z) (off n : Z) : option (list Z) :=
  if (0 <=? off) && (0 <=? n) && (off + n <=? Z.of_nat (length l))
  then Some (take (Z.to_nat n) (drop (Z.to_nat off) l)) else None.

(** Writing [bs] at offset [off]; outside the region is a fault. *)
Definition put_at (l : list Z) (off : Z) (bs : list Z) : option (list Z) :=
  if (0 <=? off) && (off + Z.of_nat (length bs) <=? Z.of_nat (length l))
  then Some (take (Z.to_nat off) l ++ bs ++ drop (Z.to_nat off + length bs) l) else None.

Definition rd (n : nat) (l : list Z) (off : Z) : option Z :=
  le_combine <$> bytes_at l off (Z.of_nat n).
Definition wr (n : nat) (l : list Z) (off z : Z) : option (list Z) :=
  put_at l off (le_split n z).

Abbreviation rd8 := (rd 1).
Abbreviation rd16 := (rd 2).
Abbreviation rd32 := (rd 4).
Abbreviation rd64 := (rd 8).

Lemma bytes_at_is_Some l off n :
  is_Some (bytes_at l off n) ↔ 0 ≤ off ∧ 0 ≤ n ∧ off + n ≤ Z.of_nat (length l).
Proof.
  unfold bytes_at. destruct (_ && _) eqn:E.
  - to_prop. split; [lia|eauto].
  - split; [by intros [? ?]|]. intros. lia.
Qed.

Lemma rd_is_Some n l off :
  is_Some (rd n l off) ↔ 0 ≤ off ∧ off + Z.of_nat n ≤ Z.of_nat (length l).
Proof. unfold rd. rewrite fmap_is_Some, bytes_at_is_Some. lia. Qed.

Lemma bytes_at_length l off n bs :
  bytes_at l off n = Some bs → Z.of_nat (length bs) = n.
Proof.
  unfold bytes_at. destruct (_ && _) eqn:E; [|done]. intros [= <-]. to_prop.
  autorewrite with oshw_len. lia.
Qed.

Lemma put_at_length l l' off bs : put_at l off bs = Some l' → length l' = length l.
Proof.
  unfold put_at. destruct (_ && _) eqn:E; [|done]. intros [= <-]. to_prop.
  autorewrite with oshw_len. lia.
Qed.

Lemma put_at_Some l off bs :
  0 ≤ off → off + Z.of_nat (length bs) ≤ Z.of_nat (length l) → is_Some (put_at l off bs).
Proof. intros. unfold put_at. destruct (_ && _) eqn:E; [eauto|]. lia. Qed.

Lemma put_at_lookup l l' off bs (i : nat) :
  put_at l off bs = Some l' →
  l' !! i = if decide (off ≤ Z.of_nat i < off + Z.of_nat (length bs))
            then bs !! (i - Z.to_nat off)%nat else l !! i.
Proof.
  unfold put_at. destruct (_ && _) eqn:E; [|done]. intros [= <-]. to_prop.
  assert (length (take (Z.to_nat off) l) = Z.to_nat off) as L by (rewrite length_take; lia).
  case_decide.
  - rewrite lookup_app_r by lia. rewrite lookup_app_l by lia. by rewrite L.
  - destruct (decide (Z.of_nat i < off)).
    + rewrite lookup_app_l by lia. apply lookup_take_lt. lia.
    + rewrite lookup_app_r by lia. rewrite lookup_app_r by lia.
      rewrite lookup_drop. f_equal. lia.
Qed.

Lemma bytes_at_lookup l off n bs (i : nat) :
  bytes_at l off n = Some bs →
  bs !! i = if decide (Z.of_nat i < n) then l !! (Z.to_nat off + i)%nat else None.
Proof.
  unfold bytes_at. destruct (_ && _) eqn:E; [|done]. intros [= <-]. to_prop.
  case_decide.
  - rewrite lookup_take_lt by lia. apply lookup_drop.
  - apply lookup_take_ge. lia.
Qed.

Lemma bytes_at_put_eq l l' off bs :
  put_at l off bs = Some l' → bytes_at l' off (Z.of_nat (length bs)) = Some bs.
Proof.
  intros H. pose proof (put_at_length _ _ _ _ H).
  assert (0 ≤ off ∧ off + Z.of_nat (length bs) ≤ Z.of_nat (length l)) as [? ?].
  { unfold put_at in H. destruct (_ && _) eqn:E; [|done]. to_prop. lia. }
  destruct (bytes_at l' off (Z.of_nat (length bs))) as [bs'|] eqn:E.
  - f_equal. apply list_eq. intros i. rewrite (bytes_at_lookup _ _ _ _ _ E).
    case_decide.
    + rewrite (put_at_lookup _ _ _ _ _ H). case_decide; [f_equal; lia|lia].
    + symmetry. apply lookup_ge_None. lia.
  - exfalso. apply eq_None_not_Some in E. apply E, bytes_at_is_Some. lia.
Qed.

Lemma bytes_at_put_ne l l' off bs off' n :
  put_at l off bs = Some l' → off' + n ≤ off ∨ off + Z.of_nat (length bs) ≤ off' →
  bytes_at l' off' n = bytes_at l off' n.
Proof.
  intros H Hd. pose proof (put_at_length _ _ _ _ H) as L.
  destruct (bytes_at l off' n) as [bs1|] eqn:E1, (bytes_at l' off' n) as [bs2|] eqn:E2.
  - f_equal. apply list_eq. intros i.
    rewrite (bytes_at_lookup _ _ _ _ _ E1), (bytes_at_lookup _ _ _ _ _ E2).
    case_decide; [|done]. rewrite (put_at_lookup _ _ _ _ _ H).
    assert (0 ≤ off' ∧ 0 ≤ n ∧ off' + n ≤ Z.of_nat (length l)) by
      (apply bytes_at_is_Some; eauto).
    case_decide; [lia|done].
  - exfalso. apply eq_None_not_Some in E2. apply E2, bytes_at_is_Some. rewrite L.
    apply bytes_at_is_Some. eauto.
  - exfalso. apply eq_None_not_Some in E1. apply E1, bytes_at_is_Some. rewrite <-L.
    apply bytes_at_is_Some. eauto.
  - done.
Qed.

Lemma rd_wr_eq n l l' off z :
  wr n l off z = Some l' → rd n l' off = Some (z mod 2 ^ (8 * Z.of_nat n)).
Proof.
  intros H. apply bytes_at_put_eq in H. unfold rd.
  rewrite le_split_length in H. rewrite H. simpl. by rewrite le_combine_split.
Qed.

Lemma rd_wr_ne n m l l' off off' z :
  wr n l off z = Some l' → off' + Z.of_nat m ≤ off ∨ off + Z.of_nat n ≤ off' →
  rd m l' off' = rd m l off'.
Proof.
  intros H Hd. unfold rd. rewrite (bytes_at_put_ne _ _ _ _ _ _ H); [done|].
  rewrite le_split_length. lia.
Qed.

Lemma wr_length n l l' off z : wr n l off z = Some l' → length l' = length l.
Proof. apply put_at_length. Qed.

Lemma wr_Some n l off z :
  0 ≤ off → off + Z.of_nat n ≤ Z.of_nat (length l) → is_Some (wr n l off z).
Proof. intros. apply put_at_Some; rewrite ?le_split_length; lia. Qed.

(** ** memmove and memset; parts of two regions that agree *)

Definition memmove (l : list Z) (dst src n : Z) : option (list Z) :=
  b ← bytes_at l src n; put_at l dst b.

Definition memset (l : list Z) (pos c n : Z) : option (list Z) :=
  if n <? 0 then None else put_at l pos (replicate (Z.to_nat n) c).

Lemma bytes_at_zlookup l off n bs k :
  bytes_at l off n = Some bs → 0 ≤ k < n → zlookup bs k = zlookup l (off + k).
Proof.
  intros H Hk. assert (0 ≤ off) by (apply (bytes_at_is_Some l off n); eauto).
  unfold zlookup. rewrite !(proj2 (Z.ltb_ge _ _)) by lia.
  rewrite (bytes_at_lookup _ _ _ _ _ H). rewrite decide_True by lia. f_equal. lia.
Qed.

Lemma put_at_zlookup l l' off bs k : put_at l off bs = Some l' →
  zlookup l' k = if decide (off ≤ k < off + Z.of_nat (length bs)) then zlookup bs (k - off) else zlookup l k.
Proof.
  intros H. assert (0 ≤ off) by (unfold put_at in H; destruct (_ && _) eqn:E; [|done]; to_prop; lia).
  unfold zlookup. destruct (Z.ltb_spec k 0).
  { rewrite decide_False by lia. done. }
  rewrite (put_at_lookup _ _ _ _ _ H). rewrite Z2Nat.id by lia. case_decide; [|done].
  rewrite (proj2 (Z.ltb_ge _ _)) by lia. f_equal. lia.
Qed.

Lemma zlookup_eq {A} (l l' : list A) : (∀ k, zlookup l k = zlookup l' k) → l = l'.
Proof.
  intros H. apply list_eq. intros i. specialize (H (Z.of_nat i)). unfold zlookup in H.
  rewrite !(proj2 (Z.ltb_ge _ _)) in H by lia. by rewrite !Nat2Z.id in H.
Qed.

Lemma memmove_Some l dst src n : 0 ≤ dst → dst + n ≤ Z.of_nat (length l) → 0 ≤ src →
  src + n ≤ Z.of_nat (length l) → 0 ≤ n → is_Some (memmove l dst src n).
Proof.
  intros. unfold memmove. destruct (proj2 (bytes_at_is_Some l src n)) as [b Eb]; [done|].
  rewrite Eb. cbn [mbind option_bind]. apply put_at_Some; [done|]. rewrite (bytes_at_length _ _ _ _ Eb). done.
Qed.

Lemma memmove_spec l l' dst src n : memmove l dst src n = Some l' → length l' = length l ∧
  ∀ k, zlookup l' k = if decide (dst ≤ k < dst + n) then zlookup l (k - dst + src) else zlookup l k.
Proof.
  unfold memmove. destruct (bytes_at l src n) as [b|] eqn:Eb; [|done]. cbn [mbind option_bind]. intros H.
  split; [by eapply put_at_length|]. intros k. rewrite (put_at_zlookup _ _ _ _ k H).
  rewrite (bytes_at_length _ _ _ _ Eb). case_decide; [|done].
  rewrite (bytes_at_zlookup _ _ _ _ _ Eb) by lia. f_equal. lia.
Qed.

Lemma memset_Some l pos c n : 0 ≤ pos → 0 ≤ n → pos + n ≤ Z.of_nat (length l) → is_Some (memset l pos c n).
Proof.
  intros. unfold memset. rewrite (proj2 (Z.ltb_ge n 0)) by lia.
  apply put_at_Some; [done|]. rewrite length_replicate. lia.
Qed.

Lemma memset_spec l l' pos c n : memset l pos c n = Some l' → length l' = length l ∧
  ∀ k, zlookup l' k = if decide (pos ≤ k < pos + n) then Some c else zlookup l k.
Proof.
  unfold memset. destruct (Z.ltb_spec n 0) as [|Hn]; [done|]. intros H.
  split; [by eapply put_at_length|]. intros k. rewrite (put_at_zlookup _ _ _ _ k H).
  rewrite length_replicate, Z2Nat.id by lia. case_decide; [|done].
  unfold zlookup. rewrite (proj2 (Z.ltb_ge _ _)) by lia. apply lookup_replicate_2. lia.
Qed.

Lemma memmove_bytes l l' dst src n : memmove l dst src n = Some l' → is_bytes l → is_bytes l'.
Proof.
  unfold memmove. destruct (bytes_at l src n) as [b|] eqn:Eb; [|done]. cbn [mbind option_bind].
  intros H Hl. assert (is_bytes b).
  { unfold bytes_at in Eb. destruct (_ && _); [|done]. injection Eb as <-. by apply Forall_take, Forall_drop. }
  unfold put_at in H. destruct (_ && _); [|done]. injection H as <-. unfold is_bytes.
  rewrite !Forall_app. auto using Forall_take, Forall_drop.
Qed.

Lemma put_at_bytes l l' off b : put_at l off b = Some l' → is_bytes b → is_bytes l → is_bytes l'.
Proof.
  unfold put_at. destruct (_ && _); [|done]. intros [= <-] ??. unfold is_bytes.
  rewrite !Forall_app. auto using Forall_take, Forall_drop.
Qed.

Lemma wr_bytes n l l' off z : wr n l off z = Some l' → is_bytes l → is_bytes l'.
Proof. intros H. eapply put_at_bytes; [done|]. apply le_split_bytes. Qed.

Lemma memset_bytes l l' pos c n : memset l pos c n = Some l' → is_u 8 c → is_bytes l → is_bytes l'.
Proof.
  unfold memset. destruct (n <? 0); [done|]. intros H Hc. eapply put_at_bytes; [done|]. by apply Forall_replicate.
Qed.

(** The bytes of [l] in [a, b) are found in [l'] at distance [d]. *)
Definition moved (d : Z) (l l' : list Z) (a b : Z) : Prop :=
  ∀ k, a ≤ k < b → zlookup l' (k + d) = zlookup l k.

Lemma bytes_at_moved d l l' a b off n :
  moved d l l' a b → a ≤ off → off + n ≤ b → is_Some (bytes_at l off n) → 0 ≤ off + d →
  off + d + n ≤ Z.of_nat (length l') → bytes_at l' (off + d) n = bytes_at l off n.
Proof.
  intros Hm Ha Hb [bs Es] Hd Hlen. destruct (proj1 (bytes_at_is_Some l off n)) as (? & ? & _); [eauto|].
  destruct (proj2 (bytes_at_is_Some l' (off + d) n)) as [bs' Es']; [lia|]. rewrite Es, Es'. f_equal.
  pose proof (bytes_at_length _ _ _ _ Es). pose proof (bytes_at_length _ _ _ _ Es').
  apply zlookup_eq. intros k. destruct (decide (0 ≤ k < n)) as [Hk|Hk].
  - rewrite (bytes_at_zlookup _ _ _ _ _ Es), (bytes_at_zlookup _ _ _ _ _ Es') by done.
    rewrite <-Hm by lia. f_equal. lia.
  - destruct (zlookup bs k) eqn:E1; [apply zlookup_range in E1; lia|].
    destruct (zlookup bs' k) eqn:E2; [apply zlookup_range in E2; lia|]. done.
Qed.

Lemma rd_moved d n l l' a b off :
  moved d l l' a b → a ≤ off → off + Z.of_nat n ≤ b → is_Some (rd n l off) → 0 ≤ off + d →
  off + d + Z.of_nat n ≤ Z.of_nat (length l') → rd n l' (off + d) = rd n l off.
Proof.
  intros Hm Ha Hb Hs Hd Hl. unfold rd in *. apply fmap_is_Some in Hs. by rewrite (bytes_at_moved d l l' a b off).
Qed.

Lemma moved_weaken d l l' a b a' b' : moved d l l' a b → a ≤ a' → b' ≤ b → moved d l l' a' b'.
Proof. intros H ?? k ?. apply H. lia. Qed.

Lemma moved_trans d d' l1 l2 l3 a b : moved d l1 l2 a b → moved d' l2 l3 (a + d) (b + d) →
  moved (d + d') l1 l3 a b.
Proof. intros H1 H2 k Hk. rewrite <-H1, <-H2 by lia. f_equal. lia. Qed.

Lemma put_at_moved l l' off bs a b : put_at l off bs = Some l' →
  b ≤ off ∨ off + Z.of_nat (length bs) ≤ a → moved 0 l l' a b.
Proof. intros H Hd k Hk. rewrite (put_at_zlookup _ _ _ _ _ H), Z.add_0_r. by rewrite decide_False by lia. Qed.

Lemma wr_moved n l l' off z a b : wr n l off z = Some l' → b ≤ off ∨ off + Z.of_nat n ≤ a → moved 0 l l' a b.
Proof. intros H Hd. eapply put_at_moved; [done|]. by rewrite le_split_length. Qed.

(** ** C strings: the bytes before the terminating NUL *)

Definition s2b (s : string) : list Z :=
  (λ a, Z.of_N (Ascii.N_of_ascii a)) <$> String.list_ascii_of_string s.

(** [strncmp(a, p, strlen(p)) == 0] *)
Definition has_prefix (p a : list Z) : bool := bool_decide (take (length p) a = p).

Lemma has_prefix_spec p a : has_prefix p a = true ↔ ∃ r, a = p ++ r.
Proof.
  unfold has_prefix. rewrite bool_decide_eq_true. split.
  - intros H. exists (drop (length p) a). by rewrite <-H at 1; rewrite take_drop.
  - intros [r ->]. by rewrite take_app_length.
Qed.

(** The characters of a buffer before the first NUL; no NUL is a fault. *)
Fixpoint cstr (l : list Z) : option (list Z) :=
  match l with
  | [] => None
  | c :: l => if c =? 0 then Some [] else (λ s, c :: s) <$> cstr l
  end.

Lemma cstr_app s r : Forall (λ c, c ≠ 0) s → cstr (s ++ 0 :: r) = Some s.
Proof.
  induction 1 as [|c s Hc _ IH]; [done|]. cbn [app cstr].
  by rewrite (proj2 (Z.eqb_neq c 0)), IH by done.
Qed.

Lemma cstr_Some l : 0 ∈ l → ∃ s, cstr l = Some s ∧ (length s < length l)%nat.
Proof.
  induction l as [|c l IH]; intros H; [by apply not_elem_of_nil in H|]. cbn [cstr].
  destruct (Z.eqb_spec c 0) as [->|Hc]; [exists []; cbn; split; [done|lia]|].
  apply elem_of_cons in H as [?|H]; [congruence|]. destruct (IH H) as (s & -> & ?).
  exists (c :: s). cbn. split; [done|lia].
Qed.

Lemma put_at_0 b bs :
  Z.of_nat (length bs) ≤ Z.of_nat (length b) → put_at b 0 bs = Some (bs ++ drop (length bs) b).
Proof. intros H. unfold put_at. by rewrite (proj2 (Z.leb_le _ (Z.of_nat (length b)))) by lia. Qed.

(** ** Flat memory: a byte per address *)

Definition memory := Z → Z.

Definition kread (n : nat) (a : Z) (m : memory) : Z :=
  le_combine (m <$> seqZ a (Z.of_nat n)).

(** Writing [n] bytes of [z], least significant first. *)
Fixpoint kwrite (n : nat) (a z : Z) (m : memory) : memory :=
  match n with
  | O => m
  | S n => kwrite n (a + 1) (z / 256) (λ b, if b =? a then z mod 256 else m b)
  end.

Lemma kread_S n a m : kread (S n) a m = m a + 256 * kread n (a + 1) m.
Proof.
  unfold kread. rewrite Nat2Z.inj_succ, <-Z.add_1_r, seqZ_cons by lia. simpl.
  do 3 f_equal. rewrite <-Z.add_1_r. f_equal. f_equal. lia.
Qed.

Lemma kread_ext n a m m' : (∀ b, a ≤ b < a + Z.of_nat n → m b = m' b) → kread n a m = kread n a m'.
Proof.
  revert a. induction n as [|n IH]; intros a H; [done|].
  rewrite !kread_S, H, (IH (a + 1)) by lia || (intros; apply H; lia). done.
Qed.

Lemma kwrite_other n a z m b : b < a ∨ a + Z.of_nat n ≤ b → kwrite n a z m b = m b.
Proof.
  revert a z m. induction n as [|n IH]; intros a z m H; [done|].
  simpl. rewrite IH by lia. rewrite (proj2 (Z.eqb_neq _ _)) by lia. done.
Qed.

Lemma kread_kwrite_ne n n' a a' z m :
  a + Z.of_nat n ≤ a' ∨ a' + Z.of_nat n' ≤ a → kread n a (kwrite n' a' z m) = kread n a m.
Proof. intros H. apply kread_ext. intros b Hb. apply kwrite_other. lia. Qed.

Lemma kread_kwrite_eq n a z m : kread n a (kwrite n a z m) = z mod 2 ^ (8 * Z.of_nat n).
Proof.
  revert a z m. induction n as [|n IH]; intros a z m; [by rewrite Z.mod_1_r|].
  rewrite kread_S. simpl kwrite. rewrite IH, kwrite_other by lia. rewrite Z.eqb_refl.
  replace (8 * Z.of_nat (S n)) with (8 + 8 * Z.of_nat n) by lia.
  rewrite Z.pow_add_r by lia. change (2 ^ 8) with 256. rewrite Z.rem_mul_r by lia. lia.
Qed.

Lemma kread_bytes n a m : (∀ b, is_u 8 (m b)) → 0 ≤ kread n a m < 2 ^ (8 * Z.of_nat n).
Proof.
  intros H. pose proof (le_combine_range (m <$> seqZ a (Z.of_nat n))) as Hr.
  rewrite length_fmap, length_seqZ, Nat2Z.id in Hr. apply Hr.
  apply Forall_forall. intros x (y & -> & _)%list_elem_of_fmap. apply H.
Qed.

Lemma kwrite_bytes n a z m : (∀ b, is_u 8 (m b)) → ∀ b, is_u 8 (kwrite n a z m b).
Proof.
  revert a z m. induction n as [|n IH]; intros a z m H b; [apply H|]. simpl. apply IH.
  intros b'. pose proof (Z.mod_pos_bound z 256). unfold is_u in *. destruct (_ =? _); [lia|apply H].
Qed.
