(* ===== verification/Decimal.v ===== *)
(** * Decimal numbers in strings

    What programs use of the C library to read and print decimal numbers: the
    digits of a number, [strtoul] and [strtol] in base 10 with their end pointer
    and overflow, and the conversion [%0*d] of printf.  A string is the list of
    its bytes before the NUL.  Shared by the components that parse options. *)

From Stdlib Require Import ZArith Lia.
From stdpp Require Import base numbers list.
From S2P Require Import Prelude.

Module Decimal.

Abbreviation bytes := (list Z).

(** ** Digits *)

Definition is_digit (c : Z) : bool := (48 <=? c) && (c <=? 57).

Definition isspace (c : Z) : bool := (c =? 32) || ((9 <=? c) && (c <=? 13)).

(** The value of digits that follow the value [acc]. *)
Definition digits_val (acc : Z) (l : bytes) : Z := foldl (λ v c, 10 * v + (c - 48)) acc l.

(** The longest prefix of digits, and the rest. *)
Fixpoint span_digits (l : bytes) : bytes * bytes :=
  match l with
  | c :: l' => if is_digit c then let '(d, r) := span_digits l' in (c :: d, r) else ([], l)
  | [] => ([], [])
  end.

Fixpoint dec_loop (fuel : nat) (z : Z) (acc : bytes) : bytes :=
  match fuel with
  | O => acc
  | S fuel => if z <? 10 then (48 + z) :: acc else dec_loop fuel (z / 10) ((48 + z mod 10) :: acc)
  end.

(** The digits of [z], which is not negative. *)
Definition dec (z : Z) : bytes := dec_loop (S (Z.to_nat (Z.log2 z))) z [].

(** The conversion [%0*d] of a number that is not negative. *)
Definition dec_padded (width z : Z) : bytes :=
  replicate (Z.to_nat width - length (dec z)) 48 ++ dec z.

(** ** strtoul and strtol in base 10, with a 64-bit long *)

Definition ULONG_MAX : Z := 2 ^ 64 - 1.
Definition LONG_MAX : Z := 2 ^ 63 - 1.
Definition LONG_MIN : Z := - 2 ^ 63.

Fixpoint skip_spaces (l : bytes) : bytes :=
  match l with
  | c :: l' => if isspace c then skip_spaces l' else l
  | [] => []
  end.

(** The sign, and what follows. *)
Definition sign (l : bytes) : bool * bytes :=
  match l with
  | c :: l' => if c =? 45 then (true, l') else if c =? 43 then (false, l') else (false, l)
  | [] => (false, [])
  end.

(** The value, the string from the end pointer on, and whether errno is ERANGE. *)
Definition strtoul (s : bytes) : Z * bytes * bool :=
  let '(neg, l) := sign (skip_spaces s) in
  let '(d, r) := span_digits l in
  match d with
  | [] => (0, s, false)
  | _ =>
      let v := digits_val 0 d in
      if ULONG_MAX <? v then (ULONG_MAX, r, true)
      else ((if neg : bool then u64 (- v) else v), r, false)
  end.

Definition strtol (s : bytes) : Z * bytes * bool :=
  let '(neg, l) := sign (skip_spaces s) in
  let '(d, r) := span_digits l in
  match d with
  | [] => (0, s, false)
  | _ =>
      let v := if neg : bool then - digits_val 0 d else digits_val 0 d in
      if v <? LONG_MIN then (LONG_MIN, r, true)
      else if LONG_MAX <? v then (LONG_MAX, r, true)
      else (v, r, false)
  end.

(** ** Lemmas *)

Lemma is_digit_spec c : is_digit c = true ↔ 48 ≤ c ≤ 57.
Proof. unfold is_digit. rewrite andb_true_iff, !Z.leb_le. done. Qed.

Lemma digits_val_app acc a b : digits_val acc (a ++ b) = digits_val (digits_val acc a) b.
Proof. apply foldl_app. Qed.

Lemma digits_val_acc l acc : digits_val acc l = acc * 10 ^ Z.of_nat (length l) + digits_val 0 l.
Proof.
  revert acc. induction l as [|c l IH]; intros acc; [cbn; lia|]. cbn [digits_val foldl length].
  fold (digits_val (10 * acc + (c - 48)) l). fold (digits_val (10 * 0 + (c - 48)) l).
  rewrite IH, (IH (10 * 0 + (c - 48))), Nat2Z.inj_succ, Z.pow_succ_r by lia. lia.
Qed.

Lemma digits_val_range l : Forall (λ c, is_digit c = true) l → 0 ≤ digits_val 0 l < 10 ^ Z.of_nat (length l).
Proof.
  induction l as [|c l IH] using rev_ind; [cbn; lia|]. rewrite Forall_app, Forall_singleton. intros [Hl Hc%is_digit_spec].
  specialize (IH Hl). rewrite digits_val_app, length_app. cbn [digits_val foldl length].
  rewrite Nat2Z.inj_add, Z.pow_add_r by lia. change (10 ^ Z.of_nat 1) with 10. fold (digits_val 0 l). lia.
Qed.

Lemma span_digits_app d r : Forall (λ c, is_digit c = true) d → (∀ c, head r = Some c → is_digit c = false) →
  span_digits (d ++ r) = (d, r).
Proof.
  intros Hd Hr. induction Hd as [|c d Hc _ IH]; cbn [app span_digits].
  - destruct r as [|c r]; [done|]. cbn. by rewrite Hr.
  - by rewrite Hc, IH.
Qed.

Lemma span_digits_Forall l : Forall (λ c, is_digit c = true) (span_digits l).1.
Proof.
  induction l as [|c l IH]; [constructor|]. cbn [span_digits]. destruct (is_digit c) eqn:E; [|constructor].
  destruct (span_digits l). by constructor.
Qed.

Lemma dec_loop_app fuel z acc : dec_loop fuel z acc = dec_loop fuel z [] ++ acc.
Proof.
  revert z acc. induction fuel as [|fuel IH]; intros z acc; [done|]. cbn [dec_loop]. destruct (z <? 10); [done|].
  rewrite IH, (IH _ [_]). by rewrite <-app_assoc.
Qed.

(** Enough fuel: the number has at most that many digits. *)
Lemma dec_loop_spec fuel z : 0 ≤ z → z < 2 ^ Z.of_nat fuel →
  Forall (λ c, is_digit c = true) (dec_loop fuel z []) ∧ digits_val 0 (dec_loop fuel z []) = z ∧
  (fuel ≠ 0%nat → (0 < length (dec_loop fuel z []))%nat) ∧
  (0 < z → 10 ^ (Z.of_nat (length (dec_loop fuel z [])) - 1) ≤ z).
Proof.
  revert z. induction fuel as [|fuel IH]; intros z H0 Hz; [cbn in *; split_and!; try done; lia|].
  rewrite Nat2Z.inj_succ, Z.pow_succ_r in Hz by lia. cbn [dec_loop]. destruct (Z.ltb_spec z 10).
  { split_and!; [constructor; [|constructor]; apply is_digit_spec; lia|cbn; lia|cbn; lia|cbn; lia]. }
  destruct (IH (z / 10)) as (H1 & H2 & _ & H4); [dlia|dlia|]. rewrite dec_loop_app.
  split; [|split; [|split]].
  - apply Forall_app. split; [done|]. constructor; [|constructor]. apply is_digit_spec. dlia.
  - rewrite digits_val_app, H2. cbn. dlia.
  - rewrite length_app. cbn. lia.
  - intros _. rewrite length_app, Nat2Z.inj_add. cbn [length].
    assert (10 ^ (Z.of_nat (length (dec_loop fuel (z / 10) [])) - 1) ≤ z / 10) as H5 by (apply H4; dlia).
    replace (Z.of_nat (length (dec_loop fuel (z / 10) [])) + Z.of_nat 1 - 1)
      with (Z.succ (Z.of_nat (length (dec_loop fuel (z / 10) [])) - 1)) by lia.
    destruct (dec_loop fuel (z / 10) []) as [|c l] eqn:E; [cbn in H2; dlia|]. cbn [length] in *.
    rewrite Z.pow_succ_r by lia. dlia.
Qed.

Lemma dec_spec z : 0 ≤ z → Forall (λ c, is_digit c = true) (dec z) ∧ digits_val 0 (dec z) = z ∧
  (0 < length (dec z))%nat ∧ (0 < z → 10 ^ (Z.of_nat (length (dec z)) - 1) ≤ z).
Proof.
  intros Hz. destruct (dec_loop_spec (S (Z.to_nat (Z.log2 z))) z Hz) as (H1 & H2 & H3 & H4).
  - pose proof (Z.log2_nonneg z). rewrite Nat2Z.inj_succ, Z2Nat.id by done.
    destruct (decide (z = 0)) as [->|]; [done|]. apply Z.log2_spec. lia.
  - by split_and!; [| |apply H3|].
Qed.

(** What is printed is read back. *)
Lemma strtoul_dec z r : 0 ≤ z ≤ ULONG_MAX → (∀ c, head r = Some c → is_digit c = false) →
  strtoul (dec z ++ r) = (z, r, false).
Proof.
  intros Hz Hr. destruct (dec_spec z) as (Hd & Hv & Hl & _); [lia|]. unfold strtoul.
  assert (skip_spaces (dec z ++ r) = dec z ++ r ∧ sign (dec z ++ r) = (false, dec z ++ r)) as [-> ->].
  { destruct (dec z) as [|c l] eqn:E; [cbn in Hl; lia|]. apply Forall_cons in Hd as [Hc%is_digit_spec _].
    cbn. unfold isspace. split; repeat match goal with |- context [?a =? ?b] => rewrite (proj2 (Z.eqb_neq a b)) by lia end; [|done].
    rewrite (proj2 (Z.leb_gt c 13)) by lia. by rewrite andb_false_r. }
  rewrite span_digits_app by done. rewrite Hv. destruct (dec z) as [|c l] eqn:E; [cbn in Hl; lia|].
  by rewrite (proj2 (Z.ltb_ge _ _)) by lia.
Qed.

Lemma dec_inj a b : 0 ≤ a → 0 ≤ b → dec a = dec b → a = b.
Proof. intros Ha Hb E. destruct (dec_spec a Ha) as (_ & <- & _), (dec_spec b Hb) as (_ & <- & _). by rewrite E. Qed.

(** A number below [10 ^ width] is printed with exactly [width] digits. *)
Lemma dec_padded_length width z : 0 ≤ z < 10 ^ width → 0 < width → Z.of_nat (length (dec_padded width z)) = width.
Proof.
  intros Hz Hw. unfold dec_padded. rewrite length_app, length_replicate. destruct (dec_spec z) as (_ & _ & Hl & Hp); [lia|].
  enough (Z.of_nat (length (dec z)) ≤ width) by lia. destruct (decide (z = 0)) as [->|]; [cbn; lia|].
  specialize (Hp ltac:(lia)). assert (Z.of_nat (length (dec z)) - 1 < width); [|lia].
  apply (Z.pow_lt_mono_r_iff 10); lia.
Qed.

Lemma dec_padded_val width z : 0 ≤ z → digits_val 0 (dec_padded width z) = z.
Proof.
  intros Hz. unfold dec_padded. rewrite digits_val_app. destruct (dec_spec z Hz) as (_ & Hv & _).
  assert (digits_val 0 (replicate (Z.to_nat width - length (dec z)) 48) = 0) as ->; [|done].
  induction (Z.to_nat width - length (dec z))%nat as [|n IH]; [done|]. cbn [replicate digits_val foldl]. exact IH.
Qed.

Lemma dec_padded_inj width a b : 0 ≤ a → 0 ≤ b → dec_padded width a = dec_padded width b → a = b.
Proof. intros Ha Hb E. by rewrite <-(dec_padded_val width a Ha), <-(dec_padded_val width b Hb), E. Qed.

End Decimal.
