(* ===== verification/KvStore.v ===== *)
(** * The per-process key-value store of the kernel

    kernel/kv_store.c, include/linux/kv_store.h, the [kv_data] field of
    [struct task_struct] (include/linux/sched.h) and the places of
    kernel/fork.c and kernel/exit.c that create and destroy it.

    The state is the table of tasks and the slab of [kv_pair] objects.  A hash
    bucket is the list of its nodes (addresses of slab objects), in list order.
    [None] is a memory fault or a spinlock that is never released. *)

From Stdlib Require Import ZArith Lia.
From stdpp Require Import base numbers list gmap strings.
From S2P Require Import Prelude.

Module KvStore.

(** ** Data *)

Record kv_pair := KvPair { key : Z; value : Z }.

Record kv_data_t := KvData { kv_store : list (list positive); kv_locks : list bool }.

Record task_struct := Task {
  pid : Z; tgid : Z; group_leader : positive; kv_data : kv_data_t }.

(** [slab] maps the allocated [kv_pair] objects to their contents; a fresh
    object from [kmalloc] has no contents yet. *)
Record kernel := Kernel {
  tasks : gmap positive task_struct; slab : gmap positive (option kv_pair) }.

Abbreviation kst := (st kernel).

(** ** Primitives of the C code *)

Definition deref_task (t : positive) : kst task_struct := λ K,
  match tasks K !! t with Some tk => Some (tk, K) | None => None end.

Definition with_data (tk : task_struct) (d : kv_data_t) : task_struct :=
  Task (pid tk) (tgid tk) (group_leader tk) d.

Definition store_kv_data (t : positive) (d : kv_data_t) : kst unit :=
  tk ← deref_task t;
  modify (λ K, Kernel (<[t := with_data tk d]> (tasks K)) (slab K)).

(** [kmalloc(sizeof(struct kv_pair), ...)]: [mem] says whether it succeeds. *)
Definition kmalloc_pair (mem : bool) : kst (option positive) := λ K,
  if mem then
    let l := fresh (dom (slab K)) in
    Some (Some l, Kernel (tasks K) (<[l := None]> (slab K)))
  else Some (None, K).

(** [kfree]: freeing what is not allocated is a fault. *)
Definition kfree_pair (l : positive) : kst unit := λ K,
  match slab K !! l with
  | Some _ => Some (tt, Kernel (tasks K) (delete l (slab K)))
  | None => None
  end.

Definition deref_pair (l : positive) : kst kv_pair := λ K,
  match slab K !! l with Some (Some kv) => Some (kv, K) | _ => None end.

Definition store_pair (l : positive) (kv : kv_pair) : kst unit := λ K,
  match slab K !! l with
  | Some _ => Some (tt, Kernel (tasks K) (<[l := Some kv]> (slab K)))
  | None => None
  end.

(** [&t->kv_data.kv_store[i]] and [&t->kv_data.kv_locks[i]] are the pair [(t, i)]. *)
Definition load_bucket (b : positive * Z) : kst (list positive) :=
  tk ← deref_task b.1; lift (zlookup (kv_store (kv_data tk)) b.2).

Definition store_bucket (b : positive * Z) (l : list positive) : kst unit :=
  tk ← deref_task b.1;
  s ← lift (zinsert (kv_store (kv_data tk)) b.2 l);
  store_kv_data b.1 (KvData s (kv_locks (kv_data tk))).

Definition set_lock (b : positive * Z) (v : bool) : kst unit :=
  tk ← deref_task b.1;
  s ← lift (zinsert (kv_locks (kv_data tk)) b.2 v);
  store_kv_data b.1 (KvData (kv_store (kv_data tk)) s).

Definition spin_lock (b : positive * Z) : kst unit :=
  tk ← deref_task b.1;
  held ← lift (zlookup (kv_locks (kv_data tk)) b.2);
  if (held : bool) then fault else set_lock b true.

Definition spin_unlock (b : positive * Z) : kst unit := set_lock b false.

(** ** kv_store.h and kv_store.c *)

(** [key % 1024]: C's remainder keeps the sign of the key. *)
Definition kv_hash (key : Z) : Z := Z.rem key 1024.

Definition get_process_task (current : positive) : kst positive :=
  tk ← deref_task current; mret (group_leader tk).

Definition get_hash_bucket (current : positive) (key : Z) : kst (positive * Z) :=
  process_task ← get_process_task current;
  mret (process_task, kv_hash key).

Definition get_bucket_lock (current : positive) (key : Z) : kst (positive * Z) :=
  process_task ← get_process_task current;
  mret (process_task, kv_hash key).

(** [hlist_for_each_entry(kv, bucket, node) if (kv->key == k) { ...; break; }] *)
Fixpoint hlist_find (bucket : list positive) (k : Z) : kst (option positive) :=
  match bucket with
  | [] => mret None
  | l :: rest =>
      kv ← deref_pair l;
      if key kv =? k then mret (Some l) else hlist_find rest k
  end.

Definition write_kv (mem : bool) (current : positive) (k v : Z) : kst Z :=
  bucket ← get_hash_bucket current k;
  lock ← get_bucket_lock current k;
  new_kv ← kmalloc_pair mem;
  match new_kv with
  | None => mret (- ENOMEM)
  | Some new =>
      spin_lock lock ;;
      nodes ← load_bucket bucket;
      found ← hlist_find nodes k;
      match found with
      | Some f =>
          kv ← deref_pair f;
          store_pair f (KvPair (key kv) v) ;;
          spin_unlock lock ;;
          kfree_pair new ;;
          mret 0
      | None =>
          store_pair new (KvPair k v) ;;
          store_bucket bucket (new :: nodes) ;;
          spin_unlock lock ;;
          mret 0
      end
  end.

Definition read_kv (current : positive) (k : Z) : kst Z :=
  bucket ← get_hash_bucket current k;
  lock ← get_bucket_lock current k;
  spin_lock lock ;;
  nodes ← load_bucket bucket;
  found ← hlist_find nodes k;
  value ← match found with
          | Some f => kv ← deref_pair f; mret (value kv)
          | None => mret (- ENOENT)
          end;
  spin_unlock lock ;;
  mret value.

(** The system-call wrappers convert their arguments to [int]. *)
Definition sys_write_kv (mem : bool) (current : positive) (k v : Z) : kst Z :=
  write_kv mem current (s32 k) (s32 v).
Definition sys_read_kv (current : positive) (k : Z) : kst Z := read_kv current (s32 k).

Definition kv_store_init (task : positive) : kst Z :=
  tk ← deref_task task;
  if negb (pid tk =? tgid tk) then mret 0
  else
    for_each (seqZ 0 1024) (λ i, store_bucket (task, i) [] ;; set_lock (task, i) false) ;;
    mret 0.

(** [hlist_for_each_entry_safe]: each node is unlinked and freed. *)
Fixpoint free_bucket (b : positive * Z) (nodes : list positive) : kst unit :=
  match nodes with
  | [] => mret tt
  | l :: rest => store_bucket b rest ;; kfree_pair l ;; free_bucket b rest
  end.

Definition kv_store_exit (task : positive) : kst unit :=
  tk ← deref_task task;
  if negb (pid tk =? tgid tk) then mret tt
  else
    for_each (seqZ 0 1024) (λ i,
      spin_lock (task, i) ;;
      nodes ← load_bucket (task, i);
      free_bucket (task, i) nodes ;;
      spin_unlock (task, i)).

(** The step of [copy_process] that makes the task a leader or a thread of
    the caller's group, and then initialises its store.  [p] is the new task,
    a copy of the caller made by [dup_task_struct]. *)
Definition copy_process_ids (thread : bool) (current p : positive) (newpid : Z) : kst Z :=
  cur ← deref_task current;
  pt ← deref_task p;
  modify (λ K, Kernel (<[p := if thread
     then Task newpid (tgid cur) (group_leader cur) (kv_data pt)
     else Task newpid newpid p (kv_data pt)]> (tasks K)) (slab K)) ;;
  kv_store_init p.

(** [do_exit] starts with [kv_store_exit(current)]. *)
Definition do_exit_kv (current : positive) : kst unit := kv_store_exit current.

(** ** Abstract view *)

(** The value that a bucket of nodes holds for a key. *)
Fixpoint bucket_get (sl : gmap positive (option kv_pair)) (b : list positive) (k : Z) : option Z :=
  match b with
  | [] => None
  | l :: rest =>
      match sl !! l with
      | Some (Some kv) => if key kv =? k then Some (value kv) else bucket_get sl rest k
      | _ => None
      end
  end.

(** What process [t] has stored under [k]. *)
Definition kv_lookup (K : kernel) (t : positive) (k : Z) : option Z :=
  match tasks K !! t with
  | Some tk =>
      match zlookup (kv_store (kv_data tk)) (kv_hash k) with
      | Some b => bucket_get (slab K) b k
      | None => None
      end
  | None => None
  end.

Definition owned (K : kernel) (t : positive) : list positive :=
  match tasks K !! t with Some tk => concat (kv_store (kv_data tk)) | None => [] end.

Definition is_leader (K : kernel) (t : positive) : Prop :=
  ∃ tk, tasks K !! t = Some tk ∧ group_leader tk = t ∧ pid tk = tgid tk.

(** The store of one process. *)
Record store_wf (K : kernel) (tk : task_struct) : Prop := {
  wf_len : length (kv_store (kv_data tk)) = 1024%nat;
  wf_locks : kv_locks (kv_data tk) = replicate 1024 false;
  wf_alloc : ∀ l, l ∈ concat (kv_store (kv_data tk)) → ∃ kv, slab K !! l = Some (Some kv);
  wf_nodup : NoDup (concat (kv_store (kv_data tk))) }.

(** The invariant of the whole kernel: every process's store is well formed,
    processes share no node, and every allocated pair belongs to a process. *)
Record kernel_wf (K : kernel) : Prop := {
  wf_store : ∀ t tk, is_leader K t → tasks K !! t = Some tk → store_wf K tk;
  wf_disj : ∀ t1 t2, is_leader K t1 → is_leader K t2 → t1 ≠ t2 → owned K t1 ## owned K t2;
  wf_noleak : ∀ l, l ∈ dom (slab K) → ∃ t, is_leader K t ∧ l ∈ owned K t }.

Definition valid_key (k : Z) : Prop := 0 ≤ kv_hash k.

(** ** Primitives in a known state *)

Lemma with_data_id tk : with_data tk (kv_data tk) = tk.
Proof. by destruct tk. Qed.

Lemma with_data_twice tk d d' : with_data (with_data tk d) d' = with_data tk d'.
Proof. done. Qed.

Lemma deref_task_eq K t tk : tasks K !! t = Some tk → deref_task t K = Some (tk, K).
Proof. intros H. unfold deref_task. by rewrite H. Qed.

Lemma store_kv_data_eq K t tk d :
  tasks K !! t = Some tk →
  store_kv_data t d K = Some (tt, Kernel (<[t := with_data tk d]> (tasks K)) (slab K)).
Proof. intros H. unfold store_kv_data. by rewrite (st_bind_step _ _ _ _ _ (deref_task_eq _ _ _ H)). Qed.

Lemma load_bucket_eq K t tk i b :
  tasks K !! t = Some tk → zlookup (kv_store (kv_data tk)) i = Some b →
  load_bucket (t, i) K = Some (b, K).
Proof.
  intros H Hb. unfold load_bucket. rewrite (st_bind_step _ _ _ _ _ (deref_task_eq _ _ _ H)).
  unfold lift. simpl. by rewrite Hb.
Qed.

Lemma store_bucket_eq K t tk i b s :
  tasks K !! t = Some tk → zinsert (kv_store (kv_data tk)) i b = Some s →
  store_bucket (t, i) b K =
    Some (tt, Kernel (<[t := with_data tk (KvData s (kv_locks (kv_data tk)))]> (tasks K)) (slab K)).
Proof.
  intros H Hs. unfold store_bucket. rewrite (st_bind_step _ _ _ _ _ (deref_task_eq _ _ _ H)).
  unfold mbind at 1, st_bind at 1, lift. simpl. rewrite Hs. by apply store_kv_data_eq.
Qed.

Lemma set_lock_eq K t tk i v s :
  tasks K !! t = Some tk → zinsert (kv_locks (kv_data tk)) i v = Some s →
  set_lock (t, i) v K =
    Some (tt, Kernel (<[t := with_data tk (KvData (kv_store (kv_data tk)) s)]> (tasks K)) (slab K)).
Proof.
  intros H Hs. unfold set_lock. rewrite (st_bind_step _ _ _ _ _ (deref_task_eq _ _ _ H)).
  unfold mbind at 1, st_bind at 1, lift. simpl. rewrite Hs. by apply store_kv_data_eq.
Qed.

Lemma spin_lock_eq K t tk i s :
  tasks K !! t = Some tk → zlookup (kv_locks (kv_data tk)) i = Some false →
  zinsert (kv_locks (kv_data tk)) i true = Some s →
  spin_lock (t, i) K =
    Some (tt, Kernel (<[t := with_data tk (KvData (kv_store (kv_data tk)) s)]> (tasks K)) (slab K)).
Proof.
  intros H Hl Hs. unfold spin_lock. rewrite (st_bind_step _ _ _ _ _ (deref_task_eq _ _ _ H)).
  unfold mbind at 1, st_bind at 1, lift. simpl. rewrite Hl. by apply set_lock_eq.
Qed.

(** ** The scan of a bucket *)

Fixpoint find_node (sl : gmap positive (option kv_pair)) (b : list positive) (k : Z)
    : option positive :=
  match b with
  | [] => None
  | l :: rest =>
      match sl !! l with
      | Some (Some kv) => if key kv =? k then Some l else find_node sl rest k
      | _ => None
      end
  end.

Definition all_alloc (sl : gmap positive (option kv_pair)) (b : list positive) : Prop :=
  ∀ l, l ∈ b → ∃ kv, sl !! l = Some (Some kv).

Lemma all_alloc_cons sl l b :
  all_alloc sl (l :: b) ↔ (∃ kv, sl !! l = Some (Some kv)) ∧ all_alloc sl b.
Proof. unfold all_alloc. split; [|intros [? ?] ? [->|?]%elem_of_cons]; eauto using list_elem_of_here, list_elem_of_further. Qed.

Lemma hlist_find_eq K b k :
  all_alloc (slab K) b → hlist_find b k K = Some (find_node (slab K) b k, K).
Proof.
  induction b as [|l b IH]; [done|]. rewrite all_alloc_cons. intros [[kv Hkv] Ha]. simpl.
  unfold mbind, st_bind, deref_pair. rewrite Hkv. split_ifs; [done|]. by apply IH.
Qed.

Lemma find_node_Some sl b k f :
  find_node sl b k = Some f →
  f ∈ b ∧ ∃ kv, sl !! f = Some (Some kv) ∧ key kv = k ∧ bucket_get sl b k = Some (value kv).
Proof.
  induction b as [|l b IH]; simpl; [done|].
  destruct (sl !! l) as [[kv|]|] eqn:E; try done. split_ifs; intros H.
  - simplify_eq. to_prop. split; [left|]. eauto.
  - destruct (IH H) as [? (? & ? & ? & ?)]. split; [by right|]. eauto.
Qed.

Lemma find_node_None sl b k : find_node sl b k = None → bucket_get sl b k = None.
Proof.
  induction b as [|l b IH]; simpl; [done|].
  destruct (sl !! l) as [[kv|]|] eqn:E; try done. split_ifs; [done|]. auto.
Qed.

(** A bucket only depends on the slab at its own nodes. *)
Lemma bucket_get_frame sl sl' b k :
  (∀ l, l ∈ b → sl' !! l = sl !! l) → bucket_get sl' b k = bucket_get sl b k.
Proof.
  induction b as [|l b IH]; simpl; [done|]. intros H.
  rewrite H by left. destruct (sl !! l) as [[?|]|]; try done. split_ifs; [done|].
  apply IH. intros. apply H. by right.
Qed.

Lemma bucket_get_empty b k : bucket_get ∅ b k = None.
Proof. destruct b as [|l b]; [done|]. cbn [bucket_get]. by rewrite lookup_empty. Qed.

(** Overwriting the value of the found node updates that key only. *)
Lemma bucket_get_update sl b k v f k' :
  find_node sl b k = Some f →
  bucket_get (<[f := Some (KvPair k v)]> sl) b k' =
    if decide (k' = k) then Some v else bucket_get sl b k'.
Proof.
  intros Hf. destruct (find_node_Some _ _ _ _ Hf) as [_ (kv & Hkv & Hk & _)].
  assert (∀ b', k' ≠ k →
    bucket_get (<[f := Some (KvPair k v)]> sl) b' k' = bucket_get sl b' k') as Hframe.
  { intros b' Hne. induction b' as [|l b' IH]; simpl; [done|].
    destruct (decide (l = f)) as [->|Hl].
    - rewrite lookup_insert_eq, Hkv. simpl. rewrite Hk.
      destruct (k =? k') eqn:E; to_prop; [congruence|done].
    - rewrite lookup_insert_ne by done. destruct (sl !! l) as [[?|]|]; try done.
      split_ifs; done. }
  case_decide as Hd; [subst k'|by apply Hframe].
  revert Hf. clear Hframe. induction b as [|l b IH]; simpl; [done|].
  destruct (sl !! l) as [[kv'|]|] eqn:E; try done. destruct (key kv' =? k) eqn:Ek; intros H.
  - simplify_eq. rewrite lookup_insert_eq. simpl. by rewrite Z.eqb_refl.
  - assert (l ≠ f) by (intros ->; rewrite E in Hkv; simplify_eq; to_prop; congruence).
    rewrite lookup_insert_ne, E by done. rewrite Ek. auto.
Qed.

Lemma find_node_frame sl sl' b k :
  (∀ l, l ∈ b → sl' !! l = sl !! l) → find_node sl' b k = find_node sl b k.
Proof.
  induction b as [|l b IH]; simpl; [done|]. intros H.
  rewrite H by left. destruct (sl !! l) as [[?|]|]; try done. split_ifs; [done|].
  apply IH. intros. apply H. by right.
Qed.

(** ** Locks *)

#[local] Arguments replicate : simpl never.

Abbreviation free_locks := (replicate 1024 false).

Lemma free_locks_lookup i : 0 ≤ i < 1024 → zlookup free_locks i = Some false.
Proof.
  intros. unfold zlookup. destruct (i <? 0) eqn:E; to_prop; [lia|].
  apply lookup_replicate_2. lia.
Qed.

Lemma free_locks_insert i v :
  0 ≤ i < 1024 → zinsert free_locks i v = Some (<[Z.to_nat i := v]> free_locks).
Proof. intros. apply zinsert_Some. rewrite length_replicate. lia. Qed.

Lemma free_locks_restore i :
  0 ≤ i < 1024 → zinsert (<[Z.to_nat i := true]> free_locks) i false = Some free_locks.
Proof.
  intros. rewrite zinsert_Some by (rewrite length_insert, length_replicate; lia).
  rewrite list_insert_insert_eq. f_equal. apply list_insert_id, lookup_replicate_2. lia.
Qed.

(** The state in which bucket lock [i] of task [t] is held. *)
Definition locked (K : kernel) (t : positive) (tk : task_struct) (i : Z) : kernel :=
  Kernel (<[t := with_data tk (KvData (kv_store (kv_data tk)) (<[Z.to_nat i := true]> free_locks))]>
            (tasks K)) (slab K).

Lemma spin_lock_free K t tk i :
  tasks K !! t = Some tk → kv_locks (kv_data tk) = free_locks → 0 ≤ i < 1024 →
  spin_lock (t, i) K = Some (tt, locked K t tk i).
Proof.
  intros H Hl Hi. apply spin_lock_eq; rewrite ?Hl; auto using free_locks_lookup, free_locks_insert.
Qed.

Lemma spin_unlock_locked K t tk i store :
  0 ≤ i < 1024 → tasks K !! t = Some (with_data tk (KvData store (<[Z.to_nat i := true]> free_locks))) →
  spin_unlock (t, i) K =
    Some (tt, Kernel (<[t := with_data tk (KvData store free_locks)]> (tasks K)) (slab K)).
Proof.
  intros Hi H. unfold spin_unlock. erewrite set_lock_eq; [|done|by apply free_locks_restore]. done.
Qed.

Lemma restore_task K t tk :
  tasks K !! t = Some tk → kv_locks (kv_data tk) = free_locks →
  <[t := with_data tk (KvData (kv_store (kv_data tk)) free_locks)]> (tasks K) = tasks K.
Proof.
  intros H Hl. rewrite <-Hl. destruct tk as [p g le [ks kl]]. by apply insert_id.
Qed.

(** ** What each operation computes on a well-formed store *)

Ltac st_step H := rewrite (st_bind_step _ _ _ _ _ H); cbn beta.

Lemma fresh_slab_ne {X} (sl : gmap positive X) l x : sl !! l = Some x → fresh (dom sl) ≠ l.
Proof. intros H <-. apply (is_fresh (dom sl)), elem_of_dom. eauto. Qed.

Section Operations.
Context (K : kernel) (cur t : positive) (ct tk : task_struct) (k : Z) (nodes : list positive).
Hypothesis Hcur : tasks K !! cur = Some ct.
Hypothesis Hlead : group_leader ct = t.
Hypothesis Ht : tasks K !! t = Some tk.
Hypothesis Hwf : store_wf K tk.
Hypothesis Hb : zlookup (kv_store (kv_data tk)) (kv_hash k) = Some nodes.

Lemma hash_range : 0 ≤ kv_hash k < 1024.
Proof. clear Hcur Hlead Ht. apply zlookup_range in Hb. rewrite (wf_len _ _ Hwf) in Hb. lia. Qed.

Lemma nodes_owned l : l ∈ nodes → l ∈ concat (kv_store (kv_data tk)).
Proof.
  intros. apply list_elem_of_In, in_concat. exists nodes. split; [|by apply list_elem_of_In].
  unfold zlookup in Hb. destruct (_ <? _); [done|].
  apply list_elem_of_In, list_elem_of_lookup. eauto.
Qed.

Lemma nodes_alloc : all_alloc (slab K) nodes.
Proof. intros l Hl. by apply (wf_alloc _ _ Hwf), nodes_owned. Qed.

Lemma get_hash_bucket_eq K' : tasks K' !! cur = Some ct →
  get_hash_bucket cur k K' = Some ((t, kv_hash k), K').
Proof.
  intros H. unfold get_hash_bucket, get_process_task, mbind, st_bind.
  by rewrite (deref_task_eq _ _ _ H), <-Hlead.
Qed.

Lemma read_kv_eq :
  read_kv cur k K = Some (default (- ENOENT) (bucket_get (slab K) nodes k), K).
Proof.
  pose proof hash_range as Hr. unfold read_kv.
  st_step (get_hash_bucket_eq K Hcur). st_step (get_hash_bucket_eq K Hcur).
  st_step (spin_lock_free K t tk (kv_hash k) Ht (wf_locks _ _ Hwf) Hr).
  assert (load_bucket (t, kv_hash k) (locked K t tk (kv_hash k)) = Some (nodes, locked K t tk (kv_hash k)))
    as E by (eapply load_bucket_eq; [apply lookup_insert_eq|done]).
  st_step E. st_step (hlist_find_eq (locked K t tk (kv_hash k)) nodes k nodes_alloc).
  simpl slab.
  assert (spin_unlock (t, kv_hash k) (locked K t tk (kv_hash k)) = Some (tt, K)) as Hu.
  { erewrite spin_unlock_locked; [|done|apply lookup_insert_eq]. simpl.
    rewrite insert_insert_eq, (restore_task _ _ _ Ht (wf_locks _ _ Hwf)). by destruct K. }
  destruct (find_node (slab K) nodes k) as [f|] eqn:Ef.
  - destruct (find_node_Some _ _ _ _ Ef) as [_ (kv & Hkv & Hk & ->)].
    assert (deref_pair f (locked K t tk (kv_hash k)) = Some (kv, locked K t tk (kv_hash k))) as E2
      by (unfold deref_pair; simpl; by rewrite Hkv).
    assert ((kv ← deref_pair f; mret (value kv)) (locked K t tk (kv_hash k))
      = Some (value kv, locked K t tk (kv_hash k))) as E3 by (by st_step E2).
    st_step E3. by st_step Hu.
  - rewrite (find_node_None _ _ _ Ef). unfold mbind at 1, st_bind at 1. simpl. by st_step Hu.
Qed.

Lemma fresh_not_in l : l ∈ nodes → l ≠ fresh (dom (slab K)).
Proof.
  intros Hl. destruct (nodes_alloc _ Hl) as [kv Hkv].
  by apply not_eq_sym, (fresh_slab_ne (slab K) _ _ Hkv).
Qed.

Lemma write_kv_nomem v : write_kv false cur k v K = Some (- ENOMEM, K).
Proof.
  unfold write_kv. st_step (get_hash_bucket_eq K Hcur). by st_step (get_hash_bucket_eq K Hcur).
Qed.

(** The state of [write_kv] after its allocation and its scan. *)
Lemma write_kv_scan v :
  let new := fresh (dom (slab K)) in
  let K1 := Kernel (tasks K) (<[new := None]> (slab K)) in
  let K2 := locked K1 t tk (kv_hash k) in
  write_kv true cur k v K =
    match find_node (slab K) nodes k with
    | Some f => (kv ← deref_pair f; store_pair f (KvPair (key kv) v) ;;
                 spin_unlock (t, kv_hash k) ;; kfree_pair new ;; mret 0) K2
    | None => (store_pair new (KvPair k v) ;; store_bucket (t, kv_hash k) (new :: nodes) ;;
               spin_unlock (t, kv_hash k) ;; mret 0) K2
    end.
Proof.
  intros new K1 K2. pose proof hash_range as Hr. unfold write_kv.
  st_step (get_hash_bucket_eq K Hcur). st_step (get_hash_bucket_eq K Hcur).
  assert (kmalloc_pair true K = Some (Some new, K1)) as E by done. st_step E.
  st_step (spin_lock_free K1 t tk (kv_hash k) Ht (wf_locks _ _ Hwf) Hr).
  assert (load_bucket (t, kv_hash k) K2 = Some (nodes, K2)) as E2
    by (eapply load_bucket_eq; [apply lookup_insert_eq|done]).
  st_step E2.
  assert (∀ l, l ∈ nodes → slab K2 !! l = slab K !! l) as Hsame.
  { intros l Hl. simpl. rewrite lookup_insert_ne; [done|]. by apply not_eq_sym, fresh_not_in. }
  assert (all_alloc (slab K2) nodes) as Ha.
  { intros l Hl. rewrite Hsame by done. by apply nodes_alloc. }
  st_step (hlist_find_eq K2 nodes k Ha). rewrite (find_node_frame _ _ _ _ Hsame).
  by destruct (find_node _ _ _).
Qed.

Lemma write_kv_found v f :
  find_node (slab K) nodes k = Some f →
  write_kv true cur k v K = Some (0, Kernel (tasks K) (<[f := Some (KvPair k v)]> (slab K))).
Proof.
  intros Hf. pose proof hash_range as Hr. rewrite write_kv_scan, Hf.
  destruct (find_node_Some _ _ _ _ Hf) as [Hin (kv & Hkv & Hk & _)].
  pose proof (fresh_not_in f Hin) as Hne. set (new := fresh (dom (slab K))) in *.
  unfold mbind at 1, st_bind at 1, deref_pair. simpl.
  rewrite lookup_insert_ne, Hkv by done. simpl. rewrite Hk.
  unfold mbind at 1, st_bind at 1, store_pair. simpl.
  rewrite lookup_insert_ne, Hkv by done. simpl.
  unfold mbind at 1, st_bind at 1.
  erewrite spin_unlock_locked; [|done|apply lookup_insert_eq]. simpl.
  unfold mbind, st_bind, kfree_pair. simpl.
  rewrite lookup_insert_ne, lookup_insert_eq by done. simpl.
  rewrite insert_insert_eq, (restore_task _ _ _ Ht (wf_locks _ _ Hwf)).
  rewrite delete_insert_ne, delete_insert_id by (done || apply not_elem_of_dom, is_fresh). done.
Qed.

Lemma write_kv_new v :
  find_node (slab K) nodes k = None →
  let new := fresh (dom (slab K)) in
  write_kv true cur k v K = Some (0, Kernel
    (<[t := with_data tk (KvData (<[Z.to_nat (kv_hash k) := new :: nodes]> (kv_store (kv_data tk)))
              (kv_locks (kv_data tk)))]> (tasks K))
    (<[new := Some (KvPair k v)]> (slab K))).
Proof.
  intros Hf new. pose proof hash_range as Hr. rewrite write_kv_scan, Hf. fold new.
  unfold mbind at 1, st_bind at 1, store_pair. simpl. rewrite lookup_insert_eq. simpl.
  unfold mbind at 1, st_bind at 1.
  erewrite store_bucket_eq; [|apply lookup_insert_eq|apply zinsert_Some; simpl; rewrite (wf_len _ _ Hwf); lia].
  simpl. unfold mbind, st_bind.
  erewrite spin_unlock_locked; [|done|apply lookup_insert_eq]. simpl.
  by rewrite !insert_insert_eq, (wf_locks _ _ Hwf).
Qed.

End Operations.

(** ** Invariant and abstract behaviour *)

Lemma concat_insert_cons {A} (ll : list (list A)) i b x :
  ll !! i = Some b → concat (<[i := x :: b]> ll) ≡ₚ x :: concat ll.
Proof.
  revert i. induction ll as [|b' ll IH]; intros [|i]; simpl; try done.
  - intros [= ->]. done.
  - intros H. rewrite (IH _ H). by rewrite Permutation_middle.
Qed.

Lemma kernel_wf_owned K t l : kernel_wf K → is_leader K t → l ∈ owned K t → l ∈ dom (slab K).
Proof.
  intros Hwf Hl Hin. pose proof Hl as (tk & Htk & _). unfold owned in Hin. rewrite Htk in Hin.
  destruct (wf_alloc _ _ (wf_store _ Hwf _ _ Hl Htk) _ Hin). apply elem_of_dom. eauto.
Qed.

Lemma fresh_not_owned K t : kernel_wf K → is_leader K t → fresh (dom (slab K)) ∉ owned K t.
Proof.
  intros Hwf Hl Hin. apply (is_fresh (dom (slab K))). by apply (kernel_wf_owned K t).
Qed.

Section Invariant.
Context (K : kernel) (t : positive) (tk : task_struct) (k v : Z) (nodes : list positive).
Hypothesis Hwf : kernel_wf K.
Hypothesis Hl : is_leader K t.
Hypothesis Ht : tasks K !! t = Some tk.
Hypothesis Hb : zlookup (kv_store (kv_data tk)) (kv_hash k) = Some nodes.

Lemma Htk_wf : store_wf K tk.
Proof. by apply (wf_store _ Hwf t). Qed.

Section Found.
Context (f : positive).
Hypothesis Hf : find_node (slab K) nodes k = Some f.
Abbreviation K1 := (Kernel (tasks K) (<[f := Some (KvPair k v)]> (slab K))).

Lemma found_in_slab : f ∈ dom (slab K).
Proof.
  destruct (find_node_Some _ _ _ _ Hf) as [_ (kv & ? & _)]. apply elem_of_dom. eauto.
Qed.

Lemma found_wf : kernel_wf K1.
Proof.
  split.
  - intros t' tk' Hl' Ht'. destruct (wf_store _ Hwf t' tk' Hl' Ht') as [? ? Ha ?]. split; try done.
    intros l Hin. simpl. destruct (decide (l = f)) as [->|].
    + exists (KvPair k v). apply lookup_insert_eq.
    + rewrite lookup_insert_ne by done. auto.
  - apply (wf_disj _ Hwf).
  - intros l Hin. simpl in Hin. apply (wf_noleak _ Hwf). pose proof found_in_slab.
    rewrite dom_insert_L in Hin. apply elem_of_union in Hin as [->%elem_of_singleton|?]; done.
Qed.

Lemma found_lookup k' :
  kv_lookup K1 t k' = if decide (k' = k) then Some v else kv_lookup K t k'.
Proof.
  unfold kv_lookup. simpl. rewrite Ht. case_decide as Hd.
  - subst. rewrite Hb. rewrite (bucket_get_update _ _ _ _ _ _ Hf). by case_decide.
  - destruct (zlookup (kv_store (kv_data tk)) (kv_hash k')) as [b|] eqn:Eb; [|done].
    destruct (decide (kv_hash k' = kv_hash k)) as [Eh|Eh].
    + rewrite Eh, Hb in Eb. simplify_eq.
      rewrite (bucket_get_update _ _ _ _ _ _ Hf). by case_decide.
    + destruct (find_node_Some _ _ _ _ Hf) as [Hin (kv & Hkv & Hk & _)].
      clear Eb. induction b as [|l b IH]; simpl; [done|].
      destruct (decide (l = f)) as [->|].
      * rewrite lookup_insert_eq, Hkv. simpl. rewrite Hk.
        destruct (k =? k') eqn:E; to_prop; [congruence|done].
      * rewrite lookup_insert_ne by done. destruct (slab K !! l) as [[?|]|]; try done.
        split_ifs; done.
Qed.

End Found.

Section New.
Hypothesis Hf : find_node (slab K) nodes k = None.
Abbreviation new := (fresh (dom (slab K))).
Abbreviation store' := (<[Z.to_nat (kv_hash k) := new :: nodes]> (kv_store (kv_data tk))).
Abbreviation tk' := (with_data tk (KvData store' (kv_locks (kv_data tk)))).
Abbreviation K1 := (Kernel (<[t := tk']> (tasks K)) (<[new := Some (KvPair k v)]> (slab K))).

Lemma new_leader t' : is_leader K1 t' ↔ is_leader K t'.
Proof.
  unfold is_leader. simpl. destruct (decide (t' = t)) as [->|].
  - rewrite lookup_insert_eq. split.
    + intros (x & [= <-] & ? & ?). exists tk. done.
    + intros (x & Hx & ? & ?). rewrite Ht in Hx. injection Hx as <-. exists tk'. done.
  - by rewrite lookup_insert_ne.
Qed.

Lemma bucket_lookup : kv_store (kv_data tk) !! Z.to_nat (kv_hash k) = Some nodes.
Proof. unfold zlookup in Hb. by destruct (_ <? _). Qed.

Lemma new_owned : owned K1 t ≡ₚ new :: owned K t.
Proof.
  unfold owned. simpl. rewrite lookup_insert_eq, Ht. simpl. apply concat_insert_cons, bucket_lookup.
Qed.

Lemma new_owned_ne t' : t' ≠ t → owned K1 t' = owned K t'.
Proof. intros. unfold owned. simpl. by rewrite lookup_insert_ne. Qed.

Lemma new_store_wf : store_wf K1 tk'.
Proof.
  destruct Htk_wf as [? ? Ha Hn].
  assert (concat (kv_store (kv_data tk')) ≡ₚ new :: concat (kv_store (kv_data tk))) as P
    by apply concat_insert_cons, bucket_lookup.
  split.
  - simpl. by rewrite length_insert.
  - done.
  - intros l. rewrite P, elem_of_cons. intros [->|Hin]; simpl.
    + rewrite lookup_insert_eq. eauto.
    + destruct (Ha _ Hin) as [kv Hkv]. rewrite lookup_insert_ne; [eauto|].
      by apply (fresh_slab_ne (slab K) _ _ Hkv).
  - rewrite P. constructor; [|done]. intros Hin.
    apply (fresh_not_owned K t Hwf Hl). unfold owned. by rewrite Ht.
Qed.

Lemma new_wf : kernel_wf K1.
Proof.
  split.
  - intros t' tk0 Hl' Ht'. destruct (decide (t' = t)) as [->|Hne]; simpl in Ht'.
    + rewrite lookup_insert_eq in Ht'. simplify_eq. apply new_store_wf.
    + rewrite lookup_insert_ne in Ht' by done. apply new_leader in Hl'.
      destruct (wf_store _ Hwf t' tk0 Hl' Ht') as [? ? Ha ?]. split; try done.
      intros l Hin. destruct (Ha _ Hin) as [kv Hkv]. simpl. rewrite lookup_insert_ne; [eauto|].
      by apply (fresh_slab_ne (slab K) _ _ Hkv).
  - intros t1 t2 L1%new_leader L2%new_leader Hne l.
    pose proof (wf_disj _ Hwf t1 t2 L1 L2 Hne l) as Hd.
    pose proof (fresh_not_owned K t1 Hwf L1). pose proof (fresh_not_owned K t2 Hwf L2).
    destruct (decide (t1 = t)) as [->|], (decide (t2 = t)) as [->|]; try done.
    + rewrite new_owned, (new_owned_ne t2) by done. rewrite elem_of_cons. naive_solver.
    + rewrite new_owned, (new_owned_ne t1) by done. rewrite elem_of_cons. naive_solver.
    + by rewrite !new_owned_ne.
  - intros l Hin. simpl in Hin. rewrite dom_insert_L in Hin.
    destruct (decide (l = new)) as [->|Hln].
    + exists t. split; [by apply new_leader|]. rewrite new_owned. left.
    + destruct (wf_noleak _ Hwf l) as (t' & L & Ho).
      { by apply elem_of_union in Hin as [->%elem_of_singleton|?]. }
      exists t'.
      split; [by apply new_leader|]. destruct (decide (t' = t)) as [->|].
      * rewrite new_owned. by right.
      * by rewrite new_owned_ne.
Qed.

Lemma new_bucket b k' : all_alloc (slab K) b →
  bucket_get (<[new := Some (KvPair k v)]> (slab K)) b k' = bucket_get (slab K) b k'.
Proof.
  intros Ha. apply bucket_get_frame. intros l Hin. destruct (Ha _ Hin) as [kv Hkv].
  rewrite lookup_insert_ne; [done|]. by apply (fresh_slab_ne (slab K) _ _ Hkv).
Qed.

Lemma new_lookup k' :
  kv_lookup K1 t k' = if decide (k' = k) then Some v else kv_lookup K t k'.
Proof.
  pose proof (hash_range K tk k nodes Htk_wf Hb) as Hr.
  assert (zinsert (kv_store (kv_data tk)) (kv_hash k) (new :: nodes) = Some store') as Hi.
  { apply zinsert_Some. rewrite (wf_len _ _ Htk_wf). lia. }
  unfold kv_lookup. simpl. rewrite lookup_insert_eq, Ht. simpl.
  destruct (decide (kv_hash k' = kv_hash k)) as [Eh|Eh].
  - rewrite Eh, (zlookup_insert_eq _ _ _ _ Hi), Hb. simpl. rewrite lookup_insert_eq. simpl.
    rewrite (new_bucket nodes) by (eapply nodes_alloc; eauto using Htk_wf).
    case_decide as Hd.
    + subst. by rewrite Z.eqb_refl.
    + destruct (k =? k') eqn:E; to_prop; [congruence|done].
  - rewrite (zlookup_insert_ne _ _ _ (kv_hash k') _ Hi) by done.
    destruct (zlookup (kv_store (kv_data tk)) (kv_hash k')) as [b|] eqn:Eb.
    + rewrite (new_bucket b) by (eapply nodes_alloc; eauto using Htk_wf).
      case_decide; [congruence|done].
    + case_decide; [congruence|done].
Qed.

End New.
End Invariant.

(** ** Releasing a store *)

(** The slab without the objects of a list. *)
Definition del_all (sl : gmap positive (option kv_pair)) (ls : list positive) :=
  foldl (λ m l, delete l m) sl ls.

Lemma del_all_lookup sl ls l :
  del_all sl ls !! l = if decide (l ∈ ls) then None else sl !! l.
Proof.
  unfold del_all. revert sl. induction ls as [|x ls IH]; intros sl; cbn [foldl].
  - rewrite decide_False; [done|apply not_elem_of_nil].
  - rewrite IH. destruct (decide (l ∈ ls)), (decide (l ∈ x :: ls)) as [H|H]; try done.
    + exfalso. apply H. by right.
    + apply elem_of_cons in H as [->|]; [apply lookup_delete_eq|done].
    + apply lookup_delete_ne. intros ->. apply H. left.
Qed.

Lemma free_bucket_eq K t tk i nodes :
  tasks K !! t = Some tk → 0 ≤ i → kv_store (kv_data tk) !! Z.to_nat i = Some nodes →
  NoDup nodes → (∀ l, l ∈ nodes → is_Some (slab K !! l)) →
  free_bucket (t, i) nodes K = Some (tt, Kernel
    (<[t := with_data tk (KvData (<[Z.to_nat i := []]> (kv_store (kv_data tk)))
              (kv_locks (kv_data tk)))]> (tasks K))
    (del_all (slab K) nodes)).
Proof.
  revert K tk. induction nodes as [|l nodes IH]; intros K tk Ht Hi Hs Hn Ha; simpl free_bucket.
  { rewrite (list_insert_id _ _ _ Hs). destruct tk as [p g le [ks kl]].
    unfold with_data. simpl. rewrite insert_id by done. by destruct K. }
  apply NoDup_cons in Hn as [Hl Hn].
  assert (Z.to_nat i < length (kv_store (kv_data tk)))%nat by (by eapply lookup_lt_Some).
  unfold mbind at 1, st_bind at 1.
  erewrite store_bucket_eq; [|done|apply zinsert_Some; lia].
  destruct (Ha l ltac:(left)) as [x Hx].
  unfold mbind at 1, st_bind at 1, kfree_pair. simpl. rewrite Hx.
  rewrite (IH _ (with_data tk (KvData (<[Z.to_nat i := nodes]> (kv_store (kv_data tk)))
    (kv_locks (kv_data tk))))); simpl.
  - by rewrite insert_insert_eq, list_insert_insert_eq.
  - apply lookup_insert_eq.
  - done.
  - simpl. apply list_lookup_insert_eq. lia.
  - done.
  - intros l' Hl'. rewrite lookup_delete_ne by (intros ->; done). apply Ha. by right.
Qed.

Section Exit.
Context (K : kernel) (t : positive) (tk : task_struct).
Hypothesis Hwf : store_wf K tk.
Hypothesis Ht : tasks K !! t = Some tk.
Abbreviation store := (kv_store (kv_data tk)).

(** The state of [kv_store_exit] after its first [n] buckets. *)
Definition exit_state (n : nat) : kernel := Kernel
  (<[t := with_data tk (KvData (replicate n [] ++ drop n store) free_locks)]> (tasks K))
  (del_all (slab K) (concat (take n store))).

Lemma exit_store_step n nodes : store !! n = Some nodes →
  <[n := []]> (replicate n [] ++ drop n store) = replicate (S n) [] ++ drop (S n) store.
Proof.
  intros Hn. rewrite insert_app_r_alt by (rewrite length_replicate; lia).
  rewrite length_replicate, Nat.sub_diag. rewrite (drop_S _ _ _ Hn).
  by rewrite replicate_S_end, <-app_assoc.
Qed.

Lemma exit_slab_step n nodes : store !! n = Some nodes →
  del_all (del_all (slab K) (concat (take n store))) nodes = del_all (slab K) (concat (take (S n) store)).
Proof.
  intros Hn. rewrite (take_S_r _ _ _ Hn), concat_app. simpl. rewrite app_nil_r.
  unfold del_all. by rewrite foldl_app.
Qed.

Lemma exit_nodes_nodup n nodes : store !! n = Some nodes →
  NoDup nodes ∧ (∀ l, l ∈ nodes → (l ∉ concat (take n store)) ∧ is_Some (slab K !! l)).
Proof.
  intros Hn. destruct Hwf as [? ? Ha Hd].
  rewrite <-(take_drop_middle _ _ _ Hn), concat_app in Hd. simpl in Hd.
  apply NoDup_app in Hd as (_ & Hd1 & Hd2). apply NoDup_app in Hd2 as (? & _ & _).
  split; [done|]. intros l Hl. split.
  - intros Hin. apply (Hd1 _ Hin), elem_of_app. by left.
  - destruct (Ha l) as [kv Hkv]; [|rewrite Hkv; eauto].
    rewrite <-(take_drop_middle _ _ _ Hn), concat_app. simpl. rewrite !elem_of_app. auto.
Qed.

Lemma exit_step n :
  (n < 1024)%nat →
  (spin_lock (t, Z.of_nat n) ;; nodes ← load_bucket (t, Z.of_nat n);
   free_bucket (t, Z.of_nat n) nodes ;; spin_unlock (t, Z.of_nat n)) (exit_state n)
  = Some (tt, exit_state (S n)).
Proof.
  intros Hn. pose proof (wf_len _ _ Hwf) as Hlen.
  destruct (lookup_lt_is_Some_2 store n) as [nodes Hs]; [lia|].
  set (tkn := with_data tk (KvData (replicate n [] ++ drop n store) free_locks)).
  assert (tasks (exit_state n) !! t = Some tkn) as Htn by apply lookup_insert_eq.
  assert (kv_store (kv_data tkn) !! n = Some nodes) as Hsn.
  { simpl. rewrite lookup_app_r by (rewrite length_replicate; lia).
    rewrite length_replicate, Nat.sub_diag, lookup_drop, Nat.add_0_r. done. }
  destruct (exit_nodes_nodup n nodes Hs) as [Hnd Hal].
  st_step (spin_lock_free (exit_state n) t tkn (Z.of_nat n) Htn eq_refl ltac:(lia)).
  assert (load_bucket (t, Z.of_nat n) (locked (exit_state n) t tkn (Z.of_nat n)) =
    Some (nodes, locked (exit_state n) t tkn (Z.of_nat n))) as E.
  { eapply load_bucket_eq; [apply lookup_insert_eq|]. unfold zlookup.
    rewrite Nat2Z.id. destruct (_ <? _) eqn:E; to_prop; [lia|done]. }
  st_step E. unfold mbind at 1, st_bind at 1.
  erewrite free_bucket_eq; [|apply lookup_insert_eq|lia|rewrite Nat2Z.id; done|done|].
  - erewrite spin_unlock_locked; [|lia|apply lookup_insert_eq]. simpl tasks. simpl slab.
    f_equal. f_equal. unfold exit_state. simpl. rewrite !insert_insert_eq, Nat2Z.id.
    by rewrite (exit_store_step _ _ Hs), (exit_slab_step _ _ Hs).
  - intros l Hl. simpl. rewrite del_all_lookup. destruct (Hal l Hl). by case_decide.
Qed.

Lemma kv_store_exit_eq :
  pid tk = tgid tk → kv_store_exit t K = Some (tt, exit_state 1024).
Proof.
  intros Hp. unfold kv_store_exit. st_step (deref_task_eq _ _ _ Ht).
  rewrite Hp, Z.eqb_refl.
  destruct (for_each_inv (λ d s, s = exit_state (length d))
    (λ i, spin_lock (t, i) ;; nodes ← load_bucket (t, i);
          free_bucket (t, i) nodes ;; spin_unlock (t, i)) (seqZ 0 1024) [] K) as (s' & E & ->).
  - unfold exit_state. simpl. rewrite drop_0, <-(wf_locks _ _ Hwf).
    destruct tk as [p g le [ks kl]]. unfold with_data. simpl.
    rewrite insert_id by done. by destruct K.
  - intros d x r s Heq ->.
    assert (x = Z.of_nat (length d) ∧ (length d < 1024)%nat) as [-> Hlt].
    { assert (seqZ 0 1024 !! length d = Some x) as Hx
        by (change (seqZ 0 1024) with ([] ++ seqZ 0 1024); rewrite Heq; by apply list_lookup_middle).
      apply lookup_seqZ in Hx. lia. }
    eexists. split; [by apply exit_step|]. rewrite length_app. simpl. by rewrite Nat.add_1_r.
  - cbn [negb]. rewrite E. by rewrite length_app, length_seqZ.
Qed.

End Exit.

(** ** Initialising a store *)

Lemma replicate_insert_step {A} (l : list A) (n : nat) (x y : A) :
  l !! n = Some y → <[n := x]> (replicate n x ++ drop n l) = replicate (S n) x ++ drop (S n) l.
Proof.
  intros Hn. rewrite insert_app_r_alt by (rewrite length_replicate; lia).
  rewrite length_replicate, Nat.sub_diag. rewrite (drop_S _ _ _ Hn).
  by rewrite replicate_S_end, <-app_assoc.
Qed.

Section Init.
Context (K : kernel) (t : positive) (tk : task_struct).
Hypothesis Hlen : length (kv_store (kv_data tk)) = 1024%nat.
Hypothesis Hlocks : length (kv_locks (kv_data tk)) = 1024%nat.
Hypothesis Ht : tasks K !! t = Some tk.

Definition init_state (n : nat) : kernel := Kernel
  (<[t := with_data tk (KvData (replicate n [] ++ drop n (kv_store (kv_data tk)))
                               (replicate n false ++ drop n (kv_locks (kv_data tk))))]> (tasks K))
  (slab K).

Lemma init_step n : (n < 1024)%nat →
  (store_bucket (t, Z.of_nat n) [] ;; set_lock (t, Z.of_nat n) false) (init_state n)
  = Some (tt, init_state (S n)).
Proof.
  intros Hn.
  destruct (lookup_lt_is_Some_2 (kv_store (kv_data tk)) n) as [b Hb]; [lia|].
  destruct (lookup_lt_is_Some_2 (kv_locks (kv_data tk)) n) as [lk Hlk]; [lia|].
  unfold mbind at 1, st_bind at 1.
  erewrite store_bucket_eq; [|apply lookup_insert_eq|apply zinsert_Some; simpl;
    rewrite length_app, length_replicate, length_drop; lia].
  erewrite set_lock_eq; [|apply lookup_insert_eq|apply zinsert_Some; simpl;
    rewrite length_app, length_replicate, length_drop; lia].
  simpl. rewrite !insert_insert_eq, Nat2Z.id.
  by rewrite (replicate_insert_step _ _ _ _ Hb), (replicate_insert_step _ _ _ _ Hlk).
Qed.

Lemma kv_store_init_eq : pid tk = tgid tk →
  kv_store_init t K = Some (0, Kernel
    (<[t := with_data tk (KvData (replicate 1024 []) free_locks)]> (tasks K)) (slab K)).
Proof.
  intros Hp. unfold kv_store_init. st_step (deref_task_eq _ _ _ Ht). rewrite Hp, Z.eqb_refl.
  destruct (for_each_inv (λ d s, s = init_state (length d))
    (λ i, store_bucket (t, i) [] ;; set_lock (t, i) false) (seqZ 0 1024) [] K) as (s' & E & ->).
  - unfold init_state. simpl. rewrite !drop_0. destruct tk as [p g le [ks kl]].
    unfold with_data. simpl. rewrite insert_id by done. by destruct K.
  - intros d x r s Heq ->.
    assert (x = Z.of_nat (length d) ∧ (length d < 1024)%nat) as [-> Hlt].
    { assert (seqZ 0 1024 !! length d = Some x) as Hx
        by (change (seqZ 0 1024) with ([] ++ seqZ 0 1024); rewrite Heq; by apply list_lookup_middle).
      apply lookup_seqZ in Hx. lia. }
    eexists. split; [by apply init_step|]. rewrite length_app. simpl. by rewrite Nat.add_1_r.
  - cbn [negb]. st_step E. rewrite length_app, length_seqZ. unfold init_state, mret, st_ret.
    change (length [] + Z.to_nat 1024)%nat with 1024%nat.
    by rewrite !drop_ge, !app_nil_r by lia.
Qed.

End Init.

(** The running task [cur] belongs to the process led by [t]. *)
Definition in_process (K : kernel) (cur t : positive) : Prop :=
  (∃ ct, tasks K !! cur = Some ct ∧ group_leader ct = t) ∧ is_leader K t.

Lemma kv_hash_range k : -1024 < kv_hash k < 1024.
Proof. unfold kv_hash. pose proof (Z.rem_bound_abs k 1024). lia. Qed.

Lemma valid_key_bucket K tk k :
  store_wf K tk → valid_key k → ∃ b, zlookup (kv_store (kv_data tk)) (kv_hash k) = Some b.
Proof.
  intros Hwf Hk. apply zlookup_is_Some. rewrite (wf_len _ _ Hwf).
  pose proof (kv_hash_range k). unfold valid_key in Hk. lia.
Qed.

Lemma kv_lookup_eq K t tk k b :
  tasks K !! t = Some tk → zlookup (kv_store (kv_data tk)) (kv_hash k) = Some b →
  kv_lookup K t k = bucket_get (slab K) b k.
Proof. intros H1 H2. unfold kv_lookup. by rewrite H1, H2. Qed.

(** The task table after a write keeps leaders and the threads of each process. *)
Definition same_processes (K K' : kernel) : Prop :=
  ∀ c ct, tasks K !! c = Some ct → ∃ d, tasks K' !! c = Some (with_data ct d).

Lemma same_processes_in K K' c t : same_processes K K' → in_process K c t → in_process K' c t.
Proof.
  intros H [(ct & Hct & Hg) (tk & Htk & ? & ?)]. split.
  - destruct (H _ _ Hct) as [d Hd]. by eexists.
  - destruct (H _ _ Htk) as [d Hd]. by eexists.
Qed.

Lemma same_processes_refl K K' : tasks K' = tasks K → same_processes K K'.
Proof. intros E c ct H. exists (kv_data ct). by rewrite with_data_id, E. Qed.

Lemma same_processes_insert K t tk d sl :
  tasks K !! t = Some tk → same_processes K (Kernel (<[t := with_data tk d]> (tasks K)) sl).
Proof.
  intros Ht c ct Hc. simpl. destruct (decide (c = t)) as [->|].
  - rewrite lookup_insert_eq. simplify_eq. by exists d.
  - rewrite lookup_insert_ne by done. exists (kv_data ct). by rewrite with_data_id.
Qed.

Lemma write_kv_ok K cur t k v :
  kernel_wf K → in_process K cur t → valid_key k →
  ∃ K', write_kv true cur k v K = Some (0, K') ∧ kernel_wf K' ∧ same_processes K K' ∧
    (∀ k', kv_lookup K' t k' = if decide (k' = k) then Some v else kv_lookup K t k') ∧
    (∀ t' k', is_leader K t' → t' ≠ t → kv_lookup K' t' k' = kv_lookup K t' k').
Proof.
  intros Hwf [(ct & Hct & Hgl) Hl] Hk. pose proof Hl as (tk & Htk & _).
  pose proof (wf_store _ Hwf _ _ Hl Htk) as Hs.
  destruct (valid_key_bucket _ _ _ Hs Hk) as [b Hb].
  destruct (find_node (slab K) b k) as [f|] eqn:Ef.
  - eexists. split; [by eapply write_kv_found|]. split; [by eapply found_wf|]. split; [by apply same_processes_refl|].
    split; [by eapply found_lookup|]. intros t' k' L' Hne. pose proof L' as (tk' & Ht' & _).
    unfold kv_lookup. simpl. rewrite Ht'.
    destruct (zlookup (kv_store (kv_data tk')) (kv_hash k')) as [b'|] eqn:Eb'; [|done].
    apply bucket_get_frame. intros l Hin. apply lookup_insert_ne. intros ->.
    apply (wf_disj _ Hwf t' t L' Hl Hne l); unfold owned; rewrite ?Ht', ?Htk.
    + by eapply nodes_owned.
    + eapply nodes_owned; [done|]. by destruct (find_node_Some _ _ _ _ Ef).
  - eexists. split; [by eapply write_kv_new|]. split; [by eapply new_wf|].
    split; [|split; [by eapply new_lookup|]].
    + by apply same_processes_insert.
    + intros t' k' L' Hne. pose proof L' as (tk' & Ht' & _). unfold kv_lookup. simpl.
      rewrite lookup_insert_ne, Ht' by done.
      destruct (zlookup (kv_store (kv_data tk')) (kv_hash k')) as [b'|] eqn:Eb'; [|done].
      eapply new_bucket. eapply nodes_alloc; [|done]. by apply (wf_store _ Hwf t').
Qed.

(** C1: [write_kv] with memory available returns 0, updates exactly the written
    key of the caller's process, leaves every other process's store as it was,
    and preserves the kernel invariant (no shared, leaked or dangling node, all
    locks released).  Without memory it returns [-ENOMEM] and changes nothing. *)
Theorem kv_write_correct K cur t k v :
  kernel_wf K → in_process K cur t → valid_key k →
  (∃ K', write_kv true cur k v K = Some (0, K') ∧ kernel_wf K' ∧ same_processes K K' ∧
    (∀ k', kv_lookup K' t k' = if decide (k' = k) then Some v else kv_lookup K t k') ∧
    (∀ t' k', is_leader K t' → t' ≠ t → kv_lookup K' t' k' = kv_lookup K t' k')) ∧
  write_kv false cur k v K = Some (- ENOMEM, K).
Proof.
  intros Hwf Hp Hk. split; [by apply write_kv_ok|].
  destruct Hp as [(ct & Hct & Hgl) _]. by eapply write_kv_nomem.
Qed.

(** [read_kv] returns the stored value, or [-ENOENT] when the process has
    none, and leaves the whole kernel state unchanged (its lock is released). *)
Theorem kv_read_correct K cur t k :
  kernel_wf K → in_process K cur t → valid_key k →
  read_kv cur k K = Some (default (- ENOENT) (kv_lookup K t k), K).
Proof.
  intros Hwf [(ct & Hct & Hgl) Hl] Hk. pose proof Hl as (tk & Htk & _).
  pose proof (wf_store _ Hwf _ _ Hl Htk) as Hs.
  destruct (valid_key_bucket _ _ _ Hs Hk) as [b Hb].
  rewrite (kv_lookup_eq _ _ _ _ _ Htk Hb). by eapply read_kv_eq.
Qed.

(** for a negative key that is not a multiple of 1024 the hash is negative
    and both operations access the arrays outside their bounds (a fault);
    every other key has a bucket. *)
Theorem kv_key_domain K cur t k v :
  kernel_wf K → in_process K cur t →
  (valid_key k ↔ 0 ≤ k ∨ k mod 1024 = 0) ∧
  (¬ valid_key k → read_kv cur k K = None ∧ write_kv true cur k v K = None).
Proof.
  intros Hwf [(ct & Hct & Hgl) Hl]. split.
  { unfold valid_key, kv_hash. destruct (decide (0 ≤ k)).
    - pose proof (Z.rem_nonneg k 1024). lia.
    - pose proof (Z.rem_nonpos k 1024). pose proof (Z.rem_mod k 1024).
      pose proof (Z.mod_opp_l_z k 1024). pose proof (Z.mod_opp_l_z (- k) 1024).
      rewrite Z.opp_involutive in *. rewrite Z.abs_neq in * by lia. change (Z.abs 1024) with 1024 in *.
      rewrite Z.sgn_neg in * by lia. lia. }
  intros Hk. unfold valid_key in Hk. pose proof Hl as (tk & Htk & _).
  assert (∀ (K' : kernel) ct', tasks K' !! t = Some ct' → spin_lock (t, kv_hash k) K' = None) as Hf.
  { intros K' ct' Ht'. unfold spin_lock. st_step (deref_task_eq _ _ _ Ht').
    unfold mbind, st_bind, lift. simpl. by rewrite zlookup_neg by lia. }
  split.
  - unfold read_kv. st_step (get_hash_bucket_eq _ _ _ k Hgl K Hct).
    st_step (get_hash_bucket_eq _ _ _ k Hgl K Hct).
    unfold mbind at 1, st_bind at 1. by rewrite (Hf _ _ Htk).
  - unfold write_kv. st_step (get_hash_bucket_eq _ _ _ k Hgl K Hct).
    st_step (get_hash_bucket_eq _ _ _ k Hgl K Hct). unfold mbind at 1, st_bind at 1. simpl.
    unfold mbind, st_bind. by erewrite (Hf _ tk).
Qed.


Lemma concat_replicate_nil {A} n : concat (replicate n ([] : list A)) = [].
Proof. induction n; [done|]. by rewrite replicate_S. Qed.

Lemma empty_store_lookup (sl : gmap positive (option kv_pair)) i k :
  match zlookup (replicate 1024 []) i with Some b => bucket_get sl b k | None => None end = None.
Proof.
  unfold zlookup. destruct (i <? 0); [done|].
  destruct (replicate 1024 [] !! Z.to_nat i) as [b|] eqn:E; [|done].
  by apply lookup_replicate in E as [-> _].
Qed.

Section ExitWf.
Context (K : kernel) (t : positive) (tk : task_struct).
Hypothesis Hwf : kernel_wf K.
Hypothesis Hl : is_leader K t.
Hypothesis Ht : tasks K !! t = Some tk.
Definition exited_task : task_struct := with_data tk (KvData (replicate 1024 []) free_locks).
Definition exited : kernel :=
  Kernel (<[t := exited_task]> (tasks K)) (del_all (slab K) (owned K t)).

Lemma exit_eq : do_exit_kv t K = Some (tt, exited).
Proof.
  pose proof (wf_store _ Hwf _ _ Hl Ht) as Hs. destruct Hl as (x & Hx & _ & Hp).
  rewrite Ht in Hx. injection Hx as <-.
  unfold do_exit_kv. rewrite (kv_store_exit_eq K t tk Hs Ht Hp).
  unfold exit_state, exited, exited_task, owned.
  rewrite Ht, drop_ge, app_nil_r, take_ge by (rewrite (wf_len _ _ Hs); lia). done.
Qed.

Lemma exit_leader t' : is_leader exited t' ↔ is_leader K t'.
Proof.
  unfold is_leader. simpl. destruct (decide (t' = t)) as [->|].
  - rewrite lookup_insert_eq. destruct Hl as (x & Hx & ? & ?). rewrite Ht in Hx.
    injection Hx as <-. split; intros _; [by exists tk|by exists exited_task].
  - by rewrite lookup_insert_ne.
Qed.

Lemma exit_owned : owned exited t = [].
Proof. unfold owned. simpl. rewrite lookup_insert_eq. apply concat_replicate_nil. Qed.

Lemma exit_owned_ne t' : t' ≠ t → owned exited t' = owned K t'.
Proof. intros. unfold owned. simpl. by rewrite lookup_insert_ne. Qed.

Lemma exit_dom l : l ∈ dom (slab exited) ↔ l ∈ dom (slab K) ∧ l ∉ owned K t.
Proof.
  rewrite !elem_of_dom. simpl. rewrite del_all_lookup. case_decide; [|tauto].
  split; [by intros [? ?]|tauto].
Qed.

Lemma exit_slab_other t' l :
  is_leader K t' → t' ≠ t → l ∈ owned K t' → slab exited !! l = slab K !! l.
Proof.
  intros L' Hne Hin. simpl. rewrite del_all_lookup. case_decide; [|done].
  exfalso. by apply (wf_disj _ Hwf t' t L' Hl Hne l).
Qed.

Lemma exited_store_wf : store_wf exited exited_task.
Proof.
  assert (concat (kv_store (kv_data exited_task)) = []) as E by apply concat_replicate_nil.
  split; [apply length_replicate|done| |]; rewrite E.
  - intros l Hin. by apply not_elem_of_nil in Hin.
  - constructor.
Qed.

Lemma exited_wf : kernel_wf exited.
Proof.
  split.
  - intros t' tk0 L'%exit_leader Ht'. destruct (decide (t' = t)) as [->|Hne]; simpl in Ht'.
    + rewrite lookup_insert_eq in Ht'. injection Ht' as <-. apply exited_store_wf.
    + rewrite lookup_insert_ne in Ht' by done.
      destruct (wf_store _ Hwf t' tk0 L' Ht') as [? ? Ha ?]. split; try done.
      intros l Hin. rewrite (exit_slab_other t') by (done || (unfold owned; by rewrite Ht')). auto.
  - intros t1 t2 L1%exit_leader L2%exit_leader Hne l.
    destruct (decide (t1 = t)) as [->|]; [rewrite exit_owned; by intros ?%not_elem_of_nil|].
    destruct (decide (t2 = t)) as [->|]; [rewrite exit_owned; by intros _ ?%not_elem_of_nil|].
    rewrite !exit_owned_ne by done. by apply (wf_disj _ Hwf).
  - intros l [Hin Hno]%exit_dom. destruct (wf_noleak _ Hwf l Hin) as (t' & L' & Ho).
    exists t'. split; [by apply exit_leader|]. rewrite exit_owned_ne; [done|]. by intros ->.
Qed.

Lemma exited_processes : same_processes K exited.
Proof. by apply same_processes_insert. Qed.

Lemma exited_other t' k : is_leader K t' → t' ≠ t → kv_lookup exited t' k = kv_lookup K t' k.
Proof.
  intros L' Hne. pose proof L' as (tk0 & Ht' & _). unfold kv_lookup. simpl.
  rewrite lookup_insert_ne, Ht' by done.
  destruct (zlookup (kv_store (kv_data tk0)) (kv_hash k)) as [b|] eqn:Eb; [|done].
  apply bucket_get_frame. intros l Hin. apply (exit_slab_other t'); [done..|].
  unfold owned. rewrite Ht'. by eapply nodes_owned.
Qed.

End ExitWf.

(** C37: when a process's main task exits, [kv_store_exit] frees exactly the
    pairs of that process (each once), empties its store, and leaves the other
    processes and the kernel invariant intact. *)
Theorem kv_exit_releases K t :
  kernel_wf K → is_leader K t →
  ∃ K', do_exit_kv t K = Some (tt, K') ∧ kernel_wf K' ∧ same_processes K K' ∧
    (∀ k, kv_lookup K' t k = None) ∧
    (∀ l, l ∈ dom (slab K') ↔ l ∈ dom (slab K) ∧ l ∉ owned K t) ∧
    (∀ t' k, is_leader K t' → t' ≠ t → kv_lookup K' t' k = kv_lookup K t' k).
Proof.
  intros Hwf Hl. pose proof Hl as (tk & Ht & _). exists (exited K t tk).
  split; [by apply exit_eq|]. split; [by apply exited_wf|]. split; [by apply exited_processes|].
  split; [|split; [by apply exit_dom|by apply exited_other]].
  intros k. unfold kv_lookup. simpl. rewrite lookup_insert_eq. apply empty_store_lookup.
Qed.

(** when the main task exits before another thread of its process, a pair
    that the surviving thread writes afterwards stays allocated after that
    thread has exited too: only the main task's exit frees pairs. *)
Theorem kv_write_after_main_exit_leaks K t c ct k v :
  kernel_wf K → in_process K c t → tasks K !! c = Some ct → pid ct ≠ tgid ct → valid_key k →
  ∃ K1 K2, do_exit_kv t K = Some (tt, K1) ∧ write_kv true c k v K1 = Some (0, K2) ∧
    do_exit_kv c K2 = Some (tt, K2) ∧ kv_lookup K2 t k = Some v ∧ slab K2 ≠ ∅.
Proof.
  intros Hwf Hin Hc Hpid Hk. pose proof Hin as [_ Hl]. pose proof Hl as (tk & Ht & _).
  pose proof (exited_processes K t tk Ht) as Hp1.
  destruct (write_kv_ok (exited K t tk) c t k v) as (K2 & E2 & _ & Hp2 & Hlk & _);
    [by apply exited_wf|by apply (same_processes_in K)|done|].
  exists (exited K t tk), K2. split; [by apply exit_eq|]. split; [done|].
  specialize (Hlk k). rewrite decide_True in Hlk by done.
  destruct (Hp1 _ _ Hc) as [d1 Hd1]. destruct (Hp2 _ _ Hd1) as [d2 Hc2].
  split; [|split; [done|]].
  - unfold do_exit_kv, kv_store_exit. st_step (deref_task_eq _ _ _ Hc2).
    cbn [with_data pid tgid]. rewrite (proj2 (Z.eqb_neq _ _) Hpid). reflexivity.
  - intros Hemp. unfold kv_lookup in Hlk. rewrite Hemp in Hlk.
    destruct (tasks K2 !! t) as [tk2|]; [|discriminate].
    destruct (zlookup _ _) as [b|]; [|discriminate].
    by rewrite bucket_get_empty in Hlk.
Qed.

(** ** Creating tasks *)

(** forking a process gives the child an empty store of its own whatever
    the copied task structure held, and a new thread shares its process's
    store; in both cases the other stores and the invariant are kept. *)
Theorem kv_fork K cur t p pt newpid (thread : bool) :
  kernel_wf K → in_process K cur t →
  tasks K !! p = Some pt → p ≠ cur → ¬ is_leader K p →
  length (kv_store (kv_data pt)) = 1024%nat → length (kv_locks (kv_data pt)) = 1024%nat →
  (∀ ct, tasks K !! cur = Some ct → newpid ≠ tgid ct) →
  ∃ K', copy_process_ids thread cur p newpid K = Some (0, K') ∧
    slab K' = slab K ∧ (∀ q, q ≠ p → tasks K' !! q = tasks K !! q) ∧
    in_process K' p (if thread then t else p) ∧
    (thread = false → ∀ k, kv_lookup K' p k = None).
Proof.
  intros Hwf [(ct & Hct & Hgl) Hl] Hp Hne Hnl Hlen Hlocks Hpid.
  unfold copy_process_ids. st_step (deref_task_eq _ _ _ Hct). st_step (deref_task_eq _ _ _ Hp).
  unfold mbind at 1, st_bind at 1. cbn [modify]. destruct thread.
  - specialize (Hpid _ Hct). eexists. split.
    { unfold kv_store_init. unfold mbind at 1, st_bind at 1.
      erewrite deref_task_eq by apply lookup_insert_eq. cbn [pid tgid].
      rewrite (proj2 (Z.eqb_neq _ _) Hpid). reflexivity. }
    split; [done|]. split; [intros q Hq; simpl; by rewrite lookup_insert_ne|]. split; [|done].
    split.
    + eexists. split; [apply lookup_insert_eq|done].
    + destruct Hl as (tk & Htk & ? & ?). exists tk. split; [|done].
      simpl. rewrite lookup_insert_ne; [done|]. intros ->. by apply Hnl; exists tk.
  - eexists. split; [erewrite (kv_store_init_eq _ _ (Task newpid newpid p (kv_data pt)));
      [reflexivity|done|done|apply lookup_insert_eq|done]|].
    split; [done|]. split; [intros q Hq; simpl; by rewrite !lookup_insert_ne|].
    split; [split|].
    + eexists. split; [apply lookup_insert_eq|done].
    + eexists. split; [apply lookup_insert_eq|done].
    + intros _ k. unfold kv_lookup. cbn [tasks]. rewrite lookup_insert_eq.
      apply empty_store_lookup.
Qed.

(** ** A concrete kernel: task 1 leads a process, task 2 is a thread of it *)

Definition boot : kernel :=
  let d := KvData (replicate 1024 []) free_locks in
  Kernel (<[1%positive := Task 100 100 1 d]> (<[2%positive := Task 101 100 1 d]> ∅)) ∅.

Lemma boot_leader t : is_leader boot t → t = 1%positive.
Proof.
  intros (tk & Ht & Hg & Hp). unfold boot in Ht. cbn [tasks] in Ht.
  apply lookup_insert_Some in Ht as [[? _]|[? Ht]]; [done|].
  apply lookup_insert_Some in Ht as [[? <-]|[? Ht]]; [done|]. by rewrite lookup_empty in Ht.
Qed.

Lemma boot_leader_1 : is_leader boot 1.
Proof. eexists. split; [apply lookup_insert_eq|]. split; reflexivity. Qed.

Lemma boot_wf : kernel_wf boot.
Proof.
  assert (owned boot 1 = []) as E.
  { unfold owned, boot. cbn [tasks]. rewrite lookup_insert_eq. apply concat_replicate_nil. }
  split.
  - intros t tk ->%boot_leader Ht. unfold owned in E. rewrite Ht in E.
    unfold boot in Ht. cbn [tasks] in Ht. rewrite lookup_insert_eq in Ht. injection Ht as <-.
    split; [apply length_replicate|done| |]; rewrite E; [|constructor].
    intros l Hin. by apply not_elem_of_nil in Hin.
  - intros t1 t2 ->%boot_leader ->%boot_leader. done.
  - intros l. unfold boot. cbn [slab]. rewrite dom_empty_L. by intros ?%not_elem_of_empty.
Qed.

Lemma boot_thread : in_process boot 2 1.
Proof.
  split; [|apply boot_leader_1].
  exists (Task 101 100 1 (KvData (replicate 1024 []) free_locks)). split; [|reflexivity].
  unfold boot. cbn [tasks]. rewrite lookup_insert_ne by discriminate. apply lookup_insert_eq.
Qed.

Lemma boot_main : in_process boot 1 1.
Proof.
  split; [|apply boot_leader_1]. eexists. split; [apply lookup_insert_eq|reflexivity].
Qed.

Lemma kv_write_correct_witness : ∃ K',
  write_kv true 2 42 12345 boot = Some (0, K') ∧ kv_lookup K' 1 42 = Some 12345.
Proof.
  destruct (kv_write_correct boot 2 1 42 12345 boot_wf boot_thread) as ((K' & E & _ & _ & H & _) & _).
  - unfold valid_key. vm_compute. discriminate.
  - exists K'. split; [exact E|]. exact (H 42).
Defined.

Lemma kv_read_correct_witness : read_kv 1 9999 boot = Some (- ENOENT, boot).
Proof.
  rewrite (kv_read_correct boot 1 1 9999 boot_wf boot_main).
  - reflexivity.
  - unfold valid_key. vm_compute. discriminate.
Defined.

Lemma kv_key_domain_witness : read_kv 1 (-1) boot = None.
Proof.
  apply (proj2 (kv_key_domain boot 1 1 (-1) 0 boot_wf boot_main)).
  unfold valid_key. vm_compute. auto.
Defined.

Lemma kv_exit_releases_witness : ∃ K', do_exit_kv 1 boot = Some (tt, K') ∧ kernel_wf K'.
Proof.
  destruct (kv_exit_releases boot 1 boot_wf boot_leader_1) as (K' & E & H & _).
  exists K'. split; assumption.
Defined.

Lemma kv_write_after_main_exit_leaks_witness : ∃ K1 K2,
  do_exit_kv 1 boot = Some (tt, K1) ∧ write_kv true 2 42 7 K1 = Some (0, K2) ∧ slab K2 ≠ ∅.
Proof.
  destruct (kv_write_after_main_exit_leaks boot 1 2
    (Task 101 100 1 (KvData (replicate 1024 []) free_locks)) 42 7 boot_wf boot_thread)
    as (K1 & K2 & E1 & E2 & _ & _ & H).
  - unfold boot. cbn [tasks]. rewrite lookup_insert_ne by discriminate. apply lookup_insert_eq.
  - discriminate.
  - unfold valid_key. vm_compute. discriminate.
  - exists K1, K2. auto.
Defined.

Lemma kv_fork_witness : ∃ K', copy_process_ids false 1 2 102 boot = Some (0, K') ∧
  ∀ k, kv_lookup K' 2 k = None.
Proof.
  destruct (kv_fork boot 1 1 2 (Task 101 100 1 (KvData (replicate 1024 []) free_locks)) 102 false
    boot_wf boot_main) as (K' & E & _ & _ & _ & H).
  - unfold boot. cbn [tasks]. rewrite lookup_insert_ne by discriminate. apply lookup_insert_eq.
  - discriminate.
  - intros H%boot_leader. discriminate.
  - apply length_replicate.
  - apply length_replicate.
  - intros ct H. unfold boot in H. cbn [tasks] in H. rewrite lookup_insert_eq in H.
    injection H as <-. discriminate.
  - exists K'. split; [exact E|]. apply H. reflexivity.
Defined.

End KvStore.
