(* ===== verification/KvConcurrent.v ===== *)
(** * Concurrent executions of the key-value store

    Threads of one process run [write_kv] and [read_kv] of kernel/kv_store.c at
    the same time.  Each C statement that touches shared memory is one step of
    an interleaving semantics: the allocation, taking the bucket lock, each
    comparison of the list scan, the store into a node, linking a node,
    releasing the lock, and freeing the unused node.  The program counters name
    the points between them.  The store is the one of [KvStore], with the owner
    of each bucket lock recorded.

    A thread that is not listed is outside the store; it may invoke any call at
    any time, and leaves the store when the call returns.  The invocations, with
    their arguments, and the returns, with their values, are what can be seen of
    an execution; the refinement theorem says that an object whose calls take
    effect atomically between invocation and return can show the same. *)

From Stdlib Require Import ZArith Lia.
From stdpp Require Import base numbers list gmap strings.
From S2P Require Import Prelude KvStore.

Module KvConcurrent.
Import KvStore.

Inductive pc :=
  | WCall (k v : Z)                              (* before kmalloc *)
  | WLock (k v : Z) (new : positive)             (* at spin_lock *)
  | WScan (k v : Z) (new : positive) (rest : list positive)
  | WUpdate (k v : Z) (new f : positive)         (* found->value = v *)
  | WUnlockFree (k : Z) (new : positive)
  | WFree (new : positive)                       (* kfree(new_kv) *)
  | WInit (k v : Z) (new : positive)             (* new_kv->key = k; ->value = v *)
  | WLink (k v : Z) (new : positive)             (* hlist_add_head *)
  | WUnlock (k : Z)
  | RCall (k : Z)
  | RScan (k : Z) (rest : list positive)
  | RUnlock (k z : Z)
  | Ret (z : Z).

Record cstate := CState {
  heap : gmap positive (option kv_pair);
  buckets : list (list positive);
  owner : list (option Z);            (* who holds each bucket lock *)
  threads : gmap Z pc }.

Inductive call :=
  | Write (k v : Z)
  | Read (k : Z).

Definition entry (o : call) : pc := match o with Write k v => WCall k v | Read k => RCall k end.

(** What can be seen of a step: nothing, a call with its arguments, or a return with its value. *)
Inductive event :=
  | Tau
  | Invoke (t : Z) (o : call)
  | Return (t z : Z).

Definition goto (c : cstate) (t : Z) (p : pc) : gmap Z pc := <[t := p]> (threads c).

Inductive cstep (c : cstate) : event → cstate → Prop :=
  | s_invoke t o :
      threads c !! t = None →
      cstep c (Invoke t o) (CState (heap c) (buckets c) (owner c) (goto c t (entry o)))
  | s_nomem t k v :
      threads c !! t = Some (WCall k v) →
      cstep c Tau (CState (heap c) (buckets c) (owner c) (goto c t (Ret (- ENOMEM))))
  | s_alloc t k v new :
      threads c !! t = Some (WCall k v) → heap c !! new = None →
      cstep c Tau (CState (<[new := None]> (heap c)) (buckets c) (owner c) (goto c t (WLock k v new)))
  | s_wlock t k v new o nodes :
      threads c !! t = Some (WLock k v new) →
      zlookup (owner c) (kv_hash k) = Some None →
      zinsert (owner c) (kv_hash k) (Some t) = Some o →
      zlookup (buckets c) (kv_hash k) = Some nodes →
      cstep c Tau (CState (heap c) (buckets c) o (goto c t (WScan k v new nodes)))
  | s_wscan_hit t k v new l rest kv :
      threads c !! t = Some (WScan k v new (l :: rest)) →
      heap c !! l = Some (Some kv) → key kv = k →
      cstep c Tau (CState (heap c) (buckets c) (owner c) (goto c t (WUpdate k v new l)))
  | s_wscan_miss t k v new l rest kv :
      threads c !! t = Some (WScan k v new (l :: rest)) →
      heap c !! l = Some (Some kv) → key kv ≠ k →
      cstep c Tau (CState (heap c) (buckets c) (owner c) (goto c t (WScan k v new rest)))
  | s_wscan_end t k v new :
      threads c !! t = Some (WScan k v new []) →
      cstep c Tau (CState (heap c) (buckets c) (owner c) (goto c t (WInit k v new)))
  | s_update t k v new f kv :
      threads c !! t = Some (WUpdate k v new f) → heap c !! f = Some (Some kv) →
      cstep c Tau (CState (<[f := Some (KvPair (key kv) v)]> (heap c)) (buckets c) (owner c)
        (goto c t (WUnlockFree k new)))
  | s_unlock_free t k new o :
      threads c !! t = Some (WUnlockFree k new) →
      zinsert (owner c) (kv_hash k) None = Some o →
      cstep c Tau (CState (heap c) (buckets c) o (goto c t (WFree new)))
  | s_free t new :
      threads c !! t = Some (WFree new) →
      cstep c Tau (CState (delete new (heap c)) (buckets c) (owner c) (goto c t (Ret 0)))
  | s_init t k v new :
      threads c !! t = Some (WInit k v new) →
      cstep c Tau (CState (<[new := Some (KvPair k v)]> (heap c)) (buckets c) (owner c)
        (goto c t (WLink k v new)))
  | s_link t k v new nodes b :
      threads c !! t = Some (WLink k v new) →
      zlookup (buckets c) (kv_hash k) = Some nodes →
      zinsert (buckets c) (kv_hash k) (new :: nodes) = Some b →
      cstep c Tau (CState (heap c) b (owner c) (goto c t (WUnlock k)))
  | s_unlock t k o :
      threads c !! t = Some (WUnlock k) →
      zinsert (owner c) (kv_hash k) None = Some o →
      cstep c Tau (CState (heap c) (buckets c) o (goto c t (Ret 0)))
  | s_rlock t k o nodes :
      threads c !! t = Some (RCall k) →
      zlookup (owner c) (kv_hash k) = Some None →
      zinsert (owner c) (kv_hash k) (Some t) = Some o →
      zlookup (buckets c) (kv_hash k) = Some nodes →
      cstep c Tau (CState (heap c) (buckets c) o (goto c t (RScan k nodes)))
  | s_rscan_hit t k l rest kv :
      threads c !! t = Some (RScan k (l :: rest)) →
      heap c !! l = Some (Some kv) → key kv = k →
      cstep c Tau
        (CState (heap c) (buckets c) (owner c) (goto c t (RUnlock k (value kv))))
  | s_rscan_miss t k l rest kv :
      threads c !! t = Some (RScan k (l :: rest)) →
      heap c !! l = Some (Some kv) → key kv ≠ k →
      cstep c Tau (CState (heap c) (buckets c) (owner c) (goto c t (RScan k rest)))
  | s_rscan_end t k :
      threads c !! t = Some (RScan k []) →
      cstep c Tau
        (CState (heap c) (buckets c) (owner c) (goto c t (RUnlock k (- ENOENT))))
  | s_runlock t k z o :
      threads c !! t = Some (RUnlock k z) →
      zinsert (owner c) (kv_hash k) None = Some o →
      cstep c Tau (CState (heap c) (buckets c) o (goto c t (Ret z)))
  | s_return t z :
      threads c !! t = Some (Ret z) →
      cstep c (Return t z) (CState (heap c) (buckets c) (owner c) (delete t (threads c))).

(** ** Abstract specification: a map updated and read atomically *)

Definition alookup (c : cstate) (k : Z) : option Z :=
  match zlookup (buckets c) (kv_hash k) with
  | Some b => bucket_get (heap c) b k
  | None => None
  end.

(** A call that has been invoked is pending until it takes effect, and done until it returns. *)
Inductive status :=
  | Pending (o : call)
  | Done (z : Z).

Record object := Object { contents : Z → option Z; callers : gmap Z status }.

(** The effect of a call on the map, with its value.  A write may also fail for lack of memory,
    and then changes nothing. *)
Definition takes_effect (m : Z → option Z) (o : call) (z : Z) (m' : Z → option Z) : Prop :=
  match o with
  | Write k v => (z = 0 ∧ ∀ k', m' k' = if decide (k' = k) then Some v else m k') ∨ (z = - ENOMEM ∧ ∀ k', m' k' = m k')
  | Read k => z = default (- ENOENT) (m k) ∧ ∀ k', m' k' = m k'
  end.

(** The atomic object: a pending call takes effect in one step that cannot be seen. *)
Inductive astep (a : object) : event → object → Prop :=
  | a_invoke t o :
      callers a !! t = None →
      astep a (Invoke t o) (Object (contents a) (<[t := Pending o]> (callers a)))
  | a_effect t o z m :
      callers a !! t = Some (Pending o) → takes_effect (contents a) o z m →
      astep a Tau (Object m (<[t := Done z]> (callers a)))
  | a_return t z :
      callers a !! t = Some (Done z) →
      astep a (Return t z) (Object (contents a) (delete t (callers a))).

(** Executions, with what can be seen of them. *)
Inductive runs {S} (step : S → event → S → Prop) : S → list event → S → Prop :=
  | runs_nil s : runs step s [] s
  | runs_tau s s1 tr s2 : step s Tau s1 → runs step s1 tr s2 → runs step s tr s2
  | runs_event s e s1 tr s2 : e ≠ Tau → step s e s1 → runs step s1 tr s2 → runs step s (e :: tr) s2.

(** How far the call at a program point is: a write has taken effect once the value is stored or
    the node linked, a read once the scan has found its answer. *)
Definition phase (p : pc) : status :=
  match p with
  | WCall k v | WLock k v _ | WScan k v _ _ | WUpdate k v _ _ | WInit k v _ | WLink k v _ => Pending (Write k v)
  | WUnlockFree _ _ | WFree _ | WUnlock _ => Done 0
  | RCall k | RScan k _ => Pending (Read k)
  | RUnlock _ z | Ret z => Done z
  end.

(** The object that a store implements. *)
Definition implements (c : cstate) (a : object) : Prop :=
  (∀ k, contents a k = alookup c k) ∧ callers a = phase <$> threads c.

(** ** Invariant *)

(** The node a thread owns privately. *)
Definition private (p : pc) : option positive :=
  match p with
  | WLock _ _ new | WScan _ _ new _ | WUpdate _ _ new _ | WUnlockFree _ new | WFree new
  | WInit _ _ new | WLink _ _ new => Some new
  | _ => None
  end.

(** The bucket whose lock a thread holds. *)
Definition holds (p : pc) : option Z :=
  match p with
  | WScan k _ _ _ | WUpdate k _ _ _ | WUnlockFree k _ | WInit k _ _ | WLink k _ _ | WUnlock k
  | RScan k _ | RUnlock k _ => Some (kv_hash k)
  | _ => None
  end.

(** What a thread knows about its bucket while it holds the lock. *)
Definition knows (hp : gmap positive (option kv_pair)) (nodes : list positive) (p : pc) : Prop :=
  match p with
  | WScan k _ _ rest | RScan k rest =>
      rest ⊆ nodes ∧ find_node hp nodes k = find_node hp rest k ∧
      bucket_get hp nodes k = bucket_get hp rest k
  | WUpdate k _ _ f => find_node hp nodes k = Some f
  | WInit k _ _ => find_node hp nodes k = None
  | WLink k v new => find_node hp nodes k = None ∧ hp !! new = Some (Some (KvPair k v))
  | _ => True
  end.

Record pc_ok (c : cstate) (t : Z) (p : pc) : Prop := {
  ok_private : ∀ new, private p = Some new →
    is_Some (heap c !! new) ∧ (∀ i b, zlookup (buckets c) i = Some b → new ∉ b);
  ok_holds : ∀ h, holds p = Some h →
    zlookup (owner c) h = Some (Some t) ∧
    ∃ nodes, zlookup (buckets c) h = Some nodes ∧ knows (heap c) nodes p }.

Record inv (c : cstate) : Prop := {
  inv_nodes : ∀ i b l, zlookup (buckets c) i = Some b → l ∈ b →
    ∃ kv, heap c !! l = Some (Some kv) ∧ kv_hash (key kv) = i;
  inv_pc : ∀ t p, threads c !! t = Some p → pc_ok c t p;
  inv_private : ∀ t1 t2 p1 p2 n, threads c !! t1 = Some p1 → threads c !! t2 = Some p2 →
    private p1 = Some n → private p2 = Some n → t1 = t2 }.

(** ** Stability of a thread's knowledge under the steps of the others *)

Lemma knows_frame hp hp' nodes p :
  (∀ l, l ∈ nodes → hp' !! l = hp !! l) →
  (∀ n, private p = Some n → hp' !! n = hp !! n) →
  knows hp nodes p → knows hp' nodes p.
Proof.
  intros Hn Hp. destruct p as [| | ? ? ? rest | | | | | | | | ? rest | |]; simpl; try done.
  - intros (Hsub & Hf & Hb). split; [done|].
    rewrite !(find_node_frame _ _ _ _ Hn), !(bucket_get_frame _ _ _ _ Hn).
    rewrite (find_node_frame hp hp' rest), (bucket_get_frame hp hp' rest); auto.
  - by rewrite (find_node_frame _ _ _ _ Hn).
  - by rewrite (find_node_frame _ _ _ _ Hn).
  - rewrite (find_node_frame _ _ _ _ Hn). by rewrite Hp.
  - intros (Hsub & Hf & Hb). split; [done|].
    rewrite !(find_node_frame _ _ _ _ Hn), !(bucket_get_frame _ _ _ _ Hn).
    rewrite (find_node_frame hp hp' rest), (bucket_get_frame hp hp' rest); auto.
Qed.

(** If the locks and buckets that [t] holds and its private node are
    unchanged, what [t] knows stays true. *)
Lemma pc_stable c c' t p :
  pc_ok c t p →
  (∀ h, holds p = Some h → zlookup (owner c) h = Some (Some t) →
     zlookup (owner c') h = Some (Some t) ∧ zlookup (buckets c') h = zlookup (buckets c) h ∧
     ∀ b l, zlookup (buckets c) h = Some b → l ∈ b → heap c' !! l = heap c !! l) →
  (∀ n, private p = Some n → heap c' !! n = heap c !! n ∧
     ∀ i b, zlookup (buckets c') i = Some b → n ∉ b) →
  pc_ok c' t p.
Proof.
  intros [Hpr Hho] Hs Hp. split.
  - intros n Hn. destruct (Hp n Hn) as [-> ?]. by destruct (Hpr n Hn).
  - intros h Hh. destruct (Hho h Hh) as (Ho & nodes & Hb & Hk).
    destruct (Hs h Hh Ho) as (Ho' & Hb' & Hl). split; [done|].
    exists nodes. split; [congruence|]. eapply knows_frame; [intros l; by apply Hl| |done].
    intros n Hn. by destruct (Hp n Hn).
Qed.

Section Step.
Context (c : cstate) (t : Z) (p : pc).
Hypothesis Hinv : inv c.
Hypothesis Ht : threads c !! t = Some p.

Lemma step_ok : pc_ok c t p.
Proof. by apply (inv_pc _ Hinv). Qed.

(** Reassembling the invariant after thread [t] moved to [p']. *)
Lemma inv_step hp bk ow p' :
  let c' := CState hp bk ow (goto c t p') in
  (∀ i b l, zlookup bk i = Some b → l ∈ b → ∃ kv, hp !! l = Some (Some kv) ∧ kv_hash (key kv) = i) →
  pc_ok c' t p' →
  (∀ n, private p' = Some n → private p = Some n ∨ heap c !! n = None) →
  (∀ t' q, t' ≠ t → threads c !! t' = Some q → pc_ok c' t' q) →
  inv c'.
Proof.
  intros c' Hn Hok Hpr Hoth. split; [done| |]; simpl; unfold goto.
  - intros t' q Hq. apply lookup_insert_Some in Hq as [[-> <-]|[Hne Hq]]; [done|].
    by apply Hoth.
  - intros t1 t2 p1 p2 n H1 H2 P1 P2.
    apply lookup_insert_Some in H1 as [[<- <-]|[Hne1 H1]];
      apply lookup_insert_Some in H2 as [[<- <-]|[Hne2 H2]]; try done.
    + destruct (Hpr n P1) as [P|Hf]; [by eapply (inv_private _ Hinv)|].
      destruct (ok_private _ _ _ (inv_pc _ Hinv _ _ H2) n P2) as [[x Hx] _]. congruence.
    + destruct (Hpr n P2) as [P|Hf]; [by eapply (inv_private _ Hinv)|].
      destruct (ok_private _ _ _ (inv_pc _ Hinv _ _ H1) n P1) as [[x Hx] _]. congruence.
    + by eapply (inv_private _ Hinv).
Qed.

(** Other threads when only the program counter of [t] changes. *)
Lemma others_same th t' q :
  threads c !! t' = Some q → pc_ok (CState (heap c) (buckets c) (owner c) th) t' q.
Proof.
  intros Hq. apply (pc_stable c); [by apply (inv_pc _ Hinv)|done|].
  intros n Hn. split; [done|]. apply (ok_private _ _ _ (inv_pc _ Hinv _ _ Hq) n Hn).
Qed.

(** Other threads when the heap changes at one unlinked node that is not theirs. *)
Lemma others_heap hp n th t' q :
  (∀ l, l ≠ n → hp !! l = heap c !! l) →
  (∀ i b, zlookup (buckets c) i = Some b → n ∉ b) →
  private q ≠ Some n → threads c !! t' = Some q →
  pc_ok (CState hp (buckets c) (owner c) th) t' q.
Proof.
  intros Hh Hn Hpr Hq. apply (pc_stable c); [by apply (inv_pc _ Hinv)| |].
  - intros h _ Ho. split; [done|]. split; [done|]. intros b l Hb Hl. simpl. apply Hh.
    intros ->. by eapply Hn.
  - intros m Hm. simpl. split; [apply Hh; congruence|].
    apply (ok_private _ _ _ (inv_pc _ Hinv _ _ Hq) m Hm).
Qed.

(** Other threads when a lock that they do not hold changes hands. *)
Lemma others_owner h x ow th t' q :
  zlookup (owner c) h ≠ Some (Some t') → zinsert (owner c) h x = Some ow →
  threads c !! t' = Some q → pc_ok (CState (heap c) (buckets c) ow th) t' q.
Proof.
  intros Hno Hi Hq. apply (pc_stable c); [by apply (inv_pc _ Hinv)| |].
  - intros h' _ Ho. split; [|done]. simpl.
    rewrite (zlookup_insert_ne _ _ _ h' _ Hi); [done|]. congruence.
  - intros n Hn. split; [done|]. apply (ok_private _ _ _ (inv_pc _ Hinv _ _ Hq) n Hn).
Qed.

(** A private node of one thread is not the private node of another. *)
Lemma private_ne t' q n : t' ≠ t → threads c !! t' = Some q → private p = Some n → private q ≠ Some n.
Proof. intros Hne Hq Hp Hq'. apply Hne. by eapply (inv_private _ Hinv). Qed.

Lemma private_unlinked n : private p = Some n →
  ∀ i b, zlookup (buckets c) i = Some b → n ∉ b.
Proof. apply step_ok. Qed.

(** Steps that only move the program counter. *)
Lemma step_local p' :
  (∀ n, private p' = Some n → private p = Some n) →
  (∀ h, holds p' = Some h → holds p = Some h ∧
     ∀ nodes, zlookup (buckets c) h = Some nodes → knows (heap c) nodes p →
       knows (heap c) nodes p') →
  inv (CState (heap c) (buckets c) (owner c) (goto c t p')).
Proof.
  intros Hpr Hho. apply inv_step.
  - apply (inv_nodes _ Hinv).
  - split; simpl.
    + intros n Hn. by apply step_ok, Hpr.
    + intros h Hh. destruct (Hho h Hh) as [Hh' Hk].
      destruct (ok_holds _ _ _ step_ok h Hh') as (? & nodes & Hb & Hkn).
      split; [done|]. exists nodes. auto.
  - auto.
  - intros t' q _. apply others_same.
Qed.

(** Steps that take or release the lock of bucket [h]. *)
Lemma step_lock h x ow p' :
  zinsert (owner c) h x = Some ow →
  (∀ t', t' ≠ t → zlookup (owner c) h ≠ Some (Some t')) →
  (∀ n, private p' = Some n → private p = Some n) →
  (∀ h', holds p' = Some h' → h' = h ∧ x = Some t ∧
     ∃ nodes, zlookup (buckets c) h = Some nodes ∧ knows (heap c) nodes p') →
  inv (CState (heap c) (buckets c) ow (goto c t p')).
Proof.
  intros Hi Hno Hpr Hho. apply inv_step.
  - apply (inv_nodes _ Hinv).
  - split; simpl.
    + intros n Hn. by apply step_ok, Hpr.
    + intros h' Hh. destruct (Hho h' Hh) as (-> & -> & Hk).
      split; [by eapply zlookup_insert_eq|done].
  - auto.
  - intros t' q Hne. eapply others_owner; eauto.
Qed.

(** Steps that change the heap at an unlinked node only. *)
Lemma step_heap hp n p' :
  (∀ l, l ≠ n → hp !! l = heap c !! l) →
  (private p = Some n ∨ heap c !! n = None) →
  (∀ m, private p' = Some m → m = n ∧ is_Some (hp !! n)) →
  (∀ h, holds p' = Some h → holds p = Some h ∧
     ∀ nodes, zlookup (buckets c) h = Some nodes → n ∉ nodes →
       knows (heap c) nodes p → knows hp nodes p') →
  inv (CState hp (buckets c) (owner c) (goto c t p')) ∧
  ∀ k, alookup (CState hp (buckets c) (owner c) (goto c t p')) k = alookup c k.
Proof.
  intros Hh Hn Hpr Hho.
  assert (∀ i b, zlookup (buckets c) i = Some b → n ∉ b) as Hunl.
  { destruct Hn as [Hn|Hn]; [by apply private_unlinked|]. intros i b Hb Hin.
    destruct (inv_nodes _ Hinv _ _ _ Hb Hin) as (kv & Hkv & _). congruence. }
  split.
  - apply inv_step.
    + intros i b l Hb Hl. rewrite Hh; [by apply (inv_nodes _ Hinv) with b|].
      intros ->. by eapply Hunl.
    + split; simpl.
      * intros m Hm. destruct (Hpr m Hm) as [-> ?]. done.
      * intros h Hh'. destruct (Hho h Hh') as [Hh2 Hk].
        destruct (ok_holds _ _ _ step_ok h Hh2) as (? & nodes & Hb & Hkn).
        split; [done|]. exists nodes. split; [done|]. apply Hk; [done| |done]. by eapply Hunl.
    + intros m Hm. destruct (Hpr m Hm) as [-> _]. done.
    + intros t' q Hne Hq. eapply others_heap; [done|done| |done].
      destruct Hn as [Hn|Hn]; [by eapply private_ne|]. intros Hq'.
      destruct (ok_private _ _ _ (inv_pc _ Hinv _ _ Hq) n Hq') as [[x Hx] _]. congruence.
  - intros k. unfold alookup. simpl. destruct (zlookup (buckets c) (kv_hash k)) as [b|] eqn:E; [|done].
    apply bucket_get_frame. intros l Hl. apply Hh. intros ->. by eapply Hunl.
Qed.

End Step.

(** The store into a found node. *)
Lemma step_update c t k v new f kv :
  inv c → threads c !! t = Some (WUpdate k v new f) → heap c !! f = Some (Some kv) →
  let c' := CState (<[f := Some (KvPair (key kv) v)]> (heap c)) (buckets c) (owner c)
              (goto c t (WUnlockFree k new)) in
  inv c' ∧ ∀ k', alookup c' k' = if decide (k' = k) then Some v else alookup c k'.
Proof.
  intros Hinv Ht Hf c'. pose proof (step_ok c t _ Hinv Ht) as Hok.
  destruct (ok_holds _ _ _ Hok (kv_hash k) eq_refl) as (Ho & nodes & Hb & Hfind).
  simpl in Hfind. destruct (find_node_Some _ _ _ _ Hfind) as [Hfin (kv' & Hkv' & Hkey & _)].
  rewrite Hf in Hkv'. injection Hkv' as <-.
  assert (∀ i b, zlookup (buckets c) i = Some b → f ∈ b → i = kv_hash k) as Hfb.
  { intros i b Hbi Hin. destruct (inv_nodes _ Hinv _ _ _ Hbi Hin) as (x & Hx & Hi). congruence. }
  split.
  - apply (inv_step c t _ Hinv Ht); simpl.
    + intros i b l Hbi Hl. destruct (decide (l = f)) as [->|Hne].
      * rewrite lookup_insert_eq. eexists. split; [done|]. simpl.
        rewrite (Hfb _ _ Hbi Hl). by rewrite Hkey.
      * rewrite lookup_insert_ne by done. by apply (inv_nodes _ Hinv) with b.
    + split; simpl.
      * intros n [= <-]. destruct (ok_private _ _ _ Hok new eq_refl) as [Hs Hu].
        split; [|done]. rewrite lookup_insert_ne; [done|]. intros ->. by eapply Hu.
      * intros h [= <-]. split; [done|]. by exists nodes.
    + auto.
    + intros t' q Hne Hq. apply (pc_stable c); [by apply (inv_pc _ Hinv)| |]; simpl.
      * intros h _ Ho'. split; [done|]. split; [done|]. intros b l Hbi Hl.
        apply lookup_insert_ne. intros <-. pose proof (Hfb _ _ Hbi Hl). congruence.
      * intros n Hn. destruct (ok_private _ _ _ (inv_pc _ Hinv _ _ Hq) n Hn) as [? Hu].
        split; [|done]. apply lookup_insert_ne. intros <-. by eapply Hu.
  - intros k'. unfold alookup. simpl. rewrite Hkey.
    destruct (decide (kv_hash k' = kv_hash k)) as [Eh|Eh].
    + rewrite Eh, Hb. by apply bucket_get_update.
    + rewrite decide_False by congruence.
      destruct (zlookup (buckets c) (kv_hash k')) as [b|] eqn:Eb; [|done].
      apply bucket_get_frame. intros l Hl. apply lookup_insert_ne. intros <-.
      by pose proof (Hfb _ _ Eb Hl).
Qed.

(** Linking a new node at the head of its bucket. *)
Lemma step_link c t k v new nodes bk :
  inv c → threads c !! t = Some (WLink k v new) →
  zlookup (buckets c) (kv_hash k) = Some nodes →
  zinsert (buckets c) (kv_hash k) (new :: nodes) = Some bk →
  let c' := CState (heap c) bk (owner c) (goto c t (WUnlock k)) in
  inv c' ∧ ∀ k', alookup c' k' = if decide (k' = k) then Some v else alookup c k'.
Proof.
  intros Hinv Ht Hb Hi c'. pose proof (step_ok c t _ Hinv Ht) as Hok.
  destruct (ok_holds _ _ _ Hok (kv_hash k) eq_refl) as (Ho & nodes' & Hb' & Hfind & Hnew).
  rewrite Hb in Hb'. injection Hb' as <-.
  pose proof (zlookup_insert_eq _ _ _ _ Hi) as Hbk.
  assert (∀ i, i ≠ kv_hash k → zlookup bk i = zlookup (buckets c) i) as Hbk'.
  { intros i Hne. by apply (zlookup_insert_ne _ _ _ _ _ Hi), not_eq_sym. }
  split.
  - apply (inv_step c t _ Hinv Ht); simpl.
    + intros i b l Hbi Hl. destruct (decide (i = kv_hash k)) as [->|Hne].
      * rewrite Hbk in Hbi. injection Hbi as <-. apply elem_of_cons in Hl as [->|Hl].
        -- rewrite Hnew. by eexists.
        -- by apply (inv_nodes _ Hinv) with nodes.
      * rewrite Hbk' in Hbi by done. by apply (inv_nodes _ Hinv) with b.
    + split; simpl; [done|]. intros h [= <-]. split; [done|]. by exists (new :: nodes).
    + done.
    + intros t' q Hne Hq. apply (pc_stable c); [by apply (inv_pc _ Hinv)| |]; simpl.
      * intros h _ Ho'. split; [done|]. split; [apply Hbk'; congruence|done].
      * intros n Hn. split; [done|].
        destruct (ok_private _ _ _ (inv_pc _ Hinv _ _ Hq) n Hn) as [? Hu].
        intros i b Hbi. destruct (decide (i = kv_hash k)) as [->|Hnei].
        -- rewrite Hbk in Hbi. injection Hbi as <-. rewrite not_elem_of_cons.
           split; [|by eapply Hu]. intros ->.
           by apply (private_ne c t _ Hinv Ht t' q new Hne Hq eq_refl).
        -- rewrite Hbk' in Hbi by done. by eapply Hu.
  - intros k'. unfold alookup. simpl. destruct (decide (kv_hash k' = kv_hash k)) as [Eh|Eh].
    + rewrite Eh, Hbk, Hb. cbn [bucket_get]. rewrite Hnew. cbn [key value].
      case_decide as Hd; [subst; by rewrite Z.eqb_refl|].
      destruct (k =? k') eqn:E; to_prop; [congruence|done].
    + rewrite decide_False by congruence. by rewrite Hbk'.
Qed.

(** ** One step of the scan *)

Lemma scan_hit hp nodes k l rest kv :
  (rest ⊆ nodes) → hp !! l = Some (Some kv) → key kv = k →
  find_node hp (l :: rest) k = Some l ∧ bucket_get hp (l :: rest) k = Some (value kv).
Proof. intros _ Hl <-. cbn [find_node bucket_get]. by rewrite Hl, Z.eqb_refl. Qed.

Lemma scan_miss hp k l rest kv :
  hp !! l = Some (Some kv) → key kv ≠ k →
  find_node hp (l :: rest) k = find_node hp rest k ∧
  bucket_get hp (l :: rest) k = bucket_get hp rest k.
Proof.
  intros Hl Hne. cbn [find_node bucket_get]. rewrite Hl.
  by rewrite (proj2 (Z.eqb_neq _ _) Hne).
Qed.

#[local] Arguments find_node : simpl never.
#[local] Arguments bucket_get : simpl never.

Lemma alookup_threads c th k : alookup (CState (heap c) (buckets c) (owner c) th) k = alookup c k.
Proof. done. Qed.

(** ** Every step implements the atomic object *)

(** What a step does to the contents, beside keeping the invariant. *)
Definition contents_after (c : cstate) (p p' : pc) (c' : cstate) : Prop :=
  (phase p' = phase p ∧ ∀ k, alookup c' k = alookup c k) ∨
  ∃ o z, phase p = Pending o ∧ phase p' = Done z ∧ takes_effect (alookup c) o z (alookup c').

Definition moves (c : cstate) (t : Z) (p p' : pc) (c' : cstate) : Prop :=
  inv c' ∧ threads c !! t = Some p ∧ threads c' = goto c t p' ∧ contents_after c p p' c'.

Lemma moves_silent c t p p' c' : threads c !! t = Some p → threads c' = goto c t p' → phase p' = phase p →
  inv c' ∧ (∀ k, alookup c' k = alookup c k) → moves c t p p' c'.
Proof. intros H1 H2 H3 [H4 H5]. split_and!; [done..|]. by left. Qed.

Lemma moves_effect c t p p' c' o z : threads c !! t = Some p → threads c' = goto c t p' → phase p = Pending o → phase p' = Done z →
  inv c' ∧ takes_effect (alookup c) o z (alookup c') → moves c t p p' c'.
Proof. intros H1 H2 H3 H4 [H5 H6]. split_and!; [done..|]. right. by exists o, z. Qed.

Ltac silent H := eexists _, _, _; apply (moves_silent _ _ _ _ _ H); [reflexivity|reflexivity|].
Ltac effect H := eexists _, _, _; eapply (moves_effect _ _ _ _ _ _ _ H); [reflexivity|reflexivity|reflexivity|].
Ltac local_inv H1 H2 := split; [apply (step_local _ _ _ H1 H2); simpl; [naive_solver|] | done].

(** The answer of a scan is the one of the map. *)
Lemma scan_answer c t k rest r : inv c → threads c !! t = Some (RScan k rest) → bucket_get (heap c) rest k = r → alookup c k = r.
Proof.
  intros Hinv Ht Hr. destruct (ok_holds _ _ _ (step_ok _ _ _ Hinv Ht) (kv_hash k) eq_refl) as (_ & nodes & Hb & Hsub & _ & Hg).
  unfold alookup. by rewrite Hb, Hg.
Qed.

(** Releasing a bucket lock. *)
Lemma release_inv c t p p' h ow : inv c → threads c !! t = Some p → holds p = Some h → zinsert (owner c) h None = Some ow →
  holds p' = None → (∀ n, private p' = Some n → private p = Some n) → inv (CState (heap c) (buckets c) ow (goto c t p')).
Proof.
  intros Hinv Ht Hh Ho Hh' Hp. apply (step_lock _ _ _ Hinv Ht h None); [done| |done|by rewrite Hh'].
  intros t' Hne. destruct (ok_holds _ _ _ (step_ok _ _ _ Hinv Ht) h Hh). congruence.
Qed.

Lemma step_inside c c' : inv c → cstep c Tau c' → ∃ t p p', moves c t p p' c'.
Proof.
  intros Hinv Hs. inversion Hs as [|t k v Ht|t k v new Ht Hn|t k v new o nodes Ht Hf Ho Hb|t k v new l rest kv Ht Hl Hk
    |t k v new l rest kv Ht Hl Hk|t k v new Ht|t k v new f kv Ht Hf|t k new o Ht Ho|t new Ht
    |t k v new Ht|t k v new nodes b Ht Hb Hi|t k o Ht Ho|t k o nodes Ht Hf Ho Hb|t k l rest kv Ht Hl Hk
    |t k l rest kv Ht Hl Hk|t k Ht|t k z o Ht Ho|]; subst.
  - effect Ht. split; [apply (step_local _ _ _ Hinv Ht); simpl; naive_solver|by right].
  - silent Ht. apply (step_heap _ _ _ Hinv Ht _ new); simpl; [|by right| |done].
    + intros l Hne. by apply lookup_insert_ne, not_eq_sym.
    + intros m [= <-]. by rewrite lookup_insert_eq.
  - silent Ht. split; [|done]. apply (step_lock _ _ _ Hinv Ht (kv_hash k) (Some t)); simpl; auto.
    + intros t' _. congruence.
    + intros h' [= <-]. split; [done|]. split; [done|]. by exists nodes.
  - silent Ht. local_inv Hinv Ht. intros h [= <-]. split; [done|]. intros nodes _ (Hsub & -> & _).
    by apply (scan_hit _ rest (key kv) l rest kv).
  - silent Ht. local_inv Hinv Ht. intros h [= <-]. split; [done|]. intros nodes _ (Hsub & -> & ->).
    destruct (scan_miss (heap c) k l rest kv Hl Hk) as [-> ->]. split; [|done]. set_solver.
  - silent Ht. local_inv Hinv Ht. intros h [= <-]. split; [done|]. by intros nodes _ (_ & -> & _).
  - effect Ht. destruct (step_update c t k v new f kv Hinv Ht Hf) as [H1 H2]. split; [done|by left].
  - silent Ht. split; [|done]. by apply (release_inv c t _ _ (kv_hash k) _ Hinv Ht).
  - silent Ht. apply (step_heap _ _ _ Hinv Ht _ new); simpl; [|by left|done|done].
    intros l Hne. by apply lookup_delete_ne, not_eq_sym.
  - silent Ht. apply (step_heap _ _ _ Hinv Ht _ new); simpl; [|by left| |].
    + intros l Hne. by apply lookup_insert_ne, not_eq_sym.
    + intros m [= <-]. by rewrite lookup_insert_eq.
    + intros h [= <-]. split; [done|]. intros nodes _ Hni Hfn. rewrite lookup_insert_eq.
      split; [|done]. rewrite (find_node_frame (heap c)); [done|].
      intros l Hl. apply lookup_insert_ne. by intros <-.
  - effect Ht. destruct (step_link c t k v new nodes b Hinv Ht Hb Hi) as [H1 H2]. split; [done|by left].
  - silent Ht. split; [|done]. by apply (release_inv c t _ _ (kv_hash k) _ Hinv Ht).
  - silent Ht. split; [|done]. apply (step_lock _ _ _ Hinv Ht (kv_hash k) (Some t)); simpl; auto.
    + intros t' _. congruence.
    + intros h' [= <-]. split; [done|]. split; [done|]. by exists nodes.
  - effect Ht. split; [apply (step_local _ _ _ Hinv Ht); simpl; naive_solver|]. split; [|done].
    by rewrite (scan_answer c t (key kv) (l :: rest) (Some (value kv)) Hinv Ht (proj2 (scan_hit _ rest (key kv) l rest kv ltac:(done) Hl eq_refl))).
  - silent Ht. local_inv Hinv Ht. intros h [= <-]. split; [done|]. intros nodes _ (Hsub & -> & ->).
    destruct (scan_miss (heap c) k l rest kv Hl Hk) as [-> ->]. split; [|done]. set_solver.
  - effect Ht. split; [apply (step_local _ _ _ Hinv Ht); simpl; naive_solver|]. split; [|done]. by rewrite (scan_answer c t k [] None Hinv Ht eq_refl).
  - silent Ht. split; [|done]. by apply (release_inv c t _ _ (kv_hash k) _ Hinv Ht).
Qed.

(** Invoking and returning leave the contents. *)
Lemma step_outside c th : inv c → (∀ t p, th !! t = Some p → threads c !! t = Some p ∨ private p = None ∧ holds p = None) →
  inv (CState (heap c) (buckets c) (owner c) th).
Proof.
  intros Hinv Hth. split; [apply (inv_nodes _ Hinv)| |]; simpl.
  - intros t p Hp. destruct (Hth t p Hp) as [H|[H1 H2]]; [by apply others_same|]. split; [by rewrite H1|by rewrite H2].
  - intros t1 t2 p1 p2 n H1 H2 P1 P2. destruct (Hth _ _ H1) as [Q1|[Q1 _]]; [|congruence]. destruct (Hth _ _ H2) as [Q2|[Q2 _]]; [|congruence].
    by apply (inv_private _ Hinv _ _ p1 p2 n).
Qed.

(** One step of the threads is one step of the object, or none if it cannot be seen. *)
Lemma step_simulates c e c' a : inv c → implements c a → cstep c e c' →
  inv c' ∧ ∃ a', implements c' a' ∧ ((e = Tau ∧ a' = a) ∨ astep a e a').
Proof.
  intros Hinv [Hm Hp] Hs. assert (e = Tau ∨ e ≠ Tau) as [->|He] by (destruct e; auto).
  - destruct (step_inside c c' Hinv Hs) as (t & p & p' & Hinv' & Ht & Hth & Hc). split; [done|].
    destruct Hc as [[Hph Hk]|(o & z & Ho & Hz & He)].
    + exists a. split; [|by left]. split; [intros k; by rewrite Hm, Hk|]. rewrite Hp, Hth. unfold goto. rewrite fmap_insert, Hph. symmetry. apply insert_id. by rewrite lookup_fmap, Ht.
    + exists (Object (alookup c') (<[t := Done z]> (callers a))). split; [split; [done|]; cbn; rewrite Hp, Hth; unfold goto; by rewrite fmap_insert, Hz|].
      right. apply a_effect with o; [by rewrite Hp, lookup_fmap, Ht; cbn; rewrite Ho|]. destruct o as [k v|k]; cbn in *; [|destruct He as [-> He]; split; [by rewrite Hm|intros k'; by rewrite Hm]].
      destruct He as [[-> He]|[-> He]]; [left|right]; (split; [done|]); intros k'; by rewrite Hm.
  - inversion Hs as [t o Ht| | | | | | | | | | | | | | | | | |t z Ht]; subst; try done; (split; [apply step_outside; [done|]|]).
    + intros t' p Hq. unfold goto in Hq. apply lookup_insert_Some in Hq as [[-> <-]|[_ Hq]]; [right; by destruct o|by left].
    + exists (Object (contents a) (<[t := Pending o]> (callers a))). split; [split; [done|]; cbn; rewrite Hp; unfold goto; rewrite fmap_insert; by destruct o|]. right. apply a_invoke. by rewrite Hp, lookup_fmap, Ht.
    + intros t' p Hq. apply lookup_delete_Some in Hq as [_ Hq]. by left.
    + exists (Object (contents a) (delete t (callers a))). split; [split; [done|]; cbn; by rewrite Hp, fmap_delete|]. right. apply a_return. by rewrite Hp, lookup_fmap, Ht.
Qed.

(** A store implements what its buckets hold. *)
Lemma step_inv c e c' : inv c → cstep c e c' → inv c'.
Proof. intros Hinv Hs. by destruct (step_simulates c e c' (Object (alookup c) (phase <$> threads c)) Hinv ltac:(done) Hs). Qed.

(** C9: The calls of the threads of a process are linearizable.  Whatever the
    threads do at the same time, one shared access at a time, what can be seen of
    it - which thread invokes which call with which arguments, and which value
    each call returns, in this order - can also be seen of an object that is one
    map and on which every call takes effect in one step between its invocation
    and its return: a write stores the value and returns 0, or fails with ENOMEM
    and changes nothing; a read returns the value of the key, or ENOENT.  At the
    end the object holds what the buckets hold. *)
Theorem kv_linearizable c a tr c' : inv c → implements c a → runs cstep c tr c' →
  inv c' ∧ ∃ a', runs astep a tr a' ∧ implements c' a'.
Proof.
  intros Hinv Ha Hr. revert a Ha. induction Hr as [c|c c1 tr c2 Hs _ IH|c e c1 tr c2 He Hs _ IH]; intros a Ha.
  - split; [done|]. exists a. split; [constructor|done].
  - destruct (step_simulates _ _ _ _ Hinv Ha Hs) as (Hinv1 & a1 & Ha1 & Hst). destruct (IH Hinv1 a1 Ha1) as (Hinv2 & a2 & Hr & Ha2). split; [done|]. exists a2. split; [|done].
    destruct Hst as [[_ ->]|Hst]; [done|by econstructor].
  - destruct (step_simulates _ _ _ _ Hinv Ha Hs) as (Hinv1 & a1 & Ha1 & [[-> _]|Hst]); [done|]. destruct (IH Hinv1 a1 Ha1) as (Hinv2 & a2 & Hr & Ha2). split; [done|]. exists a2. split; [|done]. by econstructor.
Qed.

(** two threads never hold the lock of the same bucket. *)
Theorem kv_mutual_exclusion c t1 t2 p1 p2 h :
  inv c → threads c !! t1 = Some p1 → threads c !! t2 = Some p2 →
  holds p1 = Some h → holds p2 = Some h → t1 = t2.
Proof.
  intros Hinv H1 H2 Hh1 Hh2.
  destruct (ok_holds _ _ _ (inv_pc _ Hinv _ _ H1) h Hh1) as [E1 _].
  destruct (ok_holds _ _ _ (inv_pc _ Hinv _ _ H2) h Hh2) as [E2 _]. congruence.
Qed.

(** Steps a lock holder still takes before it releases the lock. *)
Definition remaining (p : pc) : nat :=
  match p with
  | WScan _ _ _ rest => (5 + length rest)%nat
  | WInit _ _ _ => 4%nat
  | WUpdate _ _ _ _ | WLink _ _ _ => 3
  | RScan _ rest => (3 + length rest)%nat
  | WUnlockFree _ _ | WUnlock _ | RUnlock _ _ => 2
  | _ => 0
  end.

Ltac take_step lem :=
  do 3 eexists; split; [by eapply lem|]; split; [reflexivity|]; simpl; split; [lia|auto].

(** C38: a thread that holds a bucket lock is never stuck: it can always take a
    step (no access faults), and after it either the lock is released or fewer
    of its own steps remain until it is. *)
Theorem kv_holder_progress c t p h :
  inv c → threads c !! t = Some p → holds p = Some h →
  ∃ e c' p', cstep c e c' ∧ threads c' = <[t := p']> (threads c) ∧
    (remaining p' < remaining p)%nat ∧
    (holds p' = Some h ∨ (holds p' = None ∧ zlookup (owner c') h = Some None)).
Proof.
  intros Hinv Ht Hh. destruct (ok_holds _ _ _ (inv_pc _ Hinv _ _ Ht) h Hh) as (Ho & nodes & Hb & Hk).
  assert (∃ o, zinsert (owner c) h None = Some o) as [o Hoi].
  { eexists. apply zinsert_Some. by eapply zlookup_range. }
  pose proof (zlookup_insert_eq _ _ _ _ Hoi) as Hrel.
  assert (∀ l rest, l :: rest ⊆ nodes → ∃ kv, heap c !! l = Some (Some kv)) as Hall.
  { intros l rest Hs. destruct (inv_nodes _ Hinv h nodes l Hb) as (kv & ? & _); [set_solver|eauto]. }
  destruct p as [| |k v new [|l rest]|k v new f|k new| |k v new|k v new|k| |k [|l rest]|k z|];
    try discriminate Hh; injection Hh as <-; simpl in Hk.
  - take_step s_wscan_end.
  - destruct Hk as [Hs _]. destruct (Hall l rest Hs) as [kv Hkv]. destruct (decide (key kv = k)).
    + take_step s_wscan_hit.
    + take_step s_wscan_miss.
  - destruct (find_node_Some _ _ _ _ Hk) as [_ (kv & Hkv & _)]. take_step s_update.
  - take_step s_unlock_free.
  - take_step s_init.
  - assert (zinsert (buckets c) (kv_hash k) (new :: nodes) = Some
      (<[Z.to_nat (kv_hash k) := new :: nodes]> (buckets c)))
      by (apply zinsert_Some; by eapply zlookup_range).
    take_step s_link.
  - take_step s_unlock.
  - take_step s_rscan_end.
  - destruct Hk as [Hs _]. destruct (Hall l rest Hs) as [kv Hkv]. destruct (decide (key kv = k)).
    + take_step s_rscan_hit.
    + take_step s_rscan_miss.
  - take_step s_runlock.
Qed.

(** ** A concrete run: thread 2 reads key 42 while thread 1 is about to write it *)

Definition c0 : cstate :=
  CState ∅ (replicate 1024 []) (replicate 1024 None) (<[1 := WCall 42 7]> (<[2 := RCall 42]> ∅)).

Lemma c0_threads t p : threads c0 !! t = Some p → p = WCall 42 7 ∨ p = RCall 42.
Proof.
  unfold c0. cbn [threads]. intros H.
  apply lookup_insert_Some in H as [[_ <-]|[_ H]]; [by left|].
  apply lookup_insert_Some in H as [[_ <-]|[_ H]]; [by right|]. by rewrite lookup_empty in H.
Qed.

Lemma c0_inv : inv c0.
Proof.
  split.
  - intros i b l Hb Hl. unfold c0, zlookup in Hb. cbn [buckets] in Hb. destruct (i <? 0); [done|].
    apply lookup_replicate in Hb as [-> _]. by apply not_elem_of_nil in Hl.
  - intros t p [-> | ->]%c0_threads; split; discriminate.
  - intros t1 t2 p1 p2 n [-> | ->]%c0_threads _; discriminate.
Qed.

Definition c1 : cstate :=
  CState ∅ (replicate 1024 []) (<[42%nat := Some 2]> (replicate 1024 None))
    (<[2 := RScan 42 []]> (threads c0)).

Lemma c0_c1 : cstep c0 Tau c1.
Proof. by apply (s_rlock c0 2 42 _ []). Qed.

Lemma c1_inv : inv c1.
Proof. apply (step_inv c0 Tau c1 c0_inv c0_c1). Qed.

(** Two threads from an empty store on: while thread 2 reads key 42, thread 1 writes it, and then
    writes it again; the reader gets the first value. *)
Definition c_start : cstate := CState ∅ (replicate 1024 []) (replicate 1024 None) ∅.

Lemma c_start_inv : inv c_start.
Proof.
  split; [|done|done]. intros i b l Hb Hl. unfold c_start, zlookup in Hb. cbn [buckets] in Hb. destruct (i <? 0); [done|].
  apply lookup_replicate in Hb as [-> _]. by apply not_elem_of_nil in Hl.
Qed.

Definition demo_trace : list event :=
  [Invoke 1 (Write 42 7); Invoke 2 (Read 42); Return 1 0; Invoke 1 (Write 42 8); Return 2 7; Return 1 0].

(** The states of the run: bucket 42 with its lock, the nodes, and the threads in the store. *)
Definition lists (b : list positive) : list (list positive) := <[42%nat := b]> (replicate 1024 []).
Definition locks (o : option Z) : list (option Z) := <[42%nat := o]> (replicate 1024 None).

Definition demo (hp : list (positive * option kv_pair)) (b : list positive) (o : option Z) (th : list (Z * pc)) : cstate :=
  CState (list_to_map hp) (lists b) (locks o) (list_to_map th).

Lemma runs_to_tau c c' c1 tr c2 : cstep c Tau c' → c' = c1 → runs cstep c1 tr c2 → runs cstep c tr c2.
Proof. intros H <-. by apply runs_tau. Qed.

Lemma runs_to_event c e c' c1 tr c2 : e ≠ Tau → cstep c e c' → c' = c1 → runs cstep c1 tr c2 → runs cstep c (e :: tr) c2.
Proof. intros ? H <-. by apply runs_event. Qed.

Ltac rfl := vm_compute; reflexivity.
Ltac step_with H := eapply H; rfl.
Ltac tau H c := eapply (runs_to_tau _ _ c); [step_with H|rfl|].
Ltac seen H c := eapply (runs_to_event _ _ _ c); [discriminate|step_with H|rfl|].

Local Notation "'kv7'" := (1%positive, Some (KvPair 42 7)).
Local Notation "'kv8'" := (1%positive, Some (KvPair 42 8)).

Definition demo_mid : cstate := demo [kv7] [1%positive] (Some 2) [(2, RScan 42 [1%positive])].
Definition demo_end : cstate := demo [kv8] [1%positive] None [].

(** The reader waits for the lock; it has it when the writer returns. *)
Lemma demo_first tr c : runs cstep demo_mid tr c →
  runs cstep c_start (Invoke 1 (Write 42 7) :: Invoke 2 (Read 42) :: Return 1 0 :: tr) c.
Proof.
  intros H.
  seen (s_invoke c_start 1 (Write 42 7)) (demo [] [] None [(1, WCall 42 7)]).
  tau (s_alloc (demo [] [] None [(1, WCall 42 7)]) 1 42 7 1) (demo [(1%positive, None)] [] None [(1, WLock 42 7 1)]).
  seen (s_invoke (demo [(1%positive, None)] [] None [(1, WLock 42 7 1)]) 2 (Read 42)) (demo [(1%positive, None)] [] None [(1, WLock 42 7 1); (2, RCall 42)]).
  tau (s_wlock (demo [(1%positive, None)] [] None [(1, WLock 42 7 1); (2, RCall 42)]) 1 42 7 1 (locks (Some 1)) []) (demo [(1%positive, None)] [] (Some 1) [(1, WScan 42 7 1 []); (2, RCall 42)]).
  tau (s_wscan_end (demo [(1%positive, None)] [] (Some 1) [(1, WScan 42 7 1 []); (2, RCall 42)]) 1 42 7 1) (demo [(1%positive, None)] [] (Some 1) [(1, WInit 42 7 1); (2, RCall 42)]).
  tau (s_init (demo [(1%positive, None)] [] (Some 1) [(1, WInit 42 7 1); (2, RCall 42)]) 1 42 7 1) (demo [kv7] [] (Some 1) [(1, WLink 42 7 1); (2, RCall 42)]).
  tau (s_link (demo [kv7] [] (Some 1) [(1, WLink 42 7 1); (2, RCall 42)]) 1 42 7 1 [] (lists [1%positive])) (demo [kv7] [1%positive] (Some 1) [(1, WUnlock 42); (2, RCall 42)]).
  tau (s_unlock (demo [kv7] [1%positive] (Some 1) [(1, WUnlock 42); (2, RCall 42)]) 1 42 (locks None)) (demo [kv7] [1%positive] None [(1, Ret 0); (2, RCall 42)]).
  tau (s_rlock (demo [kv7] [1%positive] None [(1, Ret 0); (2, RCall 42)]) 2 42 (locks (Some 2)) [1%positive]) (demo [kv7] [1%positive] (Some 2) [(1, Ret 0); (2, RScan 42 [1%positive])]).
  seen (s_return (demo [kv7] [1%positive] (Some 2) [(1, Ret 0); (2, RScan 42 [1%positive])]) 1 0) (demo [kv7] [1%positive] (Some 2) [(2, RScan 42 [1%positive])]).
  exact H.
Qed.

(** The second write waits for the reader and replaces the value; its node is freed again. *)
Lemma demo_second : runs cstep demo_mid [Invoke 1 (Write 42 8); Return 2 7; Return 1 0] demo_end.
Proof.
  seen (s_invoke (demo [kv7] [1%positive] (Some 2) [(2, RScan 42 [1%positive])]) 1 (Write 42 8)) (demo [kv7] [1%positive] (Some 2) [(1, WCall 42 8); (2, RScan 42 [1%positive])]).
  tau (s_alloc (demo [kv7] [1%positive] (Some 2) [(1, WCall 42 8); (2, RScan 42 [1%positive])]) 1 42 8 2) (demo [kv7; (2%positive, None)] [1%positive] (Some 2) [(1, WLock 42 8 2); (2, RScan 42 [1%positive])]).
  tau (s_rscan_hit (demo [kv7; (2%positive, None)] [1%positive] (Some 2) [(1, WLock 42 8 2); (2, RScan 42 [1%positive])]) 2 42 1 [] (KvPair 42 7)) (demo [kv7; (2%positive, None)] [1%positive] (Some 2) [(1, WLock 42 8 2); (2, RUnlock 42 7)]).
  tau (s_runlock (demo [kv7; (2%positive, None)] [1%positive] (Some 2) [(1, WLock 42 8 2); (2, RUnlock 42 7)]) 2 42 7 (locks None)) (demo [kv7; (2%positive, None)] [1%positive] None [(1, WLock 42 8 2); (2, Ret 7)]).
  tau (s_wlock (demo [kv7; (2%positive, None)] [1%positive] None [(1, WLock 42 8 2); (2, Ret 7)]) 1 42 8 2 (locks (Some 1)) [1%positive]) (demo [kv7; (2%positive, None)] [1%positive] (Some 1) [(1, WScan 42 8 2 [1%positive]); (2, Ret 7)]).
  tau (s_wscan_hit (demo [kv7; (2%positive, None)] [1%positive] (Some 1) [(1, WScan 42 8 2 [1%positive]); (2, Ret 7)]) 1 42 8 2 1 [] (KvPair 42 7)) (demo [kv7; (2%positive, None)] [1%positive] (Some 1) [(1, WUpdate 42 8 2 1); (2, Ret 7)]).
  tau (s_update (demo [kv7; (2%positive, None)] [1%positive] (Some 1) [(1, WUpdate 42 8 2 1); (2, Ret 7)]) 1 42 8 2 1 (KvPair 42 7)) (demo [kv8; (2%positive, None)] [1%positive] (Some 1) [(1, WUnlockFree 42 2); (2, Ret 7)]).
  seen (s_return (demo [kv8; (2%positive, None)] [1%positive] (Some 1) [(1, WUnlockFree 42 2); (2, Ret 7)]) 2 7) (demo [kv8; (2%positive, None)] [1%positive] (Some 1) [(1, WUnlockFree 42 2)]).
  tau (s_unlock_free (demo [kv8; (2%positive, None)] [1%positive] (Some 1) [(1, WUnlockFree 42 2)]) 1 42 2 (locks None)) (demo [kv8; (2%positive, None)] [1%positive] None [(1, WFree 2)]).
  tau (s_free (demo [kv8; (2%positive, None)] [1%positive] None [(1, WFree 2)]) 1 2) (demo [kv8] [1%positive] None [(1, Ret 0)]).
  seen (s_return (demo [kv8] [1%positive] None [(1, Ret 0)]) 1 0) demo_end.
  apply runs_nil.
Qed.

Lemma kv_linearizable_witness : alookup demo_end 42 = Some 8 ∧
  inv demo_end ∧ ∃ a', runs astep (Object (λ _, None) ∅) demo_trace a' ∧ implements demo_end a'.
Proof.
  split; [reflexivity|].
  apply (kv_linearizable c_start (Object (λ _, None) ∅) demo_trace demo_end c_start_inv); [|exact (demo_first _ _ demo_second)].
  split; [|reflexivity]. intros k. unfold alookup, c_start, zlookup. cbn [buckets contents]. destruct (kv_hash k <? 0); [reflexivity|].
  destruct (replicate 1024 [] !! Z.to_nat (kv_hash k)) as [b|] eqn:E; [|reflexivity]. apply lookup_replicate in E as [-> _]. reflexivity.
Defined.

Lemma kv_mutual_exclusion_witness : (2 : Z) = 2.
Proof.
  apply (kv_mutual_exclusion c1 2 2 (RScan 42 []) (RScan 42 []) 42 c1_inv); reflexivity.
Defined.

Lemma kv_holder_progress_witness : ∃ e c', cstep c1 e c'.
Proof.
  destruct (kv_holder_progress c1 2 (RScan 42 []) 42 c1_inv) as (e & c' & _ & H & _);
    [reflexivity|reflexivity|]. exists e, c'. exact H.
Defined.

End KvConcurrent.
