(* ===== verification/SocketFairness.v ===== *)
(** * Per-thread socket fairness management

    net/core/socket_fairness.c and net/core/socket_fairness.h: the global
    manager, its list of per-thread statistics and the operations on them.

    The list of statistics is kept in list order.  A pointer to statistics is
    either an element of the list or the pointer that [list_for_each_entry]
    leaves behind when it runs off the end: the address of the list head taken
    for a [struct thread_socket_stats].  That address lies inside the manager,
    so the statistics fields read and written through it are the manager's own
    fields: with [list] at offset 0 of the statistics, [tid] (offset 16) is
    [max_sockets_per_thread], [active_sockets] (offset 20) is
    [max_pending_per_thread], and [throttled_count] (offset 36) is past the end
    of the manager. *)

From Stdlib Require Import ZArith Lia.
From stdpp Require Import base numbers list gmap strings.
From S2P Require Import Prelude.

Module SocketFairness.

(** ** Data *)

Record thread_socket_stats := Stats {
  tid : Z;
  active_sockets : Z;
  total_bytes_sent : Z;
  total_bytes_received : Z;
  pending_requests : Z;
  throttled_count : Z;
  last_throttled : Z }.

(** The manager and the [is_initialized] flag of the file. *)
Record socket_fairness_manager := Mgr {
  threads : list thread_socket_stats;
  max_sockets_per_thread : Z;
  max_pending_per_thread : Z;
  throttle_threshold : Z;
  fairness_enabled : bool;
  is_initialized : bool }.

Abbreviation fst_ := (st socket_fairness_manager).

(** The manager before initialisation: zeroed static storage. *)
Definition mgr0 : socket_fairness_manager := Mgr [] 0 0 0 false false.

Inductive stats_ptr := SNode (i : nat) | SHead.

Definition with_threads (m : socket_fairness_manager) (l : list thread_socket_stats) :=
  Mgr l (max_sockets_per_thread m) (max_pending_per_thread m) (throttle_threshold m)
    (fairness_enabled m) (is_initialized m).

Definition with_max_pending (m : socket_fairness_manager) (v : Z) :=
  Mgr (threads m) (max_sockets_per_thread m) v (throttle_threshold m)
    (fairness_enabled m) (is_initialized m).

Definition with_active (s : thread_socket_stats) (v : Z) :=
  Stats (tid s) v (total_bytes_sent s) (total_bytes_received s) (pending_requests s)
    (throttled_count s) (last_throttled s).

(** ** Field accesses through a statistics pointer *)

Definition load_node (p : nat) : fst_ thread_socket_stats :=
  m ← get; lift (threads m !! p).

Definition store_node (p : nat) (s : thread_socket_stats) : fst_ unit :=
  modify (λ m, with_threads m (<[p := s]> (threads m))).

(** [atomic_read(&stats->active_sockets)]: a signed 32-bit value. *)
Definition read_active (p : stats_ptr) : fst_ Z :=
  match p with
  | SNode i => s ← load_node i; mret (active_sockets s)
  | SHead => m ← get; mret (s32 (max_pending_per_thread m))
  end.

Definition write_active (p : stats_ptr) (v : Z) : fst_ unit :=
  match p with
  | SNode i => s ← load_node i; store_node i (with_active s (s32 v))
  | SHead => modify (λ m, with_max_pending m (u32 v))
  end.

(** [atomic_inc(&stats->throttled_count)] *)
Definition inc_throttled (p : stats_ptr) : fst_ unit :=
  match p with
  | SNode i =>
      s ← load_node i;
      store_node i (Stats (tid s) (active_sockets s) (total_bytes_sent s) (total_bytes_received s)
        (pending_requests s) (s32 (throttled_count s + 1)) (last_throttled s))
  | SHead => fault
  end.

(** ** socket_fairness.c *)

Definition socket_fairness_init : fst_ Z :=
  m ← get;
  if is_initialized m then mret 0
  else put (Mgr [] 10 5 1000 true true) ;; mret 0.

(** Every statistics object is unlinked and freed. *)
Fixpoint free_all (l : list thread_socket_stats) : fst_ unit :=
  match l with
  | [] => mret tt
  | _ :: l => modify (λ m, with_threads m l) ;; free_all l
  end.

Definition socket_fairness_exit : fst_ unit :=
  m ← get; free_all (threads m).

(** The list walk: the index of the first statistics of the thread. *)
Fixpoint find_stats (l : list thread_socket_stats) (t : Z) : option nat :=
  match l with
  | [] => None
  | s :: l => if tid s =? t then Some O else S <$> find_stats l t
  end.

Definition fresh_stats (t : Z) : thread_socket_stats := Stats t 0 0 0 0 0 0.

(** [mem] says whether [kmalloc] succeeds.  The result [None] is NULL. *)
Definition get_thread_socket_stats (mem : bool) (t : Z) (create : bool) : fst_ (option stats_ptr) :=
  m0 ← get;
  (if is_initialized m0 then mret tt else socket_fairness_init ;; mret tt) ;;
  m ← get;
  match find_stats (threads m) t with
  | Some i => mret (Some (SNode i))
  | None =>
      if create then
        if mem then
          modify (λ m, with_threads m (fresh_stats t :: threads m)) ;; mret (Some (SNode O))
        else mret None
      else mret (Some SHead)
  end.

(** The comparisons of an [atomic_t] with an [unsigned int] are unsigned. *)
Definition check_socket_allocation_allowed (mem : bool) (jiffies : Z) (t : Z) : fst_ bool :=
  m ← get;
  if negb (fairness_enabled m) then mret true
  else
    stats ← get_thread_socket_stats mem t true;
    match stats with
    | None => mret true
    | Some SHead => fault
    | Some (SNode i) =>
        s ← load_node i;
        m ← get;
        if (max_sockets_per_thread m <=? u32 (active_sockets s)) ||
           (max_pending_per_thread m <=? u32 (pending_requests s))
        then
          inc_throttled (SNode i) ;;
          s ← load_node i;
          store_node i (Stats (tid s) (active_sockets s) (total_bytes_sent s)
            (total_bytes_received s) (pending_requests s) (throttled_count s) (u64 jiffies)) ;;
          mret false
        else mret true
    end.

Definition should_throttle_transmission (t : Z) : fst_ bool :=
  m ← get;
  if negb (fairness_enabled m) then mret false
  else
    stats ← get_thread_socket_stats false t false;
    match stats with
    | None => mret false
    | Some p =>
        a ← read_active p;
        m ← get;
        if max_sockets_per_thread m <? u32 a
        then inc_throttled p ;; mret true
        else mret false
    end.

Definition update_socket_traffic (mem : bool) (t sent received : Z) : fst_ unit :=
  stats ← get_thread_socket_stats mem t true;
  match stats with
  | None => mret tt
  | Some SHead => fault
  | Some (SNode i) =>
      s ← load_node i;
      store_node i (Stats (tid s) (active_sockets s)
        (s32 (total_bytes_sent s + s32 sent)) (s32 (total_bytes_received s + s32 received))
        (pending_requests s) (throttled_count s) (last_throttled s))
  end.

Definition register_socket_for_thread (mem : bool) (t : Z) : fst_ unit :=
  stats ← get_thread_socket_stats mem t true;
  match stats with
  | None => mret tt
  | Some p => a ← read_active p; write_active p (a + 1)
  end.

Definition unregister_socket_for_thread (t : Z) : fst_ unit :=
  stats ← get_thread_socket_stats false t false;
  match stats with
  | None => mret tt
  | Some p =>
      a ← read_active p;
      if 0 <? a then write_active p (a - 1) else mret tt
  end.

(** The lines that [/proc/socket_fairness] shows, as label and value. *)
Definition socket_fairness_proc_show (m : socket_fairness_manager) : list (string * Z) :=
  s ← threads m;
  [ ("Thread PID", tid s);
    ("Active Sockets", active_sockets s);
    ("Pending Requests", pending_requests s);
    ("Total Bytes Sent", total_bytes_sent s);
    ("Total Bytes Received", total_bytes_received s);
    ("Throttled Count", throttled_count s);
    ("Last Throttled", last_throttled s) ]%string.

(** [proc] says whether [proc_create] succeeds. *)
Definition socket_fairness_module_init (proc : bool) : fst_ Z :=
  if proc then socket_fairness_init ;; mret 0 else mret (- ENOMEM).

Definition socket_fairness_module_exit : fst_ unit := socket_fairness_exit.

(** ** Abstract view: the number of active sockets of each tracked thread *)

Definition view (m : socket_fairness_manager) : gmap Z Z :=
  list_to_map ((λ s, (tid s, active_sockets s)) <$> threads m).

(** The manager invariant: initialised, one record per thread, counters in
    range, no pending request (no function of the source ever counts one) and
    the two limits in the order that the initialisation gives them. *)
Record mgr_wf (m : socket_fairness_manager) : Prop := {
  wf_init : is_initialized m = true;
  wf_nodup : NoDup (tid <$> threads m);
  wf_active : Forall (λ s, 0 ≤ active_sockets s < 2 ^ 31 ∧ pending_requests s = 0) (threads m);
  wf_limits : 0 ≤ max_pending_per_thread m ≤ max_sockets_per_thread m ∧
              max_sockets_per_thread m < 2 ^ 31 }.

(** The limits and switches of the manager, as opposed to its list. *)
Definition config (m : socket_fairness_manager) : Z * Z * Z * bool * bool :=
  (max_sockets_per_thread m, max_pending_per_thread m, throttle_threshold m,
   fairness_enabled m, is_initialized m).

Lemma view_keys m :
  ((λ s, (tid s, active_sockets s)) <$> threads m).*1 = tid <$> threads m.
Proof. rewrite <-list_fmap_compose. done. Qed.

Lemma find_stats_Some l t i :
  find_stats l t = Some i → ∃ s, l !! i = Some s ∧ tid s = t.
Proof.
  revert i. induction l as [|s l IH]; intros i; simpl; [done|].
  destruct (tid s =? t) eqn:E; to_prop.
  - intros [= <-]. eauto.
  - destruct (find_stats l t) as [j|] eqn:F; simpl; [|done]. intros [= <-].
    simpl. eauto.
Qed.

Lemma find_stats_None l t : find_stats l t = None ↔ t ∉ tid <$> l.
Proof.
  induction l as [|s l IH]; simpl; [split; [inversion 2|done]|].
  rewrite not_elem_of_cons. destruct (tid s =? t) eqn:E; to_prop.
  - split; [done|]. by intros [[] _].
  - rewrite fmap_None, IH. split; [by intros|by intros [_ ?]].
Qed.

Lemma view_None m t : find_stats (threads m) t = None ↔ view m !! t = None.
Proof.
  rewrite find_stats_None, <-view_keys. apply not_elem_of_list_to_map.
Qed.

Lemma view_lookup m i s :
  mgr_wf m → threads m !! i = Some s → view m !! tid s = Some (active_sockets s).
Proof.
  intros W Hs. apply elem_of_list_to_map.
  - rewrite view_keys. apply W.
  - apply list_elem_of_fmap. exists s. split; [done|]. by eapply list_elem_of_lookup_2.
Qed.

Lemma view_is_Some m t :
  mgr_wf m → is_Some (view m !! t) →
  ∃ i s, find_stats (threads m) t = Some i ∧ threads m !! i = Some s ∧ tid s = t ∧
         view m !! t = Some (active_sockets s).
Proof.
  intros W H. destruct (find_stats (threads m) t) as [i|] eqn:F.
  - destruct (find_stats_Some _ _ _ F) as (s & Hs & <-).
    exists i, s. eauto using view_lookup.
  - apply view_None in F. rewrite F in H. by destruct H.
Qed.

(** Replacing the record of a thread by another one of the same thread. *)
Lemma view_insert m i s s' :
  mgr_wf m → threads m !! i = Some s → tid s' = tid s →
  view (with_threads m (<[i := s']> (threads m))) = <[tid s := active_sockets s']> (view m).
Proof.
  intros W Hs Ht. unfold view. cbn [threads with_threads].
  rewrite list_fmap_insert. cbn beta. rewrite Ht.
  pose proof (wf_nodup _ W) as Hn. rewrite <-view_keys in Hn.
  assert (((λ s, (tid s, active_sockets s)) <$> threads m) !! i = Some (tid s, active_sockets s))
    as Hi by (rewrite list_lookup_fmap, Hs; done).
  revert Hn Hi. generalize ((λ s, (tid s, active_sockets s)) <$> threads m). clear.
  intros l. revert i. induction l as [|[k v] l IH]; intros i Hn Hi; [done|].
  rewrite fmap_cons, NoDup_cons in Hn. destruct Hn as [Hk Hn]. destruct i as [|i].
  - injection Hi as -> ->. simpl. by rewrite insert_insert_eq.
  - simpl in Hi. simpl. rewrite (IH i Hn Hi). apply insert_insert_ne.
    intros ->. apply Hk. apply list_elem_of_fmap. exists (tid s, active_sockets s).
    split; [done|]. by eapply list_elem_of_lookup_2.
Qed.

Lemma wf_insert m i s s' :
  mgr_wf m → threads m !! i = Some s → tid s' = tid s →
  0 ≤ active_sockets s' < 2 ^ 31 ∧ pending_requests s' = 0 →
  mgr_wf (with_threads m (<[i := s']> (threads m))).
Proof.
  intros [Wi Wn Wa Wl] Hs Ht Hr. split; cbn; [done| | |done].
  - rewrite list_fmap_insert, Ht, list_insert_id; [done|].
    rewrite list_lookup_fmap, Hs. done.
  - by apply Forall_insert.
Qed.

Lemma wf_cons m t :
  mgr_wf m → find_stats (threads m) t = None →
  mgr_wf (with_threads m (fresh_stats t :: threads m)).
Proof.
  intros [Wi Wn Wa Wl] Hf. split; cbn; [done| | |done].
  - apply NoDup_cons. split; [|done]. by apply find_stats_None in Hf.
  - apply Forall_cons. split; [|done]. cbn. lia.
Qed.

(** [get_thread_socket_stats] with [create]: the record of the thread, which
    is added with zero counters when it was missing. *)
Lemma get_stats_create m t :
  mgr_wf m →
  ∃ i s m', get_thread_socket_stats true t true m = Some (Some (SNode i), m') ∧
    mgr_wf m' ∧ config m' = config m ∧ threads m' !! i = Some s ∧ tid s = t ∧
    active_sockets s = default 0 (view m !! t) ∧
    view m' = <[t := default 0 (view m !! t)]> (view m).
Proof.
  intros W. unfold get_thread_socket_stats, mbind, st_bind, get. cbn.
  rewrite (wf_init _ W). cbn.
  destruct (find_stats (threads m) t) as [i|] eqn:F.
  - destruct (find_stats_Some _ _ _ F) as (s & Hs & <-).
    pose proof (view_lookup _ _ _ W Hs) as V.
    exists i, s, m. rewrite V. cbn. split_and!; try done.
    by rewrite insert_id.
  - apply view_None in F as V. eexists O, (fresh_stats t), _. split; [reflexivity|].
    split; [by apply wf_cons|]. rewrite V. done.
Qed.

(** [get_thread_socket_stats] without [create] for a tracked thread. *)
Lemma get_stats_tracked m mem t :
  mgr_wf m → is_Some (view m !! t) →
  ∃ i s, get_thread_socket_stats mem t false m = Some (Some (SNode i), m) ∧
    threads m !! i = Some s ∧ tid s = t ∧ view m !! t = Some (active_sockets s).
Proof.
  intros W H. destruct (view_is_Some _ _ W H) as (i & s & F & Hs & Ht & V).
  exists i, s. unfold get_thread_socket_stats, mbind, st_bind, get. cbn.
  rewrite (wf_init _ W). cbn. rewrite F. done.
Qed.

(** ... and for a thread that is not tracked: the list head. *)
Lemma get_stats_untracked m mem t :
  mgr_wf m → view m !! t = None →
  get_thread_socket_stats mem t false m = Some (Some SHead, m).
Proof.
  intros W H%view_None. unfold get_thread_socket_stats, mbind, st_bind, get. cbn.
  rewrite (wf_init _ W). cbn. rewrite H. done.
Qed.

Lemma load_node_ok m i s : threads m !! i = Some s → load_node i m = Some (s, m).
Proof. intros H. unfold load_node, get, mbind, st_bind, lift. by rewrite H. Qed.

Lemma read_active_ok m i s :
  threads m !! i = Some s → read_active (SNode i) m = Some (active_sockets s, m).
Proof. intros H. unfold read_active, mbind, st_bind. by rewrite (load_node_ok _ _ _ H). Qed.

Lemma write_active_ok m i s v :
  threads m !! i = Some s →
  write_active (SNode i) v m =
    Some (tt, with_threads m (<[i := with_active s (s32 v)]> (threads m))).
Proof. intros H. unfold write_active, mbind, st_bind. by rewrite (load_node_ok _ _ _ H). Qed.

(** Storing an in-range counter into the record of a thread. *)
Lemma write_active_view m i s v :
  mgr_wf m → threads m !! i = Some s → 0 ≤ v < 2 ^ 31 →
  ∃ m', write_active (SNode i) v m = Some (tt, m') ∧ mgr_wf m' ∧ config m' = config m ∧
        view m' = <[tid s := v]> (view m).
Proof.
  intros W Hs Hv. rewrite (write_active_ok _ _ _ _ Hs), (wrapS_small 32 v) by (unfold is_s; lia).
  pose proof (proj1 (Forall_lookup _ _) (wf_active _ W) _ _ Hs) as (_ & ?).
  eexists. split; [reflexivity|]. split; [|split; [done|]].
  - by eapply wf_insert; [done|done|reflexivity|cbn].
  - by eapply view_insert.
Qed.

Lemma register_view m t :
  mgr_wf m → default 0 (view m !! t) < 2 ^ 31 - 1 →
  ∃ m', register_socket_for_thread true t m = Some (tt, m') ∧ mgr_wf m' ∧
        config m' = config m ∧ view m' = <[t := default 0 (view m !! t) + 1]> (view m).
Proof.
  intros W H. destruct (get_stats_create m t W) as (i & s & m1 & E & W1 & C1 & Hs & Ht & Ha & V1).
  unfold register_socket_for_thread. rewrite (st_bind_step _ _ _ _ _ E); cbn beta match.
  rewrite (st_bind_step _ _ _ _ _ (read_active_ok _ _ _ Hs)); cbn beta.
  pose proof (proj1 (Forall_lookup _ _) (wf_active _ W1) _ _ Hs) as Hr. cbn beta in Hr.
  destruct (write_active_view m1 i s (active_sockets s + 1) W1 Hs) as (m2 & E2 & W2 & C2 & V2).
  { lia. }
  exists m2. split; [done|]. split; [done|]. split; [congruence|].
  rewrite V2, V1, Ht, Ha. apply insert_insert_eq.
Qed.

Lemma unregister_view m t a :
  mgr_wf m → view m !! t = Some a →
  ∃ m', unregister_socket_for_thread t m = Some (tt, m') ∧ mgr_wf m' ∧
        config m' = config m ∧ view m' = <[t := Z.max 0 (a - 1)]> (view m).
Proof.
  intros W V. destruct (get_stats_tracked m false t W) as (i & s & E & Hs & Ht & Va); [eauto|].
  unfold unregister_socket_for_thread. rewrite (st_bind_step _ _ _ _ _ E); cbn beta match.
  rewrite (st_bind_step _ _ _ _ _ (read_active_ok _ _ _ Hs)); cbn beta.
  pose proof (proj1 (Forall_lookup _ _) (wf_active _ W) _ _ Hs) as Hr. cbn beta in Hr.
  assert (a = active_sockets s) as -> by congruence.
  destruct (0 <? active_sockets s) eqn:Hp; to_prop.
  - destruct (write_active_view m i s (active_sockets s - 1) W Hs) as (m2 & E2 & W2 & C2 & V2).
    { lia. }
    exists m2. split_and!; try done. rewrite V2, Ht. f_equal. lia.
  - exists m. split_and!; try done. symmetry. apply insert_id. rewrite V. f_equal. lia.
Qed.

Lemma unregister_untracked_eq m t :
  mgr_wf m → view m !! t = None →
  unregister_socket_for_thread t m =
    Some (tt, with_max_pending m (Z.max 0 (max_pending_per_thread m - 1))).
Proof.
  intros W V. pose proof (wf_limits _ W) as [L L2].
  unfold unregister_socket_for_thread.
  rewrite (st_bind_step _ _ _ _ _ (get_stats_untracked _ false _ W V)); cbn beta match.
  unfold read_active, get, mbind, st_bind. cbn.
  rewrite (wrapS_small 32) by (unfold is_s; lia).
  destruct (0 <? max_pending_per_thread m) eqn:Hp; to_prop; cbn.
  - rewrite wrapU_small by (unfold is_u; lia). by rewrite Z.max_r by lia.
  - unfold mret, st_ret. rewrite Z.max_l by lia. destruct m; cbn in *.
    unfold with_max_pending; cbn. do 3 f_equal. lia.
Qed.

(** Rewriting the record of a thread without touching its socket count. *)
Lemma same_count_insert m i s s' :
  mgr_wf m → threads m !! i = Some s → tid s' = tid s →
  active_sockets s' = active_sockets s → pending_requests s' = 0 →
  mgr_wf (with_threads m (<[i := s']> (threads m))) ∧
  view (with_threads m (<[i := s']> (threads m))) = view m.
Proof.
  intros W Hs Ht Ha Hp.
  pose proof (proj1 (Forall_lookup _ _) (wf_active _ W) _ _ Hs) as [Hr _]. split.
  - eapply wf_insert; [done|done|done|]. by rewrite Ha.
  - rewrite (view_insert _ _ _ _ W Hs Ht), Ha. apply insert_id. by eapply view_lookup.
Qed.

(** The admission decision: the thread is below its socket limit and the
    pending limit is not zero.  The check tracks the thread. *)
Lemma check_view m j t :
  mgr_wf m → fairness_enabled m = true →
  ∃ m', check_socket_allocation_allowed true j t m =
      Some ((default 0 (view m !! t) <? max_sockets_per_thread m) &&
            (0 <? max_pending_per_thread m), m') ∧
    mgr_wf m' ∧ config m' = config m ∧ view m' = <[t := default 0 (view m !! t)]> (view m).
Proof.
  intros W He. destruct (get_stats_create m t W) as (i & s & m1 & E & W1 & C1 & Hs & Ht & Ha & V1).
  unfold check_socket_allocation_allowed.
  rewrite (st_bind_step get _ m m m) by done. cbn beta. rewrite He. cbn [negb].
  rewrite (st_bind_step _ _ _ _ _ E); cbn beta match.
  rewrite (st_bind_step _ _ _ _ _ (load_node_ok _ _ _ Hs)); cbn beta.
  rewrite (st_bind_step get _ m1 m1 m1) by done. cbn beta.
  pose proof (proj1 (Forall_lookup _ _) (wf_active _ W1) _ _ Hs) as [Hr Hp]. cbn beta in Hr, Hp.
  unfold config in C1. injection C1 as C1 C2 C3 C4 C5. rewrite C1, C2, <-Ha, Hp.
  rewrite (wrapU_small 32 (active_sockets s)), (wrapU_small 32 0) by (unfold is_u; lia).
  rewrite (Z.ltb_antisym _ (active_sockets s)), (Z.ltb_antisym _ 0), <-negb_orb.
  destruct (_ || _) eqn:G; cbn [negb].
  2: { exists m1. split; [done|]. split; [done|]. split; [unfold config; congruence|].
       by rewrite V1, Ha. }
  unfold inc_throttled, store_node, modify, mbind, st_bind, mret, st_ret.
  rewrite (load_node_ok _ _ _ Hs). cbn.
  unfold load_node, get, mbind, st_bind, lift. cbn.
  rewrite list_lookup_insert_eq by (by eapply lookup_lt_Some). cbn.
  eexists. split; [reflexivity|]. unfold with_threads; cbn. rewrite list_insert_insert_eq.
  edestruct (same_count_insert m1 i s) as [W2 V2]; [done|done| | | |split_and!].
  4: exact W2. 1-3: done.
  - unfold config; cbn; congruence.
  - etrans; [exact V2|]. by rewrite V1, Ha.
Qed.

Lemma traffic_view m t sent received :
  mgr_wf m →
  ∃ m', update_socket_traffic true t sent received m = Some (tt, m') ∧ mgr_wf m' ∧
        config m' = config m ∧ view m' = <[t := default 0 (view m !! t)]> (view m).
Proof.
  intros W. destruct (get_stats_create m t W) as (i & s & m1 & E & W1 & C1 & Hs & Ht & Ha & V1).
  unfold update_socket_traffic. rewrite (st_bind_step _ _ _ _ _ E); cbn beta match.
  rewrite (st_bind_step _ _ _ _ _ (load_node_ok _ _ _ Hs)); cbn beta.
  pose proof (proj1 (Forall_lookup _ _) (wf_active _ W1) _ _ Hs) as [Hr Hp]. cbn beta in Hr, Hp.
  eexists. split; [reflexivity|].
  edestruct (same_count_insert m1 i s) as [W2 V2]; [done|done| | | |split_and!].
  4: exact W2. 1-3: done.
  - by rewrite <-C1.
  - by rewrite V2, V1.
Qed.

(** Transmission is throttled exactly for a tracked thread above the limit. *)
Lemma throttle_view m t :
  mgr_wf m → fairness_enabled m = true →
  ∃ m', should_throttle_transmission t m =
      Some (match view m !! t with
            | Some a => max_sockets_per_thread m <? a
            | None => false
            end, m') ∧
    mgr_wf m' ∧ config m' = config m ∧ view m' = view m.
Proof.
  intros W He. pose proof (wf_limits _ W) as [L1 L2]. unfold should_throttle_transmission.
  rewrite (st_bind_step get _ m m m) by done. cbn beta. rewrite He. cbn [negb].
  destruct (view m !! t) as [a|] eqn:V.
  - destruct (get_stats_tracked m false t W) as (i & s & E & Hs & Ht & Va); [eauto|].
    rewrite (st_bind_step _ _ _ _ _ E); cbn beta match.
    rewrite (st_bind_step _ _ _ _ _ (read_active_ok _ _ _ Hs)); cbn beta.
    rewrite (st_bind_step get _ m m m) by done. cbn beta.
    pose proof (proj1 (Forall_lookup _ _) (wf_active _ W) _ _ Hs) as [Hr Hp]. cbn beta in Hr, Hp.
    rewrite wrapU_small by (unfold is_u; lia). assert (a = active_sockets s) as -> by congruence.
    destruct (_ <? _); [|by exists m].
    unfold inc_throttled, store_node, modify, mbind, st_bind, mret, st_ret.
    rewrite (load_node_ok _ _ _ Hs). eexists. split; [reflexivity|].
    edestruct (same_count_insert m i s) as [W2 V2]; [done|done| | | |split_and!].
    4: exact W2. all: done.
  - rewrite (st_bind_step _ _ _ _ _ (get_stats_untracked _ false _ W V)); cbn beta match.
    unfold read_active, get, mbind, st_bind, mret, st_ret. cbn.
    rewrite (wrapS_small 32), wrapU_small by (unfold is_u, is_s; lia).
    destruct (_ <? _) eqn:G; to_prop; [lia|]. by exists m.
Qed.

(** ** Refinement of a per-thread counter table

    The calls that net/socket.c makes into the manager, with the boolean that
    each one answers, and the table they implement.  [mem] says of each call
    that may track a thread whether [kmalloc] succeeds in it: a thread that
    cannot be tracked is admitted and not counted.  [None] in the last case
    of an unregistration is the list-head alias: the pending limit is hit. *)

Inductive event :=
  | EvRegister (mem : bool) (t : Z)
  | EvUnregister (t : Z)
  | EvCheck (mem : bool) (t jiffies : Z)
  | EvThrottle (t : Z)
  | EvTraffic (mem : bool) (t sent received : Z).

Definition run_event (e : event) : fst_ bool :=
  match e with
  | EvRegister mem t => register_socket_for_thread mem t ;; mret true
  | EvUnregister t => unregister_socket_for_thread t ;; mret true
  | EvCheck mem t j => check_socket_allocation_allowed mem j t
  | EvThrottle t => should_throttle_transmission t
  | EvTraffic mem t sent received => update_socket_traffic mem t sent received ;; mret true
  end.

Fixpoint run_events (es : list event) : fst_ (list bool) :=
  match es with
  | [] => mret []
  | e :: es => b ← run_event e; bs ← run_events es; mret (b :: bs)
  end.

Record table := Table { counts : gmap Z Z; sockets_limit : Z; pending_limit : Z; enabled : bool }.

Definition table_of (m : socket_fairness_manager) : table :=
  Table (view m) (max_sockets_per_thread m) (max_pending_per_thread m) (fairness_enabled m).

Definition set_count (T : table) (t n : Z) : table :=
  Table (<[t := n]> (counts T)) (sockets_limit T) (pending_limit T) (enabled T).

Definition count (T : table) (t : Z) : Z := default 0 (counts T !! t).

(** A thread can be counted if it already is, or if there is memory for its record. *)
Definition can_track (T : table) (mem : bool) (t : Z) : bool := mem || bool_decide (is_Some (counts T !! t)).
Definition track (T : table) (mem : bool) (t n : Z) : table := if can_track T mem t then set_count T t n else T.

Definition table_event (T : table) (e : event) : bool * table :=
  match e with
  | EvRegister mem t => (true, track T mem t (count T t + 1))
  | EvUnregister t =>
      (true, match counts T !! t with
             | Some a => set_count T t (Z.max 0 (a - 1))
             | None => Table (counts T) (sockets_limit T) (Z.max 0 (pending_limit T - 1)) (enabled T)
             end)
  | EvCheck mem t _ =>
      if negb (enabled T) then (true, T)
      else
        (negb (can_track T mem t) || ((count T t <? sockets_limit T) && (0 <? pending_limit T)),
         track T mem t (count T t))
  | EvThrottle t =>
      (enabled T && match counts T !! t with Some a => sockets_limit T <? a | None => false end, T)
  | EvTraffic mem t _ _ => (true, track T mem t (count T t))
  end.

Fixpoint table_events (T : table) (es : list event) : list bool * table :=
  match es with
  | [] => ([], T)
  | e :: es =>
      let '(b, T1) := table_event T e in
      let '(bs, T2) := table_events T1 es in (b :: bs, T2)
  end.

(** The outcome of [kmalloc] matters only for a thread that is not tracked. *)
Lemma get_stats_mem m mem t : mgr_wf m → is_Some (view m !! t) →
  get_thread_socket_stats mem t true m = get_thread_socket_stats true t true m.
Proof.
  intros W H. destruct (view_is_Some _ _ W H) as (i & s & F & _).
  unfold get_thread_socket_stats, mbind, st_bind, get. cbn. rewrite (wf_init _ W). cbn. by rewrite F.
Qed.

Lemma get_stats_nomem m t : mgr_wf m → view m !! t = None →
  get_thread_socket_stats false t true m = Some (None, m).
Proof.
  intros W H%view_None. unfold get_thread_socket_stats, mbind, st_bind, get. cbn.
  rewrite (wf_init _ W). cbn. by rewrite H.
Qed.

(** A call with the outcome of [kmalloc]: as with memory if the thread can be tracked. *)
Lemma with_memory {A} (call : bool → fst_ A) m mem t :
  mgr_wf m → can_track (table_of m) mem t = true →
  (∀ b b', get_thread_socket_stats b t true m = get_thread_socket_stats b' t true m → call b m = call b' m) →
  call mem m = call true m.
Proof.
  intros W H Hc. destruct mem; [done|]. apply Hc. apply get_stats_mem; [done|].
  unfold can_track in H. cbn in H. by apply bool_decide_eq_true in H.
Qed.

Lemma cannot_track m mem t : can_track (table_of m) mem t = false → mem = false ∧ view m !! t = None.
Proof.
  unfold can_track. intros [-> H]%orb_false_iff. apply bool_decide_eq_false in H. split; [done|].
  by apply eq_None_not_Some.
Qed.

Lemma register_event_ok mem m t : mgr_wf m → count (table_of m) t < 2 ^ 31 - 1 →
  ∃ m', register_socket_for_thread mem t m = Some (tt, m') ∧ mgr_wf m' ∧ config m' = config m ∧
        view m' = counts (track (table_of m) mem t (count (table_of m) t + 1)).
Proof.
  intros W Hc. unfold track. destruct (can_track (table_of m) mem t) eqn:E.
  - destruct (register_view m t W Hc) as (m' & E' & H). exists m'. split; [|done]. etrans; [|exact E'].
    apply (with_memory (λ b, register_socket_for_thread b t) m mem t W E). intros b b' Hg.
    unfold register_socket_for_thread, mbind, st_bind. by rewrite Hg.
  - apply cannot_track in E as [-> Hv]. exists m. split; [|done].
    unfold register_socket_for_thread. by rewrite (st_bind_step _ _ _ _ _ (get_stats_nomem m t W Hv)).
Qed.

Lemma check_event_ok mem m j t : mgr_wf m → fairness_enabled m = true →
  ∃ m', check_socket_allocation_allowed mem j t m =
      Some (negb (can_track (table_of m) mem t) ||
            ((count (table_of m) t <? max_sockets_per_thread m) && (0 <? max_pending_per_thread m)), m') ∧
    mgr_wf m' ∧ config m' = config m ∧ view m' = counts (track (table_of m) mem t (count (table_of m) t)).
Proof.
  intros W He. unfold track. destruct (can_track (table_of m) mem t) eqn:E; cbn [negb orb].
  - destruct (check_view m j t W He) as (m' & E' & H). exists m'. split; [|done]. etrans; [|exact E'].
    apply (with_memory (λ b, check_socket_allocation_allowed b j t) m mem t W E). intros b b' Hg.
    unfold check_socket_allocation_allowed, mbind, st_bind, get. cbn. rewrite He. cbn. by rewrite Hg.
  - apply cannot_track in E as [-> Hv]. exists m. split; [|done]. unfold check_socket_allocation_allowed.
    rewrite (st_bind_step get _ m m m) by done. cbn beta. rewrite He. cbn [negb].
    by rewrite (st_bind_step _ _ _ _ _ (get_stats_nomem m t W Hv)).
Qed.

Lemma traffic_event_ok mem m t sent rcv : mgr_wf m →
  ∃ m', update_socket_traffic mem t sent rcv m = Some (tt, m') ∧ mgr_wf m' ∧ config m' = config m ∧
        view m' = counts (track (table_of m) mem t (count (table_of m) t)).
Proof.
  intros W. unfold track. destruct (can_track (table_of m) mem t) eqn:E.
  - destruct (traffic_view m t sent rcv W) as (m' & E' & H). exists m'. split; [|done]. etrans; [|exact E'].
    apply (with_memory (λ b, update_socket_traffic b t sent rcv) m mem t W E). intros b b' Hg.
    unfold update_socket_traffic, mbind, st_bind. by rewrite Hg.
  - apply cannot_track in E as [-> Hv]. exists m. split; [|done]. unfold update_socket_traffic.
    by rewrite (st_bind_step _ _ _ _ _ (get_stats_nomem m t W Hv)).
Qed.

Lemma track_limits T mem t n : Table (counts (track T mem t n)) (sockets_limit T) (pending_limit T) (enabled T) = track T mem t n.
Proof. unfold track. destruct (can_track T mem t); by destruct T. Qed.

Lemma run_event_table e m :
  mgr_wf m → (∀ t, count (table_of m) t < 2 ^ 31 - 1) →
  ∃ m', run_event e m = Some ((table_event (table_of m) e).1, m') ∧ mgr_wf m' ∧
        table_of m' = (table_event (table_of m) e).2.
Proof.
  intros W Hb.
  assert (∀ m' g, config m' = config m → view m' = g →
    table_of m' = Table g (max_sockets_per_thread m) (max_pending_per_thread m) (fairness_enabled m)) as K.
  { unfold config. intros m' g [= E1 E2 E3 E4 E5] <-. unfold table_of. congruence. }
  destruct e as [mem t|t|mem t j|t|mem t sent rcv]; cbn [run_event table_event fst snd].
  - destruct (register_event_ok mem m t W (Hb t)) as (m' & E & W' & C & V).
    exists m'. rewrite (st_bind_step _ _ _ _ _ E). split_and!; [done..|].
    rewrite (K m' _ C V). apply (track_limits (table_of m)).
  - cbn. destruct (view m !! t) as [a|] eqn:Ht.
    + destruct (unregister_view m t a W Ht) as (m' & E & W' & C & V).
      exists m'. rewrite (st_bind_step _ _ _ _ _ E). split_and!; [done..|]. by apply K.
    + eexists. rewrite (st_bind_step _ _ _ _ _ (unregister_untracked_eq m t W Ht)).
      split; [reflexivity|]. split; [|done].
      destruct W as [? ? ? ?]. split; cbn; [done..|lia].
  - cbn [table_of enabled sockets_limit pending_limit]. destruct (fairness_enabled m) eqn:He; cbn [negb].
    + destruct (check_event_ok mem m j t W He) as (m' & E & W' & C & V).
      exists m'. split_and!; [done..|]. rewrite (K m' _ C V), <-He. apply (track_limits (table_of m)).
    + exists m. split; [|split; [done|]].
      * unfold check_socket_allocation_allowed. rewrite (st_bind_step get _ m m m) by done. cbn beta. by rewrite He.
      * done.
  - cbn [table_of enabled sockets_limit counts]. destruct (fairness_enabled m) eqn:He; cbn [andb].
    + destruct (throttle_view m t W He) as (m' & E & W' & C & V).
      exists m'. split_and!; [done..|]. by rewrite (K m' _ C V), <-He.
    + exists m. split; [|split; [done|]].
      * unfold should_throttle_transmission. rewrite (st_bind_step get _ m m m) by done. cbn beta. by rewrite He.
      * done.
  - destruct (traffic_event_ok mem m t sent rcv W) as (m' & E & W' & C & V).
    exists m'. rewrite (st_bind_step _ _ _ _ _ E). split_and!; [done..|].
    rewrite (K m' _ C V). apply (track_limits (table_of m)).
Qed.

(** One call raises a counter by at most one. *)
Lemma table_event_bound T e B :
  0 ≤ B → (∀ t, count T t ≤ B) → ∀ t, count (table_event T e).2 t ≤ B + 1.
Proof.
  intros H0 H t. pose proof (H t) as Ht.
  assert (∀ k n, n ≤ B + 1 → count (set_count T k n) t ≤ B + 1) as K.
  { intros k n Hn. unfold count, set_count; cbn.
    destruct (decide (k = t)) as [->|]; [by rewrite lookup_insert_eq|].
    rewrite lookup_insert_ne by done. unfold count in Ht. lia. }
  assert (∀ mem k n, n ≤ B + 1 → count (track T mem k n) t ≤ B + 1) as K'.
  { intros mem k n Hn. unfold track. destruct (can_track T mem k); [by apply K|lia]. }
  destruct e as [mem k|k|mem k j|k|mem k sent rcv]; cbn.
  - apply K'. pose proof (H k). lia.
  - pose proof (H k) as Hk. unfold count in Hk.
    destruct (counts T !! k) as [a|]; [apply K; cbn in Hk; lia|]. unfold count in *; cbn; lia.
  - destruct (enabled T); cbn; [apply K'; pose proof (H k); lia|lia].
  - lia.
  - apply K'. pose proof (H k). lia.
Qed.

Lemma run_events_table es m B :
  mgr_wf m → 0 ≤ B →
  (∀ t, count (table_of m) t ≤ B) → B + Z.of_nat (length es) < 2 ^ 31 →
  ∃ m', run_events es m = Some ((table_events (table_of m) es).1, m') ∧ mgr_wf m' ∧
        table_of m' = (table_events (table_of m) es).2.
Proof.
  revert m B. induction es as [|e es IH]; intros m B W H0 HB Hl.
  { exists m. done. }
  cbn [length] in Hl.
  destruct (run_event_table e m W) as (m1 & E1 & W1 & T1).
  { intros t. pose proof (HB t). lia. }
  destruct (IH m1 (B + 1) W1) as (m2 & E2 & W2 & T2); [lia| |lia|].
  { rewrite T1. by apply table_event_bound. }
  exists m2. cbn [run_events table_events].
  rewrite (st_bind_step _ _ _ _ _ E1); cbn beta.
  rewrite (st_bind_step _ _ _ _ _ E2); cbn beta. rewrite T1 in T2 |- *.
  destruct (table_event (table_of m) e) as [b T']. cbn in *.
  destruct (table_events T' es) as [bs T'']. done.
Qed.

(** C2: Every sequence of calls into the fairness manager (registrations,
    unregistrations, admission checks, throttle queries, traffic updates, by
    any threads, with any outcome of each allocation) runs without a fault,
    keeps the manager invariant and answers exactly as a table of per-thread
    socket counters with a socket limit and a pending limit does, as long as the
    counters stay below 2^31.  A thread whose record cannot be allocated is
    admitted, and neither its sockets nor its traffic are counted; a closing
    socket of a thread that is not in the table lowers the pending limit, which
    is what the code does to the list head that it takes for a record.  With the
    switch off every check admits and no query throttles. *)
Theorem fairness_refines_table es m B :
  mgr_wf m → 0 ≤ B →
  (∀ t, count (table_of m) t ≤ B) → B + Z.of_nat (length es) < 2 ^ 31 →
  ∃ m', run_events es m = Some ((table_events (table_of m) es).1, m') ∧ mgr_wf m' ∧
        table_of m' = (table_events (table_of m) es).2.
Proof. apply run_events_table. Qed.

(** The manager that [socket_fairness_init] leaves behind. *)
Definition mgr_init : socket_fairness_manager := Mgr [] 10 5 1000 true true.

Lemma socket_fairness_init_ok : socket_fairness_init mgr0 = Some (0, mgr_init).
Proof. done. Qed.

Lemma mgr_init_wf : mgr_wf mgr_init.
Proof. split; cbn; [done|constructor|constructor|lia]. Qed.

(** Thread 7 registers a socket, is admitted and closes it; thread 9, for which there is no
    memory, is admitted and not counted, and its closing lowers the pending limit. *)
Definition demo_events : list event :=
  [EvRegister true 7; EvCheck false 7 0; EvUnregister 7; EvThrottle 8; EvRegister false 9; EvCheck false 9 0;
   EvTraffic false 9 100 0; EvUnregister 9].

Lemma fairness_refines_table_witness :
  (∃ m', run_events demo_events mgr_init = Some ([true; true; true; false; true; true; true; true], m') ∧ mgr_wf m' ∧
        table_of m' = (table_events (table_of mgr_init) demo_events).2) ∧
  (table_events (table_of mgr_init) demo_events).2 = Table {[7 := 0]} 10 4 true.
Proof.
  split; [|reflexivity]. apply (fairness_refines_table demo_events mgr_init 0).
  - exact mgr_init_wf.
  - done.
  - intros t. done.
  - done.
Defined.

(** Registering a thread's sockets one after the other. *)
Lemma register_many n m t :
  mgr_wf m → default 0 (view m !! t) + Z.of_nat n < 2 ^ 31 - 1 →
  ∃ m', for_each (replicate n t) (register_socket_for_thread true) m = Some (tt, m') ∧
        mgr_wf m' ∧ config m' = config m ∧
        default 0 (view m' !! t) = default 0 (view m !! t) + Z.of_nat n ∧
        ∀ t', t' ≠ t → view m' !! t' = view m !! t'.
Proof.
  revert m. induction n as [|n IH]; intros m W H.
  { exists m. split_and!; try done. lia. }
  destruct (register_view m t W) as (m1 & E1 & W1 & C1 & V1); [lia|].
  destruct (IH m1 W1) as (m2 & E2 & W2 & C2 & V2 & V2').
  { rewrite V1, lookup_insert_eq. cbn. lia. }
  exists m2. cbn [replicate for_each]. rewrite (st_bind_step _ _ _ _ _ E1); cbn beta.
  split_and!; [done|done|congruence| |].
  - rewrite V2, V1, lookup_insert_eq. cbn. lia.
  - intros t' Hne. rewrite V2', V1 by done. by rewrite lookup_insert_ne by congruence.
Qed.

(** A thread that registered n sockets on a freshly initialised manager
    passes the admission check exactly while n is below the default limit of
    ten; threads that registered none pass whatever the others did. *)
Theorem fairness_admission_limit n t j m' :
  Z.of_nat n < 2 ^ 31 - 1 →
  (socket_fairness_init ;; for_each (replicate n t) (register_socket_for_thread true)) mgr0
    = Some (tt, m') →
  (∃ m2, check_socket_allocation_allowed true j t m' = Some (Z.of_nat n <? 10, m2)) ∧
  ∀ t', t' ≠ t → ∃ m2, check_socket_allocation_allowed true j t' m' = Some (true, m2).
Proof.
  intros Hn. rewrite (st_bind_step _ _ _ _ _ socket_fairness_init_ok); cbn beta.
  destruct (register_many n mgr_init t mgr_init_wf) as (m1 & E1 & W1 & C1 & V1 & V2); [done|].
  rewrite E1. intros [= <-]. unfold config in C1. injection C1 as C1 C2 C3 C4 C5.
  split.
  - destruct (check_view m1 j t W1) as (m2 & E2 & _); [done|]. exists m2. rewrite E2, V1, C1, C2.
    cbn -[Z.of_nat]. by rewrite andb_true_r.
  - intros t' Hne. destruct (check_view m1 j t' W1) as (m2 & E2 & _); [done|].
    exists m2. rewrite E2, V2, C1, C2 by done. done.
Qed.

Lemma fairness_admission_limit_witness :
  (∃ m2, check_socket_allocation_allowed true 0 7 (Mgr [Stats 7 2 0 0 0 0 0] 10 5 1000 true true)
     = Some (true, m2)) ∧
  ∀ t', t' ≠ 7 → ∃ m2,
    check_socket_allocation_allowed true 0 t' (Mgr [Stats 7 2 0 0 0 0 0] 10 5 1000 true true)
      = Some (true, m2).
Proof. apply (fairness_admission_limit 2 7 0); [lia|reflexivity]. Defined.

(** Unregistering untracked threads wears the pending limit down. *)
Lemma unregister_many_untracked ts m :
  mgr_wf m → Forall (λ t, view m !! t = None) ts →
  ∃ m', for_each ts unregister_socket_for_thread m = Some (tt, m') ∧ mgr_wf m' ∧
        view m' = view m ∧ fairness_enabled m' = fairness_enabled m ∧
        max_pending_per_thread m' = Z.max 0 (max_pending_per_thread m - Z.of_nat (length ts)).
Proof.
  intros W H. revert m W H. induction ts as [|t ts IH]; intros m W H.
  { exists m. destruct (wf_limits _ W). split_and!; try done. cbn. lia. }
  apply Forall_cons in H as [Ht H].
  set (m1 := with_max_pending m (Z.max 0 (max_pending_per_thread m - 1))).
  destruct (IH m1) as (m2 & E2 & W2 & V2 & F2 & P2).
  { destruct W as [? ? ? ?]. split; cbn; [done..|lia]. }
  { done. }
  exists m2. cbn [for_each].
  rewrite (st_bind_step _ _ _ _ _ (unregister_untracked_eq m t W Ht)); cbn beta.
  split_and!; [done..|]. rewrite P2. cbn. lia.
Qed.

(** An unregistration by a thread without statistics (a thread that
    closes a socket created by another one) does not fail: it decrements the
    manager's pending limit through the list-head alias.  Once as many such
    unregistrations happened as the limit counts (five by default), the
    admission check, and with it [sock_recvmsg], denies every thread, also
    one that owns no socket. *)
Theorem fairness_untracked_unregister_denies_all ts m :
  mgr_wf m → fairness_enabled m = true → Forall (λ t, view m !! t = None) ts →
  max_pending_per_thread m ≤ Z.of_nat (length ts) →
  ∃ m', for_each ts unregister_socket_for_thread m = Some (tt, m') ∧
    view m' = view m ∧
    ∀ j t, ∃ m2, check_socket_allocation_allowed true j t m' = Some (false, m2).
Proof.
  intros W He Hts Hl. destruct (unregister_many_untracked ts m W Hts) as (m' & E & W' & V & F & P).
  exists m'. split_and!; [done..|]. intros j t.
  destruct (check_view m' j t W') as (m2 & E2 & _); [congruence|]. exists m2.
  rewrite E2, P, Z.max_l by lia. by rewrite andb_false_r.
Qed.

Lemma fairness_untracked_unregister_denies_all_witness :
  ∃ m', for_each [1; 1; 1; 1; 1] unregister_socket_for_thread mgr_init = Some (tt, m') ∧
    view m' = view mgr_init ∧
    ∀ j t, ∃ m2, check_socket_allocation_allowed true j t m' = Some (false, m2).
Proof.
  apply (fairness_untracked_unregister_denies_all [1; 1; 1; 1; 1] mgr_init).
  - exact mgr_init_wf.
  - done.
  - repeat constructor.
  - done.
Defined.

End SocketFairness.
