(* ===== verification/SocketCore.v ===== *)
(** * The socket life cycle of net/socket.c

    Allocation, creation, binding to a file, release and message transfer of
    sockets, with the calls into the fairness manager (SocketFairness) at the
    places where net/socket.c makes them.

    The state [world] holds the fairness manager, the live sockets, the open
    socket files, the descriptor table of the process and the reference counts
    of the protocol modules.  What the functions call outside the repository
    (security hooks, inode and file allocation, the protocol's own operations,
    the availability of a module) is given to them as the outcomes of those
    calls: a [create_env] per creation, a result per hook.  Freeing an inode
    ([iput]) removes the socket of that inode. *)

From Stdlib Require Import ZArith Lia.
From stdpp Require Import base numbers list gmap strings.
From S2P Require Import Prelude SocketFairness.

Module SocketCore.
Import SocketFairness.

(** ** Data *)

Definition PF_INET : Z := 2.
Definition PF_PACKET : Z := 17.
Definition NPROTO : Z := 46.
Definition SOCK_PACKET : Z := 10.
Definition SOCK_MAX : Z := 11.
Definition SOCK_TYPE_MASK : Z := 15.
Definition O_RDWR : Z := 2.
Definition O_NONBLOCK : Z := 2048.
Definition O_CLOEXEC : Z := 524288.
Definition SOCK_NONBLOCK : Z := O_NONBLOCK.
Definition SOCK_CLOEXEC : Z := O_CLOEXEC.
Definition EIOCBQUEUED : Z := 529.
Definition ENOTSOCK : Z := 88.
Definition ECONNABORTED : Z := 103.

(** [sock->ops]: the protocol operations, of which the life cycle uses the
    module that owns them ([None] for built-in code). *)
Record proto_ops := Ops { ops_owner : option Z }.

Record socket := Socket {
  so_type : Z;
  so_ops : option proto_ops;
  so_sk : option Z;       (** the protocol socket, by its [sk_priority] *)
  so_file : option Z }.   (** [sock->file] *)

Record file := File {
  f_sock : option Z;      (** [Some] socket when [f_op] is [socket_file_ops] *)
  f_flags : Z;
  f_count : Z }.

Record world := World {
  mgr : socket_fairness_manager;
  socks : gmap Z socket;
  files : gmap Z file;
  fdt : gmap Z (option Z);  (** a descriptor is reserved ([None]) or has a file *)
  modref : gmap Z Z;
  slept : Z }.              (** milliseconds spent in [msleep] *)

Abbreviation wst := (st world).

Definition set_mgr (m : socket_fairness_manager) (w : world) :=
  World m (socks w) (files w) (fdt w) (modref w) (slept w).
Definition set_socks (g : gmap Z socket) (w : world) :=
  World (mgr w) g (files w) (fdt w) (modref w) (slept w).
Definition set_files (g : gmap Z file) (w : world) :=
  World (mgr w) (socks w) g (fdt w) (modref w) (slept w).
Definition set_fdt (g : gmap Z (option Z)) (w : world) :=
  World (mgr w) (socks w) (files w) g (modref w) (slept w).
Definition set_modref (g : gmap Z Z) (w : world) :=
  World (mgr w) (socks w) (files w) (fdt w) g (slept w).
Definition set_slept (n : Z) (w : world) :=
  World (mgr w) (socks w) (files w) (fdt w) (modref w) n.

(** A call into the fairness manager. *)
Definition fair {A} (m : fst_ A) : wst A := λ w,
  match m (mgr w) with Some (a, m') => Some (a, set_mgr m' w) | None => None end.

Definition load_sock (id : Z) : wst socket := w ← get; lift (socks w !! id).
Definition store_sock (id : Z) (s : socket) : wst unit :=
  modify (λ w, set_socks (<[id := s]> (socks w)) w).
Definition load_file (id : Z) : wst file := w ← get; lift (files w !! id).

Definition set_ops (o : option proto_ops) (s : socket) := Socket (so_type s) o (so_sk s) (so_file s).
Definition set_sk (k : option Z) (s : socket) := Socket (so_type s) (so_ops s) k (so_file s).
Definition set_file (f : option Z) (s : socket) := Socket (so_type s) (so_ops s) (so_sk s) f.
Definition set_type (t : Z) (s : socket) := Socket t (so_ops s) (so_sk s) (so_file s).

Definition update_sock (id : Z) (f : socket → socket) : wst unit :=
  s ← load_sock id; store_sock id (f s).

(** ** Module references *)

(** [try_module_get]: built-in code needs no reference; [alive] is the state
    of the module. *)
Definition try_module_get (alive : bool) (o : option Z) : wst bool :=
  match o with
  | None => mret true
  | Some k =>
      if alive then
        modify (λ w, set_modref (<[k := default 0 (modref w !! k) + 1]> (modref w)) w) ;; mret true
      else mret false
  end.

Definition module_put (o : option Z) : wst unit :=
  match o with
  | None => mret tt
  | Some k => modify (λ w, set_modref (<[k := default 0 (modref w !! k) - 1]> (modref w)) w)
  end.

(** ** Life cycle *)

(** [new] is the socket's inode, [None] when there is none left. *)
Definition sock_alloc (new : option Z) : wst (option Z) :=
  match new with
  | None => mret None
  | Some id =>
      w ← get;
      match socks w !! id with
      | Some _ => fault
      | None => store_sock id (Socket 0 None None None) ;; mret (Some id)
      end
  end.

(** Freeing the inode frees the socket inside it. *)
Definition iput_sock (id : Z) : wst unit := modify (λ w, set_socks (delete id (socks w)) w).

(** [pid] is [current->pid]. *)
Definition __sock_release (pid : Z) (id : Z) : wst unit :=
  s ← load_sock id;
  match so_ops s with
  | Some o =>
      update_sock id (λ s, set_ops None (set_sk None s)) ;;
      module_put (ops_owner o)
  | None => mret tt
  end ;;
  s ← load_sock id;
  match so_file s with
  | None => iput_sock id
  | Some _ =>
      update_sock id (set_file None) ;;
      fair (unregister_socket_for_thread pid)
  end.

Definition sock_release (pid id : Z) : wst unit := __sock_release pid id.

(** [sock_close], the release operation of socket files. *)
Definition sock_close (pid id : Z) : wst Z := __sock_release pid id ;; mret 0.

(** [fput]: the last reference closes the file; the inode goes with it. *)
Definition fput (pid f : Z) : wst unit :=
  fl ← load_file f;
  if 1 <? f_count fl then
    modify (λ w, set_files (<[f := File (f_sock fl) (f_flags fl) (f_count fl - 1)]> (files w)) w)
  else
    modify (λ w, set_files (delete f (files w)) w) ;;
    match f_sock fl with
    | Some id => sock_close pid id ;; iput_sock id
    | None => mret tt
    end.

(** [res] is what [alloc_file_pseudo] returns: a new file or an error. *)
Definition sock_alloc_file (pid : Z) (res : Z + Z) (id flags : Z) : wst (Z + Z) :=
  match res with
  | inr err => sock_release pid id ;; mret (inr err)
  | inl f =>
      w ← get;
      match files w !! f with
      | Some _ => fault
      | None =>
          modify (λ w, set_files (<[f := File (Some id) (Z.lor O_RDWR (Z.land flags O_NONBLOCK)) 1]>
            (files w)) w) ;;
          update_sock id (set_file (Some f)) ;;
          mret (inl f)
      end
  end.

(** [fd] is the free descriptor found, or the (negative) error. *)
Definition get_unused_fd_flags (fd : Z) : wst Z :=
  if fd <? 0 then mret fd
  else
    w ← get;
    match fdt w !! fd with
    | Some _ => fault
    | None => modify (λ w, set_fdt (<[fd := None]> (fdt w)) w) ;; mret fd
    end.

Definition put_unused_fd (fd : Z) : wst unit := modify (λ w, set_fdt (delete fd (fdt w)) w).
Definition fd_install (fd f : Z) : wst unit := modify (λ w, set_fdt (<[fd := Some f]> (fdt w)) w).

Definition sock_map_fd (pid fd : Z) (res : Z + Z) (id flags : Z) : wst Z :=
  fd ← get_unused_fd_flags fd;
  if fd <? 0 then sock_release pid id ;; mret fd
  else
    newfile ← sock_alloc_file pid res id flags;
    match newfile with
    | inl f => fd_install fd f ;; mret fd
    | inr err => put_unused_fd fd ;; mret err
    end.

(** The outcomes of the calls that [__sock_create] makes. *)
Record create_env := CreateEnv {
  ce_security : Z;                      (** security_socket_create *)
  ce_inode : option Z;                  (** new_inode_pseudo *)
  ce_mem : bool;                        (** kmalloc of the statistics *)
  ce_families : Z → option (option Z);  (** net_families[], by the family's owner *)
  ce_pf_alive : bool;
  ce_create : Z * option proto_ops * option Z;  (** pf->create: result, sock->ops, sock->sk *)
  ce_ops_alive : bool;
  ce_post : Z }.                        (** security_socket_post_create *)

(** The part of [__sock_create] that starts when the socket is registered:
    lookup of the protocol family, its [create] and the labels
    [out_module_busy], [out_module_put], [out_sock_release], [out_release]. *)
Definition create_protocol (e : create_env) (pid id family : Z) : wst (Z * option Z) :=
  match ce_families e family with
  | None => sock_release pid id ;; mret (- EAFNOSUPPORT, None)
  | Some pf_owner =>
      got ← try_module_get (ce_pf_alive e) pf_owner;
      if negb got then sock_release pid id ;; mret (- EAFNOSUPPORT, None)
      else
        let '(err, ops, sk) := ce_create e in
        update_sock id (λ s, set_ops ops (set_sk sk s)) ;;
        if err <? 0 then
          update_sock id (set_sk None) ;;
          update_sock id (set_ops None) ;;
          module_put pf_owner ;;
          sock_release pid id ;; mret (err, None)
        else
          match ops with
          | None => fault
          | Some o =>
              got ← try_module_get (ce_ops_alive e) (ops_owner o);
              if negb got then
                update_sock id (set_ops None) ;;
                module_put pf_owner ;;
                sock_release pid id ;; mret (- EAFNOSUPPORT, None)
              else
                module_put pf_owner ;;
                let err := ce_post e in
                if negb (err =? 0) then sock_release pid id ;; mret (err, None)
                else mret (0, Some id)
          end
  end.

(** Result: the error code and the socket stored in [*res]. *)
Definition __sock_create (e : create_env) (pid family type : Z) : wst (Z * option Z) :=
  if (family <? 0) || (NPROTO <=? family) then mret (- EAFNOSUPPORT, None)
  else if (type <? 0) || (SOCK_MAX <=? type) then mret (- EINVAL, None)
  else
    let family := if (family =? PF_INET) && (type =? SOCK_PACKET) then PF_PACKET else family in
    let err := ce_security e in
    if negb (err =? 0) then mret (err, None)
    else
      sock ← sock_alloc (ce_inode e);
      match sock with
      | None => mret (- ENFILE, None)
      | Some id =>
          update_sock id (set_type type) ;;
          fair (register_socket_for_thread (ce_mem e) pid) ;;
          create_protocol e pid id family
      end.

Definition sock_create (e : create_env) (pid family type : Z) := __sock_create e pid family type.

Definition sock_create_kern (e : create_env) (pid family type : Z) := __sock_create e pid family type.

Definition sock_create_lite (sec post : Z) (new : option Z) (pid type : Z) : wst (Z * option Z) :=
  if negb (sec =? 0) then mret (sec, None)
  else
    sock ← sock_alloc new;
    match sock with
    | None => mret (- ENOMEM, None)
    | Some id =>
        update_sock id (set_type type) ;;
        if negb (post =? 0) then sock_release pid id ;; mret (post, None)
        else mret (0, Some id)
    end.

(** The flag arithmetic shared by [socket], [socketpair] and [accept4]. *)
Definition sock_flags (flags : Z) : Z :=
  if negb (SOCK_NONBLOCK =? O_NONBLOCK) && negb (Z.land flags SOCK_NONBLOCK =? 0)
  then Z.lor (Z.land flags (Z.lnot SOCK_NONBLOCK)) O_NONBLOCK else flags.

Definition bad_sock_flags (flags : Z) : bool :=
  negb (Z.land flags (Z.lnot (Z.lor SOCK_CLOEXEC SOCK_NONBLOCK)) =? 0).

Definition __sys_socket (e : create_env) (fd : Z) (res : Z + Z) (pid family type : Z) : wst Z :=
  let flags := Z.land type (Z.lnot SOCK_TYPE_MASK) in
  if bad_sock_flags flags then mret (- EINVAL)
  else
    let type := Z.land type SOCK_TYPE_MASK in
    let flags := sock_flags flags in
    r ← sock_create e pid family type;
    match r with
    | (retval, sock) =>
        if retval <? 0 then mret retval
        else
          match sock with
          | None => fault
          | Some id => sock_map_fd pid fd res id (Z.land flags (Z.lor O_CLOEXEC O_NONBLOCK))
          end
    end.

(** [close(fd)]: the descriptor goes, then the reference of its file. *)
Definition sys_close (pid fd : Z) : wst Z :=
  w ← get;
  match fdt w !! fd with
  | Some (Some f) => put_unused_fd fd ;; fput pid f ;; mret 0
  | _ => mret (- EBADF)
  end.

(** ** Message transfer *)

(** The message header fields that the life cycle reads and restores; the
    address buffer is kept by its bytes. *)
Record msghdr := Msg {
  msg_name : option (list Z);
  msg_namelen : Z;
  msg_left : Z }.           (** [iov_iter_count(&msg->msg_iter)] *)

(** The protocol's [sendmsg]: the header it leaves and its result. *)
Definition sock_sendmsg_nosec (send : msghdr → Z * msghdr) (id : Z) (msg : msghdr) :
    wst (Z * msghdr) :=
  s ← load_sock id;
  match so_ops s with
  | None => fault
  | Some _ =>
      let '(ret, msg) := send msg in
      if ret =? - EIOCBQUEUED then fault else mret (ret, msg)
  end.

Definition msleep (n : Z) : wst unit := modify (λ w, set_slept (slept w + n) w).

(** [sec] is the answer of [security_socket_sendmsg], [mem] whether the
    statistics can be allocated. *)
Definition __sock_sendmsg (mem : bool) (sec : Z) (send : msghdr → Z * msghdr)
    (pid id : Z) (msg : msghdr) : wst (Z * msghdr) :=
  throttled ← fair (should_throttle_transmission pid);
  (if (throttled : bool) then
     update_sock id (λ s, match so_sk s with Some _ => set_sk (Some 0) s | None => s end) ;;
     msleep 100
   else mret tt) ;;
  if negb (sec =? 0) then mret (sec, msg)
  else
    let bytes := msg_left msg in
    r ← sock_sendmsg_nosec send id msg;
    match r with
    | (ret, msg) =>
        (if (0 <=? ret) && (0 <? bytes) then fair (update_socket_traffic mem pid bytes 0)
         else mret tt) ;;
        mret (ret, msg)
    end.

(** The caller's address is copied to a [struct sockaddr_storage] of 128 bytes
    and the name fields of the header are restored on the way out. *)
Definition sock_sendmsg (mem : bool) (sec : Z) (send : msghdr → Z * msghdr)
    (pid id : Z) (msg : msghdr) : wst (Z * msghdr) :=
  let save_addr := msg_name msg in
  let save_len := msg_namelen msg in
  m1 ← match msg_name msg with
       | Some a =>
           match bytes_at a 0 save_len with
           | Some b => if save_len <=? 128 then mret (Msg (Some b) save_len (msg_left msg)) else fault
           | None => fault
           end
       | None => mret msg
       end;
  r ← __sock_sendmsg mem sec send pid id m1;
  match r with
  | (ret, m2) => mret (ret, Msg save_addr save_len (msg_left m2))
  end.

Definition kernel_sendmsg (mem : bool) (sec : Z) (send : msghdr → Z * msghdr)
    (pid id : Z) (msg : msghdr) (size : Z) : wst (Z * msghdr) :=
  sock_sendmsg mem sec send pid id (Msg (msg_name msg) (msg_namelen msg) size).

Definition sock_recvmsg_nosec (recv : msghdr → Z * msghdr) (id : Z) (msg : msghdr) :
    wst (Z * msghdr) :=
  s ← load_sock id;
  match so_ops s with
  | None => fault
  | Some _ => mret (recv msg)
  end.

Definition sock_recvmsg (mem : bool) (jiffies sec : Z) (recv : msghdr → Z * msghdr)
    (pid id : Z) (msg : msghdr) : wst (Z * msghdr) :=
  allowed ← fair (check_socket_allocation_allowed mem jiffies pid);
  if negb (allowed : bool) then mret (- EAGAIN, msg)
  else if negb (sec =? 0) then mret (sec, msg)
  else
    r ← sock_recvmsg_nosec recv id msg;
    match r with
    | (ret, msg) =>
        (if 0 <? ret then fair (update_socket_traffic mem pid 0 ret) else mret tt) ;;
        mret (ret, msg)
    end.

Definition kernel_recvmsg (mem : bool) (jiffies sec : Z) (recv : msghdr → Z * msghdr)
    (pid id : Z) (msg : msghdr) (size : Z) : wst (Z * msghdr) :=
  sock_recvmsg mem jiffies sec recv pid id (Msg (msg_name msg) (msg_namelen msg) size).

(** Transmit timestamp flags of a socket buffer, from the socket's option. *)
Definition SOF_TIMESTAMPING_TX_HARDWARE : Z := 1.
Definition SOF_TIMESTAMPING_TX_SOFTWARE : Z := 2.
Definition SOF_TIMESTAMPING_TX_SCHED : Z := 256.
Definition SKBTX_HW_TSTAMP : Z := 1.
Definition SKBTX_SW_TSTAMP : Z := 2.
Definition SKBTX_SCHED_TSTAMP : Z := 64.

Definition __sock_tx_timestamp (tsflags tx_flags : Z) : Z :=
  let flags := tx_flags in
  let flags := if negb (Z.land tsflags SOF_TIMESTAMPING_TX_HARDWARE =? 0)
               then Z.lor flags SKBTX_HW_TSTAMP else flags in
  let flags := if negb (Z.land tsflags SOF_TIMESTAMPING_TX_SOFTWARE =? 0)
               then Z.lor flags SKBTX_SW_TSTAMP else flags in
  let flags := if negb (Z.land tsflags SOF_TIMESTAMPING_TX_SCHED =? 0)
               then Z.lor flags SKBTX_SCHED_TSTAMP else flags in
  flags.

(** ** Asynchronous notification *)

(** The wait queue's flags, and the [SOCK_FASYNC] flag of the protocol socket. *)
Record socket_wq := Wq {
  fasync_list : list Z;
  wq_nospace : bool;
  wq_waitdata : bool;
  sk_fasync : bool }.

Inductive sock_wake := SOCK_WAKE_IO | SOCK_WAKE_WAITD | SOCK_WAKE_SPACE | SOCK_WAKE_URG.

(** [fasync_helper] is the file system's: it returns the updated list. *)
Definition sock_fasync (fasync_helper : Z → bool → list Z → list Z)
    (has_sk : bool) (filp : Z) (on : bool) (wq : socket_wq) : Z * socket_wq :=
  if negb has_sk then (- EINVAL, wq)
  else
    let l := fasync_helper filp on (fasync_list wq) in
    (0, Wq l (wq_nospace wq) (wq_waitdata wq) (match l with [] => false | _ => true end)).

(** The signal sent to the list, if any ([true] is SIGURG). *)
Definition sock_wake_async (wq : option socket_wq) (how : sock_wake) :
    Z * option bool * option socket_wq :=
  match wq with
  | None => (-1, None, wq)
  | Some q =>
      match fasync_list q with
      | [] => (-1, None, wq)
      | _ =>
          match how with
          | SOCK_WAKE_WAITD => if wq_waitdata q then (0, None, wq) else (0, Some false, wq)
          | SOCK_WAKE_SPACE =>
              let q' := Wq (fasync_list q) false (wq_waitdata q) (sk_fasync q) in
              if wq_nospace q then (0, Some false, Some q') else (0, None, Some q')
          | SOCK_WAKE_IO => (0, Some false, wq)
          | SOCK_WAKE_URG => (0, Some true, wq)
          end
      end
  end.

(** ** Step lemmas *)

Lemma load_sock_ok w id s : socks w !! id = Some s → load_sock id w = Some (s, w).
Proof. intros H. unfold load_sock, get, mbind, st_bind, lift. by rewrite H. Qed.

Lemma update_sock_ok w id s f :
  socks w !! id = Some s →
  update_sock id f w = Some (tt, set_socks (<[id := f s]> (socks w)) w).
Proof. intros H. unfold update_sock, mbind, st_bind. by rewrite (load_sock_ok _ _ _ H). Qed.

Lemma fair_ok {A} (m : fst_ A) w a m' :
  m (mgr w) = Some (a, m') → fair m w = Some (a, set_mgr m' w).
Proof. intros H. unfold fair. by rewrite H. Qed.

(** The reference count of a module. *)
Definition refs (w : world) (k : Z) : Z := default 0 (modref w !! k).

Definition add_ref (o : option Z) (d : Z) (w : world) : world :=
  match o with
  | None => w
  | Some k => set_modref (<[k := default 0 (modref w !! k) + d]> (modref w)) w
  end.

Lemma refs_add_ref o d w k : refs (add_ref o d w) k = refs w k + (if decide (o = Some k) then d else 0).
Proof.
  destruct o as [j|]; cbn; [|case_decide; [done|lia]]. unfold refs; cbn.
  destruct (decide (j = k)) as [->|Hne].
  - rewrite lookup_insert_eq, decide_True by done. done.
  - rewrite lookup_insert_ne, decide_False by congruence. lia.
Qed.

Lemma add_ref_other o d w :
  mgr (add_ref o d w) = mgr w ∧ socks (add_ref o d w) = socks w ∧ files (add_ref o d w) = files w ∧
  fdt (add_ref o d w) = fdt w ∧ slept (add_ref o d w) = slept w.
Proof. by destruct o. Qed.

(** Whether [try_module_get] succeeds. *)
Definition available (alive : bool) (o : option Z) : bool :=
  match o with None => true | Some _ => alive end.

Lemma try_module_get_ok alive o w :
  try_module_get alive o w =
    Some (available alive o, if available alive o then add_ref o 1 w else w).
Proof. destruct o, alive; done. Qed.

Lemma module_put_ok o w : module_put o w = Some (tt, add_ref o (-1) w).
Proof. by destruct o. Qed.

(** Releasing a socket that has no file: it disappears, its operations' module
    is put, and the fairness manager is not told. *)
Lemma release_nofile w pid id s :
  socks w !! id = Some s → so_file s = None →
  sock_release pid id w =
    Some (tt, set_socks (delete id (socks w)) (add_ref (so_ops s ≫= ops_owner) (-1) w)).
Proof.
  intros Hs Hf. unfold sock_release, __sock_release.
  rewrite (st_bind_step _ _ _ _ _ (load_sock_ok _ _ _ Hs)); cbn beta.
  destruct (so_ops s) as [o|]; cbn [mbind option_bind].
  - rewrite (st_bind_step _ _ w tt (add_ref (ops_owner o) (-1)
      (set_socks (<[id := set_ops None (set_sk None s)]> (socks w)) w))); cbn beta.
    2: { rewrite (st_bind_step _ _ _ _ _ (update_sock_ok _ _ _ _ Hs)); cbn beta.
         by rewrite module_put_ok. }
    destruct (add_ref_other (ops_owner o) (-1)
      (set_socks (<[id := set_ops None (set_sk None s)]> (socks w)) w)) as (_ & Es & _).
    erewrite (st_bind_step (load_sock id)).
    2: { apply load_sock_ok. rewrite Es. apply lookup_insert_eq. }
    cbn [so_file set_ops set_sk]. rewrite Hf. unfold iput_sock, modify. rewrite Es. cbn.
    rewrite delete_insert_eq. by destruct (ops_owner o).
  - rewrite (st_bind_step (mret tt) _ w tt w) by done. cbn beta.
    rewrite (st_bind_step _ _ _ _ _ (load_sock_ok _ _ _ Hs)); cbn beta.
    rewrite Hf. done.
Qed.

(** Releasing a socket bound to a file: the socket is detached and the calling
    thread is unregistered. *)
Lemma release_file w pid id s f m' :
  socks w !! id = Some s → so_file s = Some f →
  unregister_socket_for_thread pid (mgr w) = Some (tt, m') →
  __sock_release pid id w =
    Some (tt, set_mgr m' (set_socks
      (<[id := set_file None (match so_ops s with Some _ => set_ops None (set_sk None s) | None => s end)]>
        (socks w)) (add_ref (so_ops s ≫= ops_owner) (-1) w))).
Proof.
  intros Hs Hf Hu. unfold __sock_release.
  rewrite (st_bind_step _ _ _ _ _ (load_sock_ok _ _ _ Hs)); cbn beta.
  destruct (so_ops s) as [o|]; cbn [mbind option_bind].
  - set (w1 := set_socks (<[id := set_ops None (set_sk None s)]> (socks w)) w).
    rewrite (st_bind_step _ _ w tt (add_ref (ops_owner o) (-1) w1)); cbn beta.
    2: { rewrite (st_bind_step _ _ _ _ _ (update_sock_ok _ _ _ _ Hs)); cbn beta.
         by rewrite module_put_ok. }
    destruct (add_ref_other (ops_owner o) (-1) w1) as (Em & Es & _).
    assert (socks (add_ref (ops_owner o) (-1) w1) !! id = Some (set_ops None (set_sk None s))) as Hs1.
    { rewrite Es. apply lookup_insert_eq. }
    rewrite (st_bind_step _ _ _ _ _ (load_sock_ok _ _ _ Hs1)).
    cbn [so_file set_ops set_sk]. rewrite Hf.
    rewrite (st_bind_step _ _ _ _ _ (update_sock_ok _ _ _ _ Hs1)); cbn beta.
    erewrite fair_ok; [|cbn [mgr set_socks]; rewrite Em; exact Hu].
    rewrite Es. cbn [socks set_socks w1]. rewrite insert_insert_eq. by destruct (ops_owner o).
  - rewrite (st_bind_step (mret tt) _ w tt w) by done. cbn beta.
    rewrite (st_bind_step _ _ _ _ _ (load_sock_ok _ _ _ Hs)); cbn beta. rewrite Hf.
    rewrite (st_bind_step _ _ _ _ _ (update_sock_ok _ _ _ _ Hs)); cbn beta.
    by erewrite fair_ok.
Qed.

(** The part of the world that creating and releasing file-less sockets leaves
    alone. *)
Definition same_files (w w' : world) : Prop :=
  files w' = files w ∧ fdt w' = fdt w ∧ slept w' = slept w.

(** How [__sock_create] ends once the socket is allocated and registered: with
    the socket, or with an error and everything undone but the registration. *)
Definition create_done (w w' : world) (id type : Z) (e : create_env) (r : Z * option Z) : Prop :=
  same_files w w' ∧ mgr w' = mgr w ∧
  ((∃ o, r = (0, Some id) ∧ (ce_create e).1.2 = Some o ∧
      socks w' = <[id := Socket type (Some o) (ce_create e).2 None]> (socks w) ∧
      ∀ k, refs w' k = refs w k + (if decide (ops_owner o = Some k) then 1 else 0)) ∨
   (r.1 ≠ 0 ∧ r.2 = None ∧ socks w' = delete id (socks w) ∧ ∀ k, refs w' k = refs w k)).

Lemma mgr_add_ref o d w : mgr (add_ref o d w) = mgr w.
Proof. by destruct o. Qed.
Lemma socks_add_ref o d w : socks (add_ref o d w) = socks w.
Proof. by destruct o. Qed.
Lemma same_files_add_ref o d w w' : same_files w w' → same_files w (add_ref o d w').
Proof. by destruct o. Qed.
Lemma refs_set_socks g w k : refs (set_socks g w) k = refs w k.
Proof. done. Qed.

(** Stepping through updates of one socket: the lookup is found by computing
    through the updates before it. *)
Ltac sock_lookup :=
  cbn [socks set_socks set_mgr]; rewrite ?socks_add_ref; cbn [socks set_socks set_mgr];
  first [eassumption | apply lookup_insert_eq].
Ltac sock_step :=
  first
  [ erewrite (st_bind_step (update_sock _ _)); [|apply update_sock_ok; sock_lookup]; cbn beta
  | rewrite (st_bind_step _ _ _ _ _ (module_put_ok _ _)); cbn beta
  | erewrite (st_bind_step (sock_release _ _));
      [|eapply release_nofile; [sock_lookup|reflexivity]]; cbn beta ].
Ltac sock_simpl :=
  repeat progress (cbn [socks set_socks mgr set_mgr so_ops so_sk so_file so_type set_ops set_sk
    set_type set_file mbind option_bind fst snd add_ref];
  rewrite ?socks_add_ref, ?mgr_add_ref, ?insert_insert_eq, ?delete_insert_eq).

(** An error exit undoes everything. *)
Lemma create_done_err w w' id type e err :
  err ≠ 0 → same_files w w' → mgr w' = mgr w → socks w' = delete id (socks w) →
  (∀ k, refs w' k = refs w k) → create_done w w' id type e (err, None).
Proof. intros. split; [done|]. split; [done|]. by right. Qed.

Lemma create_protocol_done w pid id family type e :
  socks w !! id = Some (Socket type None None None) →
  ((ce_create e).1.1 < 0 ∨ is_Some (ce_create e).1.2) →
  ∃ r w', create_protocol e pid id family w = Some (r, w') ∧ create_done w w' id type e r.
Proof.
  intros Hs Hc. unfold create_protocol. destruct (ce_families e family) as [pf|].
  2: { sock_step. eexists _, _. split; [reflexivity|]. sock_simpl. by apply create_done_err. }
  rewrite (st_bind_step _ _ _ _ _ (try_module_get_ok _ _ _)); cbn beta.
  destruct (available (ce_pf_alive e) pf); cbn [negb].
  2: { sock_step. eexists _, _. split; [reflexivity|]. sock_simpl. by apply create_done_err. }
  destruct (ce_create e) as [[err ops] sk] eqn:Ec. cbn in Hc. sock_step.
  destruct (err <? 0) eqn:Herr; to_prop.
  { do 4 sock_step. eexists _, _. split; [reflexivity|]. sock_simpl.
    apply create_done_err; [lia|by destruct pf|by sock_simpl|by sock_simpl|].
    intros k. rewrite refs_set_socks, refs_add_ref, !refs_set_socks, refs_add_ref.
    case_decide; lia. }
  destruct Hc as [?|[o ->]]; [lia|]. rewrite (st_bind_step _ _ _ _ _ (try_module_get_ok _ _ _)); cbn beta.
  destruct (available (ce_ops_alive e) (ops_owner o)); cbn [negb].
  2: { do 3 sock_step. eexists _, _. split; [reflexivity|]. sock_simpl.
    apply create_done_err; [done|by destruct pf|by sock_simpl|by sock_simpl|].
    intros k. rewrite refs_set_socks, refs_add_ref, !refs_set_socks, refs_add_ref.
    case_decide; lia. }
  sock_step. destruct (ce_post e =? 0) eqn:Hp; cbn [negb]; to_prop.
  - eexists _, _. split; [reflexivity|]. repeat split; [by destruct pf, o as [[]]..| |].
    + by sock_simpl.
    + left. exists o. rewrite Ec. split_and!; [done|done|by sock_simpl|].
      intros k. rewrite !refs_add_ref, refs_set_socks, refs_add_ref. repeat case_decide; lia.
  - sock_step. eexists _, _. split; [reflexivity|]. sock_simpl.
    apply create_done_err; [done|by destruct pf, o as [[]]|by sock_simpl|by sock_simpl|].
    intros k. rewrite refs_set_socks, !refs_add_ref, refs_set_socks, refs_add_ref.
    repeat case_decide; lia.
Qed.

(** A world in which the fairness manager is initialised and enabled. *)
Record world_wf (w : world) : Prop := {
  ww_mgr : mgr_wf (mgr w);
  ww_enabled : fairness_enabled (mgr w) = true }.

(** The number of sockets the manager believes a thread to have. *)
Definition thread_count (w : world) (t : Z) : Z := default 0 (view (mgr w) !! t).

(** The requests that reach the registration of the new socket [id]. *)
Record create_request (e : create_env) (w : world) (family type id : Z) : Prop := {
  cr_family : 0 ≤ family < NPROTO;
  cr_type : 0 ≤ type < SOCK_MAX;
  cr_security : ce_security e = 0;
  cr_inode : ce_inode e = Some id;
  cr_fresh : socks w !! id = None;
  cr_mem : ce_mem e = true;
  cr_create : (ce_create e).1.1 < 0 ∨ is_Some (ce_create e).1.2 }.

Definition effective_family (family type : Z) : Z :=
  if (family =? PF_INET) && (type =? SOCK_PACKET) then PF_PACKET else family.

(** The state of [__sock_create] when the protocol part starts. *)
Lemma sock_create_prefix e pid w family type id :
  create_request e w family type id → world_wf w → thread_count w pid < 2 ^ 31 - 1 →
  ∃ m1, mgr_wf m1 ∧ config m1 = config (mgr w) ∧
    view m1 = <[pid := thread_count w pid + 1]> (view (mgr w)) ∧
    __sock_create e pid family type w =
      create_protocol e pid id (effective_family family type)
        (set_mgr m1 (set_socks (<[id := Socket type None None None]> (socks w)) w)).
Proof.
  intros [Hf Ht Hs Hi Hfr Hm Hc] [Wm We] Hb.
  destruct (register_view (mgr w) pid Wm Hb) as (m1 & E1 & W1 & C1 & V1).
  exists m1. split_and!; [done..|]. unfold __sock_create.
  replace ((family <? 0) || (NPROTO <=? family)) with false by (symmetry; unfold NPROTO in *; lia).
  replace ((type <? 0) || (SOCK_MAX <=? type)) with false by (symmetry; unfold SOCK_MAX in *; lia).
  rewrite Hs, Hi. cbn [negb Z.eqb].
  rewrite (st_bind_step (sock_alloc _) _ w (Some id)
    (set_socks (<[id := Socket 0 None None None]> (socks w)) w)); cbn beta match.
  2: { unfold sock_alloc, get, mbind, st_bind. by rewrite Hfr. }
  sock_step. cbn [set_type so_type so_ops so_sk so_file socks set_socks]. rewrite insert_insert_eq.
  rewrite Hm. erewrite (st_bind_step (fair _)); [|apply fair_ok; exact E1]. done.
Qed.

Lemma sock_create_done e pid w family type id :
  create_request e w family type id → world_wf w → thread_count w pid < 2 ^ 31 - 1 →
  ∃ r w', __sock_create e pid family type w = Some (r, w') ∧ world_wf w' ∧
    config (mgr w') = config (mgr w) ∧
    view (mgr w') = <[pid := thread_count w pid + 1]> (view (mgr w)) ∧ same_files w w' ∧
    ((∃ o, r = (0, Some id) ∧ (ce_create e).1.2 = Some o ∧
        socks w' = <[id := Socket type (Some o) (ce_create e).2 None]> (socks w) ∧
        ∀ k, refs w' k = refs w k + (if decide (ops_owner o = Some k) then 1 else 0)) ∨
     (r.1 ≠ 0 ∧ r.2 = None ∧ socks w' = socks w ∧ ∀ k, refs w' k = refs w k)).
Proof.
  intros Hr Hw Hb.
  destruct (sock_create_prefix e pid w family type id Hr Hw Hb) as (m1 & W1 & C1 & V1 & ->).
  set (w1 := set_mgr m1 _).
  destruct (create_protocol_done w1 pid id (effective_family family type) type e)
    as (r & w' & E & Sf & Em & Hd); [apply lookup_insert_eq|apply Hr|].
  exists r, w'. split; [done|]. rewrite Em. split.
  { split; rewrite Em; [done|]. unfold config in C1. cbn. injection C1 as _ _ _ C4 _.
    rewrite C4. apply Hw. }
  split_and!; [done|done|done|]. destruct Hd as [(o & -> & Eo & Es & Er)|(H1 & H2 & Es & Er)].
  - left. exists o. split_and!; [done|done| |done]. rewrite Es. cbn. apply insert_insert_eq.
  - right. split_and!; [done|done| |done]. rewrite Es. cbn.
    rewrite delete_insert_eq. apply delete_id. apply Hr.
Qed.

(** Without a loaded family the creation fails with [EAFNOSUPPORT]. *)
Lemma create_unsupported e pid w family type id :
  create_request e w family type id → world_wf w → thread_count w pid < 2 ^ 31 - 1 →
  ce_families e (effective_family family type) = None →
  ∃ w', __sock_create e pid family type w = Some ((- EAFNOSUPPORT, None), w') ∧ world_wf w' ∧
    config (mgr w') = config (mgr w) ∧
    view (mgr w') = <[pid := thread_count w pid + 1]> (view (mgr w)) ∧
    same_files w w' ∧ socks w' = socks w.
Proof.
  intros Hr Hw Hb Hf.
  destruct (sock_create_done e pid w family type id Hr Hw Hb)
    as (r & w' & E & W' & C' & V' & Sf & Hd).
  destruct (sock_create_prefix e pid w family type id Hr Hw Hb) as (m1 & W1 & C1 & V1 & E1).
  assert (r = (- EAFNOSUPPORT, None)) as ->.
  { rewrite E1 in E. revert E. unfold create_protocol. rewrite Hf.
    erewrite (st_bind_step (sock_release _ _)).
    2: { eapply release_nofile; [apply lookup_insert_eq|done]. }
    by intros [= <- _]. }
  exists w'. destruct Hd as [(o & ? & _)|(_ & _ & ? & _)]; [done|].
  by split_and!.
Qed.

Lemma thread_count_set m n w t :
  n = thread_count w t → view m = <[t := n]> (view (mgr w)) →
  ∀ t', default 0 (view m !! t') = thread_count w t'.
Proof.
  intros -> V t'. rewrite V. unfold thread_count.
  destruct (decide (t = t')) as [->|]; [by rewrite lookup_insert_eq|by rewrite lookup_insert_ne].
Qed.

(** Creations that find no protocol family, one after the other. *)
Lemma creates_unsupported es pid w family type :
  world_wf w →
  Forall (λ e, ∃ id, create_request e w family type id ∧
                     ce_families e (effective_family family type) = None) es →
  thread_count w pid + Z.of_nat (length es) < 2 ^ 31 →
  ∃ w', for_each es (λ e, __sock_create e pid family type ;; mret tt) w = Some (tt, w') ∧
    world_wf w' ∧ config (mgr w') = config (mgr w) ∧ same_files w w' ∧ socks w' = socks w ∧
    thread_count w' pid = thread_count w pid + Z.of_nat (length es).
Proof.
  revert w. induction es as [|e es IH]; intros w Hw Hes Hl.
  { exists w. split_and!; try done. cbn. lia. }
  cbn [length] in Hl. apply Forall_cons in Hes as [(id & Hr & Hf) Hes].
  destruct (create_unsupported e pid w family type id Hr Hw) as (w1 & E1 & W1 & C1 & V1 & S1 & K1);
    [lia|done|].
  assert (thread_count w1 pid = thread_count w pid + 1) as T1.
  { unfold thread_count at 1. by rewrite V1, lookup_insert_eq. }
  destruct (IH w1 W1) as (w2 & E2 & W2 & C2 & S2 & K2 & T2).
  { eapply Forall_impl; [done|]. intros e' (id' & [? ? ? ? ? ? ?] & ?).
    exists id'. split; [|done]. split; try done. by rewrite K1. }
  { lia. }
  exists w2. cbn [for_each].
  rewrite (st_bind_step _ _ _ tt w1); cbn beta.
  2: { by rewrite (st_bind_step _ _ _ _ _ E1). }
  destruct S1 as (? & ? & ?), S2 as (? & ? & ?).
  split_and!; [done|done|congruence|repeat split; congruence|congruence|].
  rewrite T2, T1. cbn [length]. lia.
Qed.

(** At the limit a thread receives nothing, on no socket. *)
Lemma recv_denied jiffies sec recv pid id msg w :
  world_wf w → max_sockets_per_thread (mgr w) ≤ thread_count w pid →
  ∃ w', sock_recvmsg true jiffies sec recv pid id msg w = Some ((- EAGAIN, msg), w') ∧
        socks w' = socks w.
Proof.
  intros [Wm We] Hl. destruct (check_view (mgr w) jiffies pid Wm We) as (m1 & E1 & _).
  fold (thread_count w pid) in E1. rewrite (proj2 (Z.ltb_ge _ _)) in E1 by done.
  cbn [andb] in E1. eexists. unfold sock_recvmsg.
  erewrite (st_bind_step (fair _)); [|by apply fair_ok]. split; [reflexivity|done].
Qed.

(** Below the limit the protocol's answer is returned and counted. *)
Lemma recv_allowed jiffies recv pid id msg w s o ret msg' :
  world_wf w → thread_count w pid < max_sockets_per_thread (mgr w) →
  0 < max_pending_per_thread (mgr w) →
  socks w !! id = Some s → so_ops s = Some o → recv msg = (ret, msg') →
  ∃ w', sock_recvmsg true jiffies 0 recv pid id msg w = Some ((ret, msg'), w') ∧ world_wf w' ∧
        socks w' = socks w ∧ ∀ t, thread_count w' t = thread_count w t.
Proof.
  intros [Wm We] Hl Hp Hs Ho Hr.
  destruct (check_view (mgr w) jiffies pid Wm We) as (m1 & E1 & W1 & C1 & V1).
  fold (thread_count w pid) in E1, V1. rewrite (proj2 (Z.ltb_lt _ _)) in E1 by done.
  rewrite (proj2 (Z.ltb_lt _ _)) in E1 by done. cbn [andb] in E1. unfold sock_recvmsg.
  erewrite (st_bind_step (fair _)); [|by apply fair_ok]. cbn [negb Z.eqb].
  rewrite (st_bind_step (sock_recvmsg_nosec _ _ _) _ _ (ret, msg') (set_mgr m1 w)); cbn beta match.
  2: { unfold sock_recvmsg_nosec. erewrite (st_bind_step (load_sock _)); [|by apply load_sock_ok].
       rewrite Ho, Hr. done. }
  pose proof (thread_count_set m1 _ w pid eq_refl V1) as K1.
  unfold config in C1. injection C1 as _ _ _ C4 _.
  destruct (0 <? ret).
  - destruct (traffic_view m1 pid 0 ret W1) as (m2 & E2 & W2 & C2 & V2).
    erewrite (st_bind_step (fair _)); [|by apply fair_ok].
    eexists. split; [reflexivity|]. unfold config in C2. injection C2 as _ _ _ C4' _.
    split; [split; cbn; congruence|]. split; [done|]. intros t. rewrite <-K1.
    unfold thread_count. cbn. by apply (thread_count_set m2 _ (set_mgr m1 w) pid eq_refl).
  - eexists. split; [reflexivity|]. split; [split; cbn; congruence|]. split; [done|].
    exact K1.
Qed.


(** The world after boot. *)
Definition world0 : world := World mgr_init ∅ ∅ ∅ ∅ 0.

Lemma world0_wf : world_wf world0.
Proof. split; [exact mgr_init_wf|done]. Qed.

(** An IPv4 socket of module 3, given the inode [id]. *)
Definition env_inet (id : Z) : create_env :=
  CreateEnv 0 (Some id) true (λ f, if f =? PF_INET then Some (Some 3) else None) true
    (0, Some (Ops (Some 3)), Some 6) true 0.


(** A failed creation is never undone in the fairness accounting: a thread
    whose requests name an unsupported family (each fails and leaves no socket
    behind) counts one more active socket each time, and once the socket limit
    is reached every receive of that thread fails with EAGAIN, on any socket. *)
Theorem failed_creates_block_receive es pid w family type :
  world_wf w →
  Forall (λ e, ∃ id, create_request e w family type id ∧
                     ce_families e (effective_family family type) = None) es →
  thread_count w pid + Z.of_nat (length es) < 2 ^ 31 →
  max_sockets_per_thread (mgr w) ≤ thread_count w pid + Z.of_nat (length es) →
  ∃ w', for_each es (λ e, __sock_create e pid family type ;; mret tt) w = Some (tt, w') ∧
    socks w' = socks w ∧
    ∀ jiffies sec recv id msg, ∃ w2,
      sock_recvmsg true jiffies sec recv pid id msg w' = Some ((- EAGAIN, msg), w2).
Proof.
  intros Hw Hes Hb Hl.
  destruct (creates_unsupported es pid w family type Hw Hes Hb) as (w' & E & W' & C & _ & K & T).
  exists w'. split_and!; [done..|]. intros jiffies sec recv id msg.
  unfold config in C. injection C as C1 _ _ _ _.
  destruct (recv_denied jiffies sec recv pid id msg w' W') as (w2 & E2 & _); [lia|]. by exists w2.
Qed.

Lemma failed_creates_block_receive_witness :
  ∃ w', for_each (replicate 10 (env_inet 1)) (λ e, __sock_create e 40 30 1 ;; mret tt) world0
      = Some (tt, w') ∧ socks w' = ∅ ∧
    ∀ jiffies sec recv id msg, ∃ w2,
      sock_recvmsg true jiffies sec recv 40 id msg w' = Some ((- EAGAIN, msg), w2).
Proof.
  apply (failed_creates_block_receive (replicate 10 (env_inet 1)) 40 world0 30 1).
  - exact world0_wf.
  - apply Forall_replicate. exists 1. split; [|done].
    split; try (cbn; unfold NPROTO, SOCK_MAX; lia); try done. right. by eexists.
  - done.
  - done.
Defined.

(** What throttling does to the socket: its priority drops to zero. *)
Definition deprioritise (s : socket) : socket :=
  match so_sk s with Some _ => set_sk (Some 0) s | None => s end.

Definition throttled (w : world) (pid : Z) : bool :=
  match view (mgr w) !! pid with
  | Some a => max_sockets_per_thread (mgr w) <? a
  | None => false
  end.

(** The throttle query and its effects. *)
Lemma send_throttle_ok w pid id s :
  world_wf w → socks w !! id = Some s →
  ∃ m1, mgr_wf m1 ∧ config m1 = config (mgr w) ∧ view m1 = view (mgr w) ∧
    (t ← fair (should_throttle_transmission pid);
     if (t : bool) then
       update_sock id (λ s, match so_sk s with Some _ => set_sk (Some 0) s | None => s end) ;;
       msleep 100
     else mret tt) w =
    Some (tt, set_mgr m1 (if throttled w pid
      then set_slept (slept w + 100) (set_socks (<[id := deprioritise s]> (socks w)) w) else w)).
Proof.
  intros [Wm We] Hs. destruct (throttle_view (mgr w) pid Wm We) as (m1 & E1 & W1 & C1 & V1).
  exists m1. split_and!; [done..|]. fold (throttled w pid) in E1.
  erewrite (st_bind_step (fair _)); [|by apply fair_ok]. cbn beta.
  destruct (throttled w pid); [|done].
  erewrite (st_bind_step (update_sock _ _)); [|apply update_sock_ok; cbn; exact Hs]. done.
Qed.

Lemma send_ok sec send pid id msg w s o ret msg' :
  world_wf w → socks w !! id = Some s → so_ops s = Some o →
  send msg = (ret, msg') → ret ≠ - EIOCBQUEUED →
  ∃ w', __sock_sendmsg true sec send pid id msg w =
      Some (if sec =? 0 then (ret, msg') else (sec, msg), w') ∧ world_wf w' ∧
    slept w' = slept w + (if throttled w pid then 100 else 0) ∧
    socks w' = (if throttled w pid then <[id := deprioritise s]> (socks w) else socks w) ∧
    ∀ t, thread_count w' t = thread_count w t.
Proof.
  intros Hw Hs Ho Hsend Hq.
  destruct (send_throttle_ok w pid id s Hw Hs) as (m1 & W1 & C1 & V1 & E1).
  set (w1 := if throttled w pid then _ else w) in E1.
  assert (slept w1 = slept w + (if throttled w pid then 100 else 0) ∧
    socks w1 = (if throttled w pid then <[id := deprioritise s]> (socks w) else socks w)) as [L1 K1].
  { unfold w1. destruct (throttled w pid); cbn; split; try done; lia. }
  assert (∃ s1, socks w1 !! id = Some s1 ∧ so_ops s1 = Some o) as (s1 & Hs1 & Ho1).
  { rewrite K1. destruct (throttled w pid); [|by exists s]. exists (deprioritise s).
    rewrite lookup_insert_eq. split; [done|]. unfold deprioritise. by destruct (so_sk s). }
  assert (fairness_enabled m1 = true) as F1.
  { unfold config in C1. injection C1 as _ _ _ C4 _. rewrite C4. apply Hw. }
  unfold __sock_sendmsg. rewrite <-st_bind_assoc, (st_bind_step _ _ _ _ _ E1); cbn beta.
  destruct (sec =? 0) eqn:Hsec; cbn [negb].
  2: { eexists. split; [reflexivity|]. split; [by split|]. split_and!; [done..|].
       intros t. unfold thread_count. cbn. by rewrite V1. }
  rewrite (st_bind_step (sock_sendmsg_nosec _ _ _) _ _ (ret, msg') (set_mgr m1 w1)); cbn beta match.
  2: { unfold sock_sendmsg_nosec. erewrite (st_bind_step (load_sock _)); [|by apply load_sock_ok].
       rewrite Ho1, Hsend. apply Z.eqb_neq in Hq. by rewrite Hq. }
  destruct ((0 <=? ret) && (0 <? msg_left msg)).
  - destruct (traffic_view m1 pid (msg_left msg) 0 W1) as (m2 & E2 & W2 & C2 & V2).
    erewrite (st_bind_step (fair _)); [|by apply fair_ok].
    eexists. split; [reflexivity|]. unfold config in C2. injection C2 as _ _ _ C4' _.
    split; [split; cbn; congruence|]. split_and!; [done..|]. intros t.
    etrans; [by apply (thread_count_set m2 _ (set_mgr m1 w1) pid eq_refl)|].
    unfold thread_count. cbn. by rewrite V1.
  - eexists. split; [reflexivity|]. split; [by split|]. split_and!; [done..|].
    intros t. unfold thread_count. cbn. by rewrite V1.
Qed.

(** The fairness code never denies or alters a transmission: the caller
    gets the security hook's error or the protocol's own result and header.  A
    thread above the socket limit pays with one sleep of 100 milliseconds and
    with the priority of the socket's protocol side; nobody's socket count
    changes. *)
Theorem sendmsg_transparent sec send pid id msg w s o ret msg' :
  world_wf w → socks w !! id = Some s → so_ops s = Some o →
  send msg = (ret, msg') → ret ≠ - EIOCBQUEUED →
  ∃ w', __sock_sendmsg true sec send pid id msg w =
      Some (if sec =? 0 then (ret, msg') else (sec, msg), w') ∧ world_wf w' ∧
    slept w' = slept w + (if throttled w pid then 100 else 0) ∧
    socks w' = (if throttled w pid then <[id := deprioritise s]> (socks w) else socks w) ∧
    ∀ t, thread_count w' t = thread_count w t.
Proof. apply send_ok. Qed.

Lemma sendmsg_transparent_witness :
  let w := World (Mgr [Stats 40 11 0 0 0 0 0] 10 5 1000 true true)
             {[1 := Socket 1 (Some (Ops None)) (Some 6) None]} ∅ ∅ ∅ 0 in
  ∃ w', __sock_sendmsg true 0 (λ m, (msg_left m, m)) 40 1 (Msg None 0 12) w =
      Some ((12, Msg None 0 12), w') ∧ world_wf w' ∧ slept w' = 100 ∧
    socks w' = <[1 := Socket 1 (Some (Ops None)) (Some 0) None]> (socks w) ∧
    ∀ t, thread_count w' t = thread_count w t.
Proof.
  intros w. apply (sendmsg_transparent 0 (λ m, (msg_left m, m)) 40 1 (Msg None 0 12) w
    (Socket 1 (Some (Ops None)) (Some 6) None) (Ops None) 12 (Msg None 0 12)); try done.
  split; [|done]. split; cbn; [done| | |lia].
  - apply NoDup_cons. split; [apply not_elem_of_nil|constructor].
  - repeat constructor; cbn; lia.
Defined.

(** Closing the only descriptor of the only reference of a socket's file. *)
Lemma sys_close_ok w pid fd f id fl s m' :
  fdt w !! fd = Some (Some f) → files w !! f = Some (File (Some id) fl 1) →
  socks w !! id = Some s → so_file s = Some f →
  unregister_socket_for_thread pid (mgr w) = Some (tt, m') →
  ∃ w2, sys_close pid fd w = Some (0, w2) ∧ mgr w2 = m' ∧ socks w2 = delete id (socks w) ∧
    files w2 = delete f (files w) ∧ fdt w2 = delete fd (fdt w) ∧
    ∀ k, refs w2 k = refs w k + (if decide (so_ops s ≫= ops_owner = Some k) then -1 else 0).
Proof.
  intros Hfd Hf Hs Hsf Hu. unfold sys_close.
  rewrite (st_bind_step get _ w w w) by done. cbn beta. rewrite Hfd.
  unfold put_unused_fd at 1. rewrite (st_bind_step (modify _) _ w tt (set_fdt (delete fd (fdt w)) w)) by done.
  cbn beta. set (w1 := set_files (delete f (files w)) (set_fdt (delete fd (fdt w)) w)).
  pose proof (release_file w1 pid id s f m' Hs Hsf Hu) as Hrel.
  set (w3 := set_mgr m' _) in Hrel.
  assert (socks w3 = <[id := set_file None (match so_ops s with
    Some _ => set_ops None (set_sk None s) | None => s end)]> (socks w)) as K3 by done.
  rewrite (st_bind_step (fput pid f) _ _ tt (set_socks (delete id (socks w3)) w3)); cbn beta.
  2: { unfold fput. rewrite (st_bind_step (load_file f) _ _ (File (Some id) fl 1)
         (set_fdt (delete fd (fdt w)) w)); cbn beta.
       2: { unfold load_file, get, mbind, st_bind, lift. cbn. by rewrite Hf. }
       cbn [f_count f_sock Z.ltb Z.compare]. change (1 <? 1) with false. cbn match. rewrite (st_bind_step (modify _) _ _ tt w1) by done.
       cbn beta. unfold sock_close. rewrite st_bind_assoc.
       rewrite (st_bind_step _ _ _ _ _ Hrel). done. }
  eexists. split; [reflexivity|]. split; [done|]. cbn [socks set_socks]. rewrite K3.
  rewrite delete_insert_eq. unfold w3. cbn [files fdt set_files set_fdt set_mgr set_socks].
  destruct (add_ref_other (so_ops s ≫= ops_owner) (-1) w1) as (_ & _ & -> & -> & _).
  split_and!; [done..|]. intros k. unfold refs. cbn.
  change (default 0 (modref ?x !! k)) with (refs x k). by rewrite refs_add_ref.
Qed.

(** A successful [socket()]: the socket is bound to its new file and descriptor. *)
Lemma sys_socket_ok e fd f pid w family type id r w1 :
  create_request e w family (Z.land type SOCK_TYPE_MASK) id → world_wf w →
  thread_count w pid < 2 ^ 31 - 1 → files w !! f = None →
  __sys_socket e fd (inl f) pid family type w = Some (r, w1) → 0 ≤ r →
  r = fd ∧ fdt w !! fd = None ∧ world_wf w1 ∧ config (mgr w1) = config (mgr w) ∧
  view (mgr w1) = <[pid := thread_count w pid + 1]> (view (mgr w)) ∧
  fdt w1 = <[fd := Some f]> (fdt w) ∧
  (∃ fl, files w1 = <[f := File (Some id) fl 1]> (files w)) ∧
  ∃ s o, so_file s = Some f ∧ so_ops s = Some o ∧ socks w1 = <[id := s]> (socks w) ∧
    ∀ k, refs w1 k = refs w k + (if decide (ops_owner o = Some k) then 1 else 0).
Proof.
  intros Hr Hw Hb Hf. unfold __sys_socket.
  destruct (bad_sock_flags _); [intros [= <- _]; unfold EINVAL; lia|].
  destruct (sock_create_done e pid w family _ id Hr Hw Hb)
    as (r0 & w0 & E & W0 & C0 & V0 & (F1 & F2 & F3) & Hd).
  unfold sock_create. rewrite (st_bind_step _ _ _ _ _ E); cbn beta.
  destruct Hd as [(o & -> & Eo & Es & Er)|(H1 & H2 & _)].
  2: { destruct r0 as [r0 o]. cbn in H1, H2. subst o. destruct (r0 <? 0) eqn:?; [|done].
       intros [= <- _]. to_prop. lia. }
  cbn [Z.ltb Z.compare]. unfold sock_map_fd, get_unused_fd_flags.
  destruct (fd <? 0) eqn:Hfd.
  { rewrite (st_bind_step (mret fd) _ w0 fd w0) by done. cbn beta. rewrite Hfd.
    unfold mbind, st_bind. destruct (sock_release pid id w0) as [[]|]; [|done].
    intros [= <- _]. to_prop. lia. }
  rewrite st_bind_assoc, (st_bind_step get _ w0 w0 w0) by done. cbn beta.
  rewrite F2. destruct (fdt w !! fd) eqn:Hfree; [done|].
  rewrite st_bind_assoc, (st_bind_step (modify _) _ w0 tt (set_fdt (<[fd := None]> (fdt w0)) w0)) by done.
  cbn beta. rewrite (st_bind_step (mret fd) _ _ fd _ eq_refl). cbn beta. rewrite Hfd.
  unfold sock_alloc_file. rewrite st_bind_assoc, (st_bind_step get _ _ _ _ eq_refl). cbn beta.
  cbn [files set_fdt]. rewrite F1, Hf.
  rewrite st_bind_assoc, (st_bind_step (modify _) _ _ tt _ eq_refl). cbn beta.
  rewrite st_bind_assoc. erewrite (st_bind_step (update_sock _ _)).
  2: { apply update_sock_ok. cbn. rewrite Es. apply lookup_insert_eq. }
  cbn beta. rewrite (st_bind_step (mret _) _ _ _ _ eq_refl). cbn beta match.
  intros [= <- <-] _. cbn. rewrite Es, F1, F2, !insert_insert_eq.
  split_and!; [done|done|split; cbn; apply W0|done|done|done|by eexists|].
  eexists _, o. split_and!; [| |reflexivity|done]; done.
Qed.



(** When another thread, without statistics of its own, closes the
    descriptor (a worker thread, or the process exiting), the creator keeps its
    socket count for ever although the socket is gone, and the manager loses
    one unit of its pending limit. *)
Theorem socket_closed_by_other e fd f pid pid' w family type id r w1 :
  create_request e w family (Z.land type SOCK_TYPE_MASK) id → world_wf w →
  thread_count w pid < 2 ^ 31 - 1 → files w !! f = None →
  __sys_socket e fd (inl f) pid family type w = Some (r, w1) → 0 ≤ r →
  pid' ≠ pid → view (mgr w) !! pid' = None →
  ∃ w2, sys_close pid' r w1 = Some (0, w2) ∧ socks w2 = socks w ∧
    thread_count w2 pid = thread_count w pid + 1 ∧
    max_pending_per_thread (mgr w2) = Z.max 0 (max_pending_per_thread (mgr w) - 1).
Proof.
  intros Hr Hw Hb Hf E Hr0 Hne Hv.
  destruct (sys_socket_ok _ _ _ _ _ _ _ _ _ _ Hr Hw Hb Hf E Hr0) as
    (-> & Hfd & W1 & C1 & V1 & T1 & (fl & F1) & s & o & Hsf & Hso & K1 & R1).
  assert (view (mgr w1) !! pid' = None) as Hv1 by (by rewrite V1, lookup_insert_ne).
  pose proof (unregister_untracked_eq (mgr w1) pid' (ww_mgr _ W1) Hv1) as E2.
  edestruct (sys_close_ok w1 pid' fd f id fl s) as (w2 & E3 & M3 & K3 & F3 & T3 & R3).
  { rewrite T1. apply lookup_insert_eq. }
  { rewrite F1. apply lookup_insert_eq. }
  { rewrite K1. apply lookup_insert_eq. }
  { done. }
  { exact E2. }
  pose proof (cr_fresh _ _ _ _ _ Hr). exists w2. split; [done|].
  unfold config in C1. injection C1 as _ C1' _ _ _. split_and!.
  - rewrite K3, K1, delete_insert_eq. by apply delete_id.
  - unfold thread_count at 1. rewrite M3.
    change (view (with_max_pending (mgr w1) _)) with (view (mgr w1)).
    by rewrite V1, lookup_insert_eq.
  - rewrite M3. cbn. by rewrite C1'.
Qed.

Lemma socket_closed_by_other_witness :
  let E := __sys_socket (env_inet 1) 3 (inl 9) 40 PF_INET 1 world0 in
  ∃ w1, E = Some (3, w1) ∧
  ∃ w2, sys_close 41 3 w1 = Some (0, w2) ∧ socks w2 = socks world0 ∧
    thread_count w2 40 = 1 ∧ max_pending_per_thread (mgr w2) = 4.
Proof.
  eexists. split; [vm_compute; reflexivity|].
  eapply (socket_closed_by_other (env_inet 1) 3 9 40 41 world0 PF_INET 1 1 3).
  - split; try (cbn; unfold NPROTO, SOCK_MAX, PF_INET; lia); try done. right. by eexists.
  - exact world0_wf.
  - done.
  - done.
  - vm_compute. reflexivity.
  - done.
  - done.
  - done.
Defined.

End SocketCore.
