(* ===== verification/SocketSyscalls.v ===== *)
(** * The socket system calls of net/socket.c

    The system calls that find a socket by descriptor, copy addresses between
    user space and the kernel and call the protocol, [accept4] and
    [socketpair].  They run on the world of SocketCore.  The answers of the
    security hooks and of the protocol's operations, and what user memory
    yields, are arguments; a protocol operation that receives an address is a
    function of it. *)

From Stdlib Require Import ZArith Lia.
From stdpp Require Import base numbers list gmap strings.
From S2P Require Import Prelude SocketFairness SocketCore.

Module SocketSyscalls.
Import SocketFairness SocketCore.

Definition SOCKADDR_STORAGE : Z := 128.

(** ** Addresses *)

(** [uaddr] is what user memory holds at the address, [None] when it cannot be
    read; [audit] is the answer of [audit_sockaddr].  The second component is
    what the kernel buffer holds afterwards. *)
Definition move_addr_to_kernel (uaddr : option (list Z)) (audit ulen : Z) (kaddr : list Z) :
    Z * list Z :=
  if (ulen <? 0) || (SOCKADDR_STORAGE <? ulen) then (- EINVAL, kaddr)
  else if ulen =? 0 then (0, kaddr)
  else
    match uaddr ≫= λ u, bytes_at u 0 ulen with
    | None => (- EFAULT, kaddr)
    | Some b =>
        match put_at kaddr 0 b with
        | Some k => (audit, k)
        | None => (- EFAULT, kaddr)
        end
    end.

(** User memory for a returned address: the length field ([None] when
    unreadable) and whether the buffer and the length field are writable. *)
Record user_addr := UserAddr { ua_len : option Z; ua_buf_ok : bool; ua_len_ok : bool }.

(** Result, the bytes stored at [uaddr] and the length stored at [ulen].
    [None] is the [BUG_ON] of an over-long kernel address. *)
Definition move_addr_to_user (kaddr : list Z) (klen audit : Z) (u : user_addr) :
    option (Z * list Z * option Z) :=
  if SOCKADDR_STORAGE <? klen then None
  else
    match ua_len u with
    | None => Some (- EFAULT, [], None)
    | Some len =>
        let len := if klen <? len then klen else len in
        if len <? 0 then Some (- EINVAL, [], None)
        else if negb (len =? 0) && negb (audit =? 0) then Some (- ENOMEM, [], None)
        else if negb (len =? 0) && negb (ua_buf_ok u) then Some (- EFAULT, [], None)
        else
          match bytes_at kaddr 0 len with
          | None => None
          | Some b => if ua_len_ok u then Some (0, b, Some klen) else Some (- EFAULT, b, None)
          end
    end.

(** ** From descriptors to sockets *)

Definition sock_from_file (f : Z) : wst (option Z) := fl ← load_file f; mret (f_sock fl).

(** [shared]: the descriptor table is shared, so [fdget] takes a reference. *)
Definition fdget (shared : bool) (fd : Z) : wst (option (Z * bool)) :=
  w ← get;
  match fdt w !! fd with
  | Some (Some f) =>
      fl ← load_file f;
      (if shared then
         modify (λ w, set_files (<[f := File (f_sock fl) (f_flags fl) (f_count fl + 1)]> (files w)) w)
       else mret tt) ;;
      mret (Some (f, shared))
  | _ => mret None
  end.

Definition fdput (pid : Z) (f : Z * bool) : wst unit :=
  match f with (f, needed) => if (needed : bool) then fput pid f else mret tt end.

Definition fput_light (pid f : Z) (needed : bool) : wst unit :=
  if needed then fput pid f else mret tt.

Definition sockfd_lookup (pid fd : Z) : wst (Z + Z) :=
  r ← fdget true fd;
  match r with
  | None => mret (inr (- EBADF))
  | Some (f, _) =>
      s ← sock_from_file f;
      match s with
      | None => fput pid f ;; mret (inr (- ENOTSOCK))
      | Some id => mret (inl id)
      end
  end.

(** The socket and whether its file's reference must be dropped, or the error. *)
Definition sockfd_lookup_light (shared : bool) (pid fd : Z) : wst ((Z * bool) + Z) :=
  f ← fdget shared fd;
  match f with
  | None => mret (inr (- EBADF))
  | Some (f, needed) =>
      s ← sock_from_file f;
      match s with
      | Some id => mret (inl (id, needed))
      | None => fdput pid (f, needed) ;; mret (inr (- ENOTSOCK))
      end
  end.

(** [fput_light(sock->file, fput_needed)] *)
Definition sock_put_light (pid id : Z) (needed : bool) : wst unit :=
  s ← load_sock id;
  match so_file s with
  | Some f => fput_light pid f needed
  | None => if needed then fault else mret tt
  end.

(** [sock->ops->op(...)]: a socket without operations faults. *)
Definition call_ops {A} (id : Z) (r : A) : wst A :=
  s ← load_sock id; match so_ops s with Some _ => mret r | None => fault end.

(** ** bind, listen, connect *)

Definition addr0 : list Z := replicate 128 0.

Definition __sys_bind (shared : bool) (pid fd : Z) (umyaddr : option (list Z)) (audit addrlen : Z)
    (sec : Z) (bind : list Z → Z → Z) : wst Z :=
  r ← sockfd_lookup_light shared pid fd;
  match r with
  | inr err => mret err
  | inl (id, needed) =>
      let '(err, address) := move_addr_to_kernel umyaddr audit addrlen addr0 in
      err ← (if err =? 0 then
               if sec =? 0 then call_ops id (bind address addrlen) else mret sec
             else mret err);
      sock_put_light pid id needed ;;
      mret err
  end.

(** [(unsigned int)backlog > somaxconn] compares as unsigned. *)
Definition __sys_listen (shared : bool) (pid fd backlog somaxconn sec : Z) (listen : Z → Z) :
    wst Z :=
  r ← sockfd_lookup_light shared pid fd;
  match r with
  | inr err => mret err
  | inl (id, needed) =>
      s ← load_sock id;
      match so_sk s with
      | None => fault
      | Some _ =>
          let backlog := if u32 somaxconn <? u32 backlog then somaxconn else backlog in
          err ← (if sec =? 0 then call_ops id (listen backlog) else mret sec);
          sock_put_light pid id needed ;;
          mret err
      end
  end.

Definition __sys_connect_file (f sec : Z) (address : list Z) (addrlen : Z)
    (connect : list Z → Z → Z) : wst Z :=
  s ← sock_from_file f;
  match s with
  | None => mret (- ENOTSOCK)
  | Some id =>
      if negb (sec =? 0) then mret sec
      else call_ops id (connect address addrlen)
  end.

Definition __sys_connect (shared : bool) (pid fd : Z) (uaddr : option (list Z)) (audit addrlen : Z)
    (sec : Z) (connect : list Z → Z → Z) : wst Z :=
  f ← fdget shared fd;
  match f with
  | None => mret (- EBADF)
  | Some f =>
      let '(ret, address) := move_addr_to_kernel uaddr audit addrlen addr0 in
      ret ← (if ret =? 0 then __sys_connect_file f.1 sec address addrlen connect else mret ret);
      fdput pid f ;;
      mret ret
  end.

(** ** getsockname, getpeername

    [getname] is the protocol's answer: the length (or error) and the address. *)

Definition __sys_getsockname (shared : bool) (pid fd sec : Z) (getname : Z * list Z) (audit : Z)
    (u : user_addr) : wst (Z * list Z * option Z) :=
  r ← sockfd_lookup_light shared pid fd;
  match r with
  | inr err => mret (err, [], None)
  | inl (id, needed) =>
      res ← (if negb (sec =? 0) then mret (sec, [], None)
             else
               name ← call_ops id getname;
               match name with
               | (err, address) =>
                   if err <? 0 then mret (err, [], None)
                   else lift (move_addr_to_user address err audit u)
               end);
      sock_put_light pid id needed ;;
      mret res
  end.

Definition __sys_getpeername (shared : bool) (pid fd sec : Z) (getname : Z * list Z) (audit : Z)
    (u : user_addr) : wst (Z * list Z * option Z) :=
  r ← sockfd_lookup_light shared pid fd;
  match r with
  | inr err => mret (err, [], None)
  | inl (id, needed) =>
      if negb (sec =? 0) then sock_put_light pid id needed ;; mret (sec, [], None)
      else
        name ← call_ops id getname;
        match name with
        | (err, address) =>
            res ← (if 0 <=? err then lift (move_addr_to_user address err audit u)
                   else mret (err, [], None));
            sock_put_light pid id needed ;;
            mret res
        end
  end.

(** ** sendto, recvfrom

    [import] is the answer of [import_single_range]; [len] the byte count of
    the iterator it sets up. *)

Definition MSG_DONTWAIT : Z := 64.

(** [MSG_DONTWAIT] is added for a non-blocking file. *)
Definition msg_flags (id flags : Z) : wst Z :=
  s ← load_sock id;
  match so_file s with
  | None => fault
  | Some f =>
      fl ← load_file f;
      mret (if negb (Z.land (f_flags fl) O_NONBLOCK =? 0) then Z.lor flags MSG_DONTWAIT else flags)
  end.

(** [addr]: [None] for a NULL pointer, else what user memory holds there. *)
Definition __sys_sendto (shared mem : bool) (pid fd : Z) (import len flags : Z)
    (addr : option (option (list Z))) (audit addr_len sec : Z)
    (send : Z → msghdr → Z * msghdr) : wst Z :=
  if negb (import =? 0) then mret import
  else
    r ← sockfd_lookup_light shared pid fd;
    match r with
    | inr err => mret err
    | inl (id, needed) =>
        let '(err, msg) :=
          match addr with
          | None => (0, Msg None 0 len)
          | Some a =>
              let '(err, address) := move_addr_to_kernel a audit addr_len addr0 in
              (err, Msg (Some address) addr_len len)
          end in
        err ← (if err <? 0 then mret err
               else
                 flags ← msg_flags id flags;
                 r ← __sock_sendmsg mem sec (send flags) pid id msg;
                 mret (r : Z * msghdr).1);
        sock_put_light pid id needed ;;
        mret err
    end.

(** [addr]: [None] for a NULL pointer. *)
Definition __sys_recvfrom (shared mem : bool) (jiffies pid fd : Z) (import size flags : Z)
    (addr : option user_addr) (audit sec : Z) (recv : Z → msghdr → Z * msghdr) :
    wst (Z * list Z * option Z) :=
  if negb (import =? 0) then mret (import, [], None)
  else
    r ← sockfd_lookup_light shared pid fd;
    match r with
    | inr err => mret (err, [], None)
    | inl (id, needed) =>
        let msg := Msg (match addr with Some _ => Some addr0 | None => None end) 0 size in
        flags ← msg_flags id flags;
        r ← sock_recvmsg mem jiffies sec (recv flags) pid id msg;
        match r with
        | (err, msg) =>
            res ← match addr with
                  | Some u =>
                      if 0 <=? err then
                        o ← lift (move_addr_to_user (default [] (msg_name msg)) (msg_namelen msg) audit u);
                        match o with
                        | (err2, b, l) => mret (if err2 <? 0 then err2 else err, b, l)
                        end
                      else mret (err, [], None)
                  | None => mret (err, [], None)
                  end;
            sock_put_light pid id needed ;;
            mret res
        end
    end.

(** ** Options and shutdown *)

Definition SOL_SOCKET : Z := 1.

(** The fields of the protocol socket that decide who handles [SOL_SOCKET];
    [mptcp] is [IS_ENABLED(CONFIG_MPTCP)]. *)
Record sk_proto := SkProto { sk_protocol : Z; sk_type : Z; sk_family : Z }.

Definition IPPROTO_MPTCP : Z := 262.
Definition SOCK_STREAM : Z := 1.
Definition AF_INET : Z := 2.
Definition AF_INET6 : Z := 10.

Definition sock_use_custom_sol_socket (mptcp : bool) (sk : sk_proto) : bool :=
  mptcp && (sk_protocol sk =? IPPROTO_MPTCP) && (sk_type sk =? SOCK_STREAM) &&
  ((sk_family sk =? AF_INET) || (sk_family sk =? AF_INET6)).

(** [bpf] is the answer of the BPF hook with the level and length it leaves. *)
Definition __sys_setsockopt (shared : bool) (pid fd level optlen sec : Z) (compat : bool)
    (bpf : Z * Z * Z) (mptcp : bool) (sk : sk_proto) (sock_setsockopt : Z → Z → Z)
    (ops_setsockopt : option (Z → Z → Z)) : wst Z :=
  if optlen <? 0 then mret (- EINVAL)
  else
    r ← sockfd_lookup_light shared pid fd;
    match r with
    | inr err => mret err
    | inl (id, needed) =>
        err ← (if negb (sec =? 0) then mret sec
               else
                 let '(err, level, optlen) := if compat then (sec, level, optlen) else bpf in
                 if err <? 0 then mret err
                 else if 0 <? err then mret 0
                 else if (level =? SOL_SOCKET) && negb (sock_use_custom_sol_socket mptcp sk)
                 then mret (sock_setsockopt level optlen)
                 else
                   match ops_setsockopt with
                   | None => mret (- EOPNOTSUPP)
                   | Some f => call_ops id (f level optlen)
                   end);
        sock_put_light pid id needed ;;
        mret err
    end.

Definition __sys_getsockopt (shared : bool) (pid fd level sec : Z) (compat : bool)
    (sock_getsockopt : Z) (ops_getsockopt : option Z) (bpf : Z → Z) : wst Z :=
  r ← sockfd_lookup_light shared pid fd;
  match r with
  | inr err => mret err
  | inl (id, needed) =>
      err ← (if negb (sec =? 0) then mret sec
             else
               err ← (if level =? SOL_SOCKET then mret sock_getsockopt
                      else
                        match ops_getsockopt with
                        | None => mret (- EOPNOTSUPP)
                        | Some r => call_ops id r
                        end);
               mret (if compat then err else bpf err));
      sock_put_light pid id needed ;;
      mret err
  end.

Definition __sys_shutdown_sock (id sec : Z) (shutdown : Z) : wst Z :=
  if sec =? 0 then call_ops id shutdown else mret sec.

Definition __sys_shutdown (shared : bool) (pid fd sec shutdown : Z) : wst Z :=
  r ← sockfd_lookup_light shared pid fd;
  match r with
  | inr err => mret err
  | inl (id, needed) =>
      err ← __sys_shutdown_sock id sec shutdown;
      sock_put_light pid id needed ;;
      mret err
  end.

(** ** accept *)

(** The outcomes of the calls that [do_accept] makes.  [ae_accept] also gives
    the protocol socket that the protocol grafts onto the new socket. *)
Record accept_env := AcceptEnv {
  ae_inode : option Z;
  ae_file : Z + Z;
  ae_security : Z;
  ae_accept : Z * option Z;
  ae_getname : Z * list Z;
  ae_audit : Z }.

(** [upeer]: [None] for a NULL pointer.  The result is the new file or the error. *)
Definition do_accept (e : accept_env) (pid f : Z) (upeer : option user_addr) (flags : Z) :
    wst (Z + Z) :=
  s ← sock_from_file f;
  match s with
  | None => mret (inr (- ENOTSOCK))
  | Some id =>
      new ← sock_alloc (ae_inode e);
      match new with
      | None => mret (inr (- ENFILE))
      | Some nid =>
          sock ← load_sock id;
          update_sock nid (λ s, set_ops (so_ops sock) (set_type (so_type sock) s)) ;;
          match so_ops sock, so_sk sock with
          | Some o, Some _ =>
              modify (add_ref (ops_owner o) 1) ;;
              newfile ← sock_alloc_file pid (ae_file e) nid flags;
              match newfile with
              | inr err => mret (inr err)
              | inl nf =>
                  err ← (if negb (ae_security e =? 0) then mret (ae_security e)
                         else
                           update_sock nid (set_sk (ae_accept e).2) ;;
                           if (ae_accept e).1 <? 0 then mret (ae_accept e).1
                           else
                             match upeer with
                             | None => mret 0
                             | Some u =>
                                 let '(len, address) := ae_getname e in
                                 if len <? 0 then mret (- ECONNABORTED)
                                 else
                                   r ← lift (move_addr_to_user address len (ae_audit e) u);
                                   mret (if r.1.1 <? 0 then r.1.1 else 0)
                             end);
                  if err =? 0 then mret (inl nf)
                  else fput pid nf ;; mret (inr err)
              end
          | _, _ => fault
          end
      end
  end.

Definition __sys_accept4_file (e : accept_env) (pid f newfd : Z) (upeer : option user_addr)
    (flags : Z) : wst Z :=
  if bad_sock_flags flags then mret (- EINVAL)
  else
    let flags := sock_flags flags in
    newfd ← get_unused_fd_flags newfd;
    if newfd <? 0 then mret newfd
    else
      newfile ← do_accept e pid f upeer flags;
      match newfile with
      | inr err => put_unused_fd newfd ;; mret err
      | inl nf => fd_install newfd nf ;; mret newfd
      end.

Definition __sys_accept4 (e : accept_env) (shared : bool) (pid fd newfd : Z)
    (upeer : option user_addr) (flags : Z) : wst Z :=
  f ← fdget shared fd;
  match f with
  | None => mret (- EBADF)
  | Some f =>
      ret ← __sys_accept4_file e pid f.1 newfd upeer flags;
      fdput pid f ;;
      mret ret
  end.

(** ** socketpair *)

Record pair_env := PairEnv {
  pe_put1 : Z;             (** put_user of the first descriptor *)
  pe_put2 : Z;
  pe_create1 : create_env;
  pe_create2 : create_env;
  pe_security : Z;
  pe_pair : Z;             (** the protocol's socketpair *)
  pe_file1 : Z + Z;
  pe_file2 : Z + Z }.

(** Everything between the descriptors and the label [out]: the files, or the
    error. *)
Definition socketpair_files (e : pair_env) (pid family type flags : Z) : wst ((Z * Z) + Z) :=
  if negb (pe_put1 e =? 0) then mret (inr (pe_put1 e))
  else if negb (pe_put2 e =? 0) then mret (inr (pe_put2 e))
  else
    r1 ← sock_create (pe_create1 e) pid family type;
    match r1 with
    | (err, s1) =>
        if err <? 0 then mret (inr err)
        else
          sock1 ← lift s1;
          r2 ← sock_create (pe_create2 e) pid family type;
          match r2 with
          | (err, s2) =>
              if err <? 0 then sock_release pid sock1 ;; mret (inr err)
              else
                sock2 ← lift s2;
                if negb (pe_security e =? 0) then
                  sock_release pid sock2 ;; sock_release pid sock1 ;; mret (inr (pe_security e))
                else
                  err ← call_ops sock1 (pe_pair e);
                  if err <? 0 then
                    sock_release pid sock2 ;; sock_release pid sock1 ;; mret (inr err)
                  else
                    newfile1 ← sock_alloc_file pid (pe_file1 e) sock1 flags;
                    match newfile1 with
                    | inr err => sock_release pid sock2 ;; mret (inr err)
                    | inl f1 =>
                        newfile2 ← sock_alloc_file pid (pe_file2 e) sock2 flags;
                        match newfile2 with
                        | inr err => fput pid f1 ;; mret (inr err)
                        | inl f2 => mret (inl (f1, f2))
                        end
                    end
          end
    end.

Definition __sys_socketpair (e : pair_env) (fd1 fd2 pid family type : Z) : wst Z :=
  let flags := Z.land type (Z.lnot SOCK_TYPE_MASK) in
  if bad_sock_flags flags then mret (- EINVAL)
  else
    let type := Z.land type SOCK_TYPE_MASK in
    let flags := sock_flags flags in
    fd1 ← get_unused_fd_flags fd1;
    if fd1 <? 0 then mret fd1
    else
      fd2 ← get_unused_fd_flags fd2;
      if fd2 <? 0 then put_unused_fd fd1 ;; mret fd2
      else
        r ← socketpair_files e pid family type flags;
        match r with
        | inl (f1, f2) => fd_install fd1 f1 ;; fd_install fd2 f2 ;; mret 0
        | inr err => put_unused_fd fd2 ;; put_unused_fd fd1 ;; mret err
        end.

(** ** Reference counts of files *)

(** The descriptor [fd] holds a file of the socket [id]. *)
Record fd_sock (w : world) (fd f id : Z) (fl : file) (s : socket) : Prop := {
  fs_fd : fdt w !! fd = Some (Some f);
  fs_file : files w !! f = Some fl;
  fs_sock : f_sock fl = Some id;
  fs_count : 1 ≤ f_count fl;
  fs_id : socks w !! id = Some s;
  fs_back : so_file s = Some f }.

(** The world while [fdget]'s reference is held. *)
Definition held (shared : bool) (f : Z) (fl : file) (w : world) : world :=
  if shared then set_files (<[f := File (f_sock fl) (f_flags fl) (f_count fl + 1)]> (files w)) w
  else w.

Lemma held_other shared f fl w :
  mgr (held shared f fl w) = mgr w ∧ socks (held shared f fl w) = socks w ∧
  fdt (held shared f fl w) = fdt w ∧ modref (held shared f fl w) = modref w.
Proof. by destruct shared. Qed.

Lemma load_file_ok w f fl : files w !! f = Some fl → load_file f w = Some (fl, w).
Proof. intros H. unfold load_file, get, mbind, st_bind, lift. by rewrite H. Qed.

Lemma set_files_id w : set_files (files w) w = w.
Proof. by destruct w. Qed.

Section lookup.
Context (w : world) (fd f id : Z) (fl : file) (s : socket).
Hypothesis (Hfs : fd_sock w fd f id fl s).

Lemma fdget_ok shared : fdget shared fd w = Some (Some (f, shared), held shared f fl w).
Proof.
  unfold fdget. rewrite (st_bind_step get _ w w w) by done. cbn beta.
  rewrite (fs_fd _ _ _ _ _ _ Hfs).
  rewrite (st_bind_step _ _ _ _ _ (load_file_ok _ _ _ (fs_file _ _ _ _ _ _ Hfs))).
  by destruct shared.
Qed.

Lemma held_file shared : ∃ n, 1 ≤ n ∧
  files (held shared f fl w) !! f = Some (File (f_sock fl) (f_flags fl) n).
Proof.
  pose proof (fs_count _ _ _ _ _ _ Hfs). destruct shared; cbn.
  - exists (f_count fl + 1). split; [lia|]. apply lookup_insert_eq.
  - exists (f_count fl). split; [done|]. rewrite (fs_file _ _ _ _ _ _ Hfs). by destruct fl.
Qed.

Lemma lookup_light_ok shared pid :
  sockfd_lookup_light shared pid fd w = Some (inl (id, shared), held shared f fl w).
Proof.
  unfold sockfd_lookup_light. rewrite (st_bind_step _ _ _ _ _ (fdget_ok shared)). cbn beta match.
  destruct (held_file shared) as (n & _ & E). unfold sock_from_file.
  rewrite st_bind_assoc, (st_bind_step _ _ _ _ _ (load_file_ok _ _ _ E)). cbn beta.
  rewrite (st_bind_step (mret _) _ _ _ _ eq_refl). cbn beta. cbn [f_sock].
  by rewrite (fs_sock _ _ _ _ _ _ Hfs).
Qed.

(** Dropping the reference restores the world, whatever happened to the
    manager and to the clock in between. *)
Lemma fdput_ok shared pid w' :
  files w' = files (held shared f fl w) →
  fdput pid (f, shared) w' = Some (tt, set_files (files w) w').
Proof.
  intros E. unfold fdput, fput. destruct shared; cbn in E.
  - erewrite (st_bind_step (load_file f)).
    2: { apply load_file_ok. rewrite E. apply lookup_insert_eq. }
    pose proof (fs_count _ _ _ _ _ _ Hfs). cbn beta. cbn [f_count f_sock f_flags].
    rewrite (proj2 (Z.ltb_lt 1 _)) by lia.
    unfold modify. rewrite E, insert_insert_eq. do 3 f_equal.
    replace (f_count fl + 1 - 1) with (f_count fl) by lia. apply insert_id.
    rewrite (fs_file _ _ _ _ _ _ Hfs). by destruct fl.
  - rewrite <-E. by rewrite set_files_id.
Qed.

(** ... also when a file was added in between. *)
Lemma fdput_added shared pid w' nf F :
  nf ≠ f → files w' = <[nf := F]> (files (held shared f fl w)) →
  fdput pid (f, shared) w' = Some (tt, set_files (<[nf := F]> (files w)) w').
Proof.
  intros Hne E. unfold fdput, fput. destruct shared; cbn in E.
  - erewrite (st_bind_step (load_file f)).
    2: { apply load_file_ok. rewrite E, lookup_insert_ne by done. apply lookup_insert_eq. }
    pose proof (fs_count _ _ _ _ _ _ Hfs). cbn beta. cbn [f_count f_sock f_flags].
    rewrite (proj2 (Z.ltb_lt 1 _)) by lia.
    unfold modify. rewrite E, insert_insert_ne by congruence. rewrite insert_insert_eq. do 4 f_equal.
    replace (f_count fl + 1 - 1) with (f_count fl) by lia. apply insert_id.
    rewrite (fs_file _ _ _ _ _ _ Hfs). by destruct fl.
  - rewrite <-E. by rewrite set_files_id.
Qed.

Lemma put_light_ok shared pid w' s' :
  files w' = files (held shared f fl w) → socks w' !! id = Some s' → so_file s' = Some f →
  sock_put_light pid id shared w' = Some (tt, set_files (files w) w').
Proof.
  intros E Hs Hf. unfold sock_put_light.
  rewrite (st_bind_step _ _ _ _ _ (load_sock_ok _ _ _ Hs)). cbn beta. rewrite Hf.
  by apply (fdput_ok shared).
Qed.

Lemma held_id shared : set_files (files w) (held shared f fl w) = w.
Proof. destruct shared; cbn; by destruct w. Qed.

Lemma held_sock shared : socks (held shared f fl w) !! id = Some s.
Proof. destruct (held_other shared f fl w) as (_ & -> & _). apply Hfs. Qed.

Lemma put_light_held shared pid :
  sock_put_light pid id shared (held shared f fl w) = Some (tt, w).
Proof.
  rewrite (put_light_ok shared pid _ s) by (done || apply held_sock || apply Hfs).
  by rewrite held_id.
Qed.

Lemma call_ops_ok {A} shared (r : A) o :
  so_ops s = Some o → call_ops id r (held shared f fl w) = Some (r, held shared f fl w).
Proof.
  intros Ho. unfold call_ops.
  rewrite (st_bind_step _ _ _ _ _ (load_sock_ok _ _ _ (held_sock shared))). cbn beta.
  by rewrite Ho.
Qed.
End lookup.

(** Calls that hold the socket's file while they run [body]. *)
Ltac light_call Hfs :=
  rewrite (st_bind_step _ _ _ _ _ (lookup_light_ok _ _ _ _ _ _ Hfs _ _)); cbn beta match.
Ltac light_done Hfs :=
  rewrite (st_bind_step _ _ _ _ _ (put_light_held _ _ _ _ _ _ Hfs _ _)); try done.

(** Running a body that leaves the held world alone. *)
Ltac body r :=
  match goal with
  | |- context [(?m ≫= _) (held ?sh ?f ?fl ?w)] =>
      rewrite (st_bind_step m _ (held sh f fl w) r (held sh f fl w)); cbn beta match
  end.

Definition addr_outcome (k : Z * list Z) (sec : Z) (op : list Z → Z) : Z :=
  if k.1 =? 0 then (if sec =? 0 then op k.2 else sec) else k.1.

Lemma bind_ok w fd f id fl s o shared pid umyaddr audit addrlen sec bind :
  fd_sock w fd f id fl s → so_ops s = Some o →
  __sys_bind shared pid fd umyaddr audit addrlen sec bind w =
    Some (addr_outcome (move_addr_to_kernel umyaddr audit addrlen addr0) sec
            (λ a, bind a addrlen), w).
Proof.
  intros Hfs Ho. unfold __sys_bind. light_call Hfs.
  destruct (move_addr_to_kernel umyaddr audit addrlen addr0) as [err a]. unfold addr_outcome; cbn.
  body (if err =? 0 then (if sec =? 0 then bind a addrlen else sec) else err).
  2: { destruct (err =? 0); [|done]. destruct (sec =? 0); [|done]. by eapply call_ops_ok. }
  by light_done Hfs.
Qed.

Lemma connect_ok w fd f id fl s o shared pid uaddr audit addrlen sec connect :
  fd_sock w fd f id fl s → so_ops s = Some o →
  __sys_connect shared pid fd uaddr audit addrlen sec connect w =
    Some (addr_outcome (move_addr_to_kernel uaddr audit addrlen addr0) sec
            (λ a, connect a addrlen), w).
Proof.
  intros Hfs Ho. unfold __sys_connect.
  rewrite (st_bind_step _ _ _ _ _ (fdget_ok _ _ _ _ _ _ Hfs shared)). cbn beta match.
  destruct (move_addr_to_kernel uaddr audit addrlen addr0) as [err a]. unfold addr_outcome; cbn.
  body (if err =? 0 then (if sec =? 0 then connect a addrlen else sec) else err).
  2: { destruct (err =? 0); [|done]. unfold __sys_connect_file, sock_from_file.
       destruct (held_file _ _ _ _ _ _ Hfs shared) as (n & _ & E).
       rewrite st_bind_assoc, (st_bind_step _ _ _ _ _ (load_file_ok _ _ _ E)). cbn beta.
       rewrite (st_bind_step (mret _) _ _ _ _ eq_refl). cbn [f_sock].
       rewrite (fs_sock _ _ _ _ _ _ Hfs). destruct (sec =? 0); [|done]. by eapply call_ops_ok. }
  rewrite (st_bind_step _ _ _ _ _ (fdput_ok _ _ _ _ _ _ Hfs shared pid _ eq_refl)).
  by rewrite (held_id _ _ _ _ _ _ Hfs).
Qed.

Lemma listen_ok w fd f id fl s o k shared pid backlog somaxconn sec listen :
  fd_sock w fd f id fl s → so_ops s = Some o → so_sk s = Some k →
  __sys_listen shared pid fd backlog somaxconn sec listen w =
    Some (if sec =? 0 then listen (if u32 somaxconn <? u32 backlog then somaxconn else backlog)
          else sec, w).
Proof.
  intros Hfs Ho Hk. unfold __sys_listen. light_call Hfs.
  rewrite (st_bind_step _ _ _ _ _ (load_sock_ok _ _ _ (held_sock _ _ _ _ _ _ Hfs shared))).
  cbn beta. rewrite Hk.
  body (if sec =? 0 then listen (if u32 somaxconn <? u32 backlog then somaxconn else backlog)
        else sec).
  2: { destruct (sec =? 0); [|done]. by eapply call_ops_ok. }
  by light_done Hfs.
Qed.

Lemma shutdown_ok w fd f id fl s o shared pid sec shutdown :
  fd_sock w fd f id fl s → so_ops s = Some o →
  __sys_shutdown shared pid fd sec shutdown w = Some (if sec =? 0 then shutdown else sec, w).
Proof.
  intros Hfs Ho. unfold __sys_shutdown. light_call Hfs. body (if sec =? 0 then shutdown else sec).
  2: { unfold __sys_shutdown_sock. destruct (sec =? 0); [|done]. by eapply call_ops_ok. }
  by light_done Hfs.
Qed.

Lemma setsockopt_ok w fd f id fl s o shared pid level optlen sec compat bpf mptcp sk so op :
  fd_sock w fd f id fl s → so_ops s = Some o → 0 ≤ optlen →
  __sys_setsockopt shared pid fd level optlen sec compat bpf mptcp sk so op w =
    Some (if negb (sec =? 0) then sec
          else
            let '(err, level, optlen) := if (compat : bool) then (0, level, optlen) else bpf in
            if err <? 0 then err else if 0 <? err then 0
            else if (level =? SOL_SOCKET) && negb (sock_use_custom_sol_socket mptcp sk)
            then so level optlen
            else match op with None => - EOPNOTSUPP | Some g => g level optlen end, w).
Proof.
  intros Hfs Ho Hl. unfold __sys_setsockopt. rewrite (proj2 (Z.ltb_ge _ _) Hl). light_call Hfs.
  match goal with |- _ = Some (?r, w) => body r end.
  2: { destruct (sec =? 0) eqn:Hs; [|done]. cbn [negb]. to_prop. subst sec.
       destruct (if compat then _ else bpf) as [[err l] n].
       destruct (err <? 0); [done|]. destruct (0 <? err); [done|].
       destruct (_ && _); [done|]. destruct op as [g|]; [|done]. by eapply call_ops_ok. }
  by light_done Hfs.
Qed.

Lemma getsockopt_ok w fd f id fl s o shared pid level sec compat so op bpf :
  fd_sock w fd f id fl s → so_ops s = Some o →
  __sys_getsockopt shared pid fd level sec compat so op bpf w =
    Some (if negb (sec =? 0) then sec
          else
            let err := if level =? SOL_SOCKET then so
                       else match op with None => - EOPNOTSUPP | Some r => r end in
            if (compat : bool) then err else bpf err, w).
Proof.
  intros Hfs Ho. unfold __sys_getsockopt. light_call Hfs.
  match goal with |- _ = Some (?r, w) => body r end.
  2: { destruct (sec =? 0) eqn:Hs; [|done]. cbn [negb].
       body (if level =? SOL_SOCKET then so else match op with None => - EOPNOTSUPP | Some r => r end).
       { by destruct compat. }
       destruct (level =? SOL_SOCKET); [done|]. destruct op as [r|]; [|done]. by eapply call_ops_ok. }
  by light_done Hfs.
Qed.

(** On a descriptor of a socket, [bind], [connect], [listen] and
    [shutdown] answer with the first failing check or else with the protocol's
    result, and leave sockets, files (every reference taken by the lookup is
    dropped on every path), descriptors, modules and the fairness manager as
    they were.  [listen] clamps the backlog to [somaxconn], a negative backlog
    included. *)
Theorem address_syscalls_transparent w fd f id fl s o k shared pid :
  fd_sock w fd f id fl s → so_ops s = Some o → so_sk s = Some k →
  (∀ umyaddr audit addrlen sec bind,
     __sys_bind shared pid fd umyaddr audit addrlen sec bind w =
       Some (addr_outcome (move_addr_to_kernel umyaddr audit addrlen addr0) sec
               (λ a, bind a addrlen), w)) ∧
  (∀ uaddr audit addrlen sec connect,
     __sys_connect shared pid fd uaddr audit addrlen sec connect w =
       Some (addr_outcome (move_addr_to_kernel uaddr audit addrlen addr0) sec
               (λ a, connect a addrlen), w)) ∧
  (∀ backlog somaxconn listen, is_s 32 backlog → 0 ≤ somaxconn < 2 ^ 31 →
     __sys_listen shared pid fd backlog somaxconn 0 listen w =
       Some (listen (if backlog <? 0 then somaxconn else Z.min backlog somaxconn), w)) ∧
  (∀ sec shutdown,
     __sys_shutdown shared pid fd sec shutdown w = Some (if sec =? 0 then shutdown else sec, w)).
Proof.
  intros Hfs Ho Hk. split_and!; intros.
  - by eapply bind_ok.
  - by eapply connect_ok.
  - rewrite (listen_ok w fd f id fl s o k) by done. cbn [Z.eqb]. do 3 f_equal.
    rewrite (wrapU_small 32 somaxconn) by (unfold is_u; lia). unfold is_s in *.
    destruct (backlog <? 0) eqn:Hb; to_prop.
    + unfold wrapU. rewrite <-(Z.mod_add backlog 1) by lia. rewrite Z.mod_small by lia.
      destruct (_ <? _) eqn:G; to_prop; [done|lia].
    + rewrite (wrapU_small 32 backlog) by (unfold is_u; lia).
      destruct (_ <? _) eqn:G; to_prop; lia.
  - by eapply shutdown_ok.
Qed.

(** A world with one socket on descriptor 3. *)
Definition world1 : world :=
  World (Mgr [Stats 40 1 0 0 0 0 0] 10 5 1000 true true)
    {[1 := Socket 1 (Some (Ops None)) (Some 6) (Some 9)]}
    {[9 := File (Some 1) 2 1]} {[3 := Some 9]} ∅ 0.

Lemma world1_fd : fd_sock world1 3 9 1 (File (Some 1) 2 1) (Socket 1 (Some (Ops None)) (Some 6) (Some 9)).
Proof. split; done. Qed.

Lemma address_syscalls_transparent_witness :
  (∀ umyaddr audit addrlen sec bind,
     __sys_bind true 40 3 umyaddr audit addrlen sec bind world1 =
       Some (addr_outcome (move_addr_to_kernel umyaddr audit addrlen addr0) sec
               (λ a, bind a addrlen), world1)) ∧
  (∀ uaddr audit addrlen sec connect,
     __sys_connect true 40 3 uaddr audit addrlen sec connect world1 =
       Some (addr_outcome (move_addr_to_kernel uaddr audit addrlen addr0) sec
               (λ a, connect a addrlen), world1)) ∧
  (∀ backlog somaxconn listen, is_s 32 backlog → 0 ≤ somaxconn < 2 ^ 31 →
     __sys_listen true 40 3 backlog somaxconn 0 listen world1 =
       Some (listen (if backlog <? 0 then somaxconn else Z.min backlog somaxconn), world1)) ∧
  (∀ sec shutdown,
     __sys_shutdown true 40 3 sec shutdown world1 = Some (if sec =? 0 then shutdown else sec, world1)).
Proof.
  apply (address_syscalls_transparent world1 3 9 1 (File (Some 1) 2 1)
    (Socket 1 (Some (Ops None)) (Some 6) (Some 9)) (Ops None) 6 true 40).
  - exact world1_fd.
  - done.
  - done.
Defined.

(** The two directions of an address copy. *)
Lemma move_addr_to_kernel_ok u audit ulen kaddr :
  length kaddr = 128%nat → 0 ≤ ulen ≤ 128 → ulen ≤ Z.of_nat (length u) →
  ∃ k, move_addr_to_kernel (Some u) audit ulen kaddr = (if ulen =? 0 then 0 else audit, k) ∧
       length k = 128%nat ∧ bytes_at k 0 ulen = Some (take (Z.to_nat ulen) u).
Proof.
  intros Hk Hu Hl. unfold move_addr_to_kernel, SOCKADDR_STORAGE.
  replace ((ulen <? 0) || (128 <? ulen)) with false by lia.
  destruct (ulen =? 0) eqn:Hz; to_prop.
  { exists kaddr. split_and!; try done. subst. unfold bytes_at. cbn.
    by rewrite (proj2 (Z.leb_le _ _)) by lia. }
  assert (bytes_at u 0 ulen = Some (take (Z.to_nat ulen) u)) as E.
  { unfold bytes_at. rewrite !(proj2 (Z.leb_le _ _)) by lia. done. }
  cbn [mbind option_bind]. rewrite E.
  destruct (put_at kaddr 0 (take (Z.to_nat ulen) u)) as [k|] eqn:P.
  - exists k. split; [done|]. split; [by rewrite (put_at_length _ _ _ _ P)|].
    rewrite <-(bytes_at_put_eq _ _ _ _ P). f_equal. rewrite length_take. lia.
  - exfalso. apply eq_None_not_Some in P. apply P, put_at_Some; [lia|].
    rewrite length_take. lia.
Qed.

(** An address that user space passes in (at most 128 bytes) and that the
    kernel later reports back arrives unchanged: the user gets as many of its
    bytes as the buffer length allows, and the length field holds the true
    length, truncated or not.  Lengths outside 0..128 are refused. *)
Theorem address_copy_roundtrip u kaddr ulen len :
  length kaddr = 128%nat → 0 ≤ ulen ≤ 128 → ulen ≤ Z.of_nat (length u) → 0 ≤ len →
  (∃ k, move_addr_to_kernel (Some u) 0 ulen kaddr = (0, k) ∧
     move_addr_to_user k ulen 0 (UserAddr (Some len) true true) =
       Some (0, take (Z.to_nat (Z.min ulen len)) u, Some ulen)) ∧
  ∀ bad, bad < 0 ∨ 128 < bad → move_addr_to_kernel (Some u) 0 bad kaddr = (- EINVAL, kaddr).
Proof.
  intros Hk Hu Hl H0. split.
  - destruct (move_addr_to_kernel_ok u 0 ulen kaddr Hk Hu Hl) as (k & E & Lk & B).
    exists k. split; [rewrite E; by destruct (_ =? _)|].
    unfold move_addr_to_user, SOCKADDR_STORAGE. rewrite (proj2 (Z.ltb_ge _ _)) by lia.
    cbn [ua_len ua_buf_ok ua_len_ok negb Z.eqb]. rewrite !andb_false_r.
    replace (if ulen <? len then ulen else len) with (Z.min ulen len) by
      (destruct (_ <? _) eqn:?; to_prop; lia).
    rewrite (proj2 (Z.ltb_ge _ _)) by lia.
    assert (bytes_at k 0 (Z.min ulen len) = Some (take (Z.to_nat (Z.min ulen len)) u)) as ->; [|done].
    revert B. unfold bytes_at. rewrite !(proj2 (Z.leb_le _ _)) by lia. cbn. intros [= B].
    change (drop (Z.to_nat 0) k) with k in *.
    f_equal. transitivity (take (Z.to_nat (Z.min ulen len)) (take (Z.to_nat ulen) k)).
    + rewrite take_take. f_equal. lia.
    + rewrite B, take_take. f_equal. lia.
  - intros bad Hb. unfold move_addr_to_kernel, SOCKADDR_STORAGE.
    by replace ((bad <? 0) || (128 <? bad)) with true by lia.
Qed.

Lemma address_copy_roundtrip_witness :
  (∃ k, move_addr_to_kernel (Some [2; 0; 31; 144; 127; 0; 0; 1]) 0 8 addr0 = (0, k) ∧
     move_addr_to_user k 8 0 (UserAddr (Some 4) true true) = Some (0, [2; 0; 31; 144], Some 8)) ∧
  ∀ bad, bad < 0 ∨ 128 < bad →
    move_addr_to_kernel (Some [2; 0; 31; 144; 127; 0; 0; 1]) 0 bad addr0 = (- EINVAL, addr0).
Proof. apply (address_copy_roundtrip [2; 0; 31; 144; 127; 0; 0; 1] addr0 8 4); cbn; lia || done. Defined.

(** ** accept *)

(** An accept that succeeds without reporting the peer's address. *)
Record accept_request (e : accept_env) (w : world) (nid nf newfd flags : Z) : Prop := {
  ar_inode : ae_inode e = Some nid;
  ar_fresh : socks w !! nid = None;
  ar_file : ae_file e = inl nf;
  ar_nofile : files w !! nf = None;
  ar_fd : 0 ≤ newfd;
  ar_nofd : fdt w !! newfd = None;
  ar_security : ae_security e = 0;
  ar_accept : 0 ≤ (ae_accept e).1;
  ar_flags : bad_sock_flags flags = false }.

Definition accepted (s : socket) (o : proto_ops) (e : accept_env) (nf : Z) : socket :=
  Socket (so_type s) (Some o) (ae_accept e).2 (Some nf).

Lemma do_accept_ok e w id fl s o k pid f nid nf flags :
  files w !! f = Some fl → f_sock fl = Some id → socks w !! id = Some s →
  so_ops s = Some o → so_sk s = Some k →
  ae_inode e = Some nid → socks w !! nid = None → ae_file e = inl nf → files w !! nf = None →
  ae_security e = 0 → 0 ≤ (ae_accept e).1 →
  ∃ w1, do_accept e pid f None flags w = Some (inl nf, w1) ∧ mgr w1 = mgr w ∧ fdt w1 = fdt w ∧
    files w1 = <[nf := File (Some nid) (Z.lor O_RDWR (Z.land flags O_NONBLOCK)) 1]> (files w) ∧
    socks w1 = <[nid := accepted s o e nf]> (socks w) ∧
    ∀ k, refs w1 k = refs w k + (if decide (ops_owner o = Some k) then 1 else 0).
Proof.
  intros Hf Hfs Hs Ho Hk Hi Hn Hnf Hnone Hsec Hacc.
  assert (nid ≠ id) as Hne by congruence. unfold do_accept, sock_from_file.
  rewrite st_bind_assoc, (st_bind_step _ _ _ _ _ (load_file_ok _ _ _ Hf)). cbn beta.
  rewrite (st_bind_step (mret _) _ _ _ _ eq_refl). cbn beta. rewrite Hfs, Hi.
  rewrite (st_bind_step (sock_alloc _) _ w (Some nid)
    (set_socks (<[nid := Socket 0 None None None]> (socks w)) w)); cbn beta match.
  2: { unfold sock_alloc, get, mbind, st_bind. by rewrite Hn. }
  erewrite (st_bind_step (load_sock _)).
  2: { apply load_sock_ok. cbn. by rewrite lookup_insert_ne. }
  cbn beta. sock_step. rewrite Ho, Hk. rewrite (st_bind_step (modify _) _ _ _ _ eq_refl). cbn beta.
  sock_simpl. set (w2 := add_ref (ops_owner o) 1 _). rewrite Hnf.
  assert (files w2 = files w ∧ fdt w2 = fdt w ∧ mgr w2 = mgr w) as (F2 & T2 & M2).
  { unfold w2. by destruct (ops_owner o). }
  assert (socks w2 = <[nid := Socket (so_type s) (Some o) None None]> (socks w)) as K2.
  { unfold w2. by rewrite socks_add_ref. }
  unfold sock_alloc_file. rewrite st_bind_assoc, (st_bind_step get _ _ _ _ eq_refl). cbn beta.
  rewrite F2, Hnone. rewrite st_bind_assoc, (st_bind_step (modify _) _ _ _ _ eq_refl). cbn beta.
  rewrite st_bind_assoc. erewrite (st_bind_step (update_sock _ _)).
  2: { apply update_sock_ok. cbn. rewrite K2. apply lookup_insert_eq. }
  cbn beta. rewrite (st_bind_step (mret _) _ _ _ _ eq_refl). cbn beta match.
  rewrite Hsec. cbn [negb Z.eqb]. rewrite st_bind_assoc. sock_step.
  rewrite (proj2 (Z.ltb_ge _ _)) by done. rewrite (st_bind_step (mret _) _ _ _ _ eq_refl).
  cbn beta. eexists. split; [reflexivity|].
  cbn. rewrite F2, T2, M2, K2, !insert_insert_eq. split_and!; [done..|].
  intros j. change (refs w2 j = refs w j + (if decide (ops_owner o = Some j) then 1 else 0)).
  unfold w2. by rewrite refs_add_ref.
Qed.

Lemma accept_ok e w fd f id fl s o k shared pid nid nf newfd flags :
  fd_sock w fd f id fl s → so_ops s = Some o → so_sk s = Some k →
  accept_request e w nid nf newfd flags →
  ∃ w1 fl', __sys_accept4 e shared pid fd newfd None flags w = Some (newfd, w1) ∧
    mgr w1 = mgr w ∧ fdt w1 = <[newfd := Some nf]> (fdt w) ∧
    files w1 = <[nf := File (Some nid) fl' 1]> (files w) ∧
    socks w1 = <[nid := accepted s o e nf]> (socks w) ∧
    ∀ k, refs w1 k = refs w k + (if decide (ops_owner o = Some k) then 1 else 0).
Proof.
  intros Hfs Ho Hk [R1 R2 R3 R4 R5 R6 R7 R8 R9]. unfold __sys_accept4.
  assert (nf ≠ f) as Hne by (intros ->; rewrite (fs_file _ _ _ _ _ _ Hfs) in R4; done).
  rewrite (st_bind_step _ _ _ _ _ (fdget_ok _ _ _ _ _ _ Hfs shared)). cbn beta match. cbn [fst].
  destruct (held_other shared f fl w) as (M0 & K0 & T0 & D0).
  destruct (held_file _ _ _ _ _ _ Hfs shared) as (n & Hn & F0).
  set (w0 := held shared f fl w) in *. set (w0' := set_fdt (<[newfd := None]> (fdt w0)) w0).
  edestruct (do_accept_ok e w0' id (File (f_sock fl) (f_flags fl) n) s o k pid f nid nf (sock_flags flags))
    as (w1 & E1 & M1 & T1 & F1 & K1 & D1); [exact F0|apply Hfs| |done|done|done| |done| |done|done|].
  { cbn. rewrite K0. apply Hfs. }
  { cbn. by rewrite K0. }
  { cbn. unfold w0. destruct shared; cbn; [by rewrite lookup_insert_ne|done]. }
  rewrite (st_bind_step (__sys_accept4_file _ _ _ _ _ _) _ _ newfd
    (set_fdt (<[newfd := Some nf]> (fdt w1)) w1)).
  2: { unfold __sys_accept4_file. rewrite R9. unfold get_unused_fd_flags.
       rewrite (proj2 (Z.ltb_ge newfd 0)) by done.
       rewrite st_bind_assoc, (st_bind_step get _ _ _ _ eq_refl). cbn beta. rewrite T0, R6.
       rewrite st_bind_assoc, (st_bind_step (modify (λ w, set_fdt (<[newfd := None]> (fdt w)) w)) _ w0 tt w0' eq_refl).
       cbn beta.
       rewrite (st_bind_step (mret _) _ _ _ _ eq_refl). cbn beta.
       rewrite (proj2 (Z.ltb_ge newfd 0)) by done.
       rewrite (st_bind_step _ _ _ _ _ E1). done. }
  cbn beta. assert (refs w0 = refs w) as D0' by (unfold refs; by rewrite D0).
  pose proof (fdput_added _ _ _ _ _ _ Hfs shared pid
    (set_fdt (<[newfd := Some nf]> (fdt w1)) w1) nf _ Hne F1) as EP.
  rewrite (st_bind_step _ _ _ _ _ EP). cbn beta. eexists _, _. split; [reflexivity|].
  cbn. rewrite M1, T1, K1. cbn. rewrite K0, T0, M0, insert_insert_eq. split_and!; [done..|].
  intros j. change (refs w1 j = refs w j + (if decide (ops_owner o = Some j) then 1 else 0)).
  rewrite D1. change (refs w0' j) with (refs w0 j). by rewrite D0'.
Qed.

Lemma accept_close_ok e w fd f id fl s o k shared pid nid nf newfd flags m' :
  fd_sock w fd f id fl s → so_ops s = Some o → so_sk s = Some k →
  accept_request e w nid nf newfd flags →
  unregister_socket_for_thread pid (mgr w) = Some (tt, m') →
  ∃ w1 w2, __sys_accept4 e shared pid fd newfd None flags w = Some (newfd, w1) ∧
    sys_close pid newfd w1 = Some (0, w2) ∧
    socks w2 = socks w ∧ files w2 = files w ∧ fdt w2 = fdt w ∧
    (∀ k, refs w2 k = refs w k) ∧ mgr w2 = m'.
Proof.
  intros Hfs Ho Hk Hr Hu.
  destruct (accept_ok e w fd f id fl s o k shared pid nid nf newfd flags Hfs Ho Hk Hr)
    as (w1 & fl' & E1 & M1 & T1 & F1 & K1 & D1).
  edestruct (sys_close_ok w1 pid newfd nf nid fl') as (w2 & E2 & M2 & K2 & F2 & T2 & D2).
  { rewrite T1. apply lookup_insert_eq. }
  { rewrite F1. apply lookup_insert_eq. }
  { rewrite K1. apply lookup_insert_eq. }
  { done. }
  { rewrite M1. exact Hu. }
  destruct Hr. exists w1, w2. split_and!; [done|done| | | | |done].
  - rewrite K2, K1, delete_insert_eq. by apply delete_id.
  - rewrite F2, F1, delete_insert_eq. by apply delete_id.
  - rewrite T2, T1, delete_insert_eq. by apply delete_id.
  - intros j. rewrite D2, D1. cbn. case_decide; lia.
Qed.

(** Accepted connections are not counted by the fairness manager, but
    closing them is: accepting a connection and closing it restores sockets,
    files, descriptors and module references, and has on the fairness table the
    effect of an unregistration alone.  A thread that owns sockets loses one
    from its count (and may so exceed the limit); a worker thread without
    statistics wears the pending limit of all threads down. *)
Theorem accept_close_unregisters e w fd f id fl s o k shared pid nid nf newfd flags :
  world_wf w → fd_sock w fd f id fl s → so_ops s = Some o → so_sk s = Some k →
  accept_request e w nid nf newfd flags →
  ∃ w1 w2, __sys_accept4 e shared pid fd newfd None flags w = Some (newfd, w1) ∧
    sys_close pid newfd w1 = Some (0, w2) ∧
    socks w2 = socks w ∧ files w2 = files w ∧ fdt w2 = fdt w ∧
    (∀ k, refs w2 k = refs w k) ∧
    table_of (mgr w1) = table_of (mgr w) ∧
    table_of (mgr w2) = (table_event (table_of (mgr w)) (EvUnregister pid)).2.
Proof.
  intros [Wm We] Hfs Ho Hk Hr.
  assert (∃ m', unregister_socket_for_thread pid (mgr w) = Some (tt, m') ∧
    table_of m' = (table_event (table_of (mgr w)) (EvUnregister pid)).2) as (m' & Hu & Ht).
  { cbn. destruct (view (mgr w) !! pid) as [a|] eqn:V.
    - destruct (unregister_view (mgr w) pid a Wm V) as (m' & E & W' & C & V').
      exists m'. split; [done|]. unfold table_of, set_count; cbn. rewrite V'.
      unfold config in C. injection C as C1 C2 C3 C4 C5. by rewrite ?C1, ?C2, ?C3, ?C4, ?C5.
    - exists (with_max_pending (mgr w) (Z.max 0 (max_pending_per_thread (mgr w) - 1))).
      split; [by apply unregister_untracked_eq|done]. }
  destruct (accept_close_ok e w fd f id fl s o k shared pid nid nf newfd flags m' Hfs Ho Hk Hr Hu)
    as (w1 & w2 & E1 & E2 & K & F & T & D & M).
  exists w1, w2. split_and!; [done..| |by rewrite M].
  destruct (accept_ok e w fd f id fl s o k shared pid nid nf newfd flags Hfs Ho Hk Hr)
    as (w1' & fl' & E1' & M1 & _). rewrite E1 in E1'. injection E1' as ->. by rewrite M1.
Qed.

Lemma world1_wf : world_wf world1.
Proof.
  split; [|done]. split; cbn; [done| | |lia].
  - apply NoDup_cons. split; [apply not_elem_of_nil|constructor].
  - repeat constructor; cbn; lia.
Qed.

Definition accept1 : accept_env := AcceptEnv (Some 2) (inl 10) 0 (0, Some 6) (0, []) 0.

Lemma accept_close_unregisters_witness :
  ∃ w1 w2, __sys_accept4 accept1 true 40 3 4 None 0 world1 = Some (4, w1) ∧
    sys_close 40 4 w1 = Some (0, w2) ∧
    socks w2 = socks world1 ∧ files w2 = files world1 ∧ fdt w2 = fdt world1 ∧
    (∀ k, refs w2 k = refs world1 k) ∧
    table_of (mgr w1) = table_of (mgr world1) ∧
    table_of (mgr w2) = (table_event (table_of (mgr world1)) (EvUnregister 40)).2.
Proof.
  apply (accept_close_unregisters accept1 world1 3 9 1 (File (Some 1) 2 1)
    (Socket 1 (Some (Ops None)) (Some 6) (Some 9)) (Ops None) 6 true 40 2 10 4 0).
  - exact world1_wf.
  - exact world1_fd.
  - done.
  - done.
  - split; done.
Defined.

End SocketSyscalls.
