(* ===== verification/SocketMsg.v ===== *)
(** * Messages with vectors: sendmsg, recvmsg, sendmmsg, recvmmsg

    net/socket.c: the calls that take a message header, or an array of them, from
    user memory.  The state [mst] adds to the world of SocketCore what these calls
    also use: the bytes that control messages take from the socket's option memory,
    and the pending error of the protocol socket.

    For each message a [msg_env] says what user memory holds and what the calls made
    for it answer.  The code for 32-bit callers reads the header with
    get_compat_msghdr, which is an answer as well. *)

From Stdlib Require Import ZArith Lia.
From stdpp Require Import base numbers list gmap strings.
From S2P Require Import Prelude SocketFairness SocketCore SocketSyscalls.

Module SocketMsg.
Import SocketFairness SocketCore SocketSyscalls.

(** ** Data *)

Definition UIO_MAXIOV : Z := 1024.
Definition ENOBUFS : Z := 105.
Definition EMSGSIZE : Z := 90.
Definition INT_MAX : Z := 2 ^ 31 - 1.
Definition UINT_MAX : Z := 2 ^ 32 - 1.
Definition MSG_OOB : Z := 1.
Definition MSG_EOR : Z := 128.
Definition MSG_ERRQUEUE : Z := 0x2000.
Definition MSG_WAITFORONE : Z := 0x10000.
Definition MSG_BATCH : Z := 0x40000.
Definition MSG_CMSG_CLOEXEC : Z := 0x40000000.
Definition MSG_CMSG_COMPAT : Z := 0x80000000.

Definition has_flag (flag flags : Z) : bool := negb (Z.land flag flags =? 0).

(** struct user_msghdr; the name is NULL, or what user memory holds there. *)
Record user_msghdr := UserMsghdr {
  um_name : option (option (list Z));
  um_namelen : Z;                      (** int *)
  um_iovlen : Z;                       (** size_t *)
  um_controllen : Z;                   (** size_t *)
  um_flags : Z }.

(** struct msghdr of the kernel. *)
Record kmsg := KMsg { km_hdr : msghdr; km_controllen : Z; km_flags : Z }.

Record used_address_t := UsedAddress { ad_name : list Z; ad_len : Z }.

Record msg_env := MsgEnv {
  me_user : option user_msghdr;        (** [None]: cannot be read *)
  me_audit : Z;
  me_import : Z;                       (** import_iovec: the bytes, or an error *)
  me_compat : Z + kmsg;                (** get_compat_msghdr *)
  me_compat_ctl : Z + (Z * bool);      (** control messages of a 32-bit caller: the length and whether memory was taken *)
  me_ctl_mem : bool;                   (** sock_kmalloc *)
  me_ctl_copy : bool;
  me_sec : Z;                          (** the security hook *)
  me_send : Z → msghdr → Z * msghdr;   (** the protocol, by flags *)
  me_recv : Z → msghdr → Z * msghdr;
  me_recv_flags : Z;                   (** what the protocol adds to msg_flags *)
  me_recv_ctl : Z;                     (** the control bytes that it wrote *)
  me_uaddr : user_addr;                (** the memory for the address of the sender *)
  me_put : Z;                          (** put_user of the length, the flags, the control length *)
  me_put_flags : Z;
  me_put_ctl : Z;
  me_now : Z }.                        (** the time after the message, in nanoseconds *)

Record mst := Mst {
  ms_world : world;
  ms_omem : Z;                         (** sk_omem_alloc *)
  ms_err : Z }.                        (** sk_err *)

Definition liftw {A} (m : wst A) : st mst A := λ s,
  match m (ms_world s) with Some (a, w) => Some (a, Mst w (ms_omem s) (ms_err s)) | None => None end.

Definition charge_omem (n : Z) : st mst unit := modify (λ s, Mst (ms_world s) (ms_omem s + n) (ms_err s)).
Definition set_err (e : Z) : st mst unit := modify (λ s, Mst (ms_world s) (ms_omem s) e).

(** ** The header *)

(** [save_addr]: the address is returned by reference, not read.  [kaddr] is the
    buffer behind [kmsg->msg_name]. *)
Definition __copy_msghdr_from_user (e : msg_env) (save_addr : bool) (kaddr : list Z) : Z + kmsg :=
  match me_user e with
  | None => inl (- EFAULT)
  | Some msg =>
      let namelen := match um_name msg with None => 0 | Some _ => um_namelen msg end in
      if namelen <? 0 then inl (- EINVAL)
      else
        let namelen := if SOCKADDR_STORAGE <? namelen then SOCKADDR_STORAGE else namelen in
        let name :=
          match um_name msg with
          | Some a =>
              if namelen =? 0 then inr (None, 0)
              else if save_addr then inr (Some kaddr, namelen)
              else
                let '(err, k) := move_addr_to_kernel a (me_audit e) namelen kaddr in
                if err <? 0 then inl err else inr (Some k, namelen)
          | None => inr (None, 0)
          end in
        match name with
        | inl err => inl err
        | inr (name, namelen) =>
            if UIO_MAXIOV <? um_iovlen msg then inl (- EMSGSIZE)
            else inr (KMsg (Msg name namelen 0) (um_controllen msg) (um_flags msg))
        end
  end.

Definition copy_msghdr_from_user (e : msg_env) (save_addr : bool) (kaddr : list Z) : Z + kmsg :=
  match __copy_msghdr_from_user e save_addr kaddr with
  | inl err => inl err
  | inr k =>
      if me_import e <? 0 then inl (me_import e)
      else inr (KMsg (Msg (msg_name (km_hdr k)) (msg_namelen (km_hdr k)) (me_import e)) (km_controllen k) (km_flags k))
  end.

Definition sendmsg_copy_msghdr (e : msg_env) (flags : Z) (kaddr : list Z) : Z + kmsg :=
  if has_flag MSG_CMSG_COMPAT flags then me_compat e else copy_msghdr_from_user e false kaddr.

Definition recvmsg_copy_msghdr (e : msg_env) (flags : Z) (kaddr : list Z) : Z + kmsg :=
  if has_flag MSG_CMSG_COMPAT flags then me_compat e else copy_msghdr_from_user e true kaddr.

(** ** sendmsg *)

(** sizeof(struct cmsghdr) + 20 *)
Definition CTL_SIZE : Z := 36.

(** The control messages: an error, or the bytes of memory that they take. *)
Definition copy_control (e : msg_env) (flags ctl_len : Z) : st mst (Z + Z) :=
  if has_flag MSG_CMSG_COMPAT flags && negb (ctl_len =? 0) then
    match me_compat_ctl e with
    | inl err => mret (inl err)
    | inr (ctl_len, heap) => if (heap : bool) then charge_omem ctl_len ;; mret (inr ctl_len) else mret (inr 0)
    end
  else if negb (ctl_len =? 0) then
    if CTL_SIZE <? ctl_len then
      if negb (me_ctl_mem e) then mret (inl (- ENOBUFS))
      else
        charge_omem ctl_len ;;
        if negb (me_ctl_copy e) then charge_omem (- ctl_len) ;; mret (inl (- EFAULT)) else mret (inr ctl_len)
    else if negb (me_ctl_copy e) then mret (inl (- EFAULT)) else mret (inr 0)
  else mret (inr 0).

(** Whether the message goes to the address of the previous one. *)
Definition same_address (used : option used_address_t) (msg : msghdr) : option bool :=
  match used, msg_name msg with
  | Some u, Some name =>
      if negb (ad_len u =? msg_namelen msg) then Some false
      else
        a ← bytes_at (ad_name u) 0 (ad_len u);
        b ← bytes_at name 0 (ad_len u);
        Some (bool_decide (a = b))
  | _, _ => Some false
  end.

(** The address of a message that was sent. *)
Definition remember (used : option used_address_t) (msg : msghdr) : option (option used_address_t) :=
  match used with
  | None => Some None
  | Some u =>
      match msg_name msg with
      | Some name =>
          b ← bytes_at name 0 (msg_namelen msg);
          n ← put_at (ad_name u) 0 b;
          Some (Some (UsedAddress n (msg_namelen msg)))
      | None => Some (Some (UsedAddress (ad_name u) (msg_namelen msg)))
      end
  end.

Definition ____sys_sendmsg (mem : bool) (pid id : Z) (e : msg_env) (msg_sys : kmsg) (flags : Z)
    (used_address : option used_address_t) (allowed_msghdr_flags : Z) : st mst (Z * msghdr * option used_address_t) :=
  if INT_MAX <? km_controllen msg_sys then mret (- ENOBUFS, km_hdr msg_sys, used_address)
  else
    let flags := Z.lor flags (Z.land (km_flags msg_sys) allowed_msghdr_flags) in
    c ← copy_control e flags (km_controllen msg_sys);
    match c with
    | inl err => mret (err, km_hdr msg_sys, used_address)
    | inr heap =>
        flags ← liftw (msg_flags id flags);
        same ← lift (same_address used_address (km_hdr msg_sys));
        r ← (if (same : bool) then
               r ← liftw (sock_sendmsg_nosec (me_send e flags) id (km_hdr msg_sys));
               mret (r, used_address)
             else
               r ← liftw (__sock_sendmsg mem (me_sec e) (me_send e flags) pid id (km_hdr msg_sys));
               used_address ← (if 0 <=? r.1 then lift (remember used_address r.2) else mret used_address);
               mret (r, used_address));
        charge_omem (- heap) ;;
        mret (r.1.1, r.1.2, r.2)
    end.

(** [address] is 128 bytes on the stack. *)
Definition ___sys_sendmsg (mem : bool) (pid id : Z) (e : msg_env) (flags : Z) (used_address : option used_address_t)
    (allowed_msghdr_flags : Z) : st mst (Z * msghdr * option used_address_t) :=
  match sendmsg_copy_msghdr e flags addr0 with
  | inl err => mret (err, Msg None 0 0, used_address)
  | inr msg_sys => ____sys_sendmsg mem pid id e msg_sys flags used_address allowed_msghdr_flags
  end.

Definition __sys_sendmsg_sock (mem : bool) (pid id : Z) (e : msg_env) (msg : kmsg) (flags : Z) : st mst Z :=
  r ← ____sys_sendmsg mem pid id e msg flags None 0;
  mret r.1.1.

Definition __sys_sendmsg (shared mem : bool) (pid fd : Z) (e : msg_env) (flags : Z) (forbid_cmsg_compat : bool) : st mst Z :=
  if forbid_cmsg_compat && has_flag MSG_CMSG_COMPAT flags then mret (- EINVAL)
  else
    r ← liftw (sockfd_lookup_light shared pid fd);
    match r with
    | inr err => mret err
    | inl (id, needed) =>
        r ← ___sys_sendmsg mem pid id e flags None 0;
        liftw (sock_put_light pid id needed) ;;
        mret r.1.1
    end.

(** ** sendmmsg *)

(** The loop over the messages [idx]: the number sent, the last error, and the
    lengths stored in user memory.  The last message of the array gets [oflags]. *)
Fixpoint sendmmsg_loop (mem : bool) (pid id : Z) (es : Z → msg_env) (vlen flags oflags : Z) (idx : list Z)
    (used : option used_address_t) (datagrams : Z) (lens : list Z) : st mst (Z * Z * list Z) :=
  match idx with
  | [] => mret (datagrams, 0, lens)
  | i :: idx =>
      let flags := if i =? vlen - 1 then oflags else flags in
      r ← ___sys_sendmsg mem pid id (es i) flags used MSG_EOR;
      let '(err, msg_sys, used) := r in
      if err <? 0 then mret (datagrams, err, lens)
      else if negb (me_put (es i) =? 0) then mret (datagrams, me_put (es i), lens)
      else if negb (msg_left msg_sys =? 0) then mret (datagrams + 1, 0, lens ++ [err])
      else sendmmsg_loop mem pid id es vlen flags oflags idx used (datagrams + 1) (lens ++ [err])
  end.

Definition __sys_sendmmsg (shared mem : bool) (pid fd : Z) (es : Z → msg_env) (vlen flags : Z) (forbid_cmsg_compat : bool) :
    st mst (Z * list Z) :=
  if forbid_cmsg_compat && has_flag MSG_CMSG_COMPAT flags then mret (- EINVAL, [])
  else
    let vlen := if UIO_MAXIOV <? vlen then UIO_MAXIOV else vlen in
    r ← liftw (sockfd_lookup_light shared pid fd);
    match r with
    | inr err => mret (err, [])
    | inl (id, needed) =>
        r ← sendmmsg_loop mem pid id es vlen (Z.lor flags MSG_BATCH) flags (seqZ 0 vlen)
              (Some (UsedAddress (replicate 128 0) UINT_MAX)) 0 [];
        liftw (sock_put_light pid id needed) ;;
        let '(datagrams, err, lens) := r in
        mret (if negb (datagrams =? 0) then datagrams else err, lens)
    end.

(** ** recvmsg *)

(** What a received message leaves in user memory: the address with its length,
    the flags, the length of the control messages. *)
Record user_result := UserResult {
  ur_addr : list Z;
  ur_addrlen : option Z;
  ur_flags : option Z;
  ur_controllen : option Z }.

Definition no_result : user_result := UserResult [] None None None.

(** [uaddr] is [None] for NULL. *)
Definition ____sys_recvmsg (mem : bool) (jiffies pid id : Z) (e : msg_env) (uaddr : option user_addr) (left flags : Z)
    (nosec : bool) : st mst (Z * Z * user_result) :=
  let out_flags := Z.land flags (Z.lor MSG_CMSG_CLOEXEC MSG_CMSG_COMPAT) in
  flags ← liftw (msg_flags id flags);
  r ← liftw (if nosec then sock_recvmsg_nosec (me_recv e flags) id (Msg (Some addr0) 0 left)
             else sock_recvmsg mem jiffies (me_sec e) (me_recv e flags) pid id (Msg (Some addr0) 0 left));
  let '(err, msg_sys) := r in
  let out_flags := Z.lor out_flags (me_recv_flags e) in
  if err <? 0 then mret (err, out_flags, no_result)
  else
    let len := err in
    a ← (match uaddr with
         | None => mret (0, [], None)
         | Some u => lift (move_addr_to_user (default [] (msg_name msg_sys)) (msg_namelen msg_sys) (me_audit e) u)
         end);
    let '(err, addr, addrlen) := a in
    if err <? 0 then mret (err, out_flags, UserResult addr addrlen None None)
    else if negb (me_put_flags e =? 0) then mret (me_put_flags e, out_flags, UserResult addr addrlen None None)
    else
      let user_flags := Z.land out_flags (u32 (Z.lnot MSG_CMSG_COMPAT)) in
      if negb (me_put_ctl e =? 0) then mret (me_put_ctl e, out_flags, UserResult addr addrlen (Some user_flags) None)
      else mret (len, out_flags, UserResult addr addrlen (Some user_flags) (Some (me_recv_ctl e))).

(** The memory for the address when the header names one. *)
Definition msg_uaddr (e : msg_env) : option user_addr :=
  match me_user e with
  | Some msg => match um_name msg with Some _ => Some (me_uaddr e) | None => None end
  | None => None
  end.

Definition ___sys_recvmsg (mem : bool) (jiffies pid id : Z) (e : msg_env) (flags : Z) (nosec : bool) :
    st mst (Z * Z * user_result) :=
  match recvmsg_copy_msghdr e flags addr0 with
  | inl err => mret (err, 0, no_result)
  | inr msg_sys => ____sys_recvmsg mem jiffies pid id e (msg_uaddr e) (msg_left (km_hdr msg_sys)) flags nosec
  end.

Definition __sys_recvmsg_sock (mem : bool) (jiffies pid id : Z) (e : msg_env) (msg : kmsg) (uaddr : option user_addr) (flags : Z) :
    st mst (Z * user_result) :=
  r ← ____sys_recvmsg mem jiffies pid id e uaddr (msg_left (km_hdr msg)) flags false;
  mret (r.1.1, r.2).

Definition __sys_recvmsg (shared mem : bool) (jiffies pid fd : Z) (e : msg_env) (flags : Z) (forbid_cmsg_compat : bool) :
    st mst (Z * user_result) :=
  if forbid_cmsg_compat && has_flag MSG_CMSG_COMPAT flags then mret (- EINVAL, no_result)
  else
    r ← liftw (sockfd_lookup_light shared pid fd);
    match r with
    | inr err => mret (err, no_result)
    | inl (id, needed) =>
        r ← ___sys_recvmsg mem jiffies pid id e flags false;
        liftw (sock_put_light pid id needed) ;;
        mret (r.1.1, r.2)
    end.

(** ** recvmmsg *)

(** include/net/sock.h: the pending error, once. *)
Definition sock_error : st mst Z :=
  s ← get;
  if ms_err s =? 0 then mret 0 else set_err 0 ;; mret (- ms_err s).

(** The loop: the number received, the last error, the time left, and the results.
    [end_time] and the time left are in nanoseconds. *)
Fixpoint recvmmsg_loop (mem : bool) (jiffies pid id : Z) (es : Z → msg_env) (end_time : option Z) (flags : Z) (idx : list Z)
    (timeout : option Z) (datagrams : Z) (out : list (Z * user_result)) : st mst (Z * Z * option Z * list (Z * user_result)) :=
  match idx with
  | [] => mret (datagrams, 0, timeout, out)
  | i :: idx =>
      r ← ___sys_recvmsg mem jiffies pid id (es i) (Z.land flags (u32 (Z.lnot MSG_WAITFORONE))) (negb (datagrams =? 0));
      let '(err, msg_flags, res) := r in
      if err <? 0 then mret (datagrams, err, timeout, out)
      else if negb (me_put (es i) =? 0) then mret (datagrams, me_put (es i), timeout, out)
      else
        let datagrams := datagrams + 1 in
        let out := out ++ [(err, res)] in
        let flags := if has_flag flags MSG_WAITFORONE then Z.lor flags MSG_DONTWAIT else flags in
        let rest := match end_time with None => None | Some t => Some (t - me_now (es i)) end in
        match rest with
        | Some t =>
            if t <? 0 then mret (datagrams, 0, Some 0, out)
            else if t =? 0 then mret (datagrams, 0, Some 0, out)
            else if has_flag msg_flags MSG_OOB then mret (datagrams, 0, Some t, out)
            else recvmmsg_loop mem jiffies pid id es end_time flags idx (Some t) datagrams out
        | None =>
            if has_flag msg_flags MSG_OOB then mret (datagrams, 0, timeout, out)
            else recvmmsg_loop mem jiffies pid id es end_time flags idx timeout datagrams out
        end
  end.

(** [timeout] is the time to wait with the end of it, and the answer of
    poll_select_set_timeout.  The lookup leaves EBADF in [err]. *)
Definition do_recvmmsg (shared mem : bool) (jiffies pid fd : Z) (es : Z → msg_env) (vlen flags : Z)
    (timeout : option (Z * Z * Z)) : st mst (Z * option Z * list (Z * user_result)) :=
  if (match timeout with Some (_, _, bad) => negb (bad =? 0) | None => false end)
  then mret (- EINVAL, (λ t, t.1.1) <$> timeout, [])
  else
    let rest := (λ t : Z * Z * Z, t.1.1) <$> timeout in
    r ← liftw (sockfd_lookup_light shared pid fd);
    match r with
    | inr err => mret (err, rest, [])
    | inl (id, needed) =>
        err ← (if negb (has_flag flags MSG_ERRQUEUE) then sock_error else mret 0);
        if negb (err =? 0) then
          liftw (sock_put_light pid id needed) ;; mret (err, rest, [])
        else
          r ← recvmmsg_loop mem jiffies pid id es ((λ t : Z * Z * Z, t.1.2) <$> timeout) flags (seqZ 0 vlen) rest 0 [];
          let '(datagrams, err, rest, out) := r in
          let err := if (vlen =? 0) && has_flag flags MSG_ERRQUEUE then - EBADF else err in
          (if negb (err =? 0) && negb (datagrams =? 0) && negb (err =? - EAGAIN) then set_err (- err) else mret tt) ;;
          liftw (sock_put_light pid id needed) ;;
          mret (if (datagrams =? 0) && negb (err =? 0) then err else datagrams, rest, out)
    end.

(** The time is read from user memory and written back; [None]: cannot be read.
    [put] is the answer of writing it. *)
Definition __sys_recvmmsg (shared mem : bool) (jiffies pid fd : Z) (es : Z → msg_env) (vlen flags : Z)
    (timeout : option (option (Z * Z * Z) * Z)) : st mst (Z * option Z * list (Z * user_result)) :=
  match timeout with
  | None => do_recvmmsg shared mem jiffies pid fd es vlen flags None
  | Some (None, _) => mret (- EFAULT, None, [])
  | Some (Some t, put) =>
      r ← do_recvmmsg shared mem jiffies pid fd es vlen flags (Some t);
      let '(datagrams, rest, out) := r in
      if datagrams <=? 0 then mret (datagrams, None, out)
      else if negb (put =? 0) then mret (- EFAULT, None, out)
      else mret (datagrams, rest, out)
  end.

(** ** socketcall *)

(** The calls that the switch can make, with their arguments as C converts them. *)
Inductive socket_call :=
| CallSocket (family type protocol : Z)
| CallBind (fd addr addrlen : Z)
| CallConnect (fd addr addrlen : Z)
| CallListen (fd backlog : Z)
| CallAccept4 (fd addr addrlen flags : Z)
| CallGetsockname (fd addr len : Z)
| CallGetpeername (fd addr len : Z)
| CallSocketpair (family type protocol sv : Z)
| CallSendto (fd buff len flags addr addrlen : Z)
| CallRecvfrom (fd buff len flags addr addrlen : Z)
| CallShutdown (fd how : Z)
| CallSetsockopt (fd level optname optval optlen : Z)
| CallGetsockopt (fd level optname optval optlen : Z)
| CallSendmsg (fd msg flags : Z)
| CallSendmmsg (fd msg vlen flags : Z)
| CallRecvmsg (fd msg flags : Z)
| CallRecvmmsg (fd msg vlen flags timeout : Z).

(** The number of arguments of each call. *)
Definition nargs : list Z := [0; 3; 3; 3; 2; 3; 3; 3; 4; 4; 4; 6; 6; 2; 5; 5; 3; 3; 4; 5; 4].

Definition SYS_SENDMMSG : Z := 20.
Definition AUDITSC_ARGS : Z := 6.

(** [copy n] is what user memory holds in [n] words at the arguments; only the
    words that were copied can be read. *)
Definition socketcall (copy : Z → option (list Z)) (audit : list Z → Z) (call : Z) : option (Z + socket_call) :=
  if (call <? 1) || (SYS_SENDMMSG <? call) then Some (inl (- EINVAL))
  else
    len ← zlookup nargs call;
    if AUDITSC_ARGS <? len then Some (inl (- EINVAL))
    else
      match copy len with
      | None => Some (inl (- EFAULT))
      | Some a =>
          let err := audit a in
          if negb (err =? 0) then Some (inl err)
          else
            a0 ← zlookup a 0;
            a1 ← zlookup a 1;
            let i n := s32 <$> zlookup a n in
            let u n := u32 <$> zlookup a n in
            let p n := zlookup a n in
            match call with
            | 1 => x ← i 2; Some (inr (CallSocket (s32 a0) (s32 a1) x))
            | 2 => x ← i 2; Some (inr (CallBind (s32 a0) a1 x))
            | 3 => x ← i 2; Some (inr (CallConnect (s32 a0) a1 x))
            | 4 => Some (inr (CallListen (s32 a0) (s32 a1)))
            | 5 => x ← p 2; Some (inr (CallAccept4 (s32 a0) a1 x 0))
            | 6 => x ← p 2; Some (inr (CallGetsockname (s32 a0) a1 x))
            | 7 => x ← p 2; Some (inr (CallGetpeername (s32 a0) a1 x))
            | 8 => x ← i 2; y ← p 3; Some (inr (CallSocketpair (s32 a0) (s32 a1) x y))
            | 9 => x ← p 2; y ← u 3; Some (inr (CallSendto (s32 a0) a1 x y 0 0))
            | 11 => x ← p 2; y ← u 3; z ← p 4; t ← i 5; Some (inr (CallSendto (s32 a0) a1 x y z t))
            | 10 => x ← p 2; y ← u 3; Some (inr (CallRecvfrom (s32 a0) a1 x y 0 0))
            | 12 => x ← p 2; y ← u 3; z ← p 4; t ← p 5; Some (inr (CallRecvfrom (s32 a0) a1 x y z t))
            | 13 => Some (inr (CallShutdown (s32 a0) (s32 a1)))
            | 14 => x ← i 2; y ← p 3; z ← i 4; Some (inr (CallSetsockopt (s32 a0) (s32 a1) x y z))
            | 15 => x ← i 2; y ← p 3; z ← p 4; Some (inr (CallGetsockopt (s32 a0) (s32 a1) x y z))
            | 16 => x ← u 2; Some (inr (CallSendmsg (s32 a0) a1 x))
            | 20 => x ← u 2; y ← u 3; Some (inr (CallSendmmsg (s32 a0) a1 x y))
            | 17 => x ← u 2; Some (inr (CallRecvmsg (s32 a0) a1 x))
            | 19 => x ← u 2; y ← u 3; z ← p 4; Some (inr (CallRecvmmsg (s32 a0) a1 x y z))
            | 18 => x ← p 2; y ← i 3; Some (inr (CallAccept4 (s32 a0) a1 x y))
            | _ => Some (inl (- EINVAL))
            end
      end.

(** ** Frame *)

Lemma liftw_step {A B} (m : wst A) (f : A → st mst B) s a w :
  m (ms_world s) = Some (a, w) → (liftw m ≫= f) s = f a (Mst w (ms_omem s) (ms_err s)).
Proof. intros E. apply st_bind_step. unfold liftw. by rewrite E. Qed.

(** What a transfer leaves alone. *)
Record framed (w w' : world) : Prop := {
  fr_files : files w' = files w;
  fr_fdt : fdt w' = fdt w;
  fr_modref : modref w' = modref w }.

Lemma framed_refl w : framed w w.
Proof. done. Qed.

Lemma framed_trans w w1 w2 : framed w w1 → framed w1 w2 → framed w w2.
Proof. intros [] []. split; congruence. Qed.

Lemma fair_framed {A} (m : fst_ A) w a w' : fair m w = Some (a, w') → framed w w' ∧ socks w' = socks w ∧ slept w' = slept w.
Proof. unfold fair. destruct (m (mgr w)) as [[b m']|]; [|done]. by intros [= _ <-]. Qed.

Lemma load_sock_same id w a w' : load_sock id w = Some (a, w') → w' = w.
Proof. unfold load_sock, mbind, st_bind, get, lift. destruct (socks w !! id); [|done]. by intros [= _ <-]. Qed.

Lemma nosec_same send id msg w r w' : sock_sendmsg_nosec send id msg w = Some (r, w') → w' = w.
Proof.
  unfold sock_sendmsg_nosec. rewrite st_bind_Some. intros (s & w1 & ->%load_sock_same & H).
  destruct (so_ops s); [|done]. destruct (send msg). destruct (_ =? _); [done|]. by injection H as _ <-.
Qed.

Lemma sendmsg_framed mem sec send pid id msg w r w' : __sock_sendmsg mem sec send pid id msg w = Some (r, w') → framed w w'.
Proof.
  unfold __sock_sendmsg. rewrite st_bind_Some. intros (t & w1 & (H1 & _)%fair_framed & H). apply st_bind_Some in H as (u & w2 & H2 & H).
  assert (framed w w2) as F2.
  { destruct t; [|injection H2 as _ <-; done]. apply st_bind_Some in H2 as (v & w3 & H3 & H4). unfold update_sock in H3.
    apply st_bind_Some in H3 as (s & w4 & ->%load_sock_same & H3). injection H3 as _ <-. injection H4 as _ <-.
    eapply framed_trans; [exact H1|done]. }
  destruct (negb (sec =? 0)); [injection H as _ <-; done|]. apply st_bind_Some in H as ([ret m'] & w3 & ->%nosec_same & H).
  apply st_bind_Some in H as (v & w4 & H4 & H). injection H as _ <-.
  destruct (_ && _); [|injection H4 as _ <-; done]. apply fair_framed in H4 as (H4 & _). by eapply framed_trans.
Qed.

Lemma recvmsg_framed mem jiffies sec recv pid id msg w r w' : sock_recvmsg mem jiffies sec recv pid id msg w = Some (r, w') →
  framed w w' ∧ socks w' = socks w.
Proof.
  unfold sock_recvmsg. rewrite st_bind_Some. intros (t & w1 & (H1 & K1 & _)%fair_framed & H).
  destruct (negb t); [by injection H as _ <-|]. destruct (negb (sec =? 0)); [by injection H as _ <-|].
  apply st_bind_Some in H as ([ret m'] & w2 & H2 & H).
  assert (w2 = w1) as ->.
  { unfold sock_recvmsg_nosec in H2. apply st_bind_Some in H2 as (s & w3 & ->%load_sock_same & H2). destruct (so_ops s); [|done]. by injection H2. }
  apply st_bind_Some in H as (v & w4 & H4 & H). injection H as _ <-.
  destruct (0 <? ret); [|injection H4 as _ <-; done]. apply fair_framed in H4 as (H4 & K4 & _). split; [by eapply framed_trans|congruence].
Qed.

(** ** The world between two messages *)

(** The descriptor's socket keeps its operations and its file. *)
Record during (w0 : world) (id f : Z) (o : proto_ops) (w : world) : Prop := {
  du_wf : world_wf w;
  du_frame : framed w0 w;
  du_sock : ∃ s, socks w !! id = Some s ∧ so_ops s = Some o ∧ so_file s = Some f;
  du_others : ∀ k, k ≠ id → socks w !! k = socks w0 !! k;
  du_counts : ∀ t, thread_count w t = thread_count w0 t }.

Lemma during_file w0 id f o w fl : during w0 id f o w → files w0 !! f = Some fl →
  ∀ flags, msg_flags id flags w = Some (if negb (Z.land (f_flags fl) O_NONBLOCK =? 0) then Z.lor flags MSG_DONTWAIT else flags, w).
Proof.
  intros [_ [Hf _ _] (s & Hs & _ & Hsf) _ _] Hfl flags. unfold msg_flags.
  rewrite (st_bind_step _ _ _ _ _ (load_sock_ok _ _ _ Hs)), Hsf.
  rewrite (st_bind_step (load_file f) _ w fl w) by (apply load_file_ok; by rewrite Hf). done.
Qed.

Lemma during_nosec w0 id f o w send msg : during w0 id f o w → (send msg).1 ≠ - EIOCBQUEUED →
  sock_sendmsg_nosec send id msg w = Some (send msg, w).
Proof.
  intros [_ _ (s & Hs & Ho & _) _ _] Hq. unfold sock_sendmsg_nosec. rewrite (st_bind_step _ _ _ _ _ (load_sock_ok _ _ _ Hs)), Ho.
  destruct (send msg) as [ret m']. cbn in Hq. by rewrite (proj2 (Z.eqb_neq _ _) Hq).
Qed.

Lemma during_send w0 id f o w sec send pid msg : during w0 id f o w → (send msg).1 ≠ - EIOCBQUEUED →
  ∃ w', __sock_sendmsg true sec send pid id msg w = Some (if sec =? 0 then send msg else (sec, msg), w') ∧ during w0 id f o w'.
Proof.
  intros [H1 H2 (s & Hs & Ho & Hf) H4 H5] Hq. destruct (send msg) as [ret m'] eqn:Es.
  destruct (send_ok sec send pid id msg w s o ret m' H1 Hs Ho Es Hq) as (w' & E & W & _ & K & T).
  exists w'. split; [exact E|]. split; [done| | | |].
  - eapply framed_trans; [exact H2|by eapply sendmsg_framed].
  - rewrite K. destruct (throttled w pid); [|by exists s]. exists (deprioritise s). rewrite lookup_insert_eq.
    unfold deprioritise. by destruct (so_sk s).
  - intros k Hk. rewrite K. destruct (throttled w pid); [|by apply H4]. rewrite lookup_insert_ne by done. by apply H4.
  - intros t. by rewrite T.
Qed.

(** ** One message *)

(** The answer of copying the control messages, and the memory they take. *)
Definition control_answer (e : msg_env) (flags ctl_len : Z) : Z + Z :=
  if has_flag MSG_CMSG_COMPAT flags && negb (ctl_len =? 0) then
    match me_compat_ctl e with
    | inl err => inl err
    | inr (ctl_len, heap) => inr (if (heap : bool) then ctl_len else 0)
    end
  else if ctl_len =? 0 then inr 0
  else if CTL_SIZE <? ctl_len then
    if negb (me_ctl_mem e) then inl (- ENOBUFS) else if negb (me_ctl_copy e) then inl (- EFAULT) else inr ctl_len
  else if negb (me_ctl_copy e) then inl (- EFAULT) else inr 0.

Definition add_omem (n : Z) (s : mst) : mst := Mst (ms_world s) (ms_omem s + n) (ms_err s).

Lemma add_omem_0 s : add_omem 0 s = s.
Proof. unfold add_omem. rewrite Z.add_0_r. by destruct s. Qed.

Lemma copy_control_run e flags ctl_len s :
  copy_control e flags ctl_len s = Some (control_answer e flags ctl_len,
    add_omem (match control_answer e flags ctl_len with inl _ => 0 | inr n => n end) s).
Proof.
  unfold copy_control, control_answer. destruct (_ && _).
  { destruct (me_compat_ctl e) as [err|[n [|]]]; [by rewrite add_omem_0|done|by rewrite add_omem_0]. }
  destruct (ctl_len =? 0); cbn [negb]; [by rewrite add_omem_0|]. destruct (CTL_SIZE <? ctl_len).
  - destruct (me_ctl_mem e); cbn [negb]; [|by rewrite add_omem_0]. destruct (me_ctl_copy e); cbn [negb]; [done|].
    unfold charge_omem, modify, mbind, st_bind, mret, st_ret, add_omem. cbn [ms_world ms_omem ms_err]. do 3 f_equal. lia.
  - destruct (me_ctl_copy e); cbn [negb]; by rewrite add_omem_0.
Qed.

(** What the protocol is given for a message: the error before it comes to that,
    or the header and the flags. *)
Definition prepared (nonblock : bool) (e : msg_env) (flags allowed : Z) : Z + (msghdr * Z) :=
  match sendmsg_copy_msghdr e flags addr0 with
  | inl err => inl err
  | inr k =>
      if INT_MAX <? km_controllen k then inl (- ENOBUFS)
      else
        let flags := Z.lor flags (Z.land (km_flags k) allowed) in
        match control_answer e flags (km_controllen k) with
        | inl err => inl err
        | inr _ => inr (km_hdr k, if nonblock then Z.lor flags MSG_DONTWAIT else flags)
        end
  end.

(** A header that the kernel made: an address of 128 bytes with a length in it. *)
Definition hdr_ok (m : msghdr) : Prop :=
  match msg_name m with Some a => length a = 128%nat ∧ 0 < msg_namelen m ≤ 128 | None => msg_namelen m = 0 end.

Definition used_ok (used : option used_address_t) : Prop :=
  match used with Some u => length (ad_name u) = 128%nat | None => True end.

(** The protocol leaves the address alone and does not answer EIOCBQUEUED. *)
Definition proto_ok (e : msg_env) : Prop := ∀ flags m,
  (me_send e flags m).1 ≠ - EIOCBQUEUED ∧ msg_name (me_send e flags m).2 = msg_name m ∧
  msg_namelen (me_send e flags m).2 = msg_namelen m.

Lemma move_addr_length u audit ulen kaddr : length (move_addr_to_kernel u audit ulen kaddr).2 = length kaddr.
Proof.
  unfold move_addr_to_kernel. destruct (_ || _); [done|]. destruct (_ =? _); [done|].
  destruct (u ≫= _) as [b|]; [|done]. destruct (put_at kaddr 0 b) as [k|] eqn:E; [|done]. by eapply put_at_length.
Qed.

Lemma prepared_hdr nb e flags allowed m fl : has_flag MSG_CMSG_COMPAT flags = false →
  prepared nb e flags allowed = inr (m, fl) → hdr_ok m.
Proof.
  unfold prepared, sendmsg_copy_msghdr. intros -> H. unfold copy_msghdr_from_user, __copy_msghdr_from_user in H.
  destruct (me_user e) as [u|]; [|done]. set (n0 := match um_name u with None => 0 | _ => _ end) in H.
  destruct (Z.ltb_spec n0 0) as [|Hn0]; [done|]. set (n1 := if SOCKADDR_STORAGE <? n0 then _ else n0) in H.
  assert (0 ≤ n1 ≤ 128) as Hn1. { unfold n1, SOCKADDR_STORAGE. destruct (Z.ltb_spec 128 n0); lia. }
  destruct (um_name u) as [a|].
  - destruct (Z.eqb_spec n1 0) as [|Hz].
    + destruct (UIO_MAXIOV <? _); [done|]. destruct (_ <? 0); [done|]. cbn [km_hdr km_controllen km_flags msg_name msg_namelen] in H.
      destruct (INT_MAX <? _); [done|]. destruct (control_answer _ _ _); [done|]. by injection H as <- _.
    + pose proof (move_addr_length a (me_audit e) n1 addr0) as Hl. destruct (move_addr_to_kernel a (me_audit e) n1 addr0) as [err k].
      destruct (err <? 0); [done|]. destruct (UIO_MAXIOV <? _); [done|]. destruct (_ <? 0); [done|].
      cbn [km_hdr km_controllen km_flags msg_name msg_namelen] in H.
      destruct (INT_MAX <? _); [done|]. destruct (control_answer _ _ _); [done|]. injection H as <- _.
      unfold hdr_ok. cbn [msg_name msg_namelen]. split; [exact Hl|lia].
  - destruct (UIO_MAXIOV <? _); [done|]. destruct (_ <? 0); [done|]. cbn [km_hdr km_controllen km_flags msg_name msg_namelen] in H.
    destruct (INT_MAX <? _); [done|]. destruct (control_answer _ _ _); [done|]. by injection H as <- _.
Qed.

Lemma same_address_run used m : used_ok used → hdr_ok m → ∃ b, same_address used m = Some b.
Proof.
  unfold same_address, used_ok, hdr_ok. intros Hu Hm. destruct used as [u|]; [|eauto]. destruct (msg_name m) as [a|]; [|eauto].
  destruct Hm as [La Hn]. destruct (Z.eqb_spec (ad_len u) (msg_namelen m)) as [E|]; cbn [negb]; [|eauto]. rewrite E.
  destruct (proj2 (bytes_at_is_Some (ad_name u) 0 (msg_namelen m))) as [x ->]; [lia|].
  destruct (proj2 (bytes_at_is_Some a 0 (msg_namelen m))) as [y ->]; [lia|]. eauto.
Qed.

Lemma remember_run used m : used_ok used → hdr_ok m → ∃ u, remember used m = Some u ∧ used_ok u ∧
  (used ≠ None → msg_name m ≠ None → ∀ m2 b, msg_name m2 = Some b → msg_namelen m2 = msg_namelen m → length b = 128%nat →
    bytes_at b 0 (msg_namelen m) = msg_name m ≫= (λ a, bytes_at a 0 (msg_namelen m)) → same_address u m2 = Some true).
Proof.
  unfold remember, hdr_ok. intros Hu Hm. destruct used as [u|]; [|by exists None]. destruct (msg_name m) as [a|]; [|eexists; split; [done|by split]].
  destruct Hm as [La Hn]. cbn [used_ok] in Hu. destruct (proj2 (bytes_at_is_Some a 0 (msg_namelen m))) as [x Ex]; [lia|]. rewrite Ex. cbn [mbind option_bind].
  pose proof (bytes_at_length _ _ _ _ Ex) as Lx. destruct (put_at_Some (ad_name u) 0 x) as [n En]; [lia|lia|]. rewrite En. cbn [mbind option_bind].
  eexists. split; [reflexivity|]. split; [cbn [used_ok ad_name]; by rewrite (put_at_length _ _ _ _ En)|].
  intros _ _ m2 b Hb Hl Lb Heq. unfold same_address. rewrite Hb. cbn [ad_len ad_name]. rewrite Hl, Z.eqb_refl. cbn [negb].
  rewrite Heq. pose proof (bytes_at_put_eq _ _ _ _ En) as Ep. rewrite Lx in Ep. rewrite Ep, Ex. cbn [mbind option_bind]. by rewrite bool_decide_eq_true_2.
Qed.

Lemma refund {A} n (z : A) s : (charge_omem (- n) ;; mret z) s = Some (z, add_omem (- n) s).
Proof. done. Qed.

(** A message that was sent: the length that user memory gets, and what is left. *)
Definition sent (nb : bool) (e : msg_env) (flags len rest : Z) : Prop :=
  ∃ hdr pf, prepared nb e flags MSG_EOR = inr (hdr, pf) ∧ len = (me_send e pf hdr).1 ∧ rest = msg_left (me_send e pf hdr).2 ∧
    0 ≤ len ∧ me_put e = 0.

(** A message that was not, or whose length cannot be stored. *)
Definition failed (nb : bool) (e : msg_env) (flags err : Z) : Prop :=
  err ≠ 0 ∧
  ((err < 0 ∧ (prepared nb e flags MSG_EOR = inl err ∨ err = me_sec e ∨
     ∃ hdr pf, prepared nb e flags MSG_EOR = inr (hdr, pf) ∧ err = (me_send e pf hdr).1)) ∨
   (err = me_put e ∧ ∃ hdr pf, prepared nb e flags MSG_EOR = inr (hdr, pf) ∧ 0 ≤ (me_send e pf hdr).1)).

(** The flags of message [i]: more follow it, but for the last. *)
Definition flags_of (vlen flags i : Z) : Z := if i =? vlen - 1 then flags else Z.lor flags MSG_BATCH.

(** What the messages from [i] on may do: the lengths of those that are sent, in
    order, and the error that ends the batch. *)
Inductive batch (nb : bool) (es : Z → msg_env) (vlen flags : Z) : Z → list Z → Z → Prop :=
| batch_end : batch nb es vlen flags vlen [] 0
| batch_fail i err : i < vlen → failed nb (es i) (flags_of vlen flags i) err → batch nb es vlen flags i [] err
| batch_partial i len rest : i < vlen → sent nb (es i) (flags_of vlen flags i) len rest → rest ≠ 0 → batch nb es vlen flags i [len] 0
| batch_sent i len lens err : i < vlen → sent nb (es i) (flags_of vlen flags i) len 0 → batch nb es vlen flags (i + 1) lens err →
    batch nb es vlen flags i (len :: lens) err.

Section messages.
Context (w0 : world) (id f : Z) (o : proto_ops) (fl : file) (pid : Z).
Hypothesis (Hfl : files w0 !! f = Some fl).
Let nb : bool := negb (Z.land (f_flags fl) O_NONBLOCK =? 0).

Lemma send_prepared e flags used allowed s hdr pf : during w0 id f o (ms_world s) → proto_ok e → used_ok used →
  has_flag MSG_CMSG_COMPAT flags = false → prepared nb e flags allowed = inr (hdr, pf) →
  ∃ err m used' s', ___sys_sendmsg true pid id e flags used allowed s = Some ((err, m, used'), s') ∧
    during w0 id f o (ms_world s') ∧ ms_omem s' = ms_omem s ∧ ms_err s' = ms_err s ∧ used_ok used' ∧
    if bool_decide (same_address used hdr = Some true)
    then (err, m) = me_send e pf hdr ∧ used' = used ∧ s' = s
    else (err, m) = (if me_sec e =? 0 then me_send e pf hdr else (me_sec e, hdr)) ∧
      __sock_sendmsg true (me_sec e) (me_send e pf) pid id hdr (ms_world s) = Some ((err, m), ms_world s') ∧
      (if 0 <=? err then remember used m = Some used' else used' = used).
Proof.
  intros Hd Hp Hu Hc Hpr. pose proof (prepared_hdr _ _ _ _ _ _ Hc Hpr) as Hh. unfold prepared in Hpr. unfold ___sys_sendmsg, ____sys_sendmsg.
  destruct (sendmsg_copy_msghdr e flags addr0) as [err|k]; [done|]. destruct (INT_MAX <? km_controllen k); [done|]. cbv zeta.
  set (fl1 := Z.lor flags _) in *. rewrite (st_bind_step _ _ _ _ _ (copy_control_run e fl1 (km_controllen k) s)).
  destruct (control_answer e fl1 (km_controllen k)) as [err|heap]; [done|]. injection Hpr as Hk Hpf. rewrite Hk.
  set (s1 := add_omem heap s). change (ms_world s) with (ms_world s1) in Hd.
  rewrite (liftw_step _ _ _ _ _ (during_file _ _ _ _ _ _ Hd Hfl fl1)). fold nb. rewrite Hpf.
  set (s2 := Mst (ms_world s1) (ms_omem s1) (ms_err s1)). destruct (same_address_run used hdr Hu Hh) as [b Eb]. rewrite Eb.
  rewrite (lift_step _ _ _ _ eq_refl). destruct (Hp pf hdr) as (Hq & Hn1 & Hn2).
  destruct b.
  - rewrite bool_decide_eq_true_2 by done.
    rewrite (st_bind_step _ _ s2 (me_send e pf hdr, used) s2); [|by rewrite (liftw_step _ _ _ _ _ (during_nosec _ _ _ _ _ _ _ Hd Hq))].
    rewrite refund. cbn [fst snd]. destruct (me_send e pf hdr) as [err m]. exists err, m, used, s.
    assert (add_omem (- heap) s2 = s) as ->. { destruct s. unfold s2, s1, add_omem. cbn. f_equal. lia. }
    by split_and!.
  - rewrite bool_decide_eq_false_2 by done. destruct (during_send _ _ _ _ _ (me_sec e) (me_send e pf) pid hdr Hd Hq) as (w' & E & Hd').
    destruct (if me_sec e =? 0 then me_send e pf hdr else (me_sec e, hdr)) as [err m] eqn:Er.
    assert (hdr_ok m) as Hm.
    { destruct (me_sec e =? 0); [|by injection Er as _ <-]. rewrite Er in Hn1, Hn2. cbn in Hn1, Hn2. unfold hdr_ok. by rewrite Hn1, Hn2. }
    destruct (remember_run used m Hu Hm) as (u & Eu & Hu' & _). set (s3 := Mst w' (ms_omem s2) (ms_err s2)).
    rewrite (st_bind_step _ _ s2 ((err, m), if 0 <=? err then u else used) s3).
    2:{ rewrite (liftw_step _ _ _ _ _ E). cbn [fst snd]. fold s3. destruct (0 <=? err); [|done]. by rewrite Eu. }
    rewrite refund. cbn [fst snd]. exists err, m, (if 0 <=? err then u else used), (add_omem (- heap) s3).
    split; [done|]. split; [done|]. split; [cbn; lia|]. split; [done|]. split; [by destruct (0 <=? err)|].
    split; [done|]. split; [exact E|]. by destruct (0 <=? err).
Qed.

Lemma send_refused e flags used allowed s err : prepared nb e flags allowed = inl err →
  ∃ m, ___sys_sendmsg true pid id e flags used allowed s = Some ((err, m, used), s).
Proof.
  intros Hpr. unfold prepared in Hpr. unfold ___sys_sendmsg, ____sys_sendmsg.
  destruct (sendmsg_copy_msghdr e flags addr0) as [err'|k]; [injection Hpr as ->; eauto|].
  destruct (INT_MAX <? km_controllen k); [injection Hpr as <-; eauto|]. cbv zeta.
  rewrite (st_bind_step _ _ _ _ _ (copy_control_run e _ (km_controllen k) s)).
  destruct (control_answer e _ (km_controllen k)) as [err'|heap]; [|done]. injection Hpr as ->. rewrite add_omem_0. eauto.
Qed.

Lemma no_compat_lor a b : has_flag MSG_CMSG_COMPAT a = false → Z.land MSG_CMSG_COMPAT b = 0 → has_flag MSG_CMSG_COMPAT (Z.lor a b) = false.
Proof. unfold has_flag. rewrite !negb_false_iff, !Z.eqb_eq, Z.land_lor_distr_r. by intros -> ->. Qed.

Lemma flags_of_compat vlen flags i : has_flag MSG_CMSG_COMPAT flags = false → has_flag MSG_CMSG_COMPAT (flags_of vlen flags i) = false.
Proof. intros H. unfold flags_of. destruct (i =? vlen - 1); [done|]. by apply no_compat_lor. Qed.

Lemma prepared_negative e flags err : has_flag MSG_CMSG_COMPAT flags = false → prepared nb e flags MSG_EOR = inl err → err < 0.
Proof.
  intros Hc. unfold prepared, sendmsg_copy_msghdr. rewrite Hc. unfold copy_msghdr_from_user, __copy_msghdr_from_user.
  destruct (me_user e) as [u|]; [|by intros [= <-]]. set (n0 := match um_name u with None => 0 | _ => _ end).
  destruct (n0 <? 0); [by intros [= <-]|]. set (n1 := if SOCKADDR_STORAGE <? n0 then _ else n0).
  assert (∀ k, (if INT_MAX <? km_controllen k then inl (- ENOBUFS)
      else match control_answer e (Z.lor flags (Z.land (km_flags k) MSG_EOR)) (km_controllen k) with
           | inl err => inl err
           | inr _ => inr (km_hdr k, if nb then Z.lor (Z.lor flags (Z.land (km_flags k) MSG_EOR)) MSG_DONTWAIT else Z.lor flags (Z.land (km_flags k) MSG_EOR))
           end) = inl err → err < 0) as Hk.
  { intros k. destruct (INT_MAX <? _); [by intros [= <-]|]. unfold control_answer. rewrite no_compat_lor; [|done|].
    2:{ rewrite (Z.land_comm (km_flags k)), Z.land_assoc. done. }
    cbn [andb]. destruct (km_controllen k =? 0); [done|]. destruct (CTL_SIZE <? _), (me_ctl_mem e), (me_ctl_copy e); cbn [negb]; by intros [= <-]. }
  assert (∀ r : Z + (option (list Z) * Z), (∀ err', r = inl err' → err' < 0) →
    match (match match r with inl err => inl err | inr (name, namelen) =>
        if UIO_MAXIOV <? um_iovlen u then inl (- EMSGSIZE) else inr (KMsg (Msg name namelen 0) (um_controllen u) (um_flags u)) end with
      | inl err => inl err
      | inr k => if me_import e <? 0 then inl (me_import e)
                 else inr (KMsg (Msg (msg_name (km_hdr k)) (msg_namelen (km_hdr k)) (me_import e)) (km_controllen k) (km_flags k)) end)
    with inl err => inl err | inr k => if INT_MAX <? km_controllen k then inl (- ENOBUFS)
      else match control_answer e (Z.lor flags (Z.land (km_flags k) MSG_EOR)) (km_controllen k) with
           | inl err => inl err
           | inr _ => inr (km_hdr k, if nb then Z.lor (Z.lor flags (Z.land (km_flags k) MSG_EOR)) MSG_DONTWAIT else Z.lor flags (Z.land (km_flags k) MSG_EOR))
           end end = inl err → err < 0) as Hr.
  { intros [err'|[nm nl]] Hr; [intros [= <-]; by apply Hr|]. destruct (UIO_MAXIOV <? _); [by intros [= <-]|].
    destruct (Z.ltb_spec (me_import e) 0); [by intros [= <-]|]. apply Hk. }
  apply Hr. intros err'. destruct (um_name u) as [a|]; [|done]. destruct (n1 =? 0); [done|].
  destruct (move_addr_to_kernel a (me_audit e) n1 addr0) as [z k]. destruct (Z.ltb_spec z 0); [by intros [= <-]|done].
Qed.

(** One turn of the loop. *)
Lemma send_turn e flags used s : during w0 id f o (ms_world s) → proto_ok e → me_sec e ≤ 0 → used_ok used →
  has_flag MSG_CMSG_COMPAT flags = false →
  ∃ err m used' s', ___sys_sendmsg true pid id e flags used MSG_EOR s = Some ((err, m, used'), s') ∧
    during w0 id f o (ms_world s') ∧ ms_omem s' = ms_omem s ∧ ms_err s' = ms_err s ∧ used_ok used' ∧
    (if err <? 0 then failed nb e flags err
     else if me_put e =? 0 then sent nb e flags err (msg_left m) else failed nb e flags (me_put e)).
Proof.
  intros Hd Hp Hsec Hu Hc. destruct (prepared nb e flags MSG_EOR) as [err|[hdr pf]] eqn:Hpr.
  - destruct (send_refused e flags used MSG_EOR s err Hpr) as [m E]. exists err, m, used, s. split_and!; try done.
    pose proof (prepared_negative _ _ _ Hc Hpr) as He.
    rewrite (proj2 (Z.ltb_lt _ _) He). unfold failed. split; [lia|]. left. split; [done|by left].
  - destruct (send_prepared e flags used MSG_EOR s hdr pf Hd Hp Hu Hc Hpr) as (err & m & used' & s' & E & Hd' & Ho & He & Hu' & Hr).
    exists err, m, used', s'. split_and!; try done.
    assert ((err, m) = me_send e pf hdr ∨ err = me_sec e ∧ err ≠ 0) as Hem.
    { case_bool_decide; [by left; apply Hr|]. destruct Hr as (Hr & _). destruct (Z.eqb_spec (me_sec e) 0); [by left|right].
      by injection Hr as -> _. }
    destruct (Z.ltb_spec err 0) as [Hneg|Hpos].
    + split; [lia|]. left. split; [done|right]. destruct Hem as [Hem|[-> _]]; [right|by left]. exists hdr, pf. by rewrite <-Hem.
    + destruct Hem as [Hem|[-> Hn]]; [|lia]. destruct (Z.eqb_spec (me_put e) 0) as [Hput|Hput].
      * exists hdr, pf. by rewrite <-Hem.
      * split; [done|]. right. split; [done|]. exists hdr, pf. by rewrite <-Hem.
Qed.

Lemma sendmmsg_loop_run es vlen flags n i used lens s : i + Z.of_nat n = vlen → during w0 id f o (ms_world s) → used_ok used →
  (∀ i, proto_ok (es i) ∧ me_sec (es i) ≤ 0) → has_flag MSG_CMSG_COMPAT flags = false →
  ∃ lens' err s', sendmmsg_loop true pid id es vlen (Z.lor flags MSG_BATCH) flags (seqZ i (Z.of_nat n)) used i lens s =
      Some ((i + Z.of_nat (length lens'), err, lens ++ lens'), s') ∧ batch nb es vlen flags i lens' err ∧
    during w0 id f o (ms_world s') ∧ ms_omem s' = ms_omem s ∧ ms_err s' = ms_err s.
Proof.
  intros Hn Hd Hu He Hc. revert i used lens s Hn Hd Hu. induction n as [|n IH]; intros i used lens s Hn Hd Hu.
  { exists [], 0, s. rewrite app_nil_r. cbn [sendmmsg_loop seqZ Z.to_nat Z.of_nat length fmap list_fmap].
    split; [by rewrite Z.add_0_r|]. split; [|done]. assert (i = vlen) as -> by lia. constructor. }
  rewrite seqZ_cons by lia. replace (Z.pred (Z.of_nat (S n))) with (Z.of_nat n) by lia. cbn [sendmmsg_loop].
  fold (flags_of vlen flags i). destruct (He i) as [Hp Hsec].
  destruct (send_turn (es i) (flags_of vlen flags i) used s Hd Hp Hsec Hu (flags_of_compat _ _ _ Hc))
    as (err & m & used' & s1 & E & Hd1 & Ho1 & He1 & Hu1 & Hout).
  rewrite (st_bind_step _ _ _ _ _ E). destruct (err <? 0).
  { exists [], err, s1. rewrite app_nil_r. split; [by rewrite Z.add_0_r|]. split; [|done]. constructor; [lia|done]. }
  destruct (me_put (es i) =? 0); cbn [negb].
  2:{ exists [], (me_put (es i)), s1. rewrite app_nil_r. split; [by rewrite Z.add_0_r|]. split; [|done]. constructor; [lia|done]. }
  destruct (Z.eqb_spec (msg_left m) 0) as [Hl|Hl]; cbn [negb].
  2:{ exists [err], 0, s1. split; [done|]. split; [|done]. econstructor; [lia|exact Hout|done]. }
  rewrite Hl in Hout. destruct (IH (i + 1) used' (lens ++ [err]) s1) as (lens' & e2 & s2 & E2 & B & Hd2 & Ho2 & He2); [lia|done..|].
  exists (err :: lens'), e2, s2. replace (Z.succ i) with (i + 1) by lia.
  assert (∀ z, sendmmsg_loop true pid id es vlen (flags_of vlen flags i) flags (seqZ (i + 1) (Z.of_nat n)) used' (i + 1) z s1 =
    sendmmsg_loop true pid id es vlen (Z.lor flags MSG_BATCH) flags (seqZ (i + 1) (Z.of_nat n)) used' (i + 1) z s1) as Ef.
  { intros z. destruct n; [done|]. unfold flags_of. by rewrite (proj2 (Z.eqb_neq _ _)) by lia. }
  rewrite Ef, E2. split.
  - rewrite <-app_assoc. do 4 f_equal. cbn [length]. lia.
  - split; [by constructor; [lia|..]|]. split; [done|]. split; congruence.
Qed.

End messages.

Lemma during_held w fd f id fl s o shared : world_wf w → fd_sock w fd f id fl s → so_ops s = Some o →
  during (held shared f fl w) id f o (held shared f fl w).
Proof.
  intros [W1 W2] Hfs Ho. destruct (held_other shared f fl w) as (M & _). split; try done.
  - split; by rewrite M.
  - exists s. split; [by eapply held_sock|]. split; [done|apply Hfs].
Qed.

(** Dropping the descriptor's file after the messages. *)
Lemma during_put w fd f id fl s o shared pid w' : fd_sock w fd f id fl s → during (held shared f fl w) id f o w' →
  sock_put_light pid id shared w' = Some (tt, set_files (files w) w').
Proof. intros Hfs [_ [Hf _ _] (s' & Hs' & _ & Hsf) _ _]. by eapply put_light_ok. Qed.

Definition restored (w w' : world) : Prop :=
  files w' = files w ∧ fdt w' = fdt w ∧ modref w' = modref w ∧ ∀ t, thread_count w' t = thread_count w t.

Lemma during_restored w f fl id o shared w' : during (held shared f fl w) id f o w' → restored w (set_files (files w) w').
Proof.
  destruct (held_other shared f fl w) as (M & _ & T & R). intros [_ [_ F1 F2] _ _ C]. split; [done|]. cbn. split; [congruence|]. split; [congruence|].
  intros t. specialize (C t). unfold thread_count in *. cbn. by rewrite M in C.
Qed.

Definition non_blocking (fl : file) : bool := negb (Z.land (f_flags fl) O_NONBLOCK =? 0).

(** C18: sendmmsg on a socket sends the messages of the array one after the other,
    each but the last with MSG_BATCH, stores the length of each, and stops at the
    first that fails, that is not sent completely, or whose length cannot be stored;
    at most 1024 are taken.  It answers how many were sent, and an error only when
    none was.  Whatever happens, the file's reference and the memory of the control
    messages are given back, and no thread's socket count changes. *)
Theorem sendmmsg_batch w fd f id fl s o omem ek shared pid es vlen flags :
  world_wf w → fd_sock w fd f id fl s → so_ops s = Some o → (∀ i, proto_ok (es i) ∧ me_sec (es i) ≤ 0) →
  has_flag MSG_CMSG_COMPAT flags = false → 0 ≤ vlen →
  ∃ lens err w', __sys_sendmmsg shared true pid fd es vlen flags true (Mst w omem ek) =
      Some ((if bool_decide (lens = []) then err else Z.of_nat (length lens), lens), Mst w' omem ek) ∧
    batch (non_blocking fl) es (Z.min vlen UIO_MAXIOV) flags 0 lens err ∧ restored w w'.
Proof.
  intros Hw Hfs Ho He Hc Hv. unfold __sys_sendmmsg. rewrite Hc. cbn [andb]. cbv zeta.
  replace (if UIO_MAXIOV <? vlen then UIO_MAXIOV else vlen) with (Z.min vlen UIO_MAXIOV) by (destruct (Z.ltb_spec UIO_MAXIOV vlen); lia).
  rewrite (liftw_step _ _ (Mst w omem ek) _ _ (lookup_light_ok _ _ _ _ _ _ Hfs shared pid)). set (w0 := held shared f fl w).
  destruct (held_file _ _ _ _ _ _ Hfs shared) as (n & _ & Hfl). fold w0 in Hfl. set (vl := Z.min vlen UIO_MAXIOV).
  destruct (sendmmsg_loop_run w0 id f o _ pid Hfl es vl flags (Z.to_nat vl) 0 (Some (UsedAddress (replicate 128 0) UINT_MAX)) []
    (Mst w0 omem ek)) as (lens & err & s1 & E & B & Hd & E1 & E2); [unfold vl, UIO_MAXIOV; lia|by eapply during_held|done|done|done|].
  rewrite Z2Nat.id in E by (unfold vl, UIO_MAXIOV; lia). rewrite (st_bind_step _ _ _ _ _ E).
  cbn beta. rewrite (liftw_step _ _ _ _ _ (during_put _ _ _ _ _ _ _ _ pid _ Hfs Hd)). cbn [app]. exists lens, err, (set_files (files w) (ms_world s1)).
  rewrite E1, E2. split; [|split; [exact B|by eapply during_restored]]. unfold mret, st_ret. rewrite Z.add_0_l. do 3 f_equal.
  destruct lens as [|z lens]; [done|]. rewrite bool_decide_eq_false_2 by done. by rewrite (proj2 (Z.eqb_neq _ _)) by (cbn [length]; lia).
Qed.

(** ** What the fairness manager sees of a batch *)

Section counted.
Context (w0 : world) (id f : Z) (o : proto_ops) (fl : file) (pid : Z).
Hypothesis (Hfl : files w0 !! f = Some fl).
Let nb : bool := negb (Z.land (f_flags fl) O_NONBLOCK =? 0).

(** The message goes, completely, to the address of [n] bytes that [a] starts with. *)
Definition goes_to (e : msg_env) (flags : Z) (a : list Z) (n : Z) : Prop :=
  ∃ hdr pf b, prepared nb e flags MSG_EOR = inr (hdr, pf) ∧ msg_name hdr = Some b ∧ msg_namelen hdr = n ∧
    bytes_at b 0 n = bytes_at a 0 n ∧ 0 ≤ (me_send e pf hdr).1 ∧ msg_left (me_send e pf hdr).2 = 0 ∧ me_put e = 0.

(** After an address was remembered, messages to it leave the whole state alone. *)
Lemma sendmmsg_loop_same es vlen flags n i u a k lens s : i + Z.of_nat n = vlen → during w0 id f o (ms_world s) →
  (∀ i, proto_ok (es i)) → has_flag MSG_CMSG_COMPAT flags = false → length (ad_name u) = 128%nat → ad_len u = k →
  bytes_at (ad_name u) 0 k = bytes_at a 0 k → (∀ j, i ≤ j < vlen → goes_to (es j) (flags_of vlen flags j) a k) →
  ∃ lens', sendmmsg_loop true pid id es vlen (Z.lor flags MSG_BATCH) flags (seqZ i (Z.of_nat n)) (Some u) i lens s =
      Some ((vlen, 0, lens ++ lens'), s) ∧ Z.of_nat (length lens') = vlen - i.
Proof.
  intros Hn Hd Hp Hc Hl Hk Ha Hg. revert i lens Hn Hg. induction n as [|n IH]; intros i lens Hn Hg.
  { exists []. rewrite app_nil_r. assert (i = vlen) as -> by lia. cbn. split; [done|lia]. }
  rewrite seqZ_cons by lia. replace (Z.pred (Z.of_nat (S n))) with (Z.of_nat n) by lia. cbn [sendmmsg_loop].
  fold (flags_of vlen flags i). destruct (Hg i ltac:(lia)) as (hdr & pf & b & Hpr & Hb & Hbn & Hbb & Hs & Hleft & Hput).
  pose proof (flags_of_compat vlen flags i Hc) as Hci.
  destruct (send_prepared w0 id f o fl pid Hfl (es i) _ (Some u) MSG_EOR s hdr pf Hd (Hp i) Hl Hci Hpr)
    as (err & m & used' & s' & E & _ & _ & _ & _ & Hr).
  assert (same_address (Some u) hdr = Some true) as Hsame.
  { unfold same_address. rewrite Hb, Hk, Hbn, Z.eqb_refl. cbn [negb]. rewrite Ha, Hbb.
    pose proof (prepared_hdr _ _ _ _ _ _ Hci Hpr) as Hh. unfold hdr_ok in Hh. rewrite Hb in Hh. destruct Hh as [Lb Hh].
    destruct (proj2 (bytes_at_is_Some b 0 k)) as [x Ex]; [lia|]. rewrite Hbb in Ex. rewrite Ex. cbn [mbind option_bind].
    by rewrite bool_decide_eq_true_2. }
  rewrite bool_decide_eq_true_2 in Hr by done. destruct Hr as (Hem & -> & ->). rewrite (st_bind_step _ _ _ _ _ E). rewrite <-Hem in Hs, Hleft.
  cbn [fst snd] in Hs, Hleft. rewrite (proj2 (Z.ltb_ge _ _)), Hput by done. cbn [Z.eqb negb]. rewrite Hleft. cbn [Z.eqb negb].
  destruct (IH (i + 1) (lens ++ [err])) as (lens' & E2 & Hlen); [lia|intros j Hj; apply Hg; lia|].
  exists (err :: lens'). rewrite <-app_assoc in E2. replace (Z.succ i) with (i + 1) by lia.
  assert (∀ F, (n = 0%nat ∨ F = Z.lor flags MSG_BATCH) → sendmmsg_loop true pid id es vlen F flags (seqZ (i + 1) (Z.of_nat n)) (Some u) (i + 1) (lens ++ [err]) s =
    Some ((vlen, 0, lens ++ [err] ++ lens'), s)) as Hf.
  { intros F [->| ->]; [|done]. exact E2. }
  split; [|cbn [length]; lia]. apply Hf. unfold flags_of. destruct (Z.eqb_spec i (vlen - 1)); [left; lia|by right].
Qed.

End counted.

(** C17: All but the first message of a batch to one address escape the fairness
    code: __sock_sendmsg is where a thread is throttled and its traffic is counted,
    and sendmmsg calls sock_sendmsg_nosec for a message to the address of the one
    before.  A batch of up to 1024 messages leaves the manager and the clock exactly
    as its first message alone does. *)
Theorem sendmmsg_counted_once w fd f id fl s o omem ek shared pid es vlen flags a k :
  world_wf w → fd_sock w fd f id fl s → so_ops s = Some o → (∀ i, proto_ok (es i)) → me_sec (es 0) = 0 →
  has_flag MSG_CMSG_COMPAT flags = false → 1 ≤ vlen ≤ UIO_MAXIOV →
  (∀ j, 0 ≤ j < vlen → goes_to fl (es j) (flags_of vlen flags j) a k) →
  ∃ hdr pf w1 lens w', prepared (non_blocking fl) (es 0) (flags_of vlen flags 0) MSG_EOR = inr (hdr, pf) ∧
    __sock_sendmsg true 0 (me_send (es 0) pf) pid id hdr (held shared f fl w) = Some (me_send (es 0) pf hdr, w1) ∧
    __sys_sendmmsg shared true pid fd es vlen flags true (Mst w omem ek) = Some ((vlen, lens), Mst w' omem ek) ∧
    mgr w' = mgr w1 ∧ slept w' = slept w1.
Proof.
  intros Hw Hfs Ho Hp Hsec Hc Hv Hg. destruct (Hg 0 ltac:(lia)) as (hdr & pf & b & Hpr & Hb & Hbn & Hbb & Hs & Hleft & Hput).
  exists hdr, pf. unfold __sys_sendmmsg. rewrite Hc. cbn [andb]. cbv zeta. rewrite (proj2 (Z.ltb_ge UIO_MAXIOV vlen)) by lia.
  rewrite (liftw_step _ _ (Mst w omem ek) _ _ (lookup_light_ok _ _ _ _ _ _ Hfs shared pid)). set (w0 := held shared f fl w).
  destruct (held_file _ _ _ _ _ _ Hfs shared) as (n & _ & Hfl). fold w0 in Hfl. set (fl' := File _ _ n) in Hfl.
  set (u0 := UsedAddress (replicate 128 0) UINT_MAX). set (s0 := Mst w0 omem ek).
  assert (during w0 id f o (ms_world s0)) as Hd by by eapply during_held.
  pose proof (flags_of_compat vlen flags 0 Hc) as Hc0. pose proof (prepared_hdr _ _ _ _ _ _ Hc0 Hpr) as Hh.
  destruct (send_prepared w0 id f o fl' pid Hfl (es 0) _ (Some u0) MSG_EOR s0 hdr pf Hd (Hp 0) eq_refl Hc0 Hpr)
    as (err & m & used' & s1 & E & Hd1 & Ho1 & He1 & Hu1 & Hr).
  rewrite bool_decide_eq_false_2 in Hr.
  2:{ unfold same_address, u0. rewrite Hb. cbn [ad_len]. unfold hdr_ok in Hh. rewrite Hb in Hh. unfold UINT_MAX.
      by rewrite (proj2 (Z.eqb_neq _ _)) by lia. }
  rewrite Hsec in Hr. cbn [Z.eqb] in Hr. destruct Hr as (Hem & Es & Hrem). rewrite <-Hem in Hs, Hleft. cbn [fst snd] in Hs, Hleft.
  rewrite (proj2 (Z.leb_le _ _) Hs) in Hrem. destruct (Hp 0 pf hdr) as (_ & Hn1 & Hn2). rewrite <-Hem in Hn1, Hn2. cbn [fst snd] in Hn1, Hn2.
  unfold remember in Hrem. cbn [u0] in Hrem. rewrite Hn1, Hb, Hn2, Hbn in Hrem.
  destruct (bytes_at b 0 k) as [x|] eqn:Ex; [|done]. cbn [mbind option_bind ad_name] in Hrem.
  destruct (put_at (ad_name u0) 0 x) as [nm|] eqn:En; [|done]. injection Hrem as <-.
  pose proof (bytes_at_length _ _ _ _ Ex) as Lx. pose proof (bytes_at_put_eq _ _ _ _ En) as Enm. rewrite Lx in Enm.
  destruct (sendmmsg_loop_same w0 id f o fl' pid Hfl es vlen flags (Z.to_nat (vlen - 1)) 1 (UsedAddress nm k) a k [err] s1)
    as (lens' & E2 & Hlen); [lia|done|done|done|exact Hu1|done|cbn [ad_name]; congruence|intros j Hj; apply Hg; lia|].
  exists (ms_world s1), ([err] ++ lens'), (set_files (files w) (ms_world s1)). split; [exact Hpr|]. split; [rewrite <-Hem; exact Es|].
  assert (sendmmsg_loop true pid id es vlen (Z.lor flags MSG_BATCH) flags (seqZ 0 vlen) (Some u0) 0 [] s0 =
    Some ((vlen, 0, [err] ++ lens'), s1)) as E3.
  { assert (seqZ 0 vlen = 0 :: seqZ 1 (Z.of_nat (Z.to_nat (vlen - 1)))) as ->.
    { rewrite Z2Nat.id by lia. rewrite (seqZ_cons 0 vlen) by lia. by replace (Z.pred vlen) with (vlen - 1) by lia. }
    cbn [sendmmsg_loop]. fold (flags_of vlen flags 0). rewrite (st_bind_step _ _ _ _ _ E).
    rewrite (proj2 (Z.ltb_ge _ _) Hs), Hput. cbn [Z.eqb negb]. rewrite Hleft. cbn [Z.eqb negb app].
    change (0 + 1) with 1.
    revert E2. unfold flags_of. destruct (Z.eqb_spec 0 (vlen - 1)) as [Hz|Hz]; [|done]. by rewrite <-Hz. }
  change (Mst w0 _ _) with s0. rewrite (st_bind_step _ _ _ _ _ E3). cbn beta. rewrite (liftw_step _ _ _ _ _ (during_put _ _ _ _ _ _ _ _ pid _ Hfs Hd1)).
  rewrite (proj2 (Z.eqb_neq vlen 0)) by lia. cbn [negb]. split; [|done]. rewrite Ho1, He1. done.
Qed.

(** ** Receiving *)

(** Whether the fairness code lets the thread receive. *)
Definition admitted (w : world) (pid : Z) : bool :=
  (thread_count w pid <? max_sockets_per_thread (mgr w)) && (0 <? max_pending_per_thread (mgr w)).

(** The protocol answers with an address that fits. *)
Definition recv_ok (e : msg_env) : Prop := ∀ flags m, 
  0 ≤ msg_namelen (me_recv e flags m).2 ≤ 128 ∧ ∃ a, msg_name (me_recv e flags m).2 = Some a ∧ length a = 128%nat.

Lemma during_recv w0 id f o w jiffies sec recv pid msg : during w0 id f o w →
  ∃ w', sock_recvmsg true jiffies sec recv pid id msg w =
      Some (if negb (admitted w pid) then (- EAGAIN, msg) else if negb (sec =? 0) then (sec, msg) else recv msg, w') ∧
    during w0 id f o w'.
Proof.
  intros Hd. pose proof Hd as [[Wm We] H2 (s & Hs & Ho & Hf) H4 H5].
  destruct (check_view (mgr w) jiffies pid Wm We) as (m1 & E1 & W1 & C1 & V1). fold (thread_count w pid) in E1, V1. fold (admitted w pid) in E1.
  pose proof (thread_count_set m1 _ w pid eq_refl V1) as K1. unfold config in C1. injection C1 as _ _ _ C4 _.
  assert (during w0 id f o (set_mgr m1 w)) as Hd1.
  { split; [split; cbn; congruence|by destruct H2|by exists s|done|]. intros t. rewrite <-H5. apply K1. }
  unfold sock_recvmsg. erewrite (st_bind_step (fair _)); [|by apply fair_ok]. destruct (admitted w pid); cbn [negb]; [|by eexists].
  destruct (sec =? 0); cbn [negb]; [|by eexists].
  rewrite (st_bind_step (sock_recvmsg_nosec _ _ _) _ _ (recv msg) (set_mgr m1 w)).
  2: { unfold sock_recvmsg_nosec. erewrite (st_bind_step (load_sock _)); [|by apply load_sock_ok]. by rewrite Ho. }
  destruct (recv msg) as [ret m']. destruct (0 <? ret); [|by eexists].
  destruct (traffic_view m1 pid 0 ret W1) as (m2 & E2 & W2 & C2 & V2).
  erewrite (st_bind_step (fair _)); [|by apply fair_ok]. eexists. split; [reflexivity|].
  unfold config in C2. injection C2 as _ _ _ C4' _. split; [split; cbn; congruence|by destruct H2|by exists s|done|].
  intros t. rewrite <-(du_counts _ _ _ _ _ Hd1 t). by apply (thread_count_set m2 _ (set_mgr m1 w) pid eq_refl).
Qed.

Lemma during_recv_nosec w0 id f o w recv msg : during w0 id f o w → sock_recvmsg_nosec recv id msg w = Some (recv msg, w).
Proof.
  intros [_ _ (s & Hs & Ho & _) _ _]. unfold sock_recvmsg_nosec. rewrite (st_bind_step _ _ _ _ _ (load_sock_ok _ _ _ Hs)). by rewrite Ho.
Qed.

(** What copying the results to user memory makes of the protocol's answer. *)
Definition delivered (e : msg_env) (r : Z * msghdr) : Z :=
  if r.1 <? 0 then r.1
  else
    let put := if negb (me_put_flags e =? 0) then me_put_flags e else if negb (me_put_ctl e =? 0) then me_put_ctl e else r.1 in
    match msg_uaddr e with
    | None => put
    | Some u =>
        match move_addr_to_user (default [] (msg_name r.2)) (msg_namelen r.2) (me_audit e) u with
        | Some (err, _, _) => if err <? 0 then err else put
        | None => put
        end
    end.

(** The answer for one message; [asked]: the fairness code and the hook are asked. *)
Definition recv_answer (nonblock allowed asked : bool) (e : msg_env) (flags : Z) : Z :=
  match recvmsg_copy_msghdr e flags addr0 with
  | inl err => err
  | inr k =>
      let r := me_recv e (if nonblock then Z.lor flags MSG_DONTWAIT else flags) (Msg (Some addr0) 0 (msg_left (km_hdr k))) in
      if asked && negb allowed then - EAGAIN else if asked && negb (me_sec e =? 0) then me_sec e else delivered e r
  end.

Lemma addr_to_user_run a n audit u : length a = 128%nat → 0 ≤ n ≤ 128 → ∃ z, move_addr_to_user a n audit u = Some z.
Proof.
  intros La Hn. unfold move_addr_to_user. rewrite (proj2 (Z.ltb_ge _ _)) by (unfold SOCKADDR_STORAGE; lia).
  destruct (ua_len u) as [l|]; [|eauto]. set (l' := if n <? l then n else l). destruct (Z.ltb_spec l' 0); [eauto|].
  assert (l' ≤ n) by (unfold l'; destruct (Z.ltb_spec n l); lia).
  destruct (negb (l' =? 0) && negb (audit =? 0)); [eauto|]. destruct (negb (l' =? 0) && negb (ua_buf_ok u)); [eauto|].
  destruct (proj2 (bytes_at_is_Some a 0 l')) as [b ->]; [lia|]. destruct (ua_len_ok u); eauto.
Qed.

Section receiving.
Context (w0 : world) (id f : Z) (o : proto_ops) (fl : file) (pid jiffies : Z).
Hypothesis (Hfl : files w0 !! f = Some fl).

Definition out_flags (e : msg_env) (flags : Z) : Z :=
  Z.lor (Z.land flags (Z.lor MSG_CMSG_CLOEXEC MSG_CMSG_COMPAT)) (me_recv_flags e).

Lemma recv_copy_negative e flags err : has_flag MSG_CMSG_COMPAT flags = false → recvmsg_copy_msghdr e flags addr0 = inl err → err < 0.
Proof.
  unfold recvmsg_copy_msghdr. intros ->. unfold copy_msghdr_from_user, __copy_msghdr_from_user.
  destruct (me_user e) as [u|]; [|by intros [= <-]]. set (n0 := match um_name u with None => 0 | _ => _ end).
  destruct (n0 <? 0); [by intros [= <-]|]. set (n1 := if SOCKADDR_STORAGE <? n0 then _ else n0).
  destruct (um_name u) as [a|]; [destruct (n1 =? 0)|]; (destruct (UIO_MAXIOV <? um_iovlen u); [by intros [= <-]|]);
    (destruct (Z.ltb_spec (me_import e) 0); [by intros [= <-]|done]).
Qed.

Lemma recv_turn e flags nosec s : during w0 id f o (ms_world s) → recv_ok e → me_sec e ≤ 0 → has_flag MSG_CMSG_COMPAT flags = false →
  ∃ err mf res s', ___sys_recvmsg true jiffies pid id e flags nosec s = Some ((err, mf, res), s') ∧
    err = recv_answer (non_blocking fl) (admitted (ms_world s) pid) (negb nosec) e flags ∧ (0 ≤ err → mf = out_flags e flags) ∧
    during w0 id f o (ms_world s') ∧ ms_omem s' = ms_omem s ∧ ms_err s' = ms_err s ∧ (nosec = true → s' = s) ∧
    (nosec = false → 0 ≤ err → ∃ pf hdr r, sock_recvmsg true jiffies (me_sec e) (me_recv e pf) pid id hdr (ms_world s) = Some (r, ms_world s')).
Proof.
  intros Hd Hp Hsec Hc. unfold ___sys_recvmsg, recv_answer. destruct (recvmsg_copy_msghdr e flags addr0) as [err|k] eqn:Ek.
  { pose proof (recv_copy_negative _ _ _ Hc Ek). exists err, 0, no_result, s. split_and!; try done; intros; lia. }
  unfold ____sys_recvmsg. cbv zeta. rewrite (liftw_step _ _ _ _ _ (during_file _ _ _ _ _ _ Hd Hfl flags)).
  fold (non_blocking fl). set (pf := if non_blocking fl then _ else flags). set (hdr := Msg (Some addr0) 0 (msg_left (km_hdr k))).
  set (s1 := Mst _ _ _). assert (s1 = s) as Es1 by (by destruct s).
  set (r := if negb nosec && negb (admitted (ms_world s) pid) then (- EAGAIN, hdr) else if negb nosec && negb (me_sec e =? 0) then (me_sec e, hdr) else me_recv e pf hdr).
  assert (∃ w', (if nosec then sock_recvmsg_nosec (me_recv e pf) id hdr else sock_recvmsg true jiffies (me_sec e) (me_recv e pf) pid id hdr) (ms_world s1) =
    Some (r, w') ∧ during w0 id f o w' ∧ (nosec = true → w' = ms_world s)) as (w' & E & Hd' & Hsame).
  { rewrite Es1. unfold r. destruct nosec; cbn [negb andb].
    - exists (ms_world s). by rewrite (during_recv_nosec _ _ _ _ _ (me_recv e pf) hdr Hd).
    - destruct (during_recv _ _ _ _ _ jiffies (me_sec e) (me_recv e pf) pid hdr Hd) as (w' & E & Hd'). by exists w'. }
  rewrite (liftw_step _ _ _ _ _ E). set (s2 := Mst w' (ms_omem s1) (ms_err s1)).
  assert (ms_omem s2 = ms_omem s ∧ ms_err s2 = ms_err s ∧ (nosec = true → s2 = s) ∧
    (nosec = false → ∃ pf hdr r, sock_recvmsg true jiffies (me_sec e) (me_recv e pf) pid id hdr (ms_world s) = Some (r, ms_world s2))) as (Ho2 & He2 & Hs2 & Hf2).
  { unfold s2. rewrite Es1. split; [done|]. split; [done|]. split; [intros Hn; rewrite (Hsame Hn); by destruct s|].
    intros ->. exists pf, hdr, r. rewrite Es1 in E. exact E. }
  assert ((if negb nosec && negb (admitted (ms_world s) pid) then - EAGAIN else if negb nosec && negb (me_sec e =? 0) then me_sec e
    else delivered e (me_recv e pf hdr)) = delivered e r) as ->.
  { unfold r. destruct (negb nosec && negb (admitted (ms_world s) pid)); [done|]. destruct nosec; cbn [negb andb]; [done|].
    destruct (Z.eqb_spec (me_sec e) 0); cbn [negb]; [done|]. unfold delivered. cbn [fst]. by rewrite (proj2 (Z.ltb_lt _ _)) by lia. }
  assert (0 ≤ r.1 → 0 ≤ msg_namelen r.2 ≤ 128 ∧ ∃ a, msg_name r.2 = Some a ∧ length a = 128%nat) as Hr.
  { unfold r. destruct (negb nosec && negb (admitted (ms_world s) pid)); [by cbn|].
    destruct (negb nosec && negb (me_sec e =? 0)) eqn:G; [|intros _; apply Hp]. cbn. apply andb_prop in G as [_ G%negb_true_iff%Z.eqb_neq]. lia. }
  clearbody r. destruct r as [ret m]. cbn [fst snd] in Hr. unfold delivered. cbn [fst snd].
  destruct (Z.ltb_spec ret 0) as [Hneg|Hpos].
  { eexists ret, _, _, s2. split; [reflexivity|]. split_and!; try done. intros; lia. }
  destruct (Hr Hpos) as (Hn & a & Ha & La). rewrite Ha. change (default [] (Some a)) with a.
  assert (∀ addr addrlen, ∃ err mf res, ((if negb (me_put_flags e =? 0) then mret (me_put_flags e, out_flags e flags, UserResult addr addrlen None None)
      else let user_flags := Z.land (out_flags e flags) (u32 (Z.lnot MSG_CMSG_COMPAT)) in
        if negb (me_put_ctl e =? 0) then mret (me_put_ctl e, out_flags e flags, UserResult addr addrlen (Some user_flags) None)
        else mret (ret, out_flags e flags, UserResult addr addrlen (Some user_flags) (Some (me_recv_ctl e)))) : st mst (Z * Z * user_result)) s2 = Some ((err, mf, res), s2) ∧
      err = (if negb (me_put_flags e =? 0) then me_put_flags e else if negb (me_put_ctl e =? 0) then me_put_ctl e else ret) ∧ mf = out_flags e flags) as Hput.
  { intros addr addrlen. cbv zeta. destruct (negb (me_put_flags e =? 0)); [eexists _, _, _; split; [reflexivity|done]|].
    destruct (negb (me_put_ctl e =? 0)); eexists _, _, _; (split; [reflexivity|done]). }
  destruct (msg_uaddr e) as [u|].
  - destruct (addr_to_user_run a (msg_namelen m) (me_audit e) u La Hn) as [[[err b] l] Eu]. rewrite Eu. rewrite (lift_step _ _ _ _ eq_refl).
    destruct (Z.ltb_spec err 0) as [He|He]; [eexists err, _, _, s2; split; [reflexivity|split_and!; try done; intros; lia]|].
    destruct (Hput b l) as (z & mf & res & E2 & Hz & Hmf). exists z, mf, res, s2. split; [exact E2|]. split_and!; eauto.
  - rewrite (st_bind_step _ _ s2 (0, [], None) s2) by done. cbn [Z.ltb Z.compare]. destruct (Hput [] None) as (z & mf & res & E2 & Hz & Hmf).
    exists z, mf, res, s2. split; [exact E2|]. split_and!; eauto.
Qed.

(** ** Batches *)

Definition one_flags (flags : Z) : Z := Z.land flags (u32 (Z.lnot MSG_WAITFORONE)).
Definition next_flags (flags : Z) : Z := if has_flag flags MSG_WAITFORONE then Z.lor flags MSG_DONTWAIT else flags.

(** The message was the last one that is taken: the time is over, or it is urgent. *)
Definition ends (end_time : option Z) (e : msg_env) (flags : Z) : bool :=
  match end_time with Some t => t - me_now e <=? 0 | None => false end || has_flag (out_flags e (one_flags flags)) MSG_OOB.

Lemma one_flags_compat flags : has_flag MSG_CMSG_COMPAT flags = false → has_flag MSG_CMSG_COMPAT (one_flags flags) = false.
Proof. unfold has_flag, one_flags. rewrite !negb_false_iff, !Z.eqb_eq, Z.land_assoc. by intros ->. Qed.

Lemma next_flags_compat flags : has_flag MSG_CMSG_COMPAT flags = false → has_flag MSG_CMSG_COMPAT (next_flags flags) = false.
Proof. intros H. unfold next_flags. destruct (has_flag flags MSG_WAITFORONE); [|done]. by apply no_compat_lor. Qed.

End receiving.

(** What the messages from [i] on may do; only the first one is asked for. *)
Inductive rbatch (nb allowed : bool) (es : Z → msg_env) (vlen : Z) (end_time : option Z) : Z → Z → list Z → Z → Prop :=
| rb_end flags : rbatch nb allowed es vlen end_time vlen flags [] 0
| rb_error i flags err : i < vlen → recv_answer nb allowed (i =? 0) (es i) (one_flags flags) = err → err < 0 →
    rbatch nb allowed es vlen end_time i flags [] err
| rb_put i flags err : i < vlen → 0 ≤ recv_answer nb allowed (i =? 0) (es i) (one_flags flags) → me_put (es i) = err → err ≠ 0 →
    rbatch nb allowed es vlen end_time i flags [] err
| rb_last i flags len : i < vlen → recv_answer nb allowed (i =? 0) (es i) (one_flags flags) = len → 0 ≤ len → me_put (es i) = 0 →
    ends end_time (es i) flags = true → rbatch nb allowed es vlen end_time i flags [len] 0
| rb_next i flags len lens err : i < vlen → recv_answer nb allowed (i =? 0) (es i) (one_flags flags) = len → 0 ≤ len → me_put (es i) = 0 →
    ends end_time (es i) flags = false → rbatch nb allowed es vlen end_time (i + 1) (next_flags flags) lens err →
    rbatch nb allowed es vlen end_time i flags (len :: lens) err.

Section batches.
Context (w0 : world) (id f : Z) (o : proto_ops) (fl : file) (pid jiffies : Z).
Hypothesis (Hfl : files w0 !! f = Some fl).
Context (es : Z → msg_env) (vlen : Z) (end_time : option Z).
Hypothesis (Hes : ∀ i, recv_ok (es i) ∧ me_sec (es i) ≤ 0).

(** What the loop answers from message [i] on. *)
Definition recv_done (allowed : bool) (i flags : Z) (out : list (Z * user_result)) (s : mst)
    (res : option ((Z * Z * option Z * list (Z * user_result)) * mst)) : Prop :=
  ∃ lens err rest out' s', res = Some ((i + Z.of_nat (length lens), err, rest, out ++ out'), s') ∧ out'.*1 = lens ∧
    rbatch (non_blocking fl) allowed es vlen end_time i flags lens err ∧
    during w0 id f o (ms_world s') ∧ ms_omem s' = ms_omem s ∧ ms_err s' = ms_err s ∧ (0 < i → s' = s) ∧
    (i = 0 → lens ≠ [] → ∃ pf hdr r, sock_recvmsg true jiffies (me_sec (es i)) (me_recv (es i) pf) pid id hdr (ms_world s) = Some (r, ms_world s')).

Lemma recvmmsg_loop_run allowed n i flags rest out s : i + Z.of_nat n = vlen → 0 ≤ i → during w0 id f o (ms_world s) →
  has_flag MSG_CMSG_COMPAT flags = false → (i = 0 → allowed = admitted (ms_world s) pid) →
  recv_done allowed i flags out s (recvmmsg_loop true jiffies pid id es end_time flags (seqZ i (Z.of_nat n)) rest i out s).
Proof.
  revert i flags rest out s. induction n as [|n IH]; intros i flags rest out s Hn Hi Hd Hc Ha.
  { exists [], 0, rest, [], s. rewrite app_nil_r, Z.add_0_r. assert (i = vlen) as -> by lia. split_and!; try done. constructor. }
  rewrite seqZ_cons by lia. replace (Z.pred (Z.of_nat (S n))) with (Z.of_nat n) by lia. cbn [recvmmsg_loop]. fold (one_flags flags).
  destruct (Hes i) as [Hp Hsec].
  destruct (recv_turn w0 id f o fl pid jiffies Hfl (es i) (one_flags flags) (negb (i =? 0)) s Hd Hp Hsec (one_flags_compat _ Hc))
    as (err & mf & res & s1 & E & Herr & Hmf & Hd1 & Ho1 & He1 & Hs1 & Hf1).
  rewrite negb_involutive in Herr.
  assert (recv_answer (non_blocking fl) allowed (i =? 0) (es i) (one_flags flags) = err) as Han.
  { rewrite Herr. destruct (Z.eqb_spec i 0) as [Hz|]; [by rewrite (Ha Hz)|done]. }
  assert (0 < i → s1 = s) as Hs1' by (intros Hpos; apply Hs1; by rewrite (proj2 (Z.eqb_neq _ _)) by lia).
  assert (0 ≤ err → i = 0 → ∃ pf hdr r, sock_recvmsg true jiffies (me_sec (es i)) (me_recv (es i) pf) pid id hdr (ms_world s) = Some (r, ms_world s1)) as Hf1'.
  { intros He Hz. by apply Hf1; [rewrite Hz|]. }
  rewrite (st_bind_step _ _ _ _ _ E). destruct (Z.ltb_spec err 0) as [Hneg|Hpos].
  { exists [], err, rest, [], s1. rewrite app_nil_r, Z.add_0_r. split_and!; try done. by constructor; [lia|..]. }
  destruct (Z.eqb_spec (me_put (es i)) 0) as [Hput|Hput]; cbn [negb].
  2:{ exists [], (me_put (es i)), rest, [], s1. rewrite app_nil_r, Z.add_0_r. split_and!; try done. by apply rb_put; [lia|rewrite Han|..]. }
  specialize (Hmf Hpos). specialize (Hf1' Hpos). cbv zeta. fold (next_flags flags).
  assert (∀ rest0, ends end_time (es i) flags = true →
    recv_done allowed i flags out s (Some ((i + 1, 0, rest0, out ++ [(err, res)]), s1))) as Hlast.
  { intros rest0 Hend. exists [err], 0, rest0, [(err, res)], s1. split_and!; try done; [by apply rb_last; [lia|..]|intros; by apply Hf1']. }
  assert (∀ rest0, ends end_time (es i) flags = false → recv_done allowed i flags out s
    (recvmmsg_loop true jiffies pid id es end_time (next_flags flags) (seqZ (Z.succ i) (Z.of_nat n)) rest0 (i + 1) (out ++ [(err, res)]) s1)) as Hnext.
  { intros rest0 Hend. replace (Z.succ i) with (i + 1) by lia.
    destruct (IH (i + 1) (next_flags flags) rest0 (out ++ [(err, res)]) s1) as (lens & e2 & rest' & out' & s2 & E2 & Hout & B & Hd2 & Ho2 & He2 & Hs2 & _);
      [lia|lia|done|by apply next_flags_compat|lia|].
    assert (s2 = s1) as -> by (apply Hs2; lia). exists (err :: lens), e2, rest', ((err, res) :: out'), s1.
    assert (i + Z.of_nat (length (err :: lens)) = i + 1 + Z.of_nat (length lens)) as -> by (cbn [length]; lia).
    split; [by rewrite E2, <-app_assoc|]. split; [cbn; by rewrite Hout|]. split; [by apply rb_next; [lia|..]|].
    split_and!; try done. intros; by apply Hf1'. }
  unfold ends in Hlast, Hnext. rewrite <-Hmf in Hlast, Hnext. destruct end_time as [t|].
  - destruct (Z.ltb_spec (t - me_now (es i)) 0) as [Ht|Ht]; [apply Hlast; by rewrite (proj2 (Z.leb_le _ _)) by lia|].
    destruct (Z.eqb_spec (t - me_now (es i)) 0) as [Ht0|Ht0]; [apply Hlast; by rewrite (proj2 (Z.leb_le _ _)) by lia|].
    rewrite (proj2 (Z.leb_gt _ _)) in Hlast, Hnext by lia. cbn [orb] in Hlast, Hnext. destruct (has_flag mf MSG_OOB); [by apply Hlast|by apply Hnext].
  - cbn [orb] in Hlast, Hnext. destruct (has_flag mf MSG_OOB); [by apply Hlast|by apply Hnext].
Qed.

End batches.

(** The error that the next call will report. *)
Definition deferred (lens : list Z) (err : Z) : Z :=
  if bool_decide (lens = []) || (err =? 0) || (err =? - EAGAIN) then 0 else - err.

Lemma during_fd w fd f id fl s o shared w' : fd_sock w fd f id fl s → during (held shared f fl w) id f o w' →
  ∃ s', fd_sock (set_files (files w) w') fd f id fl s'.
Proof.
  intros [F1 F2 F3 F4 F5 F6] [_ [_ T _] (s' & Hs' & _ & Hsf) _ _]. destruct (held_other shared f fl w) as (_ & _ & Td & _).
  exists s'. split; try done. cbn. by rewrite T, Td.
Qed.

(** A pending error is reported, once, and no message is received. *)
Lemma recvmmsg_pending w fd f id fl s omem ek shared mem jiffies pid es vlen flags : fd_sock w fd f id fl s → ek ≠ 0 →
  has_flag flags MSG_ERRQUEUE = false →
  do_recvmmsg shared mem jiffies pid fd es vlen flags None (Mst w omem ek) = Some ((- ek, None, []), Mst w omem 0).
Proof.
  intros Hfs Hek Hq. unfold do_recvmmsg. cbn [fmap option_fmap option_map]. cbv zeta.
  rewrite (liftw_step _ _ (Mst w omem ek) _ _ (lookup_light_ok _ _ _ _ _ _ Hfs shared pid)). rewrite Hq. cbn [negb].
  set (s0 := Mst _ _ _). assert (sock_error s0 = Some (- ek, Mst (held shared f fl w) omem 0)) as E.
  { unfold sock_error. rewrite (st_bind_step get _ s0 s0 s0) by done. cbn [ms_err s0]. by rewrite (proj2 (Z.eqb_neq _ _) Hek). }
  rewrite (st_bind_step _ _ _ _ _ E). rewrite (proj2 (Z.eqb_neq _ _)) by lia. cbn [negb].
  rewrite (liftw_step _ _ (Mst (held shared f fl w) omem 0) _ _ (put_light_held _ _ _ _ _ _ Hfs shared pid)). done.
Qed.

(** C19: recvmmsg on a socket receives messages until the array is full, the time is
    over, a message is urgent, or one fails; after the first with MSG_WAITFORONE it
    does not wait.  It answers how many came, and an error only when none did; an
    error after some messages, but for EAGAIN, is what the next call reports, once.
    The file's reference is given back.  Only the first message asks the fairness
    code and is counted: the manager and the clock are afterwards as it left them. *)
Theorem recvmmsg_batch w fd f id fl s o omem shared jiffies pid es vlen flags timeout :
  world_wf w → fd_sock w fd f id fl s → so_ops s = Some o → (∀ i, recv_ok (es i) ∧ me_sec (es i) ≤ 0) →
  has_flag MSG_CMSG_COMPAT flags = false → has_flag flags MSG_ERRQUEUE = false → 0 ≤ vlen →
  (∀ t, timeout = Some t → t.2 = 0) →
  ∃ lens err rest out w1, do_recvmmsg shared true jiffies pid fd es vlen flags timeout (Mst w omem 0) =
      Some ((if bool_decide (lens = []) then err else Z.of_nat (length lens), rest, out), Mst w1 omem (deferred lens err)) ∧
    out.*1 = lens ∧
    rbatch (non_blocking fl) (admitted (held shared f fl w) pid) es vlen ((λ t, t.1.2) <$> timeout) 0 flags lens err ∧
    restored w w1 ∧
    (lens ≠ [] → ∃ pf hdr r w', sock_recvmsg true jiffies (me_sec (es 0)) (me_recv (es 0) pf) pid id hdr (held shared f fl w) = Some (r, w') ∧
       mgr w1 = mgr w' ∧ slept w1 = slept w') ∧
    (deferred lens err ≠ 0 → ∀ es' vlen', do_recvmmsg shared true jiffies pid fd es' vlen' flags None (Mst w1 omem (deferred lens err)) =
       Some ((err, None, []), Mst w1 omem 0)).
Proof.
  intros Hw Hfs Ho He Hc Hq Hv Ht. unfold do_recvmmsg at 1.
  assert (match timeout with Some (_, _, bad) => negb (bad =? 0) | None => false end = false) as ->.
  { destruct timeout as [[[a b] c]|]; [|done]. specialize (Ht _ eq_refl). cbn in Ht. by subst. }
  cbv zeta. rewrite (liftw_step _ _ (Mst w omem 0) _ _ (lookup_light_ok _ _ _ _ _ _ Hfs shared pid)). rewrite Hq. cbn [negb].
  set (w0 := held shared f fl w). set (s0 := Mst w0 _ _). rewrite (st_bind_step sock_error _ s0 0 s0) by done. cbn [Z.eqb negb].
  destruct (held_file _ _ _ _ _ _ Hfs shared) as (n & _ & Hfl). fold w0 in Hfl. set (end_time := (λ t, t.1.2) <$> timeout).
  destruct (recvmmsg_loop_run w0 id f o _ pid jiffies Hfl es vlen end_time He (admitted w0 pid) (Z.to_nat vlen) 0 flags
    ((λ t : Z * Z * Z, t.1.1) <$> timeout) [] s0) as (lens & err & rest & out & s1 & E & Hout & B & Hd & E1 & E2 & _ & Hfirst);
    [lia|done|by eapply during_held|done|done|].
  rewrite Z2Nat.id in E by done. rewrite (st_bind_step _ _ _ _ _ E). cbn [app]. rewrite Z.add_0_l, andb_false_r.
  exists lens, err, rest, out, (set_files (files w) (ms_world s1)). set (ek := deferred lens err). set (s2 := Mst (ms_world s1) omem ek).
  assert ((if negb (err =? 0) && negb (Z.of_nat (length lens) =? 0) && negb (err =? - EAGAIN) then set_err (- err) else mret tt) s1 = Some (tt, s2)) as E3.
  { unfold s2, ek, deferred. cbn in E1, E2. destruct s1 as [w1 om er]. cbn [ms_world ms_omem ms_err] in *. subst om er.
    destruct (Z.eqb_spec err 0), (Z.eqb_spec err (- EAGAIN)), lens; done. }
  rewrite (st_bind_step _ _ _ _ _ E3). rewrite (liftw_step _ _ s2 _ _ (during_put _ _ _ _ _ _ _ _ pid _ Hfs Hd)).
  destruct (during_fd _ _ _ _ _ _ _ _ _ Hfs Hd) as [s' Hfs']. split_and!; try done.
  - unfold mret, st_ret. do 3 f_equal. destruct lens as [|z lens]; [|done]. cbn [length]. destruct (Z.eqb_spec err 0) as [->|]; done.
  - by eapply during_restored.
  - intros Hne. destruct (Hfirst eq_refl Hne) as (pf & hdr & r & Er). exists pf, hdr, r, (ms_world s1). done.
  - intros Hek es' vlen'. rewrite (recvmmsg_pending _ _ _ _ _ _ omem ek shared true jiffies pid es' vlen' flags Hfs' Hek Hq).
    unfold ek, deferred in *. destruct (_ || _); [done|]. do 4 f_equal. lia.
Qed.

(** A call with an empty array for the error queue of a valid socket. *)
Lemma recvmmsg_empty_errqueue w fd f id fl s omem ek shared mem jiffies pid es flags : fd_sock w fd f id fl s →
  has_flag flags MSG_ERRQUEUE = true →
  do_recvmmsg shared mem jiffies pid fd es 0 flags None (Mst w omem ek) = Some ((- EBADF, None, []), Mst w omem ek).
Proof.
  intros Hfs Hq. unfold do_recvmmsg. cbn [fmap option_fmap option_map]. cbv zeta.
  rewrite (liftw_step _ _ (Mst w omem ek) _ _ (lookup_light_ok _ _ _ _ _ _ Hfs shared pid)). rewrite Hq. cbn [negb].
  set (s0 := Mst _ _ _). rewrite (st_bind_step (mret 0) _ s0 0 s0) by done. cbn [Z.eqb negb].
  rewrite (st_bind_step _ _ s0 (0, 0, None, []) s0) by done. cbn [Z.eqb negb andb].
  rewrite (st_bind_step _ _ s0 tt s0) by done. cbn [ms_world s0].
  by rewrite (liftw_step _ _ (Mst (held shared f fl w) omem ek) _ _ (put_light_held _ _ _ _ _ _ Hfs shared pid)).
Qed.

(** socketcall never uses a word that it did not copy, for no call and no memory. *)
Lemma socketcall_initialised copy audit call :
  (∀ n a, copy n = Some a → Z.of_nat (length a) = n) → is_Some (socketcall copy audit call).
Proof.
  intros Hcopy. unfold socketcall, SYS_SENDMMSG. destruct (Z.ltb_spec call 1), (Z.ltb_spec 20 call); cbn [orb]; [by eexists..|].
  assert (∃ n, zlookup nargs call = Some n ∧ 2 ≤ n ≤ 6) as (n & En & Hn).
  { assert (∀ c, (c < 21)%nat → ∃ n, nargs !! c = Some n ∧ (c ≠ O → 2 ≤ n ≤ 6)) as Hall.
    { intros c Hc. do 21 (destruct c as [|c]; [eexists; split; [reflexivity|lia]|]). lia. }
    destruct (Hall (Z.to_nat call)) as (n & E & Hn); [lia|]. exists n. unfold zlookup. rewrite (proj2 (Z.ltb_ge _ _)) by lia.
    split; [done|]. apply Hn. lia. }
  rewrite En. cbn [mbind option_bind]. rewrite (proj2 (Z.ltb_ge _ _)) by (unfold AUDITSC_ARGS; lia).
  destruct (copy n) as [a|] eqn:Ea; [|by eexists]. pose proof (Hcopy _ _ Ea) as La. cbv zeta.
  destruct (negb _); [by eexists|].
  assert (∀ k, (k < Z.to_nat n)%nat → is_Some (a !! k)) as Hk by (intros k Hk; apply lookup_lt_is_Some; lia).
  change (zlookup a 0) with (a !! 0%nat). change (zlookup a 1) with (a !! 1%nat). destruct (Hk 0%nat) as [a0 ->]; [lia|].
  destruct (Hk 1%nat) as [a1 ->]; [lia|]. cbn [mbind option_bind].
  assert (call = 1 ∨ call = 2 ∨ call = 3 ∨ call = 4 ∨ call = 5 ∨ call = 6 ∨ call = 7 ∨ call = 8 ∨ call = 9 ∨ call = 10 ∨ call = 11 ∨
    call = 12 ∨ call = 13 ∨ call = 14 ∨ call = 15 ∨ call = 16 ∨ call = 17 ∨ call = 18 ∨ call = 19 ∨ call = 20) as Hcase by lia.
  repeat (destruct Hcase as [-> | Hcase]); try subst call; cbn in En; injection En as <-; unfold zlookup; cbn [Z.ltb Z.compare];
    change (Z.to_nat 2) with 2%nat; change (Z.to_nat 3) with 3%nat; change (Z.to_nat 4) with 4%nat; change (Z.to_nat 5) with 5%nat;
    repeat match goal with
    | |- context [a !! ?k] => let y := fresh in let E := fresh in destruct (Hk k) as [y E]; [lia|]; rewrite E; cbn [mbind option_bind fmap option_fmap option_map]
    end; by eexists.
Qed.

(** ** An example *)

(** A datagram of 5 bytes to the address 2, 0, 31, 144. *)
Definition demo_msg : msg_env :=
  MsgEnv (Some (UserMsghdr (Some (Some [2; 0; 31; 144])) 4 1 0 0)) 0 5 (inl (- EINVAL)) (inl (- EINVAL)) true true 0
    (λ _ m, (Z.max 0 (msg_left m), Msg (msg_name m) (msg_namelen m) 0)) (λ _ m, (5, Msg (Some addr0) 16 (msg_left m - 5))) 0 0
    (UserAddr (Some 16) true true) 0 0 0 0.

(** The third one fails with EIO. *)
Definition demo_batch (i : Z) : msg_env :=
  if i =? 2 then
    MsgEnv (Some (UserMsghdr (Some (Some [2; 0; 31; 144])) 4 1 0 0)) 0 5 (inl (- EINVAL)) (inl (- EINVAL)) true true 0
      (λ _ m, (-5, m)) (λ _ m, (-5, Msg (Some addr0) 16 (msg_left m))) 0 0 (UserAddr (Some 16) true true) 0 0 0 0
  else demo_msg.

Lemma demo_batch_ok i : proto_ok (demo_batch i) ∧ recv_ok (demo_batch i) ∧ me_sec (demo_batch i) ≤ 0.
Proof. unfold demo_batch. destruct (i =? 2); (split; [intros fl m; cbn; (split; [unfold EIOCBQUEUED; lia|done])|]); (split; [|done]); intros fl m; cbn; (split; [done|by eexists]). Qed.

Lemma sendmmsg_batch_witness : ∃ lens err w',
  __sys_sendmmsg true true 40 3 demo_batch 4 0 true (Mst world1 0 0) =
    Some ((if bool_decide (lens = []) then err else Z.of_nat (length lens), lens), Mst w' 0 0) ∧ restored world1 w' ∧ lens = [5; 5].
Proof.
  destruct (sendmmsg_batch world1 3 9 1 (File (Some 1) 2 1) (Socket 1 (Some (Ops None)) (Some 6) (Some 9)) (Ops None) 0 0 true 40 demo_batch 4 0
    world1_wf world1_fd eq_refl (λ i, conj (proj1 (demo_batch_ok i)) (proj2 (proj2 (demo_batch_ok i)))) eq_refl ltac:(done))
    as (lens & err & w' & E & _ & R).
  exists lens, err, w'. split; [exact E|]. split; [exact R|]. revert E. vm_compute. by intros [= _ <- _].
Defined.

Lemma sendmmsg_counted_once_witness : ∃ hdr w1 lens w',
  __sock_sendmsg true 0 (me_send demo_msg MSG_BATCH) 40 1 hdr (held true 9 (File (Some 1) 2 1) world1) = Some (me_send demo_msg MSG_BATCH hdr, w1) ∧
  __sys_sendmmsg true true 40 3 (λ _, demo_msg) 3 0 true (Mst world1 0 0) = Some ((3, lens), Mst w' 0 0) ∧
  total_bytes_sent <$> threads (mgr w') = [5].
Proof.
  destruct (sendmmsg_counted_once world1 3 9 1 (File (Some 1) 2 1) (Socket 1 (Some (Ops None)) (Some 6) (Some 9)) (Ops None) 0 0 true 40
    (λ _, demo_msg) 3 0 [2; 0; 31; 144] 4 world1_wf world1_fd eq_refl) as (hdr & pf & w1 & lens & w' & Hp & E1 & E2 & M & _).
  - intros i fl m. cbn. split; [unfold EIOCBQUEUED; lia|done].
  - done.
  - done.
  - done.
  - intros j Hj. unfold flags_of. destruct (j =? 3 - 1); (eexists _, _, _; split; [vm_compute; reflexivity|by vm_compute]).
  - assert (pf = MSG_BATCH) as -> by (revert Hp; vm_compute; by intros [= _ <-]).
    exists hdr, w1, lens, w'. split; [exact E1|]. split; [exact E2|]. revert E2. vm_compute. by intros [= _ <-].
Defined.

Lemma recvmmsg_batch_witness : ∃ lens err rest out w1,
  do_recvmmsg true true 0 40 3 demo_batch 4 0 None (Mst world1 0 0) = Some ((2, rest, out), Mst w1 0 (deferred lens err)) ∧
  deferred lens err = 5 ∧ do_recvmmsg true true 0 40 3 demo_batch 4 0 None (Mst w1 0 5) = Some ((-5, None, []), Mst w1 0 0).
Proof.
  destruct (recvmmsg_batch world1 3 9 1 (File (Some 1) 2 1) (Socket 1 (Some (Ops None)) (Some 6) (Some 9)) (Ops None) 0 true 0 40 demo_batch 4 0 None
    world1_wf world1_fd eq_refl (λ i, proj2 (demo_batch_ok i)) eq_refl eq_refl ltac:(done) ltac:(done))
    as (lens & err & rest & out & w1 & E & Hout & _ & _ & _ & Hdef).
  assert (lens = [5; 5] ∧ err = -5) as [-> ->].
  { assert (∃ rest' out' w2, do_recvmmsg true true 0 40 3 demo_batch 4 0 None (Mst world1 0 0) = Some ((2, rest', out'), Mst w2 0 5) ∧ out'.*1 = [5; 5])
      as (rest' & out' & w2 & E' & Ho) by (vm_compute; by eexists _, _, _).
    rewrite E' in E. injection E as H1 H2 H3 H4 H5. subst.
    assert (err = -5) as -> by (revert H5; unfold deferred; destruct (_ || _); [done|lia]).
split; congruence. }
  exists [5; 5], (-5), rest, out, w1. split; [exact E|]. split; [done|]. by apply Hdef.
Defined.

End SocketMsg.
