(* ===== verification/Xattr.v ===== *)
(** * Extended attributes of the VFS

    fs/xattr.c and include/linux/xattr.h: resolution of attribute names to
    handlers, the permission rules of the namespaces (with the repository's own
    [custom.] namespace), the set/get/list/remove paths from the system call
    down to the handler, and the in-memory attribute store [simple_xattrs].

    A name is the list of its bytes before the terminating NUL.  Attributes
    live in a file system state of an arbitrary type [F]; a handler reads it
    with [h_get] and changes it with [h_set].  A [NULL] buffer or value is
    [None]; a kernel buffer is the list of its bytes. *)

From Stdlib Require Import ZArith Lia.
From stdpp Require Import base numbers list gmap strings.
From S2P Require Import Prelude.

Module Xattr.

Abbreviation bytes := (list Z).

(** ** Constants and namespaces (include/uapi/linux/xattr.h, limits.h) *)

Definition XATTR_CREATE : Z := 1.
Definition XATTR_REPLACE : Z := 2.
Definition XATTR_NAME_MAX : Z := 255.
Definition XATTR_SIZE_MAX : Z := 65536.
Definition XATTR_LIST_MAX : Z := 65536.
Definition XATTR_CUSTOM_PREFIX : bytes := Eval cbv in s2b "custom.".
Definition XATTR_SECURITY_PREFIX : bytes := Eval cbv in s2b "security.".
Definition XATTR_SYSTEM_PREFIX : bytes := Eval cbv in s2b "system.".
Definition XATTR_TRUSTED_PREFIX : bytes := Eval cbv in s2b "trusted.".
Definition XATTR_USER_PREFIX : bytes := Eval cbv in s2b "user.".
Definition XATTR_NAME_CAPS : bytes := Eval cbv in s2b "security.capability".
Definition XATTR_NAME_POSIX_ACL_ACCESS : bytes := Eval cbv in s2b "system.posix_acl_access".
Definition XATTR_NAME_POSIX_ACL_DEFAULT : bytes := Eval cbv in s2b "system.posix_acl_default".

Definition MAY_WRITE : Z := 2.
Definition MAY_READ : Z := 4.
Definition EWOULDBLOCK : Z := EAGAIN.

Definition S_IFMT : Z := 61440.
Definition S_IFREG : Z := 32768.
Definition S_IFDIR : Z := 16384.
Definition S_ISVTX : Z := 512.
Definition S_ISREG (m : Z) : bool := Z.land m S_IFMT =? S_IFREG.
Definition S_ISDIR (m : Z) : bool := Z.land m S_IFMT =? S_IFDIR.

(** [strcmp(a, b) == 0] *)
Definition str_eq (a b : bytes) : bool := bool_decide (a = b).

(** ** Handlers and inodes *)

Record xattr_handler (F : Type) := Handler {
  h_name : option bytes;
  h_prefix : option bytes;
  h_list : option bool;  (** whether the handler lists, and what it answers *)
  h_get : option (bytes → option bytes → F → Z * option bytes);
  h_set : option (bytes → option bytes → Z → st F Z) }.
Arguments Handler {F} _ _ _ _ _.
Arguments h_name {F} _.
Arguments h_prefix {F} _.
Arguments h_list {F} _.
Arguments h_get {F} _.
Arguments h_set {F} _.

(** [xattr_prefix]: the prefix, or else the name; one of the two is set. *)
Definition xattr_prefix {F} (h : xattr_handler F) : bytes :=
  match h_prefix h with Some p => p | None => default [] (h_name h) end.

Record inode (F : Type) := Inode {
  i_handlers : list (xattr_handler F);  (** [i_sb->s_xattr] *)
  i_opflags_xattr : bool;               (** [IOP_XATTR] *)
  i_bad : bool;
  i_immutable : bool;
  i_append : bool;
  i_unmapped : bool;                    (** [HAS_UNMAPPED_ID] *)
  i_mode : Z;
  i_nosec : bool;                       (** [S_NOSEC] *)
  i_fs : F }.
Arguments Inode {F} _ _ _ _ _ _ _ _ _.
Arguments i_handlers {F} _.
Arguments i_opflags_xattr {F} _.
Arguments i_bad {F} _.
Arguments i_immutable {F} _.
Arguments i_append {F} _.
Arguments i_unmapped {F} _.
Arguments i_mode {F} _.
Arguments i_nosec {F} _.
Arguments i_fs {F} _.

Definition set_fs {F} (f : F) (i : inode F) : inode F :=
  Inode (i_handlers i) (i_opflags_xattr i) (i_bad i) (i_immutable i) (i_append i) (i_unmapped i)
    (i_mode i) (i_nosec i) f.
Definition set_nosec {F} (b : bool) (i : inode F) : inode F :=
  Inode (i_handlers i) (i_opflags_xattr i) (i_bad i) (i_immutable i) (i_append i) (i_unmapped i)
    (i_mode i) b (i_fs i).

(** What the calling task may do and what the security modules answer. *)
Record hooks := Hooks {
  capable_sys_admin : bool;
  owner_or_capable : bool;
  inode_permission : Z → Z;
  sec_setxattr : bytes → option bytes → Z → Z;
  sec_getxattr : bytes → Z;
  sec_removexattr : bytes → Z;
  sec_listxattr : Z;
  sec_getsecurity : bytes → Z * bytes;
  sec_setsecurity : bytes → option bytes → Z → Z;
  sec_listsecurity : option bytes → Z * option bytes;
  cap_convert_nscap : bytes → Z * bytes;
  (** outcomes of the attempts to break a delegation: the non-blocking attempt
      and the wait after it; none are left when the list is empty *)
  delegations : list (Z * Z) }.

(** ** Name resolution *)

(** [strcmp_prefix]: the rest of [a] after [a_prefix], or NULL. *)
Fixpoint strcmp_prefix (a a_prefix : bytes) : option bytes :=
  match a_prefix, a with
  | [], _ => Some a
  | y :: p, x :: a => if x =? y then strcmp_prefix a p else None
  | _ :: _, [] => None
  end.

Definition is_empty (n : bytes) : bool := match n with [] => true | _ => false end.

Section vfs.
Context {F : Type}.
Implicit Type i : inode F.

(** The loop over the handlers: the handler and the rest of the name, or an
    error. *)
Fixpoint resolve (hs : list (xattr_handler F)) (name : bytes) : (xattr_handler F * bytes) + Z :=
  match hs with
  | [] => inr (- EOPNOTSUPP)
  | h :: hs =>
      match strcmp_prefix name (xattr_prefix h) with
      | None => resolve hs name
      | Some n =>
          if xorb (match h_prefix h with None => true | Some _ => false end) (is_empty n) then
            if negb (is_empty n) then resolve hs name else inr (- EINVAL)
          else inl (h, n)
      end
  end.

Definition xattr_resolve_name (i : inode F) (name : bytes) : (xattr_handler F * bytes) + Z :=
  if negb (i_opflags_xattr i) then inr (if i_bad i then - EIO else - EOPNOTSUPP)
  else resolve (i_handlers i) name.

(** [strncmp(s, prefix, n)] on the first [n] bytes (a shorter string ends in a
    NUL, which differs from any byte of a name). *)
Definition strncmp_eq (s p : bytes) (n : nat) : bool := bool_decide (take n s = take n p).

Definition xattr_supported_namespace (i : inode F) (prefix : bytes) : Z :=
  if negb (i_opflags_xattr i) then (if i_bad i then - EIO else - EOPNOTSUPP)
  else if existsb (λ h, strncmp_eq (xattr_prefix h) prefix (length prefix)) (i_handlers i) then 0
  else - EOPNOTSUPP.

Definition xattr_permission (k : hooks) (i : inode F) (name : bytes) (mask : Z) : Z :=
  let wr := negb (Z.land mask MAY_WRITE =? 0) in
  if wr && (i_immutable i || i_append i) then - EPERM
  else if wr && i_unmapped i then - EPERM
  else if has_prefix XATTR_CUSTOM_PREFIX name then
    if negb (capable_sys_admin k) then (if wr then - EPERM else - ENODATA) else 0
  else if has_prefix XATTR_SECURITY_PREFIX name || has_prefix XATTR_SYSTEM_PREFIX name then 0
  else if has_prefix XATTR_TRUSTED_PREFIX name then
    if negb (capable_sys_admin k) then (if wr then - EPERM else - ENODATA) else 0
  else if has_prefix XATTR_USER_PREFIX name &&
          negb (S_ISREG (i_mode i)) && negb (S_ISDIR (i_mode i)) then
    (if wr then - EPERM else - ENODATA)
  else if has_prefix XATTR_USER_PREFIX name && S_ISDIR (i_mode i) &&
          negb (Z.land (i_mode i) S_ISVTX =? 0) && wr && negb (owner_or_capable k) then - EPERM
  else inode_permission k mask.

(** ** Set *)

(** Running a handler operation on the inode's file system. *)
Definition on_fs (m : st F Z) : st (inode F) Z := λ i,
  match m (i_fs i) with Some (r, f) => Some (r, set_fs f i) | None => None end.

(** An empty value is passed as an empty string, not as NULL. *)
Definition __vfs_setxattr (name : bytes) (value : option bytes) (flags : Z) : st (inode F) Z :=
  i ← get;
  match xattr_resolve_name i name with
  | inr err => mret err
  | inl (h, n) =>
      match h_set h with
      | None => mret (- EOPNOTSUPP)
      | Some set => on_fs (set n (Some (default [] value)) flags)
      end
  end.

Definition __vfs_setxattr_noperm (k : hooks) (name : bytes) (value : option bytes) (flags : Z) :
    st (inode F) Z :=
  let issec := has_prefix XATTR_SECURITY_PREFIX name in
  (if issec then modify (set_nosec false) else mret tt) ;;
  i ← get;
  if negb (i_opflags_xattr i) && i_bad i then mret (- EIO)
  else
    error ← (if i_opflags_xattr i then __vfs_setxattr name value flags else mret (- EAGAIN));
    if error =? - EAGAIN then
      if issec then
        mret (sec_setsecurity k (drop (length XATTR_SECURITY_PREFIX) name) value flags)
      else mret (- EOPNOTSUPP)
    else mret error.

(** The result and whether the delegated inode was set. *)
Definition __vfs_setxattr_locked (k : hooks) (name : bytes) (value : option bytes) (flags : Z)
    (deleg : Z) : st (inode F) (Z * bool) :=
  i ← get;
  let error := xattr_permission k i name MAY_WRITE in
  if negb (error =? 0) then mret (error, false)
  else
    let error := sec_setxattr k name value flags in
    if negb (error =? 0) then mret (error, false)
    else if negb (deleg =? 0) then mret (deleg, deleg =? - EWOULDBLOCK)
    else error ← __vfs_setxattr_noperm k name value flags; mret (error, false).

(** The loop [retry_deleg]: one turn per attempt to break a delegation. *)
Fixpoint retry_deleg (op : Z → st (inode F) (Z * bool)) (delegs : list (Z * Z)) : st (inode F) Z :=
  match delegs with
  | [] => r ← op 0; mret (r : Z * bool).1
  | (try, wait) :: ds =>
      r ← op try;
      match r with
      | (error, true) => if wait =? 0 then retry_deleg op ds else mret wait
      | (error, false) => mret error
      end
  end.

Definition vfs_setxattr (k : hooks) (name : bytes) (value : option bytes) (flags : Z) :
    st (inode F) Z :=
  let size := length (default [] value) in
  if negb (Nat.eqb size 0) && str_eq name XATTR_NAME_CAPS then
    let '(error, v) := cap_convert_nscap k (default [] value) in
    if error <? 0 then mret error
    else retry_deleg (__vfs_setxattr_locked k name (Some v) flags) (delegations k)
  else retry_deleg (__vfs_setxattr_locked k name value flags) (delegations k).

(** ** Get *)

(** [memcpy(value, buffer, len)] into the caller's buffer. *)
Definition xattr_getsecurity (k : hooks) (name : bytes) (value : option bytes) :
    option (Z * option bytes) :=
  let '(len, buffer) := sec_getsecurity k name in
  match value with
  | None | Some [] => Some (len, value)
  | Some v =>
      if len <? 0 then Some (len, value)
      else if Z.of_nat (length v) <? len then Some (- ERANGE, value)
      else
        match bytes_at buffer 0 len with
        | None => None
        | Some b => match put_at v 0 b with Some v' => Some (len, Some v') | None => None end
        end
  end.

Definition __vfs_getxattr (i : inode F) (name : bytes) (value : option bytes) : Z * option bytes :=
  match xattr_resolve_name i name with
  | inr err => (err, value)
  | inl (h, n) =>
      match h_get h with
      | None => (- EOPNOTSUPP, value)
      | Some g => g n value (i_fs i)
      end
  end.

Definition vfs_getxattr (k : hooks) (i : inode F) (name : bytes) (value : option bytes) :
    option (Z * option bytes) :=
  let error := xattr_permission k i name MAY_READ in
  if negb (error =? 0) then Some (error, value)
  else
    let error := sec_getxattr k name in
    if negb (error =? 0) then Some (error, value)
    else if has_prefix XATTR_SECURITY_PREFIX name then
      match xattr_getsecurity k (drop (length XATTR_SECURITY_PREFIX) name) value with
      | None => None
      | Some (ret, v) =>
          if ret =? - EOPNOTSUPP then Some (__vfs_getxattr i name v) else Some (ret, v)
      end
    else Some (__vfs_getxattr i name value).

(** [mem]: whether [krealloc] succeeds.  Result: the code and the caller's
    buffer afterwards ([None]: none allocated). *)
Definition vfs_getxattr_alloc (k : hooks) (mem : bool) (i : inode F) (name : bytes)
    (xattr_value : option bytes) (xattr_size : Z) : Z * option bytes :=
  let error := xattr_permission k i name MAY_READ in
  if negb (error =? 0) then (error, xattr_value)
  else
    match xattr_resolve_name i name with
    | inr err => (err, xattr_value)
    | inl (h, n) =>
        match h_get h with
        | None => (- EOPNOTSUPP, xattr_value)
        | Some g =>
            let error := (g n None (i_fs i)).1 in
            if error <? 0 then (error, xattr_value)
            else
              let fresh := replicate (Z.to_nat (error + 1)) 0 in
              match xattr_value with
              | Some v =>
                  if error <=? xattr_size then
                    let '(e, b) := g n (Some (take (Z.to_nat error) v)) (i_fs i) in
                    (e, (λ b, b ++ drop (Z.to_nat error) v) <$> b)
                  else if negb mem then (- ENOMEM, xattr_value)
                  else
                    let '(e, b) := g n (Some (take (Z.to_nat error) fresh)) (i_fs i) in
                    (e, (λ b, b ++ drop (Z.to_nat error) fresh) <$> b)
              | None =>
                  if negb mem then (- ENOMEM, xattr_value)
                  else
                    let '(e, b) := g n (Some (take (Z.to_nat error) fresh)) (i_fs i) in
                    (e, (λ b, b ++ drop (Z.to_nat error) fresh) <$> b)
              end
        end
    end.

(** ** List *)

(** [listxattr] is [i_op->listxattr].  [error > size] compares as unsigned. *)
Definition vfs_listxattr (k : hooks) (listxattr : option (option bytes → F → Z * option bytes))
    (i : inode F) (list : option bytes) : Z * option bytes :=
  let error := sec_listxattr k in
  if negb (error =? 0) then (error, list)
  else
    match listxattr with
    | Some l =>
        if i_opflags_xattr i then l list (i_fs i)
        else
          let '(error, b) := sec_listsecurity k list in
          let size := Z.of_nat (length (default [] list)) in
          (if negb (size =? 0) && (size <? u64 error) then - ERANGE else error, b)
    | None =>
        let '(error, b) := sec_listsecurity k list in
        let size := Z.of_nat (length (default [] list)) in
        (if negb (size =? 0) && (size <? u64 error) then - ERANGE else error, b)
    end.

(** The names that the handlers offer. *)
Definition listed (h : xattr_handler F) : option bytes :=
  match h_name h with
  | None => None
  | Some n => match h_list h with Some false => None | _ => Some n end
  end.

Fixpoint generic_list_size (hs : list (xattr_handler F)) : Z :=
  match hs with
  | [] => 0
  | h :: hs =>
      match listed h with
      | None => generic_list_size hs
      | Some n => Z.of_nat (length n) + 1 + generic_list_size hs
      end
  end.

(** The copying loop: what was written and how much room is left. *)
Fixpoint generic_list_copy (hs : list (xattr_handler F)) (buf : bytes) (buffer_size : Z) :
    option bytes :=
  match hs with
  | [] => Some buf
  | h :: hs =>
      match listed h with
      | None => generic_list_copy hs buf buffer_size
      | Some n =>
          let len := Z.of_nat (length n) in
          if buffer_size <? len + 1 then None
          else generic_list_copy hs (buf ++ n ++ [0]) (buffer_size - (len + 1))
      end
  end.

(** The size of the names, or the names written to the buffer. *)
Definition generic_listxattr (i : inode F) (buffer : option bytes) : Z * option bytes :=
  match buffer with
  | None => (u32 (generic_list_size (i_handlers i)), None)
  | Some b =>
      match generic_list_copy (i_handlers i) [] (Z.of_nat (length b)) with
      | None => (- ERANGE, Some b)
      | Some w => (u32 (Z.of_nat (length w)), Some (w ++ drop (length w) b))
      end
  end.

(** [name] lies [prefix_len] bytes into the full name [full]. *)
Definition xattr_full_name (h : xattr_handler F) (name_off : Z) : Z :=
  name_off - Z.of_nat (length (xattr_prefix h)).

(** ** Remove *)

Definition __vfs_removexattr (name : bytes) : st (inode F) Z :=
  i ← get;
  match xattr_resolve_name i name with
  | inr err => mret err
  | inl (h, n) =>
      match h_set h with
      | None => mret (- EOPNOTSUPP)
      | Some set => on_fs (set n None XATTR_REPLACE)
      end
  end.

Definition __vfs_removexattr_locked (k : hooks) (name : bytes) (deleg : Z) :
    st (inode F) (Z * bool) :=
  i ← get;
  let error := xattr_permission k i name MAY_WRITE in
  if negb (error =? 0) then mret (error, false)
  else
    let error := sec_removexattr k name in
    if negb (error =? 0) then mret (error, false)
    else if negb (deleg =? 0) then mret (deleg, deleg =? - EWOULDBLOCK)
    else error ← __vfs_removexattr name; mret (error, false).

Definition vfs_removexattr (k : hooks) (name : bytes) : st (inode F) Z :=
  retry_deleg (__vfs_removexattr_locked k name) (delegations k).

(** ** System calls

    A user string is its bytes, [None] when it cannot be read. *)

Definition strncpy_from_user (name : option bytes) (count : Z) : Z :=
  match name with
  | None => - EFAULT
  | Some n => Z.min (Z.of_nat (length n)) count
  end.

(** [kvalue]: what [vmemdup_user] of the value yields, or its error. *)
Definition setxattr_copy (flags : Z) (name : option bytes) (size : Z) (kvalue : bytes + Z) :
    Z + (bytes * option bytes) :=
  if negb (Z.land flags (Z.lnot (Z.lor XATTR_CREATE XATTR_REPLACE)) =? 0) then inl (- EINVAL)
  else
    let error := strncpy_from_user name (XATTR_NAME_MAX + 1) in
    if (error =? 0) || (error =? XATTR_NAME_MAX + 1) then inl (- ERANGE)
    else if error <? 0 then inl error
    else if size =? 0 then inr (default [] name, None)
    else if XATTR_SIZE_MAX <? size then inl (- E2BIG)
    else
      match kvalue with
      | inr err => inl err
      | inl v => inr (default [] name, Some v)
      end.

Definition is_acl_name (name : bytes) : bool :=
  str_eq name XATTR_NAME_POSIX_ACL_ACCESS || str_eq name XATTR_NAME_POSIX_ACL_DEFAULT.

(** [acl_fix] is [posix_acl_fix_xattr_from_user]. *)
Definition setxattr_convert (acl_fix : bytes → bytes) (name : bytes) (value : option bytes) :
    option bytes :=
  match value with
  | Some v => if is_acl_name name then Some (acl_fix v) else Some v
  | None => None
  end.

Definition do_setxattr (k : hooks) (acl_fix : bytes → bytes) (name : bytes) (value : option bytes)
    (flags : Z) : st (inode F) Z :=
  vfs_setxattr k name (setxattr_convert acl_fix name value) flags.

Definition setxattr (k : hooks) (acl_fix : bytes → bytes) (name : option bytes) (size : Z)
    (kvalue : bytes + Z) (flags : Z) : st (inode F) Z :=
  match setxattr_copy flags name size kvalue with
  | inl error => mret error
  | inr (kname, v) => do_setxattr k acl_fix kname v flags
  end.

(** [mem]: whether [kvzalloc] succeeds; [writable]: whether the user buffer
    accepts the copy; [acl_fix] is [posix_acl_fix_xattr_to_user].  The second
    component is what is copied to user space; the outer option is the fault of
    copying more than the kernel buffer holds. *)
Definition getxattr (k : hooks) (acl_fix : bytes → bytes) (mem writable : bool)
    (i : inode F) (name : option bytes) (size : Z) : option (Z * option bytes) :=
  let error := strncpy_from_user name (XATTR_NAME_MAX + 1) in
  let error := if (error =? 0) || (error =? XATTR_NAME_MAX + 1) then - ERANGE else error in
  if error <? 0 then Some (error, None)
  else
    let kname := default [] name in
    let size := if XATTR_SIZE_MAX <? size then XATTR_SIZE_MAX else size in
    if negb (size =? 0) && negb mem then Some (- ENOMEM, None)
    else
      let kvalue := if size =? 0 then None else Some (replicate (Z.to_nat size) 0) in
      match vfs_getxattr k i kname kvalue with
      | None => None
      | Some (error, v) =>
          if 0 <? error then
            let v := if is_acl_name kname then acl_fix <$> v else v in
            if size =? 0 then Some (error, None)
            else
              match v ≫= λ v, bytes_at v 0 error with
              | None => None
              | Some b => if writable then Some (error, Some b) else Some (- EFAULT, None)
              end
          else if (error =? - ERANGE) && (XATTR_SIZE_MAX <=? size) then Some (- E2BIG, None)
          else Some (error, None)
      end.

Definition listxattr (k : hooks) (op : option (option bytes → F → Z * option bytes))
    (mem writable : bool) (i : inode F) (size : Z) : option (Z * option bytes) :=
  let size := if XATTR_LIST_MAX <? size then XATTR_LIST_MAX else size in
  if negb (size =? 0) && negb mem then Some (- ENOMEM, None)
  else
    let klist := if size =? 0 then None else Some (replicate (Z.to_nat size) 0) in
    let '(error, l) := vfs_listxattr k op i klist in
    if 0 <? error then
      if size =? 0 then Some (error, None)
      else
        match l ≫= λ l, bytes_at l 0 error with
        | None => None
        | Some b => if writable then Some (error, Some b) else Some (- EFAULT, None)
        end
    else if (error =? - ERANGE) && (XATTR_LIST_MAX <=? size) then Some (- E2BIG, None)
    else Some (error, None).

Definition removexattr (k : hooks) (name : option bytes) : st (inode F) Z :=
  let error := strncpy_from_user name (XATTR_NAME_MAX + 1) in
  let error := if (error =? 0) || (error =? XATTR_NAME_MAX + 1) then - ERANGE else error in
  if error <? 0 then mret error else vfs_removexattr k (default [] name).

(** ** Calls by path: one retry after [-ESTALE] *)

Definition LOOKUP_FOLLOW : Z := 1.
Definition LOOKUP_REVAL : Z := 32.
Definition retry_estale (error flags : Z) : bool :=
  (error =? - ESTALE) && (Z.land flags LOOKUP_REVAL =? 0).

(** The label [retry] of the four path functions; [error] selects the code of a
    result.  The second turn carries [LOOKUP_REVAL] and is the last. *)
Definition path_retry {S A} (error : A → Z) (turn : Z → st S A) (lookup_flags : Z) : st S A :=
  r ← turn lookup_flags;
  if retry_estale (error r) lookup_flags then turn (Z.lor lookup_flags LOOKUP_REVAL)
  else mret r.

(** [user_path_at] and [mnt_want_write] are given by their results; the path
    leads to the inode of the state. *)
Definition path_setxattr (k : hooks) (acl_fix : bytes → bytes) (user_path_at : Z → Z)
    (mnt_want_write : Z) (name : option bytes) (size : Z) (kvalue : bytes + Z)
    (flags lookup_flags : Z) : st (inode F) Z :=
  path_retry (λ e, e) (λ lf,
    let error := user_path_at lf in
    if negb (error =? 0) then mret error
    else if negb (mnt_want_write =? 0) then mret mnt_want_write
    else setxattr k acl_fix name size kvalue flags) lookup_flags.

Definition path_getxattr (k : hooks) (acl_fix : bytes → bytes) (mem writable : bool)
    (user_path_at : Z → Z) (name : option bytes) (size lookup_flags : Z) :
    st (inode F) (Z * option bytes) :=
  path_retry fst (λ lf,
    let error := user_path_at lf in
    if negb (error =? 0) then mret (error, None)
    else i ← get; lift (getxattr k acl_fix mem writable i name size)) lookup_flags.

Definition path_listxattr (k : hooks) (op : option (option bytes → F → Z * option bytes))
    (mem writable : bool) (user_path_at : Z → Z) (size lookup_flags : Z) :
    st (inode F) (Z * option bytes) :=
  path_retry fst (λ lf,
    let error := user_path_at lf in
    if negb (error =? 0) then mret (error, None)
    else i ← get; lift (listxattr k op mem writable i size)) lookup_flags.

Definition path_removexattr (k : hooks) (user_path_at : Z → Z) (mnt_want_write : Z)
    (name : option bytes) (lookup_flags : Z) : st (inode F) Z :=
  path_retry (λ e, e) (λ lf,
    let error := user_path_at lf in
    if negb (error =? 0) then mret error
    else if negb (mnt_want_write =? 0) then mret mnt_want_write
    else removexattr k name) lookup_flags.

(** ** Calls by descriptor: [open] says whether the descriptor has a file *)

Definition sys_fsetxattr (k : hooks) (acl_fix : bytes → bytes) (open : bool)
    (mnt_want_write_file : Z) (name : option bytes) (size : Z) (kvalue : bytes + Z) (flags : Z) :
    st (inode F) Z :=
  if negb open then mret (- EBADF)
  else if negb (mnt_want_write_file =? 0) then mret mnt_want_write_file
  else setxattr k acl_fix name size kvalue flags.

Definition sys_fgetxattr (k : hooks) (acl_fix : bytes → bytes) (mem writable open : bool)
    (name : option bytes) (size : Z) : st (inode F) (Z * option bytes) :=
  if negb open then mret (- EBADF, None)
  else i ← get; lift (getxattr k acl_fix mem writable i name size).

Definition sys_flistxattr (k : hooks) (op : option (option bytes → F → Z * option bytes))
    (mem writable open : bool) (size : Z) : st (inode F) (Z * option bytes) :=
  if negb open then mret (- EBADF, None)
  else i ← get; lift (listxattr k op mem writable i size).

Definition sys_fremovexattr (k : hooks) (open : bool) (mnt_want_write_file : Z)
    (name : option bytes) : st (inode F) Z :=
  if negb open then mret (- EBADF)
  else if negb (mnt_want_write_file =? 0) then mret mnt_want_write_file
  else removexattr k name.

(** ** The system calls by path *)

Definition sys_setxattr (k : hooks) (acl_fix : bytes → bytes) (user_path_at : Z → Z)
    (mnt_want_write : Z) (name : option bytes) (size : Z) (value : bytes + Z) (flags : Z) :
    st (inode F) Z :=
  path_setxattr k acl_fix user_path_at mnt_want_write name size value flags LOOKUP_FOLLOW.

Definition sys_lsetxattr (k : hooks) (acl_fix : bytes → bytes) (user_path_at : Z → Z)
    (mnt_want_write : Z) (name : option bytes) (size : Z) (value : bytes + Z) (flags : Z) :
    st (inode F) Z :=
  path_setxattr k acl_fix user_path_at mnt_want_write name size value flags 0.

Definition sys_getxattr (k : hooks) (acl_fix : bytes → bytes) (mem writable : bool)
    (user_path_at : Z → Z) (name : option bytes) (size : Z) : st (inode F) (Z * option bytes) :=
  path_getxattr k acl_fix mem writable user_path_at name size LOOKUP_FOLLOW.

Definition sys_lgetxattr (k : hooks) (acl_fix : bytes → bytes) (mem writable : bool)
    (user_path_at : Z → Z) (name : option bytes) (size : Z) : st (inode F) (Z * option bytes) :=
  path_getxattr k acl_fix mem writable user_path_at name size 0.

Definition sys_listxattr (k : hooks) (op : option (option bytes → F → Z * option bytes))
    (mem writable : bool) (user_path_at : Z → Z) (size : Z) : st (inode F) (Z * option bytes) :=
  path_listxattr k op mem writable user_path_at size LOOKUP_FOLLOW.

Definition sys_llistxattr (k : hooks) (op : option (option bytes → F → Z * option bytes))
    (mem writable : bool) (user_path_at : Z → Z) (size : Z) : st (inode F) (Z * option bytes) :=
  path_listxattr k op mem writable user_path_at size 0.

Definition sys_removexattr (k : hooks) (user_path_at : Z → Z) (mnt_want_write : Z)
    (name : option bytes) : st (inode F) Z :=
  path_removexattr k user_path_at mnt_want_write name LOOKUP_FOLLOW.

Definition sys_lremovexattr (k : hooks) (user_path_at : Z → Z) (mnt_want_write : Z)
    (name : option bytes) : st (inode F) Z :=
  path_removexattr k user_path_at mnt_want_write name 0.

End vfs.

(** ** In-memory attributes: [struct simple_xattrs]

    The list in list order; the size of an attribute is the length of its
    value. *)

Record simple_xattr := SimpleXattr { sx_name : bytes; sx_value : bytes }.
Abbreviation simple_xattrs := (list simple_xattr).

Definition simple_xattrs_init : simple_xattrs := [].

(** Every attribute is freed. *)
Fixpoint simple_xattrs_free (l : simple_xattrs) : simple_xattrs :=
  match l with [] => [] | _ :: l => simple_xattrs_free l end.

(** [sizeof(struct simple_xattr)] *)
Definition SIMPLE_XATTR_SIZE : Z := 32.

(** [mem]: whether [kvmalloc] succeeds.  The name is left to the caller. *)
Definition simple_xattr_alloc (mem : bool) (value : bytes) : option bytes :=
  let len := u64 (SIMPLE_XATTR_SIZE + Z.of_nat (length value)) in
  if len <? SIMPLE_XATTR_SIZE then None else if mem then Some value else None.

Fixpoint find_xattr (l : simple_xattrs) (name : bytes) : option nat :=
  match l with
  | [] => None
  | x :: l => if str_eq name (sx_name x) then Some O else S <$> find_xattr l name
  end.

Definition simple_xattr_get (xattrs : simple_xattrs) (name : bytes) (buffer : option bytes) :
    Z * option bytes :=
  match find_xattr xattrs name ≫= λ j, xattrs !! j with
  | None => (- ENODATA, buffer)
  | Some x =>
      let size := Z.of_nat (length (sx_value x)) in
      match buffer with
      | None => (size, None)
      | Some b =>
          if Z.of_nat (length b) <? size then (- ERANGE, Some b)
          else (size, Some (sx_value x ++ drop (length (sx_value x)) b))
      end
  end.

(** The attribute to be linked: value and name allocated. *)
Definition new_attr (mem : bool * bool) (name : bytes) (value : option bytes) : option simple_xattr :=
  match value with
  | None => None
  | Some v =>
      match simple_xattr_alloc mem.1 v with
      | Some v => if mem.2 then Some (SimpleXattr name v) else None
      | None => None
      end
  end.

(** [mem]: whether the attribute and its name can be allocated.  The second
    result is [*removed_size].  Adding a missing attribute with a NULL value
    links a NULL pointer into the list. *)
Definition simple_xattr_set (mem : bool * bool) (name : bytes) (value : option bytes) (flags : Z) :
    st simple_xattrs (Z * Z) :=
  let new_xattr := new_attr mem name value in
  match value, new_xattr with
  | Some _, None => mret (- ENOMEM, -1)
  | _, _ =>
      xattrs ← get;
      match find_xattr xattrs name with
      | Some j =>
          if negb (Z.land flags XATTR_CREATE =? 0) then mret (- EEXIST, -1)
          else
            x ← lift (xattrs !! j);
            match new_xattr with
            | Some x' => put (<[j := x']> xattrs) ;; mret (0, Z.of_nat (length (sx_value x)))
            | None => put (delete j xattrs) ;; mret (0, Z.of_nat (length (sx_value x)))
            end
      | None =>
          if negb (Z.land flags XATTR_REPLACE =? 0) then mret (- ENODATA, -1)
          else
            match new_xattr with
            | Some x' => put (x' :: xattrs) ;; mret (0, -1)
            | None => fault
            end
      end
  end.

Definition xattr_is_trusted (name : bytes) : bool := has_prefix XATTR_TRUSTED_PREFIX name.

(** The state is what was written so far ([None] without a buffer) and the
    remaining size; the comparison is only made with a buffer. *)
Definition xattr_list_one (st : option bytes * Z) (name : bytes) : option (option bytes * Z) :=
  let '(buffer, remaining_size) := st in
  let len := Z.of_nat (length name) + 1 in
  match buffer with
  | Some b =>
      if remaining_size <? len then None
      else Some (Some (b ++ name ++ [0]), remaining_size - len)
  | None => Some (None, remaining_size - len)
  end.

Fixpoint list_names (trusted : bool) (l : simple_xattrs) (st : option bytes * Z) :
    option (option bytes * Z) :=
  match l with
  | [] => Some st
  | x :: l =>
      if negb trusted && xattr_is_trusted (sx_name x) then list_names trusted l st
      else
        match xattr_list_one st (sx_name x) with
        | None => None
        | Some st => list_names trusted l st
        end
  end.

(** [acls]: the ACL names that the inode shows first. *)
Fixpoint list_acls (acls : list bytes) (st : option bytes * Z) : option (option bytes * Z) :=
  match acls with
  | [] => Some st
  | n :: acls => match xattr_list_one st n with None => None | Some st => list_acls acls st end
  end.

(** [posixacl], [acl], [default_acl]: the inode has ACLs enabled, an access ACL,
    a default ACL.  Result: the code and the bytes written. *)
Definition simple_xattr_list (trusted posixacl acl default_acl : bool) (xattrs : simple_xattrs)
    (buffer : option Z) : Z * bytes :=
  let size := default 0 buffer in
  let acls := if posixacl then
                (if acl then [XATTR_NAME_POSIX_ACL_ACCESS] else []) ++
                (if default_acl then [XATTR_NAME_POSIX_ACL_DEFAULT] else [])
              else [] in
  match list_acls acls ((λ _, []) <$> buffer, size) with
  | None => (- ERANGE, [])
  | Some st =>
      match list_names trusted xattrs st with
      | None => (- ERANGE, [])
      | Some (b, remaining_size) => (size - remaining_size, default [] b)
      end
  end.

Definition simple_xattr_list_add (xattrs : simple_xattrs) (new_xattr : simple_xattr) : simple_xattrs :=
  new_xattr :: xattrs.

(** ** What a handler promises to the VFS

    The attributes behind a handler are a finite map from suffixes to values;
    reading never changes it and a refused change leaves it alone. *)

Definition get_answer (o : option bytes) (buffer : option bytes) : Z * option bytes :=
  match o with
  | None => (- ENODATA, buffer)
  | Some v =>
      match buffer with
      | None => (Z.of_nat (length v), None)
      | Some b => if Z.of_nat (length b) <? Z.of_nat (length v) then (- ERANGE, Some b)
                  else (Z.of_nat (length v), Some (v ++ drop (length v) b))
      end
  end.

(** Whether the flags allow the change of an attribute that is (not) there. *)
Definition flags_allow (o : option bytes) (flags : Z) : bool :=
  match o with
  | Some _ => Z.land flags XATTR_CREATE =? 0
  | None => Z.land flags XATTR_REPLACE =? 0
  end.

Definition put_attr (g : gmap bytes bytes) (n : bytes) (v : option bytes) : gmap bytes bytes :=
  match v with Some v => <[n := v]> g | None => delete n g end.

Class AttrStore (F : Type) := {
  as_attrs : F → gmap bytes bytes;
  as_inv : F → Prop;
  as_get : bytes → option bytes → F → Z * option bytes;
  as_set : bytes → option bytes → Z → st F Z;
  as_get_law f n b : as_inv f → as_get n b f = get_answer (as_attrs f !! n) b;
  as_set_law f n v flags :
    as_inv f → (v = None → Z.land flags XATTR_REPLACE ≠ 0) →
    Z.of_nat (length (default [] v)) ≤ XATTR_SIZE_MAX →
    ∃ r f', as_set n v flags f = Some (r, f') ∧ as_inv f' ∧
      (if flags_allow (as_attrs f !! n) flags
       then (r = 0 ∧ as_attrs f' = put_attr (as_attrs f) n v) ∨ (r < 0 ∧ as_attrs f' = as_attrs f)
       else r < 0 ∧ as_attrs f' = as_attrs f) }.

(** The handler of a prefix on top of a store. *)
Definition store_handler {F} `{AttrStore F} (prefix : bytes) : xattr_handler F :=
  Handler None (Some prefix) None (Some as_get) (Some as_set).

(** ** [simple_xattrs] implements the interface *)

Definition sx_map (l : simple_xattrs) : gmap bytes bytes :=
  list_to_map ((λ x, (sx_name x, sx_value x)) <$> l).

Definition sx_nodup (l : simple_xattrs) : Prop := NoDup (sx_name <$> l).

Lemma str_eq_spec a b : str_eq a b = true ↔ a = b.
Proof. apply bool_decide_eq_true. Qed.

Lemma sx_map_cons x l : sx_map (x :: l) = <[sx_name x := sx_value x]> (sx_map l).
Proof. done. Qed.

Lemma find_xattr_Some l n j :
  find_xattr l n = Some j → ∃ x, l !! j = Some x ∧ sx_name x = n.
Proof.
  revert j. induction l as [|x l IH]; intros j; simpl; [done|].
  destruct (str_eq n (sx_name x)) eqn:E.
  - apply str_eq_spec in E. intros [= <-]. eauto.
  - destruct (find_xattr l n) as [j'|]; simpl; [|done]. intros [= <-]. simpl. auto.
Qed.

Lemma find_xattr_map l n :
  sx_map l !! n = find_xattr l n ≫= λ j, sx_value <$> l !! j.
Proof.
  induction l as [|x l IH]; [done|]. rewrite sx_map_cons. simpl.
  destruct (str_eq n (sx_name x)) eqn:E.
  - apply str_eq_spec in E as ->. simpl. apply lookup_insert_eq.
  - rewrite lookup_insert_ne; [|intros Hn; symmetry in Hn; by apply str_eq_spec in Hn; rewrite Hn in E].
    rewrite IH. by destruct (find_xattr l n).
Qed.

Lemma find_xattr_None l n : find_xattr l n = None ↔ sx_map l !! n = None.
Proof.
  rewrite find_xattr_map. destruct (find_xattr l n) as [j|] eqn:E; [|done].
  destruct (find_xattr_Some _ _ _ E) as (x & H & _). cbn. by rewrite H.
Qed.

Lemma sx_map_notin l n : n ∉ sx_name <$> l → sx_map l !! n = None.
Proof.
  intros H. apply not_elem_of_list_to_map. by rewrite <-list_fmap_compose.
Qed.

Lemma sx_replace l j x v :
  sx_nodup l → l !! j = Some x →
  sx_map (<[j := SimpleXattr (sx_name x) v]> l) = <[sx_name x := v]> (sx_map l) ∧
  sx_nodup (<[j := SimpleXattr (sx_name x) v]> l).
Proof.
  intros Hn Hj. split.
  - revert j Hj. induction l as [|y l IH]; intros j Hj; [done|].
    apply NoDup_cons in Hn as [Hy Hn]. destruct j as [|j]; simpl in Hj.
    + injection Hj as ->. simpl. rewrite !sx_map_cons. cbn. by rewrite insert_insert_eq.
    + simpl. rewrite !sx_map_cons, (IH Hn j Hj). apply insert_insert_ne.
      intros E. apply Hy. rewrite E. apply list_elem_of_fmap. exists x. split; [done|].
      by eapply list_elem_of_lookup_2.
  - unfold sx_nodup. rewrite list_fmap_insert. cbn. rewrite list_insert_id; [done|].
    by rewrite list_lookup_fmap, Hj.
Qed.

Lemma sx_delete l j x :
  sx_nodup l → l !! j = Some x →
  sx_map (delete j l) = delete (sx_name x) (sx_map l) ∧ sx_nodup (delete j l).
Proof.
  intros Hn. revert j. induction l as [|y l IH]; intros j Hj; [done|].
  pose proof Hn as Hn0. apply NoDup_cons in Hn as [Hy Hn]. destruct j as [|j]; simpl in Hj.
  - injection Hj as ->. simpl. rewrite sx_map_cons. split; [|done].
    rewrite delete_insert_id; [done|]. by apply sx_map_notin.
  - destruct (IH Hn j Hj) as [E Hd]. simpl. rewrite !sx_map_cons, E.
    assert (sx_name y ≠ sx_name x).
    { intros Hxy. apply Hy. rewrite Hxy. apply list_elem_of_fmap. exists x. split; [done|].
      by eapply list_elem_of_lookup_2. }
    split; [by rewrite delete_insert_ne|]. apply NoDup_cons. split; [|done].
    intros Hin. apply Hy. apply list_elem_of_fmap in Hin as (z & Ez & Hz).
    apply list_elem_of_fmap. exists z. split; [done|].
    apply list_elem_of_lookup in Hz as [k Hk]. rewrite list_lookup_delete in Hk.
    apply list_elem_of_lookup. case_decide; eauto.
Qed.

Lemma sx_add l n v :
  sx_nodup l → find_xattr l n = None →
  sx_map (SimpleXattr n v :: l) = <[n := v]> (sx_map l) ∧ sx_nodup (SimpleXattr n v :: l).
Proof.
  intros Hn Hf. split; [done|]. apply NoDup_cons. split; [|done]. cbn.
  intros H. apply find_xattr_None in Hf. apply not_elem_of_list_to_map in Hf.
  apply Hf. by rewrite <-list_fmap_compose.
Qed.

Lemma simple_xattr_get_ok l n b : simple_xattr_get l n b = get_answer (sx_map l !! n) b.
Proof.
  unfold simple_xattr_get. rewrite find_xattr_map.
  destruct (find_xattr l n) as [j|] eqn:E; [|done].
  destruct (find_xattr_Some _ _ _ E) as (x & Hj & _). cbn. by rewrite Hj.
Qed.

(** Whether the new attribute can be allocated. *)
Definition sx_alloc_ok (mem : bool * bool) (value : option bytes) : bool :=
  match value with
  | None => true
  | Some v => mem.1 && mem.2 && (Z.of_nat (length v) + SIMPLE_XATTR_SIZE <? 2 ^ 64)
  end.

Lemma simple_xattr_alloc_ok mem v :
  Z.of_nat (length v) < 2 ^ 64 →
  simple_xattr_alloc mem v =
    if mem && (Z.of_nat (length v) + SIMPLE_XATTR_SIZE <? 2 ^ 64) then Some v else None.
Proof.
  intros Hv. unfold simple_xattr_alloc, SIMPLE_XATTR_SIZE. destruct (_ + 32 <? 2 ^ 64) eqn:E; to_prop.
  - rewrite wrapU_small by (unfold is_u; lia). rewrite (proj2 (Z.ltb_ge _ _)) by lia.
    by destruct mem.
  - rewrite andb_false_r. unfold wrapU.
    replace ((32 + Z.of_nat (length v)) mod 2 ^ 64) with (32 + Z.of_nat (length v) - 2 ^ 64).
    + by rewrite (proj2 (Z.ltb_lt _ _)) by lia.
    + rewrite <-(Z.mod_add _ (-1)) by lia. symmetry. apply Z.mod_small. lia.
Qed.

Lemma simple_xattr_set_ok mem n value flags l :
  sx_nodup l → (∀ v, value = Some v → Z.of_nat (length v) < 2 ^ 64) →
  if negb (sx_alloc_ok mem value) then
    simple_xattr_set mem n value flags l = Some ((- ENOMEM, -1), l)
  else if negb (flags_allow (sx_map l !! n) flags) then
    simple_xattr_set mem n value flags l =
      Some ((match sx_map l !! n with Some _ => - EEXIST | None => - ENODATA end, -1), l)
  else
    match sx_map l !! n, value with
    | None, None => simple_xattr_set mem n value flags l = None
    | old, _ =>
        ∃ l', simple_xattr_set mem n value flags l =
            Some ((0, match old with Some w => Z.of_nat (length w) | None => -1 end), l') ∧
          sx_nodup l' ∧ sx_map l' = put_attr (sx_map l) n value
    end.
Proof.
  intros Hn Hv. unfold simple_xattr_set.
  destruct (sx_alloc_ok mem value) eqn:Ha; cbn [negb].
  2: { destruct value as [v|]; [|done]. unfold new_attr.
       rewrite simple_xattr_alloc_ok by auto. unfold sx_alloc_ok in Ha.
       destruct mem as [m1 m2]; cbn [fst snd] in *.
       destruct m1, m2, (_ <? 2 ^ 64); done. }
  set (new := match value with Some v => Some (SimpleXattr n v) | None => None end).
  replace (new_attr mem n value) with new.
  2: { destruct value as [v|]; [|done]. unfold new_attr. rewrite simple_xattr_alloc_ok by auto.
       unfold sx_alloc_ok in Ha. destruct mem as [m1 m2]; cbn [fst snd] in *.
       destruct m1, m2, (_ <? 2 ^ 64); done. }
  assert (∀ A (X Y : A), (match value, new with Some _, None => X | _, _ => Y end) = Y) as Hm
    by (intros; by destruct value).
  rewrite Hm. rewrite (st_bind_step get _ l l l) by done. cbn beta.
  destruct (find_xattr l n) as [j|] eqn:F.
  - destruct (find_xattr_Some _ _ _ F) as (x & Hj & <-).
    assert (sx_map l !! sx_name x = Some (sx_value x)) as E by (rewrite find_xattr_map, F; cbn; by rewrite Hj).
    rewrite E. cbn [flags_allow]. destruct (Z.land flags XATTR_CREATE =? 0); cbn [negb]; [|done].
    rewrite (st_bind_step (lift _) _ l x l) by (unfold lift; by rewrite Hj). cbn beta.
    destruct value as [v|]; cbn.
    + destruct (sx_replace l j x v Hn Hj). by eexists.
    + destruct (sx_delete l j x Hn Hj). by eexists.
  - rewrite (proj1 (find_xattr_None _ _) F). cbn [flags_allow].
    destruct (Z.land flags XATTR_REPLACE =? 0); cbn [negb]; [|done].
    destruct value as [v|]; cbn; [|done]. destruct (sx_add l n v Hn F). by eexists.
Qed.

(** C39: [simple_xattr_set] and [simple_xattr_get] implement a finite map.  A
    set without memory, an XATTR_CREATE of an existing and an XATTR_REPLACE of
    a missing name fail with ENOMEM, EEXIST and ENODATA and change nothing;
    every other set updates exactly that name and reports the size of the value
    it displaced.  The one exception: removing a missing name without
    XATTR_REPLACE does not fail but dereferences a NULL attribute. *)
Theorem simple_xattr_map mem n value flags l :
  sx_nodup l → (∀ v, value = Some v → Z.of_nat (length v) < 2 ^ 64) →
  (∀ m b, simple_xattr_get l m b = get_answer (sx_map l !! m) b) ∧
  if negb (sx_alloc_ok mem value) then
    simple_xattr_set mem n value flags l = Some ((- ENOMEM, -1), l)
  else if negb (flags_allow (sx_map l !! n) flags) then
    simple_xattr_set mem n value flags l =
      Some ((match sx_map l !! n with Some _ => - EEXIST | None => - ENODATA end, -1), l)
  else
    match sx_map l !! n, value with
    | None, None => simple_xattr_set mem n value flags l = None
    | old, _ =>
        ∃ l', simple_xattr_set mem n value flags l =
            Some ((0, match old with Some w => Z.of_nat (length w) | None => -1 end), l') ∧
          sx_nodup l' ∧ sx_map l' = put_attr (sx_map l) n value
    end.
Proof. intros Hn Hv. split; [intros; apply simple_xattr_get_ok|by apply simple_xattr_set_ok]. Qed.

Lemma simple_xattr_map_witness :
  (∀ m b, simple_xattr_get [SimpleXattr [65] [1; 2]] m b =
          get_answer (sx_map [SimpleXattr [65] [1; 2]] !! m) b) ∧
  ∃ l', simple_xattr_set (true, true) [65] (Some [9]) XATTR_REPLACE [SimpleXattr [65] [1; 2]] =
    Some ((0, 2), l') ∧ sx_nodup l' ∧ sx_map l' = <[[65] := [9]]> (sx_map [SimpleXattr [65] [1; 2]]).
Proof.
  apply (simple_xattr_map (true, true) [65] (Some [9]) XATTR_REPLACE [SimpleXattr [65] [1; 2]]).
  - apply NoDup_singleton.
  - intros v [= <-]. done.
Defined.

#[export] Instance simple_store : AttrStore simple_xattrs.
Proof.
  refine {| as_attrs := sx_map; as_inv := sx_nodup;
            as_get := λ n b l, simple_xattr_get l n b;
            as_set := λ n v flags, r ← simple_xattr_set (true, true) n v flags; mret (r : Z * Z).1 |}.
  - intros f n b _. apply simple_xattr_get_ok.
  - intros f n v flags Hn Hv Hl.
    assert (∀ w, v = Some w → Z.of_nat (length w) < 2 ^ 64) as Hw.
    { intros w ->. unfold XATTR_SIZE_MAX in Hl. cbn in Hl. lia. }
    pose proof (simple_xattr_set_ok (true, true) n v flags f Hn Hw) as H.
    unfold mbind, st_bind, mret, st_ret.
    destruct (sx_alloc_ok (true, true) v) eqn:Ha; cbn [negb] in H.
    2: { rewrite H. exists (- ENOMEM), f. split_and!; [done|done|].
         by destruct (flags_allow _ _); [right|]. }
    destruct (flags_allow (sx_map f !! n) flags) eqn:Hf; cbn [negb] in H.
    + destruct (sx_map f !! n) as [w|] eqn:E; [|destruct v as [w|]].
      * destruct H as (l' & -> & ? & ?). exists 0, l'. eauto.
      * destruct H as (l' & -> & ? & ?). exists 0, l'. eauto.
      * exfalso. apply Hv; [done|]. cbn in Hf. by apply Z.eqb_eq in Hf.
    + rewrite H. eexists _, f. split_and!; [done|done|by destruct (sx_map f !! n)|done].
Defined.

(** ** The VFS path from a successful set to a get *)

Section paths.
Context {F : Type}.
Implicit Type i : inode F.

(** An attempt that a delegation refuses changes nothing, so a success of the
    loop is the success of one attempt without delegation. *)
Lemma retry_success (op : Z → st (inode F) (Z * bool)) ds i i' :
  (∀ t i, t ≠ 0 → ∃ e b, op t i = Some ((e, b), i) ∧ e ≠ 0) →
  (∀ i e b i', op 0 i = Some ((e, b), i') → b = false) →
  retry_deleg op ds i = Some (0, i') → op 0 i = Some ((0, false), i').
Proof.
  intros Hne H0. induction ds as [|[t wait] ds IH]; simpl; intros H.
  - apply st_bind_Some in H as ([e b] & i1 & E & [= -> ->]).
    pose proof (H0 _ _ _ _ E) as ->. done.
  - apply st_bind_Some in H as ([e b] & i1 & E & H). destruct (decide (t = 0)) as [->|Ht].
    + pose proof (H0 _ _ _ _ E) as ->. by injection H as -> ->.
    + destruct (Hne t i Ht) as (e' & b' & E' & He). rewrite E' in E. injection E as -> -> ->.
      destruct b; [|injection H as -> _; done].
      destruct (wait =? 0) eqn:Hw; [auto|]. injection H as -> _. done.
Qed.

(** ... and a loop all of whose attempts are refused with the same error. *)
Lemma retry_refused (op : Z → st (inode F) (Z * bool)) ds i e :
  (∀ t, op t i = Some ((e, false), i)) → retry_deleg op ds i = Some (e, i).
Proof.
  intros H. destruct ds as [|[t wait] ds]; simpl; unfold mbind, st_bind; by rewrite H.
Qed.

Lemma set_fs_id i : set_fs (i_fs i) i = i.
Proof. by destruct i. Qed.

Lemma setxattr_locked_busy k name v flags t i :
  t ≠ 0 → ∃ e b, __vfs_setxattr_locked k name v flags t i = Some ((e, b), i) ∧ e ≠ 0.
Proof.
  intros Ht. unfold __vfs_setxattr_locked.
  rewrite (st_bind_step get _ i i i) by done. cbn beta.
  destruct (xattr_permission k i name MAY_WRITE =? 0) eqn:E1; cbn [negb]; to_prop; [|by eexists _, _].
  destruct (sec_setxattr k name v flags =? 0) eqn:E2; cbn [negb]; to_prop; [|by eexists _, _].
  rewrite (proj2 (Z.eqb_neq _ _) Ht). cbn [negb]. by eexists _, _.
Qed.

Lemma removexattr_locked_busy k name t i :
  t ≠ 0 → ∃ e b, __vfs_removexattr_locked k name t i = Some ((e, b), i) ∧ e ≠ 0.
Proof.
  intros Ht. unfold __vfs_removexattr_locked.
  rewrite (st_bind_step get _ i i i) by done. cbn beta.
  destruct (xattr_permission k i name MAY_WRITE =? 0) eqn:E1; cbn [negb]; to_prop; [|by eexists _, _].
  destruct (sec_removexattr k name =? 0) eqn:E2; cbn [negb]; to_prop; [|by eexists _, _].
  rewrite (proj2 (Z.eqb_neq _ _) Ht). cbn [negb]. by eexists _, _.
Qed.

Lemma setxattr_locked_free k name v flags i e b i' :
  __vfs_setxattr_locked k name v flags 0 i = Some ((e, b), i') →
  b = false ∧
  (e = 0 → xattr_permission k i name MAY_WRITE = 0 ∧
           __vfs_setxattr_noperm k name v flags i = Some (0, i')).
Proof.
  unfold __vfs_setxattr_locked. rewrite (st_bind_step get _ i i i) by done. cbn beta.
  destruct (xattr_permission k i name MAY_WRITE =? 0) eqn:E1; cbn [negb]; to_prop.
  2: { intros [= <- <- <-]. done. }
  destruct (sec_setxattr k name v flags =? 0) eqn:E2; cbn [negb]; to_prop.
  2: { intros [= <- <- <-]. done. }
  cbn [Z.eqb negb]. intros H. apply st_bind_Some in H as (e' & i1 & H & [= -> <- ->]).
  split; [done|]. by intros ->.
Qed.

(** A name outside [security.] that resolves to a handler with a set operation. *)
Lemma setxattr_noperm_success k name v flags i i' h n set :
  has_prefix XATTR_SECURITY_PREFIX name = false →
  xattr_resolve_name i name = inl (h, n) → h_set h = Some set →
  __vfs_setxattr_noperm k name v flags i = Some (0, i') →
  ∃ f', set n (Some (default [] v)) flags (i_fs i) = Some (0, f') ∧ i' = set_fs f' i.
Proof.
  intros Hs Hr Hh. assert (i_opflags_xattr i = true) as Ho.
  { unfold xattr_resolve_name in Hr. by destruct (i_opflags_xattr i). }
  unfold __vfs_setxattr_noperm. rewrite Hs, (st_bind_step (mret tt) _ i tt i) by done. cbn beta.
  rewrite (st_bind_step get _ i i i) by done. cbn beta. rewrite Ho. cbn [negb andb].
  intros H. apply st_bind_Some in H as (e & i1 & E & H).
  destruct (e =? - EAGAIN) eqn:Hea; to_prop; [discriminate H|]. injection H as -> ->.
  revert E. unfold __vfs_setxattr. rewrite (st_bind_step get _ i i i) by done. cbn beta.
  rewrite Hr, Hh. unfold on_fs. destruct (set _ _ _ (i_fs i)) as [[r f']|]; [|done].
  intros [= -> <-]. eauto.
Qed.

Lemma vfs_setxattr_success k name v flags i i' h n set :
  has_prefix XATTR_SECURITY_PREFIX name = false →
  xattr_resolve_name i name = inl (h, n) → h_set h = Some set →
  vfs_setxattr k name v flags i = Some (0, i') →
  xattr_permission k i name MAY_WRITE = 0 ∧
  ∃ f', set n (Some (default [] v)) flags (i_fs i) = Some (0, f') ∧ i' = set_fs f' i.
Proof.
  intros Hs Hr Hh. unfold vfs_setxattr.
  replace (str_eq name XATTR_NAME_CAPS) with false.
  2: { symmetry. apply bool_decide_eq_false. intros ->. done. }
  rewrite andb_false_r. intros H.
  apply retry_success in H.
  - apply setxattr_locked_free in H as [_ H]. destruct (H eq_refl) as [Hp Hn].
    split; [done|]. by eapply setxattr_noperm_success.
  - intros. by apply setxattr_locked_busy.
  - intros i0 e b i1 E. by apply setxattr_locked_free in E as [-> _].
Qed.

(** A user-space name that the calls accept. *)
Definition valid_name (name : bytes) : Prop := 0 < Z.of_nat (length name) ≤ XATTR_NAME_MAX.

Lemma strncpy_valid name :
  valid_name name →
  strncpy_from_user (Some name) (XATTR_NAME_MAX + 1) = Z.of_nat (length name) ∧
  (Z.of_nat (length name) =? 0) = false ∧
  (Z.of_nat (length name) =? XATTR_NAME_MAX + 1) = false ∧
  (Z.of_nat (length name) <? 0) = false.
Proof.
  intros [H1 H2]. unfold strncpy_from_user, XATTR_NAME_MAX in *.
  split; [lia|]. rewrite !Z.eqb_neq, Z.ltb_ge. lia.
Qed.

Lemma setxattr_copy_success flags name size kvalue kname v :
  setxattr_copy flags name size kvalue = inr (kname, v) →
  ∃ n, name = Some n ∧ kname = n ∧ valid_name n ∧
    (size = 0 ∧ v = None ∨ size ≠ 0 ∧ size ≤ XATTR_SIZE_MAX ∧ ∃ w, kvalue = inl w ∧ v = Some w).
Proof.
  unfold setxattr_copy. destruct (negb _); [done|].
  destruct name as [n|]; cbn [strncpy_from_user default].
  2: { intros E. discriminate E. }
  destruct (_ || _) eqn:E1; [done|]. to_prop. destruct (_ <? 0) eqn:E2; [done|].
  intros Hr. exists n. split; [done|]. unfold valid_name, XATTR_NAME_MAX, id in *. to_prop.
  assert (kname = n ∧ (size = 0 ∧ v = None ∨ size ≠ 0 ∧ size ≤ XATTR_SIZE_MAX ∧
    ∃ w, kvalue = inl w ∧ v = Some w)) as [-> ?]; [|split_and!; [done|lia|lia|done]].
  destruct (size =? 0) eqn:E3; to_prop; [injection Hr as <- <-; auto|].
  destruct (XATTR_SIZE_MAX <? size) eqn:E4; to_prop; [done|].
  destruct kvalue as [w|]; [|done]. injection Hr as <- <-. split; [done|]. right. eauto.
Qed.
End paths.

(** What a user who asks with a buffer of [size] bytes gets for an attribute. *)
Definition user_get (o : option bytes) (size : Z) : Z * option bytes :=
  match o with
  | None => (- ENODATA, None)
  | Some v =>
      let len := Z.of_nat (length v) in
      if size =? 0 then (len, None)
      else if len =? 0 then (0, None)
      else if len <=? Z.min size XATTR_SIZE_MAX then (len, Some v)
      else if XATTR_SIZE_MAX <=? size then (- E2BIG, None) else (- ERANGE, None)
  end.

Section store.
Context {F : Type} `{AttrStore F}.
Implicit Type i : inode F.

(** The inode shows the store's attribute [n] as [name]. *)
Record shows (i : inode F) (name n : bytes) : Prop := {
  sh_valid : valid_name name;
  sh_security : has_prefix XATTR_SECURITY_PREFIX name = false;
  sh_acl : is_acl_name name = false;
  sh_resolve : ∃ p, xattr_resolve_name i name = inl (store_handler p, n) }.

Lemma shows_set_fs i f name n : shows i name n ↔ shows (set_fs f i) name n.
Proof. split; intros []; by split. Qed.

Lemma take_app_len (v r : bytes) : bytes_at (v ++ r) 0 (Z.of_nat (length v)) = Some v.
Proof.
  unfold bytes_at. rewrite length_app.
  rewrite !(proj2 (Z.leb_le _ _)) by lia. cbn [andb]. rewrite drop_0, Nat2Z.id. f_equal.
  by rewrite take_app_length.
Qed.

Lemma getxattr_ok k acl_fix i name n size :
  as_inv (i_fs i) → shows i name n → 0 ≤ size →
  xattr_permission k i name MAY_READ = 0 → sec_getxattr k name = 0 →
  getxattr k acl_fix true true i (Some name) size = Some (user_get (as_attrs (i_fs i) !! n) size).
Proof.
  intros Hi [Hv Hs Ha [p Hr]] Hz Hp Hg. unfold getxattr.
  destruct (strncpy_valid name Hv) as (-> & -> & -> & E4). cbn [orb]. rewrite E4.
  set (sz := if XATTR_SIZE_MAX <? size then XATTR_SIZE_MAX else size).
  assert (sz = Z.min size XATTR_SIZE_MAX) as Hsz.
  { unfold sz, XATTR_SIZE_MAX in *. clear -Hz. destruct (_ <? _) eqn:E; to_prop; lia. }
  rewrite andb_false_r. cbn [default]. unfold id.
  unfold vfs_getxattr. rewrite Hp, Hg, Hs. cbn [Z.eqb negb].
  unfold __vfs_getxattr. rewrite Hr. cbn [h_get store_handler]. rewrite as_get_law by done.
  unfold user_get. unfold XATTR_SIZE_MAX in *.
  destruct (as_attrs (i_fs i) !! n) as [v|]; cbn [get_answer].
  2: { cbn [Z.ltb Z.compare]. by destruct (sz =? 0). }
  destruct (size =? 0) eqn:H0; to_prop.
  - replace (sz =? 0) with true by (symmetry; apply Z.eqb_eq; lia).
    destruct (0 <? Z.of_nat (length v)) eqn:?; to_prop; [done|].
    rewrite (proj2 (Z.eqb_neq _ _)); [|unfold ERANGE; lia]. done.
  - replace (sz =? 0) with false by (symmetry; apply Z.eqb_neq; lia). cbn [fst].
    rewrite length_replicate. replace (Z.of_nat (Z.to_nat sz)) with sz by lia.
    destruct (sz <? Z.of_nat (length v)) eqn:Hlt; to_prop.
    + cbn [Z.ltb Z.compare Z.opp ERANGE]. cbn [Z.eqb Pos.eqb andb].
      rewrite (proj2 (Z.eqb_neq (Z.of_nat (length v)) 0)) by lia.
      rewrite (proj2 (Z.leb_gt (Z.of_nat (length v)) _)) by lia.
      destruct (65536 <=? sz) eqn:?, (65536 <=? size) eqn:?; to_prop; try done; lia.
    + rewrite Ha. destruct (0 <? Z.of_nat (length v)) eqn:Hl; to_prop.
      * cbn [mbind option_bind]. rewrite take_app_len.
        rewrite (proj2 (Z.eqb_neq (Z.of_nat (length v)) 0)) by lia.
        by rewrite (proj2 (Z.leb_le (Z.of_nat (length v)) _)) by lia.
      * rewrite (proj2 (Z.eqb_neq _ (- ERANGE))) by (unfold ERANGE; lia).
        rewrite (proj2 (Z.eqb_eq (Z.of_nat (length v)) 0)) by lia. cbn [andb].
        do 2 f_equal. lia.
Qed.

Lemma setxattr_ok k acl_fix i i' name n size v flags :
  as_inv (i_fs i) → shows i name n → Z.of_nat (length v) = size → size ≤ XATTR_SIZE_MAX →
  setxattr k acl_fix (Some name) size (inl v) flags i = Some (0, i') →
  xattr_permission k i name MAY_WRITE = 0 ∧ flags_allow (as_attrs (i_fs i) !! n) flags = true ∧
  ∃ f', i' = set_fs f' i ∧ as_inv f' ∧ as_attrs f' = <[n := v]> (as_attrs (i_fs i)).
Proof.
  intros Hi Hsh Hv Hm. pose proof Hsh as [_ Hs Ha [p Hr]]. unfold setxattr.
  destruct (setxattr_copy flags (Some name) size (inl v)) as [err|[kname w]] eqn:E.
  { revert E. unfold setxattr_copy. intros E [= -> _]. revert E.
    destruct (negb _); [done|]. cbn [strncpy_from_user].
    destruct (strncpy_valid name (sh_valid _ _ _ Hsh)) as (E1 & E2 & E3 & E4).
    cbn in E1. rewrite E1, E2, E3, E4. cbn [orb]. destruct (size =? 0); [done|].
    by destruct (XATTR_SIZE_MAX <? size). }
  apply setxattr_copy_success in E as (? & [= <-] & -> & _ & Hw).
  unfold do_setxattr.
  replace (setxattr_convert acl_fix name w) with w.
  2: { unfold setxattr_convert. destruct w; [|done]. by rewrite Ha. }
  intros E. eapply vfs_setxattr_success in E as (Hp & f' & E & ->); [|done|done|done].
  split; [done|].
  assert (default [] w = v) as Hd.
  { destruct Hw as [[-> ->]|(_ & _ & ? & [= <-] & ->)]; [|done]. by destruct v. }
  rewrite Hd in E.
  destruct (as_set_law (i_fs i) n (Some v) flags Hi) as (r & f1 & E1 & I1 & Hres);
    [done|cbn; unfold id; lia|].
  rewrite E1 in E. injection E as -> ->.
  destruct (flags_allow _ flags); [|lia]. split; [done|].
  exists f'. split_and!; [done|done|]. by destruct Hres as [[_ ?]|[? _]]; [|lia].
Qed.

End store.

(** C3: A successful [setxattr] of a value on a name that the inode shows makes
    exactly that attribute change, and the next [getxattr] by anyone who may
    read returns exactly the value, for every buffer size: with size zero its
    length, with a large enough buffer its bytes, else ERANGE.  All other names
    read as before.  Holds for every handler that implements the store
    interface. *)
Theorem setxattr_getxattr {F} `{AttrStore F} k acl_fix i i' name n size v flags :
  as_inv (i_fs i) → shows i name n → Z.of_nat (length v) = size → size ≤ XATTR_SIZE_MAX →
  setxattr k acl_fix (Some name) size (inl v) flags i = Some (0, i') →
  as_inv (i_fs i') ∧
  ∀ k2 acl_fix2 size2, 0 ≤ size2 →
    (xattr_permission k2 i' name MAY_READ = 0 → sec_getxattr k2 name = 0 →
     getxattr k2 acl_fix2 true true i' (Some name) size2 = Some (user_get (Some v) size2)) ∧
    ∀ name' n', shows i name' n' → n' ≠ n →
      xattr_permission k2 i name' MAY_READ = 0 → sec_getxattr k2 name' = 0 →
      getxattr k2 acl_fix2 true true i' (Some name') size2 =
      getxattr k2 acl_fix2 true true i (Some name') size2.
Proof.
  intros Hi Hsh Hv Hm E.
  destruct (setxattr_ok k acl_fix i i' name n size v flags Hi Hsh Hv Hm E)
    as (_ & _ & f' & -> & I' & A').
  split; [done|]. intros k2 fix2 size2 Hz. split.
  - intros Hp Hg. rewrite (getxattr_ok k2 fix2 _ name n size2); [|done|by apply shows_set_fs|done..].
    cbn. by rewrite A', lookup_insert_eq.
  - intros name' n' Hsh' Hne Hp Hg.
    rewrite (getxattr_ok k2 fix2 _ name' n' size2); [|done|by apply shows_set_fs|done..].
    rewrite (getxattr_ok k2 fix2 i name' n' size2) by done.
    cbn. by rewrite A', lookup_insert_ne.
Qed.

(** A regular file of an in-memory file system with [user.] and [custom.]. *)
Definition demo_inode (l : simple_xattrs) : inode simple_xattrs :=
  Inode [store_handler XATTR_USER_PREFIX; store_handler XATTR_CUSTOM_PREFIX] true false false false
    false 33188 false l.

Definition demo_hooks (cap : bool) : hooks :=
  Hooks cap true (λ _, 0) (λ _ _ _, 0) (λ _, 0) (λ _, 0) 0 (λ _, (- EOPNOTSUPP, []))
    (λ _ _ _, - EOPNOTSUPP) (λ b, (0, b)) (λ v, (0, v)) [(- EWOULDBLOCK, 0)].

Definition demo_name : bytes := Eval cbv in s2b "user.a".

Lemma setxattr_getxattr_witness :
  setxattr (demo_hooks false) id (Some demo_name) 2 (inl [7; 8]) 0 (demo_inode []) =
    Some (0, demo_inode [SimpleXattr [97] [7; 8]]) ∧
  as_inv (i_fs (demo_inode [SimpleXattr [97] [7; 8]])) ∧
  ∀ k2 acl_fix2 size2, 0 ≤ size2 →
    (xattr_permission k2 (demo_inode [SimpleXattr [97] [7; 8]]) demo_name MAY_READ = 0 →
     sec_getxattr k2 demo_name = 0 →
     getxattr k2 acl_fix2 true true (demo_inode [SimpleXattr [97] [7; 8]]) (Some demo_name) size2 =
       Some (user_get (Some [7; 8]) size2)) ∧
    ∀ name' n', shows (demo_inode []) name' n' → n' ≠ [97] →
      xattr_permission k2 (demo_inode []) name' MAY_READ = 0 → sec_getxattr k2 name' = 0 →
      getxattr k2 acl_fix2 true true (demo_inode [SimpleXattr [97] [7; 8]]) (Some name') size2 =
      getxattr k2 acl_fix2 true true (demo_inode []) (Some name') size2.
Proof.
  split; [reflexivity|].
  apply (setxattr_getxattr (demo_hooks false) id (demo_inode []) (demo_inode [SimpleXattr [97] [7; 8]])
    demo_name [97] 2 [7; 8] 0).
  - apply NoDup_nil_2.
  - split; [split; first [reflexivity | discriminate]|reflexivity|reflexivity|].
    exists XATTR_USER_PREFIX. reflexivity.
  - reflexivity.
  - unfold XATTR_SIZE_MAX. lia.
  - reflexivity.
Defined.

(** ** The custom namespace *)

Section custom.
Context {F : Type}.
Implicit Type i : inode F.

Lemma custom_not_security name :
  has_prefix XATTR_CUSTOM_PREFIX name = true → has_prefix XATTR_SECURITY_PREFIX name = false.
Proof. intros [r ->]%has_prefix_spec. reflexivity. Qed.

Lemma custom_permission k i name mask :
  has_prefix XATTR_CUSTOM_PREFIX name = true → capable_sys_admin k = false →
  xattr_permission k i name mask =
    if Z.land mask MAY_WRITE =? 0 then - ENODATA else - EPERM.
Proof.
  intros Hp Hc. unfold xattr_permission. rewrite Hp, Hc.
  destruct (Z.land mask MAY_WRITE =? 0); cbn [negb andb]; [done|].
  by destruct (i_immutable i || i_append i), (i_unmapped i).
Qed.

Lemma vfs_setxattr_denied k name v flags i e :
  (∀ w, str_eq name XATTR_NAME_CAPS = true → (cap_convert_nscap k w).1 = 0) →
  xattr_permission k i name MAY_WRITE = e → e ≠ 0 →
  vfs_setxattr k name v flags i = Some (e, i).
Proof.
  intros Hcap Hp He. unfold vfs_setxattr.
  assert (∀ w t, __vfs_setxattr_locked k name w flags t i = Some ((e, false), i)) as Hl.
  { intros w t. unfold __vfs_setxattr_locked. rewrite (st_bind_step get _ i i i) by done. cbn beta.
    rewrite Hp. by rewrite (proj2 (Z.eqb_neq _ _) He). }
  destruct (_ && _) eqn:Ha; [|by apply retry_refused].
  apply andb_prop in Ha as [_ Ha]. specialize (Hcap (default [] v) Ha).
  destruct (cap_convert_nscap k (default [] v)) as [e' w]. cbn in Hcap. subst e'.
  cbn [Z.ltb Z.compare]. by apply retry_refused.
Qed.

Lemma vfs_removexattr_denied k name i e :
  xattr_permission k i name MAY_WRITE = e → e ≠ 0 → vfs_removexattr k name i = Some (e, i).
Proof.
  intros Hp He. apply retry_refused. intros t. unfold __vfs_removexattr_locked.
  rewrite (st_bind_step get _ i i i) by done. cbn beta. rewrite Hp.
  by rewrite (proj2 (Z.eqb_neq _ _) He).
Qed.

End custom.

(** C14: The [custom.] namespace belongs to privileged tasks.  Whatever the file
    system, its handlers, the security hooks and the delegations: without
    CAP_SYS_ADMIN a set or removal of a custom attribute fails with EPERM and
    changes nothing, and a get reports ENODATA and copies no byte. *)
Theorem custom_namespace_guarded {F} (i : inode F) k acl_fix name :
  has_prefix XATTR_CUSTOM_PREFIX name = true → capable_sys_admin k = false → valid_name name →
  (∀ v flags, Z.of_nat (length v) ≤ XATTR_SIZE_MAX →
     Z.land flags (Z.lnot (Z.lor XATTR_CREATE XATTR_REPLACE)) = 0 →
     setxattr k acl_fix (Some name) (Z.of_nat (length v)) (inl v) flags i = Some (- EPERM, i)) ∧
  removexattr k (Some name) i = Some (- EPERM, i) ∧
  (∀ writable size, 0 ≤ size →
     getxattr k acl_fix true writable i (Some name) size = Some (- ENODATA, None)).
Proof.
  intros Hc Hk Hv. destruct (strncpy_valid name Hv) as (E1 & E2 & E3 & E4).
  pose proof (custom_permission k i name MAY_WRITE Hc Hk) as Hw.
  pose proof (custom_permission k i name MAY_READ Hc Hk) as Hr. cbn in Hw, Hr.
  assert (str_eq name XATTR_NAME_CAPS = false) as Hcaps.
  { apply bool_decide_eq_false. intros ->. discriminate Hc. }
  split; [|split].
  - intros v flags Hlen Hfl. unfold setxattr, setxattr_copy.
    rewrite Hfl, E1, E2, E3, E4. cbn [Z.eqb negb orb default]. unfold id.
    assert (∀ w, do_setxattr k acl_fix name w flags i = Some (- EPERM, i)) as Hd.
    { intros w. apply vfs_setxattr_denied; [intros u E; by rewrite Hcaps in E|done|done]. }
    destruct (Z.of_nat (length v) =? 0); [apply Hd|]. rewrite (proj2 (Z.ltb_ge _ _)) by done. apply Hd.
  - unfold removexattr. rewrite E1, E2, E3. cbn [orb]. rewrite E4.
    by apply vfs_removexattr_denied.
  - intros writable size Hz. unfold getxattr. rewrite E1, E2, E3. cbn [orb]. rewrite E4.
    rewrite andb_false_r. cbn [default]. unfold vfs_getxattr, id. rewrite Hr. done.
Qed.

Lemma custom_namespace_guarded_witness :
  let name := XATTR_CUSTOM_PREFIX ++ [97] in
  let i := demo_inode [SimpleXattr [97] [7; 8]] in
  (∀ v flags, Z.of_nat (length v) ≤ XATTR_SIZE_MAX →
     Z.land flags (Z.lnot (Z.lor XATTR_CREATE XATTR_REPLACE)) = 0 →
     setxattr (demo_hooks false) id (Some name) (Z.of_nat (length v)) (inl v) flags i = Some (- EPERM, i)) ∧
  removexattr (demo_hooks false) (Some name) i = Some (- EPERM, i) ∧
  (∀ writable size, 0 ≤ size →
     getxattr (demo_hooks false) id true writable i (Some name) size = Some (- ENODATA, None)).
Proof.
  apply (custom_namespace_guarded (demo_inode [SimpleXattr [97] [7; 8]]) (demo_hooks false) id
    (XATTR_CUSTOM_PREFIX ++ [97])).
  - reflexivity.
  - reflexivity.
  - split; [reflexivity|discriminate].
Defined.

(** ** Name resolution *)

Lemma strcmp_prefix_spec a p n : strcmp_prefix a p = Some n ↔ a = p ++ n.
Proof.
  revert p. induction a as [|x a IH]; intros [|y p]; simpl; try done.
  - split; [by intros [= <-]|by intros ->].
  - split; [by intros [= <-]|by intros ->].
  - destruct (x =? y) eqn:E; to_prop.
    + rewrite IH. subst. split; [by intros ->|by intros [= ->]].
    + split; [done|]. intros [= -> _]. done.
Qed.

(** The handler is for [name], leaving [n]: a prefix handler needs a suffix, a
    name handler the exact name. *)
Definition handles {F} (h : xattr_handler F) (name n : bytes) : Prop :=
  name = xattr_prefix h ++ n ∧ (match h_prefix h with Some _ => n ≠ [] | None => n = [] end).

(** A handler that the loop passes over: its prefix does not match, or it is a
    name handler and the name is longer. *)
Definition passed {F} (name : bytes) (h : xattr_handler F) : Prop :=
  ∀ n, name = xattr_prefix h ++ n → h_prefix h = None ∧ n ≠ [].

Lemma resolve_spec {F} (hs : list (xattr_handler F)) name h n :
  resolve hs name = inl (h, n) ↔
  ∃ hs1 hs2, hs = hs1 ++ h :: hs2 ∧ handles h name n ∧ Forall (passed name) hs1.
Proof.
  split.
  - induction hs as [|h' hs IH]; simpl; [done|].
    assert (resolve hs name = inl (h, n) → passed name h' →
      ∃ hs1 hs2, h' :: hs = hs1 ++ h :: hs2 ∧ handles h name n ∧ Forall (passed name) hs1) as Hskip.
    { intros Hr Hp. destruct (IH Hr) as (hs1 & hs2 & -> & Hh & Hf).
      exists (h' :: hs1), hs2. split; [done|]. split; [done|]. by constructor. }
    destruct (strcmp_prefix name (xattr_prefix h')) as [m|] eqn:E.
    2: { intros Hr. apply Hskip; [done|]. intros m Hm%strcmp_prefix_spec. congruence. }
    apply strcmp_prefix_spec in E as E'.
    destruct (h_prefix h') as [p|] eqn:Hp, m as [|c m]; simpl; try done.
    + intros [= <- <-]. exists [], hs. split; [done|]. split; [|constructor].
      split; [done|]. by rewrite Hp.
    + intros [= <- <-]. exists [], hs. split; [done|]. split; [|constructor].
      split; [done|]. by rewrite Hp.
    + intros Hr. apply Hskip; [done|]. intros m' Hm'. split; [done|]. intros ->.
      apply strcmp_prefix_spec in Hm'. congruence.
  - intros (hs1 & hs2 & -> & [Hn Hh] & Hf). induction Hf as [|h' hs1 Hp _ IH]; simpl.
    + rewrite (proj2 (strcmp_prefix_spec _ _ n) Hn).
      destruct (h_prefix h), n; simpl; done.
    + destruct (strcmp_prefix name (xattr_prefix h')) as [m|] eqn:E; [|done].
      apply strcmp_prefix_spec in E. destruct (Hp _ E) as [-> Hm]. by destruct m.
Qed.

(** [xattr_resolve_name] finds a handler exactly when the inode has extended
    attributes and the handler is the first one that is not passed over; the
    returned suffix makes the full name again, is never empty for a prefix
    handler and empty for a name handler. *)
Theorem xattr_resolve_name_spec {F} (i : inode F) name h n :
  xattr_resolve_name i name = inl (h, n) ↔
  i_opflags_xattr i = true ∧
  ∃ hs1 hs2, i_handlers i = hs1 ++ h :: hs2 ∧ handles h name n ∧ Forall (passed name) hs1.
Proof.
  unfold xattr_resolve_name. rewrite <-resolve_spec.
  destruct (i_opflags_xattr i); cbn [negb]; [split; [done|by intros [_ ?]]|].
  split; [by destruct (i_bad i)|by intros [? _]].
Qed.

(** ** Listing *)

Definition with_nul (n : bytes) : bytes := n ++ [0].

(** How a reader of the list takes it apart. *)
Fixpoint split_list (cur l : bytes) : list bytes :=
  match l with
  | [] => []
  | c :: l => if c =? 0 then cur :: split_list [] l else split_list (cur ++ [c]) l
  end.

Definition no_nul (n : bytes) : Prop := Forall (λ c, c ≠ 0) n.

Lemma split_list_nul n cur l :
  no_nul n → split_list cur (n ++ 0 :: l) = (cur ++ n) :: split_list [] l.
Proof.
  revert cur. induction n as [|c n IH]; intros cur Hn; simpl.
  - by rewrite app_nil_r.
  - apply Forall_cons in Hn as [Hc Hn]. rewrite (proj2 (Z.eqb_neq _ _) Hc), IH by done.
    by rewrite <-app_assoc.
Qed.

Lemma split_list_names ns : Forall no_nul ns → split_list [] (concat (with_nul <$> ns)) = ns.
Proof.
  induction 1 as [|n ns Hn _ IH]; [done|]. simpl. unfold with_nul at 1.
  rewrite <-app_assoc. simpl. rewrite split_list_nul by done. simpl. f_equal. exact IH.
Qed.

(** The names that the caller sees. *)
Definition visible (trusted posixacl acl default_acl : bool) (l : simple_xattrs) : list bytes :=
  (if posixacl then
     (if acl then [XATTR_NAME_POSIX_ACL_ACCESS] else []) ++
     (if default_acl then [XATTR_NAME_POSIX_ACL_DEFAULT] else [])
   else []) ++ base.filter (λ n, trusted = true ∨ xattr_is_trusted n = false) (sx_name <$> l).

Definition names_size (ns : list bytes) : Z := Z.of_nat (length (concat (with_nul <$> ns))).

Lemma names_size_cons n ns : names_size (n :: ns) = Z.of_nat (length n) + 1 + names_size ns.
Proof.
  unfold names_size. change (concat (with_nul <$> n :: ns)) with (with_nul n ++ concat (with_nul <$> ns)).
  rewrite length_app. unfold with_nul at 1. rewrite length_app. simpl. lia.
Qed.

Lemma names_size_pos ns : 0 ≤ names_size ns.
Proof. unfold names_size. lia. Qed.

(** Both loops add names one by one. *)
Lemma list_one_ok b r n :
  (∀ w, b = Some w → 0 ≤ r) →
  xattr_list_one (b, r) n =
    if match b with Some _ => r <? Z.of_nat (length n) + 1 | None => false end then None
    else Some ((λ b, b ++ with_nul n) <$> b, r - (Z.of_nat (length n) + 1)).
Proof. intros H. unfold xattr_list_one, with_nul. destruct b as [b|]; [|done]. by destruct (_ <? _). Qed.

Lemma list_acls_ok ns b r :
  (∀ w, b = Some w → 0 ≤ r) →
  list_acls ns (b, r) =
    if match b with Some _ => r <? names_size ns | None => false end then None
    else Some ((λ b, b ++ concat (with_nul <$> ns)) <$> b, r - names_size ns).
Proof.
  revert b r. induction ns as [|n ns IH]; intros b r Hr.
  { change (names_size []) with 0. rewrite Z.sub_0_r. simpl. destruct b as [b|]; [|done].
    rewrite (proj2 (Z.ltb_ge _ _)) by eauto. cbn. by rewrite app_nil_r. }
  pose proof (names_size_pos ns). cbn [list_acls]. rewrite list_one_ok, names_size_cons by done.
  destruct b as [b|]; cbn [fmap option_fmap option_map].
  - specialize (Hr _ eq_refl). destruct (r <? Z.of_nat (length n) + 1) eqn:E; to_prop.
    { by rewrite (proj2 (Z.ltb_lt _ _)) by lia. }
    rewrite IH by (intros; lia). cbn [fmap option_fmap option_map].
    replace (r - (Z.of_nat (length n) + 1) <? names_size ns)
      with (r <? Z.of_nat (length n) + 1 + names_size ns).
    + destruct (_ <? _); [done|]. rewrite <-app_assoc. do 2 f_equal. lia.
    + apply eq_iff_eq_true. rewrite !Z.ltb_lt. lia.
  - rewrite IH by done. cbn. do 2 f_equal. lia.
Qed.

(** The second loop is the first one on the names it does not skip. *)
Lemma list_names_acls trusted l st :
  list_names trusted l st =
  list_acls (base.filter (λ n, trusted = true ∨ xattr_is_trusted n = false) (sx_name <$> l)) st.
Proof.
  revert st. induction l as [|x l IH]; intros st; [done|].
  simpl. destruct (negb trusted && xattr_is_trusted (sx_name x)) eqn:E.
  - rewrite filter_cons_False; [done|]. to_prop. intros [?|?]; congruence.
  - rewrite filter_cons_True; [|apply andb_false_iff in E as [E|E]; to_prop; auto].
    simpl. destruct (xattr_list_one st (sx_name x)); done.
Qed.

Lemma list_acls_app ns ns' st :
  list_acls (ns ++ ns') st = match list_acls ns st with Some st => list_acls ns' st | None => None end.
Proof.
  revert st. induction ns as [|n ns IH]; intros st; [done|]. simpl.
  destruct (xattr_list_one st n); [apply IH|done].
Qed.

Lemma simple_xattr_list_ok trusted posixacl acl default_acl l buffer :
  (∀ size, buffer = Some size → 0 ≤ size) →
  let ns := visible trusted posixacl acl default_acl l in
  simple_xattr_list trusted posixacl acl default_acl l buffer =
    if match buffer with Some size => size <? names_size ns | None => false end then (- ERANGE, [])
    else (names_size ns, match buffer with Some _ => concat (with_nul <$> ns) | None => [] end).
Proof.
  intros Hb ns. unfold simple_xattr_list.
  set (acls := if posixacl then _ else _). set (st0 := ((λ _, []) <$> buffer, default 0 buffer)).
  assert (list_acls ns st0 = match list_acls acls st0 with
    Some st => list_names trusted l st | None => None end) as E.
  { unfold ns, visible. fold acls. rewrite list_acls_app. destruct (list_acls acls st0); [|done].
    symmetry. apply list_names_acls. }
  unfold st0 in E. rewrite list_acls_ok in E.
  2: { intros w Hw. destruct buffer as [size|]; [|done]. cbn. unfold id. eauto. }
  destruct buffer as [size|]; cbn in E |- *; unfold id in *.
  - destruct (size <? names_size ns).
    + destruct (list_acls acls _) as [st|]; [|done]. by rewrite <-E.
    + destruct (list_acls acls _) as [st|]; [|done]. rewrite <-E. cbn. unfold id. f_equal. lia.
  - destruct (list_acls acls _) as [st|]; [|done]. rewrite <-E. cbn. unfold id. f_equal. lia.
Qed.

(** [simple_xattr_list] without a buffer returns exactly the size of the
    list; with a buffer of at least that size it returns the same number and
    writes the visible names (ACL names first, then the attributes in list
    order, without [trusted.] names for an unprivileged caller), each ended by a
    NUL, so that reading them back gives the names; with less room it fails
    with ERANGE. *)
Theorem simple_xattr_list_roundtrip trusted posixacl acl default_acl l size :
  0 ≤ size → Forall no_nul (sx_name <$> l) →
  let ns := visible trusted posixacl acl default_acl l in
  simple_xattr_list trusted posixacl acl default_acl l None = (names_size ns, []) ∧
  (names_size ns ≤ size →
   ∃ b, simple_xattr_list trusted posixacl acl default_acl l (Some size) = (names_size ns, b) ∧
        Z.of_nat (length b) = names_size ns ∧ split_list [] b = ns) ∧
  (size < names_size ns →
   simple_xattr_list trusted posixacl acl default_acl l (Some size) = (- ERANGE, [])).
Proof.
  intros H0 Hn ns. split_and!.
  - by rewrite simple_xattr_list_ok.
  - intros H. exists (concat (with_nul <$> ns)).
    rewrite simple_xattr_list_ok by (intros ? [= <-]; done). fold ns.
    rewrite (proj2 (Z.ltb_ge _ _)) by done. split_and!; [done|done|].
    apply split_list_names. unfold ns, visible. apply Forall_app. split.
    + destruct posixacl, acl, default_acl; cbn; repeat constructor; done.
    + apply Forall_forall. intros n [_ Hin]%list_elem_of_filter.
      by apply (proj1 (Forall_forall _ _) Hn).
  - intros H. rewrite simple_xattr_list_ok by (intros ? [= <-]; done). fold ns.
    by rewrite (proj2 (Z.ltb_lt _ _)).
Qed.

Lemma simple_xattr_list_roundtrip_witness :
  let l := [SimpleXattr demo_name [1]; SimpleXattr (XATTR_TRUSTED_PREFIX ++ [98]) [2]] in
  let ns := visible false true true false l in
  simple_xattr_list false true true false l None = (names_size ns, []) ∧
  (names_size ns ≤ 64 →
   ∃ b, simple_xattr_list false true true false l (Some 64) = (names_size ns, b) ∧
        Z.of_nat (length b) = names_size ns ∧ split_list [] b = ns) ∧
  (64 < names_size ns → simple_xattr_list false true true false l (Some 64) = (- ERANGE, [])).
Proof.
  apply (simple_xattr_list_roundtrip false true true false
    [SimpleXattr demo_name [1]; SimpleXattr (XATTR_TRUSTED_PREFIX ++ [98]) [2]] 64).
  - lia.
  - repeat constructor; discriminate.
Defined.

End Xattr.
