(* ===== verification/SocketFile.v ===== *)
(** * Sockets as files, and inside the kernel

    net/socket.c: the file operations of a socket, the calls that other kernel code
    makes ([kernel_accept] and the others), the table of protocol families, ioctl,
    the control messages of a received packet, and the extended attributes of the
    pseudo file system of sockets (with the VFS part of Xattr).

    What protocols, devices and user memory answer is given to each function. *)

From Stdlib Require Import ZArith Lia.
From stdpp Require Import base numbers list gmap strings.
From S2P Require Import Prelude SocketFairness SocketCore SocketSyscalls Xattr.

Module SocketFile.
Import SocketFairness SocketCore SocketSyscalls.

Definition ESPIPE : Z := 29.
Definition ENOPKG : Z := 65.
Definition ENOTTY : Z := 25.
Definition ENOIOCTLCMD : Z := 515.
Definition ENOBUFS : Z := 105.
Definition SOCK_SEQPACKET : Z := 5.
Definition MSG_EOR : Z := 128.
Definition AF_INET : Z := 2.
Definition AF_INET6 : Z := 10.

(** ** File operations *)

(** [file->private_data]. *)
Definition private_data (f : Z) : wst (file * Z) :=
  fl ← load_file f;
  match f_sock fl with Some id => mret (fl, id) | None => fault end.

Definition nonblock_flags (fl : file) (nowait : bool) : Z :=
  if negb (Z.land (f_flags fl) O_NONBLOCK =? 0) || nowait then MSG_DONTWAIT else 0.

(** The answer, and how much of the buffer is left. *)
Definition sock_read_iter (mem : bool) (jiffies sec : Z) (recv : Z → msghdr → Z * msghdr) (pid f ki_pos : Z) (nowait : bool) (count : Z) :
    wst (Z * Z) :=
  p ← private_data f;
  let flags := nonblock_flags p.1 nowait in
  if negb (ki_pos =? 0) then mret (- ESPIPE, count)
  else if count =? 0 then mret (0, count)
  else
    r ← sock_recvmsg mem jiffies sec (recv flags) pid p.2 (Msg None 0 count);
    mret (r.1, msg_left r.2).

Definition sock_write_iter (mem : bool) (sec : Z) (send : Z → msghdr → Z * msghdr) (pid f ki_pos : Z) (nowait : bool) (count : Z) :
    wst (Z * Z) :=
  p ← private_data f;
  if negb (ki_pos =? 0) then mret (- ESPIPE, count)
  else
    let flags := nonblock_flags p.1 nowait in
    s ← load_sock p.2;
    let flags := if so_type s =? SOCK_SEQPACKET then Z.lor flags MSG_EOR else flags in
    r ← __sock_sendmsg mem sec (send flags) pid p.2 (Msg None 0 count);
    mret (r.1, msg_left r.2).

(** [sendpage]: the operation of the protocol, if it has one; [no_sendpage] is
    sock_no_sendpage for the page. *)
Definition kernel_sendpage (sendpage : option (Z → Z → Z)) (no_sendpage : Z → Z → wst Z) (id size flags : Z) : wst Z :=
  s ← load_sock id;
  match so_ops s with
  | None => fault
  | Some _ => match sendpage with Some sp => mret (sp size flags) | None => no_sendpage size flags end
  end.

Definition kernel_sendpage_locked := kernel_sendpage.

Definition sock_sendpage (sendpage : option (Z → Z → Z)) (no_sendpage : Z → Z → wst Z) (f size more : Z) : wst Z :=
  p ← private_data f;
  kernel_sendpage sendpage no_sendpage p.2 size (Z.lor (nonblock_flags p.1 false) more).

Definition sock_splice_read (splice_read : option Z) (generic : wst Z) (f : Z) : wst Z :=
  p ← private_data f;
  s ← load_sock p.2;
  match so_ops s with
  | None => fault
  | Some _ => match splice_read with Some r => mret r | None => generic end
  end.

Definition POLL_BUSY_LOOP : Z := 0x8000.

(** [poll]: the operation of the protocol; the count is that of the busy polls. *)
Definition sock_poll (poll : option Z) (can_busy_loop : bool) (events f : Z) : wst (Z * Z) :=
  p ← private_data f;
  s ← load_sock p.2;
  match so_ops s, poll with
  | None, _ => fault
  | Some _, None => mret (0, 0)
  | Some _, Some r =>
      if can_busy_loop then mret (Z.lor r POLL_BUSY_LOOP, if negb (Z.land events POLL_BUSY_LOOP =? 0) then 1 else 0)
      else mret (Z.lor r 0, 0)
  end.

Definition sock_mmap (mmap : Z) (f : Z) : wst Z :=
  p ← private_data f;
  s ← load_sock p.2;
  match so_ops s with None => fault | Some _ => mret mmap end.

(** ** Calls of other kernel code *)

(** [struct sockaddr_storage] on the stack: the bytes that the protocol is given. *)
Definition storage_of (addr : list Z) (addrlen : Z) : option (list Z) :=
  if addrlen <=? 128 then bytes_at addr 0 addrlen else None.

Definition kernel_bind (bind : list Z → Z) (id : Z) (addr : list Z) (addrlen : Z) : wst Z :=
  a ← lift (storage_of addr addrlen);
  s ← load_sock id;
  match so_ops s with None => fault | Some _ => mret (bind a) end.

Definition kernel_connect (connect : list Z → Z → Z) (id : Z) (addr : list Z) (addrlen flags : Z) : wst Z :=
  a ← lift (storage_of addr addrlen);
  s ← load_sock id;
  match so_ops s with None => fault | Some _ => mret (connect a flags) end.

(** An operation of the protocol that is given no address. *)
Definition protocol_call (answer : Z) (id : Z) : wst Z :=
  s ← load_sock id;
  match so_ops s with None => fault | Some _ => mret answer end.

Definition kernel_listen (listen : Z → Z) (id backlog : Z) : wst Z := protocol_call (listen backlog) id.
Definition kernel_getsockname (getname : bool → Z) (id : Z) : wst Z := protocol_call (getname false) id.
Definition kernel_getpeername (getname : bool → Z) (id : Z) : wst Z := protocol_call (getname true) id.
Definition kernel_sock_shutdown (shutdown : Z → Z) (id how : Z) : wst Z := protocol_call (shutdown how) id.

Definition kernel_sendmsg_locked (sendmsg_locked : option (msghdr → Z * msghdr)) (no_sendmsg : Z) (id : Z) (msg : msghdr) (size : Z) :
    wst (Z * msghdr) :=
  s ← load_sock id;
  match so_ops s with
  | None => fault
  | Some _ =>
      match sendmsg_locked with
      | None => mret (no_sendmsg, msg)
      | Some send => mret (send (Msg (msg_name msg) (msg_namelen msg) size))
      end
  end.

(** What the calls of [kernel_accept] answer; [ka_accept] also gives the protocol
    socket that accept puts into the new socket. *)
Record kaccept_env := KacceptEnv {
  ka_security : Z;
  ka_post : Z;
  ka_inode : option Z;
  ka_type : Z;                 (** sk->sk_type *)
  ka_accept : Z * option Z }.

Definition kernel_accept (e : kaccept_env) (pid id : Z) : wst (Z * option Z) :=
  sock ← load_sock id;
  match so_sk sock with
  | None => fault
  | Some _ =>
      r ← sock_create_lite (ka_security e) (ka_post e) (ka_inode e) pid (ka_type e);
      let '(err, newsock) := r in
      if err <? 0 then mret (err, newsock)
      else
        match newsock, so_ops sock with
        | Some nid, Some o =>
            update_sock nid (set_sk (ka_accept e).2) ;;
            if (ka_accept e).1 <? 0 then sock_release pid nid ;; mret ((ka_accept e).1, None)
            else
              update_sock nid (set_ops (Some o)) ;;
              modify (add_ref (ops_owner o) 1) ;;
              mret ((ka_accept e).1, Some nid)
        | _, _ => fault
        end
  end.

(** [opt]: the length of the IPv4 options; [opt6]: the two lengths of the IPv6 ones. *)
Definition kernel_sock_ip_overhead (family : option Z) (opt : option Z) (opt6 : option (Z * Z)) : Z :=
  match family with
  | None => 0
  | Some fam =>
      if fam =? AF_INET then u32 (20 + default 0 opt)
      else if fam =? AF_INET6 then u32 (40 + match opt6 with Some (a, b) => a + b | None => 0 end)
      else 0
  end.

(** ** Protocol families *)

(** [net_families]: the owner of the operations of each family. *)
Abbreviation families := (gmap Z (option Z)).

Definition sock_register (family : Z) (owner : option Z) : st families Z :=
  if NPROTO <=? family then mret (- ENOBUFS)
  else if family <? 0 then fault
  else
    t ← get;
    match t !! family with
    | Some _ => mret (- EEXIST)
    | None => put (<[family := owner]> t) ;; mret 0
    end.

Definition sock_unregister (family : Z) : st families unit :=
  if (family <? 0) || (NPROTO <=? family) then fault
  else modify (delete family).

Definition sock_is_registered (family : Z) : st families bool :=
  if NPROTO <=? family then mret false
  else if family <? 0 then fault
  else
    t ← get;
    mret (bool_decide (is_Some (t !! family))).

(** ** ioctl *)

Definition SIOCDEVPRIVATE : Z := 0x89F0.
Definition SIOCIWFIRST : Z := 0x8B00.
Definition SIOCIWLAST : Z := 0x8BFF.
Definition FIOSETOWN : Z := 0x8901.
Definition SIOCSPGRP : Z := 0x8902.
Definition FIOGETOWN : Z := 0x8903.
Definition SIOCGPGRP : Z := 0x8904.
Definition SIOCGSTAMP_OLD : Z := 0x8906.
Definition SIOCGSTAMPNS_OLD : Z := 0x8907.
Definition SIOCGSTAMP_NEW : Z := 0x80108906.
Definition SIOCGSTAMPNS_NEW : Z := 0x80108907.
Definition SIOCGIFCONF : Z := 0x8912.
Definition SIOCGIFBR : Z := 0x8940.
Definition SIOCSIFBR : Z := 0x8941.
Definition SIOCGIFVLAN : Z := 0x8982.
Definition SIOCSIFVLAN : Z := 0x8983.
Definition SIOCBRADDBR : Z := 0x89a0.
Definition SIOCBRDELBR : Z := 0x89a1.
Definition SIOCGSKNS : Z := 0x894C.

(** What the handlers of other parts answer, and whether user memory can be read and
    written. *)
Record ioctl_env := IoctlEnv {
  io_proto : Z;                    (** ops->ioctl *)
  io_is_socket_cmd : bool;         (** is_socket_ioctl_cmd *)
  io_get_ifreq : bool;
  io_put_ifreq : bool;
  io_dev : Z * bool;               (** dev_ioctl, need_copyout *)
  io_wext : option Z;              (** CONFIG_WEXT_CORE: wext_handle_ioctl *)
  io_get_pid : option Z;
  io_setown : Z → Z;
  io_put_owner : Z;
  io_br_hook : option Z;           (** the hook after request_module *)
  io_vlan_hook : option Z;
  io_admin : bool;                 (** ns_capable *)
  io_netns : Z;
  io_gettstamp : option (bool → bool → Z);
  io_ifconf : Z }.

Definition br_ioctl_call (e : ioctl_env) : Z := default (- ENOPKG) (io_br_hook e).

Definition get_user_ifreq (e : ioctl_env) : Z := if io_get_ifreq e then 0 else - EFAULT.
Definition put_user_ifreq (e : ioctl_env) : Z := if io_put_ifreq e then 0 else - EFAULT.

(** The request to a device, with its structure copied in and out. *)
Definition ifreq_ioctl (e : ioctl_env) : Z :=
  if negb (get_user_ifreq e =? 0) then - EFAULT
  else
    let '(err, need_copyout) := io_dev e in
    if (err =? 0) && need_copyout && negb (put_user_ifreq e =? 0) then - EFAULT else err.

Definition sock_do_ioctl (e : ioctl_env) : Z :=
  if negb (io_proto e =? - ENOIOCTLCMD) then io_proto e
  else if negb (io_is_socket_cmd e) then - ENOTTY
  else ifreq_ioctl e.

Definition sock_ioctl (e : ioctl_env) (cmd : Z) : Z :=
  if (SIOCDEVPRIVATE <=? cmd) && (cmd <=? SIOCDEVPRIVATE + 15) then ifreq_ioctl e
  else if bool_decide (is_Some (io_wext e)) && (SIOCIWFIRST <=? cmd) && (cmd <=? SIOCIWLAST) then default 0 (io_wext e)
  else if (cmd =? FIOSETOWN) || (cmd =? SIOCSPGRP) then
    match io_get_pid e with None => - EFAULT | Some pid => io_setown e pid end
  else if (cmd =? FIOGETOWN) || (cmd =? SIOCGPGRP) then io_put_owner e
  else if (cmd =? SIOCGIFBR) || (cmd =? SIOCSIFBR) || (cmd =? SIOCBRADDBR) || (cmd =? SIOCBRDELBR) then br_ioctl_call e
  else if (cmd =? SIOCGIFVLAN) || (cmd =? SIOCSIFVLAN) then default (- ENOPKG) (io_vlan_hook e)
  else if cmd =? SIOCGSKNS then if negb (io_admin e) then - EPERM else io_netns e
  else if (cmd =? SIOCGSTAMP_OLD) || (cmd =? SIOCGSTAMPNS_OLD) then
    match io_gettstamp e with None => - ENOIOCTLCMD | Some g => g (cmd =? SIOCGSTAMP_OLD) false end
  else if (cmd =? SIOCGSTAMP_NEW) || (cmd =? SIOCGSTAMPNS_NEW) then
    match io_gettstamp e with None => - ENOIOCTLCMD | Some g => g (cmd =? SIOCGSTAMP_NEW) false end
  else if cmd =? SIOCGIFCONF then io_ifconf e
  else sock_do_ioctl e.

(** ** Control messages of a received packet *)

Definition SOF_TIMESTAMPING_RX_SOFTWARE : Z := 8.
Definition SOF_TIMESTAMPING_SOFTWARE : Z := 16.
Definition SOF_TIMESTAMPING_RAW_HARDWARE : Z := 64.
Definition SOF_TIMESTAMPING_OPT_PKTINFO : Z := 8192.
Definition SOF_TIMESTAMPING_BIND_PHC : Z := 32768.

(** The flags of the protocol socket that this code reads. *)
Record sk_view := SkView {
  sk_rcvtstamp : bool;     (** SOCK_RCVTSTAMP *)
  sk_rcvtstampns : bool;
  sk_tstamp_new : bool;
  sk_wifi_status : bool;
  sk_rxq_ovfl : bool;
  sk_tsflags : Z }.

(** The fields of the packet that this code reads. *)
Record skb_view := SkbView {
  skb_tstamp : Z;
  skb_hwtstamp : Z;
  skb_outgoing : bool;     (** pkt_type == PACKET_OUTGOING *)
  skb_mac_set : bool;
  skb_if_index : option Z;
  skb_len : Z;
  skb_mac_offset : Z;
  skb_opt_stats : bool;
  skb_wifi_acked_valid : bool;
  skb_wifi_acked : bool;
  skb_dropcount : Z }.

(** A control message: old or new form, microseconds or nanoseconds. *)
Inductive cmsg :=
  | SoTimestamp (new ns : bool) (t : Z)
  | ScmTimestamping (new : bool) (sw hw : Z)
  | TsPktinfo (if_index pkt_length : Z)
  | OptStats (n : Z)
  | WifiStatus (ack : bool)
  | RxqOvfl (n : Z).

Definition skb_is_err_queue (skb : skb_view) : bool := skb_outgoing skb.

(** [tstamp] is [skb->tstamp]. *)
Definition skb_is_swtx_tstamp (skb : skb_view) (tstamp : Z) (false_tstamp : bool) : bool :=
  negb (tstamp =? 0) && negb false_tstamp && skb_is_err_queue skb.

Definition put_ts_pktinfo (skb : skb_view) : list cmsg :=
  if negb (skb_mac_set skb) then []
  else [TsPktinfo (default 0 (skb_if_index skb)) (u32 (skb_len skb - skb_mac_offset skb))].

Definition tsflag (sk : sk_view) (flag : Z) : bool := negb (Z.land (sk_tsflags sk) flag =? 0).

(** [now] is the clock for a packet without a time stamp, [convert] the conversion to the
    clock that the socket is bound to.  The answers: the messages and [skb->tstamp]. *)
Definition __sock_recv_timestamp (sk : sk_view) (skb : skb_view) (now : Z) (convert : Z → Z) : list cmsg * Z :=
  let need := sk_rcvtstamp sk in
  let false_tstamp := need && (skb_tstamp skb =? 0) in
  let tstamp := if false_tstamp then now else skb_tstamp skb in
  let out := if need then [SoTimestamp (sk_tstamp_new sk) (sk_rcvtstampns sk) tstamp] else [] in
  let sw := if tsflag sk SOF_TIMESTAMPING_SOFTWARE then tstamp else 0 in
  let hw := if tsflag sk SOF_TIMESTAMPING_RAW_HARDWARE &&
               negb (skb_is_swtx_tstamp skb tstamp false_tstamp) then
              if tsflag sk SOF_TIMESTAMPING_BIND_PHC then convert (skb_hwtstamp skb) else skb_hwtstamp skb
            else 0 in
  let info := if negb (hw =? 0) && tsflag sk SOF_TIMESTAMPING_OPT_PKTINFO && negb (skb_is_err_queue skb) then put_ts_pktinfo skb else [] in
  let tss := if negb (sw =? 0) || negb (hw =? 0) then
               ScmTimestamping (sk_tstamp_new sk) sw hw ::
               (if skb_is_err_queue skb && negb (skb_len skb =? 0) && skb_opt_stats skb then [OptStats (skb_len skb)] else [])
             else [] in
  (out ++ info ++ tss, tstamp).

Definition __sock_recv_wifi_status (sk : sk_view) (skb : skb_view) : list cmsg :=
  if negb (sk_wifi_status sk) then []
  else if negb (skb_wifi_acked_valid skb) then []
  else [WifiStatus (skb_wifi_acked skb)].

Definition sock_recv_drops (sk : sk_view) (skb : option skb_view) : list cmsg :=
  match skb with
  | Some b => if sk_rxq_ovfl sk && negb (skb_dropcount b =? 0) then [RxqOvfl (skb_dropcount b)] else []
  | None => []
  end.

(** include/net/sock.h; the last answer is the time stamp of the socket, if it is set. *)
Definition sock_recv_timestamp (sk : sk_view) (skb : skb_view) (now : Z) (convert : Z → Z) : list cmsg * Z * option Z :=
  let kt := skb_tstamp skb in
  let '(out, tstamp, stamp) :=
    if sk_rcvtstamp sk || tsflag sk SOF_TIMESTAMPING_RX_SOFTWARE || (negb (kt =? 0) && tsflag sk SOF_TIMESTAMPING_SOFTWARE) ||
       (negb (skb_hwtstamp skb =? 0) && tsflag sk SOF_TIMESTAMPING_RAW_HARDWARE)
    then (__sock_recv_timestamp sk skb now convert, None)
    else (([], kt), Some kt) in
  (out ++ (if sk_wifi_status sk && skb_wifi_acked_valid skb then __sock_recv_wifi_status sk skb else []), tstamp, stamp).

Definition __sock_recv_ts_and_drops (sk : sk_view) (skb : skb_view) (now : Z) (convert : Z → Z) : list cmsg * Z * option Z :=
  let '(out, tstamp, stamp) := sock_recv_timestamp sk skb now convert in
  (out ++ sock_recv_drops sk (Some skb), tstamp, stamp).

(** ** The pseudo file system of sockets *)

Abbreviation bytes := (list Z).

(** What its attribute code sees of a file: the name of the dentry, the owner, and
    whether the protocol socket is there. *)
Record sockfs := Sockfs { d_name : bytes; i_uid : Z; sk_uid : option Z }.

Definition XATTR_NAME_SOCKPROTONAME : bytes := Eval cbv in s2b "system.sockprotoname".

Definition sockfs_xattr_get (suffix : bytes) (value : option bytes) (d : sockfs) : Z * option bytes :=
  let n := (length (d_name d) + 1)%nat in
  match value with
  | Some v => if (length v <? n)%nat then (- ERANGE, value) else (Z.of_nat n, Some ((d_name d ++ [0]) ++ drop n v))
  | None => (Z.of_nat n, None)
  end.

Definition sockfs_security_xattr_set (suffix : bytes) (value : option bytes) (flags : Z) : st sockfs Z := mret (- EAGAIN).

Definition sockfs_xattr_handlers : list (Xattr.xattr_handler sockfs) :=
  [Xattr.Handler (Some XATTR_NAME_SOCKPROTONAME) None None (Some sockfs_xattr_get) None;
   Xattr.Handler None (Some Xattr.XATTR_SECURITY_PREFIX) None None (Some sockfs_security_xattr_set)].

(** [listsecurity]: what the security modules put into the buffer; their names come first. *)
Definition sockfs_listxattr (listsecurity : option bytes → Z * option bytes) (buffer : option bytes) (d : sockfs) : Z * option bytes :=
  let '(len, b) := listsecurity buffer in
  if len <? 0 then (len, b)
  else
    let name := XATTR_NAME_SOCKPROTONAME ++ [0] in
    let used := len + Z.of_nat (length name) in
    match b with
    | None => (used, None)
    | Some v =>
        if Z.of_nat (length v) <? len then (- ERANGE, b)
        else if Z.of_nat (length v) <? used then (- ERANGE, b)
        else (used, Some (take (Z.to_nat len) v ++ name ++ drop (Z.to_nat used) v))
    end.

Definition ATTR_UID : Z := 2.

(** [simple]: the answer of simple_setattr, which stores the owner. *)
Definition sockfs_setattr (simple ia_valid ia_uid : Z) : st sockfs Z := λ d,
  if negb (simple =? 0) then Some (simple, d)
  else
    let uid := negb (Z.land ia_valid ATTR_UID =? 0) in
    let d := Sockfs (d_name d) (if uid then ia_uid else i_uid d) (sk_uid d) in
    if uid then
      match sk_uid d with
      | Some _ => Some (0, Sockfs (d_name d) (i_uid d) (Some ia_uid))
      | None => Some (- ENOENT, d)
      end
    else Some (0, d).

(** ** The attribute that shows the protocol *)

(** The inode of a socket. *)
Definition sockfs_inode (i : Xattr.inode sockfs) : Prop :=
  Xattr.i_handlers i = sockfs_xattr_handlers ∧ Xattr.i_opflags_xattr i = true.

Lemma sockfs_getxattr k i buf : sockfs_inode i → Xattr.sec_getxattr k XATTR_NAME_SOCKPROTONAME = 0 →
  Xattr.vfs_getxattr k i XATTR_NAME_SOCKPROTONAME buf = Some (sockfs_xattr_get [] buf (Xattr.i_fs i)).
Proof.
  intros [Hh Ho] Hs. unfold Xattr.vfs_getxattr.
  assert (Xattr.xattr_permission k i XATTR_NAME_SOCKPROTONAME Xattr.MAY_READ = 0) as ->.
  { unfold Xattr.xattr_permission. change (negb (Z.land Xattr.MAY_READ Xattr.MAY_WRITE =? 0)) with false. cbn [andb].
    change (has_prefix Xattr.XATTR_CUSTOM_PREFIX XATTR_NAME_SOCKPROTONAME) with false.
    by change (has_prefix Xattr.XATTR_SYSTEM_PREFIX XATTR_NAME_SOCKPROTONAME) with true. }
  cbn [Z.eqb negb]. rewrite Hs. cbn [Z.eqb negb]. change (has_prefix Xattr.XATTR_SECURITY_PREFIX XATTR_NAME_SOCKPROTONAME) with false.
  unfold Xattr.__vfs_getxattr, Xattr.xattr_resolve_name. rewrite Ho, Hh. reflexivity.
Qed.

(** The list of a socket's attributes ends with system.sockprotoname, behind the names of the
    security modules; reading that name gives the name of the protocol with its NUL, its size
    for an empty buffer, and ERANGE for a buffer that is too small.  No other attribute can be
    read or set: the names of [custom.] and [user.] have no handler, those of [security.] are
    left to the security modules. *)
Theorem sockfs_attributes k i sec n : sockfs_inode i → Xattr.sec_listxattr k = 0 → Xattr.sec_getxattr k XATTR_NAME_SOCKPROTONAME = 0 →
  Z.of_nat (length sec) + 21 ≤ Z.of_nat n →
  let listsec := λ b : option bytes, (Z.of_nat (length sec), (λ v, sec ++ drop (length sec) v) <$> b) in
  let name := d_name (Xattr.i_fs i) in
  Xattr.vfs_listxattr k (Some (sockfs_listxattr listsec)) i (Some (replicate n 0)) =
    (Z.of_nat (length sec) + 21, Some (sec ++ XATTR_NAME_SOCKPROTONAME ++ replicate (n - length sec - 20) 0)) ∧
  Xattr.vfs_getxattr k i XATTR_NAME_SOCKPROTONAME None = Some (Z.of_nat (length name + 1), None) ∧
  (∀ m, Xattr.vfs_getxattr k i XATTR_NAME_SOCKPROTONAME (Some (replicate m 0)) = Some
     (if (m <? length name + 1)%nat then (- ERANGE, Some (replicate m 0))
      else (Z.of_nat (length name + 1), Some (name ++ replicate (m - length name) 0)))) ∧
  ∀ other, has_prefix Xattr.XATTR_CUSTOM_PREFIX other = true ∨ has_prefix Xattr.XATTR_USER_PREFIX other = true →
    Xattr.__vfs_getxattr i other None = (- EOPNOTSUPP, None) ∧
    ∀ v flags, Xattr.__vfs_setxattr other v flags i = Some (- EOPNOTSUPP, i).
Proof.
  intros Hi Hl Hg Hn listsec name. split; [|split; [|split]].
  - unfold Xattr.vfs_listxattr. rewrite Hl, (proj2 Hi). cbn [Z.eqb negb]. unfold sockfs_listxattr, listsec. cbn [fmap option_fmap option_map].
    rewrite (proj2 (Z.ltb_ge _ 0)) by lia. rewrite drop_replicate, length_app, length_replicate.
    change (length (XATTR_NAME_SOCKPROTONAME ++ [0])) with 21%nat. rewrite !(proj2 (Z.ltb_ge _ _)) by lia. f_equal. f_equal.
    rewrite Nat2Z.id, take_app_length, drop_app_ge, drop_replicate by lia. f_equal. rewrite <-app_assoc. f_equal.
    change ([0] ++ replicate (n - length sec - (Z.to_nat (Z.of_nat (length sec) + Z.of_nat 21) - length sec)) 0) with
      (replicate (S (n - length sec - (Z.to_nat (Z.of_nat (length sec) + Z.of_nat 21) - length sec))) 0). f_equal. lia.
  - by rewrite sockfs_getxattr.
  - intros m. rewrite sockfs_getxattr by done. unfold sockfs_xattr_get. fold name. rewrite length_replicate.
    destruct (Nat.ltb_spec m (length name + 1)); [done|]. do 3 f_equal. rewrite drop_replicate, <-app_assoc. f_equal.
    change ([0] ++ replicate (m - (length name + 1)) 0) with (replicate (S (m - (length name + 1))) 0). f_equal. lia.
  - intros other Hp. assert (Xattr.xattr_resolve_name i other = inr (- EOPNOTSUPP)) as E.
    { unfold Xattr.xattr_resolve_name. destruct Hi as [-> ->]. cbn [negb]. destruct Hp as [[r ->]%has_prefix_spec|[r ->]%has_prefix_spec]; reflexivity. }
    unfold Xattr.__vfs_getxattr, Xattr.__vfs_setxattr. split; [by rewrite E|]. intros v flags. rewrite (st_bind_step get _ i i i) by done. by rewrite E.
Qed.

(** ** Accepting inside the kernel *)

(** The worlds agree on everything. *)
Definition same_world (w w' : world) : Prop :=
  mgr w' = mgr w ∧ socks w' = socks w ∧ files w' = files w ∧ fdt w' = fdt w ∧ slept w' = slept w ∧ ∀ k, refs w' k = refs w k.

Lemma insert_delete_new (m : gmap Z socket) k s : m !! k = None → delete k (<[k := s]> m) = m.
Proof. intros Hm. by rewrite delete_insert_id. Qed.

(** The world with one more socket. *)
Definition with_sock (n : Z) (s : socket) (w w' : world) : Prop :=
  mgr w' = mgr w ∧ socks w' = <[n := s]> (socks w) ∧ files w' = files w ∧ fdt w' = fdt w ∧ slept w' = slept w ∧
  ∀ k, refs w' k = refs w k + if decide (so_ops s ≫= ops_owner = Some k) then 1 else 0.

Lemma release_new w w' pid n s : socks w !! n = None → so_file s = None → with_sock n s w w' →
  ∃ w'', sock_release pid n w' = Some (tt, w'') ∧ same_world w w''.
Proof.
  intros Hn Hf (M & S & F & T & L & R). eexists. split; [eapply release_nofile; [rewrite S; apply lookup_insert_eq|done]|].
  destruct (add_ref_other (so_ops s ≫= ops_owner) (-1) w') as (A1 & A2 & A3 & A4 & A5). unfold same_world.
  split_and!; cbn; try congruence.
  - rewrite S. by apply insert_delete_new.
  - intros k. change (refs (set_socks (delete n (socks w')) (add_ref (so_ops s ≫= ops_owner) (-1) w')) k) with (refs (add_ref (so_ops s ≫= ops_owner) (-1) w') k).
    rewrite refs_add_ref, R. destruct (decide _); lia.
Qed.

(** The new socket of [sock_create_lite], or nothing. *)
Lemma create_lite_ok sec post new pid type w : sec ≤ 0 → post ≤ 0 → (∀ n, new = Some n → socks w !! n = None) →
  ∃ err r w', sock_create_lite sec post new pid type w = Some ((err, r), w') ∧ err ≤ 0 ∧
    match r with
    | Some n => err = 0 ∧ new = Some n ∧ with_sock n (Socket type None None None) w w'
    | None => err < 0 ∧ same_world w w'
    end.
Proof.
  intros Hsec Hpost Hnew. unfold sock_create_lite. destruct (Z.eqb_spec sec 0) as [->|]; cbn [negb].
  2:{ eexists _, _, _. split; [reflexivity|]. split; [done|]. split; [lia|done]. }
  destruct new as [n|]; cbn [sock_alloc].
  2:{ eexists _, _, _. split; [reflexivity|]. split; [done|]. split; [done|done]. }
  specialize (Hnew n eq_refl). set (w1 := set_socks (<[n := Socket 0 None None None]> (socks w)) w).
  assert (sock_alloc (Some n) w = Some (Some n, w1)) as E.
  { unfold sock_alloc. rewrite (st_bind_step get _ w w w) by done. by rewrite Hnew. }
  unfold sock_alloc in E. rewrite (st_bind_step _ _ _ _ _ E).
  assert (socks w1 !! n = Some (Socket 0 None None None)) as H1 by apply lookup_insert_eq.
  rewrite (st_bind_step _ _ _ _ _ (update_sock_ok _ _ _ _ H1)). set (w2 := set_socks _ w1).
  assert (w2 = set_socks (<[n := Socket type None None None]> (socks w)) w) as E2.
  { unfold w2, w1, set_socks. cbn. by rewrite insert_insert_eq. }
  assert (with_sock n (Socket type None None None) w w2) as W2.
  { rewrite E2. split_and!; try done. intros k. rewrite refs_set_socks. cbn. rewrite decide_False by done. lia. }
  destruct (Z.eqb_spec post 0) as [->|]; cbn [negb]; [eexists _, _, _; split; [reflexivity|done]|].
  destruct (release_new w w2 pid n (Socket type None None None) Hnew eq_refl W2) as (w3 & E3 & Hsame). rewrite (st_bind_step _ _ _ _ _ E3).
  eexists _, _, _. split; [reflexivity|]. split; [done|]. split; [lia|done].
Qed.

(** [kernel_accept] either gives a new socket with the operations of the listening one and
    one reference to their module, or an error and the whole world as it was.  The fairness
    code is not asked, and neither is it when the socket is released again: accepting and
    releasing inside the kernel is balanced, which accepting by a system call is not. *)
Theorem kernel_accept_outcome e pid id w s o k : socks w !! id = Some s → so_sk s = Some k → so_ops s = Some o →
  ka_security e ≤ 0 → ka_post e ≤ 0 → (∀ n, ka_inode e = Some n → socks w !! n = None) →
  ∃ err r w', kernel_accept e pid id w = Some ((err, r), w') ∧ mgr w' = mgr w ∧ files w' = files w ∧
    match r with
    | None => err < 0 ∧ same_world w w'
    | Some n => 0 ≤ err ∧ socks w' = <[n := Socket (ka_type e) (Some o) (ka_accept e).2 None]> (socks w) ∧
        (∀ m, refs w' m = refs w m + if decide (ops_owner o = Some m) then 1 else 0) ∧
        ∃ w'', sock_release pid n w' = Some (tt, w'') ∧ same_world w w''
    end.
Proof.
  intros Hs Hk Ho Hsec Hpost Hnew. unfold kernel_accept. rewrite (st_bind_step _ _ _ _ _ (load_sock_ok _ _ _ Hs)), Hk.
  destruct (create_lite_ok (ka_security e) (ka_post e) (ka_inode e) pid (ka_type e) w Hsec Hpost Hnew) as (err & r & w1 & E & Herr & Hr).
  rewrite (st_bind_step _ _ _ _ _ E). destruct r as [n|].
  2:{ destruct Hr as [Hneg Hsame]. rewrite (proj2 (Z.ltb_lt _ _) Hneg). exists err, None, w1. split; [done|]. by destruct Hsame as (? & ? & ? & ?). }
  destruct Hr as (-> & Hn & W1). specialize (Hnew n Hn). cbn [Z.ltb Z.compare]. rewrite Ho.
  destruct W1 as (M & S & F & T & L & R). assert (socks w1 !! n = Some (Socket (ka_type e) None None None)) as H1 by (rewrite S; apply lookup_insert_eq).
  rewrite (st_bind_step _ _ _ _ _ (update_sock_ok _ _ _ _ H1)). set (w2 := set_socks _ w1).
  assert (with_sock n (Socket (ka_type e) None (ka_accept e).2 None) w w2) as W2.
  { split_and!; try done. unfold w2. cbn. by rewrite S, insert_insert_eq. }
  destruct (Z.ltb_spec (ka_accept e).1 0) as [Hneg|Hpos].
  - destruct (release_new w w2 pid n (Socket (ka_type e) None (ka_accept e).2 None) Hnew eq_refl W2) as (w3 & E3 & Hsame). rewrite (st_bind_step _ _ _ _ _ E3).
    eexists _, _, _. split; [reflexivity|]. by destruct Hsame as (? & ? & ? & ?).
  - assert (socks w2 !! n = Some (Socket (ka_type e) None (ka_accept e).2 None)) as H2 by apply lookup_insert_eq.
    rewrite (st_bind_step _ _ _ _ _ (update_sock_ok _ _ _ _ H2)). set (w3 := set_socks _ w2).
    rewrite (st_bind_step (modify _) _ w3 tt (add_ref (ops_owner o) 1 w3)) by done. set (w4 := add_ref (ops_owner o) 1 w3).
    destruct (add_ref_other (ops_owner o) 1 w3) as (A1 & A2 & A3 & A4 & A5).
    assert (with_sock n (Socket (ka_type e) (Some o) (ka_accept e).2 None) w w4) as W4.
    { split_and!; try (unfold w4; congruence).
      - unfold w4. rewrite A1. exact M.
      - unfold w4. rewrite A2. unfold w3, w2. cbn. by rewrite S, !insert_insert_eq.
      - unfold w4. rewrite A3. exact F.
      - unfold w4. rewrite A4. exact T.
      - unfold w4. rewrite A5. exact L.
      - intros m. unfold w4. rewrite refs_add_ref. change (refs w3 m) with (refs w1 m). rewrite R. cbn [so_ops mbind option_bind].
        rewrite (decide_False (P := None = Some m)) by done. lia. }
    destruct (release_new w w4 pid n (Socket (ka_type e) (Some o) (ka_accept e).2 None) Hnew eq_refl W4) as (w5 & E5 & Hsame). destruct W4 as (M4 & S4 & F4 & _ & _ & R4).
    eexists _, _, _. split; [reflexivity|]. split; [done|]. split; [done|]. split; [done|]. split; [done|]. split; [exact R4|]. eauto.
Qed.

(** ** Reading and writing a socket *)

Lemma private_data_ok w f fl id : files w !! f = Some fl → f_sock fl = Some id → private_data f w = Some ((fl, id), w).
Proof. intros Hf Hs. unfold private_data. rewrite (st_bind_step _ _ _ _ _ (load_file_ok _ _ _ Hf)). by rewrite Hs. Qed.

Section file_io.
Context (w : world) (fd f id : Z) (fl : file) (s : socket).
Hypothesis (Hfs : fd_sock w fd f id fl s).

Lemma held_private shared : ∃ n, private_data f (held shared f fl w) = Some ((File (f_sock fl) (f_flags fl) n, id), held shared f fl w) ∧
  files (held shared f fl w) !! f = Some (File (f_sock fl) (f_flags fl) n).
Proof.
  destruct (held_file _ _ _ _ _ _ Hfs shared) as (n & _ & E). exists n. split; [|done]. apply private_data_ok; [done|]. apply Hfs.
Qed.

Lemma held_flags shared n : files (held shared f fl w) !! f = Some (File (f_sock fl) (f_flags fl) n) →
  msg_flags id 0 (held shared f fl w) = Some (nonblock_flags (File (f_sock fl) (f_flags fl) n) false, held shared f fl w).
Proof.
  intros E. unfold msg_flags. rewrite (st_bind_step _ _ _ _ _ (load_sock_ok _ _ _ (held_sock _ _ _ _ _ _ Hfs shared))).
  rewrite (fs_back _ _ _ _ _ _ Hfs). rewrite (st_bind_step _ _ _ _ _ (load_file_ok _ _ _ E)). unfold nonblock_flags. cbn [f_flags].
  rewrite orb_false_r. by destruct (_ =? 0).
Qed.

End file_io.

(** C27: Writing to the file of a socket is sending without an address, and reading from it
    is receiving without one: the same answer and the same world, so the fairness code
    sees both alike (a socket of SOCK_SEQPACKET also ends a record, and reading nothing
    asks nobody).  A page that goes through sendfile or splice is another matter: with a
    protocol that sends pages itself, nothing is throttled and nothing is counted. *)
Theorem file_io_is_message_io w fd f id fl s shared mem pid sec send recv jiffies count audit addr_len :
  fd_sock w fd f id fl s →
  (so_type s ≠ SOCK_SEQPACKET →
    __sys_sendto shared mem pid fd 0 count 0 None audit addr_len sec send w =
      (r ← sock_write_iter mem sec send pid f 0 false count; sock_put_light pid id shared ;; mret r.1) (held shared f fl w)) ∧
  (count ≠ 0 →
    __sys_recvfrom shared mem jiffies pid fd 0 count 0 None audit sec recv w =
      (r ← sock_read_iter mem jiffies sec recv pid f 0 false count; sock_put_light pid id shared ;; mret (r.1, [], None)) (held shared f fl w)) ∧
  (so_ops s ≠ None → ∀ sendpage no_sendpage size more,
    sock_sendpage (Some sendpage) no_sendpage f size more w = Some (sendpage size (Z.lor (nonblock_flags fl false) more), w)).
Proof.
  intros Hfs. set (w0 := held shared f fl w). destruct (held_private w fd f id fl s Hfs shared) as (n & Ep & Ef). fold w0 in Ep, Ef.
  pose proof (held_flags w fd f id fl s Hfs shared n Ef) as Efl. fold w0 in Efl. pose proof (held_sock _ _ _ _ _ _ Hfs shared) as Es. fold w0 in Es.
  split; [|split].
  - intros Ht. unfold __sys_sendto. cbn [Z.eqb negb]. rewrite (st_bind_step _ _ _ _ _ (lookup_light_ok _ _ _ _ _ _ Hfs shared pid)). fold w0.
    cbn [Z.ltb Z.compare]. rewrite !st_bind_assoc, (st_bind_step _ _ _ _ _ Efl). unfold sock_write_iter.
    rewrite !st_bind_assoc, (st_bind_step _ _ _ _ _ Ep). cbn [fst snd Z.eqb negb]. rewrite !st_bind_assoc, (st_bind_step _ _ _ _ _ (load_sock_ok _ _ _ Es)).
    rewrite (proj2 (Z.eqb_neq _ _) Ht), !st_bind_assoc. unfold mbind, st_bind. destruct (__sock_sendmsg _ _ _ _ _ _ _) as [[r w1]|]; done.
  - intros Hc. unfold __sys_recvfrom. cbn [Z.eqb negb]. rewrite (st_bind_step _ _ _ _ _ (lookup_light_ok _ _ _ _ _ _ Hfs shared pid)). fold w0.
    rewrite (st_bind_step _ _ _ _ _ Efl). unfold sock_read_iter.
    rewrite !st_bind_assoc, (st_bind_step _ _ _ _ _ Ep). cbn [fst snd Z.eqb negb]. rewrite (proj2 (Z.eqb_neq _ _) Hc), !st_bind_assoc.
    unfold mbind, st_bind. destruct (sock_recvmsg _ _ _ _ _ _ _ _) as [[[err m] w1]|]; done.
  - intros Ho sendpage no_sendpage size more. unfold sock_sendpage.
    rewrite (st_bind_step _ _ _ _ _ (private_data_ok w f fl id (fs_file _ _ _ _ _ _ Hfs) (fs_sock _ _ _ _ _ _ Hfs))). cbn [fst snd].
    unfold kernel_sendpage. rewrite (st_bind_step _ _ _ _ _ (load_sock_ok _ _ _ (fs_id _ _ _ _ _ _ Hfs))). by destruct (so_ops s).
Qed.

(** ** Time stamps *)

Definition is_so_timestamp (c : cmsg) : bool := match c with SoTimestamp _ _ _ => true | _ => false end.

(** The time stamps that a receiver gets.  With SOCK_RCVTSTAMP there is one time of the
    chosen form: that of the packet, or now for a packet without one; without it there is
    none.  The times of timestamping are those that were asked for, never both zero, and an
    outgoing packet with a software time of its own never shows a hardware time. *)
Theorem recv_timestamps sk skb now convert new sw hw :
  let '(out, tstamp) := __sock_recv_timestamp sk skb now convert in
  tstamp = (if sk_rcvtstamp sk && (skb_tstamp skb =? 0) then now else skb_tstamp skb) ∧
  (filter (λ c, is_so_timestamp c = true) out =
     if sk_rcvtstamp sk then [SoTimestamp (sk_tstamp_new sk) (sk_rcvtstampns sk) tstamp] else []) ∧
  (ScmTimestamping new sw hw ∈ out →
     new = sk_tstamp_new sk ∧ (sw ≠ 0 ∨ hw ≠ 0) ∧
     (sw ≠ 0 → tsflag sk SOF_TIMESTAMPING_SOFTWARE = true ∧ sw = tstamp) ∧
     (hw ≠ 0 → tsflag sk SOF_TIMESTAMPING_RAW_HARDWARE = true ∧ (hw = skb_hwtstamp skb ∨ hw = convert (skb_hwtstamp skb)) ∧
        ¬ (skb_outgoing skb = true ∧ skb_tstamp skb ≠ 0))).
Proof.
  unfold __sock_recv_timestamp. cbv zeta. set (ft := sk_rcvtstamp sk && (skb_tstamp skb =? 0)). set (ts := if ft then now else skb_tstamp skb).
  set (sw0 := if tsflag sk SOF_TIMESTAMPING_SOFTWARE then ts else 0). set (hw0 := if (_ : bool) && negb (skb_is_swtx_tstamp _ _ _) then _ else 0).
  set (info := if (_ : bool) then put_ts_pktinfo skb else []). set (tss := if negb (sw0 =? 0) || (_ : bool) then _ else []).
  assert (Forall (λ c, is_so_timestamp c = false) (info ++ tss)) as Hno.
  { apply Forall_app. unfold info, tss, put_ts_pktinfo. split; split_ifs; repeat constructor. }
  split; [done|]. split.
  - rewrite filter_app. assert (filter (λ c, is_so_timestamp c = true) (info ++ tss) = []) as ->.
    { induction Hno as [|c l Hc _ IH]; [done|]. rewrite filter_cons, decide_False by congruence. exact IH. }
    rewrite app_nil_r. by destruct (sk_rcvtstamp sk).
  - rewrite !elem_of_app. intros [Hin|[Hin|Hin]].
    + destruct (sk_rcvtstamp sk); [|by apply not_elem_of_nil in Hin]. by apply list_elem_of_singleton in Hin.
    + assert (Forall (λ c, c ≠ ScmTimestamping new sw hw) info) as Hi by (unfold info, put_ts_pktinfo; split_ifs; by repeat constructor).
      rewrite Forall_forall in Hi. by apply Hi in Hin.
    + unfold tss in Hin. destruct (negb (sw0 =? 0) || negb (hw0 =? 0)) eqn:En; [|by apply not_elem_of_nil in Hin].
      apply elem_of_cons in Hin as [[= -> -> ->]|Hin].
      2:{ exfalso. match type of Hin with _ ∈ ?l => assert (Forall (λ c, c ≠ ScmTimestamping new sw hw) l) as Hi by (split_ifs; by repeat constructor) end.
          rewrite Forall_forall in Hi. by apply Hi in Hin. }
      split; [done|]. split; [destruct (Z.eqb_spec sw0 0), (Z.eqb_spec hw0 0); auto; done|]. split.
      * intros Hs. unfold sw0 in *. by destruct (tsflag sk SOF_TIMESTAMPING_SOFTWARE).
      * intros Hh. unfold hw0, skb_is_swtx_tstamp, skb_is_err_queue in *. destruct (tsflag sk SOF_TIMESTAMPING_RAW_HARDWARE); cbn [andb] in *; [|done].
        destruct (negb (ts =? 0) && negb ft && skb_outgoing skb) eqn:Eq; cbn [negb] in *; [done|]. split; [done|]. split.
        { destruct (tsflag sk SOF_TIMESTAMPING_BIND_PHC); auto. }
        intros [Ho Ht]. rewrite Ho, andb_true_r in Eq. unfold ts, ft in Eq. rewrite (proj2 (Z.eqb_neq _ _) Ht), andb_false_r in Eq. cbn [negb andb] in Eq.
        by rewrite (proj2 (Z.eqb_neq _ _) Ht) in Eq.
Qed.

(** ** The table of protocol families *)

(** A family is registered once and answers EEXIST until it is unregistered, which leaves the
    table as it was; the families that [__sock_create] accepts are those of the table. *)
Lemma sock_register_unregister family owner t : 0 ≤ family < NPROTO → t !! family = None →
  sock_register family owner t = Some (0, <[family := owner]> t) ∧
  (∀ owner', sock_register family owner' (<[family := owner]> t) = Some (- EEXIST, <[family := owner]> t)) ∧
  sock_unregister family (<[family := owner]> t) = Some (tt, t) ∧
  ∀ other, 0 ≤ other → sock_is_registered other (<[family := owner]> t) =
    Some ((other <? NPROTO) && bool_decide (other = family ∨ is_Some (t !! other)), <[family := owner]> t).
Proof.
  intros Hf Ht. unfold sock_register, sock_unregister, sock_is_registered. rewrite (proj2 (Z.leb_gt _ _)), (proj2 (Z.ltb_ge _ _)) by lia.
  cbn [orb]. unfold mbind, st_bind, get, put, modify, mret, st_ret. rewrite Ht, lookup_insert_eq. split; [done|]. split; [done|]. split.
  - by rewrite delete_insert_id.
  - intros other Ho. destruct (Z.leb_spec NPROTO other), (Z.ltb_spec other NPROTO); try lia; [done|]. rewrite (proj2 (Z.ltb_ge other 0)) by lia.
    cbn [andb]. do 2 f_equal. apply bool_decide_ext. destruct (decide (other = family)) as [->|Hne].
    + rewrite lookup_insert_eq. split; [by left|by eexists].
    + rewrite lookup_insert_ne by done. split; [by right|by intros [?|?]].
Qed.

(** fchown of a socket stores the owner in the inode and in the protocol socket. *)
Lemma sockfs_chown d uid k : sk_uid d = Some k → sockfs_setattr 0 ATTR_UID uid d = Some (0, Sockfs (d_name d) uid (Some uid)).
Proof. intros Hk. unfold sockfs_setattr. cbn. by rewrite Hk. Qed.

(** ** Examples *)

Definition tcp_inode : Xattr.inode sockfs :=
  Xattr.Inode sockfs_xattr_handlers true false false false false 49663 false (Sockfs (s2b "TCP") 0 (Some 0)).

Lemma sockfs_attributes_witness :
  let listsec := λ b : option bytes, (0, (λ v, [] ++ drop 0 v) <$> b) in
  Xattr.vfs_listxattr (Xattr.demo_hooks false) (Some (sockfs_listxattr listsec)) tcp_inode (Some (replicate 32 0)) =
    (21, Some (XATTR_NAME_SOCKPROTONAME ++ replicate 12 0)) ∧
  Xattr.vfs_getxattr (Xattr.demo_hooks false) tcp_inode XATTR_NAME_SOCKPROTONAME (Some (replicate 8 0)) = Some (4, Some (s2b "TCP" ++ replicate 5 0)).
Proof.
  destruct (sockfs_attributes (Xattr.demo_hooks false) tcp_inode [] 32 (conj eq_refl eq_refl) eq_refl eq_refl ltac:(done)) as (H1 & _ & H3 & _).
  split; [exact H1|]. exact (H3 8%nat).
Defined.

Lemma kernel_accept_outcome_witness : ∃ w',
  kernel_accept (KacceptEnv 0 0 (Some 2) 1 (0, Some 8)) 40 1 world1 = Some ((0, Some 2), w') ∧
  socks w' = <[2 := Socket 1 (Some (Ops None)) (Some 8) None]> (socks world1) ∧ mgr w' = mgr world1.
Proof.
  destruct (kernel_accept_outcome (KacceptEnv 0 0 (Some 2) 1 (0, Some 8)) 40 1 world1 (Socket 1 (Some (Ops None)) (Some 6) (Some 9)) (Ops None) 6
    eq_refl eq_refl eq_refl ltac:(done) ltac:(done) ltac:(by intros n [= <-])) as (err & r & w' & E & M & _ & H).
  assert (err = 0 ∧ r = Some 2) as [-> ->] by (revert E; vm_compute; by intros [= <- <- _]).
  exists w'. split; [exact E|]. destruct H as (_ & S & _). split; [exact S|exact M].
Defined.

Lemma file_io_is_message_io_witness : ∃ w',
  (r ← sock_write_iter true 0 (λ _ m, (5, m)) 40 9 0 false 5; sock_put_light 40 1 true ;; mret r.1) (held true 9 (File (Some 1) 2 1) world1) = Some (5, w') ∧
  __sys_sendto true true 40 3 0 5 0 None 0 0 0 (λ _ m, (5, m)) world1 = Some (5, w').
Proof.
  destruct (file_io_is_message_io world1 3 9 1 (File (Some 1) 2 1) (Socket 1 (Some (Ops None)) (Some 6) (Some 9)) true true 40 0
    (λ _ m, (5, m)) (λ _ m, (5, m)) 0 5 0 0 world1_fd) as (H1 & _).
  eexists. rewrite H1 by done. split; vm_compute; reflexivity.
Defined.

End SocketFile.
