(* ===== verification/SocketCompat.v ===== *)
(** * ioctl of 32-bit programs

    net/socket.c: the copies of a [struct ifreq], which is shorter for 32-bit programs, and
    compat_sock_ioctl.  User memory is the list of bytes that are mapped from the
    argument on; what devices, protocols and the native ioctl (SocketFile) answer is
    given to each function. *)

From Stdlib Require Import ZArith Lia.
From stdpp Require Import base numbers list.
From S2P Require Import Prelude SocketFairness SocketCore SocketSyscalls SocketFile.

Module SocketCompat.
Import SocketFairness SocketCore SocketSyscalls SocketFile.

(** ** struct ifreq *)

(** The sizes and the places of the members of the union that hold a pointer. *)
Definition SIZEOF_IFREQ : Z := 40.
Definition SIZEOF_COMPAT_IFREQ : Z := 32.
Definition IFR_DATA : Z := 16.
Definition IFS_IFSU : Z := 24.      (** ifr_settings.ifs_ifsu, in both layouts *)

Definition SIOCWANDEV : Z := 0x894A.
Definition SIOCETHTOOL : Z := 0x8946.
Definition SIOCBONDSLAVEINFOQUERY : Z := 0x8993.
Definition SIOCBONDINFOQUERY : Z := 0x8994.
Definition SIOCSHWTSTAMP : Z := 0x89b0.
Definition SIOCGHWTSTAMP : Z := 0x89b1.
Definition BRCTL_GET_VERSION : Z := 0.
Definition BRCTL_VERSION : Z := 1.

Definition ifreq_size (compat : bool) : Z := if compat then SIZEOF_COMPAT_IFREQ else SIZEOF_IFREQ.

Definition copy_from_user (n : Z) (arg : list Z) : option (list Z) := bytes_at arg 0 n.
Definition compat_ptr (p : Z) : Z := u32 p.

(** The bytes at [off] of a structure. *)
Definition set_bytes (off : Z) (bs ifr : list Z) : list Z := default ifr (put_at ifr off bs).
Definition get_bytes (off n : Z) (ifr : list Z) : list Z := default [] (bytes_at ifr off n).

(** The structure, and ifr_data. *)
Definition get_user_ifreq (compat : bool) (arg : list Z) : option (list Z * Z) :=
  if compat then
    bs ← copy_from_user SIZEOF_COMPAT_IFREQ arg;
    let ifr := set_bytes 0 bs (replicate (Z.to_nat SIZEOF_IFREQ) 0) in
    Some (ifr, compat_ptr (le_combine (get_bytes IFR_DATA 4 ifr)))
  else
    ifr ← copy_from_user SIZEOF_IFREQ arg;
    Some (ifr, le_combine (get_bytes IFR_DATA 8 ifr)).

(** User memory afterwards. *)
Definition put_user_ifreq (compat : bool) (ifr arg : list Z) : option (list Z) :=
  put_at arg 0 (take (Z.to_nat (ifreq_size compat)) ifr).

(** ** The calls that convert *)

Section calls.
(** dev_ioctl: command, structure and pointer, to the answer and the structure. *)
Context (dev_ioctl : Z → list Z → Z → Z * list Z).

Definition compat_siocwandev (uifr32 : list Z) : Z * list Z :=
  match get_user_ifreq true uifr32 with
  | None => (- EFAULT, uifr32)
  | Some (ifr, _) =>
      match rd32 uifr32 IFS_IFSU with
      | None => (- EFAULT, uifr32)
      | Some uptr32 =>
          let saved := get_bytes IFS_IFSU 8 ifr in
          let '(err, ifr) := dev_ioctl SIOCWANDEV (set_bytes IFS_IFSU (le_split 8 (compat_ptr uptr32)) ifr) 0 in
          if err =? 0 then
            match put_user_ifreq true (set_bytes IFS_IFSU saved ifr) uifr32 with
            | None => (- EFAULT, uifr32)
            | Some uifr32 => (err, uifr32)
            end
          else (err, uifr32)
      end
  end.

Definition compat_ifr_data_ioctl (is_socket_cmd : bool) (cmd : Z) (u_ifreq32 : list Z) : Z :=
  if negb is_socket_cmd then - ENOTTY
  else
    match get_user_ifreq true u_ifreq32 with
    | None => - EFAULT
    | Some (ifreq, data) => (dev_ioctl cmd (set_bytes IFR_DATA (le_split 8 data) ifreq) data).1
    end.
End calls.

Definition old_bridge_ioctl (argp : list Z) : Z :=
  match rd32 argp 0 with
  | None => - EFAULT
  | Some tmp => if tmp =? BRCTL_GET_VERSION then BRCTL_VERSION + 1 else - EINVAL
  end.

(** ** The dispatch *)

(** The commands that go to the native ioctl, and those that the protocol or the device sees. *)
Definition native_cmds : list Z :=
  [FIOSETOWN; SIOCSPGRP; FIOGETOWN; SIOCGPGRP; SIOCBRADDBR; SIOCBRDELBR; SIOCGIFVLAN; SIOCSIFVLAN; SIOCGSKNS; SIOCGSTAMP_NEW; SIOCGSTAMPNS_NEW; SIOCGIFCONF].

(** SIOCGIFFLAGS to SIOCATMARK, in the order of the source. *)
Definition same_layout_cmds : list Z :=
  [0x8913; 0x8914; 0x8970; 0x8971; 0x891d; 0x891e; 0x8921; 0x8922; 0x891f; 0x8920; 0x8927; 0x8924; 0x8931; 0x8932; 0x8933; 0x8915; 0x8916; 0x8937; 0x8936;
   0x8919; 0x891a; 0x8917; 0x8918; 0x891b; 0x891c; 0x8934; 0x8935; 0x8942; 0x8943; 0x89a2; 0x89a3; 0x8910; 0x8923; 0x8947; 0x8948; 0x8949; 0x8990; 0x8991; 0x8992; 0x8995;
   0x8955; 0x8954; 0x8953; 0x5411; 0x894B; 0x8905].

Definition ifr_data_cmds : list Z := [SIOCETHTOOL; SIOCBONDSLAVEINFOQUERY; SIOCBONDINFOQUERY; SIOCSHWTSTAMP; SIOCGHWTSTAMP].

Definition is_cmd (cmd : Z) (l : list Z) : bool := existsb (Z.eqb cmd) l.

(** The answers of the compat handlers, besides those of the native ioctl. *)
Record compat_env := CompatEnv {
  co_native : ioctl_env;
  co_proto : option Z;           (** ops->compat_ioctl *)
  co_wext : Z;                   (** compat_wext_handle_ioctl *)
  co_64bit_time : bool;          (** COMPAT_USE_64BIT_TIME *)
  co_dev : Z → list Z → Z → Z * list Z }.

Definition compat_sock_ioctl_trans (e : compat_env) (cmd : Z) (arg : list Z) : Z * list Z :=
  let n := co_native e in
  if (SIOCDEVPRIVATE <=? cmd) && (cmd <=? SIOCDEVPRIVATE + 15) then (sock_ioctl n cmd, arg)
  else if (cmd =? SIOCSIFBR) || (cmd =? SIOCGIFBR) then (old_bridge_ioctl arg, arg)
  else if cmd =? SIOCWANDEV then compat_siocwandev (co_dev e) arg
  else if (cmd =? SIOCGSTAMP_OLD) || (cmd =? SIOCGSTAMPNS_OLD) then
    (match io_gettstamp n with None => - ENOIOCTLCMD | Some g => g (cmd =? SIOCGSTAMP_OLD) (negb (co_64bit_time e)) end, arg)
  else if is_cmd cmd ifr_data_cmds then (compat_ifr_data_ioctl (co_dev e) (io_is_socket_cmd n) cmd arg, arg)
  else if is_cmd cmd native_cmds then (sock_ioctl n cmd, arg)
  else if is_cmd cmd same_layout_cmds then (sock_do_ioctl n, arg)
  else (- ENOIOCTLCMD, arg).

Definition compat_sock_ioctl (e : compat_env) (cmd : Z) (arg : list Z) : Z * list Z :=
  let ret := default (- ENOIOCTLCMD) (co_proto e) in
  let ret := if (ret =? - ENOIOCTLCMD) && (SIOCIWFIRST <=? cmd) && (cmd <=? SIOCIWLAST) then co_wext e else ret in
  if ret =? - ENOIOCTLCMD then compat_sock_ioctl_trans e cmd arg else (ret, arg).

(** ** Copies *)

Abbreviation zlen l := (Z.of_nat (length l)).

Lemma put_at_front l bs : zlen bs ≤ zlen l → put_at l 0 bs = Some (bs ++ drop (length bs) l).
Proof. intros H. unfold put_at. by rewrite !(proj2 (Z.leb_le _ _)) by lia. Qed.

Lemma copy_front n l : 0 ≤ n ≤ zlen l → copy_from_user n l = Some (take (Z.to_nat n) l).
Proof. intros H. unfold copy_from_user, bytes_at. by rewrite !(proj2 (Z.leb_le _ _)) by lia. Qed.

Lemma set_bytes_app off bs l : 0 ≤ off → off + zlen bs ≤ zlen l → set_bytes off bs l = take (Z.to_nat off) l ++ bs ++ drop (Z.to_nat off + length bs) l.
Proof. intros Ho Hf. unfold set_bytes, put_at. by rewrite !(proj2 (Z.leb_le _ _)) by lia. Qed.

(** What the kernel has of the structure of a 32-bit program: the bytes, and zeros behind. *)
Definition widened (arg : list Z) : list Z := take 32 arg ++ replicate 8 0.

Lemma get_compat arg : get_user_ifreq true arg = if zlen arg <? 32 then None else Some (widened arg, u32 (le_combine (take 4 (drop 16 arg)))).
Proof.
  unfold get_user_ifreq. destruct (Z.ltb_spec (zlen arg) 32) as [H|H].
  { unfold copy_from_user, bytes_at. by rewrite (proj2 (Z.leb_gt (0 + _) _)) by (unfold SIZEOF_COMPAT_IFREQ; lia). }
  rewrite copy_front by (unfold SIZEOF_COMPAT_IFREQ; lia). cbn [mbind option_bind]. assert (length (take 32 arg) = 32%nat) as L by (rewrite length_take; lia).
  unfold SIZEOF_COMPAT_IFREQ, SIZEOF_IFREQ, IFR_DATA. change (Z.to_nat 32) with 32%nat.
  assert (set_bytes 0 (take 32 arg) (replicate (Z.to_nat 40) 0) = widened arg) as -> by (rewrite set_bytes_app by (rewrite ?L, ?length_replicate; lia); by rewrite L).
  unfold get_bytes, bytes_at.
  rewrite !(proj2 (Z.leb_le _ _)) by (unfold widened; rewrite ?length_app, ?L, ?length_replicate; lia). cbn [andb default from_option]. unfold compat_ptr. do 4 f_equal.
  change (Z.to_nat 16) with 16%nat. change (Z.to_nat 4) with 4%nat. unfold widened, id. rewrite drop_app_le by lia. rewrite take_app_le by (rewrite length_drop; lia). rewrite skipn_firstn_comm, take_take. done.
Qed.

(** A structure goes back where it came from; the bytes behind the short one are not touched. *)
Lemma put_compat ifr arg : 32 ≤ zlen ifr → 32 ≤ zlen arg → put_user_ifreq true ifr arg = Some (take 32 ifr ++ drop 32 arg).
Proof.
  intros Hi Ha. unfold put_user_ifreq, ifreq_size, SIZEOF_COMPAT_IFREQ. change (Z.to_nat 32) with 32%nat. assert (length (take 32 ifr) = 32%nat) as L by (rewrite length_take; lia).
  rewrite put_at_front by lia. by rewrite L.
Qed.

Lemma get_put_ifreq compat arg ifr d : get_user_ifreq compat arg = Some (ifr, d) → zlen ifr = SIZEOF_IFREQ ∧ put_user_ifreq compat ifr arg = Some arg.
Proof.
  destruct compat.
  - rewrite get_compat. destruct (Z.ltb_spec (zlen arg) 32) as [|H]; [done|]. intros [= <- _]. assert (length (take 32 arg) = 32%nat) as L by (rewrite length_take; lia).
    split; [unfold widened; rewrite length_app, L, length_replicate; done|]. rewrite put_compat by (unfold widened; rewrite ?length_app, ?L, ?length_replicate; lia). unfold widened.
    rewrite take_app_le by lia. by rewrite (take_ge (take 32 arg)), take_drop by lia.
  - unfold get_user_ifreq. destruct (copy_from_user SIZEOF_IFREQ arg) as [l|] eqn:E; [|done]. cbn [mbind option_bind]. intros [= <- _]. pose proof (bytes_at_length _ _ _ _ E) as Hl. split; [done|].
    unfold copy_from_user, bytes_at in E. destruct (_ && _) eqn:Eb in E; [|done]. to_prop. injection E as <-. change (Z.to_nat 0) with O. rewrite drop_0 in *.
    unfold put_user_ifreq, ifreq_size, SIZEOF_IFREQ in *. rewrite take_take, Nat.min_id. change (Z.to_nat 40) with 40%nat in *. rewrite put_at_front by lia. rewrite length_take. replace (40 `min` length arg)%nat with 40%nat by lia. by rewrite take_drop.
Qed.

(** ** The calls *)

Lemma le_combine_zeros l k : le_combine (l ++ replicate k 0) = le_combine l.
Proof. induction l as [|x l IH]; [induction k as [|k IHk]; [done|]; cbn; cbn in IHk; lia|]. cbn. by rewrite IH. Qed.

Lemma zero_extended l : is_bytes l → length l = 4%nat → le_split 8 (compat_ptr (le_combine l)) = l ++ replicate 4 0.
Proof.
  intros Hl Hn. pose proof (le_combine_range l Hl) as R. rewrite Hn in R. unfold compat_ptr. rewrite (wrapU_small 32) by (unfold is_u; lia).
  rewrite <-(le_combine_zeros l 4). replace 8%nat with (length (l ++ replicate 4 0)) by (by rewrite length_app, Hn). apply le_split_combine.
  apply Forall_app. split; [done|]. repeat constructor; unfold is_u; lia.
Qed.

(** The bytes of the pointer in the structure of the program. *)
Definition ptr_at (off : nat) (arg : list Z) : list Z := take 4 (drop off arg).

(** The device sees the pointer of the program as one of 64 bits; the program gets what the
    device left in front of the pointer, its own pointer back, and nothing behind changes. *)
Lemma siocwandev_spec dev arg : is_bytes arg → 32 ≤ zlen arg → (∀ c l d, length (dev c l d).2 = length l) →
  compat_siocwandev dev arg = let r := dev SIOCWANDEV (take 28 arg ++ replicate 12 0) 0 in (r.1, if r.1 =? 0 then take 24 r.2 ++ drop 24 arg else arg).
Proof.
  intros Hb Ha Hdev. unfold compat_siocwandev. rewrite get_compat, (proj2 (Z.ltb_ge _ _)) by lia. unfold rd, bytes_at, IFS_IFSU. rewrite !(proj2 (Z.leb_le _ _)) by lia. cbn [andb fmap option_fmap option_map].
  change (Z.to_nat (Z.of_nat 4)) with 4%nat. change (Z.to_nat 24) with 24%nat. assert (length (take 4 (drop 24 arg)) = 4%nat) as L4 by (rewrite length_take, length_drop; lia).
  rewrite zero_extended by (try done; by apply Forall_take, Forall_drop). assert (length (take 32 arg) = 32%nat) as L32 by (rewrite length_take; lia).
  assert (set_bytes 24 (take 4 (drop 24 arg) ++ replicate 4 0) (widened arg) = take 28 arg ++ replicate 12 0) as ->.
  { rewrite set_bytes_app by (unfold widened; rewrite ?length_app, ?L4, ?L32, ?length_replicate; lia). change (Z.to_nat 24) with 24%nat. rewrite length_app, L4, length_replicate. unfold widened.
    rewrite take_app_le, take_take by lia. rewrite drop_app_ge by lia. rewrite L32. rewrite <-app_assoc, (app_assoc (take _ arg)), take_take_drop. done. }
  assert (get_bytes 24 8 (widened arg) = take 8 (drop 24 arg)) as ->.
  { unfold get_bytes, bytes_at. rewrite !(proj2 (Z.leb_le _ _)) by (unfold widened; rewrite ?length_app, ?L32, ?length_replicate; lia). cbn [andb default from_option]. change (Z.to_nat 8) with 8%nat. change (Z.to_nat 24) with 24%nat.
    unfold widened. rewrite drop_app_le, take_app_le by (rewrite ?length_drop; lia). by rewrite skipn_firstn_comm, take_take. }
  pose proof (Hdev SIOCWANDEV (take 28 arg ++ replicate 12 0) 0) as Hl. destruct (dev _ _ _) as [err ifr]. cbn [fst snd] in *. destruct (Z.eqb_spec err 0) as [->|]; [|done].
  rewrite length_app, length_replicate, length_take in Hl. assert (length (take 8 (drop 24 arg)) = 8%nat) as L8 by (rewrite length_take, length_drop; lia).
  rewrite set_bytes_app by (rewrite ?L8; lia). change (Z.to_nat 24) with 24%nat. rewrite put_compat by (rewrite ?length_app, ?length_take, ?L8, ?length_drop; lia). f_equal.
  rewrite take_app_ge by (rewrite length_take; lia). rewrite length_take. replace (32 - 24 `min` length ifr)%nat with 8%nat by lia. rewrite take_app_le by lia. rewrite (take_ge (take 8 _)) by lia.
  rewrite <-app_assoc. f_equal. replace (drop 32 arg) with (drop 8 (drop 24 arg)) by (by rewrite drop_drop). apply take_drop.
Qed.

(** Requests that need only the pointer ifr_data: the device gets it zero-extended, apart and
    in the structure. *)
Lemma ifr_data_spec dev is_cmd_ cmd arg : is_bytes arg → 32 ≤ zlen arg →
  compat_ifr_data_ioctl dev is_cmd_ cmd arg = if is_cmd_ : bool then (dev cmd (take 20 arg ++ replicate 4 0 ++ drop 24 (widened arg)) (u32 (le_combine (ptr_at 16 arg)))).1 else - ENOTTY.
Proof.
  intros Hb Ha. unfold compat_ifr_data_ioctl. destruct is_cmd_; [|done]. cbn [negb]. rewrite get_compat, (proj2 (Z.ltb_ge _ _)) by lia. do 2 f_equal.
  assert (length (take 4 (drop 16 arg)) = 4%nat) as L4 by (rewrite length_take, length_drop; lia). assert (length (take 32 arg) = 32%nat) as L32 by (rewrite length_take; lia).
  pose proof (zero_extended (take 4 (drop 16 arg)) ltac:(by apply Forall_take, Forall_drop) L4) as E. unfold compat_ptr in E. rewrite E. unfold IFR_DATA.
  rewrite set_bytes_app by (unfold widened; rewrite ?length_app, ?L4, ?L32, ?length_replicate; lia). rewrite length_app, L4, length_replicate. change (Z.to_nat 16) with 16%nat.
  unfold widened at 1. rewrite take_app_le, take_take by lia. by rewrite <-app_assoc, (app_assoc (take _ arg)), take_take_drop.
Qed.

(** Nothing is written for a program whose structure is not all there. *)
Lemma compat_short dev ok cmd arg : zlen arg < 32 → compat_siocwandev dev arg = (- EFAULT, arg) ∧ compat_ifr_data_ioctl dev ok cmd arg = if ok : bool then - EFAULT else - ENOTTY.
Proof. intros H. unfold compat_siocwandev, compat_ifr_data_ioctl. rewrite get_compat, (proj2 (Z.ltb_lt _ _)) by done. by destruct ok. Qed.

(** ** The dispatch *)

(** A protocol without a handler of its own for 32-bit programs, and no wireless request. *)
Definition stock (e : compat_env) (cmd : Z) : Prop := (∀ r, co_proto e = Some r → r = - ENOIOCTLCMD) ∧ (cmd < SIOCIWFIRST ∨ SIOCIWLAST < cmd).

Lemma stock_trans e cmd arg : stock e cmd → compat_sock_ioctl e cmd arg = compat_sock_ioctl_trans e cmd arg.
Proof.
  intros [Hp Hc]. unfold compat_sock_ioctl. replace (default (- ENOIOCTLCMD) (co_proto e)) with (- ENOIOCTLCMD) by (destruct (co_proto e) as [r|]; [by rewrite (Hp r eq_refl)|done]).
  rewrite Z.eqb_refl. cbn [andb]. by replace ((SIOCIWFIRST <=? cmd) && (cmd <=? SIOCIWLAST)) with false by (symmetry; apply andb_false_iff; destruct Hc; [left|right]; apply Z.leb_gt; lia).
Qed.

Ltac each_cmd H := cbn in H; repeat (destruct H as [<-|H]; [|]); [..|done].

(** Where the layout is the same, a 32-bit program gets the answer of the native call. *)
Lemma compat_is_native e cmd arg : stock e cmd → In cmd (native_cmds ++ same_layout_cmds) → compat_sock_ioctl e cmd arg = (sock_ioctl (co_native e) cmd, arg).
Proof. intros S H. rewrite (stock_trans e cmd arg S). clear S. each_cmd H; (reflexivity || (unfold sock_ioctl; by destruct (io_wext (co_native e)))). Qed.

(** The answer of the protocol, if it has one, comes first. *)
Lemma compat_proto_first e cmd arg r : co_proto e = Some r → r ≠ - ENOIOCTLCMD → compat_sock_ioctl e cmd arg = (r, arg).
Proof. intros E Hr. unfold compat_sock_ioctl. rewrite E. apply Z.eqb_neq in Hr. cbn [default from_option id]. unfold id. rewrite Hr. cbn [andb]. by rewrite Hr. Qed.

(** The old bridge calls tell a 32-bit program only that they are too old for it. *)
Lemma compat_old_bridge e cmd arg : stock e cmd → cmd = SIOCGIFBR ∨ cmd = SIOCSIFBR → 4 ≤ zlen arg → le_combine (take 4 arg) = BRCTL_GET_VERSION → compat_sock_ioctl e cmd arg = (BRCTL_VERSION + 1, arg).
Proof.
  intros S H Ha E. rewrite (stock_trans e cmd arg S). assert (compat_sock_ioctl_trans e cmd arg = (old_bridge_ioctl arg, arg)) as -> by (destruct H as [-> | ->]; reflexivity).
  unfold old_bridge_ioctl, rd, bytes_at. rewrite !(proj2 (Z.leb_le _ _)) by lia. cbn [andb fmap option_fmap option_map]. change (Z.to_nat 0) with O. rewrite drop_0. change (Z.to_nat (Z.of_nat 4)) with 4%nat. by rewrite E.
Qed.

(** No request of a 32-bit program changes the length of the mapped memory, nor a byte behind
    the short structure. *)
Lemma compat_keeps_rest e cmd arg : is_bytes arg → (∀ c l d, length (co_dev e c l d).2 = length l) → let r := compat_sock_ioctl e cmd arg in zlen r.2 = zlen arg ∧ drop 24 r.2 = drop 24 arg.
Proof.
  intros Hb Hdev. cbv zeta. assert (zlen (compat_siocwandev (co_dev e) arg).2 = zlen arg ∧ drop 24 (compat_siocwandev (co_dev e) arg).2 = drop 24 arg) as Hw.
  { destruct (Z.lt_ge_cases (zlen arg) 32) as [H|H]; [by destruct (compat_short (co_dev e) true cmd arg H) as [-> _]|]. rewrite (siocwandev_spec _ _ Hb H Hdev). cbv zeta. cbn [snd].
    destruct (_ =? 0); [|done]. pose proof (Hdev SIOCWANDEV (take 28 arg ++ replicate 12 0) 0) as Hl. rewrite length_app, length_replicate, length_take in Hl.
    rewrite drop_app_ge, drop_drop, length_take by (rewrite length_take; lia). rewrite length_app, length_take, length_drop. split; [lia|]. f_equal. lia. }
  unfold compat_sock_ioctl. destruct (_ =? _); [|done]. unfold compat_sock_ioctl_trans. repeat (destruct (_ : bool); [done|]). done.
Qed.

End SocketCompat.
