(* ===== verification/SkbQueue.v ===== *)
(** * Queues of socket buffers

    include/linux/skbuff.h and net/core/skbuff.c: the doubly linked rings that hold the
    packets of a socket, with their head, and the error queue of a socket built on them.

    [qheap] is the memory: the pointers next and prev of buffers and heads, the counter
    of a head, and the users of a buffer.  A head begins like a buffer, so the same
    address is a node of the ring.  The spin lock of a queue makes each locked
    operation one step. *)

From Stdlib Require Import ZArith Lia.
From stdpp Require Import base numbers list gmap.
From S2P Require Import Prelude.

Module SkbQueue.

Record qheap := QHeap {
  nx : gmap Z Z;       (** next *)
  pv : gmap Z Z;       (** prev *)
  ql : gmap Z Z;       (** qlen of the heads *)
  us : gmap Z Z }.     (** users of the buffers *)

Abbreviation qst := (st qheap).

Definition set_nx (m : gmap Z Z) (s : qheap) : qheap := QHeap m (pv s) (ql s) (us s).
Definition set_pv (m : gmap Z Z) (s : qheap) : qheap := QHeap (nx s) m (ql s) (us s).
Definition set_ql (m : gmap Z Z) (s : qheap) : qheap := QHeap (nx s) (pv s) m (us s).
Definition set_us (m : gmap Z Z) (s : qheap) : qheap := QHeap (nx s) (pv s) (ql s) m.

Definition NULL : Z := 0.

(** Fields of an object; an access to none is a fault. *)
Definition next (a : Z) : qst Z := s ← get; lift (nx s !! a).
Definition prev (a : Z) : qst Z := s ← get; lift (pv s !! a).
Definition qlen (a : Z) : qst Z := s ← get; lift (ql s !! a).
Definition set_next (a v : Z) : qst unit := _ ← next a; modify (λ s, set_nx (<[a := v]> (nx s)) s).
Definition set_prev (a v : Z) : qst unit := _ ← prev a; modify (λ s, set_pv (<[a := v]> (pv s)) s).
Definition set_qlen (a v : Z) : qst unit := _ ← qlen a; modify (λ s, set_ql (<[a := u32 v]> (ql s)) s).

(** ** Looking *)

Definition skb_queue_empty (list : Z) : qst bool := n ← next list; mret (n =? list).
Definition skb_queue_empty_lockless := skb_queue_empty.
Definition skb_queue_is_last (list skb : Z) : qst bool := n ← next skb; mret (n =? list).
Definition skb_queue_is_first (list skb : Z) : qst bool := p ← prev skb; mret (p =? list).

Definition skb_queue_next (list skb : Z) : qst Z :=
  b ← skb_queue_is_last list skb;
  if b : bool then fault else next skb.

Definition skb_queue_prev (list skb : Z) : qst Z :=
  b ← skb_queue_is_first list skb;
  if b : bool then fault else prev skb.

Definition skb_peek (list_ : Z) : qst Z :=
  skb ← next list_;
  if skb =? list_ then mret NULL else mret skb.

Definition __skb_peek (list_ : Z) : qst Z := next list_.

Definition skb_peek_next (skb list_ : Z) : qst Z :=
  n ← next skb;
  if n =? list_ then mret NULL else mret n.

Definition skb_peek_tail (list_ : Z) : qst Z :=
  skb ← prev list_;
  if skb =? list_ then mret NULL else mret skb.

Definition skb_queue_len (list_ : Z) : qst Z := qlen list_.
Definition skb_queue_len_lockless := skb_queue_len.

(** ** Changing *)

Definition __skb_queue_head_init (list : Z) : qst unit :=
  set_next list list ;; set_prev list list ;; set_qlen list 0.

Definition skb_queue_head_init := __skb_queue_head_init.

Definition __skb_insert (newsk prev next list : Z) : qst unit :=
  set_next newsk next ;;
  set_prev newsk prev ;;
  set_prev next newsk ;;
  set_next prev newsk ;;
  n ← qlen list;
  set_qlen list (n + 1).

Definition __skb_queue_splice (list prv nxt : Z) : qst unit :=
  first ← next list;
  last ← prev list;
  set_prev first prv ;;
  set_next prv first ;;
  set_next last nxt ;;
  set_prev nxt last.

(** [head->qlen += list->qlen] *)
Definition add_qlen (list head : Z) : qst unit :=
  a ← qlen head;
  b ← qlen list;
  set_qlen head (a + b).

Definition skb_queue_splice (list head : Z) : qst unit :=
  e ← skb_queue_empty list;
  if e : bool then mret tt
  else n ← next head; __skb_queue_splice list head n ;; add_qlen list head.

Definition skb_queue_splice_init (list head : Z) : qst unit :=
  e ← skb_queue_empty list;
  if e : bool then mret tt
  else n ← next head; __skb_queue_splice list head n ;; add_qlen list head ;; __skb_queue_head_init list.

Definition skb_queue_splice_tail (list head : Z) : qst unit :=
  e ← skb_queue_empty list;
  if e : bool then mret tt
  else p ← prev head; __skb_queue_splice list p head ;; add_qlen list head.

Definition skb_queue_splice_tail_init (list head : Z) : qst unit :=
  e ← skb_queue_empty list;
  if e : bool then mret tt
  else p ← prev head; __skb_queue_splice list p head ;; add_qlen list head ;; __skb_queue_head_init list.

Definition __skb_queue_after (list prev newsk : Z) : qst unit :=
  n ← next prev;
  __skb_insert newsk prev n list.

Definition __skb_queue_before (list next newsk : Z) : qst unit :=
  p ← prev next;
  __skb_insert newsk p next list.

Definition __skb_queue_head (list newsk : Z) : qst unit := __skb_queue_after list list newsk.
Definition __skb_queue_tail (list newsk : Z) : qst unit := __skb_queue_before list list newsk.

Definition __skb_unlink (skb list : Z) : qst unit :=
  n ← qlen list;
  set_qlen list (n - 1) ;;
  nxt ← next skb;
  prv ← prev skb;
  set_prev skb NULL ;;
  set_next skb NULL ;;
  set_prev nxt prv ;;
  set_next prv nxt.

Definition __skb_dequeue (list : Z) : qst Z :=
  skb ← skb_peek list;
  (if skb =? NULL then mret tt else __skb_unlink skb list) ;;
  mret skb.

Definition __skb_dequeue_tail (list : Z) : qst Z :=
  skb ← skb_peek_tail list;
  (if skb =? NULL then mret tt else __skb_unlink skb list) ;;
  mret skb.

(** With the lock of the queue. *)
Definition skb_dequeue := __skb_dequeue.
Definition skb_dequeue_tail := __skb_dequeue_tail.
Definition skb_queue_head := __skb_queue_head.
Definition skb_queue_tail := __skb_queue_tail.
Definition skb_unlink := __skb_unlink.
Definition skb_append (old newsk list : Z) : qst unit := __skb_queue_after list old newsk.

(** ** References *)

Definition skb_get (skb : Z) : qst Z :=
  s ← get;
  n ← lift (us s !! skb);
  modify (λ s, set_us (<[skb := n + 1]> (us s)) s) ;;
  mret skb.

Definition skb_shared (skb : Z) : qst bool :=
  s ← get;
  n ← lift (us s !! skb);
  mret (negb (n =? 1)).

Definition skb_unref (skb : Z) : qst bool :=
  if skb =? NULL then mret false
  else
    s ← get;
    n ← lift (us s !! skb);
    if n =? 1 then mret true
    else
      modify (λ s, set_us (<[skb := n - 1]> (us s)) s) ;;
      mret (n - 1 =? 0).

(** The memory of a freed buffer is gone. *)
Definition __kfree_skb (skb : Z) : qst unit :=
  modify (λ s, QHeap (delete skb (nx s)) (delete skb (pv s)) (ql s) (delete skb (us s))).

Definition kfree_skb (skb : Z) : qst unit :=
  r ← skb_unref skb;
  if r : bool then __kfree_skb skb else mret tt.

(** [while ((skb = __skb_dequeue(list)) != NULL) kfree_skb(skb);] *)
Fixpoint purge_loop (fuel : nat) (list : Z) : qst unit :=
  match fuel with
  | O => fault
  | S fuel =>
      skb ← skb_dequeue list;
      if skb =? NULL then mret tt
      else kfree_skb skb ;; purge_loop fuel list
  end.

(** Each turn takes another buffer off the queue, and one finds it empty. *)
Definition skb_queue_purge (list : Z) : qst unit :=
  s ← get;
  purge_loop (S (size (us s))) list.

Definition __skb_queue_purge := skb_queue_purge.

(** ** The error queue of a socket *)

(** The fields of [struct sock] that it uses, with the charge of each queued buffer. *)
Record err_sock := ErrSock {
  sk_error_queue : Z;
  sk_rmem_alloc : Z;
  sk_rcvbuf : Z;
  sk_err : Z;
  sk_dead : bool }.

(** What the code reads of an error packet: its size, and origin and number in the
    control block; [reports] counts the calls of sk_error_report. *)
Record err_skb := ErrSkb { ek_truesize : Z; ek_origin : Z; ek_errno : Z }.

Definition SO_EE_ORIGIN_ICMP : Z := 2.
Definition SO_EE_ORIGIN_ICMP6 : Z := 3.

Record err_state := ErrState { es_heap : qheap; es_sk : err_sock; es_reports : Z }.
Abbreviation est := (st err_state).

Definition liftq {A} (m : qst A) : est A := λ s,
  match m (es_heap s) with Some (a, h) => Some (a, ErrState h (es_sk s) (es_reports s)) | None => None end.

Definition set_sk (f : err_sock → err_sock) : est unit := modify (λ s, ErrState (es_heap s) (f (es_sk s)) (es_reports s)).
Definition sk_error_report : est unit := modify (λ s, ErrState (es_heap s) (es_sk s) (es_reports s + 1)).

Section error_queue.
Context (packet : Z → err_skb).

(** A buffer that is charged elsewhere is not modelled: [skb_orphan] has nothing to do. *)
Definition sock_queue_err_skb (skb : Z) : est Z :=
  s ← get;
  let sk := es_sk s in
  if u32 (sk_rcvbuf sk) <=? u32 (sk_rmem_alloc sk + ek_truesize (packet skb)) then mret (- ENOMEM)
  else
    set_sk (λ sk, ErrSock (sk_error_queue sk) (s32 (sk_rmem_alloc sk + ek_truesize (packet skb))) (sk_rcvbuf sk) (sk_err sk) (sk_dead sk)) ;;
    liftq (skb_queue_tail (sk_error_queue sk) skb) ;;
    (if sk_dead sk then mret tt else sk_error_report) ;;
    mret 0.

Definition is_icmp_err_skb (skb : Z) : bool :=
  negb (skb =? NULL) && ((ek_origin (packet skb) =? SO_EE_ORIGIN_ICMP) || (ek_origin (packet skb) =? SO_EE_ORIGIN_ICMP6)).

Definition set_sk_err (e : Z) : est unit :=
  set_sk (λ sk, ErrSock (sk_error_queue sk) (sk_rmem_alloc sk) (sk_rcvbuf sk) e (sk_dead sk)).

Definition sock_dequeue_err_skb : est Z :=
  s ← get;
  let q := sk_error_queue (es_sk s) in
  skb ← liftq (__skb_dequeue q);
  skb_next ← (if skb =? NULL then mret NULL else liftq (skb_peek q));
  let icmp_next := is_icmp_err_skb skb_next in
  (if icmp_next then set_sk_err (ek_errno (packet skb_next)) else mret tt) ;;
  (if is_icmp_err_skb skb && negb icmp_next then set_sk_err 0 else mret tt) ;;
  (if skb_next =? NULL then mret tt else sk_error_report) ;;
  mret skb.

(** The destructor of a queued error packet. *)
Definition sock_rmem_free (skb : Z) : est unit :=
  set_sk (λ sk, ErrSock (sk_error_queue sk) (s32 (sk_rmem_alloc sk - ek_truesize (packet skb))) (sk_rcvbuf sk) (sk_err sk) (sk_dead sk)).

End error_queue.

(** ** Rings *)

(** The neighbours along a list of nodes. *)
Definition links (c : list Z) : list (Z * Z) := zip c (tail c).

(** The ring of a head [h] with the buffers [l]. *)
Definition cyc (h : Z) (l : list Z) : list Z := h :: l ++ [h].

Definition lk (s : qheap) (p : Z * Z) : Prop := nx s !! p.1 = Some p.2 ∧ pv s !! p.2 = Some p.1.

Lemma links_app u p v : links (u ++ p :: v) = links (u ++ [p]) ++ links (p :: v).
Proof.
  induction u as [|a u IH]; [done|]. destruct u as [|b u]; [done|]. cbn [app] in *.
  change (links (a :: b :: u ++ p :: v)) with ((a, b) :: links (b :: u ++ p :: v)). by rewrite IH.
Qed.

Lemma links_mid u p n v : links (u ++ p :: n :: v) = links (u ++ [p]) ++ (p, n) :: links (n :: v).
Proof. by rewrite links_app. Qed.

Lemma links_fst a l z : (links (a :: l ++ [z])).*1 = a :: l.
Proof. revert a. induction l as [|b l IH]; intros a; [done|]. change (a :: (links (b :: l ++ [z])).*1 = a :: b :: l). by rewrite IH. Qed.

Lemma links_snd a l z : (links (a :: l ++ [z])).*2 = l ++ [z].
Proof. revert a. induction l as [|b l IH]; intros a; [done|]. change (b :: (links (b :: l ++ [z])).*2 = b :: l ++ [z]). by rewrite IH. Qed.

Lemma lk_frame s s' A : (∀ a, a ∈ A.*1 → nx s' !! a = nx s !! a) → (∀ b, b ∈ A.*2 → pv s' !! b = pv s !! b) →
  Forall (lk s) A → Forall (lk s') A.
Proof.
  intros Hn Hp. rewrite !Forall_forall. intros HA [a b] Hin. destruct (HA _ Hin) as [E1 E2]. split; cbn.
  - rewrite Hn; [done|]. by apply (list_elem_of_fmap_2 fst _ (a, b)).
  - rewrite Hp; [done|]. by apply (list_elem_of_fmap_2 snd _ (a, b)).
Qed.

Record ring (s : qheap) (h : Z) (l : list Z) : Prop := {
  ring_links : Forall (lk s) (links (cyc h l));
  ring_nodup : NoDup (h :: l);
  ring_qlen : ql s !! h = Some (u32 (Z.of_nat (length l))) }.

Lemma cyc_nodup h l : NoDup (h :: l) → NoDup ((links (cyc h l)).*1) ∧ NoDup ((links (cyc h l)).*2).
Proof.
  intros Hn. unfold cyc. rewrite links_fst, links_snd. split; [done|]. by rewrite Permutation_app_comm.
Qed.

(** Two lists of links around one that is taken out. *)
Lemma around A p n B : NoDup ((A ++ (p, n) :: B : list (Z * Z)).*1) → NoDup ((A ++ (p, n) :: B).*2) →
  (p ∉ A.*1) ∧ (p ∉ B.*1) ∧ (n ∉ A.*2) ∧ (n ∉ B.*2).
Proof.
  rewrite !fmap_app, !fmap_cons. cbn [fst snd]. rewrite !NoDup_app. intros (_ & H1 & [H2 _]%NoDup_cons) (_ & H3 & [H4 _]%NoDup_cons).
  split_and!; try done; intros Hin; [by apply (H1 p Hin); left|by apply (H3 n Hin); left].
Qed.

(** [s'] differs from [s] in the nodes of [D] only. *)
Record changed (D : list Z) (s s' : qheap) : Prop := {
  ch_off : ∀ a, a ∉ D → nx s' !! a = nx s !! a ∧ pv s' !! a = pv s !! a ∧ ql s' !! a = ql s !! a;
  ch_dom : ∀ a, (is_Some (nx s !! a) → is_Some (nx s' !! a)) ∧ (is_Some (pv s !! a) → is_Some (pv s' !! a)) ∧
    (is_Some (ql s !! a) ↔ is_Some (ql s' !! a));
  ch_us : us s' = us s }.

#[export] Instance changed_trans D : Transitive (changed D).
Proof.
  intros s1 s2 s3 [O1 D1 U1] [O2 D2 U2]. split; [|intros a; destruct (D1 a) as (X1 & X2 & X3), (D2 a) as (X4 & X5 & X6); split_and!; [auto..|by rewrite X3]|congruence].
  intros a Ha. destruct (O1 a Ha) as (<-&<-&<-). by apply O2.
Qed.

#[export] Instance changed_refl D : Reflexive (changed D).
Proof. by split. Qed.

Lemma changed_mono D D' s s' : changed D s s' → (∀ a, a ∈ D → a ∈ D') → changed D' s s'.
Proof. intros [O1 D1 U1] H. split; [|done|done]. intros a Ha. apply O1. intros Hin. by apply Ha, H. Qed.

Lemma is_Some_insert (m : gmap Z Z) a v b : is_Some (m !! b) → is_Some (<[a := v]> m !! b).
Proof. rewrite lookup_insert_is_Some'. by right. Qed.

Lemma set_next_ok D s a v : is_Some (nx s !! a) → a ∈ D →
  set_next a v s = Some (tt, set_nx (<[a := v]> (nx s)) s) ∧ changed D s (set_nx (<[a := v]> (nx s)) s).
Proof.
  intros [w E] Ha. split; [unfold set_next, next, mbind, st_bind, get, lift; by rewrite E|]. split; [|intros b; split_and!; try done; apply is_Some_insert|done].
  intros b Hb. cbn. rewrite lookup_insert_ne by naive_solver. done.
Qed.

Lemma set_prev_ok D s a v : is_Some (pv s !! a) → a ∈ D →
  set_prev a v s = Some (tt, set_pv (<[a := v]> (pv s)) s) ∧ changed D s (set_pv (<[a := v]> (pv s)) s).
Proof.
  intros [w E] Ha. split; [unfold set_prev, prev, mbind, st_bind, get, lift; by rewrite E|]. split; [|intros b; split_and!; try done; apply is_Some_insert|done].
  intros b Hb. cbn. rewrite lookup_insert_ne by naive_solver. done.
Qed.

Lemma set_qlen_ok D s a v : is_Some (ql s !! a) → a ∈ D →
  set_qlen a v s = Some (tt, set_ql (<[a := u32 v]> (ql s)) s) ∧ changed D s (set_ql (<[a := u32 v]> (ql s)) s).
Proof.
  intros [w E] Ha. split; [unfold set_qlen, qlen, mbind, st_bind, get, lift; by rewrite E|]. split; [|intros b; split_and!; try done|done].
  - intros b Hb. cbn. rewrite lookup_insert_ne by naive_solver. done.
  - cbn. rewrite lookup_insert_is_Some'. destruct (decide (a = b)) as [->|]; [rewrite E; split; [by left|by eexists]|]. split; [by right|by intros [?|?]].
Qed.

Lemma next_ok s a b : nx s !! a = Some b → next a s = Some (b, s).
Proof. intros E. unfold next, mbind, st_bind, get, lift. by rewrite E. Qed.
Lemma prev_ok s a b : pv s !! a = Some b → prev a s = Some (b, s).
Proof. intros E. unfold prev, mbind, st_bind, get, lift. by rewrite E. Qed.
Lemma qlen_ok s a b : ql s !! a = Some b → qlen a s = Some (b, s).
Proof. intros E. unfold qlen, mbind, st_bind, get, lift. by rewrite E. Qed.

(** ** The primitives *)

(** Composes the changes of the steps. *)
Ltac changes := repeat first [eassumption | etrans; [eassumption|]].

Lemma insert_ok D s x p n h k : is_Some (nx s !! x) → is_Some (pv s !! x) → is_Some (nx s !! p) → is_Some (pv s !! n) → ql s !! h = Some k →
  x ∈ D → p ∈ D → n ∈ D → h ∈ D →
  ∃ s', __skb_insert x p n h s = Some (tt, s') ∧ changed D s s' ∧ nx s' = <[p := x]> (<[x := n]> (nx s)) ∧
    pv s' = <[n := x]> (<[x := p]> (pv s)) ∧ ql s' = <[h := u32 (k + 1)]> (ql s).
Proof.
  intros Hx1 Hx2 Hp Hn Hh Dx Dp Dn Dh. unfold __skb_insert.
  destruct (set_next_ok D s x n) as [E1 C1]; [done..|]. rewrite (st_bind_step _ _ _ _ _ E1). set (s1 := set_nx _ s) in *.
  destruct (set_prev_ok D s1 x p) as [E2 C2]; [done..|]. rewrite (st_bind_step _ _ _ _ _ E2). set (s2 := set_pv _ s1) in *.
  destruct (set_prev_ok D s2 n x) as [E3 C3]; [by apply is_Some_insert|done|]. rewrite (st_bind_step _ _ _ _ _ E3). set (s3 := set_pv _ s2) in *.
  destruct (set_next_ok D s3 p x) as [E4 C4]; [by apply is_Some_insert|done|]. rewrite (st_bind_step _ _ _ _ _ E4). set (s4 := set_nx _ s3) in *.
  rewrite (st_bind_step _ _ _ _ _ (qlen_ok s4 h k Hh)).
  destruct (set_qlen_ok D s4 h (k + 1)) as [E5 C5]; [by eexists|done|]. rewrite E5.
  eexists. split; [reflexivity|]. split; [|done]. changes.
Qed.

Lemma unlink_ok D s x p n h k : nx s !! x = Some n → pv s !! x = Some p → is_Some (nx s !! p) → is_Some (pv s !! n) → ql s !! h = Some k →
  x ∈ D → p ∈ D → n ∈ D → h ∈ D →
  ∃ s', __skb_unlink x h s = Some (tt, s') ∧ changed D s s' ∧ nx s' = <[p := n]> (<[x := NULL]> (nx s)) ∧
    pv s' = <[n := p]> (<[x := NULL]> (pv s)) ∧ ql s' = <[h := u32 (k - 1)]> (ql s).
Proof.
  intros Hx1 Hx2 Hp Hn Hh Dx Dp Dn Dh. unfold __skb_unlink. rewrite (st_bind_step _ _ _ _ _ (qlen_ok s h k Hh)).
  destruct (set_qlen_ok D s h (k - 1)) as [E5 C5]; [by eexists|done|]. rewrite (st_bind_step _ _ _ _ _ E5). set (s0 := set_ql _ s) in *.
  rewrite (st_bind_step _ _ _ _ _ (next_ok s0 x n Hx1)), (st_bind_step _ _ _ _ _ (prev_ok s0 x p Hx2)).
  destruct (set_prev_ok D s0 x NULL) as [E1 C1]; [by eexists|done|]. rewrite (st_bind_step _ _ _ _ _ E1). set (s1 := set_pv _ s0) in *.
  destruct (set_next_ok D s1 x NULL) as [E2 C2]; [by eexists|done|]. rewrite (st_bind_step _ _ _ _ _ E2). set (s2 := set_nx _ s1) in *.
  destruct (set_prev_ok D s2 n p) as [E3 C3]; [by apply is_Some_insert|done|]. rewrite (st_bind_step _ _ _ _ _ E3). set (s3 := set_pv _ s2) in *.
  destruct (set_next_ok D s3 p n) as [E4 C4]; [by apply is_Some_insert|done|]. rewrite E4.
  eexists. split; [reflexivity|]. split; [|done]. changes.
Qed.

Lemma splice_ok D s k p n f l : nx s !! k = Some f → pv s !! k = Some l → is_Some (pv s !! f) → is_Some (nx s !! p) →
  is_Some (nx s !! l) → is_Some (pv s !! n) → f ∈ D → p ∈ D → l ∈ D → n ∈ D →
  ∃ s', __skb_queue_splice k p n s = Some (tt, s') ∧ changed D s s' ∧ nx s' = <[l := n]> (<[p := f]> (nx s)) ∧
    pv s' = <[n := l]> (<[f := p]> (pv s)) ∧ ql s' = ql s.
Proof.
  intros Hk1 Hk2 Hf Hp Hl Hn Df Dp Dl Dn. unfold __skb_queue_splice.
  rewrite (st_bind_step _ _ _ _ _ (next_ok s k f Hk1)), (st_bind_step _ _ _ _ _ (prev_ok s k l Hk2)).
  destruct (set_prev_ok D s f p) as [E1 C1]; [done..|]. rewrite (st_bind_step _ _ _ _ _ E1). set (s1 := set_pv _ s) in *.
  destruct (set_next_ok D s1 p f) as [E2 C2]; [done..|]. rewrite (st_bind_step _ _ _ _ _ E2). set (s2 := set_nx _ s1) in *.
  destruct (set_next_ok D s2 l n) as [E3 C3]; [by apply is_Some_insert|done|]. rewrite (st_bind_step _ _ _ _ _ E3). set (s3 := set_nx _ s2) in *.
  destruct (set_prev_ok D s3 n l) as [E4 C4]; [by apply is_Some_insert|done|]. rewrite E4.
  eexists. split; [reflexivity|]. split; [|done]. changes.
Qed.

Lemma init_ok D s h : is_Some (nx s !! h) → is_Some (pv s !! h) → is_Some (ql s !! h) → h ∈ D →
  ∃ s', __skb_queue_head_init h s = Some (tt, s') ∧ changed D s s' ∧ nx s' = <[h := h]> (nx s) ∧ pv s' = <[h := h]> (pv s) ∧ ql s' = <[h := 0]> (ql s).
Proof.
  intros H1 H2 H3 Dh. unfold __skb_queue_head_init.
  destruct (set_next_ok D s h h) as [E1 C1]; [done..|]. rewrite (st_bind_step _ _ _ _ _ E1). set (s1 := set_nx _ s) in *.
  destruct (set_prev_ok D s1 h h) as [E2 C2]; [done..|]. rewrite (st_bind_step _ _ _ _ _ E2). set (s2 := set_pv _ s1) in *.
  destruct (set_qlen_ok D s2 h 0) as [E3 C3]; [done..|]. rewrite E3. eexists. split; [reflexivity|]. split; [|done]. changes.
Qed.

(** ** Links that the primitives make *)

Lemma lk_insert s s' A B p x n : NoDup ((A ++ (p, n) :: B).*1) → NoDup ((A ++ (p, n) :: B).*2) →
  x ∉ (A ++ (p, n) :: B).*1 → x ∉ (A ++ (p, n) :: B).*2 →
  nx s' = <[p := x]> (<[x := n]> (nx s)) → pv s' = <[n := x]> (<[x := p]> (pv s)) →
  Forall (lk s) (A ++ (p, n) :: B) → Forall (lk s') (A ++ (p, x) :: (x, n) :: B).
Proof.
  intros N1 N2 X1 X2 En Ep. destruct (around A p n B N1 N2) as (P1 & P2 & P3 & P4).
  rewrite fmap_app, fmap_cons, elem_of_app, elem_of_cons in X1, X2. cbn [fst snd] in X1, X2.
  rewrite !Forall_app, !Forall_cons. intros (HA & Hpn & HB).
  assert (∀ L, p ∉ L.*1 → n ∉ L.*2 → x ∉ L.*1 → x ∉ L.*2 → Forall (lk s) L → Forall (lk s') L) as Hf.
  { intros L L1 L2 L3 L4. apply lk_frame; intros a Ha; rewrite ?En, ?Ep, !lookup_insert_ne; naive_solver. }
  split; [apply Hf; naive_solver|]. split; [|split; [|apply Hf; naive_solver]]; split; cbn; rewrite ?En, ?Ep.
  - by rewrite lookup_insert_eq.
  - rewrite lookup_insert_ne by naive_solver. by rewrite lookup_insert_eq.
  - rewrite lookup_insert_ne by naive_solver. by rewrite lookup_insert_eq.
  - by rewrite lookup_insert_eq.
Qed.

Lemma lk_unlink s s' A B p x n : NoDup ((A ++ (p, x) :: (x, n) :: B).*1) → NoDup ((A ++ (p, x) :: (x, n) :: B).*2) →
  nx s' = <[p := n]> (<[x := NULL]> (nx s)) → pv s' = <[n := p]> (<[x := NULL]> (pv s)) →
  Forall (lk s) (A ++ (p, x) :: (x, n) :: B) → Forall (lk s') (A ++ (p, n) :: B).
Proof.
  intros N1 N2 En Ep. destruct (around A p x _ N1 N2) as (P1 & P2 & P3 & P4).
  replace (A ++ (p, x) :: (x, n) :: B) with ((A ++ [(p, x)]) ++ (x, n) :: B) in * by (by rewrite <-app_assoc).
  destruct (around _ x n B N1 N2) as (Q1 & Q2 & Q3 & Q4). rewrite fmap_app, elem_of_app in Q1, Q3. cbn in Q1, Q3, P2, P4.
  rewrite elem_of_cons in P2, P4. rewrite <-app_assoc, !Forall_app, !Forall_cons. intros (HA & _ & _ & HB).
  assert (∀ L, p ∉ L.*1 → n ∉ L.*2 → x ∉ L.*1 → x ∉ L.*2 → Forall (lk s) L → Forall (lk s') L) as Hf.
  { intros L L1 L2 L3 L4. apply lk_frame; intros a Ha; rewrite ?En, ?Ep, !lookup_insert_ne; naive_solver. }
  split; [apply Hf; naive_solver|]. split; [|apply Hf; naive_solver]. by split; cbn; rewrite ?En, ?Ep, lookup_insert_eq.
Qed.

Lemma lk_splice s s' A B M p f l n : NoDup ((A ++ (p, n) :: B).*1) → NoDup ((A ++ (p, n) :: B).*2) →
  l ∉ (A ++ (p, n) :: B).*1 → f ∉ (A ++ (p, n) :: B).*2 → l ∉ M.*1 → f ∉ M.*2 → p ∉ M.*1 → n ∉ M.*2 →
  nx s' = <[l := n]> (<[p := f]> (nx s)) → pv s' = <[n := l]> (<[f := p]> (pv s)) →
  Forall (lk s) (A ++ (p, n) :: B) → Forall (lk s) M → Forall (lk s') (A ++ (p, f) :: M ++ (l, n) :: B).
Proof.
  intros N1 N2 L1 F1 L2 F2 P5 P6 En Ep. destruct (around A p n B N1 N2) as (P1 & P2 & P3 & P4).
  rewrite fmap_app, fmap_cons, elem_of_app, elem_of_cons in L1, F1. cbn [fst snd] in L1, F1.
  rewrite !Forall_app, !Forall_cons, Forall_app, Forall_cons. intros (HA & Hpn & HB) HM.
  assert (∀ L, p ∉ L.*1 → n ∉ L.*2 → l ∉ L.*1 → f ∉ L.*2 → Forall (lk s) L → Forall (lk s') L) as Hf.
  { intros L X1 X2 X3 X4. apply lk_frame; intros a Ha; rewrite ?En, ?Ep, !lookup_insert_ne; naive_solver. }
  split; [apply Hf; naive_solver|]. split; [|split; [by apply Hf|]; split; [|apply Hf; naive_solver]]; split; cbn; rewrite ?En, ?Ep.
  - rewrite lookup_insert_ne by naive_solver. by rewrite lookup_insert_eq.
  - rewrite lookup_insert_ne by naive_solver. by rewrite lookup_insert_eq.
  - by rewrite lookup_insert_eq.
  - by rewrite lookup_insert_eq.
Qed.

(** ** The specification: finite lists *)

(** The queues by their heads, the users of the live buffers, and all heads. *)
Record qspec := QSpec { queues : gmap Z (list Z); refs : gmap Z Z; heads : gset Z }.

Definition queue_set (h : Z) (l : list Z) (sp : qspec) : qspec := QSpec (<[h := l]> (queues sp)) (refs sp) (heads sp).
Definition queue_del (h : Z) (sp : qspec) : qspec := QSpec (delete h (queues sp)) (refs sp) (heads sp).

(** A buffer in no queue. *)
Definition unqueued (sp : qspec) (x : Z) : Prop := is_Some (refs sp !! x) ∧ map_Forall (λ _ l, x ∉ l) (queues sp).

#[export] Instance unqueued_dec sp x : Decision (unqueued sp x).
Proof. unfold unqueued. apply _. Defined.

Record spec_wf (sp : qspec) : Prop := {
  wf_head : ∀ h l, queues sp !! h = Some l → h ∈ heads sp;
  wf_nodup : ∀ h l, queues sp !! h = Some l → NoDup l;
  wf_buf : ∀ h l x, queues sp !! h = Some l → x ∈ l → is_Some (refs sp !! x);
  wf_disj : ∀ h1 l1 h2 l2 x, queues sp !! h1 = Some l1 → queues sp !! h2 = Some l2 → x ∈ l1 → x ∈ l2 → h1 = h2;
  wf_sort : ∀ x, x ∈ heads sp → refs sp !! x = None;
  wf_null : (NULL ∉ heads sp) ∧ refs sp !! NULL = None }.

(** The memory holds the rings of the lists. *)
Record qrel (s : qheap) (sp : qspec) : Prop := {
  qr_wf : spec_wf sp;
  qr_ring : ∀ h l, queues sp !! h = Some l → ring s h l;
  qr_nodes : ∀ a, a ∈ heads sp ∨ is_Some (refs sp !! a) → is_Some (nx s !! a) ∧ is_Some (pv s !! a);
  qr_heads : ∀ h, h ∈ heads sp ↔ is_Some (ql s !! h);
  qr_us : us s = refs sp }.

(** Nodes of different queues, and buffers in none, are different nodes. *)
Lemma nodes_apart sp h l h2 l2 a : spec_wf sp → queues sp !! h = Some l → queues sp !! h2 = Some l2 → h2 ≠ h →
  a ∈ h2 :: l2 → (a ∉ h :: l) ∧ ¬ unqueued sp a.
Proof.
  intros W Hh Hh2 Hne. rewrite !elem_of_cons. intros [->|Ha]; split.
  - intros [?|Hin]; [done|]. destruct (wf_buf _ W _ _ _ Hh Hin) as [? E]. by rewrite (wf_sort _ W h2 (wf_head _ W _ _ Hh2)) in E.
  - intros [[? E] _]. by rewrite (wf_sort _ W h2 (wf_head _ W _ _ Hh2)) in E.
  - intros [->|Hin]; [|by apply Hne, (wf_disj _ W h2 l2 h l a)]. destruct (wf_buf _ W _ _ _ Hh2 Ha) as [? E].
    by rewrite (wf_sort _ W h (wf_head _ W _ _ Hh)) in E.
  - intros [_ Hf]. by apply (Hf h2 l2 Hh2).
Qed.

Lemma ring_frame D s s' h l : changed D s s' → (∀ a, a ∈ h :: l → a ∉ D) → ring s h l → ring s' h l.
Proof.
  intros C Hd [L N Q]. split; [|done|].
  - unfold cyc in *. eapply lk_frame; [..|exact L]; intros a Ha; rewrite ?links_fst, ?links_snd in Ha; destruct (ch_off _ _ _ C a) as (E1 & E2 & E3); try done; apply Hd; [done|].
    rewrite elem_of_app, list_elem_of_singleton in Ha. rewrite elem_of_cons. tauto.
  - destruct (ch_off _ _ _ C h) as (_ & _ & ->); [apply Hd; left|done].
Qed.

(** How a step that changes queues keeps the relation. *)
Lemma qrel_change D s s' sp Q' : qrel s sp → changed D s s' → spec_wf (QSpec Q' (refs sp) (heads sp)) →
  (∀ h l, Q' !! h = Some l → ring s' h l ∨ (queues sp !! h = Some l ∧ ∀ a, a ∈ h :: l → a ∉ D)) →
  qrel s' (QSpec Q' (refs sp) (heads sp)).
Proof.
  intros [W R N H U] C W' Hq. split; [done|..]; cbn.
  - intros h l Hh. destruct (Hq h l Hh) as [?|[Hh' Hd]]; [done|]. eapply ring_frame; [done..|]. by apply R.
  - intros a Ha. destruct (N a Ha) as [N1 N2]. destruct (ch_dom _ _ _ C a) as (C1 & C2 & _). split; auto.
  - intros h. rewrite H. by destruct (ch_dom _ _ _ C h) as (_ & _ & ->).
  - by rewrite (ch_us _ _ _ C).
Qed.

(** The specification stays well formed when one list changes. *)
Lemma wf_set sp h l l' : spec_wf sp → queues sp !! h = Some l → NoDup l' → (∀ x, x ∈ l' → x ∈ l ∨ unqueued sp x) → spec_wf (queue_set h l' sp).
Proof.
  intros W Hh Hn Hx.
  assert (∀ h2 l2 x, queues sp !! h2 = Some l2 → x ∈ l' → x ∈ l2 → h2 = h) as Hd.
  { intros h2 l2 x H2 X1 X2. destruct (Hx x X1) as [X|[_ X]]; [by eapply (wf_disj _ W)|]. by destruct (X h2 l2 H2). }
  split; cbn.
  - intros h2 l2. rewrite lookup_insert_Some. intros [[<- _]|[_ H2]]; by eapply (wf_head _ W).
  - intros h2 l2. rewrite lookup_insert_Some. intros [[<- <-]|[_ H2]]; [done|by eapply (wf_nodup _ W)].
  - intros h2 l2 x. rewrite lookup_insert_Some. intros [[<- <-]|[_ H2]] Hin; [|by eapply (wf_buf _ W)].
    destruct (Hx x Hin) as [?|[? _]]; [by eapply (wf_buf _ W)|done].
  - intros h1 l1 h2 l2 x. rewrite !lookup_insert_Some. intros [[<- <-]|[Hne1 H1]] [[<- <-]|[Hne2 H2]] X1 X2; [done|..].
    + symmetry. by eapply Hd. + by eapply Hd. + by eapply (wf_disj _ W).
  - apply (wf_sort _ W).
  - apply (wf_null _ W).
Qed.

Lemma wf_del sp h : spec_wf sp → spec_wf (queue_del h sp).
Proof.
  intros W. split; cbn; [..|apply (wf_sort _ W)|apply (wf_null _ W)].
  - intros h2 l2 [_ H2]%lookup_delete_Some. by eapply (wf_head _ W).
  - intros h2 l2 [_ H2]%lookup_delete_Some. by eapply (wf_nodup _ W).
  - intros h2 l2 x [_ H2]%lookup_delete_Some. by eapply (wf_buf _ W).
  - intros h1 l1 h2 l2 x [_ H1]%lookup_delete_Some [_ H2]%lookup_delete_Some. by eapply (wf_disj _ W).
Qed.

(** One queue changes, in its own nodes and in buffers of no queue. *)
Lemma qrel_one s s' sp h l l' D : qrel s sp → queues sp !! h = Some l → changed D s s' → (∀ a, a ∈ D → (a ∈ h :: l) ∨ unqueued sp a) →
  ring s' h l' → (∀ x, x ∈ l' → x ∈ l ∨ unqueued sp x) → qrel s' (queue_set h l' sp).
Proof.
  intros R Hh C HD Hr Hl. apply (qrel_change D s s' sp _ R C).
  - apply (wf_set sp h l l' (qr_wf _ _ R) Hh); [|done]. by apply ring_nodup, NoDup_cons in Hr as [_ ?].
  - intros h2 l2. rewrite lookup_insert_Some. intros [[<- <-]|[Hne H2]]; [by left|]. right. split; [done|]. intros a Ha Hin.
    destruct (nodes_apart sp h l h2 l2 a (qr_wf _ _ R) Hh H2 (not_eq_sym Hne) Ha) as [X1 X2]. by destruct (HD a Hin).
Qed.

Lemma u32_add a b : u32 (u32 a + b) = u32 (a + b).
Proof. unfold wrapU. by rewrite Zplus_mod_idemp_l. Qed.

Lemma u32_add2 a b : u32 (u32 a + u32 b) = u32 (a + b).
Proof. unfold wrapU. by rewrite <-Zplus_mod. Qed.

(** ** Inserting and unlinking *)

Section step.
Context (s : qheap) (sp : qspec) (h : Z) (l : list Z).
Hypothesis (R : qrel s sp) (Hh : queues sp !! h = Some l).

Lemma node_Some a : a ∈ h :: l ∨ unqueued sp a → is_Some (nx s !! a) ∧ is_Some (pv s !! a).
Proof.
  intros Ha. apply (qr_nodes _ _ R). rewrite elem_of_cons in Ha. destruct Ha as [[->|Ha]|[Ha _]]; [left|right|by right].
  - by eapply (wf_head _ (qr_wf _ _ R)).
  - by eapply (wf_buf _ (qr_wf _ _ R)).
Qed.

Lemma link_at u a b v : cyc h l = u ++ a :: b :: v → lk s (a, b) ∧ a ∈ h :: l ∧ b ∈ h :: l.
Proof.
  intros E. pose proof (qr_ring _ _ R h l Hh) as [L _ _]. rewrite E, links_mid, Forall_app, Forall_cons in L. split; [apply L|].
  assert ((a, b) ∈ links (cyc h l)) as Hin by (rewrite E, links_app, elem_of_app; right; left).
  split.
  - apply (list_elem_of_fmap_2 fst) in Hin. unfold cyc in Hin. by rewrite links_fst in Hin.
  - apply (list_elem_of_fmap_2 snd) in Hin. unfold cyc in Hin. rewrite links_snd, elem_of_app, list_elem_of_singleton in Hin. rewrite elem_of_cons. tauto.
Qed.

Lemma insert_rel x u p n v l' : unqueued sp x → cyc h l = u ++ p :: n :: v → cyc h l' = u ++ p :: x :: n :: v →
  ∃ s', __skb_insert x p n h s = Some (tt, s') ∧ qrel s' (queue_set h l' sp).
Proof.
  intros Hx Ec Ec'. destruct (link_at _ _ _ _ Ec) as ([H1 H2] & Hp & Hn). cbn in H1, H2. pose proof (qr_ring _ _ R h l Hh) as [L N Q].
  destruct (node_Some x (or_intror Hx)) as [X1 X2].
  destruct (insert_ok (x :: h :: l) s x p n h (u32 (Z.of_nat (length l)))) as (s' & E & C & En & Ep & Eq); [done|done|by eexists|by eexists|done|by left|by right|by right|right; by left|].
  assert (l' ≡ₚ x :: l) as P.
  { apply (Permutation_app_inv_r [h]), (Permutation_cons_inv (a := h)). change (h :: l' ++ [h]) with (cyc h l'). rewrite Ec'.
    transitivity (x :: cyc h l); [|apply Permutation_swap]. rewrite Ec.
    change (u ++ p :: x :: n :: v) with (u ++ [p] ++ x :: n :: v). change (u ++ p :: n :: v) with (u ++ [p] ++ n :: v).
    rewrite !app_assoc. symmetry. apply Permutation_middle. }
  assert (x ∉ h :: l) as Xn.
  { rewrite elem_of_cons. destruct Hx as [[? Hx] Hf]. intros [->|Hin]; [|by eapply Hf]. by rewrite (wf_sort _ (qr_wf _ _ R) h) in Hx by (by eapply (wf_head _ (qr_wf _ _ R))). }
  exists s'. split; [done|]. eapply (qrel_one s s' sp h l l'); [done|done|exact C|..].
  - intros a. rewrite elem_of_cons. intros [->|?]; auto.
  - split.
    + pose proof (cyc_nodup h l N) as [N1 N2]. rewrite Ec, links_mid in L, N1, N2. rewrite Ec', links_mid.
      change (links (p :: x :: n :: v)) with ((p, x) :: (x, n) :: links (n :: v)). apply (lk_insert s s' (links (u ++ [p])) (links (n :: v))); try done.
      * rewrite <-links_mid, <-Ec. unfold cyc. by rewrite links_fst.
      * rewrite <-links_mid, <-Ec. unfold cyc. rewrite links_snd.
        by rewrite Permutation_app_comm.
    + apply NoDup_cons in N as [Nh Nl]. apply not_elem_of_cons in Xn as [Xh Xl]. rewrite P. apply NoDup_cons. rewrite elem_of_cons, NoDup_cons. by split; [intros [->|]|].
    + rewrite Eq, lookup_insert_eq, u32_add, P. cbn [length]. do 2 f_equal. lia.
  - intros y. rewrite P, elem_of_cons. intros [->|?]; auto.
Qed.

Lemma unlink_rel u p x n v l' : cyc h l = u ++ p :: x :: n :: v → cyc h l' = u ++ p :: n :: v → x ∈ l →
  ∃ s', __skb_unlink x h s = Some (tt, s') ∧ qrel s' (queue_set h l' sp).
Proof.
  intros Ec Ec' Hx. destruct (link_at u p x (n :: v) Ec) as ([H1 H2] & Hp & _). pose proof (qr_ring _ _ R h l Hh) as [L N Q].
  destruct (link_at (u ++ [p]) x n v) as ([H3 H4] & _ & Hn); [by rewrite <-app_assoc|]. cbn in H1, H2, H3, H4.
  destruct (unlink_ok (h :: l) s x p n h (u32 (Z.of_nat (length l)))) as (s' & E & C & En & Ep & Eq); [done|done|by eexists|by eexists|done|by right|done|done|by left|].
  assert (x :: l' ≡ₚ l) as P.
  { apply (Permutation_app_inv_r [h]), (Permutation_cons_inv (a := h)). transitivity (x :: cyc h l'); [apply Permutation_swap|]. change (h :: l ++ [h]) with (cyc h l). rewrite Ec, Ec'.
    change (u ++ p :: x :: n :: v) with (u ++ [p] ++ x :: n :: v). change (u ++ p :: n :: v) with (u ++ [p] ++ n :: v).
    rewrite !app_assoc. apply Permutation_middle. }
  exists s'. split; [done|]. eapply (qrel_one s s' sp h l l'); [done|done|exact C|by left|..].
  - split.
    + pose proof (cyc_nodup h l N) as [N1 N2]. rewrite Ec, links_mid in L, N1, N2. rewrite Ec', links_mid.
      by apply (lk_unlink s s' _ _ p x n).
    + rewrite <-P in N. apply NoDup_cons in N as [Nh [_ Nl]%NoDup_cons]. apply not_elem_of_cons in Nh as [_ Nh]. by apply NoDup_cons.
    + rewrite Eq, lookup_insert_eq, <-P. cbn [length]. unfold Z.sub. rewrite u32_add. do 2 f_equal. lia.
  - intros y Hy. left. rewrite <-P. by right.
Qed.

End step.

(** ** Positions in a list *)

Fixpoint ins_after (p x : Z) (l : list Z) : list Z :=
  match l with [] => [] | a :: l => if a =? p then a :: x :: l else a :: ins_after p x l end.

Fixpoint ins_before (n x : Z) (l : list Z) : list Z :=
  match l with [] => [] | a :: l => if a =? n then x :: a :: l else a :: ins_before n x l end.

Fixpoint remove1 (x : Z) (l : list Z) : list Z :=
  match l with [] => [] | a :: l => if a =? x then l else a :: remove1 x l end.

(** A node may be the head itself. *)
Definition after (h p x : Z) (l : list Z) : list Z := if p =? h then x :: l else ins_after p x l.
Definition before (h n x : Z) (l : list Z) : list Z := if n =? h then l ++ [x] else ins_before n x l.

Fixpoint next_in (x : Z) (l : list Z) : Z :=
  match l with
  | a :: (b :: _) as l' => if a =? x then b else next_in x l'
  | _ => NULL
  end.

Lemma ins_after_split p x l1 l2 : p ∉ l1 → ins_after p x (l1 ++ p :: l2) = l1 ++ p :: x :: l2.
Proof.
  induction l1 as [|a l1 IH]; cbn; [by rewrite Z.eqb_refl|]. rewrite not_elem_of_cons. intros [Hne Hp].
  rewrite (proj2 (Z.eqb_neq a p)) by congruence. by rewrite IH.
Qed.

Lemma ins_before_split n x l1 l2 : n ∉ l1 → ins_before n x (l1 ++ n :: l2) = l1 ++ x :: n :: l2.
Proof.
  induction l1 as [|a l1 IH]; cbn; [by rewrite Z.eqb_refl|]. rewrite not_elem_of_cons. intros [Hne Hp].
  rewrite (proj2 (Z.eqb_neq a n)) by congruence. by rewrite IH.
Qed.

Lemma remove1_split x l1 l2 : x ∉ l1 → remove1 x (l1 ++ x :: l2) = l1 ++ l2.
Proof.
  induction l1 as [|a l1 IH]; cbn; [by rewrite Z.eqb_refl|]. rewrite not_elem_of_cons. intros [Hne Hp].
  rewrite (proj2 (Z.eqb_neq a x)) by congruence. by rewrite IH.
Qed.

Lemma cyc_app h l1 r : cyc h (l1 ++ r) = (h :: l1) ++ r ++ [h].
Proof. unfold cyc. cbn. by rewrite app_assoc. Qed.

(** The neighbours of a place in the ring. *)
Lemma cyc_place (h : Z) l1 l2 : ∃ (u : list Z) (p n : Z) (v : list Z), h :: l1 = u ++ [p] ∧ l2 ++ [h] = n :: v ∧
  p = default h (last l1) ∧ n = default h (head l2).
Proof.
  destruct (exists_last (l := h :: l1)) as (u & p & E); [done|]. destruct (l2 ++ [h]) as [|n v] eqn:E2; [by destruct l2|].
  exists u, p, n, v. split; [done|]. split; [done|]. split.
  - apply (f_equal last) in E. rewrite last_snoc, last_cons in E. destruct (last l1); cbn in *; congruence.
  - destruct l2; cbn in *; congruence.
Qed.

Lemma after_place h p x l : NoDup (h :: l) → p ∈ h :: l →
  ∃ u n v, cyc h l = u ++ p :: n :: v ∧ cyc h (after h p x l) = u ++ p :: x :: n :: v.
Proof.
  intros Hn. rewrite elem_of_cons. unfold after. destruct (Z.eqb_spec p h) as [->|Hne].
  - intros _. destruct (cyc_place h [] l) as (u & p & n & v & E1 & E2 & _). destruct u as [|? [|]]; injection E1; try done. intros <-.
    exists [], n, v. unfold cyc. cbn. by rewrite E2.
  - intros [?|Hp]; [done|]. apply list_elem_of_split in Hp as (l1 & l2 & ->).
    assert (p ∉ l1) as Hp by (apply NoDup_cons in Hn as [_ Hn]; apply NoDup_app in Hn as (_ & Hd & _); intros Hin; apply (Hd p Hin); left).
    rewrite ins_after_split by done. destruct (cyc_place h [] l2) as (_ & _ & n & v & _ & E2 & _).
    exists (h :: l1), n, v. rewrite !cyc_app. cbn. by rewrite E2.
Qed.

Lemma before_place h n x l : NoDup (h :: l) → n ∈ h :: l →
  ∃ u p v, cyc h l = u ++ p :: n :: v ∧ cyc h (before h n x l) = u ++ p :: x :: n :: v.
Proof.
  intros Hn. rewrite elem_of_cons. unfold before. destruct (Z.eqb_spec n h) as [->|Hne].
  - intros _. destruct (cyc_place h l []) as (u & p & n & v & E1 & _). exists u, p, [].
    rewrite cyc_app. unfold cyc. rewrite app_comm_cons, E1, <-!app_assoc. done.
  - intros [?|Hp]; [done|]. apply list_elem_of_split in Hp as (l1 & l2 & ->).
    assert (n ∉ l1) as Hp by (apply NoDup_cons in Hn as [_ Hn]; apply NoDup_app in Hn as (_ & Hd & _); intros Hin; apply (Hd n Hin); left).
    rewrite ins_before_split by done. destruct (cyc_place h l1 []) as (u & p & _ & _ & E1 & _).
    exists u, p, (l2 ++ [h]). by rewrite !cyc_app, E1, <-!app_assoc.
Qed.

Lemma remove_place h l1 x l2 : NoDup (h :: l1 ++ x :: l2) →
  ∃ u p n v, cyc h (l1 ++ x :: l2) = u ++ p :: x :: n :: v ∧ cyc h (remove1 x (l1 ++ x :: l2)) = u ++ p :: n :: v.
Proof.
  intros Hn. assert (x ∉ l1) as Hx.
  { apply NoDup_cons in Hn as [_ Hn]; apply NoDup_app in Hn as (_ & Hd & _); intros Hin; apply (Hd x Hin); left. }
  rewrite remove1_split by done. destruct (cyc_place h l1 l2) as (u & p & n & v & E1 & E2 & _). exists u, p, n, v.
  rewrite !cyc_app, E1, <-!app_assoc. cbn. by rewrite E2.
Qed.

(** ** The operations and their meaning *)

Inductive qop :=
  | QInit (h : Z)
  | QHead (h x : Z)
  | QTail (h x : Z)
  | QAppend (h p x : Z)
  | QBefore (h n x : Z)
  | QUnlink (h x : Z)
  | QDequeue (h : Z)
  | QDequeueTail (h : Z)
  | QPeek (h : Z)
  | QPeekNext (h x : Z)
  | QPeekTail (h : Z)
  | QLen (h : Z)
  | QEmpty (h : Z)
  | QFirst (h x : Z)
  | QLast (h x : Z)
  | QSplice (k h : Z)
  | QSpliceInit (k h : Z)
  | QSpliceTail (k h : Z)
  | QSpliceTailInit (k h : Z)
  | QPurge (h : Z)
  | QGet (x : Z)
  | QKfree (x : Z).

Inductive qans := ADone | ANum (z : Z) | ABool (b : bool).

Definition answer {A} (f : A → qans) (m : qst A) : qst qans := r ← m; mret (f r).

Definition run_op (o : qop) : qst qans :=
  match o with
  | QInit h => answer (λ _, ADone) (skb_queue_head_init h)
  | QHead h x => answer (λ _, ADone) (skb_queue_head h x)
  | QTail h x => answer (λ _, ADone) (skb_queue_tail h x)
  | QAppend h p x => answer (λ _, ADone) (skb_append p x h)
  | QBefore h n x => answer (λ _, ADone) (__skb_queue_before h n x)
  | QUnlink h x => answer (λ _, ADone) (skb_unlink x h)
  | QDequeue h => answer ANum (skb_dequeue h)
  | QDequeueTail h => answer ANum (skb_dequeue_tail h)
  | QPeek h => answer ANum (skb_peek h)
  | QPeekNext h x => answer ANum (skb_peek_next x h)
  | QPeekTail h => answer ANum (skb_peek_tail h)
  | QLen h => answer ANum (skb_queue_len h)
  | QEmpty h => answer ABool (skb_queue_empty h)
  | QFirst h x => answer ABool (skb_queue_is_first h x)
  | QLast h x => answer ABool (skb_queue_is_last h x)
  | QSplice k h => answer (λ _, ADone) (skb_queue_splice k h)
  | QSpliceInit k h => answer (λ _, ADone) (skb_queue_splice_init k h)
  | QSpliceTail k h => answer (λ _, ADone) (skb_queue_splice_tail k h)
  | QSpliceTailInit k h => answer (λ _, ADone) (skb_queue_splice_tail_init k h)
  | QPurge h => answer (λ _, ADone) (skb_queue_purge h)
  | QGet x => answer ANum (skb_get x)
  | QKfree x => answer (λ _, ADone) (kfree_skb x)
  end.

Definition kfree_spec (x : Z) (r : gmap Z Z) : gmap Z Z :=
  match r !! x with
  | Some n => if n =? 1 then delete x r else <[x := n - 1]> r
  | None => r
  end.

Definition refs_set (r : gmap Z Z) (sp : qspec) : qspec := QSpec (queues sp) r (heads sp).

Abbreviation guard P X := (if decide P then X else None).

(** What an operation answers and what it makes of the lists; [None]: it may not be called. *)
Definition spec_op (o : qop) (sp : qspec) : option (qans * qspec) :=
  match o with
  | QInit h => guard (h ∈ heads sp) (Some (ADone, queue_set h [] sp))
  | QHead h x => l ← queues sp !! h; guard (unqueued sp x) (Some (ADone, queue_set h (x :: l) sp))
  | QTail h x => l ← queues sp !! h; guard (unqueued sp x) (Some (ADone, queue_set h (l ++ [x]) sp))
  | QAppend h p x => l ← queues sp !! h; guard (unqueued sp x ∧ p ∈ h :: l) (Some (ADone, queue_set h (after h p x l) sp))
  | QBefore h n x => l ← queues sp !! h; guard (unqueued sp x ∧ n ∈ h :: l) (Some (ADone, queue_set h (before h n x l) sp))
  | QUnlink h x => l ← queues sp !! h; guard (x ∈ l) (Some (ADone, queue_set h (remove1 x l) sp))
  | QDequeue h => l ← queues sp !! h; Some (ANum (default NULL (head l)), queue_set h (tail l) sp)
  | QDequeueTail h => l ← queues sp !! h; Some (ANum (default NULL (last l)), queue_set h (removelast l) sp)
  | QPeek h => l ← queues sp !! h; Some (ANum (default NULL (head l)), sp)
  | QPeekNext h x => l ← queues sp !! h; guard (x ∈ l) (Some (ANum (next_in x l), sp))
  | QPeekTail h => l ← queues sp !! h; Some (ANum (default NULL (last l)), sp)
  | QLen h => l ← queues sp !! h; Some (ANum (u32 (Z.of_nat (length l))), sp)
  | QEmpty h => l ← queues sp !! h; Some (ABool (bool_decide (l = [])), sp)
  | QFirst h x => l ← queues sp !! h; guard (x ∈ l) (Some (ABool (bool_decide (head l = Some x)), sp))
  | QLast h x => l ← queues sp !! h; guard (x ∈ l) (Some (ABool (bool_decide (last l = Some x)), sp))
  | QSplice k h => l ← queues sp !! h; m ← queues sp !! k;
      guard (k ≠ h) (Some (ADone, if decide (m = []) then sp else queue_set h (m ++ l) (queue_del k sp)))
  | QSpliceInit k h => l ← queues sp !! h; m ← queues sp !! k;
      guard (k ≠ h) (Some (ADone, queue_set h (m ++ l) (queue_set k [] sp)))
  | QSpliceTail k h => l ← queues sp !! h; m ← queues sp !! k;
      guard (k ≠ h) (Some (ADone, if decide (m = []) then sp else queue_set h (l ++ m) (queue_del k sp)))
  | QSpliceTailInit k h => l ← queues sp !! h; m ← queues sp !! k;
      guard (k ≠ h) (Some (ADone, queue_set h (l ++ m) (queue_set k [] sp)))
  | QPurge h => l ← queues sp !! h; Some (ADone, refs_set (foldl (λ r x, kfree_spec x r) (refs sp) l) (queue_set h [] sp))
  | QGet x => n ← refs sp !! x; Some (ANum x, refs_set (<[x := n + 1]> (refs sp)) sp)
  | QKfree x => guard (unqueued sp x) (Some (ADone, refs_set (kfree_spec x (refs sp)) sp))
  end.

(** ** Every operation keeps the relation *)

Lemma exists_last' (l : list Z) : l = [] ∨ ∃ l' x, l = l' ++ [x].
Proof. destruct l as [|a l]; [by left|]. right. destruct (exists_last (l := a :: l)) as (l' & x & ->); [done|]. by eexists _, _. Qed.

Section ops.
Context (s : qheap) (sp : qspec).
Hypothesis (R : qrel s sp).

Lemma queue_null h l x : queues sp !! h = Some l → x ∈ h :: l → x ≠ NULL.
Proof.
  intros Hh. pose proof (qr_wf _ _ R) as W. destruct (wf_null _ W) as [N1 N2]. rewrite elem_of_cons. intros [->|Hin] ->.
  - by apply N1, (wf_head _ W _ _ Hh).
  - destruct (wf_buf _ W _ _ _ Hh Hin) as [? E]. congruence.
Qed.

Lemma ring_first h l : queues sp !! h = Some l → nx s !! h = Some (default h (head l)).
Proof.
  intros Hh. destruct (cyc_place h [] l) as (u & p & n & v & E1 & E2 & -> & ->). destruct (link_at s sp h l R Hh u h (default h (head l)) v) as [[E _] _]; [|done].
  unfold cyc. rewrite E2. by destruct u as [|? [|]].
Qed.

Lemma ring_last h l : queues sp !! h = Some l → pv s !! h = Some (default h (last l)).
Proof.
  intros Hh. destruct (cyc_place h l []) as (u & p & n & v & E1 & E2 & -> & ->). destruct (link_at s sp h l R Hh u (default h (last l)) h []) as [[_ E] _]; [|done].
  unfold cyc. by rewrite app_comm_cons, E1, <-app_assoc.
Qed.

Lemma ring_at h l1 x l2 : queues sp !! h = Some (l1 ++ x :: l2) → nx s !! x = Some (default h (head l2)) ∧ pv s !! x = Some (default h (last l1)).
Proof.
  intros Hh. destruct (cyc_place h l1 l2) as (u & p & n & v & E1 & E2 & -> & ->).
  assert (cyc h (l1 ++ x :: l2) = u ++ default h (last l1) :: x :: default h (head l2) :: v) as E.
  { rewrite cyc_app, E1, <-app_assoc. cbn. by rewrite E2. }
  destruct (link_at s sp h _ R Hh _ _ _ _ E) as [[_ ?] _].
  destruct (link_at s sp h _ R Hh (u ++ [default h (last l1)]) x (default h (head l2)) v) as [[? _] _]; [by rewrite E, <-app_assoc|done].
Qed.

(** The end of the ring reads as NULL. *)
Lemma end_null h l (o : option Z) : queues sp !! h = Some l → (∀ x, o = Some x → x ∈ l) →
  (if default h o =? h then NULL else default h o) = default NULL o.
Proof.
  intros Hh Ho. destruct o as [x|]; cbn; [|by rewrite Z.eqb_refl]. specialize (Ho x eq_refl). rewrite (proj2 (Z.eqb_neq _ _)); [done|].
  intros ->. pose proof (qr_ring _ _ R h l Hh) as [_ N _]. by apply NoDup_cons in N as [? _].
Qed.

Lemma head_In (l : list Z) x : head l = Some x → x ∈ l.
Proof. destruct l; [done|]. intros [= ->]. left. Qed.

Lemma last_In (l : list Z) x : last l = Some x → x ∈ l.
Proof. intros Hl. apply last_Some in Hl as [l' ->]. apply elem_of_app. right. left. Qed.

Lemma peek_ok h l : queues sp !! h = Some l → skb_peek h s = Some (default NULL (head l), s).
Proof.
  intros Hh. unfold skb_peek. rewrite (st_bind_step _ _ _ _ _ (next_ok s h _ (ring_first h l Hh))). rewrite <-(end_null h l (head l) Hh (head_In l)).
  by destruct (_ =? _).
Qed.

Lemma peek_tail_ok h l : queues sp !! h = Some l → skb_peek_tail h s = Some (default NULL (last l), s).
Proof.
  intros Hh. unfold skb_peek_tail. rewrite (st_bind_step _ _ _ _ _ (prev_ok s h _ (ring_last h l Hh))). rewrite <-(end_null h l (last l) Hh (last_In l)).
  by destruct (_ =? _).
Qed.

Lemma next_in_split l1 x l2 : x ∉ l1 → next_in x (l1 ++ x :: l2) = default NULL (head l2).
Proof.
  induction l1 as [|a l1 IH]; [cbn; intros _; destruct l2; [done|]; by rewrite Z.eqb_refl|]. rewrite not_elem_of_cons. intros [Hne Hx].
  rewrite <-IH by done. destruct l1; cbn; by rewrite (proj2 (Z.eqb_neq a x)) by congruence.
Qed.

Lemma split_at h l x : queues sp !! h = Some l → x ∈ l → ∃ l1 l2, l = l1 ++ x :: l2 ∧ (x ∉ l1) ∧ (x ∉ l2).
Proof.
  intros Hh (l1 & l2 & ->)%list_elem_of_split. exists l1, l2. split; [done|]. pose proof (wf_nodup _ (qr_wf _ _ R) _ _ Hh) as N.
  apply NoDup_app in N as (_ & N1 & [N2 _]%NoDup_cons). split; [|done]. intros Hin. apply (N1 x Hin). left.
Qed.

Lemma peek_next_ok h l x : queues sp !! h = Some l → x ∈ l → skb_peek_next x h s = Some (next_in x l, s).
Proof.
  intros Hh Hx. destruct (split_at h l x Hh Hx) as (l1 & l2 & -> & X1 & X2). rewrite next_in_split by done. unfold skb_peek_next.
  destruct (ring_at h l1 x l2 Hh) as [E _]. rewrite (st_bind_step _ _ _ _ _ (next_ok s x _ E)). rewrite <-(end_null h _ (head l2) Hh); [by destruct (_ =? _)|].
  intros y Hy%head_In. apply elem_of_app. right. by right.
Qed.

Lemma is_last_ok h l x : queues sp !! h = Some l → x ∈ l → skb_queue_is_last h x s = Some (bool_decide (last l = Some x), s).
Proof.
  intros Hh Hx. destruct (split_at h l x Hh Hx) as (l1 & l2 & -> & X1 & X2). unfold skb_queue_is_last.
  destruct (ring_at h l1 x l2 Hh) as [E _]. rewrite (st_bind_step _ _ _ _ _ (next_ok s x _ E)). do 2 f_equal. rewrite last_app_cons, last_cons.
  destruct l2 as [|y l2]; cbn [head default hd_error]; [by rewrite Z.eqb_refl, bool_decide_true by done|].
  rewrite (proj2 (Z.eqb_neq _ _)), bool_decide_false; [done|..].
  - destruct (last (y :: l2)) as [z|] eqn:El; [|by apply last_None in El]. intros [= ->]. by apply X2, last_In.
  - cbn. intros ->. pose proof (qr_ring _ _ R _ _ Hh) as [_ N _]. apply NoDup_cons in N as [N _]. apply N, elem_of_app. right. right. left.
Qed.

Lemma is_first_ok h l x : queues sp !! h = Some l → x ∈ l → skb_queue_is_first h x s = Some (bool_decide (head l = Some x), s).
Proof.
  intros Hh Hx. destruct (split_at h l x Hh Hx) as (l1 & l2 & -> & X1 & X2). unfold skb_queue_is_first.
  destruct (ring_at h l1 x l2 Hh) as [_ E]. rewrite (st_bind_step _ _ _ _ _ (prev_ok s x _ E)). do 2 f_equal.
  destruct l1 as [|y l1]; cbn [last default app head hd_error]; [by rewrite Z.eqb_refl, bool_decide_true by done|].
  rewrite (proj2 (Z.eqb_neq _ _)), bool_decide_false; [done|..].
  - intros [= ->]. apply X1. left.
  - destruct (last (y :: l1)) as [z|] eqn:El; [|by apply last_None in El]. cbn. intros ->. pose proof (qr_ring _ _ R _ _ Hh) as [_ N _]. apply NoDup_cons in N as [N _].
    apply N, elem_of_app. left. by apply last_In.
Qed.

Lemma empty_ok h l : queues sp !! h = Some l → skb_queue_empty h s = Some (bool_decide (l = []), s).
Proof.
  intros Hh. unfold skb_queue_empty. rewrite (st_bind_step _ _ _ _ _ (next_ok s h _ (ring_first h l Hh))). do 2 f_equal. destruct l as [|x l]; cbn.
  - by rewrite Z.eqb_refl.
  - rewrite (proj2 (Z.eqb_neq x h)); [done|]. intros ->. pose proof (qr_ring _ _ R h _ Hh) as [_ N _]. apply NoDup_cons in N as [N _]. apply N. left.
Qed.

Lemma after_ok h l p x : queues sp !! h = Some l → unqueued sp x → p ∈ h :: l →
  ∃ s', __skb_queue_after h p x s = Some (tt, s') ∧ qrel s' (queue_set h (after h p x l) sp).
Proof.
  intros Hh Hx Hp. destruct (after_place h p x l) as (u & n & v & E1 & E2); [apply (qr_ring _ _ R h l Hh)|done|]. unfold __skb_queue_after.
  destruct (link_at s sp h l R Hh _ _ _ _ E1) as [[En _] _]. rewrite (st_bind_step _ _ _ _ _ (next_ok s p n En)). by apply (insert_rel s sp h l R Hh x u p n v).
Qed.

Lemma before_ok h l n x : queues sp !! h = Some l → unqueued sp x → n ∈ h :: l →
  ∃ s', __skb_queue_before h n x s = Some (tt, s') ∧ qrel s' (queue_set h (before h n x l) sp).
Proof.
  intros Hh Hx Hp. destruct (before_place h n x l) as (u & p & v & E1 & E2); [apply (qr_ring _ _ R h l Hh)|done|]. unfold __skb_queue_before.
  destruct (link_at s sp h l R Hh _ _ _ _ E1) as [[_ En] _]. rewrite (st_bind_step _ _ _ _ _ (prev_ok s n p En)). by apply (insert_rel s sp h l R Hh x u p n v).
Qed.

Lemma unlink_list h l x : queues sp !! h = Some l → x ∈ l →
  ∃ s', __skb_unlink x h s = Some (tt, s') ∧ qrel s' (queue_set h (remove1 x l) sp).
Proof.
  intros Hh Hx. destruct (split_at h l x Hh Hx) as (l1 & l2 & -> & X1 & X2). pose proof (ring_nodup _ _ _ (qr_ring _ _ R h _ Hh)) as N.
  destruct (remove_place h l1 x l2 N) as (u & p & n & v & E1 & E2). by apply (unlink_rel s sp h _ R Hh u p x n v).
Qed.

Lemma dequeue_ok h l : queues sp !! h = Some l →
  ∃ s', skb_dequeue h s = Some (default NULL (head l), s') ∧ qrel s' (queue_set h (tail l) sp).
Proof.
  intros Hh. unfold skb_dequeue, __skb_dequeue. rewrite (st_bind_step _ _ _ _ _ (peek_ok h l Hh)). destruct l as [|x l]; cbn.
  - exists s. split; [done|]. unfold queue_set. rewrite insert_id by done. by destruct sp.
  - rewrite (proj2 (Z.eqb_neq _ _)) by (apply (queue_null h _ _ Hh); right; left). destruct (unlink_list h _ x Hh) as (s' & E & R'); [left|].
    cbn in R'. rewrite Z.eqb_refl in R'. exists s'. by rewrite (st_bind_step _ _ _ _ _ E).
Qed.

Lemma dequeue_tail_ok h l : queues sp !! h = Some l →
  ∃ s', skb_dequeue_tail h s = Some (default NULL (last l), s') ∧ qrel s' (queue_set h (removelast l) sp).
Proof.
  intros Hh. unfold skb_dequeue_tail, __skb_dequeue_tail. rewrite (st_bind_step _ _ _ _ _ (peek_tail_ok h l Hh)).
  destruct (exists_last' l) as [->|(l' & x & ->)].
  - exists s. split; [done|]. unfold queue_set. cbn. rewrite insert_id by done. by destruct sp.
  - rewrite last_snoc. cbn [default from_option id]. assert (x ∈ l' ++ [x]) as Hx by (apply elem_of_app; right; left).
    rewrite (proj2 (Z.eqb_neq _ _)) by (apply (queue_null h _ _ Hh); by right). destruct (unlink_list h _ x Hh Hx) as (s' & E & R').
    rewrite removelast_last. pose proof (wf_nodup _ (qr_wf _ _ R) _ _ Hh) as N. apply NoDup_app in N as (_ & N & _).
    rewrite remove1_split, app_nil_r in R' by (intros Hin; apply (N x Hin); left). exists s'. by rewrite (st_bind_step _ _ _ _ _ E).
Qed.

End ops.

(** ** Splicing *)

Lemma links_run p m1 la n v : links (p :: (m1 ++ [la]) ++ n :: v) = (p, default la (head m1)) :: links (m1 ++ [la]) ++ (la, n) :: links (n :: v).
Proof.
  change (p :: (m1 ++ [la]) ++ n :: v) with ((p :: m1 ++ [la]) ++ n :: v). rewrite <-app_comm_cons, <-app_assoc. cbn [app].
  rewrite app_comm_cons, links_mid. change ((p :: m1) ++ [la]) with (p :: m1 ++ [la]). by destruct m1.
Qed.

Lemma nodup_run (k : Z) m1 la : NoDup (k :: m1 ++ [la]) →
  (la ∉ (links (m1 ++ [la])).*1) ∧ (default la (head m1) ∉ (links (m1 ++ [la])).*2) ∧
  (∀ a, (a ∈ (links (m1 ++ [la])).*1 ∨ a ∈ (links (m1 ++ [la])).*2) → a ∈ m1 ++ [la]).
Proof.
  intros [_ N]%NoDup_cons. destruct m1 as [|f m1]; cbn [app head hd_error default].
  - cbn. split; [by apply not_elem_of_nil|]. split; [by apply not_elem_of_nil|]. intros a [?%elem_of_nil|?%elem_of_nil]; done.
  - rewrite links_fst, links_snd. apply NoDup_cons in N as N'. apply NoDup_app in N as (_ & N1 & _).
    split; [intros Hin; apply (N1 la Hin); left|]. split; [apply N'|]. intros a. rewrite !elem_of_cons, elem_of_app. tauto.
Qed.

Section splice.
Context (s : qheap) (sp : qspec) (h k : Z) (l m : list Z).
Hypothesis (R : qrel s sp) (Hh : queues sp !! h = Some l) (Hk : queues sp !! k = Some m) (Hne : k ≠ h) (Hm : m ≠ []).

Let D := h :: l ++ m.

Lemma splice_links u p n v l' : cyc h l = u ++ p :: n :: v → cyc h l' = u ++ p :: m ++ n :: v →
  ∃ s', __skb_queue_splice k p n s = Some (tt, s') ∧ changed D s s' ∧ Forall (lk s') (links (cyc h l')) ∧ ql s' = ql s.
Proof.
  intros Ec Ec'. destruct (exists_last' m) as [?|(m1 & la & Em)]; [done|]. rewrite Em in *. set (f := default la (head m1)).
  pose proof (qr_ring _ _ R k _ Hk) as [Lk Nk _]. pose proof (qr_ring _ _ R h _ Hh) as [L N _].
  destruct (nodup_run k m1 la Nk) as (U1 & U2 & Um). fold f in U2.
  unfold cyc in Lk. rewrite links_run, Forall_cons, Forall_app, Forall_cons in Lk. destruct Lk as ([K1 _] & LM & [_ K2] & _). cbn in K1, K2. fold f in K1.
  assert (f ∈ m1 ++ [la]) as Hf by (unfold f; destruct m1; left). assert (la ∈ m1 ++ [la]) as Hla by (apply elem_of_app; right; left).
  destruct (link_at s sp h l R Hh _ _ _ _ Ec) as ([P1 P2] & Hp & Hn). cbn in P1, P2.
  assert (∀ a, a ∈ m1 ++ [la] → a ∉ h :: l) as Ha.
  { intros a Ha. apply (nodes_apart sp h l k _ a (qr_wf _ _ R) Hh Hk Hne). by right. }
  destruct (node_Some s sp k _ R Hk f) as [F1 F2]; [left; by right|]. destruct (node_Some s sp k _ R Hk la) as [A1 A2]; [left; by right|].
  assert (∀ a, a ∈ h :: l ∨ a ∈ m1 ++ [la] → a ∈ D) as HD by (intros a; unfold D; rewrite Em, !elem_of_cons, (elem_of_app l); tauto).
  destruct (splice_ok D s k p n f la) as (s' & E & C & En & Ep & Eq); [done|done|done|by eexists|done|by eexists|apply HD; tauto..|].
  exists s'. split; [done|]. split; [done|]. split; [|done]. pose proof (cyc_nodup h l N) as [N1 N2]. rewrite Ec, links_mid in L, N1, N2.
  rewrite Ec', links_app, links_run. fold f. apply (lk_splice s s'); try done.
  - rewrite <-links_mid, <-Ec. unfold cyc. rewrite links_fst. by apply Ha.
  - rewrite <-links_mid, <-Ec. unfold cyc. rewrite links_snd, Permutation_app_comm. by apply Ha.
  - intros Hin. by apply (Ha p); [apply Um; left|].
  - intros Hin. by apply (Ha n); [apply Um; right|].
Qed.

(** The node places and the list of both kinds of splice. *)
Lemma splice_head_place : ∃ n v, nx s !! h = Some n ∧ cyc h l = [] ++ h :: n :: v ∧ cyc h (m ++ l) = [] ++ h :: m ++ n :: v.
Proof.
  destruct (cyc_place h [] l) as (_ & _ & n & v & _ & E2 & _ & ->). exists (default h (head l)), v. split; [by apply (ring_first s sp R)|].
  unfold cyc. rewrite <-app_assoc, E2. done.
Qed.

Lemma splice_tail_place : ∃ u p, pv s !! h = Some p ∧ cyc h l = u ++ p :: h :: [] ∧ cyc h (l ++ m) = u ++ p :: m ++ h :: [].
Proof.
  destruct (cyc_place h l []) as (u & p & _ & _ & E1 & _ & -> & _). exists u, (default h (last l)). split; [by apply (ring_last s sp R)|].
  rewrite cyc_app, E1, <-app_assoc. split; [|done]. unfold cyc. by rewrite app_comm_cons, E1, <-app_assoc.
Qed.

Lemma splice_wf l' sp' : l' ≡ₚ m ++ l → sp' = queue_del k sp ∨ sp' = queue_set k [] sp → spec_wf (queue_set h l' sp').
Proof.
  intros P Hs. pose proof (qr_wf _ _ R) as W. assert (spec_wf sp') as W'.
  { destruct Hs as [->| ->]; [by apply wf_del|]. eapply wf_set; [done..|constructor|]. by intros x ?%elem_of_nil. }
  assert (queues sp' !! h = Some l) as Hh' by (destruct Hs as [->| ->]; cbn; by rewrite ?lookup_delete_ne, ?lookup_insert_ne).
  apply (wf_set sp' h l l' W' Hh').
  - rewrite P. apply NoDup_app. split; [by apply (wf_nodup _ W k)|]. split; [|by apply (wf_nodup _ W h)]. intros x X1 X2. apply Hne. by eapply (wf_disj _ W).
  - intros x. rewrite P, elem_of_app. intros [Hx|Hx]; [right|by left]. split.
    + destruct (wf_buf _ W _ _ _ Hk Hx) as [c Ec]. exists c. by destruct Hs as [->| ->].
    + intros h2 l2 H2 X2. assert (h2 ≠ k ∨ l2 = []) as [Hk2|E].
      { destruct Hs as [->| ->]; cbn in H2; [left; by apply lookup_delete_Some in H2 as [? _]|]. apply lookup_insert_Some in H2 as [[_ <-]|[? _]]; [by right|by left]. }
      * assert (queues sp !! h2 = Some l2) as H3. { destruct Hs as [->| ->]; cbn in H2; [by apply lookup_delete_Some in H2 as [_ ?]|]. by rewrite lookup_insert_ne in H2. }
        apply Hk2. by eapply (wf_disj _ W).
      * subst. by apply elem_of_nil in X2.
Qed.

Lemma add_qlen_ok s1 D' : ql s1 = ql s → h ∈ D' → ∃ s2, add_qlen k h s1 = Some (tt, s2) ∧ changed D' s1 s2 ∧ nx s2 = nx s1 ∧ pv s2 = pv s1 ∧
  ql s2 = <[h := u32 (Z.of_nat (length (m ++ l)))]> (ql s).
Proof.
  intros Eq Hd. pose proof (qr_ring _ _ R k _ Hk) as [_ _ Qk]. pose proof (qr_ring _ _ R h _ Hh) as [_ _ Qh]. unfold add_qlen.
  rewrite (st_bind_step _ _ _ _ _ (qlen_ok s1 h _ ltac:(rewrite Eq; exact Qh))), (st_bind_step _ _ _ _ _ (qlen_ok s1 k _ ltac:(rewrite Eq; exact Qk))).
  destruct (set_qlen_ok D' s1 h (u32 (Z.of_nat (length l)) + u32 (Z.of_nat (length m)))) as [E C]; [rewrite Eq; by eexists|done|].
  eexists. split; [exact E|]. split; [done|]. split; [done|]. split; [done|]. cbn. rewrite Eq. f_equal. rewrite u32_add2, length_app. f_equal. lia.
Qed.

(** A splice that leaves the head of the other queue as it is. *)
Lemma splice_rel p n u v l' : l' ≡ₚ m ++ l → cyc h l = u ++ p :: n :: v → cyc h l' = u ++ p :: m ++ n :: v →
  ∃ s', (__skb_queue_splice k p n ;; add_qlen k h) s = Some (tt, s') ∧ qrel s' (queue_set h l' (queue_del k sp)) ∧
    is_Some (nx s' !! k) ∧ is_Some (pv s' !! k) ∧ is_Some (ql s' !! k).
Proof.
  intros P Ec Ec'. destruct (splice_links u p n v l' Ec Ec') as (s1 & E1 & C1 & L1 & Q1). rewrite (st_bind_step _ _ _ _ _ E1).
  destruct (add_qlen_ok s1 D Q1) as (s2 & E2 & C2 & En & Ep & Eq); [left|]. exists s2. split; [done|].
  assert (changed D s s2) as C by (by transitivity s1). pose proof (splice_wf l' (queue_del k sp) P (or_introl eq_refl)) as W'. split.
  - apply (qrel_change D s s2 sp); [done|done|exact W'|]. intros h2 l2 H2. rewrite lookup_insert_Some in H2. destruct H2 as [[<- <-]|[Hne2 H2]].
    + left. split.
      * eapply lk_frame; [..|exact L1]; intros a _; by rewrite ?En, ?Ep.
      * apply NoDup_cons. split; [|apply (wf_nodup _ W' h); cbn; by rewrite lookup_insert_eq]. rewrite P, elem_of_app. intros [Hin|Hin].
        -- destruct (nodes_apart sp h l k m h (qr_wf _ _ R) Hh Hk Hne) as [X _]; [by right|]. apply X. left.
        -- pose proof (qr_ring _ _ R h _ Hh) as [_ N _]. by apply NoDup_cons in N as [? _].
      * by rewrite Eq, lookup_insert_eq, P.
    + right. cbn in H2. apply lookup_delete_Some in H2 as [Hk2 H2]. split; [done|]. intros a Ha. unfold D. rewrite app_comm_cons, elem_of_app. intros [Hin|Hin].
      * by destruct (nodes_apart sp h l h2 l2 a (qr_wf _ _ R) Hh H2 (not_eq_sym Hne2) Ha).
      * destruct (nodes_apart sp k m h2 l2 a (qr_wf _ _ R) Hk H2 (not_eq_sym Hk2) Ha) as [X _]. apply X. by right.
  - pose proof (wf_head _ (qr_wf _ _ R) k m Hk) as Hin. destruct (qr_nodes _ _ R k (or_introl Hin)) as [N1 N2]. apply (qr_heads _ _ R) in Hin.
    destruct (ch_dom _ _ _ C k) as (C3 & C4 & C5). split; [auto|]. split; [auto|]. by apply C5.
Qed.

End splice.

(** Reinitialising a head, that of a queue or one that a splice left. *)
Lemma init_rel s sp h : qrel s sp → h ∈ heads sp → ∃ s', __skb_queue_head_init h s = Some (tt, s') ∧ qrel s' (queue_set h [] sp).
Proof.
  intros R Hh. pose proof (qr_wf _ _ R) as W. destruct (qr_nodes _ _ R h (or_introl Hh)) as [N1 N2].
  destruct (init_ok [h] s h N1 N2) as (s' & E & C & En & Ep & Eq); [by apply (qr_heads _ _ R)|left|]. exists s'. split; [done|].
  apply (qrel_change [h] s s' sp _ R C).
  - split; cbn; [..|apply (wf_sort _ W)|apply (wf_null _ W)].
    + intros h2 l2. rewrite lookup_insert_Some. intros [[<- _]|[_ H2]]; [done|by eapply (wf_head _ W)].
    + intros h2 l2. rewrite lookup_insert_Some. intros [[<- <-]|[_ H2]]; [constructor|by eapply (wf_nodup _ W)].
    + intros h2 l2 x. rewrite lookup_insert_Some. intros [[<- <-]|[_ H2]]; [by intros ?%elem_of_nil|by eapply (wf_buf _ W)].
    + intros h1 l1 h2 l2 x. rewrite !lookup_insert_Some. intros [[<- <-]|[_ H1]] [[<- <-]|[_ H2]]; [done|by intros ?%elem_of_nil|by intros _ ?%elem_of_nil|by eapply (wf_disj _ W)].
  - intros h2 l2. rewrite lookup_insert_Some. intros [[<- <-]|[Hne H2]].
    + left. split; [repeat constructor; cbn; by rewrite ?En, ?Ep, lookup_insert_eq|apply NoDup_singleton|by rewrite Eq, lookup_insert_eq].
    + right. split; [done|]. intros a Ha ->%list_elem_of_singleton. rewrite elem_of_cons in Ha. destruct Ha as [->|Ha]; [done|].
      destruct (wf_buf _ W _ _ _ H2 Ha) as [? Ex]. by rewrite (wf_sort _ W h Hh) in Ex.
Qed.

Lemma splice_init_rel s sp h k l m p n u v l' : qrel s sp → queues sp !! h = Some l → queues sp !! k = Some m → k ≠ h → m ≠ [] →
  l' ≡ₚ m ++ l → cyc h l = u ++ p :: n :: v → cyc h l' = u ++ p :: m ++ n :: v →
  ∃ s', (__skb_queue_splice k p n ;; add_qlen k h ;; __skb_queue_head_init k) s = Some (tt, s') ∧ qrel s' (queue_set h l' (queue_set k [] sp)).
Proof.
  intros R Hh Hk Hne Hm P Ec Ec'. destruct (splice_rel s sp h k l m R Hh Hk Hne Hm p n u v l' P Ec Ec') as (s1 & E & R1 & _).
  destruct (init_rel s1 _ k R1) as (s2 & E2 & R2); [apply (wf_head _ (qr_wf _ _ R) k m Hk)|]. exists s2. split.
  - destruct (__skb_queue_splice k p n s) as [[[] s0]|] eqn:E0; unfold mbind, st_bind in E |- *; rewrite E0 in E |- *; [|done]. by rewrite E.
  - replace (queue_set h l' (queue_set k [] sp)) with (queue_set k [] (queue_set h l' (queue_del k sp))); [done|]. unfold queue_set. cbn. f_equal.
    rewrite insert_insert_ne by done. by rewrite insert_delete_eq.
Qed.

(** ** References and purging *)

Lemma ring_us s m h l : ring s h l → ring (set_us m s) h l.
Proof. intros [L N Q]. by split. Qed.

Lemma kfree_spec_other x y r : y ≠ x → kfree_spec x r !! y = r !! y.
Proof.
  intros Hne. unfold kfree_spec. destruct (r !! x) as [n|]; [|done]. destruct (n =? 1); [by apply lookup_delete_ne|by apply lookup_insert_ne].
Qed.

(** References of buffers change; the buffers that disappear are in no queue. *)
Lemma wf_refs sp r : spec_wf sp → (∀ h l x, queues sp !! h = Some l → x ∈ l → is_Some (r !! x)) →
  (∀ x, is_Some (r !! x) → is_Some (refs sp !! x)) → spec_wf (refs_set r sp).
Proof.
  intros W Hq Hr. split; cbn; [apply (wf_head _ W)|apply (wf_nodup _ W)|done|apply (wf_disj _ W)|..].
  - intros x Hx. destruct (r !! x) eqn:E; [|done]. destruct (Hr x) as [? E']; [by eexists|]. by rewrite (wf_sort _ W x Hx) in E'.
  - destruct (wf_null _ W) as [N1 N2]. split; [done|]. destruct (r !! NULL) eqn:E; [|done]. destruct (Hr NULL) as [? E']; [by eexists|congruence].
Qed.

Lemma get_rel s sp x n : qrel s sp → refs sp !! x = Some n →
  ∃ s', skb_get x s = Some (x, s') ∧ qrel s' (refs_set (<[x := n + 1]> (refs sp)) sp).
Proof.
  intros R Hx. pose proof (qr_wf _ _ R) as W. unfold skb_get. rewrite (st_bind_step get _ s s s) by done. rewrite (qr_us _ _ R), (lift_step _ _ _ _ Hx).
  eexists. split; [reflexivity|]. assert (∀ y, is_Some (<[x := n + 1]> (refs sp) !! y) ↔ is_Some (refs sp !! y)) as Hr.
  { intros y. rewrite lookup_insert_is_Some'. split; [intros [<-|?]; [by eexists|done]|by right]. }
  split; cbn; [|intros; by apply ring_us, (qr_ring _ _ R)| |apply (qr_heads _ _ R)|by rewrite (qr_us _ _ R)].
  - apply wf_refs; [done|..]; [intros h l y Hh Hy; apply Hr; by eapply (wf_buf _ W)|intros y; apply Hr].
  - intros a Ha. rewrite Hr in Ha. by apply (qr_nodes _ _ R).
Qed.

Lemma kfree_rel s sp x : qrel s sp → unqueued sp x →
  ∃ s', kfree_skb x s = Some (tt, s') ∧ qrel s' (refs_set (kfree_spec x (refs sp)) sp).
Proof.
  intros R [[n Hx] Hf]. pose proof (qr_wf _ _ R) as W. assert (∀ h l a, queues sp !! h = Some l → a ∈ h :: l → a ≠ x) as Hne.
  { intros h l a Hh Ha ->. rewrite elem_of_cons in Ha. destruct Ha as [->|Ha]; [|by apply (Hf h l Hh)].
    by rewrite (wf_sort _ W h (wf_head _ W h l Hh)) in Hx. }
  assert (spec_wf (refs_set (kfree_spec x (refs sp)) sp)) as W'.
  { apply wf_refs; [done|..].
    - intros h l a Hh Ha. rewrite kfree_spec_other by (by eapply Hne; [|right]). by eapply (wf_buf _ W).
    - intros a. destruct (decide (a = x)) as [->|]; [by eexists|by rewrite kfree_spec_other]. }
  unfold kfree_skb, skb_unref. rewrite (proj2 (Z.eqb_neq x NULL)) by (intros ->; destruct (wf_null _ W); congruence).
  rewrite st_bind_assoc, (st_bind_step get _ s s s) by done. rewrite (qr_us _ _ R), st_bind_assoc, (lift_step _ _ _ _ Hx).
  unfold kfree_spec in W' |- *. rewrite Hx in W' |- *. destruct (Z.eqb_spec n 1) as [->|Hn1].
  - eexists. split; [reflexivity|]. split; cbn; [done|..|by rewrite (qr_us _ _ R)].
    + intros h l Hh. destruct (qr_ring _ _ R h l Hh) as [L N Q]. split; [|done|done]. unfold cyc in *.
      eapply lk_frame; [..|exact L]; intros a Ha; cbn; rewrite lookup_delete_ne; try done; intros <-; rewrite ?links_fst, ?links_snd in Ha;
        apply (Hne h l x Hh); try done. rewrite elem_of_app, list_elem_of_singleton in Ha. rewrite elem_of_cons. tauto.
    + intros a Ha. assert (a ≠ x) as Hax.
      { intros ->. destruct Ha as [Ha|Ha]; [by rewrite (wf_sort _ W x Ha) in Hx|]. rewrite lookup_delete_eq in Ha. by destruct Ha. }
      rewrite !lookup_delete_ne in * by done. by apply (qr_nodes _ _ R).
    + apply (qr_heads _ _ R).
  - rewrite (proj2 (Z.eqb_neq _ _)) by lia. eexists. split; [reflexivity|]. split; cbn; [done|intros; by apply ring_us, (qr_ring _ _ R)| |apply (qr_heads _ _ R)|by rewrite (qr_us _ _ R)].
    intros a Ha. apply (qr_nodes _ _ R). destruct Ha as [?|Ha]; [by left|right]. destruct (decide (a = x)) as [->|]; [by eexists|]. by rewrite lookup_insert_ne in Ha.
Qed.

Lemma length_le_size (m : gmap Z Z) l : NoDup l → (∀ x, x ∈ l → is_Some (m !! x)) → (length l ≤ size m)%nat.
Proof.
  intros N Hl. rewrite <-size_dom. rewrite <-(size_list_to_set (C := gset Z) l) by done. apply subseteq_size. intros x Hx. apply elem_of_list_to_set in Hx.
  apply elem_of_dom. auto.
Qed.

Lemma purge_rel h l : ∀ s sp fuel, qrel s sp → queues sp !! h = Some l → (length l < fuel)%nat →
  ∃ s', purge_loop fuel h s = Some (tt, s') ∧ qrel s' (refs_set (foldl (λ r x, kfree_spec x r) (refs sp) l) (queue_set h [] sp)).
Proof.
  induction l as [|x l IH]; intros s sp [|fuel] R Hh Hf; cbn in Hf; try lia; cbn [purge_loop]; destruct (dequeue_ok s sp R h _ Hh) as (s1 & E1 & R1);
    rewrite (st_bind_step _ _ _ _ _ E1); cbn [default from_option head hd_error id].
  - rewrite Z.eqb_refl. by exists s1.
  - rewrite (proj2 (Z.eqb_neq _ _)) by (apply (queue_null s sp R h _ _ Hh); right; left). cbn [tail] in R1. pose proof (qr_wf _ _ R) as W.
    destruct (kfree_rel s1 _ x R1) as (s2 & E2 & R2).
    { split; [eapply (wf_buf _ W); [done|left]|]. intros h2 l2. cbn. rewrite lookup_insert_Some. intros [[<- <-]|[Hne H2]].
      - pose proof (wf_nodup _ W _ _ Hh) as N. by apply NoDup_cons in N as [? _].
      - intros Hin. apply Hne. eapply (wf_disj _ W); [exact Hh|exact H2|left|done]. }
    rewrite (st_bind_step _ _ _ _ _ E2). destruct (IH s2 _ fuel R2) as (s3 & E3 & R3); [cbn; by rewrite lookup_insert_eq|lia|].
    exists s3. split; [done|]. revert R3. unfold queue_set, refs_set. cbn. by rewrite insert_insert_eq.
Qed.

(** The four kinds of splice. *)
Section splices.
Context (s : qheap) (sp : qspec) (h k : Z) (l m : list Z).
Hypothesis (R : qrel s sp) (Hh : queues sp !! h = Some l) (Hk : queues sp !! k = Some m) (Hne : k ≠ h).

Lemma splice_empty l' : m = [] → l' = l → queue_set h l' (queue_set k [] sp) = sp.
Proof. intros -> ->. unfold queue_set. cbn. rewrite (insert_id (queues sp) k) by done. rewrite insert_id by done. by destruct sp. Qed.

Lemma skb_queue_splice_ok : ∃ s', skb_queue_splice k h s = Some (tt, s') ∧
  qrel s' (if decide (m = []) then sp else queue_set h (m ++ l) (queue_del k sp)).
Proof.
  unfold skb_queue_splice. rewrite (st_bind_step _ _ _ _ _ (empty_ok s sp R k m Hk)). case_decide as Hm; [rewrite bool_decide_true by done; by exists s|].
  rewrite bool_decide_false by done. destruct (splice_head_place s sp h l m R Hh) as (n & v & En & Ec & Ec'). rewrite (st_bind_step _ _ _ _ _ (next_ok s h n En)).
  destruct (splice_rel s sp h k l m R Hh Hk Hne Hm _ _ _ _ (m ++ l) (reflexivity _) Ec Ec') as (s' & E & R' & _). by exists s'.
Qed.

Lemma skb_queue_splice_tail_ok : ∃ s', skb_queue_splice_tail k h s = Some (tt, s') ∧
  qrel s' (if decide (m = []) then sp else queue_set h (l ++ m) (queue_del k sp)).
Proof.
  unfold skb_queue_splice_tail. rewrite (st_bind_step _ _ _ _ _ (empty_ok s sp R k m Hk)). case_decide as Hm; [rewrite bool_decide_true by done; by exists s|].
  rewrite bool_decide_false by done. destruct (splice_tail_place s sp h l m R Hh) as (u & p & En & Ec & Ec'). rewrite (st_bind_step _ _ _ _ _ (prev_ok s h p En)).
  destruct (splice_rel s sp h k l m R Hh Hk Hne Hm _ _ _ _ (l ++ m) (Permutation_app_comm _ _) Ec Ec') as (s' & E & R' & _). by exists s'.
Qed.

Lemma skb_queue_splice_init_ok : ∃ s', skb_queue_splice_init k h s = Some (tt, s') ∧ qrel s' (queue_set h (m ++ l) (queue_set k [] sp)).
Proof.
  unfold skb_queue_splice_init. rewrite (st_bind_step _ _ _ _ _ (empty_ok s sp R k m Hk)). destruct (decide (m = [])) as [Hm|Hm].
  { rewrite bool_decide_true, splice_empty by (done || by rewrite Hm). by exists s. }
  rewrite bool_decide_false by done. destruct (splice_head_place s sp h l m R Hh) as (n & v & En & Ec & Ec'). rewrite (st_bind_step _ _ _ _ _ (next_ok s h n En)).
  apply (splice_init_rel s sp h k l m _ _ _ _ (m ++ l) R Hh Hk Hne Hm (reflexivity _) Ec Ec').
Qed.

Lemma skb_queue_splice_tail_init_ok : ∃ s', skb_queue_splice_tail_init k h s = Some (tt, s') ∧ qrel s' (queue_set h (l ++ m) (queue_set k [] sp)).
Proof.
  unfold skb_queue_splice_tail_init. rewrite (st_bind_step _ _ _ _ _ (empty_ok s sp R k m Hk)). destruct (decide (m = [])) as [Hm|Hm].
  { rewrite bool_decide_true, splice_empty by (done || by rewrite Hm, app_nil_r). by exists s. }
  rewrite bool_decide_false by done. destruct (splice_tail_place s sp h l m R Hh) as (u & p & En & Ec & Ec'). rewrite (st_bind_step _ _ _ _ _ (prev_ok s h p En)).
  apply (splice_init_rel s sp h k l m _ _ _ _ (l ++ m) R Hh Hk Hne Hm (Permutation_app_comm _ _) Ec Ec').
Qed.

End splices.

(** ** Sequences of operations *)

Ltac done_op H := destruct H as (?s' & ?E & ?R'); unfold answer; eexists; (split; [rewrite (st_bind_step _ _ _ _ _ E); reflexivity|done]).

Lemma op_refines s sp o a sp' : qrel s sp → spec_op o sp = Some (a, sp') → ∃ s', run_op o s = Some (a, s') ∧ qrel s' sp'.
Proof.
  intros R. destruct o; cbn [spec_op run_op].
  1: intros E; case_decide; [|done]; injection E as <- <-; done_op (init_rel s sp h R H).
  1-5: intros (l & Hh & E)%bind_Some; case_decide as Hg; [|done]; injection E as <- <-.
  - pose proof (after_ok s sp R h l h x Hh Hg ltac:(left)) as G. unfold after in G. rewrite Z.eqb_refl in G. done_op G.
  - pose proof (before_ok s sp R h l h x Hh Hg ltac:(left)) as G. unfold before in G. rewrite Z.eqb_refl in G. done_op G.
  - destruct Hg as [Hx Hp]. done_op (after_ok s sp R h l p x Hh Hx Hp).
  - destruct Hg as [Hx Hp]. done_op (before_ok s sp R h l n x Hh Hx Hp).
  - done_op (unlink_list s sp R h l x Hh Hg).
  - intros (l & Hh & [= <- <-])%bind_Some. done_op (dequeue_ok s sp R h l Hh).
  - intros (l & Hh & [= <- <-])%bind_Some. done_op (dequeue_tail_ok s sp R h l Hh).
  - intros (l & Hh & [= <- <-])%bind_Some. unfold answer. rewrite (st_bind_step _ _ _ _ _ (peek_ok s sp R h l Hh)). by eexists.
  - intros (l & Hh & E)%bind_Some. case_decide as Hg; [|done]. injection E as <- <-. unfold answer. rewrite (st_bind_step _ _ _ _ _ (peek_next_ok s sp R h l x Hh Hg)). by eexists.
  - intros (l & Hh & [= <- <-])%bind_Some. unfold answer. rewrite (st_bind_step _ _ _ _ _ (peek_tail_ok s sp R h l Hh)). by eexists.
  - intros (l & Hh & [= <- <-])%bind_Some. unfold answer, skb_queue_len. rewrite (st_bind_step _ _ _ _ _ (qlen_ok s h _ (ring_qlen _ _ _ (qr_ring _ _ R h l Hh)))). by eexists.
  - intros (l & Hh & [= <- <-])%bind_Some. unfold answer. rewrite (st_bind_step _ _ _ _ _ (empty_ok s sp R h l Hh)). by eexists.
  - intros (l & Hh & E)%bind_Some. case_decide as Hg; [|done]. injection E as <- <-. unfold answer. rewrite (st_bind_step _ _ _ _ _ (is_first_ok s sp R h l x Hh Hg)). by eexists.
  - intros (l & Hh & E)%bind_Some. case_decide as Hg; [|done]. injection E as <- <-. unfold answer. rewrite (st_bind_step _ _ _ _ _ (is_last_ok s sp R h l x Hh Hg)). by eexists.
  - intros (l & Hh & (m & Hk & E)%bind_Some)%bind_Some. case_decide as Hne; [|done]. injection E as <- <-. done_op (skb_queue_splice_ok s sp h k l m R Hh Hk Hne).
  - intros (l & Hh & (m & Hk & E)%bind_Some)%bind_Some. case_decide as Hne; [|done]. injection E as <- <-. done_op (skb_queue_splice_init_ok s sp h k l m R Hh Hk Hne).
  - intros (l & Hh & (m & Hk & E)%bind_Some)%bind_Some. case_decide as Hne; [|done]. injection E as <- <-. done_op (skb_queue_splice_tail_ok s sp h k l m R Hh Hk Hne).
  - intros (l & Hh & (m & Hk & E)%bind_Some)%bind_Some. case_decide as Hne; [|done]. injection E as <- <-. done_op (skb_queue_splice_tail_init_ok s sp h k l m R Hh Hk Hne).
  - intros (l & Hh & [= <- <-])%bind_Some. assert (length l < S (size (us s)))%nat as Hf.
    { apply Nat.lt_succ_r, length_le_size; [by apply (wf_nodup _ (qr_wf _ _ R) h)|]. rewrite (qr_us _ _ R). intros x. by apply (wf_buf _ (qr_wf _ _ R) h). }
    unfold answer, skb_queue_purge. rewrite st_bind_assoc, (st_bind_step get _ s s s) by done. done_op (purge_rel h l s sp _ R Hh Hf).
  - intros (n & Hx & [= <- <-])%bind_Some. done_op (get_rel s sp x n R Hx).
  - intros E. case_decide as Hg; [|done]. injection E as <- <-. done_op (kfree_rel s sp x R Hg).
Qed.

Fixpoint run_ops (os : list qop) : qst (list qans) :=
  match os with
  | [] => mret []
  | o :: os => a ← run_op o; r ← run_ops os; mret (a :: r)
  end.

Fixpoint spec_ops (os : list qop) (sp : qspec) : option (list qans * qspec) :=
  match os with
  | [] => Some ([], sp)
  | o :: os => '(a, sp1) ← spec_op o sp; '(r, sp2) ← spec_ops os sp1; Some (a :: r, sp2)
  end.

(** C20: Any sequence of calls to the queue functions that the rules allow (a buffer enters a
    queue only when it is in none, and is unlinked from the queue that it is in; a head
    that a splice left is initialised before its next use) runs without a fault and
    answers as finite lists: the rings in memory are those lists, in both directions,
    each buffer is in at most one of them, the counters are the lengths mod 2^32, and
    a buffer is freed with its last user. *)
Theorem skb_queues_are_lists s sp os answers sp' : qrel s sp → spec_ops os sp = Some (answers, sp') →
  ∃ s', run_ops os s = Some (answers, s') ∧ qrel s' sp'.
Proof.
  revert s sp answers. induction os as [|o os IH]; intros s sp answers R; cbn.
  - intros [= <- <-]. by exists s.
  - intros ([a sp1] & E1 & ([r sp2] & E2 & [= <- <-])%bind_Some)%bind_Some. destruct (op_refines s sp o a sp1 R E1) as (s1 & X1 & R1).
    destruct (IH s1 sp1 r R1 E2) as (s2 & X2 & R2). exists s2. by rewrite (st_bind_step _ _ _ _ _ X1), (st_bind_step _ _ _ _ _ X2).
Qed.


(** ** The error queue *)

Lemma liftq_step {A B} (m : qst A) (f : A → est B) s a h : m (es_heap s) = Some (a, h) →
  (liftq m ≫= f) s = f a (ErrState h (es_sk s) (es_reports s)).
Proof. intros E. apply st_bind_step. unfold liftq. by rewrite E. Qed.

(** The error of the socket after the packet [x] was taken and [l] is left. *)
Definition next_err (packet : Z → err_skb) (x : Z) (l : list Z) (err : Z) : Z :=
  match l with
  | y :: _ => if is_icmp_err_skb packet y then ek_errno (packet y) else if is_icmp_err_skb packet x then 0 else err
  | [] => if is_icmp_err_skb packet x then 0 else err
  end.

Definition with_err (e : Z) (sk : err_sock) : err_sock := ErrSock (sk_error_queue sk) (sk_rmem_alloc sk) (sk_rcvbuf sk) e (sk_dead sk).

Lemma with_err_same sk : with_err (sk_err sk) sk = sk.
Proof. by destruct sk. Qed.

(** Queueing an error packet fails with ENOMEM and changes nothing when the receive
    memory would reach the limit; else the packet is last in the queue, its size is
    charged, and a living socket is told.  Taking the first packet makes the error of
    the socket that of the next one when that came by ICMP, clears it when only the
    taken one did, and keeps it otherwise; while packets are left the socket is told. *)
Theorem err_queue_reports packet s sp x l : qrel (es_heap s) sp → queues sp !! sk_error_queue (es_sk s) = Some l → unqueued sp x →
  is_s 32 (sk_rcvbuf (es_sk s)) → 0 ≤ sk_rcvbuf (es_sk s) → 0 ≤ ek_truesize (packet x) → 0 ≤ sk_rmem_alloc (es_sk s) →
  sk_rmem_alloc (es_sk s) + ek_truesize (packet x) < 2 ^ 31 →
  let sk := es_sk s in let q := sk_error_queue sk in let r := sk_rmem_alloc sk + ek_truesize (packet x) in
  (if sk_rcvbuf sk <=? r then sock_queue_err_skb packet x s = Some (- ENOMEM, s)
   else ∃ s', sock_queue_err_skb packet x s = Some (0, s') ∧ qrel (es_heap s') (queue_set q (l ++ [x]) sp) ∧
     es_sk s' = ErrSock q r (sk_rcvbuf sk) (sk_err sk) (sk_dead sk) ∧ es_reports s' = es_reports s + (if sk_dead sk then 0 else 1)) ∧
  ∃ s', sock_dequeue_err_skb packet s = Some (default NULL (head l), s') ∧ qrel (es_heap s') (queue_set q (tail l) sp) ∧
    es_sk s' = with_err (next_err packet (default NULL (head l)) (tail l) (sk_err sk)) sk ∧
    es_reports s' = es_reports s + (if bool_decide (tail l = []) then 0 else 1).
Proof.
  intros R Hq Hx Hb1 Hb2 Ht Hm Hs sk q r. split.
  - unfold sock_queue_err_skb. rewrite (st_bind_step get _ s s s) by done. cbv zeta. fold sk r. unfold is_s in Hb1.
    rewrite (wrapU_small 32 (sk_rcvbuf sk)), (wrapU_small 32 r) by (unfold is_u, r, sk; lia). destruct (_ <=? _); [done|].
    unfold set_sk. rewrite (st_bind_step (modify _) _ s tt (ErrState (es_heap s) (ErrSock q r (sk_rcvbuf sk) (sk_err sk) (sk_dead sk)) (es_reports s))).
    2:{ unfold modify. fold sk r. by rewrite (wrapS_small 32 r) by (unfold is_s, r, sk; lia). }
    destruct (before_ok _ sp R q l q x Hq Hx) as (h' & E & R'); [left|]. unfold before in R'. rewrite Z.eqb_refl in R'.
    rewrite (liftq_step (skb_queue_tail q x) _ (ErrState (es_heap s) (ErrSock q r (sk_rcvbuf sk) (sk_err sk) (sk_dead sk)) (es_reports s)) tt h' E). destruct (sk_dead sk); eexists; (split; [reflexivity|]); (split; [done|]); (split; [done|]); cbn; lia.
  - unfold sock_dequeue_err_skb. rewrite (st_bind_step get _ s s s) by done. cbv zeta. fold sk q.
    destruct (dequeue_ok _ sp R q l Hq) as (h1 & E1 & R1). rewrite (liftq_step (__skb_dequeue q) _ s _ h1 E1). set (s1 := ErrState h1 _ _).
    assert (queues (queue_set q (tail l) sp) !! q = Some (tail l)) as Hq1 by apply lookup_insert_eq.
    destruct l as [|x0 l]; cbn [head default from_option tail hd_error id next_err] in *.
    + rewrite Z.eqb_refl, (st_bind_step _ _ s1 NULL s1) by done. exists s1. split; [done|]. split; [done|]. split; [by destruct sk eqn:Esk|]. cbn. lia.
    + assert (x0 ≠ NULL) as Hn by (apply (queue_null _ sp R q _ _ Hq); right; left). rewrite (proj2 (Z.eqb_neq _ _) Hn).
      pose proof (peek_ok h1 _ R1 q l Hq1) as Ep. rewrite (liftq_step (skb_peek q) _ s1 _ h1 Ep). cbn [es_heap es_sk es_reports s1].
      change (ErrState h1 (es_sk s) (es_reports s)) with s1. destruct l as [|y l]; cbn [head default from_option tail hd_error id next_err] in *.
      * change (is_icmp_err_skb packet NULL) with false. rewrite (st_bind_step _ _ s1 tt s1) by done. rewrite andb_true_r, Z.eqb_refl.
        destruct (is_icmp_err_skb packet x0); eexists; (split; [reflexivity|]); (split; [done|]); cbn; rewrite ?with_err_same; (split; [done|]); lia.
      * assert (y ≠ NULL) as Hn2 by (apply (queue_null _ sp R q _ _ Hq); right; right; left). rewrite (proj2 (Z.eqb_neq _ _) Hn2).
        destruct (is_icmp_err_skb packet y); rewrite ?andb_false_r, ?andb_true_r; [|destruct (is_icmp_err_skb packet x0)];
          (eexists; split; [reflexivity|]); (split; [done|]); cbn; rewrite ?with_err_same; done.
Qed.

(** ** Examples *)

(** Two heads and three buffers, the first and the second in the queue of 100. *)
Definition heap1 : qheap :=
  QHeap {[100 := 1; 1 := 2; 2 := 100; 200 := 200; 3 := 0]} {[100 := 2; 1 := 100; 2 := 1; 200 := 200; 3 := 0]} {[100 := 2; 200 := 0]} {[1 := 1; 2 := 2; 3 := 1]}.

Definition lists1 : qspec := QSpec {[100 := [1; 2]; 200 := []]} {[1 := 1; 2 := 2; 3 := 1]} {[100; 200]}.

Lemma rel1 : qrel heap1 lists1.
Proof.
  split; [split|..].
  - intros h l. cbn. rewrite lookup_insert_Some, lookup_singleton_Some, elem_of_union, !elem_of_singleton. intros [[<- _]|[_ [<- _]]]; auto.
  - intros h l. cbn. rewrite lookup_insert_Some, lookup_singleton_Some. intros [[_ <-]|[_ [_ <-]]]; [|constructor]. by apply (bool_decide_unpack (NoDup [1; 2])).
  - intros h l x. cbn. rewrite lookup_insert_Some, lookup_singleton_Some. intros [[_ <-]|[_ [_ <-]]]; rewrite ?elem_of_cons, elem_of_nil; [|done].
    intros [->|[->|[]]]; by eexists.
  - intros h1 l1 h2 l2 x. cbn. rewrite !lookup_insert_Some, !lookup_singleton_Some.
    intros [[<- <-]|[_ [<- <-]]] [[<- <-]|[_ [<- <-]]]; rewrite ?elem_of_nil; tauto.
  - intros x. cbn. rewrite elem_of_union, !elem_of_singleton. by intros [->| ->].
  - split; [|done]. cbn. rewrite elem_of_union, !elem_of_singleton. by intros [?|?].
  - intros h l. cbn. rewrite lookup_insert_Some, lookup_singleton_Some. intros [[<- <-]|[_ [<- <-]]]; (split; [by repeat constructor|by apply (bool_decide_unpack (NoDup _))|done]).
  - intros a. cbn. rewrite elem_of_union, !elem_of_singleton. intros [[->| ->]|Ha]; [by split; eexists..|].
    destruct (decide (a = 1)) as [->|]; [by split; eexists|]. destruct (decide (a = 2)) as [->|]; [by split; eexists|]. destruct (decide (a = 3)) as [->|]; [by split; eexists|].
    rewrite !lookup_insert_ne, lookup_singleton_ne in Ha by done. by destruct Ha.
  - intros h. cbn. rewrite elem_of_union, !elem_of_singleton. split; [intros [->| ->]; by eexists|].
    intros [n Hn]. rewrite lookup_insert_Some, lookup_singleton_Some in Hn. destruct Hn as [[<- _]|[_ [<- _]]]; auto.
  - done.
Qed.

Definition demo_ops : list qop := [QTail 200 3; QDequeue 100; QSpliceInit 200 100; QUnlink 100 2; QPeekTail 100; QEmpty 200; QLen 100; QPurge 100; QPeek 100].

Lemma skb_queues_are_lists_witness : ∃ s' sp',
  run_ops demo_ops heap1 = Some ([ADone; ANum 1; ADone; ADone; ANum 3; ABool true; ANum 1; ADone; ANum 0], s') ∧ qrel s' sp' ∧ refs sp' = {[1 := 1; 2 := 2]}.
Proof.
  destruct (skb_queues_are_lists heap1 lists1 demo_ops [ADone; ANum 1; ADone; ADone; ANum 3; ABool true; ANum 1; ADone; ANum 0]
    (QSpec {[100 := []; 200 := []]} {[1 := 1; 2 := 2]} {[100; 200]}) rel1) as (s' & E & R'); [vm_compute; reflexivity|].
  exists s'. eexists. split; [exact E|]. split; [exact R'|done].
Defined.

Definition demo_packet (x : Z) : err_skb := ErrSkb 256 (if x =? 2 then SO_EE_ORIGIN_ICMP else 1) (if x =? 2 then 111 else 0).

Lemma err_queue_reports_witness : ∃ s1 s2,
  sock_queue_err_skb demo_packet 3 (ErrState heap1 (ErrSock 100 512 4096 0 false) 0) = Some (0, s1) ∧
  sock_dequeue_err_skb demo_packet (ErrState heap1 (ErrSock 100 512 4096 0 false) 0) = Some (1, s2) ∧ sk_err (es_sk s2) = 111.
Proof.
  destruct (err_queue_reports demo_packet (ErrState heap1 (ErrSock 100 512 4096 0 false) 0) lists1 3 [1; 2] rel1 eq_refl) as [(s1 & E1 & _) (s2 & E2 & _ & S2 & _)].
  - apply (bool_decide_unpack (unqueued lists1 3)). by vm_compute.
  - done.
  - done.
  - done.
  - done.
  - done.
  - exists s1, s2. split; [exact E1|]. split; [exact E2|]. by rewrite S2.
Defined.

End SkbQueue.
