(* ===== verification/SkbData.v ===== *)
(** * Socket buffers

    include/linux/skbuff.h and net/core/skbuff.c: the structure of a packet and the
    operations on its linear part.

    A packet is a [sk_buff] with its data in one buffer ([head]): data, tail and
    end are offsets there, with data ≤ tail ≤ end; behind the end lies the shared
    information, the pages and the list of further packets that hold the rest of the
    data.  Clones share a buffer with its information, whose [dataref] counts them;
    pages are shared by reference.  [heap] is the memory.

    Not in the model: the zero-copy data of user memory (skb_zcopy is NULL), page
    pools, allocation flags and the fields that the operations only copy. *)

From Stdlib Require Import ZArith Lia.
From stdpp Require Import base numbers list gmap.
From S2P Require Import Prelude.

Module SkbData.

Definition NULL : Z := 0.
Definition MAX_SKB_FRAGS : Z := 17.
Definition SKB_DATAREF_SHIFT : Z := 16.
Definition SKB_DATAREF_MASK : Z := 65535.
Definition UNSET_HEADER : Z := 65535.     (** (u16) ~0U *)
Definition SMP_CACHE_BYTES : Z := 64.
Definition SIZEOF_SHINFO : Z := 320.      (** SKB_DATA_ALIGN(sizeof(struct skb_shared_info)) *)
Definition SIZEOF_SKB : Z := 256.         (** SKB_DATA_ALIGN(sizeof(struct sk_buff)) *)
Definition CHECKSUM_NONE : Z := 0.
Definition CHECKSUM_UNNECESSARY : Z := 1.
Definition CHECKSUM_COMPLETE : Z := 2.
Definition CHECKSUM_PARTIAL : Z := 3.
Definition EMSGSIZE : Z := 90.

Definition SKB_DATA_ALIGN (x : Z) : Z := (x + (SMP_CACHE_BYTES - 1)) / SMP_CACHE_BYTES * SMP_CACHE_BYTES.
Definition SKB_WITH_OVERHEAD (x : Z) : Z := x - SIZEOF_SHINFO.
Definition SKB_TRUESIZE (x : Z) : Z := x + SIZEOF_SKB + SIZEOF_SHINFO.

(** ** The structures *)

(** [skb_frag_t]: a part of a page, or of pages in a row. *)
Record skb_frag_t := SkbFrag { bv_page : Z; bv_offset : Z; bv_len : Z }.

(** The first nr_frags entries of the array, and the first packet of the list. *)
Record skb_shared_info := Shinfo {
  frags : list skb_frag_t;
  frag_list : Z;
  dataref : Z;
  gso_size : Z;
  gso_type : Z }.

Definition nr_frags (i : skb_shared_info) : Z := Z.of_nat (length (frags i)).
Definition set_frags (v : list skb_frag_t) (i : skb_shared_info) : skb_shared_info := Shinfo v (frag_list i) (dataref i) (gso_size i) (gso_type i).
Definition set_frag_list (v : Z) (i : skb_shared_info) : skb_shared_info := Shinfo (frags i) v (dataref i) (gso_size i) (gso_type i).
Definition set_dataref (v : Z) (i : skb_shared_info) : skb_shared_info := Shinfo (frags i) (frag_list i) v (gso_size i) (gso_type i).

(** [next] is the next packet of a list, [head] the buffer, [data], [tail] and
    [end_] are offsets in it; [owned]: skb->sk is set and the destructor is not
    sock_edemux.  csum and the pair csum_start, csum_offset are a union; ip_summed
    says which of them is meant. *)
Record sk_buff := SkBuff {
  next : Z;
  head : Z;
  data : Z;
  tail : Z;
  end_ : Z;
  len : Z;
  data_len : Z;
  truesize : Z;
  users : Z;
  cloned : bool;
  nohdr : bool;
  hdr_len : Z;
  owned : bool;
  reserved_tailroom : Z;
  mac_len : Z;
  mac_header : Z;
  network_header : Z;
  transport_header : Z;
  inner_mac_header : Z;
  inner_network_header : Z;
  inner_transport_header : Z;
  ip_summed : Z;
  csum_start : Z;
  csum_offset : Z;
  csum : Z }.

Definition set_next (v : Z) (s : sk_buff) : sk_buff :=
  SkBuff v (head s) (data s) (tail s) (end_ s) (len s) (data_len s) (truesize s) (users s) (cloned s) (nohdr s) (hdr_len s) (owned s) (reserved_tailroom s) (mac_len s) (mac_header s) (network_header s) (transport_header s) (inner_mac_header s) (inner_network_header s) (inner_transport_header s) (ip_summed s) (csum_start s) (csum_offset s) (csum s).
Definition set_head (v : Z) (s : sk_buff) : sk_buff :=
  SkBuff (next s) v (data s) (tail s) (end_ s) (len s) (data_len s) (truesize s) (users s) (cloned s) (nohdr s) (hdr_len s) (owned s) (reserved_tailroom s) (mac_len s) (mac_header s) (network_header s) (transport_header s) (inner_mac_header s) (inner_network_header s) (inner_transport_header s) (ip_summed s) (csum_start s) (csum_offset s) (csum s).
Definition set_data (v : Z) (s : sk_buff) : sk_buff :=
  SkBuff (next s) (head s) v (tail s) (end_ s) (len s) (data_len s) (truesize s) (users s) (cloned s) (nohdr s) (hdr_len s) (owned s) (reserved_tailroom s) (mac_len s) (mac_header s) (network_header s) (transport_header s) (inner_mac_header s) (inner_network_header s) (inner_transport_header s) (ip_summed s) (csum_start s) (csum_offset s) (csum s).
Definition set_tail (v : Z) (s : sk_buff) : sk_buff :=
  SkBuff (next s) (head s) (data s) v (end_ s) (len s) (data_len s) (truesize s) (users s) (cloned s) (nohdr s) (hdr_len s) (owned s) (reserved_tailroom s) (mac_len s) (mac_header s) (network_header s) (transport_header s) (inner_mac_header s) (inner_network_header s) (inner_transport_header s) (ip_summed s) (csum_start s) (csum_offset s) (csum s).
Definition set_end_ (v : Z) (s : sk_buff) : sk_buff :=
  SkBuff (next s) (head s) (data s) (tail s) v (len s) (data_len s) (truesize s) (users s) (cloned s) (nohdr s) (hdr_len s) (owned s) (reserved_tailroom s) (mac_len s) (mac_header s) (network_header s) (transport_header s) (inner_mac_header s) (inner_network_header s) (inner_transport_header s) (ip_summed s) (csum_start s) (csum_offset s) (csum s).
Definition set_len (v : Z) (s : sk_buff) : sk_buff :=
  SkBuff (next s) (head s) (data s) (tail s) (end_ s) v (data_len s) (truesize s) (users s) (cloned s) (nohdr s) (hdr_len s) (owned s) (reserved_tailroom s) (mac_len s) (mac_header s) (network_header s) (transport_header s) (inner_mac_header s) (inner_network_header s) (inner_transport_header s) (ip_summed s) (csum_start s) (csum_offset s) (csum s).
Definition set_data_len (v : Z) (s : sk_buff) : sk_buff :=
  SkBuff (next s) (head s) (data s) (tail s) (end_ s) (len s) v (truesize s) (users s) (cloned s) (nohdr s) (hdr_len s) (owned s) (reserved_tailroom s) (mac_len s) (mac_header s) (network_header s) (transport_header s) (inner_mac_header s) (inner_network_header s) (inner_transport_header s) (ip_summed s) (csum_start s) (csum_offset s) (csum s).
Definition set_truesize (v : Z) (s : sk_buff) : sk_buff :=
  SkBuff (next s) (head s) (data s) (tail s) (end_ s) (len s) (data_len s) v (users s) (cloned s) (nohdr s) (hdr_len s) (owned s) (reserved_tailroom s) (mac_len s) (mac_header s) (network_header s) (transport_header s) (inner_mac_header s) (inner_network_header s) (inner_transport_header s) (ip_summed s) (csum_start s) (csum_offset s) (csum s).
Definition set_users (v : Z) (s : sk_buff) : sk_buff :=
  SkBuff (next s) (head s) (data s) (tail s) (end_ s) (len s) (data_len s) (truesize s) v (cloned s) (nohdr s) (hdr_len s) (owned s) (reserved_tailroom s) (mac_len s) (mac_header s) (network_header s) (transport_header s) (inner_mac_header s) (inner_network_header s) (inner_transport_header s) (ip_summed s) (csum_start s) (csum_offset s) (csum s).
Definition set_cloned (v : bool) (s : sk_buff) : sk_buff :=
  SkBuff (next s) (head s) (data s) (tail s) (end_ s) (len s) (data_len s) (truesize s) (users s) v (nohdr s) (hdr_len s) (owned s) (reserved_tailroom s) (mac_len s) (mac_header s) (network_header s) (transport_header s) (inner_mac_header s) (inner_network_header s) (inner_transport_header s) (ip_summed s) (csum_start s) (csum_offset s) (csum s).
Definition set_nohdr (v : bool) (s : sk_buff) : sk_buff :=
  SkBuff (next s) (head s) (data s) (tail s) (end_ s) (len s) (data_len s) (truesize s) (users s) (cloned s) v (hdr_len s) (owned s) (reserved_tailroom s) (mac_len s) (mac_header s) (network_header s) (transport_header s) (inner_mac_header s) (inner_network_header s) (inner_transport_header s) (ip_summed s) (csum_start s) (csum_offset s) (csum s).
Definition set_hdr_len (v : Z) (s : sk_buff) : sk_buff :=
  SkBuff (next s) (head s) (data s) (tail s) (end_ s) (len s) (data_len s) (truesize s) (users s) (cloned s) (nohdr s) v (owned s) (reserved_tailroom s) (mac_len s) (mac_header s) (network_header s) (transport_header s) (inner_mac_header s) (inner_network_header s) (inner_transport_header s) (ip_summed s) (csum_start s) (csum_offset s) (csum s).
Definition set_owned (v : bool) (s : sk_buff) : sk_buff :=
  SkBuff (next s) (head s) (data s) (tail s) (end_ s) (len s) (data_len s) (truesize s) (users s) (cloned s) (nohdr s) (hdr_len s) v (reserved_tailroom s) (mac_len s) (mac_header s) (network_header s) (transport_header s) (inner_mac_header s) (inner_network_header s) (inner_transport_header s) (ip_summed s) (csum_start s) (csum_offset s) (csum s).
Definition set_reserved_tailroom (v : Z) (s : sk_buff) : sk_buff :=
  SkBuff (next s) (head s) (data s) (tail s) (end_ s) (len s) (data_len s) (truesize s) (users s) (cloned s) (nohdr s) (hdr_len s) (owned s) v (mac_len s) (mac_header s) (network_header s) (transport_header s) (inner_mac_header s) (inner_network_header s) (inner_transport_header s) (ip_summed s) (csum_start s) (csum_offset s) (csum s).
Definition set_mac_len (v : Z) (s : sk_buff) : sk_buff :=
  SkBuff (next s) (head s) (data s) (tail s) (end_ s) (len s) (data_len s) (truesize s) (users s) (cloned s) (nohdr s) (hdr_len s) (owned s) (reserved_tailroom s) v (mac_header s) (network_header s) (transport_header s) (inner_mac_header s) (inner_network_header s) (inner_transport_header s) (ip_summed s) (csum_start s) (csum_offset s) (csum s).
Definition set_mac_header (v : Z) (s : sk_buff) : sk_buff :=
  SkBuff (next s) (head s) (data s) (tail s) (end_ s) (len s) (data_len s) (truesize s) (users s) (cloned s) (nohdr s) (hdr_len s) (owned s) (reserved_tailroom s) (mac_len s) v (network_header s) (transport_header s) (inner_mac_header s) (inner_network_header s) (inner_transport_header s) (ip_summed s) (csum_start s) (csum_offset s) (csum s).
Definition set_network_header (v : Z) (s : sk_buff) : sk_buff :=
  SkBuff (next s) (head s) (data s) (tail s) (end_ s) (len s) (data_len s) (truesize s) (users s) (cloned s) (nohdr s) (hdr_len s) (owned s) (reserved_tailroom s) (mac_len s) (mac_header s) v (transport_header s) (inner_mac_header s) (inner_network_header s) (inner_transport_header s) (ip_summed s) (csum_start s) (csum_offset s) (csum s).
Definition set_transport_header (v : Z) (s : sk_buff) : sk_buff :=
  SkBuff (next s) (head s) (data s) (tail s) (end_ s) (len s) (data_len s) (truesize s) (users s) (cloned s) (nohdr s) (hdr_len s) (owned s) (reserved_tailroom s) (mac_len s) (mac_header s) (network_header s) v (inner_mac_header s) (inner_network_header s) (inner_transport_header s) (ip_summed s) (csum_start s) (csum_offset s) (csum s).
Definition set_inner_mac_header (v : Z) (s : sk_buff) : sk_buff :=
  SkBuff (next s) (head s) (data s) (tail s) (end_ s) (len s) (data_len s) (truesize s) (users s) (cloned s) (nohdr s) (hdr_len s) (owned s) (reserved_tailroom s) (mac_len s) (mac_header s) (network_header s) (transport_header s) v (inner_network_header s) (inner_transport_header s) (ip_summed s) (csum_start s) (csum_offset s) (csum s).
Definition set_inner_network_header (v : Z) (s : sk_buff) : sk_buff :=
  SkBuff (next s) (head s) (data s) (tail s) (end_ s) (len s) (data_len s) (truesize s) (users s) (cloned s) (nohdr s) (hdr_len s) (owned s) (reserved_tailroom s) (mac_len s) (mac_header s) (network_header s) (transport_header s) (inner_mac_header s) v (inner_transport_header s) (ip_summed s) (csum_start s) (csum_offset s) (csum s).
Definition set_inner_transport_header (v : Z) (s : sk_buff) : sk_buff :=
  SkBuff (next s) (head s) (data s) (tail s) (end_ s) (len s) (data_len s) (truesize s) (users s) (cloned s) (nohdr s) (hdr_len s) (owned s) (reserved_tailroom s) (mac_len s) (mac_header s) (network_header s) (transport_header s) (inner_mac_header s) (inner_network_header s) v (ip_summed s) (csum_start s) (csum_offset s) (csum s).
Definition set_ip_summed (v : Z) (s : sk_buff) : sk_buff :=
  SkBuff (next s) (head s) (data s) (tail s) (end_ s) (len s) (data_len s) (truesize s) (users s) (cloned s) (nohdr s) (hdr_len s) (owned s) (reserved_tailroom s) (mac_len s) (mac_header s) (network_header s) (transport_header s) (inner_mac_header s) (inner_network_header s) (inner_transport_header s) v (csum_start s) (csum_offset s) (csum s).
Definition set_csum_start (v : Z) (s : sk_buff) : sk_buff :=
  SkBuff (next s) (head s) (data s) (tail s) (end_ s) (len s) (data_len s) (truesize s) (users s) (cloned s) (nohdr s) (hdr_len s) (owned s) (reserved_tailroom s) (mac_len s) (mac_header s) (network_header s) (transport_header s) (inner_mac_header s) (inner_network_header s) (inner_transport_header s) (ip_summed s) v (csum_offset s) (csum s).
Definition set_csum_offset (v : Z) (s : sk_buff) : sk_buff :=
  SkBuff (next s) (head s) (data s) (tail s) (end_ s) (len s) (data_len s) (truesize s) (users s) (cloned s) (nohdr s) (hdr_len s) (owned s) (reserved_tailroom s) (mac_len s) (mac_header s) (network_header s) (transport_header s) (inner_mac_header s) (inner_network_header s) (inner_transport_header s) (ip_summed s) (csum_start s) v (csum s).
Definition set_csum (v : Z) (s : sk_buff) : sk_buff :=
  SkBuff (next s) (head s) (data s) (tail s) (end_ s) (len s) (data_len s) (truesize s) (users s) (cloned s) (nohdr s) (hdr_len s) (owned s) (reserved_tailroom s) (mac_len s) (mac_header s) (network_header s) (transport_header s) (inner_mac_header s) (inner_network_header s) (inner_transport_header s) (ip_summed s) (csum_start s) (csum_offset s) v.

(** ** Fragments *)

Definition skb_frag_size (f : skb_frag_t) : Z := bv_len f.
Definition skb_frag_size_set (f : skb_frag_t) (size : Z) : skb_frag_t := SkbFrag (bv_page f) (bv_offset f) (u32 size).
Definition skb_frag_size_add (f : skb_frag_t) (delta : Z) : skb_frag_t := skb_frag_size_set f (bv_len f + delta).
Definition skb_frag_size_sub (f : skb_frag_t) (delta : Z) : skb_frag_t := skb_frag_size_set f (bv_len f - delta).
Definition skb_frag_page (f : skb_frag_t) : Z := bv_page f.
Definition skb_frag_off (f : skb_frag_t) : Z := bv_offset f.
Definition skb_frag_off_set (f : skb_frag_t) (offset : Z) : skb_frag_t := SkbFrag (bv_page f) (u32 offset) (bv_len f).
Definition skb_frag_off_add (f : skb_frag_t) (delta : Z) : skb_frag_t := skb_frag_off_set f (bv_offset f + delta).
Definition skb_frag_off_copy (to from : skb_frag_t) : skb_frag_t := SkbFrag (bv_page to) (bv_offset from) (bv_len to).
Definition skb_frag_page_copy (to from : skb_frag_t) : skb_frag_t := SkbFrag (bv_page from) (bv_offset to) (bv_len to).

(** ** The fields of one structure *)

Definition skb_is_nonlinear (s : sk_buff) : bool := negb (data_len s =? 0).
Definition skb_headlen (s : sk_buff) : Z := u32 (len s - data_len s).
Definition skb_headroom (s : sk_buff) : Z := u32 (data s).
Definition skb_end_offset (s : sk_buff) : Z := end_ s.
Definition skb_set_end_offset (offset : Z) (s : sk_buff) : sk_buff := set_end_ offset s.
Definition skb_tailroom (s : sk_buff) : Z := if skb_is_nonlinear s then 0 else s32 (end_ s - tail s).
Definition skb_availroom (s : sk_buff) : Z :=
  if skb_is_nonlinear s then 0 else s32 (end_ s - tail s - reserved_tailroom s).
Definition skb_tail_pointer (s : sk_buff) : Z := tail s.
Definition skb_reset_tail_pointer (s : sk_buff) : sk_buff := set_tail (u32 (data s)) s.
Definition skb_set_tail_pointer (offset : Z) (s : sk_buff) : sk_buff :=
  let s := skb_reset_tail_pointer s in set_tail (u32 (tail s + offset)) s.
Definition skb_reserve (len_ : Z) (s : sk_buff) : sk_buff := set_tail (u32 (tail s + len_)) (set_data (data s + len_) s).

(** A step on one structure; the answer of the pointer functions is an offset in the
    buffer, [None] a BUG. *)
Abbreviation kst := (st sk_buff).

Definition skb_tailroom_reserve (mtu needed_tailroom : Z) : kst unit :=
  s ← get;
  if skb_is_nonlinear s then fault
  else if mtu <? u32 (skb_tailroom s - needed_tailroom) then put (set_reserved_tailroom (u32 (skb_tailroom s - mtu)) s)
  else put (set_reserved_tailroom (u32 needed_tailroom) s).

Definition __skb_put (len_ : Z) : kst Z :=
  s ← get;
  if skb_is_nonlinear s then fault
  else put (set_len (u32 (len s + len_)) (set_tail (u32 (tail s + len_)) s)) ;; mret (skb_tail_pointer s).

Definition skb_put (len_ : Z) : kst Z :=
  s ← get;
  if skb_is_nonlinear s then fault
  else
    put (set_len (u32 (len s + len_)) (set_tail (u32 (tail s + len_)) s)) ;;
    s' ← get;
    if end_ s' <? tail s' then fault else mret (skb_tail_pointer s).

Definition __skb_push (len_ : Z) : kst Z :=
  s ← get;
  put (set_len (u32 (len s + len_)) (set_data (data s - len_) s)) ;;
  mret (data s - len_).

Definition skb_push (len_ : Z) : kst Z :=
  d ← __skb_push len_;
  if d <? 0 then fault else mret d.

Definition __skb_pull (len_ : Z) : kst Z :=
  s ← get;
  put (set_len (u32 (len s - len_)) s) ;;
  s' ← get;
  if len s' <? data_len s' then fault
  else put (set_data (data s' + len_) s') ;; mret (data s' + len_).

(** [None]: NULL *)
Definition skb_pull_inline (len_ : Z) : kst (option Z) :=
  s ← get;
  if len s <? len_ then mret None else d ← __skb_pull len_; mret (Some d).

Definition skb_pull := skb_pull_inline.

Definition skb_pull_data (len_ : Z) : kst (option Z) :=
  s ← get;
  if len s <? len_ then mret None else skb_pull len_ ;; mret (Some (data s)).

(** A packet that is not linear is left as it is, with a warning. *)
Definition __skb_set_length (len_ : Z) (s : sk_buff) : sk_buff :=
  if skb_is_nonlinear s then s else skb_set_tail_pointer len_ (set_len len_ s).

Definition __skb_trim := __skb_set_length.

Definition skb_trim (len_ : Z) (s : sk_buff) : sk_buff := if len_ <? len s then __skb_trim len_ s else s.

(** ** The headers *)

Definition skb_mac_header_was_set (s : sk_buff) : bool := negb (mac_header s =? UNSET_HEADER).
Definition skb_transport_header_was_set (s : sk_buff) : bool := negb (transport_header s =? UNSET_HEADER).
Definition skb_unset_mac_header (s : sk_buff) : sk_buff := set_mac_header UNSET_HEADER s.

Definition skb_reset_inner_headers (s : sk_buff) : sk_buff :=
  let s := set_inner_mac_header (mac_header s) s in
  let s := set_inner_network_header (network_header s) s in
  set_inner_transport_header (transport_header s) s.

Definition skb_reset_mac_len (s : sk_buff) : sk_buff := set_mac_len (u16 (network_header s - mac_header s)) s.

Definition skb_reset_mac_header (s : sk_buff) : sk_buff := set_mac_header (u16 (data s)) s.
Definition skb_reset_network_header (s : sk_buff) : sk_buff := set_network_header (u16 (data s)) s.
Definition skb_reset_transport_header (s : sk_buff) : sk_buff := set_transport_header (u16 (data s)) s.
Definition skb_reset_inner_mac_header (s : sk_buff) : sk_buff := set_inner_mac_header (u16 (data s)) s.
Definition skb_reset_inner_network_header (s : sk_buff) : sk_buff := set_inner_network_header (u16 (data s)) s.
Definition skb_reset_inner_transport_header (s : sk_buff) : sk_buff := set_inner_transport_header (u16 (data s)) s.

Definition skb_set_mac_header (offset : Z) (s : sk_buff) : sk_buff :=
  let s := skb_reset_mac_header s in set_mac_header (u16 (mac_header s + offset)) s.
Definition skb_set_network_header (offset : Z) (s : sk_buff) : sk_buff :=
  let s := skb_reset_network_header s in set_network_header (u16 (network_header s + offset)) s.
Definition skb_set_transport_header (offset : Z) (s : sk_buff) : sk_buff :=
  let s := skb_reset_transport_header s in set_transport_header (u16 (transport_header s + offset)) s.
Definition skb_set_inner_mac_header (offset : Z) (s : sk_buff) : sk_buff :=
  let s := skb_reset_inner_mac_header s in set_inner_mac_header (u16 (inner_mac_header s + offset)) s.
Definition skb_set_inner_network_header (offset : Z) (s : sk_buff) : sk_buff :=
  let s := skb_reset_inner_network_header s in set_inner_network_header (u16 (inner_network_header s + offset)) s.
Definition skb_set_inner_transport_header (offset : Z) (s : sk_buff) : sk_buff :=
  let s := skb_reset_inner_transport_header s in set_inner_transport_header (u16 (inner_transport_header s + offset)) s.

Definition skb_pop_mac_header (s : sk_buff) : sk_buff := set_mac_header (network_header s) s.

(** The headers as offsets in the buffer, and from the data. *)
Definition skb_mac_header (s : sk_buff) : Z := mac_header s.
Definition skb_network_header (s : sk_buff) : Z := network_header s.
Definition skb_transport_header (s : sk_buff) : Z := transport_header s.
Definition skb_inner_mac_header (s : sk_buff) : Z := inner_mac_header s.
Definition skb_inner_network_header (s : sk_buff) : Z := inner_network_header s.
Definition skb_inner_transport_header (s : sk_buff) : Z := inner_transport_header s.
Definition skb_mac_offset (s : sk_buff) : Z := s32 (skb_mac_header s - data s).
Definition skb_network_offset (s : sk_buff) : Z := s32 (skb_network_header s - data s).
Definition skb_transport_offset (s : sk_buff) : Z := s32 (skb_transport_header s - data s).
Definition skb_inner_network_offset (s : sk_buff) : Z := s32 (skb_inner_network_header s - data s).
Definition skb_inner_transport_offset (s : sk_buff) : Z := s32 (skb_inner_transport_header s - data s).
Definition skb_mac_header_len (s : sk_buff) : Z := u32 (network_header s - mac_header s).
Definition skb_network_header_len (s : sk_buff) : Z := u32 (transport_header s - network_header s).
Definition skb_inner_network_header_len (s : sk_buff) : Z := u32 (inner_transport_header s - inner_network_header s).
Definition skb_checksum_start_offset (s : sk_buff) : Z := s32 (csum_start s - skb_headroom s).
Definition skb_checksum_start (s : sk_buff) : Z := csum_start s.

Definition skb_headers_offset_update (off : Z) (s : sk_buff) : sk_buff :=
  let s := if ip_summed s =? CHECKSUM_PARTIAL then set_csum_start (u16 (csum_start s + off)) s else s in
  let s := set_transport_header (u16 (transport_header s + off)) s in
  let s := set_network_header (u16 (network_header s + off)) s in
  let s := if skb_mac_header_was_set s then set_mac_header (u16 (mac_header s + off)) s else s in
  let s := set_inner_transport_header (u16 (inner_transport_header s + off)) s in
  let s := set_inner_network_header (u16 (inner_network_header s + off)) s in
  set_inner_mac_header (u16 (inner_mac_header s + off)) s.

Definition skb_partial_csum_set (start off : Z) : kst bool :=
  s ← get;
  let csum_end := u32 (start + off + 2) in
  let csum_start := u32 (skb_headroom s + start) in
  if (65535 <? csum_start) || (skb_headlen s <? csum_end) then mret false
  else
    put (skb_set_transport_header start (set_csum_offset off (set_csum_start (u16 csum_start) (set_ip_summed CHECKSUM_PARTIAL s)))) ;;
    mret true.

(** ** Memory *)

(** A buffer: the bytes up to the end, and the shared information behind it. *)
Record buffer := Buffer { b_bytes : list Z; b_info : skb_shared_info }.

(** [page_refs] counts the references to each page; [budget] has, for each allocation to
    come, how many bytes more than asked for it gives, or that it fails. *)
Record heap := Heap {
  skbs : gmap Z sk_buff;
  bufs : gmap Z buffer;
  pages : gmap Z (list Z);
  page_refs : Z → Z;
  budget : list (option Z) }.

Abbreviation hst := (st heap).

Definition set_skbs (v : gmap Z sk_buff) (h : heap) : heap := Heap v (bufs h) (pages h) (page_refs h) (budget h).
Definition set_bufs (v : gmap Z buffer) (h : heap) : heap := Heap (skbs h) v (pages h) (page_refs h) (budget h).
Definition set_pages (v : gmap Z (list Z)) (h : heap) : heap := Heap (skbs h) (bufs h) v (page_refs h) (budget h).
Definition set_page_refs (v : Z → Z) (h : heap) : heap := Heap (skbs h) (bufs h) (pages h) v (budget h).
Definition set_budget (v : list (option Z)) (h : heap) : heap := Heap (skbs h) (bufs h) (pages h) (page_refs h) v.

Definition load (x : Z) : hst sk_buff := h ← get; lift (skbs h !! x).
Definition store (x : Z) (s : sk_buff) : hst unit := modify (λ h, set_skbs (<[x := s]> (skbs h)) h).
Definition update (x : Z) (f : sk_buff → sk_buff) : hst unit := s ← load x; store x (f s).

(** A step on the structure of [x]. *)
Definition on {A} (x : Z) (m : kst A) : hst A :=
  s ← load x;
  r ← lift (m s);
  store x r.2 ;;
  mret r.1.

Definition load_buf (a : Z) : hst buffer := h ← get; lift (bufs h !! a).
Definition store_buf (a : Z) (b : buffer) : hst unit := modify (λ h, set_bufs (<[a := b]> (bufs h)) h).

Definition skb_shinfo (x : Z) : hst skb_shared_info :=
  s ← load x;
  b ← load_buf (head s);
  mret (b_info b).

Definition update_info (x : Z) (f : skb_shared_info → skb_shared_info) : hst unit :=
  s ← load x;
  b ← load_buf (head s);
  store_buf (head s) (Buffer (b_bytes b) (f (b_info b))).

(** Bytes of the buffer of [x]; outside of it is a fault. *)
Definition read_head (x off n : Z) : hst (list Z) :=
  s ← load x;
  b ← load_buf (head s);
  lift (bytes_at (b_bytes b) off n).

Definition write_head (x off : Z) (bs : list Z) : hst unit :=
  s ← load x;
  b ← load_buf (head s);
  v ← lift (put_at (b_bytes b) off bs);
  store_buf (head s) (Buffer v (b_info b)).

Definition skb_copy_from_linear_data_offset (x offset n : Z) : hst (list Z) := s ← load x; read_head x (data s + offset) n.
Definition skb_copy_from_linear_data (x n : Z) : hst (list Z) := skb_copy_from_linear_data_offset x 0 n.
Definition skb_copy_to_linear_data_offset (x offset : Z) (from : list Z) : hst unit := s ← load x; write_head x (data s + offset) from.
Definition skb_copy_to_linear_data (x : Z) (from : list Z) : hst unit := skb_copy_to_linear_data_offset x 0 from.

(** A page may be read while it has a reference. *)
Definition read_page (p off n : Z) : hst (list Z) :=
  h ← get;
  b ← lift (pages h !! p);
  if page_refs h p <=? 0 then fault else lift (bytes_at b off n).

Definition write_page (p off : Z) (bs : list Z) : hst unit :=
  h ← get;
  b ← lift (pages h !! p);
  if page_refs h p <=? 0 then fault
  else v ← lift (put_at b off bs); put (set_pages (<[p := v]> (pages h)) h).

(** ** Putting and pushing with data *)

Definition __skb_put_zero (x n : Z) : hst Z := o ← on x (__skb_put n); write_head x o (replicate (Z.to_nat n) 0) ;; mret o.
Definition __skb_put_data (x : Z) (bs : list Z) : hst Z := o ← on x (__skb_put (Z.of_nat (length bs))); write_head x o bs ;; mret o.
Definition __skb_put_u8 (x val : Z) : hst unit := o ← on x (__skb_put 1); write_head x o [u8 val].
Definition skb_put_zero (x n : Z) : hst Z := o ← on x (skb_put n); write_head x o (replicate (Z.to_nat n) 0) ;; mret o.
Definition skb_put_data (x : Z) (bs : list Z) : hst Z := o ← on x (skb_put (Z.of_nat (length bs))); write_head x o bs ;; mret o.
Definition skb_put_u8 (x val : Z) : hst unit := o ← on x (skb_put 1); write_head x o [u8 val].

(** [pskb_put]: [tail_] is the last packet of the list, or [x]. *)
Definition pskb_put (x tail_ n : Z) : hst Z :=
  (if tail_ =? x then mret tt
   else update x (λ s, set_len (u32 (len s + n)) (set_data_len (u32 (data_len s + n)) s))) ;;
  on tail_ (skb_put n).

(** ** Fragments of a packet *)

Definition skb_has_frag_list (x : Z) : hst bool := i ← skb_shinfo x; mret (negb (frag_list i =? NULL)).
Definition skb_frag_list_init (x : Z) : hst unit := update_info x (set_frag_list NULL).

Definition pagelen (fs : list skb_frag_t) : Z := foldr (λ f n, u32 (n + skb_frag_size f)) 0 fs.
Definition __skb_pagelen (x : Z) : hst Z := i ← skb_shinfo x; mret (pagelen (frags i)).
Definition skb_pagelen (x : Z) : hst Z := s ← load x; n ← __skb_pagelen x; mret (u32 (skb_headlen s + n)).

(** The entry [i], after which the array ends; a fault, where it leaves a gap or the
    array. *)
Definition skb_fill_page_desc (x i page off size : Z) : hst unit :=
  sh ← skb_shinfo x;
  if (0 <=? i) && (i <=? nr_frags sh) && (i <? MAX_SKB_FRAGS) then
    update_info x (λ sh, set_frags (take (Z.to_nat i) (frags sh) ++ [SkbFrag page (u32 off) (u32 size)]) sh)
  else fault.

Definition skb_fill_page_desc_noacc := skb_fill_page_desc.

Definition grow_paged (x size truesize_ : Z) : hst unit :=
  update x (λ s, set_truesize (u32 (truesize s + truesize_)) (set_data_len (u32 (data_len s + size)) (set_len (u32 (len s + size)) s))).

Definition skb_add_rx_frag (x i page off size truesize_ : Z) : hst unit :=
  skb_fill_page_desc x i page off size ;; grow_paged x size truesize_.

Definition skb_coalesce_rx_frag (x i size truesize_ : Z) : hst unit :=
  sh ← skb_shinfo x;
  f ← lift (zlookup (frags sh) i);
  fs ← lift (zinsert (frags sh) i (skb_frag_size_add f size));
  update_info x (set_frags fs) ;; grow_paged x size truesize_.

Definition skb_can_coalesce (sh : skb_shared_info) (i page off : Z) : bool :=
  if i =? 0 then false
  else
    match zlookup (frags sh) (i - 1) with
    | Some f => (page =? skb_frag_page f) && (off =? skb_frag_off f + skb_frag_size f)
    | None => false
    end.

Definition get_page (p : Z) : hst unit := modify (λ h, set_page_refs (λ q, if q =? p then page_refs h p + 1 else page_refs h q) h).
Definition put_page (p : Z) : hst unit := modify (λ h, set_page_refs (λ q, if q =? p then page_refs h p - 1 else page_refs h q) h).
Definition __skb_frag_ref (f : skb_frag_t) : hst unit := get_page (skb_frag_page f).
Definition __skb_frag_unref (f : skb_frag_t) : hst unit := put_page (skb_frag_page f).

Definition skb_frag_ref (x i : Z) : hst unit := sh ← skb_shinfo x; f ← lift (zlookup (frags sh) i); __skb_frag_ref f.

Definition skb_append_pagefrags (x page offset size : Z) : hst Z :=
  sh ← skb_shinfo x;
  let i := nr_frags sh in
  if skb_can_coalesce sh i page offset then
    f ← lift (zlookup (frags sh) (i - 1));
    fs ← lift (zinsert (frags sh) (i - 1) (skb_frag_size_add f size));
    update_info x (set_frags fs) ;; mret 0
  else if i <? MAX_SKB_FRAGS then
    get_page page ;; skb_fill_page_desc_noacc x i page offset size ;; mret 0
  else mret (- EMSGSIZE).

(** ** Linear packets *)

Abbreviation zlen l := (Z.of_nat (length l)).

Lemma put_at_mid (l1 l2 l3 l2' : list Z) : length l2 = length l2' → put_at (l1 ++ l2 ++ l3) (zlen l1) l2' = Some (l1 ++ l2' ++ l3).
Proof.
  intros E. unfold put_at. rewrite !length_app, (proj2 (Z.leb_le 0 _)), (proj2 (Z.leb_le _ _)) by lia. cbn [andb]. do 2 f_equal.
  - rewrite Nat2Z.id. by rewrite take_app_length.
  - f_equal. rewrite Nat2Z.id, <-E, app_assoc. rewrite drop_app_length'; [done|]. by rewrite length_app.
Qed.

Lemma bytes_at_mid (l1 l2 l3 : list Z) : bytes_at (l1 ++ l2 ++ l3) (zlen l1) (zlen l2) = Some l2.
Proof.
  unfold bytes_at. rewrite !length_app, !(proj2 (Z.leb_le _ _)) by lia. cbn [andb]. by rewrite !Nat2Z.id, drop_app_length, take_app_length.
Qed.

(** The packet [x] has all its data in its buffer: [bs], with [hr] bytes of headroom
    and [tr] of tailroom. *)
Record linear (h : heap) (x : Z) (s : sk_buff) (b : buffer) (pre bs post : list Z) : Prop := {
  li_skb : skbs h !! x = Some s;
  li_buf : bufs h !! head s = Some b;
  li_bytes : b_bytes b = pre ++ bs ++ post;
  li_flat : data_len s = 0;
  li_len : len s = zlen bs;
  li_data : data s = zlen pre;
  li_tail : tail s = zlen pre + zlen bs;
  li_end : end_ s = zlen pre + zlen bs + zlen post;
  li_small : end_ s < 2 ^ 31 }.

Definition linear_view (h : heap) (x : Z) (hr : Z) (bs : list Z) (tr : Z) : Prop :=
  ∃ s b pre post, linear h x s b pre bs post ∧ zlen pre = hr ∧ zlen post = tr.

(** Nothing but the structure of [x] and the bytes of its buffer changes. *)
Record only_data (x : Z) (h h' : heap) : Prop := {
  od_skbs : ∀ y, y ≠ x → skbs h' !! y = skbs h !! y;
  od_bufs : ∀ s a, skbs h !! x = Some s → a ≠ head s → bufs h' !! a = bufs h !! a;
  od_info : ∀ a b, bufs h !! a = Some b → ∃ b', bufs h' !! a = Some b' ∧ b_info b' = b_info b ∧ length (b_bytes b') = length (b_bytes b);
  od_head : ∀ s, skbs h !! x = Some s → ∃ s', skbs h' !! x = Some s' ∧ head s' = head s ∧ end_ s' = end_ s;
  od_rest : pages h' = pages h ∧ page_refs h' = page_refs h ∧ budget h' = budget h }.

Lemma only_data_refl x h : only_data x h h.
Proof. by split; eauto. Qed.

Lemma only_data_trans x h1 h2 h3 : only_data x h1 h2 → only_data x h2 h3 → only_data x h1 h3.
Proof.
  intros [A1 A2 A3 A4 A5] [B1 B2 B3 B4 B5]. split.
  - intros y Hy. by rewrite B1, A1.
  - intros s a Hs Ha. destruct (A4 s Hs) as (s' & Hs' & E & _). rewrite (B2 s') by (done || congruence). by apply (A2 s).
  - intros a b Hb. destruct (A3 a b Hb) as (b' & Hb' & I1 & L1), (B3 a b' Hb') as (b'' & Hb'' & I2 & L2). exists b''. split_and!; congruence.
  - intros s Hs. destruct (A4 s Hs) as (s' & Hs' & E1 & E2), (B4 s' Hs') as (s'' & Hs'' & E3 & E4). exists s''. split_and!; congruence.
  - destruct A5 as (?&?&?), B5 as (?&?&?). split_and!; congruence.
Qed.

(** Writing back the structure, and the bytes of the buffer. *)
Lemma only_data_write x h s b s' v : skbs h !! x = Some s → bufs h !! head s = Some b → head s' = head s → end_ s' = end_ s → length v = length (b_bytes b) →
  only_data x h (set_bufs (<[head s := Buffer v (b_info b)]> (bufs h)) (set_skbs (<[x := s']> (skbs h)) h)).
Proof.
  intros Hs Hb Hh He Hv. split; cbn.
  - intros y Hy. by rewrite lookup_insert_ne.
  - intros s0 a Hs0 Ha. rewrite Hs in Hs0. injection Hs0 as <-. by rewrite lookup_insert_ne.
  - intros a b0 Ha. destruct (decide (a = head s)) as [->|Hne]; [|rewrite lookup_insert_ne by done; by exists b0].
    rewrite Hb in Ha. injection Ha as <-. rewrite lookup_insert_eq. by eexists.
  - intros s0 Hs0. rewrite Hs in Hs0. injection Hs0 as <-. rewrite lookup_insert_eq. by eexists.
  - done.
Qed.

Lemma on_ok {A} x (m : kst A) h s a s' : skbs h !! x = Some s → m s = Some (a, s') → on x m h = Some (a, set_skbs (<[x := s']> (skbs h)) h).
Proof. intros Hs Hm. unfold on, load, mbind, st_bind, get, lift. rewrite Hs. by rewrite Hm. Qed.

Lemma on_fault {A} x (m : kst A) h s : skbs h !! x = Some s → m s = None → on x m h = None.
Proof. intros Hs Hm. unfold on, load, mbind, st_bind, get, lift. rewrite Hs. by rewrite Hm. Qed.

Lemma load_ok x h s : skbs h !! x = Some s → load x h = Some (s, h).
Proof. intros Hs. unfold load, mbind, st_bind, get, lift. by rewrite Hs. Qed.

Lemma load_buf_ok a h b : bufs h !! a = Some b → load_buf a h = Some (b, h).
Proof. intros Hb. unfold load_buf, mbind, st_bind, get, lift. by rewrite Hb. Qed.

Lemma update_ok x f h s : skbs h !! x = Some s → update x f h = Some (tt, set_skbs (<[x := f s]> (skbs h)) h).
Proof. intros Hs. unfold update. by rewrite (st_bind_step _ _ _ _ _ (load_ok x h s Hs)). Qed.

Lemma write_head_ok x off bs h s b v : skbs h !! x = Some s → bufs h !! head s = Some b → put_at (b_bytes b) off bs = Some v →
  write_head x off bs h = Some (tt, set_bufs (<[head s := Buffer v (b_info b)]> (bufs h)) h).
Proof.
  intros Hs Hb Hv. unfold write_head. rewrite (st_bind_step _ _ _ _ _ (load_ok x h s Hs)), (st_bind_step _ _ _ _ _ (load_buf_ok _ h b Hb)).
  by rewrite (lift_step _ _ _ _ Hv).
Qed.

Lemma set_same_buf h a b : bufs h !! a = Some b → set_bufs (<[a := Buffer (b_bytes b) (b_info b)]> (bufs h)) h = h.
Proof. intros Hb. unfold set_bufs. rewrite insert_id; [by destruct h|]. rewrite Hb. by destruct b. Qed.

(** ** Their operations *)

Inductive lin_op :=
  | LPut (bs : list Z)       (** skb_put_data *)
  | LPush (bs : list Z)      (** skb_push, then the bytes are copied *)
  | LPull (n : Z)
  | LTrim (n : Z)
  | LReserve (n : Z)
  | LBytes                   (** what the packet holds *)
  | LRooms.                  (** skb_headroom, skb_tailroom *)

Inductive lin_ans := LDone | LOffset (o : option Z) | LData (bs : list Z) | LRoom (hr tr : Z).

Definition run_lin (x : Z) (o : lin_op) : hst lin_ans :=
  match o with
  | LPut bs => d ← skb_put_data x bs; mret (LOffset (Some d))
  | LPush bs => d ← on x (skb_push (zlen bs)); skb_copy_to_linear_data x bs ;; mret (LOffset (Some d))
  | LPull n => d ← on x (skb_pull n); mret (LOffset d)
  | LTrim n => update x (skb_trim n) ;; mret LDone
  | LReserve n => update x (skb_reserve n) ;; mret LDone
  | LBytes => s ← load x; bs ← skb_copy_from_linear_data x (skb_headlen s); mret (LData bs)
  | LRooms => s ← load x; mret (LRoom (skb_headroom s) (skb_tailroom s))
  end.

(** A byte string with room at both ends; [None]: the kernel panics. *)
Definition spec_lin (o : lin_op) (v : Z * list Z * Z) : option (lin_ans * (Z * list Z * Z)) :=
  let '(hr, bs, tr) := v in
  match o with
  | LPut new => if zlen new <=? tr then Some (LOffset (Some (hr + zlen bs)), (hr, bs ++ new, tr - zlen new)) else None
  | LPush new => if zlen new <=? hr then Some (LOffset (Some (hr - zlen new)), (hr - zlen new, new ++ bs, tr)) else None
  | LPull n => Some (if n <=? zlen bs then (LOffset (Some (hr + n)), (hr + n, drop (Z.to_nat n) bs, tr)) else (LOffset None, v))
  | LTrim n => Some (LDone, (hr, take (Z.to_nat n) bs, tr + Z.max 0 (zlen bs - n)))
  | LReserve n => Some (LDone, (hr + n, bs, tr - n))
  | LBytes => Some (LData bs, v)
  | LRooms => Some (LRoom hr tr, v)
  end.

(** Lengths are of type int; only an empty packet is reserved, and within its room. *)
Definition lin_fit (o : lin_op) (v : Z * list Z * Z) : Prop :=
  match o with
  | LPut bs | LPush bs => zlen bs < 2 ^ 31
  | LPull n | LTrim n => 0 ≤ n < 2 ^ 31
  | LReserve n => v.1.2 = [] ∧ 0 ≤ n ≤ v.2
  | _ => True
  end.

Section linear.
Context (h : heap) (x : Z) (s : sk_buff) (b : buffer) (pre bs post : list Z).
Hypothesis (L : linear h x s b pre bs post).

Let hr := zlen pre.
Let tr := zlen post.

Lemma view_write s' pre' bs' post' : head s' = head s → data_len s' = 0 → end_ s' = end_ s → len s' = zlen bs' → data s' = zlen pre' →
  tail s' = zlen pre' + zlen bs' → zlen pre' + zlen bs' + zlen post' = end_ s →
  let h' := set_bufs (<[head s := Buffer (pre' ++ bs' ++ post') (b_info b)]> (bufs h)) (set_skbs (<[x := s']> (skbs h)) h) in
  linear_view h' x (zlen pre') bs' (zlen post') ∧ only_data x h h'.
Proof.
  intros E1 E2 E3 E4 E5 E6 E7 h'. destruct L. split.
  - exists s', (Buffer (pre' ++ bs' ++ post') (b_info b)), pre', post'. split; [|done]. split; cbn; try done; try lia; [apply lookup_insert_eq|by rewrite E1, lookup_insert_eq].
  - apply (only_data_write x h s b); try done. rewrite li_bytes0, !length_app. lia.
Qed.

(** The same bytes, cut elsewhere. *)
Lemma view_move s' pre' bs' post' : head s' = head s → data_len s' = 0 → end_ s' = end_ s → len s' = zlen bs' → data s' = zlen pre' →
  tail s' = zlen pre' + zlen bs' → pre' ++ bs' ++ post' = pre ++ bs ++ post →
  linear_view (set_skbs (<[x := s']> (skbs h)) h) x (zlen pre') bs' (zlen post') ∧ only_data x h (set_skbs (<[x := s']> (skbs h)) h).
Proof.
  intros E1 E2 E3 E4 E5 E6 E7. pose proof L as [Hs Hb Hv _ _ _ _ He _]. destruct (view_write s' pre' bs' post') as [V O]; try done.
  { apply (f_equal length) in E7. rewrite !length_app in E7. lia. }
  assert (set_bufs (<[head s := Buffer (pre' ++ bs' ++ post') (b_info b)]> (bufs h)) (set_skbs (<[x := s']> (skbs h)) h) = set_skbs (<[x := s']> (skbs h)) h) as E.
  { unfold set_bufs. cbn. rewrite (insert_id (bufs h)); [done|]. rewrite Hb, E7, <-Hv. by destruct b. }
  rewrite E in V, O. done.
Qed.

Ltac bounds := unfold is_u, hr, tr in *; lia.

Lemma lin_flat : skb_is_nonlinear s = false.
Proof. unfold skb_is_nonlinear. by rewrite (li_flat _ _ _ _ _ _ _ L). Qed.

Lemma lin_rooms : skb_headroom s = hr ∧ skb_tailroom s = tr ∧ skb_headlen s = zlen bs.
Proof.
  pose proof L as [Hs Hb Hv Hf Hl Hd Ht He Hm]. unfold skb_headroom, skb_tailroom, skb_headlen. rewrite lin_flat.
  rewrite wrapU_small, wrapS_small, (wrapU_small 32 (len s - data_len s)) by (unfold is_s; bounds). bounds.
Qed.

Lemma lin_put new : zlen new < 2 ^ 31 →
  if zlen new <=? tr then
    ∃ h', skb_put_data x new h = Some (hr + zlen bs, h') ∧ linear_view h' x hr (bs ++ new) (tr - zlen new) ∧ only_data x h h'
  else skb_put_data x new h = None.
Proof.
  intros Hn. pose proof L as [Hs Hb Hv Hf Hl Hd Ht He Hm]. unfold skb_put_data.
  set (s' := set_len (u32 (len s + zlen new)) (set_tail (u32 (tail s + zlen new)) s)).
  assert (tail s' = hr + zlen bs + zlen new ∧ len s' = zlen bs + zlen new) as [T1 T2].
  { cbn. rewrite !wrapU_small by bounds. bounds. }
  assert (skb_put (zlen new) s = if end_ s <? tail s' then None else Some (tail s, s')) as E.
  { unfold skb_put, mbind, st_bind, get. rewrite lin_flat. cbn. by destruct (_ <? _). }
  rewrite T1 in E. destruct (Z.leb_spec (zlen new) tr) as [Hfit|Hno].
  2:{ rewrite (proj2 (Z.ltb_lt _ _)) in E by bounds. unfold mbind at 1, st_bind. by rewrite (on_fault x _ h s Hs E). }
  rewrite (proj2 (Z.ltb_ge _ _)) in E by bounds. rewrite (st_bind_step _ _ _ _ _ (on_ok x _ h s _ _ Hs E)).
  destruct (view_write s' pre (bs ++ new) (drop (length new) post)) as [V O]; try done; rewrite ?length_app, ?length_drop in *; try bounds; try (cbn; bounds).
  cbn beta. rewrite (st_bind_step _ _ _ tt (set_bufs (<[head s := Buffer (pre ++ (bs ++ new) ++ drop (length new) post) (b_info b)]> (bufs h)) (set_skbs (<[x := s']> (skbs h)) h))).
  - eexists. split; [unfold mret, st_ret; do 2 f_equal; bounds|]. split; [|done]. replace (tr - zlen new) with (Z.of_nat (length post - length new)) by bounds. done.
  - rewrite (write_head_ok x _ _ _ s' b (pre ++ (bs ++ new) ++ drop (length new) post)); [done|apply lookup_insert_eq|done|]. rewrite Hv, Ht.
    rewrite <-(take_drop (length new) post) at 1. rewrite !app_assoc. rewrite <-(app_assoc _ (take _ _)). replace (zlen pre + zlen bs) with (zlen (pre ++ bs)) by (rewrite length_app; lia).
    rewrite put_at_mid; [by rewrite <-!app_assoc|]. rewrite length_take. bounds.
Qed.

Lemma lin_push new : zlen new < 2 ^ 31 →
  let m := (d ← on x (skb_push (zlen new)); skb_copy_to_linear_data x new ;; mret d) h in
  if zlen new <=? hr then ∃ h', m = Some (hr - zlen new, h') ∧ linear_view h' x (hr - zlen new) (new ++ bs) tr ∧ only_data x h h'
  else m = None.
Proof.
  intros Hn m. subst m. pose proof L as [Hs Hb Hv Hf Hl Hd Ht He Hm].
  set (s' := set_len (u32 (len s + zlen new)) (set_data (data s - zlen new) s)).
  assert (skb_push (zlen new) s = if data s - zlen new <? 0 then None else Some (data s - zlen new, s')) as E.
  { unfold skb_push, __skb_push, mbind, st_bind, get, put, mret, st_ret. by destruct (_ <? _). }
  rewrite Hd in E. fold hr in E.
  assert (len s' = zlen new + zlen bs) as T2 by (cbn; rewrite wrapU_small by bounds; bounds).
  destruct (Z.leb_spec (zlen new) hr) as [Hfit|Hno].
  2:{ rewrite (proj2 (Z.ltb_lt _ _)) in E by bounds. unfold mbind at 1, st_bind. by rewrite (on_fault x _ h s Hs E). }
  rewrite (proj2 (Z.ltb_ge _ _)) in E by bounds. rewrite (st_bind_step _ _ _ _ _ (on_ok x _ h s _ _ Hs E)).
  set (k := (length pre - length new)%nat). assert (zlen (take k pre) = hr - zlen new) as Tk by (rewrite length_take; unfold k; bounds).
  destruct (view_write s' (take k pre) (new ++ bs) post) as [V O]; try done; rewrite ?length_app; try bounds; [cbn; bounds|cbn; rewrite Tk; bounds|].
  set (h1 := set_skbs _ h). assert (skbs h1 !! x = Some s') as Hs1 by apply lookup_insert_eq. unfold skb_copy_to_linear_data, skb_copy_to_linear_data_offset.
  rewrite st_bind_assoc, (st_bind_step _ _ _ _ _ (load_ok x h1 s' Hs1)).
  assert (put_at (b_bytes b) (data s' + 0) new = Some (take k pre ++ (new ++ bs) ++ post)) as Ep.
  { rewrite Hv. replace (data s' + 0) with (zlen (take k pre)) by (rewrite Tk; cbn; bounds). rewrite <-(take_drop k pre) at 1. rewrite <-!app_assoc.
    apply put_at_mid. rewrite length_drop. unfold k. bounds. }
  rewrite (st_bind_step _ _ _ _ _ (write_head_ok x _ _ h1 s' b _ Hs1 Hb Ep)). eexists. split; [reflexivity|]. by rewrite <-Tk.
Qed.

Lemma lin_pull n : 0 ≤ n < 2 ^ 31 →
  if n <=? zlen bs then
    ∃ h', on x (skb_pull n) h = Some (Some (hr + n), h') ∧ linear_view h' x (hr + n) (drop (Z.to_nat n) bs) tr ∧ only_data x h h'
  else on x (skb_pull n) h = Some (None, h).
Proof.
  intros Hn. pose proof L as [Hs Hb Hv Hf Hl Hd Ht He Hm]. destruct (Z.leb_spec n (zlen bs)) as [Hfit|Hno].
  - set (s' := set_data (data s + n) (set_len (u32 (len s - n)) s)). assert (len s' = zlen bs - n) as T by (cbn; rewrite wrapU_small; bounds).
    assert (skb_pull n s = Some (Some (data s + n), s')) as E.
    { unfold skb_pull, skb_pull_inline, __skb_pull, mbind, st_bind, get, put, mret, st_ret. rewrite (proj2 (Z.ltb_ge _ _)) by bounds. 
      change (len (set_len (u32 (len s - n)) s)) with (len s'). change (data_len (set_len (u32 (len s - n)) s)) with (data_len s). rewrite T, Hf.
      by rewrite (proj2 (Z.ltb_ge _ _)) by bounds. }
    rewrite Hd in E. fold hr in E.
    eexists. split; [exact (on_ok x _ h s _ _ Hs E)|]. assert (zlen (pre ++ take (Z.to_nat n) bs) = hr + n) as <- by (rewrite length_app, length_take; bounds).
    apply view_move; try done; rewrite ?length_app, ?length_take, ?length_drop; try bounds; [cbn; bounds|cbn; bounds|].
    rewrite <-!app_assoc, (app_assoc (take _ bs)), take_drop. done.
  - assert (skb_pull n s = Some (None, s)) as E by (unfold skb_pull, skb_pull_inline, mbind, st_bind, get; by rewrite (proj2 (Z.ltb_lt _ _)) by bounds).
    rewrite (on_ok x _ h s _ _ Hs E). unfold set_skbs. rewrite insert_id by done. by destruct h.
Qed.

Lemma lin_trim n : 0 ≤ n < 2 ^ 31 → ∃ h', update x (skb_trim n) h = Some (tt, h') ∧
  linear_view h' x hr (take (Z.to_nat n) bs) (tr + Z.max 0 (zlen bs - n)) ∧ only_data x h h'.
Proof.
  intros Hn. pose proof L as [Hs Hb Hv Hf Hl Hd Ht He Hm]. eexists. split; [exact (update_ok x _ h s Hs)|]. unfold skb_trim. destruct (Z.ltb_spec n (len s)) as [Hcut|Hno].
  - assert (tr + Z.max 0 (zlen bs - n) = zlen (drop (Z.to_nat n) bs ++ post)) as -> by (rewrite length_app, length_drop; bounds).
    unfold __skb_trim, __skb_set_length. rewrite lin_flat. apply view_move; try done; rewrite ?length_app, ?length_take, ?length_drop; try bounds.
    + cbn. bounds. + cbn. rewrite (wrapU_small 32 (data s)) by bounds. rewrite wrapU_small by bounds. bounds.
    + by rewrite (app_assoc (take _ bs)), take_drop.
  - rewrite take_ge by bounds. replace (tr + Z.max 0 (zlen bs - n)) with tr by bounds. apply view_move; try done; bounds.
Qed.

Lemma lin_reserve n : bs = [] → 0 ≤ n ≤ tr → ∃ h', update x (skb_reserve n) h = Some (tt, h') ∧ linear_view h' x (hr + n) bs (tr - n) ∧ only_data x h h'.
Proof.
  intros E Hn. pose proof L as [Hs Hb Hv Hf Hl Hd Ht He Hm]. assert (zlen bs = 0) as Z0 by (by rewrite E). eexists. split; [exact (update_ok x _ h s Hs)|].
  assert (hr + n = zlen (pre ++ take (Z.to_nat n) post)) as -> by (rewrite length_app, length_take; bounds).
  assert (tr - n = zlen (drop (Z.to_nat n) post)) as -> by (rewrite length_drop; bounds).
  apply view_move; try done; rewrite ?length_app, ?length_take; cbn; try bounds.
  - rewrite wrapU_small by bounds. bounds.
  - rewrite E, <-app_assoc. cbn [app]. by rewrite take_drop.
Qed.

Lemma lin_bytes : (s ← load x; bs ← skb_copy_from_linear_data x (skb_headlen s); mret (LData bs)) h = Some (LData bs, h).
Proof.
  pose proof L as [Hs Hb Hv Hf Hl Hd Ht He Hm]. rewrite (st_bind_step _ _ _ _ _ (load_ok x h s Hs)). destruct lin_rooms as (_ & _ & ->).
  unfold skb_copy_from_linear_data, skb_copy_from_linear_data_offset. rewrite st_bind_assoc, (st_bind_step _ _ _ _ _ (load_ok x h s Hs)).
  unfold read_head. rewrite !st_bind_assoc, (st_bind_step _ _ _ _ _ (load_ok x h s Hs)), !st_bind_assoc, (st_bind_step _ _ _ _ _ (load_buf_ok _ h b Hb)).
  rewrite Hv, Hd, Z.add_0_r. by rewrite (lift_step _ _ _ _ (bytes_at_mid pre bs post)).
Qed.

End linear.

(** The steps of a linear packet, one by one. *)
Lemma lin_op_refines h x hr bs tr o : linear_view h x hr bs tr → lin_fit o (hr, bs, tr) →
  match spec_lin o (hr, bs, tr) with
  | None => run_lin x o h = None
  | Some (a, (hr', bs', tr')) => ∃ h', run_lin x o h = Some (a, h') ∧ linear_view h' x hr' bs' tr' ∧ only_data x h h'
  end.
Proof.
  intros V. pose proof V as (s & b & pre & post & L & <- & <-). destruct o as [new|new|n|n|n| |]; cbn [lin_fit spec_lin run_lin].
  - intros Hn. pose proof (lin_put h x s b pre bs post L new Hn) as P. destruct (_ <=? _).
    + destruct P as (h' & E & P). exists h'. split; [|done]. by rewrite (st_bind_step _ _ _ _ _ E).
    + unfold mbind, st_bind. by rewrite P.
  - intros Hn. pose proof (lin_push h x s b pre bs post L new Hn) as P. cbv zeta in P. destruct (_ <=? _).
    + destruct P as (h' & E & P). exists h'. split; [|done]. revert E. unfold mbind, st_bind. destruct (on x _ h) as [[d h1]|]; [|done].
      destruct (skb_copy_to_linear_data x new h1) as [[u h2]|]; [|done]. by intros [= -> ->].
    + revert P. unfold mbind, st_bind. destruct (on x _ h) as [[d h1]|]; [|done]. by destruct (skb_copy_to_linear_data x new h1) as [[u h2]|].
  - intros Hn. pose proof (lin_pull h x s b pre bs post L n Hn) as P. destruct (_ <=? _).
    + destruct P as (h' & E & P). exists h'. split; [|done]. by rewrite (st_bind_step _ _ _ _ _ E).
    + exists h. split; [by rewrite (st_bind_step _ _ _ _ _ P)|]. split; [done|]. apply only_data_refl.
  - intros Hn. destruct (lin_trim h x s b pre bs post L n Hn) as (h' & E & P). exists h'. by rewrite (st_bind_step _ _ _ _ _ E).
  - intros [Hb Hn]. destruct (lin_reserve h x s b pre bs post L n Hb Hn) as (h' & E & P). exists h'. by rewrite (st_bind_step _ _ _ _ _ E).
  - intros _. exists h. split; [by apply (lin_bytes h x s b pre bs post)|]. split; [done|]. apply only_data_refl.
  - intros _. exists h. split; [|split; [done|apply only_data_refl]]. rewrite (st_bind_step _ _ _ _ _ (load_ok x h s (li_skb _ _ _ _ _ _ _ L))).
    by destruct (lin_rooms h x s b pre bs post L) as (-> & -> & _).
Qed.

Fixpoint run_lins (x : Z) (os : list lin_op) : hst (list lin_ans) :=
  match os with
  | [] => mret []
  | o :: os => a ← run_lin x o; r ← run_lins x os; mret (a :: r)
  end.

Fixpoint spec_lins (os : list lin_op) (v : Z * list Z * Z) : option (list lin_ans * (Z * list Z * Z)) :=
  match os with
  | [] => Some ([], v)
  | o :: os => '(a, v1) ← spec_lin o v; '(r, v2) ← spec_lins os v1; Some (a :: r, v2)
  end.

Fixpoint lins_fit (os : list lin_op) (v : Z * list Z * Z) : Prop :=
  match os with
  | [] => True
  | o :: os => lin_fit o v ∧ ∀ a v', spec_lin o v = Some (a, v') → lins_fit os v'
  end.

(** C21: A linear packet is a byte string with room at both ends, for every sequence of
    operations: putting and pushing bytes extends it, pulling and trimming cuts it,
    and the offsets that the functions give are where the bytes are.  The kernel panics
    exactly when a put does not fit the tailroom or a push the headroom; no other
    packet, no other buffer, no page and no shared information changes. *)
Theorem linear_packet_is_a_string h x v os : linear_view h x v.1.1 v.1.2 v.2 → lins_fit os v →
  match spec_lins os v with
  | None => run_lins x os h = None
  | Some (answers, v') => ∃ h', run_lins x os h = Some (answers, h') ∧ linear_view h' x v'.1.1 v'.1.2 v'.2 ∧ only_data x h h'
  end.
Proof.
  revert h v. induction os as [|o os IH]; intros h [[hr bs] tr] V; cbn [spec_lins run_lins lins_fit].
  - intros _. exists h. split; [done|]. split; [done|]. apply only_data_refl.
  - intros [Hf Hfs]. pose proof (lin_op_refines h x hr bs tr o V Hf) as P. destruct (spec_lin o (hr, bs, tr)) as [[a [[hr1 bs1] tr1]]|] eqn:E; cbn [mbind option_bind].
    2:{ unfold mbind, st_bind. by rewrite P. }
    destruct P as (h1 & E1 & V1 & O1). rewrite (st_bind_step _ _ _ _ _ E1). specialize (IH h1 (hr1, bs1, tr1) V1 (Hfs _ _ eq_refl)).
    destruct (spec_lins os (hr1, bs1, tr1)) as [[r v2]|]; cbn [mbind option_bind].
    + destruct IH as (h2 & E2 & V2 & O2). exists h2. rewrite (st_bind_step _ _ _ _ _ E2). split; [done|]. split; [done|]. by eapply only_data_trans.
    + unfold mbind, st_bind. by rewrite IH.
Qed.

(** The sums of skb_put are of 32 bits: a length close to 2^32 does not panic but takes bytes
    off the packet. *)
Lemma skb_put_wraps s k : data_len s = 0 → 0 ≤ tail s ≤ end_ s → end_ s < 2 ^ 31 → 0 < k ≤ tail s → k ≤ len s < 2 ^ 31 →
  skb_put (2 ^ 32 - k) s = Some (tail s, set_len (len s - k) (set_tail (tail s - k) s)).
Proof.
  intros Hd Ht He Hk Hl. unfold skb_put, mbind, st_bind, get, skb_is_nonlinear. rewrite Hd. cbn [Z.eqb negb].
  assert (∀ a, k ≤ a < 2 ^ 31 → u32 (a + (2 ^ 32 - k)) = a - k) as W.
  { intros a Ha. unfold wrapU. replace (a + (2 ^ 32 - k)) with ((a - k) + 1 * 2 ^ 32) by lia. rewrite Z.mod_add, Z.mod_small by lia. done. }
  rewrite !W by lia. unfold put, mret, st_ret. cbn [end_ set_len set_tail tail]. by rewrite (proj2 (Z.ltb_ge _ _)) by lia.
Qed.

(** Moving the data to another place keeps every header where it was in the data. *)
Lemma headers_follow_data off s : 0 ≤ off → 0 ≤ mac_header s → 0 ≤ network_header s → 0 ≤ transport_header s →
  mac_header s + off < 65535 → network_header s + off < 65536 → transport_header s + off < 65536 →
  let s' := set_data (data s + off) (skb_headers_offset_update off s) in
  skb_network_offset s' = skb_network_offset s ∧ skb_transport_offset s' = skb_transport_offset s ∧ skb_mac_offset s' = skb_mac_offset s ∧
  skb_network_header_len s' = skb_network_header_len s ∧ skb_mac_header_was_set s' = skb_mac_header_was_set s.
Proof.
  intros H0 H1 H2 H3 H4 H5 H6 s'. assert (network_header s' = network_header s + off ∧ transport_header s' = transport_header s + off ∧
    mac_header s' = mac_header s + off ∧ data s' = data s + off) as (E1 & E2 & E3 & E4).
  { unfold s', skb_headers_offset_update, skb_mac_header_was_set. assert (mac_header s ≠ UNSET_HEADER) as Hm by (unfold UNSET_HEADER; lia).
    destruct (ip_summed s =? CHECKSUM_PARTIAL); cbn; rewrite (proj2 (Z.eqb_neq _ _) Hm); cbn; rewrite !wrapU_small by (unfold is_u; lia); done. }
  unfold skb_network_offset, skb_transport_offset, skb_mac_offset, skb_network_header_len, skb_network_header, skb_transport_header, skb_mac_header, skb_mac_header_was_set.
  rewrite E1, E2, E3, E4. split_and!; try (f_equal; lia). rewrite !(proj2 (Z.eqb_neq _ _)) by (unfold UNSET_HEADER; lia). done.
Qed.

(** A transport header that was never set looks set after the data was moved; the MAC header
    is spared. *)
Lemma unset_transport_becomes_set off s : transport_header s = UNSET_HEADER → mac_header s = UNSET_HEADER → 0 < off < 65536 →
  let s' := skb_headers_offset_update off s in
  skb_transport_header_was_set s = false ∧ skb_transport_header_was_set s' = true ∧ skb_mac_header_was_set s' = false.
Proof.
  intros Ht Hm Ho s'. assert (transport_header s' = off - 1 ∧ mac_header s' = UNSET_HEADER) as [E1 E2].
  { unfold s', skb_headers_offset_update, skb_mac_header_was_set. destruct (ip_summed s =? CHECKSUM_PARTIAL); cbn; rewrite Hm; cbn; split; try done;
      rewrite Ht; unfold UNSET_HEADER, wrapU; replace (65535 + off) with ((off - 1) + 1 * 2 ^ 16) by lia; rewrite Z.mod_add, Z.mod_small by lia; done. }
  unfold skb_transport_header_was_set, skb_mac_header_was_set. rewrite E1, E2, Ht. split; [done|]. split; [|done]. by rewrite (proj2 (Z.eqb_neq _ _)) by (unfold UNSET_HEADER; lia).
Qed.

(** ** Examples *)

(** An empty packet of 64 bytes in the buffer 7, as __alloc_skb makes it. *)
Definition packet0 : sk_buff :=
  SkBuff 0 7 0 0 64 0 0 640 1 false false 0 false 0 0 UNSET_HEADER 0 UNSET_HEADER 0 0 0 0 0 0 0.
Definition info0 : skb_shared_info := Shinfo [] NULL 1 0 0.
Definition heap0 : heap := Heap {[1 := packet0]} {[7 := Buffer (replicate 64 0) info0]} ∅ (λ _, 0) [].

Lemma linear0 : linear_view heap0 1 0 [] 64.
Proof. exists packet0, (Buffer (replicate 64 0) info0), [], (replicate 64 0). by split; [split|]. Qed.

Definition lin_demo : list lin_op := [LReserve 16; LPut [1; 2; 3; 4]; LPush [9; 8]; LPull 1; LTrim 3; LRooms; LBytes].

Lemma linear_packet_is_a_string_witness : ∃ h', run_lins 1 lin_demo heap0 =
    Some ([LDone; LOffset (Some 16); LOffset (Some 14); LOffset (Some 15); LDone; LRoom 15 46; LData [8; 1; 2]], h') ∧
  linear_view h' 1 15 [8; 1; 2] 46 ∧ run_lins 1 [LReserve 16; LPush (replicate 17 0)] heap0 = None.
Proof.
  pose proof (linear_packet_is_a_string heap0 1 (0, [], 64) lin_demo linear0) as P.
  pose proof (linear_packet_is_a_string heap0 1 (0, [], 64) [LReserve 16; LPush (replicate 17 0)] linear0) as P'.
  destruct P as (h' & E & V & _); [cbn; repeat (split; [done || lia|]; intros ? ? [= <- <-]); done|]. exists h'. split; [exact E|]. split; [exact V|].
  apply P'. cbn. repeat (split; [done || lia|]; intros ? ? [= <- <-]).
Defined.

End SkbData.
