(* ===== verification/SkbRead.v ===== *)
(** * Reading a packet of several parts

    net/core/skbuff.c: copying and summing the bytes of a packet, over its linear
    part, its pages and the packets of its list, which may have all of these again.

    [contents] is the byte string that a packet stands for.  The fuel of each function
    bounds the nesting of the lists and their length. *)

From Stdlib Require Import ZArith Lia.
From stdpp Require Import base numbers list gmap.
From S2P Require Import Prelude SkbData.

Module SkbRead.
Import SkbData.

(** ** What a packet stands for *)

Definition frag_bytes (h : heap) (f : skb_frag_t) : option (list Z) :=
  if page_refs h (bv_page f) <=? 0 then None
  else b ← pages h !! bv_page f; bytes_at b (bv_offset f) (bv_len f).

(** The packets of a list, given the bytes of one. *)
Fixpoint list_contents (one : Z → option (list Z)) (k : nat) (h : heap) (x : Z) : option (list Z) :=
  if x =? NULL then Some []
  else
    match k with
    | O => None
    | S k => s ← skbs h !! x; c ← one x; r ← list_contents one k h (next s); Some (c ++ r)
    end.

(** The fields len and data_len have to agree with the parts. *)
Fixpoint contents (fuel : nat) (h : heap) (x : Z) : option (list Z) :=
  match fuel with
  | O => None
  | S fuel =>
      s ← skbs h !! x;
      b ← bufs h !! head s;
      l ← bytes_at (b_bytes b) (data s) (skb_headlen s);
      fs ← mapM (frag_bytes h) (frags (b_info b));
      cs ← list_contents (contents fuel h) fuel h (frag_list (b_info b));
      if len s =? zlen (l ++ concat fs ++ cs) then Some (l ++ concat fs ++ cs) else None
  end.

(** ** skb_copy_bits *)

(** The loop over the pages: [inl] all is copied, or [inr (start, offset, len, copied)]. *)
Fixpoint copy_frags (fs : list skb_frag_t) (start offset n : Z) : hst (list Z + (Z * Z * Z * list Z)) :=
  match fs with
  | [] => mret (inr (start, offset, n, []))
  | f :: fs =>
      let end_ := start + skb_frag_size f in
      if 0 <? end_ - offset then
        let copy := Z.min (end_ - offset) n in
        to ← read_page (skb_frag_page f) (skb_frag_off f + offset - start) copy;
        if n - copy =? 0 then mret (inl to)
        else
          r ← copy_frags fs end_ (offset + copy) (n - copy);
          mret match r with
               | inl to' => inl (to ++ to')
               | inr (st, o, n', to') => inr (st, o, n', to ++ to')
               end
      else copy_frags fs end_ offset n
  end.

(** The loop over the list of packets; [one] is skb_copy_bits of a packet. *)
Fixpoint copy_list (one : Z → Z → Z → hst (Z * list Z)) (k : nat) (x start offset n : Z) : hst (Z * list Z) :=
  if x =? NULL then mret (if n =? 0 then 0 else - EFAULT, [])
  else
    match k with
    | O => fault
    | S k =>
        s ← load x;
        let end_ := start + len s in
        if 0 <? end_ - offset then
          let copy := Z.min (end_ - offset) n in
          r ← one x (offset - start) copy;
          if negb (r.1 =? 0) then mret (- EFAULT, r.2)
          else if n - copy =? 0 then mret (0, r.2)
          else
            r' ← copy_list one k (next s) end_ (offset + copy) (n - copy);
            mret (r'.1, r.2 ++ r'.2)
        else copy_list one k (next s) end_ offset n
    end.

(** The answer, and what is in [to]. *)
Fixpoint skb_copy_bits (fuel : nat) (x offset n : Z) : hst (Z * list Z) :=
  match fuel with
  | O => fault
  | S fuel =>
      s ← load x;
      let start := skb_headlen s in
      if s32 (len s) - n <? offset then mret (- EFAULT, [])
      else
        let copy := if 0 <? start - offset then Z.min (start - offset) n else 0 in
        to ← (if 0 <? start - offset then skb_copy_from_linear_data_offset x offset copy else mret []);
        if (0 <? start - offset) && (n - copy =? 0) then mret (0, to)
        else
          sh ← skb_shinfo x;
          r ← copy_frags (frags sh) start (offset + copy) (n - copy);
          match r with
          | inl to' => mret (0, to ++ to')
          | inr (start, offset, n, to') =>
              r' ← copy_list (skb_copy_bits fuel) fuel (frag_list sh) start offset n;
              mret (r'.1, to ++ to' ++ r'.2)
          end
  end.

(** ** Cutting byte strings *)

(** The [n] bytes from [o]. *)
Definition slice (o n : Z) (l : list Z) : list Z := take (Z.to_nat n) (drop (Z.to_nat o) l).

Lemma slice_len o n l : 0 ≤ o → 0 ≤ n → zlen (slice o n l) = Z.max 0 (Z.min n (zlen l - o)).
Proof. intros. unfold slice. rewrite length_take, length_drop. lia. Qed.

(** A slice of two parts: what the first one has of it, and the rest. *)
Lemma slice_app o n l1 l2 : 0 ≤ o → 0 ≤ n →
  slice o n (l1 ++ l2) = slice o n l1 ++ slice (Z.max 0 (o - zlen l1)) (n - zlen (slice o n l1)) l2.
Proof.
  intros Ho Hn. rewrite slice_len by done. unfold slice. destruct (Z.le_gt_cases o (zlen l1)).
  - rewrite drop_app_le by lia. replace (Z.to_nat (Z.max 0 (o - zlen l1))) with O by lia. rewrite drop_0.
    rewrite take_app. f_equal. f_equal. rewrite length_drop. lia.
  - rewrite drop_app_ge by lia. rewrite (drop_ge l1) by lia. rewrite take_nil. cbn [app]. f_equal; [lia|]. f_equal. lia.
Qed.

Lemma slice_none o n l : zlen l ≤ o ∨ n ≤ 0 → slice o n l = [].
Proof. intros [H|H]; unfold slice; [rewrite drop_ge by lia; by rewrite take_nil|]. by replace (Z.to_nat n) with O by lia. Qed.

Lemma bytes_at_slice l off n bs o k : bytes_at l off n = Some bs → 0 ≤ o → 0 ≤ k → o + k ≤ n → bytes_at l (off + o) k = Some (slice o k bs).
Proof.
  unfold bytes_at, slice. intros E Ho Hk Hok. destruct (_ && _) eqn:E1 in E; [|done]. injection E as <-. to_prop.
  rewrite !(proj2 (Z.leb_le _ _)) by lia. cbn [andb]. f_equal. rewrite skipn_firstn_comm, take_take, drop_drop. f_equal; [lia|]. f_equal. lia.
Qed.

(** ** Copying is slicing *)

Lemma read_page_ok h f bs o k : frag_bytes h f = Some bs → 0 ≤ o → 0 ≤ k → o + k ≤ zlen bs →
  read_page (skb_frag_page f) (skb_frag_off f + o) k h = Some (slice o k bs, h).
Proof.
  unfold frag_bytes, read_page, skb_frag_page, skb_frag_off, mbind, st_bind, get, lift, option_bind. destruct (page_refs h (bv_page f) <=? 0) eqn:Er; [done|].
  destruct (pages h !! bv_page f) as [b|]; [|done]. cbn. intros E Ho Hk Hok. pose proof (bytes_at_length _ _ _ _ E) as Hl.
  by rewrite (bytes_at_slice _ _ _ _ o k E) by lia.
Qed.

Lemma frag_bytes_len h f bs : frag_bytes h f = Some bs → zlen bs = bv_len f.
Proof.
  unfold frag_bytes. destruct (_ <=? _); [done|]. intros (b & _ & E)%bind_Some. by apply bytes_at_length in E.
Qed.

Lemma copy_frags_ok h fs Fs : mapM (frag_bytes h) fs = Some Fs → ∀ start offset n, 0 ≤ n → start ≤ offset →
  ∃ r, copy_frags fs start offset n h = Some (r, h) ∧
    let to := slice (offset - start) n (concat Fs) in
    match r with
    | inl to' => to' = to ∧ zlen to = n
    | inr (st, o, n', to') => to' = to ∧ st = start + zlen (concat Fs) ∧ o = offset + zlen to ∧ n' = n - zlen to ∧ st ≤ o
    end.
Proof.
  revert Fs. induction fs as [|f fs IH]; intros Fs HF start offset n Hn Hs; cbn in HF.
  - injection HF as <-. eexists. split; [reflexivity|]. cbn [concat]. rewrite slice_none by (cbn [length]; lia). cbn [length]. split_and!; [done|lia..].
  - apply bind_Some in HF as (bs & Hbs & (Fs' & HFs & E)%bind_Some). injection E as <-. pose proof (frag_bytes_len _ _ _ Hbs) as Hl. cbn [copy_frags concat].
    unfold skb_frag_size. rewrite <-Hl. rewrite (slice_app (offset - start) n bs) by lia. pose proof (slice_len (offset - start) n bs ltac:(lia) Hn) as Sl.
    destruct (Z.ltb_spec 0 (start + zlen bs - offset)) as [Hin|Hout].
    + set (copy := Z.min (start + zlen bs - offset) n). assert (slice (offset - start) copy bs = slice (offset - start) n bs) as Ec.
      { unfold slice, copy. destruct (Z.le_gt_cases n (start + zlen bs - offset)); [do 2 f_equal; lia|]. rewrite !take_ge; [done|rewrite length_drop; lia..]. }
      replace (skb_frag_off f + offset - start) with (skb_frag_off f + (offset - start)) by lia.
      rewrite (st_bind_step _ _ _ _ _ (read_page_ok h f bs (offset - start) copy Hbs ltac:(lia) ltac:(lia) ltac:(lia))). rewrite Ec.
      destruct (Z.eqb_spec (n - copy) 0) as [Hend|Hmore].
      * eexists. split; [reflexivity|]. cbn. rewrite (slice_none _ (n - _)) by lia. rewrite app_nil_r. split; [done|lia].
      * destruct (IH Fs' HFs (start + zlen bs) (offset + copy) (n - copy)) as (r & E & Hr); [lia..|]. rewrite (st_bind_step _ _ _ _ _ E).
        eexists. split; [reflexivity|]. replace (offset + copy - (start + zlen bs)) with (Z.max 0 (offset - start - zlen bs)) in Hr by lia.
        replace (n - copy) with (n - zlen (slice (offset - start) n bs)) in Hr by lia. destruct r as [to'|[[[st o] n'] to']]; cbn in Hr |- *; rewrite ?length_app.
        -- destruct Hr as [-> Hr]. split; [done|]. lia.
        -- destruct Hr as (-> & -> & -> & -> & Hr). split_and!; [done|lia..].
    + destruct (IH Fs' HFs (start + zlen bs) offset n) as (r & E & Hr); [lia..|]. exists r. split; [done|].
      rewrite (slice_none (offset - start)) by lia. cbn [length app]. rewrite Z.sub_0_r. replace (offset - (start + zlen bs)) with (Z.max 0 (offset - start - zlen bs)) in Hr by lia.
      destruct r as [to'|[[[st o] n'] to']]; [done|]. rewrite length_app. cbn in Hr |- *. destruct Hr as (-> & -> & -> & -> & Hr). split_and!; [done|lia..].
Qed.

Lemma copy_list_ok h one rec bound :
  (∀ y s c, skbs h !! y = Some s → one y = Some c → zlen c ≤ bound → zlen c = len s ∧ ∀ o m, 0 ≤ o → 0 ≤ m → o + m ≤ zlen c → rec y o m h = Some ((0, slice o m c), h)) →
  ∀ k x C start offset n, list_contents one k h x = Some C → zlen C ≤ bound → 0 ≤ n → start ≤ offset →
  copy_list rec k x start offset n h =
    Some ((if zlen (slice (offset - start) n C) =? n then 0 else - EFAULT, slice (offset - start) n C), h).
Proof.
  intros Hrec k. induction k as [|k IH]; intros x C start offset n HC HB Hn Hs; cbn in HC |- *; destruct (x =? NULL).
  1,3: injection HC as <-; rewrite slice_none by (cbn; lia); unfold mret, st_ret; do 3 f_equal; rewrite Z.eqb_sym; done.
  { done. }
  apply bind_Some in HC as (s & Hx & (c & Hc & (r & Hr & E)%bind_Some)%bind_Some). injection E as <-. rewrite length_app in HB. destruct (Hrec x s c Hx Hc ltac:(lia)) as [Hl Hone].
  rewrite (st_bind_step _ _ _ _ _ (load_ok x h s Hx)), <-Hl. rewrite (slice_app (offset - start) n c) by lia.
  pose proof (slice_len (offset - start) n c ltac:(lia) Hn) as Sl. destruct (Z.ltb_spec 0 (start + zlen c - offset)) as [Hin|Hout].
  - set (copy := Z.min (start + zlen c - offset) n). assert (slice (offset - start) copy c = slice (offset - start) n c) as Ec.
    { unfold slice, copy. destruct (Z.le_gt_cases n (start + zlen c - offset)); [do 2 f_equal; lia|]. rewrite !take_ge; [done|rewrite length_drop; lia..]. }
    rewrite (st_bind_step _ _ _ _ _ (Hone (offset - start) copy ltac:(lia) ltac:(lia) ltac:(lia))). cbn [fst snd Z.eqb negb]. rewrite Ec.
    destruct (Z.eqb_spec (n - copy) 0) as [Hend|Hmore].
    + rewrite (slice_none _ (n - _)) by lia. rewrite app_nil_r. unfold mret, st_ret. do 3 f_equal. rewrite (proj2 (Z.eqb_eq _ _)) by lia. done.
    + rewrite (st_bind_step _ _ _ _ _ (IH (next s) r (start + zlen c) (offset + copy) (n - copy) Hr ltac:(lia) ltac:(lia) ltac:(lia))). cbn [fst snd]. rewrite length_app.
      replace (offset + copy - (start + zlen c)) with (Z.max 0 (offset - start - zlen c)) by lia.
      replace (n - copy) with (n - zlen (slice (offset - start) n c)) by lia. unfold mret, st_ret. do 3 f_equal.
      destruct (Z.eqb_spec (zlen (slice (Z.max 0 (offset - start - zlen c)) (n - zlen (slice (offset - start) n c)) r)) (n - zlen (slice (offset - start) n c))),
        (Z.eqb_spec (Z.of_nat (length (slice (offset - start) n c) + length (slice (Z.max 0 (offset - start - zlen c)) (n - zlen (slice (offset - start) n c)) r))) n); done || lia.
  - rewrite (IH (next s) r (start + zlen c) offset n Hr ltac:(lia) Hn ltac:(lia)). rewrite (slice_none (offset - start) n c) by lia. cbn [length app]. rewrite Z.sub_0_r.
    by replace (offset - (start + zlen c)) with (Z.max 0 (offset - start - zlen c)) by lia.
Qed.

(** The parts of a packet. *)
Record parts (fuel : nat) (h : heap) (x : Z) (s : sk_buff) (b : buffer) (l : list Z) (Fs : list (list Z)) (C bs : list Z) : Prop := {
  pt_skb : skbs h !! x = Some s;
  pt_buf : bufs h !! head s = Some b;
  pt_lin : bytes_at (b_bytes b) (data s) (skb_headlen s) = Some l;
  pt_frags : mapM (frag_bytes h) (frags (b_info b)) = Some Fs;
  pt_list : list_contents (contents fuel h) fuel h (frag_list (b_info b)) = Some C;
  pt_bytes : bs = l ++ concat Fs ++ C;
  pt_len : len s = zlen bs;
  pt_headlen : skb_headlen s = zlen l }.

Lemma contents_parts fuel h x bs : contents (S fuel) h x = Some bs → ∃ s b l Fs C, parts fuel h x s b l Fs C bs.
Proof.
  cbn. intros (s & Hs & (b & Hb & (l & Hl & (Fs & HF & (C & HC & E)%bind_Some)%bind_Some)%bind_Some)%bind_Some)%bind_Some.
  destruct (Z.eqb_spec (len s) (zlen (l ++ concat Fs ++ C))) as [El|]; [|done]. injection E as <-. exists s, b, l, Fs, C. split; try done. by rewrite (bytes_at_length _ _ _ _ Hl).
Qed.

Lemma contents_len fuel h x s bs : contents fuel h x = Some bs → skbs h !! x = Some s → len s = zlen bs.
Proof.
  destruct fuel as [|fuel]; [done|]. intros (s' & b & l & Fs & C & P)%contents_parts Hs. destruct P. congruence.
Qed.

(** The headroom of a packet. *)
Definition headroom_bytes (h : heap) (x : Z) : list Z :=
  default [] (s ← skbs h !! x; b ← bufs h !! head s; Some (take (Z.to_nat (data s)) (b_bytes b))).

Lemma skb_shinfo_ok x h s b : skbs h !! x = Some s → bufs h !! head s = Some b → skb_shinfo x h = Some (b_info b, h).
Proof. intros Hs Hb. unfold skb_shinfo. by rewrite (st_bind_step _ _ _ _ _ (load_ok x h s Hs)), (st_bind_step _ _ _ _ _ (load_buf_ok _ h b Hb)). Qed.

(** The linear part, with the headroom before it. *)
Lemma linear_slice h x s b l offset n : skbs h !! x = Some s → bufs h !! head s = Some b → bytes_at (b_bytes b) (data s) (zlen l) = Some l →
  let hr := take (Z.to_nat (data s)) (b_bytes b) in
  zlen hr = data s ∧
  (- data s ≤ offset → 0 ≤ n → 0 < zlen l - offset →
   skb_copy_from_linear_data_offset x offset (Z.min (zlen l - offset) n) h = Some (slice (data s + offset) n (hr ++ l), h)).
Proof.
  intros Hs Hb Hl hr. assert (0 ≤ data s ∧ data s + zlen l ≤ zlen (b_bytes b)) as Hd.
  { assert (is_Some (bytes_at (b_bytes b) (data s) (zlen l))) as Hi by by eexists. apply bytes_at_is_Some in Hi. lia. }
  assert (zlen hr = data s) as Hhr by (unfold hr; rewrite length_take; lia). split; [done|]. intros Ho Hn Hin.
  assert (bytes_at (b_bytes b) 0 (data s + zlen l) = Some (hr ++ l)) as Hall.
  { unfold bytes_at in *. rewrite !(proj2 (Z.leb_le _ _)) in * by lia. cbn [andb] in *. injection Hl as Hl. f_equal. unfold hr.
    rewrite <-Hl at 2. rewrite Z2Nat.inj_0, drop_0. rewrite (take_take_drop (b_bytes b)). f_equal. lia. }
  unfold skb_copy_from_linear_data_offset. rewrite (st_bind_step _ _ _ _ _ (load_ok x h s Hs)). unfold read_head.
  rewrite (st_bind_step _ _ _ _ _ (load_ok x h s Hs)), (st_bind_step _ _ _ _ _ (load_buf_ok _ h b Hb)).
  pose proof (bytes_at_slice _ _ _ _ (data s + offset) (Z.min (zlen l - offset) n) Hall ltac:(lia) ltac:(lia) ltac:(lia)) as E. rewrite Z.add_0_l in E. unfold lift. rewrite E. do 2 f_equal.
  unfold slice. destruct (Z.le_gt_cases n (zlen l - offset)); [do 2 f_equal; lia|]. rewrite !take_ge; [done|rewrite length_drop, length_app; lia..].
Qed.

(** Copying is slicing, by induction on the depth; [skb_copy_bits_slices] says it in words. *)
Lemma skb_copy_bits_ok fuel h x bs offset n : contents fuel h x = Some bs → zlen bs < 2 ^ 31 → 0 ≤ n →
  - zlen (headroom_bytes h x) ≤ offset →
  skb_copy_bits fuel x offset n h =
    Some (if offset + n <=? zlen bs then (0, slice (zlen (headroom_bytes h x) + offset) n (headroom_bytes h x ++ bs)) else (- EFAULT, []), h).
Proof.
  revert x bs offset n. induction fuel as [|fuel IH]; intros x bs offset n Hc Hb Hn Ho; [done|].
  apply contents_parts in Hc as (s & b & l & Fs & C & P). destruct P as [Hs Hbuf Hl HF HC Hbs Hlen Hhl].
  unfold headroom_bytes in *. rewrite Hs in *. cbn [mbind option_bind] in *. rewrite Hbuf in *. cbn [mbind option_bind default from_option id] in *.
  cbn [skb_copy_bits]. rewrite (st_bind_step _ _ _ _ _ (load_ok x h s Hs)). rewrite (wrapS_small 32 (len s)) by (unfold is_s; lia). rewrite Hlen.
  destruct (Z.leb_spec (offset + n) (zlen bs)) as [Hfit|Hno]; [rewrite (proj2 (Z.ltb_ge _ _)) by lia|by rewrite (proj2 (Z.ltb_lt _ _)) by lia].
  rewrite Hhl in Hl. destruct (linear_slice h x s b l offset n Hs Hbuf Hl) as [Hhr Hlin]. set (hr := take (Z.to_nat (data s)) (b_bytes b)) in *.
  rewrite Hhl, Hhr. set (copy := if 0 <? zlen l - offset then Z.min (zlen l - offset) n else 0). assert (0 ≤ copy ≤ n) as Hcopy by (unfold copy; destruct (_ <? _) eqn:E; to_prop; lia).
  assert ((if 0 <? zlen l - offset then skb_copy_from_linear_data_offset x offset copy else mret []) h = Some (slice (data s + offset) n (hr ++ l), h)) as Elin.
  { unfold copy. destruct (Z.ltb_spec 0 (zlen l - offset)) as [Hin|Hout]; [apply Hlin; lia|]. rewrite slice_none; [done|]. rewrite length_app. lia. }
  rewrite (st_bind_step _ _ _ _ _ Elin). clear Elin. rewrite Hbs, app_assoc, (slice_app _ n (hr ++ l)) by lia.
  pose proof (slice_len (data s + offset) n (hr ++ l) ltac:(lia) Hn) as Sl. rewrite length_app in Sl.
  assert (zlen (slice (data s + offset) n (hr ++ l)) = copy) as Ecopy by (unfold copy; destruct (Z.ltb_spec 0 (zlen l - offset)); lia).
  destruct ((0 <? zlen l - offset) && (n - copy =? 0)) eqn:Edone.
  { to_prop. rewrite (slice_none _ (n - _)) by lia. by rewrite app_nil_r. }
  assert (zlen l ≤ offset + copy) as Hoff. { unfold copy in *. destruct (Z.ltb_spec 0 (zlen l - offset)); [|lia]. cbn in Edone. to_prop. lia. }
  rewrite (st_bind_step _ _ _ _ _ (skb_shinfo_ok x h s b Hs Hbuf)). destruct (copy_frags_ok h _ Fs HF (zlen l) (offset + copy) (n - copy) ltac:(lia) Hoff) as (r & Er & Hr).
  rewrite (st_bind_step _ _ _ _ _ Er). cbv zeta in Hr.
  replace (Z.max 0 (data s + offset - zlen (hr ++ l))) with (offset + copy - zlen l) by (rewrite length_app; unfold copy in *; destruct (Z.ltb_spec 0 (zlen l - offset)); lia).
  rewrite Ecopy. set (F := concat Fs) in *. rewrite (slice_app _ (n - copy) F) by lia. destruct r as [to'|[[[st o] n'] to']].
  - destruct Hr as [-> Hr]. rewrite (slice_none _ (n - copy - _)) by lia. by rewrite app_nil_r.
  - destruct Hr as (-> & -> & -> & -> & Hr). pose proof (slice_len (offset + copy - zlen l) (n - copy) F ltac:(lia) ltac:(lia)) as Sf.
    assert (zlen C ≤ zlen bs) as HCb by (rewrite Hbs, !length_app; lia).
    assert (∀ y s' c, skbs h !! y = Some s' → contents fuel h y = Some c → zlen c ≤ zlen bs → zlen c = len s' ∧ ∀ o m, 0 ≤ o → 0 ≤ m → o + m ≤ zlen c →
      skb_copy_bits fuel y o m h = Some ((0, slice o m c), h)) as Hrec.
    { intros y s' c Hy Hc' Hsub. split; [by rewrite (contents_len _ _ _ _ _ Hc' Hy)|]. intros o m Ho' Hm Hom.
      rewrite (IH y c o m Hc') by lia. rewrite (proj2 (Z.leb_le _ _)) by lia. do 3 f_equal.
      unfold slice. rewrite drop_app_ge by lia. do 2 f_equal. lia. }
    set (w := slice (offset + copy - zlen l) (n - copy) F) in *.
    rewrite (st_bind_step _ _ _ _ _ (copy_list_ok h _ _ _ Hrec fuel _ C (zlen l + zlen F) (offset + copy + zlen w) (n - copy - zlen w) HC HCb ltac:(lia) Hr)).
    cbn [fst snd]. replace (offset + copy + zlen w - (zlen l + zlen F)) with (Z.max 0 (offset + copy - zlen l - zlen F)) by lia.
    unfold mret, st_ret. do 3 f_equal. rewrite (proj2 (Z.eqb_eq _ _)); [done|]. rewrite slice_len by lia. rewrite Hbs, !length_app in Hfit. fold F in Hfit. lia.
Qed.

(** C22: Copying [n] bytes from an offset gives exactly these bytes of the string that the
    packet stands for, whatever the parts are that hold them, to any depth of lists,
    with a negative offset reaching into the headroom; it answers EFAULT, and has
    copied nothing, exactly when the end lies behind the packet.  The packet and
    everything else is as before. *)
Theorem skb_copy_bits_slices fuel h x bs offset n : contents fuel h x = Some bs → zlen bs < 2 ^ 31 → 0 ≤ n →
  - zlen (headroom_bytes h x) ≤ offset →
  skb_copy_bits fuel x offset n h =
    Some (if offset + n <=? zlen bs then (0, slice (zlen (headroom_bytes h x) + offset) n (headroom_bytes h x ++ bs)) else (- EFAULT, []), h).
Proof. apply skb_copy_bits_ok. Qed.

(** ** __skb_checksum *)

(** The operations that a checksum is given: [update] of one part, [combine] of the sum of
    [pos] bytes with that of the next part. *)
Class ChecksumOps (C : Type) := {
  csum0 : C;
  csum_update : list Z → C → C;
  csum_combine : C → C → Z → Z → C }.

(** Summing in parts is summing at once. *)
Class ChecksumLaws (C : Type) `{ChecksumOps C} : Prop := {
  csum_update_nil : ∀ c, csum_update [] c = c;
  csum_combine_update : ∀ a b c, csum_combine (csum_update a c) (csum_update b csum0) (zlen a) (zlen b) = csum_update (a ++ b) c }.

Section checksum.
Context {C : Type} `{ChecksumOps C}.

(** [inl csum] all is summed, or [inr (start, offset, len, pos, csum)]. *)
Fixpoint sum_frags (fs : list skb_frag_t) (start offset n pos : Z) (csum : C) : hst (C + (Z * Z * Z * Z * C)) :=
  match fs with
  | [] => mret (inr (start, offset, n, pos, csum))
  | f :: fs =>
      let end_ := start + skb_frag_size f in
      if 0 <? end_ - offset then
        let copy := Z.min (end_ - offset) n in
        p ← read_page (skb_frag_page f) (skb_frag_off f + offset - start) copy;
        let csum := csum_combine csum (csum_update p csum0) pos copy in
        if n - copy =? 0 then mret (inl csum)
        else sum_frags fs end_ (offset + copy) (n - copy) (pos + copy) csum
      else sum_frags fs end_ offset n pos csum
  end.

Fixpoint sum_list (one : Z → Z → Z → C → hst C) (k : nat) (x start offset n pos : Z) (csum : C) : hst C :=
  if x =? NULL then if n =? 0 then mret csum else fault
  else
    match k with
    | O => fault
    | S k =>
        s ← load x;
        let end_ := start + len s in
        if 0 <? end_ - offset then
          let copy := Z.min (end_ - offset) n in
          csum2 ← one x (offset - start) copy csum0;
          let csum := csum_combine csum csum2 pos copy in
          if n - copy =? 0 then mret csum
          else sum_list one k (next s) end_ (offset + copy) (n - copy) (pos + copy) csum
        else sum_list one k (next s) end_ offset n pos csum
    end.

Fixpoint __skb_checksum (fuel : nat) (x offset n : Z) (csum : C) : hst C :=
  match fuel with
  | O => fault
  | S fuel =>
      s ← load x;
      let start := skb_headlen s in
      let copy := if 0 <? start - offset then Z.min (start - offset) n else 0 in
      csum ← (if 0 <? start - offset then p ← skb_copy_from_linear_data_offset x offset copy; mret (csum_update p csum) else mret csum);
      if (0 <? start - offset) && (n - copy =? 0) then mret csum
      else
        sh ← skb_shinfo x;
        r ← sum_frags (frags sh) start (offset + copy) (n - copy) copy csum;
        match r with
        | inl csum => mret csum
        | inr (start, offset, n, pos, csum) => sum_list (__skb_checksum fuel) fuel (frag_list sh) start offset n pos csum
        end
  end.

Definition skb_checksum := __skb_checksum.

Context `{!ChecksumLaws C}.

(** Where a sum stands: the bytes [done] are in it. *)
Definition summed (c : C) (bs : list Z) : C := csum_update bs c.

Lemma summed_next c bs more : csum_combine (summed c bs) (csum_update more csum0) (zlen bs) (zlen more) = summed c (bs ++ more).
Proof. apply csum_combine_update. Qed.

Lemma slice_min o n m l : 0 ≤ o → m = Z.min (zlen l - o) n → 0 ≤ m → slice o m l = slice o n l.
Proof.
  intros Ho -> Hm. unfold slice. destruct (Z.le_gt_cases n (zlen l - o)); [do 2 f_equal; lia|]. rewrite !take_ge; [done|rewrite length_drop; lia..].
Qed.

Lemma sum_frags_ok h c fs Fs : mapM (frag_bytes h) fs = Some Fs → ∀ start offset n before, 0 ≤ n → start ≤ offset →
  ∃ r, sum_frags fs start offset n (zlen before) (summed c before) h = Some (r, h) ∧
    let to := slice (offset - start) n (concat Fs) in
    match r with
    | inl c' => c' = summed c (before ++ to) ∧ zlen to = n
    | inr (st, o, n', pos, c') => c' = summed c (before ++ to) ∧ pos = zlen (before ++ to) ∧ st = start + zlen (concat Fs) ∧ o = offset + zlen to ∧
        n' = n - zlen to ∧ st ≤ o
    end.
Proof.
  revert Fs. induction fs as [|f fs IH]; intros Fs HF start offset n before Hn Hs; cbn in HF.
  - injection HF as <-. eexists. split; [reflexivity|]. cbn [concat]. rewrite slice_none by (cbn [length]; lia). rewrite app_nil_r. cbn [length]. split_and!; [done..|lia|lia|lia|lia].
  - apply bind_Some in HF as (bs & Hbs & (Fs' & HFs & E)%bind_Some). injection E as <-. pose proof (frag_bytes_len _ _ _ Hbs) as Hl. cbn [sum_frags concat].
    unfold skb_frag_size. rewrite <-Hl. rewrite (slice_app (offset - start) n bs) by lia. pose proof (slice_len (offset - start) n bs ltac:(lia) Hn) as Sl.
    destruct (Z.ltb_spec 0 (start + zlen bs - offset)) as [Hin|Hout].
    + set (copy := Z.min (start + zlen bs - offset) n). replace (skb_frag_off f + offset - start) with (skb_frag_off f + (offset - start)) by lia.
      rewrite (st_bind_step _ _ _ _ _ (read_page_ok h f bs (offset - start) copy Hbs ltac:(lia) ltac:(lia) ltac:(lia))).
      rewrite (slice_min (offset - start) n copy bs) by (unfold copy; lia). set (w := slice (offset - start) n bs) in *.
      assert (copy = zlen w) as -> by (unfold copy; lia). rewrite summed_next.
      replace (zlen before + zlen w) with (zlen (before ++ w)) by (rewrite length_app; lia). destruct (Z.eqb_spec (n - zlen w) 0) as [Hend|Hmore].
      * eexists. split; [reflexivity|]. cbn. rewrite (slice_none _ (n - _)) by lia. rewrite app_nil_r. split; [done|lia].
      * destruct (IH Fs' HFs (start + zlen bs) (offset + zlen w) (n - zlen w) (before ++ w)) as (r & E & Hr); [lia..|]. exists r. split; [done|].
        replace (offset + zlen w - (start + zlen bs)) with (Z.max 0 (offset - start - zlen bs)) in Hr by lia.
        destruct r as [c'|[[[[st o] n'] pos] c']]; cbn zeta iota beta in Hr |- *; rewrite <-app_assoc in Hr; [rewrite length_app; split; [apply Hr|lia]|].
        destruct Hr as (-> & -> & -> & -> & -> & Hr). split_and!; [done|done|rewrite ?length_app; lia..].
    + destruct (IH Fs' HFs (start + zlen bs) offset n before) as (r & E & Hr); [lia..|]. exists r. split; [done|].
      rewrite (slice_none (offset - start)) by lia. cbn [length app]. rewrite Z.sub_0_r. replace (offset - (start + zlen bs)) with (Z.max 0 (offset - start - zlen bs)) in Hr by lia.
      destruct r as [c'|[[[[st o] n'] pos] c']]; [done|]. cbn in Hr |- *. destruct Hr as (-> & -> & -> & -> & -> & Hr). split_and!; [done|done|rewrite ?length_app; lia..].
Qed.

Lemma sum_list_ok h c one rec bound :
  (∀ y s b, skbs h !! y = Some s → one y = Some b → zlen b ≤ bound → zlen b = len s ∧ ∀ o m c, 0 ≤ o → 0 ≤ m → o + m ≤ zlen b →
     rec y o m c h = Some (summed c (slice o m b), h)) →
  ∀ k x L start offset n before, list_contents one k h x = Some L → zlen L ≤ bound → 0 ≤ n → start ≤ offset → offset - start + n ≤ zlen L →
  sum_list rec k x start offset n (zlen before) (summed c before) h = Some (summed c (before ++ slice (offset - start) n L), h).
Proof.
  intros Hrec k. induction k as [|k IH]; intros x L start offset n before HC HB Hn Hs Hfit; cbn in HC |- *; destruct (x =? NULL).
  1,3: injection HC as <-; cbn [length] in Hfit; rewrite slice_none, app_nil_r by lia; by rewrite (proj2 (Z.eqb_eq n 0)) by lia.
  { done. }
  apply bind_Some in HC as (s & Hx & (b & Hc & (r & Hr & E)%bind_Some)%bind_Some). injection E as <-. rewrite length_app in HB, Hfit. destruct (Hrec x s b Hx Hc ltac:(lia)) as [Hl Hone].
  rewrite (st_bind_step _ _ _ _ _ (load_ok x h s Hx)), <-Hl. rewrite (slice_app (offset - start) n b) by lia.
  pose proof (slice_len (offset - start) n b ltac:(lia) Hn) as Sl. destruct (Z.ltb_spec 0 (start + zlen b - offset)) as [Hin|Hout].
  - set (copy := Z.min (start + zlen b - offset) n). rewrite (st_bind_step _ _ _ _ _ (Hone (offset - start) copy csum0 ltac:(lia) ltac:(lia) ltac:(lia))).
    rewrite (slice_min (offset - start) n copy b) by (unfold copy; lia). set (w := slice (offset - start) n b) in *. assert (copy = zlen w) as -> by (unfold copy; lia).
    change (summed csum0 w) with (csum_update w csum0). rewrite summed_next. destruct (Z.eqb_spec (n - zlen w) 0) as [Hend|Hmore].
    + rewrite (slice_none _ (n - _)) by lia. by rewrite app_nil_r.
    + replace (zlen before + zlen w) with (zlen (before ++ w)) by (rewrite length_app; lia).
      rewrite (IH (next s) r _ _ _ (before ++ w) Hr) by lia. rewrite <-app_assoc.
      by replace (offset + zlen w - (start + zlen b)) with (Z.max 0 (offset - start - zlen b)) by lia.
  - rewrite (IH (next s) r _ _ _ before Hr) by lia. rewrite (slice_none (offset - start) n b) by lia. cbn [length app]. rewrite Z.sub_0_r.
    by replace (offset - (start + zlen b)) with (Z.max 0 (offset - start - zlen b)) by lia.
Qed.

(** C23: The checksum of a range of a packet is the sum of the bytes of that range at once,
    whatever the parts are that hold them, for every pair of operations for which summing
    in parts is summing at once; the packet is not changed. *)
Theorem skb_checksum_flat fuel h x bs offset n c : contents fuel h x = Some bs → zlen bs < 2 ^ 31 → 0 ≤ n → 0 ≤ offset → offset + n ≤ zlen bs →
  __skb_checksum fuel x offset n c h = Some (csum_update (slice offset n bs) c, h).
Proof.
  revert x bs offset n c. induction fuel as [|fuel IH]; intros x bs offset n c Hc Hb Hn Ho Hfit; [done|].
  apply contents_parts in Hc as (s & b & l & Fs & L & P). destruct P as [Hs Hbuf Hl HF HC Hbs Hlen Hhl].
  cbn [__skb_checksum]. rewrite (st_bind_step _ _ _ _ _ (load_ok x h s Hs)), Hhl. rewrite Hhl in Hl.
  set (copy := if 0 <? zlen l - offset then Z.min (zlen l - offset) n else 0).
  pose proof (slice_len offset n l Ho Hn) as Sl. set (w := slice offset n l) in *. assert (copy = zlen w) as Ec by (unfold copy; destruct (Z.ltb_spec 0 (zlen l - offset)); lia).
  assert ((if 0 <? zlen l - offset then p ← skb_copy_from_linear_data_offset x offset copy; mret (csum_update p c) else mret c) h = Some (summed c w, h)) as Elin.
  { destruct (Z.ltb_spec 0 (zlen l - offset)) as [Hin|Hout].
    - unfold skb_copy_from_linear_data_offset, read_head. rewrite !st_bind_assoc, (st_bind_step _ _ _ _ _ (load_ok x h s Hs)), !st_bind_assoc.
      rewrite (st_bind_step _ _ _ _ _ (load_ok x h s Hs)), !st_bind_assoc, (st_bind_step _ _ _ _ _ (load_buf_ok _ h b Hbuf)).
      rewrite (lift_step _ _ _ _ (bytes_at_slice _ _ _ _ offset copy Hl ltac:(lia) ltac:(lia) ltac:(lia))). unfold w. by rewrite (slice_min offset n copy) by (unfold copy; lia).
    - unfold w, summed. rewrite slice_none by lia. by rewrite csum_update_nil. }
  rewrite (st_bind_step _ _ _ _ _ Elin), Ec, Hbs, (slice_app offset n l) by lia. fold w.
  destruct ((0 <? zlen l - offset) && (n - zlen w =? 0)) eqn:Edone.
  { to_prop. rewrite (slice_none _ (n - _)) by lia. by rewrite app_nil_r. }
  assert (zlen l ≤ offset + zlen w) as Hoff. { destruct (Z.ltb_spec 0 (zlen l - offset)); [|lia]. cbn in Edone. to_prop. lia. }
  rewrite (st_bind_step _ _ _ _ _ (skb_shinfo_ok x h s b Hs Hbuf)). destruct (sum_frags_ok h c _ Fs HF (zlen l) (offset + zlen w) (n - zlen w) w ltac:(lia) Hoff) as (r & Er & Hr).
  rewrite (st_bind_step _ _ _ _ _ Er). cbv zeta in Hr. replace (offset + zlen w - zlen l) with (Z.max 0 (offset - zlen l)) in Hr by lia.
  set (F := concat Fs) in *. rewrite (slice_app _ (n - zlen w) F) by lia. destruct r as [c'|[[[[st o] n'] pos] c']].
  - destruct Hr as [-> Hr]. rewrite (slice_none _ (n - zlen w - _)) by lia. by rewrite app_nil_r.
  - destruct Hr as (-> & -> & -> & -> & -> & Hr). pose proof (slice_len (Z.max 0 (offset - zlen l)) (n - zlen w) F ltac:(lia) ltac:(lia)) as Sf.
    rewrite Hbs, !length_app in Hfit, Hb. fold F in Hfit, Hb.
    rewrite (sum_list_ok h c (contents fuel h) (__skb_checksum fuel) (zlen L)) with (L := L); [|..|done|lia|lia|done|lia].
    + rewrite <-app_assoc. set (v := slice _ _ F) in *. by replace (offset + zlen w + zlen v - (zlen l + zlen F)) with (Z.max 0 (Z.max 0 (offset - zlen l) - zlen F)) by lia.
    + intros y s' e Hy Hc' Hsub. split; [by rewrite (contents_len _ _ _ _ _ Hc' Hy)|]. intros o m c0 Ho' Hm Hom. by apply IH; [|lia..].
Qed.

End checksum.

(** ** The columns of the Internet checksum *)

(** The sums of the bytes at even and at odd places, whose sixteen-bit sum with end-around
    carry is the Internet checksum. *)
Fixpoint columns (bs : list Z) (c : Z * Z) : Z * Z :=
  match bs with
  | [] => c
  | b :: bs => let '(o, e) := columns bs (c.2, c.1) in (b + e, o)
  end.

Definition columns_combine (c c2 : Z * Z) (pos n : Z) : Z * Z :=
  if Z.even pos then (c.1 + c2.1, c.2 + c2.2) else (c.1 + c2.2, c.2 + c2.1).

#[export] Instance columns_ops : ChecksumOps (Z * Z) := { csum0 := (0, 0); csum_update := columns; csum_combine := columns_combine }.

Lemma columns_app a b c : columns_combine (columns a c) (columns b (0, 0)) (zlen a) (zlen b) = columns (a ++ b) c.
Proof.
  revert c. induction a as [|y a IH]; intros c; cbn [columns app].
  - clear. revert c. unfold columns_combine. cbn. induction b as [|y b IH]; intros c; cbn; [destruct c; cbn; f_equal; lia|].
    rewrite <-(IH (c.2, c.1)). destruct (columns b (0, 0)) as [e o]. destruct c. cbn. f_equal; lia.
  - rewrite <-(IH (c.2, c.1)). unfold columns_combine. cbn [length]. rewrite Nat2Z.inj_succ, Z.even_succ, <-Z.negb_even.
    destruct (columns a _) as [e o], (columns b _) as [e' o'], (Z.even (zlen a)); cbn; f_equal; lia.
Qed.

#[export] Instance columns_laws : ChecksumLaws (Z * Z).
Proof. split; [done|]. intros. apply columns_app. Qed.

(** ** A packet with every kind of part *)

(** Three bytes in the buffer, three of a page, and a list of two packets, the second of
    which has a page of its own. *)
Definition nested_skb (h l dl d nx : Z) : sk_buff := set_next nx (set_len l (set_data_len dl (set_head h (set_data d packet0)))).
Definition nested : heap :=
  Heap (<[1 := nested_skb 7 12 9 2 0]> (<[2 := nested_skb 8 2 0 0 3]> (<[3 := nested_skb 9 4 2 1 0]> ∅)))
       (<[7 := Buffer [90; 91; 1; 2; 3; 0] (Shinfo [SkbFrag 20 1 3] 2 1 0 0)]>
         (<[8 := Buffer [7; 8] info0]> (<[9 := Buffer [0; 9; 10] (Shinfo [SkbFrag 21 0 2] 0 1 0 0)]> ∅)))
       (<[20 := [0; 4; 5; 6]]> (<[21 := [11; 12]]> ∅)) (λ _, 1) [].

Example nested_contents : contents 3 nested 1 = Some [1; 2; 3; 4; 5; 6; 7; 8; 9; 10; 11; 12].
Proof. reflexivity. Qed.

(** Over the borders of all parts, from the headroom, and beyond the end. *)
Lemma skb_copy_bits_slices_witness :
  skb_copy_bits 3 1 2 9 nested = Some ((0, [3; 4; 5; 6; 7; 8; 9; 10; 11]), nested) ∧
  skb_copy_bits 3 1 (-1) 3 nested = Some ((0, [91; 1; 2]), nested) ∧
  skb_copy_bits 3 1 5 8 nested = Some ((- EFAULT, []), nested).
Proof.
  split_and!; (etransitivity; [apply (skb_copy_bits_slices 3 nested 1 _ _ _ nested_contents); vm_compute; congruence|reflexivity]).
Defined.

Lemma skb_checksum_flat_witness : __skb_checksum 3 1 1 10 (100, 0) nested = Some ((130, 35), nested).
Proof. etransitivity; [apply (skb_checksum_flat 3 nested 1 _ _ _ (100, 0) nested_contents); vm_compute; congruence|reflexivity]. Defined.

End SkbRead.
