(* ===== verification/SkbShare.v ===== *)
(** * Sharing the data of packets

    include/linux/skbuff.h and net/core/skbuff.c: clones, which share a buffer and
    its pages, and the operations that change a packet that may be one.  An
    operation that would change shared memory moves the packet to a buffer of its own
    first (pskb_expand_head).

    Fuel bounds the nesting and the length of the lists of packets.  Memory comes from
    the answers in [budget]; new memory reads as zero. *)

From Stdlib Require Import ZArith Lia.
From stdpp Require Import base numbers list gmap.
From S2P Require Import Prelude SkbData SkbRead.

Module SkbShare.
Import SkbData SkbRead.

Definition KMALLOC_MAX_SIZE : Z := 4194304.
Definition NET_SKB_PAD : Z := 64.
Definition SKB_GSO_DODGY : Z := 2.

(** ** Memory *)

Definition answer : hst (option Z) :=
  h ← get;
  match budget h with
  | [] => mret None
  | a :: l => put (set_budget l h) ;; mret a
  end.

(** The size of the new memory, as ksize gives it. *)
Definition kmalloc_reserve (n : Z) : hst (option Z) :=
  a ← answer;
  mret (extra ← a; if (0 <=? extra) && (0 <=? n) && (n + extra <=? KMALLOC_MAX_SIZE) then Some (n + extra) else None).

(** An address that is not in use. *)
Definition new_key {A} (m : gmap Z A) : Z := 1 + map_fold (λ k _ a, Z.max k a) 0 m.

(** ** Clones *)

(** The lower half of dataref counts the packets, the upper one those that leave the
    header to the others. *)
Definition refs (sh : skb_shared_info) : Z := Z.land (dataref sh) SKB_DATAREF_MASK.
Definition payload_refs (sh : skb_shared_info) : Z := Z.shiftr (dataref sh) SKB_DATAREF_SHIFT.

Definition skb_shared (s : sk_buff) : bool := negb (users s =? 1).

Definition skb_cloned (x : Z) : hst bool :=
  s ← load x;
  sh ← skb_shinfo x;
  mret (cloned s && negb (refs sh =? 1)).

Definition skb_header_cloned (x : Z) : hst bool :=
  s ← load x;
  sh ← skb_shinfo x;
  mret (cloned s && negb (refs sh - payload_refs sh =? 1)).

Definition skb_clone_writable (x n : Z) : hst bool :=
  c ← skb_header_cloned x;
  s ← load x;
  mret (negb c && (u32 (skb_headroom s + n) <=? hdr_len s)).

Definition __skb_header_release (x : Z) : hst unit :=
  update x (set_nohdr true) ;;
  update_info x (set_dataref (1 + Z.shiftl 1 SKB_DATAREF_SHIFT)).

(** The structure of a clone. *)
Definition clone_of (s : sk_buff) : sk_buff :=
  set_owned false (set_users 1 (set_nohdr false (set_cloned true
    (set_hdr_len (u16 (if nohdr s then skb_headroom s else hdr_len s)) (set_next NULL s))))).

Definition __skb_clone (n x : Z) : hst unit :=
  s ← load x;
  store n (clone_of s) ;;
  update_info x (λ sh, set_dataref (s32 (dataref sh + 1)) sh) ;;
  update x (set_cloned true).

(** The clone comes from the cache, or is the companion of [x]; NULL without memory. *)
Definition skb_clone (x : Z) : hst Z :=
  a ← answer;
  match a with
  | None => mret NULL
  | Some _ =>
      h ← get;
      let n := new_key (skbs h) in
      __skb_clone n x ;;
      mret n
  end.

(** ** Releasing *)

Definition skb_free_head (x : Z) : hst unit :=
  s ← load x;
  load_buf (head s) ;;
  modify (λ h, set_bufs (delete (head s) (bufs h)) h).

Fixpoint unref_frags (fs : list skb_frag_t) : hst unit :=
  match fs with
  | [] => mret tt
  | f :: fs => __skb_frag_unref f ;; unref_frags fs
  end.

Fixpoint ref_frags (fs : list skb_frag_t) : hst unit :=
  match fs with
  | [] => mret tt
  | f :: fs => __skb_frag_ref f ;; ref_frags fs
  end.

Definition skb_release_data (free_list : Z → hst unit) (x : Z) : hst unit :=
  s ← load x;
  sh ← skb_shinfo x;
  let d := s32 (dataref sh - (if nohdr s then Z.shiftl 1 SKB_DATAREF_SHIFT + 1 else 1)) in
  (if cloned s then update_info x (set_dataref d) else mret tt) ;;
  if cloned s && negb (d =? 0) then mret tt
  else
    unref_frags (frags sh) ;;
    (if frag_list sh =? NULL then mret tt else free_list (frag_list sh)) ;;
    skb_free_head x.

Definition skb_unref (x : Z) : hst bool :=
  s ← load x;
  if users s =? 1 then mret true
  else update x (set_users (users s - 1)) ;; mret (users s - 1 =? 0).

Fixpoint kfree_list (one : Z → hst unit) (k : nat) (segs : Z) : hst unit :=
  if segs =? NULL then mret tt
  else
    match k with
    | O => fault
    | S k =>
        s ← load segs;
        one segs ;;
        kfree_list one k (next s)
    end.

Definition kfree_skbmem (x : Z) : hst unit := modify (λ h, set_skbs (delete x (skbs h)) h).

Fixpoint kfree_skb (fuel : nat) (x : Z) : hst unit :=
  if x =? NULL then mret tt
  else
    match fuel with
    | O => fault
    | S fuel =>
        last ← skb_unref x;
        if last : bool then
          skb_release_data (kfree_list (kfree_skb fuel) fuel) x ;;
          kfree_skbmem x
        else mret tt
    end.

Definition consume_skb := kfree_skb.
Definition kfree_skb_list (fuel : nat) (segs : Z) : hst unit := kfree_list (kfree_skb fuel) fuel segs.

(** ** A buffer of its own *)

Definition skb_get (x : Z) : hst unit := update x (λ s, set_users (users s + 1) s).

Fixpoint clone_list (k : nat) (x : Z) : hst unit :=
  if x =? NULL then mret tt
  else
    match k with
    | O => fault
    | S k => skb_get x ;; s ← load x; clone_list k (next s)
    end.

Definition skb_clone_fraglist (fuel : nat) (x : Z) : hst unit := sh ← skb_shinfo x; clone_list fuel (frag_list sh).

(** The pointers after the move to a buffer [a] with the end at [size], and the fields
    that are reset. *)
Definition moved_pointers (a size nhead : Z) (s : sk_buff) : sk_buff :=
  set_tail (u32 (tail s + nhead)) (skb_set_end_offset size (set_data (data s + nhead) (set_head a s))).

Definition moved_reset (osize size : Z) (s : sk_buff) : sk_buff :=
  let s := set_nohdr false (set_hdr_len 0 (set_cloned false s)) in
  if owned s then s else set_truesize (u32 (truesize s + (size - osize))) s.

Definition moved_head (a size nhead : Z) (s : sk_buff) : sk_buff :=
  moved_reset (skb_end_offset s) size (skb_headers_offset_update nhead (moved_pointers a size nhead s)).

Definition pskb_expand_head (fuel : nat) (x nhead ntail : Z) : hst Z :=
  s ← load x;
  if (nhead <? 0) || skb_shared s then fault
  else
    b ← load_buf (head s);
    let size := s32 (SKB_DATA_ALIGN (s32 (skb_end_offset s + nhead + ntail))) in
    m ← kmalloc_reserve (u64 (size + SIZEOF_SHINFO));
    match m with
    | None => mret (- ENOMEM)
    | Some ksize =>
        let size := s32 (SKB_WITH_OVERHEAD ksize) in
        old ← lift (bytes_at (b_bytes b) 0 (skb_tail_pointer s));
        new ← lift (put_at (replicate (Z.to_nat size) 0) nhead old);
        h ← get;
        let a := new_key (bufs h) in
        store_buf a (Buffer new (set_dataref 1 (b_info b))) ;;
        c ← skb_cloned x;
        (if c : bool then
           ref_frags (frags (b_info b)) ;;
           (if frag_list (b_info b) =? NULL then mret tt else skb_clone_fraglist fuel x) ;;
           skb_release_data (kfree_skb_list fuel) x
         else skb_free_head x) ;;
        update x (moved_head a size nhead) ;;
        mret 0
    end.

Definition skb_unclone (fuel : nat) (x : Z) : hst Z :=
  c ← skb_cloned x;
  if c : bool then pskb_expand_head fuel x 0 0 else mret 0.

Definition skb_header_unclone (fuel : nat) (x : Z) : hst Z :=
  c ← skb_header_cloned x;
  if c : bool then pskb_expand_head fuel x 0 0 else mret 0.

Definition ALIGN (n a : Z) : Z := (n + (a - 1)) / a * a.

Definition __skb_cow (fuel : nat) (x headroom : Z) (cloned : bool) : hst Z :=
  s ← load x;
  let delta := if skb_headroom s <? headroom then s32 (headroom - skb_headroom s) else 0 in
  if negb (delta =? 0) || cloned then pskb_expand_head fuel x (s32 (ALIGN delta NET_SKB_PAD)) 0
  else mret 0.

Definition skb_cow (fuel : nat) (x headroom : Z) : hst Z := c ← skb_cloned x; __skb_cow fuel x headroom c.
Definition skb_cow_head (fuel : nat) (x headroom : Z) : hst Z := c ← skb_header_cloned x; __skb_cow fuel x headroom c.

(** ** Moving data from the pages to the linear part *)

(** The fragments that are left when [eat] bytes go; [first]: the entry is the first one. *)
Fixpoint pull_pages (first : bool) (fs : list skb_frag_t) (eat : Z) : hst (list skb_frag_t) :=
  match fs with
  | [] => mret []
  | f :: fs =>
      if skb_frag_size f <=? eat then
        __skb_frag_unref f ;;
        pull_pages false fs (eat - skb_frag_size f)
      else if eat =? 0 then
        r ← pull_pages false fs 0;
        mret (f :: r)
      else
        let f := skb_frag_size_sub (skb_frag_off_add f eat) eat in
        if first then mret (f :: fs)
        else
          r ← pull_pages false fs 0;
          mret (f :: r)
  end.

(** What the pages do not have of [eat] bytes; [None] if they are enough. *)
Fixpoint beyond_pages (fs : list skb_frag_t) (eat : Z) : option Z :=
  match fs with
  | [] => Some eat
  | f :: fs => if eat <=? skb_frag_size f then None else beyond_pages fs (eat - skb_frag_size f)
  end.

(** [inl clone insp], or [inr tt] without memory. *)
Fixpoint eat_list (fuel : nat) (pull : Z → Z → hst (option Z)) (k : nat) (x list_ eat : Z) : hst (Z * Z + unit) :=
  match k with
  | O => fault
  | S k =>
      s ← load list_;
      if len s <=? eat then
        let eat := eat - len s in
        if eat =? 0 then mret (inl (NULL, next s)) else eat_list fuel pull k x (next s) eat
      else
        sh ← skb_shinfo x;
        (if negb (gso_size sh =? 0) && negb (skb_headlen s =? 0) then
           update_info x (λ sh, Shinfo (frags sh) (frag_list sh) (dataref sh) (gso_size sh) (Z.lor (gso_type sh) SKB_GSO_DODGY))
         else mret tt) ;;
        clone ← (if skb_shared s then skb_clone list_ else mret NULL);
        if skb_shared s && (clone =? NULL) then mret (inr tt)
        else
          p ← pull (if skb_shared s then clone else list_) eat;
          match p with
          | None => kfree_skb fuel clone ;; mret (inr tt)
          | Some _ => mret (inl (clone, if skb_shared s then next s else list_))
          end
  end.

(** Frees the list up to [insp]. *)
Fixpoint drop_until (fuel k : nat) (x insp : Z) : hst unit :=
  sh ← skb_shinfo x;
  if frag_list sh =? insp then mret tt
  else
    match k with
    | O => fault
    | S k =>
        s ← load (frag_list sh);
        update_info x (set_frag_list (next s)) ;;
        consume_skb fuel (frag_list sh) ;;
        drop_until fuel k x insp
    end.

(** The list loses what the pages do not have; [false] without memory. *)
Definition pull_list (fuel : nat) (pull : Z → Z → hst (option Z)) (x eat : Z) : hst bool :=
  sh ← skb_shinfo x;
  r ← eat_list fuel pull fuel x (frag_list sh) eat;
  match r with
  | inr _ => mret false
  | inl (clone, insp) =>
      drop_until fuel fuel x insp ;;
      (if clone =? NULL then mret tt else update clone (set_next insp) ;; update_info x (set_frag_list clone)) ;;
      mret true
  end.

(** __pskb_pull and pskb_pull, given __pskb_pull_tail: NULL without memory, or if the packet
    is shorter. *)
Definition pull_front (n : Z) (s : sk_buff) : sk_buff := set_data (data s + n) (set_len (u32 (len s - n)) s).

Definition __pskb_pull_with (pull_tail : Z → Z → hst (option Z)) (x n : Z) : hst (option Z) :=
  s ← load x;
  p ← (if skb_headlen s <? n then pull_tail x (n - skb_headlen s) else mret (Some NULL));
  match p with
  | None => mret None
  | Some _ => update x (pull_front n) ;; s ← load x; mret (Some (data s))
  end.

Definition pskb_pull_with (pull_tail : Z → Z → hst (option Z)) (x n : Z) : hst (option Z) :=
  s ← load x;
  if len s <? n then mret None else __pskb_pull_with pull_tail x n.

(** __pskb_pull_tail, once the packet has a buffer of its own with the room; [pull]: pskb_pull
    of a packet of the list. *)
Definition pull_tail_own (fuel : nat) (pull : Z → Z → hst (option Z)) (x delta : Z) : hst (option Z) :=
  s ← load x;
  r ← skb_copy_bits (S fuel) x (skb_headlen s) delta;
  if negb (r.1 =? 0) then fault
  else
    write_head x (skb_tail_pointer s) r.2 ;;
    sh ← skb_shinfo x;
    ok ← (if frag_list sh =? NULL then mret true
          else
            match beyond_pages (frags sh) delta with
            | Some eat => if eat =? 0 then mret true else pull_list fuel pull x eat
            | None => mret true
            end);
    if negb ok then mret None
    else
      sh ← skb_shinfo x;
      fs ← pull_pages true (frags sh) delta;
      update_info x (set_frags fs) ;;
      update x (λ s, set_data_len (u32 (data_len s - delta)) (set_tail (u32 (tail s + delta)) s)) ;;
      s ← load x;
      mret (Some (skb_tail_pointer s)).

Fixpoint __pskb_pull_tail (fuel : nat) (x delta : Z) : hst (option Z) :=
  match fuel with
  | O => fault
  | S fuel =>
      s ← load x;
      let eat := s32 (u32 (tail s + delta) - end_ s) in
      c ← skb_cloned x;
      err ← (if (0 <? eat) || c then pskb_expand_head fuel x 0 (if 0 <? eat then eat + 128 else 0) else mret 0);
      if negb (err =? 0) then mret None
      else pull_tail_own fuel (pskb_pull_with (__pskb_pull_tail fuel)) x delta
  end.

Definition __pskb_pull (fuel : nat) := __pskb_pull_with (__pskb_pull_tail fuel).
Definition pskb_pull (fuel : nat) := pskb_pull_with (__pskb_pull_tail fuel).

Definition pskb_may_pull (fuel : nat) (x n : Z) : hst bool :=
  s ← load x;
  if n <=? skb_headlen s then mret true
  else if len s <? n then mret false
  else r ← __pskb_pull_tail fuel x (n - skb_headlen s); mret (if r is Some _ then true else false).

Definition __skb_linearize (fuel : nat) (x : Z) : hst Z :=
  s ← load x;
  r ← __pskb_pull_tail fuel x (data_len s);
  mret (if r is Some _ then 0 else - ENOMEM).

Definition skb_linearize (fuel : nat) (x : Z) : hst Z :=
  s ← load x;
  if skb_is_nonlinear s then __skb_linearize fuel x else mret 0.

Definition skb_linearize_cow (fuel : nat) (x : Z) : hst Z :=
  s ← load x;
  c ← skb_cloned x;
  if skb_is_nonlinear s || c then __skb_linearize fuel x else mret 0.

(** ** Making a packet shorter *)

Definition skb_condense (fuel : nat) (x : Z) : hst unit :=
  s ← load x;
  c ← skb_cloned x;
  if skb_is_nonlinear s && ((u32 (end_ s - tail s) <? data_len s) || c) then mret tt
  else
    (if skb_is_nonlinear s then __pskb_pull_tail fuel x (data_len s) ;; mret tt else mret tt) ;;
    update x (λ s, set_truesize (SKB_TRUESIZE (skb_end_offset s)) s).

(** The fragments that stay and those that go, or where the pages end. *)
Fixpoint trim_frags (fs : list skb_frag_t) (offset len_ : Z) : (list skb_frag_t * list skb_frag_t) + Z :=
  match fs with
  | [] => inr offset
  | f :: fs =>
      let end_ := offset + skb_frag_size f in
      if u32 end_ <? len_ then
        match trim_frags fs end_ len_ with
        | inl (keep, drop) => inl (f :: keep, drop)
        | inr o => inr o
        end
      else inl ([skb_frag_size_set f (len_ - offset)], fs)
  end.

(** Where a packet of a list hangs. *)
Inductive link := LHead (x : Z) | LNext (y : Z).

Definition read_link (l : link) : hst Z :=
  match l with LHead x => sh ← skb_shinfo x; mret (frag_list sh) | LNext y => s ← load y; mret (next s) end.

Definition write_link (l : link) (v : Z) : hst unit :=
  match l with LHead x => update_info x (set_frag_list v) | LNext y => update y (set_next v) end.

Definition skb_drop_list (fuel : nat) (l : link) : hst unit :=
  v ← read_link l;
  kfree_skb_list fuel v ;;
  write_link l NULL.

Definition drop_pages (fuel : nat) (x : Z) (keep drop : list skb_frag_t) : hst unit :=
  update_info x (set_frags keep) ;;
  unref_frags drop ;;
  has ← skb_has_frag_list x;
  if has : bool then skb_drop_list fuel (LHead x) else mret tt.

(** A packet of the list that others hold too is replaced by a clone; NULL without memory. *)
Definition unshare_link (fuel : nat) (l : link) (frag : Z) : hst Z :=
  s ← load frag;
  if skb_shared s then
    n ← skb_clone frag;
    if n =? NULL then mret NULL
    else
      update n (set_next (next s)) ;;
      consume_skb fuel frag ;;
      write_link l n ;;
      mret n
  else mret frag.

Fixpoint trim_list (fuel : nat) (trim : Z → Z → hst Z) (k : nat) (l : link) (offset len_ : Z) : hst Z :=
  match k with
  | O => fault
  | S k =>
      frag ← read_link l;
      if frag =? NULL then mret 0
      else
        s ← load frag;
        let end_ := offset + len s in
        frag ← unshare_link fuel l frag;
        if frag =? NULL then mret (- ENOMEM)
        else if u32 end_ <? len_ then trim_list fuel trim k (LNext frag) end_ len_
        else
          err ← (if len_ <? u32 end_ then trim frag (len_ - offset) else mret 0);
          if negb (err =? 0) then mret err
          else
            s ← load frag;
            (if next s =? NULL then mret tt else skb_drop_list fuel (LNext frag)) ;;
            mret 0
  end.

(** The counters of the shorter packet. *)
Definition trim_done (fuel : nat) (x len_ : Z) : hst Z :=
  update x (λ s,
    if skb_headlen s <? len_ then set_len len_ (set_data_len (u32 (data_len s - u32 (len s - len_))) s)
    else skb_set_tail_pointer len_ (set_data_len 0 (set_len len_ s))) ;;
  s ← load x;
  (if owned s then mret tt else skb_condense fuel x) ;;
  mret 0.

Definition pskb_trim_with (trim : Z → Z → hst Z) (x len_ : Z) : hst Z :=
  s ← load x;
  if len_ <? len s then
    if skb_is_nonlinear s then trim x len_ else update x (__skb_trim len_) ;; mret 0
  else mret 0.

Fixpoint ___pskb_trim (fuel : nat) (x len_ : Z) : hst Z :=
  match fuel with
  | O => fault
  | S fuel =>
      s ← load x;
      let offset := skb_headlen s in
      c ← skb_cloned x;
      err ← (if c : bool then pskb_expand_head fuel x 0 0 else mret 0);
      if negb (err =? 0) then mret err
      else
        sh ← skb_shinfo x;
        if len_ <=? offset then drop_pages fuel x [] (frags sh) ;; trim_done (S fuel) x len_
        else
          match trim_frags (frags sh) offset len_ with
          | inl (keep, drop) => drop_pages fuel x keep drop ;; trim_done (S fuel) x len_
          | inr offset =>
              err ← trim_list fuel (pskb_trim_with (___pskb_trim fuel)) fuel (LHead x) offset len_;
              if negb (err =? 0) then mret err else trim_done (S fuel) x len_
          end
  end.

Definition pskb_trim (fuel : nat) := pskb_trim_with (___pskb_trim fuel).

(** ** Writing *)

Definition skb_ensure_writable (fuel : nat) (x write_len : Z) : hst Z :=
  ok ← pskb_may_pull fuel x write_len;
  if negb ok then mret (- ENOMEM)
  else
    c ← skb_cloned x;
    w ← skb_clone_writable x write_len;
    if negb c || w then mret 0 else pskb_expand_head fuel x 0 0.

Definition skb_try_make_writable (fuel : nat) (x write_len : Z) : hst bool :=
  c ← skb_cloned x;
  w ← skb_clone_writable x write_len;
  if c && negb w then err ← pskb_expand_head fuel x 0 0; mret (negb (err =? 0)) else mret false.
End SkbShare.
