(* ===== verification/SkbInv.v ===== *)
(** * The invariant of packets that share memory

    References are counted exactly: dataref of a buffer counts the packets that have
    it, the count of a page its fragments in all buffers; a packet that is not marked
    as a clone is alone with its buffer.  The lemmas say how the steps that change
    memory keep the invariant and the contents of the other packets. *)

From Stdlib Require Import ZArith Lia.
From stdpp Require Import base numbers list gmap.
From S2P Require Import Prelude SkbData SkbRead SkbShare.

Module SkbInv.
Import SkbData SkbRead SkbShare.

(** ** Sums over maps *)

Definition msum {A} (f : A → Z) (m : gmap Z A) : Z := map_fold (λ _ v n, f v + n) 0 m.

Section msum.
Context {A : Type}.
Implicit Types (f g : A → Z) (m : gmap Z A).

Lemma msum_empty f : msum f ∅ = 0.
Proof. apply map_fold_empty. Qed.

Lemma msum_new f m k v : m !! k = None → msum f (<[k := v]> m) = f v + msum f m.
Proof. intros H. unfold msum. rewrite map_fold_insert_L; [done| |done]. intros. lia. Qed.

Lemma msum_delete f m k v : m !! k = Some v → msum f m = f v + msum f (delete k m).
Proof. intros H. unfold msum. rewrite (map_fold_delete_L _ _ k v); [done| |done]. intros. lia. Qed.

Lemma msum_update f m k v w : m !! k = Some v → msum f (<[k := w]> m) = msum f m - f v + f w.
Proof.
  intros H. rewrite (msum_delete f m k v H), <-insert_delete_eq, msum_new by apply lookup_delete_eq. lia.
Qed.

Lemma msum_nonneg f m : (∀ v, 0 ≤ f v) → 0 ≤ msum f m.
Proof.
  intros Hf. induction m as [|k v m Hk IH] using map_ind; [by rewrite msum_empty|]. rewrite msum_new by done. pose proof (Hf v). lia.
Qed.

Lemma msum_le f g m : (∀ v, f v ≤ g v) → msum f m ≤ msum g m.
Proof.
  intros Hf. induction m as [|k v m Hk IH] using map_ind; [by rewrite !msum_empty|]. rewrite !msum_new by done. pose proof (Hf v). lia.
Qed.

Lemma msum_one f m k v : (∀ v, 0 ≤ f v) → m !! k = Some v → f v ≤ msum f m.
Proof. intros Hf H. rewrite (msum_delete f m k v H). pose proof (msum_nonneg f (delete k m) Hf). lia. Qed.

Lemma msum_two f m k l v w : (∀ v, 0 ≤ f v) → k ≠ l → m !! k = Some v → m !! l = Some w → f v + f w ≤ msum f m.
Proof.
  intros Hf Hkl Hk Hl. rewrite (msum_delete f m k v Hk). rewrite <-(lookup_delete_ne m k l) in Hl by done.
  pose proof (msum_one f _ _ _ Hf Hl). lia.
Qed.

Lemma msum_0 f m : (∀ k v, m !! k = Some v → f v = 0) → msum f m = 0.
Proof.
  induction m as [|k v m Hk IH] using map_ind; intros H; [by rewrite msum_empty|]. rewrite msum_new by done.
  rewrite (H k v) by apply lookup_insert_eq. rewrite IH; [lia|]. intros l w Hl. apply (H l). rewrite lookup_insert_ne; congruence.
Qed.

(** Some entry counts, if the sum is not 0. *)
Lemma msum_pos f m : 0 < msum f m → ∃ k v, m !! k = Some v ∧ f v ≠ 0.
Proof.
  induction m as [|k v m Hk IH] using map_ind; [by rewrite msum_empty|]. rewrite msum_new by done. intros H.
  destruct (decide (f v = 0)) as [E|E]; [|exists k, v; by rewrite lookup_insert_eq].
  destruct IH as (l & w & Hl & Hw); [lia|]. exists l, w. split; [|done]. rewrite lookup_insert_ne; congruence.
Qed.
End msum.

Lemma new_key_above {A} (m : gmap Z A) k v : m !! k = Some v → k < new_key m.
Proof.
  unfold new_key. revert k v. induction m as [|l w m Hl IH] using map_ind; intros k v; [done|].
  rewrite map_fold_insert_L; [|intros; lia|done]. intros [[-> _]|[_ H]]%lookup_insert_Some; [lia|]. apply IH in H. lia.
Qed.

Lemma new_key_fresh {A} (m : gmap Z A) : m !! new_key m = None.
Proof. destruct (m !! new_key m) eqn:E; [|done]. apply new_key_above in E. lia. Qed.

Lemma new_key_pos {A} (m : gmap Z A) : 0 < new_key m.
Proof.
  unfold new_key. induction m as [|l w m Hl IH] using map_ind; [rewrite map_fold_empty; lia|]. rewrite map_fold_insert_L; [lia|intros; lia|done].
Qed.

Lemma msum_sub {A} (f g : A → Z) m : msum (λ v, f v - g v) m = msum f m - msum g m.
Proof. induction m as [|k v m Hk IH] using map_ind; [by rewrite !msum_empty|]. rewrite !msum_new by done. lia. Qed.

(** ** The invariant of a memory of packets *)

(** A packet that shares buffer [a], and one that leaves the header to the others. *)
Definition own (a : Z) (s : sk_buff) : Z := if head s =? a then 1 else 0.
Definition pay (a : Z) (s : sk_buff) : Z := if (head s =? a) && nohdr s then 1 else 0.

(** How often a buffer refers to page [p]. *)
Fixpoint uses (p : Z) (fs : list skb_frag_t) : Z :=
  match fs with [] => 0 | f :: fs => (if bv_page f =? p then 1 else 0) + uses p fs end.

Definition buf_uses (p : Z) (b : buffer) : Z := uses p (frags (b_info b)).

Fixpoint fsize (fs : list skb_frag_t) : Z := match fs with [] => 0 | f :: fs => bv_len f + fsize fs end.

Definition mapped (pg : gmap Z (list Z)) (f : skb_frag_t) : Prop :=
  ∃ b, pg !! bv_page f = Some b ∧ zlen b < 2 ^ 31 ∧ 0 ≤ bv_offset f ∧ 0 ≤ bv_len f ∧ bv_offset f + bv_len f ≤ zlen b.

Definition page_bytes (pg : gmap Z (list Z)) (f : skb_frag_t) : list Z := slice (bv_offset f) (bv_len f) (default [] (pg !! bv_page f)).

Definition linear_bytes (s : sk_buff) (b : buffer) : list Z := slice (data s) (len s - data_len s) (b_bytes b).

Definition packet_bytes (pg : gmap Z (list Z)) (s : sk_buff) (b : buffer) : list Z :=
  linear_bytes s b ++ concat (map (page_bytes pg) (frags (b_info b))).

Record pkt_ok (s : sk_buff) (b : buffer) : Prop := {
  pk_users : users s = 1;
  pk_data : 0 ≤ data s;
  pk_tail : tail s = data s + (len s - data_len s);
  pk_end : tail s ≤ end_ s;
  pk_size : end_ s = zlen (b_bytes b);
  pk_max : end_ s ≤ KMALLOC_MAX_SIZE;
  pk_paged : data_len s = fsize (frags (b_info b));
  pk_paged_nonneg : 0 ≤ data_len s;
  pk_len : data_len s ≤ len s < 2 ^ 30;
  pk_hdr : 0 ≤ hdr_len s }.

(** [ext] counts the references that others than packets have to a page. *)
Record inv (ext : Z → Z) (h : heap) : Prop := {
  inv_pkt : ∀ x s, skbs h !! x = Some s → ∃ b, bufs h !! head s = Some b ∧ pkt_ok s b;
  inv_key : ∀ x s, skbs h !! x = Some s → x ≠ NULL;
  inv_buf : ∀ a b, bufs h !! a = Some b → frag_list (b_info b) = NULL ∧ Forall (mapped (pages h)) (frags (b_info b));
  inv_ref : ∀ a b, bufs h !! a = Some b →
    dataref (b_info b) = msum (own a) (skbs h) + 65536 * msum (pay a) (skbs h) ∧ 0 < msum (own a) (skbs h) < 2 ^ 15;
  inv_sole : ∀ x y s t, skbs h !! x = Some s → skbs h !! y = Some t → head s = head t → cloned s = false → x = y;
  inv_hdr : ∀ x y s t, skbs h !! x = Some s → skbs h !! y = Some t → head s = head t → x ≠ y → nohdr t = true → hdr_len s ≤ data t;
  inv_one : ∀ x y s t, skbs h !! x = Some s → skbs h !! y = Some t → head s = head t → nohdr s = true → nohdr t = true → x = y;
  inv_fresh : ∀ x s, skbs h !! x = Some s → nohdr s = true ∨ cloned s = false → hdr_len s = 0;
  inv_page : ∀ p, page_refs h p = ext p + msum (buf_uses p) (bufs h) ∧ 0 ≤ ext p }.

(** No other packet has the buffer. *)
Definition alone (h : heap) (x : Z) (s : sk_buff) : Prop := ∀ y t, skbs h !! y = Some t → head t = head s → y = x.

Lemma uses_nonneg p fs : 0 ≤ uses p fs.
Proof. induction fs as [|f fs IH]; cbn; [lia|]. destruct (_ =? _); lia. Qed.

Lemma uses_in f fs : f ∈ fs → 0 < uses (bv_page f) fs.
Proof.
  induction 1 as [f fs|f g fs _ IH]; cbn; [rewrite Z.eqb_refl; pose proof (uses_nonneg (bv_page f) fs); lia|]. destruct (_ =? _); lia.
Qed.

Lemma own_nonneg a s : 0 ≤ own a s.
Proof. unfold own. destruct (_ =? _); lia. Qed.

Lemma pay_nonneg a s : 0 ≤ pay a s.
Proof. unfold pay. destruct (_ && _); lia. Qed.

Lemma pay_own a s : pay a s ≤ own a s.
Proof. unfold pay, own. destruct (_ =? _), (nohdr s); cbn; lia. Qed.

#[export] Hint Resolve own_nonneg pay_nonneg pay_own uses_nonneg : core.

Section frame.
Context (ext : Z → Z).

Lemma refs_pos h a b f : inv ext h → bufs h !! a = Some b → f ∈ frags (b_info b) → 0 < page_refs h (bv_page f).
Proof.
  intros I Hb Hf. destruct (inv_page _ _ I (bv_page f)) as [-> He].
  assert (buf_uses (bv_page f) b ≤ msum (buf_uses (bv_page f)) (bufs h)) by (eapply msum_one; [intros; apply uses_nonneg|done]).
  apply uses_in in Hf. unfold buf_uses in *. lia.
Qed.

Lemma frag_bytes_page h f : mapped (pages h) f → 0 < page_refs h (bv_page f) → frag_bytes h f = Some (page_bytes (pages h) f).
Proof.
  intros (b & Hp & Hb & Ho & Hl & Hf) Hr. unfold frag_bytes, page_bytes, bytes_at, slice. rewrite (proj2 (Z.leb_gt _ _)) by done. rewrite Hp. cbn.
  by rewrite !(proj2 (Z.leb_le _ _)) by lia.
Qed.

Lemma page_bytes_len h f : mapped h f → zlen (page_bytes h f) = bv_len f.
Proof. intros (b & Hp & Hb & Ho & Hl & Hf). unfold page_bytes. rewrite Hp. cbn. rewrite slice_len by done. lia. Qed.

Lemma pages_len pg fs : Forall (mapped pg) fs → zlen (concat (map (page_bytes pg) fs)) = fsize fs.
Proof.
  induction 1 as [|f fs Hf _ IH]; [done|]. cbn [map concat fsize]. rewrite length_app, Nat2Z.inj_add, (page_bytes_len _ _ Hf). lia.
Qed.

Lemma linear_len s b : pkt_ok s b → zlen (linear_bytes s b) = len s - data_len s.
Proof. intros P. destruct P. unfold linear_bytes. rewrite slice_len by lia. lia. Qed.

Lemma headlen_ok s b : pkt_ok s b → skb_headlen s = len s - data_len s.
Proof. intros P. destruct P. unfold skb_headlen. apply wrapU_small. unfold is_u. lia. Qed.

Lemma contents_packet_fuel fuel h x s b : inv ext h → skbs h !! x = Some s → bufs h !! head s = Some b → contents (S fuel) h x = Some (packet_bytes (pages h) s b).
Proof.
  intros I Hs Hb. destruct (inv_pkt _ _ I _ _ Hs) as (b0 & E & P). assert (b0 = b) as -> by congruence. destruct (inv_buf _ _ I _ _ Hb) as [Hfl Hm].
  cbn [contents]. rewrite Hs. cbn. rewrite Hb. cbn. rewrite (headlen_ok s b P), Hfl. cbn.
  assert (bytes_at (b_bytes b) (data s) (len s - data_len s) = Some (linear_bytes s b)) as ->.
  { destruct P. unfold bytes_at, linear_bytes, slice. by rewrite !(proj2 (Z.leb_le _ _)) by lia. }
  cbn. assert (mapM (frag_bytes h) (frags (b_info b)) = Some (map (page_bytes (pages h)) (frags (b_info b)))) as ->.
  { apply mapM_Some, Forall2_fmap_r, Forall_Forall2_diag, Forall_forall. intros f Hf. apply frag_bytes_page; [by apply (proj1 (Forall_forall _ _) Hm)|].
    by apply (refs_pos h (head s) b f). }
  cbn. assert (list_contents (contents fuel h) fuel h NULL = Some []) as -> by by destruct fuel. cbn. rewrite app_nil_r. fold (packet_bytes (pages h) s b). rewrite (proj2 (Z.eqb_eq _ _)); [done|]. unfold packet_bytes.
  rewrite length_app, Nat2Z.inj_add, (linear_len s b P), pages_len by done. destruct P. lia.
Qed.

Lemma contents_packet h x s b : inv ext h → skbs h !! x = Some s → bufs h !! head s = Some b → contents 1 h x = Some (packet_bytes (pages h) s b).
Proof. apply contents_packet_fuel. Qed.

Lemma packet_len h x s b : inv ext h → skbs h !! x = Some s → bufs h !! head s = Some b → zlen (packet_bytes (pages h) s b) = len s.
Proof.
  intros I Hs Hb. destruct (inv_pkt _ _ I _ _ Hs) as (b0 & E & P). assert (b0 = b) as -> by congruence. destruct (inv_buf _ _ I _ _ Hb) as [Hfl Hm].
  unfold packet_bytes. rewrite length_app, Nat2Z.inj_add, (linear_len s b P), pages_len by done. destruct P. lia.
Qed.

(** A packet that keeps its structure, the bytes that it sees and its fragments keeps its contents. *)
Lemma contents_frame h h' y : inv ext h → inv ext h' → skbs h' !! y = skbs h !! y → pages h' = pages h →
  (∀ s b, skbs h !! y = Some s → bufs h !! head s = Some b → ∃ b', bufs h' !! head s = Some b' ∧ frags (b_info b') = frags (b_info b) ∧ linear_bytes s b' = linear_bytes s b) →
  contents 1 h' y = contents 1 h y.
Proof.
  intros I I' Hy Hp Hb. destruct (skbs h !! y) as [s|] eqn:Hs; [|by cbn [contents]; rewrite Hs, Hy].
  destruct (inv_pkt _ _ I _ _ Hs) as (b & Eb & _). destruct (Hb s b eq_refl Eb) as (b' & Eb' & Ef & El).
  rewrite (contents_packet h' y s b' I' Hy Eb'), (contents_packet h y s b I Hs Eb). unfold packet_bytes. by rewrite Hp, Ef, El.
Qed.
End frame.

Section steps.
Context {ext : Z → Z}.

(** ** A packet changes in place *)

(** The other packets do not see the bytes of [x] that differ in [b'], nor other fragments. *)
Definition unseen (h : heap) (x : Z) (s : sk_buff) (b b' : buffer) : Prop :=
  frags (b_info b') = frags (b_info b) ∧ length (b_bytes b') = length (b_bytes b) ∧
  ∀ y t, y ≠ x → skbs h !! y = Some t → head t = head s → linear_bytes t b' = linear_bytes t b.

Lemma unseen_refl h x s b : unseen h x s b b.
Proof. by split_and!. Qed.

Record same_share (s s' : sk_buff) : Prop := {
  ss_head : head s' = head s;
  ss_cloned : cloned s' = cloned s;
  ss_nohdr : nohdr s' = nohdr s;
  ss_hdr : hdr_len s' = hdr_len s }.

Definition put_packet (x : Z) (s' : sk_buff) (b' : buffer) (rf : Z → Z) (bud : list (option Z)) (h : heap) : heap :=
  Heap (<[x := s']> (skbs h)) (<[head s' := b']> (bufs h)) (pages h) rf bud.

Lemma pkt_ok_frame t b b' : pkt_ok t b → frags (b_info b') = frags (b_info b) → length (b_bytes b') = length (b_bytes b) → pkt_ok t b'.
Proof. intros [] Hf Hl. split; try done; congruence. Qed.

Lemma own_same s s' a : head s' = head s → own a s' = own a s.
Proof. unfold own. by intros ->. Qed.

Lemma pay_same s s' a : head s' = head s → nohdr s' = nohdr s → pay a s' = pay a s.
Proof. unfold pay. by intros -> ->. Qed.

Lemma inv_update h x s b s' b' rf bud : inv ext h → skbs h !! x = Some s → bufs h !! head s = Some b →
  same_share s s' → dataref (b_info b') = dataref (b_info b) → frag_list (b_info b') = NULL → Forall (mapped (pages h)) (frags (b_info b')) → pkt_ok s' b' →
  (∀ p, rf p = page_refs h p - buf_uses p b + buf_uses p b') →
  alone h x s ∨ unseen h x s b b' ∧ data s ≤ data s' →
  inv ext (put_packet x s' b' rf bud h).
Proof.
  intros I Hs Hb [Eh Ec En El] Er Hfl Hm P Hrf Hvis. assert (x ≠ NULL) as Hx by by apply (inv_key _ _ I x s).
  assert (Halone : ∀ y t, y ≠ x → skbs h !! y = Some t → head t = head s → unseen h x s b b' ∧ data s ≤ data s').
  { intros y t Hy Ht Hh. destruct Hvis as [Ha|Hu]; [|done]. by destruct (Hy (Ha _ _ Ht Hh)). }
  split; unfold put_packet; cbn; rewrite ?Eh.
  - intros y t [[<- <-]|[Hy Ht]]%lookup_insert_Some; [exists b'; by rewrite Eh, lookup_insert_eq|].
    destruct (inv_pkt _ _ I y t Ht) as (bt & Ebt & Pt). destruct (decide (head t = head s)) as [Hh|Hh]; [|exists bt; by rewrite lookup_insert_ne].
    exists b'. rewrite Hh, lookup_insert_eq. split; [done|]. rewrite Hh, Hb in Ebt. injection Ebt as <-.
    destruct (Halone y t ltac:(done) Ht Hh) as [(Hf & Hl & _) _]. by apply (pkt_ok_frame t b).
  - intros y t [[<- <-]|[Hy Ht]]%lookup_insert_Some; [done|]. by apply (inv_key _ _ I y t).
  - intros a c [[<- <-]|[Ha Hc]]%lookup_insert_Some; [done|]. by apply (inv_buf _ _ I a).
  - intros a c Hc. rewrite (msum_update (own a) _ _ _ _ Hs), (msum_update (pay a) _ _ _ _ Hs), (own_same s s' a Eh), (pay_same s s' a Eh En).
    assert (∃ c0, bufs h !! a = Some c0 ∧ dataref (b_info c) = dataref (b_info c0)) as (c0 & Hc0 & Ec0).
    { apply lookup_insert_Some in Hc as [[<- <-]|[Ha Hc]]; eauto. }
    destruct (inv_ref _ _ I a c0 Hc0). lia.
  - intros y z t u [[<- <-]|[Hy Ht]]%lookup_insert_Some [[<- <-]|[Hz Hu]]%lookup_insert_Some; intros Hh Hc; [done|..].
    + apply (inv_sole _ _ I x z s u); congruence.
    + apply (inv_sole _ _ I y x t s); congruence.
    + by apply (inv_sole _ _ I y z t u).
  - intros y z t u [[<- <-]|[Hy Ht]]%lookup_insert_Some [[<- <-]|[Hz Hu]]%lookup_insert_Some; intros Hh Hyz Hn; [done|..].
    + rewrite El. apply (inv_hdr _ _ I x z s u); congruence.
    + pose proof (inv_hdr _ _ I y x t s Ht Hs ltac:(congruence) ltac:(done) ltac:(congruence)). destruct (Halone y t ltac:(done) Ht ltac:(congruence)). lia.
    + by apply (inv_hdr _ _ I y z t u).
  - intros y z t u [[<- <-]|[Hy Ht]]%lookup_insert_Some [[<- <-]|[Hz Hu]]%lookup_insert_Some; intros Hh Hnt Hnu; [done|..].
    + apply (inv_one _ _ I x z s u); congruence.
    + apply (inv_one _ _ I y x t s); congruence.
    + by apply (inv_one _ _ I y z t u).
  - intros y t [[<- <-]|[Hy Ht]]%lookup_insert_Some; [|by apply (inv_fresh _ _ I y t)]. rewrite En, Ec, El. by apply (inv_fresh _ _ I x s).
  - intros p. rewrite (msum_update (buf_uses p) _ _ _ _ Hb), Hrf. destruct (inv_page _ _ I p). lia.
Qed.

Lemma contents_update h x s b s' b' rf bud : inv ext h → skbs h !! x = Some s → bufs h !! head s = Some b →
  same_share s s' → inv ext (put_packet x s' b' rf bud h) → alone h x s ∨ unseen h x s b b' ∧ data s ≤ data s' →
  let h' := put_packet x s' b' rf bud h in
  contents 1 h' x = Some (packet_bytes (pages h) s' b') ∧ ∀ y, y ≠ x → contents 1 h' y = contents 1 h y.
Proof.
  intros I Hs Hb S I' Hvis h'. destruct S as [Eh _ _ _]. split.
  { apply (contents_packet ext h'); [done|apply lookup_insert_eq|apply lookup_insert_eq]. }
  intros y Hy. apply (contents_frame ext h h' y I I'); [by apply lookup_insert_ne|done|]. intros t c Ht Hc.
  destruct (decide (head t = head s)) as [Hh|Hh]; [|exists c; split_and!; [|done..]; cbn; rewrite lookup_insert_ne by congruence; done].
  exists b'. cbn. rewrite Hh, Eh, lookup_insert_eq. split; [done|]. rewrite Hh, Hb in Hc. injection Hc as <-.
  destruct Hvis as [Ha|[(Hf & Hl & Hbytes) _]]; [by destruct (Hy (Ha _ _ Ht Hh))|]. by rewrite Hf, (Hbytes y).
Qed.

(** ** A packet leaves its buffer *)

Lemma own_self s : own (head s) s = 1.
Proof. unfold own. by rewrite Z.eqb_refl. Qed.

Lemma own_other a s : head s ≠ a → own a s = 0 ∧ pay a s = 0.
Proof. unfold own, pay. intros H. by rewrite (proj2 (Z.eqb_neq _ _) H). Qed.

Lemma pay_self s : pay (head s) s = if nohdr s then 1 else 0.
Proof. unfold pay. by rewrite Z.eqb_refl. Qed.

Lemma alone_sum h x s : skbs h !! x = Some s → alone h x s ↔ msum (own (head s)) (skbs h) = 1.
Proof.
  intros Hs. split; intros H.
  - rewrite (msum_delete _ _ _ _ Hs), own_self, msum_0; [done|]. intros y t [Hy Ht]%lookup_delete_Some. apply own_other. intros E. by destruct Hy, (H y t Ht E).
  - intros y t Ht E. destruct (decide (y = x)) as [|Hy]; [done|]. pose proof (msum_two (own (head s)) _ x y s t ltac:(done) ltac:(done) Hs Ht) as H2.
    unfold own in H2 at 1 2. rewrite E, Z.eqb_refl in H2. lia.
Qed.

(** What the packet takes from dataref. *)
Definition weight (s : sk_buff) : Z := if nohdr s then 65537 else 1.

Lemma weight_pay s : weight s = 1 + 65536 * pay (head s) s.
Proof. unfold weight. rewrite pay_self. by destruct (nohdr s). Qed.

Lemma dataref_left h x s b : inv ext h → skbs h !! x = Some s → bufs h !! head s = Some b →
  let d := dataref (b_info b) - weight s in 0 ≤ d < 2 ^ 31 ∧ (d = 0 ↔ alone h x s) ∧
  d = msum (own (head s)) (delete x (skbs h)) + 65536 * msum (pay (head s)) (delete x (skbs h)).
Proof.
  intros I Hs Hb d. rewrite (alone_sum h x s Hs). destruct (inv_ref _ _ I _ _ Hb) as [Hd HN].
  rewrite (msum_delete (own (head s)) _ _ _ Hs), own_self in Hd, HN |- *. rewrite (msum_delete (pay (head s)) _ _ _ Hs) in Hd.
  pose proof (weight_pay s). set (N := msum (own _) _) in *. set (K := msum (pay _) _) in *.
  assert (0 ≤ K) by (by apply msum_nonneg). assert (K ≤ N) by (by apply msum_le). unfold d. lia.
Qed.

Record left_buffer (h : heap) (x : Z) (s : sk_buff) (b : buffer) (bs : gmap Z buffer) (rf : Z → Z) : Prop := {
  lb_alone : alone h x s → bs = delete (head s) (bufs h) ∧ ∀ p, rf p = page_refs h p - buf_uses p b;
  lb_shared : ¬ alone h x s → bs = <[head s := Buffer (b_bytes b) (set_dataref (dataref (b_info b) - weight s) (b_info b))]> (bufs h) ∧ ∀ p, rf p = page_refs h p }.

Lemma left_buf h x s b bs rf y t c : inv ext h → skbs h !! x = Some s → bufs h !! head s = Some b → left_buffer h x s b bs rf →
  y ≠ x → skbs h !! y = Some t → bufs h !! head t = Some c →
  ∃ c', bs !! head t = Some c' ∧ b_bytes c' = b_bytes c ∧ frags (b_info c') = frags (b_info c).
Proof.
  intros I Hs Hb [La Ls] Hy Ht Hc. pose proof (alone_sum h x s Hs) as Ha. destruct (decide (msum (own (head s)) (skbs h) = 1)) as [E|E].
  - destruct (La (proj2 Ha E)) as [-> _]. assert (head t ≠ head s) by (intros Hh; by destruct Hy, (proj2 Ha E y t Ht Hh)). rewrite lookup_delete_ne; eauto.
  - destruct (Ls ltac:(tauto)) as [-> _]. destruct (decide (head t = head s)) as [Hh|Hh]; [|rewrite lookup_insert_ne; eauto].
    rewrite Hh, lookup_insert_eq. rewrite Hh, Hb in Hc. injection Hc as <-. eauto.
Qed.

Lemma inv_leave h x s b bs rf bud : inv ext h → skbs h !! x = Some s → bufs h !! head s = Some b → left_buffer h x s b bs rf →
  inv ext (Heap (delete x (skbs h)) bs (pages h) rf bud).
Proof.
  intros I Hs Hb L. pose proof (dataref_left h x s b I Hs Hb) as (Hd & Hd0 & Hdd). pose proof (alone_sum h x s Hs) as Ha.
  assert (Hold : ∀ a c, bs !! a = Some c → ∃ c0, bufs h !! a = Some c0 ∧ b_bytes c = b_bytes c0 ∧ frags (b_info c) = frags (b_info c0) ∧ frag_list (b_info c) = frag_list (b_info c0) ∧
      (a = head s ∧ ¬ alone h x s ∧ dataref (b_info c) = dataref (b_info b) - weight s ∨ a ≠ head s ∧ c = c0)).
  { intros a c Hc. destruct L as [La Ls]. destruct (decide (msum (own (head s)) (skbs h) = 1)) as [E|E].
    - destruct (La (proj2 Ha E)) as [-> _]. apply lookup_delete_Some in Hc as [? Hc]. exists c. split_and!; try done; right; done.
    - destruct (Ls ltac:(tauto)) as [-> _]. apply lookup_insert_Some in Hc as [[<- <-]|[? Hc]]; [exists b|exists c]; split_and!; try done; [left|right]; split_and!; done || tauto. }
  split; cbn.
  - intros y t [Hy Ht]%lookup_delete_Some. destruct (inv_pkt _ _ I y t Ht) as (c & Hc & P).
    destruct (left_buf h x s b bs rf y t c I Hs Hb L ltac:(done) Ht Hc) as (c' & Hc' & Eb & Ef). exists c'. split; [done|]. apply (pkt_ok_frame t c); congruence.
  - intros y t [Hy Ht]%lookup_delete_Some. by apply (inv_key _ _ I y t).
  - intros a c (c0 & Hc0 & _ & -> & -> & _)%Hold. by apply (inv_buf _ _ I a).
  - intros a c (c0 & Hc0 & _ & _ & _ & [(-> & Hna & ->)|[Hne ->]])%Hold.
    + destruct (inv_ref _ _ I _ _ Hb) as [_ HN]. rewrite (msum_delete (own (head s)) _ _ _ Hs), own_self in Ha, HN. split; [done|].
      pose proof (msum_nonneg (own (head s)) (delete x (skbs h)) ltac:(done)). split; [|lia]. destruct (decide (msum (own (head s)) (delete x (skbs h)) = 0)); [exfalso|lia]. by apply Hna, Ha; lia.
    + destruct (own_other a s ltac:(done)) as [Eo Ep]. pose proof (inv_ref _ _ I a c0 Hc0) as Hr.
      rewrite (msum_delete (own a) _ _ _ Hs), (msum_delete (pay a) _ _ _ Hs), Eo, Ep in Hr. by rewrite !Z.add_0_l in Hr.
  - intros y z t u [Hy Ht]%lookup_delete_Some [Hz Hu]%lookup_delete_Some. by apply (inv_sole _ _ I y z t u).
  - intros y z t u [Hy Ht]%lookup_delete_Some [Hz Hu]%lookup_delete_Some. by apply (inv_hdr _ _ I y z t u).
  - intros y z t u [Hy Ht]%lookup_delete_Some [Hz Hu]%lookup_delete_Some. by apply (inv_one _ _ I y z t u).
  - intros y t [Hy Ht]%lookup_delete_Some. by apply (inv_fresh _ _ I y t).
  - intros p. destruct (inv_page _ _ I p) as [Hp He]. split; [|done]. destruct L as [La Ls]. destruct (decide (msum (own (head s)) (skbs h) = 1)) as [E|E].
    + destruct (La (proj2 Ha E)) as [-> ->]. rewrite (msum_delete (buf_uses p) _ _ _ Hb) in Hp. lia.
    + destruct (Ls ltac:(tauto)) as [-> ->]. rewrite (msum_update (buf_uses p) _ _ _ _ Hb). unfold buf_uses at 2 3. cbn. unfold buf_uses in Hp |- *. lia.
Qed.

(** ** A packet with a buffer of its own *)

Lemma inv_new h x s b rf bud : inv ext h → skbs h !! x = None → x ≠ NULL → bufs h !! head s = None →
  cloned s = false → hdr_len s = 0 → dataref (b_info b) = weight s → frag_list (b_info b) = NULL → Forall (mapped (pages h)) (frags (b_info b)) → pkt_ok s b →
  (∀ p, rf p = page_refs h p + buf_uses p b) →
  inv ext (put_packet x s b rf bud h).
Proof.
  intros I Hx Hnull Ha Hc Hl Hd Hfl Hm P Hrf.
  assert (Hother : ∀ y t, skbs h !! y = Some t → head t ≠ head s) by (intros y t Ht Hh; destruct (inv_pkt _ _ I y t Ht) as (c & Hcc & _); congruence).
  split; unfold put_packet; cbn.
  - intros y t [[<- <-]|[Hy Ht]]%lookup_insert_Some; [exists b; by rewrite lookup_insert_eq|]. rewrite lookup_insert_ne by (intros E; by apply (Hother y t)).
    by apply (inv_pkt _ _ I y t).
  - intros y t [[<- <-]|[Hy Ht]]%lookup_insert_Some; [done|by apply (inv_key _ _ I y t)].
  - intros a c [[<- <-]|[Hne Hcc]]%lookup_insert_Some; [done|by apply (inv_buf _ _ I a)].
  - intros a c Hcc. rewrite !msum_new by done. apply lookup_insert_Some in Hcc as [[<- <-]|[Hne Hcc]].
    + rewrite !msum_0 by (intros y t Ht; apply own_other; by apply (Hother y)). rewrite own_self, Hd, weight_pay, pay_self. destruct (nohdr s); lia.
    + destruct (own_other a s ltac:(done)) as [-> ->]. by apply (inv_ref _ _ I a).
  - intros y z t u [[<- <-]|[Hy Ht]]%lookup_insert_Some [[<- <-]|[Hz Hu]]%lookup_insert_Some; intros Hh Hcl; [done|..].
    + by destruct (Hother z u Hu).
    + by destruct (Hother y t Ht).
    + by apply (inv_sole _ _ I y z t u).
  - intros y z t u [[<- <-]|[Hy Ht]]%lookup_insert_Some [[<- <-]|[Hz Hu]]%lookup_insert_Some; intros Hh Hyz Hno; [done|..].
    + by destruct (Hother z u Hu).
    + by destruct (Hother y t Ht).
    + by apply (inv_hdr _ _ I y z t u).
  - intros y z t u [[<- <-]|[Hy Ht]]%lookup_insert_Some [[<- <-]|[Hz Hu]]%lookup_insert_Some; intros Hh Hnt Hnu; [done|..].
    + by destruct (Hother z u Hu).
    + by destruct (Hother y t Ht).
    + by apply (inv_one _ _ I y z t u).
  - intros y t [[<- <-]|[Hy Ht]]%lookup_insert_Some; [done|by apply (inv_fresh _ _ I y t)].
  - intros p. rewrite msum_new by done. rewrite Hrf. destruct (inv_page _ _ I p). lia.
Qed.
End steps.
End SkbInv.
