(* ===== verification/SkbValues.v ===== *)
(** * Packets as values

    Whatever buffers and pages packets share, each behaves as a byte string of its own:
    the operations of SkbShare refine those on a map of byte strings. *)

From Stdlib Require Import ZArith Lia.
From stdpp Require Import base numbers list gmap.
From S2P Require Import Prelude SkbData SkbRead SkbShare SkbInv.

Module SkbValues.
Import SkbData SkbRead SkbShare SkbInv.

Section steps.
Context {ext : Z → Z}.

(** ** Releasing and cloning run *)

Lemma st_ret_bind {S A B} (a : A) (f : A → st S B) s : (mret a ≫= f) s = f a s.
Proof. done. Qed.

Lemma update_info_ok x f h s b : skbs h !! x = Some s → bufs h !! head s = Some b →
  update_info x f h = Some (tt, set_bufs (<[head s := Buffer (b_bytes b) (f (b_info b))]> (bufs h)) h).
Proof. intros Hs Hb. unfold update_info. by rewrite (st_bind_step _ _ _ _ _ (load_ok x h s Hs)), (st_bind_step _ _ _ _ _ (load_buf_ok _ h b Hb)). Qed.

Lemma unref_frags_ok fs h : ∃ rf, unref_frags fs h = Some (tt, set_page_refs rf h) ∧ ∀ p, rf p = page_refs h p - uses p fs.
Proof.
  revert h. induction fs as [|f fs IH]; intros h; cbn [unref_frags uses].
  - exists (page_refs h). split; [by destruct h|]. intros p. lia.
  - destruct (IH (set_page_refs (λ q, if q =? bv_page f then page_refs h (bv_page f) - 1 else page_refs h q) h)) as (rf & E & Hrf). exists rf. split; [exact E|].
    intros p. rewrite Hrf. cbn. rewrite (Z.eqb_sym (bv_page f)). destruct (Z.eqb_spec p (bv_page f)); subst; lia.
Qed.

Lemma ref_frags_ok fs h : ∃ rf, ref_frags fs h = Some (tt, set_page_refs rf h) ∧ ∀ p, rf p = page_refs h p + uses p fs.
Proof.
  revert h. induction fs as [|f fs IH]; intros h; cbn [ref_frags uses].
  - exists (page_refs h). split; [by destruct h|]. intros p. lia.
  - destruct (IH (set_page_refs (λ q, if q =? bv_page f then page_refs h (bv_page f) + 1 else page_refs h q) h)) as (rf & E & Hrf). exists rf. split; [exact E|].
    intros p. rewrite Hrf. cbn. rewrite (Z.eqb_sym (bv_page f)). destruct (Z.eqb_spec p (bv_page f)); subst; lia.
Qed.

(** The last packet of a buffer takes its pages and the buffer along. *)
Lemma release_last fl h x s b : skbs h !! x = Some s → bufs h !! head s = Some b → frag_list (b_info b) = NULL →
  (cloned s = true → dataref (b_info b) = weight s) →
  ∃ rf, skb_release_data fl x h = Some (tt, set_page_refs rf (set_bufs (delete (head s) (bufs h)) h)) ∧ ∀ p, rf p = page_refs h p - buf_uses p b.
Proof.
  intros Hs Hb Hfl Hd. unfold skb_release_data. rewrite (st_bind_step _ _ _ _ _ (load_ok x h s Hs)), (st_bind_step _ _ _ _ _ (skb_shinfo_ok x h s b Hs Hb)).
  assert (∀ h1, skbs h1 = skbs h → (∃ b1, bufs h1 !! head s = Some b1) → page_refs h1 = page_refs h →
    ∃ rf, (unref_frags (frags (b_info b)) ;; (if frag_list (b_info b) =? NULL then mret tt else fl (frag_list (b_info b))) ;; skb_free_head x) h1 =
      Some (tt, set_page_refs rf (set_bufs (delete (head s) (bufs h1)) h1)) ∧ ∀ p, rf p = page_refs h p - buf_uses p b) as Hfree.
  { intros h1 E1 (b1 & Hb1) E2. destruct (unref_frags_ok (frags (b_info b)) h1) as (rf & Erf & Hrf). exists rf. split; [|intros p; by rewrite Hrf, E2].
    rewrite (st_bind_step _ _ _ _ _ Erf), Hfl. cbn [Z.eqb NULL]. rewrite st_ret_bind.
    unfold skb_free_head. rewrite (st_bind_step _ _ _ _ _ (load_ok x (set_page_refs rf h1) s ltac:(cbn; congruence))).
    by rewrite (st_bind_step _ _ _ _ _ (load_buf_ok (head s) (set_page_refs rf h1) b1 Hb1)). }
  destruct (cloned s).
  - rewrite (Hd eq_refl). replace (weight s - _) with 0 by (unfold weight; by destruct (nohdr s)).
    rewrite (st_bind_step _ _ _ _ _ (update_info_ok x _ h s b Hs Hb)). cbn [Z.eqb negb andb].
    set (h1 := set_bufs _ h). destruct (Hfree h1 eq_refl ltac:(by eexists; apply lookup_insert_eq) eq_refl) as (rf & E & Hrf). exists rf. split; [|done].
    etransitivity; [exact E|]. unfold h1, set_bufs, set_page_refs. cbn. by rewrite delete_insert_eq.
  - rewrite st_ret_bind. cbn [andb]. destruct (Hfree h eq_refl ltac:(by exists b) eq_refl) as (rf & E & Hrf). by exists rf.
Qed.

(** The data of a packet whose buffer is as in [h], in a state [h'] that may have other buffers and references besides. *)
Lemma release_ok fl h h' x s b : inv ext h → skbs h !! x = Some s → bufs h !! head s = Some b →
  skbs h' !! x = Some s → bufs h' !! head s = Some b →
  (alone h x s ∧ ∃ rf, skb_release_data fl x h' = Some (tt, set_page_refs rf (set_bufs (delete (head s) (bufs h')) h')) ∧ ∀ p, rf p = page_refs h' p - buf_uses p b) ∨
  (¬ alone h x s ∧ skb_release_data fl x h' =
     Some (tt, set_bufs (<[head s := Buffer (b_bytes b) (set_dataref (dataref (b_info b) - weight s) (b_info b))]> (bufs h')) h')).
Proof.
  intros I Hs Hb Hs' Hb'. destruct (dataref_left h x s b I Hs Hb) as (Hd & Hd0 & _). destruct (inv_buf _ _ I _ _ Hb) as [Hfl _].
  destruct (decide (dataref (b_info b) - weight s = 0)) as [E|E].
  { left. split; [tauto|]. apply release_last; try done. lia. }
  right. split; [tauto|]. assert (cloned s = true) as Hc.
  { apply not_false_is_true. intros Hc. apply E, Hd0. intros y t Ht Hh. symmetry. by apply (inv_sole _ _ I x y s t). }
  unfold skb_release_data. rewrite (st_bind_step _ _ _ _ _ (load_ok x h' s Hs')), (st_bind_step _ _ _ _ _ (skb_shinfo_ok x h' s b Hs' Hb')), Hc.
  replace (dataref (b_info b) - (if nohdr s then _ else 1)) with (dataref (b_info b) - weight s) by (unfold weight; by destruct (nohdr s)).
  rewrite (wrapS_small 32) by (unfold is_s; lia). rewrite (st_bind_step _ _ _ _ _ (update_info_ok x _ h' s b Hs' Hb')). by rewrite (proj2 (Z.eqb_neq _ _) E).
Qed.

(** The other packets are as before. *)
Definition others (x : Z) (h h' : heap) : Prop := pages h' = pages h ∧ ∀ y, y ≠ x → contents 1 h' y = contents 1 h y.

Lemma others_refl x h : others x h h.
Proof. done. Qed.

Lemma others_trans x h1 h2 h3 : others x h1 h2 → others x h2 h3 → others x h1 h3.
Proof. intros [Hp1 H1] [Hp2 H2]. split; [congruence|]. intros y Hy. by rewrite H2, H1. Qed.

Lemma inv_budget h l : inv ext h → inv ext (set_budget l h).
Proof. by intros []. Qed.

Lemma leave_others h x s b bs rf bud h' : inv ext h → skbs h !! x = Some s → bufs h !! head s = Some b → left_buffer h x s b bs rf →
  inv ext h' → pages h' = pages h → (∀ y, y ≠ x → skbs h' !! y = skbs h !! y) → (∀ a c, bufs h !! a = Some c → bs !! a = bufs h' !! a ∨ bs !! a = None) →
  others x h (set_budget bud h').
Proof.
  intros I Hs Hb L I' Hp Hy Hbs. split; [done|]. intros y Hyx. transitivity (contents 1 h' y); [done|].
  apply (contents_frame ext h h' y I I'); [by apply Hy|done|]. intros t c Ht Hc.
  destruct (left_buf h x s b bs rf y t c I Hs Hb L Hyx Ht Hc) as (c' & Hc' & Eb & Ef). exists c'. destruct (Hbs _ _ Hc) as [E|E]; [|congruence].
  split_and!; [congruence|done|]. unfold linear_bytes. by rewrite Eb.
Qed.

Lemma free_ok fuel h x s : inv ext h → skbs h !! x = Some s →
  ∃ h', kfree_skb (S fuel) x h = Some (tt, h') ∧ inv ext h' ∧ others x h h' ∧ skbs h' !! x = None ∧ budget h' = budget h.
Proof.
  intros I Hs. destruct (inv_pkt _ _ I x s Hs) as (b & Hb & P). cbn [kfree_skb]. rewrite (proj2 (Z.eqb_neq _ _) (inv_key _ _ I x s Hs)).
  assert (skb_unref x h = Some (true, h)) as E. { unfold skb_unref. rewrite (st_bind_step _ _ _ _ _ (load_ok x h s Hs)), (pk_users _ _ P). done. }
  rewrite (st_bind_step _ _ _ _ _ E). clear E.
  assert (∃ bs rf, skb_release_data (kfree_list (kfree_skb fuel) fuel) x h = Some (tt, set_page_refs rf (set_bufs bs h)) ∧ left_buffer h x s b bs rf) as (bs & rf & E & L).
  { destruct (release_ok (kfree_list (kfree_skb fuel) fuel) h h x s b I Hs Hb Hs Hb) as [(Ha & rf & E & Hrf)|[Ha E]].
    - exists (delete (head s) (bufs h)), rf. split; [done|]. by split.
    - eexists _, (page_refs h). split; [rewrite E; reflexivity|]. by split. }
  rewrite (st_bind_step _ _ _ _ _ E). eexists. split; [reflexivity|]. pose proof (inv_leave h x s b bs rf (budget h) I Hs Hb L) as I'.
  split_and!; [exact I'| |apply lookup_delete_eq|done].
  eapply (leave_others h x s b bs rf (budget h) _ I Hs Hb L I'); [done|intros; by apply lookup_delete_ne|by left].
Qed.

(** ** A packet moves to a buffer of its own *)

(** [bud]: the allocator gives no memory of [n] bytes. *)
Definition refuses (bud : list (option Z)) (n : Z) : Prop :=
  match bud with Some e :: _ => e < 0 ∨ KMALLOC_MAX_SIZE < n + e | _ => True end.

Lemma kmalloc_ok n h : 0 ≤ n →
  kmalloc_reserve n h = Some (None, set_budget (tl (budget h)) h) ∧ refuses (budget h) n ∨
  ∃ e, 0 ≤ e ∧ n + e ≤ KMALLOC_MAX_SIZE ∧ kmalloc_reserve n h = Some (Some (n + e), set_budget (tl (budget h)) h).
Proof.
  intros Hn. unfold kmalloc_reserve, answer, mbind, st_bind, get. destruct h as [sk bf pg rf bud]. cbn. destruct bud as [|[e|] bud]; cbn; [by left|..|by left].
  rewrite (proj2 (Z.leb_le 0 n)) by done. destruct (Z.leb_spec 0 e), (Z.leb_spec (n + e) KMALLOC_MAX_SIZE); cbn; [right; by exists e|left; split; [done|lia]..].
Qed.

Lemma cloned_ok h h' x s b : inv ext h → skbs h !! x = Some s → bufs h !! head s = Some b → skbs h' !! x = Some s → bufs h' !! head s = Some b →
  ∃ c, skb_cloned x h' = Some (c, h') ∧ (c = false ↔ alone h x s).
Proof.
  intros I Hs Hb Hs' Hb'. unfold skb_cloned. rewrite (st_bind_step _ _ _ _ _ (load_ok x h' s Hs')), (st_bind_step _ _ _ _ _ (skb_shinfo_ok x h' s b Hs' Hb')).
  eexists. split; [reflexivity|]. rewrite (alone_sum h x s Hs). destruct (inv_ref _ _ I _ _ Hb) as [Hd HN].
  assert (refs (b_info b) = msum (own (head s)) (skbs h)) as ->.
  { unfold refs, SKB_DATAREF_MASK. change 65535 with (Z.ones 16). rewrite Z.land_ones by lia. rewrite Hd, Z.mul_comm. change (2 ^ 16) with 65536.
    rewrite Z.mod_add by lia. apply Z.mod_small. lia. }
  destruct (cloned s) eqn:Ec; cbn [andb].
  - rewrite negb_false_iff. apply Z.eqb_eq.
  - split; [|done]. intros _. apply (alone_sum h x s Hs). intros y t Ht Hh. symmetry. by apply (inv_sole _ _ I x y s t).
Qed.

(** The fields that the headers leave. *)
Record same_core (s s' : sk_buff) : Prop := {
  sc_head : head s' = head s;
  sc_data : data s' = data s;
  sc_tail : tail s' = tail s;
  sc_end : end_ s' = end_ s;
  sc_len : len s' = len s;
  sc_data_len : data_len s' = data_len s;
  sc_users : users s' = users s;
  sc_owned : owned s' = owned s;
  sc_cloned : cloned s' = cloned s;
  sc_nohdr : nohdr s' = nohdr s;
  sc_hdr : hdr_len s' = hdr_len s }.

Lemma same_core_trans s1 s2 s3 : same_core s1 s2 → same_core s2 s3 → same_core s1 s3.
Proof. intros [] []. split; congruence. Qed.

Lemma headers_fields n s : same_core s (skb_headers_offset_update n s).
Proof.
  unfold skb_headers_offset_update.
  set (s1 := if ip_summed s =? _ then _ else _). assert (same_core s s1) as H1 by (unfold s1; by destruct (_ =? _)). clearbody s1.
  set (s2 := set_transport_header _ s1). assert (same_core s1 s2) as H2 by done. clearbody s2.
  set (s3 := set_network_header _ s2). assert (same_core s2 s3) as H3 by done. clearbody s3.
  set (s4 := if skb_mac_header_was_set s3 then _ else _). assert (same_core s3 s4) as H4 by (unfold s4; by destruct (skb_mac_header_was_set s3)). clearbody s4.
  set (s5 := set_inner_transport_header _ s4). assert (same_core s4 s5) as H5 by done. clearbody s5.
  set (s6 := set_inner_network_header _ s5). assert (same_core s5 s6) as H6 by done. clearbody s6.
  apply (same_core_trans s s1), (same_core_trans s1 s2), (same_core_trans s2 s3), (same_core_trans s3 s4), (same_core_trans s4 s5), (same_core_trans s5 s6); done.
Qed.

Record moved_fields (a size n : Z) (s s' : sk_buff) : Prop := {
  mf_head : head s' = a;
  mf_data : data s' = data s + n;
  mf_tail : tail s' = u32 (tail s + n);
  mf_end : end_ s' = size;
  mf_len : len s' = len s;
  mf_data_len : data_len s' = data_len s;
  mf_users : users s' = users s;
  mf_owned : owned s' = owned s;
  mf_cloned : cloned s' = false;
  mf_nohdr : nohdr s' = false;
  mf_hdr : hdr_len s' = 0 }.

Lemma moved_head_fields a size n s : moved_fields a size n s (moved_head a size n s).
Proof.
  unfold moved_head. destruct (headers_fields n (moved_pointers a size n s)) as [E1 E2 E3 E4 E5 E6 E7 E8 _ _ _]. revert E1 E2 E3 E4 E5 E6 E7 E8.
  generalize (skb_headers_offset_update n (moved_pointers a size n s)). intros t E1 E2 E3 E4 E5 E6 E7 E8. cbn in E1, E2, E3, E4, E5, E6, E7, E8.
  unfold moved_reset. cbv zeta. cbn [owned set_nohdr set_hdr_len set_cloned]. destruct (owned t) eqn:Eo; split; cbn; congruence.
Qed.

Lemma put_linear size nhead old new : put_at (replicate (Z.to_nat size) 0) nhead old = Some new → 0 ≤ nhead → 0 ≤ size →
  zlen new = size ∧ ∀ o n, 0 ≤ o → 0 ≤ n → o + n ≤ zlen old → slice (nhead + o) n new = slice o n old.
Proof.
  intros E Hn Hs. pose proof (put_at_length _ _ _ _ E) as Hl. rewrite length_replicate in Hl. split; [lia|]. intros o n Ho Hn' Hon.
  unfold put_at in E. destruct (_ && _) eqn:Eb in E; [|done]. to_prop. rewrite length_replicate in *. injection E as <-. unfold slice.
  rewrite drop_app_ge by (rewrite length_take, length_replicate; lia). rewrite length_take, length_replicate.
  replace (Z.to_nat (nhead + o) - _)%nat with (Z.to_nat o) by lia. rewrite drop_app_le by lia. by rewrite take_app_le by (rewrite length_drop; lia).
Qed.

(** The other packets keep their structures and fragments. *)
Definition keeps (x : Z) (h h' : heap) : Prop :=
  ∀ y, y ≠ x → skbs h' !! y = skbs h !! y ∧
    ∀ t c, skbs h !! y = Some t → bufs h !! head t = Some c → ∃ c', bufs h' !! head t = Some c' ∧ frags (b_info c') = frags (b_info c).

(** What pskb_expand_head has done. *)
Record expanded (x : Z) (s : sk_buff) (nhead ntail : Z) (h h' : heap) (s' : sk_buff) (b b' : buffer) : Prop := {
  ex_inv : inv ext h';
  ex_skb : skbs h' !! x = Some s';
  ex_buf : bufs h' !! head s' = Some b';
  ex_alone : alone h' x s';
  ex_others : others x h h';
  ex_keeps : keeps x h h';
  ex_bytes : contents 1 h' x = contents 1 h x;
  ex_info : b_info b' = set_dataref 1 (b_info b);
  ex_fields : moved_fields (head s') (end_ s') nhead s s';
  ex_room : end_ s + nhead + ntail ≤ end_ s';
  ex_budget : budget h' = tl (budget h) }.

Lemma rehead_ok h x s b bs rf0 rf s' b' bud nhead ntail : inv ext h → skbs h !! x = Some s → bufs h !! head s = Some b → left_buffer h x s b bs rf0 →
  moved_fields (new_key (bufs h)) (end_ s') nhead s s' → zlen (b_bytes b') = end_ s' → end_ s' ≤ KMALLOC_MAX_SIZE → 0 ≤ nhead → 0 ≤ ntail → end_ s + nhead + ntail ≤ end_ s' →
  b_info b' = set_dataref 1 (b_info b) → linear_bytes s' b' = linear_bytes s b → (∀ p, rf p = rf0 p + buf_uses p b) → bud = tl (budget h) →
  let h' := Heap (<[x := s']> (skbs h)) (<[new_key (bufs h) := b']> bs) (pages h) rf bud in
  expanded x s nhead ntail h h' s' b b'.
Proof.
  intros I Hs Hb L M Hbytes Hmax Hn Hnt Hroom Hinfo Hlin Hrf Hbud h'. destruct (inv_pkt _ _ I x s Hs) as (c & Ec & P). assert (c = b) as -> by congruence. clear Ec.
  destruct (inv_buf _ _ I _ _ Hb) as [Hfl Hm]. pose proof (inv_leave h x s b bs rf0 bud I Hs Hb L) as I0.
  assert (pkt_ok s' b') as P'.
  { destruct P, M. pose proof pk_max0. unfold KMALLOC_MAX_SIZE in *. assert (u32 (tail s + nhead) = tail s + nhead) as Eu by (apply wrapU_small; unfold is_u; lia).
    split; rewrite ?mf_data0, ?mf_tail0, ?mf_len0, ?mf_data_len0, ?mf_users0, ?mf_hdr0, ?Hinfo, ?Eu; done || lia. }
  assert (bs !! new_key (bufs h) = None) as Hfresh.
  { pose proof (new_key_fresh (bufs h)) as Hk. pose proof (alone_sum h x s Hs) as Ha. destruct L as [La Ls]. destruct (decide (msum (own (head s)) (skbs h) = 1)) as [E|E].
    - destruct (La (proj2 Ha E)) as [-> _]. apply lookup_delete_None. by right.
    - destruct (Ls ltac:(tauto)) as [-> _]. rewrite lookup_insert_ne; [done|]. congruence. }
  destruct M as [Mh Md Mt Me Ml Mdl Mu Mo Mc Mn Mhd]. pose proof (inv_new _ x s' b' rf bud I0) as I'. cbn [skbs bufs pages page_refs] in I'.
  unfold put_packet in I'. cbn [skbs bufs pages] in I'. rewrite insert_delete_eq, Mh in I'.
  assert (inv ext h') as Ih'.
  { apply I'; try done; [apply lookup_delete_eq|by apply (inv_key _ _ I x s)|unfold weight; by rewrite Hinfo, Mn|by rewrite Hinfo..|]. intros p. unfold buf_uses. rewrite Hinfo. apply Hrf. }
  split; try done; unfold h'; cbn [skbs bufs].
  - apply lookup_insert_eq.
  - rewrite Mh. apply lookup_insert_eq.
  - intros y t Ht Hh. cbn [skbs] in Ht. apply lookup_insert_Some in Ht as [[<- <-]|[Hy Ht]]; [done|]. destruct (inv_pkt _ _ I y t Ht) as (d & Hd & _). rewrite Hh, Mh, new_key_fresh in Hd. done.
  - apply (leave_others h x s b bs rf0 bud h' I Hs Hb L Ih' eq_refl); [intros y Hy; by apply lookup_insert_ne|].
    intros a d Hd. left. cbn. rewrite lookup_insert_ne; [done|]. intros E. rewrite <-E, new_key_fresh in Hd. done.
  - intros y Hy. split; [by apply lookup_insert_ne|]. intros t d Ht Hd. destruct (left_buf h x s b bs rf0 y t d I Hs Hb L Hy Ht Hd) as (d' & Hd' & _ & Ef).
    exists d'. split; [|done]. cbn. rewrite lookup_insert_ne; [done|]. congruence.
  - fold h'. rewrite (contents_packet ext h' x s' b' Ih'), (contents_packet ext h x s b I Hs Hb) by (cbn; rewrite ?Mh; apply lookup_insert_eq). unfold packet_bytes. by rewrite Hlin, Hinfo.
Qed.

(** The size that is asked for. *)
Definition grown (n : Z) : Z := SKB_DATA_ALIGN n + SIZEOF_SHINFO.

Lemma grown_bound n : n + SIZEOF_SHINFO ≤ grown n ≤ n + 383.
Proof. unfold grown, SKB_DATA_ALIGN, SMP_CACHE_BYTES, SIZEOF_SHINFO. dlia. Qed.

Lemma leave_runs fuel h x s b B bud : inv ext h → skbs h !! x = Some s → bufs h !! head s = Some b →
  let a := new_key (bufs h) in
  ∃ bs rf0 rf,
    (c ← skb_cloned x;
     (if c : bool then
        ref_frags (frags (b_info b)) ;;
        (if frag_list (b_info b) =? NULL then mret tt else skb_clone_fraglist fuel x) ;;
        skb_release_data (kfree_skb_list fuel) x
      else skb_free_head x)) (Heap (skbs h) (<[a := B]> (bufs h)) (pages h) (page_refs h) bud) = Some (tt, Heap (skbs h) (<[a := B]> bs) (pages h) rf bud) ∧
    left_buffer h x s b bs rf0 ∧ ∀ p, rf p = rf0 p + buf_uses p b.
Proof.
  intros I Hs Hb a. set (h1 := Heap _ _ _ _ _). assert (a ≠ head s) as Ha by (intros E; subst a; pose proof (new_key_fresh (bufs h)); congruence).
  assert (bufs h1 !! head s = Some b) as Hb1 by (cbn; by rewrite lookup_insert_ne). destruct (inv_buf _ _ I _ _ Hb) as [Hfl _].
  destruct (cloned_ok h h1 x s b I Hs Hb Hs Hb1) as (c & Ec & Hc). rewrite (st_bind_step _ _ _ _ _ Ec). destruct c.
  - assert (¬ alone h x s) as Hna by (intros H; by apply Hc in H). destruct (ref_frags_ok (frags (b_info b)) h1) as (rf & E & Hrf).
    rewrite (st_bind_step _ _ _ _ _ E), Hfl. cbn [Z.eqb NULL]. rewrite st_ret_bind.
    destruct (release_ok (kfree_skb_list fuel) h (set_page_refs rf h1) x s b I Hs Hb Hs Hb1) as [[? _]|[_ ->]]; [done|].
    eexists _, (page_refs h), rf. split; [|split; [|done]].
    + unfold set_bufs, set_page_refs. cbn. by rewrite insert_insert_ne.
    + by split.
  - unfold skb_free_head. rewrite (st_bind_step _ _ _ _ _ (load_ok x h1 s Hs)), (st_bind_step _ _ _ _ _ (load_buf_ok _ h1 b Hb1)).
    exists (delete (head s) (bufs h)), (λ p, page_refs h p - buf_uses p b), (page_refs h). split_and!.
    + unfold modify, set_bufs. cbn. by rewrite delete_insert_ne.
    + split; [done|]. intros Hna. destruct Hna. by apply Hc.
    + intros p. lia.
Qed.

(** Moving to a new buffer with more room: nothing changes without memory, and the packet
    has its own buffer with the same contents otherwise. *)
Lemma expand_ok fuel h x s b nhead ntail : inv ext h → skbs h !! x = Some s → bufs h !! head s = Some b → 0 ≤ nhead < 2 ^ 28 → 0 ≤ ntail < 2 ^ 30 + 2 ^ 28 →
  pskb_expand_head fuel x nhead ntail h = Some (- ENOMEM, set_budget (tl (budget h)) h) ∧ refuses (budget h) (end_ s + nhead + ntail + 383) ∨
  ∃ h' s' b', pskb_expand_head fuel x nhead ntail h = Some (0, h') ∧ expanded x s nhead ntail h h' s' b b'.
Proof.
  intros I Hs Hb Hn Hnt. destruct (inv_pkt _ _ I x s Hs) as (c & Ec & P). assert (c = b) as -> by congruence. clear Ec.
  pose proof P as []. unfold KMALLOC_MAX_SIZE in pk_max0. unfold pskb_expand_head. rewrite (st_bind_step _ _ _ _ _ (load_ok x h s Hs)).
  unfold skb_shared. rewrite pk_users0. rewrite (proj2 (Z.ltb_ge nhead 0)) by lia. cbn [orb negb Z.eqb Pos.eqb]. rewrite (st_bind_step _ _ _ _ _ (load_buf_ok _ h b Hb)).
  unfold skb_end_offset, skb_tail_pointer. set (n0 := end_ s + nhead + ntail). rewrite (wrapS_small 32 n0) by (unfold is_s; lia).
  pose proof (grown_bound n0) as G. unfold SIZEOF_SHINFO in G. assert (SKB_DATA_ALIGN n0 = grown n0 - 320) as Eal by (unfold grown, SIZEOF_SHINFO; lia).
  cbv zeta. rewrite Eal, (wrapS_small 32 (grown n0 - 320)) by (unfold is_s; lia).
  replace (grown n0 - 320 + SIZEOF_SHINFO) with (grown n0) by (unfold SIZEOF_SHINFO; lia). rewrite (wrapU_small 64 (grown n0)) by (unfold is_u; lia).
  destruct (kmalloc_ok (grown n0) h ltac:(lia)) as [[Em Hr]|(e & He & Hmax & Em)]; rewrite (st_bind_step _ _ _ _ _ Em).
  { left. split; [done|]. unfold refuses in *. destruct (budget h) as [|[]]; try done. lia. }
  right. unfold SKB_WITH_OVERHEAD, SIZEOF_SHINFO. unfold KMALLOC_MAX_SIZE in Hmax. rewrite (wrapS_small 32) by (unfold is_s; lia). set (size := grown n0 + e - 320).
  assert (bytes_at (b_bytes b) 0 (tail s) = Some (slice 0 (tail s) (b_bytes b))) as Eold.
  { unfold bytes_at, slice. by rewrite !(proj2 (Z.leb_le _ _)) by lia. }
  rewrite (lift_step _ _ _ _ Eold). set (old := slice 0 (tail s) (b_bytes b)). assert (zlen old = tail s) as Hold by (unfold old; rewrite slice_len by lia; lia).
  assert (∃ new, put_at (replicate (Z.to_nat size) 0) nhead old = Some new) as (new & Enew).
  { apply put_at_Some; rewrite ?length_replicate; unfold size; lia. }
  destruct (put_linear _ _ _ _ Enew ltac:(lia) ltac:(unfold size; lia)) as [Hlen Hnew]. rewrite (lift_step _ _ _ _ Enew).
  set (B := Buffer new (set_dataref 1 (b_info b))). set (a := new_key (bufs h)).
  destruct (leave_runs fuel h x s b B (tl (budget h)) I Hs Hb) as (bs & rf0 & rf & Erun & L & Hrf). fold a in Erun.
  rewrite (st_bind_step _ _ _ _ _ (eq_refl : get _ = Some (_, _))). unfold store_buf. rewrite (st_bind_step _ _ _ _ _ (eq_refl : modify _ _ = Some (_, _))).
  unfold set_budget, set_bufs. cbn [skbs bufs pages page_refs budget]. fold a. rewrite <-st_bind_assoc. rewrite (st_bind_step _ _ _ _ _ Erun).
  set (h2 := Heap _ _ _ _ _). rewrite (st_bind_step _ _ _ _ _ (update_ok x (moved_head a size nhead) h2 s Hs)).
  pose proof (moved_head_fields a size nhead s) as M. set (s' := moved_head a size nhead s) in *. eexists _, s', B. split; [reflexivity|].
  apply (rehead_ok h x s b bs rf0 rf s' B _ nhead ntail I Hs Hb L); try done; try lia; pose proof (mf_end _ _ _ _ _ M) as Me.
  - rewrite Me. exact M.
  - rewrite Me. exact Hlen.
  - rewrite Me. unfold size, KMALLOC_MAX_SIZE. lia.
  - rewrite Me. unfold size. lia.
  - destruct M. unfold linear_bytes. rewrite mf_data0, mf_len0, mf_data_len0. cbn [b_bytes B]. rewrite Z.add_comm, Hnew by lia. unfold old, slice.
    rewrite Z2Nat.inj_0, drop_0, skipn_firstn_comm, take_take. f_equal. lia.
Qed.

(** ** A clone *)

(** The state after a clone [n] of [x]. *)
Definition with_clone (h : heap) (n x : Z) (s : sk_buff) (b : buffer) (bud : list (option Z)) : heap :=
  Heap (<[x := set_cloned true s]> (<[n := clone_of s]> (skbs h)))
       (<[head s := Buffer (b_bytes b) (set_dataref (dataref (b_info b) + 1) (b_info b))]> (bufs h)) (pages h) (page_refs h) bud.

Lemma u16_le v : 0 ≤ v → 0 ≤ u16 v ≤ v.
Proof. intros H. unfold wrapU. pose proof (Z.mod_pos_bound v (2 ^ 16) ltac:(lia)). pose proof (Z.mod_le v (2 ^ 16) H ltac:(lia)). lia. Qed.

(** A packet of the new state, and the one that it was before. *)
Lemma with_clone_lookup h n x s b bud y t : skbs (with_clone h n x s b bud) !! y = Some t → skbs h !! x = Some s → skbs h !! n = None →
  ∃ z u, skbs h !! z = Some u ∧ head t = head u ∧ data t = data u ∧
    (y ≠ n ∧ z = y ∧ (y = x ∧ t = set_cloned true s ∨ y ≠ x ∧ t = u) ∨ y = n ∧ z = x ∧ u = s ∧ t = clone_of s).
Proof.
  cbn. intros Hy Hx Hn. apply lookup_insert_Some in Hy as [[<- <-]|[Hxy Hy]].
  - exists x, s. split_and!; try done. left. split; [congruence|]. by split; [|left].
  - apply lookup_insert_Some in Hy as [[<- <-]|[Hny Hy]]; [exists x, s; split_and!; try done; by right|]. exists y, t. split_and!; try done. left. split; [done|]. by split; [|right].
Qed.

Lemma clone_hdr ext_ h x s z u b : inv ext_ h → skbs h !! x = Some s → bufs h !! head s = Some b → skbs h !! z = Some u → head s = head u → nohdr u = true →
  hdr_len (clone_of s) ≤ data u.
Proof.
  intros I Hs Hb Hu Hh Hn. destruct (inv_pkt _ _ I x s Hs) as (c & Ec & P). cbn. destruct (nohdr s) eqn:Ens.
  - assert (x = z) as <- by by apply (inv_one _ _ I x z s u). replace u with s by congruence. destruct P. unfold KMALLOC_MAX_SIZE in *. unfold skb_headroom.
    rewrite (wrapU_small 32) by (unfold is_u; lia). pose proof (u16_le (data s)). lia.
  - assert (x ≠ z) by congruence. pose proof (inv_hdr _ _ I x z s u Hs Hu Hh ltac:(done) Hn). pose proof (u16_le (hdr_len s) (pk_hdr _ _ P)). lia.
Qed.

Lemma inv_clone h n x s b bud : inv ext h → skbs h !! x = Some s → bufs h !! head s = Some b → skbs h !! n = None → n ≠ NULL →
  msum (own (head s)) (skbs h) < 2 ^ 15 - 1 → inv ext (with_clone h n x s b bud).
Proof.
  intros I Hs Hb Hn Hnn Hfew. set (h' := with_clone h n x s b bud). assert (Hxn : x ≠ n) by congruence.
  assert (L : ∀ y t, skbs h' !! y = Some t → _) by (intros y t Hy; exact (with_clone_lookup h n x s b bud y t Hy Hs Hn)).
  split.
  - intros y t (z & u & Hu & Hh & _ & Hc)%L. destruct (inv_pkt _ _ I z u Hu) as (c & Hcb & P).
    assert (pkt_ok t c) as Pt. { destruct Hc as [(_ & -> & [[-> ->]|[_ ->]])|(-> & -> & -> & ->)]; [replace u with s in * by congruence|..]; destruct P; split; try done. cbn. apply u16_le.
      unfold skb_headroom. destruct (nohdr s); [apply Z.mod_pos_bound; lia|done]. }
    cbn. rewrite Hh. destruct (decide (head u = head s)) as [E|E]; [|exists c; by rewrite lookup_insert_ne].
    rewrite E, lookup_insert_eq. eexists. split; [done|]. rewrite E, Hb in Hcb. injection Hcb as <-. by apply (pkt_ok_frame t b).
  - intros y t (z & u & Hu & _ & _ & Hc)%L. destruct Hc as [(_ & -> & _)|(-> & _)]; [by apply (inv_key _ _ I y u)|done].
  - intros a c Hc. unfold h' in Hc. cbn in Hc. apply lookup_insert_Some in Hc as [[<- <-]|[Ha Hc]]; [by apply (inv_buf _ _ I (head s) b)|by apply (inv_buf _ _ I a)].
  - intros a c Hc. unfold h' in *. cbn in Hc |- *. assert ((<[n:=clone_of s]> (skbs h)) !! x = Some s) as Hx by (by rewrite lookup_insert_ne).
    rewrite (msum_update (own a) _ _ _ _ Hx), (msum_update (pay a) _ _ _ _ Hx), !(msum_new _ _ _ _ Hn).
    rewrite (own_same s (set_cloned true s) a), (pay_same s (set_cloned true s) a), (own_same s (clone_of s) a) by done.
    assert (pay a (clone_of s) = 0) as -> by (unfold pay; cbn; by rewrite andb_false_r). apply lookup_insert_Some in Hc as [[<- <-]|[Ha Hc]].
    + rewrite own_self. pose proof (inv_ref _ _ I _ _ Hb). cbn. lia.
    + destruct (own_other a s ltac:(done)) as [-> _]. pose proof (inv_ref _ _ I a c Hc). lia.
  - intros y y' t t' (z & u & Hu & Hh & _ & Hc)%L (z' & u' & Hu' & Hh' & _ & Hc')%L Ht Hcl.
    destruct Hc as [(Hyn & -> & [[-> ->]|[Hyx ->]])|(-> & -> & -> & ->)]; [done| |done].
    assert (y = z') by (apply (inv_sole _ _ I y z' u u'); congruence). destruct Hc' as [(_ & -> & _)|(-> & -> & _)]; congruence.
  - intros y y' t t' (z & u & Hu & Hh & Hd & Hc)%L (z' & u' & Hu' & Hh' & Hd' & Hc')%L Ht Hyy Hno.
    destruct Hc' as [(Hyn' & -> & Ht')|(-> & -> & -> & ->)]; [|done]. assert (nohdr u' = true) as Hno' by (destruct Ht' as [[-> ->]|[_ ->]]; [cbn in Hno; congruence|done]).
    rewrite Hd'. destruct Hc as [(Hyn & -> & [[-> ->]|[Hyx ->]])|(-> & -> & -> & ->)].
    + apply (inv_hdr _ _ I x y' s u'); congruence.
    + apply (inv_hdr _ _ I y y' u u'); congruence.
    + apply (clone_hdr ext h x s y' u' b); congruence.
  - intros y y' t t' (z & u & Hu & Hh & _ & Hc)%L (z' & u' & Hu' & Hh' & _ & Hc')%L Ht Hno Hno'.
    destruct Hc as [(_ & -> & Hc)|(_ & _ & _ & ->)]; [|done]. destruct Hc' as [(_ & -> & Hc')|(_ & _ & _ & ->)]; [|done].
    apply (inv_one _ _ I y y' u u'); try congruence; [destruct Hc as [[-> ->]|[_ ->]]|destruct Hc' as [[-> ->]|[_ ->]]]; cbn in *; congruence.
  - intros y t (z & u & Hu & Hh & _ & Hc)%L Hno. destruct Hc as [(_ & -> & [[-> ->]|[_ ->]])|(_ & _ & _ & ->)].
    + cbn in *. destruct Hno; [|done]. apply (inv_fresh _ _ I x s); auto.
    + by apply (inv_fresh _ _ I y u).
    + cbn in Hno. by destruct Hno.
  - intros p. cbn. rewrite (msum_update (buf_uses p) _ _ _ _ Hb). destruct (inv_page _ _ I p). unfold buf_uses at 2 3. cbn. lia.
Qed.

(** A clone has the contents of the packet; without memory nothing happens. *)
Lemma clone_ok h x s : inv ext h → skbs h !! x = Some s → msum (own (head s)) (skbs h) < 2 ^ 15 - 1 →
  skb_clone x h = Some (NULL, set_budget (tl (budget h)) h) ∧ (∀ e l, budget h ≠ Some e :: l) ∨
  ∃ n h', skb_clone x h = Some (n, h') ∧ skbs h !! n = None ∧ n ≠ NULL ∧ inv ext h' ∧ others n h h' ∧ contents 1 h' n = contents 1 h x ∧
    skbs h' !! n = Some (clone_of s) ∧ ∃ e l, budget h = Some e :: l ∧ budget h' = l.
Proof.
  intros I Hs Hfew. destruct (inv_pkt _ _ I x s Hs) as (b & Hb & P). unfold skb_clone, answer. rewrite !st_bind_assoc, (st_bind_step _ _ _ _ _ (eq_refl : get h = Some (h, h))).
  destruct h as [sk bf pg rf bud]. cbn [budget skbs bufs] in *. destruct bud as [|[e|] bud]; [by left| |by left]. right. set (h0 := Heap sk bf pg rf (Some e :: bud)) in *.
  rewrite !st_bind_assoc, (st_bind_step _ _ _ _ _ (eq_refl : put (set_budget bud h0) h0 = Some (tt, set_budget bud h0))), st_ret_bind.
  set (h1 := set_budget bud h0). rewrite (st_bind_step _ _ _ _ _ (eq_refl : get h1 = Some (h1, h1))). set (n := new_key (skbs h1)).
  assert (sk !! n = None) as Hn by apply new_key_fresh. assert (n ≠ NULL) as Hnn by (pose proof (new_key_pos sk); unfold n, NULL; cbn; lia).
  assert (x ≠ n) as Hxn by congruence.
  assert (__skb_clone n x h1 = Some (tt, with_clone h0 n x s b bud)) as E.
  { unfold __skb_clone, store. rewrite (st_bind_step _ _ _ _ _ (load_ok x h1 s Hs)), (st_bind_step _ _ _ _ _ (eq_refl : modify _ h1 = Some (tt, _))).
    set (h2 := set_skbs _ h1). assert (skbs h2 !! x = Some s) as Hs2 by (cbn; by rewrite lookup_insert_ne).
    rewrite (st_bind_step _ _ _ _ _ (update_info_ok x _ h2 s b Hs2 Hb)), (update_ok x _ _ s) by done.
    assert (s32 (dataref (b_info b) + 1) = dataref (b_info b) + 1) as Ed.
    { apply wrapS_small; [lia|]. destruct (inv_ref _ _ I _ _ Hb) as [Hd HN]. assert (msum (pay (head s)) sk ≤ msum (own (head s)) sk) by by apply msum_le.
      assert (0 ≤ msum (pay (head s)) sk) by by apply msum_nonneg. cbn in Hd, HN. unfold is_s. lia. }
    by rewrite Ed. }
  rewrite (st_bind_step _ _ _ _ _ E). pose proof (inv_clone h0 n x s b bud I Hs Hb Hn Hnn Hfew) as I'. exists n, (with_clone h0 n x s b bud).
  assert (skbs (with_clone h0 n x s b bud) !! n = Some (clone_of s)) as Hns by (cbn; by rewrite lookup_insert_ne, lookup_insert_eq).
  split_and!; try done; [| |by exists e, bud].
  - split; [done|]. intros y Hy. destruct (decide (y = x)) as [->|Hyx].
    + rewrite (contents_packet ext _ x (set_cloned true s) _ I' (lookup_insert_eq _ _ _) (lookup_insert_eq _ _ _)). by rewrite (contents_packet ext h0 x s b I Hs Hb).
    + apply (contents_frame ext h0 _ y I I'); [cbn; by rewrite !lookup_insert_ne|done|]. intros t c Ht Hc. cbn. destruct (decide (head t = head s)) as [E2|E2].
      * assert (b = c) as <- by (rewrite E2 in Hc; cbn in Hc; congruence). rewrite E2, lookup_insert_eq. by eexists.
      * rewrite lookup_insert_ne by done. eauto.
  - rewrite (contents_packet ext h0 x s b I Hs Hb).
    by rewrite (contents_packet ext _ n (clone_of s) _ I' Hns (lookup_insert_eq _ _ _)).
Qed.

(** ** Fragments that go *)

Lemma slice_all l n : zlen l ≤ n → slice 0 n l = l.
Proof. intros H. unfold slice. rewrite Z2Nat.inj_0, drop_0. apply take_ge. lia. Qed.

Lemma page_bytes_drop pg f n : mapped pg f → 0 ≤ n ≤ bv_len f →
  let f' := skb_frag_size_sub (skb_frag_off_add f n) n in
  mapped pg f' ∧ page_bytes pg f' = drop (Z.to_nat n) (page_bytes pg f) ∧ bv_page f' = bv_page f ∧ bv_len f' = bv_len f - n.
Proof.
  intros (b & Hp & Hb & Ho & Hl & Hf) Hn. unfold skb_frag_size_sub, skb_frag_off_add, skb_frag_off_set, skb_frag_size_set. cbn [bv_page bv_offset bv_len].
  rewrite (wrapU_small 32 (bv_offset f + n)), (wrapU_small 32 (bv_len f - n)) by (unfold is_u; lia). split_and!; try done.
  - exists b. cbn. split_and!; try done; lia.
  - unfold page_bytes. cbn. rewrite Hp. cbn. unfold slice. rewrite skipn_firstn_comm, drop_drop. f_equal; [lia|]. f_equal. lia.
Qed.

(** Dropping [eat] bytes from the front. *)
Lemma pull_pages_ok pg fs : Forall (mapped pg) fs → ∀ first eat h, 0 ≤ eat ≤ fsize fs →
  ∃ fs' rf, pull_pages first fs eat h = Some (fs', set_page_refs rf h) ∧ (∀ p, rf p = page_refs h p - uses p fs + uses p fs') ∧
    Forall (mapped pg) fs' ∧ fsize fs' = fsize fs - eat ∧ concat (map (page_bytes pg) fs') = drop (Z.to_nat eat) (concat (map (page_bytes pg) fs)).
Proof.
  induction 1 as [|f fs Hf Hfs IH]; intros first eat h He; cbn [fsize] in He.
  { exists [], (page_refs h). split_and!; [by destruct h|intros; cbn; lia|done|cbn; lia|by cbn; rewrite drop_nil]. }
  pose proof (page_bytes_len pg f Hf) as Hl. pose proof Hf as (b & _ & _ & _ & Hpos & _). assert (0 ≤ fsize fs) as Hfs0.
  { rewrite <-(pages_len pg fs Hfs). lia. }
  cbn [pull_pages map concat uses fsize]. unfold skb_frag_size. destruct (Z.leb_spec (bv_len f) eat) as [Hle|Hgt].
  - destruct (IH false (eat - bv_len f) (set_page_refs (λ q, if q =? bv_page f then page_refs h (bv_page f) - 1 else page_refs h q) h)) as (fs' & rf & E & Hrf & Hm & Hsz & Hby); [lia|].
    exists fs', rf. split; [exact E|]. split_and!; [|done|lia|].
    + intros p. rewrite Hrf. cbn. rewrite (Z.eqb_sym (bv_page f)). destruct (Z.eqb_spec p (bv_page f)); subst; lia.
    + rewrite Hby, drop_app_ge by lia. f_equal. lia.
  - destruct (Z.eqb_spec eat 0) as [->|Hne].
    + destruct (IH false 0 h) as (fs' & rf & E & Hrf & Hm & Hsz & Hby); [lia|]. rewrite (st_bind_step _ _ _ _ _ E). exists (f :: fs'), rf.
      split; [done|]. split_and!; [intros p; rewrite Hrf; cbn; lia|by constructor|cbn; lia|]. cbn. by rewrite Hby.
    + destruct (page_bytes_drop pg f eat Hf ltac:(lia)) as (Hm' & Hb' & Hp' & Hl'). cbv zeta. set (f' := skb_frag_size_sub _ eat) in *. clearbody f'. destruct first.
      * exists (f' :: fs), (page_refs h). split; [by destruct h|]. split_and!; [intros p; cbn; rewrite Hp'; lia|by constructor|cbn; lia|].
        cbn. rewrite Hb', drop_app_le by lia. done.
      * destruct (IH false 0 h) as (fs' & rf & E & Hrf & Hm & Hsz & Hby); [lia|]. rewrite (st_bind_step _ _ _ _ _ E). exists (f' :: fs'), rf.
        split; [done|]. split_and!; [intros p; rewrite Hrf; cbn; rewrite Hp'; lia|by constructor|cbn; lia|]. cbn. by rewrite Hb', Hby, drop_app_le by lia.
Qed.

(** Keeping [n] bytes. *)
Lemma trim_frags_ok pg fs : Forall (mapped pg) fs → ∀ offset n, 0 ≤ offset → offset < n ≤ offset + fsize fs → offset + fsize fs < 2 ^ 31 →
  ∃ keep drop, trim_frags fs offset n = inl (keep, drop) ∧ (∀ p, uses p fs = uses p keep + uses p drop) ∧ Forall (mapped pg) keep ∧
    fsize keep = n - offset ∧ concat (map (page_bytes pg) keep) = take (Z.to_nat (n - offset)) (concat (map (page_bytes pg) fs)).
Proof.
  induction 1 as [|f fs Hf Hfs IH]; intros offset n Ho Hn Hb; cbn [fsize] in *; [lia|].
  pose proof (page_bytes_len pg f Hf) as Hl. pose proof Hf as (b & Hp & Hbz & Hoff & Hpos & Hfit). assert (0 ≤ fsize fs) as Hfs0.
  { rewrite <-(pages_len pg fs Hfs). lia. }
  cbn [trim_frags]. unfold skb_frag_size. rewrite (wrapU_small 32 (offset + bv_len f)) by (unfold is_u; lia). destruct (Z.ltb_spec (offset + bv_len f) n) as [Hlt|Hge].
  - destruct (IH (offset + bv_len f) n) as (keep & drop & -> & Hu & Hm & Hsz & Hby); [lia..|]. exists (f :: keep), drop. split; [done|].
    split_and!; [intros p; cbn; rewrite Hu; lia|by constructor|cbn; lia|]. cbn. rewrite Hby, take_app_ge by lia. do 2 f_equal. lia.
  - eexists _, fs. split; [done|]. unfold skb_frag_size_set. rewrite (wrapU_small 32) by (unfold is_u; lia). split_and!; [intros p; cbn; lia| |cbn; lia|].
    + constructor; [|done]. exists b. cbn. split_and!; done || lia.
    + cbn. rewrite app_nil_r, take_app_le by lia. unfold page_bytes. cbn. unfold slice. rewrite take_take. f_equal. lia.
Qed.

(** ** Moving data to the linear part runs *)

Lemma slice_put l v o n w off : put_at l off w = Some v → off = o + n → 0 ≤ o → 0 ≤ n → slice o (n + zlen w) v = slice o n l ++ w.
Proof.
  intros E -> Ho Hn. unfold put_at in E. destruct (_ && _) eqn:Eb in E; [|done]. to_prop. injection E as <-. unfold slice.
  rewrite drop_app_le by (rewrite length_take; lia). rewrite skipn_firstn_comm.
  assert (length (take (Z.to_nat (o + n) - Z.to_nat o) (drop (Z.to_nat o) l)) = Z.to_nat n) as El by (rewrite length_take, length_drop; lia).
  rewrite take_app_ge by lia. rewrite El. replace (Z.to_nat (o + n) - Z.to_nat o)%nat with (Z.to_nat n) by lia. f_equal.
  rewrite take_app_le by lia. apply take_ge. lia.
Qed.

Lemma slice_mid (l1 l2 : list Z) n : 0 ≤ n → slice (zlen l1) n (l1 ++ l2) = take (Z.to_nat n) l2.
Proof. intros Hn. unfold slice. rewrite drop_app_ge by lia. replace (Z.to_nat (zlen l1) - length l1)%nat with O by lia. by rewrite drop_0. Qed.

Lemma copy_bits_in fuel h x s b o n : inv ext h → skbs h !! x = Some s → bufs h !! head s = Some b → 0 ≤ o → 0 ≤ n → o + n ≤ len s →
  skb_copy_bits (S fuel) x o n h = Some ((0, slice o n (packet_bytes (pages h) s b)), h).
Proof.
  intros I Hs Hb Ho Hn Hon. destruct (inv_pkt _ _ I x s Hs) as (c & Ec & P). pose proof (packet_len ext h x s b I Hs Hb) as Hl. destruct P.
  rewrite (skb_copy_bits_ok (S fuel) h x _ o n (contents_packet_fuel ext fuel h x s b I Hs Hb)) by lia. rewrite (proj2 (Z.leb_le _ _)) by lia.
  do 3 f_equal. unfold slice. rewrite drop_app_ge by lia. do 2 f_equal. lia.
Qed.

Lemma pull_tail_own_ok fuel pull h x s b delta : inv ext h → skbs h !! x = Some s → bufs h !! head s = Some b → alone h x s →
  0 ≤ delta ≤ data_len s → tail s + delta ≤ end_ s →
  ∃ t h' s', pull_tail_own fuel pull x delta h = Some (Some t, h') ∧ inv ext h' ∧ others x h h' ∧ contents 1 h' x = contents 1 h x ∧
    skbs h' !! x = Some s' ∧ alone h' x s' ∧ len s' = len s ∧ data_len s' = data_len s - delta ∧ end_ s' = end_ s ∧ budget h' = budget h.
Proof.
  intros I Hs Hb Ha Hd Hfit. destruct (inv_pkt _ _ I x s Hs) as (c & Ec & P). assert (c = b) as -> by congruence. clear Ec. destruct (inv_buf _ _ I _ _ Hb) as [Hfl Hm].
  pose proof P as []. unfold KMALLOC_MAX_SIZE in *. set (F := concat (map (page_bytes (pages h)) (frags (b_info b)))). pose proof (pages_len _ _ Hm) as HF. fold F in HF.
  unfold pull_tail_own. rewrite (st_bind_step _ _ _ _ _ (load_ok x h s Hs)), (headlen_ok s b P).
  rewrite (st_bind_step _ _ _ _ _ (copy_bits_in fuel h x s b (len s - data_len s) delta I Hs Hb ltac:(lia) ltac:(lia) ltac:(lia))). cbn [fst snd Z.eqb negb].
  assert (slice (len s - data_len s) delta (packet_bytes (pages h) s b) = take (Z.to_nat delta) F) as ->.
  { rewrite <-(linear_len s b P). apply slice_mid. lia. }
  set (w := take (Z.to_nat delta) F). assert (zlen w = delta) as Hw by (unfold w; rewrite length_take; lia).
  destruct (put_at_Some (b_bytes b) (tail s) w) as [v Ev]; [lia..|]. unfold skb_tail_pointer.
  rewrite (st_bind_step _ _ _ _ _ (write_head_ok x (tail s) w h s b v Hs Hb Ev)). set (h1 := set_bufs _ h).
  assert (bufs h1 !! head s = Some (Buffer v (b_info b))) as Hb1 by apply lookup_insert_eq.
  rewrite (st_bind_step _ _ _ _ _ (skb_shinfo_ok x h1 s _ Hs Hb1)). cbn [b_info]. rewrite Hfl. cbn [Z.eqb NULL]. rewrite st_ret_bind. cbn [negb].
  rewrite (st_bind_step _ _ _ _ _ (skb_shinfo_ok x h1 s _ Hs Hb1)). cbn [b_info].
  destruct (pull_pages_ok (pages h) _ Hm true delta h1 ltac:(lia)) as (fs' & rf & Ep & Hrf & Hm' & Hsz & Hby). rewrite (st_bind_step _ _ _ _ _ Ep).
  set (h2 := set_page_refs rf h1). rewrite (st_bind_step _ _ _ _ _ (update_info_ok x (set_frags fs') h2 s _ Hs Hb1)). cbn [b_bytes b_info].
  set (h3 := set_bufs _ h2). rewrite (st_bind_step _ _ _ _ _ (update_ok x _ h3 s Hs)). cbv beta. set (h4 := set_skbs _ h3).
  set (s' := set_data_len _ _) in h4. set (b' := Buffer v (set_frags fs' (b_info b))).
  rewrite (st_bind_step _ _ _ _ _ (load_ok x h4 s' (lookup_insert_eq _ _ _))).
  assert (u32 (tail s + delta) = tail s + delta) as Et by (apply wrapU_small; unfold is_u; lia).
  assert (u32 (data_len s - delta) = data_len s - delta) as Edl by (apply wrapU_small; unfold is_u; lia).
  assert (h4 = put_packet x s' b' rf (budget h) h) as E4.
  { unfold h4, h3, h2, h1, put_packet, set_skbs, set_bufs, set_page_refs. cbn. by rewrite insert_insert_eq. }
  assert (same_share s s') as S by done.
  assert (inv ext h4) as I'.
  { rewrite E4. apply (inv_update h x s b s' b' rf (budget h) I Hs Hb S); try done; [|by left].
    pose proof (put_at_length _ _ _ _ Ev). split; cbn; rewrite ?Et, ?Edl; done || lia. }
  pose proof (contents_update h x s b s' b' rf (budget h) I Hs Hb S ltac:(by rewrite <-E4) (or_introl Ha)) as [Hx Hy]. rewrite <-E4 in Hx, Hy.
  exists (tail s'), h4, s'. split; [done|]. split_and!; try done; [|apply lookup_insert_eq|].
  2: { rewrite E4. intros y t Ht Hh. cbn in Ht. apply lookup_insert_Some in Ht as [[<- <-]|[Hyx Ht]]; [done|by apply (Ha y t)]. }
  rewrite Hx, (contents_packet ext h x s b I Hs Hb). f_equal. unfold packet_bytes. cbn [b' b_info frags set_frags]. rewrite Hby. fold F.
  rewrite <-(take_drop (Z.to_nat delta) F) at 2. fold w. rewrite app_assoc. f_equal. unfold linear_bytes. cbn. rewrite Edl.
  replace (len s - (data_len s - delta)) with (len s - data_len s + zlen w) by lia. apply (slice_put _ _ _ _ _ _ Ev); lia.
Qed.

(** ** The operations on one packet *)

(** A packet that stays as it is for its holder, with [n] bytes more in the linear part. *)
Record reworked (h h' : heap) (x : Z) (s : sk_buff) (n : Z) : Prop := {
  rw_inv : inv ext h';
  rw_others : others x h h';
  rw_bytes : contents 1 h' x = contents 1 h x;
  rw_skb : ∃ s', skbs h' !! x = Some s' ∧ len s' = len s ∧ data_len s' = data_len s - n ∧
    (alone h' x s' ∨ budget h' = budget h ∧ end_ s' = end_ s) }.

Lemma reworked_refl h x s : inv ext h → skbs h !! x = Some s → reworked h h x s 0.
Proof. intros I Hs. split; try done. exists s. split_and!; [done|done|lia|by right]. Qed.

Lemma expanded_reworked h h' x s b s' b' nhead ntail : skbs h !! x = Some s → expanded x s nhead ntail h h' s' b b' → reworked h h' x s 0.
Proof.
  intros Hs X. destruct X. destruct ex_fields0. split; try done. exists s'. split_and!; [done|done|lia|by left].
Qed.

Lemma pull_tail_ok fuel h x s delta : inv ext h → skbs h !! x = Some s → 0 ≤ delta ≤ data_len s →
  __pskb_pull_tail (S fuel) x delta h = Some (None, set_budget (tl (budget h)) h) ∧ refuses (budget h) (end_ s + delta + 1024) ∨
  ∃ t h', __pskb_pull_tail (S fuel) x delta h = Some (Some t, h') ∧ reworked h h' x s delta.
Proof.
  intros I Hs Hd. destruct (inv_pkt _ _ I x s Hs) as (b & Hb & P). pose proof P as []. unfold KMALLOC_MAX_SIZE in pk_max0.
  cbn [__pskb_pull_tail]. rewrite (st_bind_step _ _ _ _ _ (load_ok x h s Hs)). rewrite (wrapU_small 32 (tail s + delta)) by (unfold is_u; lia).
  rewrite (wrapS_small 32 (tail s + delta - end_ s)) by (unfold is_s; lia). cbv zeta. set (eat := tail s + delta - end_ s).
  destruct (cloned_ok h h x s b I Hs Hb Hs Hb) as (c & Ec & Hc). rewrite (st_bind_step _ _ _ _ _ Ec).
  destruct ((0 <? eat) || c) eqn:Eexp.
  - assert (0 ≤ (if 0 <? eat then eat + 128 else 0) < 2 ^ 30 + 2 ^ 28) as Hgrow by (destruct (Z.ltb_spec 0 eat); lia).
    destruct (expand_ok fuel h x s b 0 _ I Hs Hb ltac:(lia) Hgrow) as [[E Hr]|(h1 & s1 & b1 & E & X)]; rewrite (st_bind_step _ _ _ _ _ E).
    + left. split; [done|]. unfold refuses in *. destruct (budget h) as [|[]]; try done. destruct (Z.ltb_spec 0 eat); lia.
    + right. pose proof X as []. destruct ex_fields0.
      destruct (pull_tail_own_ok fuel (pskb_pull_with (__pskb_pull_tail fuel)) h1 x s1 b1 delta ex_inv0 ex_skb0 ex_buf0 ex_alone0) as (t & h' & s' & Er & I' & Ho & Hx & Hs' & Ha' & El & Edl & Ee & Ebud).
      { lia. }
      { rewrite mf_tail0, (wrapU_small 32) by (unfold is_u; lia). destruct (Z.ltb_spec 0 eat); lia. }
      exists t, h'. split; [exact Er|]. split; [done|by eapply others_trans|congruence|]. exists s'. split_and!; [done|congruence|lia|by left].
  - apply orb_false_iff in Eexp as [E1 ->]. apply Z.ltb_ge in E1. rewrite st_ret_bind. right.
    destruct (pull_tail_own_ok fuel (pskb_pull_with (__pskb_pull_tail fuel)) h x s b delta I Hs Hb ltac:(by apply Hc) Hd ltac:(lia)) as (t & h' & s' & Er & I' & Ho & Hx & Hs' & Ha' & El & Edl & Ee & Ebud).
    exists t, h'. split; [exact Er|]. split; try done. exists s'. split_and!; [done|done|lia|by left].
Qed.

(** Fields that the others do not see. *)
Lemma inv_fields h x s b s' : inv ext h → skbs h !! x = Some s → bufs h !! head s = Some b → same_share s s' → pkt_ok s' b → data s ≤ data s' →
  let h' := set_skbs (<[x := s']> (skbs h)) h in
  inv ext h' ∧ others x h h' ∧ contents 1 h' x = Some (packet_bytes (pages h) s' b).
Proof.
  intros I Hs Hb S P Hd h'. assert (h' = put_packet x s' b (page_refs h) (budget h) h) as E.
  { unfold h', put_packet, set_skbs. by rewrite (ss_head _ _ S), (insert_id (bufs h)). }
  destruct (inv_buf _ _ I _ _ Hb) as [Hfl Hm]. assert (unseen h x s b b ∧ data s ≤ data s') as Hu by (split; [apply unseen_refl|done]).
  assert (inv ext h') as I'. { rewrite E. apply (inv_update h x s b s' b _ _ I Hs Hb S); try done; [intros p; lia|by right]. }
  pose proof (contents_update h x s b s' b (page_refs h) (budget h) I Hs Hb S ltac:(by rewrite <-E) (or_intror Hu)) as [Hx Hy]. rewrite <-E in Hx, Hy. done.
Qed.

Lemma condense_ok fuel h x s : inv ext h → skbs h !! x = Some s →
  ∃ h', skb_condense (S fuel) x h = Some (tt, h') ∧ inv ext h' ∧ others x h h' ∧ contents 1 h' x = contents 1 h x.
Proof.
  intros I Hs. destruct (inv_pkt _ _ I x s Hs) as (b & Hb & P). pose proof P as []. unfold skb_condense. rewrite (st_bind_step _ _ _ _ _ (load_ok x h s Hs)).
  destruct (cloned_ok h h x s b I Hs Hb Hs Hb) as (c & Ec & Hc). rewrite (st_bind_step _ _ _ _ _ Ec).
  destruct (_ && _); [by exists h|].
  assert (∃ h1 s1, (if skb_is_nonlinear s then __pskb_pull_tail (S fuel) x (data_len s) ;; mret tt else mret tt) h = Some (tt, h1) ∧
    inv ext h1 ∧ others x h h1 ∧ contents 1 h1 x = contents 1 h x ∧ skbs h1 !! x = Some s1) as (h1 & s1 & E & I1 & Ho & Hx & Hs1).
  { destruct (skb_is_nonlinear s); [|by exists h, s].
    destruct (pull_tail_ok fuel h x s (data_len s) I Hs ltac:(lia)) as [[E _]|(t & h' & E & [I' Ho Hx (s' & Hs' & _)])]; rewrite (st_bind_step _ _ _ _ _ E).
    - exists (set_budget (tl (budget h)) h), s. split_and!; try done. by apply inv_budget.
    - by exists h', s'. }
  rewrite (st_bind_step _ _ _ _ _ E), (update_ok x _ h1 s1 Hs1). destruct (inv_pkt _ _ I1 x s1 Hs1) as (b1 & Hb1 & P1).
  set (s2 := set_truesize _ s1). assert (pkt_ok s2 b1) as P2 by (by destruct P1).
  destruct (inv_fields h1 x s1 b1 s2 I1 Hs1 Hb1 ltac:(done) P2 ltac:(done)) as (I2 & Ho2 & Hx2). eexists. split; [done|]. split_and!; [done|by eapply others_trans|].
  by rewrite Hx2, <-Hx, (contents_packet ext h1 x s1 b1 I1 Hs1 Hb1).
Qed.

(** The packet after the fragments of [drop] went. *)
Lemma trim_own_ok fuel h x s b n keep drop : inv ext h → skbs h !! x = Some s → bufs h !! head s = Some b → alone h x s → 0 ≤ n < len s →
  (∀ p, uses p (frags (b_info b)) = uses p keep + uses p drop) → Forall (mapped (pages h)) keep → fsize keep = Z.max 0 (n - (len s - data_len s)) →
  concat (map (page_bytes (pages h)) keep) = take (Z.to_nat (n - (len s - data_len s))) (concat (map (page_bytes (pages h)) (frags (b_info b)))) →
  ∃ h', (drop_pages fuel x keep drop ;; trim_done (S fuel) x n) h = Some (0, h') ∧ inv ext h' ∧ others x h h' ∧
    contents 1 h' x = Some (take (Z.to_nat n) (packet_bytes (pages h) s b)).
Proof.
  intros I Hs Hb Ha Hn Hu Hm Hsz Hby. destruct (inv_pkt _ _ I x s Hs) as (c & Ec & P). assert (c = b) as -> by congruence. clear Ec.
  destruct (inv_buf _ _ I _ _ Hb) as [Hfl _]. pose proof (linear_len s b P) as Hlin. pose proof P as []. unfold KMALLOC_MAX_SIZE in *.
  set (b' := Buffer (b_bytes b) (set_frags keep (b_info b))). set (h1 := set_bufs (<[head s := b']> (bufs h)) h).
  destruct (unref_frags_ok drop h1) as (rf & Erf & Hrf). set (h2 := set_page_refs rf h1).
  assert (drop_pages fuel x keep drop h = Some (tt, h2)) as Edrop.
  { unfold drop_pages. rewrite (st_bind_step _ _ _ _ _ (update_info_ok x (set_frags keep) h s b Hs Hb)). rewrite (st_bind_step _ _ _ _ _ Erf).
    unfold skb_has_frag_list. rewrite st_bind_assoc, (st_bind_step _ _ _ _ _ (skb_shinfo_ok x h2 s b' Hs (lookup_insert_eq _ _ _))). cbn [b' b_info set_frags frag_list].
    by rewrite st_ret_bind, Hfl. }
  rewrite (st_bind_step _ _ _ _ _ Edrop). unfold trim_done. rewrite (st_bind_step _ _ _ _ _ (update_ok x _ h2 s Hs)). cbv beta.
  set (s' := if skb_headlen s <? n then _ else _). set (h3 := set_skbs (<[x := s']> (skbs h2)) h2).
  assert (u32 (len s - n) = len s - n) as E1 by (apply wrapU_small; unfold is_u; lia).
  assert (same_share s s' ∧ pkt_ok s' b' ∧ len s' = n ∧ len s' - data_len s' = Z.min n (len s - data_len s) ∧ data s' = data s) as (S & P' & El & Ell & Ed).
  { unfold s'. rewrite (headlen_ok s b P), E1. destruct (Z.ltb_spec (len s - data_len s) n) as [Hlt|Hge].
    - rewrite (wrapU_small 32 (data_len s - (len s - n))) by (unfold is_u; lia). split_and!; try done; [|cbn; lia]. split; cbn; done || lia.
    - unfold skb_set_tail_pointer, skb_reset_tail_pointer. cbn [data tail set_tail set_data_len set_len]. rewrite (wrapU_small 32 (data s)), (wrapU_small 32 (data s + n)) by (unfold is_u; lia).
      split_and!; try done; [|cbn; lia]. split; cbn; done || lia. }
  assert (h3 = put_packet x s' b' rf (budget h) h) as E3. { unfold h3, h2, h1, put_packet. by rewrite (ss_head _ _ S). }
  assert (inv ext h3) as I3.
  { rewrite E3. apply (inv_update h x s b s' b' rf (budget h) I Hs Hb S); try done; [|by left]. intros p. rewrite Hrf. unfold buf_uses. cbn. rewrite (Hu p). lia. }
  pose proof (contents_update h x s b s' b' rf (budget h) I Hs Hb S ltac:(by rewrite <-E3) (or_introl Ha)) as [Hx Hy]. rewrite <-E3 in Hx, Hy.
  assert (packet_bytes (pages h) s' b' = take (Z.to_nat n) (packet_bytes (pages h) s b)) as Ep.
  { unfold packet_bytes. cbn [b' b_info frags set_frags]. rewrite Hby, take_app. f_equal; [|f_equal; lia]. unfold linear_bytes. cbn. rewrite Ell, Ed. unfold slice.
    rewrite take_take. f_equal. lia. }
  assert (skbs h3 !! x = Some s') as Hs3 by apply lookup_insert_eq. rewrite (st_bind_step _ _ _ _ _ (load_ok x h3 s' Hs3)). destruct (owned s').
  - rewrite st_ret_bind. exists h3. split_and!; try done. by rewrite Hx, Ep.
  - destruct (condense_ok fuel h3 x s' I3 Hs3) as (h4 & E4 & I4 & Ho4 & Hx4). rewrite (st_bind_step _ _ _ _ _ E4). exists h4. split_and!; try done.
    + by apply (others_trans x h h3 h4).
    + by rewrite Hx4, Hx, Ep.
Qed.

Lemma trim_ok fuel h x s bs n : inv ext h → skbs h !! x = Some s → contents 1 h x = Some bs → 0 ≤ n →
  pskb_trim (S fuel) x n h = Some (- ENOMEM, set_budget (tl (budget h)) h) ∧ refuses (budget h) (end_ s + 1024) ∨
  ∃ h', pskb_trim (S fuel) x n h = Some (0, h') ∧ inv ext h' ∧ others x h h' ∧ contents 1 h' x = Some (take (Z.to_nat n) bs).
Proof.
  intros I Hs Hc Hn. destruct (inv_pkt _ _ I x s Hs) as (b & Hb & P). rewrite (contents_packet ext h x s b I Hs Hb) in Hc. injection Hc as <-.
  pose proof (packet_len ext h x s b I Hs Hb) as Hlen. pose proof P as []. unfold KMALLOC_MAX_SIZE in pk_max0.
  unfold pskb_trim, pskb_trim_with. rewrite (st_bind_step _ _ _ _ _ (load_ok x h s Hs)). destruct (Z.ltb_spec n (len s)) as [Hlt|Hge].
  2: { right. exists h. split_and!; try done. rewrite take_ge by lia. by apply (contents_packet ext). }
  unfold skb_is_nonlinear. destruct (Z.eqb_spec (data_len s) 0) as [Hlin|Hnl]; cbn [negb].
  - right. rewrite (st_bind_step _ _ _ _ _ (update_ok x _ h s Hs)). set (s' := __skb_trim n s).
    assert (same_share s s' ∧ pkt_ok s' b ∧ len s' = n ∧ data_len s' = 0 ∧ data s' = data s) as (S & P' & El & Edl & Ed).
    { unfold s', __skb_trim, __skb_set_length, skb_is_nonlinear. rewrite Hlin. cbn [Z.eqb negb]. unfold skb_set_tail_pointer, skb_reset_tail_pointer. cbn [data tail set_tail set_len].
      rewrite (wrapU_small 32 (data s)), (wrapU_small 32 (data s + n)) by (unfold is_u; lia). split_and!; try done. split; cbn; done || lia. }
    destruct (inv_fields h x s b s' I Hs Hb S P' ltac:(lia)) as (I' & Ho & Hx). eexists. split; [done|]. split_and!; [done|done|]. rewrite Hx. f_equal.
    assert (fsize (frags (b_info b)) = 0) as Hz by lia. destruct (inv_buf _ _ I _ _ Hb) as [_ Hm]. pose proof (pages_len _ _ Hm) as HF. rewrite Hz in HF.
    unfold packet_bytes. destruct (concat _); [|cbn in HF; lia]. rewrite !app_nil_r. unfold linear_bytes, slice. rewrite take_take, El, Edl, Ed. f_equal. lia.
  - cbn [___pskb_trim]. rewrite (st_bind_step _ _ _ _ _ (load_ok x h s Hs)). rewrite (headlen_ok s b P).
    destruct (cloned_ok h h x s b I Hs Hb Hs Hb) as (c & Ec & Hcl). rewrite (st_bind_step _ _ _ _ _ Ec).
    assert ((if c then pskb_expand_head fuel x 0 0 else mret 0) h = Some (- ENOMEM, set_budget (tl (budget h)) h) ∧ refuses (budget h) (end_ s + 1024) ∨
      ∃ h1 s1 b1, (if c then pskb_expand_head fuel x 0 0 else mret 0) h = Some (0, h1) ∧ inv ext h1 ∧ others x h h1 ∧ skbs h1 !! x = Some s1 ∧ bufs h1 !! head s1 = Some b1 ∧ alone h1 x s1 ∧
        len s1 = len s ∧ data_len s1 = data_len s ∧ contents 1 h1 x = contents 1 h x) as [[E Hr]|(h1 & s1 & b1 & E & I1 & Ho1 & Hs1 & Hb1 & Ha1 & El1 & Edl1 & Hx1)].
    { destruct c.
      - destruct (expand_ok fuel h x s b 0 0 I Hs Hb ltac:(lia) ltac:(lia)) as [[E Hr]|(h1 & s1 & b1 & E & [])]; [left|right].
        + split; [done|]. unfold refuses in *. destruct (budget h) as [|[]]; try done. lia.
        + destruct ex_fields0. exists h1, s1, b1. by split_and!.
      - right. exists h, s, b. split_and!; try done. by apply Hcl. }
    { left. by rewrite (st_bind_step _ _ _ _ _ E). }
    right. rewrite (st_bind_step _ _ _ _ _ E). cbn [Z.eqb negb]. rewrite (st_bind_step _ _ _ _ _ (skb_shinfo_ok x h1 s1 b1 Hs1 Hb1)).
    destruct (inv_buf _ _ I1 _ _ Hb1) as [_ Hm1]. destruct (inv_pkt _ _ I1 x s1 Hs1) as (b2 & E2 & P1). assert (b2 = b1) as -> by congruence.
    assert (packet_bytes (pages h1) s1 b1 = packet_bytes (pages h) s b) as Epk.
    { rewrite (contents_packet ext h x s b I Hs Hb), (contents_packet ext h1 x s1 b1 I1 Hs1 Hb1) in Hx1. by injection Hx1. }
    rewrite <-Epk, <-El1, <-Edl1 in *. destruct (Z.leb_spec n (len s1 - data_len s1)) as [Hle|Hgt].
    + destruct (trim_own_ok fuel h1 x s1 b1 n [] (frags (b_info b1)) I1 Hs1 Hb1 Ha1) as (h' & E' & I' & Ho' & Hx'); [lia|done|done|cbn; lia| |].
      { cbn. by replace (Z.to_nat (n - (len s1 - data_len s1))) with O by lia. }
      exists h'. split_and!; [exact E'|done|by eapply others_trans|done].
    + destruct P1. destruct (trim_frags_ok (pages h1) _ Hm1 (len s1 - data_len s1) n) as (keep & drop & Et & Hu & Hmk & Hsz & Hby); [lia..|]. rewrite Et.
      destruct (trim_own_ok fuel h1 x s1 b1 n keep drop I1 Hs1 Hb1 Ha1) as (h' & E' & I' & Ho' & Hx'); [lia|done|done|lia|done|].
      exists h'. split_and!; [exact E'|done|by eapply others_trans|done].
Qed.

Lemma pull_front_ok h x s b n : inv ext h → skbs h !! x = Some s → bufs h !! head s = Some b → 0 ≤ n ≤ len s - data_len s →
  ∃ h', (update x (pull_front n) ;; s ← load x; mret (Some (data s))) h = Some (Some (data s + n), h') ∧ inv ext h' ∧ others x h h' ∧
    contents 1 h' x = Some (drop (Z.to_nat n) (packet_bytes (pages h) s b)).
Proof.
  intros I Hs Hb Hn. destruct (inv_pkt _ _ I x s Hs) as (c & Ec & P). assert (c = b) as -> by congruence. clear Ec. pose proof (linear_len s b P) as Hlin. pose proof P as [].
  rewrite (st_bind_step _ _ _ _ _ (update_ok x _ h s Hs)). set (s' := pull_front n s). assert (u32 (len s - n) = len s - n) as El by (apply wrapU_small; unfold is_u; lia).
  assert (pkt_ok s' b) as P' by (split; cbn; rewrite ?El; done || lia). destruct (inv_fields h x s b s' I Hs Hb ltac:(done) P' ltac:(cbn; lia)) as (I' & Ho & Hx).
  set (h' := set_skbs _ h) in *. rewrite (st_bind_step _ _ _ _ _ (load_ok x h' s' (lookup_insert_eq _ _ _))). exists h'. split_and!; [done|done|done|]. rewrite Hx. f_equal.
  unfold packet_bytes. rewrite drop_app_le by lia. f_equal. unfold linear_bytes, slice. cbn. rewrite El, skipn_firstn_comm, drop_drop. f_equal; [lia|]. f_equal. lia.
Qed.

Lemma pull_ok fuel h x s bs n : inv ext h → skbs h !! x = Some s → contents 1 h x = Some bs → 0 ≤ n →
  (pskb_pull (S fuel) x n h = Some (None, h) ∧ zlen bs < n ∨
   pskb_pull (S fuel) x n h = Some (None, set_budget (tl (budget h)) h) ∧ refuses (budget h) (end_ s + n + 1024)) ∨
  ∃ t h', pskb_pull (S fuel) x n h = Some (Some t, h') ∧ n ≤ zlen bs ∧ inv ext h' ∧ others x h h' ∧ contents 1 h' x = Some (drop (Z.to_nat n) bs).
Proof.
  intros I Hs Hc Hn. destruct (inv_pkt _ _ I x s Hs) as (b & Hb & P). rewrite (contents_packet ext h x s b I Hs Hb) in Hc. injection Hc as <-.
  rewrite (packet_len ext h x s b I Hs Hb). pose proof P as []. unfold pskb_pull, pskb_pull_with. rewrite (st_bind_step _ _ _ _ _ (load_ok x h s Hs)).
  destruct (Z.ltb_spec (len s) n) as [Hlt|Hge]; [by left; left|]. unfold __pskb_pull_with. rewrite (st_bind_step _ _ _ _ _ (load_ok x h s Hs)), (headlen_ok s b P).
  destruct (Z.ltb_spec (len s - data_len s) n) as [Hlt|Hle].
  - destruct (pull_tail_ok fuel h x s (n - (len s - data_len s)) I Hs ltac:(lia)) as [[E Hr]|(t & h1 & E & [I1 Ho1 Hx1 (s1 & Hs1 & El1 & Edl1 & _)])]; rewrite (st_bind_step _ _ _ _ _ E).
    + left. right. split; [done|]. unfold refuses in *. destruct (budget h) as [|[]]; try done. lia.
    + right. destruct (inv_pkt _ _ I1 x s1 Hs1) as (b1 & Hb1 & P1). destruct (pull_front_ok h1 x s1 b1 n I1 Hs1 Hb1 ltac:(lia)) as (h' & E' & I' & Ho' & Hx').
      exists (data s1 + n), h'. split_and!; [exact E'|done|done|by eapply others_trans|]. rewrite Hx'. do 2 f_equal.
      rewrite (contents_packet ext h x s b I Hs Hb), (contents_packet ext h1 x s1 b1 I1 Hs1 Hb1) in Hx1. by injection Hx1.
  - right. rewrite st_ret_bind. destruct (pull_front_ok h x s b n I Hs Hb ltac:(lia)) as (h' & E' & I' & Ho' & Hx'). exists (data s + n), h'. done.
Qed.

(** pskb_may_pull: afterwards the linear part has [n] bytes. *)
Lemma may_pull_ok fuel h x s n : inv ext h → skbs h !! x = Some s → 0 ≤ n →
  (pskb_may_pull (S fuel) x n h = Some (false, h) ∧ len s < n ∨
   pskb_may_pull (S fuel) x n h = Some (false, set_budget (tl (budget h)) h) ∧ refuses (budget h) (end_ s + n + 1024)) ∨
  ∃ h' k, pskb_may_pull (S fuel) x n h = Some (true, h') ∧ reworked h h' x s k ∧ n ≤ len s - data_len s + k ∧ 0 ≤ k.
Proof.
  intros I Hs Hn. destruct (inv_pkt _ _ I x s Hs) as (b & Hb & P). pose proof P as []. unfold pskb_may_pull. rewrite (st_bind_step _ _ _ _ _ (load_ok x h s Hs)), (headlen_ok s b P).
  destruct (Z.leb_spec n (len s - data_len s)) as [Hle|Hgt]; [right; exists h, 0; split_and!; [done|by apply reworked_refl|lia|done]|].
  destruct (Z.ltb_spec (len s) n) as [Hlt|Hge]; [by left; left|].
  destruct (pull_tail_ok fuel h x s (n - (len s - data_len s)) I Hs ltac:(lia)) as [[E Hr]|(t & h1 & E & R)]; rewrite (st_bind_step _ _ _ _ _ E).
  - left. right. split; [done|]. unfold refuses in *. destruct (budget h) as [|[]]; try done. lia.
  - right. exists h1, (n - (len s - data_len s)). split_and!; [done|done|lia|lia].
Qed.

(** ** Writing *)

Lemma slice_put_after l v off w o n : put_at l off w = Some v → off + zlen w ≤ o → slice o n v = slice o n l.
Proof.
  intros E Ho. unfold put_at in E. destruct (_ && _) eqn:Eb in E; [|done]. to_prop. injection E as <-. unfold slice. f_equal.
  rewrite drop_app_ge by (rewrite length_take; lia). rewrite length_take. rewrite drop_app_ge by lia. rewrite drop_drop. f_equal. lia.
Qed.

Lemma slice_split o n m l : 0 ≤ o → 0 ≤ n → 0 ≤ m → slice o (n + m) l = slice o n l ++ slice (o + n) m l.
Proof.
  intros Ho Hn Hm. unfold slice. rewrite Z2Nat.inj_add by done. rewrite (Z2Nat.inj_add o n) by done. rewrite <-drop_drop.
  by rewrite take_take_drop.
Qed.

(** The write in place, unseen by the others. *)
Lemma write_in_place h x s b o w : inv ext h → skbs h !! x = Some s → bufs h !! head s = Some b → 0 ≤ o → o + zlen w ≤ len s - data_len s →
  (∀ v, put_at (b_bytes b) (data s + o) w = Some v → alone h x s ∨ unseen h x s b (Buffer v (b_info b))) →
  ∃ h', skb_copy_to_linear_data_offset x o w h = Some (tt, h') ∧ inv ext h' ∧ others x h h' ∧ contents 1 h' x = put_at (packet_bytes (pages h) s b) o w.
Proof.
  intros I Hs Hb Ho How Hun. destruct (inv_pkt _ _ I x s Hs) as (c & Ec & P). assert (c = b) as -> by congruence. clear Ec. pose proof (linear_len s b P) as Hlin.
  pose proof P as []. destruct (inv_buf _ _ I _ _ Hb) as [Hfl Hm]. destruct (put_at_Some (b_bytes b) (data s + o) w) as [v Ev]; [lia..|]. specialize (Hun v Ev).
  unfold skb_copy_to_linear_data_offset. rewrite (st_bind_step _ _ _ _ _ (load_ok x h s Hs)), (write_head_ok x (data s + o) w h s b v Hs Hb Ev).
  set (b' := Buffer v (b_info b)). set (h' := set_bufs _ h). assert (h' = put_packet x s b' (page_refs h) (budget h) h) as E.
  { unfold h', put_packet, set_bufs. by rewrite (insert_id (skbs h)). }
  assert (alone h x s ∨ unseen h x s b b' ∧ data s ≤ data s) as Hvis by (destruct Hun; [by left|by right]).
  pose proof (put_at_length _ _ _ _ Ev) as Hlv. assert (pkt_ok s b') as P' by (apply (pkt_ok_frame s b); done).
  assert (inv ext h') as I'. { rewrite E. apply (inv_update h x s b s b' _ _ I Hs Hb); try done. intros p. unfold buf_uses, b'. cbn. lia. }
  pose proof (contents_update h x s b s b' (page_refs h) (budget h) I Hs Hb ltac:(done) ltac:(by rewrite <-E) Hvis) as [Hx Hy]. rewrite <-E in Hx, Hy.
  exists h'. split_and!; [done|done|done|]. rewrite Hx. unfold put_at. rewrite (packet_len ext h x s b I Hs Hb). rewrite !(proj2 (Z.leb_le _ _)) by lia. cbn [andb]. f_equal.
  unfold packet_bytes. cbn [b' b_info]. rewrite take_app_le by lia. rewrite drop_app_le by lia. rewrite !app_assoc. f_equal. rewrite <-app_assoc.
  unfold linear_bytes. cbn [b_bytes b']. set (rest := len s - data_len s - o - zlen w).
  replace (len s - data_len s) with (o + zlen w + rest) at 1 by (unfold rest; lia). rewrite (slice_split _ (o + zlen w) rest) by (unfold rest; lia).
  rewrite (slice_put _ _ _ _ _ _ Ev) by lia. rewrite (slice_put_after _ _ _ _ _ _ Ev) by lia. rewrite <-app_assoc. f_equal.
  - unfold slice. rewrite take_take. f_equal. lia.
  - f_equal. unfold slice. rewrite skipn_firstn_comm, drop_drop. f_equal; [unfold rest; lia|]. f_equal. lia.
Qed.

(** A packet whose header may be written although others share the buffer: they have the
    payload only, which lies behind. *)
Lemma writable_ok h x s b m : inv ext h → skbs h !! x = Some s → bufs h !! head s = Some b → 0 ≤ m < 2 ^ 31 →
  ∃ w, skb_clone_writable x m h = Some (w, h) ∧
    (w = true → alone h x s ∨ ∀ y t, y ≠ x → skbs h !! y = Some t → head t = head s → data s + m ≤ data t ∨ m = 0).
Proof.
  intros I Hs Hb Hm. destruct (inv_pkt _ _ I x s Hs) as (c & Ec & P). assert (c = b) as -> by congruence. clear Ec. pose proof P as []. unfold KMALLOC_MAX_SIZE in *.
  destruct (inv_ref _ _ I _ _ Hb) as [Hd HN]. assert (0 ≤ msum (pay (head s)) (skbs h)) by by apply msum_nonneg.
  unfold skb_clone_writable, skb_header_cloned. rewrite !st_bind_assoc, (st_bind_step _ _ _ _ _ (load_ok x h s Hs)), !st_bind_assoc, (st_bind_step _ _ _ _ _ (skb_shinfo_ok x h s b Hs Hb)), st_ret_bind.
  rewrite (st_bind_step _ _ _ _ _ (load_ok x h s Hs)). eexists. split; [reflexivity|]. intros Hw. apply andb_true_iff in Hw as [Hc Hl]. apply Z.leb_le in Hl.
  destruct (cloned s) eqn:Ecl; [|left; intros y t Ht Hh; symmetry; by apply (inv_sole _ _ I x y s t)]. right. cbn [negb andb] in Hc. rewrite negb_involutive, Z.eqb_eq in Hc.
  assert (msum (own (head s)) (skbs h) - msum (pay (head s)) (skbs h) = 1) as Hone.
  { rewrite <-Hc. unfold refs, payload_refs, SKB_DATAREF_MASK, SKB_DATAREF_SHIFT. change 65535 with (Z.ones 16). rewrite Z.land_ones, Z.shiftr_div_pow2 by lia.
    rewrite Hd. change (2 ^ 16) with 65536. rewrite (Z.mul_comm 65536), Z.mod_add, Z.div_add by lia. rewrite Z.mod_small, Z.div_small by lia. lia. }
  rewrite <-msum_sub in Hone. unfold skb_headroom in Hl. rewrite (wrapU_small 32 (data s)), (wrapU_small 32 (data s + m)) in Hl by (unfold is_u; lia).
  intros y t Hy Ht Hh. destruct (nohdr s) eqn:En; [right; pose proof (inv_fresh _ _ I x s Hs (or_introl En)); lia|]. left.
  assert (∀ u, 0 ≤ own (head s) u - pay (head s) u) as Hpos by (intros u; pose proof (pay_own (head s) u); lia).
  pose proof (msum_two _ _ x y s t Hpos ltac:(done) Hs Ht) as H2. cbv beta in H2. rewrite own_self, pay_self, En in H2.
  assert (own (head s) t = 1) as E1 by (rewrite <-Hh; apply own_self). assert (pay (head s) t = if nohdr t then 1 else 0) as E2 by (rewrite <-Hh; apply pay_self).
  destruct (nohdr t) eqn:Ent; [|lia]. pose proof (inv_hdr _ _ I x y s t Hs Ht ltac:(done) ltac:(done) Ent). lia.
Qed.

(** Changing bytes of a packet: first the bytes are brought to the linear part and made
    writable, then they are written. *)
Definition write_packet (fuel : nat) (x o : Z) (w : list Z) : hst Z :=
  r ← skb_ensure_writable fuel x (o + zlen w);
  if r =? 0 then skb_copy_to_linear_data_offset x o w ;; mret 0 else mret r.

Lemma write_ok fuel h x s bs o w : inv ext h → skbs h !! x = Some s → contents 1 h x = Some bs → 0 ≤ o → o + zlen w < 2 ^ 31 →
  (write_packet (S fuel) x o w h = Some (- ENOMEM, h) ∧ zlen bs < o + zlen w ∨
   ∃ h', write_packet (S fuel) x o w h = Some (- ENOMEM, h') ∧ inv ext h' ∧ others x h h' ∧ contents 1 h' x = Some bs ∧ refuses (budget h) (end_ s + o + zlen w + 1024)) ∨
  ∃ h', write_packet (S fuel) x o w h = Some (0, h') ∧ inv ext h' ∧ others x h h' ∧ contents 1 h' x = put_at bs o w ∧ o + zlen w ≤ zlen bs.
Proof.
  intros I Hs Hc Ho How. destruct (inv_pkt _ _ I x s Hs) as (b & Hb & P). pose proof P as []. pose proof (contents_packet ext h x s b I Hs Hb) as Hc0. rewrite Hc in Hc0.
  injection Hc0 as ->. rewrite (packet_len ext h x s b I Hs Hb). set (m := o + zlen w) in *. unfold write_packet, skb_ensure_writable. rewrite !st_bind_assoc.
  destruct (may_pull_ok fuel h x s m I Hs ltac:(lia)) as [[[E Hlt]|[E Hr]]|(h1 & k & E & R & Hk & Hk0)]; rewrite (st_bind_step _ _ _ _ _ E); cbn [negb].
  - left. left. by split; [|lia].
  - left. right. exists (set_budget (tl (budget h)) h). split_and!; [done|by apply inv_budget|done|done|]. unfold refuses in *. destruct (budget h) as [|[]]; try done. lia.
  - destruct R as [I1 Ho1 Hx1 (s1 & Hs1 & El1 & Edl1 & Hal)]. destruct (inv_pkt _ _ I1 x s1 Hs1) as (b1 & Hb1 & P1). pose proof (contents_packet ext h1 x s1 b1 I1 Hs1 Hb1) as Hc1.
    destruct (cloned_ok h1 h1 x s1 b1 I1 Hs1 Hb1 Hs1 Hb1) as (c & Ec & Hcl). rewrite !st_bind_assoc, (st_bind_step _ _ _ _ _ Ec).
    destruct (writable_ok h1 x s1 b1 m I1 Hs1 Hb1 ltac:(lia)) as (wr & Ew & Hwr). rewrite !st_bind_assoc, (st_bind_step _ _ _ _ _ Ew).
    assert (o + zlen w ≤ len s1 - data_len s1) as Hfit by lia. assert (packet_bytes (pages h1) s1 b1 = packet_bytes (pages h) s b) as Epk by congruence. pose proof P1 as [].
    destruct (negb c || wr) eqn:Eok.
    + right. rewrite st_ret_bind. cbn [Z.eqb]. destruct (write_in_place h1 x s1 b1 o w I1 Hs1 Hb1 Ho Hfit) as (h' & E' & I' & Ho' & Hx').
      { intros v Ev. assert (alone h1 x s1 ∨ ∀ y t, y ≠ x → skbs h1 !! y = Some t → head t = head s1 → data s1 + m ≤ data t ∨ m = 0) as [Ha|Hbehind]; [|by left|].
        { apply orb_true_iff in Eok as [Hn| ->]; [left; apply Hcl; by destruct c|by apply Hwr]. }
        right. split_and!; [done|by apply (put_at_length _ _ _ _ Ev)|]. intros y t Hy Ht Hh. destruct (Hbehind y t Hy Ht Hh) as [Hd|Hz].
        - apply (slice_put_after _ _ _ _ _ _ Ev). lia.
        - assert (w = []) as -> by (apply length_zero_iff_nil; lia). unfold put_at in Ev. destruct (_ && _) in Ev; [|done]. injection Ev as <-. cbn [app length].
          unfold linear_bytes. cbn [b_bytes]. by rewrite Nat.add_0_r, take_drop. }
      rewrite (st_bind_step _ _ _ _ _ E'). exists h'. split_and!; [done|done|by eapply others_trans|by rewrite Hx', Epk|lia].
    + apply orb_false_iff in Eok as [Hcc _]. destruct c; [|done].
      destruct (expand_ok (S fuel) h1 x s1 b1 0 0 I1 Hs1 Hb1 ltac:(lia) ltac:(lia)) as [[E2 Hr]|(h2 & s2 & b2 & E2 & X)]; rewrite (st_bind_step _ _ _ _ _ E2); cbn [Z.eqb].
      * left. right. exists (set_budget (tl (budget h1)) h1). split_and!; [done|by apply inv_budget|done|cbn; by rewrite <-Epk|].
        destruct Hal as [Ha|[Hb' He]]; [by apply Hcl in Ha|]. rewrite Hb' in Hr. unfold refuses in *. destruct (budget h) as [|[]]; try done. lia.
      * right. destruct X. destruct ex_fields0. destruct (write_in_place h2 x s2 b2 o w ex_inv0 ex_skb0 ex_buf0 Ho ltac:(lia) ltac:(by left)) as (h' & E' & I' & Ho' & Hx').
        rewrite (st_bind_step _ _ _ _ _ E'). exists h'. split_and!; [done|done|by eapply others_trans, others_trans| |lia]. rewrite Hx'.
        pose proof (contents_packet ext h2 x s2 b2 ex_inv0 ex_skb0 ex_buf0). f_equal. congruence.
Qed.

(** ** Room before the data *)

Lemma cow_ok fuel h x s n : inv ext h → skbs h !! x = Some s → 0 ≤ n < 2 ^ 27 →
  skb_cow fuel x n h = Some (- ENOMEM, set_budget (tl (budget h)) h) ∧ refuses (budget h) (end_ s + n + 1024) ∨
  ∃ h' s' b', skb_cow fuel x n h = Some (0, h') ∧ inv ext h' ∧ others x h h' ∧ contents 1 h' x = contents 1 h x ∧
    skbs h' !! x = Some s' ∧ bufs h' !! head s' = Some b' ∧ alone h' x s' ∧ n ≤ data s' ∧ len s' = len s.
Proof.
  intros I Hs Hn. destruct (inv_pkt _ _ I x s Hs) as (b & Hb & P). pose proof P as []. unfold KMALLOC_MAX_SIZE in *. unfold skb_cow, __skb_cow.
  destruct (cloned_ok h h x s b I Hs Hb Hs Hb) as (c & Ec & Hc). rewrite (st_bind_step _ _ _ _ _ Ec), (st_bind_step _ _ _ _ _ (load_ok x h s Hs)).
  unfold skb_headroom. rewrite (wrapU_small 32 (data s)) by (unfold is_u; lia). cbv zeta.
  set (delta := if data s <? n then s32 (n - data s) else 0). assert (0 ≤ delta ∧ n ≤ data s + delta ∧ delta ≤ n) as Hdelta.
  { unfold delta. destruct (Z.ltb_spec (data s) n); [rewrite (wrapS_small 32) by (unfold is_s; lia)|]; lia. }
  destruct (negb (delta =? 0) || c) eqn:E.
  - assert (delta ≤ ALIGN delta NET_SKB_PAD ≤ delta + 63) as Hal by (unfold ALIGN, NET_SKB_PAD; dlia).
    rewrite (wrapS_small 32) by (unfold is_s; lia). destruct (expand_ok fuel h x s b (ALIGN delta NET_SKB_PAD) 0 I Hs Hb ltac:(lia) ltac:(lia)) as [[-> Hr]|(h' & s' & b' & -> & X)].
    + left. split; [done|]. unfold refuses in *. destruct (budget h) as [|[]]; try done. lia.
    + right. destruct X. destruct ex_fields0. exists h', s', b'. split_and!; done || lia.
  - right. apply orb_false_iff in E as [E ->]. apply negb_false_iff, Z.eqb_eq in E. exists h, s, b. split_and!; try done; [by apply Hc|lia].
Qed.

(** Putting a header before the packet. *)
Definition prepend_packet (fuel : nat) (x : Z) (w : list Z) : hst Z :=
  r ← skb_cow fuel x (zlen w);
  if r =? 0 then o ← on x (skb_push (zlen w)); write_head x o w ;; mret 0 else mret r.

Lemma prepend_ok fuel h x s bs w : inv ext h → skbs h !! x = Some s → contents 1 h x = Some bs → zlen w < 2 ^ 27 → zlen w + zlen bs < 2 ^ 30 →
  prepend_packet fuel x w h = Some (- ENOMEM, set_budget (tl (budget h)) h) ∧ refuses (budget h) (end_ s + zlen w + 1024) ∨
  ∃ h', prepend_packet fuel x w h = Some (0, h') ∧ inv ext h' ∧ others x h h' ∧ contents 1 h' x = Some (w ++ bs).
Proof.
  intros I Hs Hcx Hw Hsum. unfold prepend_packet.
  destruct (cow_ok fuel h x s (zlen w) I Hs ltac:(lia)) as [[E Hr]|(h1 & s1 & b1 & E & I1 & Ho1 & Hx1 & Hs1 & Hb1 & Ha1 & Hd1 & El1)]; rewrite (st_bind_step _ _ _ _ _ E); cbn [Z.eqb].
  { by left. }
  right. destruct (inv_pkt _ _ I1 x s1 Hs1) as (c & Ec & P). assert (c = b1) as -> by congruence. clear Ec. pose proof (linear_len s1 b1 P) as Hlin. pose proof P as [].
  unfold KMALLOC_MAX_SIZE in *. destruct (inv_buf _ _ I1 _ _ Hb1) as [Hfl Hm]. rewrite Hcx in Hx1. pose proof (contents_packet ext h1 x s1 b1 I1 Hs1 Hb1) as Hc1. pose proof (packet_len ext h1 x s1 b1 I1 Hs1 Hb1) as Hpl.
  assert (packet_bytes (pages h1) s1 b1 = bs) as Ebs by congruence. rewrite Ebs in Hpl.
  set (s' := set_len (u32 (len s1 + zlen w)) (set_data (data s1 - zlen w) s1)).
  assert (skb_push (zlen w) s1 = Some (data s1 - zlen w, s')) as Epush.
  { unfold skb_push. rewrite (st_bind_step _ _ _ _ _ (eq_refl : __skb_push _ s1 = Some (_, s'))). by rewrite (proj2 (Z.ltb_ge _ _)) by lia. }
  rewrite (st_bind_step _ _ _ _ _ (on_ok x _ h1 s1 _ s' Hs1 Epush)). set (h2 := set_skbs _ h1).
  destruct (put_at_Some (b_bytes b1) (data s1 - zlen w) w) as [v Ev]; [lia..|].
  rewrite (st_bind_step _ _ _ _ _ (write_head_ok x _ w h2 s' b1 v (lookup_insert_eq _ _ _) Hb1 Ev)).
  set (b' := Buffer v (b_info b1)). set (h3 := set_bufs _ h2). assert (h3 = put_packet x s' b' (page_refs h1) (budget h1) h1) as E3 by done.
  assert (u32 (len s1 + zlen w) = len s1 + zlen w) as Elen by (apply wrapU_small; unfold is_u; lia). pose proof (put_at_length _ _ _ _ Ev) as Hlv.
  assert (inv ext h3) as I3.
  { rewrite E3. apply (inv_update h1 x s1 b1 s' b' _ _ I1 Hs1 Hb1); try done; [|intros p; unfold buf_uses, b'; cbn; lia|by left]. split; cbn; rewrite ?Elen; done || lia. }
  pose proof (contents_update h1 x s1 b1 s' b' (page_refs h1) (budget h1) I1 Hs1 Hb1 ltac:(done) ltac:(by rewrite <-E3) (or_introl Ha1)) as [Hx Hy]. rewrite <-E3 in Hx, Hy.
  exists h3. split_and!; [done|done|by apply (others_trans x h h1 h3)|]. rewrite Hx, <-Ebs. f_equal. unfold packet_bytes. rewrite app_assoc. f_equal. unfold linear_bytes. cbn. rewrite Elen.
  replace (len s1 + zlen w - data_len s1) with (0 + zlen w + (len s1 - data_len s1)) by lia. rewrite slice_split by lia.
  rewrite (slice_put _ _ _ _ _ _ Ev) by lia. rewrite (slice_put_after _ _ _ _ _ _ Ev) by lia. rewrite (slice_none _ 0) by lia. cbn [app]. f_equal. f_equal. lia.
Qed.

(** A packet gives up its header, before it is cloned. *)
Lemma header_release_ok h x s : inv ext h → skbs h !! x = Some s → cloned s = false →
  ∃ h', __skb_header_release x h = Some (tt, h') ∧ inv ext h' ∧ others x h h' ∧ contents 1 h' x = contents 1 h x.
Proof.
  intros I Hs Hc. destruct (inv_pkt _ _ I x s Hs) as (b & Hb & P). destruct (inv_buf _ _ I _ _ Hb) as [Hfl Hm].
  assert (alone h x s) as Ha by (intros y t Ht Hh; symmetry; by apply (inv_sole _ _ I x y s t)).
  unfold __skb_header_release. rewrite (st_bind_step _ _ _ _ _ (update_ok x _ h s Hs)). set (s' := set_nohdr true s). set (h1 := set_skbs _ h).
  rewrite (update_info_ok x _ h1 s' b (lookup_insert_eq _ _ _) Hb). set (b' := Buffer _ _). set (h' := set_bufs _ h1).
  set (h0 := Heap (delete x (skbs h)) (delete (head s) (bufs h)) (pages h) (λ p, page_refs h p - buf_uses p b) (budget h)).
  assert (inv ext h0) as I0 by (apply (inv_leave h x s b _ _ _ I Hs Hb); by split).
  assert (h' = put_packet x s' b' (page_refs h) (budget h) h0) as E.
  { unfold h', h1, h0, put_packet, set_bufs, set_skbs. cbn. by rewrite !insert_delete_eq. }
  assert (inv ext h') as I'.
  { rewrite E. apply inv_new; try done; [apply lookup_delete_eq|by apply (inv_key _ _ I x s)|apply lookup_delete_eq|apply (inv_fresh _ _ I x s); auto|by destruct P|].
    intros p. cbn. unfold buf_uses, b'. cbn. lia. }
  exists h'. split_and!; [done|done|split; [done|]|].
  - intros y Hy. apply (contents_frame ext h h' y I I'); [by apply lookup_insert_ne|done|]. intros t c Ht Hcb. assert (head t ≠ head s) by (intros Hh; by destruct Hy, (Ha y t Ht Hh)).
    exists c. split_and!; [cbn; by rewrite lookup_insert_ne|done..].
  - by rewrite (contents_packet ext h' x s' b' I' (lookup_insert_eq _ _ _) (lookup_insert_eq _ _ _)), (contents_packet ext h x s b I Hs Hb).
Qed.

(** ** Packets are values *)

Inductive pkt_op :=
  | OClone (x : Z)
  | OFree (x : Z)
  | OPull (x n : Z)
  | OTrim (x n : Z)
  | OLinearize (x : Z)
  | OWrite (x o : Z) (w : list Z)
  | OPrepend (x : Z) (w : list Z)
  | ORelease (x : Z)
  | ORead (x o n : Z).

Inductive pkt_ans := ADone | AFail | ANew (n : Z) | ABytes (bs : list Z).

Definition op_packet (o : pkt_op) : Z :=
  match o with
  | OClone x | OFree x | OPull x _ | OTrim x _ | OLinearize x | OWrite x _ _ | OPrepend x _ | ORelease x | ORead x _ _ => x
  end.

Definition run_op (fuel : nat) (o : pkt_op) : hst pkt_ans :=
  match o with
  | OClone x => n ← skb_clone x; mret (if n =? NULL then AFail else ANew n)
  | OFree x => kfree_skb fuel x ;; mret ADone
  | OPull x n => r ← pskb_pull fuel x n; mret (if r is Some _ then ADone else AFail)
  | OTrim x n => r ← pskb_trim fuel x n; mret (if r =? 0 then ADone else AFail)
  | OLinearize x => r ← skb_linearize fuel x; mret (if r =? 0 then ADone else AFail)
  | OWrite x o w => r ← write_packet fuel x o w; mret (if r =? 0 then ADone else AFail)
  | OPrepend x w => r ← prepend_packet fuel x w; mret (if r =? 0 then ADone else AFail)
  | ORelease x => __skb_header_release x ;; mret ADone
  | ORead x o n => r ← skb_copy_bits fuel x o n; mret (if r.1 =? 0 then ABytes r.2 else AFail)
  end.

(** The same on byte strings; [n] is the name of a new packet, [bs] the packet. *)
Definition spec_op (o : pkt_op) (n : Z) (bs : list Z) (m : gmap Z (list Z)) : pkt_ans * gmap Z (list Z) :=
  match o with
  | OClone x => (ANew n, <[n := bs]> m)
  | OFree x => (ADone, delete x m)
  | OPull x k => if zlen bs <? k then (AFail, m) else (ADone, <[x := drop (Z.to_nat k) bs]> m)
  | OTrim x k => (ADone, <[x := take (Z.to_nat k) bs]> m)
  | OLinearize x | ORelease x => (ADone, m)
  | OWrite x o w => if put_at bs o w is Some bs' then (ADone, <[x := bs']> m) else (AFail, m)
  | OPrepend x w => (ADone, <[x := w ++ bs]> m)
  | ORead x o k => if zlen bs <? o + k then (AFail, m) else (ABytes (slice o k bs), m)
  end.

(** What the caller sees to. *)
Definition op_fits (o : pkt_op) (s : sk_buff) (bs : list Z) (h : heap) : Prop :=
  match o with
  | OClone x => msum (own (head s)) (skbs h) < 2 ^ 15 - 1
  | OPull x n | OTrim x n => 0 ≤ n
  | OWrite x o w => 0 ≤ o ∧ o + zlen w < 2 ^ 31
  | OPrepend x w => zlen w < 2 ^ 27 ∧ zlen w + zlen bs < 2 ^ 30
  | ORelease x => cloned s = false
  | ORead x o n => 0 ≤ o ∧ 0 ≤ n
  | OFree x | OLinearize x => True
  end.

(** The most that it asks for, beyond the size of the buffer. *)
Definition op_size (o : pkt_op) (bs : list Z) : Z :=
  match o with
  | OClone _ => 0
  | OPull _ n => n + 1024
  | OWrite _ o w => o + zlen w + 1024
  | OPrepend _ w => zlen w + 1024
  | _ => zlen bs + 1024
  end.

Definition view (h : heap) (m : gmap Z (list Z)) : Prop := ∀ y, contents 1 h y = m !! y.

Lemma view_others h h' m x bs : view h m → others x h h' → contents 1 h' x = Some bs → view h' (<[x := bs]> m).
Proof.
  intros V [_ Ho] Hx y. destruct (decide (y = x)) as [->|Hy]; [by rewrite lookup_insert_eq|]. by rewrite lookup_insert_ne, Ho.
Qed.

Lemma view_same h h' m x : view h m → others x h h' → contents 1 h' x = contents 1 h x → view h' m.
Proof. intros V [_ Ho] Hx y. destruct (decide (y = x)) as [->|Hy]; [by rewrite Hx|by rewrite Ho]. Qed.

Lemma refuses_le bud n n' : refuses bud n → n ≤ n' → refuses bud n'.
Proof. unfold refuses. destruct bud as [|[]]; try done. lia. Qed.

Lemma linearize_ok fuel h x s bs : inv ext h → skbs h !! x = Some s → contents 1 h x = Some bs →
  skb_linearize (S fuel) x h = Some (- ENOMEM, set_budget (tl (budget h)) h) ∧ refuses (budget h) (end_ s + zlen bs + 1024) ∨
  ∃ h', skb_linearize (S fuel) x h = Some (0, h') ∧ inv ext h' ∧ others x h h' ∧ contents 1 h' x = contents 1 h x.
Proof.
  intros I Hs Hc. destruct (inv_pkt _ _ I x s Hs) as (b & Hb & P). rewrite (contents_packet ext h x s b I Hs Hb) in Hc. injection Hc as <-.
  rewrite (packet_len ext h x s b I Hs Hb). destruct P. unfold skb_linearize. rewrite (st_bind_step _ _ _ _ _ (load_ok x h s Hs)).
  destruct (skb_is_nonlinear s); [|right; by exists h]. unfold __skb_linearize. rewrite (st_bind_step _ _ _ _ _ (load_ok x h s Hs)).
  destruct (pull_tail_ok fuel h x s (data_len s) I Hs ltac:(lia)) as [[E Hr]|(t & h' & E & [I' Ho Hx _])]; rewrite (st_bind_step _ _ _ _ _ E).
  - left. split; [done|]. eapply refuses_le; [done|lia].
  - right. by exists h'.
Qed.

(** What every operation does: it runs without fault, and answers and changes the byte
    strings as [spec_op], or fails for want of memory and changes none. *)
Definition op_result (o : pkt_op) (bs : list Z) (h : heap) (m : gmap Z (list Z)) (need : Z) (r : option (pkt_ans * heap)) : Prop :=
  ∃ a h' m', r = Some (a, h') ∧ inv ext h' ∧ view h' m' ∧
    ((∃ n, m !! n = None ∧ spec_op o n bs m = (a, m')) ∨ a = AFail ∧ m' = m ∧ refuses (budget h) need).

Lemma fails_without_memory o bs h h' m x need need' : view h m → inv ext h' → others x h h' → contents 1 h' x = contents 1 h x → refuses (budget h) need' → need' ≤ need →
  op_result o bs h m need (Some (AFail, h')).
Proof. intros V I' Ho Hx Hr Hle. exists AFail, h', m. split_and!; [done|done|by eapply view_same|]. right. split_and!; [done|done|by eapply refuses_le]. Qed.

Lemma does o bs h h' m x a bs' need : view h m → inv ext h' → others x h h' → contents 1 h' x = Some bs' → (∀ n, spec_op o n bs m = (a, <[x := bs']> m)) →
  op_result o bs h m need (Some (a, h')).
Proof. intros V I' Ho Hx Hsp. exists a, h', (<[x := bs']> m). split_and!; [done|done|by eapply view_others|]. left. exists (new_key m). by split; [apply new_key_fresh|]. Qed.

Lemma leaves o bs h h' m x a need : view h m → inv ext h' → others x h h' → contents 1 h' x = contents 1 h x → (∀ n, spec_op o n bs m = (a, m)) →
  op_result o bs h m need (Some (a, h')).
Proof. intros V I' Ho Hx Hsp. exists a, h', m. split_and!; [done|done|by eapply view_same|]. left. exists (new_key m). by split; [apply new_key_fresh|]. Qed.

Lemma op_ok fuel h m o s bs : inv ext h → view h m → skbs h !! op_packet o = Some s → m !! op_packet o = Some bs → op_fits o s bs h →
  op_result o bs h m (end_ s + op_size o bs) (run_op (S fuel) o h).
Proof.
  intros I V Hs Hm Hfit. assert (contents 1 h (op_packet o) = Some bs) as Hc by by rewrite V. destruct (inv_pkt _ _ I _ s Hs) as (b & Hb & P). pose proof P as [].
  assert (zlen bs = len s) as Hlen. { rewrite (contents_packet ext h _ s b I Hs Hb) in Hc. injection Hc as <-. by apply (packet_len ext h (op_packet o)). }
  destruct o; cbn [op_packet run_op op_fits op_size] in *.
  - destruct (clone_ok h x s I Hs Hfit) as [[E Hr]|(n & h' & E & Hn & Hnn & I' & Ho & Hx & _)]; rewrite (st_bind_step _ _ _ _ _ E).
    + assert (refuses (budget h) 0) as Hr0 by (unfold refuses; destruct (budget h) as [|[e|] l]; try done; by destruct (Hr e l)).
      apply (fails_without_memory _ _ h _ m x _ 0); try done; [by apply inv_budget|lia].
    + rewrite (proj2 (Z.eqb_neq n NULL) Hnn). exists (ANew n), h', (<[n := bs]> m). split_and!; [done|done|by apply (view_others h); rewrite ?Hx|].
      left. exists n. split; [|done]. rewrite <-V. cbn. by rewrite Hn.
  - destruct (free_ok fuel h x s I Hs) as (h' & E & I' & [_ Ho] & Hg & _). rewrite (st_bind_step _ _ _ _ _ E). exists ADone, h', (delete x m). split_and!; [done|done| |].
    + intros y. destruct (decide (y = x)) as [->|Hy]; [cbn; by rewrite Hg, lookup_delete_eq|]. by rewrite lookup_delete_ne, Ho.
    + left. exists (new_key m). by split; [apply new_key_fresh|].
  - destruct (pull_ok fuel h x s bs n I Hs Hc Hfit) as [[[E Hlt]|[E Hr]]|(t & h' & E & Hle & I' & Ho & Hx)]; rewrite (st_bind_step _ _ _ _ _ E).
    + apply (leaves _ _ h _ m x); try done. intros k. cbn. by rewrite (proj2 (Z.ltb_lt _ _)).
    + apply (fails_without_memory _ _ h _ m x _ (end_ s + n + 1024)); try done; [by apply inv_budget|lia].
    + eapply (does _ _ h _ m x); try done. intros k. cbn. by rewrite (proj2 (Z.ltb_ge _ _)).
  - destruct (trim_ok fuel h x s bs n I Hs Hc Hfit) as [[E Hr]|(h' & E & I' & Ho & Hx)]; rewrite (st_bind_step _ _ _ _ _ E).
    + apply (fails_without_memory _ _ h _ m x _ (end_ s + 1024)); try done; [by apply inv_budget|lia].
    + by eapply (does _ _ h _ m x).
  - destruct (linearize_ok fuel h x s bs I Hs Hc) as [[E Hr]|(h' & E & I' & Ho & Hx)]; rewrite (st_bind_step _ _ _ _ _ E).
    + apply (fails_without_memory _ _ h _ m x _ (end_ s + zlen bs + 1024)); try done; [by apply inv_budget|lia].
    + by apply (leaves _ _ h _ m x).
  - destruct Hfit as [Ho0 How]. destruct (write_ok fuel h x s bs o w I Hs Hc Ho0 How) as [[[E Hlt]|(h' & E & I' & Ho & Hx & Hr)]|(h' & E & I' & Ho & Hx & Hle)]; rewrite (st_bind_step _ _ _ _ _ E).
    + apply (leaves _ _ h _ m x); try done. intros k. cbn. unfold put_at. by rewrite (proj2 (Z.leb_gt _ _) Hlt), andb_false_r.
    + apply (fails_without_memory _ _ h _ m x _ (end_ s + o + zlen w + 1024)); try done; [by rewrite Hx|lia].
    + destruct (put_at bs o w) as [bs'|] eqn:Ep; [|destruct (put_at_Some bs o w) as [? ?]; [done|lia|congruence]].
      eapply (does _ _ h _ m x); try done. intros k. cbn. by rewrite Ep.
  - destruct Hfit as [Hw Hsum]. destruct (prepend_ok (S fuel) h x s bs w I Hs Hc Hw Hsum) as [[E Hr]|(h' & E & I' & Ho & Hx)]; rewrite (st_bind_step _ _ _ _ _ E).
    + apply (fails_without_memory _ _ h _ m x _ (end_ s + zlen w + 1024)); try done; [by apply inv_budget|lia].
    + by eapply (does _ _ h _ m x).
  - destruct (header_release_ok h x s I Hs Hfit) as (h' & E & I' & Ho & Hx). rewrite (st_bind_step _ _ _ _ _ E). by apply (leaves _ _ h _ m x).
  - destruct Hfit as [Ho Hn]. rewrite (contents_packet ext h x s b I Hs Hb) in Hc. injection Hc as <-.
    pose proof (skb_copy_bits_ok (S fuel) h x _ o n (contents_packet_fuel ext fuel h x s b I Hs Hb) ltac:(lia) Hn ltac:(lia)) as E. rewrite (st_bind_step _ _ _ _ _ E).
    destruct (Z.leb_spec (o + n) (zlen (packet_bytes (pages h) s b))) as [Hle|Hgt]; cbn [fst snd].
    + apply (leaves _ _ h _ m x); try done. intros k. cbn. rewrite (proj2 (Z.ltb_ge _ _)) by lia. do 2 f_equal.
      unfold slice. rewrite drop_app_ge by lia. do 2 f_equal. lia.
    + apply (leaves _ _ h _ m x); try done. intros k. cbn. by rewrite (proj2 (Z.ltb_lt _ _)) by lia.
Qed.
End steps.

(** C11: Packets that share buffers and pages behave as byte strings of their own.  From every
    state that satisfies the invariant (references counted exactly, nothing freed that is
    in use), cloning, freeing, pulling, trimming, linearizing, writing, putting a header
    before, giving the header up and reading run without fault and lead to such a
    state; answer and contents of every packet, also of those that share memory with
    the one that is changed, are as for the byte strings of [spec_op].  Without memory
    an operation fails and no packet changes. *)
Theorem packets_are_values ext fuel h m o s bs : inv ext h → view h m → skbs h !! op_packet o = Some s → m !! op_packet o = Some bs → op_fits o s bs h →
  ∃ a h' m', run_op (S fuel) o h = Some (a, h') ∧ inv ext h' ∧ view h' m' ∧
    ((∃ n, m !! n = None ∧ spec_op o n bs m = (a, m')) ∨
     a = AFail ∧ m' = m ∧ refuses (budget h) (end_ s + op_size o bs)).
Proof. apply op_ok. Qed.

(** ** Two packets that share a buffer and a page *)

Definition shared_page : gmap Z (list Z) := {[20 := [0; 4; 5; 6]]}.
Definition one_skb : sk_buff := set_tail 5 (set_end_ 16 (set_len 6 (set_data_len 3 (set_head 7 (set_data 2 packet0))))).
Definition one_buf : buffer := Buffer ([90; 91; 1; 2; 3] ++ replicate 11 0) (Shinfo [SkbFrag 20 1 3] NULL 1 0 0).
Definition no_packets : heap := Heap ∅ ∅ shared_page (λ _, 0) [].
Definition one_packet : heap := put_packet 1 one_skb one_buf (λ p, if p =? 20 then 1 else 0) [] no_packets.
Definition two_packets : heap := with_clone one_packet 2 1 one_skb one_buf [Some 0; Some 64].
Definition two_strings : gmap Z (list Z) := {[1 := [1; 2; 3; 4; 5; 6]; 2 := [1; 2; 3; 4; 5; 6]]}.

Lemma inv_no_packets : inv (λ _, 0) no_packets.
Proof. split; try done. Qed.

Lemma inv_one_packet : inv (λ _, 0) one_packet.
Proof.
  unfold one_packet. apply inv_new; try done.
  - constructor; [|done]. exists [0; 4; 5; 6]. split_and!; vm_compute; congruence.
  - intros p. change (buf_uses p one_buf) with ((if 20 =? p then 1 else 0) + 0). change (page_refs no_packets p) with 0.
    rewrite (Z.eqb_sym 20). destruct (p =? 20); lia.
Qed.

Lemma inv_two_packets : inv (λ _, 0) two_packets.
Proof. apply inv_clone; try done. apply inv_one_packet. Qed.

Lemma view_two_packets : view two_packets two_strings.
Proof.
  intros y. destruct (decide (y = 1)) as [->|H1]; [reflexivity|]. destruct (decide (y = 2)) as [->|H2]; [reflexivity|].
  assert (two_strings !! y = None) as -> by (unfold two_strings; by rewrite lookup_insert_ne, lookup_singleton_ne).
  assert (skbs two_packets !! y = None) as E by (cbn; by rewrite !lookup_insert_ne).
  cbn [contents]. by rewrite E.
Qed.

(** Writing to the first packet moves it to memory of its own. *)
Lemma packets_are_values_witness :
  (∃ a h' m', run_op 1 (OWrite 1 1 [9; 9]) two_packets = Some (a, h') ∧ inv (λ _, 0) h' ∧ view h' m' ∧
     ((∃ n, two_strings !! n = None ∧ spec_op (OWrite 1 1 [9; 9]) n [1; 2; 3; 4; 5; 6] two_strings = (a, m')) ∨
      a = AFail ∧ m' = two_strings ∧ refuses [Some 0; Some 64] (16 + 1027))) ∧
  match run_op 1 (OWrite 1 1 [9; 9]) two_packets with
  | Some (a, h') => a = ADone ∧ contents 1 h' 1 = Some [1; 9; 9; 4; 5; 6] ∧ contents 1 h' 2 = Some [1; 2; 3; 4; 5; 6] ∧ page_refs h' 20 = 2
  | None => False
  end.
Proof.
  split; [|vm_compute; auto].
  apply (packets_are_values (λ _, 0) 0 two_packets two_strings (OWrite 1 1 [9; 9]) (set_cloned true one_skb) [1; 2; 3; 4; 5; 6] inv_two_packets view_two_packets eq_refl eq_refl).
  split; vm_compute; congruence.
Defined.

End SkbValues.
