(* ===== verification/SkbNew.v ===== *)
(** * New packets and copies

    net/core/skbuff.c: allocating a packet, copying one with or without its pages, giving
    it more room.  [SkbShare] has the operations on a packet that exists.

    A new packet takes two answers of the allocator, one for the structure, one for the
    buffer.  Of the fields that a copy takes over (__copy_skb_header) the model has
    those of [sk_buff]. *)

From Stdlib Require Import ZArith Lia.
From stdpp Require Import base numbers list gmap.
From S2P Require Import Prelude SkbData SkbRead SkbShare SkbInv SkbValues.

Module SkbNew.
Import SkbData SkbRead SkbShare SkbInv SkbValues.

Definition SKB_GSO_FRAGLIST : Z := 262144.

(** ** Allocation *)

(** The cleared structure, with a buffer [a] of [size] bytes before the shared part. *)
Definition __build_skb_around (a size : Z) : sk_buff :=
  SkBuff NULL a 0 0 size 0 0 (u32 (SKB_TRUESIZE size)) 1 false false 0 false 0 0 UNSET_HEADER 0 UNSET_HEADER 0 0 0 CHECKSUM_NONE 0 0 0.

Definition new_info : skb_shared_info := Shinfo [] NULL 1 0 0.

Definition __alloc_skb (size : Z) : hst Z :=
  skb ← answer;
  match skb with
  | None => mret NULL
  | Some _ =>
      let size := u32 (u32 (SKB_DATA_ALIGN size) + SIZEOF_SHINFO) in
      m ← kmalloc_reserve size;
      match m with
      | None => mret NULL
      | Some ksize =>
          let size := u32 (SKB_WITH_OVERHEAD ksize) in
          h ← get;
          let n := new_key (skbs h) in
          let a := new_key (bufs h) in
          store_buf a (Buffer (replicate (Z.to_nat size) 0) new_info) ;;
          store n (__build_skb_around a size) ;;
          mret n
      end
  end.

(** ** Copies *)

(** The fields that a copy takes over. *)
Definition __copy_skb_header (old new : sk_buff) : sk_buff :=
  SkBuff (next new) (head new) (data new) (tail new) (end_ new) (len new) (data_len new) (truesize new) (users new) (cloned new) (nohdr new) (hdr_len new) (owned new)
    (reserved_tailroom old) (mac_len new) (mac_header old) (network_header old) (transport_header old) (inner_mac_header old) (inner_network_header old)
    (inner_transport_header old) (ip_summed old) (csum_start old) (csum_offset old) (csum old).

Definition skb_copy_header (new old : Z) : hst unit :=
  o ← load old;
  update new (__copy_skb_header o) ;;
  sh ← skb_shinfo old;
  update_info new (λ i, Shinfo (frags i) (frag_list i) (dataref i) (gso_size sh) (gso_type sh)).

(** All bytes in the linear part of a new packet. *)
Definition skb_copy (fuel : nat) (x : Z) : hst Z :=
  sh ← skb_shinfo x;
  if negb (Z.land (gso_type sh) SKB_GSO_FRAGLIST =? 0) then mret NULL
  else
    s ← load x;
    let headerlen := skb_headroom s in
    n ← __alloc_skb (u32 (skb_end_offset s + data_len s));
    if n =? NULL then mret NULL
    else
      update n (skb_reserve headerlen) ;;
      on n (skb_put (len s)) ;;
      r ← skb_copy_bits fuel x (- headerlen) (u32 (headerlen + len s));
      if negb (r.1 =? 0) then fault
      else
        write_head n 0 r.2 ;;
        skb_copy_header n x ;;
        mret n.

Definition skb_copy_expand (fuel : nat) (x newheadroom newtailroom : Z) : hst Z :=
  sh ← skb_shinfo x;
  if negb (Z.land (gso_type sh) SKB_GSO_FRAGLIST =? 0) then mret NULL
  else
    s ← load x;
    let oldheadroom := skb_headroom s in
    n ← __alloc_skb (u32 (newheadroom + len s + newtailroom));
    if n =? NULL then mret NULL
    else
      update n (skb_reserve newheadroom) ;;
      on n (skb_put (len s)) ;;
      let head_copy_len := if newheadroom <=? oldheadroom then newheadroom else oldheadroom in
      let head_copy_off := if newheadroom <=? oldheadroom then 0 else newheadroom - oldheadroom in
      r ← skb_copy_bits fuel x (- head_copy_len) (u32 (len s + head_copy_len));
      if negb (r.1 =? 0) then fault
      else
        write_head n head_copy_off r.2 ;;
        skb_copy_header n x ;;
        update n (skb_headers_offset_update (newheadroom - oldheadroom)) ;;
        mret n.

(** A new linear part; the pages and the list are shared. *)
Definition __pskb_copy_fclone (fuel : nat) (x headroom : Z) : hst Z :=
  s ← load x;
  n ← __alloc_skb (u32 (skb_headlen s + headroom));
  if n =? NULL then mret NULL
  else
    update n (skb_reserve headroom) ;;
    on n (skb_put (skb_headlen s)) ;;
    sn ← load n;
    bs ← skb_copy_from_linear_data x (len sn);
    write_head n (data sn) bs ;;
    update n (λ t, set_len (len s) (set_data_len (data_len s) (set_truesize (u32 (truesize t + data_len s)) t))) ;;
    sh ← skb_shinfo x;
    ref_frags (frags sh) ;;
    update_info n (set_frags (frags sh)) ;;
    (if frag_list sh =? NULL then mret tt
     else update_info n (set_frag_list (frag_list sh)) ;; skb_clone_fraglist fuel n) ;;
    skb_copy_header n x ;;
    mret n.

Definition pskb_copy (fuel : nat) (x : Z) : hst Z := s ← load x; __pskb_copy_fclone fuel x (skb_headroom s).

(** A clone is replaced by a copy; without memory it is freed. *)
Definition skb_unshare (fuel : nat) (x : Z) : hst Z :=
  c ← skb_cloned x;
  if c : bool then
    n ← skb_copy fuel x;
    (if n =? NULL then kfree_skb fuel x else consume_skb fuel x) ;;
    mret n
  else mret x.

Definition skb_realloc_headroom (fuel : nat) (x headroom : Z) : hst Z :=
  s ← load x;
  let delta := s32 (headroom - skb_headroom s) in
  if delta <=? 0 then pskb_copy fuel x
  else
    n ← skb_clone x;
    if n =? NULL then mret NULL
    else
      err ← pskb_expand_head fuel n (s32 (SKB_DATA_ALIGN delta)) 0;
      if err =? 0 then mret n else kfree_skb fuel n ;; mret NULL.

(** ** A packet that is being built *)

Section building.
Context (h : heap) (n : Z) (s : sk_buff) (b : buffer) (rf : Z → Z) (bud : list (option Z)).
Abbreviation built s b := (put_packet n s b rf bud h).

Lemma built_skb : skbs (built s b) !! n = Some s.
Proof. apply lookup_insert_eq. Qed.

Lemma built_buf : bufs (built s b) !! head s = Some b.
Proof. apply lookup_insert_eq. Qed.

Lemma built_update f : head (f s) = head s → update n f (built s b) = Some (tt, built (f s) b).
Proof. intros E. rewrite (update_ok n f _ s built_skb). unfold put_packet, set_skbs. cbn. by rewrite insert_insert_eq, E. Qed.

Lemma built_on {A} (m : kst A) a s' : m s = Some (a, s') → head s' = head s → on n m (built s b) = Some (a, built s' b).
Proof. intros Em E. rewrite (on_ok n m _ s a s' built_skb Em). unfold put_packet, set_skbs. cbn. by rewrite insert_insert_eq, E. Qed.

Lemma built_write off bs v : put_at (b_bytes b) off bs = Some v → write_head n off bs (built s b) = Some (tt, built s (Buffer v (b_info b))).
Proof. intros E. rewrite (write_head_ok n off bs _ s b v built_skb built_buf E). unfold put_packet, set_bufs. cbn. by rewrite insert_insert_eq. Qed.

Lemma built_info f : update_info n f (built s b) = Some (tt, built s (Buffer (b_bytes b) (f (b_info b)))).
Proof. rewrite (update_info_ok n f _ s b built_skb built_buf). unfold put_packet, set_bufs. cbn. by rewrite insert_insert_eq. Qed.
End building.

Section copies.
Context {ext : Z → Z}.

(** Two answers are refused. *)
Definition unlucky (bud : list (option Z)) (n : Z) : Prop := match bud with Some _ :: l => refuses l n | _ => True end.

(** The structure and the buffer of the next packet. *)
Abbreviation next_skb h := (new_key (skbs h)).
Abbreviation next_buf h := (new_key (bufs h)).

Lemma alloc_ok size h : 0 ≤ size < 2 ^ 31 →
  (∃ l, __alloc_skb size h = Some (NULL, set_budget l h)) ∧ unlucky (budget h) (size + 383) ∨
  ∃ sz l, size ≤ sz ≤ KMALLOC_MAX_SIZE ∧
    __alloc_skb size h = Some (next_skb h, put_packet (next_skb h) (__build_skb_around (next_buf h) sz) (Buffer (replicate (Z.to_nat sz) 0) new_info) (page_refs h) l h).
Proof.
  intros Hs. pose proof (grown_bound (ext := ext) size) as G. unfold SIZEOF_SHINFO in G. unfold __alloc_skb, answer. rewrite !st_bind_assoc, (st_bind_step _ _ _ _ _ (eq_refl : get h = Some (h, h))).
  destruct h as [sk bf pg rf bud]. cbn [budget]. destruct bud as [|[e|] bud].
  1,3: left; split; [by eexists|done].
  set (h0 := Heap sk bf pg rf _). rewrite !st_bind_assoc, (st_bind_step _ _ _ _ _ (eq_refl : put (set_budget bud h0) h0 = Some (tt, set_budget bud h0))), st_ret_bind.
  assert (u32 (u32 (SKB_DATA_ALIGN size) + SIZEOF_SHINFO) = grown size) as ->.
  { unfold grown in *. unfold SIZEOF_SHINFO in *. rewrite (wrapU_small 32 (SKB_DATA_ALIGN size)), (wrapU_small 32) by (unfold is_u; lia). done. }
  destruct (kmalloc_ok (grown size) (set_budget bud h0) ltac:(lia)) as [[E Hr]|(e' & He & Hmax & E)]; rewrite (st_bind_step _ _ _ _ _ E).
  { left. split; [by eexists|]. eapply refuses_le; [exact Hr|lia]. }
  right. exists (grown size + e' - 320), (tl bud). unfold KMALLOC_MAX_SIZE in *. split; [lia|]. unfold SKB_WITH_OVERHEAD, SIZEOF_SHINFO.
  rewrite (wrapU_small 32) by (unfold is_u; lia). done.
Qed.

(** A new packet has memory of its own. *)
Record fresh_packet (h h' : heap) (n : Z) (bs : list Z) (hr tr : Z) : Prop := {
  fp_new : skbs h !! n = None;
  fp_null : n ≠ NULL;
  fp_inv : inv ext h';
  fp_others : others n h h';
  fp_bytes : contents 1 h' n = Some bs;
  fp_room : ∃ s', skbs h' !! n = Some s' ∧ alone h' n s' ∧ hr ≤ data s' ∧ tr ≤ end_ s' - tail s' }.

Lemma built_fresh h s b rf bud : inv ext h → head s = next_buf h → cloned s = false → nohdr s = false → hdr_len s = 0 → dataref (b_info b) = 1 →
  frag_list (b_info b) = NULL → Forall (mapped (pages h)) (frags (b_info b)) → pkt_ok s b → (∀ p, rf p = page_refs h p + buf_uses p b) →
  fresh_packet h (put_packet (next_skb h) s b rf bud h) (next_skb h) (packet_bytes (pages h) s b) (data s) (end_ s - tail s).
Proof.
  intros I Hh Hc Hn Hl Hd Hfl Hm P Hrf. set (n := next_skb h). assert (skbs h !! n = None) as Hnew by apply new_key_fresh.
  assert (n ≠ NULL) as Hnull by (pose proof (new_key_pos (skbs h)); unfold n, NULL; lia). assert (bufs h !! head s = None) as Hb by (rewrite Hh; apply new_key_fresh).
  assert (inv ext (put_packet n s b rf bud h)) as I'. { apply inv_new; try done. unfold weight. by rewrite Hn. }
  set (h' := put_packet n s b rf bud h) in *. assert (Hkeep : ∀ a c, bufs h !! a = Some c → bufs h' !! a = Some c).
  { intros a c Hac. unfold h', put_packet. cbn. rewrite lookup_insert_ne; congruence. }
  split; try done.
  - split; [done|]. intros y Hy. apply (contents_frame ext h h' y I I'); [by apply lookup_insert_ne|done|]. intros t c Ht Hcb. exists c. by split_and!; [apply Hkeep|..].
  - by apply (contents_packet ext h' n s b I' (lookup_insert_eq _ _ _) (lookup_insert_eq _ _ _)).
  - exists s. split_and!; [apply lookup_insert_eq| |done|done]. intros y t Ht E. unfold h' in Ht. cbn in Ht. apply lookup_insert_Some in Ht as [[<- <-]|[Hy Ht]]; [done|].
    destruct (inv_pkt _ _ I y t Ht) as (c & Hcb & _). congruence.
Qed.

(** [bs] in front of the free room of a buffer. *)
Lemma fresh_bytes sz off old v : put_at (replicate (Z.to_nat sz) 0) off old = Some v → 0 ≤ off → 0 ≤ sz → ∀ o n, 0 ≤ o → 0 ≤ n → o + n ≤ zlen old → slice (off + o) n v = slice o n old.
Proof. intros E Ho Hs. by apply (put_linear sz off old v E Ho Hs). Qed.

Lemma reserved_ok a sz hr len_ : 0 ≤ hr → 0 ≤ len_ → hr + len_ ≤ sz → sz < 2 ^ 31 →
  skb_put len_ (skb_reserve hr (__build_skb_around a sz)) = Some (hr, set_len len_ (set_tail (hr + len_) (set_data hr (__build_skb_around a sz)))).
Proof.
  intros Hh Hl Hsz Hmax. unfold skb_put. rewrite (st_bind_step _ _ _ _ _ (eq_refl : get _ = Some (_, _))). cbn [skb_is_nonlinear data_len skb_reserve set_tail set_data __build_skb_around Z.eqb negb].
  unfold skb_is_nonlinear, skb_reserve. cbn [data_len set_tail set_data __build_skb_around Z.eqb negb tail data len]. rewrite !Z.add_0_l.
  rewrite (wrapU_small 32 hr), (wrapU_small 32 (hr + len_)), (wrapU_small 32 len_) by (unfold is_u; lia).
  rewrite (st_bind_step _ _ _ _ _ (eq_refl : put _ _ = Some (tt, _))), (st_bind_step _ _ _ _ _ (eq_refl : get _ = Some (_, _))). cbn [end_ tail set_len set_tail set_data __build_skb_around].
  by rewrite (proj2 (Z.ltb_ge _ _)) by lia.
Qed.

Lemma copy_header_fields o t : same_core t (__copy_skb_header o t).
Proof. done. Qed.

(** ** Copying the bytes *)

(** The structure of a copy with [hr] bytes of headroom. *)
Definition copy_skb (o : sk_buff) (a sz hr : Z) : sk_buff :=
  __copy_skb_header o (set_len (len o) (set_tail (hr + len o) (set_data hr (__build_skb_around a sz)))).

Definition copy_info (i : skb_shared_info) : skb_shared_info := Shinfo [] NULL 1 (gso_size i) (gso_type i).

Lemma reserved_pkt a sz hr len_ : 0 ≤ hr → 0 ≤ len_ < 2 ^ 30 → hr + len_ ≤ sz → sz ≤ KMALLOC_MAX_SIZE →
  pkt_ok (set_len len_ (set_tail (hr + len_) (set_data hr (__build_skb_around a sz)))) (Buffer (replicate (Z.to_nat sz) 0) new_info).
Proof. intros. split; cbn; rewrite ?length_replicate; done || lia. Qed.

Lemma copy_run fuel h x s b sz l hcl hco m (k : hst Z) : inv ext h → skbs h !! x = Some s → bufs h !! head s = Some b →
  0 ≤ hcl ≤ data s → 0 ≤ hco → hco + hcl + len s ≤ sz ≤ KMALLOC_MAX_SIZE → m = hcl + len s →
  let n := next_skb h in let a := next_buf h in
  ∃ v, (update n (skb_reserve (hco + hcl)) ;; on n (skb_put (len s)) ;; r ← skb_copy_bits (S fuel) x (- hcl) m;
        if negb (r.1 =? 0) then fault else write_head n hco r.2 ;; skb_copy_header n x ;; k)
         (put_packet n (__build_skb_around a sz) (Buffer (replicate (Z.to_nat sz) 0) new_info) (page_refs h) l h) =
       k (put_packet n (copy_skb s a sz (hco + hcl)) (Buffer v (copy_info (b_info b))) (page_refs h) l h) ∧
    length v = Z.to_nat sz ∧ slice (hco + hcl) (len s) v = packet_bytes (pages h) s b.
Proof.
  intros I Hs Hb Hcl Hco Hsz -> n a. destruct (inv_pkt _ _ I x s Hs) as (c & Ec & P). assert (c = b) as -> by congruence. clear Ec. pose proof P as []. unfold KMALLOC_MAX_SIZE in *.
  pose proof (packet_len ext h x s b I Hs Hb) as Hlen. set (B := Buffer (replicate (Z.to_nat sz) 0) new_info).
  rewrite (st_bind_step _ _ _ _ _ (built_update h n (__build_skb_around a sz) B (page_refs h) l (skb_reserve (hco + hcl)) eq_refl)).
  rewrite (st_bind_step _ _ _ _ _ (built_on h n _ B (page_refs h) l _ _ _ (reserved_ok a sz (hco + hcl) (len s) ltac:(lia) ltac:(lia) ltac:(lia) ltac:(lia)) eq_refl)).
  set (s2 := set_len _ _). pose proof (reserved_pkt a sz (hco + hcl) (len s) ltac:(lia) ltac:(lia) ltac:(lia) ltac:(unfold KMALLOC_MAX_SIZE; lia)) as P2. fold s2 B in P2.
  set (h2 := put_packet n s2 B (page_refs h) l h).
  destruct (built_fresh h s2 B (page_refs h) l I eq_refl eq_refl eq_refl eq_refl eq_refl eq_refl ltac:(by constructor) P2 ltac:(intros p; cbn; lia)) as [Hnew _ I2 _ _ _]. fold n h2 in I2, Hnew.
  assert (x ≠ n) as Hxn by congruence. assert (skbs h2 !! x = Some s) as Hs2 by (cbn; by rewrite lookup_insert_ne).
  assert (bufs h2 !! head s = Some b) as Hb2.
  { cbn. rewrite lookup_insert_ne; [done|]. intros E. pose proof (new_key_fresh (bufs h)). unfold a in E. congruence. }
  set (hr := take (Z.to_nat (data s)) (b_bytes b)). assert (headroom_bytes h2 x = hr) as Ehr by (unfold headroom_bytes; rewrite Hs2; cbn [mbind option_bind]; by rewrite Hb2).
  assert (zlen hr = data s) as Lhr by (unfold hr; rewrite length_take; lia). set (bs := packet_bytes (pages h) s b) in *.
  assert (skb_copy_bits (S fuel) x (- hcl) (hcl + len s) h2 = Some ((0, slice (data s - hcl) (hcl + len s) (hr ++ bs)), h2)) as Er.
  { rewrite (skb_copy_bits_ok (S fuel) h2 x bs (- hcl) (hcl + len s) (contents_packet_fuel ext fuel h2 x s b I2 Hs2 Hb2)) by (rewrite ?Ehr; lia).
    rewrite (proj2 (Z.leb_le _ _)) by lia. by rewrite Ehr, Lhr. }
  rewrite (st_bind_step _ _ _ _ _ Er). cbn [fst snd Z.eqb negb]. set (old := slice _ _ (hr ++ bs)).
  assert (zlen old = hcl + len s) as Lold by (unfold old; rewrite slice_len by lia; rewrite length_app; lia).
  destruct (put_at_Some (b_bytes B) hco old) as [v Ev]; [lia|cbn; rewrite length_replicate; lia|].
  rewrite (st_bind_step _ _ _ _ _ (built_write h n s2 B (page_refs h) l hco old v Ev)). set (h3 := put_packet n s2 _ _ _ _).
  assert (skbs h3 !! x = Some s) as Hs3 by (cbn; by rewrite lookup_insert_ne).
  unfold skb_copy_header. rewrite !st_bind_assoc, (st_bind_step _ _ _ _ _ (load_ok x h3 s Hs3)), !st_bind_assoc.
  unfold h3. rewrite (st_bind_step _ _ _ _ _ (built_update h n s2 _ (page_refs h) l (__copy_skb_header s) eq_refl)). set (h4 := put_packet n _ _ _ _ h).
  assert (skbs h4 !! x = Some s) as Hs4 by (cbn; by rewrite lookup_insert_ne). assert (bufs h4 !! head s = Some b) as Hb4 by (cbn in Hb2 |- *; rewrite lookup_insert_ne in Hb2 |- *; done || (intros E; pose proof (new_key_fresh (bufs h)); unfold a in E; congruence)).
  rewrite !st_bind_assoc, (st_bind_step _ _ _ _ _ (skb_shinfo_ok x h4 s b Hs4 Hb4)). unfold h4. rewrite (st_bind_step _ _ _ _ _ (built_info h n _ _ (page_refs h) l _)).
  exists v. split; [done|]. pose proof (put_at_length _ _ _ _ Ev) as Lv. cbn in Lv. rewrite length_replicate in Lv. split; [done|].
  rewrite (fresh_bytes sz hco old v Ev ltac:(lia) ltac:(lia) hcl (len s)) by lia. unfold old, slice. rewrite skipn_firstn_comm, drop_drop, take_take.
  rewrite drop_app_ge by lia. rewrite take_ge by (rewrite length_drop; lia). replace (_ - length hr)%nat with O by lia. apply drop_0.
Qed.

Lemma copied_fresh h x s b sz l hr v : inv ext h → skbs h !! x = Some s → bufs h !! head s = Some b → 0 ≤ hr → hr + len s ≤ sz ≤ KMALLOC_MAX_SIZE →
  length v = Z.to_nat sz → slice hr (len s) v = packet_bytes (pages h) s b →
  ∀ s', same_core (copy_skb s (next_buf h) sz hr) s' →
  fresh_packet h (put_packet (next_skb h) s' (Buffer v (copy_info (b_info b))) (page_refs h) l h) (next_skb h) (packet_bytes (pages h) s b) hr (sz - hr - len s).
Proof.
  intros I Hs Hb Hhr Hsz Lv Ev s' [E1 E2 E3 E4 E5 E6 E7 E8 E9 E10 E11]. destruct (inv_pkt _ _ I x s Hs) as (c & _ & []). cbn in E1, E2, E3, E4, E5, E6, E7, E8, E9, E10, E11.
  assert (packet_bytes (pages h) s' (Buffer v (copy_info (b_info b))) = packet_bytes (pages h) s b) as E.
  { unfold packet_bytes at 1. cbn. rewrite app_nil_r. unfold linear_bytes. rewrite E2, E5, E6, Z.sub_0_r. done. }
  rewrite <-E. replace hr with (data s'). replace (sz - data s' - len s) with (end_ s' - tail s') by lia.
  apply built_fresh; try done; [split; cbn; lia|intros p; cbn; lia].
Qed.

(** What a copy needs. *)
Definition copy_fails (s : sk_buff) (b : buffer) (bud : list (option Z)) (extra : Z) : Prop :=
  Z.land (gso_type (b_info b)) SKB_GSO_FRAGLIST ≠ 0 ∨ unlucky bud (end_ s + len s + extra + 1024).

Lemma unlucky_le bud n n' : unlucky bud n → n ≤ n' → unlucky bud n'.
Proof. unfold unlucky. destruct bud as [|[]]; try done. apply refuses_le. Qed.

Lemma copy_ok fuel h x s b : inv ext h → skbs h !! x = Some s → bufs h !! head s = Some b →
  (∃ l, skb_copy (S fuel) x h = Some (NULL, set_budget l h)) ∧ copy_fails s b (budget h) 0 ∨
  ∃ n h', skb_copy (S fuel) x h = Some (n, h') ∧ fresh_packet h h' n (packet_bytes (pages h) s b) (data s) 0.
Proof.
  intros I Hs Hb. destruct (inv_pkt _ _ I x s Hs) as (c & Ec & P). assert (c = b) as -> by congruence. clear Ec. pose proof P as []. unfold KMALLOC_MAX_SIZE in *.
  unfold skb_copy. rewrite (st_bind_step _ _ _ _ _ (skb_shinfo_ok x h s b Hs Hb)). destruct (Z.eqb_spec (Z.land (gso_type (b_info b)) SKB_GSO_FRAGLIST) 0) as [Eg|Eg]; cbn [negb].
  2: { left. split; [exists (budget h); by destruct h|by left]. }
  rewrite (st_bind_step _ _ _ _ _ (load_ok x h s Hs)). unfold skb_headroom, skb_end_offset. rewrite (wrapU_small 32 (data s)), (wrapU_small 32 (end_ s + data_len s)), (wrapU_small 32 (data s + len s)) by (unfold is_u; lia).
  destruct (alloc_ok (end_ s + data_len s) h ltac:(lia)) as [[[l E] Hu]|(sz & l & Hsz & E)]; cbv zeta; rewrite (st_bind_step _ _ _ _ _ E).
  { left. split; [by exists l|]. right. eapply unlucky_le; [done|lia]. }
  right. unfold KMALLOC_MAX_SIZE in Hsz. set (n := next_skb h). assert (n ≠ NULL) as Hn by (pose proof (new_key_pos (skbs h)); unfold n, NULL; lia). rewrite (proj2 (Z.eqb_neq _ _) Hn).
  destruct (copy_run fuel h x s b sz l (data s) 0 (data s + len s) (mret n) I Hs Hb ltac:(lia) ltac:(lia) ltac:(unfold KMALLOC_MAX_SIZE; lia) eq_refl) as (v & Er & Lv & Ev).
  rewrite Z.add_0_l in Er, Ev. fold n in Er. rewrite Er. eexists n, _. split; [reflexivity|].
  destruct (copied_fresh h x s b sz l (data s) v I Hs Hb ltac:(lia) ltac:(unfold KMALLOC_MAX_SIZE; lia) Lv Ev _ ltac:(done)) as [? ? ? ? ? (s' & ? & ? & ? & ?)].
  split; try done. exists s'. split_and!; done || lia.
Qed.

Lemma copy_expand_ok fuel h x s b nh nt : inv ext h → skbs h !! x = Some s → bufs h !! head s = Some b → 0 ≤ nh < 2 ^ 28 → 0 ≤ nt < 2 ^ 28 → nh + len s + nt < 2 ^ 30 →
  (∃ l, skb_copy_expand (S fuel) x nh nt h = Some (NULL, set_budget l h)) ∧ copy_fails s b (budget h) (nh + nt) ∨
  ∃ n h', skb_copy_expand (S fuel) x nh nt h = Some (n, h') ∧ fresh_packet h h' n (packet_bytes (pages h) s b) nh nt.
Proof.
  intros I Hs Hb Hnh Hnt Hsum. destruct (inv_pkt _ _ I x s Hs) as (c & Ec & P). assert (c = b) as -> by congruence. clear Ec. pose proof P as []. unfold KMALLOC_MAX_SIZE in *.
  unfold skb_copy_expand. rewrite (st_bind_step _ _ _ _ _ (skb_shinfo_ok x h s b Hs Hb)). destruct (Z.eqb_spec (Z.land (gso_type (b_info b)) SKB_GSO_FRAGLIST) 0) as [Eg|Eg]; cbn [negb].
  2: { left. split; [exists (budget h); by destruct h|by left]. }
  rewrite (st_bind_step _ _ _ _ _ (load_ok x h s Hs)). unfold skb_headroom. rewrite (wrapU_small 32 (data s)), (wrapU_small 32 (nh + len s + nt)) by (unfold is_u; lia).
  destruct (alloc_ok (nh + len s + nt) h ltac:(lia)) as [[[l E] Hu]|(sz & l & Hsz & E)]; cbv zeta; rewrite (st_bind_step _ _ _ _ _ E).
  { left. split; [by exists l|]. right. eapply unlucky_le; [done|lia]. }
  right. unfold KMALLOC_MAX_SIZE in Hsz. set (n := next_skb h). assert (n ≠ NULL) as Hn by (pose proof (new_key_pos (skbs h)); unfold n, NULL; lia). rewrite (proj2 (Z.eqb_neq _ _) Hn).
  set (hcl := if nh <=? data s then nh else data s). set (hco := if nh <=? data s then 0 else nh - data s).
  assert (0 ≤ hcl ≤ data s ∧ 0 ≤ hco ∧ hco + hcl = nh) as (H1 & H2 & H3) by (unfold hcl, hco; destruct (Z.leb_spec nh (data s)); lia).
  rewrite (wrapU_small 32 (len s + hcl)) by (unfold is_u; lia).
  destruct (copy_run fuel h x s b sz l hcl hco (len s + hcl) (update n (skb_headers_offset_update (nh - data s)) ;; mret n) I Hs Hb H1 H2 ltac:(unfold KMALLOC_MAX_SIZE; lia) ltac:(lia)) as (v & Er & Lv & Ev).
  rewrite H3 in Er, Ev. fold n in Er. rewrite Er. set (s3 := copy_skb s (next_buf h) sz nh). pose proof (headers_fields (nh - data s) s3) as Hc.
  rewrite (st_bind_step _ _ _ _ _ (built_update h n s3 _ (page_refs h) l _ (sc_head _ _ Hc))). eexists n, _. split; [reflexivity|].
  destruct (copied_fresh h x s b sz l nh v I Hs Hb ltac:(lia) ltac:(unfold KMALLOC_MAX_SIZE; lia) Lv Ev _ Hc) as [? ? ? ? ? (s' & ? & ? & ? & ?)].
  split; try done. exists s'. split_and!; done || lia.
Qed.

(** The pages are shared, the linear part is new. *)
Lemma pcopy_ok fuel h x s b hr : inv ext h → skbs h !! x = Some s → bufs h !! head s = Some b → 0 ≤ hr < 2 ^ 28 →
  (∃ l, __pskb_copy_fclone fuel x hr h = Some (NULL, set_budget l h)) ∧ unlucky (budget h) (end_ s + hr + 1024) ∨
  ∃ n h', __pskb_copy_fclone fuel x hr h = Some (n, h') ∧ fresh_packet h h' n (packet_bytes (pages h) s b) hr 0.
Proof.
  intros I Hs Hb Hhr. destruct (inv_pkt _ _ I x s Hs) as (c & Ec & P). assert (c = b) as -> by congruence. clear Ec. pose proof P as []. unfold KMALLOC_MAX_SIZE in *.
  destruct (inv_buf _ _ I _ _ Hb) as [Hfl Hm]. unfold __pskb_copy_fclone. rewrite (st_bind_step _ _ _ _ _ (load_ok x h s Hs)). rewrite (headlen_ok s b P).
  set (hl := len s - data_len s) in *. rewrite (wrapU_small 32 (hl + hr)) by (unfold is_u; lia).
  destruct (alloc_ok (hl + hr) h ltac:(lia)) as [[[l E] Hu]|(sz & l & Hsz & E)]; rewrite (st_bind_step _ _ _ _ _ E).
  { left. split; [by exists l|]. eapply unlucky_le; [done|lia]. }
  right. unfold KMALLOC_MAX_SIZE in Hsz. set (n := next_skb h). assert (n ≠ NULL) as Hn by (pose proof (new_key_pos (skbs h)); unfold n, NULL; lia). rewrite (proj2 (Z.eqb_neq _ _) Hn).
  assert (x ≠ n) as Hxn by (intros ->; pose proof (new_key_fresh (skbs h)); unfold n in Hs; congruence). assert (head s ≠ next_buf h) as Ha by (intros E'; pose proof (new_key_fresh (bufs h)); congruence).
  set (s0 := __build_skb_around (next_buf h) sz). set (b0 := Buffer (replicate (Z.to_nat sz) 0) new_info).
  assert (Hx : ∀ t u rf, head t = next_buf h → skbs (put_packet n t u rf l h) !! x = Some s ∧ bufs (put_packet n t u rf l h) !! head s = Some b).
  { intros t u rf Et. cbn. rewrite Et. by rewrite !lookup_insert_ne. }
  rewrite (st_bind_step _ _ _ _ _ (built_update h n s0 b0 (page_refs h) l (skb_reserve hr) eq_refl)).
  rewrite (st_bind_step _ _ _ _ _ (built_on h n _ b0 (page_refs h) l _ _ _ (reserved_ok (next_buf h) sz hr hl ltac:(lia) ltac:(lia) ltac:(lia) ltac:(lia)) eq_refl)). fold s0.
  set (s2 := set_len hl _). rewrite (st_bind_step _ _ _ _ _ (load_ok n _ s2 (built_skb h n s2 b0 (page_refs h) l))). cbn [s2 len set_len data set_tail set_data].
  destruct (Hx s2 b0 (page_refs h) eq_refl) as [Hs2 Hb2]. set (h2 := put_packet n s2 b0 _ _ _) in *.
  assert (skb_copy_from_linear_data x hl h2 = Some (linear_bytes s b, h2)) as Er.
  { unfold skb_copy_from_linear_data, skb_copy_from_linear_data_offset, read_head. rewrite (st_bind_step _ _ _ _ _ (load_ok x h2 s Hs2)), (st_bind_step _ _ _ _ _ (load_ok x h2 s Hs2)), (st_bind_step _ _ _ _ _ (load_buf_ok _ h2 b Hb2)).
    rewrite Z.add_0_r. unfold lift, linear_bytes, bytes_at, slice. fold hl. by rewrite !(proj2 (Z.leb_le _ _)) by lia. }
  rewrite (st_bind_step _ _ _ _ _ Er). pose proof (linear_len s b P) as Llin. fold hl in Llin. destruct (put_at_Some (b_bytes b0) hr (linear_bytes s b)) as [v Ev]; [lia|cbn; rewrite length_replicate; lia|].
  unfold h2. rewrite (st_bind_step _ _ _ _ _ (built_write h n s2 b0 (page_refs h) l hr _ v Ev)), (st_bind_step _ _ _ _ _ (built_update h n s2 _ (page_refs h) l (λ t, set_len (len s) (set_data_len (data_len s) (set_truesize (u32 (truesize t + data_len s)) t))) eq_refl)). cbv beta.
  set (s3 := set_len (len s) _). set (b1 := Buffer v _). destruct (Hx s3 b1 (page_refs h) eq_refl) as [Hs3 Hb3].
  rewrite (st_bind_step _ _ _ _ _ (skb_shinfo_ok x _ s b Hs3 Hb3)). destruct (ref_frags_ok (frags (b_info b)) (put_packet n s3 b1 (page_refs h) l h)) as (rf & Erf & Hrf).
  rewrite (st_bind_step _ _ _ _ _ Erf). change (set_page_refs rf (put_packet n s3 b1 (page_refs h) l h)) with (put_packet n s3 b1 rf l h).
  rewrite (st_bind_step _ _ _ _ _ (built_info h n s3 b1 rf l _)), Hfl. cbn [Z.eqb NULL]. rewrite st_ret_bind. set (b2 := Buffer _ _). destruct (Hx s3 b2 rf eq_refl) as [Hs4 Hb4].
  unfold skb_copy_header. rewrite !st_bind_assoc, (st_bind_step _ _ _ _ _ (load_ok x _ s Hs4)), !st_bind_assoc, (st_bind_step _ _ _ _ _ (built_update h n s3 b2 rf l (__copy_skb_header s) eq_refl)).
  set (s4 := __copy_skb_header s s3). destruct (Hx s4 b2 rf eq_refl) as [Hs5 Hb5]. rewrite !st_bind_assoc, (st_bind_step _ _ _ _ _ (skb_shinfo_ok x _ s b Hs5 Hb5)), (st_bind_step _ _ _ _ _ (built_info h n s4 b2 rf l _)).
  set (b3 := Buffer _ _). eexists n, _. split; [reflexivity|]. pose proof (put_at_length _ _ _ _ Ev) as Lv. cbn in Lv. rewrite length_replicate in Lv.
  assert (packet_bytes (pages h) s4 b3 = packet_bytes (pages h) s b) as Epk.
  { unfold packet_bytes. cbn [b3 b_info frags b2 set_frags]. f_equal. change (slice hr hl v = linear_bytes s b). pose proof (fresh_bytes sz hr (linear_bytes s b) v Ev ltac:(lia) ltac:(lia) 0 hl ltac:(lia) ltac:(lia) ltac:(lia)) as Es.
    rewrite Z.add_0_r in Es. rewrite Es. apply slice_all. lia. }
  assert (pkt_ok s4 b3) as P4 by (split; cbn; fold hl; try done; unfold KMALLOC_MAX_SIZE; lia).
  assert (fresh_packet h (put_packet n s4 b3 rf l h) n (packet_bytes (pages h) s4 b3) (data s4) (end_ s4 - tail s4)) as F.
  { apply built_fresh; try done. }
  rewrite Epk in F. destruct F as [? ? ? ? ? (s' & ? & ? & Hd & Ht)]. split; try done. exists s'. split_and!; try done. pose proof (pk_end _ _ P4). lia.
Qed.

(** More room before a copy that shares what can be shared. *)
Lemma realloc_headroom_ok fuel h x s b hr : inv ext h → skbs h !! x = Some s → bufs h !! head s = Some b → 0 ≤ hr < 2 ^ 27 → msum (own (head s)) (skbs h) < 2 ^ 15 - 1 →
  (∃ h', skb_realloc_headroom (S fuel) x hr h = Some (NULL, h') ∧ inv ext h' ∧ pages h' = pages h ∧ (∀ y, contents 1 h' y = contents 1 h y)) ∧ unlucky (budget h) (end_ s + hr + data s + 1024) ∨
  ∃ n h', skb_realloc_headroom (S fuel) x hr h = Some (n, h') ∧ fresh_packet h h' n (packet_bytes (pages h) s b) hr 0.
Proof.
  intros I Hs Hb Hhr Hfew. destruct (inv_pkt _ _ I x s Hs) as (c & Ec & P). assert (c = b) as -> by congruence. clear Ec. pose proof P as []. unfold KMALLOC_MAX_SIZE in *.
  unfold skb_realloc_headroom. rewrite (st_bind_step _ _ _ _ _ (load_ok x h s Hs)). unfold skb_headroom. rewrite (wrapU_small 32 (data s)) by (unfold is_u; lia).
  rewrite (wrapS_small 32 (hr - data s)) by (unfold is_s; lia). cbv zeta. destruct (Z.leb_spec (hr - data s) 0) as [Hle|Hgt].
  - unfold pskb_copy, skb_headroom. rewrite (st_bind_step _ _ _ _ _ (load_ok x h s Hs)), (wrapU_small 32 (data s)) by (unfold is_u; lia).
    destruct (pcopy_ok (S fuel) h x s b (data s) I Hs Hb ltac:(lia)) as [[[l E] Hu]|(n & h' & E & F)]; rewrite E.
    + left. split; [exists (set_budget l h); split_and!; [done|by apply inv_budget|done|done]|]. eapply unlucky_le; [done|lia].
    + right. exists n, h'. split; [done|]. destruct F as [? ? ? ? ? (s' & ? & ? & ? & ?)]. split; try done. exists s'. split_and!; done || lia.
  - destruct (clone_ok h x s I Hs Hfew) as [[E Hr]|(n & h1 & E & Hn & Hnn & I1 & Ho1 & Hx1 & Hs1 & e & l & Eb & El)]; rewrite (st_bind_step _ _ _ _ _ E).
    + left. split; [exists (set_budget (tl (budget h)) h); split_and!; [done|by apply inv_budget|done|done]|]. unfold unlucky. destruct (budget h) as [|[e|] l]; try done.
      by destruct (Hr e l).
    + rewrite (proj2 (Z.eqb_neq _ _) Hnn). set (delta := SKB_DATA_ALIGN (hr - data s)).
      assert (hr - data s ≤ delta ≤ hr - data s + 63) as Hdel by (unfold delta, SKB_DATA_ALIGN, SMP_CACHE_BYTES; dlia). rewrite (wrapS_small 32 delta) by (unfold is_s; lia).
      destruct (inv_pkt _ _ I1 n _ Hs1) as (b1 & Hb1 & _).
      destruct (expand_ok (S fuel) h1 n (clone_of s) b1 delta 0 I1 Hs1 Hb1 ltac:(lia) ltac:(lia)) as [[E2 Hr]|(h2 & s2 & b2 & E2 & X)]; rewrite (st_bind_step _ _ _ _ _ E2); cbn [Z.eqb].
      * left. change (- ENOMEM =? 0) with false. cbv iota. set (h2 := set_budget _ h1) in *. destruct (free_ok fuel h2 n (clone_of s) (inv_budget h1 _ I1) Hs1) as (h3 & E3 & I3 & [Hp3 Ho3] & Hg & _). rewrite (st_bind_step _ _ _ _ _ E3).
        destruct Ho1 as [Hp1 Ho1]. split; [exists h3; split_and!; [done|done|by rewrite Hp3|]|].
        -- intros y. destruct (decide (y = n)) as [->|Hy]; [cbn; by rewrite Hg, Hn|]. rewrite Ho3 by done. by apply Ho1.
        -- rewrite El in Hr. unfold unlucky. rewrite Eb. eapply refuses_le; [done|]. cbn. lia.
      * right. exists n, h2. split; [done|]. destruct X as [? ? ? ? ? ? Hby ? [] ? ?]. cbn in mf_data0. split; try done; [by apply (others_trans n h h1 h2)| |].
        -- rewrite Hby, Hx1. by apply (contents_packet ext).
        -- exists s2. split_and!; try done; [lia|]. destruct (inv_pkt _ _ ex_inv0 n s2 ex_skb0) as (b3 & _ & P3). pose proof (pk_end _ _ P3). lia.
Qed.

(** A clone is replaced by a copy: the others keep the bytes, and what cannot be copied is
    freed. *)
Lemma unshare_ok fuel h m x s bs : inv ext h → view h m → skbs h !! x = Some s → m !! x = Some bs →
  ∃ n h', skb_unshare (S fuel) x h = Some (n, h') ∧ inv ext h' ∧
    (n = x ∧ h' = h ∧ alone h x s ∨ n = NULL ∧ view h' (delete x m) ∨ m !! n = None ∧ view h' (<[n := bs]> (delete x m))).
Proof.
  intros I V Hs Hm. destruct (inv_pkt _ _ I x s Hs) as (b & Hb & _). assert (packet_bytes (pages h) s b = bs) as Ebs.
  { pose proof (V x) as Hc. rewrite (contents_packet ext h x s b I Hs Hb), Hm in Hc. by injection Hc. }
  assert (Hgone : ∀ h1 h2 m1, view h1 m1 → others x h1 h2 → skbs h2 !! x = None → view h2 (delete x m1)).
  { intros h1 h2 m1 V1 [_ Ho] Hx y. destruct (decide (y = x)) as [->|Hy]; [cbn; by rewrite Hx, lookup_delete_eq|]. by rewrite lookup_delete_ne, Ho. }
  unfold skb_unshare. destruct (cloned_ok h h x s b I Hs Hb Hs Hb) as (c & Ec & Hc). rewrite (st_bind_step _ _ _ _ _ Ec). destruct c.
  2: { exists x, h. split_and!; [done|done|]. left. split_and!; [done|done|by apply Hc]. }
  destruct (copy_ok fuel h x s b I Hs Hb) as [[[l E] _]|(n & h1 & E & F)]; rewrite (st_bind_step _ _ _ _ _ E).
  - destruct (free_ok fuel (set_budget l h) x s (inv_budget h l I) Hs) as (h2 & E2 & I2 & Ho2 & Hx2 & _). cbn [Z.eqb NULL]. rewrite (st_bind_step _ _ _ _ _ E2).
    exists NULL, h2. split_and!; [done|done|]. right. left. split; [done|]. by apply (Hgone (set_budget l h)).
  - destruct F as [Hnew Hnn I1 Ho1 Hby _]. rewrite (proj2 (Z.eqb_neq _ _) Hnn). assert (x ≠ n) as Hxn by congruence.
    assert (∃ s1, skbs h1 !! x = Some s1) as (s1 & Hs1).
    { destruct Ho1 as [_ Ho1]. pose proof (Ho1 x Hxn) as Hc1. rewrite (V x), Hm in Hc1. cbn in Hc1. destruct (skbs h1 !! x) as [s1|]; [by exists s1|done]. }
    destruct (free_ok fuel h1 x s1 I1 Hs1) as (h2 & E2 & I2 & Ho2 & Hx2 & _). rewrite (st_bind_step _ _ _ _ _ E2). exists n, h2. split_and!; [done|done|]. right. right.
    assert (m !! n = None) as Hmn by (rewrite <-V; cbn; by rewrite Hnew). split; [done|]. rewrite Ebs in Hby.
    rewrite <-delete_insert_ne by done. apply (Hgone h1); [by apply (view_others h)|done|done].
Qed.

(** ** Copies are packets of their own *)

Inductive copy_op :=
  | CCopy (x : Z)
  | CExpand (x newheadroom newtailroom : Z)
  | CPages (x headroom : Z)
  | CRealloc (x headroom : Z).

Definition copy_source (o : copy_op) : Z := match o with CCopy x | CExpand x _ _ | CPages x _ | CRealloc x _ => x end.

Definition run_copy (fuel : nat) (o : copy_op) : hst Z :=
  match o with
  | CCopy x => skb_copy fuel x
  | CExpand x nh nt => skb_copy_expand fuel x nh nt
  | CPages x hr => __pskb_copy_fclone fuel x hr
  | CRealloc x hr => skb_realloc_headroom fuel x hr
  end.

Definition copy_fits (o : copy_op) (s : sk_buff) (h : heap) : Prop :=
  match o with
  | CCopy _ => True
  | CExpand _ nh nt => 0 ≤ nh < 2 ^ 28 ∧ 0 ≤ nt < 2 ^ 28 ∧ nh + len s + nt < 2 ^ 30
  | CPages _ hr => 0 ≤ hr < 2 ^ 28
  | CRealloc _ hr => 0 ≤ hr < 2 ^ 27 ∧ msum (own (head s)) (skbs h) < 2 ^ 15 - 1
  end.

(** The room that is asked for before and behind the data. *)
Definition copy_room (o : copy_op) (s : sk_buff) : Z * Z :=
  match o with CCopy _ => (data s, 0) | CExpand _ nh nt => (nh, nt) | CPages _ hr | CRealloc _ hr => (hr, 0) end.

(** Why there is no copy: no memory, or the segments of the packet are a list. *)
Definition copy_refused (o : copy_op) (s : sk_buff) (i : skb_shared_info) (bud : list (option Z)) : Prop :=
  (match o with CCopy _ | CExpand _ _ _ => Z.land (gso_type i) SKB_GSO_FRAGLIST ≠ 0 | _ => False end) ∨
  unlucky bud (end_ s + len s + data s + (copy_room o s).1 + (copy_room o s).2 + 1024).

(** What a copy gives: a packet of its own with the bytes and the room, or NULL. *)
Definition copy_result (o : copy_op) (s : sk_buff) (i : skb_shared_info) (bs : list Z) (h : heap) (m : gmap Z (list Z)) (r : option (Z * heap)) : Prop :=
  ∃ n h', r = Some (n, h') ∧ inv ext h' ∧
    (n = NULL ∧ view h' m ∧ copy_refused o s i (budget h) ∨
     n ≠ NULL ∧ m !! n = None ∧ view h' (<[n := bs]> m) ∧
       ∃ s', skbs h' !! n = Some s' ∧ alone h' n s' ∧ (copy_room o s).1 ≤ data s' ∧ (copy_room o s).2 ≤ end_ s' - tail s').

Lemma copy_gives o s i bs h m n h' : view h m → fresh_packet h h' n bs (copy_room o s).1 (copy_room o s).2 → copy_result o s i bs h m (Some (n, h')).
Proof.
  intros V [Hn Hnn I' Ho Hb Hr]. exists n, h'. split_and!; [done|done|]. right. split_and!; [done| |by apply (view_others h)|done]. rewrite <-V. cbn. by rewrite Hn.
Qed.

Lemma copy_refuses o s i bs h m h' : view h m → inv ext h' → (∀ y, contents 1 h' y = contents 1 h y) → copy_refused o s i (budget h) → copy_result o s i bs h m (Some (NULL, h')).
Proof. intros V I' Hc Hr. exists NULL, h'. split_and!; [done|done|]. left. split_and!; [done| |done]. intros y. by rewrite Hc. Qed.

Lemma copies_ok fuel h m o s b bs : inv ext h → view h m → skbs h !! copy_source o = Some s → bufs h !! head s = Some b → m !! copy_source o = Some bs → copy_fits o s h →
  copy_result o s (b_info b) bs h m (run_copy (S fuel) o h).
Proof.
  intros I V Hs Hb Hm Hfit. assert (packet_bytes (pages h) s b = bs) as <-.
  { pose proof (V (copy_source o)) as Hc. rewrite (contents_packet ext h _ s b I Hs Hb), Hm in Hc. by injection Hc. }
  destruct (inv_pkt _ _ I _ s Hs) as (c & _ & []).
  destruct o; cbn [copy_source run_copy copy_fits] in *.
  - destruct (copy_ok fuel h x s b I Hs Hb) as [[[l E] Hf]|(n & h' & E & F)]; rewrite E; [|by apply copy_gives].
    apply copy_refuses; [done|by apply inv_budget|done|]. destruct Hf as [Hg|Hu]; [by left|right]. eapply unlucky_le; [done|cbn; lia].
  - destruct Hfit as (Hnh & Hnt & Hsum). destruct (copy_expand_ok fuel h x s b _ _ I Hs Hb Hnh Hnt Hsum) as [[[l E] Hf]|(n & h' & E & F)]; rewrite E; [|by apply copy_gives].
    apply copy_refuses; [done|by apply inv_budget|done|]. destruct Hf as [Hg|Hu]; [by left|right]. eapply unlucky_le; [done|cbn; lia].
  - destruct (pcopy_ok (S fuel) h x s b headroom I Hs Hb Hfit) as [[[l E] Hu]|(n & h' & E & F)]; rewrite E; [|by apply copy_gives].
    apply copy_refuses; [done|by apply inv_budget|done|]. right. eapply unlucky_le; [done|cbn; lia].
  - destruct Hfit as [Hhr Hfew]. destruct (realloc_headroom_ok fuel h x s b headroom I Hs Hb Hhr Hfew) as [[(h' & E & I' & _ & Hc) Hu]|(n & h' & E & F)]; rewrite E; [|by apply copy_gives].
    apply copy_refuses; [done|done|done|]. right. eapply unlucky_le; [done|cbn; lia].
Qed.
End copies.

(** C24: A copy, with all its bytes in one buffer, with more room, with the pages shared, or
    with the room before the data only if it is missing, is a new packet: it has the
    bytes of the original and the room that was asked for, nobody else has its buffer, no
    other packet changes, and references stay counted.  There is none only for want of
    memory, or where the segments of the packet are a list; then no packet changes. *)
Theorem copies_are_private ext fuel h m o s b bs : inv ext h → view h m → skbs h !! copy_source o = Some s → bufs h !! head s = Some b →
  m !! copy_source o = Some bs → copy_fits o s h →
  ∃ n h', run_copy (S fuel) o h = Some (n, h') ∧ inv ext h' ∧
    (n = NULL ∧ view h' m ∧ copy_refused o s (b_info b) (budget h) ∨
     n ≠ NULL ∧ m !! n = None ∧ view h' (<[n := bs]> m) ∧
       ∃ s', skbs h' !! n = Some s' ∧ alone h' n s' ∧ (copy_room o s).1 ≤ data s' ∧ (copy_room o s).2 ≤ end_ s' - tail s').
Proof. apply copies_ok. Qed.

(** Expanding the copy of a packet that has a clone and a page. *)
Lemma copies_are_private_witness :
  (∃ n h', run_copy 1 (CExpand 1 8 4) two_packets = Some (n, h') ∧ inv (λ _, 0) h' ∧
     (n = NULL ∧ view h' two_strings ∧ copy_refused (CExpand 1 8 4) (set_cloned true one_skb) (set_dataref 2 (b_info one_buf)) [Some 0; Some 64] ∨
      n ≠ NULL ∧ two_strings !! n = None ∧ view h' (<[n := [1; 2; 3; 4; 5; 6]]> two_strings) ∧
        ∃ s', skbs h' !! n = Some s' ∧ alone h' n s' ∧ 8 ≤ data s' ∧ 4 ≤ end_ s' - tail s')) ∧
  match run_copy 1 (CExpand 1 8 4) two_packets with
  | Some (n, h') => n = 3 ∧ contents 1 h' 3 = Some [1; 2; 3; 4; 5; 6] ∧ page_refs h' 20 = 1
  | None => False
  end.
Proof.
  split; [|vm_compute; auto].
  apply (copies_are_private (λ _, 0) 0 two_packets two_strings (CExpand 1 8 4) (set_cloned true one_skb) (Buffer (b_bytes one_buf) (set_dataref 2 (b_info one_buf)))
    [1; 2; 3; 4; 5; 6] inv_two_packets view_two_packets eq_refl eq_refl eq_refl). vm_compute. repeat split; congruence.
Defined.

End SkbNew.
