(* ===== verification/SkbJoin.v ===== *)
(** * Cutting and joining packets

    net/core/skbuff.c: a packet is split in two, pages move from one packet to another, a
    packet is joined to the one before.  The packets must not be clones, or are given
    buffers of their own first; pages that end up in both get another reference. *)

From Stdlib Require Import ZArith Lia.
From stdpp Require Import base numbers list gmap.
From S2P Require Import Prelude SkbData SkbRead SkbShare SkbInv SkbValues.

Module SkbJoin.
Import SkbData SkbRead SkbShare SkbInv SkbValues.

(** ** skb_split *)

(** The line is inside the linear part: the bytes behind it are copied, the fragments
    move. *)
Definition skb_split_inside_header (x x1 len_ pos : Z) : hst unit :=
  o ← on x1 (skb_put (u32 (pos - len_)));
  bs ← skb_copy_from_linear_data_offset x len_ (pos - len_);
  write_head x1 o bs ;;
  sh ← skb_shinfo x;
  update_info x1 (set_frags (frags sh)) ;;
  update_info x (set_frags []) ;;
  s ← load x;
  update x1 (λ t, set_len (u32 (len t + data_len s)) (set_data_len (data_len s) t)) ;;
  update x (λ s, skb_set_tail_pointer len_ (set_len len_ (set_data_len 0 s))).

(** The fragments before the line and behind it; [pos] is where the first one starts.  The
    fragment on the line goes to both. *)
Fixpoint split_frags (fs : list skb_frag_t) (len_ pos : Z) : hst (list skb_frag_t * list skb_frag_t) :=
  match fs with
  | [] => mret ([], [])
  | f :: fs =>
      let size := skb_frag_size f in
      if len_ <? u32 (pos + size) then
        if pos <? len_ then
          __skb_frag_ref f ;;
          r ← split_frags fs len_ (pos + size);
          mret (skb_frag_size_set f (u32 (len_ - pos)) :: r.1, skb_frag_size_sub (skb_frag_off_add f (len_ - pos)) (len_ - pos) :: r.2)
        else
          r ← split_frags fs len_ (pos + size);
          mret (r.1, f :: r.2)
      else
        r ← split_frags fs len_ (pos + size);
        mret (f :: r.1, r.2)
  end.

(** The second packet has no linear part. *)
Definition skb_split_no_header (x x1 len_ pos : Z) : hst unit :=
  sh ← skb_shinfo x;
  s ← load x;
  update x1 (λ t, set_len (u32 (len s - len_)) (set_data_len (u32 (len s - len_)) t)) ;;
  update x (λ s, set_data_len (u32 (len_ - pos)) (set_len len_ s)) ;;
  r ← split_frags (frags sh) len_ pos;
  update_info x (set_frags r.1) ;;
  update_info x1 (set_frags r.2).

Definition skb_split (x x1 len_ : Z) : hst unit :=
  s ← load x;
  let pos := s32 (skb_headlen s) in
  if len_ <? u32 pos then skb_split_inside_header x x1 len_ pos else skb_split_no_header x x1 len_ pos.

(** ** skb_try_coalesce *)

(** The fragments of [from] go behind those of [to]; a clone of [from] keeps them too. *)
Definition coalesce_frags (to from len_ : Z) (f : sk_buff) (tsh fsh : skb_shared_info) : hst (bool * Z) :=
  let delta := s32 (truesize f - SKB_TRUESIZE (skb_end_offset f)) in
  update_info to (set_frags (frags tsh ++ frags fsh)) ;;
  cf ← skb_cloned from;
  (if cf : bool then ref_frags (frags fsh) else update_info from (set_frags [])) ;;
  update to (λ t, set_data_len (u32 (data_len t + len_)) (set_len (u32 (len t + len_)) (set_truesize (u32 (truesize t + delta)) t))) ;;
  mret (true, delta).

(** Joins [from] to [to]; the answer is whether it could, and how much truesize moved.  The
    bytes are copied if they fit; else the fragments are taken over, if [from] has
    no linear part (its head is from kmalloc, so it cannot become a fragment). *)
Definition skb_try_coalesce (fuel : nat) (to from : Z) : hst (bool * Z) :=
  f ← load from;
  t ← load to;
  let len_ := s32 (len f) in
  c ← skb_cloned to;
  if c : bool then mret (false, 0)
  else if len_ <=? skb_tailroom t then
    (if len_ =? 0 then mret tt
     else
       o ← on to (skb_put (u32 len_));
       r ← skb_copy_bits fuel from 0 len_;
       if negb (r.1 =? 0) then fault else write_head to o r.2) ;;
    mret (true, 0)
  else
    tsh ← skb_shinfo to;
    fsh ← skb_shinfo from;
    if negb (frag_list tsh =? NULL) || negb (frag_list fsh =? NULL) then mret (false, 0)
    else if negb (skb_headlen f =? 0) then mret (false, 0)
    else if MAX_SKB_FRAGS <? nr_frags tsh + nr_frags fsh then mret (false, 0)
    else coalesce_frags to from len_ f tsh fsh.

(** The structure of [from] goes once its data is in [to]. *)
Definition kfree_skb_partial (fuel : nat) (x : Z) (head_stolen : bool) : hst unit :=
  if head_stolen then kfree_skbmem x
  else skb_release_data (kfree_skb_list fuel) x ;; kfree_skbmem x.

(** ** Two packets that change *)

Section pair.
Context {ext : Z → Z} (h : heap) (x x1 a a1 : Z) (Hx : x ≠ x1) (Ha : a ≠ a1).

(** The memory with [x] and [x1] in the buffers [a] and [a1]. *)
Definition pair (s : sk_buff) (b : buffer) (s1 : sk_buff) (b1 : buffer) (rf : Z → Z) (bud : list (option Z)) : heap :=
  Heap (<[x := s]> (<[x1 := s1]> (skbs h))) (<[a := b]> (<[a1 := b1]> (bufs h))) (pages h) rf bud.

Context (s : sk_buff) (b : buffer) (s1 : sk_buff) (b1 : buffer) (rf : Z → Z) (bud : list (option Z)) (Hh : head s = a) (Hh1 : head s1 = a1).
Abbreviation here := (pair s b s1 b1 rf bud).

Lemma pair_fst : skbs here !! x = Some s ∧ bufs here !! head s = Some b.
Proof. cbn. rewrite Hh. by rewrite !lookup_insert_eq. Qed.

Lemma pair_snd : skbs here !! x1 = Some s1 ∧ bufs here !! head s1 = Some b1.
Proof. cbn. rewrite Hh1, !(lookup_insert_ne _ x), !(lookup_insert_ne _ a) by done. by rewrite !lookup_insert_eq. Qed.

Lemma pair_update_fst f : update x f here = Some (tt, pair (f s) b s1 b1 rf bud).
Proof. rewrite (update_ok x f _ s (proj1 pair_fst)). unfold pair, set_skbs. cbn. by rewrite insert_insert_eq. Qed.

Lemma pair_update_snd f : update x1 f here = Some (tt, pair s b (f s1) b1 rf bud).
Proof. rewrite (update_ok x1 f _ s1 (proj1 pair_snd)). unfold pair, set_skbs. cbn. by rewrite (insert_insert_ne _ x1 x), insert_insert_eq by done. Qed.

Lemma pair_on_snd {A} (m : kst A) r s' : m s1 = Some (r, s') → on x1 m here = Some (r, pair s b s' b1 rf bud).
Proof. intros Em. rewrite (on_ok x1 m _ s1 r s' (proj1 pair_snd) Em). unfold pair, set_skbs. cbn. by rewrite (insert_insert_ne _ x1 x), insert_insert_eq by done. Qed.

Lemma pair_info_fst f : update_info x f here = Some (tt, pair s (Buffer (b_bytes b) (f (b_info b))) s1 b1 rf bud).
Proof. rewrite (update_info_ok x f _ s b (proj1 pair_fst) (proj2 pair_fst)). unfold pair, set_bufs. cbn. by rewrite Hh, insert_insert_eq. Qed.

Lemma pair_info_snd f : update_info x1 f here = Some (tt, pair s b s1 (Buffer (b_bytes b1) (f (b_info b1))) rf bud).
Proof.
  rewrite (update_info_ok x1 f _ s1 b1 (proj1 pair_snd) (proj2 pair_snd)). unfold pair, set_bufs. cbn. by rewrite Hh1, (insert_insert_ne _ a1 a), insert_insert_eq by done.
Qed.

Lemma pair_write_snd off bs v : put_at (b_bytes b1) off bs = Some v → write_head x1 off bs here = Some (tt, pair s b s1 (Buffer v (b_info b1)) rf bud).
Proof.
  intros E. rewrite (write_head_ok x1 off bs _ s1 b1 v (proj1 pair_snd) (proj2 pair_snd) E). unfold pair, set_bufs. cbn. by rewrite Hh1, (insert_insert_ne _ a1 a), insert_insert_eq by done.
Qed.

Lemma pair_linear off n bs : bytes_at (b_bytes b) (data s + off) n = Some bs → skb_copy_from_linear_data_offset x off n here = Some (bs, here).
Proof.
  intros E. destruct pair_fst as [H1 H2]. unfold skb_copy_from_linear_data_offset, read_head.
  rewrite (st_bind_step _ _ _ _ _ (load_ok x _ s H1)), (st_bind_step _ _ _ _ _ (load_ok x _ s H1)), (st_bind_step _ _ _ _ _ (load_buf_ok _ _ b H2)). unfold lift. by rewrite E.
Qed.

(** Both keep their buffers, which nobody else has: the invariant holds and the others do
    not change, if the references follow the fragments. *)
Lemma pair_ok s0 b0 s01 b01 : inv ext h → skbs h !! x = Some s0 → bufs h !! head s0 = Some b0 → skbs h !! x1 = Some s01 → bufs h !! head s01 = Some b01 →
  same_share s0 s → same_share s01 s1 → dataref (b_info b) = dataref (b_info b0) → dataref (b_info b1) = dataref (b_info b01) →
  frag_list (b_info b) = NULL → frag_list (b_info b1) = NULL → Forall (mapped (pages h)) (frags (b_info b)) → Forall (mapped (pages h)) (frags (b_info b1)) →
  pkt_ok s b → pkt_ok s1 b1 → alone h x s0 → alone h x1 s01 →
  (∀ p, rf p = page_refs h p - buf_uses p b0 + buf_uses p b - buf_uses p b01 + buf_uses p b1) →
  inv ext here ∧ pages here = pages h ∧ contents 1 here x = Some (packet_bytes (pages h) s b) ∧ contents 1 here x1 = Some (packet_bytes (pages h) s1 b1) ∧
    ∀ y, y ≠ x → y ≠ x1 → contents 1 here y = contents 1 h y.
Proof.
  intros I Hs0 Hb0 Hs01 Hb01 S S1 Hd Hd1 Hfl Hfl1 Hm Hm1 P P1 Al Al1 Hrf. pose proof (ss_head _ _ S) as Eh. pose proof (ss_head _ _ S1) as Eh1. rewrite Hh in Eh. rewrite Hh1 in Eh1.
  set (rf1 := λ p, page_refs h p - buf_uses p b01 + buf_uses p b1). set (h1 := put_packet x1 s1 b1 rf1 bud h).
  assert (inv ext h1) as I1 by (by apply (inv_update h x1 s01 b01 s1 b1 rf1 bud I Hs01 Hb01 S1); try done; left).
  destruct (contents_update h x1 s01 b01 s1 b1 rf1 bud I Hs01 Hb01 S1 I1 (or_introl Al1)) as [Hc1 Hy1]. fold h1 in Hc1, Hy1.
  assert (skbs h1 !! x = Some s0) as Hs1 by (cbn; by rewrite lookup_insert_ne). assert (bufs h1 !! head s0 = Some b0) as Hb1 by (cbn; rewrite lookup_insert_ne; [done|congruence]).
  assert (alone h1 x s0) as Al'.
  { intros y t Ht Et. cbn in Ht. apply lookup_insert_Some in Ht as [[<- <-]|[Hy Ht]]; [congruence|by apply (Al y t)]. }
  assert (here = put_packet x s b rf bud h1) as E by (unfold pair, h1, put_packet; cbn; by rewrite Hh, Hh1).
  assert (inv ext here) as I2.
  { rewrite E. apply (inv_update h1 x s0 b0 s b rf bud I1 Hs1 Hb1 S); try done; [|by left]. intros p. rewrite Hrf. cbn. unfold rf1. lia. }
  destruct (contents_update h1 x s0 b0 s b rf bud I1 Hs1 Hb1 S ltac:(by rewrite <-E) (or_introl Al')) as [Hc2 Hy2]. rewrite <-E in Hc2, Hy2.
  split_and!; [done|done|done| |]; [rewrite Hy2 by done; exact Hc1|]. intros y Hyx Hyx1. rewrite Hy2 by done. by apply Hy1.
Qed.
End pair.

Lemma pair_start h x x1 s b s1 b1 : x ≠ x1 → head s ≠ head s1 → skbs h !! x = Some s → bufs h !! head s = Some b → skbs h !! x1 = Some s1 → bufs h !! head s1 = Some b1 →
  h = pair h x x1 (head s) (head s1) s b s1 b1 (page_refs h) (budget h).
Proof.
  intros Hx Ha Hs Hb Hs1 Hb1. unfold pair. rewrite (insert_id (skbs h) x1 s1) by done. rewrite (insert_id (skbs h) x s) by done.
  rewrite (insert_id (bufs h) (head s1) b1) by done. rewrite (insert_id (bufs h) (head s) b) by done. by destruct h.
Qed.

(** ** Splitting *)

Lemma start_at {A} (m : hst A) (Q : heap → Prop) a h h0 : h = h0 → (∃ h', m h0 = Some (a, h') ∧ Q h') → ∃ h', m h = Some (a, h') ∧ Q h'.
Proof. by intros ->. Qed.

Section cut.
Context {ext : Z → Z}.

Lemma split_frags_ok pg fs : Forall (mapped pg) fs → ∀ n pos h, 0 ≤ pos → 0 ≤ n < 2 ^ 31 → pos + fsize fs < 2 ^ 31 →
  ∃ k r rf, split_frags fs n pos h = Some ((k, r), set_page_refs rf h) ∧ (∀ p, rf p = page_refs h p - uses p fs + uses p k + uses p r) ∧
    Forall (mapped pg) k ∧ Forall (mapped pg) r ∧ concat (map (page_bytes pg) k) = take (Z.to_nat (n - pos)) (concat (map (page_bytes pg) fs)) ∧
    concat (map (page_bytes pg) r) = drop (Z.to_nat (n - pos)) (concat (map (page_bytes pg) fs)).
Proof.
  induction 1 as [|f fs Hf Hfs IH]; intros n pos h Hp Hn Hb.
  { exists [], [], (page_refs h). split_and!; try done; [by destruct h|intros; cbn; lia|by cbn; rewrite take_nil|by cbn; rewrite drop_nil]. }
  pose proof (page_bytes_len pg f Hf) as Hl. pose proof Hf as (c & Hc & Hcz & Ho & Hpos & Hfit). cbn [fsize] in Hb. assert (0 ≤ fsize fs) as Hfs0.
  { rewrite <-(pages_len pg fs Hfs). lia. }
  cbn [split_frags map concat uses]. unfold skb_frag_size. cbv zeta. rewrite (wrapU_small 32 (pos + bv_len f)) by (unfold is_u; lia).
  destruct (Z.ltb_spec n (pos + bv_len f)) as [Hlt|Hge]; [destruct (Z.ltb_spec pos n) as [Hin|Hout]|].
  - set (h1 := set_page_refs (λ q, if q =? bv_page f then page_refs h (bv_page f) + 1 else page_refs h q) h).
    rewrite (st_bind_step _ _ _ _ _ (eq_refl : __skb_frag_ref f h = Some (tt, h1))). destruct (IH n (pos + bv_len f) h1) as (k & r & rf & E & Hrf & Hk & Hr & Ek & Er); [lia..|].
    rewrite (st_bind_step _ _ _ _ _ E). destruct (page_bytes_drop pg f (n - pos) Hf ltac:(lia)) as (Hm & Eb & Epg & _).
    assert (page_bytes pg (skb_frag_size_set f (u32 (n - pos))) = take (Z.to_nat (n - pos)) (page_bytes pg f) ∧ mapped pg (skb_frag_size_set f (u32 (n - pos)))) as [Eb' Hm'].
    { unfold skb_frag_size_set. rewrite !(wrapU_small 32 (n - pos)) by (unfold is_u; lia). split; [unfold page_bytes; cbn; unfold slice; rewrite take_take; f_equal; lia|].
      exists c. cbn. split_and!; done || lia. }
    replace (Z.to_nat (n - (pos + bv_len f))) with O in Ek, Er by lia. rewrite take_0 in Ek. rewrite drop_0 in Er. eexists _, _, rf. split; [reflexivity|]. cbn [fst snd].
    split_and!; [|by constructor|by constructor| |].
    + intros p. rewrite Hrf. cbn. rewrite (Z.eqb_sym (bv_page f)). destruct (Z.eqb_spec p (bv_page f)); subst; lia.
    + cbn. rewrite Eb', Ek, app_nil_r, take_app_le by lia. done.
    + cbn [map concat]. rewrite Eb, Er, drop_app_le by lia. done.
  - destruct (IH n (pos + bv_len f) h) as (k & r & rf & E & Hrf & Hk & Hr & Ek & Er); [lia..|]. rewrite (st_bind_step _ _ _ _ _ E).
    replace (Z.to_nat (n - (pos + bv_len f))) with O in Ek, Er by lia. replace (Z.to_nat (n - pos)) with O by lia. eexists _, _, rf. split; [reflexivity|]. cbn [fst snd].
    split_and!; [intros p; rewrite Hrf; cbn; lia|done|by constructor|done|]. cbn. by rewrite Er.
  - destruct (IH n (pos + bv_len f) h) as (k & r & rf & E & Hrf & Hk & Hr & Ek & Er); [lia..|]. rewrite (st_bind_step _ _ _ _ _ E). eexists _, _, rf. split; [reflexivity|]. cbn [fst snd].
    split_and!; [intros p; rewrite Hrf; cbn; lia|by constructor|done| |].
    + cbn. rewrite Ek, take_app_ge by lia. do 2 f_equal. lia.
    + rewrite Er, drop_app_ge by lia. f_equal. lia.
Qed.

(** The packets before and after a line. *)
Record cut (x x1 n : Z) (bs : list Z) (h h' : heap) : Prop := {
  cut_inv : inv ext h';
  cut_pages : pages h' = pages h;
  cut_fst : contents 1 h' x = Some (take (Z.to_nat n) bs);
  cut_snd : contents 1 h' x1 = Some (drop (Z.to_nat n) bs);
  cut_others : ∀ y, y ≠ x → y ≠ x1 → contents 1 h' y = contents 1 h y }.

(** An empty packet without fragments. *)
Definition blank (s : sk_buff) (b : buffer) : Prop := len s = 0 ∧ data_len s = 0 ∧ frags (b_info b) = [].

Section two.
Context (h : heap) (x x1 : Z) (s : sk_buff) (b : buffer) (s1 : sk_buff) (b1 : buffer) (n : Z).
Context (I : inv ext h) (Hx : x ≠ x1) (Hs : skbs h !! x = Some s) (Hb : bufs h !! head s = Some b) (Hs1 : skbs h !! x1 = Some s1) (Hb1 : bufs h !! head s1 = Some b1).
Context (Al : alone h x s) (Al1 : alone h x1 s1) (B : blank s1 b1).

Lemma heads_differ : head s ≠ head s1.
Proof. intros E. apply Hx. symmetry. by apply (Al x1 s1). Qed.

Lemma split_outside_ok : len s - data_len s ≤ n ≤ len s → ∃ h', skb_split_no_header x x1 n (len s - data_len s) h = Some (tt, h') ∧ cut x x1 n (packet_bytes (pages h) s b) h h'.
Proof.
  intros Hn. destruct (inv_pkt _ _ I x s Hs) as (c & Ec & P). assert (c = b) as -> by congruence. clear Ec. destruct (inv_pkt _ _ I x1 s1 Hs1) as (c & Ec & P1). assert (c = b1) as -> by congruence. clear Ec.
  destruct (inv_buf _ _ I _ _ Hb) as [Hfl Hm]. destruct (inv_buf _ _ I _ _ Hb1) as [Hfl1 _]. pose proof P as []. pose proof P1 as []. unfold KMALLOC_MAX_SIZE in *. destruct B as (Bl & Bd & Bf). set (pos := len s - data_len s) in *.
  pose proof heads_differ as Ha. unfold skb_split_no_header. rewrite (st_bind_step _ _ _ _ _ (skb_shinfo_ok x h s b Hs Hb)), (st_bind_step _ _ _ _ _ (load_ok x h s Hs)).
  apply (start_at _ _ _ h _ (pair_start h x x1 s b s1 b1 Hx Ha Hs Hb Hs1 Hb1)).
  rewrite (st_bind_step _ _ _ _ _ (pair_update_snd h x x1 _ _ Hx Ha s b s1 b1 _ _ eq_refl _)). set (s1' := set_len _ _).
  rewrite (st_bind_step _ _ _ _ _ (pair_update_fst h x x1 _ _ s b s1' b1 _ _ eq_refl _)). cbv beta. set (s' := set_data_len _ _).
  destruct (split_frags_ok (pages h) _ Hm n pos (pair h x x1 (head s) (head s1) s' b s1' b1 (page_refs h) (budget h))) as (k & r & rf & E & Hrf & Hk & Hr & Ek & Er); [lia..|].
  rewrite (st_bind_step _ _ _ _ _ E). cbn [fst snd]. change (set_page_refs rf _) with (pair h x x1 (head s) (head s1) s' b s1' b1 rf (budget h)).
  rewrite (st_bind_step _ _ _ _ _ (pair_info_fst h x x1 _ _ s' b s1' b1 _ _ eq_refl _)). rewrite (pair_info_snd h x x1 _ _ Hx Ha s' _ s1' b1 _ _ eq_refl). eexists. split; [reflexivity|].
  set (b' := Buffer (b_bytes b) _). set (b1' := Buffer (b_bytes b1) _). pose proof (pages_len _ _ Hk) as Lk. pose proof (pages_len _ _ Hr) as Lr. pose proof (pages_len _ _ Hm) as Lm. rewrite Ek, length_take in Lk. rewrite Er, length_drop in Lr.
  assert (u32 (len s - n) = len s - n) as E1 by (apply wrapU_small; unfold is_u; lia). assert (u32 (n - pos) = n - pos) as E2 by (apply wrapU_small; unfold is_u; lia).
  assert (pkt_ok s' b') as P'. { split; cbn; rewrite ?E2; done || lia. }
  assert (pkt_ok s1' b1') as P1'. { split; cbn; rewrite ?E1; done || lia. }
  destruct (pair_ok (ext := ext) h x x1 (head s) (head s1) Hx Ha s' b' s1' b1' rf (budget h) eq_refl eq_refl s b s1 b1) as (I' & Hpg & H1 & H2 & H3); try done.
  { intros p. rewrite Hrf. unfold buf_uses, b', b1'. cbn. rewrite Bf. cbn. lia. }
  split; [done|done| | |done].
  - rewrite H1. f_equal. unfold packet_bytes, linear_bytes. cbn [b' b_info b_bytes frags set_frags s' len data_len data set_data_len set_len]. rewrite E2. replace (n - (n - pos)) with pos by lia.
    rewrite Ek. fold (linear_bytes s b). pose proof (linear_len s b P). fold pos in H. change (slice (data s) pos (b_bytes b)) with (linear_bytes s b). rewrite take_app_ge by lia. do 2 f_equal. lia.
  - rewrite H2. f_equal. unfold packet_bytes, linear_bytes. cbn [b1' b_info b_bytes frags set_frags s1' len data_len data set_data_len set_len]. rewrite E1. rewrite Z.sub_diag. rewrite (slice_none (data s1)) by lia.
    rewrite Er. pose proof (linear_len s b P). fold pos in H. unfold linear_bytes in *. fold pos in H |- *. rewrite drop_app_ge by lia. cbn. f_equal. lia.
Qed.

Lemma put_ok t c k : pkt_ok t c → data_len t = 0 → 0 ≤ k → tail t + k ≤ end_ t → skb_put (u32 k) t = Some (tail t, set_len (len t + k) (set_tail (tail t + k) t)).
Proof.
  intros [] Hd Hk Hr. unfold KMALLOC_MAX_SIZE in *. unfold skb_put, mbind, st_bind, get, put, skb_is_nonlinear. rewrite Hd. cbn [Z.eqb negb].
  rewrite (wrapU_small 32 k), (wrapU_small 32 (len t + k)), (wrapU_small 32 (tail t + k)) by (unfold is_u; lia). cbn [end_ tail set_len set_tail]. by rewrite (proj2 (Z.ltb_ge _ _)) by lia.
Qed.

Lemma split_inside_ok : 0 ≤ n < len s - data_len s → tail s1 + (len s - data_len s - n) ≤ end_ s1 →
  ∃ h', skb_split_inside_header x x1 n (len s - data_len s) h = Some (tt, h') ∧ cut x x1 n (packet_bytes (pages h) s b) h h'.
Proof.
  intros Hn Hroom. destruct (inv_pkt _ _ I x s Hs) as (c & Ec & P). assert (c = b) as -> by congruence. clear Ec. destruct (inv_pkt _ _ I x1 s1 Hs1) as (c & Ec & P1). assert (c = b1) as -> by congruence. clear Ec.
  destruct (inv_buf _ _ I _ _ Hb) as [Hfl Hm]. destruct (inv_buf _ _ I _ _ Hb1) as [Hfl1 _]. pose proof P as []. pose proof P1 as []. unfold KMALLOC_MAX_SIZE in *. destruct B as (Bl & Bd & Bf). set (pos := len s - data_len s) in *.
  pose proof heads_differ as Ha. unfold skb_split_inside_header. apply (start_at _ _ _ h _ (pair_start h x x1 s b s1 b1 Hx Ha Hs Hb Hs1 Hb1)).
  rewrite (st_bind_step _ _ _ _ _ (pair_on_snd h x x1 _ _ Hx Ha s b s1 b1 _ _ eq_refl _ _ _ (put_ok s1 b1 (pos - n) P1 Bd ltac:(lia) Hroom))). set (s1a := set_len _ _).
  pose proof (linear_len s b P) as Ll. fold pos in Ll. set (w := drop (Z.to_nat n) (linear_bytes s b)). assert (zlen w = pos - n) as Hw by (unfold w; rewrite length_drop; lia).
  assert (bytes_at (b_bytes b) (data s + n) (pos - n) = Some w) as Ew.
  { unfold bytes_at. rewrite !(proj2 (Z.leb_le _ _)) by lia. cbn [andb]. f_equal. unfold w, linear_bytes, slice. fold pos. rewrite skipn_firstn_comm, drop_drop. f_equal; [lia|]. f_equal. lia. }
  rewrite (st_bind_step _ _ _ _ _ (pair_linear h x x1 _ _ s b s1a b1 _ _ eq_refl n (pos - n) w Ew)). destruct (put_at_Some (b_bytes b1) (tail s1) w) as [v Ev]; [lia..|].
  rewrite (st_bind_step _ _ _ _ _ (pair_write_snd h x x1 _ _ Hx Ha s b s1a b1 _ _ eq_refl (tail s1) w v Ev)).
  destruct (pair_fst h x x1 (head s) (head s1) s b s1a (Buffer v (b_info b1)) (page_refs h) (budget h) eq_refl) as [G1 G2]. rewrite (st_bind_step _ _ _ _ _ (skb_shinfo_ok x _ s b G1 G2)).
  rewrite (st_bind_step _ _ _ _ _ (pair_info_snd h x x1 _ _ Hx Ha s b s1a _ _ _ eq_refl _)). cbn [b_bytes b_info]. rewrite (st_bind_step _ _ _ _ _ (pair_info_fst h x x1 _ _ s b s1a _ _ _ eq_refl _)).
  set (b' := Buffer (b_bytes b) _). set (b1' := Buffer v _).
  rewrite (st_bind_step _ _ _ _ _ (load_ok x _ s (proj1 (pair_fst h x x1 (head s) (head s1) s b' s1a b1' _ _ eq_refl)))).
  rewrite (st_bind_step _ _ _ _ _ (pair_update_snd h x x1 _ _ Hx Ha s b' s1a b1' _ _ eq_refl _)), (pair_update_fst h x x1 _ _ s b' _ b1' _ _ eq_refl _). cbv beta. eexists. split; [reflexivity|].
  set (s' := skb_set_tail_pointer _ _). set (s1' := set_len _ _).
  pose proof (pages_len _ _ Hm) as Lm. pose proof (put_at_length _ _ _ _ Ev) as Lv.
  assert (u32 (len s1 + (pos - n) + data_len s) = len s - n) as E1 by (rewrite (wrapU_small 32) by (unfold is_u; lia); lia).
  assert (u32 (u32 (data s) + n) = data s + n) as E2 by (rewrite !(wrapU_small 32) by (unfold is_u; rewrite ?(wrapU_small 32) by (unfold is_u; lia); lia); lia).
  assert (pkt_ok s' b') as P'. { split; cbn; rewrite ?E2; done || lia. }
  assert (pkt_ok s1' b1') as P1'. { split; cbn; rewrite ?E1; done || (unfold pos in *; lia). }
  destruct (pair_ok (ext := ext) h x x1 (head s) (head s1) Hx Ha s' b' s1' b1' (page_refs h) (budget h) eq_refl eq_refl s b s1 b1) as (I' & Hpg & H1 & H2 & H3); try done.
  { intros p. unfold buf_uses, b', b1'. cbn. rewrite Bf. cbn. lia. }
  split; [done|done| | |done].
  - rewrite H1. f_equal. unfold packet_bytes. cbn [b' b_info frags set_frags map concat]. rewrite app_nil_r, take_app_le by lia. unfold linear_bytes. cbn. rewrite Z.sub_0_r. unfold slice. rewrite take_take. f_equal. lia.
  - rewrite H2. f_equal. unfold packet_bytes. cbn [b1' b_info frags set_frags]. rewrite drop_app_le by lia. fold w. f_equal. unfold linear_bytes. cbn. rewrite E1.
    replace (len s - n - data_len s) with (0 + zlen w) by lia. etransitivity; [apply (slice_put _ _ _ 0 _ _ Ev); lia|done].
Qed.

(** The packet is cut at [n]: the second one, which was empty, gets the rest, with a
    reference more to the page on the line. *)
Lemma split_ok bs : contents 1 h x = Some bs → 0 ≤ n ≤ zlen bs → zlen bs - n ≤ end_ s1 - tail s1 ∨ len s - data_len s ≤ n →
  ∃ h', skb_split x x1 n h = Some (tt, h') ∧ cut x x1 n bs h h'.
Proof.
  intros Hc Hn Hroom. rewrite (contents_packet ext h x s b I Hs Hb) in Hc. injection Hc as <-. rewrite (packet_len ext h x s b I Hs Hb) in Hn, Hroom.
  destruct (inv_pkt _ _ I x s Hs) as (c & Ec & P). assert (c = b) as -> by congruence. pose proof P as []. unfold skb_split. rewrite (st_bind_step _ _ _ _ _ (load_ok x h s Hs)), (headlen_ok s b P).
  unfold KMALLOC_MAX_SIZE in *. rewrite (wrapS_small 32), (wrapU_small 32) by (unfold is_u, is_s; lia). destruct (Z.ltb_spec n (len s - data_len s)); [apply split_inside_ok|apply split_outside_ok]; lia.
Qed.
End two.

(** ** Joining *)

Lemma partial_is_free fuel h x s : inv ext h → skbs h !! x = Some s → kfree_skb_partial fuel x false h = kfree_skb (S fuel) x h.
Proof.
  intros I Hs. destruct (inv_pkt _ _ I x s Hs) as (b & Hb & P). cbn [kfree_skb]. rewrite (proj2 (Z.eqb_neq _ _) (inv_key _ _ I x s Hs)).
  assert (skb_unref x h = Some (true, h)) as E. { unfold skb_unref. rewrite (st_bind_step _ _ _ _ _ (load_ok x h s Hs)), (pk_users _ _ P). done. }
  by rewrite (st_bind_step _ _ _ _ _ E).
Qed.

(** The first packet has the bytes of both, the second one is gone. *)
Record joined (to from : Z) (bs : list Z) (h h' : heap) : Prop := {
  jn_inv : inv ext h';
  jn_pages : pages h' = pages h;
  jn_to : contents 1 h' to = Some bs;
  jn_from : contents 1 h' from = None;
  jn_others : ∀ y, y ≠ to → y ≠ from → contents 1 h' y = contents 1 h y }.

(** [to] changed and [from] as it was: [from] goes. *)
Lemma joined_free fuel to from bs h h1 f : to ≠ from → inv ext h1 → others to h h1 → contents 1 h1 to = Some bs → skbs h1 !! from = Some f →
  ∃ h', kfree_skb_partial fuel from false h1 = Some (tt, h') ∧ joined to from bs h h'.
Proof.
  intros Hne I1 [Hp Ho] Hto Hf. rewrite (partial_is_free fuel h1 from f I1 Hf). destruct (free_ok fuel h1 from f I1 Hf) as (h' & E & I' & [Hp' Ho'] & Hg & _).
  exists h'. split; [exact E|]. split; [done|congruence|by rewrite Ho'|cbn; by rewrite Hg|]. intros y H1 H2. by rewrite Ho', Ho.
Qed.

Section both.
Context (h : heap) (to from : Z) (t : sk_buff) (bt : buffer) (f : sk_buff) (bf : buffer).
Context (I : inv ext h) (Hne : to ≠ from) (Ht : skbs h !! to = Some t) (Hbt : bufs h !! head t = Some bt) (Hf : skbs h !! from = Some f) (Hbf : bufs h !! head f = Some bf).
Context (Al : alone h to t) (Hlen : len t + len f < 2 ^ 30).
Abbreviation bt_bytes := (packet_bytes (pages h) t bt).
Abbreviation bf_bytes := (packet_bytes (pages h) f bf).

Lemma join_heads : head t ≠ head f.
Proof. intros E. apply Hne. symmetry. by apply (Al from f). Qed.

(** The bytes fit behind the first packet. *)
Lemma join_copy_ok fuel k : 0 < len f ≤ skb_tailroom t →
  ∃ h1, (o ← on to (skb_put (u32 (len f))); r ← skb_copy_bits (S fuel) from 0 (len f); if negb (r.1 =? 0) then fault else write_head to o r.2) h = Some (tt, h1) ∧
    ∃ h', kfree_skb_partial k from false h1 = Some (tt, h') ∧ joined to from (bt_bytes ++ bf_bytes) h h'.
Proof.
  intros Hfit. destruct (inv_pkt _ _ I to t Ht) as (c & Ec & P). assert (c = bt) as -> by congruence. clear Ec. destruct (inv_pkt _ _ I from f Hf) as (c & Ec & Pf). assert (c = bf) as -> by congruence. clear Ec.
  destruct (inv_buf _ _ I _ _ Hbt) as [Hfl Hm]. pose proof P as []. pose proof Pf as []. unfold KMALLOC_MAX_SIZE in *. pose proof join_heads as Ha.
  unfold skb_tailroom, skb_is_nonlinear in Hfit. destruct (Z.eqb_spec (data_len t) 0) as [Hd|]; cbn [negb] in Hfit; [|lia]. rewrite (wrapS_small 32) in Hfit by (unfold is_s; lia).
  rewrite (st_bind_step _ _ _ _ _ (on_ok to _ h t _ _ Ht (put_ok t bt (len f) P Hd ltac:(lia) ltac:(lia)))). set (t' := set_len _ _). set (h1 := set_skbs _ h).
  assert (pkt_ok t' bt) as P' by (split; cbn; done || lia). destruct (inv_fields h to t bt t' I Ht Hbt ltac:(done) P' ltac:(done)) as (I1 & [_ Ho1] & _). fold h1 in I1, Ho1.
  assert (skbs h1 !! from = Some f) as Hf1 by (cbn; by rewrite lookup_insert_ne). assert (skbs h1 !! to = Some t') as Ht1 by apply lookup_insert_eq.
  rewrite (st_bind_step _ _ _ _ _ (copy_bits_in fuel h1 from f bf 0 (len f) I1 Hf1 Hbf ltac:(lia) ltac:(lia) ltac:(lia))). cbn [fst snd Z.eqb negb]. change (pages h1) with (pages h).
  pose proof (packet_len ext h from f bf I Hf Hbf) as Lf. rewrite slice_all by lia. destruct (put_at_Some (b_bytes bt) (tail t) bf_bytes) as [v Ev]; [lia..|].
  rewrite (write_head_ok to (tail t) _ h1 t' bt v Ht1 Hbt Ev). eexists. split; [reflexivity|]. set (b' := Buffer v (b_info bt)). set (h2 := set_bufs _ h1).
  assert (h2 = put_packet to t' b' (page_refs h) (budget h) h) as E by done. pose proof (put_at_length _ _ _ _ Ev) as Lv.
  assert (inv ext h2) as I2. { rewrite E. apply (inv_update h to t bt t' b' _ _ I Ht Hbt); try done; [by apply (pkt_ok_frame t' bt)|intros p; unfold buf_uses; cbn; lia|by left]. }
  pose proof (contents_update h to t bt t' b' (page_refs h) (budget h) I Ht Hbt ltac:(done) ltac:(by rewrite <-E) (or_introl Al)) as [Hx Hy]. rewrite <-E in Hx, Hy.
  apply (joined_free k to from _ h h2 f Hne I2); [by split| |done]. rewrite Hx. f_equal. unfold packet_bytes at 1 2. cbn [b' b_info].
  assert (concat (map (page_bytes (pages h)) (frags (b_info bt))) = []) as ->. { pose proof (pages_len _ _ Hm). apply length_zero_iff_nil. lia. }
  rewrite !app_nil_r. unfold linear_bytes. cbn. rewrite <-Lf, Hd. replace (len t + zlen bf_bytes - 0) with (len t - 0 + zlen bf_bytes) by lia. apply (slice_put _ _ _ _ _ _ Ev); lia.
Qed.

Lemma fsize_app fs gs : fsize (fs ++ gs) = fsize fs + fsize gs.
Proof. induction fs as [|g fs IH]; cbn; [done|]. rewrite IH. lia. Qed.

Lemma uses_app p fs gs : uses p (fs ++ gs) = uses p fs + uses p gs.
Proof. induction fs as [|g fs IH]; cbn; [done|]. rewrite IH. lia. Qed.

Definition joined_to : sk_buff := set_data_len (data_len t + len f) (set_len (len t + len f) (set_truesize (u32 (truesize t + s32 (truesize f - SKB_TRUESIZE (skb_end_offset f)))) t)).
Definition joined_buf : buffer := Buffer (b_bytes bt) (set_frags (frags (b_info bt) ++ frags (b_info bf)) (b_info bt)).

Lemma joined_pkt : data_len f = len f → pkt_ok joined_to joined_buf ∧ packet_bytes (pages h) joined_to joined_buf = bt_bytes ++ bf_bytes ∧
  Forall (mapped (pages h)) (frags (b_info joined_buf)).
Proof.
  intros Hd. destruct (inv_pkt _ _ I to t Ht) as (c & Ec & P). assert (c = bt) as -> by congruence. clear Ec. destruct (inv_pkt _ _ I from f Hf) as (c & Ec & Pf). assert (c = bf) as -> by congruence. clear Ec.
  destruct (inv_buf _ _ I _ _ Hbt) as [_ Hm]. destruct (inv_buf _ _ I _ _ Hbf) as [_ Hmf]. destruct P, Pf. split_and!.
  - split; cbn; rewrite ?fsize_app; done || lia.
  - unfold packet_bytes, linear_bytes. cbn. rewrite map_app, concat_app, Hd, (slice_none (data f)) by lia. cbn. rewrite app_assoc. do 3 f_equal. lia.
  - by apply Forall_app.
Qed.

(** [from] is a clone: the fragments get references. *)
Lemma join_shared_ok fuel rf : data_len f = len f → (∀ p, rf p = page_refs h p + uses p (frags (b_info bf))) →
  ∃ h', kfree_skb_partial fuel from false (pair h to from (head t) (head f) joined_to joined_buf f bf rf (budget h)) = Some (tt, h') ∧ joined to from (bt_bytes ++ bf_bytes) h h'.
Proof.
  intros Hd Hrf. destruct (joined_pkt Hd) as (P & Eb & Hm). destruct (inv_buf _ _ I _ _ Hbt) as [Hfl _]. pose proof join_heads as Ha. set (h1 := pair _ _ _ _ _ _ _ _ _ _ _).
  assert (h1 = put_packet to joined_to joined_buf rf (budget h) h) as E.
  { unfold h1, pair, put_packet. by rewrite (insert_id (skbs h) from f), (insert_id (bufs h) (head f) bf). }
  assert (inv ext h1) as I1. { rewrite E. apply (inv_update h to t bt _ _ _ _ I Ht Hbt); try done; [|by left]. intros p. rewrite Hrf. unfold buf_uses. cbn. rewrite uses_app. lia. }
  pose proof (contents_update h to t bt joined_to joined_buf rf (budget h) I Ht Hbt ltac:(done) ltac:(by rewrite <-E) (or_introl Al)) as [Hx Hy]. rewrite <-E in Hx, Hy.
  apply (joined_free fuel to from _ h h1 f Hne I1); [by split|by rewrite Hx, Eb|]. apply (pair_snd h to from (head t) (head f) Hne Ha). done.
Qed.

(** [from] has its buffer alone: the fragments move. *)
Lemma join_alone_ok fuel : data_len f = len f → alone h from f →
  ∃ h', kfree_skb_partial fuel from false (pair h to from (head t) (head f) joined_to joined_buf f (Buffer (b_bytes bf) (set_frags [] (b_info bf))) (page_refs h) (budget h)) = Some (tt, h') ∧
    joined to from (bt_bytes ++ bf_bytes) h h'.
Proof.
  intros Hd Alf. destruct (joined_pkt Hd) as (P & Eb & Hm). destruct (inv_buf _ _ I _ _ Hbt) as [Hfl _]. destruct (inv_buf _ _ I _ _ Hbf) as [Hflf _]. pose proof join_heads as Ha. set (b' := Buffer (b_bytes bf) _). set (h1 := pair _ _ _ _ _ _ _ _ _ _ _).
  destruct (pair_snd h to from (head t) (head f) Hne Ha joined_to joined_buf f b' (page_refs h) (budget h) eq_refl) as [Hf1 Hb1]. fold h1 in Hf1, Hb1.
  destruct (dataref_left h from f bf I Hf Hbf) as (_ & Hd0 & _).
  destruct (release_last (kfree_skb_list fuel) h1 from f b' Hf1 Hb1 Hflf) as (rf & E & Hrf). { intros _. cbn. apply Hd0 in Alf. lia. }
  unfold kfree_skb_partial. rewrite (st_bind_step _ _ _ _ _ E). eexists. split; [reflexivity|]. set (h' := set_skbs _ _).
  set (rf0 := λ p, page_refs h p - buf_uses p bf). set (h0 := Heap (delete from (skbs h)) (delete (head f) (bufs h)) (pages h) rf0 (budget h)).
  assert (left_buffer h from f bf (delete (head f) (bufs h)) rf0) as L by (split; [by split|done]).
  assert (inv ext h0) as I0 by (by apply (inv_leave h from f bf)). assert (others from h h0) as [_ Ho0].
  { apply (leave_others h from f bf (delete (head f) (bufs h)) rf0 (budget h) h0 I Hf Hbf L I0); [done|intros; by apply lookup_delete_ne|by left]. }
  assert (skbs h0 !! to = Some t) as Ht0 by (cbn; by rewrite lookup_delete_ne). assert (bufs h0 !! head t = Some bt) as Hbt0 by (cbn; by rewrite lookup_delete_ne).
  assert (alone h0 to t) as Al0 by (intros y u Hu; cbn in Hu; apply lookup_delete_Some in Hu as [_ Hu]; by apply Al).
  assert (h' = put_packet to joined_to joined_buf rf (budget h) h0) as E'.
  { unfold h', h1, pair, put_packet, set_skbs, set_page_refs, set_bufs. cbn. rewrite (delete_insert_ne _ from to), (delete_insert_ne _ (head f) (head t)) by done. by rewrite !delete_insert_eq. }
  assert (inv ext h') as I'. { rewrite E'. apply (inv_update h0 to t bt _ _ _ _ I0 Ht0 Hbt0); try done; [|by left]. intros p. rewrite Hrf. unfold buf_uses. cbn. unfold rf0, buf_uses. rewrite uses_app. lia. }
  pose proof (contents_update h0 to t bt joined_to joined_buf rf (budget h) I0 Ht0 Hbt0 ltac:(done) ltac:(by rewrite <-E') (or_introl Al0)) as [Hx Hy]. rewrite <-E' in Hx, Hy.
  split; [done|done|by rewrite Hx; cbn; rewrite Eb| |].
  - rewrite Hy by done. cbn. by rewrite lookup_delete_eq.
  - intros y H1 H2. by rewrite Hy, Ho0.
Qed.

Lemma joined_fields : data_len f = len f → ∀ d, d = s32 (truesize f - SKB_TRUESIZE (skb_end_offset f)) →
  set_data_len (u32 (data_len t + len f)) (set_len (u32 (len t + len f)) (set_truesize (u32 (truesize t + d)) t)) = joined_to.
Proof.
  intros Hd d ->. destruct (inv_pkt _ _ I to t Ht) as (c & _ & []). destruct (inv_pkt _ _ I from f Hf) as (c' & _ & []). unfold joined_to.
  by rewrite (wrapU_small 32 (len t + len f)), (wrapU_small 32 (data_len t + len f)) by (unfold is_u; lia).
Qed.

Lemma join_frags_ok fuel : data_len f = len f →
  ∃ d h1, coalesce_frags to from (len f) f (b_info bt) (b_info bf) h = Some ((true, d), h1) ∧
    ∃ h', kfree_skb_partial fuel from false h1 = Some (tt, h') ∧ joined to from (bt_bytes ++ bf_bytes) h h'.
Proof.
  intros Hd. pose proof join_heads as Ha. unfold coalesce_frags. set (delta := s32 _). exists delta.
  assert (∀ (Q : heap → Prop) k, (∃ h1, k (pair h to from (head t) (head f) t bt f bf (page_refs h) (budget h)) = Some ((true, delta), h1) ∧ Q h1) → ∃ h1, k h = Some ((true, delta), h1) ∧ Q h1) as Hstart.
  { intros Q k. apply (start_at k Q _ h). by apply pair_start. }
  apply Hstart. clear Hstart. rewrite (st_bind_step _ _ _ _ _ (pair_info_fst h to from _ _ t bt f bf _ _ eq_refl _)). change (Buffer (b_bytes bt) _) with joined_buf.
  destruct (pair_snd h to from (head t) (head f) Hne Ha t joined_buf f bf (page_refs h) (budget h) eq_refl) as [Hf1 Hb1].
  destruct (cloned_ok h _ from f bf I Hf Hbf Hf1 Hb1) as (c & Ec & Hc). rewrite (st_bind_step _ _ _ _ _ Ec). destruct c.
  - destruct (ref_frags_ok (frags (b_info bf)) (pair h to from (head t) (head f) t joined_buf f bf (page_refs h) (budget h))) as (rf & Er & Hrf). rewrite (st_bind_step _ _ _ _ _ Er).
    change (set_page_refs rf _) with (pair h to from (head t) (head f) t joined_buf f bf rf (budget h)).
    rewrite (st_bind_step _ _ _ _ _ (pair_update_fst h to from _ _ t joined_buf f bf _ _ eq_refl _)). cbv beta. rewrite (joined_fields Hd delta eq_refl). eexists. split; [reflexivity|]. by apply join_shared_ok.
  - rewrite (st_bind_step _ _ _ _ _ (pair_info_snd h to from _ _ Hne Ha t joined_buf f bf _ _ eq_refl _)).
    rewrite (st_bind_step _ _ _ _ _ (pair_update_fst h to from _ _ t joined_buf f _ _ _ eq_refl _)). cbv beta. rewrite (joined_fields Hd delta eq_refl). eexists. split; [reflexivity|]. apply join_alone_ok; [done|by apply Hc].
Qed.
End both.

(** When two packets can be joined: the first one is no clone, and there is room for the bytes
    of the second or it has fragments only, of which there are not too many. *)
Definition can_join (h : heap) (to : Z) (t : sk_buff) (bt : buffer) (f : sk_buff) (bf : buffer) : Prop :=
  alone h to t ∧ (len f ≤ skb_tailroom t ∨ data_len f = len f ∧ nr_frags (b_info bt) + nr_frags (b_info bf) ≤ MAX_SKB_FRAGS).

Lemma coalesce_ok fuel k h to from t bt f bf : inv ext h → to ≠ from → skbs h !! to = Some t → bufs h !! head t = Some bt → skbs h !! from = Some f → bufs h !! head f = Some bf →
  len t + len f < 2 ^ 30 →
  ¬ can_join h to t bt f bf ∧ skb_try_coalesce (S fuel) to from h = Some ((false, 0), h) ∨
  can_join h to t bt f bf ∧ ∃ d h1, skb_try_coalesce (S fuel) to from h = Some ((true, d), h1) ∧
    ∃ h', kfree_skb_partial k from false h1 = Some (tt, h') ∧ joined to from (packet_bytes (pages h) t bt ++ packet_bytes (pages h) f bf) h h'.
Proof.
  intros I Hne Ht Hbt Hf Hbf Hlen. destruct (inv_pkt _ _ I to t Ht) as (c & Ec & P). assert (c = bt) as -> by congruence. clear Ec. destruct (inv_pkt _ _ I from f Hf) as (c & Ec & Pf). assert (c = bf) as -> by congruence. clear Ec.
  destruct (inv_buf _ _ I _ _ Hbt) as [Hfl _]. destruct (inv_buf _ _ I _ _ Hbf) as [Hflf _]. pose proof Pf as []. unfold skb_try_coalesce, can_join.
  rewrite (st_bind_step _ _ _ _ _ (load_ok from h f Hf)), (st_bind_step _ _ _ _ _ (load_ok to h t Ht)). rewrite (wrapS_small 32 (len f)) by (unfold is_s; lia). cbv zeta.
  destruct (cloned_ok h h to t bt I Ht Hbt Ht Hbt) as (c & Ec & Hc). rewrite (st_bind_step _ _ _ _ _ Ec). destruct c; [left; split; [|done]; intros [A _]; by apply Hc in A|].
  assert (alone h to t) as Al by by apply Hc. destruct (Z.leb_spec (len f) (skb_tailroom t)) as [Hfit|Hno].
  { right. split; [tauto|]. exists 0. destruct (Z.eqb_spec (len f) 0) as [E0|].
    - rewrite st_ret_bind. exists h. split; [done|]. apply (joined_free k to from _ h h f Hne I); [done| |done].
      pose proof (packet_len ext h from f bf I Hf Hbf) as Lf. rewrite E0 in Lf. assert (packet_bytes (pages h) f bf = []) as -> by (apply length_zero_iff_nil; lia).
      rewrite app_nil_r. by apply (contents_packet ext).
    - destruct (join_copy_ok h to from t bt f bf I Hne Ht Hbt Hf Hbf Al Hlen fuel k ltac:(lia)) as (h1 & E & J). rewrite (st_bind_step _ _ _ _ _ E). by exists h1. }
  rewrite (st_bind_step _ _ _ _ _ (skb_shinfo_ok to h t bt Ht Hbt)), (st_bind_step _ _ _ _ _ (skb_shinfo_ok from h f bf Hf Hbf)), Hfl, Hflf, (headlen_ok f bf Pf). cbn [Z.eqb NULL negb orb].
  destruct (Z.eqb_spec (len f - data_len f) 0) as [Eh|Eh]; cbn [negb]; [|left; split; [|done]; intros [_ [?|[? _]]]; lia].
  destruct (Z.ltb_spec MAX_SKB_FRAGS (nr_frags (b_info bt) + nr_frags (b_info bf))) as [Hmany|Hfew]; [left; split; [|done]; intros [_ [?|[_ ?]]]; lia|].
  right. split; [split; [done|right; lia]|]. apply join_frags_ok; try done. lia.
Qed.
End cut.

(** ** Cutting and joining byte strings *)

(** What the receivers do: join, and drop the structure of the second packet if that worked. *)
Definition join_packets (fuel : nat) (to from : Z) : hst bool :=
  r ← skb_try_coalesce fuel to from;
  if r.1 : bool then kfree_skb_partial fuel from false ;; mret true else mret false.

Lemma view_pair h h' m x y u v : view h m → contents 1 h' x = u → contents 1 h' y = v → (∀ z, z ≠ x → z ≠ y → contents 1 h' z = contents 1 h z) →
  view h' (partial_alter (λ _, v) y (partial_alter (λ _, u) x m)) ∨ x = y.
Proof.
  intros V Hu Hv Ho. destruct (decide (x = y)); [by right|]. left. intros z. destruct (decide (z = y)) as [->|Hy]; [by rewrite lookup_partial_alter_eq|].
  rewrite (lookup_partial_alter_ne _ _ y z) by done. destruct (decide (z = x)) as [->|Hx]; [by rewrite lookup_partial_alter_eq|]. rewrite lookup_partial_alter_ne by done. by rewrite Ho.
Qed.

(** C25: Packets are cut and joined as byte strings.  Cutting [x] at [n], where both packets have
    their buffers alone, leaves it the first [n] bytes and gives the rest to the empty
    packet [y].  Joining [y] to [x] works exactly if [x] is no clone and either the
    bytes of [y] fit its tailroom or [y] has fragments only and both together not more
    than the array holds; then [x] has the bytes of both and [y] is gone, also if
    others share its data, else nothing changes.  No other packet changes, and every page and
    buffer has as many references as before the invariant asks. *)
Theorem packets_cut_and_joined ext fuel h m x y s b t c bs cs : inv ext h → view h m → x ≠ y →
  skbs h !! x = Some s → bufs h !! head s = Some b → m !! x = Some bs → skbs h !! y = Some t → bufs h !! head t = Some c → m !! y = Some cs →
  (∀ n, alone h x s → alone h y t → blank t c → 0 ≤ n ≤ zlen bs → zlen bs - n ≤ end_ t - tail t ∨ len s - data_len s ≤ n →
     ∃ h', skb_split x y n h = Some (tt, h') ∧ inv ext h' ∧ view h' (<[y := drop (Z.to_nat n) bs]> (<[x := take (Z.to_nat n) bs]> m))) ∧
  (zlen bs + zlen cs < 2 ^ 30 →
     ¬ can_join h x s b t c ∧ join_packets (S fuel) x y h = Some (false, h) ∨
     can_join h x s b t c ∧ ∃ h', join_packets (S fuel) x y h = Some (true, h') ∧ inv ext h' ∧ view h' (delete y (<[x := bs ++ cs]> m))).
Proof.
  intros I V Hxy Hs Hb Hbs Ht Hc Hcs. rewrite <-V in Hbs, Hcs. split.
  - intros n Al Al1 B Hn Hroom. destruct (split_ok h x y s b t c n I Hxy Hs Hb Ht Hc Al Al1 B bs Hbs Hn Hroom) as (h' & E & [I' _ H1 H2 Ho]). exists h'. split_and!; [done|done|].
    by destruct (view_pair h h' m x y _ _ V H1 H2 Ho).
  - intros Hlen. pose proof (contents_packet ext h x s b I Hs Hb) as Eb. pose proof (contents_packet ext h y t c I Ht Hc) as Ec.
    rewrite Hbs in Eb. injection Eb as ->. rewrite Hcs in Ec. injection Ec as ->. rewrite (packet_len ext h x s b I Hs Hb), (packet_len ext h y t c I Ht Hc) in Hlen.
    destruct (coalesce_ok fuel (S fuel) h x y s b t c I Hxy Hs Hb Ht Hc Hlen) as [[Hn E]|(Hy & d & h1 & E & h' & E' & [I' _ H1 H2 Ho])]; [left|right]; (split; [done|]); unfold join_packets.
    + by rewrite (st_bind_step _ _ _ _ _ E).
    + exists h'. rewrite (st_bind_step _ _ _ _ _ E). cbn [fst].
      rewrite (st_bind_step _ _ _ _ _ E'). split_and!; [done|done|]. by destruct (view_pair h h' m x y _ _ V H1 H2 Ho).
Qed.

(** ** A packet is cut in its fragment, and joined again *)

Definition blank_skb : sk_buff := set_data 4 (set_tail 4 (set_end_ 8 (set_head 8 packet0))).
Definition blank_buf : buffer := Buffer (replicate 8 0) info0.
Definition packet_and_blank : heap := put_packet 2 blank_skb blank_buf (page_refs one_packet) [] one_packet.
Definition string_and_empty : gmap Z (list Z) := {[1 := [1; 2; 3; 4; 5; 6]; 2 := []]}.

Lemma inv_packet_and_blank : inv (λ _, 0) packet_and_blank.
Proof. apply inv_new; try done; [apply inv_one_packet|intros p; cbn; lia]. Qed.

Lemma view_packet_and_blank : view packet_and_blank string_and_empty.
Proof.
  intros y. destruct (decide (y = 1)) as [->|H1]; [reflexivity|]. destruct (decide (y = 2)) as [->|H2]; [reflexivity|].
  assert (string_and_empty !! y = None) as -> by (unfold string_and_empty; by rewrite lookup_insert_ne, lookup_singleton_ne).
  assert (skbs packet_and_blank !! y = None) as E by (cbn; by rewrite !lookup_insert_ne). cbn [contents]. by rewrite E.
Qed.

Lemma alone_packet_and_blank : alone packet_and_blank 1 one_skb ∧ alone packet_and_blank 2 blank_skb.
Proof.
  split; intros y t Ht; cbn in Ht; (apply lookup_insert_Some in Ht as [[<- <-]|[_ Ht]]; [done|]); by apply lookup_insert_Some in Ht as [[<- <-]|[_ Ht]].
Qed.

Lemma packets_cut_and_joined_witness :
  (∃ h', skb_split 1 2 4 packet_and_blank = Some (tt, h') ∧ inv (λ _, 0) h' ∧ view h' (<[2 := [5; 6]]> (<[1 := [1; 2; 3; 4]]> string_and_empty))) ∧
  match skb_split 1 2 4 packet_and_blank with
  | Some (_, h') => contents 1 h' 2 = Some [5; 6] ∧ page_refs h' 20 = 2 ∧
      match join_packets 1 1 2 h' with
      | Some (r, h2) => r = true ∧ contents 1 h2 1 = Some [1; 2; 3; 4; 5; 6] ∧ contents 1 h2 2 = None
      | None => False
      end
  | None => False
  end.
Proof.
  split; [|vm_compute; auto]. destruct alone_packet_and_blank as [A1 A2].
  apply (proj1 (packets_cut_and_joined (λ _, 0) 0 packet_and_blank string_and_empty 1 2 one_skb one_buf blank_skb blank_buf [1; 2; 3; 4; 5; 6] []
    inv_packet_and_blank view_packet_and_blank ltac:(done) eq_refl eq_refl eq_refl eq_refl eq_refl eq_refl) 4 A1 A2); [done|cbn; lia|right; cbn; lia].
Defined.

End SkbJoin.
