(* ===== verification/SkbShift.v ===== *)
(** * Shifting fragments from one packet to another

    net/core/skbuff.c: skb_shift, with which TCP gathers what was acknowledged in one
    packet.  Both packets get buffers of their own first; a fragment that continues the
    last one of the target is merged with it, one on the line is in both afterwards. *)

From Stdlib Require Import ZArith Lia.
From stdpp Require Import base numbers list gmap.
From S2P Require Import Prelude SkbData SkbRead SkbShare SkbInv SkbValues SkbJoin.

Module SkbShift.
Import SkbData SkbRead SkbShare SkbInv SkbValues SkbJoin.

(** The end of a buffer goes back to [e]; the shared information lies there now. *)
Definition move_end (x e : Z) : hst unit :=
  s ← load x;
  b ← load_buf (head s);
  store_buf (head s) (Buffer (take (Z.to_nat e) (b_bytes b)) (b_info b)) ;;
  update x (skb_set_end_offset e).

Definition __skb_unclone_keeptruesize (fuel : nat) (x : Z) : hst Z :=
  s ← load x;
  res ← pskb_expand_head fuel x 0 0;
  if negb (res =? 0) then mret res
  else
    update x (set_truesize (truesize s)) ;;
    s' ← load x;
    (if skb_end_offset s' =? skb_end_offset s then mret tt else move_end x (skb_end_offset s)) ;;
    mret 0.

Definition skb_unclone_keeptruesize (fuel : nat) (x : Z) : hst Z :=
  c ← skb_cloned x;
  if c : bool then __skb_unclone_keeptruesize fuel x else mret 0.

Definition skb_prepare_for_shift := skb_unclone_keeptruesize.

(** The loop: what moves to [tgt], whose next fragment is number [to], and what stays. *)
Fixpoint shift_loop (fs : list skb_frag_t) (to todo : Z) : hst (option (list skb_frag_t * list skb_frag_t * Z)) :=
  match fs with
  | [] => mret (Some ([], [], todo))
  | f :: fs =>
      if todo <=? 0 then mret (Some ([], f :: fs, todo))
      else if to =? MAX_SKB_FRAGS then mret None
      else if skb_frag_size f <=? todo then
        r ← shift_loop fs (to + 1) (todo - skb_frag_size f);
        mret ('(moved, rest, remains) ← r; Some (f :: moved, rest, remains))
      else
        __skb_frag_ref f ;;
        mret (Some ([skb_frag_size_set f todo], skb_frag_size_sub (skb_frag_off_add f todo) todo :: fs, 0))
  end.

(** The label onlymerged. *)
Definition shift_done (tgt skb n : Z) : hst Z :=
  update tgt (set_ip_summed CHECKSUM_PARTIAL) ;;
  update skb (set_ip_summed CHECKSUM_PARTIAL) ;;
  update skb (λ s, set_truesize (u32 (truesize s - n)) (set_data_len (u32 (data_len s - n)) (set_len (u32 (len s - n)) s))) ;;
  update tgt (λ t, set_truesize (u32 (truesize t + n)) (set_data_len (u32 (data_len t + n)) (set_len (u32 (len t + n)) t))) ;;
  mret n.

(** Then [k], if both could be prepared. *)
Definition prepare_both (fuel : nat) (tgt skb : Z) (k : hst Z) : hst Z :=
  r ← skb_prepare_for_shift fuel skb;
  if negb (r =? 0) then mret 0
  else
    r ← skb_prepare_for_shift fuel tgt;
    if negb (r =? 0) then mret 0 else k.

(** All that moves is in the first fragment, which continues fragment [merge] of [tgt]. *)
Definition shift_merged (tgt skb n merge : Z) : hst Z :=
  fsh ← skb_shinfo skb;
  tsh ← skb_shinfo tgt;
  fragfrom ← lift (zlookup (frags fsh) 0);
  fragto ← lift (zlookup (frags tsh) merge);
  tfs ← lift (zinsert (frags tsh) merge (skb_frag_size_add fragto n));
  update_info tgt (set_frags tfs) ;;
  ffs ← lift (zinsert (frags fsh) 0 (skb_frag_off_add (skb_frag_size_sub fragfrom n) n));
  update_info skb (set_frags ffs) ;;
  shift_done tgt skb n.

(** Putting the first fragment into fragment [merge]. *)
Definition merge_frag (tgt merge : Z) (fragfrom : skb_frag_t) : hst unit :=
  tsh ← skb_shinfo tgt;
  fragto ← lift (zlookup (frags tsh) merge);
  tfs ← lift (zinsert (frags tsh) merge (skb_frag_size_add fragto (skb_frag_size fragfrom)));
  update_info tgt (set_frags tfs) ;;
  __skb_frag_unref fragfrom.

(** From the loop on; [from] is 1 if the first fragment is merged with fragment [to] - 1. *)
Definition shift_frags (tgt skb n to from todo : Z) : hst Z :=
  fsh ← skb_shinfo skb;
  r ← shift_loop (drop (Z.to_nat from) (frags fsh)) to todo;
  match r with
  | None => mret 0
  | Some (moved, rest, remains) =>
      update_info tgt (λ sh, set_frags (frags sh ++ moved) sh) ;;
      (if from =? 0 then mret tt else f ← lift (zlookup (frags fsh) 0); merge_frag tgt (to - 1) f) ;;
      update_info skb (set_frags rest) ;;
      if (0 <? remains) && (Z.of_nat (length rest) =? 0) then fault else shift_done tgt skb n
  end.

(** A shift of all fragments that do not fit is not tried. *)
Definition shift_from (fuel : nat) (tgt skb n to from todo : Z) : hst Z :=
  s ← load skb;
  fsh ← skb_shinfo skb;
  if (u32 n =? len s) && (MAX_SKB_FRAGS - to <? nr_frags fsh - from) then mret 0
  else prepare_both fuel tgt skb (shift_frags tgt skb n to from todo).

Definition skb_shift (fuel : nat) (tgt skb n : Z) : hst Z :=
  s ← load skb;
  if len s <? u32 n then fault
  else if negb (skb_headlen s =? 0) then mret 0
  else
    tsh ← skb_shinfo tgt;
    fsh ← skb_shinfo skb;
    let to := nr_frags tsh in
    if to =? 0 then shift_from fuel tgt skb n to 0 n
    else
      f ← lift (zlookup (frags fsh) 0);
      if negb (skb_can_coalesce tsh to (skb_frag_page f) (skb_frag_off f)) then shift_from fuel tgt skb n to 0 n
      else
        let todo := s32 (n - skb_frag_size f) in
        if todo <? 0 then prepare_both fuel tgt skb (shift_merged tgt skb n (to - 1)) else shift_from fuel tgt skb n to 1 todo.

(** ** Buffers of their own *)

Section prepare.
Context {ext : Z → Z}.

(** [x] has its buffer alone, all else is as before. *)
Record prepared (x : Z) (s : sk_buff) (b : buffer) (h h' : heap) (s' : sk_buff) (b' : buffer) : Prop := {
  pr_inv : inv ext h';
  pr_skb : skbs h' !! x = Some s';
  pr_buf : bufs h' !! head s' = Some b';
  pr_alone : alone h' x s';
  pr_others : others x h h';
  pr_keeps : keeps x h h';
  pr_bytes : contents 1 h' x = contents 1 h x;
  pr_frags : frags (b_info b') = frags (b_info b);
  pr_len : len s' = len s;
  pr_data_len : data_len s' = data_len s }.

(** Taking bytes behind the end of a buffer away. *)
Lemma shrink_ok x s nt h h1 s1 b1 b e tr : pkt_ok s b → skbs h !! x = Some s → expanded (ext := ext) x s 0 nt h h1 s1 b b1 → end_ s ≤ e ≤ end_ s1 → 
  let s2 := set_end_ e (set_truesize tr s1) in let b2 := Buffer (take (Z.to_nat e) (b_bytes b1)) (b_info b1) in
  prepared x s b h (put_packet x s2 b2 (page_refs h1) (budget h1) h1) s2 b2.
Proof.
  intros P Hs X He s2 b2. destruct X as [I1 Hs1 Hb1 Al1 [Hp Ho] Hk Hc Hi F Hroom Hbud]. destruct F, P. destruct (inv_pkt _ _ I1 x s1 Hs1) as (c & Ec & P1). assert (c = b1) as -> by congruence. clear Ec.
  destruct (inv_buf _ _ I1 _ _ Hb1) as [Hfl Hm]. destruct P1. unfold KMALLOC_MAX_SIZE in *. rewrite Z.add_0_r, (wrapU_small 32) in mf_tail0 by (unfold is_u; lia).
  assert (pkt_ok s2 b2) as P2 by (split; cbn; rewrite ?length_take; unfold KMALLOC_MAX_SIZE; done || lia). set (h2 := put_packet _ _ _ _ _ _).
  assert (inv ext h2) as I2 by (apply (inv_update h1 x s1 b1 s2 b2 _ _ I1 Hs1 Hb1); try done; [intros p; unfold buf_uses; cbn; lia|by left]).
  destruct (contents_update h1 x s1 b1 s2 b2 (page_refs h1) (budget h1) I1 Hs1 Hb1 ltac:(done) I2 (or_introl Al1)) as [Hx Hy]. fold h2 in Hx, Hy.
  split; try done.
  - apply lookup_insert_eq.
  - apply lookup_insert_eq.
  - intros y t Ht Eh. cbn in Ht. apply lookup_insert_Some in Ht as [[<- _]|[_ Ht]]; [done|by apply (Al1 y t)].
  - split; [done|]. intros y Hne. by rewrite Hy, Ho.
  - intros y Hne. destruct (Hk y Hne) as [Ey Hyf]. split; [cbn; by rewrite lookup_insert_ne|]. intros t d Ht Hd. destruct (Hyf t d Ht Hd) as (d' & Hd' & Ef). exists d'. split; [|done].
    cbn. rewrite lookup_insert_ne; [done|]. intros E. apply Hne, (Al1 y t); [by rewrite Ey|done].
  - rewrite Hx, <-Hc, (contents_packet ext h1 x s1 b1 I1 Hs1 Hb1). f_equal. unfold packet_bytes. f_equal. unfold linear_bytes, slice. cbn.
    rewrite skipn_firstn_comm, take_take. f_equal. lia.
  - cbn. by rewrite Hi.
Qed.

Definition prepare_fails (h : heap) (x : Z) (s : sk_buff) : Prop := ¬ alone h x s ∧ refuses (budget h) (end_ s + 383).

Lemma prepare_ok fuel h x s b : inv ext h → skbs h !! x = Some s → bufs h !! head s = Some b →
  skb_prepare_for_shift fuel x h = Some (- ENOMEM, set_budget (tl (budget h)) h) ∧ prepare_fails h x s ∨
  ∃ h' s' b', skb_prepare_for_shift fuel x h = Some (0, h') ∧ prepared x s b h h' s' b' ∧ (budget h' = budget h ∨ budget h' = tl (budget h)).
Proof.
  intros I Hs Hb. destruct (inv_pkt _ _ I x s Hs) as (c & Ec & P). assert (c = b) as -> by congruence. clear Ec. unfold skb_prepare_for_shift, skb_unclone_keeptruesize, prepare_fails.
  destruct (cloned_ok h h x s b I Hs Hb Hs Hb) as (c & Ec & Hc). rewrite (st_bind_step _ _ _ _ _ Ec). destruct c.
  2:{ right. exists h, s, b. split; [done|]. split; [|by left]. split; try done; [by apply Hc|]. intros y _. split; [done|]. intros t d _ Hd. by exists d. }
  assert (¬ alone h x s) as Hna by (intros A; by apply Hc in A). unfold __skb_unclone_keeptruesize. rewrite (st_bind_step _ _ _ _ _ (load_ok x h s Hs)).
  destruct (expand_ok fuel h x s b 0 0 I Hs Hb ltac:(lia) ltac:(lia)) as [[E Hr]|(h1 & s1 & b1 & E & X)]; rewrite (st_bind_step _ _ _ _ _ E).
  { left. split; [done|]. split; [done|]. eapply refuses_le; [exact Hr|lia]. }
  right. cbn [Z.eqb negb]. pose proof X as []. rewrite (st_bind_step _ _ _ _ _ (update_ok x _ h1 s1 ex_skb0)). set (h2 := set_skbs _ h1). set (s2 := set_truesize (truesize s) s1).
  assert (skbs h2 !! x = Some s2) as Hs2 by apply lookup_insert_eq. rewrite (st_bind_step _ _ _ _ _ (load_ok x h2 s2 Hs2)). unfold skb_end_offset.
  assert (end_ s ≤ end_ s1) as Hend by lia. destruct (inv_pkt _ _ ex_inv0 x s1 ex_skb0) as (d & Ed & P1). assert (d = b1) as -> by congruence. clear Ed. destruct (Z.eqb_spec (end_ s2) (end_ s)) as [Ee|Ne].
  - rewrite st_ret_bind. pose proof (shrink_ok x s 0 h h1 s1 b1 b (end_ s) (truesize s) P Hs X ltac:(lia)) as R. cbv zeta in R. assert (set_end_ (end_ s) (set_truesize (truesize s) s1) = s2) as E2 by (rewrite <-Ee; done). rewrite E2 in R. cbn in Ee.
    assert (take (Z.to_nat (end_ s)) (b_bytes b1) = b_bytes b1) as Et by (apply take_ge; destruct P1; lia). rewrite Et in R. replace (Buffer (b_bytes b1) (b_info b1)) with b1 in R by by destruct b1.
    eexists _, s2, b1. split; [reflexivity|]. assert (put_packet x s2 b1 (page_refs h1) (budget h1) h1 = h2) as E3 by (unfold put_packet, h2, set_skbs; cbn; by rewrite (insert_id (bufs h1))). rewrite E3 in R. split; [done|by right].
  - unfold move_end. rewrite !st_bind_assoc, (st_bind_step _ _ _ _ _ (load_ok x h2 s2 Hs2)), !st_bind_assoc, (st_bind_step _ _ _ _ _ (load_buf_ok (head s2) h2 b1 ex_buf0)). unfold store_buf. rewrite !st_bind_assoc, (st_bind_step _ _ _ _ _ (eq_refl : modify _ h2 = Some (tt, _))).
    set (h3 := set_bufs _ h2). rewrite (st_bind_step _ _ _ _ _ (update_ok x _ h3 s2 Hs2)). eexists _, _, _. split; [reflexivity|].
    pose proof (shrink_ok x s 0 h h1 s1 b1 b (end_ s) (truesize s) P Hs X ltac:(lia)) as R. cbv zeta in R. set (s3 := skb_set_end_offset _ s2). set (h4 := set_skbs _ h3).
    assert (h4 = put_packet x s3 (Buffer (take (Z.to_nat (end_ s)) (b_bytes b1)) (b_info b1)) (page_refs h1) (budget h1) h1) as E4 by (unfold h4, h3, h2, put_packet, set_skbs, set_bufs; cbn; by rewrite insert_insert_eq).
    rewrite E4. split; [exact R|by right].
Qed.

(** ** The fragments *)

Definition pgs (pg : gmap Z (list Z)) (fs : list skb_frag_t) : list Z := concat (map (page_bytes pg) fs).

Lemma pgs_app pg fs gs : pgs pg (fs ++ gs) = pgs pg fs ++ pgs pg gs.
Proof. unfold pgs. by rewrite map_app, concat_app. Qed.

Lemma page_bytes_take pg f n : mapped pg f → 0 ≤ n ≤ bv_len f → mapped pg (skb_frag_size_set f n) ∧ page_bytes pg (skb_frag_size_set f n) = take (Z.to_nat n) (page_bytes pg f).
Proof.
  intros (c & Hc & Hcz & Ho & Hpos & Hfit) Hn. unfold skb_frag_size_set. rewrite (wrapU_small 32 n) by (unfold is_u; lia).
  split; [exists c; cbn; split_and!; done || lia|]. unfold page_bytes; cbn; unfold slice; rewrite take_take; f_equal; lia.
Qed.

(** A fragment that continues another one. *)
Lemma page_bytes_merge pg f g n : mapped pg f → mapped pg g → bv_page g = bv_page f → bv_offset g = bv_offset f + bv_len f → 0 ≤ n ≤ bv_len g →
  mapped pg (skb_frag_size_add f n) ∧ page_bytes pg (skb_frag_size_add f n) = page_bytes pg f ++ take (Z.to_nat n) (page_bytes pg g).
Proof.
  intros (c & Hc & Hcz & Ho & Hpos & Hfit) (d & Hd & Hdz & Hod & Hposd & Hfitd) Ep Eo Hn. assert (d = c) as -> by congruence. unfold skb_frag_size_add, skb_frag_size_set.
  rewrite (wrapU_small 32 (bv_len f + n)) by (unfold is_u; lia). split; [exists c; cbn; split_and!; done || lia|]. unfold page_bytes. cbn. rewrite Ep, Hc, Eo. cbn.
  rewrite slice_split by lia. f_equal. unfold slice. rewrite take_take. f_equal. lia.
Qed.

Lemma frag_len pg f : mapped pg f → 0 ≤ bv_len f < 2 ^ 31.
Proof. intros (c & _ & Hcz & Ho & Hpos & Hfit). lia. Qed.

Lemma fsize_nonneg pg fs : Forall (mapped pg) fs → 0 ≤ fsize fs.
Proof. induction 1 as [|f fs Hf _ IH]; cbn; [done|]. apply frag_len in Hf. lia. Qed.

(** The loop gives up if the fragments run out, without an effect. *)
Lemma shift_loop_ok pg fs : Forall (mapped pg) fs → ∀ to todo h, 0 ≤ todo ≤ fsize fs → to ≤ MAX_SKB_FRAGS →
  shift_loop fs to todo h = Some (None, h) ∧ MAX_SKB_FRAGS < to + zlen fs ∨
  ∃ moved rest rf, shift_loop fs to todo h = Some (Some (moved, rest, 0), set_page_refs rf h) ∧ (∀ p, rf p = page_refs h p - uses p fs + uses p moved + uses p rest) ∧
    Forall (mapped pg) moved ∧ Forall (mapped pg) rest ∧ pgs pg moved = take (Z.to_nat todo) (pgs pg fs) ∧ pgs pg rest = drop (Z.to_nat todo) (pgs pg fs).
Proof.
  induction 1 as [|f fs Hf Hfs IH]; intros to todo h Ht Hto; cbn [fsize] in Ht.
  { right. exists [], [], (page_refs h). replace todo with 0 by lia. split_and!; try done; [by destruct h|intros; cbn; lia]. }
  pose proof (frag_len pg f Hf) as Hl. pose proof (page_bytes_len pg f Hf) as Hb. cbn [shift_loop]. unfold skb_frag_size. destruct (Z.leb_spec todo 0) as [Hz|Hp].
  { right. exists [], (f :: fs), (page_refs h). replace todo with 0 by lia. split_and!; try done; [by destruct h|intros; cbn; lia|by constructor]. }
  destruct (Z.eqb_spec to MAX_SKB_FRAGS) as [->|Hne]; [left; split; [done|]; cbn [length]; lia|]. destruct (Z.leb_spec (bv_len f) todo) as [Hle|Hgt].
  - destruct (IH (to + 1) (todo - bv_len f) h ltac:(lia) ltac:(lia)) as [[E Hm]|(moved & rest & rf & E & Hrf & H1 & H2 & H3 & H4)]; rewrite (st_bind_step _ _ _ _ _ E).
    + left. split; [done|]. cbn [length]. lia.
    + right. exists (f :: moved), rest, rf. split; [done|]. change (pgs pg (f :: moved)) with (page_bytes pg f ++ pgs pg moved). change (pgs pg (f :: fs)) with (page_bytes pg f ++ pgs pg fs).
      split_and!; [intros p; rewrite Hrf; cbn; lia|by constructor|done| |].
      * rewrite H3, take_app_ge by lia. do 2 f_equal. lia.
      * rewrite H4, drop_app_ge by lia. f_equal. lia.
  - right. destruct (page_bytes_take pg f todo Hf ltac:(lia)) as [H1 E1]. destruct (page_bytes_drop pg f todo Hf ltac:(lia)) as (H2 & E2 & Ep & _). unfold __skb_frag_ref, get_page. eexists _, _, _. split; [reflexivity|].
    unfold pgs. cbn [map concat]. split_and!; [|by constructor|by constructor| |].
    + intros p. cbn. unfold skb_frag_page. rewrite (Z.eqb_sym (bv_page f)). destruct (Z.eqb_spec p (bv_page f)); subst; lia.
    + rewrite E1, app_nil_r, take_app_le by lia. done.
    + rewrite E2, drop_app_le by lia. done.
Qed.

(** ** The packets after the shift *)

Record shifted (tgt skb n : Z) (ts ss : list Z) (h h' : heap) : Prop := {
  sh_inv : inv ext h';
  sh_pages : pages h' = pages h;
  sh_tgt : contents 1 h' tgt = Some (ts ++ take (Z.to_nat n) ss);
  sh_skb : contents 1 h' skb = Some (drop (Z.to_nat n) ss);
  sh_others : ∀ y, y ≠ tgt → y ≠ skb → contents 1 h' y = contents 1 h y }.

Section own.
Context (h : heap) (tgt skb : Z) (t : sk_buff) (c : buffer) (s : sk_buff) (b : buffer) (n : Z).
Context (I : inv ext h) (Hne : tgt ≠ skb) (Ht : skbs h !! tgt = Some t) (Hc : bufs h !! head t = Some c) (Hs : skbs h !! skb = Some s) (Hb : bufs h !! head s = Some b).
Context (At : alone h tgt t) (As : alone h skb s) (Hn : 0 ≤ n ≤ len s) (Hpaged : data_len s = len s) (Hlen : len t + n < 2 ^ 30).
Abbreviation here tf sf rf := (pair h tgt skb (head t) (head s) t (Buffer (b_bytes c) (set_frags tf (b_info c))) s (Buffer (b_bytes b) (set_frags sf (b_info b))) rf (budget h)).

Lemma own_heads : head t ≠ head s.
Proof. intros E. apply Hne. symmetry. by apply (At skb s). Qed.

(** The lengths follow the fragments. *)
Lemma shift_done_ok tf sf rf : Forall (mapped (pages h)) tf → Forall (mapped (pages h)) sf →
  pgs (pages h) tf = pgs (pages h) (frags (b_info c)) ++ take (Z.to_nat n) (pgs (pages h) (frags (b_info b))) → pgs (pages h) sf = drop (Z.to_nat n) (pgs (pages h) (frags (b_info b))) →
  (∀ p, rf p = page_refs h p - buf_uses p c + uses p tf - buf_uses p b + uses p sf) →
  ∃ h', shift_done tgt skb n (here tf sf rf) = Some (n, h') ∧ shifted tgt skb n (packet_bytes (pages h) t c) (packet_bytes (pages h) s b) h h'.
Proof.
  intros Hmt Hms Et Es Hrf. destruct (inv_pkt _ _ I tgt t Ht) as (d & Ed & P). assert (d = c) as -> by congruence. clear Ed. destruct (inv_pkt _ _ I skb s Hs) as (d & Ed & P1). assert (d = b) as -> by congruence. clear Ed.
  destruct (inv_buf _ _ I _ _ Hc) as [Hfl Hm]. destruct (inv_buf _ _ I _ _ Hb) as [Hfl1 Hm1]. pose proof own_heads as Ha. set (c' := Buffer _ (set_frags tf _)). set (b' := Buffer _ (set_frags sf _)). unfold shift_done.
  rewrite (st_bind_step _ _ _ _ _ (pair_update_fst h tgt skb _ _ t c' s b' rf _ eq_refl _)). cbv beta. set (t1 := set_ip_summed _ t). change (pair h tgt skb (head t) _) with (pair h tgt skb (head t1) (head s)).
  rewrite (st_bind_step _ _ _ _ _ (pair_update_snd h tgt skb _ _ Hne Ha t1 c' s b' rf _ eq_refl _)). cbv beta. set (s1 := set_ip_summed _ s).
  rewrite (st_bind_step _ _ _ _ _ (pair_update_snd h tgt skb _ _ Hne Ha t1 c' s1 b' rf _ eq_refl _)). cbv beta. set (s2 := set_truesize _ _).
  rewrite (st_bind_step _ _ _ _ _ (pair_update_fst h tgt skb _ _ t1 c' s2 b' rf _ eq_refl _)). cbv beta. set (t2 := set_truesize _ _). eexists. split; [reflexivity|]. change (head t1) with (head t).
  pose proof (pages_len _ _ Hm) as L1. pose proof (pages_len _ _ Hm1) as L2. pose proof (pages_len _ _ Hmt) as L3. pose proof (pages_len _ _ Hms) as L4. unfold pgs in *. rewrite Et, length_app, length_take in L3. rewrite Es, length_drop in L4.
  destruct P, P1. assert (u32 (len t + n) = len t + n) as E1 by (apply wrapU_small; unfold is_u; lia). assert (u32 (data_len t + n) = data_len t + n) as E2 by (apply wrapU_small; unfold is_u; lia).
  assert (u32 (len s - n) = len s - n) as E3 by (apply wrapU_small; unfold is_u; lia). assert (u32 (data_len s - n) = data_len s - n) as E4 by (apply wrapU_small; unfold is_u; lia).
  assert (pkt_ok t2 c') as P2 by (split; cbn; rewrite ?E1, ?E2; done || lia). assert (pkt_ok s2 b') as P3 by (split; cbn; rewrite ?E3, ?E4; done || lia).
  destruct (pair_ok (ext := ext) h tgt skb (head t) (head s) Hne Ha t2 c' s2 b' rf (budget h) eq_refl eq_refl t c s b) as (I' & Hpg & H1 & H2 & H3); try done.
  split; [done|done| | |done].
  - rewrite H1. f_equal. unfold packet_bytes. cbn [c' b_info frags set_frags]. rewrite Et, app_assoc. unfold linear_bytes. cbn [t2 set_truesize set_data_len set_len t1 set_ip_summed data len data_len b_bytes]. rewrite E1, E2, Hpaged.
    rewrite (slice_none (data s)) by lia. cbn [app]. do 3 f_equal. lia.
  - rewrite H2. f_equal. unfold packet_bytes. cbn [b' b_info frags set_frags]. rewrite Es. unfold linear_bytes. cbn [s2 set_truesize set_data_len set_len s1 set_ip_summed data len data_len b_bytes]. rewrite E3, E4, Hpaged.
    rewrite !(slice_none (data s)) by lia. done.
Qed.

Lemma zlookup_mid {A} (l r : list A) g : zlookup (l ++ g :: r) (zlen l) = Some g.
Proof. unfold zlookup. split_ifs; to_prop; [lia|]. rewrite Nat2Z.id. by apply list_lookup_middle. Qed.

Lemma zinsert_mid {A} (l r : list A) g g' : zinsert (l ++ g :: r) (zlen l) g' = Some (l ++ g' :: r).
Proof.
  rewrite zinsert_Some by (rewrite length_app; cbn [length]; lia). rewrite Nat2Z.id. f_equal. rewrite insert_app_r_alt by lia. by rewrite Nat.sub_diag.
Qed.

(** A fragment that begins where another one ends. *)
Definition continues (f g : skb_frag_t) : Prop := bv_page f = bv_page g ∧ bv_offset f = bv_offset g + bv_len g.

(** A part of the first fragment moves to the last one of [tgt]. *)
Lemma merged_ok f sf l g : frags (b_info b) = f :: sf → frags (b_info c) = l ++ [g] → continues f g → n < bv_len f →
  ∃ h', shift_merged tgt skb n (zlen l) h = Some (n, h') ∧ shifted tgt skb n (packet_bytes (pages h) t c) (packet_bytes (pages h) s b) h h'.
Proof.
  intros Ef El [Ep Eo] Hlt. destruct (inv_buf _ _ I _ _ Hc) as [_ Hm]. destruct (inv_buf _ _ I _ _ Hb) as [_ Hm1]. pose proof own_heads as Ha. rewrite El in Hm. rewrite Ef in Hm1. apply Forall_app in Hm as [Hl [Hg _]%Forall_cons]. apply Forall_cons in Hm1 as [Hf Hsf].
  unfold shift_merged. rewrite (st_bind_step _ _ _ _ _ (skb_shinfo_ok skb h s b Hs Hb)), (st_bind_step _ _ _ _ _ (skb_shinfo_ok tgt h t c Ht Hc)), Ef, El.
  rewrite (lift_step _ _ _ _ (eq_refl : zlookup (f :: sf) 0 = Some f)), (lift_step _ _ _ _ (zlookup_mid l [] g)), (lift_step _ _ _ _ (zinsert_mid l [] g _)).
  set (g' := skb_frag_size_add g n). apply (start_at _ _ _ h _ (pair_start h tgt skb t c s b Hne Ha Ht Hc Hs Hb)).
  rewrite (st_bind_step _ _ _ _ _ (pair_info_fst h tgt skb _ _ t c s b _ _ eq_refl _)). rewrite (lift_step _ _ _ _ (eq_refl : zinsert (f :: sf) 0 _ = Some (_ :: sf))). cbn [insert list_insert].
  set (f' := skb_frag_off_add _ n). rewrite (st_bind_step _ _ _ _ _ (pair_info_snd h tgt skb _ _ Hne Ha t _ s b _ _ eq_refl _)).
  destruct (page_bytes_merge (pages h) g f n Hg Hf Ep Eo ltac:(lia)) as [Hg' Eg']. destruct (page_bytes_drop (pages h) f n Hf ltac:(lia)) as (Hf' & Ef' & Epf & _). change (skb_frag_size_sub _ n) with f' in Hf', Ef', Epf. fold g' in Hg', Eg'.
  pose proof (page_bytes_len _ _ Hf) as Lf. apply shift_done_ok.
  - apply Forall_app. by split; [|constructor].
  - by constructor.
  - rewrite El, !pgs_app, Ef. unfold pgs. cbn [map concat]. rewrite Eg', !app_nil_r, <-app_assoc, take_app_le by lia. done.
  - rewrite Ef. unfold pgs. cbn [map concat]. rewrite Ef', drop_app_le by lia. done.
  - intros p. unfold buf_uses. rewrite El, Ef, !uses_app. cbn [uses]. rewrite Epf. cbn. lia.
Qed.

Lemma full_ok fs moved rest rf : frags (b_info b) = fs → pgs (pages h) moved = take (Z.to_nat n) (pgs (pages h) fs) → pgs (pages h) rest = drop (Z.to_nat n) (pgs (pages h) fs) →
  Forall (mapped (pages h)) moved → Forall (mapped (pages h)) rest → (∀ p, rf p = page_refs h p - uses p fs + uses p moved + uses p rest) →
  ∃ h', (update_info tgt (λ sh, set_frags (frags sh ++ moved) sh) ;; mret tt ;; update_info skb (set_frags rest) ;; shift_done tgt skb n) (set_page_refs rf h) = Some (n, h') ∧
    shifted tgt skb n (packet_bytes (pages h) t c) (packet_bytes (pages h) s b) h h'.
Proof.
  intros <- E1 E2 H1 H2 Hrf. destruct (inv_buf _ _ I _ _ Hc) as [_ Hm]. pose proof own_heads as Ha.
  assert (set_page_refs rf h = pair h tgt skb (head t) (head s) t c s b rf (budget h)) as E0 by (pose proof (pair_start h tgt skb t c s b Hne Ha Ht Hc Hs Hb) as E; apply (f_equal (set_page_refs rf)) in E; exact E).
  apply (start_at _ _ _ _ _ E0). rewrite (st_bind_step _ _ _ _ _ (pair_info_fst h tgt skb _ _ t c s b _ _ eq_refl _)), st_ret_bind.
  rewrite (st_bind_step _ _ _ _ _ (pair_info_snd h tgt skb _ _ Hne Ha t _ s b _ _ eq_refl _)). apply shift_done_ok; try done.
  - by apply Forall_app.
  - by rewrite pgs_app, E1.
  - intros p. rewrite Hrf, uses_app. unfold buf_uses. lia.
Qed.

Lemma full_merged_ok f sf l g moved rest rf : frags (b_info b) = f :: sf → frags (b_info c) = l ++ [g] → continues f g → bv_len f ≤ n →
  pgs (pages h) moved = take (Z.to_nat (n - bv_len f)) (pgs (pages h) sf) → pgs (pages h) rest = drop (Z.to_nat (n - bv_len f)) (pgs (pages h) sf) →
  Forall (mapped (pages h)) moved → Forall (mapped (pages h)) rest → (∀ p, rf p = page_refs h p - uses p sf + uses p moved + uses p rest) →
  ∃ h', (update_info tgt (λ sh, set_frags (frags sh ++ moved) sh) ;; (f ← lift (zlookup (f :: sf) 0); merge_frag tgt (zlen l) f) ;; update_info skb (set_frags rest) ;; shift_done tgt skb n) (set_page_refs rf h) = Some (n, h') ∧
    shifted tgt skb n (packet_bytes (pages h) t c) (packet_bytes (pages h) s b) h h'.
Proof.
  intros Ef El [Ep Eo] Hle E1 E2 H1 H2 Hrf. destruct (inv_buf _ _ I _ _ Hc) as [_ Hm]. destruct (inv_buf _ _ I _ _ Hb) as [_ Hm1]. pose proof own_heads as Ha. rewrite El in Hm. rewrite Ef in Hm1. apply Forall_app in Hm as [Hl [Hg _]%Forall_cons]. apply Forall_cons in Hm1 as [Hf Hsf].
  pose proof (frag_len _ _ Hf) as Lf. pose proof (page_bytes_len _ _ Hf) as Lb. destruct (page_bytes_merge (pages h) g f (bv_len f) Hg Hf Ep Eo ltac:(lia)) as [Hg' Eg']. rewrite take_ge in Eg' by lia. set (g' := skb_frag_size_add g (bv_len f)) in *.
  assert (set_page_refs rf h = pair h tgt skb (head t) (head s) t c s b rf (budget h)) as E0 by (pose proof (pair_start h tgt skb t c s b Hne Ha Ht Hc Hs Hb) as E; apply (f_equal (set_page_refs rf)) in E; exact E).
  apply (start_at _ _ _ _ _ E0). rewrite (st_bind_step _ _ _ _ _ (pair_info_fst h tgt skb _ _ t c s b _ _ eq_refl _)). rewrite El, <-app_assoc. cbn [app].
  unfold merge_frag. rewrite !st_bind_assoc. rewrite (lift_step _ _ _ _ (eq_refl : zlookup (f :: sf) 0 = Some f)). set (c1 := Buffer _ (set_frags (l ++ g :: moved) _)).
  destruct (pair_fst h tgt skb (head t) (head s) t c1 s b rf (budget h) eq_refl) as [G1 G2]. rewrite !st_bind_assoc, (st_bind_step _ _ _ _ _ (skb_shinfo_ok tgt _ t c1 G1 G2)). cbn [c1 b_info frags set_frags].
  rewrite !st_bind_assoc, (lift_step _ _ _ _ (zlookup_mid l moved g)), !st_bind_assoc. unfold skb_frag_size. fold g'. rewrite (lift_step _ _ _ _ (zinsert_mid l moved g g')), !st_bind_assoc.
  rewrite (st_bind_step _ _ _ _ _ (pair_info_fst h tgt skb _ _ t c1 s b _ _ eq_refl _)). set (c2 := Buffer _ _). set (rf1 := λ q, if q =? bv_page f then rf (bv_page f) - 1 else rf q).
  rewrite (st_bind_step _ _ _ _ _ (eq_refl : __skb_frag_unref f (pair h tgt skb (head t) (head s) t c2 s b rf (budget h)) = Some (tt, pair h tgt skb (head t) (head s) t c2 s b rf1 (budget h)))).
  rewrite (st_bind_step _ _ _ _ _ (pair_info_snd h tgt skb _ _ Hne Ha t c2 s b _ _ eq_refl _)). apply (shift_done_ok (l ++ g' :: moved) rest rf1); try done.
  - apply Forall_app. by split; [|constructor].
  - rewrite El, !pgs_app, Ef. change (pgs (pages h) (g' :: moved)) with (page_bytes (pages h) g' ++ pgs (pages h) moved). unfold pgs at 4 5. cbn [map concat]. rewrite Eg', E1, app_nil_r, <-!app_assoc. do 2 f_equal. fold (pgs (pages h) sf).
    rewrite take_app_ge by lia. do 2 f_equal. lia.
  - rewrite E2, Ef. unfold pgs. cbn [map concat]. rewrite drop_app_ge by lia. f_equal. lia.
  - intros p. unfold buf_uses. rewrite El, Ef, !uses_app. cbn [uses]. unfold rf1. rewrite (Z.eqb_sym (bv_page f)). change (bv_page g') with (bv_page g). destruct (Z.eqb_spec p (bv_page f)); [subst p|]; rewrite Hrf; lia.
Qed.
End own.

(** Both packets as they are after they were prepared. *)
Record both_own (tgt skb : Z) (t : sk_buff) (c : buffer) (s : sk_buff) (b : buffer) (h h' : heap) (t' : sk_buff) (c' : buffer) (s' : sk_buff) (b' : buffer) : Prop := {
  bo_inv : inv ext h';
  bo_tgt : skbs h' !! tgt = Some t';
  bo_tgt_buf : bufs h' !! head t' = Some c';
  bo_skb : skbs h' !! skb = Some s';
  bo_skb_buf : bufs h' !! head s' = Some b';
  bo_tgt_alone : alone h' tgt t';
  bo_skb_alone : alone h' skb s';
  bo_pages : pages h' = pages h;
  bo_all : ∀ y, contents 1 h' y = contents 1 h y;
  bo_tgt_frags : frags (b_info c') = frags (b_info c);
  bo_skb_frags : frags (b_info b') = frags (b_info b);
  bo_tgt_len : len t' = len t;
  bo_skb_len : len s' = len s;
  bo_skb_data_len : data_len s' = data_len s }.

(** One of them shares its buffer, and there is no memory for a copy. *)
Definition starved (h : heap) (tgt skb : Z) (t s : sk_buff) : Prop :=
  (¬ alone h tgt t ∨ ¬ alone h skb s) ∧ let n := Z.max (end_ t) (end_ s) + 383 in refuses (budget h) n ∨ refuses (tl (budget h)) n.

Lemma keeps_alone x y h h' s' t : inv ext h → y ≠ x → keeps x h h' → alone h' x s' → skbs h' !! x = Some s' → skbs h !! y = Some t → alone h y t → alone h' y t.
Proof.
  intros I Hne K A Hx Ht At z u Hu E. destruct (decide (z = x)) as [->|Hz].
  - destruct (K y Hne) as [Ey _]. assert (u = s') as -> by congruence. destruct Hne. apply (A y t); congruence.
  - destruct (K z Hz) as [Ez _]. apply (At z u); congruence.
Qed.

Lemma prepare_both_ok fuel k h tgt skb t c s b : inv ext h → tgt ≠ skb → skbs h !! tgt = Some t → bufs h !! head t = Some c → skbs h !! skb = Some s → bufs h !! head s = Some b →
  (∃ h', prepare_both fuel tgt skb k h = Some (0, h') ∧ inv ext h' ∧ (∀ y, contents 1 h' y = contents 1 h y) ∧ starved h tgt skb t s) ∨
  ∃ h' t' c' s' b', prepare_both fuel tgt skb k h = k h' ∧ both_own tgt skb t c s b h h' t' c' s' b'.
Proof.
  intros I Hne Ht Hc Hs Hb. unfold prepare_both, starved. destruct (prepare_ok fuel h skb s b I Hs Hb) as [[E [Hna Hr]]|(h1 & s1 & b1 & E & [I1 Hs1 Hb1 Al1 [Hp1 Ho1] K1 Hc1 Hf1 Hl1 Hd1] & Hbud)]; rewrite (st_bind_step _ _ _ _ _ E).
  { left. exists (set_budget (tl (budget h)) h). split; [done|]. split; [by apply inv_budget|]. split; [done|]. split; [by right|]. left. eapply refuses_le; [exact Hr|lia]. }
  cbn [Z.eqb negb]. destruct (K1 tgt Hne) as [Et1 Ef1]. rewrite Ht in Et1. destruct (Ef1 t c Ht Hc) as (c1 & Hc1' & Efc).
  assert (∀ y, contents 1 h1 y = contents 1 h y) as Hall1 by (intros y; destruct (decide (y = skb)) as [->|]; [done|by apply Ho1]).
  destruct (prepare_ok fuel h1 tgt t c1 I1 Et1 Hc1') as [[E2 [Hna Hr]]|(h2 & t2 & c2 & E2 & [I2 Ht2 Hc2 Al2 [Hp2 Ho2] K2 Hcc Hf2 Hl2 Hd2] & _)]; rewrite (st_bind_step _ _ _ _ _ E2).
  { left. exists (set_budget (tl (budget h1)) h1). split; [done|]. split; [by apply inv_budget|]. split; [done|]. split.
    - left. intros A. by apply Hna, (keeps_alone skb tgt h h1 s1).
    - destruct Hbud as [Eb|Eb]; rewrite Eb in Hr; [left|right]; (eapply refuses_le; [exact Hr|lia]). }
  right. cbn [Z.eqb negb]. destruct (K2 skb ltac:(done)) as [Es2 Ef2]. rewrite Hs1 in Es2. destruct (Ef2 s1 b1 Hs1 Hb1) as (b2 & Hb2 & Efb).
  exists h2, t2, c2, s1, b2. split; [done|]. split; try done; try congruence.
  - by apply (keeps_alone tgt skb h1 h2 t2).
  - intros y. destruct (decide (y = tgt)) as [->|]; [by rewrite Hcc|by rewrite Ho2].
Qed.

(** ** skb_shift *)

Lemma shifted_from h tgt skb t c s b h2 t2 c2 s2 b2 n h' : inv ext h → skbs h !! tgt = Some t → bufs h !! head t = Some c → skbs h !! skb = Some s → bufs h !! head s = Some b →
  both_own tgt skb t c s b h h2 t2 c2 s2 b2 → shifted tgt skb n (packet_bytes (pages h2) t2 c2) (packet_bytes (pages h2) s2 b2) h2 h' →
  shifted tgt skb n (packet_bytes (pages h) t c) (packet_bytes (pages h) s b) h h'.
Proof.
  intros I Ht Hc Hs Hb [I2 Ht2 Hc2 Hs2 Hb2 _ _ Hp Hall _ _ _ _ _] [I' Hp' H1 H2 H3].
  pose proof (Hall tgt) as E1. rewrite (contents_packet ext h2 tgt t2 c2 I2 Ht2 Hc2), (contents_packet ext h tgt t c I Ht Hc) in E1. injection E1 as E1.
  pose proof (Hall skb) as E2. rewrite (contents_packet ext h2 skb s2 b2 I2 Hs2 Hb2), (contents_packet ext h skb s b I Hs Hb) in E2. injection E2 as E2. rewrite E1, E2 in *.
  split; [done|congruence|done|done|]. intros y Hy1 Hy2. by rewrite H3.
Qed.

(** Nothing changed, for one of the reasons that there are, or [n] bytes moved. *)
Definition shift_result (h : heap) (tgt skb n : Z) (t : sk_buff) (c : buffer) (s : sk_buff) (b : buffer) (r : option (Z * heap)) : Prop :=
  (∃ h', r = Some (0, h') ∧ inv ext h' ∧ (∀ y, contents 1 h' y = contents 1 h y) ∧
     (data_len s ≠ len s ∨ MAX_SKB_FRAGS < nr_frags (b_info c) + nr_frags (b_info b) ∨ starved h tgt skb t s)) ∨
  ∃ h', r = Some (n, h') ∧ shifted tgt skb n (packet_bytes (pages h) t c) (packet_bytes (pages h) s b) h h'.

Section shift.
Context (fuel : nat) (h : heap) (tgt skb n : Z) (t : sk_buff) (c : buffer) (s : sk_buff) (b : buffer).
Context (I : inv ext h) (Hne : tgt ≠ skb) (Ht : skbs h !! tgt = Some t) (Hc : bufs h !! head t = Some c) (Hs : skbs h !! skb = Some s) (Hb : bufs h !! head s = Some b).
Context (Hn : 0 < n ≤ len s) (Hlen : len t + n < 2 ^ 30) (Hpaged : data_len s = len s) (Hfew : nr_frags (b_info c) ≤ MAX_SKB_FRAGS).
Abbreviation result := (shift_result h tgt skb n t c s b).

Lemma merged_result f sf l g : frags (b_info b) = f :: sf → frags (b_info c) = l ++ [g] → continues f g → n < bv_len f → result (prepare_both fuel tgt skb (shift_merged tgt skb n (zlen l)) h).
Proof.
  intros Ef El Hcg Hlt. destruct (prepare_both_ok fuel (shift_merged tgt skb n (zlen l)) h tgt skb t c s b I Hne Ht Hc Hs Hb) as [(h' & -> & I' & Ho & Hst)|(h2 & t2 & c2 & s2 & b2 & -> & B)].
  { left. exists h'. split_and!; auto. }
  right. pose proof B as []. destruct (merged_ok h2 tgt skb t2 c2 s2 b2 n bo_inv0 Hne bo_tgt0 bo_tgt_buf0 bo_skb0 bo_skb_buf0 bo_tgt_alone0 bo_skb_alone0 ltac:(lia) ltac:(lia) ltac:(lia) f sf l g) as (h' & E & R);
    [congruence|congruence|done|done|]. exists h'. split; [exact E|]. by apply (shifted_from h tgt skb t c s b h2 t2 c2 s2 b2).
Qed.

(** From the loop on, with the first [k] fragments of [skb] merged already. *)
Lemma frags_result (k : bool) (l : list skb_frag_t) (todo : Z) :
  (if k then ∃ f sf l0 g, frags (b_info b) = f :: sf ∧ frags (b_info c) = l0 ++ [g] ∧ continues f g ∧ bv_len f ≤ n ∧ l = sf ∧ todo = n - bv_len f else l = frags (b_info b) ∧ todo = n) →
  result (shift_from fuel tgt skb n (nr_frags (b_info c)) (if k then 1 else 0) todo h).
Proof.
  intros K. set (from := if k then 1 else 0). assert (drop (Z.to_nat from) (frags (b_info b)) = l ∧ 0 ≤ from) as [El Hfrom].
  { unfold from. destruct k; [|by destruct K as [-> _]]. by destruct K as (f & sf & l0 & g & -> & _ & _ & _ & -> & _). }
  unfold shift_from. rewrite (st_bind_step _ _ _ _ _ (load_ok skb h s Hs)), (st_bind_step _ _ _ _ _ (skb_shinfo_ok skb h s b Hs Hb)). destruct (_ && _) eqn:Efull.
  { left. exists h. split_and!; try done. apply andb_true_iff in Efull as [_ H]. apply Z.ltb_lt in H. right. left. lia. }
  destruct (prepare_both_ok fuel (shift_frags tgt skb n (nr_frags (b_info c)) from todo) h tgt skb t c s b I Hne Ht Hc Hs Hb) as [(h' & -> & I' & Ho & Hst)|(h2 & t2 & c2 & s2 & b2 & -> & B)].
  { left. exists h'. split_and!; auto. }
  pose proof B as []. unfold shift_frags. rewrite (st_bind_step _ _ _ _ _ (skb_shinfo_ok skb h2 s2 b2 bo_skb0 bo_skb_buf0)), bo_skb_frags0, El.
  destruct (inv_pkt _ _ bo_inv0 skb s2 bo_skb0) as (d & Ed & P). assert (d = b2) as -> by congruence. destruct P. rewrite bo_skb_frags0 in pk_paged0. destruct (inv_buf _ _ bo_inv0 _ _ bo_skb_buf0) as [_ Hm]. rewrite bo_skb_frags0 in Hm.
  assert (Forall (mapped (pages h2)) l) as Hml by (rewrite <-El; by apply Forall_drop).
  assert (0 ≤ todo ≤ fsize l) as Htodo. { destruct k; [|destruct K as [-> ->]; lia]. destruct K as (f & sf & l0 & g & Ef & _ & _ & Hle & -> & ->). rewrite Ef in pk_paged0. cbn in pk_paged0. lia. }
  destruct (shift_loop_ok (pages h2) l Hml (nr_frags (b_info c)) todo h2 Htodo Hfew) as [[E Hmany]|(moved & rest & rf & E & Hrf & H1 & H2 & H3 & H4)]; rewrite (st_bind_step _ _ _ _ _ E).
  { left. exists h2. split_and!; try done. right. left. assert (zlen l ≤ nr_frags (b_info b)) by (rewrite <-El, length_drop; unfold nr_frags; lia). lia. }
  right. cbn [Z.ltb Z.compare andb]. assert (∃ h', (update_info tgt (λ sh, set_frags (frags sh ++ moved) sh) ;; (if from =? 0 then mret tt else f ← lift (zlookup (frags (b_info b)) 0); merge_frag tgt (nr_frags (b_info c) - 1) f) ;;
      update_info skb (set_frags rest) ;; shift_done tgt skb n) (set_page_refs rf h2) = Some (n, h') ∧ shifted tgt skb n (packet_bytes (pages h2) t2 c2) (packet_bytes (pages h2) s2 b2) h2 h') as (h' & E' & R).
  2: { exists h'. split; [exact E'|]. by apply (shifted_from h tgt skb t c s b h2 t2 c2 s2 b2). }
  unfold from. destruct k; cbn [Z.eqb].
  - destruct K as (f & sf & l0 & g & Ef & Ec & Hcg & Hle & -> & ->). rewrite Ef. replace (nr_frags (b_info c) - 1) with (zlen l0) by (unfold nr_frags; rewrite Ec, length_app; cbn [length]; lia).
    apply (full_merged_ok h2 tgt skb t2 c2 s2 b2 n bo_inv0 Hne bo_tgt0 bo_tgt_buf0 bo_skb0 bo_skb_buf0 bo_tgt_alone0 bo_skb_alone0 ltac:(lia) ltac:(lia) ltac:(lia) f sf l0 g); try done; congruence.
  - destruct K as [-> ->]. apply (full_ok h2 tgt skb t2 c2 s2 b2 n bo_inv0 Hne bo_tgt0 bo_tgt_buf0 bo_skb0 bo_skb_buf0 bo_tgt_alone0 bo_skb_alone0 ltac:(lia) ltac:(lia) ltac:(lia) (frags (b_info b))); try done; congruence.
Qed.
End shift.

Lemma coalesce_last sh f : skb_can_coalesce sh (nr_frags sh) (skb_frag_page f) (skb_frag_off f) = true → ∃ l g, frags sh = l ++ [g] ∧ continues f g.
Proof.
  unfold skb_can_coalesce, nr_frags. intros H. destruct (frags sh) as [|g l _] using rev_ind; [done|]. rewrite length_app in H. cbn [length] in H. destruct (_ =? 0); [done|].
  replace (Z.of_nat (length l + 1) - 1) with (zlen l) in H by lia. rewrite zlookup_mid in H. apply andb_true_iff in H as [H1 H2]. apply Z.eqb_eq in H1, H2. by exists l, g.
Qed.

Lemma shift_ok fuel h tgt skb n t c s b : inv ext h → tgt ≠ skb → skbs h !! tgt = Some t → bufs h !! head t = Some c → skbs h !! skb = Some s → bufs h !! head s = Some b →
  0 < n ≤ len s → len t + n < 2 ^ 30 → nr_frags (b_info c) ≤ MAX_SKB_FRAGS → shift_result h tgt skb n t c s b (skb_shift fuel tgt skb n h).
Proof.
  intros I Hne Ht Hc Hs Hb Hn Hlen Hfew. destruct (inv_pkt _ _ I skb s Hs) as (d & Ed & P). assert (d = b) as -> by congruence. pose proof P as []. destruct (inv_buf _ _ I _ _ Hb) as [_ Hm].
  unfold skb_shift. rewrite (st_bind_step _ _ _ _ _ (load_ok skb h s Hs)). rewrite (wrapU_small 32 n) by (unfold is_u; lia). rewrite (proj2 (Z.ltb_ge _ _)) by lia. rewrite (headlen_ok s b P).
  destruct (Z.eqb_spec (len s - data_len s) 0) as [E0|E0]; cbn [negb]. 2: { left. exists h. split_and!; try done. left. lia. }
  rewrite (st_bind_step _ _ _ _ _ (skb_shinfo_ok tgt h t c Ht Hc)), (st_bind_step _ _ _ _ _ (skb_shinfo_ok skb h s b Hs Hb)). cbv zeta. assert (data_len s = len s) as Hpaged by lia.
  assert (shift_result h tgt skb n t c s b (shift_from fuel tgt skb n (nr_frags (b_info c)) 0 n h)) as Hplain by (apply (frags_result fuel h tgt skb n t c s b I Hne Ht Hc Hs Hb Hn Hlen Hpaged Hfew false (frags (b_info b)) n); done).
  destruct (nr_frags (b_info c) =? 0); [done|]. destruct (frags (b_info b)) as [|f sf] eqn:Ef; [cbn in pk_paged0; lia|]. rewrite (lift_step _ _ _ _ (eq_refl : zlookup (f :: sf) 0 = Some f)).
  destruct (skb_can_coalesce _ _ _ _) eqn:Ecc; cbn [negb]; [|done]. apply Forall_cons in Hm as [Hf Hsf]. pose proof (frag_len _ _ Hf) as Lf. unfold skb_frag_size. rewrite (wrapS_small 32) by (unfold is_s; lia).
  destruct (coalesce_last (b_info c) f Ecc) as (l & g & El & Hcg).
  destruct (Z.ltb_spec (n - bv_len f) 0) as [Hlt|Hge].
  - replace (nr_frags (b_info c) - 1) with (zlen l) by (unfold nr_frags; rewrite El, length_app; cbn [length]; lia). apply (merged_result fuel h tgt skb n t c s b I Hne Ht Hc Hs Hb Hn Hlen Hpaged f sf l g); done || lia.
  - apply (frags_result fuel h tgt skb n t c s b I Hne Ht Hc Hs Hb Hn Hlen Hpaged Hfew true sf (n - bv_len f)). exists f, sf, l, g. split_and!; done || lia.
Qed.
End prepare.

(** C26: Shifting moves the first [n] bytes of one packet to the end of another, whether the
    packets share buffers with others or with each other, and whether a fragment is merged,
    moved or cut; or it answers 0 and no packet changes.  The latter happens only if the
    packet has a linear part, if the fragments might not all fit, or if a shared buffer
    could not be copied for want of memory.  References stay counted exactly. *)
Theorem skb_shift_moves ext fuel h m tgt skb n t c s b ts ss : inv ext h → view h m → tgt ≠ skb →
  skbs h !! tgt = Some t → bufs h !! head t = Some c → m !! tgt = Some ts → skbs h !! skb = Some s → bufs h !! head s = Some b → m !! skb = Some ss →
  0 < n ≤ zlen ss → zlen ts + n < 2 ^ 30 → nr_frags (b_info c) ≤ MAX_SKB_FRAGS →
  (∃ h', skb_shift fuel tgt skb n h = Some (0, h') ∧ inv ext h' ∧ view h' m ∧
     (data_len s ≠ len s ∨ MAX_SKB_FRAGS < nr_frags (b_info c) + nr_frags (b_info b) ∨ starved h tgt skb t s)) ∨
  ∃ h', skb_shift fuel tgt skb n h = Some (n, h') ∧ inv ext h' ∧ view h' (<[skb := drop (Z.to_nat n) ss]> (<[tgt := ts ++ take (Z.to_nat n) ss]> m)).
Proof.
  intros I V Hne Ht Hc Hts Hs Hb Hss Hn Hlen Hfew. rewrite <-V in Hts, Hss. pose proof (contents_packet ext h tgt t c I Ht Hc) as Et. pose proof (contents_packet ext h skb s b I Hs Hb) as Es.
  rewrite Hts in Et. injection Et as ->. rewrite Hss in Es. injection Es as ->. rewrite (packet_len ext h tgt t c I Ht Hc) in Hlen. rewrite (packet_len ext h skb s b I Hs Hb) in Hn.
  destruct (shift_ok fuel h tgt skb n t c s b I Hne Ht Hc Hs Hb Hn Hlen Hfew) as [(h' & E & I' & Ho & Hr)|(h' & E & [I' _ H1 H2 H3])]; [left|right]; exists h'; split_and!; try done.
  - intros y. by rewrite Ho.
  - by destruct (view_pair h h' m tgt skb _ _ V H1 H2 H3).
Qed.

(** ** A fragment that is merged and one that is cut *)

Definition long_page : gmap Z (list Z) := {[30 := [1; 2; 3; 4; 5; 6; 7; 8]]}.
Definition empty_heap : heap := Heap ∅ ∅ long_page (λ _, 0) [].
Definition tgt_skb : sk_buff := set_tail 1 (set_end_ 4 (set_len 3 (set_data_len 2 (set_head 7 packet0)))).
Definition tgt_buf : buffer := Buffer [0; 90; 91; 92] (Shinfo [SkbFrag 30 0 2] NULL 1 0 0).
Definition src_skb : sk_buff := set_end_ 4 (set_len 5 (set_data_len 5 (set_head 8 packet0))).
Definition src_buf : buffer := Buffer [93; 94; 95; 96] (Shinfo [SkbFrag 30 2 3; SkbFrag 30 5 2] NULL 1 0 0).
Definition tgt_heap : heap := put_packet 1 tgt_skb tgt_buf (λ p, if p =? 30 then 1 else 0) [] empty_heap.
Definition shift_heap : heap := put_packet 2 src_skb src_buf (λ p, if p =? 30 then 3 else 0) [] tgt_heap.
Definition shift_strings : gmap Z (list Z) := {[1 := [0; 1; 2]; 2 := [3; 4; 5; 6; 7]]}.

Lemma mapped_long o n : 0 ≤ o → 0 ≤ n → o + n ≤ 8 → mapped long_page (SkbFrag 30 o n).
Proof. intros Ho Hn Hon. exists [1; 2; 3; 4; 5; 6; 7; 8]. cbn. split_and!; done || lia. Qed.

Lemma inv_shift_heap : inv (λ _, 0) shift_heap.
Proof.
  assert (∀ p v, (if 30 =? p then v else 0) = if p =? 30 then v else 0) as Esym by (intros p v; by rewrite Z.eqb_sym).
  apply inv_new; try done; [apply inv_new; try done| |].
  - constructor; [by apply mapped_long|done].
  - intros p. change (buf_uses p tgt_buf) with ((if 30 =? p then 1 else 0) + 0). rewrite Esym. cbn. destruct (p =? 30); lia.
  - constructor; [by apply mapped_long|]. constructor; [by apply mapped_long|done].
  - intros p. change (buf_uses p src_buf) with ((if 30 =? p then 1 else 0) + ((if 30 =? p then 1 else 0) + 0)). rewrite Esym. cbn. destruct (p =? 30); lia.
Qed.

Lemma view_shift_heap : view shift_heap shift_strings.
Proof.
  intros y. destruct (decide (y = 1)) as [->|H1]; [reflexivity|]. destruct (decide (y = 2)) as [->|H2]; [reflexivity|].
  assert (shift_strings !! y = None) as -> by (unfold shift_strings; by rewrite lookup_insert_ne, lookup_singleton_ne).
  assert (skbs shift_heap !! y = None) as E by (cbn; by rewrite !lookup_insert_ne). cbn [contents]. by rewrite E.
Qed.

Lemma skb_shift_moves_witness :
  ((∃ h', skb_shift 0 1 2 4 shift_heap = Some (0, h') ∧ inv (λ _, 0) h' ∧ view h' shift_strings ∧
      (5 ≠ 5 ∨ 17 < 1 + 2 ∨ starved shift_heap 1 2 tgt_skb src_skb)) ∨
   ∃ h', skb_shift 0 1 2 4 shift_heap = Some (4, h') ∧ inv (λ _, 0) h' ∧ view h' (<[2 := [7]]> (<[1 := [0; 1; 2; 3; 4; 5; 6]]> shift_strings))) ∧
  match skb_shift 0 1 2 4 shift_heap with
  | Some (r, h') => r = 4 ∧ contents 1 h' 1 = Some [0; 1; 2; 3; 4; 5; 6] ∧ contents 1 h' 2 = Some [7] ∧ page_refs h' 30 = 3
  | None => False
  end.
Proof.
  split; [|vm_compute; auto].
  apply (skb_shift_moves (λ _, 0) 0 shift_heap shift_strings 1 2 4 tgt_skb tgt_buf src_skb src_buf [0; 1; 2] [3; 4; 5; 6; 7] inv_shift_heap view_shift_heap ltac:(done)
    eq_refl eq_refl eq_refl eq_refl eq_refl eq_refl); [split|..]; vm_compute; congruence.
Defined.

End SkbShift.
