(* ===== verification/SkbSeq.v ===== *)
(** * Reading a packet block by block

    net/core/skbuff.c: skb_seq_read gives the data of a packet in blocks, without a copy.
    Its state is the packet and the fragment that it is at; the caller says how
    much it has consumed.  There is no high memory, so a fragment is one block and
    the offset in a fragment stays 0. *)

From Stdlib Require Import ZArith Lia Sorted.
From stdpp Require Import base numbers list gmap.
From S2P Require Import Prelude SkbData SkbRead.

Module SkbSeq.
Import SkbData SkbRead.

(** [frag_data] is the page that is mapped, or NULL. *)
Record skb_seq_state := SeqState {
  lower_offset : Z;
  upper_offset : Z;
  frag_idx : Z;
  stepped_offset : Z;
  root_skb : Z;
  cur_skb : Z;
  frag_data : Z }.

Definition map_frag (p : Z) (st : skb_seq_state) : skb_seq_state := SeqState (lower_offset st) (upper_offset st) (frag_idx st) (stepped_offset st) (root_skb st) (cur_skb st) p.
Definition unmap_frag : skb_seq_state → skb_seq_state := map_frag NULL.
Definition step_by (n k : Z) (st : skb_seq_state) : skb_seq_state := SeqState (lower_offset st) (upper_offset st) (u32 (frag_idx st + k)) (u32 (stepped_offset st + n)) (root_skb st) (cur_skb st) (frag_data st).
Definition go_to (x : Z) (st : skb_seq_state) : skb_seq_state := SeqState (lower_offset st) (upper_offset st) 0 (stepped_offset st) (root_skb st) x (frag_data st).

Definition skb_prepare_seq_read (skb from to : Z) : skb_seq_state := SeqState from to 0 0 skb skb NULL.

(** The loop over the fragments from [frag_idx] on: a block, or the state behind them. *)
Fixpoint seq_frags (fs : list skb_frag_t) (abs_offset : Z) (st : skb_seq_state) : hst (list Z * skb_seq_state + skb_seq_state) :=
  match fs with
  | [] => mret (inr st)
  | frag :: fs =>
      let pg_sz := skb_frag_size frag in
      let block_limit := u32 (pg_sz + stepped_offset st) in
      if abs_offset <? block_limit then
        data ← read_page (skb_frag_page frag) (skb_frag_off frag + u32 (abs_offset - stepped_offset st)) (u32 (block_limit - abs_offset));
        mret (inl (data, if frag_data st =? NULL then map_frag (skb_frag_page frag) st else st))
      else seq_frags fs abs_offset (step_by pg_sz 1 (unmap_frag st))
  end.

(** From the label next_skb on; the fuel bounds the number of packets. *)
Fixpoint seq_next (fuel : nat) (abs_offset : Z) (st : skb_seq_state) : hst (list Z * skb_seq_state) :=
  match fuel with
  | O => fault
  | S fuel =>
      s ← load (cur_skb st);
      let block_limit := u32 (skb_headlen s + stepped_offset st) in
      if (abs_offset <? block_limit) && (frag_data st =? NULL) then
        data ← skb_copy_from_linear_data_offset (cur_skb st) (u32 (abs_offset - stepped_offset st)) (u32 (block_limit - abs_offset));
        mret (data, st)
      else
        let st := if (frag_idx st =? 0) && (frag_data st =? NULL) then step_by (skb_headlen s) 0 st else st in
        sh ← skb_shinfo (cur_skb st);
        r ← seq_frags (drop (Z.to_nat (frag_idx st)) (frags sh)) abs_offset st;
        match r with
        | inl r => mret r
        | inr st =>
            let st := unmap_frag st in
            rsh ← skb_shinfo (root_skb st);
            if (root_skb st =? cur_skb st) && negb (frag_list rsh =? NULL) then seq_next fuel abs_offset (go_to (frag_list rsh) st)
            else if negb (next s =? NULL) then seq_next fuel abs_offset (go_to (next s) st)
            else mret ([], st)
        end
  end.

(** The block; empty at the end. *)
Definition skb_seq_read (fuel : nat) (consumed : Z) (st : skb_seq_state) : hst (list Z * skb_seq_state) :=
  let abs_offset := u32 (consumed + lower_offset st) in
  if upper_offset st <=? abs_offset then mret ([], unmap_frag st) else seq_next fuel abs_offset st.

(** ** Packets that can be read *)

Section reads.
Context (h : heap).

(** The linear part and the fragments of one packet. *)
Record own_parts (y : Z) (s : sk_buff) (b : buffer) (l : list Z) (Fs : list (list Z)) : Prop := {
  op_skb : skbs h !! y = Some s;
  op_buf : bufs h !! head s = Some b;
  op_lin : bytes_at (b_bytes b) (data s) (zlen l) = Some l;
  op_headlen : skb_headlen s = zlen l;
  op_frags : mapM (frag_bytes h) (frags (b_info b)) = Some Fs;
  op_pages : Forall (λ f, bv_page f ≠ NULL) (frags (b_info b));
  op_few : nr_frags (b_info b) ≤ MAX_SKB_FRAGS }.

(** [n] packets without lists of their own, from [x] on. *)
Inductive chain : nat → Z → list Z → Prop :=
  | chain_end : chain 0 NULL []
  | chain_step n y s b l Fs rest : y ≠ NULL → own_parts y s b l Fs → frag_list (b_info b) = NULL → chain n (next s) rest → chain (S n) y (l ++ concat Fs ++ rest).

(** A packet with [n] more in its list; without a list it is not in a queue. *)
Record readable (x : Z) (n : nat) (bs : list Z) : Prop := {
  rd_root : ∃ s b l Fs C, own_parts x s b l Fs ∧ chain n (frag_list (b_info b)) C ∧ bs = l ++ concat Fs ++ C ∧ (frag_list (b_info b) = NULL → next s = NULL);
  rd_len : zlen bs < 2 ^ 31 }.

(** ** The position *)

(** What is behind packet [y]: [k] packets with the bytes [C]. *)
Definition rest_of (root y : Z) (s : sk_buff) (k : nat) (C : list Z) : Prop :=
  ∃ sr br, skbs h !! root = Some sr ∧ bufs h !! head sr = Some br ∧
    chain k (if (root =? y) && negb (frag_list (b_info br) =? NULL) then frag_list (b_info br) else next s) C ∧ (frag_list (b_info br) = NULL → C = []).

(** At packet [cur_skb], [before] are the bytes in front of it, [rest] those behind; the
    linear part or fragment [frag_idx] is the current block, which begins at or before [abs]. *)
Record at_block (bs : list Z) (abs : Z) (k : nat) (st : skb_seq_state) (s : sk_buff) (b : buffer) (before l : list Z) (Fs : list (list Z)) (rest : list Z) : Prop := {
  ab_own : own_parts (cur_skb st) s b l Fs;
  ab_bytes : bs = before ++ l ++ concat Fs ++ rest;
  ab_rest : rest_of (root_skb st) (cur_skb st) s k rest;
  ab_at : stepped_offset st ≤ abs;
  ab_where : frag_data st = NULL ∧ frag_idx st = 0 ∧ stepped_offset st = zlen before ∨
    ∃ i : nat, frag_data st ≠ NULL ∧ frag_idx st = Z.of_nat i ∧ (i < length Fs)%nat ∧ stepped_offset st = zlen (before ++ l ++ concat (take i Fs)) }.

Definition same_reader (st st' : skb_seq_state) : Prop := lower_offset st' = lower_offset st ∧ upper_offset st' = upper_offset st ∧ root_skb st' = root_skb st.

(** A block of [bs] that begins at [abs]. *)
Definition block (bs : list Z) (abs : Z) (w : list Z) : Prop := w ≠ [] ∧ w = slice abs (zlen w) bs.

Lemma block_of pre w rest abs : zlen pre ≤ abs < zlen (pre ++ w) → block (pre ++ w ++ rest) abs (slice (abs - zlen pre) (zlen w - (abs - zlen pre)) w).
Proof.
  rewrite length_app. intros H. pose proof (slice_len (abs - zlen pre) (zlen w - (abs - zlen pre)) w ltac:(lia) ltac:(lia)) as L. split; [intros E; rewrite E in L; cbn in L; lia|].
  rewrite L. unfold slice. rewrite drop_app_ge by lia. replace (Z.to_nat abs - length pre)%nat with (Z.to_nat (abs - zlen pre)) by lia. rewrite drop_app_le by lia.
  rewrite take_app_le by (rewrite length_drop; lia). f_equal. lia.
Qed.

Lemma mapM_length fs Fs : mapM (frag_bytes h) fs = Some Fs → length Fs = length fs.
Proof. intros E. apply mapM_Some in E. symmetry. by apply Forall2_length in E. Qed.

Lemma mapM_drop i fs Fs : mapM (frag_bytes h) fs = Some Fs → mapM (frag_bytes h) (drop i fs) = Some (drop i Fs).
Proof. rewrite !mapM_Some. apply Forall2_drop. Qed.

(** The loop, with [pre] the bytes in front of the fragments. *)
Lemma seq_frags_ok bs rest abs fs Fs : mapM (frag_bytes h) fs = Some Fs → zlen bs < 2 ^ 31 → Forall (λ f, bv_page f ≠ NULL) fs → abs < 2 ^ 32 → ∀ pre st,
  bs = pre ++ concat Fs ++ rest → stepped_offset st = zlen pre → zlen pre ≤ abs → 0 ≤ frag_idx st → frag_idx st + Z.of_nat (length fs) < 2 ^ 31 →
  (∃ st', seq_frags fs abs st h = Some (inr st', h) ∧ same_reader st st' ∧ cur_skb st' = cur_skb st ∧ stepped_offset st' = zlen (pre ++ concat Fs) ∧ zlen (pre ++ concat Fs) ≤ abs) ∨
  ∃ i w st', seq_frags fs abs st h = Some (inl (w, st'), h) ∧ (i < length fs)%nat ∧ block bs abs w ∧ same_reader st st' ∧ cur_skb st' = cur_skb st ∧
    frag_data st' ≠ NULL ∧ frag_idx st' = frag_idx st + Z.of_nat i ∧ stepped_offset st' = zlen (pre ++ concat (take i Fs)) ∧ stepped_offset st' ≤ abs.
Proof.
  revert Fs. induction fs as [|f fs IH]; intros Fs HF Hbs Hpg Habs pre st E Hst Hle Hi Hil.
  { cbn in HF. injection HF as <-. left. exists st. cbn. rewrite app_nil_r. done. }
  cbn in HF. apply bind_Some in HF as (w & Hw & (Fs' & HFs & EF)%bind_Some). injection EF as <-. pose proof (frag_bytes_len _ _ _ Hw) as Lw. apply Forall_cons in Hpg as [Hp Hpg].
  assert (zlen pre + zlen w ≤ zlen bs) as Hfit by (rewrite E; cbn [concat]; rewrite !length_app; lia). cbn [seq_frags]. unfold skb_frag_size. rewrite <-Lw, Hst. cbv zeta. rewrite (wrapU_small 32 (zlen w + zlen pre)) by (unfold is_u; lia).
  destruct (Z.ltb_spec abs (zlen w + zlen pre)) as [Hin|Hout].
  - right. rewrite (wrapU_small 32 (abs - zlen pre)), (wrapU_small 32 (zlen w + zlen pre - abs)) by (unfold is_u; lia).
    rewrite (st_bind_step _ _ _ _ _ (read_page_ok h f w (abs - zlen pre) (zlen w + zlen pre - abs) Hw ltac:(lia) ltac:(lia) ltac:(lia))). eexists 0%nat, _, _. split; [reflexivity|].
    split; [cbn; lia|]. split. { rewrite E. cbn [concat]. rewrite <-app_assoc. replace (zlen w + zlen pre - abs) with (zlen w - (abs - zlen pre)) by lia. apply block_of. rewrite length_app. lia. }
    cbn [take concat]. rewrite app_nil_r. destruct (Z.eqb_spec (frag_data st) NULL) as [|Hm]; cbn; split_and!; done || lia.
  - set (st1 := step_by (zlen w) 1 (unmap_frag st)). assert (stepped_offset st1 = zlen (pre ++ w)) as E1 by (cbn; rewrite Hst, length_app, (wrapU_small 32) by (unfold is_u; lia); lia).
    assert (frag_idx st1 = frag_idx st + 1) as E2 by (cbn [length] in Hil; cbn; apply wrapU_small; unfold is_u; lia). cbn [length] in Hil.
    destruct (IH Fs' HFs Hbs Hpg Habs (pre ++ w) st1) as [(st' & R & Hsr & Hc & Ht & Hge)|(i & w' & st' & R & Hlt & B & Hsr & Hc & Hm & Hidx & Ht & Hge)];
      [rewrite E; cbn [concat]; by rewrite <-!app_assoc|done|rewrite length_app; lia|lia|lia|left|right].
    + exists st'. cbn [concat]. rewrite app_assoc. done.
    + exists (S i), w', st'. cbn [take concat length]. rewrite app_assoc. split_and!; try done; lia.
Qed.

Lemma own_len y s b l Fs : own_parts y s b l Fs → skb_headlen s = zlen l ∧ skbs h !! y = Some s.
Proof. by intros []. Qed.

(** A linear part. *)
Lemma linear_block y s b l Fs o n : own_parts y s b l Fs → 0 ≤ o → 0 ≤ n → o + n ≤ zlen l → skb_copy_from_linear_data_offset y o n h = Some (slice o n l, h).
Proof.
  intros [Hs Hb Hl _ _ _ _] Ho Hn Hon. pose proof (bytes_at_slice _ _ _ _ o n Hl Ho Hn Hon) as E. unfold skb_copy_from_linear_data_offset. rewrite (st_bind_step _ _ _ _ _ (load_ok y h s Hs)). unfold read_head.
  rewrite (st_bind_step _ _ _ _ _ (load_ok y h s Hs)), (st_bind_step _ _ _ _ _ (load_buf_ok _ h b Hb)). unfold lift. by rewrite E.
Qed.

(** The fragments that are left at a position, and the bytes in front of them. *)
Lemma frags_left bs abs k st s b before l Fs rest : at_block bs abs k st s b before l Fs rest → zlen bs < 2 ^ 31 → ¬ (abs < zlen (before ++ l) ∧ frag_data st = NULL) →
  let st1 := if (frag_idx st =? 0) && (frag_data st =? NULL) then step_by (skb_headlen s) 0 st else st in
  ∃ i : nat, frag_idx st1 = Z.of_nat i ∧ frag_idx st = Z.of_nat i ∧ (i ≤ length Fs)%nat ∧ stepped_offset st1 = zlen (before ++ l ++ concat (take i Fs)) ∧ stepped_offset st1 ≤ abs ∧
    same_reader st st1 ∧ cur_skb st1 = cur_skb st.
Proof.
  intros [Ho E Hr Ha Hw] Hbs Hno st1. destruct (own_len _ _ _ _ _ Ho) as [Hhl _]. destruct Hw as [(Hm & Hi & Hst)|(i & Hm & Hi & Hlt & Hst)].
  - exists O. unfold st1. rewrite Hi, Hm, Hhl. cbn [Z.eqb NULL andb]. cbn [take concat]. rewrite app_nil_r. assert (zlen before + zlen l ≤ zlen bs) by (rewrite E; rewrite !length_app; lia).
    assert (u32 (stepped_offset st + zlen l) = zlen (before ++ l)) as E1 by (rewrite Hst, length_app, (wrapU_small 32) by (unfold is_u; lia); lia). rewrite length_app in Hno.
    assert (u32 (frag_idx st + 0) = 0) as E2 by by rewrite Hi. unfold step_by. cbn [frag_idx stepped_offset cur_skb]. rewrite E1, E2, length_app. split_and!; try done; lia.
  - exists i. unfold st1. destruct (Z.eqb_spec (frag_data st) NULL); [done|]. rewrite andb_false_r. split_and!; try done; lia.
Qed.

Lemma seq_next_ok bs abs k : zlen bs < 2 ^ 31 → 0 ≤ abs < zlen bs → ∀ fuel st s b before l Fs rest, (k < fuel)%nat → at_block bs abs k st s b before l Fs rest →
  ∃ w st', seq_next fuel abs st h = Some ((w, st'), h) ∧ block bs abs w ∧ same_reader st st' ∧
    ∃ k' s' b' before' l' Fs' rest', (k' ≤ k)%nat ∧ at_block bs abs k' st' s' b' before' l' Fs' rest'.
Proof.
  intros Hbs Habs. induction k as [k IH] using lt_wf_ind. intros fuel st s b before l Fs rest Hfuel A. pose proof A as [Ho E Hr Ha Hw]. pose proof Ho as [Hs Hb Hl Hhl HF Hpg Hfew]. destruct fuel as [|fuel]; [lia|]. cbn [seq_next].
  rewrite (st_bind_step _ _ _ _ _ (load_ok _ h s Hs)). cbv zeta. rewrite Hhl. assert (zlen before + zlen l + zlen (concat Fs) + zlen rest = zlen bs) as Lb by (rewrite E, !length_app; lia).
  assert (0 ≤ stepped_offset st) as Hst0 by (destruct Hw as [(_ & _ & ->)|(? & _ & _ & _ & ->)]; lia). rewrite (wrapU_small 32 (zlen l + stepped_offset st)).
  2: { destruct Hw as [(_ & _ & Hst)|(i & _ & _ & Hi & Hst)]; unfold is_u; [lia|]. assert (zlen (concat (take i Fs)) ≤ zlen (concat Fs)). { rewrite <-(take_drop i Fs) at 2. rewrite concat_app, length_app. lia. } rewrite !length_app in Hst. lia. }
  destruct ((abs <? zlen l + stepped_offset st) && (frag_data st =? NULL)) eqn:Elin.
  { to_prop. destruct Hw as [(Hm & Hi & Hst)|(i & Hm & _)]; [|done]. rewrite Hst in *. rewrite (wrapU_small 32 (abs - zlen before)), (wrapU_small 32 (zlen l + zlen before - abs)) by (unfold is_u; lia).
    rewrite (st_bind_step _ _ _ _ _ (linear_block _ s b l Fs (abs - zlen before) (zlen l + zlen before - abs) Ho ltac:(lia) ltac:(lia) ltac:(lia))). eexists _, st. split; [reflexivity|].
    split; [|split; [done|by exists k, s, b, before, l, Fs, rest]]. rewrite E. replace (zlen l + zlen before - abs) with (zlen l - (abs - zlen before)) by lia. apply block_of. rewrite length_app. lia. }
  assert (¬ (abs < zlen (before ++ l) ∧ frag_data st = NULL)) as Hno.
  { intros [H Hm]. rewrite Hm in Elin. cbn [Z.eqb NULL] in Elin. rewrite andb_true_r in Elin. to_prop. destruct Hw as [(_ & _ & Hst)|(i & ? & _)]; [|done]. rewrite length_app in H. lia. }
  destruct (frags_left _ _ _ _ _ _ _ _ _ _ A Hbs Hno) as (i & Hi1 & Hi & Hil & Hst1 & Ha1 & S1 & Hc1). rewrite <-Hhl. set (st1 := if _ && _ then _ else st) in *.
  rewrite (st_bind_step _ _ _ _ _ (skb_shinfo_ok (cur_skb st1) h s b ltac:(by rewrite Hc1) Hb)). rewrite Hi1, Nat2Z.id. pose proof (mapM_length _ _ HF) as LF.
  assert (Z.of_nat (length (frags (b_info b))) < 2 ^ 30) as Hsmall by (unfold nr_frags, MAX_SKB_FRAGS in *; lia).
  destruct (seq_frags_ok bs rest abs (drop i (frags (b_info b))) (drop i Fs) (mapM_drop _ _ _ HF) Hbs ltac:(by apply Forall_drop) ltac:(lia) (before ++ l ++ concat (take i Fs)) st1) as [(st' & R & S & Hc & Ht & Hge)|(j & w & st' & R & Hj & B & S & Hc & Hm & Hidx & Ht & Hge)].
  { rewrite E, <-!app_assoc. do 2 f_equal. rewrite app_assoc, <-concat_app, take_drop. done. }
  { done. } { lia. } { lia. } { rewrite length_drop. lia. }
  - (* behind the fragments *)
    rewrite (st_bind_step _ _ _ _ _ R). rewrite <-app_assoc in Ht, Hge. rewrite <-(app_assoc l), <-concat_app, take_drop in Ht, Hge.
    destruct Hr as (sr & br & Hsr & Hbr & Hch & Hend). assert (root_skb st' = root_skb st) as Er by (destruct S as (_ & _ & ->); by destruct S1 as (_ & _ & ->)). assert (cur_skb st' = cur_skb st) as Ec by congruence.
    cbn [unmap_frag map_frag root_skb cur_skb]. rewrite Er, Ec. rewrite (st_bind_step _ _ _ _ _ (skb_shinfo_ok _ h sr br Hsr Hbr)).
    assert (0 < zlen rest) as Hrest by (rewrite !length_app in Hge; lia).
    assert (frag_list (b_info br) ≠ NULL) as Hlist by (intros H; rewrite (Hend H) in Hrest; done).
    rewrite (proj2 (Z.eqb_neq _ NULL) Hlist) in Hch |- *. cbn [negb] in Hch |- *. rewrite andb_true_r in Hch |- *. remember (if root_skb st =? cur_skb st then frag_list (b_info br) else next s) as y eqn:Ey.
    inversion Hch as [E0 EN EC|n y' s' b' l' Fs' rest' Hy Ho' Hfl' Hch' E0 EN EC]; [rewrite <-EC in Hrest; done|]. clear EN y'.
    assert (root_skb st ≠ y) as Hry by (intros <-; destruct Ho' as [Hs' Hb' _ _ _ _ _]; congruence).
    set (st2 := go_to y (unmap_frag st')). assert (at_block bs abs n st2 s' b' (before ++ l ++ concat Fs) l' Fs' rest') as A'.
    { split; [exact Ho'|rewrite E, <-EC; by rewrite <-!app_assoc| |cbn; lia|left; by split_and!]. exists sr, br. cbn [st2 go_to root_skb cur_skb]. change (root_skb (unmap_frag st')) with (root_skb st'). rewrite Er, (proj2 (Z.eqb_neq _ _) Hry). split_and!; try done. }
    assert (same_reader st st2) as S2 by (destruct S as (? & ? & ?), S1 as (? & ? & ?); unfold same_reader; cbn; split_and!; congruence).
    destruct (IH n ltac:(lia) fuel st2 s' b' _ l' Fs' rest' ltac:(lia) A') as (w & st3 & R3 & B3 & S3 & k' & s3 & b3 & bf3 & l3 & F3 & r3 & Hk3 & A3).
    exists w, st3. split; [|split; [done|split; [destruct S2 as (? & ? & ?), S3 as (? & ? & ?); split_and!; congruence|exists k', s3, b3, bf3, l3, F3, r3; split; [lia|done]]]].
    rewrite <-R3. unfold st2. rewrite Ey in Hy |- *. destruct (root_skb st =? cur_skb st); [done|]. by rewrite (proj2 (Z.eqb_neq _ NULL) Hy).
  - (* in a fragment *)
    rewrite (st_bind_step _ _ _ _ _ R). exists w, st'. assert (same_reader st st') as S2 by (destruct S as (? & ? & ?), S1 as (? & ? & ?); split_and!; congruence). split; [done|]. split; [done|]. split; [done|].
    exists k, s, b, before, l, Fs, rest. split; [done|]. destruct S2 as (_ & _ & Er). split; [congruence|done|by rewrite Er, Hc, Hc1|done|]. right. exists (i + j)%nat. rewrite length_drop in Hj. split_and!; [done|lia|lia|].
    rewrite Ht, <-!app_assoc. f_equal. f_equal. f_equal. f_equal. rewrite <-concat_app. f_equal. apply take_take_drop.
Qed.

(** ** Reading *)

(** Where a reader is that has read up to [abs]: in a block, or told that it is at its end. *)
Definition reading (bs : list Z) (n : nat) (from to abs : Z) (st : skb_seq_state) : Prop :=
  lower_offset st = from ∧ upper_offset st = to ∧
  (to ≤ abs ∨ ∃ k s b before l Fs rest, (k ≤ n)%nat ∧ at_block bs abs k st s b before l Fs rest).

Lemma reading_later bs n from to abs abs' st : reading bs n from to abs st → abs ≤ abs' → reading bs n from to abs' st.
Proof.
  intros (El & Eu & H) Hle. split_and!; [done|done|]. destruct H as [H|(k & s & b & before & l & Fs & rest & Hk & [])]; [left; lia|]. right. exists k, s, b, before, l, Fs, rest. split; [done|]. split; done || lia.
Qed.

Lemma reading_start x n bs from to : readable x n bs → 0 ≤ from → reading bs n from to from (skb_prepare_seq_read x from to).
Proof.
  intros [(s & b & l & Fs & C & Ho & Hc & E & Hend) _] Hf. split_and!; [done|done|]. right. exists n, s, b, [], l, Fs, C. split; [done|]. pose proof Ho as [Hs Hb _ _ _ _ _]. split; try done; [|left; by split_and!].
  exists s, b. cbn [skb_prepare_seq_read root_skb cur_skb]. rewrite Z.eqb_refl. cbn [andb]. split; [done|]. split; [done|]. destruct (Z.eqb_spec (frag_list (b_info b)) NULL) as [E0|E0]; cbn [negb].
  - rewrite E0 in Hc. rewrite (Hend E0). split; [done|]. intros _. by inversion Hc.
  - by split.
Qed.

(** A read at [from] + [c]. *)
Lemma seq_read_ok fuel x n bs from to c st : readable x n bs → (n < fuel)%nat → 0 ≤ from → to ≤ zlen bs → 0 ≤ c → c + from < 2 ^ 32 → reading bs n from to (from + c) st →
  ∃ w st', skb_seq_read fuel c st h = Some ((w, st'), h) ∧ reading bs n from to (from + c) st' ∧ (if from + c <? to then block bs (from + c) w else w = []).
Proof.
  intros R Hfuel Hf Hto Hc Hs (El & Eu & H). pose proof (rd_len _ _ _ R) as Hbs. unfold skb_seq_read. rewrite El, Eu, (wrapU_small 32) by (unfold is_u; lia). cbv zeta. rewrite (Z.add_comm c). destruct (Z.leb_spec to (from + c)) as [Hend|Hin].
  - exists [], (unmap_frag st). split; [done|]. rewrite (proj2 (Z.ltb_ge _ _)) by lia. split; [|done]. split_and!; [done|done|by left].
  - destruct H as [H|(k & s & b & before & l & Fs & rest & Hk & A)]; [lia|]. destruct (seq_next_ok bs (from + c) k Hbs ltac:(lia) fuel st s b before l Fs rest ltac:(lia) A) as (w & st' & E & B & (El' & Eu' & _) & k' & s' & b' & before' & l' & Fs' & rest' & Hk' & A').
    exists w, st'. split; [done|]. rewrite (proj2 (Z.ltb_lt _ _)) by lia. split; [|done]. split_and!; [congruence|congruence|]. right. exists k', s', b', before', l', Fs', rest'. split; [lia|done].
Qed.

(** The reads of a caller that says each time how much it has consumed. *)
Fixpoint seq_reads (fuel : nat) (cs : list Z) (st : skb_seq_state) : hst (list (list Z)) :=
  match cs with
  | [] => mret []
  | c :: cs => r ← skb_seq_read fuel c st; ws ← seq_reads fuel cs r.2; mret (r.1 :: ws)
  end.

Lemma seq_reads_ok fuel x n bs from to : readable x n bs → (n < fuel)%nat → 0 ≤ from → to ≤ zlen bs → ∀ cs c0 st, 0 ≤ c0 → Sorted Z.le (c0 :: cs) → Forall (λ c, c + from < 2 ^ 32) cs →
  reading bs n from to (from + c0) st →
  ∃ ws, seq_reads fuel cs st h = Some (ws, h) ∧ Forall2 (λ c w, if from + c <? to then block bs (from + c) w else w = []) cs ws.
Proof.
  intros R Hfuel Hf Hto cs. induction cs as [|c cs IH]; intros c0 st Hc0 HS HF Hr; [by exists []|]. apply Sorted_inv in HS as [HS Hhd]. apply HdRel_inv in Hhd. apply Forall_cons in HF as [Hc HF].
  destruct (seq_read_ok fuel x n bs from to c st R Hfuel Hf Hto ltac:(lia) Hc) as (w & st' & E & Hr' & Hw); [by apply (reading_later bs n from to (from + c0)); [|lia]|].
  destruct (IH c st' ltac:(lia) HS HF Hr') as (ws & E2 & Hws). exists (w :: ws). cbn [seq_reads]. rewrite (st_bind_step _ _ _ _ _ E). cbn [fst snd]. rewrite (st_bind_step _ _ _ _ _ E2). split; [done|]. by constructor.
Qed.
End reads.

(** Blocks are bytes of the packet at the place that was asked for, and a block comes as long as
    there is something to read: for every packet with a list of packets, every range
    in it, and every caller that does not go back, whatever it consumes of each block. *)
Theorem seq_read_blocks h fuel x n bs from to cs : readable h x n bs → (n < fuel)%nat → 0 ≤ from → to ≤ zlen bs →
  Sorted Z.le (0 :: cs) → Forall (λ c, c + from < 2 ^ 32) cs →
  ∃ ws, seq_reads fuel cs (skb_prepare_seq_read x from to) h = Some (ws, h) ∧
    Forall2 (λ c w, if from + c <? to then w ≠ [] ∧ w = slice (from + c) (zlen w) bs else w = []) cs ws.
Proof.
  intros R Hfuel Hf Hto HS HF. apply (seq_reads_ok h fuel x n bs from to R Hfuel Hf Hto cs 0 _ ltac:(lia) HS HF). rewrite Z.add_0_r. by apply (reading_start h x n bs).
Qed.

(** ** A packet with two fragments, and one in its list *)

Definition seq_page : gmap Z (list Z) := {[20 := [4; 5; 6; 7; 8]]}.
Definition seq_heap (q : Z) : heap :=
  Heap {[1 := set_next q (set_tail 3 (set_end_ 16 (set_len (if q =? NULL then 10 else 8) (set_data_len (if q =? NULL then 7 else 5) packet0)))); 2 := set_tail 2 (set_len 2 (set_head 8 packet0))]}
    {[7 := Buffer ([1; 2; 3] ++ replicate 13 0) (Shinfo [SkbFrag 20 0 3; SkbFrag 20 3 2] (if q =? NULL then 2 else NULL) 1 0 0); 8 := Buffer ([9; 10] ++ replicate 62 0) info0]}
    seq_page (λ p, if p =? 20 then 2 else 0) [].

Example seq_reads_run : seq_reads 2 [0; 1; 2; 3; 6; 7; 8] (skb_prepare_seq_read 1 1 9) (seq_heap NULL) = Some ([[2; 3]; [3]; [4; 5; 6]; [5; 6]; [8]; [9; 10]; []], seq_heap NULL).
Proof. vm_compute. reflexivity. Qed.

(** A packet without a list that is in a queue: reading does not end with its data but goes on
    in the next packet of the queue, if the limit lies behind the end. *)
Example seq_reads_run_on : (r ← seq_reads 2 [0; 3; 6; 8] (skb_prepare_seq_read 1 0 99); mret r) (seq_heap 2) = Some ([[1; 2; 3]; [4; 5; 6]; [7; 8]; [9; 10]], seq_heap 2).
Proof. vm_compute. reflexivity. Qed.

End SkbSeq.
