(* ===== verification/Namei.v ===== *)
(** * Permissions of files

    fs/namei.c: who may read, write, search, delete, create, link and open.  The
    identity map of users applies (no idmapped mount); what file systems, security
    modules, capabilities and lists of access rights answer is given. *)

From Stdlib Require Import ZArith Lia.
From stdpp Require Import base numbers list.
From S2P Require Import Prelude.

Module Namei.

Definition MAY_EXEC : Z := 1.
Definition MAY_WRITE : Z := 2.
Definition MAY_READ : Z := 4.
Definition MAY_OPEN : Z := 32.
Definition MAY_NOT_BLOCK : Z := 128.
Definition S_IFMT : Z := 0xf000.
Definition S_IFSOCK : Z := 0xc000.
Definition S_IFLNK : Z := 0xa000.
Definition S_IFREG : Z := 0x8000.
Definition S_IFBLK : Z := 0x6000.
Definition S_IFDIR : Z := 0x4000.
Definition S_IFCHR : Z := 0x2000.
Definition S_IFIFO : Z := 0x1000.
Definition S_ISUID : Z := 0x800.
Definition S_ISGID : Z := 0x400.
Definition S_ISVTX : Z := 0x200.
Definition S_IRWXG : Z := 0x38.
Definition S_IXGRP : Z := 0x8.
Definition S_IXUGO : Z := 0x49.
Definition S_IWOTH : Z := 0x2.
Definition CAP_DAC_OVERRIDE : Z := 1.
Definition CAP_DAC_READ_SEARCH : Z := 2.
Definition CAP_FOWNER : Z := 3.
Definition EACCES : Z := 13.
Definition ECHILD : Z := 10.
Definition EOVERFLOW : Z := 75.
Definition ELOOP : Z := 40.
Definition EBUSY : Z := 16.
Definition EISDIR : Z := 21.
Definition ENOTDIR : Z := 20.
Definition EROFS : Z := 30.
Definition O_ACCMODE : Z := 3.
Definition O_RDONLY : Z := 0.
Definition O_TRUNC : Z := 0x200.
Definition O_APPEND : Z := 0x400.
Definition O_NOATIME : Z := 0x40000.

Definition has (x bits : Z) : bool := negb (Z.land x bits =? 0).

(** The list of access rights of an inode as it is cached, and as the file system gives it:
    the rights that it grants for a mask, or an error. *)
Inductive cached_acl := AclNone | AclUncached | AclCached (p : Z → Z).

Record inode := Inode {
  i_mode : Z;
  i_uid : Z;
  i_gid : Z;
  i_posixacl : bool;              (** IS_POSIXACL *)
  i_cached_acl : cached_acl;
  i_acl : Z + option (Z → Z);     (** get_acl *)
  i_rdonly : bool;                (** sb_rdonly *)
  i_immutable : bool;
  i_append : bool;
  i_swapfile : bool;
  i_uid_valid : bool;
  i_gid_valid : bool;
  i_dead : bool;                  (** IS_DEADDIR *)
  i_op_permission : option (Z → Z) }.

(** The task, and what others answer about this inode. *)
Record cred := Cred {
  fsuid : Z;
  in_group_p : Z → bool;
  capable_wrt_inode_uidgid : inode → Z → bool;
  kuid_has_mapping : Z → bool;
  ns_capable : Z → bool;
  fsuidgid_has_mapping : bool;
  devcgroup_inode_permission : inode → Z → Z;
  security_inode_permission : inode → Z → Z }.

Definition IS_FMT (fmt mode : Z) : bool := Z.land mode S_IFMT =? fmt.
Definition S_ISREG : Z → bool := IS_FMT S_IFREG.
Definition S_ISDIR : Z → bool := IS_FMT S_IFDIR.
Definition S_ISLNK : Z → bool := IS_FMT S_IFLNK.
Definition S_ISFIFO : Z → bool := IS_FMT S_IFIFO.
Definition HAS_UNMAPPED_ID (i : inode) : bool := negb (i_uid_valid i) || negb (i_gid_valid i).

(** ** Access rights *)

Definition check_acl (i : inode) (mask : Z) : Z :=
  if has mask MAY_NOT_BLOCK then
    match i_cached_acl i with AclNone => - EAGAIN | AclUncached => - ECHILD | AclCached p => p mask end
  else
    match i_acl i with inl err => err | inr (Some p) => p mask | inr None => - EAGAIN end.

Definition acl_permission_check (c : cred) (i : inode) (mask : Z) : Z :=
  let mode := i_mode i in
  if fsuid c =? i_uid i then
    let mask := Z.land mask 7 in
    let mode := Z.shiftr mode 6 in
    if has mask (Z.lnot mode) then - EACCES else 0
  else
    let error := if i_posixacl i && has mode S_IRWXG then check_acl i mask else - EAGAIN in
    if negb (error =? - EAGAIN) then error
    else
      let mask := Z.land mask 7 in
      let mode := if has mask (Z.lxor mode (Z.shiftr mode 3)) && in_group_p c (i_gid i) then Z.shiftr mode 3 else mode in
      if has mask (Z.lnot mode) then - EACCES else 0.

Definition generic_permission (c : cred) (i : inode) (mask : Z) : Z :=
  let ret := acl_permission_check c i mask in
  if negb (ret =? - EACCES) then ret
  else if S_ISDIR (i_mode i) then
    if negb (has mask MAY_WRITE) && capable_wrt_inode_uidgid c i CAP_DAC_READ_SEARCH then 0
    else if capable_wrt_inode_uidgid c i CAP_DAC_OVERRIDE then 0
    else - EACCES
  else
    let mask := Z.land mask (Z.lor MAY_READ (Z.lor MAY_WRITE MAY_EXEC)) in
    if (mask =? MAY_READ) && capable_wrt_inode_uidgid c i CAP_DAC_READ_SEARCH then 0
    else if (negb (has mask MAY_EXEC) || has (i_mode i) S_IXUGO) && capable_wrt_inode_uidgid c i CAP_DAC_OVERRIDE then 0
    else - EACCES.

(** IOP_FASTPERM caches that there is no method. *)
Definition do_inode_permission (c : cred) (i : inode) (mask : Z) : Z :=
  match i_op_permission i with Some p => p mask | None => generic_permission c i mask end.

Definition sb_permission (i : inode) (mask : Z) : Z :=
  if has mask MAY_WRITE && i_rdonly i && (S_ISREG (i_mode i) || S_ISDIR (i_mode i) || S_ISLNK (i_mode i)) then - EROFS else 0.

Definition inode_permission (c : cred) (i : inode) (mask : Z) : Z :=
  let retval := sb_permission i mask in
  if negb (retval =? 0) then retval
  else if has mask MAY_WRITE && i_immutable i then - EPERM
  else if has mask MAY_WRITE && HAS_UNMAPPED_ID i then - EACCES
  else
    let retval := do_inode_permission c i mask in
    if negb (retval =? 0) then retval
    else
      let retval := devcgroup_inode_permission c i mask in
      if negb (retval =? 0) then retval else security_inode_permission c i mask.

Definition inode_owner_or_capable (c : cred) (i : inode) : bool := (fsuid c =? i_uid i) || (kuid_has_mapping c (i_uid i) && ns_capable c CAP_FOWNER).

(** ** Names in a directory *)

Definition __check_sticky (c : cred) (dir i : inode) : bool :=
  if i_uid i =? fsuid c then false
  else if i_uid dir =? fsuid c then false
  else negb (capable_wrt_inode_uidgid c i CAP_FOWNER).

Definition check_sticky (c : cred) (dir i : inode) : bool := if has (i_mode dir) S_ISVTX then __check_sticky c dir i else false.

(** [victim]: the inode of the name, or None for a negative dentry; [root]: IS_ROOT;
    [renamed]: DCACHE_NFSFS_RENAMED. *)
Definition may_delete (c : cred) (dir : inode) (victim : option inode) (root renamed isdir : bool) : Z :=
  match victim with
  | None => - ENOENT
  | Some i =>
      if HAS_UNMAPPED_ID i then - EOVERFLOW
      else
        let error := inode_permission c dir (Z.lor MAY_WRITE MAY_EXEC) in
        if negb (error =? 0) then error
        else if i_append dir then - EPERM
        else if check_sticky c dir i || i_append i || i_immutable i || i_swapfile i || HAS_UNMAPPED_ID i then - EPERM
        else if isdir && negb (S_ISDIR (i_mode i)) then - ENOTDIR
        else if isdir && root then - EBUSY
        else if negb isdir && S_ISDIR (i_mode i) then - EISDIR
        else if i_dead dir then - ENOENT
        else if renamed then - EBUSY
        else 0
  end.

Definition may_create (c : cred) (dir : inode) (child : option inode) : Z :=
  match child with
  | Some _ => - EEXIST
  | None =>
      if i_dead dir then - ENOENT
      else if negb (fsuidgid_has_mapping c) then - EOVERFLOW
      else inode_permission c dir (Z.lor MAY_WRITE MAY_EXEC)
  end.

(** [mknod], [create]: the answers of the security module. *)
Definition may_o_create (c : cred) (dir : inode) (mknod create : Z) : Z :=
  if negb (mknod =? 0) then mknod
  else if negb (fsuidgid_has_mapping c) then - EOVERFLOW
  else
    let error := inode_permission c dir (Z.lor MAY_WRITE MAY_EXEC) in
    if negb (error =? 0) then error else create.

(** ** Opening *)

(** [dev]: may_open_dev; [noexec]: path_noexec. *)
Definition may_open (c : cred) (i : option inode) (dev noexec : bool) (acc_mode flag : Z) : Z :=
  match i with
  | None => - ENOENT
  | Some i =>
      let fmt := Z.land (i_mode i) S_IFMT in
      let special := (fmt =? S_IFBLK) || (fmt =? S_IFCHR) || (fmt =? S_IFIFO) || (fmt =? S_IFSOCK) in
      if fmt =? S_IFLNK then - ELOOP
      else if (fmt =? S_IFDIR) && has acc_mode MAY_WRITE then - EISDIR
      else if (fmt =? S_IFDIR) && has acc_mode MAY_EXEC then - EACCES
      else if ((fmt =? S_IFBLK) || (fmt =? S_IFCHR)) && negb dev then - EACCES
      else if special && has acc_mode MAY_EXEC then - EACCES
      else if (fmt =? S_IFREG) && has acc_mode MAY_EXEC && noexec then - EACCES
      else
        let flag := if special then Z.land flag (Z.lnot O_TRUNC) else flag in
        let error := inode_permission c i (Z.lor MAY_OPEN acc_mode) in
        if negb (error =? 0) then error
        else if i_append i && negb (Z.land flag O_ACCMODE =? O_RDONLY) && negb (has flag O_APPEND) then - EPERM
        else if i_append i && has flag O_TRUNC then - EPERM
        else if has flag O_NOATIME && negb (inode_owner_or_capable c i) then - EPERM
        else 0
  end.

(** ** Links and shared directories *)

Record protections := Protections { protected_symlinks : Z; protected_hardlinks : Z; protected_fifos : Z; protected_regular : Z }.

(** [uid_ok]: uid_valid of the owner of the directory that the walk remembered. *)
Definition may_follow_link (k : protections) (c : cred) (dir_mode dir_uid : Z) (uid_ok rcu : bool) (i : inode) : Z :=
  if protected_symlinks k =? 0 then 0
  else if fsuid c =? i_uid i then 0
  else if negb (Z.land dir_mode (Z.lor S_ISVTX S_IWOTH) =? Z.lor S_ISVTX S_IWOTH) then 0
  else if uid_ok && (dir_uid =? i_uid i) then 0
  else if rcu then - ECHILD
  else - EACCES.

Definition safe_hardlink_source (c : cred) (i : inode) : bool :=
  if negb (S_ISREG (i_mode i)) then false
  else if has (i_mode i) S_ISUID then false
  else if Z.land (i_mode i) (Z.lor S_ISGID S_IXGRP) =? Z.lor S_ISGID S_IXGRP then false
  else inode_permission c i (Z.lor MAY_READ MAY_WRITE) =? 0.

Definition may_linkat (k : protections) (c : cred) (i : inode) : Z :=
  if HAS_UNMAPPED_ID i then - EOVERFLOW
  else if protected_hardlinks k =? 0 then 0
  else if safe_hardlink_source c i || inode_owner_or_capable c i then 0
  else - EPERM.

Definition may_create_in_sticky (k : protections) (c : cred) (dir_mode dir_uid : Z) (i : inode) : Z :=
  let mode := i_mode i in
  if ((protected_fifos k =? 0) && S_ISFIFO mode) || ((protected_regular k =? 0) && S_ISREG mode) || negb (has dir_mode S_ISVTX) || (i_uid i =? dir_uid) || (fsuid c =? i_uid i) then 0
  else if has dir_mode 0x2 || (has dir_mode 0x10 && (((2 <=? protected_fifos k) && S_ISFIFO mode) || ((2 <=? protected_regular k) && S_ISREG mode))) then - EACCES
  else 0.

(** ** Rights as a set *)

Inductive right := R | W | X.

(** The bit of a right, and the class of a task for a file: 2 the owner, 1 the group, 0 others. *)
Definition right_bit (r : right) : Z := match r with R => 2 | W => 1 | X => 0 end.
Definition class (c : cred) (i : inode) : Z := if fsuid c =? i_uid i then 2 else if in_group_p c (i_gid i) then 1 else 0.
Definition asks (mask : Z) (r : right) : bool := Z.testbit mask (right_bit r).
Definition grants (mode k : Z) (r : right) : bool := Z.testbit mode (3 * k + right_bit r).
Definition rights : list right := [R; W; X].

Definition bits_cover (mask mode k : Z) : bool := forallb (λ r, implb (asks mask r) (grants mode k r)) rights.

(** What capabilities add. *)
Definition overridden (c : cred) (i : inode) (mask : Z) : bool :=
  let cap := capable_wrt_inode_uidgid c i in
  if S_ISDIR (i_mode i) then negb (asks mask W) && cap CAP_DAC_READ_SEARCH || cap CAP_DAC_OVERRIDE
  else
    asks mask R && negb (asks mask W) && negb (asks mask X) && cap CAP_DAC_READ_SEARCH ||
    (negb (asks mask X) || grants (i_mode i) 2 X || grants (i_mode i) 1 X || grants (i_mode i) 0 X) && cap CAP_DAC_OVERRIDE.

(** The decision of a file system that leaves it to the mode bits. *)
Definition unix_permission (c : cred) (i : inode) (mask : Z) : Z :=
  let w := asks mask W in
  if w && i_rdonly i && (S_ISREG (i_mode i) || S_ISDIR (i_mode i) || S_ISLNK (i_mode i)) then - EROFS
  else if w && i_immutable i then - EPERM
  else if w && HAS_UNMAPPED_ID i then - EACCES
  else if negb (bits_cover mask (i_mode i) (class c i) || overridden c i mask) then - EACCES
  else
    let d := devcgroup_inode_permission c i mask in
    if negb (d =? 0) then d else security_inode_permission c i mask.

(** Masks of three bits. *)
Lemma land7 a b : Z.land (Z.land a 7) b = 0 ↔ ∀ n, 0 ≤ n < 3 → Z.testbit a n = true → Z.testbit b n = false.
Proof.
  split.
  - intros E n Hn Ha. apply (f_equal (λ z, Z.testbit z n)) in E. rewrite !Z.land_spec, Z.bits_0, Ha in E. change 7 with (Z.ones 3) in E. by rewrite Z.ones_spec_low in E by lia.
  - intros H. apply Z.bits_inj. intros n. rewrite Z.bits_0, !Z.land_spec. change 7 with (Z.ones 3). destruct (Z.lt_ge_cases n 0) as [Hn|Hn]; [by rewrite Z.testbit_neg_r|].
    destruct (Z.lt_ge_cases n 3) as [Hl|Hl]; [|rewrite Z.ones_spec_high by lia; by rewrite andb_false_r]. destruct (Z.testbit a n) eqn:Ea; [|done]. rewrite (H n) by (done || lia). by rewrite andb_false_r.
Qed.

Lemma has_false a b : has a b = false ↔ Z.land a b = 0.
Proof. unfold has. rewrite negb_false_iff. apply Z.eqb_eq. Qed.

Lemma covered_true mask mode k : bits_cover mask mode k = true ↔ ∀ n, 0 ≤ n < 3 → Z.testbit mask n = true → Z.testbit mode (3 * k + n) = true.
Proof.
  unfold bits_cover, rights, asks, grants. cbn [forallb right_bit]. rewrite !andb_true_iff, !implb_true_iff. split.
  - intros (H2 & H1 & H0 & _) n Hn. assert (n = 0 ∨ n = 1 ∨ n = 2) as [-> |[-> | ->]] by lia; done.
  - intros H. split_and!; try done; apply H; lia.
Qed.

Lemma covered_spec mask mode k : 0 ≤ k → has (Z.land mask 7) (Z.lnot (Z.shiftr mode (3 * k))) = negb (bits_cover mask mode k).
Proof.
  intros Hk. assert (∀ n, 0 ≤ n < 3 → Z.testbit (Z.lnot (Z.shiftr mode (3 * k))) n = negb (Z.testbit mode (3 * k + n))) as Hb.
  { intros n Hn. rewrite Z.lnot_spec, Z.shiftr_spec by lia. do 2 f_equal. lia. }
  destruct (bits_cover mask mode k) eqn:E; cbn [negb].
  - apply has_false, land7. intros n Hn Hm. rewrite Hb by done. rewrite (proj1 (covered_true _ _ _) E n Hn Hm). done.
  - destruct (has _ _) eqn:Eh; [done|]. rewrite (proj2 (covered_true mask mode k)) in E; [done|]. intros n Hn Hm. apply has_false in Eh. pose proof (proj1 (land7 _ _) Eh n Hn Hm) as Et.
    rewrite Hb in Et by done. by apply negb_false_iff in Et.
Qed.

(** Where the bits that are asked for are the same for the group and for others, nobody is asked
    for groups. *)
Lemma group_skipped mask mode : has (Z.land mask 7) (Z.lxor mode (Z.shiftr mode 3)) = false → bits_cover mask mode 1 = bits_cover mask mode 0.
Proof.
  intros H0. apply has_false in H0. pose proof (proj1 (land7 _ _) H0) as H. assert (∀ n, 0 ≤ n < 3 → Z.testbit mask n = true → Z.testbit mode (3 * 1 + n) = Z.testbit mode (3 * 0 + n)) as Hb.
  { intros n Hn Hm. specialize (H n Hn Hm). rewrite Z.lxor_spec, Z.shiftr_spec in H by lia. replace (3 * 1 + n) with (n + 3) by lia. replace (3 * 0 + n) with n by lia.
    by destruct (Z.testbit mode n), (Z.testbit mode (n + 3)). }
  destruct (bits_cover mask mode 1) eqn:E1; symmetry.
  - apply covered_true. intros n Hn Hm. rewrite <-Hb by done. by apply (proj1 (covered_true mask mode 1) E1).
  - destruct (bits_cover mask mode 0) eqn:E0; [|done]. rewrite (proj2 (covered_true mask mode 1)) in E1; [done|]. intros n Hn Hm. rewrite Hb by done. by apply (proj1 (covered_true mask mode 0) E0).
Qed.

Lemma if_negb_swap (b : bool) (x y : Z) : (if negb b then x else y) = if b then y else x.
Proof. by destruct b. Qed.

Lemma acl_permission_ok c i mask : i_posixacl i && has (i_mode i) S_IRWXG = false →
  acl_permission_check c i mask = if bits_cover mask (i_mode i) (class c i) then 0 else - EACCES.
Proof.
  intros Ha. unfold acl_permission_check, class. cbv zeta. rewrite Ha. destruct (fsuid c =? i_uid i).
  - pose proof (covered_spec mask (i_mode i) 2 ltac:(lia)) as E. change (3 * 2) with 6 in E. by rewrite E, if_negb_swap.
  - rewrite Z.eqb_refl. cbn [negb]. pose proof (covered_spec mask (i_mode i) 1 ltac:(lia)) as E1. pose proof (covered_spec mask (i_mode i) 0 ltac:(lia)) as E0.
    change (3 * 1) with 3 in E1. change (3 * 0) with 0 in E0. rewrite Z.shiftr_0_r in E0. destruct (has _ (Z.lxor _ _)) eqn:Ed; cbn [andb].
    + destruct (in_group_p c (i_gid i)); cbv iota; [rewrite E1|rewrite E0]; by rewrite if_negb_swap.
    + pose proof (group_skipped _ _ Ed) as Eg. rewrite E0. destruct (in_group_p c (i_gid i)); cbv iota; rewrite ?Eg; by rewrite if_negb_swap.
Qed.

Lemma has_bit mask k n : k = 2 ^ n → 0 ≤ n → has mask k = Z.testbit mask n.
Proof.
  intros -> Hn. unfold has. destruct (Z.testbit mask n) eqn:E.
  - apply negb_true_iff, Z.eqb_neq. intros H. apply (f_equal (λ z, Z.testbit z n)) in H. rewrite Z.land_spec, Z.pow2_bits_true, E, Z.bits_0 in H by done. done.
  - apply negb_false_iff, Z.eqb_eq. apply Z.bits_inj. intros m. rewrite Z.land_spec, Z.bits_0. destruct (Z.eq_dec m n) as [->|Hm]; [by rewrite E|]. rewrite Z.pow2_bits_false by done. apply andb_false_r.
Qed.

Lemma only_read mask : (Z.land mask 7 =? MAY_READ) = asks mask R && negb (asks mask W) && negb (asks mask X).
Proof.
  unfold asks. cbn [right_bit]. assert (∀ n, 0 ≤ n < 3 → Z.testbit (Z.land mask 7) n = Z.testbit mask n) as Hb.
  { intros n Hn. rewrite Z.land_spec. change 7 with (Z.ones 3). rewrite Z.ones_spec_low by lia. apply andb_true_r. }
  assert (0 ≤ Z.land mask 7 < 8) as Hr by (change 7 with (Z.ones 3); rewrite Z.land_ones by lia; apply Z.mod_pos_bound; lia).
  rewrite <-!Hb by lia. generalize dependent (Z.land mask 7). intros v _ Hr. assert (v = 0 ∨ v = 1 ∨ v = 2 ∨ v = 3 ∨ v = 4 ∨ v = 5 ∨ v = 6 ∨ v = 7) as H by lia.
  by repeat destruct H as [-> |H]; [..|subst v].
Qed.

Lemma exec_bits mode : has mode S_IXUGO = grants mode 2 X || grants mode 1 X || grants mode 0 X.
Proof.
  unfold grants. cbn [right_bit]. change (3 * 2 + 0) with 6. change (3 * 1 + 0) with 3. change (3 * 0 + 0) with 0. assert (S_IXUGO = Z.lor (Z.lor (2 ^ 6) (2 ^ 3)) (2 ^ 0)) as -> by reflexivity.
  rewrite <-(has_bit mode (2 ^ 6) 6), <-(has_bit mode (2 ^ 3) 3), <-(has_bit mode (2 ^ 0) 0) by done. unfold has. rewrite !Z.land_lor_distr_r.
  rewrite <-!negb_andb. f_equal. apply eq_true_iff_eq. rewrite !andb_true_iff, !Z.eqb_eq, !Z.lor_eq_0_iff. tauto.
Qed.

Lemma generic_permission_ok c i mask : i_posixacl i && has (i_mode i) S_IRWXG = false →
  generic_permission c i mask = if bits_cover mask (i_mode i) (class c i) || overridden c i mask then 0 else - EACCES.
Proof.
  intros Ha. unfold generic_permission. rewrite (acl_permission_ok c i mask Ha). destruct (bits_cover _ _ _) eqn:Ec; [done|]. rewrite Z.eqb_refl. cbn [negb orb]. cbv zeta. unfold overridden. cbv zeta.
  change (asks mask W) with (Z.testbit mask 1). change (asks mask X) with (Z.testbit mask 0). rewrite <-(has_bit mask MAY_WRITE 1), <-(has_bit mask MAY_EXEC 0) by done. destruct (S_ISDIR (i_mode i)).
  - by destruct (negb (has mask MAY_WRITE) && _), (capable_wrt_inode_uidgid c i CAP_DAC_OVERRIDE).
  - change (Z.lor MAY_READ (Z.lor MAY_WRITE MAY_EXEC)) with 7. rewrite only_read. rewrite exec_bits.
    assert (has (Z.land mask 7) MAY_EXEC = has mask MAY_EXEC) as ->. { unfold has. by rewrite <-Z.land_assoc. }
    rewrite (has_bit mask MAY_WRITE 1), (has_bit mask MAY_EXEC 0) by done. change (Z.testbit mask 1) with (asks mask W). change (Z.testbit mask 0) with (asks mask X).
    rewrite <-(orb_assoc (negb (asks mask X) || _)). destruct (_ && capable_wrt_inode_uidgid c i CAP_DAC_READ_SEARCH); [done|]. cbn [orb]. rewrite <-!orb_assoc. by destruct (_ && capable_wrt_inode_uidgid c i CAP_DAC_OVERRIDE).
Qed.

(** Access to a file is what the mode bits say.  For every mask, task and file of a file
    system that has neither a method of its own nor access control lists, the checks
    with their shifted masks, and with groups asked for only where it matters, decide as the
    sets of rights: of the owner if the task is the owner, else of the group if
    it is in it, else of others; or by capabilities; after a read-only file system,
    an immutable file and unknown ids have refused writing, and before the device
    and security modules are asked. *)
Lemma access_is_unix c i mask : i_op_permission i = None → i_posixacl i && has (i_mode i) S_IRWXG = false →
  inode_permission c i mask = unix_permission c i mask.
Proof.
  intros Hop Ha. unfold inode_permission, unix_permission, sb_permission, do_inode_permission. cbv zeta. rewrite Hop, (has_bit mask MAY_WRITE 1), (generic_permission_ok c i mask Ha) by done.
  change (Z.testbit mask 1) with (asks mask W). set (w := asks mask W). destruct (w && i_rdonly i && _); [done|]. cbn [negb Z.eqb]. destruct (w && i_immutable i); [done|]. destruct (w && HAS_UNMAPPED_ID i); [done|].
  by destruct (bits_cover mask (i_mode i) (class c i) || overridden c i mask).
Qed.

(** A file of user 10 and group 20, with mode 640. *)
Definition demo_file : inode := Inode 0x81a0 10 20 false AclNone (inr None) false false false false true true false None.
Definition demo_task (uid : Z) (g : bool) : cred := Cred uid (λ k, g && (k =? 20)) (λ _ _, false) (λ _, true) (λ _, false) true (λ _ _, 0) (λ _ _, 0).

Lemma access_is_unix_witness :
  inode_permission (demo_task 11 true) demo_file MAY_READ = unix_permission (demo_task 11 true) demo_file MAY_READ ∧
  map (λ p, (inode_permission (demo_task p.1 p.2) demo_file MAY_READ, inode_permission (demo_task p.1 p.2) demo_file (Z.lor MAY_READ MAY_WRITE))) [(10, false); (11, true); (11, false)] =
    [(0, 0); (0, - EACCES); (- EACCES, - EACCES)].
Proof. split; [by apply access_is_unix|reflexivity]. Defined.

(** ** Who may remove a name *)

Lemma check_sticky_false c dir i : check_sticky c dir i = false ↔
  has (i_mode dir) S_ISVTX = false ∨ i_uid i = fsuid c ∨ i_uid dir = fsuid c ∨ capable_wrt_inode_uidgid c i CAP_FOWNER = true.
Proof.
  unfold check_sticky, __check_sticky. destruct (has (i_mode dir) S_ISVTX); [|tauto]. destruct (Z.eqb_spec (i_uid i) (fsuid c)), (Z.eqb_spec (i_uid dir) (fsuid c)), (capable_wrt_inode_uidgid c i CAP_FOWNER); cbn; intuition congruence.
Qed.

(** The rules of the comment on may_delete, all of them and no others. *)
Lemma may_delete_rules c dir victim root renamed isdir : may_delete c dir victim root renamed isdir = 0 ↔
  ∃ i, victim = Some i ∧ inode_permission c dir (Z.lor MAY_WRITE MAY_EXEC) = 0 ∧ i_append dir = false ∧
    (has (i_mode dir) S_ISVTX = false ∨ i_uid i = fsuid c ∨ i_uid dir = fsuid c ∨ capable_wrt_inode_uidgid c i CAP_FOWNER = true) ∧
    i_append i = false ∧ i_immutable i = false ∧ i_swapfile i = false ∧ HAS_UNMAPPED_ID i = false ∧ S_ISDIR (i_mode i) = isdir ∧ (isdir = true → root = false) ∧
    i_dead dir = false ∧ renamed = false.
Proof.
  split.
  - destruct victim as [i|]; [|done]. unfold may_delete. cbv zeta. intros H. exists i. destruct (HAS_UNMAPPED_ID i); [done|]. destruct (Z.eqb_spec (inode_permission c dir (Z.lor MAY_WRITE MAY_EXEC)) 0) as [Hp|]; [|done]. cbn [negb] in H.
    destruct (i_append dir); [done|]. rewrite orb_false_r in H. destruct (check_sticky c dir i) eqn:Es; [done|]. rewrite check_sticky_false in Es. destruct (i_append i), (i_immutable i), (i_swapfile i); try done. cbn [orb] in H.
    destruct isdir, (S_ISDIR (i_mode i)), root, (i_dead dir), renamed; try done; split_and!; done.
  - intros (i & -> & Hp & Ha & Hs & H1 & H2 & H3 & H4 & H5 & H6 & H7 & ->). unfold may_delete. cbv zeta. rewrite H4, Hp, Ha, H1, H2, H3, (proj2 (check_sticky_false c dir i) Hs), H5, H7. cbn [negb Z.eqb orb andb]. destruct isdir; cbn [andb negb]; [by rewrite H6|done].
Qed.

(** Directories are opened for reading only. *)
Lemma may_open_dir c i dev noexec acc flag : may_open c (Some i) dev noexec acc flag = 0 → S_ISDIR (i_mode i) = true → has acc MAY_WRITE = false ∧ has acc MAY_EXEC = false.
Proof.
  unfold may_open, S_ISDIR, IS_FMT. cbv zeta. intros H Hd. rewrite Hd in H. apply Z.eqb_eq in Hd. rewrite Hd in H. cbn [andb] in H. change (S_IFDIR =? S_IFLNK) with false in H. cbv iota in H. by destruct (has acc MAY_WRITE), (has acc MAY_EXEC).
Qed.

(** ** Links in shared directories *)

(** A link that is refused lies in a sticky directory that all may write, and belongs neither
    to the follower nor to the owner of the directory. *)
Lemma may_follow_link_refuses k c dir_mode dir_uid uid_ok i : may_follow_link k c dir_mode dir_uid uid_ok false i ≠ 0 →
  may_follow_link k c dir_mode dir_uid uid_ok false i = - EACCES ∧ has dir_mode S_ISVTX = true ∧ has dir_mode S_IWOTH = true ∧ fsuid c ≠ i_uid i ∧ (uid_ok = true → dir_uid ≠ i_uid i).
Proof.
  unfold may_follow_link. destruct (_ =? 0); [done|]. destruct (Z.eqb_spec (fsuid c) (i_uid i)); [done|]. destruct (Z.eqb_spec (Z.land dir_mode (Z.lor S_ISVTX S_IWOTH)) (Z.lor S_ISVTX S_IWOTH)) as [E|]; [|done]. cbn [negb].
  destruct (uid_ok && (dir_uid =? i_uid i)) eqn:Eu; [done|]. intros _. split; [done|]. rewrite (has_bit dir_mode S_ISVTX 9), (has_bit dir_mode S_IWOTH 1) by done.
  split_and!; [apply (f_equal (λ z, Z.testbit z 9)) in E; rewrite Z.land_spec in E; change (Z.testbit (Z.lor S_ISVTX S_IWOTH) 9) with true in E; by rewrite andb_true_r in E|apply (f_equal (λ z, Z.testbit z 1)) in E; rewrite Z.land_spec in E; change (Z.testbit (Z.lor S_ISVTX S_IWOTH) 1) with true in E; by rewrite andb_true_r in E|done|].
  intros -> He. rewrite He, Z.eqb_refl in Eu. done.
Qed.

(** With the protection on, a stranger's link is to a plain file that he may read and write. *)
Lemma may_linkat_safe k c i : may_linkat k c i = 0 → protected_hardlinks k ≠ 0 → inode_owner_or_capable c i = false →
  S_ISREG (i_mode i) = true ∧ has (i_mode i) S_ISUID = false ∧ inode_permission c i (Z.lor MAY_READ MAY_WRITE) = 0.
Proof.
  unfold may_linkat, safe_hardlink_source. intros H Hk Ho. rewrite Ho, (proj2 (Z.eqb_neq _ _) Hk), orb_false_r in H. destruct (HAS_UNMAPPED_ID i); [done|]. destruct (S_ISREG (i_mode i)); [|done]. cbn [negb] in H. destruct (has (i_mode i) S_ISUID); [done|].
  destruct (_ =? Z.lor S_ISGID S_IXGRP); [done|]. destruct (Z.eqb_spec (inode_permission c i (Z.lor MAY_READ MAY_WRITE)) 0); done.
Qed.

End Namei.
