(* ===== verification/NameiWalk.v ===== *)
(** * Walking a path

    fs/namei.c: from a name to a dentry and a mount.  The walk takes references
    (ref-walk, without LOOKUP_RCU) in a name space that does not change meanwhile:
    what the dentry cache, the file systems and the table of mounts answer is given.
    Dentries and mounts are numbers, 0 is NULL.  There are no automount points, no
    dentries that manage their transit and no hash methods of file systems. *)

From Stdlib Require Import ZArith Lia.
From stdpp Require Import base numbers list gmap gmultiset.
From S2P Require Import Prelude Namei.

Module NameiWalk.
Import Namei.

Definition LOOKUP_FOLLOW : Z := 0x1.
Definition LOOKUP_DIRECTORY : Z := 0x2.
Definition LOOKUP_PARENT : Z := 0x10.
Definition LOOKUP_RCU : Z := 0x40.
Definition LOOKUP_MOUNTPOINT : Z := 0x80.
Definition LOOKUP_DOWN : Z := 0x8000.
Definition LOOKUP_NO_SYMLINKS : Z := 0x10000.
Definition LOOKUP_NO_MAGICLINKS : Z := 0x20000.
Definition LOOKUP_NO_XDEV : Z := 0x40000.
Definition LOOKUP_BENEATH : Z := 0x80000.
Definition LOOKUP_IN_ROOT : Z := 0x100000.
Definition LOOKUP_CACHED : Z := 0x200000.
Definition LOOKUP_IS_SCOPED : Z := Z.lor LOOKUP_BENEATH LOOKUP_IN_ROOT.
Definition WALK_TRAILING : Z := 1.
Definition WALK_MORE : Z := 2.
Definition WALK_NOFOLLOW : Z := 4.
Definition ND_ROOT_PRESET : Z := 1.
Definition ND_ROOT_GRABBED : Z := 2.
Definition ND_JUMPED : Z := 4.
Definition AT_FDCWD : Z := -100.
Definition MAXSYMLINKS : Z := 40.
Definition EMBEDDED_LEVELS : Z := 2.
Definition EXDEV : Z := 18.
Definition ENOTRECOVERABLE : Z := 131.
Definition SLASH : Z := 47.
Definition DOT : Z := 46.

(** A mount and a dentry. *)
Definition path : Type := Z * Z.

Inductive kind := Negative | Directory | Symlink | Other.

(** What the method get_link of a symbolic link does: a text, an error, nothing, or a call of
    nd_jump_link. *)
Inductive got := GotText (s : list Z) | GotErr (e : Z) | GotNone | GotJump (p : path).

Record dentry := Dentry {
  d_kind : kind;
  d_parent : Z;
  d_inode : inode;
  i_link : option (list Z);
  get_link : got;
  follow_answer : Z;              (** security_inode_follow_link *)
  d_weak_revalidate : option Z }.

Record mount := Mount {
  mnt_root : Z;
  mnt_parent : Z;                 (** itself at the top *)
  mnt_mountpoint : Z;
  mnt_nosymfollow : bool;
  mnt_at_sb_root : bool }.        (** mnt_root is the root of the file system *)

(** The name space as the walk sees it.  [d_lookup]: the cache; [lookup]: d_alloc_parallel and
    the method of the directory, with LOOKUP flags. *)
Record space := Space {
  dent : Z → dentry;
  mnt : Z → mount;
  lookup_mnt : path → option Z;
  d_lookup : Z → list Z → option Z;
  d_revalidate : Z → Z → Z;
  lookup : Z → list Z → Z → Z + Z;
  is_subdir : Z → Z → bool;
  path_is_under : path → path → bool;
  task : cred;
  prot : protections;
  stack_memory : bool;            (** kmalloc_array gives memory *)
  fs_root : path;
  fs_pwd : path;
  fdget : Z → option path }.

(** [last] is the last component and [last_more] what follows it in its string.  The links of
    [stack] are a stack of their own, the top first, with [stack_room] places; the names beside
    them are in [link_path_walk]. *)
Record nameidata := Nd {
  nd_path : path;
  last : list Z;
  last_more : list Z;
  root : path;
  flags : Z;
  state : Z;
  last_type : Z;
  links : list path;
  stack_room : Z;
  total_link_count : Z;
  dir_uid : Z;
  dir_ok : bool;                  (** uid_valid of dir_uid *)
  dir_mode : Z }.

Definition LAST_NORM : Z := 0.
Definition LAST_ROOT : Z := 1.
Definition LAST_DOT : Z := 2.
Definition LAST_DOTDOT : Z := 3.
Definition NULL : Z := 0.
Definition NULLPATH : path := (0, 0).

Definition set_path (p : path) (nd : nameidata) : nameidata := Nd p (last nd) (last_more nd) (root nd) (flags nd) (state nd) (last_type nd) (links nd) (stack_room nd) (total_link_count nd) (dir_uid nd) (dir_ok nd) (dir_mode nd).
Definition set_ndroot (p : path) (nd : nameidata) : nameidata := Nd (nd_path nd) (last nd) (last_more nd) p (flags nd) (state nd) (last_type nd) (links nd) (stack_room nd) (total_link_count nd) (dir_uid nd) (dir_ok nd) (dir_mode nd).
Definition set_flags (f : Z) (nd : nameidata) : nameidata := Nd (nd_path nd) (last nd) (last_more nd) (root nd) f (state nd) (last_type nd) (links nd) (stack_room nd) (total_link_count nd) (dir_uid nd) (dir_ok nd) (dir_mode nd).
Definition set_state (x : Z) (nd : nameidata) : nameidata := Nd (nd_path nd) (last nd) (last_more nd) (root nd) (flags nd) x (last_type nd) (links nd) (stack_room nd) (total_link_count nd) (dir_uid nd) (dir_ok nd) (dir_mode nd).
Definition set_type (t : Z) (nd : nameidata) : nameidata := Nd (nd_path nd) (last nd) (last_more nd) (root nd) (flags nd) (state nd) t (links nd) (stack_room nd) (total_link_count nd) (dir_uid nd) (dir_ok nd) (dir_mode nd).
Definition set_last (c r : list Z) (t : Z) (nd : nameidata) : nameidata := Nd (nd_path nd) c r (root nd) (flags nd) (state nd) t (links nd) (stack_room nd) (total_link_count nd) (dir_uid nd) (dir_ok nd) (dir_mode nd).
Definition set_links (l : list path) (nd : nameidata) : nameidata := Nd (nd_path nd) (last nd) (last_more nd) (root nd) (flags nd) (state nd) (last_type nd) l (stack_room nd) (total_link_count nd) (dir_uid nd) (dir_ok nd) (dir_mode nd).
Definition set_room (n : Z) (nd : nameidata) : nameidata := Nd (nd_path nd) (last nd) (last_more nd) (root nd) (flags nd) (state nd) (last_type nd) (links nd) n (total_link_count nd) (dir_uid nd) (dir_ok nd) (dir_mode nd).
Definition set_count (n : Z) (nd : nameidata) : nameidata := Nd (nd_path nd) (last nd) (last_more nd) (root nd) (flags nd) (state nd) (last_type nd) (links nd) (stack_room nd) n (dir_uid nd) (dir_ok nd) (dir_mode nd).
Definition set_dir (u : Z) (ok : bool) (m : Z) (nd : nameidata) : nameidata := Nd (nd_path nd) (last nd) (last_more nd) (root nd) (flags nd) (state nd) (last_type nd) (links nd) (stack_room nd) (total_link_count nd) u ok m.

(** The references that the walk has taken: mounts on the left, dentries on the right.  Putting
    one that is not held is a fault. *)
Definition refs : Type := gmultiset (Z + Z).
Record walk := Walk { nd : nameidata; held : refs }.
Abbreviation wst := (st walk).

Definition on (f : nameidata → nameidata) : wst unit := modify (λ w, Walk (f (nd w)) (held w)).
Definition the : wst nameidata := gets nd.
Definition hold (x : Z + Z) : wst unit := modify (λ w, Walk (nd w) (held w ⊎ {[+ x +]})).
Definition release (x : Z + Z) : wst unit := λ w, if decide (x ∈ held w) then Some (tt, Walk (nd w) (held w ∖ {[+ x +]})) else None.
Definition mntget (m : Z) : wst unit := hold (inl m).
Definition mntput (m : Z) : wst unit := if m =? NULL then mret tt else release (inl m).
Definition dget (d : Z) : wst unit := hold (inr d).
Definition dput (d : Z) : wst unit := if d =? NULL then mret tt else release (inr d).
Definition path_get (p : path) : wst unit := mntget p.1 ;; dget p.2.
Definition path_put (p : path) : wst unit := dput p.2 ;; mntput p.1.
Definition jumped_ : wst unit := on (λ n, set_state (Z.lor (state n) ND_JUMPED) n).

(** A pointer or an error: ERR_PTR on the left.  [list Z] results are names to walk; None is
    NULL. *)
Definition d_can_lookup (ns : space) (d : Z) : bool := match d_kind (dent ns d) with Directory => true | _ => false end.
Definition d_is_symlink (ns : space) (d : Z) : bool := match d_kind (dent ns d) with Symlink => true | _ => false end.
Definition d_is_negative (ns : space) (d : Z) : bool := match d_kind (dent ns d) with Negative => true | _ => false end.

Section code.
Context (ns : space).

(** ** Roots and jumps *)

Definition set_root : wst Z :=
  n ← the;
  if has (flags n) LOOKUP_IS_SCOPED then mret (- ENOTRECOVERABLE)
  else
    on (set_ndroot (fs_root ns)) ;; path_get (fs_root ns) ;;
    on (λ n, set_state (Z.lor (state n) ND_ROOT_GRABBED) n) ;; mret 0.

Definition nd_jump_root : wst Z :=
  n ← the;
  if has (flags n) LOOKUP_BENEATH then mret (- EXDEV)
  else if has (flags n) LOOKUP_NO_XDEV && negb ((nd_path n).1 =? NULL) && negb ((nd_path n).1 =? (root n).1) then mret (- EXDEV)
  else
    error ← (if (root n).1 =? NULL then set_root else mret 0);
    if negb (error =? 0) then mret error
    else
      path_put (nd_path n) ;;
      n ← the;
      on (set_path (root n)) ;; path_get (root n) ;; jumped_ ;; mret 0.

Definition nd_jump_link (p : path) : wst Z :=
  n ← the;
  if has (flags n) LOOKUP_NO_MAGICLINKS then path_put p ;; mret (- ELOOP)
  else if has (flags n) LOOKUP_NO_XDEV && negb ((nd_path n).1 =? p.1) then path_put p ;; mret (- EXDEV)
  else if has (flags n) LOOKUP_IS_SCOPED then path_put p ;; mret (- EXDEV)
  else path_put (nd_path n) ;; on (set_path p) ;; jumped_ ;; mret 0.

Definition put_link : wst unit :=
  n ← the;
  match links n with
  | [] => fault
  | l :: ls => on (set_links ls) ;; path_put l
  end.

(** ** Mounts *)

(** While something is mounted on the path; the fuel bounds the pile of mounts. *)
Fixpoint traverse_loop (fuel : nat) (need_mntput : bool) (p : path) : wst (path * bool) :=
  match lookup_mnt ns p with
  | None => mret (p, need_mntput)
  | Some mounted =>
      match fuel with
      | O => fault
      | S fuel =>
          mntget mounted ;; dput p.2 ;; (if need_mntput then mntput p.1 else mret tt) ;;
          dget (mnt_root (mnt ns mounted)) ;; traverse_loop fuel true (mounted, mnt_root (mnt ns mounted))
      end
  end.

(** The return value, the path, and whether a mount was entered. *)
Definition traverse_mounts (fuel : nat) (p : path) : wst (Z * path * bool) :=
  r ← traverse_loop fuel false p;
  (if r.2 && (r.1.1 =? p.1) then mntput p.1 else mret tt) ;;
  mret (if d_is_negative ns r.1.2 then - ENOENT else 0, r.1, r.2).

Definition handle_mounts (fuel : nat) (d : Z) : wst (Z + path) :=
  n ← the;
  r ← traverse_mounts fuel ((nd_path n).1, d);
  let '(ret, p, jumped) := (r : Z * path * bool) in
  ret ← (if jumped then if has (flags n) LOOKUP_NO_XDEV then mret (- EXDEV) else jumped_ ;; mret ret else mret ret);
  if negb (ret =? 0) then
    dput p.2 ;; (if negb (p.1 =? (nd_path n).1) then mntput p.1 else mret tt) ;; mret (inl ret)
  else mret (inr p).

(** The place in the parent mount; None when the top or the root is reached. *)
Fixpoint choose_mountpoint_rcu (fuel : nat) (m : Z) (root : path) : option (option path) :=
  if mnt_parent (mnt ns m) =? m then Some None
  else
    let mountpoint := mnt_mountpoint (mnt ns m) in
    let m := mnt_parent (mnt ns m) in
    if (root.2 =? mountpoint) && (root.1 =? m) then Some None
    else if negb (mountpoint =? mnt_root (mnt ns m)) then Some (Some (m, mountpoint))
    else match fuel with O => None | S fuel => choose_mountpoint_rcu fuel m root end.

Definition choose_mountpoint (fuel : nat) (m : Z) (root : path) : wst (option path) :=
  r ← lift (choose_mountpoint_rcu fuel m root);
  match r with None => mret None | Some p => path_get p ;; mret (Some p) end.

Definition path_connected (m d : Z) : bool := mnt_at_sb_root (mnt ns m) || is_subdir ns d (mnt_root (mnt ns m)).

(** ** Components *)

Definition may_lookup : wst Z := n ← the; mret (inode_permission (task ns) (d_inode (dent ns (nd_path n).2)) MAY_EXEC).

(** inr NULL: not in the cache. *)
Definition lookup_fast : wst (Z + Z) :=
  n ← the;
  match d_lookup ns (nd_path n).2 (last n) with
  | None => mret (inr NULL)
  | Some d =>
      dget d ;;
      let status := d_revalidate ns d (flags n) in
      if status <=? 0 then dput d ;; mret (if status =? 0 then inr NULL else inl status)
      else mret (inr d)
  end.

Definition lookup_slow : wst (Z + Z) :=
  n ← the;
  if i_dead (d_inode (dent ns (nd_path n).2)) then mret (inl (- ENOENT))
  else
    match lookup ns (nd_path n).2 (last n) (flags n) with
    | inl e => mret (inl e)
    | inr d => dget d ;; mret (inr d)
    end.

(** A place on the stack of links: the embedded one has two, the allocated one forty. *)
Definition reserve_stack : wst Z :=
  n ← the;
  on (set_count (total_link_count n + 1)) ;;
  if MAXSYMLINKS <=? total_link_count n then mret (- ELOOP)
  else if negb (Z.of_nat (length (links n)) =? EMBEDDED_LEVELS) then mret 0
  else if negb (stack_room n =? EMBEDDED_LEVELS) then mret 0
  else if stack_memory ns then on (set_room MAXSYMLINKS) ;; mret 0
  else mret (- ENOMEM).

(** Writing behind the end of the stack is a fault. *)
Definition push_link (l : path) : wst unit :=
  n ← the;
  if Z.of_nat (length (links n)) <? stack_room n then on (set_links (l :: links n)) else fault.

Fixpoint skip_slashes (s : list Z) : list Z := match s with c :: r => if c =? SLASH then skip_slashes r else s | [] => [] end.

(** The text of the link; None when the path has jumped. *)
Definition get_text (l : dentry) : wst (Z + option (list Z)) :=
  match i_link l with
  | Some s => mret (inr (Some s))
  | None =>
      match get_link l with
      | GotText s => mret (inr (Some s))
      | GotErr e => mret (inl e)
      | GotNone => mret (inr None)
      | GotJump p => path_get p ;; e ← nd_jump_link p; mret (if e =? 0 then inr None else inl e)
      end
  end.

Definition all_done : wst (Z + option (list Z)) := put_link ;; mret (inr None).

Definition walk_text (res : list Z) : wst (Z + option (list Z)) :=
  match res with
  | c :: _ =>
      if c =? SLASH then
        error ← nd_jump_root;
        if negb (error =? 0) then mret (inl error)
        else match skip_slashes res with [] => all_done | res => mret (inr (Some res)) end
      else mret (inr (Some res))
  | [] => all_done
  end.

Definition pick_link (link : path) (wflags : Z) : wst (Z + option (list Z)) :=
  error ← reserve_stack;
  if negb (error =? 0) then path_put link ;; mret (inl error)
  else
    push_link link ;;
    n ← the;
    let l := dent ns link.2 in
    let error := if has wflags WALK_TRAILING then may_follow_link (prot ns) (task ns) (dir_mode n) (dir_uid n) (dir_ok n) false (d_inode l) else 0 in
    if negb (error =? 0) then mret (inl error)
    else if has (flags n) LOOKUP_NO_SYMLINKS || mnt_nosymfollow (mnt ns link.1) then mret (inl (- ELOOP))
    else if negb (follow_answer l =? 0) then mret (inl (follow_answer l))
    else
      r ← get_text l;
      match r with
      | inl e => mret (inl e)
      | inr None => all_done
      | inr (Some res) => walk_text res
      end.

Definition step_into (fuel : nat) (wflags d : Z) : wst (Z + option (list Z)) :=
  r ← handle_mounts fuel d;
  match r with
  | inl err => mret (inl err)
  | inr p =>
      n ← the;
      if negb (d_is_symlink ns p.2) || (has wflags WALK_TRAILING && negb (has (flags n) LOOKUP_FOLLOW)) || has wflags WALK_NOFOLLOW then
        dput (nd_path n).2 ;;
        (if negb ((nd_path n).1 =? p.1) then mntput (nd_path n).1 else mret tt) ;;
        on (set_path p) ;; mret (inr None)
      else
        (if p.1 =? (nd_path n).1 then mntget p.1 else mret tt) ;;
        pick_link p wflags
  end.

(** inr NULL: stay. *)
Definition in_root : wst (Z + Z) :=
  n ← the;
  if has (flags n) LOOKUP_BENEATH then mret (inl (- EXDEV)) else dget (nd_path n).2 ;; mret (inr NULL).

Definition parent_of : wst (Z + Z) :=
  n ← the;
  let parent := d_parent (dent ns (nd_path n).2) in
  dget parent ;;
  if negb (path_connected (nd_path n).1 parent) then dput parent ;; mret (inl (- ENOENT)) else mret (inr parent).

Definition follow_dotdot (fuel : nat) : wst (Z + Z) :=
  n ← the;
  if bool_decide (nd_path n = root n) then in_root
  else if (nd_path n).2 =? mnt_root (mnt ns (nd_path n).1) then
    r ← choose_mountpoint fuel (nd_path n).1 (root n);
    match r with
    | None => in_root
    | Some p =>
        path_put (nd_path n) ;; on (set_path p) ;;
        if has (flags n) LOOKUP_NO_XDEV then mret (inl (- EXDEV)) else parent_of
    end
  else parent_of.

(** Nothing is renamed or mounted, so the counters of renames and mounts agree. *)
Definition handle_dots (fuel : nat) (type : Z) : wst (Z + option (list Z)) :=
  if type =? LAST_DOTDOT then
    n ← the;
    error ← (if (root n).1 =? NULL then set_root else mret 0);
    if negb (error =? 0) then mret (inl error)
    else
      parent ← follow_dotdot fuel;
      match parent with
      | inl e => mret (inl e)
      | inr d => n ← the; step_into fuel WALK_NOFOLLOW (if d =? NULL then (nd_path n).2 else d)
      end
  else mret (inr None).

Definition walk_component (fuel : nat) (wflags : Z) : wst (Z + option (list Z)) :=
  n ← the;
  if negb (last_type n =? LAST_NORM) then
    (if negb (has wflags WALK_MORE) && negb (match links n with [] => true | _ => false end) then put_link else mret tt) ;;
    handle_dots fuel (last_type n)
  else
    r ← lookup_fast;
    r ← match r with inl e => mret (inl e) | inr d => if d =? NULL then lookup_slow else mret (inr d) end;
    match r with
    | inl e => mret (inl e)
    | inr d =>
        (if negb (has wflags WALK_MORE) && negb (match links n with [] => true | _ => false end) then put_link else mret tt) ;;
        step_into fuel wflags d
    end.

(** ** Names *)

(** hash_name: the length of the component. *)
Fixpoint name_len (s : list Z) : nat := match s with c :: r => if c =? SLASH then O else S (name_len r) | [] => O end.

Definition component_type (c : list Z) : Z := if bool_decide (c = [DOT; DOT]) then LAST_DOTDOT else if bool_decide (c = [DOT]) then LAST_DOT else LAST_NORM.

(** [names]: nd->stack[..].name, the rests of the names that are left, the top first. *)
Fixpoint walk_loop (fuel mfuel : nat) (name : list Z) (names : list (list Z)) : wst Z :=
  match fuel with
  | O => fault
  | S fuel =>
      err ← may_lookup;
      if negb (err =? 0) then mret err
      else
        let len := name_len name in
        let c := take len name in
        let type := component_type c in
        (if type =? LAST_DOTDOT then jumped_ else mret tt) ;;
        (if type =? LAST_NORM then on (λ n, set_state (Z.land (state n) (Z.lnot ND_JUMPED)) n) else mret tt) ;;
        let name := drop len name in
        on (set_last c name type) ;;
        let name := skip_slashes name in
        match name, names with
        | [], [] =>
            n ← the;
            let i := d_inode (dent ns (nd_path n).2) in
            on (set_dir (i_uid i) (i_uid_valid i) (i_mode i)) ;; on (λ n, set_flags (Z.land (flags n) (Z.lnot LOOKUP_PARENT)) n) ;; mret 0
        | _, _ =>
            let '(next, names, wflags) := match name, names with [], rest :: names => (rest, names, 0) | _, _ => (name, names, WALK_MORE) end in
            link ← walk_component mfuel wflags;
            match link with
            | inl e => mret e
            | inr (Some link) => walk_loop fuel mfuel link (next :: names)
            | inr None => n ← the; if d_can_lookup ns (nd_path n).2 then walk_loop fuel mfuel next names else mret (- ENOTDIR)
            end
        end
  end.

Definition link_path_walk (fuel mfuel : nat) (name : Z + list Z) : wst Z :=
  on (set_type LAST_ROOT) ;; on (λ n, set_flags (Z.lor (flags n) LOOKUP_PARENT) n) ;;
  match name with
  | inl e => mret e
  | inr name =>
      match skip_slashes name with
      | [] => n ← the; on (set_dir (dir_uid n) (dir_ok n) 0) ;; mret 0
      | name => walk_loop fuel mfuel name []
      end
  end.

(** ** Whole walks *)

(** [dfd]: nd->dfd.  The name comes back, or an error.  LOOKUP_RCU is outside the model. *)
Definition path_init (dfd : Z) (s : list Z) (fl : Z) : wst (Z + list Z) :=
  if Z.land fl (Z.lor LOOKUP_RCU LOOKUP_CACHED) =? LOOKUP_CACHED then mret (inl (- EAGAIN))
  else if has fl LOOKUP_RCU then fault
  else
    on (set_flags fl) ;; jumped_ ;;
    n ← the;
    let relative := match s with [] => false | _ => true end in
    if has (state n) ND_ROOT_PRESET then
      if relative && negb (d_can_lookup ns (root n).2) then mret (inl (- ENOTDIR))
      else on (set_path (root n)) ;; path_get (root n) ;; mret (inr s)
    else
      on (set_ndroot (NULL, (root n).2)) ;;
      if (match s with c :: _ => c =? SLASH | [] => false end) && negb (has fl LOOKUP_IN_ROOT) then
        error ← nd_jump_root;
        mret (if negb (error =? 0) then inl error else inr s)
      else
        error ←
          (if dfd =? AT_FDCWD then on (set_path (fs_pwd ns)) ;; path_get (fs_pwd ns) ;; mret 0
           else match fdget ns dfd with
                | None => mret (- EBADF)
                | Some p =>
                    if relative && negb (d_can_lookup ns p.2) then mret (- ENOTDIR)
                    else on (set_path p) ;; path_get p ;; mret 0
                end);
        if negb (error =? 0) then mret (inl error)
        else
          (if has fl LOOKUP_IS_SCOPED then
             n ← the;
             on (set_ndroot (nd_path n)) ;; path_get (nd_path n) ;;
             on (λ n, set_state (Z.lor (state n) ND_ROOT_GRABBED) n)
           else mret tt) ;;
          mret (inr s).

Definition lookup_last (mfuel : nat) : wst (Z + option (list Z)) :=
  n ← the;
  (if (last_type n =? LAST_NORM) && match last_more n with [] => false | _ => true end
   then on (λ n, set_flags (Z.lor (flags n) (Z.lor LOOKUP_FOLLOW LOOKUP_DIRECTORY)) n) else mret tt) ;;
  walk_component mfuel WALK_TRAILING.

(** A step without a link: 0 or an error. *)
Definition handle_lookup_down (mfuel : nat) : wst Z :=
  n ← the;
  dget (nd_path n).2 ;;
  r ← step_into mfuel WALK_NOFOLLOW (nd_path n).2;
  mret (match r with inl e => e | inr _ => 0 end).

Definition complete_walk : wst Z :=
  n ← the;
  if has (flags n) LOOKUP_IS_SCOPED && negb (path_is_under ns (nd_path n) (root n)) then mret (- EXDEV)
  else if negb (has (state n) ND_JUMPED) then mret 0
  else
    match d_weak_revalidate (dent ns (nd_path n).2) with
    | None => mret 0
    | Some status => mret (if 0 <? status then 0 else if status =? 0 then - ESTALE else status)
    end.

Definition put_links (ls : list path) : wst unit := for_each (reverse ls) path_put.

Definition terminate_walk : wst unit :=
  n ← the;
  path_put (nd_path n) ;; put_links (links n) ;;
  (if has (state n) ND_ROOT_GRABBED then path_put (root n) ;; on (λ n, set_state (Z.land (state n) (Z.lnot ND_ROOT_GRABBED)) n) else mret tt) ;;
  on (set_links []) ;; on (set_path NULLPATH).

(** The loop of path_lookupat; every turn but the last follows a link. *)
Fixpoint lookup_loop (tfuel fuel mfuel : nat) (s : Z + list Z) : wst Z :=
  match tfuel with
  | O => fault
  | S tfuel =>
      err ← link_path_walk fuel mfuel s;
      if negb (err =? 0) then mret err
      else
        s ← lookup_last mfuel;
        match s with
        | inr None => mret 0
        | inr (Some s) => lookup_loop tfuel fuel mfuel (inr s)
        | inl e => lookup_loop tfuel fuel mfuel (inl e)
        end
  end.

(** The end of a walk: the path is handed out, or nothing. *)
Definition hand_out (err : Z) : wst (Z + path) :=
  n ← the;
  (if err =? 0 then on (set_path NULLPATH) else mret tt) ;;
  terminate_walk ;;
  mret (if err =? 0 then inr (nd_path n) else inl err).

Definition path_lookupat (tfuel fuel mfuel : nat) (dfd : Z) (name : list Z) (fl : Z) : wst (Z + path) :=
  s ← path_init dfd name fl;
  s ← match s with
      | inr name => if has fl LOOKUP_DOWN then err ← handle_lookup_down mfuel; mret (if err <? 0 then inl err else inr name) else mret (inr name)
      | inl e => mret (inl e)
      end;
  err ← lookup_loop tfuel fuel mfuel s;
  n ← the;
  err ← (if (err =? 0) && has (flags n) LOOKUP_MOUNTPOINT then
           err ← handle_lookup_down mfuel; on (λ n, set_state (Z.land (state n) (Z.lnot ND_JUMPED)) n) ;; mret err
         else mret err);
  err ← (if err =? 0 then complete_walk else mret err);
  n ← the;
  hand_out (if (err =? 0) && has (flags n) LOOKUP_DIRECTORY && negb (d_can_lookup ns (nd_path n).2) then - ENOTDIR else err).

(** The directory of the last component, which stays in the state. *)
Definition path_parentat (fuel mfuel : nat) (dfd : Z) (name : list Z) (fl : Z) : wst (Z + path) :=
  s ← path_init dfd name fl;
  err ← link_path_walk fuel mfuel s;
  err ← (if err =? 0 then complete_walk else mret err);
  hand_out err.

End code.

(** __set_nameidata and set_nameidata: [root] may be given; [old] is the number of links of the
    walk around this one. *)
Definition set_nameidata (preset : option path) (old : Z) : nameidata :=
  Nd NULLPATH [] [] (default NULLPATH preset) 0 (if preset is Some _ then ND_ROOT_PRESET else 0) LAST_ROOT [] EMBEDDED_LEVELS old 0 false 0.

(** ** Resolution by rewriting

    The reference: the text of a link takes its place in the list of components that are
    left.  There is no stack, and nothing is held. *)

Fixpoint comps_from (c s : list Z) : list (list Z) :=
  let emit := match c with [] => [] | _ => [c] end in
  match s with
  | [] => emit
  | x :: s => if x =? SLASH then emit ++ comps_from [] s else comps_from (c ++ [x]) s
  end.
Definition comps : list Z → list (list Z) := comps_from [].
Definition ends_slash (s : list Z) : bool := match list.last s with Some x => x =? SLASH | None => false end.

(** Where the resolution is: the path, the root once it is known, the flags, and whether the last
    step was a jump. *)
Record pos := Pos { at_ : path; rt : path; fl : Z; jmp : bool }.
Definition move (p : path) (j : bool) (s : pos) : pos := Pos p (rt s) (fl s) j.
Definition with_flags (f : Z) (s : pos) : pos := Pos (at_ s) (rt s) f (jmp s).

(** What one component does: it moves, it uses up a link that leaves nothing to walk, or a text is
    to be walked. *)
Inductive stepped := Moved (s : pos) | Jumped (s : pos) | Follow (s : pos) (text : list Z).

Section reference.
Context (ns : space) (mfuel : nat).

(** The top of the pile of mounts on a path. *)
Fixpoint cover (fuel : nat) (p : path) : path :=
  match lookup_mnt ns p, fuel with
  | Some m, S fuel => cover fuel (m, mnt_root (mnt ns m))
  | _, _ => p
  end.

Definition is_mounted (p : path) : bool := match lookup_mnt ns p with Some _ => true | None => false end.

(** The path behind a dentry, and whether it lies in another mount. *)
Definition enter (s : pos) (d : Z) : Z + (path * bool) :=
  let p := ((at_ s).1, d) in
  let q := cover mfuel p in
  if is_mounted p && has (fl s) LOOKUP_NO_XDEV then inl (- EXDEV)
  else if d_is_negative ns q.2 then inl (- ENOENT)
  else inr (q, jmp s || is_mounted p).

Definition enter_dir (s : pos) (d : Z) : Z + pos := match enter s d with inl e => inl e | inr (q, j) => inr (move q j s) end.

Definition know_root (s : pos) : Z + pos :=
  if (rt s).1 =? NULL then if has (fl s) LOOKUP_IS_SCOPED then inl (- ENOTRECOVERABLE) else inr (Pos (at_ s) (fs_root ns) (fl s) (jmp s)) else inr s.

Definition jump_root (s : pos) : Z + pos :=
  if has (fl s) LOOKUP_BENEATH then inl (- EXDEV)
  else if has (fl s) LOOKUP_NO_XDEV && negb ((at_ s).1 =? NULL) && negb ((at_ s).1 =? (rt s).1) then inl (- EXDEV)
  else match know_root s with inl e => inl e | inr s => inr (move (rt s) true s) end.

Definition jump_link (s : pos) (p : path) : Z + pos :=
  if has (fl s) LOOKUP_NO_MAGICLINKS then inl (- ELOOP)
  else if has (fl s) LOOKUP_NO_XDEV && negb ((at_ s).1 =? p.1) then inl (- EXDEV)
  else if has (fl s) LOOKUP_IS_SCOPED then inl (- EXDEV)
  else inr (move p true s).

Definition child (f d : Z) (c : list Z) : Z + Z :=
  let slow := if i_dead (d_inode (dent ns d)) then inl (- ENOENT) else lookup ns d c f in
  match d_lookup ns d c with
  | None => slow
  | Some e => let status := d_revalidate ns e f in if status <=? 0 then if status =? 0 then slow else inl status else inr e
  end.

(** The dentry to enter for "..", and from where. *)
Definition up (s : pos) : Z + (pos * Z) :=
  let stay := if has (fl s) LOOKUP_BENEATH then inl (- EXDEV) else inr (s, (at_ s).2) in
  let parent s := let d := d_parent (dent ns (at_ s).2) in if path_connected ns (at_ s).1 d then inr (s, d) else inl (- ENOENT) in
  if bool_decide (at_ s = rt s) then stay
  else if (at_ s).2 =? mnt_root (mnt ns (at_ s).1) then
    match choose_mountpoint_rcu ns mfuel (at_ s).1 (rt s) with
    | Some (Some p) => if has (fl s) LOOKUP_NO_XDEV then inl (- EXDEV) else parent (move p (jmp s) s)
    | _ => stay
    end
  else parent s.

Definition above (s : pos) : Z + pos := match up s with inl e => inl e | inr (s, d) => enter_dir s d end.

Definition text_of (s : pos) (t : list Z) : Z + stepped :=
  match t with
  | [] => inr (Jumped s)
  | c :: _ =>
      if c =? SLASH then
        match jump_root s with inl e => inl e | inr s => inr (match skip_slashes t with [] => Jumped s | t => Follow s t end) end
      else inr (Follow s t)
  end.

Definition follow (more : bool) (s : pos) (q : path) (trailing : bool) : Z + stepped :=
  let dir := d_inode (dent ns (at_ s).2) in
  let l := dent ns q.2 in
  let refused := if trailing then may_follow_link (prot ns) (task ns) (i_mode dir) (i_uid dir) (i_uid_valid dir) false (d_inode l) else 0 in
  if negb more then inl (- ELOOP)
  else if negb (refused =? 0) then inl refused
  else if has (fl s) LOOKUP_NO_SYMLINKS || mnt_nosymfollow (mnt ns q.1) then inl (- ELOOP)
  else if negb (follow_answer l =? 0) then inl (follow_answer l)
  else
    match i_link l, get_link l with
    | Some t, _ => text_of s t
    | None, GotText t => text_of s t
    | None, GotErr e => inl e
    | None, GotNone => inr (Jumped s)
    | None, GotJump p => match jump_link s p with inl e => inl e | inr s => inr (Jumped s) end
    end.

(** [more]: another link may be followed. *)
Definition component (more : bool) (s : pos) (c : list Z) (trailing : bool) : Z + stepped :=
  let type := component_type c in
  if type =? LAST_DOT then inr (Moved s)
  else if type =? LAST_DOTDOT then
    match know_root s with inl e => inl e | inr s => match above s with inl e => inl e | inr s => inr (Moved s) end end
  else
    match child (fl s) (at_ s).2 c with
    | inl e => inl e
    | inr d =>
        match enter s d with
        | inl e => inl e
        | inr (q, j) =>
            if negb (d_is_symlink ns q.2) || (trailing && negb (has (fl s) LOOKUP_FOLLOW)) then inr (Moved (move q j s))
            else follow more (Pos (at_ s) (rt s) (fl s) j) q trailing
        end
    end.

(** Searching a directory needs the right to. *)
Definition search (s : pos) (c : list Z) : Z + pos :=
  let e := inode_permission (task ns) (d_inode (dent ns (at_ s).2)) MAY_EXEC in
  let type := component_type c in
  if negb (e =? 0) then inl e
  else inr (move (at_ s) (if type =? LAST_DOTDOT then true else if type =? LAST_NORM then false else jmp s) s).

(** The flags for the last component: a slash behind it asks for a directory. *)
Definition last_flags (tail : bool) (c : list Z) (f : Z) : Z :=
  let f := Z.land f (Z.lnot LOOKUP_PARENT) in
  if (component_type c =? LAST_NORM) && tail then Z.lor f (Z.lor LOOKUP_FOLLOW LOOKUP_DIRECTORY) else f.

Definition go_on (s : pos) (tail last : bool) (k : Z + pos) : Z + pos :=
  if last then inr s else if d_can_lookup ns (at_ s).2 then k else inl (- ENOTDIR).

(** [k]: the links that may be followed; [tail]: a slash follows the last component. *)
Fixpoint resolve (k : nat) : pos → bool → list (list Z) → Z + pos :=
  fix go s tail cs :=
    match cs with
    | [] => inr s
    | c :: cs =>
        match search s c with
        | inl e => inl e
        | inr s =>
            let last := match cs with [] => true | _ => false end in
            let s := if last then with_flags (last_flags tail c (fl s)) s else s in
            match component (0 <? Z.of_nat k) s c last, k with
            | inl e, _ => inl e
            | inr (Moved s), _ => go_on s tail last (go s tail cs)
            | inr (Jumped s), S k => go_on s tail last (resolve k s tail cs)
            | inr (Follow s t), S k =>
                let s := if last then with_flags (Z.lor (fl s) LOOKUP_PARENT) s else s in
                resolve k s (if last then ends_slash t else tail) (comps t ++ cs)
            | _, O => inl (- ELOOP)
            end
        end
    end.

Definition start (preset : option path) (dfd : Z) (name : list Z) (f : Z) : Z + pos :=
  let relative := match name with [] => false | _ => true end in
  if Z.land f (Z.lor LOOKUP_RCU LOOKUP_CACHED) =? LOOKUP_CACHED then inl (- EAGAIN)
  else
    match preset with
    | Some r => if relative && negb (d_can_lookup ns r.2) then inl (- ENOTDIR) else inr (Pos r r f true)
    | None =>
        if (match name with c :: _ => c =? SLASH | [] => false end) && negb (has f LOOKUP_IN_ROOT) then jump_root (Pos NULLPATH NULLPATH f true)
        else
          let from p := inr (Pos p (if has f LOOKUP_IS_SCOPED then p else NULLPATH) f true) in
          if dfd =? AT_FDCWD then from (fs_pwd ns)
          else match fdget ns dfd with
               | None => inl (- EBADF)
               | Some p => if relative && negb (d_can_lookup ns p.2) then inl (- ENOTDIR) else from p
               end
    end.

(** The checks at the end. *)
Definition finish (s : pos) : Z + path :=
  let directory := if has (fl s) LOOKUP_DIRECTORY && negb (d_can_lookup ns (at_ s).2) then inl (- ENOTDIR) else inr (at_ s) in
  if has (fl s) LOOKUP_IS_SCOPED && negb (path_is_under ns (at_ s) (rt s)) then inl (- EXDEV)
  else if negb (jmp s) then directory
  else match d_weak_revalidate (dent ns (at_ s).2) with
       | Some status => if 0 <? status then directory else inl (if status =? 0 then - ESTALE else status)
       | None => directory
       end.

(** [old]: links that a walk around this one has followed. *)
Definition lookup_at (preset : option path) (old dfd : Z) (name : list Z) (f : Z) : Z + path :=
  match start preset dfd name f with
  | inl e => inl e
  | inr s =>
      match (if has f LOOKUP_DOWN then enter_dir s (at_ s).2 else inr s) with
      | inl e => inl e
      | inr s =>
          match resolve (Z.to_nat (MAXSYMLINKS - old)) (with_flags (Z.lor (fl s) LOOKUP_PARENT) s) (ends_slash name) (comps name) with
          | inl e => inl e
          | inr s =>
              if has (fl s) LOOKUP_MOUNTPOINT then match enter_dir s (at_ s).2 with inl e => inl e | inr s => finish (move (at_ s) false s) end
              else finish s
          end
      end
  end.

End reference.

(** ** What the walk holds *)

Definition real (p : path) : Prop := p.1 ≠ NULL ∧ p.2 ≠ NULL.

(** A name space as file systems and the table of mounts keep it: mounts form a tree of height
    [mfuel], [pile] is the height of each; NULL is no dentry; errors are negative; no text
    has more than [B] components. *)
Record sound (ns : space) (pile : Z → nat) (mfuel B : nat) : Prop := {
  s_mounted p m : lookup_mnt ns p = Some m → m ≠ NULL ∧ mnt_root (mnt ns m) ≠ NULL ∧ pile m = S (pile p.1);
  s_parent_mount m : mnt_parent (mnt ns m) ≠ m → mnt_parent (mnt ns m) ≠ NULL ∧ mnt_mountpoint (mnt ns m) ≠ NULL ∧ pile m = S (pile (mnt_parent (mnt ns m)));
  s_pile m : (pile m ≤ mfuel)%nat;
  s_parent d : d_parent (dent ns d) ≠ NULL;
  s_cached d c e : d_lookup ns d c = Some e → e ≠ NULL;
  s_found d c f e : lookup ns d c f = inr e → e ≠ NULL;
  s_not_found d c f e : lookup ns d c f = inl e → e < 0;
  s_get d e : get_link (dent ns d) = GotErr e → e < 0;
  s_jump d p : get_link (dent ns d) = GotJump p → real p;
  s_fs_root : real (fs_root ns);
  s_fs_pwd : real (fs_pwd ns);
  s_fd dfd p : fdget ns dfd = Some p → real p;
  s_text d t : i_link (dent ns d) = Some t ∨ get_link (dent ns d) = GotText t → (length (comps t) ≤ B)%nat }.

Definition grip (p : path) : refs := {[+ inl p.1; inr p.2 +]}.
#[global] Arguments grip : simpl never.
Definition grips (l : list path) : refs := foldr (λ p X, grip p ⊎ X) ∅ l.

(** The references of a walk in a state: its path, its links and its root. *)
Definition own_refs (n : nameidata) : refs :=
  (if (nd_path n).1 =? NULL then ∅ else grip (nd_path n)) ⊎ grips (links n) ⊎ (if has (state n) ND_ROOT_GRABBED then grip (root n) else ∅).

Record owned (R : refs) (w : walk) : Prop := {
  o_held : held w = R ⊎ own_refs (nd w);
  o_path : real (nd_path (nd w)) ∨ nd_path (nd w) = NULLPATH;
  o_links : Forall real (links (nd w));
  o_root : has (state (nd w)) ND_ROOT_GRABBED = true → real (root (nd w));
  o_room : (stack_room (nd w) = EMBEDDED_LEVELS ∧ Z.of_nat (length (links (nd w))) ≤ EMBEDDED_LEVELS) ∨ stack_room (nd w) = MAXSYMLINKS;
  o_count : Z.of_nat (length (links (nd w))) ≤ total_link_count (nd w) }.

(** The walk is where the reference is, with [k] links to go. *)
Record stands (s : pos) (k : nat) (w : walk) : Prop := {
  t_path : nd_path (nd w) = at_ s;
  t_real : real (at_ s);
  t_root : root (nd w) = rt s;
  t_root_real : (rt s).1 ≠ NULL → real (rt s);
  t_grabbed : has (state (nd w)) ND_ROOT_GRABBED = true → (rt s).1 ≠ NULL;
  t_flags : flags (nd w) = fl s;
  t_jumped : has (state (nd w)) ND_JUMPED = jmp s;
  t_count : total_link_count (nd w) = MAXSYMLINKS - Z.of_nat k }.

(** ** Single steps *)

(** Equality of sums of references up to their order. *)
Ltac refs_eq := clear; repeat match goal with |- context [@singletonMS ?a ?b ?c ?x] => generalize (@singletonMS a b c x); intro end; multiset_solver.

Lemma drop_ok x X w : held w = X ⊎ {[+ x +]} → release x w = Some (tt, Walk (nd w) X).
Proof.
  intros E. unfold release. rewrite E, decide_True by multiset_solver. do 3 f_equal. multiset_solver.
Qed.

Lemma path_put_ok p X w : real p → held w = X ⊎ grip p → path_put p w = Some (tt, Walk (nd w) X).
Proof.
  intros [H1 H2] E. unfold path_put, dput, mntput. apply Z.eqb_neq in H1, H2. rewrite H1, H2.
  rewrite (st_bind_step _ _ _ _ _ (drop_ok (inr p.2) (X ⊎ {[+ inl p.1 +]}) w ltac:(rewrite E; unfold grip; refs_eq))).
  by apply (drop_ok (inl p.1) X (Walk (nd w) (X ⊎ {[+ inl p.1 +]}))).
Qed.

Lemma path_get_ok p w : path_get p w = Some (tt, Walk (nd w) (held w ⊎ grip p)).
Proof. unfold path_get, mntget, dget, hold, modify, mbind, st_bind. cbn. f_equal. f_equal. f_equal. unfold grip. refs_eq. Qed.

Lemma has_lor x a b : has (Z.lor x a) b = has x b || has a b.
Proof. unfold has. rewrite Z.land_lor_distr_l, <-negb_andb. f_equal. apply eq_true_iff_eq. by rewrite andb_true_iff, !Z.eqb_eq, Z.lor_eq_0_iff. Qed.

Lemma has_clear x a b : Z.land b (Z.lnot a) = b → has (Z.land x (Z.lnot a)) b = has x b.
Proof. intros H. unfold has. by rewrite <-Z.land_assoc, (Z.land_comm (Z.lnot a)), H. Qed.

Lemma has_cleared x a : has (Z.land x (Z.lnot a)) a = false.
Proof. unfold has. rewrite <-Z.land_assoc, (Z.land_comm (Z.lnot a)), Z.land_lnot_diag, Z.land_0_r. done. Qed.

(** What a step leaves as it is: the name that is walked and the links. *)
Definition rest (w : walk) := (last (nd w), last_more (nd w), last_type (nd w), links (nd w), (dir_uid (nd w), dir_ok (nd w), dir_mode (nd w))).

Section walks.
Context (ns : space) (pile : Z → nat) (mfuel B : nat) (S : sound ns pile mfuel B).

(** A call that answers 0 or an error, against a reference that gives the new position. *)
Definition runs (R : refs) (k : nat) (m : wst Z) (w : walk) (res : Z + pos) : Prop :=
  ∃ e w', m w = Some (e, w') ∧ owned R w' ∧ match res with inl e' => e = e' ∧ e ≠ 0 | inr s => e = 0 ∧ stands s k w' ∧ rest w' = rest w end.

(** A step that ends with an error, and leaves all that is held. *)
Ltac ends_here := do 2 eexists; split; [reflexivity|]; by split_and!.

Lemma set_root_ok R k w s : owned R w → stands s k w → (rt s).1 = NULL → runs R k (set_root ns) w (know_root ns s).
Proof.
  intros Ho Ht Hr. unfold runs, set_root, know_root, the, gets, mbind, st_bind, mret, st_ret. cbn beta iota. rewrite (proj2 (Z.eqb_eq _ _) Hr), (t_flags _ _ _ Ht).
  destruct (has (fl s) LOOKUP_IS_SCOPED); [exists (- ENOTRECOVERABLE), w; by split_and!|]. unfold on, modify, Prelude.modify. cbn beta iota. rewrite path_get_ok. cbn beta iota. do 2 eexists. split; [reflexivity|].
  assert (has (state (nd w)) ND_ROOT_GRABBED = false) as Hg.
  { destruct (has (state (nd w)) ND_ROOT_GRABBED) eqn:E; [|done]. by apply (t_grabbed _ _ _ Ht) in E. }
  assert (has (Z.lor (state (nd w)) ND_ROOT_GRABBED) ND_ROOT_GRABBED = true) as Hg' by (rewrite has_lor; apply orb_true_r).
  split; [split|split; [done|split; [split|done]]]; cbn [nd held nd_path root links state stack_room total_link_count set_ndroot set_state flags]; try apply Ho; try apply Ht.
  - rewrite (o_held _ _ Ho). unfold own_refs. cbn [nd_path links root state set_state set_ndroot]. rewrite Hg, Hg'. refs_eq.
  - intros _. apply (s_fs_root _ _ _ _ S).
  - done.
  - cbn [rt]. intros _. apply (s_fs_root _ _ _ _ S).
  - intros _. apply (s_fs_root _ _ _ _ S).
  - cbn [jmp]. rewrite <-(t_jumped _ _ _ Ht), has_lor. apply orb_false_r.
Qed.

Definition others (n : nameidata) : refs := grips (links n) ⊎ (if has (state n) ND_ROOT_GRABBED then grip (root n) else ∅).

Lemma own_real n : real (nd_path n) → own_refs n = grip (nd_path n) ⊎ others n.
Proof. intros [H _]. unfold own_refs, others. apply Z.eqb_neq in H. rewrite H. refs_eq. Qed.

(** Putting the path, and standing at another one. *)
Lemma put_path_ok R w : owned R w → real (nd_path (nd w)) → path_put (nd_path (nd w)) w = Some (tt, Walk (nd w) (R ⊎ others (nd w))).
Proof. intros Ho Hr. apply path_put_ok; [done|]. rewrite (o_held _ _ Ho), own_real by done. refs_eq. Qed.

Lemma owned_moved R w p x h : owned R w → real p → has x ND_ROOT_GRABBED = has (state (nd w)) ND_ROOT_GRABBED → h = R ⊎ (grip p ⊎ others (nd w)) →
  owned R (Walk (set_state x (set_path p (nd w))) h).
Proof.
  intros Ho Hp Hx ->. split; cbn [nd held nd_path root links state stack_room total_link_count set_path set_state]; try apply Ho; [|by left|].
  - rewrite own_real by done. unfold others. cbn [nd_path root links state set_path set_state]. by rewrite Hx.
  - rewrite Hx. apply (o_root _ _ Ho).
Qed.

Lemma stands_moved s k w p x h j : stands s k w → real p → has x ND_ROOT_GRABBED = has (state (nd w)) ND_ROOT_GRABBED → has x ND_JUMPED = j →
  stands (move p j s) k (Walk (set_state x (set_path p (nd w))) h).
Proof. intros Ht Hp Hx Hj. split; cbn; try apply Ht; try done. rewrite Hx. apply Ht. Qed.

Lemma grabbed_jump x : has (Z.lor x ND_JUMPED) ND_ROOT_GRABBED = has x ND_ROOT_GRABBED.
Proof. rewrite has_lor. apply orb_false_r. Qed.
Lemma jumped_jump x : has (Z.lor x ND_JUMPED) ND_JUMPED = true.
Proof. rewrite has_lor. apply orb_true_r. Qed.
Lemma grabbed_clear x : has (Z.land x (Z.lnot ND_JUMPED)) ND_ROOT_GRABBED = has x ND_ROOT_GRABBED.
Proof. by apply has_clear. Qed.

Lemma path_real s k w : stands s k w → real (nd_path (nd w)).
Proof. intros Ht. rewrite (t_path _ _ _ Ht). apply Ht. Qed.

Lemma st_of_bind {A C} (m : wst A) (f : A → wst C) w : (m ≫= f) w = match m w with Some (a, w') => f a w' | None => None end.
Proof. done. Qed.

Lemma mret_bind {A C} (a : A) (f : A → wst C) w : (mret a ≫= f) w = f a w.
Proof. done. Qed.

Lemma on_bind {C} f (m : wst C) w : (on f ;; m) w = m (Walk (f (nd w)) (held w)).
Proof. done. Qed.

Lemma the_bind {C} (g : nameidata → wst C) w : (n ← the; g n) w = g (nd w) w.
Proof. done. Qed.

Lemma jump_to_root_ok R k w s : owned R w → stands s k w → (rt s).1 ≠ NULL →
  runs R k (path_put (nd_path (nd w)) ;; n ← the; on (set_path (root n)) ;; path_get (root n) ;; jumped_ ;; mret 0) w (inr (move (rt s) true s)).
Proof.
  intros Ho Ht Hr. pose proof (t_root_real _ _ _ Ht Hr) as Hp. unfold runs. rewrite (st_bind_step _ _ _ _ _ (put_path_ok R w Ho (path_real _ _ _ Ht))).
  unfold the, gets. rewrite st_of_bind. cbn beta iota. rewrite st_of_bind. unfold on, modify at 1. cbn beta iota. rewrite (st_bind_step _ _ _ _ _ (path_get_ok _ _)).
  unfold jumped_, on, modify. rewrite st_of_bind. cbn beta iota. do 2 eexists. split; [reflexivity|]. cbn [nd held]. rewrite (t_root _ _ _ Ht). split; [|split; [done|split; [|done]]].
  - apply owned_moved; [done|done|apply grabbed_jump|refs_eq].
  - apply stands_moved; [done|done|apply grabbed_jump|apply jumped_jump].
Qed.

Lemma nd_jump_root_ok R k w s : owned R w → stands s k w → runs R k (nd_jump_root ns) w (jump_root ns s).
Proof.
  intros Ho Ht. unfold nd_jump_root, jump_root, the, gets. unfold runs. rewrite st_of_bind. cbn beta iota. rewrite (t_flags _ _ _ Ht), (t_root _ _ _ Ht).
  destruct (has (fl s) LOOKUP_BENEATH); [ends_here|]. rewrite (t_path _ _ _ Ht).
  destruct (_ && _ && _); [ends_here|]. unfold know_root at 1. destruct ((rt s).1 =? NULL) eqn:E.
  - apply Z.eqb_eq in E. destruct (set_root_ok R k w s Ho Ht E) as (e & w' & E1 & Ho' & H). unfold know_root in H. rewrite (proj2 (Z.eqb_eq _ _) E) in H. rewrite (st_bind_step _ _ _ _ _ E1).
    destruct (has (fl s) LOOKUP_IS_SCOPED).
    + destruct H as [-> _]. exists (- ENOTRECOVERABLE), w'. by split_and!.
    + destruct H as (-> & Ht' & Hn). cbn [negb Z.eqb].
      destruct (jump_to_root_ok R k w' _ Ho' Ht') as (e & w2 & E2 & Ho2 & He & Ht2 & Hn2); [cbn; apply (s_fs_root _ _ _ _ S)|].
      exists e, w2. split; [|by rewrite <-Hn]. rewrite <-E2. by rewrite (t_path _ _ _ Ht').
  - rewrite st_of_bind. cbn beta iota. apply Z.eqb_neq in E. pose proof (jump_to_root_ok R k w s Ho Ht E) as H. rewrite (t_path _ _ _ Ht) in H. exact H.
Qed.

Lemma nd_jump_link_ok R k w s p : owned (R ⊎ grip p) w → stands s k w → real p → runs R k (nd_jump_link p) w (jump_link s p).
Proof.
  intros Ho Ht Hp. unfold nd_jump_link, jump_link, the, gets, runs. rewrite st_of_bind. cbn beta iota. rewrite (t_flags _ _ _ Ht), (t_path _ _ _ Ht).
  assert (path_put p w = Some (tt, Walk (nd w) (R ⊎ own_refs (nd w)))) as Ep by (apply path_put_ok; [done|rewrite (o_held _ _ Ho); refs_eq]).
  assert (owned R (Walk (nd w) (R ⊎ own_refs (nd w)))) as Ho' by (split; try apply Ho; done).
  destruct (has (fl s) LOOKUP_NO_MAGICLINKS); [rewrite (st_bind_step _ _ _ _ _ Ep); ends_here|].
  destruct (_ && _); [rewrite (st_bind_step _ _ _ _ _ Ep); ends_here|].
  destruct (has (fl s) LOOKUP_IS_SCOPED); [rewrite (st_bind_step _ _ _ _ _ Ep); ends_here|].
  rewrite <-(t_path _ _ _ Ht), (st_bind_step _ _ _ _ _ (put_path_ok _ w Ho (path_real _ _ _ Ht))). unfold on, modify, jumped_, on, modify. rewrite !st_of_bind. cbn beta iota. do 2 eexists. split; [reflexivity|]. cbn [nd held].
  split; [|split; [done|split; [|done]]].
  - apply (owned_moved R (Walk (nd w) (R ⊎ own_refs (nd w)))); [done|done|apply grabbed_jump|cbn [nd]; refs_eq].
  - apply stands_moved; [done|done|apply grabbed_jump|apply jumped_jump].
Qed.

Lemma put_link_ok R w l ls : owned R w → links (nd w) = l :: ls → ∃ h, put_link w = Some (tt, Walk (set_links ls (nd w)) h) ∧ owned R (Walk (set_links ls (nd w)) h).
Proof.
  intros Ho El. pose proof (o_links _ _ Ho) as Hf. rewrite El in Hf. apply Forall_cons_1 in Hf as [Hl Hf]. unfold put_link, the, gets. rewrite st_of_bind. cbn beta iota. rewrite El. unfold on, modify. rewrite st_of_bind. cbn beta iota.
  pose proof (path_put_ok l (R ⊎ own_refs (set_links ls (nd w))) (Walk (set_links ls (nd w)) (held w)) Hl) as Ep. exists (R ⊎ own_refs (set_links ls (nd w))).
  rewrite Ep by (cbn [held]; rewrite (o_held _ _ Ho); unfold own_refs; rewrite El; cbn [grips foldr links set_links nd_path state root]; fold (grips ls); refs_eq). split; [done|].
  pose proof (o_room _ _ Ho) as Hr. pose proof (o_count _ _ Ho) as Hc. rewrite El in Hr, Hc. cbn [length] in Hr, Hc.
  split; cbn [nd held nd_path root links state stack_room total_link_count set_links]; try apply Ho; try done; [|lia]. destruct Hr as [[H1 H2]|H1]; [left; split; [done|lia]|by right].
Qed.

Lemma stands_links s k w ls h : stands s k w → stands s k (Walk (set_links ls (nd w)) h).
Proof. intros Ht. split; apply Ht. Qed.

Definition mnt_ref (b : bool) (m : Z) : refs := if b then {[+ inl m +]} else ∅.

Lemma traverse_loop_ok fuel : ∀ p b X w, (mfuel ≤ fuel + pile p.1)%nat → p.2 ≠ NULL → (b = true → p.1 ≠ NULL) → held w = X ⊎ {[+ inr p.2 +]} ⊎ mnt_ref b p.1 →
  let q := cover ns fuel p in
  traverse_loop ns fuel b p w = Some ((q, b || is_mounted ns p), Walk (nd w) (X ⊎ {[+ inr q.2 +]} ⊎ mnt_ref (b || is_mounted ns p) q.1)) ∧
    q.2 ≠ NULL ∧ (is_mounted ns p = true → q.1 ≠ NULL ∧ (pile p.1 < pile q.1)%nat) ∧ (is_mounted ns p = false → q = p).
Proof.
  induction fuel as [|fuel IH]; intros p b X w Hf Hp Hb Eh; cbn [cover traverse_loop]; unfold is_mounted; destruct (lookup_mnt ns p) as [m|] eqn:E.
  - exfalso. destruct (s_mounted _ _ _ _ S _ _ E) as (_ & _ & Em). pose proof (s_pile _ _ _ _ S m). lia.
  - rewrite orb_false_r. split; [|done]. unfold mret, st_ret. by rewrite <-Eh; destruct w.
  - destruct (s_mounted _ _ _ _ S _ _ E) as (Hm & Hr & Em). unfold mntget, hold, modify. rewrite st_of_bind. cbn beta iota. unfold dput. rewrite (proj2 (Z.eqb_neq _ _) Hp).
    rewrite (st_bind_step _ _ _ _ _ (drop_ok (inr p.2) (X ⊎ {[+ inl m +]} ⊎ mnt_ref b p.1) (Walk (nd w) (held w ⊎ {[+ inl m +]})) ltac:(cbn [held]; rewrite Eh; refs_eq))). cbn [nd].
    assert ((if b then mntput p.1 else mret tt) (Walk (nd w) (X ⊎ {[+ inl m +]} ⊎ mnt_ref b p.1)) = Some (tt, Walk (nd w) (X ⊎ {[+ inl m +]}))) as Ed.
    { destruct b; cbn [mnt_ref]; [|unfold mret, st_ret; do 3 f_equal; refs_eq]. unfold mntput. rewrite (proj2 (Z.eqb_neq _ _) (Hb eq_refl)). by apply (drop_ok (inl p.1) _ (Walk (nd w) (X ⊎ {[+ inl m +]} ⊎ {[+ inl p.1 +]}))). }
    rewrite (st_bind_step _ _ _ _ _ Ed). unfold dget, hold, modify. rewrite st_of_bind. cbn beta iota. cbn [nd held].
    destruct (IH (m, mnt_root (mnt ns m)) true X (Walk (nd w) (X ⊎ {[+ inl m +]} ⊎ {[+ inr (mnt_root (mnt ns m)) +]})) ltac:(cbn [fst]; lia) Hr ltac:(done) ltac:(cbn [held mnt_ref fst snd]; refs_eq)) as (E1 & Hq & Hq1 & Hq2).
    cbn [orb] in E1. rewrite orb_true_r. rewrite E1. split; [done|]. split; [done|split; [intros _|done]]. destruct (is_mounted ns (m, mnt_root (mnt ns m))).
    + destruct (Hq1 eq_refl) as [H1 H2]. cbn [fst] in H2. split; [done|lia].
    + rewrite (Hq2 eq_refl). cbn [fst]. split; [done|lia].
  - rewrite orb_false_r. split; [|done]. unfold mret, st_ret. by rewrite <-Eh; destruct w.
Qed.

(** What the path of a step holds besides the path of the walk. *)
Definition step_refs (s : pos) (q : path) : refs := {[+ inr q.2 +]} ⊎ mnt_ref (negb (q.1 =? (at_ s).1)) q.1.

Lemma owned_state R w x h : owned R w → has x ND_ROOT_GRABBED = has (state (nd w)) ND_ROOT_GRABBED → ∀ R', h = R' ⊎ own_refs (nd w) → owned R' (Walk (set_state x (nd w)) h).
Proof. intros Ho Hx R' ->. split; cbn [nd held nd_path root links state stack_room total_link_count set_state]; try apply Ho; [unfold own_refs; cbn [nd_path root links state set_state]; by rewrite Hx|rewrite Hx; apply Ho]. Qed.

Lemma owned_held R R' w h : owned R w → h = R' ⊎ own_refs (nd w) → owned R' (Walk (nd w) h).
Proof. intros Ho ->. by split; try apply Ho. Qed.

Lemma stands_state s k w x h j : stands s k w → has x ND_ROOT_GRABBED = has (state (nd w)) ND_ROOT_GRABBED → has x ND_JUMPED = j → stands (move (at_ s) j s) k (Walk (set_state x (nd w)) h).
Proof. intros Ht Hx Hj. split; cbn; try apply Ht; [|done]. rewrite Hx. apply Ht. Qed.

Lemma stands_held s k w h : stands s k w → stands s k (Walk (nd w) h).
Proof. intros Ht. split; apply Ht. Qed.

Lemma stands_same s k w : stands s k w → stands (move (at_ s) (jmp s) s) k w.
Proof. by destruct s. Qed.

Lemma step_refs_put R s q w : real q → held w = R ⊎ step_refs s q → (dput q.2 ;; if negb (q.1 =? (at_ s).1) then mntput q.1 else mret tt) w = Some (tt, Walk (nd w) R).
Proof.
  intros [H1 H2] Eh. unfold dput. rewrite (proj2 (Z.eqb_neq _ _) H2). rewrite (st_bind_step _ _ _ _ _ (drop_ok (inr q.2) (R ⊎ mnt_ref (negb (q.1 =? (at_ s).1)) q.1) w ltac:(rewrite Eh; unfold step_refs; refs_eq))).
  destruct (negb _); cbn [mnt_ref]; [|unfold mret, st_ret; do 3 f_equal; refs_eq]. unfold mntput. rewrite (proj2 (Z.eqb_neq _ _) H1). by apply (drop_ok (inl q.1) R (Walk (nd w) (R ⊎ {[+ inl q.1 +]}))).
Qed.

Lemma handle_mounts_ok R k w s d : owned (R ⊎ {[+ inr d +]}) w → stands s k w → d ≠ NULL →
  ∃ r w', handle_mounts ns mfuel d w = Some (r, w') ∧
    match enter ns mfuel s d with
    | inl e => r = inl e ∧ e ≠ 0 ∧ owned R w'
    | inr (q, j) => r = inr q ∧ real q ∧ owned (R ⊎ step_refs s q) w' ∧ stands (move (at_ s) j s) k w' ∧ rest w' = rest w
    end.
Proof.
  intros Ho Ht Hd. pose proof (t_real _ _ _ Ht) as [Ha _]. unfold handle_mounts, the, gets. rewrite st_of_bind. cbn beta iota. rewrite (t_path _ _ _ Ht), (t_flags _ _ _ Ht). set (p := ((at_ s).1, d)).
  destruct (traverse_loop_ok mfuel p false (R ⊎ own_refs (nd w)) w ltac:(lia) Hd ltac:(done) ltac:(rewrite (o_held _ _ Ho); unfold p; cbn [mnt_ref fst snd]; refs_eq)) as (E & Hq & Hm & Hn). cbn [orb] in E. set (q := cover ns mfuel p) in *.
  assert ((q.1 =? p.1) = negb (is_mounted ns p)) as Eq.
  { destruct (is_mounted ns p); [destruct (Hm eq_refl) as [_ Hl]; apply Z.eqb_neq; intros El; rewrite El in Hl; lia|rewrite (Hn eq_refl); apply Z.eqb_refl]. }
  assert (real q) as Hr. { split; [|done]. destruct (is_mounted ns p); [by apply Hm|by rewrite (Hn eq_refl)]. }
  set (h := R ⊎ own_refs (nd w) ⊎ {[+ inr q.2 +]} ⊎ mnt_ref (is_mounted ns p) q.1) in E.
  assert (traverse_mounts ns mfuel p w = Some (if d_is_negative ns q.2 then - ENOENT else 0, q, is_mounted ns p, Walk (nd w) h)) as Et.
  { unfold traverse_mounts. rewrite (st_bind_step _ _ _ _ _ E). cbn [fst snd]. rewrite Eq. by destruct (is_mounted ns p). }
  rewrite (st_bind_step _ _ _ _ _ Et). cbn beta iota. unfold enter. cbv zeta. fold p q.
  assert (∀ x, has x ND_ROOT_GRABBED = has (state (nd w)) ND_ROOT_GRABBED → owned (R ⊎ step_refs s q) (Walk (set_state x (nd w)) h)) as Ho'.
  { intros x Hx. apply (owned_state (R ⊎ {[+ inr d +]}) w); [exact Ho|done|]. unfold h, step_refs. change (at_ s).1 with p.1. rewrite Eq, negb_involutive. refs_eq. }
  assert (owned (R ⊎ step_refs s q) (Walk (nd w) h)) as Hs. { apply (owned_held (R ⊎ {[+ inr d +]}) _ w); [exact Ho|]. unfold h, step_refs. change (at_ s).1 with p.1. rewrite Eq, negb_involutive. refs_eq. }
  assert (∀ n e, e ≠ 0 → owned (R ⊎ step_refs s q) (Walk n h) → ∃ w', (dput q.2 ;; (if negb (q.1 =? (at_ s).1) then mntput q.1 else mret tt) ;; mret (inl e)) (Walk n h) = Some (@inl Z path e, w') ∧ owned R w') as Herr.
  { intros n e He Hon. pose proof (step_refs_put (R ⊎ own_refs n) s q (Walk n h) Hr ltac:(rewrite (o_held _ _ Hon); cbn [nd]; refs_eq)) as Ep. rewrite <-st_bind_assoc, (st_bind_step _ _ _ _ _ Ep). eexists. split; [done|]. by apply (owned_held (R ⊎ step_refs s q) _ (Walk n h)). }
  destruct (is_mounted ns p) eqn:Ei; cbn [andb].
  - destruct (has (fl s) LOOKUP_NO_XDEV).
    + rewrite st_of_bind. cbn beta iota. destruct (Herr (nd w) (- EXDEV) ltac:(done) Hs) as (w' & Ew & How). exists (inl (- EXDEV)), w'. by split.
    + rewrite st_bind_assoc. unfold jumped_, on, modify. rewrite st_of_bind. cbn beta iota. rewrite st_of_bind. cbn beta iota. cbn [nd held]. specialize (Ho' _ (grabbed_jump _)). destruct (d_is_negative ns q.2).
      * destruct (Herr _ (- ENOENT) ltac:(done) Ho') as (w' & Ew & How). exists (inl (- ENOENT)), w'. by split.
      * cbn [negb Z.eqb]. do 2 eexists. split; [reflexivity|]. rewrite orb_true_r. split_and!; [done|done|done| |done]. apply stands_state; [done|apply grabbed_jump|apply jumped_jump].
  - rewrite st_of_bind. cbn beta iota. destruct (d_is_negative ns q.2).
    + destruct (Herr _ (- ENOENT) ltac:(done) Hs) as (w' & Ew & How). exists (inl (- ENOENT)), w'. by split.
    + cbn [negb Z.eqb]. do 2 eexists. split; [reflexivity|]. rewrite orb_false_r. split_and!; [done|done|done| |done]. by apply stands_held, stands_same.
Qed.

(** The forty places need memory, so a walk may end for the want of it. *)
Definition starved (R : refs) (w' : walk) : Prop := stack_memory ns = false ∧ owned R w'.

Definition dir_of (n : nameidata) := (dir_uid n, dir_ok n, dir_mode n).

(** With links to go there is a place on the stack, or memory for one. *)
Lemma reserve_ok R k w s q : owned (R ⊎ grip q) w → stands s (Datatypes.S k) w → real q → stack_memory ns = true ∨ Z.of_nat (length (links (nd w))) ≠ EMBEDDED_LEVELS ∨ stack_room (nd w) ≠ EMBEDDED_LEVELS →
  ∃ w1 w2, reserve_stack ns w = Some (0, w1) ∧ push_link q w1 = Some (tt, w2) ∧ owned R w2 ∧ stands s k w2 ∧ links (nd w2) = q :: links (nd w) ∧ dir_of (nd w2) = dir_of (nd w).
Proof.
  intros Ho Ht Hq Hm. pose proof (t_count _ _ _ Ht) as Hc. pose proof (o_count _ _ Ho) as Hl. unfold MAXSYMLINKS in Hc.
  assert (∃ r, reserve_stack ns w = Some (0, Walk (set_room r (set_count (total_link_count (nd w) + 1) (nd w))) (held w)) ∧ Z.of_nat (length (links (nd w))) < r ∧ ((r = EMBEDDED_LEVELS ∧ Z.of_nat (length (links (nd w))) + 1 ≤ EMBEDDED_LEVELS) ∨ r = MAXSYMLINKS)) as (r & E1 & Hr & Hroom).
  { unfold reserve_stack, the, gets, on, modify. rewrite st_of_bind. cbn beta iota. rewrite st_of_bind. cbn beta iota. rewrite (proj2 (Z.leb_gt _ _)) by (unfold MAXSYMLINKS; lia).
    destruct (o_room _ _ Ho) as [[H1 H2]|H1]; unfold EMBEDDED_LEVELS, MAXSYMLINKS in *.
    - destruct (Z.eqb_spec (Z.of_nat (length (links (nd w)))) 2) as [E|E]; cbn [negb].
      + rewrite (proj2 (Z.eqb_eq _ _) H1). cbn [negb]. destruct Hm as [->|[Hm|Hm]]; [|done..]. exists 40. split; [reflexivity|]. split; [lia|by right].
      + exists 2. split; [|split; [lia|left; lia]]. cbn. unfold set_room, set_count. cbn. by rewrite H1.
    - exists 40. split; [|split; [lia|by right]]. rewrite H1. cbn [negb Z.eqb]. destruct (negb (Z.of_nat (length (links (nd w))) =? 2)); cbn; unfold set_room, set_count; cbn; by rewrite H1. }
  exists (Walk (set_room r (set_count (total_link_count (nd w) + 1) (nd w))) (held w)), (Walk (set_links (q :: links (nd w)) (set_room r (set_count (total_link_count (nd w) + 1) (nd w)))) (held w)).
  split; [done|]. split; [|split; [|split; [|done]]].
  - unfold push_link, the, gets. rewrite st_of_bind. cbn beta iota. cbn [nd links set_room set_count stack_room]. by rewrite (proj2 (Z.ltb_lt _ _) Hr).
  - split; cbn [nd held nd_path root links state stack_room total_link_count set_links set_room set_count length]; try apply Ho; [|constructor; [done|apply Ho]| |lia].
    + rewrite (o_held _ _ Ho). unfold own_refs. cbn [nd_path root links state set_links set_room set_count grips foldr]. fold (grips (links (nd w))). refs_eq.
    + destruct Hroom as [[-> H]| ->]; [left; split; [done|lia]|by right].
  - split; cbn [nd held nd_path root links state stack_room total_link_count set_links set_room set_count flags]; try apply Ht. rewrite Hc. unfold MAXSYMLINKS. lia.
Qed.

Lemma no_place R w q wflags e : owned (R ⊎ grip q) w → real q → e ≠ 0 → reserve_stack ns w = Some (e, Walk (set_count (total_link_count (nd w) + 1) (nd w)) (held w)) →
  ∃ w', pick_link ns q wflags w = Some (inl e, w') ∧ owned R w'.
Proof.
  intros Ho Hq He Er. set (n1 := set_count (total_link_count (nd w) + 1) (nd w)) in *. unfold pick_link. rewrite (st_bind_step _ _ _ _ _ Er), (proj2 (Z.eqb_neq _ _) He). cbn [negb].
  assert (own_refs n1 = own_refs (nd w)) as En by done. rewrite (st_bind_step _ _ _ _ _ (path_put_ok q (R ⊎ own_refs n1) (Walk n1 (held w)) Hq ltac:(cbn [held]; rewrite (o_held _ _ Ho), En; refs_eq))).
  eexists. split; [reflexivity|]. split; cbn [nd]; try apply Ho; try done. pose proof (o_count _ _ Ho). cbn. lia.
Qed.

Lemma reserve_full R w s q wflags : owned (R ⊎ grip q) w → stands s 0 w → real q → ∃ w', pick_link ns q wflags w = Some (inl (- ELOOP), w') ∧ owned R w'.
Proof.
  intros Ho Ht Hq. apply no_place; [done|done|done|]. unfold reserve_stack. rewrite the_bind, on_bind. by rewrite (proj2 (Z.leb_le _ _)) by (rewrite (t_count _ _ _ Ht); cbn; lia).
Qed.

Lemma reserve_starved R k w s q wflags : owned (R ⊎ grip q) w → stands s (Datatypes.S k) w → real q → stack_memory ns = false → Z.of_nat (length (links (nd w))) = EMBEDDED_LEVELS → stack_room (nd w) = EMBEDDED_LEVELS →
  ∃ w', pick_link ns q wflags w = Some (inl (- ENOMEM), w') ∧ starved R w'.
Proof.
  intros Ho Ht Hq Hm Hl Hr. destruct (no_place R w q wflags (- ENOMEM) Ho Hq) as (w' & E & Ho'); [done| |by exists w'].
  unfold reserve_stack. rewrite the_bind, on_bind. rewrite (proj2 (Z.leb_gt _ _)) by (rewrite (t_count _ _ _ Ht); unfold MAXSYMLINKS; lia). by rewrite Hl, Hr, Hm.
Qed.

(** What a link leaves to do. *)
Definition picked (R : refs) (k : nat) (q : path) (w : walk) (r : Z + option (list Z)) (w' : walk) (res : Z + stepped) : Prop :=
  owned R w' ∧
  match res with
  | inl e => r = inl e ∧ e ≠ 0
  | inr (Moved _) => False
  | inr (Jumped s) => r = inr None ∧ stands s k w' ∧ links (nd w') = links (nd w)
  | inr (Follow s t) => r = inr (Some t) ∧ stands s k w' ∧ links (nd w') = q :: links (nd w) ∧ (∃ c t', t = c :: t' ∧ c ≠ SLASH)
  end.

Lemma all_done_ok R k s q w w0 : owned R w → stands s k w → links (nd w) = q :: links (nd w0) → ∃ r w', all_done w = Some (r, w') ∧ picked R k q w0 r w' (inr (Jumped s)).
Proof.
  intros Ho Ht El. destruct (put_link_ok R w _ _ Ho El) as (h & Ep & Ho'). unfold all_done. rewrite (st_bind_step _ _ _ _ _ Ep). do 2 eexists. split; [reflexivity|]. split; [done|]. split_and!; [done|by apply stands_links|done].
Qed.

Lemma skip_slashes_head s : match skip_slashes s with c :: _ => c ≠ SLASH | [] => True end.
Proof. induction s as [|c s IH]; [done|]. cbn. destruct (Z.eqb_spec c SLASH); done. Qed.

Lemma walk_text_ok R k s q w w0 t : owned R w → stands s k w → links (nd w) = q :: links (nd w0) → ∃ r w', walk_text ns t w = Some (r, w') ∧ picked R k q w0 r w' (text_of ns s t).
Proof.
  intros Ho Ht El. unfold walk_text, text_of. destruct t as [|c t]; [by apply all_done_ok|]. destruct (Z.eqb_spec c SLASH) as [Ec|Ec].
  - destruct (nd_jump_root_ok R k w s Ho Ht) as (e & w' & E & Ho' & H). rewrite (st_bind_step _ _ _ _ _ E). destruct (jump_root ns s) as [e'|s'].
    + destruct H as [-> He]. rewrite (proj2 (Z.eqb_neq _ _) He). exists (inl e'), w'. by split.
    + destruct H as (-> & Ht' & Hr). cbn [negb Z.eqb]. assert (links (nd w') = q :: links (nd w0)) as El' by (rewrite <-El; unfold rest in Hr; congruence).
      pose proof (skip_slashes_head (c :: t)) as Hh. destruct (skip_slashes (c :: t)) as [|d u]; [by apply all_done_ok|]. do 2 eexists. split; [reflexivity|]. split_and!; [done|done|done|done|eauto].
  - do 2 eexists. split; [reflexivity|]. split_and!; [done|done|done|done|eauto].
Qed.

Definition dir_matches (s : pos) (n : nameidata) : Prop := let i := d_inode (dent ns (at_ s).2) in dir_of n = (i_uid i, i_uid_valid i, i_mode i).

Lemma get_text_ok R k s w q w0 : owned R w → stands s k w → links (nd w) = q :: links (nd w0) → ∃ r w',
  (r ← get_text (dent ns q.2); match r with inl e => mret (inl e) | inr None => all_done | inr (Some res) => walk_text ns res end) w = Some (r, w') ∧
    picked R k q w0 r w'
      match i_link (dent ns q.2), get_link (dent ns q.2) with
      | Some t, _ => text_of ns s t
      | None, GotText t => text_of ns s t
      | None, GotErr e => inl e
      | None, GotNone => inr (Jumped s)
      | None, GotJump p => match jump_link s p with inl e => inl e | inr s => inr (Jumped s) end
      end.
Proof.
  intros Ho Ht El. unfold get_text. destruct (i_link (dent ns q.2)) as [t|]; [rewrite st_of_bind; by apply walk_text_ok|]. destruct (get_link (dent ns q.2)) as [t|e| |p] eqn:Eg.
  - rewrite st_of_bind. by apply walk_text_ok.
  - rewrite st_of_bind. do 2 eexists. split; [reflexivity|]. split; [done|]. split; [done|]. pose proof (s_get _ _ _ _ S _ _ Eg). lia.
  - rewrite st_of_bind. by apply all_done_ok.
  - pose proof (s_jump _ _ _ _ S _ _ Eg) as Hp. rewrite st_bind_assoc, (st_bind_step _ _ _ _ _ (path_get_ok p w)), st_bind_assoc.
    set (w1 := Walk (nd w) (held w ⊎ grip p)). assert (owned (R ⊎ grip p) w1) as Ho1 by (apply (owned_held R); [done|rewrite (o_held _ _ Ho); refs_eq]).
    destruct (nd_jump_link_ok R k w1 s p Ho1 (stands_held _ _ _ _ Ht) Hp) as (e & w' & E & Ho' & H). rewrite (st_bind_step _ _ _ _ _ E). destruct (jump_link s p) as [e'|s'].
    + destruct H as [-> He]. rewrite (proj2 (Z.eqb_neq _ _) He). rewrite st_of_bind. do 2 eexists. split; [reflexivity|]. by split.
    + destruct H as (-> & Ht' & Hr). rewrite st_of_bind. cbn beta iota. change (0 =? 0) with true. cbn iota. apply all_done_ok; [done|done|]. rewrite <-El. exact (f_equal (λ r, r.1.2) Hr).
Qed.

Lemma pick_link_ok R k s w q wflags : owned (R ⊎ grip q) w → stands s k w → real q → (has wflags WALK_TRAILING = true → dir_matches s (nd w)) →
  ∃ r w', pick_link ns q wflags w = Some (r, w') ∧ (picked R (pred k) q w r w' (follow ns (0 <? Z.of_nat k) s q (has wflags WALK_TRAILING)) ∧ ((∃ e, r = inl e) ∨ k = Datatypes.S (pred k)) ∨ r = inl (- ENOMEM) ∧ starved R w').
Proof.
  intros Ho Ht Hq Hd. destruct k as [|k].
  { destruct (reserve_full R w s q wflags Ho Ht Hq) as (w' & E & Ho'). exists (inl (- ELOOP)), w'. split; [done|]. left. split; [by split|eauto]. }
  destruct (decide (stack_memory ns = true ∨ Z.of_nat (length (links (nd w))) ≠ EMBEDDED_LEVELS ∨ stack_room (nd w) ≠ EMBEDDED_LEVELS)) as [Hm|Hm].
  2: { destruct (reserve_starved R k w s q wflags Ho Ht Hq) as (w' & E & Hs); [destruct (stack_memory ns); [|done]; destruct Hm; by left|lia|lia|]. exists (inl (- ENOMEM)), w'. split; [done|]. by right. }
  destruct (reserve_ok R k w s q Ho Ht Hq Hm) as (w1 & w2 & E1 & E2 & Ho' & Ht' & El & Ed). unfold pick_link. rewrite (st_bind_step _ _ _ _ _ E1). change (negb (0 =? 0)) with false. cbn iota.
  rewrite (st_bind_step _ _ _ _ _ E2). unfold the, gets. rewrite st_of_bind. cbn beta iota. cbv zeta. rewrite (t_flags _ _ _ Ht'). unfold follow. cbv zeta. cbn [pred].
  assert ((if has wflags WALK_TRAILING then may_follow_link (prot ns) (task ns) (dir_mode (nd w2)) (dir_uid (nd w2)) (dir_ok (nd w2)) false (d_inode (dent ns q.2)) else 0) =
    if has wflags WALK_TRAILING then may_follow_link (prot ns) (task ns) (i_mode (d_inode (dent ns (at_ s).2))) (i_uid (d_inode (dent ns (at_ s).2))) (i_uid_valid (d_inode (dent ns (at_ s).2))) false (d_inode (dent ns q.2)) else 0) as ->.
  { destruct (has wflags WALK_TRAILING); [|done]. specialize (Hd eq_refl). unfold dir_matches in Hd. cbv zeta in Hd. rewrite <-Ed in Hd. unfold dir_of in Hd. injection Hd as H1 H2 H3. by rewrite H1, H2, H3. }
  set (x := if has wflags WALK_TRAILING then _ else 0). replace (0 <? Z.of_nat (Datatypes.S k)) with true by (symmetry; apply Z.ltb_lt; lia). cbn [negb].
  destruct (Z.eqb_spec x 0) as [Ex|Ex]; cbn [negb]; [|exists (inl x), w2; split; [done|left; split; [by split|eauto]]].
  destruct (_ || _); [exists (inl (- ELOOP)), w2; split; [done|left; split; [by split|eauto]]|].
  destruct (Z.eqb_spec (follow_answer (dent ns q.2)) 0) as [Ea|Ea]; cbn [negb]; [|exists (inl (follow_answer (dent ns q.2))), w2; split; [done|left; split; [by split|eauto]]].
  destruct (get_text_ok R k s w2 q w Ho' Ht' El) as (r & w' & E & Hp). exists r, w'. split; [done|]. left. split; [done|by right].
Qed.

(** Moving on to the dentry of a component. *)
Definition stepped_ok (R : refs) (k : nat) (ls : list path) (r : Z + option (list Z)) (w' : walk) (res : Z + stepped) : Prop :=
  owned R w' ∧
  match res with
  | inl e => r = inl e ∧ e ≠ 0
  | inr (Moved s) => r = inr None ∧ stands s k w' ∧ links (nd w') = ls
  | inr (Jumped s) => r = inr None ∧ stands s (pred k) w' ∧ links (nd w') = ls ∧ k = Datatypes.S (pred k)
  | inr (Follow s t) => r = inr (Some t) ∧ stands s (pred k) w' ∧ (∃ q, links (nd w') = q :: ls) ∧ k = Datatypes.S (pred k) ∧ (∃ c t', t = c :: t' ∧ c ≠ SLASH)
  end.

Lemma picked_stepped R k q w r w' res : picked R (pred k) q w r w' res → ((∃ e, r = inl e) ∨ k = Datatypes.S (pred k)) → stepped_ok R k (links (nd w)) r w' res.
Proof. intros [Ho H] Hk. split; [done|]. destruct res as [e|[s|s|s t]]; [done|done|destruct H as (-> & Ht & Hl)|destruct H as (-> & Ht & Hl & Hh)]; (destruct Hk as [[e He]|Hk]; [done|]); split_and!; eauto. Qed.

Definition into (more : bool) (s : pos) (d : Z) (trailing nofollow : bool) : Z + stepped :=
  match enter ns mfuel s d with
  | inl e => inl e
  | inr (q, j) =>
      if negb (d_is_symlink ns q.2) || (trailing && negb (has (fl s) LOOKUP_FOLLOW)) || nofollow then inr (Moved (move q j s))
      else follow ns more (Pos (at_ s) (rt s) (fl s) j) q trailing
  end.

(** Leaving the path for the next one. *)
Lemma leave_ok R k w s q : owned (R ⊎ step_refs s q) w → stands s k w → real q →
  ∃ w', (dput (nd_path (nd w)).2 ;; (if negb ((nd_path (nd w)).1 =? q.1) then mntput (nd_path (nd w)).1 else mret tt) ;; on (set_path q) ;; mret (inr None)) w = Some (@inr Z (option (list Z)) None, w') ∧
    owned R w' ∧ stands (move q (jmp s) s) k w' ∧ links (nd w') = links (nd w).
Proof.
  intros Ho Ht Hq. pose proof (t_real _ _ _ Ht) as [H1 H2]. rewrite (t_path _ _ _ Ht). unfold dput. rewrite (proj2 (Z.eqb_neq _ _) H2). set (m := if (at_ s).1 =? q.1 then {[+ inl (at_ s).1 +]} else {[+ inl (at_ s).1 +]} ⊎ {[+ inl q.1 +]} : refs).
  assert (held w = R ⊎ others (nd w) ⊎ {[+ inr q.2 +]} ⊎ m ⊎ {[+ inr (at_ s).2 +]}) as Eh.
  { rewrite (o_held _ _ Ho), own_real by (rewrite (t_path _ _ _ Ht); apply Ht). rewrite (t_path _ _ _ Ht). unfold step_refs, grip, m. rewrite (Z.eqb_sym q.1). destruct ((at_ s).1 =? q.1); cbn [negb mnt_ref]; refs_eq. }
  rewrite (st_bind_step _ _ _ _ _ (drop_ok _ _ _ Eh)).
  assert ((if negb ((at_ s).1 =? q.1) then mntput (at_ s).1 else mret tt) (Walk (nd w) (R ⊎ others (nd w) ⊎ {[+ inr q.2 +]} ⊎ m)) = Some (tt, Walk (nd w) (R ⊎ (grip q ⊎ others (nd w))))) as Em.
  { unfold m. destruct (Z.eqb_spec (at_ s).1 q.1) as [E|E]; cbn [negb]; [unfold mret, st_ret; do 3 f_equal; rewrite E; unfold grip; refs_eq|].
    unfold mntput. rewrite (proj2 (Z.eqb_neq _ _) H1). apply (drop_ok (inl (at_ s).1) (R ⊎ (grip q ⊎ others (nd w))) (Walk (nd w) _)). cbn [held]. unfold grip. refs_eq. }
  rewrite (st_bind_step _ _ _ _ _ Em). unfold on, modify. rewrite st_of_bind. cbn beta iota. eexists. split; [reflexivity|]. cbn [nd held]. split; [|split; [|done]].
  - by apply (owned_moved R (Walk (nd w) (R ⊎ own_refs (nd w))) q (state (nd w))); [apply (owned_held (R ⊎ step_refs s q))|..].
  - apply (stands_moved s k w q (state (nd w))); [done|done|done|apply Ht].
Qed.

Lemma eta_walk (w : walk) : Walk (nd w) (held w) = w.
Proof. by destruct w. Qed.

Lemma step_into_ok R k s w d wflags : owned (R ⊎ {[+ inr d +]}) w → stands s k w → d ≠ NULL → (has wflags WALK_TRAILING = true → dir_matches s (nd w)) →
  ∃ r w', step_into ns mfuel wflags d w = Some (r, w') ∧ (stepped_ok R k (links (nd w)) r w' (into (0 <? Z.of_nat k) s d (has wflags WALK_TRAILING) (has wflags WALK_NOFOLLOW)) ∨ has wflags WALK_NOFOLLOW = false ∧ r = inl (- ENOMEM) ∧ starved R w').
Proof.
  intros Ho Ht Hd Hdir. destruct (handle_mounts_ok R k w s d Ho Ht Hd) as (r & w1 & E & H). unfold step_into, into. rewrite (st_bind_step _ _ _ _ _ E). destruct (enter ns mfuel s d) as [e|[q j]].
  { destruct H as (-> & He & Ho'). exists (inl e), w1. split; [done|]. left. by split. }
  destruct H as (-> & Hq & Ho1 & Ht1 & Hr). pose proof (f_equal (λ r, r.1.2) Hr : links (nd w1) = links (nd w)) as El. pose proof (f_equal (λ r, r.2) Hr : dir_of (nd w1) = dir_of (nd w)) as Ed.
  unfold the, gets. rewrite st_of_bind. cbn beta iota. rewrite (t_flags _ _ _ Ht1). change (fl (move (at_ s) j s)) with (fl s). destruct (_ || _ || has wflags WALK_NOFOLLOW) eqn:Ew.
  - change (R ⊎ step_refs s q) with (R ⊎ step_refs (move (at_ s) j s) q) in Ho1. destruct (leave_ok R k w1 _ q Ho1 Ht1 Hq) as (w' & E' & Ho' & Ht' & El'). rewrite E'. exists (inr None), w'. split; [done|]. left. split; [done|]. split_and!; [done|exact Ht'|congruence].
  - rewrite (t_path _ _ _ Ht1). change (at_ (move (at_ s) j s)) with (at_ s).
    assert (∃ h, (if q.1 =? (at_ s).1 then mntget q.1 else mret tt) w1 = Some (tt, Walk (nd w1) h) ∧ h = R ⊎ grip q ⊎ own_refs (nd w1)) as (h & Eg & Eh).
    { unfold step_refs in Ho1. pose proof (o_held _ _ Ho1) as Eh. destruct (q.1 =? (at_ s).1); cbn [negb mnt_ref] in Eh; eexists; (split; [|reflexivity]).
      - unfold mntget, hold, modify. rewrite Eh. do 3 f_equal. unfold grip. refs_eq.
      - unfold mret, st_ret. assert (held w1 = R ⊎ grip q ⊎ own_refs (nd w1)) as Eh2 by (rewrite Eh; unfold grip; refs_eq). by rewrite <-Eh2, eta_walk. }
    rewrite (st_bind_step _ _ _ _ _ Eg). destruct (pick_link_ok R k (move (at_ s) j s) (Walk (nd w1) h) q wflags) as (r & w' & E' & [[Hp Hk]|Hp]).
    + apply (owned_held (R ⊎ step_refs s q) _ w1); [done|by rewrite Eh].
    + by apply stands_held.
    + done.
    + intros Hw. specialize (Hdir Hw). unfold dir_matches in *. cbn [nd]. by rewrite Ed.
    + exists r, w'. split; [exact E'|]. left. pose proof (picked_stepped _ _ _ _ _ _ _ Hp Hk) as Hs. cbn [nd] in Hs. rewrite El in Hs. exact Hs.
    + exists r, w'. split; [exact E'|]. right. apply orb_false_iff in Ew as [_ Ew]. by split.
Qed.

Lemma choose_mountpoint_ok fuel : ∀ m root, (pile m ≤ fuel)%nat → ∃ r, choose_mountpoint_rcu ns fuel m root = Some r ∧ match r with Some p => real p | None => True end.
Proof.
  induction fuel as [|fuel IH]; intros m root Hf; cbn [choose_mountpoint_rcu]; cbv zeta; destruct (Z.eqb_spec (mnt_parent (mnt ns m)) m) as [E|E]; [by exists None| |by exists None|]; destruct (s_parent_mount _ _ _ _ S _ E) as (H1 & H2 & H3); [lia|].
  destruct (_ && _); [by exists None|]. destruct (negb _); [eexists; split; [done|by split]|]. apply IH. lia.
Qed.

(** What follow_dotdot gives: the dentry with a reference, NULL for staying. *)
Definition climbs (R : refs) (k : nat) (w : walk) (r : Z + Z) (w' : walk) (res : Z + (pos * Z)) : Prop :=
  match res with
  | inl e => r = inl e ∧ e ≠ 0 ∧ owned R w'
  | inr (s, d) => owned (R ⊎ {[+ inr d +]}) w' ∧ stands s k w' ∧ links (nd w') = links (nd w) ∧ d ≠ NULL ∧ ((r = inr NULL ∧ d = (at_ s).2) ∨ r = inr d)
  end.

Lemma dget_ok R w d : owned R w → owned (R ⊎ {[+ inr d +]}) (Walk (nd w) (held w ⊎ {[+ inr d +]})).
Proof. intros Ho. apply (owned_held R); [done|]. rewrite (o_held _ _ Ho). refs_eq. Qed.

Lemma in_root_ok R k s w : owned R w → stands s k w → ∃ r w', in_root w = Some (r, w') ∧ climbs R k w r w' (if has (fl s) LOOKUP_BENEATH then inl (- EXDEV) else inr (s, (at_ s).2)).
Proof.
  intros Ho Ht. unfold in_root, the, gets. rewrite st_of_bind. cbn beta iota. rewrite (t_flags _ _ _ Ht), (t_path _ _ _ Ht). destruct (has (fl s) LOOKUP_BENEATH); [do 2 eexists; split; [reflexivity|]; by split|].
  unfold dget, hold, modify. rewrite st_of_bind. cbn beta iota. do 2 eexists. split; [reflexivity|]. split; [by apply dget_ok|]. split; [by apply stands_held|]. split; [done|]. split; [apply Ht|by left].
Qed.

Lemma parent_of_ok R k s w : owned R w → stands s k w → ∃ r w', parent_of ns w = Some (r, w') ∧
  climbs R k w r w' (if path_connected ns (at_ s).1 (d_parent (dent ns (at_ s).2)) then inr (s, d_parent (dent ns (at_ s).2)) else inl (- ENOENT)).
Proof.
  intros Ho Ht. unfold parent_of, the, gets. rewrite st_of_bind. cbn beta iota. rewrite (t_path _ _ _ Ht). set (d := d_parent (dent ns (at_ s).2)). pose proof (s_parent _ _ _ _ S (at_ s).2 : d ≠ NULL) as Hd. unfold dget, hold, modify. rewrite st_of_bind. cbn beta iota.
  destruct (path_connected ns (at_ s).1 d); cbn [negb].
  - do 2 eexists. split; [reflexivity|]. split; [by apply dget_ok|]. split; [by apply stands_held|]. split; [done|]. split; [done|by right].
  - unfold dput. rewrite (proj2 (Z.eqb_neq _ _) Hd). rewrite (st_bind_step _ _ _ _ _ (drop_ok (inr d) (held w) (Walk (nd w) (held w ⊎ {[+ inr d +]})) ltac:(reflexivity))). do 2 eexists. split; [reflexivity|]. split; [done|split; [done|]]. cbn [nd]. by destruct w.
Qed.

Lemma follow_dotdot_ok R k s w : owned R w → stands s k w → ∃ r w', follow_dotdot ns mfuel w = Some (r, w') ∧ climbs R k w r w' (up ns mfuel s).
Proof.
  intros Ho Ht. unfold follow_dotdot, up, the, gets. cbv zeta. rewrite st_of_bind. cbn beta iota. rewrite (t_path _ _ _ Ht), (t_root _ _ _ Ht), (t_flags _ _ _ Ht). destruct (bool_decide _); [by apply in_root_ok|].
  destruct (_ =? mnt_root _); [|by apply parent_of_ok]. destruct (choose_mountpoint_ok mfuel (at_ s).1 (rt s) (s_pile _ _ _ _ S _)) as (c & Ec & Hc). unfold choose_mountpoint. rewrite Ec, st_bind_assoc, (lift_step _ _ _ c) by done.
  destruct c as [p|]; [|rewrite st_of_bind; by apply in_root_ok]. rewrite st_bind_assoc, (st_bind_step _ _ _ _ _ (path_get_ok p w)), st_of_bind. cbn beta iota.
  set (w1 := Walk (nd w) (held w ⊎ grip p)). pose proof (put_path_ok (R ⊎ grip p) w1 ltac:(apply (owned_held R); [done|rewrite (o_held _ _ Ho); refs_eq]) (path_real _ _ _ (stands_held _ _ _ _ Ht))) as Ep. cbn [w1 nd] in Ep. rewrite (t_path _ _ _ Ht) in Ep.
  unfold mret at 1, st_ret at 1. cbn beta iota. rewrite (st_bind_step _ _ _ _ _ Ep). unfold on, modify. rewrite st_of_bind. cbn beta iota. cbn [nd held].
  assert (owned R (Walk (set_path p (nd w)) (R ⊎ grip p ⊎ others (nd w)))) as Ho'. { apply (owned_moved R (Walk (nd w) (R ⊎ own_refs (nd w))) p (state (nd w))); [by apply (owned_held R)|done|done|cbn [nd]; refs_eq]. }
  assert (stands (move p (jmp s) s) k (Walk (set_path p (nd w)) (R ⊎ grip p ⊎ others (nd w)))) as Ht' by (apply (stands_moved s k w p (state (nd w))); [done|done|done|apply Ht]).
  destruct (has (fl s) LOOKUP_NO_XDEV); [do 2 eexists; split; [reflexivity|]; by split|]. exact (parent_of_ok R k _ _ Ho' Ht').
Qed.

(** After a lookup nothing has changed but that a dentry is held. *)
Definition finds (R : refs) (w : walk) (r : Z + Z) (w' : walk) (res : Z + Z) : Prop :=
  nd w' = nd w ∧ match res with inl e => r = inl e ∧ e ≠ 0 ∧ owned R w' | inr d => r = inr d ∧ d ≠ NULL ∧ owned (R ⊎ {[+ inr d +]}) w' end.

Lemma lookup_slow_ok R k s w c : owned R w → stands s k w → last (nd w) = c →
  ∃ r w', lookup_slow ns w = Some (r, w') ∧ finds R w r w' (if i_dead (d_inode (dent ns (at_ s).2)) then inl (- ENOENT) else lookup ns (at_ s).2 c (fl s)).
Proof.
  intros Ho Ht Hc. unfold lookup_slow, the, gets. rewrite st_of_bind. cbn beta iota. rewrite (t_path _ _ _ Ht), (t_flags _ _ _ Ht), Hc. destruct (i_dead _); [do 2 eexists; split; [reflexivity|]; by split_and!|].
  destruct (lookup ns (at_ s).2 c (fl s)) as [e|d] eqn:E; [do 2 eexists; split; [reflexivity|]; pose proof (s_not_found _ _ _ _ S _ _ _ _ E); split_and!; [done|done|lia|done]|].
  unfold dget, hold, modify. rewrite st_of_bind. cbn beta iota. do 2 eexists. split; [reflexivity|]. split_and!; [done|done|by eapply (s_found _ _ _ _ S)|by apply dget_ok].
Qed.

Lemma child_ok R k s w c : owned R w → stands s k w → last (nd w) = c → ∃ r w',
  (r ← lookup_fast ns; match r with inl e => mret (inl e) | inr d => if d =? NULL then lookup_slow ns else mret (inr d) end) w = Some (r, w') ∧ finds R w r w' (child ns (fl s) (at_ s).2 c).
Proof.
  intros Ho Ht Hc. unfold lookup_fast, child, the, gets. cbv zeta. rewrite st_bind_assoc, st_of_bind. cbn beta iota. rewrite (t_path _ _ _ Ht), (t_flags _ _ _ Ht), Hc. destruct (d_lookup ns (at_ s).2 c) as [e|] eqn:E; [|rewrite st_of_bind; by apply (lookup_slow_ok R k)].
  pose proof (s_cached _ _ _ _ S _ _ _ E) as He. rewrite st_bind_assoc. unfold dget, hold, modify. rewrite st_of_bind. cbn beta iota.
  destruct (Z.leb_spec (d_revalidate ns e (fl s)) 0) as [Hl|Hl].
  - rewrite st_bind_assoc. unfold dput. rewrite (proj2 (Z.eqb_neq _ _) He). rewrite (st_bind_step _ _ _ _ _ (drop_ok (inr e) (held w) (Walk (nd w) (held w ⊎ {[+ inr e +]})) ltac:(reflexivity))). cbn [nd]. rewrite eta_walk, st_of_bind. cbn beta iota.
    destruct (Z.eqb_spec (d_revalidate ns e (fl s)) 0); [by apply (lookup_slow_ok R k)|]. do 2 eexists. split; [reflexivity|]. by split_and!.
  - rewrite mret_bind. rewrite (proj2 (Z.eqb_neq _ _) He). do 2 eexists. split; [reflexivity|]. split_and!; [done|done|done|by apply dget_ok].
Qed.

Lemma into_nofollow more s d : into more s d false true = match enter_dir ns mfuel s d with inl e => inl e | inr s => inr (Moved s) end.
Proof. unfold into, enter_dir. destruct (enter ns mfuel s d) as [|[q j]]; [done|]. by rewrite orb_true_r. Qed.

Lemma dotdot_ok R k s w : owned R w → stands s k w → ∃ r w', handle_dots ns mfuel LAST_DOTDOT w = Some (r, w') ∧
  stepped_ok R k (links (nd w)) r w' match know_root ns s with inl e => inl e | inr s => match above ns mfuel s with inl e => inl e | inr s => inr (Moved s) end end.
Proof.
  intros Ho Ht. unfold handle_dots. cbn [Z.eqb LAST_DOTDOT Pos.eqb]. unfold the, gets. rewrite st_of_bind. cbn beta iota. rewrite (t_root _ _ _ Ht).
  assert (runs R k (if (rt s).1 =? NULL then set_root ns else mret 0) w (know_root ns s)) as (e & w1 & E & Ho1 & H).
  { destruct ((rt s).1 =? NULL) eqn:En; [by apply set_root_ok, Z.eqb_eq|]. unfold know_root. rewrite En. exists 0, w. by split_and!. }
  rewrite (st_bind_step _ _ _ _ _ E). destruct (know_root ns s) as [e'|s1].
  { destruct H as [-> He]. rewrite (proj2 (Z.eqb_neq _ _) He). exists (inl e'), w1. split; [done|]. by split. }
  destruct H as (-> & Ht1 & Hr). pose proof (f_equal (λ r, r.1.2) Hr : links (nd w1) = links (nd w)) as El. change (negb (0 =? 0)) with false. cbn iota.
  destruct (follow_dotdot_ok R k s1 w1 Ho1 Ht1) as (r & w2 & E2 & H2). rewrite (st_bind_step _ _ _ _ _ E2). unfold above. destruct (up ns mfuel s1) as [e'|[s2 d]].
  { destruct H2 as (-> & He & Ho2). exists (inl e'), w2. split; [done|]. by split. }
  destruct H2 as (Ho2 & Ht2 & El2 & Hd & Hs). destruct (step_into_ok R k s2 w2 d WALK_NOFOLLOW Ho2 Ht2 Hd ltac:(done)) as (r' & w' & E3 & [H3|[H3 _]]); [|done]. exists r', w'.
  change (has WALK_NOFOLLOW WALK_TRAILING) with false in H3. change (has WALK_NOFOLLOW WALK_NOFOLLOW) with true in H3. rewrite into_nofollow in H3. rewrite El2, El in H3. split; [|exact H3].
  rewrite <-E3. destruct Hs as [[-> ->]| ->]; rewrite st_of_bind; cbn beta iota; [by rewrite (t_path _ _ _ Ht2)|by rewrite (proj2 (Z.eqb_neq _ _) Hd)].
Qed.

(** Popping the link whose last component is walked. *)
Lemma pop_ok R w (more : bool) : owned R w → ∃ h, let ls := if more then links (nd w) else tail (links (nd w)) in
  (if negb more && negb (match links (nd w) with [] => true | _ => false end) then put_link else mret tt) w = Some (tt, Walk (set_links ls (nd w)) h) ∧ owned R (Walk (set_links ls (nd w)) h).
Proof.
  intros Ho. destruct (links (nd w)) as [|l ls] eqn:E, more; cbn [negb andb tail]; try (exists (held w); unfold mret, st_ret; rewrite <-E; split; [by destruct w as [[] ?]|by destruct w as [[] ?]]).
  by apply put_link_ok with l.
Qed.

Lemma into_component more s c trailing : component_type c = LAST_NORM → component ns mfuel more s c trailing =
  match child ns (fl s) (at_ s).2 c with inl e => inl e | inr d => into more s d trailing false end.
Proof. intros Hc. unfold component, into. cbv zeta. rewrite Hc. cbn [Z.eqb LAST_NORM LAST_DOT LAST_DOTDOT]. destruct (child _ _ _ _); [done|]. destruct (enter _ _ _ _) as [|[q j]]; [done|]. by rewrite orb_false_r. Qed.

Lemma component_types c : component_type c = LAST_DOTDOT ∨ component_type c = LAST_DOT ∨ component_type c = LAST_NORM.
Proof. unfold component_type. destruct (bool_decide _); [by left|]. destruct (bool_decide _); [by right; left|by right; right]. Qed.

Lemma walk_component_ok R k s w c wflags : owned R w → stands s k w → last (nd w) = c → last_type (nd w) = component_type c → has wflags WALK_NOFOLLOW = false → (has wflags WALK_TRAILING = true → dir_matches s (nd w)) →
  ∃ r w', walk_component ns mfuel wflags w = Some (r, w') ∧
    (stepped_ok R k (if has wflags WALK_MORE then links (nd w) else tail (links (nd w))) r w' (component ns mfuel (0 <? Z.of_nat k) s c (has wflags WALK_TRAILING)) ∨ r = inl (- ENOMEM) ∧ starved R w').
Proof.
  intros Ho Ht Hc Hty Hnf Hdir. unfold walk_component, the, gets. rewrite st_of_bind. cbn beta iota. rewrite Hty. destruct (component_types c) as [Ec|[Ec|Ec]]; rewrite Ec; cbn [Z.eqb LAST_NORM LAST_DOT LAST_DOTDOT negb].
  - destruct (pop_ok R w (has wflags WALK_MORE) Ho) as (h & E & Ho'). rewrite (st_bind_step _ _ _ _ _ E). destruct (dotdot_ok R k s _ Ho' (stands_links _ _ _ _ _ Ht)) as (r & w' & E2 & H). exists r, w'. split; [exact E2|]. left. unfold component. cbv zeta. rewrite Ec. exact H.
  - destruct (pop_ok R w (has wflags WALK_MORE) Ho) as (h & E & Ho'). rewrite (st_bind_step _ _ _ _ _ E). do 2 eexists. split; [reflexivity|]. unfold component. cbv zeta. rewrite Ec. left. split; [done|]. split; [done|]. split; [by apply stands_links|done].
  - rewrite (into_component _ _ _ _ Ec). destruct (child_ok R k s w c Ho Ht Hc) as (r & w1 & E & En & H). rewrite <-st_bind_assoc, (st_bind_step _ _ _ _ _ E). destruct (child ns (fl s) (at_ s).2 c) as [e|d].
    { destruct H as (-> & He & Ho'). exists (inl e), w1. split; [done|]. left. by split. }
    destruct H as (-> & Hd & Ho1). rewrite <-En. destruct (pop_ok _ w1 (has wflags WALK_MORE) Ho1) as (h & E1 & Ho2). rewrite (st_bind_step _ _ _ _ _ E1). set (w2 := Walk _ h) in *.
    assert (stands s k w2) as Ht2 by (apply (stands_links s k w1); destruct w1, w; cbn in En; subst; by apply (stands_held s k (Walk _ held1))).
    destruct (step_into_ok R k s w2 d wflags Ho2 Ht2 Hd) as (r & w' & E2 & H2); [intros Hw; specialize (Hdir Hw); rewrite <-En in Hdir; exact Hdir|]. exists r, w'. split; [exact E2|]. rewrite Hnf in H2. destruct H2 as [H2|[_ H2]]; [left; exact H2|by right].
Qed.

(** ** Names *)

Definition clean (s : list Z) : Prop := ∃ c t, s = c :: t ∧ c ≠ SLASH.

Lemma comps_from_cons x c s : comps_from (x :: c) s = ((x :: c) ++ take (name_len s) s) :: comps (drop (name_len s) s).
Proof.
  revert x c. induction s as [|y s IH]; intros x c; [cbn; by rewrite app_nil_r|]. cbn [comps_from name_len]. destruct (Z.eqb_spec y SLASH) as [->|Hy].
  - cbn [take drop]. rewrite app_nil_r. unfold comps at 1. cbn [comps_from]. done.
  - change ((x :: c) ++ [y]) with (x :: (c ++ [y])). rewrite IH. cbn [take drop app]. by rewrite <-app_assoc.
Qed.

Lemma comps_clean s : clean s → comps s = take (name_len s) s :: comps (drop (name_len s) s).
Proof. intros (c & t & -> & Hc). unfold comps at 1. cbn [comps_from name_len]. rewrite (proj2 (Z.eqb_neq _ _) Hc). exact (comps_from_cons c [] t). Qed.

Lemma comps_skip s : comps (skip_slashes s) = comps s.
Proof. induction s as [|c s IH]; [done|]. cbn [skip_slashes]. destruct (Z.eqb_spec c SLASH) as [->|]; [|done]. by rewrite IH. Qed.

Lemma skip_clean s : skip_slashes s = [] ∨ clean (skip_slashes s).
Proof. pose proof (skip_slashes_head s). destruct (skip_slashes s) as [|c t]; [by left|right; by exists c, t]. Qed.

Lemma clean_comps s : clean s → comps s ≠ [].
Proof. intros Hs. by rewrite comps_clean. Qed.

Lemma skip_suffix s : ∃ p, s = p ++ skip_slashes s ∧ Forall (eq SLASH) p.
Proof.
  induction s as [|c s (p & E & Hp)]; [by exists []|]. cbn [skip_slashes]. destruct (Z.eqb_spec c SLASH) as [->|]; [|by exists []].
  exists (SLASH :: p). split; [by rewrite E at 1|by constructor].
Qed.

Lemma ends_slash_app a b : b ≠ [] → ends_slash (a ++ b) = ends_slash b.
Proof. intros Hb. unfold ends_slash. rewrite last_app. destruct (list.last b) eqn:E; [done|]. by apply last_None in E. Qed.

Lemma ends_slash_skip s : skip_slashes s ≠ [] → ends_slash (skip_slashes s) = ends_slash s.
Proof. intros Hs. destruct (skip_suffix s) as (p & E & _). rewrite E at 2. by rewrite ends_slash_app. Qed.

Lemma name_no_slash s : ends_slash (take (name_len s) s) = false.
Proof.
  assert (Forall (λ c, c ≠ SLASH) (take (name_len s) s)) as Hf.
  { induction s as [|c s IH]; [constructor|]. cbn [name_len]. destruct (Z.eqb_spec c SLASH); [constructor|by constructor]. }
  unfold ends_slash. destruct (list.last _) as [x|] eqn:E; [|done]. apply last_Some_elem_of in E. apply Z.eqb_neq. rewrite Forall_forall in Hf. exact (Hf x (proj1 (list_elem_of_In _ _) E)).
Qed.

(** A slash at the end of a string: behind its last component. *)
Lemma ends_slash_rest s : clean s → let r := drop (name_len s) s in
  if skip_slashes r is [] then ends_slash s = match r with [] => false | _ => true end else ends_slash s = ends_slash (skip_slashes r).
Proof.
  intros Hs r. assert (s = take (name_len s) s ++ r) as E by (symmetry; apply take_drop). destruct (skip_slashes r) as [|c t] eqn:Er.
  - destruct r as [|c t] eqn:Ed; [rewrite E, app_nil_r; apply name_no_slash|]. rewrite E, ends_slash_app by done. destruct (skip_suffix (c :: t)) as (p & Ep & Hp). rewrite Er, app_nil_r in Ep. rewrite <-Ep in Hp.
    unfold ends_slash. destruct (list.last (c :: t)) as [x|] eqn:El; [|by apply last_None in El]. apply last_Some_elem_of in El. apply Z.eqb_eq. symmetry. rewrite Forall_forall in Hp. exact (Hp x (proj1 (list_elem_of_In _ _) El)).
  - rewrite <-Er, ends_slash_skip by (by rewrite Er). rewrite E at 1. apply ends_slash_app. intros H. by rewrite H in Er.
Qed.

(** What is left to walk: the name and the rests on the stack. *)
Definition pending (name : list Z) (names : list (list Z)) : list (list Z) := comps name ++ concat (map comps names).
Definition tail_of (name : list Z) (names : list (list Z)) : bool := ends_slash (default name (list.last names)).

Lemma resolve_cons k s tail c cs : resolve ns mfuel k s tail (c :: cs) =
  match search ns s c with
  | inl e => inl e
  | inr s =>
      let last := match cs with [] => true | _ => false end in
      let s := if last then with_flags (last_flags tail c (fl s)) s else s in
      match component ns mfuel (0 <? Z.of_nat k) s c last, k with
      | inl e, _ => inl e
      | inr (Moved s), _ => go_on ns s tail last (resolve ns mfuel k s tail cs)
      | inr (Jumped s), Datatypes.S k => go_on ns s tail last (resolve ns mfuel k s tail cs)
      | inr (Follow s t), Datatypes.S k =>
          let s := if last then with_flags (Z.lor (fl s) LOOKUP_PARENT) s else s in
          resolve ns mfuel k s (if last then ends_slash t else tail) (comps t ++ cs)
      | _, O => inl (- ELOOP)
      end
  end.
Proof. by destruct k. Qed.

(** Texts have a bounded number of components. *)
Lemma follow_bound more s q trailing s' t : follow ns more s q trailing = inr (Follow s' t) → (length (comps t) ≤ B)%nat.
Proof.
  unfold follow. cbv zeta. destruct (negb more); [done|]. destruct (negb _); [done|]. destruct (_ || _); [done|]. destruct (negb _); [done|].
  assert (∀ u, (length (comps u) ≤ B)%nat → text_of ns s u = inr (Follow s' t) → (length (comps t) ≤ B)%nat) as Ht.
  { intros u Hu. unfold text_of. destruct u as [|c u]; [done|]. destruct (c =? SLASH); [|intros H; by simplify_eq]. destruct (jump_root ns s) as [|s1]; [done|].
    pose proof (comps_skip (c :: u)) as Ec. destruct (skip_slashes (c :: u)); intros H; simplify_eq. by rewrite Ec. }
  destruct (i_link (dent ns q.2)) as [u|] eqn:E; [apply Ht, (s_text _ _ _ _ S q.2); by left|]. destruct (get_link (dent ns q.2)) as [u|e| |p] eqn:Eg; [apply Ht, (s_text _ _ _ _ S q.2); by right|done|done|].
  by destruct (jump_link s p).
Qed.

Lemma component_bound more s c trailing s' t : component ns mfuel more s c trailing = inr (Follow s' t) → (length (comps t) ≤ B)%nat.
Proof.
  unfold component. cbv zeta. destruct (_ =? LAST_DOT); [done|]. destruct (_ =? LAST_DOTDOT); [destruct (know_root ns s) as [|s1]; [done|]; by destruct (above ns mfuel s1)|].
  destruct (child ns (fl s) (at_ s).2 c) as [|d]; [done|]. destruct (enter ns mfuel s d) as [|[q j]]; [done|]. destruct (_ || _); [done|]. apply follow_bound.
Qed.

Definition jumped_after (c : list Z) (j : bool) : bool := if component_type c =? LAST_DOTDOT then true else if component_type c =? LAST_NORM then false else j.

(** The start of a turn: the name is split, and the jump flag set or cleared. *)
Lemma turn_ok R k s w c r : owned R w → stands s k w → ∃ w1, 
  (∀ A (m : wst A), ((if component_type c =? LAST_DOTDOT then jumped_ else mret tt) ;;
   (if component_type c =? LAST_NORM then on (λ n, set_state (Z.land (state n) (Z.lnot ND_JUMPED)) n) else mret tt) ;;
   on (set_last c r (component_type c)) ;; m) w = m w1) ∧
  owned R w1 ∧ stands (move (at_ s) (jumped_after c (jmp s)) s) k w1 ∧ links (nd w1) = links (nd w) ∧ last (nd w1) = c ∧ last_more (nd w1) = r ∧ last_type (nd w1) = component_type c.
Proof.
  intros Ho Ht. set (x := if component_type c =? LAST_DOTDOT then Z.lor (state (nd w)) ND_JUMPED else if component_type c =? LAST_NORM then Z.land (state (nd w)) (Z.lnot ND_JUMPED) else state (nd w)).
  assert (has x ND_ROOT_GRABBED = has (state (nd w)) ND_ROOT_GRABBED ∧ has x ND_JUMPED = jumped_after c (jmp s)) as [Hg Hj].
  { unfold x, jumped_after. rewrite <-(t_jumped _ _ _ Ht). destruct (_ =? LAST_DOTDOT); [by rewrite grabbed_jump, jumped_jump|]. destruct (_ =? LAST_NORM); [by rewrite grabbed_clear, has_cleared|done]. }
  exists (Walk (set_last c r (component_type c) (set_state x (nd w))) (held w)).
  assert (owned R (Walk (set_state x (nd w)) (held w))) as Ho' by (by apply (owned_state R w); [..|apply (o_held _ _ Ho)]).
  pose proof (stands_state s k w x (held w) _ Ht Hg Hj) as Ht'. split; [|split_and!; try done; [by split; apply Ho'|by split; apply Ht']].
  intros A m. unfold x. destruct (component_types c) as [E|[E|E]]; rewrite E; cbn; by destruct w as [[] ?].
Qed.

Lemma search_moves s c : search ns s c = let e := inode_permission (task ns) (d_inode (dent ns (at_ s).2)) MAY_EXEC in if negb (e =? 0) then inl e else inr (move (at_ s) (jumped_after c (jmp s)) s).
Proof. done. Qed.

(** The last component, which the caller of link_path_walk walks. *)
Definition last_step (k : nat) (s : pos) (tail : bool) (c : list Z) : Z + pos :=
  let s := if (component_type c =? LAST_NORM) && tail then with_flags (Z.lor (fl s) (Z.lor LOOKUP_FOLLOW LOOKUP_DIRECTORY)) s else s in
  match component ns mfuel (0 <? Z.of_nat k) s c true, k with
  | inl e, _ => inl e
  | inr (Moved s), _ => inr s
  | inr (Jumped s), Datatypes.S _ => inr s
  | inr (Follow s t), Datatypes.S k => resolve ns mfuel k (with_flags (Z.lor (fl s) LOOKUP_PARENT) s) (ends_slash t) (comps t)
  | _, O => inl (- ELOOP)
  end.

Lemma resolve_last k s tail c : resolve ns mfuel k s tail [c] =
  match search ns s c with inl e => inl e | inr s => last_step k (with_flags (Z.land (fl s) (Z.lnot LOOKUP_PARENT)) s) tail c end.
Proof.
  rewrite resolve_cons. destruct (search ns s c) as [|s1]; [done|]. cbv zeta. unfold last_step, last_flags. cbv zeta. destruct ((component_type c =? LAST_NORM) && tail); cbn [with_flags fl at_ rt jmp];
  (destruct (component ns mfuel (0 <? Z.of_nat k) _ c true) as [|[s2|s2|s2 t]]; [done|done|by destruct k|destruct k; [done|by rewrite app_nil_r]]).
Qed.

(** Where a walk ends that has no memory. *)
Definition ended (R : refs) (w' : walk) (e : Z) : Prop := e = - ENOMEM ∧ starved R w'.

(** Where link_path_walk stops: before the last component, with its directory remembered. *)
Definition walked (R : refs) (K : nat) (L : list path) (w' : walk) (e : Z) (tail : bool) (res : Z + pos) : Prop :=
  owned R w' ∧ match e =? 0 with
  | false => res = inl e
  | true => ∃ s k c, (k ≤ K)%nat ∧ stands s k w' ∧ links (nd w') = L ∧ last (nd w') = c ∧ last_type (nd w') = component_type c ∧ dir_matches s (nd w') ∧
      tail = (match last_more (nd w') with [] => false | _ => true end) ∧ res = last_step k s tail c
  end.

Lemma walked_error R K L w e tail : owned R w → e ≠ 0 → walked R K L w e tail (inl e).
Proof. intros Ho He. split; [done|]. by rewrite (proj2 (Z.eqb_neq _ _) He). Qed.

Lemma walked_more R K K' L w e tail res : walked R K L w e tail res → (K ≤ K')%nat → walked R K' L w e tail res.
Proof. intros [Ho H] Hk. split; [done|]. destruct (e =? 0); [|done]. destruct H as (s & k & c & Hl & H). exists s, k, c. split; [lia|done]. Qed.

Lemma tail_of_next name r names : clean name → skip_slashes (drop (name_len name) name) = r → r ≠ [] → tail_of name names = tail_of r names.
Proof. intros Hc Hr Hn. unfold tail_of. destruct (list.last names); [done|]. cbn. pose proof (ends_slash_rest name Hc) as H. cbn zeta in H. rewrite Hr in H. by destruct r. Qed.

Lemma tail_of_cons t next names : tail_of t (next :: names) = tail_of next names.
Proof. unfold tail_of. by rewrite last_cons; destruct (list.last names). Qed.

(** One component that is not the last, and the walk behind it. *)
Lemma walk_on_ok fuel R L next names k s w c wflags ls : 
  (∀ k s w name names ls, owned R w → stands s k w → links (nd w) = ls ++ L → length ls = length names → clean name → Forall clean names → (length (pending name names) + k * B < fuel)%nat →
     ∃ e w', walk_loop ns fuel mfuel name names w = Some (e, w') ∧ (walked R k L w' e (tail_of name names) (resolve ns mfuel k s (tail_of name names) (pending name names)) ∨ ended R w' e)) →
  owned R w → stands s k w → last (nd w) = c → last_type (nd w) = component_type c → wflags = 0 ∨ wflags = WALK_MORE →
  (if has wflags WALK_MORE then links (nd w) else tail (links (nd w))) = ls ++ L → length ls = length names → clean next → Forall clean names → (length (pending next names) + k * B < fuel)%nat →
  ∃ e w', (link ← walk_component ns mfuel wflags;
           match link with
           | inl e => mret e
           | inr (Some link) => walk_loop ns fuel mfuel link (next :: names)
           | inr None => n ← the; if d_can_lookup ns (nd_path n).2 then walk_loop ns fuel mfuel next names else mret (- ENOTDIR)
           end) w = Some (e, w') ∧
    (walked R k L w' e (tail_of next names)
      match component ns mfuel (0 <? Z.of_nat k) s c false, k with
      | inl e, _ => inl e
      | inr (Moved s), _ => go_on ns s (tail_of next names) false (resolve ns mfuel k s (tail_of next names) (pending next names))
      | inr (Jumped s), Datatypes.S k => go_on ns s (tail_of next names) false (resolve ns mfuel k s (tail_of next names) (pending next names))
      | inr (Follow s t), Datatypes.S k => resolve ns mfuel k s (tail_of next names) (comps t ++ pending next names)
      | _, O => inl (- ELOOP)
      end ∨ ended R w' e).
Proof.
  intros IH Ho Ht Hc Hty Hw Hls Hlen Hcl Hcls Hf. assert (has wflags WALK_TRAILING = false ∧ has wflags WALK_NOFOLLOW = false) as [Hw1 Hw2] by (by destruct Hw as [-> | ->]).
  destruct (walk_component_ok R k s w c wflags Ho Ht Hc Hty Hw2 ltac:(by rewrite Hw1)) as (r & w1 & E & [[Ho1 H]|[-> Hs]]); rewrite (st_bind_step _ _ _ _ _ E); [|exists (- ENOMEM), w1; split; [done|]; by right]. rewrite Hw1, Hls in H.
  assert (∀ s1 k1 w2, owned R w2 → stands s1 k1 w2 → links (nd w2) = ls ++ L → (k1 ≤ k)%nat → ∃ e w', (n ← the; if d_can_lookup ns (nd_path n).2 then walk_loop ns fuel mfuel next names else mret (- ENOTDIR)) w2 = Some (e, w') ∧
    (walked R k L w' e (tail_of next names) (go_on ns s1 (tail_of next names) false (resolve ns mfuel k1 s1 (tail_of next names) (pending next names))) ∨ ended R w' e)) as Hon.
  { intros s1 k1 w2 Ho2 Ht2 El Hk. unfold the, gets. rewrite st_of_bind. cbn beta iota. rewrite (t_path _ _ _ Ht2). unfold go_on. destruct (d_can_lookup ns (at_ s1).2); [destruct (IH k1 s1 w2 next names ls) as (e & w' & E' & H'); [done|done|done|done|done|done|nia|]; exists e, w'; split; [done|]; destruct H' as [H'|H']; [left; by apply (walked_more _ k1)|by right]|].
    exists (- ENOTDIR), w2. split; [done|]. left. by apply walked_error. }
  destruct (component ns mfuel (0 <? Z.of_nat k) s c false) as [e|[s1|s1|s1 t]] eqn:Ec.
  - destruct H as [-> He]. exists e, w1. split; [done|]. left. by apply walked_error.
  - destruct H as (-> & Ht1 & El). by apply Hon.
  - destruct H as (-> & Ht1 & El & Hk). destruct k as [|k]; [done|]. cbn [pred] in Ht1. apply Hon; [done|done|done|lia].
  - destruct H as (-> & Ht1 & (q & El) & Hk & Hcl1). destruct k as [|k]; [done|]. cbn [pred] in Ht1. pose proof (component_bound _ _ _ _ _ _ Ec) as Hb.
    destruct (IH k s1 w1 t (next :: names) (q :: ls)) as (e & w' & E' & H'); [done|done|by rewrite El|cbn; by f_equal|done|by constructor| |].
    + unfold pending in *. cbn [map concat]. rewrite !length_app in *. nia.
    + exists e, w'. split; [done|]. rewrite tail_of_cons in H'. destruct H' as [H'|H']; [left; apply (walked_more _ k); [done|lia]|by right].
Qed.

Lemma pending_cons name names : clean name → pending name names = take (name_len name) name :: pending (skip_slashes (drop (name_len name) name)) names.
Proof. intros Hc. unfold pending. by rewrite comps_skip, (comps_clean name Hc). Qed.

Lemma pending_nil names : Forall clean names → pending [] names = [] ↔ names = [].
Proof. intros Hf. split; [|by intros ->]. destruct Hf as [|x l Hx _]; [done|]. unfold pending. cbn. intros E. apply app_eq_nil in E as [E _]. by apply clean_comps in E. Qed.

(** Before the last component. *)
Lemma stop_ok R k s w : owned R w → stands s k w → ∃ w',
  (n ← the; on (set_dir (i_uid (d_inode (dent ns (nd_path n).2))) (i_uid_valid (d_inode (dent ns (nd_path n).2))) (i_mode (d_inode (dent ns (nd_path n).2)))) ;;
   on (λ n, set_flags (Z.land (flags n) (Z.lnot LOOKUP_PARENT)) n) ;; mret 0) w = Some (0, w') ∧
  owned R w' ∧ stands (with_flags (Z.land (fl s) (Z.lnot LOOKUP_PARENT)) s) k w' ∧ links (nd w') = links (nd w) ∧ last (nd w') = last (nd w) ∧ last_more (nd w') = last_more (nd w) ∧ last_type (nd w') = last_type (nd w) ∧
  dir_matches (with_flags (Z.land (fl s) (Z.lnot LOOKUP_PARENT)) s) (nd w').
Proof.
  intros Ho Ht. eexists. split; [reflexivity|]. split_and!; try done; [by split; apply Ho| |].
  - split; try apply Ht. cbn. by rewrite (t_flags _ _ _ Ht).
  - unfold dir_matches. cbn. by rewrite <-(t_path _ _ _ Ht).
Qed.

Lemma walk_loop_ok fuel : ∀ R L k s w name names ls, owned R w → stands s k w → links (nd w) = ls ++ L → length ls = length names → clean name → Forall clean names → (length (pending name names) + k * B < fuel)%nat →
  ∃ e w', walk_loop ns fuel mfuel name names w = Some (e, w') ∧ (walked R k L w' e (tail_of name names) (resolve ns mfuel k s (tail_of name names) (pending name names)) ∨ ended R w' e).
Proof.
  induction fuel as [|fuel IH]; intros R L k s w name names ls Ho Ht El Hlen Hcl Hcls Hf; [lia|]. cbn [walk_loop]. cbv zeta.
  assert (may_lookup ns w = Some (inode_permission (task ns) (d_inode (dent ns (at_ s).2)) MAY_EXEC, w)) as Em by (by rewrite <-(t_path _ _ _ Ht)). rewrite (st_bind_step _ _ _ _ _ Em).
  rewrite (pending_cons _ _ Hcl) in *. set (c := take (name_len name) name) in *. pose proof (search_moves s c) as Es. cbv zeta in Es. set (e := inode_permission _ _ _) in *.
  destruct (Z.eqb_spec e 0) as [He|He]; cbn [negb] in *; [|exists e, w; split; [done|]; rewrite resolve_cons, Es; left; by apply walked_error].
  destruct (turn_ok R k s w c (drop (name_len name) name) Ho Ht) as (w1 & Hrun & Ho1 & Ht1 & El1 & Hl1 & Hm1 & Hty1).
  rewrite Hrun. set (s1 := move _ _ s) in *. set (r := skip_slashes (drop (name_len name) name)) in *. cbn [length] in Hf.
  assert (clean r ∨ r = []) as Hr by (destruct (skip_clean (drop (name_len name) name)); [by right|by left]).
  destruct (decide (r = [] ∧ names = [])) as [[Er ->]|Hne].
  - destruct ls; [|done]. unfold pending. rewrite Er. cbn [comps comps_from map concat app]. rewrite resolve_last, Es. unfold tail_of. cbn [list.last default].
    pose proof (ends_slash_rest name Hcl) as Htl. cbv zeta in Htl. fold r in Htl. rewrite Er in Htl. rewrite <-Hm1 in Htl. rewrite Htl.
    destruct (stop_ok R k s1 w1 Ho1 Ht1) as (w' & E & Ho' & Ht' & El' & Hl' & Hm' & Hty' & Hd'). exists 0, w'. split; [exact E|]. left. split; [done|]. cbn [Z.eqb].
    exists (with_flags (Z.land (fl s1) (Z.lnot LOOKUP_PARENT)) s1), k, c. rewrite Hm'. split_and!; [done|done|by rewrite El', El1|congruence|congruence|done|done|done].
  - rewrite resolve_cons, Es.
    assert ((match pending r names with [] => true | _ => false end) = false) as ->.
    { destruct (pending r names) eqn:E; [|done]. destruct Hne. unfold pending in E. apply app_eq_nil in E as [E1 E2]. destruct Hr as [Hr|Hr]; [by apply clean_comps in E1|]. split; [done|]. apply (pending_nil names Hcls). unfold pending. by rewrite E2. }
    cbv zeta iota. destruct r as [|a t] eqn:Er.
    + destruct names as [|next names]; [by destruct Hne|]. destruct ls as [|l ls]; [done|]. apply Forall_cons_1 in Hcls as [Hn Hcls]. rewrite tail_of_cons. apply (walk_on_ok fuel R L next names k s1 w1 c 0 ls); try done.
      * intros. by eapply IH.
      * by left.
      * change (has 0 WALK_MORE) with false. cbn iota. by rewrite El1, El.
      * cbn in Hlen. lia.
      * unfold pending in *. cbn in Hf. lia.
    + rewrite (tail_of_next name (a :: t) names Hcl Er) by done. apply (walk_on_ok fuel R L (a :: t) names k s1 w1 c WALK_MORE ls); try done.
      * intros. by eapply IH.
      * by right.
      * change (has WALK_MORE WALK_MORE) with true. cbn iota. by rewrite El1.
      * by destruct Hr.
      * lia.
Qed.

Lemma last_ok R k s w c tail : owned R w → stands s k w → last (nd w) = c → last_type (nd w) = component_type c → dir_matches s (nd w) → tail = (match last_more (nd w) with [] => false | _ => true end) →
  let s' := if (component_type c =? LAST_NORM) && tail then with_flags (Z.lor (fl s) (Z.lor LOOKUP_FOLLOW LOOKUP_DIRECTORY)) s else s in
  ∃ r w', lookup_last ns mfuel w = Some (r, w') ∧ (stepped_ok R k (list.tail (links (nd w))) r w' (component ns mfuel (0 <? Z.of_nat k) s' c true) ∨ r = inl (- ENOMEM) ∧ starved R w').
Proof.
  intros Ho Ht Hc Hty Hd -> s'. unfold lookup_last, the, gets. rewrite st_of_bind. cbn beta iota. rewrite Hty.
  assert (∃ w1, (if (component_type c =? LAST_NORM) && match last_more (nd w) with [] => false | _ => true end then on (λ n, set_flags (Z.lor (flags n) (Z.lor LOOKUP_FOLLOW LOOKUP_DIRECTORY)) n) else mret tt) w = Some (tt, w1) ∧
    owned R w1 ∧ stands s' k w1 ∧ last (nd w1) = c ∧ last_type (nd w1) = component_type c ∧ dir_matches s' (nd w1) ∧ links (nd w1) = links (nd w)) as (w1 & E & Ho1 & Ht1 & Hc1 & Hty1 & Hd1 & El).
  { unfold s'. destruct (_ && _); eexists; (split; [reflexivity|]); split_and!; try done; [by split; apply Ho|]. split; try apply Ht. cbn. by rewrite (t_flags _ _ _ Ht). }
  rewrite (st_bind_step _ _ _ _ _ E). destruct (walk_component_ok R k s' w1 c WALK_TRAILING Ho1 Ht1 Hc1 Hty1 ltac:(done) ltac:(done)) as (r & w' & E' & H). exists r, w'. split; [done|]. by rewrite <-El.
Qed.

Lemma link_path_walk_ok fuel R L k s w name : owned R w → stands s k w → links (nd w) = L → clean (skip_slashes name) → (length (comps name) + k * B < fuel)%nat →
  ∃ e w', link_path_walk ns fuel mfuel (inr name) w = Some (e, w') ∧ (walked R k L w' e (ends_slash name) (resolve ns mfuel k (with_flags (Z.lor (fl s) LOOKUP_PARENT) s) (ends_slash name) (comps name)) ∨ ended R w' e).
Proof.
  intros Ho Ht El Hc Hf. unfold link_path_walk, on, modify. rewrite st_of_bind. cbn beta iota. rewrite st_of_bind. cbn beta iota. cbn [nd held]. set (w1 := Walk _ _).
  assert (owned R w1) as Ho1 by (by split; apply Ho). assert (stands (with_flags (Z.lor (fl s) LOOKUP_PARENT) s) k w1) as Ht1 by (split; try apply Ht; cbn; by rewrite (t_flags _ _ _ Ht)).
  assert (skip_slashes name ≠ []) as Hn by (by destruct Hc as (a & t & -> & _)). destruct (walk_loop_ok fuel R L k _ w1 (skip_slashes name) [] [] Ho1 Ht1) as (e & w' & E & H); [done|done|done|constructor|unfold pending; cbn [map concat]; rewrite app_nil_r, comps_skip; lia|].
  unfold pending, tail_of in H. cbn [map concat list.last default] in H. rewrite app_nil_r, comps_skip, (ends_slash_skip _ Hn) in H. exists e, w'. split; [|done]. rewrite <-E. by destruct (skip_slashes name).
Qed.

Lemma lookup_loop_error tfuel fuel R w e : owned R w → e ≠ 0 → ∃ w', lookup_loop ns (Datatypes.S tfuel) fuel mfuel (inl e) w = Some (e, w') ∧ owned R w'.
Proof.
  intros Ho He. cbn [lookup_loop]. unfold link_path_walk, on, modify. exists (Walk (set_flags (Z.lor (flags (nd w)) LOOKUP_PARENT) (set_type LAST_ROOT (nd w))) (held w)). split.
  - rewrite st_bind_assoc, st_of_bind. cbn beta iota. rewrite st_bind_assoc, st_of_bind. cbn beta iota. rewrite mret_bind. rewrite (proj2 (Z.eqb_neq _ _) He). reflexivity.
  - by split; apply Ho.
Qed.

(** An empty name leaves the walk where it starts. *)
Lemma lookup_loop_empty tfuel fuel R k s w name : owned R w → stands s k w → links (nd w) = [] → skip_slashes name = [] →
  ∃ w', lookup_loop ns (Datatypes.S tfuel) fuel mfuel (inr name) w = Some (0, w') ∧ owned R w' ∧ stands (with_flags (Z.lor (fl s) LOOKUP_PARENT) s) k w' ∧ links (nd w') = [].
Proof.
  intros Ho Ht El En. cbn [lookup_loop]. unfold link_path_walk. rewrite En. eexists. split.
  - unfold on, modify, the, gets, lookup_last, walk_component, mret, st_ret, mbind, st_bind. cbn -[Z.lor LOOKUP_PARENT walk_component handle_dots]. rewrite El. cbn -[Z.lor LOOKUP_PARENT]. reflexivity.
  - split_and!; [by split; apply Ho| |done]. split; try apply Ht. cbn. by rewrite (t_flags _ _ _ Ht).
Qed.

Definition done_at (R : refs) (w' : walk) (e : Z) (res : Z + pos) : Prop :=
  owned R w' ∧ match res with inl e' => e = e' ∧ e ≠ 0 | inr s => e = 0 ∧ links (nd w') = [] ∧ ∃ k, stands s k w' end.

Lemma lookup_loop_ok tfuel : ∀ fuel R k s w name, owned R w → stands s k w → links (nd w) = [] ∨ (clean name ∧ ∃ q, links (nd w) = [q]) → (length (comps name) + k * B < fuel)%nat → (B + k * B < fuel)%nat → (k + 2 ≤ tfuel)%nat →
  ∃ e w', lookup_loop ns tfuel fuel mfuel (inr name) w = Some (e, w') ∧ (done_at R w' e (resolve ns mfuel k (with_flags (Z.lor (fl s) LOOKUP_PARENT) s) (ends_slash name) (comps name)) ∨ ended R w' e).
Proof.
  induction tfuel as [|tfuel IH]; intros fuel R k s w name Ho Ht El Hf HB Htf; [lia|]. destruct (skip_clean name) as [En|Hc].
  { destruct El as [El|[(c & t & -> & Hc) _]]; [|cbn in En; by rewrite (proj2 (Z.eqb_neq _ _) Hc) in En]. destruct (lookup_loop_empty tfuel fuel R k s w name Ho Ht El En) as (w' & E & Ho' & Ht' & El'). exists 0, w'. split; [done|]. left. split; [done|].
    rewrite <-(comps_skip name), En. cbn [comps comps_from]. destruct k; cbn [resolve]; eauto. }
  cbn [lookup_loop]. destruct (link_path_walk_ok fuel R (links (nd w)) k s w name Ho Ht eq_refl Hc Hf) as (e & w1 & E & [[Ho1 H]|H]); rewrite (st_bind_step _ _ _ _ _ E); [|exists e, w1; destruct H as [-> Hs]; split; [done|]; by right].
  destruct (Z.eqb_spec e 0) as [->|He]; cbn [negb]; [|exists e, w1; split; [done|]; left; rewrite H; by split].
  destruct H as (s1 & k1 & c & Hk1 & Ht1 & El1 & Hl1 & Hty1 & Hd1 & Htl & ->). destruct (last_ok R k1 s1 w1 c _ Ho1 Ht1 Hl1 Hty1 Hd1 Htl) as (r & w2 & E2 & [[Ho2 H2]|[-> Hs]]); rewrite (st_bind_step _ _ _ _ _ E2).
  2: { destruct tfuel as [|tfuel]; [lia|]. destruct (lookup_loop_error tfuel fuel R w2 (- ENOMEM) ltac:(apply Hs) ltac:(done)) as (w' & E3 & Ho3). exists (- ENOMEM), w'. split; [done|]. right. split; [done|]. split; [apply Hs|done]. }
  unfold last_step. cbv zeta.
  assert (list.tail (links (nd w1)) = []) as Etl by (rewrite El1; destruct El as [->|(_ & q & ->)]; done). rewrite Etl in H2. set (s2 := if _ && _ then _ else s1) in *. destruct (component ns mfuel (0 <? Z.of_nat k1) s2 c true) as [e|[s3|s3|s3 t]] eqn:Ec.
  - destruct H2 as [-> He]. destruct tfuel as [|tfuel]; [lia|]. destruct (lookup_loop_error tfuel fuel R w2 e Ho2 He) as (w' & E3 & Ho3). exists e, w'. split; [done|]. left. by split.
  - destruct H2 as (-> & Ht3 & El3). exists 0, w2. split; [done|]. left. split; [done|]. by eauto.
  - destruct H2 as (-> & Ht3 & El3 & Hk). destruct k1; [done|]. exists 0, w2. split; [done|]. left. split; [done|]. by eauto.
  - destruct H2 as (-> & Ht3 & (q & El3) & Hk & Hcl). destruct k1 as [|k1]; [done|]. cbn [pred] in Ht3. pose proof (component_bound _ _ _ _ _ _ Ec).
    destruct Hcl as (a & u & -> & Ha). destruct (IH fuel R k1 s3 w2 (a :: u) Ho2 Ht3) as (e & w' & E3 & H3); [right; split; [by exists a, u|eauto]|nia|nia|lia|]. by exists e, w'.
Qed.

(** ** Begin and end *)

Lemma grips_app a b : grips (a ++ b) = grips a ⊎ grips b.
Proof. induction a as [|x a IH]; cbn [grips foldr app]; [refs_eq|]. fold (grips a). fold (grips (a ++ b)). rewrite IH. refs_eq. Qed.

Lemma grips_reverse l : grips (reverse l) = grips l.
Proof. induction l as [|x l IH]; [done|]. rewrite reverse_cons, grips_app, IH. cbn [grips foldr]. fold (grips l). refs_eq. Qed.

Lemma put_each_ok l : ∀ X w, Forall real l → held w = X ⊎ grips l → for_each l path_put w = Some (tt, Walk (nd w) X).
Proof.
  induction l as [|p l IH]; intros X w Hl Eh; cbn [for_each].
  - unfold mret, st_ret. rewrite <-(eta_walk w) at 1. rewrite Eh. do 3 f_equal. cbn [grips foldr]. refs_eq.
  - apply Forall_cons_1 in Hl as [Hp Hl]. rewrite (st_bind_step _ _ _ _ _ (path_put_ok p (X ⊎ grips l) w Hp ltac:(rewrite Eh; cbn [grips foldr]; fold (grips l); refs_eq))). by apply (IH X (Walk (nd w) (X ⊎ grips l))).
Qed.

Lemma put_or_null R p w : real p ∨ p = NULLPATH → held w = R ⊎ (if p.1 =? NULL then ∅ else grip p) → path_put p w = Some (tt, Walk (nd w) R).
Proof.
  intros [Hp| ->] Eh; [apply path_put_ok; [done|]; by rewrite Eh, (proj2 (Z.eqb_neq _ _) (proj1 Hp))|]. assert (held w = R) as E2 by (rewrite Eh; change (NULLPATH.1 =? NULL) with true; cbn iota; refs_eq). change (path_put NULLPATH w) with (Some (tt, w)). rewrite <-E2. by destruct w.
Qed.

(** The walk ends with the references of the path that is handed out, or with none. *)
Lemma hand_out_ok R w err : owned R w → (err = 0 → real (nd_path (nd w))) → ∃ w',
  hand_out err w = Some (if err =? 0 then inr (nd_path (nd w)) else inl err, w') ∧ held w' = R ⊎ (if err =? 0 then grip (nd_path (nd w)) else ∅).
Proof.
  intros Ho Hp. unfold hand_out. set (given := if err =? 0 then grip (nd_path (nd w)) else ∅). set (root_refs := if has (state (nd w)) ND_ROOT_GRABBED then grip (root (nd w)) else ∅).
  assert (∃ w1, (if err =? 0 then on (set_path NULLPATH) else mret tt) w = Some (tt, w1) ∧ held w1 = R ⊎ given ⊎ root_refs ⊎ grips (links (nd w)) ⊎ (if (nd_path (nd w1)).1 =? NULL then ∅ else grip (nd_path (nd w1))) ∧ (real (nd_path (nd w1)) ∨ nd_path (nd w1) = NULLPATH) ∧
    links (nd w1) = links (nd w) ∧ state (nd w1) = state (nd w) ∧ root (nd w1) = root (nd w)) as (w1 & E & Eh & Hr & El & Es & Er).
  { unfold given, root_refs. destruct (Z.eqb_spec err 0) as [->|].
    - eexists. split; [reflexivity|]. cbn [nd held nd_path set_path links state root]. split; [|split; [by right|done]]. rewrite (o_held _ _ Ho), own_real by by apply Hp. unfold others. change (NULLPATH.1 =? NULL) with true. cbn iota. refs_eq.
    - exists w. split; [done|]. split; [|split; [apply Ho|done]]. rewrite (o_held _ _ Ho). unfold own_refs. refs_eq. }
  unfold the, gets. rewrite st_of_bind. cbn beta iota. rewrite (st_bind_step _ _ _ _ _ E). unfold terminate_walk, the, gets. rewrite st_bind_assoc, st_of_bind. cbn beta iota.
  rewrite st_bind_assoc, (st_bind_step _ _ _ _ _ (put_or_null (R ⊎ given ⊎ root_refs ⊎ grips (links (nd w))) _ w1 Hr Eh)). rewrite El, Es, Er. unfold put_links.
  rewrite st_bind_assoc, (st_bind_step _ _ _ _ _ (put_each_ok (reverse (links (nd w))) (R ⊎ given ⊎ root_refs) (Walk (nd w1) _) ltac:(apply Forall_reverse, Ho) ltac:(cbn [held]; by rewrite grips_reverse))). cbn [nd].
  assert (∃ w2, (if has (state (nd w)) ND_ROOT_GRABBED then path_put (root (nd w)) ;; on (λ n, set_state (Z.land (state n) (Z.lnot ND_ROOT_GRABBED)) n) else mret tt) (Walk (nd w1) (R ⊎ given ⊎ root_refs)) = Some (tt, w2) ∧ held w2 = R ⊎ given) as (w2 & E2 & Eh2).
  { unfold root_refs. destruct (has (state (nd w)) ND_ROOT_GRABBED) eqn:Eg.
    - rewrite (st_bind_step _ _ _ _ _ (path_put_ok (root (nd w)) (R ⊎ given) (Walk (nd w1) _) (o_root _ _ Ho Eg) ltac:(cbn [held]; reflexivity))). eexists. split; [reflexivity|done].
    - eexists. split; [reflexivity|]. cbn [held]. refs_eq. }
  rewrite st_bind_assoc, (st_bind_step _ _ _ _ _ E2). unfold on, modify. rewrite st_bind_assoc, st_of_bind. cbn beta iota. rewrite st_of_bind. cbn beta iota. eexists. split; [reflexivity|]. by destruct w2.
Qed.

Lemma own_start preset old : own_refs (set_nameidata preset old) = ∅.
Proof. unfold own_refs, set_nameidata. cbn [nd_path links state]. change (NULLPATH.1 =? NULL) with true. destruct preset; cbn iota; [change (has ND_ROOT_PRESET ND_ROOT_GRABBED) with false|change (has 0 ND_ROOT_GRABBED) with false]; cbn [grips foldr]; cbn iota; refs_eq. Qed.

Lemma owned_start R preset old : 0 ≤ old → owned R (Walk (set_nameidata preset old) R).
Proof. intros Ho. split; cbn [nd held]; [rewrite own_start; refs_eq|by right|constructor|by destruct preset|by left|done]. Qed.

(** A walk that has just got its path. *)
Lemma placed R w f p k : owned R w → links (nd w) = [] → nd_path (nd w) = NULLPATH → real p → total_link_count (nd w) = MAXSYMLINKS - Z.of_nat k →
  flags (nd w) = f → has (state (nd w)) ND_JUMPED = true → has (state (nd w)) ND_ROOT_GRABBED = false → root (nd w) = NULLPATH ∨ real (root (nd w)) →
  owned R (Walk (set_path p (nd w)) (held w ⊎ grip p)) ∧ stands (Pos p (root (nd w)) f true) k (Walk (set_path p (nd w)) (held w ⊎ grip p)).
Proof.
  intros Ho El En Hp Hc Hf Hj Hg Hr. split.
  - apply (owned_moved R w p (state (nd w))); [done|done|done|]. rewrite (o_held _ _ Ho). unfold own_refs, others. rewrite En. change (NULLPATH.1 =? NULL) with true. cbn iota. refs_eq.
  - split; try done; cbn [nd state set_path root at_ rt]; [intros H; destruct Hr as [Hr|Hr]; [by rewrite Hr in H|done]|by rewrite Hg].
Qed.

Definition begun (R : refs) (k : nat) (name : list Z) (f : Z) (r : Z + list Z) (w' : walk) (res : Z + pos) : Prop :=
  owned R w' ∧ links (nd w') = [] ∧ match res with inl e => r = inl e ∧ e ≠ 0 | inr s => r = inr name ∧ stands s k w' ∧ fl s = f end.

Lemma begun_at R k name f w p : owned R w → links (nd w) = [] → nd_path (nd w) = NULLPATH → real p → total_link_count (nd w) = MAXSYMLINKS - Z.of_nat k →
  flags (nd w) = f → has (state (nd w)) ND_JUMPED = true → has (state (nd w)) ND_ROOT_GRABBED = false → root (nd w) = NULLPATH ∨ real (root (nd w)) →
  begun R k name f (inr name) (Walk (set_path p (nd w)) (held w ⊎ grip p)) (inr (Pos p (root (nd w)) f true)).
Proof. intros Ho El En Hp Hc Hf Hj Hg Hr. destruct (placed R w f p k Ho El En Hp Hc Hf Hj Hg Hr) as [H1 H2]. by split_and!. Qed.

(** The walk before it has a path. *)
Definition fresh (f : Z) (k : nat) (w : walk) : Prop :=
  links (nd w) = [] ∧ nd_path (nd w) = NULLPATH ∧ total_link_count (nd w) = MAXSYMLINKS - Z.of_nat k ∧ flags (nd w) = f ∧ has (state (nd w)) ND_JUMPED = true ∧ has (state (nd w)) ND_ROOT_GRABBED = false.

Lemma absolute_ok R k name f w : owned R w → fresh f k w → root (nd w) = NULLPATH →
  ∃ r w', (error ← nd_jump_root ns; mret (if negb (error =? 0) then inl error else inr name)) w = Some (r, w') ∧ begun R k name f r w' (jump_root ns (Pos NULLPATH NULLPATH f true)).
Proof.
  intros Ho (El & En & Hc & Hf & Hj & Hg) Er. unfold nd_jump_root, jump_root, know_root, the, gets. rewrite st_bind_assoc, st_of_bind. cbn beta iota. rewrite Hf, En, Er. cbn [fl at_ rt jmp].
  destruct (has f LOOKUP_BENEATH); [rewrite mret_bind; do 2 eexists; split; [reflexivity|]; by split_and!|]. change (NULLPATH.1 =? NULL) with true. cbn [negb andb]. rewrite andb_false_r. cbn [andb]. unfold set_root at 1, the, gets. rewrite st_bind_assoc, st_bind_assoc, st_of_bind. cbn beta iota. rewrite Hf.
  destruct (has f LOOKUP_IS_SCOPED); [rewrite mret_bind; change (negb (- ENOTRECOVERABLE =? 0)) with true; cbn iota; rewrite mret_bind; do 2 eexists; split; [reflexivity|]; by split_and!|].
  do 2 eexists. split; [reflexivity|]. set (p := fs_root ns). cbn [nd held root set_ndroot set_state move rt at_ fl]. pose proof (s_fs_root _ _ _ _ S : real p) as Hp.
  assert (has (Z.lor (Z.lor (state (nd w)) ND_ROOT_GRABBED) ND_JUMPED) ND_ROOT_GRABBED = true) as Hg2 by (by rewrite grabbed_jump, has_lor, orb_true_r).
  split; [|split; [done|split; [done|split; [|done]]]].
  - split; cbn [nd held nd_path root links state stack_room total_link_count set_path set_state set_ndroot]; try apply Ho; [|by left|done].
    unfold own_refs. cbn [nd_path links state root set_path set_state set_ndroot]. rewrite Hg2, (proj2 (Z.eqb_neq _ _) (proj1 Hp)), (o_held _ _ Ho). unfold own_refs. rewrite En, El, Hg. change (NULLPATH.1 =? NULL) with true. cbn iota. unfold grip. refs_eq.
  - split; cbn [nd nd_path root links state flags total_link_count set_path set_state set_ndroot move at_ rt fl jmp]; try done; [by intros _; apply Hp|apply jumped_jump].
Qed.

Lemma relative_ok R k name f w p : owned R w → fresh f k w → root (nd w) = NULLPATH → real p →
  ∃ r w', (error ← (on (set_path p) ;; path_get p ;; mret 0);
    if negb (error =? 0) then mret (inl error)
    else (if has f LOOKUP_IS_SCOPED then n ← the; on (set_ndroot (nd_path n)) ;; path_get (nd_path n) ;; on (λ n, set_state (Z.lor (state n) ND_ROOT_GRABBED) n) else mret tt) ;; mret (inr name)) w = Some (r, w') ∧
    begun R k name f r w' (inr (Pos p (if has f LOOKUP_IS_SCOPED then p else NULLPATH) f true)).
Proof.
  intros Ho (El & En & Hc & Hf & Hj & Hg) Er Hp. destruct (begun_at R k name f w p Ho El En Hp Hc Hf Hj Hg (or_introl Er)) as (Ho1 & El1 & _ & Ht1 & _). rewrite Er in Ht1.
  assert ((on (set_path p) ;; path_get p ;; mret 0) w = Some (0, Walk (set_path p (nd w)) (held w ⊎ grip p))) as E by (unfold on, modify; rewrite st_of_bind; cbn beta iota; by rewrite (st_bind_step _ _ _ _ _ (path_get_ok _ _))).
  rewrite (st_bind_step _ _ _ _ _ E). change (negb (0 =? 0)) with false. cbn iota. set (w1 := Walk _ _) in *. destruct (has f LOOKUP_IS_SCOPED).
  - unfold the, gets, on, modify. rewrite !st_bind_assoc, st_of_bind. cbn beta iota. rewrite st_bind_assoc, st_of_bind. cbn beta iota. rewrite st_bind_assoc, (st_bind_step _ _ _ _ _ (path_get_ok _ _)), st_of_bind. cbn beta iota.
    do 2 eexists. split; [reflexivity|]. cbn [nd held w1 nd_path set_path set_ndroot]. assert (has (Z.lor (state (nd w)) ND_ROOT_GRABBED) ND_ROOT_GRABBED = true) as Hg2 by (by rewrite has_lor, orb_true_r).
    split; [|split; [done|split; [done|split; [|done]]]].
    + split; cbn [nd held nd_path root links state stack_room total_link_count set_path set_state set_ndroot]; try apply Ho1; [|done].
      unfold own_refs. cbn [nd_path links state root set_path set_state set_ndroot]. rewrite Hg2. rewrite (proj2 (Z.eqb_neq _ _) (proj1 Hp)), (o_held _ _ Ho). unfold own_refs. rewrite En, El, Hg. change (NULLPATH.1 =? NULL) with true. cbn iota. unfold grip. refs_eq.
    + split; cbn [nd nd_path root links state flags total_link_count set_path set_state set_ndroot at_ rt fl jmp]; try done; [by intros _; apply Hp|]. by rewrite has_lor, Hj.
  - rewrite mret_bind. do 2 eexists. split; [reflexivity|]. by split_and!.
Qed.

Lemma path_init_ok R dfd name f preset old : 0 ≤ old ≤ MAXSYMLINKS → has f LOOKUP_RCU = false → (∀ p, preset = Some p → real p) →
  let k := Z.to_nat (MAXSYMLINKS - old) in
  ∃ r w', path_init ns dfd name f (Walk (set_nameidata preset old) R) = Some (r, w') ∧ begun R k name f r w' (start ns preset dfd name f).
Proof.
  intros Hold Hrcu Hpre k. pose proof (owned_start R preset old ltac:(lia)) as Ho. unfold path_init, start. cbv zeta. destruct (_ =? LOOKUP_CACHED); [do 2 eexists; split; [reflexivity|]; by split_and!|]. rewrite Hrcu.
  assert (Hk : old = MAXSYMLINKS - Z.of_nat k) by (unfold k; rewrite Z2Nat.id; lia). rewrite on_bind. unfold jumped_ at 1. rewrite on_bind, the_bind. cbn [nd held].
  destruct preset as [p|]; cbn [set_nameidata set_flags set_state nd state root default from_option id].
  - specialize (Hpre p eq_refl). change (has (Z.lor ND_ROOT_PRESET ND_JUMPED) ND_ROOT_PRESET) with true. cbn iota. destruct (_ && negb (d_can_lookup ns p.2)); [do 2 eexists; split; [reflexivity|]; split; [by split; apply Ho|by split]|].
    rewrite on_bind, (st_bind_step _ _ _ _ _ (path_get_ok _ _)). do 2 eexists. split; [reflexivity|].
    apply (begun_at R k name f (Walk (Nd NULLPATH [] [] p f (Z.lor ND_ROOT_PRESET ND_JUMPED) LAST_ROOT [] EMBEDDED_LEVELS old 0 false 0) R) p); try done; [by split; apply Ho|by right].
  - change (has (Z.lor 0 ND_JUMPED) ND_ROOT_PRESET) with false. cbn iota. rewrite on_bind. cbn [nd held set_ndroot root]. set (w1 := Walk _ R).
    assert (owned R w1) as Ho1 by (by split; apply Ho). assert (fresh f k w1) as Hfr by done. destruct (_ && negb (has f LOOKUP_IN_ROOT)); [by apply absolute_ok|].
    destruct (dfd =? AT_FDCWD); [apply relative_ok; [done|done|done|apply (s_fs_pwd _ _ _ _ S)]|]. destruct (fdget ns dfd) as [p|] eqn:Ef; [|do 2 eexists; split; [reflexivity|]; by split_and!].
    destruct (_ && negb (d_can_lookup ns p.2)); [do 2 eexists; split; [reflexivity|]; by split_and!|]. apply relative_ok; [done|done|done|by apply (s_fd _ _ _ _ S dfd)].
Qed.

Lemma enter_negative s d e : enter ns mfuel s d = inl e → e < 0.
Proof. unfold enter. cbv zeta. destruct (_ && _); [intros H; simplify_eq; done|]. by destruct (d_is_negative _ _); intros H; simplify_eq. Qed.

Lemma into_error more s d e : into more s d false true = inl e → e < 0.
Proof. rewrite into_nofollow. unfold enter_dir. destruct (enter ns mfuel s d) as [e'|[q j]] eqn:E; [|done]. intros H. simplify_eq. by apply enter_negative in E. Qed.

Lemma down_ok R k s w : owned R w → stands s k w → links (nd w) = [] → ∃ e w', handle_lookup_down ns mfuel w = Some (e, w') ∧ owned R w' ∧
  match enter_dir ns mfuel s (at_ s).2 with inl e' => e = e' ∧ e < 0 | inr s' => e = 0 ∧ stands s' k w' ∧ links (nd w') = [] end.
Proof.
  intros Ho Ht El. unfold handle_lookup_down. rewrite the_bind. unfold dget, hold, modify. rewrite st_of_bind. cbn beta iota. rewrite (t_path _ _ _ Ht).
  destruct (step_into_ok R k s _ (at_ s).2 WALK_NOFOLLOW (dget_ok R w (at_ s).2 Ho) (stands_held _ _ _ _ Ht) ltac:(apply Ht) ltac:(done)) as (r & w' & E & [[Ho' H]|[H _]]); [|done]. rewrite (st_bind_step _ _ _ _ _ E).
  change (has WALK_NOFOLLOW WALK_TRAILING) with false in H. change (has WALK_NOFOLLOW WALK_NOFOLLOW) with true in H. pose proof (into_error (0 <? Z.of_nat k) s (at_ s).2) as Herr. rewrite into_nofollow in H, Herr. cbn [nd] in H. rewrite El in H. do 2 eexists. split; [reflexivity|]. split; [done|].
  destruct (enter_dir ns mfuel s (at_ s).2) as [e|s'].
  - destruct H as [-> He]. split; [done|]. by apply Herr.
  - by destruct H as (-> & Ht' & El').
Qed.

Lemma complete_walk_ok R k s w : owned R w → stands s k w → ∃ e, complete_walk ns w = Some (e, w) ∧
  finish ns s = if e =? 0 then (if has (fl s) LOOKUP_DIRECTORY && negb (d_can_lookup ns (at_ s).2) then inl (- ENOTDIR) else inr (at_ s)) else inl e.
Proof.
  intros Ho Ht. unfold complete_walk, finish. rewrite the_bind. rewrite (t_flags _ _ _ Ht), (t_path _ _ _ Ht), (t_root _ _ _ Ht), (t_jumped _ _ _ Ht). destruct (_ && negb (path_is_under _ _ _)); [by exists (- EXDEV)|].
  destruct (negb (jmp s)); [by exists 0|]. destruct (d_weak_revalidate _) as [x|]; [|by exists 0]. eexists. split; [reflexivity|]. destruct (Z.ltb_spec 0 x); [done|]. destruct (Z.eqb_spec x 0) as [->|Hx]; [done|]. by rewrite (proj2 (Z.eqb_neq _ _) Hx).
Qed.

(** The end of a walk that has found its path. *)
Lemma finish_ok R k s w : owned R w → stands s k w → ∃ w',
  (err ← complete_walk ns; n ← the; hand_out (if (err =? 0) && has (flags n) LOOKUP_DIRECTORY && negb (d_can_lookup ns (nd_path n).2) then - ENOTDIR else err)) w = Some (finish ns s, w') ∧
  held w' = R ⊎ match finish ns s with inr p => grip p | inl _ => ∅ end.
Proof.
  intros Ho Ht. destruct (complete_walk_ok R k s w Ho Ht) as (e & E & Ef). rewrite (st_bind_step _ _ _ _ _ E), the_bind, (t_flags _ _ _ Ht), (t_path _ _ _ Ht). rewrite Ef.
  set (e2 := if (e =? 0) && has (fl s) LOOKUP_DIRECTORY && negb (d_can_lookup ns (at_ s).2) then - ENOTDIR else e). destruct (hand_out_ok R w e2 Ho) as (w' & Eh & Hh); [intros _; rewrite (t_path _ _ _ Ht); apply Ht|]. exists w'. rewrite Eh, Hh, (t_path _ _ _ Ht). unfold e2.
  destruct (Z.eqb_spec e 0) as [->|He]; cbn [andb].
  - destruct (_ && negb _); [done|done].
  - by rewrite (proj2 (Z.eqb_neq _ _) He).
Qed.

Lemma loop_fails_ok tfuel fuel R w e f : owned R w → e ≠ 0 → ∃ w',
  (err ← lookup_loop ns (Datatypes.S tfuel) fuel mfuel (inl e);
   n ← the;
   err ← (if (err =? 0) && has (flags n) LOOKUP_MOUNTPOINT then err ← handle_lookup_down ns mfuel; on f ;; mret err else mret err);
   err ← (if err =? 0 then complete_walk ns else mret err);
   n ← the;
   hand_out (if (err =? 0) && has (flags n) LOOKUP_DIRECTORY && negb (d_can_lookup ns (nd_path n).2) then - ENOTDIR else err)) w = Some (inl e, w') ∧ held w' = R.
Proof.
  intros Ho He0. destruct (lookup_loop_error tfuel fuel R w e Ho He0) as (w1 & E & Ho1). rewrite (st_bind_step _ _ _ _ _ E), the_bind. apply Z.eqb_neq in He0. rewrite He0. cbn [andb].
  rewrite mret_bind, He0, mret_bind, the_bind, He0. cbn [andb]. destruct (hand_out_ok R w1 e Ho1) as (w' & E' & Eh); [lia|]. rewrite He0 in E', Eh. exists w'. split; [done|]. rewrite Eh. refs_eq.
Qed.

Lemma walk_resolves tfuel fuel R dfd name f preset old : 0 ≤ old ≤ MAXSYMLINKS → has f LOOKUP_RCU = false → (∀ p, preset = Some p → real p) →
  (length (comps name) + B + 40 * B < fuel)%nat → (42 ≤ tfuel)%nat →
  ∃ r w', path_lookupat ns tfuel fuel mfuel dfd name f (Walk (set_nameidata preset old) R) = Some (r, w') ∧
    held w' = R ⊎ match r with inr p => grip p | inl _ => ∅ end ∧ (r = lookup_at ns mfuel preset old dfd name f ∨ stack_memory ns = false ∧ r = inl (- ENOMEM)).
Proof.
  intros Hold Hrcu Hpre Hf Htf. unfold path_lookupat, lookup_at. set (k := Z.to_nat (MAXSYMLINKS - old)). assert (k ≤ 40)%nat as Hk by (unfold k, MAXSYMLINKS in *; lia). destruct tfuel as [|tfuel]; [lia|].
  destruct (path_init_ok R dfd name f preset old Hold Hrcu Hpre) as (r & w1 & E & Ho1 & El1 & H). fold k in H. rewrite (st_bind_step _ _ _ _ _ E). destruct (start ns preset dfd name f) as [e|s].
  { destruct H as [-> He]. rewrite mret_bind. destruct (loop_fails_ok tfuel fuel R w1 e (λ n, set_state (Z.land (state n) (Z.lnot ND_JUMPED)) n) Ho1 He) as (w' & E' & Eh). do 2 eexists. split; [done|]. split; [rewrite Eh; refs_eq|by left]. }
  destruct H as (-> & Ht1 & Hfl).
  assert (∃ r w2, (if has f LOOKUP_DOWN then err ← handle_lookup_down ns mfuel; mret (if err <? 0 then inl err else inr name) else mret (inr name)) w1 = Some (r, w2) ∧ owned R w2 ∧
    match (if has f LOOKUP_DOWN then enter_dir ns mfuel s (at_ s).2 else inr s) with inl e => r = inl e ∧ e < 0 | inr s2 => r = inr name ∧ stands s2 k w2 ∧ links (nd w2) = [] end) as (r & w2 & E2 & Ho2 & H2).
  { destruct (has f LOOKUP_DOWN); [|exists (inr name), w1; by split_and!]. destruct (down_ok R k s w1 Ho1 Ht1 El1) as (e & w2 & E2 & Ho2 & H2). rewrite (st_bind_step _ _ _ _ _ E2). do 2 eexists. split; [reflexivity|]. split; [done|]. destruct (enter_dir ns mfuel s (at_ s).2) as [e'|s'].
    - destruct H2 as [-> He]. by rewrite (proj2 (Z.ltb_lt _ _) He).
    - by destruct H2 as (-> & Ht2 & El2). }
  rewrite (st_bind_step _ _ _ _ _ E2). destruct (if has f LOOKUP_DOWN then enter_dir ns mfuel s (at_ s).2 else inr s) as [e|s2].
  { destruct H2 as [-> He]. destruct (loop_fails_ok tfuel fuel R w2 e (λ n, set_state (Z.land (state n) (Z.lnot ND_JUMPED)) n) Ho2 ltac:(lia)) as (w' & E' & Eh). do 2 eexists. split; [done|]. split; [rewrite Eh; refs_eq|by left]. }
  destruct H2 as (-> & Ht2 & El2). destruct (lookup_loop_ok (Datatypes.S tfuel) fuel R k s2 w2 name Ho2 Ht2) as (e & w3 & E3 & [[Ho3 H3]|[-> [Hm Ho3]]]); [by left|nia|nia|lia|..]; rewrite (st_bind_step _ _ _ _ _ E3), the_bind.
  2: { assert ((- ENOMEM =? 0) = false) as E0 by done. rewrite E0. cbn [andb]. rewrite mret_bind, E0, mret_bind, the_bind, E0. cbn [andb]. destruct (hand_out_ok R w3 (- ENOMEM) Ho3) as (w' & E' & Eh); [done|]. rewrite E0 in E', Eh. exists (inl (- ENOMEM)), w'. split; [exact E'|]. split; [rewrite Eh; refs_eq|by right]. }
  destruct (resolve ns mfuel k _ _ _) as [e'|s3].
  { destruct H3 as [-> He]. apply Z.eqb_neq in He. rewrite He. cbn [andb]. rewrite mret_bind, He, mret_bind, the_bind, He. cbn [andb]. destruct (hand_out_ok R w3 e' Ho3) as (w' & E' & Eh); [apply Z.eqb_neq in He; lia|]. rewrite He in E', Eh. do 2 eexists. split; [done|]. split; [rewrite Eh; refs_eq|by left]. }
  destruct H3 as (-> & El3 & k3 & Ht3). rewrite (t_flags _ _ _ Ht3). cbn [Z.eqb andb]. destruct (has (fl s3) LOOKUP_MOUNTPOINT); [|rewrite mret_bind; destruct (finish_ok R k3 s3 w3 Ho3 Ht3) as (w' & E' & Eh); exists (finish ns s3), w'; split; [exact E'|split; [exact Eh|by left]]].
  destruct (down_ok R k3 s3 w3 Ho3 Ht3 El3) as (e & w4 & E4 & Ho4 & H4). rewrite st_bind_assoc, (st_bind_step _ _ _ _ _ E4), st_bind_assoc, on_bind, mret_bind. destruct (enter_dir ns mfuel s3 (at_ s3).2) as [e'|s4].
  - destruct H4 as [-> He]. assert (e' ≠ 0) as He0 by lia. apply Z.eqb_neq in He0. rewrite He0, mret_bind, the_bind, He0. cbn [andb].
    destruct (hand_out_ok R (Walk (set_state (Z.land (state (nd w4)) (Z.lnot ND_JUMPED)) (nd w4)) (held w4)) e') as (w' & E' & Eh); [apply (owned_state R w4); [done|apply grabbed_clear|apply Ho4]|lia|]. rewrite He0 in E', Eh. do 2 eexists. split; [done|]. split; [rewrite Eh; refs_eq|by left].
  - destruct H4 as (-> & Ht4 & El4). cbn [Z.eqb]. destruct (finish_ok R k3 (move (at_ s4) false s4) (Walk (set_state (Z.land (state (nd w4)) (Z.lnot ND_JUMPED)) (nd w4)) (held w4))) as (w' & E' & Eh); [apply (owned_state R w4 _ (held w4)); [done|apply grabbed_clear|apply Ho4]|apply stands_state; [done|apply grabbed_clear|apply has_cleared]|].
    exists (finish ns (move (at_ s4) false s4)), w'. split; [exact E'|split; [exact Eh|by left]].
Qed.

(** The directory of the last component is handed out in the same way. *)
Lemma path_parentat_balanced fuel R dfd name f preset old : 0 ≤ old ≤ MAXSYMLINKS → has f LOOKUP_RCU = false → (∀ p, preset = Some p → real p) →
  (length (comps name) + 40 * B < fuel)%nat →
  ∃ r w', path_parentat ns fuel mfuel dfd name f (Walk (set_nameidata preset old) R) = Some (r, w') ∧ held w' = R ⊎ match r with inr p => grip p | inl _ => ∅ end.
Proof.
  intros Hold Hrcu Hpre Hf. unfold path_parentat. destruct (path_init_ok R dfd name f preset old Hold Hrcu Hpre) as (r & w1 & E & Ho1 & El1 & H). rewrite (st_bind_step _ _ _ _ _ E). set (k := Z.to_nat (MAXSYMLINKS - old)) in *. assert (k ≤ 40)%nat as Hk by (unfold k, MAXSYMLINKS in *; lia).
  assert (∃ e w2, link_path_walk ns fuel mfuel r w1 = Some (e, w2) ∧ owned R w2 ∧ (e = 0 → ∃ s k, stands s k w2)) as (e & w2 & E2 & Ho2 & H2).
  { destruct (start ns preset dfd name f) as [e|s].
    - destruct H as [-> He]. eexists e, _. split; [reflexivity|]. split; [by split; apply Ho1|]. done.
    - destruct H as (-> & Ht & _). destruct (skip_clean name) as [En|Hc].
      + unfold link_path_walk. rewrite En. eexists 0, _. split; [reflexivity|]. split; [by split; apply Ho1|]. intros _. exists (with_flags (Z.lor (fl s) LOOKUP_PARENT) s), k. split; try apply Ht. cbn. by rewrite (t_flags _ _ _ Ht).
      + destruct (link_path_walk_ok fuel R [] k s w1 name Ho1 Ht El1 Hc) as (e & w2 & E2 & [[Ho2 H2]|[-> [_ Ho2]]]); [nia| |by exists (- ENOMEM), w2]. exists e, w2. split; [done|]. split; [done|]. intros ->. cbn [Z.eqb] in H2. destruct H2 as (s' & k' & c & _ & Ht' & _). by exists s', k'. }
  rewrite (st_bind_step _ _ _ _ _ E2).
  assert (∃ e', (if e =? 0 then complete_walk ns else mret e) w2 = Some (e', w2) ∧ (e' = 0 → real (nd_path (nd w2)))) as (e' & E3 & Hr).
  { destruct (Z.eqb_spec e 0) as [He|He]; [|by exists e]. destruct (H2 He) as (s & k' & Ht). destruct (complete_walk_ok R k' s w2 Ho2 Ht) as (e' & E3 & _). exists e'. split; [done|]. intros _. by eapply path_real. }
  rewrite (st_bind_step _ _ _ _ _ E3). destruct (hand_out_ok R w2 e' Ho2 Hr) as (w' & E4 & Eh). exists (if e' =? 0 then inr (nd_path (nd w2)) else inl e'), w'. split; [done|]. rewrite Eh. by destruct (e' =? 0).
Qed.

End walks.

(** ** Staying under a root *)

(** A set of paths that the steps of a walk do not leave, unless they go up from [r]. *)
Record closed_under (ns : space) (r : path) (inside : path → Prop) : Prop := {
  c_root : inside r;
  c_cached m d c e : inside (m, d) → d_lookup ns d c = Some e → inside (m, e);
  c_found m d c f e : inside (m, d) → lookup ns d c f = inr e → inside (m, e);
  c_mounted p m : inside p → lookup_mnt ns p = Some m → inside (m, mnt_root (mnt ns m));
  c_parent m d : inside (m, d) → (m, d) ≠ r → d ≠ mnt_root (mnt ns m) → inside (m, d_parent (dent ns d));
  c_mountpoint m : inside (m, mnt_root (mnt ns m)) → (m, mnt_root (mnt ns m)) ≠ r → mnt_parent (mnt ns m) ≠ m → inside (mnt_parent (mnt ns m), mnt_mountpoint (mnt ns m)) }.

Section scoped.
Context (ns : space) (mfuel : nat) (r : path) (inside : path → Prop) (C : closed_under ns r inside).

Lemma cover_inside fuel : ∀ p, inside p → inside (cover ns fuel p).
Proof. induction fuel as [|fuel IH]; intros p Hp; cbn [cover]; destruct (lookup_mnt ns p) as [m|] eqn:E; [done|done| |done]. apply IH. by eapply c_mounted. Qed.

Lemma enter_inside s d q j : enter ns mfuel s d = inr (q, j) → inside ((at_ s).1, d) → inside q.
Proof. unfold enter. cbv zeta. intros H Hi. destruct (_ && _); [done|]. destruct (d_is_negative _ _); [done|]. simplify_eq. by apply cover_inside. Qed.

(** The scope of a walk: its flags, and its root. *)
Record confined (s : pos) : Prop := { f_at : inside (at_ s); f_root : rt s = r; f_scoped : has (fl s) LOOKUP_IS_SCOPED = true }.

Lemma confined_move s p j : confined s → inside p → confined (move p j s).
Proof. intros Hs Hp. by split; try apply Hs. Qed.

Lemma confined_flags s f : confined s → has f LOOKUP_IS_SCOPED = true → confined (with_flags f s).
Proof. intros Hs Hf. by split; try apply Hs. Qed.

Context (Hr : r.1 ≠ NULL).

Lemma root_known s : confined s → know_root ns s = inr s.
Proof. intros Hs. unfold know_root. by rewrite (f_root _ Hs), (proj2 (Z.eqb_neq _ _) Hr). Qed.

Lemma jump_root_confined s s' : confined s → jump_root ns s = inr s' → confined s'.
Proof. intros Hs. unfold jump_root. destruct (has _ LOOKUP_BENEATH); [done|]. destruct (_ && _ && _); [done|]. rewrite root_known by done. intros H. simplify_eq. apply confined_move; [done|]. rewrite (f_root _ Hs). apply C. Qed.

Lemma text_confined s t res : confined s → text_of ns s t = inr res → match res with Moved s' | Jumped s' | Follow s' _ => confined s' end.
Proof.
  intros Hs. unfold text_of. destruct t as [|c t]; [intros H; by simplify_eq|]. destruct (c =? SLASH); [|intros H; by simplify_eq]. destruct (jump_root ns s) as [|s1] eqn:E; [done|]. apply jump_root_confined in E; [|done].
  destruct (skip_slashes (c :: t)); intros H; by simplify_eq.
Qed.

Lemma follow_confined more s q trailing res : confined s → follow ns more s q trailing = inr res → match res with Moved s' | Jumped s' | Follow s' _ => confined s' end.
Proof.
  intros Hs. unfold follow. cbv zeta. destruct (negb more); [done|]. destruct (negb _); [done|]. destruct (_ || _); [done|]. destruct (negb _); [done|]. destruct (i_link (dent ns q.2)); [by apply text_confined|].
  destruct (get_link (dent ns q.2)) as [u|e| |p]; [by apply text_confined|done|intros H; by simplify_eq|]. unfold jump_link. destruct (has _ LOOKUP_NO_MAGICLINKS); [done|]. destruct (_ && _); [done|]. by rewrite (f_scoped _ Hs).
Qed.

Lemma choose_inside fuel : ∀ m p, inside (m, mnt_root (mnt ns m)) → (m, mnt_root (mnt ns m)) ≠ r → choose_mountpoint_rcu ns fuel m r = Some (Some p) → inside p ∧ p ≠ r ∧ p.2 ≠ mnt_root (mnt ns p.1).
Proof.
  induction fuel as [|fuel IH]; intros m p Hi Hn; cbn [choose_mountpoint_rcu]; cbv zeta; destruct (Z.eqb_spec (mnt_parent (mnt ns m)) m) as [E|E]; [done| |done|]; pose proof (c_mountpoint _ _ _ C m Hi Hn E) as Hp;
    (destruct (_ && _) eqn:Er; [done|]); (destruct (Z.eqb_spec (mnt_mountpoint (mnt ns m)) (mnt_root (mnt ns (mnt_parent (mnt ns m))))) as [Em|Em]; cbn [negb]).
  - done.
  - intros H. simplify_eq. split_and!; [done| |done]. intros <-. by rewrite !Z.eqb_refl in Er.
  - rewrite Em in Hp. intros H. apply (IH _ p Hp); [|done]. intros Eq. rewrite <-Eq, Em in Er. by rewrite !Z.eqb_refl in Er.
  - intros H. simplify_eq. split_and!; [done| |done]. intros <-. by rewrite !Z.eqb_refl in Er.
Qed.

Lemma up_confined s s' d : confined s → up ns mfuel s = inr (s', d) → confined s' ∧ inside ((at_ s').1, d).
Proof.
  intros Hs. unfold up. cbv zeta. rewrite (f_root _ Hs). pose proof (f_at _ Hs) as Ha. destruct (at_ s) as [m e] eqn:Eat. cbn [fst snd].
  assert ((if has (fl s) LOOKUP_BENEATH then inl (- EXDEV) else inr (s, e)) = inr (s', d) → confined s' ∧ inside ((at_ s').1, d)) as Hstay by (destruct (has _ _); [done|]; intros H; simplify_eq; by rewrite Eat).
  case_bool_decide as Er; [exact Hstay|]. destruct (Z.eqb_spec e (mnt_root (mnt ns m))) as [Em|Em].
  - rewrite Em in Ha, Er. destruct (choose_mountpoint_rcu ns mfuel m r) as [[p|]|] eqn:Ec; [|exact Hstay|exact Hstay]. destruct (choose_inside _ _ _ Ha Er Ec) as (Hp & Hpr & Hpm). destruct (has _ LOOKUP_NO_XDEV); [done|]. cbn [move at_]. destruct (path_connected _ _ _); [|done].
    intros H. simplify_eq. split; [by apply confined_move|]. cbn. destruct p as [m' e']. by apply (c_parent _ _ _ C).
  - destruct (path_connected _ _ _); [|done]. intros H. simplify_eq. split; [done|]. rewrite Eat. by apply (c_parent _ _ _ C).
Qed.

Lemma component_confined more s c trailing res : confined s → component ns mfuel more s c trailing = inr res → match res with Moved s' | Jumped s' | Follow s' _ => confined s' end.
Proof.
  intros Hs. unfold component. cbv zeta. destruct (_ =? LAST_DOT); [intros H; by simplify_eq|]. destruct (_ =? LAST_DOTDOT).
  - rewrite root_known by done. unfold above, enter_dir. destruct (up ns mfuel s) as [|[s1 d]] eqn:Eu; [done|]. destruct (up_confined _ _ _ Hs Eu) as [Hs1 Hd]. destruct (enter ns mfuel s1 d) as [|[q j]] eqn:Ee; [done|].
    intros H. simplify_eq. apply confined_move; [done|]. by eapply enter_inside.
  - pose proof (f_at _ Hs) as Ha. destruct (child ns (fl s) (at_ s).2 c) as [|d] eqn:Ed; [done|].
    assert (inside ((at_ s).1, d)) as Hd.
    { destruct (at_ s) as [m e] eqn:Eat. cbn [fst snd] in *. unfold child in Ed. cbv zeta in Ed. assert ((if i_dead (d_inode (dent ns e)) then inl (- ENOENT) else lookup ns e c (fl s)) = inr d → inside (m, d)) as Hsl by (destruct (i_dead _); [done|]; apply (c_found _ _ _ C _ _ _ _ _ Ha)).
      destruct (d_lookup ns e c) as [x|] eqn:Ex; [|by apply Hsl]. destruct (_ <=? 0); [destruct (_ =? 0); [by apply Hsl|done]|]. simplify_eq. by apply (c_cached _ _ _ C _ _ _ _ Ha Ex). }
    destruct (enter ns mfuel s d) as [|[q j]] eqn:Ee; [done|]. pose proof (enter_inside _ _ _ _ Ee Hd) as Hq. destruct (_ || _); [intros H; simplify_eq; by apply confined_move|].
    apply follow_confined. by split; try apply Hs.
Qed.

Lemma scoped_last f tail c : has f LOOKUP_IS_SCOPED = true → has (last_flags tail c f) LOOKUP_IS_SCOPED = true.
Proof.
  intros Hf. assert (has (Z.land f (Z.lnot LOOKUP_PARENT)) LOOKUP_IS_SCOPED = true) as H by (by rewrite has_clear). unfold last_flags. cbv zeta. destruct (_ && _); [by rewrite has_lor, H|done].
Qed.

Lemma resolve_confined k : ∀ s tail cs s', confined s → resolve ns mfuel k s tail cs = inr s' → confined s'.
Proof.
  induction k as [|k IHk]; intros s tail cs; revert s; induction cs as [|c cs IH]; intros s s' Hs; try (cbn; intros H; by simplify_eq); rewrite resolve_cons, search_moves; cbv zeta; (destruct (negb _); [done|]); set (s1 := move _ _ s);
    set (last := match cs with [] => true | _ => false end); set (s2 := if last then _ else s1);
    (assert (confined s2) as Hs2; [assert (confined s1) as Hs1 by (apply confined_move; [done|apply Hs]); unfold s2; destruct last; [apply confined_flags; [done|apply scoped_last, Hs1]|done]|]);
    destruct (component ns mfuel _ s2 c last) as [|[s3|s3|s3 t]] eqn:Ec; try done; apply component_confined in Ec as Hs3; try done.
  - unfold go_on. destruct last; [intros H; by simplify_eq|]. destruct (d_can_lookup _ _); [by apply IH|done].
  - unfold go_on. destruct last; [intros H; by simplify_eq|]. destruct (d_can_lookup _ _); [by apply IH|done].
  - unfold go_on. destruct last; [intros H; by simplify_eq|]. destruct (d_can_lookup _ _); [by apply IHk|done].
  - apply IHk. destruct last; [|done]. apply confined_flags; [done|]. by rewrite has_lor, (f_scoped _ Hs3).
Qed.

Lemma down_confined s s' : confined s → enter_dir ns mfuel s (at_ s).2 = inr s' → confined s'.
Proof.
  intros Hs. unfold enter_dir. destruct (enter ns mfuel s (at_ s).2) as [|[q j]] eqn:E; [done|]. intros H. simplify_eq. apply confined_move; [done|]. eapply enter_inside; [done|]. destruct (at_ s) as [m d] eqn:Ea. cbn. rewrite <-Ea. apply Hs.
Qed.

Lemma finish_at s p : finish ns s = inr p → p = at_ s.
Proof. unfold finish. cbv zeta. destruct (_ && negb (path_is_under _ _ _)); [done|]. destruct (has (fl s) LOOKUP_DIRECTORY && _), (negb (jmp s)), (d_weak_revalidate (dent ns (at_ s).2)) as [x|]; try done; try (intros H; by simplify_eq); destruct (0 <? x); try done; intros H; by simplify_eq. Qed.

Lemma lookup_confined old dfd name f preset p : has f LOOKUP_IS_SCOPED = true → (∀ s, start ns preset dfd name f = inr s → confined s) → lookup_at ns mfuel preset old dfd name f = inr p → inside p.
Proof.
  intros Hf Hst. unfold lookup_at. destruct (start ns preset dfd name f) as [|s] eqn:Es; [done|]. specialize (Hst s eq_refl).
  assert (∀ s1, (if has f LOOKUP_DOWN then enter_dir ns mfuel s (at_ s).2 else inr s) = inr s1 → confined s1) as Hd by (intros s1; destruct (has f LOOKUP_DOWN); [by apply down_confined|intros H; by simplify_eq]).
  destruct (if has f LOOKUP_DOWN then enter_dir ns mfuel s (at_ s).2 else inr s) as [|s1]; [done|]. specialize (Hd s1 eq_refl). destruct (resolve ns mfuel _ _ _ _) as [|s2] eqn:Er; [done|].
  apply resolve_confined in Er; [|apply confined_flags; [done|by rewrite has_lor, (f_scoped _ Hd)]]. destruct (has (fl s2) LOOKUP_MOUNTPOINT).
  - destruct (enter_dir ns mfuel s2 (at_ s2).2) as [|s3] eqn:Ee; [done|]. intros H%finish_at. rewrite H. by apply down_confined in Ee; [apply Ee|].
  - intros H%finish_at. rewrite H. apply Er.
Qed.

End scoped.

(** ** A root of its own *)

(** A walk with LOOKUP_IN_ROOT against one that starts with a root. *)
Section in_root_walks.
Context (ns : space) (mfuel : nat).
Context (Hrev : ∀ d f g, d_revalidate ns d f = d_revalidate ns d g) (Hlk : ∀ d c f g, lookup ns d c f = lookup ns d c g).
Context (Hjump : ∀ d p, get_link (dent ns d) ≠ GotJump p).

Definition raise (s : pos) : pos := with_flags (Z.lor (fl s) LOOKUP_IN_ROOT) s.
Definition raise_res (r : Z + pos) : Z + pos := match r with inl e => inl e | inr s => inr (raise s) end.
Definition raise_step (r : Z + stepped) : Z + stepped :=
  match r with inl e => inl e | inr (Moved s) => inr (Moved (raise s)) | inr (Jumped s) => inr (Jumped (raise s)) | inr (Follow s t) => inr (Follow (raise s) t) end.
Definition rooted (s : pos) : Prop := (rt s).1 ≠ NULL.
Definition rooted_res (r : Z + pos) : Prop := match r with inl _ => True | inr s => rooted s end.
Definition rooted_step (r : Z + stepped) : Prop := match r with inl _ => True | inr (Moved s) | inr (Jumped s) | inr (Follow s _) => rooted s end.

Lemma raise_has s b : Z.land LOOKUP_IN_ROOT b = 0 → has (fl (raise s)) b = has (fl s) b.
Proof. intros H. cbn. rewrite has_lor. unfold has at 2. rewrite H. apply orb_false_r. Qed.

Lemma raise_enter s d : enter ns mfuel (raise s) d = enter ns mfuel s d.
Proof. unfold enter. cbv zeta. by rewrite raise_has. Qed.

Lemma raise_enter_dir s d : enter_dir ns mfuel (raise s) d = raise_res (enter_dir ns mfuel s d) ∧ (rooted s → rooted_res (enter_dir ns mfuel s d)).
Proof. unfold enter_dir. rewrite raise_enter. by destruct (enter ns mfuel s d) as [|[q j]]. Qed.

Lemma rooted_know s : rooted s → know_root ns s = inr s ∧ know_root ns (raise s) = inr (raise s).
Proof. intros Hs. unfold know_root. cbn [raise with_flags rt]. by rewrite (proj2 (Z.eqb_neq _ _) Hs). Qed.

Lemma raise_jump_root s : rooted s → jump_root ns (raise s) = raise_res (jump_root ns s) ∧ rooted_res (jump_root ns s).
Proof. intros Hs. destruct (rooted_know s Hs) as [E1 E2]. unfold jump_root. rewrite !raise_has by done. rewrite E1, E2. cbn [raise with_flags at_ rt]. destruct (has _ _); [done|]. by destruct (_ && _ && _). Qed.

Lemma raise_text s t : rooted s → text_of ns (raise s) t = raise_step (text_of ns s t) ∧ rooted_step (text_of ns s t).
Proof.
  intros Hs. unfold text_of. destruct t as [|c t]; [done|]. destruct (c =? SLASH); [|done]. destruct (raise_jump_root s Hs) as [E Hr]. rewrite E. destruct (jump_root ns s); [done|]. cbn [raise_res]. by destruct (skip_slashes (c :: t)).
Qed.

Lemma raise_follow more s q trailing : rooted s → follow ns more (raise s) q trailing = raise_step (follow ns more s q trailing) ∧ rooted_step (follow ns more s q trailing).
Proof.
  intros Hs. unfold follow. cbv zeta. rewrite raise_has by done. change (at_ (raise s)) with (at_ s). destruct (negb more); [done|]. destruct (negb _); [done|]. destruct (_ || _); [done|]. destruct (negb _); [done|].
  destruct (i_link (dent ns q.2)); [by apply raise_text|]. destruct (get_link (dent ns q.2)) as [u|e| |p] eqn:E; [by apply raise_text|done|done|]. by apply Hjump in E.
Qed.

Lemma raise_above s : rooted s → above ns mfuel (raise s) = raise_res (above ns mfuel s) ∧ rooted_res (above ns mfuel s).
Proof.
  intros Hs. assert (up ns mfuel (raise s) = match up ns mfuel s with inl e => inl e | inr (s', d) => inr (raise s', d) end ∧ match up ns mfuel s with inl _ => True | inr (s', _) => rooted s' end) as [E Hr].
  { unfold up. cbv zeta. rewrite !raise_has by done. change (at_ (raise s)) with (at_ s). change (rt (raise s)) with (rt s). cbn [move at_ raise with_flags]. case_bool_decide; [by destruct (has _ _)|]. destruct (_ =? mnt_root _); [|by destruct (path_connected _ _ _)].
    destruct (choose_mountpoint_rcu _ _ _ _) as [[p|]|]; [|by destruct (has _ _)..]. destruct (has _ _); [done|]. by destruct (path_connected _ _ _). }
  unfold above. rewrite E. destruct (up ns mfuel s) as [|[s' d]]; [done|]. destruct (raise_enter_dir s' d) as [E1 E2]. rewrite E1. auto.
Qed.

Lemma raise_child s d c : child ns (fl (raise s)) d c = child ns (fl s) d c.
Proof. unfold child. cbv zeta. rewrite (Hlk d c (fl (raise s)) (fl s)). destruct (d_lookup ns d c); [|done]. by rewrite (Hrev _ (fl (raise s)) (fl s)). Qed.

Lemma raise_component more s c trailing : rooted s → component ns mfuel more (raise s) c trailing = raise_step (component ns mfuel more s c trailing) ∧ rooted_step (component ns mfuel more s c trailing).
Proof.
  intros Hs. unfold component. cbv zeta. destruct (_ =? LAST_DOT); [done|]. destruct (_ =? LAST_DOTDOT).
  - destruct (rooted_know s Hs) as [E1 E2]. rewrite E1, E2. destruct (raise_above s Hs) as [E3 H3]. rewrite E3. by destruct (above ns mfuel s).
  - rewrite raise_child. change (at_ (raise s)) with (at_ s). destruct (child _ _ _ _) as [|d]; [done|]. rewrite raise_enter, raise_has by done. destruct (enter ns mfuel s d) as [|[q j]]; [done|]. destruct (_ || _); [done|].
    exact (raise_follow more (Pos (at_ s) (rt s) (fl s) j) q trailing Hs).
Qed.

Lemma raise_last tail c f : last_flags tail c (Z.lor f LOOKUP_IN_ROOT) = Z.lor (last_flags tail c f) LOOKUP_IN_ROOT.
Proof.
  unfold last_flags. cbv zeta. assert (Z.land (Z.lor f LOOKUP_IN_ROOT) (Z.lnot LOOKUP_PARENT) = Z.lor (Z.land f (Z.lnot LOOKUP_PARENT)) LOOKUP_IN_ROOT) as -> by (by rewrite Z.land_lor_distr_l).
  destruct (_ && _); [|done]. rewrite <-!Z.lor_assoc. f_equal.
Qed.

Lemma raise_resolve k : ∀ s tail cs, rooted s → resolve ns mfuel k (raise s) tail cs = raise_res (resolve ns mfuel k s tail cs) ∧ rooted_res (resolve ns mfuel k s tail cs).
Proof.
  induction k as [|k IHk]; intros s tail cs; revert s; induction cs as [|c cs IH]; intros s Hs; try done; rewrite !resolve_cons, !search_moves; cbv zeta; change (at_ (raise s)) with (at_ s); (destruct (negb _); [done|]);
    set (last := match cs with [] => true | _ => false end); change (move (at_ s) (jumped_after c (jmp (raise s))) (raise s)) with (raise (move (at_ s) (jumped_after c (jmp s)) s)); set (s1 := move _ _ s); set (s2 := if last then with_flags (last_flags tail c (fl s1)) s1 else s1);
    (replace (if last then with_flags (last_flags tail c (fl (raise s1))) (raise s1) else raise s1) with (raise s2) by (unfold s2; destruct last; [|done]; unfold raise, with_flags; cbn [at_ rt fl jmp]; by rewrite raise_last));
    (assert (rooted s2) as Hs2 by (by unfold s2; destruct last)); match goal with |- context [0 <? Z.of_nat ?n] => destruct (raise_component (0 <? Z.of_nat n) s2 c last Hs2) as [E Hr] end; rewrite E;
    destruct (component ns mfuel _ s2 c last) as [|[s3|s3|s3 t]]; try done; cbn [raise_step rooted_step] in *; unfold go_on; change (at_ (raise s3)) with (at_ s3).
  - destruct last; [done|]. destruct (d_can_lookup _ _); [by apply IH|done].
  - destruct last; [done|]. destruct (d_can_lookup _ _); [by apply IH|done].
  - destruct last; [done|]. destruct (d_can_lookup _ _); [by apply IHk|done].
  - destruct last; [|by apply IHk]. replace (with_flags (Z.lor (fl (raise s3)) LOOKUP_PARENT) (raise s3)) with (raise (with_flags (Z.lor (fl s3) LOOKUP_PARENT) s3)); [by apply IHk|].
    unfold raise, with_flags. cbn [at_ rt fl jmp]. by rewrite <-!Z.lor_assoc, (Z.lor_comm LOOKUP_PARENT).
Qed.

Context (Hunder : ∀ p q, path_is_under ns p q = true).

Lemma raise_finish s : finish ns (raise s) = finish ns s.
Proof. unfold finish. cbv zeta. rewrite (raise_has s LOOKUP_DIRECTORY) by done. change (at_ (raise s)) with (at_ s). rewrite !Hunder. cbn [negb]. by rewrite !andb_false_r. Qed.

Lemma raise_start r dfd name f : dfd ≠ AT_FDCWD → fdget ns dfd = Some r → has f LOOKUP_IS_SCOPED = false → r.1 ≠ NULL →
  start ns None dfd name (Z.lor f LOOKUP_IN_ROOT) = raise_res (start ns (Some r) AT_FDCWD name f) ∧ rooted_res (start ns (Some r) AT_FDCWD name f).
Proof.
  intros Hd Hg Hf Hr. unfold start. cbv zeta. rewrite (proj2 (Z.eqb_neq _ _) Hd), Hg. assert (Z.land (Z.lor f LOOKUP_IN_ROOT) (Z.lor LOOKUP_RCU LOOKUP_CACHED) = Z.land f (Z.lor LOOKUP_RCU LOOKUP_CACHED)) as -> by (by rewrite Z.land_lor_distr_l, Z.lor_0_r).
  destruct (_ =? LOOKUP_CACHED); [done|]. rewrite !has_lor. change (has LOOKUP_IN_ROOT LOOKUP_IN_ROOT) with true. change (has LOOKUP_IN_ROOT LOOKUP_IS_SCOPED) with true. rewrite !orb_true_r. cbn [negb]. rewrite andb_false_r. by destruct (_ && negb (d_can_lookup ns r.2)).
Qed.

(** Resolution under LOOKUP_IN_ROOT is resolution with a root that was given. *)
Lemma lookup_in_root r old dfd name f : dfd ≠ AT_FDCWD → fdget ns dfd = Some r → has f LOOKUP_IS_SCOPED = false → r.1 ≠ NULL →
  lookup_at ns mfuel None old dfd name (Z.lor f LOOKUP_IN_ROOT) = lookup_at ns mfuel (Some r) old AT_FDCWD name f.
Proof.
  intros Hd Hg Hf Hr. unfold lookup_at. destruct (raise_start r dfd name f Hd Hg Hf Hr) as [E1 H1]. rewrite E1. destruct (start ns (Some r) AT_FDCWD name f) as [|s]; [done|]. cbn [raise_res rooted_res] in *.
  assert (has (Z.lor f LOOKUP_IN_ROOT) LOOKUP_DOWN = has f LOOKUP_DOWN) as -> by (rewrite has_lor; apply orb_false_r). destruct (raise_enter_dir s (at_ s).2) as [E2 H2]. change (at_ (raise s)) with (at_ s). rewrite E2.
  assert ((if has f LOOKUP_DOWN then raise_res (enter_dir ns mfuel s (at_ s).2) else inr (raise s)) = raise_res (if has f LOOKUP_DOWN then enter_dir ns mfuel s (at_ s).2 else inr s)) as -> by (by destruct (has f LOOKUP_DOWN)).
  assert (rooted_res (if has f LOOKUP_DOWN then enter_dir ns mfuel s (at_ s).2 else inr s)) as H3 by (destruct (has f LOOKUP_DOWN); auto).
  destruct (if has f LOOKUP_DOWN then enter_dir ns mfuel s (at_ s).2 else inr s) as [|s1]; [done|]. cbn [raise_res rooted_res] in *.
  replace (with_flags (Z.lor (fl (raise s1)) LOOKUP_PARENT) (raise s1)) with (raise (with_flags (Z.lor (fl s1) LOOKUP_PARENT) s1)) by (unfold raise, with_flags; cbn [at_ rt fl jmp]; by rewrite <-!Z.lor_assoc, (Z.lor_comm LOOKUP_PARENT)).
  destruct (raise_resolve (Z.to_nat (MAXSYMLINKS - old)) (with_flags (Z.lor (fl s1) LOOKUP_PARENT) s1) (ends_slash name) (comps name) H3) as [E4 H4]. rewrite E4. clear E4. destruct (resolve ns mfuel _ _ _ _) as [e|s2]; [reflexivity|]. cbn [raise_res rooted_res] in *.
  rewrite raise_has by done. change (at_ (raise s2)) with (at_ s2). destruct (has (fl s2) LOOKUP_MOUNTPOINT); [|apply raise_finish]. destruct (raise_enter_dir s2 (at_ s2).2) as [E5 _]. rewrite E5. destruct (enter_dir ns mfuel s2 (at_ s2).2) as [|s3]; [done|]. cbn [raise_res].
  exact (raise_finish (move (at_ s3) false s3)).
Qed.

End in_root_walks.

(** ** The lookup as a whole *)

(** Where a lookup starts that is not absolute, and what bounds it if it has a scope. *)
Definition base_of (ns : space) (preset : option path) (dfd : Z) : option path :=
  match preset with Some r => Some r | None => if dfd =? AT_FDCWD then Some (fs_pwd ns) else fdget ns dfd end.

Lemma scoped_or f : has f LOOKUP_IS_SCOPED = has f LOOKUP_BENEATH || has f LOOKUP_IN_ROOT.
Proof. unfold LOOKUP_IS_SCOPED. unfold has. rewrite Z.land_lor_distr_r, <-negb_andb. f_equal. apply eq_true_iff_eq. by rewrite andb_true_iff, !Z.eqb_eq, Z.lor_eq_0_iff. Qed.

Lemma start_confined ns r inside preset dfd name f s : closed_under ns r inside → has f LOOKUP_IS_SCOPED = true → base_of ns preset dfd = Some r →
  start ns preset dfd name f = inr s → confined r inside s.
Proof.
  intros C Hf Hb. unfold start. cbv zeta. destruct (_ =? LOOKUP_CACHED); [done|]. rewrite Hf. unfold base_of in Hb. destruct preset as [r'|].
  { simplify_eq. destruct (_ && _); [done|]. intros H. simplify_eq. split; [apply C|done..]. }
  destruct (_ && negb (has f LOOKUP_IN_ROOT)) eqn:Ea.
  - apply andb_true_iff in Ea as [_ Ea]. apply negb_true_iff in Ea. rewrite scoped_or, Ea, orb_false_r in Hf. unfold jump_root. cbn [fl]. by rewrite Hf.
  - destruct (dfd =? AT_FDCWD); [simplify_eq; intros H; simplify_eq; split; [apply C|done..]|]. rewrite Hb. destruct (_ && negb (d_can_lookup ns r.2)); [done|]. intros H. simplify_eq. split; [apply C|done..].
Qed.

(** C33: Looking up a path is rewriting.  In a name space as file systems and the table of mounts
    keep it, which does not change meanwhile, for every name, flags (without LOOKUP_RCU), root and
    start, path_lookupat with its stack of links, its flags and its references ends, and answers
    what [lookup_at] finds, where the text of a link takes its place among the components that
    are left and at most forty links are followed; without memory for a deep stack it may answer
    -ENOMEM instead.  On every way out it holds what it held before, and one reference on the
    mount and the dentry that it hands out.  With LOOKUP_BENEATH or LOOKUP_IN_ROOT the path
    lies in every set with the start that is closed under the steps that do not go up from it. *)
Theorem path_walk_resolves ns pile mfuel B tfuel fuel R dfd name f preset old : sound ns pile mfuel B →
  0 ≤ old ≤ MAXSYMLINKS → has f LOOKUP_RCU = false → (∀ p, preset = Some p → real p) → (length (comps name) + B + 40 * B < fuel)%nat → (42 ≤ tfuel)%nat →
  ∃ res w', path_lookupat ns tfuel fuel mfuel dfd name f (Walk (set_nameidata preset old) R) = Some (res, w') ∧
    (res = lookup_at ns mfuel preset old dfd name f ∨ stack_memory ns = false ∧ res = inl (- ENOMEM)) ∧
    held w' = R ⊎ match res with inr p => grip p | inl _ => ∅ end ∧
    (∀ r inside p, closed_under ns r inside → base_of ns preset dfd = Some r → has f LOOKUP_IS_SCOPED = true → res = inr p → inside p).
Proof.
  intros S Hold Hrcu Hpre Hf Htf. destruct (walk_resolves ns pile mfuel B S tfuel fuel R dfd name f preset old Hold Hrcu Hpre Hf Htf) as (res & w' & E & Hh & Hr). exists res, w'. split_and!; [done|done|done|].
  intros r inside p C Hb Hs Hp. destruct Hr as [Hr|[_ Hr]]; [rewrite Hr in Hp; clear Hr|by rewrite Hr in Hp].
  assert (r.1 ≠ NULL) as Hr. { unfold base_of in Hb. destruct preset as [r'|]; [simplify_eq; by apply Hpre|]. destruct (_ =? AT_FDCWD); [simplify_eq; apply S|]. by apply (s_fd _ _ _ _ S) in Hb as []. }
  eapply (lookup_confined ns mfuel r inside C Hr); [exact Hs| |exact Hp]. intros s. by apply start_confined.
Qed.

(** ** A small name space

    The directory d holds the link l to ../e/f/; another mount covers the directory e, and f is a
    directory there that is not cached. *)
Definition demo_dentry (d : Z) : dentry :=
  let i := Inode 0x41ed 0 0 false AclNone (inr None) false false false false true true false None in
  let dir p := Dentry Directory p i None GotNone 0 None in
  if d =? 3 then Dentry Symlink 2 (Inode 0xa1ff 0 0 false AclNone (inr None) false false false false true true false None) (Some [46; 46; 47; 101; 47; 102; 47]) GotNone 0 None
  else if d =? 5 then dir 5
  else if d =? 6 then dir 5
  else dir 1.
Definition demo_mount (m : Z) : mount := if m =? 2 then Mount 5 1 4 false true else Mount 1 m 1 false true.
Definition demo_space : space :=
  Space demo_dentry demo_mount (λ p, if bool_decide (p = (1, 4)) then Some 2 else None)
    (λ d c, if bool_decide ((d, c) = (1, [100])) then Some 2 else if bool_decide ((d, c) = (1, [101])) then Some 4 else if bool_decide ((d, c) = (2, [108])) then Some 3 else None)
    (λ _ _, 1) (λ d c _, if bool_decide ((d, c) = (5, [102])) then inr 6 else inl (- ENOENT)) (λ _ _, true) (λ _ _, true)
    (Cred 0 (λ _, false) (λ _ _, true) (λ _, true) (λ _, true) true (λ _ _, 0) (λ _ _, 0)) (Protections 1 1 1 1) true (1, 1) (1, 1) (λ fd, if fd =? 3 then Some (1, 2) else None).
Definition demo_pile (m : Z) : nat := if m =? 2 then 1%nat else 0%nat.

Lemma demo_space_sound : sound demo_space demo_pile 1 3.
Proof.
  split; cbn.
  - intros p m. case_bool_decide; [|done]. intros H0. by simplify_eq.
  - intros m. unfold demo_mount, demo_pile. destruct (Z.eqb_spec m 2); cbn; [|done]. done.
  - intros m. unfold demo_pile. destruct (m =? 2); lia.
  - intros d. unfold demo_dentry. cbv zeta. by repeat destruct (_ =? _).
  - intros d c e. repeat case_bool_decide; intros H3; by simplify_eq.
  - intros d c f e. case_bool_decide; intros H0; by simplify_eq.
  - intros d c f e. case_bool_decide; intros H0; by simplify_eq.
  - intros d e. unfold demo_dentry. cbv zeta. by repeat destruct (_ =? _).
  - intros d e. unfold demo_dentry. cbv zeta. by repeat destruct (_ =? _).
  - done.
  - done.
  - intros fd p. destruct (_ =? _); intros H; by simplify_eq.
  - intros d t. unfold demo_dentry. cbv zeta. repeat destruct (_ =? _); cbn; intros [H|H]; simplify_eq. apply Nat.leb_le. reflexivity.
Qed.

(** The directory d does not lead out of itself. *)
Definition demo_inside (p : path) : Prop := p = (1, 2) ∨ p = (1, 3).

Lemma demo_closed : closed_under demo_space (1, 2) demo_inside.
Proof.
  split; unfold demo_inside; cbn.
  - by left.
  - intros m d c e [H|H]; simplify_eq; repeat case_bool_decide; intros; simplify_eq; auto.
  - intros m d c f e [H|H]; simplify_eq; case_bool_decide; intros; simplify_eq.
  - intros p m [->| ->]; case_bool_decide; intros; simplify_eq.
  - intros m d [H|H]; simplify_eq; [done|]. intros _ _. by left.
  - intros m. unfold demo_mount. destruct (Z.eqb_spec m 2); cbn; intros [H|H]; by simplify_eq.
Qed.

(** /d/l leads to f in the other mount; from d with LOOKUP_BENEATH l is refused, and with
    LOOKUP_IN_ROOT it leads nowhere, while ".." stays. *)
Lemma path_walk_resolves_witness :
  (∃ w', path_lookupat demo_space 42 200 1 AT_FDCWD [47; 100; 47; 108] LOOKUP_FOLLOW (Walk (set_nameidata None 0) ∅) = Some (inr (2, 6), w') ∧ held w' = ∅ ⊎ grip (2, 6)) ∧
  (∃ w', path_lookupat demo_space 42 200 1 3 [108] (Z.lor LOOKUP_FOLLOW LOOKUP_BENEATH) (Walk (set_nameidata None 0) ∅) = Some (inl (- EXDEV), w') ∧ held w' = ∅ ⊎ ∅) ∧
  demo_inside (1, 2) ∧ lookup_at demo_space 1 None 0 3 [47; 46; 46] LOOKUP_IN_ROOT = inr (1, 2) ∧ lookup_at demo_space 1 None 0 3 [108] (Z.lor LOOKUP_FOLLOW LOOKUP_IN_ROOT) = inl (- ENOENT).
Proof.
  assert (∀ c, (length (comps c) ≤ 2)%nat → (length (comps c) + 3 + 40 * 3 < 200)%nat) as Hf by lia.
  assert (∀ p : path, None = Some p → real p) as Hp by done.
  assert (0 ≤ 0 ≤ MAXSYMLINKS) as Hold by done.
  pose proof (λ (dfd : Z) (c : list Z) (f : Z) (Hc : (length (comps c) ≤ 2)%nat) (Hr : has f LOOKUP_RCU = false), path_walk_resolves demo_space demo_pile 1 3 42 200 ∅ dfd c f None 0 demo_space_sound Hold Hr Hp (Hf c Hc) (le_n 42)) as H.
  assert (lookup_at demo_space 1 None 0 AT_FDCWD [47; 100; 47; 108] LOOKUP_FOLLOW = inr (2, 6)) as E1 by (by vm_compute).
  assert (lookup_at demo_space 1 None 0 3 [108] (Z.lor LOOKUP_FOLLOW LOOKUP_BENEATH) = inl (- EXDEV)) as E2 by (by vm_compute).
  assert (lookup_at demo_space 1 None 0 3 [47; 46; 46] LOOKUP_IN_ROOT = inr (1, 2)) as E3 by (by vm_compute).
  split; [|split; [|split; [|split; [exact E3|by vm_compute]]]].
  - destruct (H AT_FDCWD [47; 100; 47; 108] LOOKUP_FOLLOW) as (res & w' & E & [Hr|[Hr _]] & Hh & _); [by vm_compute; lia|reflexivity| |discriminate Hr]. rewrite E1 in Hr. subst res. exists w'. split; [exact E|exact Hh].
  - destruct (H 3 [108] (Z.lor LOOKUP_FOLLOW LOOKUP_BENEATH)) as (res & w' & E & [Hr|[Hr _]] & Hh & _); [by vm_compute; lia|reflexivity| |discriminate Hr]. rewrite E2 in Hr. subst res. exists w'. split; [exact E|exact Hh].
  - destruct (H 3 [47; 46; 46] LOOKUP_IN_ROOT) as (res & w' & _ & [Hr|[Hr _]] & _ & H1); [by vm_compute; lia|reflexivity| |discriminate Hr]. rewrite E3 in Hr. exact (H1 (1, 2) demo_inside (1, 2) demo_closed eq_refl eq_refl Hr).
Defined.

(** The root is not known when the walk begins at it: LOOKUP_NO_XDEV, with a link to / in the
    mount of the root, is refused. *)
Definition demo_link : space :=
  Space (λ d, if d =? 3 then Dentry Symlink 1 (d_inode (demo_dentry 3)) (Some [47]) GotNone 0 None else demo_dentry d) demo_mount (λ _, None)
    (λ d c, if bool_decide ((d, c) = (1, [108])) then Some 3 else None) (λ _ _, 1) (λ _ _ _, inl (- ENOENT)) (λ _ _, true) (λ _ _, true) (task demo_space) (prot demo_space) true (1, 1) (1, 1) (λ _, None).
Example no_xdev_root_unknown :
  lookup_at demo_link 1 None 0 AT_FDCWD [108] (Z.lor LOOKUP_FOLLOW LOOKUP_NO_XDEV) = inl (- EXDEV) ∧ lookup_at demo_link 1 None 0 AT_FDCWD [108] LOOKUP_FOLLOW = inr (1, 1) ∧
  lookup_at demo_link 1 None 0 AT_FDCWD [46; 46; 47; 108] (Z.lor LOOKUP_FOLLOW LOOKUP_NO_XDEV) = inr (1, 1).
Proof. by split_and!; vm_compute. Qed.

End NameiWalk.
