(* ===== verification/Vdso.v ===== *)
(** * The vtask region of the vDSO

    arch/x86/entry/vdso/vma.c, vdso-access.c, arch/x86/include/asm/vdso.h, with
    the calls in fs/exec.c and kernel/fork.c: the kernel maps six pages in front
    of the vvar pages of every process, a metadata page and five pages of the
    task structure, and the vDSO reads the task's pid, tgid and name there.

    Kernel memory is a byte per address of the direct map, so that the
    [struct page] of an address is its page number and consecutive pages have
    consecutive numbers.  A process has mapped regions (page number to
    mapping) and page table entries (page number to kernel page), which are
    filled by faults.  The offsets of the fields of [task_struct] are fixed by
    the compiler and are parameters ([task_layout]); so are the symbols of the
    vDSO image, which the build extracts, and the offset of [_vdso_data] in the
    vvar page.  Installing and removing a mapping have their documented effect;
    whether an installation succeeds is an argument. *)

From Stdlib Require Import ZArith Lia.
From stdpp Require Import base numbers list gmap strings.
From S2P Require Import Prelude.

Module Vdso.

Definition PAGE_SIZE : Z := 4096.
Definition PAGE_SHIFT : Z := 12.
Definition PMD_SIZE : Z := 2097152.
Definition DEFAULT_MAP_WINDOW : Z := 140737488351232.
Definition VM_FAULT_SIGBUS : Z := 2.
Definition VTASK_MAGIC : Z := 1413567307.  (** 0x5441534B *)
Definition VTASK_PAGES : Z := 6.
Definition TASK_COMM_LEN : Z := 16.

(** [struct vtask_metadata] (packed): the offsets of its fields. *)
Definition META_MAGIC : Z := 0.
Definition META_TASK_OFFSET : Z := 8.
Definition META_TASK_ADDR : Z := 16.
Definition META_PID : Z := 24.
Definition META_TIMESTAMP : Z := 28.
Definition META_SIZE : Z := 36.

(** The fields of [task_struct] that the vDSO reads. *)
Record task_layout := TaskLayout {
  TASK_SIZE : Z;
  OFF_PID : Z;
  OFF_TGID : Z;
  OFF_COMM : Z }.

Record kernel := Kernel {
  kmem : memory;
  vtask_pages : list (option Z);   (** page numbers; [None] is NULL *)
  vtask_meta : option Z }.         (** address of the metadata page *)

Definition virt_to_page (a : Z) : Z := a / PAGE_SIZE.

(** The kernel before the initcall: no metadata, pages NULL. *)
Definition kernel0 (m : memory) : kernel := Kernel m (replicate 6 None) None.

(** [meta] is the zeroed page that [get_zeroed_page] returns, if any. *)
Definition init_vtask (meta : option Z) (k : kernel) : Z * kernel :=
  match meta with
  | None => (- ENOMEM, Kernel (kmem k) (vtask_pages k) None)
  | Some a =>
      let m := λ b, if (a <=? b) && (b <? a + PAGE_SIZE) then 0 else kmem k b in
      let m := kwrite 8 (a + META_MAGIC) VTASK_MAGIC m in
      let m := kwrite 8 (a + META_TASK_OFFSET) 0 m in
      let m := kwrite 8 (a + META_TASK_ADDR) 0 m in
      let m := kwrite 4 (a + META_PID) (u32 (-114514)) m in
      let m := kwrite 8 (a + META_TIMESTAMP) 0 m in
      (0, Kernel m (Some (virt_to_page a) :: replicate 5 None) (Some a))
  end.

(** [task] is the address of the task structure, 0 for NULL. *)
Definition update_vtask_page (L : task_layout) (jiffies task : Z) (k : kernel) : kernel :=
  match vtask_meta k, head (vtask_pages k) with
  | Some meta, Some (Some p0) =>
      if task =? 0 then k
      else
        let first_page := task - task mod PAGE_SIZE in
        let start_page := virt_to_page first_page in
        let offset := task mod PAGE_SIZE in
        let m := kwrite 8 (meta + META_TASK_OFFSET) offset (kmem k) in
        let m := kwrite 8 (meta + META_TASK_ADDR) task m in
        let m := kwrite 4 (meta + META_PID) (kread 4 (task + OFF_PID L) m) m in
        let m := kwrite 8 (meta + META_TIMESTAMP) (u64 jiffies) m in
        Kernel m (Some p0 :: ((λ i, Some (start_page + i)) <$> seqZ 0 5)) (Some meta)
  | _, _ => k
  end.

(** The calls at the end of a successful exec and of [copy_process]. *)
Definition exec_update (L : task_layout) (ret jiffies current : Z) (k : kernel) : kernel :=
  if ret =? 0 then update_vtask_page L jiffies current k else k.

Definition fork_update (L : task_layout) (jiffies p : Z) (has_mm : bool) (k : kernel) : kernel :=
  if negb (p =? 0) && has_mm then update_vtask_page L jiffies p k else k.

(** ** The address space of a process *)

Record vdso_image := VdsoImage {
  data : Z;            (** kernel address of the image, page aligned *)
  size : Z;
  sym_vvar_start : Z;  (** negative *)
  sym_vvar_page : Z;
  sym_pvclock_page : Z;
  sym_hvclock_page : Z;
  sym_timens_page : Z }.

Inductive mapping := MVtask (start : Z) | MVdso (start : Z) | MVvar (start : Z) | MOther.

Record mm := Mm {
  vmas : gmap Z mapping;      (** by user page number *)
  ptes : gmap Z Z;            (** user page number to kernel page number *)
  ctx_vdso : Z;
  ctx_image : option vdso_image;
  ctx_vtask_base : Z }.

Definition set_vmas (g : gmap Z mapping) (u : mm) : mm :=
  Mm g (ptes u) (ctx_vdso u) (ctx_image u) (ctx_vtask_base u).
Definition set_ptes (g : gmap Z Z) (u : mm) : mm :=
  Mm (vmas u) g (ctx_vdso u) (ctx_image u) (ctx_vtask_base u).

(** The pages of [len] bytes at the page-aligned address [addr]. *)
Definition pages_of (addr len : Z) : list Z := seqZ (addr / PAGE_SIZE) (len / PAGE_SIZE).

Definition map_pages (v : mapping) (ps : list Z) (g : gmap Z mapping) : gmap Z mapping :=
  foldr (λ p g, <[p := v]> g) g ps.
Definition unmap_pages {A} (ps : list Z) (g : gmap Z A) : gmap Z A :=
  foldr (λ p g, delete p g) g ps.

(** [_install_special_mapping]: [err] is its error, 0 for success. *)
Definition install (err : Z) (addr len : Z) (v : mapping) : st mm Z :=
  if negb (err =? 0) then mret err
  else modify (λ u, set_vmas (map_pages v (pages_of addr len) (vmas u)) u) ;; mret 0.

(** [do_munmap]: the pages lose their mapping and their page table entries. *)
Definition do_munmap (addr len : Z) : st mm unit :=
  modify (λ u, set_ptes (unmap_pages (pages_of addr len) (ptes u))
                 (set_vmas (unmap_pages (pages_of addr len) (vmas u)) u)).

(** Kernel and address space of the current process. *)
Record machine := Machine { kern : kernel; umm : mm }.

Definition on_mm {A} (m : st mm A) : st machine A := λ w,
  match m (umm w) with Some (a, u) => Some (a, Machine (kern w) u) | None => None end.
Definition on_kernel (f : kernel → kernel) : st machine unit :=
  modify (λ w, Machine (f (kern w)) (umm w)).

(** [killed]: the lock was interrupted; [errs]: the errors of the three
    installations (0 for success). *)
Definition map_vdso (L : task_layout) (jiffies current : Z) (killed : bool) (errs : Z * Z * Z)
    (image : vdso_image) (addr : Z) : st machine Z :=
  let '(err1, err2, err3) := errs in
  if killed then mret (- EINTR)
  else
    let vtask_size := PAGE_SIZE * 6 in
    let vtask_addr := addr in
    let vvar_addr := vtask_addr + vtask_size in
    let text_start := vvar_addr - sym_vvar_start image in
    on_kernel (update_vtask_page L jiffies current) ;;
    r ← on_mm (install err1 vtask_addr vtask_size (MVtask vtask_addr));
    if negb (r =? 0) then mret r
    else
      r ← on_mm (install err2 text_start (size image) (MVdso text_start));
      if negb (r =? 0) then on_mm (do_munmap vtask_addr vtask_size) ;; mret r
      else
        r ← on_mm (install err3 vvar_addr (- sym_vvar_start image) (MVvar vvar_addr));
        if negb (r =? 0) then on_mm (do_munmap vtask_addr (vtask_size + size image)) ;; mret r
        else
          on_mm (modify (λ u, Mm (vmas u) (ptes u) text_start (Some image) vtask_addr)) ;;
          mret 0.

(** [PAGE_ALIGN] on a 64-bit address. *)
Definition page_align (a : Z) : Z := u64 (a + PAGE_SIZE - 1) / PAGE_SIZE * PAGE_SIZE.

(** [align] is [align_vdso_addr], [random] the random number drawn. *)
Definition vdso_addr (align : Z → Z) (random start len : Z) : Z :=
  let vtask_size := PAGE_SIZE * 6 in
  let len := u32 (len + vtask_size) in
  let start := page_align start in
  let end_ := u64 (start + len + PMD_SIZE - 1) / PMD_SIZE * PMD_SIZE in
  let end_ := if DEFAULT_MAP_WINDOW <=? end_ then DEFAULT_MAP_WINDOW else end_ in
  let end_ := u64 (end_ - len) in
  let addr :=
    if start <? end_ then
      let offset := u32 (u32 random mod (Z.shiftr (end_ - start) PAGE_SHIFT + 1)) in
      start + Z.shiftl offset PAGE_SHIFT
    else start in
  align addr.

Definition map_vdso_randomized (L : task_layout) (jiffies current : Z) (killed : bool)
    (errs : Z * Z * Z) (align : Z → Z) (random start_stack : Z) (image : vdso_image) :
    st machine Z :=
  let addr := vdso_addr align random start_stack (u32 (size image - sym_vvar_start image)) in
  map_vdso L jiffies current killed errs image addr.

Definition is_special (v : mapping) : bool :=
  match v with MVdso _ | MVvar _ => true | _ => false end.

Definition map_vdso_once (L : task_layout) (jiffies current : Z) (killed : bool)
    (errs : Z * Z * Z) (image : vdso_image) (addr : Z) : st machine Z :=
  w ← get;
  if existsb is_special (map_to_list (vmas (umm w))).*2 then mret (- EEXIST)
  else map_vdso L jiffies current killed errs image addr.

Definition load_vdso32 (L : task_layout) (jiffies current : Z) (killed : bool) (errs : Z * Z * Z)
    (vdso32_enabled : Z) (vdso_image_32 : vdso_image) : st machine Z :=
  if negb (vdso32_enabled =? 1) then mret 0
  else map_vdso L jiffies current killed errs vdso_image_32 0.

Definition arch_setup_additional_pages (L : task_layout) (jiffies current : Z) (killed : bool)
    (errs : Z * Z * Z) (align : Z → Z) (random start_stack vdso64_enabled : Z)
    (vdso_image_64 : vdso_image) : st machine Z :=
  if vdso64_enabled =? 0 then mret 0
  else
    on_kernel (update_vtask_page L jiffies current) ;;
    map_vdso_randomized L jiffies current killed errs align random start_stack vdso_image_64.

(** The 32-bit landing pads of an image. *)
Record landing := Landing {
  sym_int80_landing_pad : Z;
  sym_vdso32_sigreturn_landing_pad : Z;
  sym_vdso32_rt_sigreturn_landing_pad : Z }.

(** [ia32]: the image is the 32-bit one and the task is in a 32-bit system call. *)
Definition vdso_fix_landing (ia32 : bool) (l : landing) (vdso new_start ip : Z) : Z :=
  if ia32 && (ip =? sym_int80_landing_pad l + vdso) then new_start + sym_int80_landing_pad l else ip.

(** Result: the instruction pointer. *)
Definition vdso_mremap (ia32 : bool) (l : landing) (new_start ip : Z) : st mm Z :=
  u ← get;
  let ip := vdso_fix_landing ia32 l (ctx_vdso u) new_start ip in
  put (Mm (vmas u) (ptes u) new_start (ctx_image u) (ctx_vtask_base u)) ;;
  mret ip.

Definition arch_syscall_is_vdso_sigreturn (ia32 : bool) (l : landing) (vdso ip : Z) : bool :=
  ia32 && ((ip =? vdso + sym_vdso32_sigreturn_landing_pad l) ||
           (ip =? vdso + sym_vdso32_rt_sigreturn_landing_pad l)).

Definition compat_arch_setup_additional_pages (L : task_layout) (jiffies current : Z)
    (killed : bool) (errs : Z * Z * Z) (align : Z → Z) (random start_stack : Z)
    (x32 : bool) (vdso64_enabled vdso32_enabled : Z) (vdso_image_x32 vdso_image_32 : vdso_image) :
    st machine Z :=
  if x32 then
    if vdso64_enabled =? 0 then mret 0
    else map_vdso_randomized L jiffies current killed errs align random start_stack vdso_image_x32
  else load_vdso32 L jiffies current killed errs vdso32_enabled vdso_image_32.

(** When the task changes its time namespace the vvar pages fault again. *)
Definition is_vvar (v : mapping) : bool := match v with MVvar _ => true | _ => false end.

Definition in_vvar (u : mm) (p : Z) : bool := match vmas u !! p with Some v => is_vvar v | None => false end.

Definition vdso_join_timens : st mm Z :=
  modify (λ u, set_ptes (base.filter (λ e, in_vvar u e.1 = false) (ptes u)) u) ;;
  mret 0.

(** ** Page faults *)

(** A mapping backed by a NULL-terminated array of pages
    (include/linux/mm_types.h, [struct vm_special_mapping]). *)
Fixpoint special_page (pages : list (option Z)) (pgoff : nat) : option Z :=
  match pages, pgoff with
  | Some p :: _, O => Some p
  | Some _ :: pages, S n => special_page pages n
  | _, _ => None
  end.

Definition vdso_fault (image : option vdso_image) (pgoff : Z) : Z + Z :=
  match image with
  | None => inl VM_FAULT_SIGBUS
  | Some im =>
      if size im <=? Z.shiftl pgoff PAGE_SHIFT then inl VM_FAULT_SIGBUS
      else inr (virt_to_page (data im + Z.shiftl pgoff PAGE_SHIFT))
  end.

(** What the vvar fault handler finds: the vvar page, the page of the task's
    time namespace, the paravirtual and Hyper-V clock pages that are in use. *)
Record vvar_env := VvarEnv {
  ve_vvar : Z;
  ve_timens : option Z;
  ve_pvclock : option Z;
  ve_hvclock : option Z;
  ve_insert : Z → Z → Z }.   (** [vmf_insert_pfn]: its code *)

Definition VM_FAULT_ERROR : Z := 2163.

(** The code and the (address, page) insertions made, in order. *)
Definition vvar_fault (e : vvar_env) (image : option vdso_image) (pgoff address : Z) :
    Z * list (Z * Z) :=
  match image with
  | None => (VM_FAULT_SIGBUS, [])
  | Some im =>
      let sym_offset := s64 (Z.shiftl pgoff PAGE_SHIFT) + sym_vvar_start im in
      if sym_offset =? 0 then (VM_FAULT_SIGBUS, [])
      else if sym_offset =? sym_vvar_page im then
        match ve_timens e with
        | Some tp =>
            let addr := address + (sym_timens_page im - sym_offset) in
            let err := ve_insert e addr (ve_vvar e) in
            if negb (Z.land err VM_FAULT_ERROR =? 0) then (err, [(addr, ve_vvar e)])
            else (ve_insert e address tp, [(addr, ve_vvar e); (address, tp)])
        | None => (ve_insert e address (ve_vvar e), [(address, ve_vvar e)])
        end
      else if sym_offset =? sym_pvclock_page im then
        match ve_pvclock e with
        | Some p => (ve_insert e address p, [(address, p)])
        | None => (VM_FAULT_SIGBUS, [])
        end
      else if sym_offset =? sym_hvclock_page im then
        match ve_hvclock e with
        | Some p => (ve_insert e address p, [(address, p)])
        | None => (VM_FAULT_SIGBUS, [])
        end
      else if sym_offset =? sym_timens_page im then
        match ve_timens e with
        | None => (VM_FAULT_SIGBUS, [])
        | Some _ => (ve_insert e address (ve_vvar e), [(address, ve_vvar e)])
        end
      else (VM_FAULT_SIGBUS, [])
  end.

(** ** User accesses

    A page that is not in the page table is faulted in; an access that no
    mapping serves kills the process ([fault]). *)
Definition fault_page (vpn : Z) : st machine Z :=
  w ← get;
  match vmas (umm w) !! vpn with
  | Some (MVtask start) =>
      lift (special_page (vtask_pages (kern w)) (Z.to_nat (vpn - start / PAGE_SIZE)))
  | Some (MVdso start) =>
      match vdso_fault (ctx_image (umm w)) (vpn - start / PAGE_SIZE) with
      | inr p => mret p
      | inl _ => fault
      end
  | _ => fault
  end.

Definition touch (vpn : Z) : st machine Z :=
  w ← get;
  match ptes (umm w) !! vpn with
  | Some p => mret p
  | None =>
      p ← fault_page vpn;
      on_mm (modify (λ u, set_ptes (<[vpn := p]> (ptes u)) u)) ;;
      mret p
  end.

Definition ubyte (a : Z) : st machine Z :=
  p ← touch (a / PAGE_SIZE);
  w ← get;
  mret (kmem (kern w) (p * PAGE_SIZE + a mod PAGE_SIZE)).

Fixpoint ubytes (n : nat) (a : Z) : st machine (list Z) :=
  match n with
  | O => mret []
  | S n => b ← ubyte a; bs ← ubytes n (a + 1); mret (b :: bs)
  end.

Definition uread (n : nat) (a : Z) : st machine Z := bs ← ubytes n a; mret (le_combine bs).

(** ** vdso-access.c: code that runs in user space

    [vdso_data] is the address of [_vdso_data] in the process. *)

Definition __vdso_get_vtask_base (vdso_data : Z) : Z := vdso_data - 6 * 4096 - 8 * 16.

Definition __vdso_get_vtask_metadata (vdso_data : Z) : Z := __vdso_get_vtask_base vdso_data.

(** [pid] is unsigned, so [meta->pid <= 0] holds for 0 only. *)
Definition __vdso_get_task_struct (vdso_data : Z) : st machine Z :=
  let meta := __vdso_get_vtask_metadata vdso_data in
  if meta =? 0 then mret 0
  else
    magic ← uread 8 (meta + META_MAGIC);
    if negb (magic =? VTASK_MAGIC) then mret 0
    else
      pid ← uread 4 (meta + META_PID);
      if pid <=? 0 then mret 0
      else
        offset ← uread 8 (meta + META_TASK_OFFSET);
        mret (__vdso_get_vtask_base vdso_data + PAGE_SIZE + offset).

Definition __vdso_get_task_pid (L : task_layout) (vdso_data : Z) : st machine Z :=
  task ← __vdso_get_task_struct vdso_data;
  if task =? 0 then mret (-1) else v ← uread 4 (task + OFF_PID L); mret (s32 v).

Definition __vdso_get_task_tgid (L : task_layout) (vdso_data : Z) : st machine Z :=
  task ← __vdso_get_task_struct vdso_data;
  if task =? 0 then mret (-1) else v ← uread 4 (task + OFF_TGID L); mret (s32 v).

(** The copying loop at index [i] of [n] turns left; [buf] is the caller's
    buffer. *)
Fixpoint comm_loop (n : nat) (comm : Z) (size i : Z) (buf : list Z) : st machine (Z * list Z) :=
  match n with
  | O => mret (i, buf)
  | S n =>
      if (i <? size - 1) && (i <? TASK_COMM_LEN - 1) then
        c ← ubyte (comm + i);
        if c =? 0 then mret (i, buf)
        else
          buf ← lift (zinsert buf i c);
          comm_loop n comm size (i + 1) buf
      else mret (i, buf)
  end.

(** [buf] is [None] for NULL; the result is NULL or the buffer.  The loop makes
    at most [TASK_COMM_LEN] turns. *)
Definition __vdso_get_task_comm (L : task_layout) (vdso_data : Z) (buf : option (list Z))
    (size : Z) : st machine (option (list Z)) :=
  match buf with
  | None => mret None
  | Some buf =>
      if size <=? 0 then mret None
      else
        task ← __vdso_get_task_struct vdso_data;
        if task =? 0 then mret None
        else
          r ← comm_loop (Z.to_nat TASK_COMM_LEN) (task + OFF_COMM L) size 0 buf;
          match r with
          | (i, buf) => buf ← lift (zinsert buf i 0); mret (Some buf)
          end
  end.

Definition __vdso_check_task_mapping (vdso_data : Z) : st machine Z :=
  let meta := __vdso_get_vtask_metadata vdso_data in
  if meta =? 0 then mret 0
  else
    magic ← uread 8 (meta + META_MAGIC);
    mret (if negb (magic =? VTASK_MAGIC) then 0 else 1).

Definition __vdso_get_task_struct_addr (vdso_data : Z) : st machine Z :=
  let meta := __vdso_get_vtask_metadata vdso_data in
  if meta =? 0 then mret 0
  else
    magic ← uread 8 (meta + META_MAGIC);
    if negb (magic =? VTASK_MAGIC) then mret 0 else uread 8 (meta + META_TASK_ADDR).

Definition __vdso_get_task_timestamp (vdso_data : Z) : st machine Z :=
  let meta := __vdso_get_vtask_metadata vdso_data in
  if meta =? 0 then mret 0
  else
    magic ← uread 8 (meta + META_MAGIC);
    if negb (magic =? VTASK_MAGIC) then mret 0 else uread 8 (meta + META_TIMESTAMP).

(** ** vdso_get_task_info.c *)

(** [struct task_info] *)
Record task_info := TaskInfo {
  ti_pid : Z;
  ti_task_struct_ptr : Z;
  ti_comm : list Z;
  ti_state : Z;
  ti_prio : Z;
  ti_ppid : Z }.

(** The fields of a task that are read; [real_parent] is the parent's pid, if
    there is a parent. *)
Record task_fields := TaskFields {
  tf_addr : Z;
  tf_pid : Z;
  tf_comm : list Z;
  tf_state : Z;
  tf_prio : Z;
  tf_real_parent : option Z }.

(** [info] is false for NULL, [writable] whether [copy_to_user] succeeds; the
    second component is what user space receives. *)
Definition __vdso_get_task_info (info writable : bool) (task : task_fields) :
    Z * option task_info :=
  if negb info then (- EINVAL, None)
  else
    let local_info := TaskInfo (tf_pid task) (tf_addr task) (take 16 (tf_comm task))
      (tf_state task) (tf_prio task) (default 0 (tf_real_parent task)) in
    if negb writable then (- EFAULT, None) else (0, Some local_info).

(** ** Remaining kernel side *)

(** [_vdso_data_offset] is the build's offset of [_vdso_data] in the vvar page. *)
Definition arch_get_vdso_data (_vdso_data_offset vvar_page : Z) : Z := vvar_page + _vdso_data_offset.

(** The image must be whole pages ([BUG_ON]); [None] is the BUG. *)
Definition init_vdso_image (im : vdso_image) : option unit :=
  if negb (size im mod PAGE_SIZE =? 0) then None else Some tt.

Definition init_vdso (vdso_image_64 : vdso_image) (vdso_image_x32 : option vdso_image) : option Z :=
  match init_vdso_image vdso_image_64 with
  | None => None
  | Some _ =>
      match vdso_image_x32 with
      | None => Some 0
      | Some im => match init_vdso_image im with None => None | Some _ => Some 0 end
      end
  end.

(** The boot parameter, by the number it parses to: the new [vdso64_enabled]
    and the result. *)
Definition vdso_setup (n : Z) : Z * Z := (u32 n, 1).

(** ** The kernel side *)

(** The pages of a process's vtask region when the metadata page is at [meta]
    and the task at [task]. *)
Definition vtask_page (meta task i : Z) : Z :=
  if i =? 0 then virt_to_page meta else virt_to_page task + (i - 1).

(** [meta] is the metadata page, set up by [init_vtask]. *)
Record kernel_ok (meta : Z) (k : kernel) : Prop := {
  ko_meta : vtask_meta k = Some meta;
  ko_aligned : meta mod PAGE_SIZE = 0;
  ko_page0 : head (vtask_pages k) = Some (Some (virt_to_page meta));
  ko_magic : kread 8 (meta + META_MAGIC) (kmem k) = VTASK_MAGIC }.

(** The structure at [task] does not overlap the metadata. *)
Definition task_apart (L : task_layout) (meta task : Z) : Prop :=
  task + TASK_SIZE L ≤ meta ∨ meta + PAGE_SIZE ≤ task.

Lemma init_vtask_ok a k :
  a mod PAGE_SIZE = 0 → kernel_ok a (init_vtask (Some a) k).2 ∧
  kread 4 (a + META_PID) (kmem (init_vtask (Some a) k).2) = 2 ^ 32 - 114514.
Proof.
  intros Ha. unfold META_PID. split; [split; [done|done|done|]|].
  - cbn [init_vtask snd kmem]. unfold META_MAGIC, META_TASK_OFFSET, META_TASK_ADDR, META_PID, META_TIMESTAMP.
    rewrite !kread_kwrite_ne by lia. by rewrite kread_kwrite_eq.
  - cbn [init_vtask snd kmem]. unfold META_TIMESTAMP, META_PID.
    rewrite kread_kwrite_ne by lia. by rewrite kread_kwrite_eq.
Qed.

Section update.
Context (L : task_layout) (meta task jiffies : Z) (k : kernel).
Hypothesis (Hk : kernel_ok meta k).
Hypothesis (Hta : task_apart L meta task).
Hypothesis (Hbytes : ∀ b, is_u 8 (kmem k b)).
Hypothesis (Hoff : 0 ≤ OFF_PID L ∧ OFF_PID L + 4 ≤ TASK_SIZE L).
Hypothesis (Htask : 0 < task < 2 ^ 64).

Lemma update_eq : update_vtask_page L jiffies task k =
  Kernel
    (kwrite 8 (meta + META_TIMESTAMP) (u64 jiffies)
      (kwrite 4 (meta + META_PID) (kread 4 (task + OFF_PID L)
         (kwrite 8 (meta + META_TASK_ADDR) task
            (kwrite 8 (meta + META_TASK_OFFSET) (task mod PAGE_SIZE) (kmem k))))
      (kwrite 8 (meta + META_TASK_ADDR) task
         (kwrite 8 (meta + META_TASK_OFFSET) (task mod PAGE_SIZE) (kmem k)))))
    (Some <$> (vtask_page meta task <$> seqZ 0 6)) (Some meta).
Proof.
  unfold update_vtask_page. rewrite (ko_meta _ _ Hk), (ko_page0 _ _ Hk).
  rewrite (proj2 (Z.eqb_neq task 0)) by lia. f_equal. cbn. unfold vtask_page, virt_to_page, PAGE_SIZE.
  cbn. replace ((task - task mod 4096) / 4096) with (task / 4096); [done|].
  pose proof (Z.div_mod task 4096). rewrite <-(Z.div_mul (task / 4096) 4096) at 1 by lia. f_equal. lia.
Qed.

(** What [update_vtask_page] publishes. *)
Lemma update_fields :
  let m := kmem (update_vtask_page L jiffies task k) in
  kernel_ok meta (update_vtask_page L jiffies task k) ∧
  kread 8 (meta + META_TASK_OFFSET) m = task mod PAGE_SIZE ∧
  kread 8 (meta + META_TASK_ADDR) m = task ∧
  kread 4 (meta + META_PID) m = kread 4 (task + OFF_PID L) (kmem k) ∧
  kread 8 (meta + META_TIMESTAMP) m = u64 jiffies ∧
  (∀ n a, a + Z.of_nat n ≤ meta ∨ meta + META_SIZE ≤ a → kread n a m = kread n a (kmem k)).
Proof.
  rewrite update_eq. cbn [kmem]. unfold META_TASK_OFFSET, META_TASK_ADDR, META_PID, META_TIMESTAMP,
    META_SIZE. unfold task_apart, PAGE_SIZE in *.
  pose proof (Z.mod_pos_bound task 4096). split_and!.
  - destruct Hk as [H1 H2 H3 H4]. split; [done|done|done|]. cbn [kmem].
    unfold META_MAGIC in *. by rewrite !kread_kwrite_ne by lia.
  - rewrite !kread_kwrite_ne by lia. rewrite kread_kwrite_eq. apply Z.mod_small. lia.
  - rewrite !kread_kwrite_ne by lia. rewrite kread_kwrite_eq. apply Z.mod_small. lia.
  - rewrite kread_kwrite_ne by lia. rewrite kread_kwrite_eq, !kread_kwrite_ne by lia.
    apply Z.mod_small. by apply kread_bytes.
  - rewrite kread_kwrite_eq. apply Z.mod_mod. lia.
  - intros n a Ha. by rewrite !kread_kwrite_ne by lia.
Qed.

End update.

(** The whole task structure lies in the five mapped pages when it is at most
    four pages long. *)
Lemma task_in_pages L meta task x :
  0 < task < 2 ^ 64 →
  TASK_SIZE L ≤ 4 * PAGE_SIZE → 0 ≤ x < TASK_SIZE L →
  0 ≤ task mod PAGE_SIZE + x < 5 * PAGE_SIZE ∧
  vtask_page meta task ((PAGE_SIZE + (task mod PAGE_SIZE + x)) / PAGE_SIZE) * PAGE_SIZE +
    (PAGE_SIZE + (task mod PAGE_SIZE + x)) mod PAGE_SIZE = task + x.
Proof.
  unfold PAGE_SIZE. intros Htask Hs Hx.
  pose proof (Z.mod_pos_bound task 4096). split; [lia|].
  unfold vtask_page, virt_to_page, PAGE_SIZE.
  replace ((4096 + (task mod 4096 + x)) / 4096) with (1 + (task mod 4096 + x) / 4096).
  2: { replace (4096 + (task mod 4096 + x)) with (task mod 4096 + x + 1 * 4096) by lia.
       rewrite Z.div_add by lia. lia. }
  pose proof (Z.div_pos (task mod 4096 + x) 4096).
  rewrite (proj2 (Z.eqb_neq _ _)) by lia.
  rewrite <-Zplus_mod_idemp_l. change (4096 mod 4096) with 0. rewrite Z.add_0_l.
  pose proof (Z.div_mod task 4096). pose proof (Z.div_mod (task mod 4096 + x) 4096). lia.
Qed.


(** ** The user side *)

(** The vtask region at [base]: six pages mapped there, each either not yet
    faulted in or showing page [pg i], which is also what a fault would find. *)
Record vtask_region (w : machine) (base : Z) (pg : Z → Z) : Prop := {
  vr_vmas : ∀ i, 0 ≤ i < 6 → vmas (umm w) !! (base / PAGE_SIZE + i) = Some (MVtask base);
  vr_pages : vtask_pages (kern w) = Some <$> (pg <$> seqZ 0 6);
  vr_ptes : ∀ i, 0 ≤ i < 6 →
    ptes (umm w) !! (base / PAGE_SIZE + i) = None ∨
    ptes (umm w) !! (base / PAGE_SIZE + i) = Some (pg i) }.

Lemma special_page_fmap (l : list Z) n : special_page (Some <$> l) n = l !! n.
Proof. revert n. induction l as [|p l IH]; intros [|n]; simpl; auto. Qed.

Section region.
Context (base : Z) (pg : Z → Z).
Hypothesis (Hbase : base mod PAGE_SIZE = 0).

Lemma base_page d : 0 ≤ d → (base + d) / PAGE_SIZE = base / PAGE_SIZE + d / PAGE_SIZE ∧
  (base + d) mod PAGE_SIZE = d mod PAGE_SIZE.
Proof.
  unfold PAGE_SIZE in *. intros Hd.
  assert (base = base / 4096 * 4096) as E by (pose proof (Z.div_mod base 4096); lia).
  replace (base + d) with (d + base / 4096 * 4096) by lia.
  rewrite Z.div_add, Z.mod_add by lia. lia.
Qed.

Lemma touch_ok w i :
  vtask_region w base pg → 0 ≤ i < 6 →
  ∃ w', touch (base / PAGE_SIZE + i) w = Some (pg i, w') ∧ kern w' = kern w ∧
        vtask_region w' base pg.
Proof.
  intros [Hv Hp Ht] Hi. unfold touch. rewrite (st_bind_step get _ w w w) by done. cbn beta.
  destruct (Ht i Hi) as [E|E]; rewrite E; [|by exists w].
  rewrite (st_bind_step (fault_page _) _ w (pg i) w); cbn beta.
  2: { unfold fault_page. rewrite (st_bind_step get _ w w w) by done. cbn beta.
       rewrite (Hv i Hi), Hp, special_page_fmap, list_lookup_fmap.
       rewrite lookup_seqZ_lt by lia. unfold lift. cbn. do 3 f_equal. lia. }
  eexists. split; [reflexivity|]. split; [done|]. split; cbn; [done|done|].
  intros j Hj. destruct (decide (i = j)) as [->|Hne].
  - right. apply lookup_insert_eq.
  - rewrite lookup_insert_ne by lia. auto.
Qed.

(** Reading [n] bytes [d] bytes into the region, when these show the kernel
    bytes from [a] on. *)
Lemma ubytes_ok n d a w :
  vtask_region w base pg → 0 ≤ d →
  (∀ j, 0 ≤ j < Z.of_nat n → d + j < 6 * PAGE_SIZE ∧
     pg ((d + j) / PAGE_SIZE) * PAGE_SIZE + (d + j) mod PAGE_SIZE = a + j) →
  ∃ w', ubytes n (base + d) w = Some (kmem (kern w) <$> seqZ a (Z.of_nat n), w') ∧
        kern w' = kern w ∧ vtask_region w' base pg.
Proof.
  revert d a w. induction n as [|n IH]; intros d a w Hr Hd Ha; [by exists w|].
  destruct (Ha 0) as [Hlt Ha0]; [lia|]. rewrite Z.add_0_r in *.
  destruct (base_page d Hd) as [E1 E2].
  destruct (touch_ok w (d / PAGE_SIZE) Hr) as (w1 & T1 & K1 & R1).
  { unfold PAGE_SIZE in *. split; [by apply Z.div_pos|]. apply Z.div_lt_upper_bound; lia. }
  destruct (IH (d + 1) (a + 1) w1 R1) as (w2 & T2 & K2 & R2); [lia| |].
  { intros j Hj. destruct (Ha (1 + j)) as [? ?]; [lia|]. rewrite <-!Z.add_assoc. auto. }
  exists w2. split; [|split; [congruence|done]]. cbn [ubytes].
  rewrite (st_bind_step (ubyte _) _ w (kmem (kern w) a) w1); cbn beta.
  2: { unfold ubyte. rewrite E1, (st_bind_step _ _ _ _ _ T1). cbn beta.
       rewrite (st_bind_step get _ w1 w1 w1) by done. cbn beta. rewrite E2, Ha0, K1.
       unfold mret, st_ret. do 3 f_equal. lia. }
  rewrite <-Z.add_assoc, (st_bind_step _ _ _ _ _ T2). cbn beta.
  rewrite Nat2Z.inj_succ, <-Z.add_1_r, (seqZ_cons a) by lia. cbn [fmap list_fmap].
  rewrite K1. replace (Z.pred (Z.of_nat n + 1)) with (Z.of_nat n) by lia.
  by rewrite <-Z.add_1_r.
Qed.

Lemma uread_ok n d a w :
  vtask_region w base pg → 0 ≤ d →
  (∀ j, 0 ≤ j < Z.of_nat n → d + j < 6 * PAGE_SIZE ∧
     pg ((d + j) / PAGE_SIZE) * PAGE_SIZE + (d + j) mod PAGE_SIZE = a + j) →
  ∃ w', uread n (base + d) w = Some (kread n a (kmem (kern w)), w') ∧
        kern w' = kern w ∧ vtask_region w' base pg.
Proof.
  intros Hr Hd Ha. destruct (ubytes_ok n d a w Hr Hd Ha) as (w' & E & K & R).
  exists w'. split; [|done]. unfold uread. by rewrite (st_bind_step _ _ _ _ _ E).
Qed.

End region.

(** ** Reading the published task *)

(** The last update published [task]. *)
Record published (L : task_layout) (meta task : Z) (k : kernel) : Prop := {
  pb_magic : kread 8 (meta + META_MAGIC) (kmem k) = VTASK_MAGIC;
  pb_offset : kread 8 (meta + META_TASK_OFFSET) (kmem k) = task mod PAGE_SIZE;
  pb_pid : kread 4 (meta + META_PID) (kmem k) = kread 4 (task + OFF_PID L) (kmem k);
  pb_positive : 0 < kread 4 (task + OFF_PID L) (kmem k) }.

Section read.
Context (L : task_layout) (base meta task : Z).
Hypothesis (Hbase : base mod PAGE_SIZE = 0).
Hypothesis (Hpos : 0 < base).
Hypothesis (Hmeta : meta mod PAGE_SIZE = 0).
Hypothesis (Hsize : TASK_SIZE L ≤ 4 * PAGE_SIZE).
Hypothesis (Htask : 0 < task < 2 ^ 64).
Let pg := vtask_page meta task.
Let vdso_data := base + 6 * 4096 + 128.

Lemma meta_read n off w :
  vtask_region w base pg → 0 ≤ off → off + Z.of_nat n ≤ PAGE_SIZE →
  ∃ w', uread n (base + off) w = Some (kread n (meta + off) (kmem (kern w)), w') ∧
        kern w' = kern w ∧ vtask_region w' base pg.
Proof.
  intros Hr H0 Hn. apply uread_ok; [done..|]. intros j Hj. unfold PAGE_SIZE in *. split; [lia|].
  rewrite Z.div_small, Z.mod_small by lia. unfold pg, vtask_page, virt_to_page, PAGE_SIZE.
  cbn. pose proof (Z.div_mod meta 4096). lia.
Qed.

Lemma task_read n x w :
  vtask_region w base pg → 0 ≤ x → x + Z.of_nat n ≤ TASK_SIZE L →
  ∃ w', uread n (base + PAGE_SIZE + task mod PAGE_SIZE + x) w =
          Some (kread n (task + x) (kmem (kern w)), w') ∧
        kern w' = kern w ∧ vtask_region w' base pg.
Proof.
  intros Hr H0 Hn. pose proof (Z.mod_pos_bound task PAGE_SIZE).
  replace (base + PAGE_SIZE + task mod PAGE_SIZE + x)
    with (base + (PAGE_SIZE + (task mod PAGE_SIZE + x))) by lia.
  apply uread_ok; [done|done|unfold PAGE_SIZE in *; lia|]. intros j Hj.
  destruct (task_in_pages L meta task (x + j) Htask Hsize) as [Hb E]; [lia|].
  split; [unfold PAGE_SIZE in *; lia|].
  replace (PAGE_SIZE + (task mod PAGE_SIZE + x) + j) with (PAGE_SIZE + (task mod PAGE_SIZE + (x + j))) by lia.
  unfold pg. rewrite E. lia.
Qed.

Lemma get_task_struct_ok w :
  vtask_region w base pg → published L meta task (kern w) →
  ∃ w', __vdso_get_task_struct vdso_data w = Some (base + PAGE_SIZE + task mod PAGE_SIZE, w') ∧
        kern w' = kern w ∧ vtask_region w' base pg.
Proof.
  intros Hr [H1 H2 H3 H4]. unfold __vdso_get_task_struct, __vdso_get_vtask_metadata.
  replace (__vdso_get_vtask_base vdso_data) with base by (unfold __vdso_get_vtask_base, vdso_data; lia).
  rewrite (proj2 (Z.eqb_neq base 0)) by lia.
  destruct (meta_read 8 META_MAGIC w Hr) as (w1 & E1 & K1 & R1); [done|done|].
  rewrite (st_bind_step _ _ _ _ _ E1). cbn beta. rewrite H1. cbn [Z.eqb Pos.eqb negb VTASK_MAGIC].
  destruct (meta_read 4 META_PID w1 R1) as (w2 & E2 & K2 & R2); [done|done|].
  rewrite (st_bind_step _ _ _ _ _ E2). cbn beta. rewrite K1, H3.
  rewrite (proj2 (Z.leb_gt _ _)) by done.
  destruct (meta_read 8 META_TASK_OFFSET w2 R2) as (w3 & E3 & K3 & R3); [done|done|].
  rewrite (st_bind_step _ _ _ _ _ E3). cbn beta. rewrite K2, K1, H2.
  exists w3. split; [done|]. split; [congruence|done].
Qed.

Lemma get_field_ok n x w :
  vtask_region w base pg → published L meta task (kern w) → 0 ≤ x → x + Z.of_nat n ≤ TASK_SIZE L →
  ∃ w', (t ← __vdso_get_task_struct vdso_data;
         if t =? 0 then mret (-1) else v ← uread n (t + x); mret (s32 v)) w =
          Some (s32 (kread n (task + x) (kmem (kern w))), w') ∧
        kern w' = kern w ∧ vtask_region w' base pg.
Proof.
  intros Hr Hp H0 Hn. destruct (get_task_struct_ok w Hr Hp) as (w1 & E1 & K1 & R1).
  rewrite (st_bind_step _ _ _ _ _ E1). cbn beta.
  pose proof (Z.mod_pos_bound task PAGE_SIZE) as Hm.
  rewrite (proj2 (Z.eqb_neq _ 0)) by (unfold PAGE_SIZE in *; lia).
  destruct (task_read n x w1 R1 H0 Hn) as (w2 & E2 & K2 & R2).
  rewrite (st_bind_step _ _ _ _ _ E2). cbn beta. rewrite K1. exists w2.
  split; [done|]. split; [congruence|done].
Qed.

End read.

(** ** Mapping *)

Lemma map_pages_lookup v a n g p :
  0 ≤ n → map_pages v (seqZ a n) g !! p = if decide (a ≤ p < a + n) then Some v else g !! p.
Proof.
  intros Hn. revert a. pattern n. apply natlike_ind; [..|done].
  - intros a. rewrite seqZ_nil by done. rewrite decide_False by lia. done.
  - intros m Hm IH a. rewrite seqZ_cons by lia. unfold map_pages in *. cbn [foldr].
    destruct (decide (p = a)) as [->|Hne].
    + rewrite lookup_insert_eq, decide_True by lia. done.
    + rewrite lookup_insert_ne by done. rewrite Z.pred_succ, IH.
      repeat case_decide; done || lia.
Qed.

Lemma unmap_pages_lookup {A} a n (g : gmap Z A) p :
  0 ≤ n → unmap_pages (seqZ a n) g !! p = if decide (a ≤ p < a + n) then None else g !! p.
Proof.
  intros Hn. revert a. pattern n. apply natlike_ind; [..|done].
  - intros a. rewrite seqZ_nil by done. rewrite decide_False by lia. done.
  - intros m Hm IH a. rewrite seqZ_cons by lia. unfold unmap_pages in *. cbn [foldr].
    destruct (decide (p = a)) as [->|Hne].
    + rewrite lookup_delete_eq, decide_True by lia. done.
    + rewrite lookup_delete_ne by done. rewrite Z.pred_succ, IH.
      repeat case_decide; done || lia.
Qed.

(** An image as the build makes it: whole pages, the vvar area in front, the
    vvar page first in it. *)
Record image_ok (im : vdso_image) : Prop := {
  io_size : 0 ≤ size im ∧ size im mod PAGE_SIZE = 0;
  io_vvar : sym_vvar_start im ≤ 0 ∧ sym_vvar_start im mod PAGE_SIZE = 0;
  io_first : sym_vvar_page im = sym_vvar_start im }.

(** Number of vvar pages and of text pages. *)
Definition vvar_pages (im : vdso_image) : Z := - sym_vvar_start im / PAGE_SIZE.
Definition text_pages (im : vdso_image) : Z := size im / PAGE_SIZE.

Definition with_vmas (g : gmap Z mapping) (w : machine) : machine :=
  Machine (kern w) (set_vmas g (umm w)).

Lemma install_ok addr len v w :
  on_mm (install 0 addr len v) w =
    Some (0, with_vmas (map_pages v (pages_of addr len) (vmas (umm w))) w).
Proof. done. Qed.

Lemma install_err e addr len v w : e ≠ 0 → on_mm (install e addr len v) w = Some (e, w).
Proof.
  intros He. unfold on_mm, install. rewrite (proj2 (Z.eqb_neq e 0) He). by destruct w.
Qed.

Section map.
Context (L : task_layout) (jiffies current : Z) (im : vdso_image) (addr : Z) (w : machine).
Hypothesis (Him : image_ok im).
Hypothesis (Haddr : addr mod PAGE_SIZE = 0).
Let k1 := update_vtask_page L jiffies current (kern w).
Let P0 := addr / PAGE_SIZE.

Lemma pages_exact a : a mod PAGE_SIZE = 0 → a = a / PAGE_SIZE * PAGE_SIZE.
Proof. unfold PAGE_SIZE. intros. pose proof (Z.div_mod a 4096). lia. Qed.

Lemma vvar_len : - sym_vvar_start im = vvar_pages im * PAGE_SIZE ∧ 0 ≤ vvar_pages im.
Proof.
  destruct (io_vvar _ Him) as [H1 H2]. unfold vvar_pages, PAGE_SIZE in *.
  pose proof (Z.div_mod (sym_vvar_start im) 4096).
  replace (- sym_vvar_start im) with (- (sym_vvar_start im / 4096) * 4096) by lia.
  rewrite Z.div_mul by lia. split; [lia|]. pose proof (Z.div_le_upper_bound (sym_vvar_start im) 4096 0). lia.
Qed.

Lemma text_len : size im = text_pages im * PAGE_SIZE ∧ 0 ≤ text_pages im.
Proof.
  destruct (io_size _ Him) as [H1 H2]. split; [by apply pages_exact|].
  unfold text_pages, PAGE_SIZE. apply Z.div_pos; lia.
Qed.

Lemma vtask_range : pages_of addr (PAGE_SIZE * 6) = seqZ P0 6.
Proof. done. Qed.

Lemma vvar_range : pages_of (addr + PAGE_SIZE * 6) (- sym_vvar_start im) = seqZ (P0 + 6) (vvar_pages im).
Proof.
  unfold pages_of, vvar_pages, P0, PAGE_SIZE. f_equal.
  replace (addr + 4096 * 6) with (addr + 6 * 4096) by lia. by rewrite Z.div_add by lia.
Qed.

Lemma text_range : pages_of (addr + PAGE_SIZE * 6 - sym_vvar_start im) (size im) =
  seqZ (P0 + 6 + vvar_pages im) (text_pages im).
Proof.
  destruct vvar_len as [E _]. unfold pages_of, text_pages, P0, PAGE_SIZE in *. f_equal.
  replace (addr + 4096 * 6 - sym_vvar_start im) with (addr + (6 + vvar_pages im) * 4096) by lia.
  rewrite Z.div_add by lia. lia.
Qed.

(** The mappings after the three installations. *)
Definition mapped (p : Z) : option mapping :=
  if decide (P0 ≤ p < P0 + 6) then Some (MVtask addr)
  else if decide (P0 + 6 ≤ p < P0 + 6 + vvar_pages im) then Some (MVvar (addr + PAGE_SIZE * 6))
  else if decide (P0 + 6 + vvar_pages im ≤ p < P0 + 6 + vvar_pages im + text_pages im)
  then Some (MVdso (addr + PAGE_SIZE * 6 - sym_vvar_start im))
  else vmas (umm w) !! p.

Lemma map_vdso_success :
  ∃ w', map_vdso L jiffies current false (0, 0, 0) im addr w = Some (0, w') ∧
    kern w' = k1 ∧ ptes (umm w') = ptes (umm w) ∧ (∀ p, vmas (umm w') !! p = mapped p) ∧
    ctx_vtask_base (umm w') = addr ∧ ctx_image (umm w') = Some im ∧
    ctx_vdso (umm w') = addr + PAGE_SIZE * 6 - sym_vvar_start im.
Proof.
  eexists. split; [reflexivity|]. split; [done|]. split; [done|]. split; [|done].
  intros p. cbn [umm vmas set_vmas]. rewrite vtask_range, vvar_range, text_range.
  destruct vvar_len as [_ H1], text_len as [_ H2].
  rewrite !map_pages_lookup by lia. unfold mapped. repeat case_decide; done || lia.
Qed.

(** A failure of the first or second installation leaves the mappings of the
    pages outside the vtask region alone, and none inside it. *)
Lemma map_vdso_fail2 e :
  e ≠ 0 →
  ∃ w', map_vdso L jiffies current false (0, e, 0) im addr w = Some (e, w') ∧
    ∀ p, vmas (umm w') !! p = if decide (P0 ≤ p < P0 + 6) then None else vmas (umm w) !! p.
Proof.
  intros He. unfold map_vdso.
  rewrite (st_bind_step (on_kernel _) _ _ _ _ eq_refl). cbn beta.
  rewrite (st_bind_step _ _ _ _ _ (install_ok _ _ _ _)). cbn beta. cbn [Z.eqb negb].
  rewrite (st_bind_step _ _ _ _ _ (install_err e _ _ _ _ He)). cbn beta.
  rewrite (proj2 (Z.eqb_neq e 0) He). eexists. split; [reflexivity|].
  intros p. cbn [umm vmas set_vmas set_ptes with_vmas]. rewrite vtask_range, unmap_pages_lookup by lia.
  case_decide; [done|]. rewrite map_pages_lookup by lia. by rewrite decide_False.
Qed.

(** A failure of the third: the unmapped range starts at the vtask region but is
    only as long as vtask region and text together, without the vvar gap. *)
Lemma map_vdso_fail3 e :
  e ≠ 0 →
  ∃ w', map_vdso L jiffies current false (0, 0, e) im addr w = Some (e, w') ∧
    ∀ p, vmas (umm w') !! p =
      if decide (P0 ≤ p < P0 + 6 + text_pages im) then None
      else if decide (P0 + 6 + vvar_pages im ≤ p < P0 + 6 + vvar_pages im + text_pages im)
      then Some (MVdso (addr + PAGE_SIZE * 6 - sym_vvar_start im))
      else vmas (umm w) !! p.
Proof.
  intros He. unfold map_vdso.
  rewrite (st_bind_step (on_kernel _) _ _ _ _ eq_refl). cbn beta.
  rewrite (st_bind_step _ _ _ _ _ (install_ok _ _ _ _)). cbn beta. cbn [Z.eqb negb].
  rewrite (st_bind_step _ _ _ _ _ (install_ok _ _ _ _)). cbn beta. cbn [Z.eqb negb].
  rewrite (st_bind_step _ _ _ _ _ (install_err e _ _ _ _ He)). cbn beta.
  rewrite (proj2 (Z.eqb_neq e 0) He). eexists. split; [reflexivity|].
  destruct vvar_len as [_ H1], text_len as [E H2].
  intros p. cbn [umm vmas set_vmas set_ptes with_vmas].
  replace (pages_of addr (PAGE_SIZE * 6 + size im)) with (seqZ P0 (6 + text_pages im)).
  2: { unfold pages_of, P0, PAGE_SIZE in *. f_equal. rewrite E.
       replace (4096 * 6 + text_pages im * 4096) with ((6 + text_pages im) * 4096) by lia.
       by rewrite Z.div_mul by lia. }
  rewrite vtask_range, text_range, unmap_pages_lookup by lia.
  rewrite !map_pages_lookup by lia. repeat case_decide; done || lia.
Qed.

End map.

(** ** What the vDSO reports *)

Record layout_ok (L : task_layout) : Prop := {
  lo_pid : 0 ≤ OFF_PID L ∧ OFF_PID L + 4 ≤ TASK_SIZE L;
  lo_tgid : 0 ≤ OFF_TGID L ∧ OFF_TGID L + 4 ≤ TASK_SIZE L;
  lo_comm : 0 ≤ OFF_COMM L ∧ OFF_COMM L + TASK_COMM_LEN ≤ TASK_SIZE L;
  lo_size : TASK_SIZE L ≤ 4 * PAGE_SIZE }.

(** A task structure in kernel memory, with a positive pid. *)
Record task_ok (L : task_layout) (meta : Z) (m : memory) (task : Z) : Prop := {
  to_addr : 0 < task < 2 ^ 64;
  to_apart : task_apart L meta task;
  to_pid : 0 < kread 4 (task + OFF_PID L) m }.

(** The vtask region is mapped at [base] and none of it was touched yet. *)
Definition untouched (w : machine) (base : Z) : Prop :=
  ∀ i, 0 ≤ i < 6 → vmas (umm w) !! (base / PAGE_SIZE + i) = Some (MVtask base) ∧
                   ptes (umm w) !! (base / PAGE_SIZE + i) = None.

Section reports.
Context (L : task_layout) (meta task jiffies : Z) (k : kernel).
Hypothesis (HL : layout_ok L).
Hypothesis (Hk : kernel_ok meta k).
Hypothesis (Hbytes : ∀ b, is_u 8 (kmem k b)).
Hypothesis (Ht : task_ok L meta (kmem k) task).
Context (base : Z) (w : machine).
Hypothesis (Hbase : base mod PAGE_SIZE = 0 ∧ 0 < base).
Hypothesis (Hw : untouched w base).
Hypothesis (Hkern : kern w = update_vtask_page L jiffies task k).

Lemma updated_fields : let m := kmem (kern w) in
  published L meta task (kern w) ∧ kread 8 (meta + META_TASK_ADDR) m = task ∧
  kread 8 (meta + META_TIMESTAMP) m = u64 jiffies ∧
  ∀ n x, 0 ≤ x → x + Z.of_nat n ≤ TASK_SIZE L → kread n (task + x) m = kread n (task + x) (kmem k).
Proof.
  destruct Ht as [T1 T2 T3]. rewrite Hkern.
  destruct (update_fields L meta task jiffies k Hk T2 Hbytes (lo_pid _ HL) T1)
    as (F1 & F2 & F3 & F4 & F5 & F6).
  assert (∀ n x, 0 ≤ x → x + Z.of_nat n ≤ TASK_SIZE L →
    kread n (task + x) (kmem (update_vtask_page L jiffies task k)) = kread n (task + x) (kmem k)) as F.
  { intros n x H0 Hn. apply F6. unfold task_apart, PAGE_SIZE, META_SIZE in *. lia. }
  split_and!; [|done..]. destruct (lo_pid _ HL).
  split; [apply F1|done|by rewrite F4, F by lia|by rewrite F by lia].
Qed.

Lemma region_ok : vtask_region w base (vtask_page meta task).
Proof.
  split.
  - intros i Hi. by apply Hw.
  - rewrite Hkern, (update_eq L meta task jiffies k Hk (to_addr _ _ _ _ Ht)). done.
  - intros i Hi. left. by apply Hw.
Qed.

Lemma reports_ok :
  let d := base + 6 * 4096 + 128 in
  (∃ w', __vdso_get_task_pid L d w = Some (s32 (kread 4 (task + OFF_PID L) (kmem k)), w')) ∧
  (∃ w', __vdso_get_task_tgid L d w = Some (s32 (kread 4 (task + OFF_TGID L) (kmem k)), w')) ∧
  (∃ w', __vdso_get_task_struct_addr d w = Some (task, w')) ∧
  (∃ w', __vdso_get_task_timestamp d w = Some (u64 jiffies, w')).
Proof.
  intros d. destruct updated_fields as (P & Fa & Ft & F). pose proof region_ok as R.
  destruct Hbase as [Hb H0]. pose proof (ko_aligned _ _ Hk) as Ha. pose proof (lo_size _ HL) as Hs.
  destruct (lo_pid _ HL), (lo_tgid _ HL). pose proof (to_addr _ _ _ _ Ht) as Hta.
  assert (__vdso_get_vtask_base d = base) as Eb by (unfold __vdso_get_vtask_base, d; lia).
  split; [|split].
  - destruct (get_field_ok L base meta task Hb H0 Ha Hs Hta 4 (OFF_PID L) w R P) as (w' & E & _); [lia..|].
    exists w'. rewrite <-(F 4%nat) by lia. exact E.
  - destruct (get_field_ok L base meta task Hb H0 Ha Hs Hta 4 (OFF_TGID L) w R P) as (w' & E & _); [lia..|].
    exists w'. rewrite <-(F 4%nat) by lia. exact E.
  - unfold __vdso_get_task_struct_addr, __vdso_get_task_timestamp, __vdso_get_vtask_metadata.
    rewrite Eb, (proj2 (Z.eqb_neq base 0)) by lia.
    destruct (meta_read base meta task Hb Ha 8 META_MAGIC w R) as (w1 & E1 & K1 & R1); [done..|].
    rewrite !(st_bind_step _ _ _ _ _ E1). cbn beta. rewrite (pb_magic _ _ _ _ P). cbn [Z.eqb Pos.eqb negb VTASK_MAGIC].
    destruct (meta_read base meta task Hb Ha 8 META_TASK_ADDR w1 R1) as (w2 & E2 & _); [done..|].
    destruct (meta_read base meta task Hb Ha 8 META_TIMESTAMP w1 R1) as (w3 & E3 & _); [done..|].
    rewrite K1 in E2, E3. rewrite Fa in E2. rewrite Ft in E3. eauto.
Qed.

End reports.

Lemma map_vdso_untouched L jiffies current im addr w w1 :
  image_ok im → addr mod PAGE_SIZE = 0 →
  (∀ i, 0 ≤ i < 6 → ptes (umm w) !! (addr / PAGE_SIZE + i) = None) →
  map_vdso L jiffies current false (0, 0, 0) im addr w = Some (0, w1) →
  untouched w1 addr ∧ kern w1 = update_vtask_page L jiffies current (kern w) ∧
  ctx_vdso (umm w1) + sym_vvar_page im = addr + 6 * 4096.
Proof.
  intros Him Ha Hp E.
  destruct (map_vdso_success L jiffies current im addr w Him) as (w' & E' & K & Pt & V & _ & _ & C).
  rewrite E' in E. injection E as <-. split_and!; [|done|].
  - intros i Hi. rewrite V, Pt. split; [|auto]. unfold mapped. by rewrite decide_True by lia.
  - rewrite C, (io_first _ Him). unfold PAGE_SIZE. lia.
Qed.

(** C4: After [map_vdso] of the current task, and as long as no other task is
    published, the vDSO calls report that task: its pid, its thread group id,
    the address of its task structure and the time of the update, all read from
    the six mapped pages without a system call, wherever in its page the task
    structure starts (up to four pages long). *)
Theorem vdso_reports_own_task L jiffies current im addr w w1 meta :
  layout_ok L → image_ok im → addr mod PAGE_SIZE = 0 → 0 < addr →
  kernel_ok meta (kern w) → (∀ b, is_u 8 (kmem (kern w) b)) →
  task_ok L meta (kmem (kern w)) current →
  (∀ i, 0 ≤ i < 6 → ptes (umm w) !! (addr / PAGE_SIZE + i) = None) →
  map_vdso L jiffies current false (0, 0, 0) im addr w = Some (0, w1) →
  let d := ctx_vdso (umm w1) + sym_vvar_page im + 128 in
  let m := kmem (kern w) in
  (∃ w', __vdso_get_task_pid L d w1 = Some (s32 (kread 4 (current + OFF_PID L) m), w')) ∧
  (∃ w', __vdso_get_task_tgid L d w1 = Some (s32 (kread 4 (current + OFF_TGID L) m), w')) ∧
  (∃ w', __vdso_get_task_struct_addr d w1 = Some (current, w')) ∧
  (∃ w', __vdso_get_task_timestamp d w1 = Some (u64 jiffies, w')).
Proof.
  intros HL Him Ha H0 Hk Hb Ht Hp E.
  destruct (map_vdso_untouched L jiffies current im addr w w1 Him Ha Hp E) as (U & K & ->).
  by apply (reports_ok L meta current jiffies (kern w)).
Qed.

(** The published task is global.  If after [map_vdso] of a process another
    task is forked (or execs) before the process looks, the process's own vDSO
    call reports the pid of that other task. *)
Theorem vdso_reports_other_task L jiffies j2 current other im addr w w1 meta :
  layout_ok L → image_ok im → addr mod PAGE_SIZE = 0 → 0 < addr →
  kernel_ok meta (kern w) → (∀ b, is_u 8 (kmem (kern w) b)) →
  task_ok L meta (kmem (kern w)) current →
  (∀ i, 0 ≤ i < 6 → ptes (umm w) !! (addr / PAGE_SIZE + i) = None) →
  map_vdso L jiffies current false (0, 0, 0) im addr w = Some (0, w1) →
  task_ok L meta (kmem (kern w1)) other → (∀ b, is_u 8 (kmem (kern w1) b)) →
  let d := ctx_vdso (umm w1) + sym_vvar_page im + 128 in
  ∃ w', __vdso_get_task_pid L d (Machine (fork_update L j2 other true (kern w1)) (umm w1)) =
          Some (s32 (kread 4 (other + OFF_PID L) (kmem (kern w1))), w').
Proof.
  intros HL Him Ha H0 Hk Hb Ht Hp E Ho Hb1.
  destruct (map_vdso_untouched L jiffies current im addr w w1 Him Ha Hp E) as (U & K & ->).
  assert (kernel_ok meta (kern w1)) as Hk1.
  { rewrite K. destruct Ht as [T1 T2 T3].
    by apply (update_fields L meta current jiffies (kern w) Hk T2 Hb (lo_pid _ HL) T1). }
  unfold fork_update. rewrite (proj2 (Z.eqb_neq other 0)) by (destruct Ho; lia). cbn [negb andb].
  set (w2 := Machine _ (umm w1)).
  by apply (reports_ok L meta other j2 (kern w1) HL Hk1 Hb1 Ho addr w2).
Qed.

(** ** The task name *)

(** The bytes before the first NUL. *)
Fixpoint before_nul (l : list Z) : list Z :=
  match l with
  | [] => []
  | c :: l => if c =? 0 then [] else c :: before_nul l
  end.

Lemma before_nul_length l : (length (before_nul l) ≤ length l)%nat.
Proof. induction l as [|c l IH]; simpl; [done|]. destruct (c =? 0); simpl; lia. Qed.

(** What the copying loop leaves in the buffer when it starts at [i]. *)
Definition copied (buf : list Z) (i : nat) (s : list Z) : list Z :=
  take i buf ++ s ++ drop (i + length s) buf.

Lemma copied_nil buf i : copied buf i [] = buf.
Proof. unfold copied. cbn [length app]. rewrite Nat.add_0_r. apply take_drop. Qed.

Lemma copied_cons buf i c s :
  (i < length buf)%nat → copied (<[i := c]> buf) (S i) s = copied buf i (c :: s).
Proof.
  intros Hi. unfold copied.
  rewrite (take_S_r _ i c) by (by apply list_lookup_insert_eq).
  rewrite take_insert_ge, drop_insert_lt by lia. rewrite <-app_assoc. cbn [app length].
  by replace (i + S (length s))%nat with (S i + length s)%nat by lia.
Qed.

Section comm.
Context (L : task_layout) (base meta task : Z).
Hypothesis (HL : layout_ok L).
Hypothesis (Hbase : base mod PAGE_SIZE = 0 ∧ 0 < base).
Hypothesis (Hmeta : meta mod PAGE_SIZE = 0).
Hypothesis (Htask : 0 < task < 2 ^ 64).
Let pg := vtask_page meta task.
Let comm := base + PAGE_SIZE + task mod PAGE_SIZE + OFF_COMM L.

Lemma comm_byte i w :
  vtask_region w base pg → 0 ≤ i < TASK_COMM_LEN →
  ∃ w', ubyte (comm + i) w = Some (kmem (kern w) (task + OFF_COMM L + i), w') ∧
        kern w' = kern w ∧ vtask_region w' base pg.
Proof.
  intros R Hi. destruct (lo_comm _ HL), Hbase as [Hb Hb0].
  destruct (task_read L base meta task Hb (lo_size _ HL) Htask 1 (OFF_COMM L + i) w R) as (w' & E & K & R');
    [lia|lia|].
  replace (comm + i) with (base + PAGE_SIZE + task mod PAGE_SIZE + (OFF_COMM L + i)) by (unfold comm; lia).
  exists w'. split; [|done]. revert E. unfold uread. cbn [ubytes]. unfold mbind, st_bind.
  destruct (ubyte _ w) as [[b w2]|]; [|done]. cbn. rewrite kread_S. unfold kread. cbn.
  intros [= E <-]. do 2 f_equal. rewrite Z.add_assoc in E. lia.
Qed.

Lemma comm_loop_ok n size i buf w :
  vtask_region w base pg →
  Z.of_nat i ≤ Z.min (size - 1) (TASK_COMM_LEN - 1) < Z.of_nat i + Z.of_nat n →
  Z.min (size - 1) (TASK_COMM_LEN - 1) < Z.of_nat (length buf) →
  let s := before_nul (kmem (kern w) <$> seqZ (task + OFF_COMM L + Z.of_nat i)
             (Z.min (size - 1) (TASK_COMM_LEN - 1) - Z.of_nat i)) in
  ∃ w', comm_loop n comm size (Z.of_nat i) buf w =
          Some ((Z.of_nat i + Z.of_nat (length s), copied buf i s), w') ∧
        kern w' = kern w ∧ vtask_region w' base pg.
Proof.
  revert i buf w. set (lim := Z.min (size - 1) (TASK_COMM_LEN - 1)).
  induction n as [|n IH]; intros i buf w R Hi Hbuf; [lia|]. cbn [comm_loop].
  destruct (decide (Z.of_nat i = lim)) as [El|Hl].
  { replace ((Z.of_nat i <? size - 1) && (Z.of_nat i <? TASK_COMM_LEN - 1)) with false
      by (symmetry; apply andb_false_iff; rewrite !Z.ltb_ge; lia).
    rewrite El, Z.sub_diag, seqZ_nil by done. exists w. cbn. rewrite copied_nil, Z.add_0_r. done. }
  rewrite !(proj2 (Z.ltb_lt _ _)) by lia. cbn [andb].
  destruct (comm_byte (Z.of_nat i) w R) as (w1 & E1 & K1 & R1); [unfold TASK_COMM_LEN in *; lia|].
  rewrite (st_bind_step _ _ _ _ _ E1). cbn beta.
  rewrite seqZ_cons by lia. cbn [fmap list_fmap before_nul].
  destruct (kmem (kern w) (task + OFF_COMM L + Z.of_nat i) =? 0) eqn:Hz.
  { exists w1. cbn. rewrite copied_nil, Z.add_0_r. done. }
  rewrite (st_bind_step (lift _) _ w1 (<[i := kmem (kern w) (task + OFF_COMM L + Z.of_nat i)]> buf) w1).
  2: { rewrite zinsert_Some by lia. by rewrite Nat2Z.id. }
  cbn beta. replace (Z.of_nat i + 1) with (Z.of_nat (S i)) by lia.
  destruct (IH (S i) (<[i := kmem (kern w) (task + OFF_COMM L + Z.of_nat i)]> buf) w1 R1)
    as (w2 & E2 & K2 & R2); [lia|rewrite length_insert; lia|].
  exists w2. split; [|split; [congruence|done]]. rewrite E2. rewrite K1.
  replace (Z.pred (lim - Z.of_nat i)) with (lim - Z.of_nat (S i)) by lia.
  replace (Z.succ (task + OFF_COMM L + Z.of_nat i)) with (task + OFF_COMM L + Z.of_nat (S i)) by lia.
  rewrite copied_cons by lia. do 3 f_equal. cbn [length]. lia.
Qed.

(** The name is copied up to its NUL, the fifteenth byte or the buffer's last
    byte but one. *)
Lemma get_comm_ok size buf w :
  vtask_region w base pg → published L meta task (kern w) → 0 < size ≤ Z.of_nat (length buf) →
  let s := before_nul (kmem (kern w) <$> seqZ (task + OFF_COMM L) (Z.min (size - 1) 15)) in
  ∃ w', __vdso_get_task_comm L (base + 6 * 4096 + 128) (Some buf) size w =
          Some (Some (s ++ [0] ++ drop (S (length s)) buf), w').
Proof.
  intros R P Hs. destruct Hbase as [Hb H0].
  destruct (get_task_struct_ok L base meta task Hb H0 Hmeta w R P) as (w1 & E1 & K1 & R1).
  unfold __vdso_get_task_comm. rewrite (proj2 (Z.leb_gt size 0)) by lia.
  rewrite (st_bind_step _ _ _ _ _ E1). cbn beta.
  pose proof (Z.mod_pos_bound task PAGE_SIZE) as Hm.
  rewrite (proj2 (Z.eqb_neq _ 0)) by (unfold PAGE_SIZE in *; lia).
  destruct (comm_loop_ok (Z.to_nat TASK_COMM_LEN) size 0 buf w1 R1) as (w2 & E2 & _);
    [unfold TASK_COMM_LEN; lia|unfold TASK_COMM_LEN; lia|].
  rewrite Z.add_0_r, Z.sub_0_r, K1 in E2.
  set (s := before_nul _) in E2 |- *. rewrite (st_bind_step _ _ _ _ _ E2). cbn beta match.
  assert (length s ≤ Z.to_nat (Z.min (size - 1) 15))%nat as Hl.
  { etrans; [apply before_nul_length|]. rewrite length_fmap, length_seqZ. done. }
  exists w2. unfold copied. cbn [take app Nat.add].
  rewrite (st_bind_step (lift _) _ w2 (s ++ [0] ++ drop (S (length s)) buf) w2); [done|].
  rewrite zinsert_Some by (autorewrite with oshw_len; cbn; lia).
  unfold lift. do 2 f_equal. rewrite Z.add_0_l, Nat2Z.id.
  change (take 0 buf) with (@nil Z). cbn [app]. rewrite insert_app_r_alt, Nat.sub_diag by lia. f_equal.
  destruct (drop (length s) buf) as [|c l] eqn:D.
  - exfalso. apply (f_equal length) in D. rewrite length_drop in D. cbn in D. lia.
  - cbn. f_equal.
    replace (S (length s)) with (length s + 1)%nat by lia. rewrite <-drop_drop, D. done.
Qed.

End comm.

(** [__vdso_get_task_comm] on the published task fills the caller's buffer
    with the task's name up to its NUL, at most 15 bytes and at most [size - 1],
    ends it with a NUL and leaves the rest of the buffer alone; the loop's bound
    is enough and no byte outside the buffer is written. *)
Theorem vdso_comm_copy L base meta task size buf w :
  layout_ok L → base mod PAGE_SIZE = 0 ∧ 0 < base → meta mod PAGE_SIZE = 0 → 0 < task < 2 ^ 64 →
  vtask_region w base (vtask_page meta task) → published L meta task (kern w) →
  0 < size ≤ Z.of_nat (length buf) →
  let s := before_nul (kmem (kern w) <$> seqZ (task + OFF_COMM L) (Z.min (size - 1) 15)) in
  ∃ w', __vdso_get_task_comm L (base + 6 * 4096 + 128) (Some buf) size w =
          Some (Some (s ++ [0] ++ drop (S (length s)) buf), w').
Proof. intros. by apply (get_comm_ok L base meta task). Qed.

(** ** A concrete machine *)

Definition demo_layout : task_layout := TaskLayout 9000 2000 2004 3000.
Definition demo_image : vdso_image := VdsoImage 1048576 8192 (-16384) (-16384) (-12288) (-8192) (-4096).

(** Two tasks, 42 at 0x20100 (named ["sh"]) and 77 at 0x30200, and the metadata
    page at 0x10000. *)
Definition demo_memory : memory :=
  kwrite 4 (131328 + 2000) 42 (kwrite 4 (131328 + 2004) 42 (kwrite 3 (131328 + 3000) 26739
    (kwrite 4 (197120 + 2000) 77 (λ _, 0)))).
Definition demo_kernel : kernel := (init_vtask (Some 65536) (kernel0 demo_memory)).2.
Definition demo_machine : machine := Machine demo_kernel (Mm ∅ ∅ 0 None 0).
Definition demo_mapped : machine :=
  default demo_machine (snd <$> map_vdso demo_layout 7 131328 false (0, 0, 0) demo_image 1048576 demo_machine).

Lemma demo_bytes : ∀ b, is_u 8 (kmem demo_kernel b).
Proof.
  intros b. unfold demo_kernel, init_vtask. cbn [snd kmem]. repeat apply kwrite_bytes.
  intros b'. destruct (_ && _); [unfold is_u; lia|]. unfold kernel0. cbn [kmem].
  repeat apply kwrite_bytes. intros. unfold is_u. lia.
Qed.

Lemma demo_layout_ok : layout_ok demo_layout.
Proof. split; cbn; unfold PAGE_SIZE, TASK_COMM_LEN; lia. Qed.

Lemma demo_image_ok : image_ok demo_image.
Proof. split; [split|split|]; first [reflexivity | discriminate]. Qed.

Lemma vdso_reports_own_task_witness :
  let d := ctx_vdso (umm demo_mapped) + sym_vvar_page demo_image + 128 in
  let m := kmem (kern demo_machine) in
  (∃ w', __vdso_get_task_pid demo_layout d demo_mapped = Some (s32 (kread 4 (131328 + 2000) m), w')) ∧
  (∃ w', __vdso_get_task_tgid demo_layout d demo_mapped = Some (s32 (kread 4 (131328 + 2004) m), w')) ∧
  (∃ w', __vdso_get_task_struct_addr d demo_mapped = Some (131328, w')) ∧
  (∃ w', __vdso_get_task_timestamp d demo_mapped = Some (u64 7, w')).
Proof.
  apply (vdso_reports_own_task demo_layout 7 131328 demo_image 1048576 demo_machine demo_mapped 65536).
  - exact demo_layout_ok.
  - exact demo_image_ok.
  - reflexivity.
  - lia.
  - by apply init_vtask_ok.
  - exact demo_bytes.
  - split; [lia|right; vm_compute; discriminate|vm_compute; reflexivity].
  - intros i _. reflexivity.
  - reflexivity.
Defined.

Lemma vdso_reports_other_task_witness :
  let d := ctx_vdso (umm demo_mapped) + sym_vvar_page demo_image + 128 in
  kread 4 (197120 + 2000) (kmem (kern demo_mapped)) = 77 ∧
  ∃ w', __vdso_get_task_pid demo_layout d
          (Machine (fork_update demo_layout 8 197120 true (kern demo_mapped)) (umm demo_mapped)) =
        Some (s32 (kread 4 (197120 + 2000) (kmem (kern demo_mapped))), w').
Proof.
  split; [vm_compute; reflexivity|].
  apply (vdso_reports_other_task demo_layout 7 8 131328 197120 demo_image 1048576 demo_machine
    demo_mapped 65536).
  - exact demo_layout_ok.
  - exact demo_image_ok.
  - reflexivity.
  - lia.
  - by apply init_vtask_ok.
  - exact demo_bytes.
  - split; [lia|right; vm_compute; discriminate|vm_compute; reflexivity].
  - intros i _. reflexivity.
  - reflexivity.
  - split; [lia|right; vm_compute; discriminate|vm_compute; reflexivity].
  - intros b. unfold demo_mapped. cbn -[Z.pow kwrite]. do 4 apply kwrite_bytes. apply demo_bytes.
Defined.

(** The demo process after its metadata page was read. *)
Lemma demo_region : vtask_region demo_mapped 1048576 (vtask_page 65536 131328) ∧
  published demo_layout 65536 131328 (kern demo_mapped).
Proof.
  split.
  - apply (region_ok demo_layout 65536 131328 7 demo_kernel).
    + by apply init_vtask_ok.
    + split; [lia|right; vm_compute; discriminate|vm_compute; reflexivity].
    + intros i Hi. split; [|reflexivity].
      assert (i = 0 ∨ i = 1 ∨ i = 2 ∨ i = 3 ∨ i = 4 ∨ i = 5) as [->|[->|[->|[->|[->| ->]]]]] by lia;
        vm_compute; reflexivity.
    + reflexivity.
  - split; vm_compute; reflexivity.
Qed.

Lemma vdso_comm_copy_witness :
  let s := before_nul (kmem (kern demo_mapped) <$> seqZ (131328 + 3000) 9) in
  s = s2b "sh" ∧
  ∃ w', __vdso_get_task_comm demo_layout (1048576 + 6 * 4096 + 128) (Some (replicate 10 1)) 10 demo_mapped =
          Some (Some (s ++ [0] ++ drop (S (length s)) (replicate 10 1)), w').
Proof.
  split; [vm_compute; reflexivity|].
  apply (vdso_comm_copy demo_layout 1048576 65536 131328 10 (replicate 10 1) demo_mapped).
  - exact demo_layout_ok.
  - split; [reflexivity|lia].
  - reflexivity.
  - lia.
  - apply demo_region.
  - apply demo_region.
  - cbn. lia.
Defined.

(** The outcomes of [map_vdso].  On success the vtask region, the vvar area
    and the text lie one after the other from [addr] on, and the task finds the
    vtask region at the vvar address minus six pages.  When the text cannot be
    installed no page of the vtask region stays mapped and everything else is as
    before.  When the vvar area cannot be installed the unmapping is too short
    by the vvar area: the text pages from [6 + text_pages] on stay mapped, all
    of them when the text is not longer than the vvar area. *)
Theorem map_vdso_outcomes L jiffies current im addr w :
  image_ok im → addr mod PAGE_SIZE = 0 →
  (∃ w', map_vdso L jiffies current false (0, 0, 0) im addr w = Some (0, w') ∧
     (∀ p, vmas (umm w') !! p = mapped im addr w p) ∧
     ctx_vtask_base (umm w') = addr ∧
     ctx_vdso (umm w') + sym_vvar_page im - 6 * PAGE_SIZE = addr) ∧
  (∀ e, e ≠ 0 → ∃ w', map_vdso L jiffies current false (0, e, 0) im addr w = Some (e, w') ∧
     ∀ p, vmas (umm w') !! p =
       if decide (addr / PAGE_SIZE ≤ p < addr / PAGE_SIZE + 6) then None else vmas (umm w) !! p) ∧
  (∀ e, e ≠ 0 → ∃ w', map_vdso L jiffies current false (0, 0, e) im addr w = Some (e, w') ∧
     (text_pages im ≤ vvar_pages im → ∀ j, 0 ≤ j < text_pages im →
        vmas (umm w') !! (addr / PAGE_SIZE + 6 + vvar_pages im + j) =
          Some (MVdso (addr + PAGE_SIZE * 6 - sym_vvar_start im)))).
Proof.
  intros Him Ha. split_and!.
  - destruct (map_vdso_success L jiffies current im addr w Him) as (w' & E & _ & _ & V & B & _ & C).
    exists w'. split_and!; [done..|]. rewrite C, (io_first _ Him). unfold PAGE_SIZE. lia.
  - intros e He. exact (map_vdso_fail2 L jiffies current im addr w e He).
  - intros e He. destruct (map_vdso_fail3 L jiffies current im addr w Him e He) as (w' & E & V).
    exists w'. split; [done|]. intros Hle j Hj. rewrite V.
    rewrite decide_False by lia. by rewrite decide_True by lia.
Qed.

Lemma map_vdso_outcomes_witness :
  (∃ w', map_vdso demo_layout 7 131328 false (0, 0, 0) demo_image 1048576 demo_machine = Some (0, w') ∧
     (∀ p, vmas (umm w') !! p = mapped demo_image 1048576 demo_machine p) ∧
     ctx_vtask_base (umm w') = 1048576 ∧
     ctx_vdso (umm w') + sym_vvar_page demo_image - 6 * PAGE_SIZE = 1048576) ∧
  (∀ e, e ≠ 0 →
     ∃ w', map_vdso demo_layout 7 131328 false (0, e, 0) demo_image 1048576 demo_machine = Some (e, w') ∧
     ∀ p, vmas (umm w') !! p =
       if decide (1048576 / PAGE_SIZE ≤ p < 1048576 / PAGE_SIZE + 6) then None
       else vmas (umm demo_machine) !! p) ∧
  (∀ e, e ≠ 0 →
     ∃ w', map_vdso demo_layout 7 131328 false (0, 0, e) demo_image 1048576 demo_machine = Some (e, w') ∧
     (text_pages demo_image ≤ vvar_pages demo_image → ∀ j, 0 ≤ j < text_pages demo_image →
        vmas (umm w') !! (1048576 / PAGE_SIZE + 6 + vvar_pages demo_image + j) =
          Some (MVdso (1048576 + PAGE_SIZE * 6 - sym_vvar_start demo_image)))).
Proof.
  apply (map_vdso_outcomes demo_layout 7 131328 demo_image 1048576 demo_machine).
  - exact demo_image_ok.
  - reflexivity.
Defined.

(** ** The address of the mapping *)

Lemma vdso_addr_eq random start len :
  0 ≤ start ≤ 2 ^ 47 → 0 ≤ len ≤ 2 ^ 20 →
  let s := (start + 4095) / 4096 * 4096 in
  let n := len + 6 * 4096 in
  let e := Z.min ((s + n + PMD_SIZE - 1) / PMD_SIZE * PMD_SIZE) DEFAULT_MAP_WINDOW - n in
  vdso_addr (λ a, a) random start len =
    if s <? e then s + (u32 random mod ((e - s) / 4096 + 1)) * 4096 else s.
Proof.
  intros Hs Hl s n e. unfold vdso_addr, page_align, PAGE_SIZE, PMD_SIZE, DEFAULT_MAP_WINDOW, PAGE_SHIFT in *.
  rewrite (wrapU_small 32 (len + _)) by (unfold is_u; lia).
  rewrite (wrapU_small 64 (start + 4096 - 1)) by (unfold is_u; lia).
  replace (start + 4096 - 1) with (start + 4095) by lia. fold s.
  replace (len + 4096 * 6) with n by (unfold n; lia).
  assert (0 ≤ s ≤ 2 ^ 47 + 4095) as Hs0 by (unfold s; dlia).
  assert (24576 ≤ n ≤ 2 ^ 20 + 24576) as Hn by (unfold n; lia).
  rewrite (wrapU_small 64 (s + n + 2097152 - 1)) by (unfold is_u; lia).
  set (E := (s + n + 2097152 - 1) / 2097152 * 2097152) in *.
  assert (n ≤ E) by (unfold E; dlia).
  assert ((if 140737488351232 <=? E then 140737488351232 else E) = Z.min E 140737488351232) as ->.
  { destruct (_ <=? E) eqn:G; to_prop; lia. }
  rewrite (wrapU_small 64 (_ - n)) by (unfold is_u; lia). fold e.
  destruct (s <? e) eqn:Hse; to_prop; [|done].
  assert (0 ≤ (e - s) / 4096 < 2 ^ 31) as Hq.
  { split; [apply Z.div_pos; lia|]. apply Z.div_lt_upper_bound; [lia|]. unfold e, E. dlia. }
  rewrite Z.shiftr_div_pow2, Z.shiftl_mul_pow2 by lia. change (2 ^ 12) with 4096.
  pose proof (Z.mod_pos_bound (u32 random) ((e - s) / 4096 + 1)) as Hm.
  rewrite (wrapU_small 32) by (unfold is_u; lia). done.
Qed.

(** The randomised address of the mapping (before the final alignment) is
    page aligned, not below the requested start, and leaves room for the whole
    mapping, the six vtask pages included, below the end of the PMD of its
    lowest possible end and below the end of the address space, whenever there
    is room at all. *)
Theorem vdso_addr_bounds random start len :
  0 ≤ start ≤ 2 ^ 47 → 0 ≤ len ≤ 2 ^ 20 →
  let s := (start + 4095) / 4096 * 4096 in
  let n := len + 6 * 4096 in
  let a := vdso_addr (λ a, a) random start len in
  a mod 4096 = 0 ∧ start ≤ s ≤ a ∧
  (s + n ≤ DEFAULT_MAP_WINDOW →
   a + n ≤ (s + n + PMD_SIZE - 1) / PMD_SIZE * PMD_SIZE ∧ a + n ≤ DEFAULT_MAP_WINDOW).
Proof.
  intros Hs Hl s n a. unfold a. rewrite vdso_addr_eq by done. cbn beta zeta. fold s n.
  set (E := (s + n + PMD_SIZE - 1) / PMD_SIZE * PMD_SIZE).
  set (e := Z.min E DEFAULT_MAP_WINDOW - n).
  assert (s mod 4096 = 0) as Ha by (unfold s; apply Z.mod_mul; lia).
  assert (start ≤ s) as Hss by (unfold s; dlia).
  assert (s + n ≤ E) as HE by (unfold E, PMD_SIZE; dlia).
  destruct (s <? e) eqn:Hse; to_prop.
  - pose proof (Z.mod_pos_bound (u32 random) ((e - s) / 4096 + 1)) as Hm.
    set (q := u32 random mod ((e - s) / 4096 + 1)) in *.
    assert (0 ≤ (e - s) / 4096) by (apply Z.div_pos; lia).
    pose proof (Z.mul_div_le (e - s) 4096). assert (q * 4096 ≤ e - s) by lia. split; [by rewrite Z.mod_add by lia|]. lia.
  - split; [done|]. lia.
Qed.

Lemma vdso_addr_bounds_witness :
  let s := (140737488000001 + 4095) / 4096 * 4096 in
  let a := vdso_addr (λ a, a) 5 140737488000001 24576 in
  a mod 4096 = 0 ∧ 140737488000001 ≤ s ≤ a ∧
  (s + (24576 + 6 * 4096) ≤ DEFAULT_MAP_WINDOW →
   a + (24576 + 6 * 4096) ≤ (s + (24576 + 6 * 4096) + PMD_SIZE - 1) / PMD_SIZE * PMD_SIZE ∧
   a + (24576 + 6 * 4096) ≤ DEFAULT_MAP_WINDOW).
Proof. apply (vdso_addr_bounds 5 140737488000001 24576); lia. Defined.

End Vdso.
