(* ===== verification/Acpi.v ===== *)
(** * The UEFI application on the ACPI tables

    MyPkg/My.c, MyPkg/PrintAllACPITables.c and MyPkg/ChangeACPITables.c: the
    application walks the tables from the root pointers that the firmware
    publishes, prints every header, and erases the OEM ID of the tables with a
    given signature, recomputing their checksum.

    Memory is the flat physical memory of UEFI.  What is printed is a list of
    the values printed.  The three functions of the EDK II base library that
    the code calls are an interface with their documented behaviour. *)

From Stdlib Require Import ZArith Lia.
From stdpp Require Import base numbers list sets.
From S2P Require Import Prelude.

Module Acpi.

Definition EFI_SUCCESS : Z := 0.

(** The two vendor GUIDs, as 128-bit numbers. *)
Definition gEfiAcpiTableGuid : Z := 0xEB9D2D302D8811D39A160090273FC14D.
Definition gEfiAcpi20TableGuid : Z := 0x8868E871E4F111D3BC220080C73C8881.

Definition EFI_ACPI_6_3_FIXED_ACPI_DESCRIPTION_TABLE_SIGNATURE : Z := 0x50434146.

(** EFI_ACPI_6_3_ROOT_SYSTEM_DESCRIPTION_POINTER: offsets. *)
Definition RSDP_CHECKSUM : Z := 8.
Definition RSDP_OEMID : Z := 9.
Definition RSDP_LENGTH : Z := 20.
Definition RSDP_XSDTADDRESS : Z := 24.

(** EFI_ACPI_DESCRIPTION_HEADER: offsets and size. *)
Definition HDR_LENGTH : Z := 4.
Definition HDR_CHECKSUM : Z := 9.
Definition HDR_OEMID : Z := 10.
Definition HDR_SIZE : Z := 36.

(** EFI_ACPI_6_3_FIXED_ACPI_DESCRIPTION_TABLE: offsets. *)
Definition FADT_FIRMWARECTRL : Z := 36.
Definition FADT_DSDT : Z := 40.

(** [CalculateCheckSum8] of the bytes of a buffer, [ZeroMem], [CopyMem]. *)
Class BaseMemoryLib := {
  CalculateCheckSum8 : list Z → Z;
  ZeroMem : Z → Z → memory → memory;
  CopyMem : Z → Z → Z → memory → memory;
  checksum8_range l : is_u 8 (CalculateCheckSum8 l);
  checksum8_sum l : (foldr Z.add 0 l + CalculateCheckSum8 l) mod 256 = 0;
  zeromem_spec a n m b : ZeroMem a n m b = if (a <=? b) && (b <? a + n) then 0 else m b;
  copymem_spec d s n m b : CopyMem d s n m b = if (d <=? b) && (b <? d + n) then m (s + (b - d)) else m b }.

(** What the walk prints: the root pointer, a header, the line with the
    checksum of the XSDT before a change. *)
Inductive kind := KXsdt | KTable (j : Z) | KDsdt | KFacs.

Inductive line :=
| RRsdp (addr length : Z) (signature oemid : list Z) (checksum : Z)
| RTable (k : kind) (addr length : Z) (signature oemid : list Z) (checksum : Z)
| RChecksum (checksum : Z)
| RHello.

Record world := World { mem : memory; out : list line }.

Definition print (l : line) (w : world) : world := World (mem w) (out w ++ [l]).
Definition on_mem (f : memory → memory) (w : world) : world := World (f (mem w)) (out w).

Definition bytes (n : nat) (a : Z) (m : memory) : list Z := m <$> seqZ a (Z.of_nat n).

Definition rsdp_line (root : Z) (m : memory) : line :=
  RRsdp root (kread 4 (root + RSDP_LENGTH) m) (bytes 8 root m) (bytes 6 (root + RSDP_OEMID) m)
    (m (root + RSDP_CHECKSUM)).

Definition header_line (k : kind) (t : Z) (m : memory) : line :=
  RTable k t (kread 4 (t + HDR_LENGTH) m) (bytes 4 t m) (bytes 6 (t + HDR_OEMID) m)
    (m (t + HDR_CHECKSUM)).

(** The number of entries of the XSDT: 32-bit length, 64-bit subtraction. *)
Definition EntryCount (xsdt : Z) (m : memory) : Z :=
  u64 (kread 4 (xsdt + HDR_LENGTH) m - HDR_SIZE) / 8.

Definition EntryPtr (xsdt j : Z) (m : memory) : Z := kread 8 (xsdt + HDR_SIZE + 8 * j) m.

Definition is_acpi (guid : Z) : bool :=
  (guid =? gEfiAcpiTableGuid) || (guid =? gEfiAcpi20TableGuid).

(** ** PrintAllACPITables.c *)

Definition print_entry (xsdt : Z) (w : world) (j : Z) : world :=
  let t := EntryPtr xsdt j (mem w) in
  let w := print (header_line (KTable j) t (mem w)) w in
  if kread 4 t (mem w) =? EFI_ACPI_6_3_FIXED_ACPI_DESCRIPTION_TABLE_SIGNATURE then
    let dsdt := kread 4 (t + FADT_DSDT) (mem w) in
    let w := print (header_line KDsdt dsdt (mem w)) w in
    let facs := kread 4 (t + FADT_FIRMWARECTRL) (mem w) in
    print (header_line KFacs facs (mem w)) w
  else w.

Definition print_config (w : world) (e : Z * Z) : world :=
  let '(VendorGuid, Root) := e in
  if is_acpi VendorGuid then
    let w := print (rsdp_line Root (mem w)) w in
    let Xsdt := kread 8 (Root + RSDP_XSDTADDRESS) (mem w) in
    let w := print (header_line KXsdt Xsdt (mem w)) w in
    foldl (print_entry Xsdt) w (seqZ 0 (EntryCount Xsdt (mem w)))
  else w.

(** [configTab]: the vendor GUID and table of the entries of the
    configuration table. *)
Definition PrintAllACPITables (configTab : list (Z * Z)) (w : world) : Z * world :=
  (EFI_SUCCESS, foldl print_config w configTab).

(** ** ChangeACPITables.c *)

Section change.
Context {EDK : BaseMemoryLib}.

Definition UpdateAcpiChecksum (t : Z) (m : memory) : memory :=
  let m := kwrite 1 (t + HDR_CHECKSUM) 0 m in
  kwrite 1 (t + HDR_CHECKSUM)
    (CalculateCheckSum8 (bytes (Z.to_nat (kread 4 (t + HDR_LENGTH) m)) t m)) m.

(** [NewTable] is 0 for NULL. *)
Definition change_table (NewTable t : Z) (m : memory) : memory :=
  let m :=
    if NewTable =? 0 then ZeroMem (t + HDR_OEMID) 6 m
    else CopyMem t NewTable (kread 4 (NewTable + HDR_LENGTH) m) m in
  UpdateAcpiChecksum t m.

Definition change_header (Signature NewTable t : Z) (w : world) : world :=
  if kread 4 t (mem w) =? Signature then on_mem (change_table NewTable t) w else w.

Definition change_entry (Signature NewTable xsdt : Z) (w : world) (j : Z) : world :=
  let t := EntryPtr xsdt j (mem w) in
  let w :=
    if kread 4 t (mem w) =? Signature then
      let w := print (RChecksum (mem w (xsdt + HDR_CHECKSUM))) w in
      on_mem (change_table NewTable t) w
    else w in
  let w := print (header_line (KTable j) t (mem w)) w in
  if kread 4 t (mem w) =? EFI_ACPI_6_3_FIXED_ACPI_DESCRIPTION_TABLE_SIGNATURE then
    let dsdt := kread 4 (t + FADT_DSDT) (mem w) in
    let w := change_header Signature NewTable dsdt w in
    let w := print (header_line KDsdt dsdt (mem w)) w in
    let facs := kread 4 (t + FADT_FIRMWARECTRL) (mem w) in
    let w := change_header Signature NewTable facs w in
    print (header_line KFacs facs (mem w)) w
  else w.

Definition change_config (Signature NewTable : Z) (w : world) (e : Z * Z) : world :=
  let '(VendorGuid, Root) := e in
  if is_acpi VendorGuid then
    let w := print (rsdp_line Root (mem w)) w in
    let Xsdt := kread 8 (Root + RSDP_XSDTADDRESS) (mem w) in
    let w := change_header Signature NewTable Xsdt w in
    let w := print (header_line KXsdt Xsdt (mem w)) w in
    foldl (change_entry Signature NewTable Xsdt) w (seqZ 0 (EntryCount Xsdt (mem w)))
  else w.

Definition ChangeACPITable (configTab : list (Z * Z)) (Signature NewTable : Z) (w : world) : world :=
  foldl (change_config Signature NewTable) w configTab.

(** ** My.c *)

Definition UefiMain (configTab : list (Z * Z)) (w : world) : Z * world :=
  let w := print RHello w in
  let '(_, w) := PrintAllACPITables configTab w in
  (EFI_SUCCESS, ChangeACPITable configTab 1413763908 0 w).

End change.

(** ** The tables of the firmware *)

Definition entry_headers (xsdt : Z) (m : memory) (j : Z) : list (kind * Z) :=
  let t := EntryPtr xsdt j m in
  (KTable j, t) ::
  if kread 4 t m =? EFI_ACPI_6_3_FIXED_ACPI_DESCRIPTION_TABLE_SIGNATURE
  then [(KDsdt, kread 4 (t + FADT_DSDT) m); (KFacs, kread 4 (t + FADT_FIRMWARECTRL) m)]
  else [].

Definition root_headers (root : Z) (m : memory) : list (kind * Z) :=
  let x := kread 8 (root + RSDP_XSDTADDRESS) m in
  (KXsdt, x) :: (seqZ 0 (EntryCount x m) ≫= entry_headers x m).

(** All headers that the walk reaches, in its order. *)
Definition tables (configTab : list (Z * Z)) (m : memory) : list (kind * Z) :=
  configTab ≫= λ e, if is_acpi e.1 then root_headers e.2 m else [].

Definition report (configTab : list (Z * Z)) (m : memory) : list line :=
  configTab ≫= λ e,
    if is_acpi e.1 then rsdp_line e.2 m :: ((λ h, header_line h.1 h.2 m) <$> root_headers e.2 m)
    else [].

(** The bytes of a table sum to zero. *)
Definition checksum_ok (t : Z) (m : memory) : Prop :=
  foldr Z.add 0 (bytes (Z.to_nat (kread 4 (t + HDR_LENGTH) m)) t m) mod 256 = 0.

Definition table_len (m : memory) (t : Z) : Z := kread 4 (t + HDR_LENGTH) m.

(** Tables are complete, do not overlap each other nor a root pointer. *)
Record acpi_wf (configTab : list (Z * Z)) (m : memory) : Prop := {
  wf_len : ∀ t, t ∈ (tables configTab m).*2 → HDR_SIZE ≤ table_len m t;
  wf_fadt : ∀ t, t ∈ (tables configTab m).*2 →
    kread 4 t m = EFI_ACPI_6_3_FIXED_ACPI_DESCRIPTION_TABLE_SIGNATURE → 44 ≤ table_len m t;
  wf_disj : ∀ t t', t ∈ (tables configTab m).*2 → t' ∈ (tables configTab m).*2 →
    t = t' ∨ t + table_len m t ≤ t' ∨ t' + table_len m t' ≤ t;
  wf_root : ∀ e t, e ∈ configTab → is_acpi e.1 = true → t ∈ (tables configTab m).*2 →
    e.2 + HDR_SIZE ≤ t ∨ t + table_len m t ≤ e.2 }.

(** ** The walk without changes *)

Lemma foldl_print_entry x js w :
  foldl (print_entry x) w js =
  World (mem w) (out w ++ ((λ h, header_line h.1 h.2 (mem w)) <$> (js ≫= entry_headers x (mem w)))).
Proof.
  revert w. induction js as [|j js IH]; intros [m o]; [by rewrite app_nil_r|].
  cbn [foldl]. rewrite IH. cbn [mbind list_bind]. rewrite fmap_app, app_assoc.
  unfold print_entry, entry_headers, print. cbn [mem out].
  destruct (_ =? _); cbn [mem out fmap list_fmap fst snd]; by rewrite <-!app_assoc.
Qed.

Lemma print_config_eq w e :
  print_config w e = World (mem w) (out w ++
    if is_acpi e.1 then rsdp_line e.2 (mem w) :: ((λ h, header_line h.1 h.2 (mem w)) <$> root_headers e.2 (mem w))
    else []).
Proof.
  destruct e as [g r], w as [m o]. unfold print_config. cbn [fst snd].
  destruct (is_acpi g); [|by rewrite app_nil_r].
  rewrite foldl_print_entry. unfold print, root_headers. cbn [mem out]. by rewrite <-!app_assoc.
Qed.

Lemma PrintAll_eq cfg w :
  PrintAllACPITables cfg w = (EFI_SUCCESS, World (mem w) (out w ++ report cfg (mem w))).
Proof.
  unfold PrintAllACPITables. f_equal. revert w.
  induction cfg as [|e cfg IH]; intros w; [destruct w; by rewrite app_nil_r|].
  cbn [foldl]. rewrite IH, print_config_eq. cbn [mem out]. unfold report. cbn [mbind list_bind].
  by rewrite <-app_assoc.
Qed.

Section change_facts.
Context {EDK : BaseMemoryLib}.

(** The headers that are not selected are left alone. *)
Lemma change_header_no S N t w : kread 4 t (mem w) ≠ S → change_header S N t w = w.
Proof. intros H. unfold change_header. by rewrite (proj2 (Z.eqb_neq _ _)). Qed.

Lemma change_entry_no S N x w j :
  (∀ h, h ∈ entry_headers x (mem w) j → kread 4 h.2 (mem w) ≠ S) →
  change_entry S N x w j = print_entry x w j.
Proof.
  intros H. unfold change_entry, print_entry. pose proof H as H'. unfold entry_headers in H.
  rewrite (proj2 (Z.eqb_neq (kread 4 (EntryPtr x j (mem w)) (mem w)) S)) by
    (apply (H (KTable j, _)); left). cbv zeta.
  cbn [mem print]. destruct (_ =? EFI_ACPI_6_3_FIXED_ACPI_DESCRIPTION_TABLE_SIGNATURE) eqn:E; [|done].
  rewrite !change_header_no; cbn [mem print]; [done| |].
  - apply (H (KFacs, _)). right. right. left.
  - apply (H (KDsdt, _)). right. left.
Qed.

Lemma foldl_change_entry_no S N x js w :
  (∀ h, h ∈ js ≫= entry_headers x (mem w) → kread 4 h.2 (mem w) ≠ S) →
  foldl (change_entry S N x) w js = foldl (print_entry x) w js.
Proof.
  revert w. induction js as [|j js IH]; intros w H; [done|]. cbn [foldl].
  cbn [mbind list_bind] in H.
  rewrite change_entry_no by (intros; apply H, elem_of_app; by left).
  apply IH. pose proof (foldl_print_entry x [j] w) as E. cbn [foldl] in E. rewrite E. cbn [mem].
  intros. apply H, elem_of_app. by right.
Qed.

Lemma Change_no S N cfg w :
  (∀ h, h ∈ tables cfg (mem w) → kread 4 h.2 (mem w) ≠ S) →
  ChangeACPITable cfg S N w = (PrintAllACPITables cfg w).2.
Proof.
  unfold ChangeACPITable, PrintAllACPITables. cbn [snd]. revert w.
  induction cfg as [|[g r] cfg IH]; intros w H; [done|]. cbn [foldl].
  unfold tables in H. cbn [mbind list_bind fst snd] in H.
  assert (change_config S N w (g, r) = print_config w (g, r)) as ->.
  { unfold change_config, print_config. destruct (is_acpi g); [|done]. cbv zeta. cbn [mem print].
    rewrite change_header_no; cbn [mem print].
    - apply foldl_change_entry_no. cbn [mem print]. intros h Hh.
      apply H, elem_of_app. left. by right.
    - apply (H (KXsdt, _)), elem_of_app. left. left. }
  rewrite print_config_eq. apply IH. cbn [mem]. intros. apply H, elem_of_app. by right.
Qed.

(** PrintAllACPITables leaves memory unchanged and prints one line per
    root pointer and per table reached, in the order of the walk;
    ChangeACPITable prints and leaves the same when no table reached has the
    signature, for every replacement table; and UefiMain prints the firmware's
    tables and then runs ChangeACPITable for the DSDT on unchanged memory. *)
Theorem acpi_walk_reports cfg S N w
    (Hno : ∀ h, h ∈ tables cfg (mem w) → kread 4 h.2 (mem w) ≠ S) :
  PrintAllACPITables cfg w = (EFI_SUCCESS, World (mem w) (out w ++ report cfg (mem w))) ∧
  ChangeACPITable cfg S N w = World (mem w) (out w ++ report cfg (mem w)) ∧
  ∀ w', UefiMain cfg w' =
    (EFI_SUCCESS, ChangeACPITable cfg 0x54445344 0
                    (World (mem w') (out w' ++ RHello :: report cfg (mem w')))).
Proof.
  split; [apply PrintAll_eq|]. split; [by rewrite Change_no, PrintAll_eq|].
  intros w'. unfold UefiMain. rewrite PrintAll_eq. cbn [mem out print]. by rewrite <-app_assoc.
Qed.

(** ** The walk that erases the OEM ID *)

Definition change_if (S : Z) (m : memory) (h : kind * Z) : memory :=
  if kread 4 h.2 m =? S then change_table 0 h.2 m else m.

(** The OEM ID is zero and the table sums to zero. *)
Definition changed (t : Z) (m : memory) : Prop :=
  bytes 6 (t + HDR_OEMID) m = replicate 6 0 ∧ checksum_ok t m.

Lemma bytes_ext n a m m' : (∀ b, a ≤ b < a + Z.of_nat n → m b = m' b) → bytes n a m = bytes n a m'.
Proof.
  intros H. apply list_fmap_ext. intros i x (Hi & ?)%lookup_seqZ. apply H. lia.
Qed.

Lemma bytes_S n a m : bytes (S n) a m = m a :: bytes n (a + 1) m.
Proof. unfold bytes. rewrite Nat2Z.inj_succ, seqZ_cons by lia. by rewrite Z.pred_succ. Qed.

(** Setting a byte that is zero adds it to the sum. *)
Lemma sum_set n a p c m :
  m p = 0 → a ≤ p < a + Z.of_nat n →
  foldr Z.add 0 (bytes n a (λ b, if b =? p then c else m b)) = foldr Z.add 0 (bytes n a m) + c.
Proof.
  revert a. induction n as [|n IH]; intros a Hp Ha; [lia|]. rewrite !bytes_S. cbn [foldr].
  destruct (Z.eqb_spec a p) as [->|].
  - rewrite (bytes_ext n (p + 1) _ m); [lia|]. intros b Hb.
    by rewrite (proj2 (Z.eqb_neq b p)) by lia.
  - rewrite IH by lia. lia.
Qed.

Lemma change_table_other t m b : ¬ (t + 9 ≤ b < t + 16) → change_table 0 t m b = m b.
Proof.
  intros H. unfold change_table, UpdateAcpiChecksum, HDR_CHECKSUM, HDR_OEMID. cbn [Z.eqb].
  rewrite !kwrite_other by lia. rewrite zeromem_spec.
  destruct (t + 10 <=? b) eqn:?, (b <? t + 10 + 6) eqn:?; to_prop; cbn; lia || done.
Qed.

Lemma change_table_kread n a t m :
  a + Z.of_nat n ≤ t + 9 ∨ t + 16 ≤ a → kread n a (change_table 0 t m) = kread n a m.
Proof. intros H. apply kread_ext. intros b Hb. apply change_table_other. lia. Qed.

Lemma change_table_changed t m : HDR_SIZE ≤ table_len m t → changed t (change_table 0 t m).
Proof.
  unfold table_len, HDR_SIZE, HDR_LENGTH. intros Hl. split.
  - unfold change_table, UpdateAcpiChecksum, HDR_CHECKSUM, HDR_OEMID. cbn [Z.eqb].
    rewrite (bytes_ext _ _ _ (λ _, 0)); [done|]. intros b Hb.
    rewrite !kwrite_other by lia. rewrite zeromem_spec.
    by rewrite (proj2 (Z.leb_le _ b)), (proj2 (Z.ltb_lt b _)) by lia.
  - unfold checksum_ok, HDR_LENGTH. rewrite change_table_kread by lia.
    unfold change_table. cbn [Z.eqb]. set (z := ZeroMem _ _ m). unfold UpdateAcpiChecksum, HDR_LENGTH, HDR_CHECKSUM.
    assert (kread 4 (t + 4) z = kread 4 (t + 4) m) as Ez.
    { apply kread_ext. intros b Hb. unfold z, HDR_OEMID. rewrite zeromem_spec.
      by rewrite (proj2 (Z.leb_gt _ b)) by lia. }
    rewrite kread_kwrite_ne, Ez by lia.
    set (n := Z.to_nat _). assert (36 ≤ Z.of_nat n) by (unfold n; lia). clearbody n.
    set (k := kwrite 1 (t + 9) 0 z).
    assert (k (t + 9) = 0) as Hk by (unfold k; cbn; by rewrite Z.eqb_refl).
    pose proof (checksum8_range (bytes n t k)) as Hr.
    assert (kwrite 1 (t + 9) (CalculateCheckSum8 (bytes n t k)) k =
            λ b, if b =? t + 9 then CalculateCheckSum8 (bytes n t k) else k b) as ->.
    { cbn [kwrite]. rewrite Z.mod_small by exact Hr. done. }
    rewrite sum_set by (exact Hk || lia). apply checksum8_sum.
Qed.

(** What lies in a table that is not touched stays as it is. *)
Lemma changed_ext t m m' :
  HDR_SIZE ≤ table_len m t → (∀ b, t ≤ b < t + table_len m t → m' b = m b) →
  changed t m → changed t m'.
Proof.
  unfold table_len, HDR_SIZE, changed, checksum_ok, HDR_LENGTH, HDR_OEMID. intros Hl H [H1 H2].
  rewrite (kread_ext 4 (t + 4) m' m), (bytes_ext 6 _ m' m), (bytes_ext (Z.to_nat _) t m' m);
    [done| | |]; intros; apply H; lia.
Qed.

Section erase.
Context (cfg : list (Z * Z)) (m0 : memory) (S : Z).
Hypothesis (Hwf : acpi_wf cfg m0).

(** Memory is [m0] except for checksums and OEM IDs of selected tables. *)
Definition agree (m : memory) : Prop :=
  ∀ b, (∀ t, t ∈ (tables cfg m0).*2 → kread 4 t m0 = S → ¬ (t + 9 ≤ b < t + 16)) → m b = m0 b.

(** A field of a table outside these bytes. *)
Lemma agree_field m t x n :
  agree m → t ∈ (tables cfg m0).*2 → 0 ≤ x → x + Z.of_nat n ≤ table_len m0 t →
  x + Z.of_nat n ≤ 9 ∨ 16 ≤ x → kread n (t + x) m = kread n (t + x) m0.
Proof.
  intros Ha Ht Hx Hl H9. apply kread_ext. intros b Hb. apply Ha. intros t' Ht' _.
  pose proof (wf_len _ _ Hwf _ Ht'). unfold HDR_SIZE in *.
  destruct (wf_disj _ _ Hwf _ _ Ht Ht') as [->|]; lia.
Qed.

Lemma agree_sig m t : agree m → t ∈ (tables cfg m0).*2 → kread 4 t m = kread 4 t m0.
Proof.
  intros Ha Ht. pose proof (wf_len _ _ Hwf _ Ht). unfold HDR_SIZE in *.
  rewrite <-(Z.add_0_r t). apply agree_field; lia || done.
Qed.

Lemma agree_change m h : agree m → h ∈ tables cfg m0 → agree (change_if S m h).
Proof.
  intros Ha Hh. unfold change_if. destruct (Z.eqb_spec (kread 4 h.2 m) S) as [E|]; [|done].
  assert (h.2 ∈ (tables cfg m0).*2) as Hh2 by (apply list_elem_of_fmap; eauto).
  rewrite agree_sig in E by done.
  intros b Hb. rewrite change_table_other by (apply Hb; done). by apply Ha.
Qed.

Lemma agree_header k t w : agree (mem w) → (k, t) ∈ tables cfg m0 →
  mem (change_header S 0 t w) = change_if S (mem w) (k, t) ∧ agree (mem (change_header S 0 t w)).
Proof.
  intros Ha Ht.
  assert (mem (change_header S 0 t w) = change_if S (mem w) (k, t)) as ->.
  { unfold change_header, change_if. cbn [snd]. by destruct (_ =? _). }
  split; [done|by apply agree_change].
Qed.

(** One entry of the XSDT. *)
Lemma agree_entry x w j :
  agree (mem w) → x ∈ (tables cfg m0).*2 → 0 ≤ j → 36 + 8 * j + 8 ≤ table_len m0 x →
  (∀ h, h ∈ entry_headers x m0 j → h ∈ tables cfg m0) →
  mem (change_entry S 0 x w j) = foldl (change_if S) (mem w) (entry_headers x m0 j) ∧
  agree (mem (change_entry S 0 x w j)).
Proof.
  intros Ha Hx Hj Hl Hin. unfold change_entry, entry_headers in *. unfold EntryPtr, HDR_SIZE in *.
  replace (x + 36 + 8 * j) with (x + (36 + 8 * j)) in * by lia.
  rewrite (agree_field (mem w)) by (lia || done).
  set (t := kread 8 (x + (36 + 8 * j)) m0) in *.
  assert ((KTable j, t) ∈ tables cfg m0) as Ht by (apply Hin; left).
  assert (t ∈ (tables cfg m0).*2) as Ht2 by (apply list_elem_of_fmap; by exists (KTable j, t)).
  set (m1 := change_if S (mem w) (KTable j, t)).
  assert (agree m1) as Ha1 by by apply agree_change.
  set (w1 := if kread 4 t (mem w) =? S then _ else w).
  assert (mem w1 = m1) as E1.
  { unfold w1, m1, change_if. cbn [snd]. by destruct (_ =? S). }
  cbv zeta. cbn [mem print]. rewrite E1, (agree_sig m1) by done.
  destruct (Z.eqb_spec (kread 4 t m0) EFI_ACPI_6_3_FIXED_ACPI_DESCRIPTION_TABLE_SIGNATURE) as [Hf|];
    cbn [foldl]; fold m1; [|by cbn [mem print]; rewrite E1].
  pose proof (wf_fadt _ _ Hwf _ Ht2 Hf). unfold FADT_DSDT, FADT_FIRMWARECTRL in *.
  rewrite (agree_field m1) by (lia || done). set (d := kread 4 (t + 40) m0) in *.
  set (w2 := print _ w1). assert (mem w2 = m1) as Ew2 by (unfold w2; by cbn [mem print]).
  destruct (agree_header KDsdt d w2) as [E2 Ha2];
    [by rewrite Ew2|apply Hin; right; left|].
  change (mem (print _ ?w)) with (mem w).
  rewrite (agree_field (mem (change_header S 0 d w2))) by (lia || done).
  set (f := kread 4 (t + 36) m0) in *. set (w3 := print _ (change_header S 0 d w2)).
  destruct (agree_header KFacs f w3) as [E3 Ha3]; [exact Ha2|apply Hin; right; right; left|].
  split; [|done]. rewrite E3. unfold w3. cbn [mem print]. by rewrite E2, Ew2.
Qed.

Lemma agree_entries x js w :
  agree (mem w) → x ∈ (tables cfg m0).*2 →
  (∀ j, j ∈ js → 0 ≤ j ∧ 36 + 8 * j + 8 ≤ table_len m0 x) →
  (∀ h, h ∈ js ≫= entry_headers x m0 → h ∈ tables cfg m0) →
  mem (foldl (change_entry S 0 x) w js) = foldl (change_if S) (mem w) (js ≫= entry_headers x m0) ∧
  agree (mem (foldl (change_entry S 0 x) w js)).
Proof.
  revert w. induction js as [|j js IH]; intros w Ha Hx Hj Hin; [done|].
  cbn [mbind list_bind foldl] in *. rewrite foldl_app.
  destruct (Hj j) as [? ?]; [left|].
  destruct (agree_entry x w j) as [<- Ha1]; try done.
  { intros h Hh. apply Hin, elem_of_app. by left. }
  apply IH; try done.
  - intros j' Hj'. apply Hj. by right.
  - intros h Hh. apply Hin, elem_of_app. by right.
Qed.

Lemma count_bound x j :
  x ∈ (tables cfg m0).*2 → j ∈ seqZ 0 (EntryCount x m0) →
  0 ≤ j ∧ 36 + 8 * j + 8 ≤ table_len m0 x.
Proof.
  intros Hx [Hj1 Hj2]%elem_of_seqZ. pose proof (wf_len _ _ Hwf _ Hx) as Hl.
  unfold EntryCount, table_len, HDR_SIZE, wrapU in *.
  pose proof (Z.mod_le (kread 4 (x + HDR_LENGTH) m0 - 36) (2 ^ 64)).
  pose proof (Z.mul_div_le ((kread 4 (x + HDR_LENGTH) m0 - 36) mod 2 ^ 64) 8). lia.
Qed.

Lemma bind_ext {A B} (f g : A → list B) l :
  (∀ x, x ∈ l → f x = g x) → l ≫= f = l ≫= g.
Proof.
  induction l as [|x l IH]; intros H; [done|]. cbn [mbind list_bind].
  rewrite (H x) by left. f_equal. apply IH. intros. apply H. by right.
Qed.

Lemma agree_root m e : agree m → e ∈ cfg → is_acpi e.1 = true →
  kread 8 (e.2 + RSDP_XSDTADDRESS) m = kread 8 (e.2 + RSDP_XSDTADDRESS) m0 ∧
  ∀ h, h ∈ root_headers e.2 m0 → h ∈ tables cfg m0 ∧ h.2 ∈ (tables cfg m0).*2.
Proof.
  intros Ha He Hg. split.
  - apply kread_ext. intros b Hb. apply Ha. intros t Ht _. unfold RSDP_XSDTADDRESS in *.
    pose proof (wf_root _ _ Hwf _ _ He Hg Ht). pose proof (wf_len _ _ Hwf _ Ht).
    unfold HDR_SIZE in *. lia.
  - intros h Hh. assert (h ∈ tables cfg m0).
    { unfold tables. apply list_elem_of_bind. exists e. by rewrite Hg. }
    split; [done|]. apply list_elem_of_fmap. eauto.
Qed.

Lemma agree_count m x : agree m → x ∈ (tables cfg m0).*2 → EntryCount x m = EntryCount x m0.
Proof.
  intros Ha Hx. unfold EntryCount, HDR_LENGTH. pose proof (wf_len _ _ Hwf _ Hx).
  unfold HDR_SIZE in *. rewrite agree_field; lia || done.
Qed.

Lemma agree_config w e :
  agree (mem w) → e ∈ cfg →
  mem (change_config S 0 w e) =
    foldl (change_if S) (mem w) (if is_acpi e.1 then root_headers e.2 m0 else []) ∧
  agree (mem (change_config S 0 w e)).
Proof.
  intros Ha He. destruct e as [g r]. unfold change_config. cbn [fst snd].
  destruct (is_acpi g) eqn:Hg; [|done]. cbv zeta.
  set (w1 := print (rsdp_line r (mem w)) w). change (mem w1) with (mem w).
  destruct (agree_root (mem w) (g, r) Ha He Hg) as [Er Hin]. cbn [fst snd] in Er, Hin. rewrite Er.
  unfold root_headers in *. set (x := kread 8 _ m0) in *.
  destruct (Hin (KXsdt, x)) as [Hx Hx2]; [left|]. cbn [snd] in Hx2.
  destruct (agree_header KXsdt x w1 Ha Hx) as [E1 Ha1].
  change (EntryCount x (mem (print _ ?v))) with (EntryCount x (mem v)).
  rewrite agree_count by done.
  change (mem w1) with (mem w) in E1. cbn [foldl]. rewrite <-E1.
  apply (agree_entries x _ (print _ (change_header S 0 x w1))); [exact Ha1|done| |].
  - intros j Hj. by apply count_bound.
  - intros h Hh. apply Hin. by right.
Qed.

Lemma agree_configs l w :
  agree (mem w) → (∀ e, e ∈ l → e ∈ cfg) →
  mem (foldl (change_config S 0) w l) =
    foldl (change_if S) (mem w) (l ≫= λ e, if is_acpi e.1 then root_headers e.2 m0 else []) ∧
  agree (mem (foldl (change_config S 0) w l)).
Proof.
  revert w. induction l as [|e l IH]; intros w Ha Hc; [done|].
  cbn [foldl mbind list_bind]. rewrite foldl_app.
  destruct (agree_config w e Ha) as [<- Ha1]; [apply Hc; left|].
  apply IH; [done|]. intros e' He'. apply Hc. by right.
Qed.

(** The walk applies the change to the tables of the firmware, in order. *)
Lemma Change_mem w : mem w = m0 →
  mem (ChangeACPITable cfg S 0 w) = foldl (change_if S) m0 (tables cfg m0) ∧
  agree (mem (ChangeACPITable cfg S 0 w)).
Proof. intros Hw. rewrite <-Hw at 1. apply agree_configs; [|done]. intros b _. by rewrite Hw. Qed.

(** After a sequence of changes every selected table of it is changed. *)
Lemma foldl_change_changed l m t :
  agree m → (∀ h, h ∈ l → h ∈ tables cfg m0) → t ∈ l.*2 → kread 4 t m0 = S →
  changed t (foldl (change_if S) m l) ∧ agree (foldl (change_if S) m l).
Proof.
  intros Ha Hin Ht HS.
  assert (∀ l', (∀ h, h ∈ l' → h ∈ tables cfg m0) → agree (foldl (change_if S) m l')) as Hag.
  { intros l'. revert m Ha. clear -Hwf. induction l' as [|h l' IH]; intros m Ha Hin; [done|].
    cbn [foldl]. apply IH; [apply agree_change; [done|apply Hin; left]|]. intros. apply Hin. by right. }
  split; [|by apply Hag]. revert t Ht HS.
  induction l as [|h l IH] using rev_ind; intros t Ht HS; [by apply not_elem_of_nil in Ht|].
  assert (∀ h', h' ∈ l → h' ∈ tables cfg m0) as Hin' by (intros; apply Hin, elem_of_app; by left).
  assert (h ∈ tables cfg m0) as Hh by (apply Hin, elem_of_app; right; left).
  assert (h.2 ∈ (tables cfg m0).*2) as Hh2 by (apply list_elem_of_fmap; eauto).
  assert (∀ u, u ∈ (tables cfg m0).*2 → table_len (foldl (change_if S) m l) u = table_len m0 u ∧
    HDR_SIZE ≤ table_len m0 u) as Hl.
  { intros u Hu. pose proof (wf_len _ _ Hwf _ Hu). split; [|done]. unfold table_len, HDR_LENGTH, HDR_SIZE in *.
    apply agree_field; [by apply Hag|done|lia|unfold table_len, HDR_LENGTH; lia|lia]. }
  rewrite foldl_snoc. unfold change_if at 1. rewrite (agree_sig _ h.2) by (try apply Hag; done).
  rewrite fmap_app, elem_of_app in Ht.
  destruct (Z.eqb_spec (kread 4 h.2 m0) S) as [E|E].
  - destruct (decide (t = h.2)) as [->|Hne].
    + apply change_table_changed. destruct (Hl h.2 Hh2) as [-> ?]. done.
    + destruct Ht as [Ht|Ht%list_elem_of_singleton]; [|done].
      assert (t ∈ (tables cfg m0).*2) as Ht2.
      { apply list_elem_of_fmap in Ht as (h' & -> & ?). apply list_elem_of_fmap. eauto. }
      destruct (Hl t Ht2) as [El ?], (Hl _ Hh2) as [Eh ?]. unfold HDR_SIZE in *.
      apply changed_ext with (m := foldl (change_if S) m l); rewrite ?El; [done| |by apply IH].
      intros b Hb. apply change_table_other. destruct (wf_disj _ _ Hwf _ _ Ht2 Hh2) as [|]; lia || done.
  - destruct Ht as [Ht|Ht%list_elem_of_singleton]; [by apply IH|]. by subst t.
Qed.

(** The table tree is the one of the firmware. *)
Lemma agree_tables m : agree m → tables cfg m = tables cfg m0.
Proof.
  intros Ha. apply bind_ext. intros e He. destruct (is_acpi e.1) eqn:Hg; [|done].
  destruct (agree_root m e Ha He Hg) as [Er Hin]. unfold root_headers in *. rewrite Er.
  set (x := kread 8 _ m0) in *. destruct (Hin (KXsdt, x)) as [_ Hx]; [left|]. cbn [snd] in Hx.
  rewrite agree_count by done. f_equal. apply bind_ext. intros j Hj.
  destruct (count_bound _ _ Hx Hj) as [? ?].
  assert (EntryPtr x j m = EntryPtr x j m0) as Ep.
  { unfold EntryPtr, HDR_SIZE. rewrite <-Z.add_assoc. apply agree_field; lia || done. }
  unfold entry_headers. rewrite Ep. set (t := EntryPtr x j m0).
  assert (t ∈ (tables cfg m0).*2) as Ht.
  { apply (Hin (KTable j, t)). right. apply list_elem_of_bind. exists j. split; [left|done]. }
  rewrite agree_sig by done. destruct (Z.eqb_spec (kread 4 t m0)
    EFI_ACPI_6_3_FIXED_ACPI_DESCRIPTION_TABLE_SIGNATURE) as [Hf|]; [|done].
  pose proof (wf_fadt _ _ Hwf _ Ht Hf). unfold FADT_DSDT, FADT_FIRMWARECTRL.
  rewrite !(agree_field m) by (lia || done). done.
Qed.

(** A table that is not selected keeps all its bytes. *)
Lemma agree_unselected m t b :
  agree m → t ∈ (tables cfg m0).*2 → kread 4 t m0 ≠ S → t ≤ b < t + table_len m0 t → m b = m0 b.
Proof.
  intros Ha Ht HS Hb. apply Ha. intros t' Ht' HS'. pose proof (wf_len _ _ Hwf _ Ht').
  unfold HDR_SIZE in *. destruct (wf_disj _ _ Hwf _ _ Ht Ht') as [->|]; lia || done.
Qed.

End erase.

(** C8: on a complete table tree without overlaps, ChangeACPITable with a NULL
    table gives every table with the signature a zero OEM ID and bytes that
    sum to zero; it changes no other byte than the OEM IDs and checksums of
    these tables, so the tree is still the same and every other table keeps
    its bytes. *)
Theorem acpi_change_tables cfg S w (Hwf : acpi_wf cfg (mem w)) :
  let m := mem w in
  let m' := mem (ChangeACPITable cfg S 0 w) in
  (∀ k t, (k, t) ∈ tables cfg m → kread 4 t m = S →
     bytes 6 (t + HDR_OEMID) m' = replicate 6 0 ∧ checksum_ok t m') ∧
  (∀ b, (∀ k t, (k, t) ∈ tables cfg m → kread 4 t m = S → ¬ (t + 9 ≤ b < t + 16)) → m' b = m b) ∧
  tables cfg m' = tables cfg m ∧
  (∀ k t b, (k, t) ∈ tables cfg m → kread 4 t m ≠ S → t ≤ b < t + table_len m t → m' b = m b).
Proof.
  intros m m'. destruct (Change_mem cfg m S Hwf w eq_refl) as [E Ha]. fold m' in E, Ha.
  assert (∀ k t, (k, t) ∈ tables cfg m → t ∈ (tables cfg m).*2) as H2.
  { intros k t Ht. apply list_elem_of_fmap. by exists (k, t). }
  split_and!.
  - intros k t Ht HS. rewrite E.
    apply (foldl_change_changed cfg m S Hwf (tables cfg m) m t); [by intros b _|done|by eapply H2|done].
  - intros b Hb. apply Ha. intros t ([k t'] & -> & Ht)%list_elem_of_fmap. by apply (Hb k).
  - by apply (agree_tables cfg m S Hwf).
  - intros k t b Ht HS Hb. eapply agree_unselected; eauto.
Qed.

End change_facts.

(** ** Witnesses *)

(** The documented behaviour of the base library, as functions. *)
#[export] Program Instance edk2_base : BaseMemoryLib := {
  CalculateCheckSum8 l := (- foldr Z.add 0 l) mod 256;
  ZeroMem a n m := λ b, if (a <=? b) && (b <? a + n) then 0 else m b;
  CopyMem d s n m := λ b, if (d <=? b) && (b <? d + n) then m (s + (b - d)) else m b }.
Next Obligation. intros l. unfold is_u. apply Z.mod_pos_bound. done. Qed.
Next Obligation. intros l. cbn beta. by rewrite Zplus_mod_idemp_r, Z.add_opp_diag_r. Qed.
Next Obligation. done. Qed.
Next Obligation. done. Qed.

(** An RSDP at 4096, an XSDT of one entry, a FADT, a DSDT and a FACS. *)
Definition demo_memory : memory :=
  kwrite 8 4120 8192
    (kwrite 4 8192 0x54445358 (kwrite 4 8196 44 (kwrite 8 8228 12288
      (kwrite 4 12288 0x50434146 (kwrite 4 12292 44 (kwrite 4 12324 20480 (kwrite 4 12328 16384
        (kwrite 4 16384 0x54445344 (kwrite 4 16388 40 (kwrite 6 16394 0x4853484F5351 (kwrite 1 16420 9
          (kwrite 4 20480 0x53434146 (kwrite 4 20484 36 (λ _, 0)))))))))))))).

Definition demo_config : list (Z * Z) := [(5, 77); (gEfiAcpi20TableGuid, 4096)].
Definition demo_world : world := World demo_memory [].

Lemma demo_tables :
  tables demo_config demo_memory = [(KXsdt, 8192); (KTable 0, 12288); (KDsdt, 16384); (KFacs, 20480)].
Proof. vm_compute. reflexivity. Qed.

Lemma demo_wf : acpi_wf demo_config demo_memory.
Proof.
  assert (∀ t, t ∈ (tables demo_config demo_memory).*2 → (t, table_len demo_memory t) ∈
    [(8192, 44); (12288, 44); (16384, 40); (20480, 36)]) as H.
  { rewrite demo_tables. cbn [fmap list_fmap snd]. intros t Ht.
    repeat (apply elem_of_cons in Ht as [->|Ht]; [vm_compute; set_solver|]). by apply not_elem_of_nil in Ht. }
  assert (∀ t, t ∈ (tables demo_config demo_memory).*2 →
    36 ≤ table_len demo_memory t ∧ (kread 4 t demo_memory = 0x50434146 → 44 ≤ table_len demo_memory t) ∧
    8192 ≤ t) as H1.
  { intros t Ht%H. revert Ht. generalize (table_len demo_memory t). intros n Hn.
    repeat (apply elem_of_cons in Hn as [[= -> ->]|Hn]; [split_and!; [lia|vm_compute; congruence|lia]|]).
    by apply not_elem_of_nil in Hn. }
  split.
  - intros t Ht. apply H1, Ht.
  - intros t Ht. apply H1, Ht.
  - intros t t' Ht%H Ht'%H. revert Ht Ht'.
    generalize (table_len demo_memory t) (table_len demo_memory t'). intros n n' Hn Hn'.
    repeat (apply elem_of_cons in Hn as [[= -> ->]|Hn];
      [repeat (apply elem_of_cons in Hn' as [[= -> ->]|Hn']; [lia|]); by apply not_elem_of_nil in Hn'|]).
    by apply not_elem_of_nil in Hn.
  - intros e t He Hg Ht. apply H1 in Ht as (_ & _ & Ht).
    apply elem_of_cons in He as [->|[->|[]%not_elem_of_nil]%elem_of_cons]; [done|].
    left. unfold HDR_SIZE. cbn [snd]. lia.
Qed.

Lemma acpi_change_tables_witness :
  let m' := mem (ChangeACPITable demo_config 0x54445344 0 demo_world) in
  bytes 6 (16384 + 10) demo_memory = [81; 83; 79; 72; 83; 72] ∧
  bytes 6 (16384 + 10) m' = replicate 6 0 ∧ checksum_ok 16384 m' ∧ m' (16384 + 9) = 160.
Proof.
  pose proof (acpi_change_tables demo_config 0x54445344 demo_world demo_wf) as (H & _).
  split; [vm_compute; reflexivity|].
  change (mem demo_world) with demo_memory in H.
  destruct (H KDsdt 16384) as [H1 H2];
    [rewrite demo_tables; right; right; left|vm_compute; reflexivity|].
  split; [exact H1|]. split; [exact H2|vm_compute; reflexivity].
Defined.

Lemma acpi_walk_reports_witness :
  ChangeACPITable demo_config 0x54434946 0 demo_world = World demo_memory (report demo_config demo_memory) ∧
  length (report demo_config demo_memory) = 5%nat.
Proof.
  split; [|vm_compute; reflexivity].
  destruct (acpi_walk_reports demo_config 0x54434946 0 demo_world) as (_ & H & _); [|exact H].
  change (mem demo_world) with demo_memory. rewrite demo_tables. intros h Hh.
  repeat (apply elem_of_cons in Hh as [->|Hh]; [vm_compute; congruence|]). by apply not_elem_of_nil in Hh.
Defined.

End Acpi.
