(* ===== verification/XattrTool.v ===== *)
(** * The user program on extended attributes

    FS/Task1/read.c: [set_file_xattr] and [get_file_xattr], as clients of the
    system calls of Xattr.v.  [getxattr] gives the program a buffer of 256
    bytes; what is printed is a value.  ([print_inode_info] only prints.) *)

From Stdlib Require Import ZArith Lia.
From stdpp Require Import base numbers list gmap strings.
From S2P Require Import Prelude Xattr.

Module XattrTool.
Import Xattr.

Inductive printed :=
| SetXattr (key value : bytes)
| GotXattr (key value : bytes)
| Failed.   (** [perror] *)

Section tool.
Context {F : Type}.

(** [path] is the result of the path lookup; [rw] of making the mount writable. *)
Definition set_file_xattr (k : hooks) (acl_fix : bytes → bytes) (path : Z → Z) (rw : Z)
    (key value : bytes) : st (inode F) printed :=
  r ← sys_setxattr k acl_fix path rw (Some key) (Z.of_nat (length value)) (inl value) 0;
  mret (if r <? 0 then Failed else SetXattr key value).

(** [buf] is the uninitialised buffer. *)
Definition get_file_xattr (k : hooks) (acl_fix : bytes → bytes) (mem : bool) (path : Z → Z)
    (buf key : bytes) : st (inode F) printed :=
  r ← sys_getxattr k acl_fix mem true path (Some key) 256;
  if r.1 <? 0 then mret Failed
  else
    buf ← lift (put_at buf 0 (default [] r.2));
    buf ← lift (put_at buf r.1 [0]);
    s ← lift (cstr buf);
    mret (GotXattr key s).

End tool.

(** Reading an attribute that the store holds. *)
Lemma get_file_xattr_eq {F} `{AttrStore F} k acl_fix path buf i key n v :
  as_inv (i_fs i) → shows i key n → as_attrs (i_fs i) !! n = Some v →
  xattr_permission k i key MAY_READ = 0 → sec_getxattr k key = 0 → path LOOKUP_FOLLOW = 0 →
  length buf = 256%nat → Forall (λ c, c ≠ 0) v →
  get_file_xattr k acl_fix true path buf key i =
    if Z.of_nat (length v) <? 256 then Some (GotXattr key v, i)
    else if Z.of_nat (length v) =? 256 then None else Some (Failed, i).
Proof.
  intros Hi Hs Hv Hp Hg Hpath Hbuf Hnz.
  assert (sys_getxattr k acl_fix true true path (Some key) 256 i = Some (user_get (Some v) 256, i)) as E.
  { unfold sys_getxattr, path_getxattr, path_retry. cbv beta.
    rewrite Hpath. cbn [Z.eqb negb]. unfold get, lift, mbind, st_bind.
    rewrite (getxattr_ok k acl_fix i key n 256), Hv by (done || lia).
    assert (retry_estale (user_get (Some v) 256).1 LOOKUP_FOLLOW = false) as ->; [|done].
    unfold retry_estale, user_get, ESTALE, ERANGE, E2BIG, XATTR_SIZE_MAX. cbn [Z.eqb].
    destruct (Z.of_nat (length v) =? 0); [done|]. destruct (_ <=? _); [|done]. cbn [fst].
    by rewrite (proj2 (Z.eqb_neq (Z.of_nat (length v)) _)) by lia. }
  unfold get_file_xattr. rewrite (st_bind_step _ _ _ _ _ E). unfold user_get.
  change (256 =? 0) with false. cbv iota. change (Z.min 256 XATTR_SIZE_MAX) with 256.
  unfold lift, mbind, st_bind, mret, st_ret.
  destruct (Z.eqb_spec (Z.of_nat (length v)) 0) as [Hz|Hz].
  { destruct v; [|done]. cbn [default fst snd]. change (0 <? 0) with false. cbv iota.
    rewrite put_at_0 by lia. cbn [app length]. rewrite drop_0.
    rewrite put_at_0 by (rewrite Hbuf; by vm_compute). done. }
  destruct (Z.leb_spec (Z.of_nat (length v)) 256) as [Hle|Hgt]; cbn [fst snd default]; cycle 1.
  { rewrite (proj2 (Z.ltb_ge (Z.of_nat (length v)) 256)), (proj2 (Z.eqb_neq _ 256)) by lia.
    change (XATTR_SIZE_MAX <=? 256) with false. done. }
  unfold id. rewrite (proj2 (Z.ltb_ge (Z.of_nat (length v)) 0)), put_at_0 by lia. unfold put_at.
  rewrite length_app, length_drop. cbn [length]. rewrite (proj2 (Z.leb_le 0 _)) by lia. cbn [andb].
  destruct (Z.ltb_spec (Z.of_nat (length v)) 256).
  - rewrite (proj2 (Z.leb_le _ _)) by lia. rewrite Nat2Z.id, take_app_length.
    cbn [app]. by rewrite cstr_app.
  - rewrite (proj2 (Z.leb_gt _ _)) by lia. by rewrite (proj2 (Z.eqb_eq _ 256)) by lia.
Qed.

(** C40: when setxattr of a text succeeds, the program prints that it is set, and
    reading the attribute back prints exactly the text if it has at most 255
    characters and reports a failure if it has more than 256; with exactly 256
    characters the terminating NUL is written behind the buffer. *)
Theorem xattr_tool_roundtrip {F} `{AttrStore F} k acl_fix path buf i i' key n v
    (Hi : as_inv (i_fs i)) (Hs : shows i key n) (Hm : Z.of_nat (length v) ≤ XATTR_SIZE_MAX)
    (Hset : setxattr k acl_fix (Some key) (Z.of_nat (length v)) (inl v) 0 i = Some (0, i'))
    (Hread : xattr_permission k i key MAY_READ = 0) (Hsec : sec_getxattr k key = 0)
    (Hpath : path LOOKUP_FOLLOW = 0) (Hbuf : length buf = 256%nat) (Hnz : Forall (λ c, c ≠ 0) v) :
  set_file_xattr k acl_fix path 0 key v i = Some (SetXattr key v, i') ∧
  get_file_xattr k acl_fix true path buf key i' =
    if Z.of_nat (length v) <? 256 then Some (GotXattr key v, i')
    else if Z.of_nat (length v) =? 256 then None else Some (Failed, i').
Proof.
  split.
  - unfold set_file_xattr, sys_setxattr, path_setxattr, path_retry. cbv beta.
    rewrite Hpath. cbn [Z.eqb negb]. unfold mbind, st_bind. by rewrite Hset.
  - destruct (setxattr_ok k acl_fix i i' key n _ v 0 Hi Hs eq_refl Hm Hset) as (_ & _ & f & -> & If & Af).
    apply (get_file_xattr_eq k acl_fix path buf (set_fs f i) key n v); try done.
    + by apply shows_set_fs.
    + cbn [i_fs set_fs]. rewrite Af. by rewrite lookup_insert_eq.
Qed.

Lemma xattr_tool_roundtrip_witness :
  let k := demo_hooks false in
  let i := demo_inode [SimpleXattr [97] (replicate 256 65)] in
  get_file_xattr k id true (λ _, 0) (replicate 256 0) demo_name i = None ∧
  get_file_xattr k id true (λ _, 0) (replicate 256 0) demo_name (demo_inode [SimpleXattr [97] [72; 105]]) =
    Some (GotXattr demo_name [72; 105], demo_inode [SimpleXattr [97] [72; 105]]).
Proof.
  assert (as_inv (i_fs (demo_inode []))) as Hi by apply NoDup_nil_2.
  assert (shows (demo_inode []) demo_name [97]) as Hs.
  { split; [split; first [reflexivity | discriminate]|reflexivity|reflexivity|].
    exists XATTR_USER_PREFIX. reflexivity. }
  split.
  - destruct (xattr_tool_roundtrip (demo_hooks false) id (λ _, 0) (replicate 256 0) (demo_inode [])
      (demo_inode [SimpleXattr [97] (replicate 256 65)]) demo_name [97] (replicate 256 65) Hi Hs)
      as [_ E]; [by vm_compute|reflexivity|reflexivity|reflexivity|reflexivity|reflexivity| |].
    { apply Forall_replicate. discriminate. }
    rewrite length_replicate in E. exact E.
  - destruct (xattr_tool_roundtrip (demo_hooks false) id (λ _, 0) (replicate 256 0) (demo_inode [])
      (demo_inode [SimpleXattr [97] [72; 105]]) demo_name [97] [72; 105] Hi Hs)
      as [_ E]; [by vm_compute|reflexivity|reflexivity|reflexivity|reflexivity|reflexivity| |].
    { repeat constructor; discriminate. }
    exact E.
Defined.

End XattrTool.
