(* ===== verification/Ext4Xattr.v ===== *)
(** * Reading extended attributes of ext4

    fs/ext4/xattr.c and fs/ext4/xattr.h: the format of the attribute entries in
    the inode and in the attribute block, the checks that are made on what was
    read from the disk, finding, getting and listing attributes, and the
    handler of the repository's [custom.] namespace (name index 11).

    A disk buffer is the list of its bytes; an entry is its position in it, and
    every access is to bytes of the buffer, so a read outside is a fault.  The
    loops over entries have no bound in the code; they carry the buffer length
    as fuel, which suffices because every entry is at least 16 bytes long.

    Values in inodes of their own, the checksum function, reading blocks and
    locating the inode are given by their outcomes ([io]). *)

From Stdlib Require Import ZArith Lia Sorted.
From stdpp Require Import base numbers list gmap strings.
From S2P Require Import Prelude Xattr.

Module Ext4Xattr.
Import Xattr.

Definition EFSCORRUPTED : Z := EUCLEAN.
Definition EFSBADCRC : Z := EBADMSG.

(** ** The format (xattr.h) *)

Definition EXT4_XATTR_MAGIC : Z := 0xEA020000.
Definition EXT4_XATTR_SIZE_MAX : Z := 2 ^ 24.
Definition EXT4_GOOD_OLD_INODE_SIZE : Z := 128.

Definition EXT4_XATTR_INDEX_USER : Z := 1.
Definition EXT4_XATTR_INDEX_POSIX_ACL_ACCESS : Z := 2.
Definition EXT4_XATTR_INDEX_POSIX_ACL_DEFAULT : Z := 3.
Definition EXT4_XATTR_INDEX_TRUSTED : Z := 4.
Definition EXT4_XATTR_INDEX_SECURITY : Z := 6.
Definition EXT4_XATTR_INDEX_HURD : Z := 10.
Definition EXT4_XATTR_INDEX_CUSTOM : Z := 11.

(** [struct ext4_xattr_header]: offsets and size. *)
Definition H_MAGIC : Z := 0.
Definition H_BLOCKS : Z := 8.
Definition H_CHECKSUM : Z := 16.
Definition HEADER_SIZE : Z := 32.

(** [struct ext4_xattr_ibody_header]: size. *)
Definition IBODY_HEADER_SIZE : Z := 4.

(** [struct ext4_xattr_entry]: offsets and size. *)
Definition E_NAME_LEN : Z := 0.
Definition E_NAME_INDEX : Z := 1.
Definition E_VALUE_OFFS : Z := 2.
Definition E_VALUE_INUM : Z := 4.
Definition E_VALUE_SIZE : Z := 8.
Definition E_HASH : Z := 12.
Definition E_NAME : Z := 16.

Definition EXT4_XATTR_ROUND : Z := 3.

Definition EXT4_XATTR_LEN (name_len : Z) : Z :=
  Z.land (name_len + EXT4_XATTR_ROUND + E_NAME) (Z.lnot EXT4_XATTR_ROUND).

(** The size is a number of [w] bits. *)
Definition EXT4_XATTR_SIZE (w size : Z) : Z :=
  Z.land (wrapU w (size + EXT4_XATTR_ROUND)) (Z.lnot EXT4_XATTR_ROUND).

Definition EXT4_XATTR_NEXT (r : bytes) (entry : Z) : option Z :=
  n ← rd8 r (entry + E_NAME_LEN);
  Some (entry + EXT4_XATTR_LEN n).

Definition IS_LAST_ENTRY (r : bytes) (entry : Z) : option bool :=
  (λ z, z =? 0) <$> rd32 r entry.

Definition buf_end (r : bytes) : Z := Z.of_nat (length r).

(** ** Checking what was read *)

(** [strnlen] *)
Fixpoint strnlen (s : bytes) : Z :=
  match s with [] => 0 | c :: s => if c =? 0 then 0 else 1 + strnlen s end.

(** First loop of [ext4_xattr_check_entries]: the end of the names, or an error. *)
Fixpoint check_names (fuel : nat) (r : bytes) (e : Z) : option (Z + Z) :=
  match fuel with
  | O => None
  | S fuel =>
      last ← IS_LAST_ENTRY r e;
      if last : bool then Some (inr e)
      else
        next ← EXT4_XATTR_NEXT r e;
        if buf_end r <=? next then Some (inl (- EFSCORRUPTED))
        else
          n ← rd8 r (e + E_NAME_LEN);
          name ← bytes_at r (e + E_NAME) n;
          if negb (strnlen name =? n) then Some (inl (- EFSCORRUPTED))
          else check_names fuel r next
  end.

(** Second loop: the values; [e] is the end of the names. *)
Fixpoint check_values (fuel : nat) (r : bytes) (value_start e entry : Z) : option Z :=
  match fuel with
  | O => None
  | S fuel =>
      last ← IS_LAST_ENTRY r entry;
      if last : bool then Some 0
      else
        size ← rd32 r (entry + E_VALUE_SIZE);
        inum ← rd32 r (entry + E_VALUE_INUM);
        offs ← rd16 r (entry + E_VALUE_OFFS);
        next ← EXT4_XATTR_NEXT r entry;
        if EXT4_XATTR_SIZE_MAX <? size then Some (- EFSCORRUPTED)
        else if negb (size =? 0) && (inum =? 0) then
          let value := value_start + offs in
          if buf_end r - value_start <? offs then Some (- EFSCORRUPTED)
          else if (value <? e + 4) || (buf_end r - value <? size) ||
                  (buf_end r - value <? EXT4_XATTR_SIZE 32 size) then Some (- EFSCORRUPTED)
          else check_values fuel r value_start e next
        else check_values fuel r value_start e next
  end.

Definition fuel_of (r : bytes) : nat := S (length r).

Definition ext4_xattr_check_entries (r : bytes) (entry value_start : Z) : option Z :=
  e ← check_names (fuel_of r) r entry;
  match e with
  | inl err => Some err
  | inr e => check_values (fuel_of r) r value_start e entry
  end.

(** ** Finding an entry *)

Fixpoint memcmp (a b : bytes) : Z :=
  match a, b with
  | x :: a, y :: b => if x =? y then memcmp a b else x - y
  | _, _ => 0
  end.

(** The comparison of a name with the entry. *)
Definition entry_cmp (r : bytes) (entry name_index : Z) (name : bytes) : option Z :=
  index ← rd8 r (entry + E_NAME_INDEX);
  len ← rd8 r (entry + E_NAME_LEN);
  let name_len := Z.of_nat (length name) in
  let cmp := name_index - index in
  let cmp := if cmp =? 0 then name_len - len else cmp in
  if cmp =? 0 then memcmp name <$> bytes_at r (entry + E_NAME) name_len else Some cmp.

(** The loop; [cmp] is the comparison of the turn before. *)
Fixpoint find_loop (fuel : nat) (r : bytes) (entry cmp name_index : Z) (name : bytes)
    (sorted : bool) : option (Z * Z) :=
  match fuel with
  | O => None
  | S fuel =>
      last ← IS_LAST_ENTRY r entry;
      if last : bool then Some (if negb (cmp =? 0) then - ENODATA else 0, entry)
      else
        next ← EXT4_XATTR_NEXT r entry;
        if buf_end r <=? next then Some (- EFSCORRUPTED, entry)
        else
          cmp ← entry_cmp r entry name_index name;
          if (cmp <=? 0) && (sorted || (cmp =? 0))
          then Some (if negb (cmp =? 0) then - ENODATA else 0, entry)
          else find_loop fuel r next cmp name_index name sorted
  end.

(** The code and [*pentry]; a name that is NULL is refused. *)
Definition xattr_find_entry (r : bytes) (pentry name_index : Z) (name : option bytes) (sorted : bool) :
    option (Z * Z) :=
  match name with
  | None => Some (- EINVAL, pentry)
  | Some name => find_loop (fuel_of r) r pentry 1 name_index name sorted
  end.

(** ** The inode *)

Record ea_block := EaBlock {
  b_data : bytes;
  b_blocknr : Z;
  b_verified : bool }.

Record ext4_inode := Ext4Inode {
  raw_inode : bytes;
  i_extra_isize : Z;
  state_xattr : bool;           (** EXT4_STATE_XATTR *)
  i_file_acl : option ea_block }.

(** What the block layer and the other parts of ext4 answer. *)
Record io := Io {
  io_shutdown : bool;
  io_inode_loc : Z;
  io_bread : Z;
  io_metadata_csum : bool;
  io_chksum : Z → bytes → Z;
  io_csum_seed : Z;
  io_ea_inode : Z → Z → Z → Z + bytes }.   (** number, hash, size *)

Definition IHDR (i : ext4_inode) : Z := EXT4_GOOD_OLD_INODE_SIZE + i_extra_isize i.
Definition IFIRST (i : ext4_inode) : Z := IHDR i + IBODY_HEADER_SIZE.
Definition BFIRST : Z := HEADER_SIZE.

Definition ext4_xattr_block_csum (o : io) (block_nr : Z) (hdr : bytes) : Z :=
  let csum := io_chksum o (io_csum_seed o) (le_split 8 block_nr) in
  let csum := io_chksum o csum (take (Z.to_nat H_CHECKSUM) hdr) in
  let csum := io_chksum o csum (le_split 4 0) in
  io_chksum o csum (drop (Z.to_nat (H_CHECKSUM + 4)) hdr).

Definition ext4_xattr_block_csum_verify (o : io) (b : ea_block) : option bool :=
  if io_metadata_csum o then
    c ← rd32 (b_data b) H_CHECKSUM;
    Some (c =? ext4_xattr_block_csum o (b_blocknr b) (b_data b))
  else Some true.

(** The error and the block, marked as verified when it passed. *)
Definition ext4_xattr_check_block (o : io) (b : ea_block) : option (Z * ea_block) :=
  magic ← rd32 (b_data b) H_MAGIC;
  blocks ← rd32 (b_data b) H_BLOCKS;
  if negb (magic =? EXT4_XATTR_MAGIC) || negb (blocks =? 1) then Some (- EFSCORRUPTED, b)
  else if b_verified b then Some (0, b)
  else
    csum ← ext4_xattr_block_csum_verify o b;
    if negb csum then Some (- EFSBADCRC, b)
    else
      error ← ext4_xattr_check_entries (b_data b) BFIRST 0;
      Some (error, if error =? 0 then EaBlock (b_data b) (b_blocknr b) true else b).

(** [end - header] is converted to an unsigned size. *)
Definition xattr_check_inode (i : ext4_inode) : option Z :=
  let r := raw_inode i in
  if u64 (buf_end r - IHDR i) <? IBODY_HEADER_SIZE + 4 then Some (- EFSCORRUPTED)
  else
    magic ← rd32 r (IHDR i);
    if negb (magic =? EXT4_XATTR_MAGIC) then Some (- EFSCORRUPTED)
    else ext4_xattr_check_entries r (IFIRST i) (IFIRST i).

(** ** Get *)

(** The part of the two get functions after the entry was found: the value is
    at [base] plus the entry's offset. *)
Definition get_value (o : io) (r : bytes) (base entry : Z) (buffer : option bytes) :
    option (Z * option bytes) :=
  size ← rd32 r (entry + E_VALUE_SIZE);
  if EXT4_XATTR_SIZE_MAX <? size then Some (- ERANGE, buffer)
  else
    match buffer with
    | None => Some (size, None)
    | Some b =>
        if buf_end b <? size then Some (- ERANGE, buffer)
        else
          inum ← rd32 r (entry + E_VALUE_INUM);
          if negb (inum =? 0) then
            hash ← rd32 r (entry + E_HASH);
            match io_ea_inode o inum hash size with
            | inl error => Some (error, buffer)
            | inr v => b' ← put_at b 0 v; Some (size, Some b')
            end
          else
            offset ← rd16 r (entry + E_VALUE_OFFS);
            if buf_end r <? base + offset + size then Some (- ERANGE, buffer)
            else
              v ← bytes_at r (base + offset) size;
              b' ← put_at b 0 v;
              Some (size, Some b')
    end.

Definition ext4_xattr_ibody_get (o : io) (i : ext4_inode) (name_index : Z) (name : option bytes)
    (buffer : option bytes) : option (Z * option bytes) :=
  if negb (state_xattr i) then Some (- ENODATA, buffer)
  else if negb (io_inode_loc o =? 0) then Some (io_inode_loc o, buffer)
  else
    error ← xattr_check_inode i;
    if negb (error =? 0) then Some (error, buffer)
    else
      f ← xattr_find_entry (raw_inode i) (IFIRST i) name_index name false;
      let '(error, entry) := f in
      if negb (error =? 0) then Some (error, buffer)
      else get_value o (raw_inode i) (IFIRST i) entry buffer.

Definition set_block (b : option ea_block) (i : ext4_inode) : ext4_inode :=
  Ext4Inode (raw_inode i) (i_extra_isize i) (state_xattr i) b.

Definition ext4_xattr_block_get (o : io) (name_index : Z) (name : option bytes)
    (buffer : option bytes) : st ext4_inode (Z * option bytes) :=
  i ← get;
  match i_file_acl i with
  | None => mret (- ENODATA, buffer)
  | Some b =>
      if negb (io_bread o =? 0) then mret (io_bread o, buffer)
      else
        c ← lift (ext4_xattr_check_block o b);
        let '(error, b) := c in
        put (set_block (Some b) i) ;;
        if negb (error =? 0) then mret (error, buffer)
        else
          f ← lift (xattr_find_entry (b_data b) BFIRST name_index name true);
          let '(error, entry) := f in
          if negb (error =? 0) then mret (error, buffer)
          else lift (get_value o (b_data b) 0 entry buffer)
  end.

Definition ext4_xattr_get (o : io) (name_index : Z) (name : bytes) (buffer : option bytes) :
    st ext4_inode (Z * option bytes) :=
  if io_shutdown o then mret (- EIO, buffer)
  else if 255 <? Z.of_nat (length name) then mret (- ERANGE, buffer)
  else
    i ← get;
    r ← lift (ext4_xattr_ibody_get o i name_index (Some name) buffer);
    let '(error, buffer) := r in
    if error =? - ENODATA then ext4_xattr_block_get o name_index (Some name) buffer
    else mret (error, buffer).

Definition ext4_xattr_custom_get (o : io) (name : bytes) (buffer : option bytes) :
    st ext4_inode (Z * option bytes) :=
  ext4_xattr_get o EXT4_XATTR_INDEX_CUSTOM name buffer.

(** ** List *)

(** A handler as [ext4_xattr_list_entries] uses it: the prefix (or else the
    name), and what its [list] answers, if it has one. *)
Record list_handler := ListHandler { lh_prefix : bytes; lh_list : option bool }.

Definition XATTR_HURD_PREFIX : bytes := Eval cbv in s2b "gnu.".

(** What the [list] callbacks of the handlers answer; [acl]: POSIX ACLs are
    compiled in, [security]: security labels are. *)
Record list_env := ListEnv {
  le_user : bool;
  le_trusted : bool;
  le_hurd : bool;
  le_acl : option bool;
  le_security : bool }.

(** [ext4_xattr_handler_map] by index. *)
Definition ext4_xattr_handler_map (l : list_env) (name_index : Z) : option list_handler :=
  if name_index =? EXT4_XATTR_INDEX_USER then Some (ListHandler XATTR_USER_PREFIX (Some (le_user l)))
  else if name_index =? EXT4_XATTR_INDEX_POSIX_ACL_ACCESS then
    (λ a, ListHandler XATTR_NAME_POSIX_ACL_ACCESS (Some a)) <$> le_acl l
  else if name_index =? EXT4_XATTR_INDEX_POSIX_ACL_DEFAULT then
    (λ a, ListHandler XATTR_NAME_POSIX_ACL_DEFAULT (Some a)) <$> le_acl l
  else if name_index =? EXT4_XATTR_INDEX_TRUSTED then
    Some (ListHandler XATTR_TRUSTED_PREFIX (Some (le_trusted l)))
  else if name_index =? EXT4_XATTR_INDEX_SECURITY then
    (if le_security l then Some (ListHandler XATTR_SECURITY_PREFIX None) else None)
  else if name_index =? EXT4_XATTR_INDEX_HURD then
    Some (ListHandler XATTR_HURD_PREFIX (Some (le_hurd l)))
  else if name_index =? EXT4_XATTR_INDEX_CUSTOM then Some (ListHandler XATTR_CUSTOM_PREFIX None)
  else None.

Definition ext4_xattr_handler (l : list_env) (name_index : Z) : option list_handler :=
  if (0 <? name_index) && (name_index <? 12) then ext4_xattr_handler_map l name_index else None.

(** The buffer of the caller: its part already written and the part still free;
    [rest] is a [size_t].  The result is [buffer_size - rest] as an [int]. *)
Fixpoint list_loop (fuel : nat) (l : list_env) (r : bytes) (entry : Z) (buffer_size : Z)
    (written : bytes) (buffer : option bytes) (rest : Z) : option (Z * option bytes) :=
  match fuel with
  | O => None
  | S fuel =>
      last ← IS_LAST_ENTRY r entry;
      if last : bool then Some (s32 (u64 (buffer_size - rest)), (λ b, written ++ b) <$> buffer)
      else
        next ← EXT4_XATTR_NEXT r entry;
        index ← rd8 r (entry + E_NAME_INDEX);
        match ext4_xattr_handler l index with
        | Some (ListHandler prefix lst) =>
            if default true lst then
              n ← rd8 r (entry + E_NAME_LEN);
              let size := Z.of_nat (length prefix) + n + 1 in
              match buffer with
              | None => list_loop fuel l r next buffer_size written None (u64 (rest - size))
              | Some b =>
                  if rest <? size then Some (- ERANGE, Some (written ++ b))
                  else
                    name ← bytes_at r (entry + E_NAME) n;
                    if buf_end b <? size then None
                    else list_loop fuel l r next buffer_size (written ++ prefix ++ name ++ [0])
                           (Some (drop (Z.to_nat size) b)) (u64 (rest - size))
              end
            else list_loop fuel l r next buffer_size written buffer rest
        | None => list_loop fuel l r next buffer_size written buffer rest
        end
  end.

Definition ext4_xattr_list_entries (l : list_env) (r : bytes) (entry : Z) (buffer : option bytes)
    (buffer_size : Z) : option (Z * option bytes) :=
  list_loop (fuel_of r) l r entry buffer_size [] buffer buffer_size.

Definition ext4_xattr_ibody_list (o : io) (l : list_env) (i : ext4_inode) (buffer : option bytes)
    (buffer_size : Z) : option (Z * option bytes) :=
  if negb (state_xattr i) then Some (0, buffer)
  else if negb (io_inode_loc o =? 0) then Some (io_inode_loc o, buffer)
  else
    error ← xattr_check_inode i;
    if negb (error =? 0) then Some (error, buffer)
    else ext4_xattr_list_entries l (raw_inode i) (IFIRST i) buffer buffer_size.

Definition ext4_xattr_block_list (o : io) (l : list_env) (buffer : option bytes) (buffer_size : Z) :
    st ext4_inode (Z * option bytes) :=
  i ← get;
  match i_file_acl i with
  | None => mret (0, buffer)
  | Some b =>
      if negb (io_bread o =? 0) then mret (io_bread o, buffer)
      else
        c ← lift (ext4_xattr_check_block o b);
        let '(error, b) := c in
        put (set_block (Some b) i) ;;
        if negb (error =? 0) then mret (error, buffer)
        else lift (ext4_xattr_list_entries l (b_data b) BFIRST buffer buffer_size)
  end.

Definition ext4_listxattr (o : io) (l : list_env) (buffer : option bytes) (buffer_size : Z) :
    st ext4_inode (Z * option bytes) :=
  i ← get;
  r ← lift (ext4_xattr_ibody_list o l i buffer buffer_size);
  let '(ret, buffer) := r in
  if ret <? 0 then mret (ret, buffer)
  else
    let first := (λ b, take (Z.to_nat ret) b) <$> buffer in
    let buffer' := (λ b, drop (Z.to_nat ret) b) <$> buffer in
    let buffer_size := match buffer with Some _ => buffer_size - ret | None => buffer_size end in
    r ← ext4_xattr_block_list o l buffer' buffer_size;
    let '(ret', buffer') := r in
    let buffer := match first, buffer' with Some a, Some b => Some (a ++ b) | _, _ => buffer end in
    if ret' <? 0 then mret (ret', buffer) else mret (ret' + ret, buffer).

(** ** The entries of a buffer *)

Record xentry := XEntry {
  x_pos : Z;
  x_index : Z;
  x_name : bytes;
  x_offs : Z;
  x_inum : Z;
  x_size : Z;
  x_hash : Z }.

Definition read_entry (r : bytes) (e : Z) : option xentry :=
  n ← rd8 r (e + E_NAME_LEN);
  index ← rd8 r (e + E_NAME_INDEX);
  offs ← rd16 r (e + E_VALUE_OFFS);
  inum ← rd32 r (e + E_VALUE_INUM);
  size ← rd32 r (e + E_VALUE_SIZE);
  hash ← rd32 r (e + E_HASH);
  name ← bytes_at r (e + E_NAME) n;
  Some (XEntry e index name offs inum size hash).

Definition x_next (x : xentry) : Z := x_pos x + EXT4_XATTR_LEN (Z.of_nat (length (x_name x))).

Fixpoint entries_from (fuel : nat) (r : bytes) (e : Z) : list xentry :=
  match fuel with
  | O => []
  | S fuel =>
      match IS_LAST_ENTRY r e, read_entry r e with
      | Some false, Some x => x :: entries_from fuel r (x_next x)
      | _, _ => []
      end
  end.

Definition entries (r : bytes) (e : Z) : list xentry := entries_from (fuel_of r) r e.

(** A well-ended list of entries in a buffer, from [e] up to the zero word. *)
Inductive chain (r : bytes) : Z → list xentry → Z → Prop :=
| chain_last e : IS_LAST_ENTRY r e = Some true → chain r e [] e
| chain_cons e x es e_end :
    IS_LAST_ENTRY r e = Some false → read_entry r e = Some x → x_next x < buf_end r →
    strnlen (x_name x) = Z.of_nat (length (x_name x)) →
    chain r (x_next x) es e_end → chain r e (x :: es) e_end.

(** A buffer as it comes from the disk: whole bytes and words, at most 64 KiB. *)
Record buffer_ok (r : bytes) : Prop := {
  bo_bytes : is_bytes r;
  bo_words : buf_end r mod 4 = 0;
  bo_size : buf_end r ≤ 65536 }.

Lemma land_lnot3 a : Z.land a (Z.lnot 3) = a / 4 * 4.
Proof.
  rewrite <-Z.ldiff_land. change 3 with (Z.ones 2). rewrite Z.ldiff_ones_r by lia.
  rewrite Z.shiftl_mul_pow2, Z.shiftr_div_pow2 by lia. done.
Qed.

Lemma LEN_eq n : EXT4_XATTR_LEN n = (n + 19) / 4 * 4.
Proof. unfold EXT4_XATTR_LEN, EXT4_XATTR_ROUND, E_NAME. rewrite land_lnot3. do 2 f_equal. lia. Qed.

Lemma LEN_bounds n : n + 16 ≤ EXT4_XATTR_LEN n ≤ n + 19 ∧ EXT4_XATTR_LEN n mod 4 = 0.
Proof. rewrite LEN_eq. dlia. Qed.

Lemma rd_range n r e z : is_bytes r → rd n r e = Some z → 0 ≤ z < 2 ^ (8 * Z.of_nat n).
Proof.
  unfold rd. intros Hb. destruct (bytes_at r e (Z.of_nat n)) as [b|] eqn:E; [|done]. intros [= <-].
  pose proof (bytes_at_length _ _ _ _ E) as L.
  assert (is_bytes b) as Hbb.
  { unfold bytes_at in E. destruct (_ && _); [|done]. injection E as <-.
    apply Forall_take, Forall_drop, Hb. }
  pose proof (le_combine_range b Hbb). by replace (length b) with n in * by lia.
Qed.

Lemma rd_Some n r e : 0 ≤ e → e + Z.of_nat n ≤ buf_end r → ∃ z, rd n r e = Some z.
Proof. intros. apply rd_is_Some. done. Qed.

Section region.
Context (r : bytes).
Hypothesis (Hr : buffer_ok r).

Lemma last_read e : 0 ≤ e → e + 4 ≤ buf_end r → ∃ b, IS_LAST_ENTRY r e = Some b.
Proof. intros. unfold IS_LAST_ENTRY. destruct (rd_Some 4 r e) as [z ->]; [done..|]. by eexists. Qed.

(** An entry with room behind it can be read. *)
Lemma entry_reads e next :
  0 ≤ e → EXT4_XATTR_NEXT r e = Some next → next < buf_end r →
  ∃ x, read_entry r e = Some x ∧ x_pos x = e ∧ x_next x = next ∧
    rd8 r (e + E_NAME_LEN) = Some (Z.of_nat (length (x_name x))) ∧
    rd8 r (e + E_NAME_INDEX) = Some (x_index x) ∧
    rd16 r (e + E_VALUE_OFFS) = Some (x_offs x) ∧ rd32 r (e + E_VALUE_INUM) = Some (x_inum x) ∧
    rd32 r (e + E_VALUE_SIZE) = Some (x_size x) ∧ rd32 r (e + E_HASH) = Some (x_hash x) ∧
    bytes_at r (e + E_NAME) (Z.of_nat (length (x_name x))) = Some (x_name x) ∧
    e + 16 ≤ next ∧ (length (x_name x) ≤ 255)%nat.
Proof.
  unfold EXT4_XATTR_NEXT, E_NAME_LEN, E_NAME_INDEX, E_VALUE_OFFS, E_VALUE_INUM, E_VALUE_SIZE, E_HASH, E_NAME.
  intros He Hn Hend. destruct (rd8 r (e + 0)) as [n|] eqn:En; [|done]. injection Hn as Hn.
  pose proof (rd_range _ _ _ _ (bo_bytes _ Hr) En) as Rn. change (2 ^ (8 * Z.of_nat 1)) with 256 in Rn.
  pose proof (LEN_bounds n) as [Ln _].
  destruct (rd_Some 1 r (e + 1)) as [ix Ei]; [lia..|].
  destruct (rd_Some 2 r (e + 2)) as [vo Eo]; [lia..|].
  destruct (rd_Some 4 r (e + 4)) as [iu Eu]; [lia..|].
  destruct (rd_Some 4 r (e + 8)) as [sz Es]; [lia..|].
  destruct (rd_Some 4 r (e + 12)) as [ha Eh]; [lia..|].
  assert (is_Some (bytes_at r (e + 16) n)) as [nm Enm].
  { apply bytes_at_is_Some. unfold buf_end in *. lia. }
  pose proof (bytes_at_length _ _ _ _ Enm) as Lnm.
  exists (XEntry e ix nm vo iu sz ha). unfold read_entry, E_NAME_LEN, E_NAME_INDEX, E_VALUE_OFFS, E_VALUE_INUM,
    E_VALUE_SIZE, E_HASH, E_NAME, x_next. cbn [x_pos x_name x_index x_offs x_inum x_size x_hash].
  rewrite En. cbn [mbind option_bind]. rewrite Ei, Eo, Eu, Es, Eh. cbn. rewrite Enm. cbn. rewrite Lnm.
  split_and!; try done; lia.
Qed.

(** The first check loop ends, with an error or with a well-ended list. *)
Lemma check_names_chain fuel e :
  0 ≤ e → e mod 4 = 0 → e + 4 ≤ buf_end r → buf_end r - e < Z.of_nat fuel →
  (∃ err, check_names fuel r e = Some (inl err) ∧ err < 0) ∨
  ∃ es e_end, check_names fuel r e = Some (inr e_end) ∧ chain r e es e_end ∧
    Z.of_nat (length es) < Z.of_nat fuel ∧ e ≤ e_end ∧ e_end + 4 ≤ buf_end r.
Proof.
  revert e. induction fuel as [|fuel IH]; intros e He Ha Hl Hf; [lia|].
  cbn [check_names]. destruct (last_read e He Hl) as [[] E]; rewrite E; cbn [mbind option_bind].
  { right. exists [], e. split_and!; try done; by constructor. }
  destruct (rd_Some 1 r (e + E_NAME_LEN)) as [n En]; [unfold E_NAME_LEN; lia..|].
  assert (EXT4_XATTR_NEXT r e = Some (e + EXT4_XATTR_LEN n)) as Enx.
  { unfold EXT4_XATTR_NEXT. by rewrite En. }
  rewrite Enx. cbn [mbind option_bind]. destruct (Z.leb_spec (buf_end r) (e + EXT4_XATTR_LEN n)).
  { left. exists (- EFSCORRUPTED). done. }
  destruct (entry_reads e _ He Enx) as (x & Ex & _ & Xn & Xl & _ & _ & _ & _ & _ & Xb & Xb2 & _); [done|].
  rewrite Xl. cbn [mbind option_bind]. rewrite Xb. cbn [mbind option_bind].
  destruct (Z.eqb_spec (strnlen (x_name x)) (Z.of_nat (length (x_name x)))) as [Hz|]; cbn [negb];
    [|left; by exists (- EFSCORRUPTED)].
  rewrite <-Xn in *. pose proof (LEN_bounds n) as [_ L4].
  destruct (IH (x_next x)) as [(err & -> & ?)|(es & e_end & -> & Hc & Hlen & ? & ?)].
  - lia.
  - rewrite Xn. clear -Ha L4. dlia.
  - pose proof (bo_words _ Hr). assert (x_next x mod 4 = 0) by (rewrite Xn; clear -Ha L4; dlia).
    clear -H H0 H1. dlia.
  - lia.
  - left. by exists err.
  - right. exists (x :: es), e_end. split_and!; try done; [by econstructor|cbn [length]; lia..].
Qed.

Lemma read_entry_Some e x : read_entry r e = Some x →
  x_pos x = e ∧ rd8 r (e + E_NAME_LEN) = Some (Z.of_nat (length (x_name x))) ∧
  rd8 r (e + E_NAME_INDEX) = Some (x_index x) ∧
  rd16 r (e + E_VALUE_OFFS) = Some (x_offs x) ∧ rd32 r (e + E_VALUE_INUM) = Some (x_inum x) ∧
  rd32 r (e + E_VALUE_SIZE) = Some (x_size x) ∧ rd32 r (e + E_HASH) = Some (x_hash x) ∧
  bytes_at r (e + E_NAME) (Z.of_nat (length (x_name x))) = Some (x_name x) ∧
  EXT4_XATTR_NEXT r e = Some (x_next x).
Proof.
  unfold read_entry, EXT4_XATTR_NEXT, x_next.
  destruct (rd8 r (e + E_NAME_LEN)) as [n|] eqn:En; [|done]. cbn [mbind option_bind].
  destruct (rd8 r (e + E_NAME_INDEX)) as [ix|]; [|done]. cbn [mbind option_bind].
  destruct (rd16 r (e + E_VALUE_OFFS)) as [vo|]; [|done]. cbn [mbind option_bind].
  destruct (rd32 r (e + E_VALUE_INUM)) as [iu|]; [|done]. cbn [mbind option_bind].
  destruct (rd32 r (e + E_VALUE_SIZE)) as [sz|]; [|done]. cbn [mbind option_bind].
  destruct (rd32 r (e + E_HASH)) as [ha|]; [|done]. cbn [mbind option_bind].
  destruct (bytes_at r (e + E_NAME) n) as [nm|] eqn:Eb; [|done]. cbn [mbind option_bind].
  intros [= <-]. cbn [x_pos x_name x_index x_offs x_inum x_size x_hash].
  rewrite (bytes_at_length _ _ _ _ Eb). by split_and!.
Qed.

Lemma x_next_pos x : x_pos x + 16 ≤ x_next x.
Proof. unfold x_next. pose proof (LEN_bounds (Z.of_nat (length (x_name x)))). lia. Qed.

(** The executable reading of a well-ended list. *)
Lemma chain_entries_from e es e_end fuel :
  chain r e es e_end → (length es < fuel)%nat → entries_from fuel r e = es.
Proof.
  intros H. revert fuel. induction H as [e El|e x es e_end El Ex Hn Hz H IH]; intros fuel Hf.
  - destruct fuel; [done|]. cbn [entries_from]. by rewrite El.
  - destruct fuel; [cbn in Hf; lia|]. cbn [entries_from]. rewrite El, Ex. f_equal. apply IH. cbn in Hf. lia.
Qed.

(** The values of a well-ended list: within the buffer, behind the names. *)
Definition value_ok (vs e_end : Z) (x : xentry) : Prop :=
  x_size x ≤ EXT4_XATTR_SIZE_MAX ∧
  (x_size x ≠ 0 → x_inum x = 0 → e_end + 4 ≤ vs + x_offs x ∧ vs + x_offs x + x_size x ≤ buf_end r).

Lemma check_values_chain e es e_end vs e0 fuel :
  chain r e es e_end → (length es < fuel)%nat →
  ∃ z, check_values fuel r vs e0 e = Some z ∧ z ≤ 0 ∧ (z = 0 → Forall (value_ok vs e0) es).
Proof.
  intros H. revert fuel. induction H as [e El|e x es e_end El Ex Hn Hz H IH]; intros fuel Hf;
    (destruct fuel as [|fuel]; [lia|]); cbn [check_values]; rewrite El; cbn [mbind option_bind].
  { exists 0. split; [done|]. split; [lia|done]. }
  destruct (read_entry_Some e x Ex) as (_ & _ & _ & Eo & Ei & Es & _ & _ & En).
  rewrite Es. cbn [mbind option_bind]. rewrite Ei. cbn [mbind option_bind]. rewrite Eo.
  cbn [mbind option_bind]. rewrite En. cbn [mbind option_bind].
  destruct (IH fuel) as (z & Ez & Hzn & Hz0); [cbn [length] in Hf; lia|].
  assert (- EFSCORRUPTED ≤ 0) as Hne by done.
  destruct (Z.ltb_spec EXT4_XATTR_SIZE_MAX (x_size x)); [by exists (- EFSCORRUPTED)|].
  destruct (Z.eqb_spec (x_size x) 0) as [Hsz|Hsz], (Z.eqb_spec (x_inum x) 0) as [Hin|Hin]; cbn [negb andb];
    try (exists z; split; [done|]; split; [done|]; intros Hc; constructor; [by split|by apply Hz0]).
  destruct (Z.ltb_spec (buf_end r - vs) (x_offs x)); [by exists (- EFSCORRUPTED)|].
  destruct (Z.ltb_spec (vs + x_offs x) (e0 + 4)); [by exists (- EFSCORRUPTED)|].
  destruct (Z.ltb_spec (buf_end r - (vs + x_offs x)) (x_size x)); [by exists (- EFSCORRUPTED)|].
  destruct (_ <? EXT4_XATTR_SIZE 32 _); cbn [orb]; [by exists (- EFSCORRUPTED)|].
  exists z. split; [done|]. split; [done|]. intros Hc. constructor; [|by apply Hz0]. split; [done|]. intros _ _. lia.
Qed.

(** Every check of a buffer gives an answer; what passes is well-ended. *)
Lemma check_entries_ok e vs :
  0 ≤ e → e mod 4 = 0 → e + 4 ≤ buf_end r →
  ∃ z, ext4_xattr_check_entries r e vs = Some z ∧ z ≤ 0 ∧
    (z = 0 → ∃ es e_end, chain r e es e_end ∧ entries r e = es ∧ (length es < fuel_of r)%nat ∧
       e ≤ e_end ∧ Forall (value_ok vs e_end) es).
Proof.
  intros He Ha Hl. unfold ext4_xattr_check_entries.
  assert (buf_end r - e < Z.of_nat (fuel_of r)) as Hf by (unfold buf_end, fuel_of in *; lia).
  destruct (check_names_chain _ e He Ha Hl Hf) as [(err & -> & ?)|(es & e_end & -> & Hc & Hlen & ? & ?)];
    cbn [mbind option_bind];
    [exists err; split_and!; [done|lia|lia]|].
  destruct (check_values_chain e es e_end vs e_end (fuel_of r) Hc) as (z & Ez & Hzn & Hz); [lia|].
  exists z. split; [done|]. split; [done|]. intros Hz0. exists es, e_end. split_and!; try done; [|lia|by apply Hz].
  eapply chain_entries_from; [done|lia].
Qed.

(** ** Finding *)

Definition is_key (idx : Z) (name : bytes) (x : xentry) : bool := (x_index x =? idx) && str_eq (x_name x) name.

Fixpoint find_x (idx : Z) (name : bytes) (es : list xentry) : option xentry :=
  match es with
  | [] => None
  | x :: es => if is_key idx name x then Some x else find_x idx name es
  end.

Lemma find_x_None idx name es : (∀ x, x ∈ es → is_key idx name x = false) → find_x idx name es = None.
Proof.
  induction es as [|x es IH]; intros H; [done|]. cbn [find_x]. rewrite H by left.
  apply IH. intros. apply H. by right.
Qed.

(** The comparison that the code makes, on an entry that was read. *)
Definition x_cmp (idx : Z) (name : bytes) (x : xentry) : Z :=
  if negb (idx - x_index x =? 0) then idx - x_index x
  else if negb (Z.of_nat (length name) - Z.of_nat (length (x_name x)) =? 0)
       then Z.of_nat (length name) - Z.of_nat (length (x_name x))
       else memcmp name (x_name x).

Lemma memcmp_eq a b : length a = length b → memcmp a b = 0 ↔ a = b.
Proof.
  revert b. induction a as [|x a IH]; intros [|y b] Hl; try done. cbn in Hl. cbn [memcmp].
  destruct (Z.eqb_spec x y) as [->|]; [rewrite IH by lia; split; [by intros ->|by intros [=]]|].
  split; [lia|congruence].
Qed.

Lemma x_cmp_eq idx name x : x_cmp idx name x = 0 ↔ is_key idx name x = true.
Proof.
  unfold x_cmp, is_key. rewrite andb_true_iff, str_eq_spec, Z.eqb_eq.
  destruct (Z.eqb_spec (idx - x_index x) 0) as [H|H]; cbn [negb]; [|split; [lia|intros [? ?]; lia]].
  destruct (Z.eqb_spec (Z.of_nat (length name) - Z.of_nat (length (x_name x))) 0) as [H1|H1]; cbn [negb].
  - rewrite memcmp_eq by lia. split; [intros ->; split; [lia|done]|by intros [_ ->]].
  - split; [lia|intros [_ <-]; lia].
Qed.

Lemma entry_cmp_eq e x idx name : read_entry r e = Some x →
  entry_cmp r e idx name = Some (x_cmp idx name x).
Proof.
  intros Ex. destruct (read_entry_Some e x Ex) as (_ & El & Ei & _ & _ & _ & _ & Eb & _).
  unfold entry_cmp, x_cmp. rewrite Ei. cbn [mbind option_bind]. rewrite El. cbn [mbind option_bind].
  destruct (Z.eqb_spec (idx - x_index x) 0) as [H|H]; cbn [negb].
  - destruct (Z.eqb_spec (Z.of_nat (length name) - Z.of_nat (length (x_name x))) 0) as [H1|H1]; cbn [negb]; [|done].
    replace (Z.of_nat (length name)) with (Z.of_nat (length (x_name x))) by lia. by rewrite Eb.
  - by rewrite (proj2 (Z.eqb_neq _ 0)).
Qed.

(** Entries in the order of the attribute block. *)
Definition x_before (x y : xentry) : Prop := 0 < x_cmp (x_index y) (x_name y) x.

Lemma find_loop_chain e es e_end fuel cmp idx name sorted :
  chain r e es e_end → (length es < fuel)%nat → cmp ≠ 0 →
  ∃ code pos, find_loop fuel r e cmp idx name sorted = Some (code, pos) ∧
    ((code = 0 ∧ ∃ x, x ∈ es ∧ pos = x_pos x ∧ find_x idx name es = Some x) ∨
     (code = - ENODATA ∧ (sorted = false ∨ StronglySorted x_before es → find_x idx name es = None))).
Proof.
  intros H. revert fuel cmp. induction H as [e El|e x es e_end El Ex Hn Hz H IH]; intros fuel cmp Hf Hc;
    (destruct fuel as [|fuel]; [lia|]); cbn [find_loop]; rewrite El; cbn [mbind option_bind].
  { rewrite (proj2 (Z.eqb_neq cmp 0) Hc). exists (- ENODATA), e. split; [done|]. right. done. }
  destruct (read_entry_Some e x Ex) as (Ep & _ & _ & _ & _ & _ & _ & _ & En).
  rewrite En. cbn [mbind option_bind]. rewrite (proj2 (Z.leb_gt _ _) Hn).
  rewrite (entry_cmp_eq e x idx name Ex). cbn [mbind option_bind].
  destruct (Z.eqb_spec (x_cmp idx name x) 0) as [Hx|Hx].
  { rewrite Hx. rewrite orb_true_r. cbn [Z.leb Z.compare andb negb]. exists 0, e. split; [done|]. left.
    split; [done|]. exists x. split; [left|]. split; [done|]. cbn [find_x]. by rewrite (proj1 (x_cmp_eq _ _ _) Hx). }
  rewrite orb_false_r. cbn [negb].
  assert (find_x idx name (x :: es) = find_x idx name es) as Ef.
  { cbn [find_x]. destruct (is_key idx name x) eqn:Ek; [|done]. apply x_cmp_eq in Ek. lia. }
  destruct ((x_cmp idx name x <=? 0) && sorted) eqn:Eb.
  - exists (- ENODATA), e. split; [done|]. right. split; [done|]. intros [->|Hs].
    { by rewrite andb_false_r in Eb. }
    rewrite Ef. inversion Hs as [|? ? Hs' Hall]; subst. apply find_x_None. intros y Hy.
    destruct (is_key idx name y) eqn:Hk; [|done].
    rewrite Forall_forall in Hall. specialize (Hall y Hy). unfold x_before in Hall.
    unfold is_key in Hk. apply andb_true_iff in Hk as [Hk1%Z.eqb_eq Hk2%str_eq_spec]. rewrite Hk1, Hk2 in Hall.
    to_prop. lia.
  - destruct (IH fuel (x_cmp idx name x)) as (code & pos & E & Hr'); [cbn [length] in Hf; lia|done|].
    exists code, pos. split; [done|]. rewrite Ef. destruct Hr' as [(-> & y & Hy & ?)|(-> & Hs)].
    + left. split; [done|]. exists y. split; [by right|done].
    + right. split; [done|]. intros [?|Hs']; apply Hs; [by left|right]. by inversion Hs'.
Qed.

Lemma chain_in e es e_end x : chain r e es e_end → 0 ≤ e → x ∈ es →
  read_entry r (x_pos x) = Some x ∧ 0 ≤ x_pos x ∧ x_next x < buf_end r.
Proof.
  intros H He. revert He. induction H as [e El|e y es e_end El Ex Hn Hz H IH]; intros He Hx.
  - by apply not_elem_of_nil in Hx.
  - destruct (read_entry_Some e y Ex) as (Ep & _). pose proof (x_next_pos y).
    apply elem_of_cons in Hx as [->|Hx]; [by rewrite Ep|]. apply IH; [lia|done].
Qed.

Lemma find_x_in idx name es x : find_x idx name es = Some x → x ∈ es.
Proof.
  induction es as [|y es IH]; [done|]. cbn [find_x]. destruct (is_key _ _ _).
  - intros [= <-]. left.
  - intros H. right. by apply IH.
Qed.

(** ** The value of an entry *)

Definition value_of (base : Z) (x : xentry) : bytes := default [] (bytes_at r (base + x_offs x) (x_size x)).

Definition io_ok (o : io) : Prop := ∀ num hash size v, io_ea_inode o num hash size = inr v →
  Z.of_nat (length v) = size.

Lemma entry_ranges x e : read_entry r e = Some x → 0 ≤ x_offs x ∧ 0 ≤ x_size x < 2 ^ 32.
Proof.
  intros Ex. destruct (read_entry_Some e x Ex) as (_ & _ & _ & Eo & _ & Es & _).
  pose proof (rd_range _ _ _ _ (bo_bytes _ Hr) Eo). pose proof (rd_range _ _ _ _ (bo_bytes _ Hr) Es).
  change (8 * Z.of_nat 4) with 32 in *. lia.
Qed.

Lemma put_at_0_length b v : Z.of_nat (length v) ≤ buf_end b →
  ∃ b', put_at b 0 v = Some b' ∧ length b' = length b.
Proof.
  intros H. rewrite put_at_0 by done. eexists. split; [done|].
  rewrite length_app, length_drop. unfold buf_end in *. lia.
Qed.

Lemma get_value_total o base x buffer :
  io_ok o → 0 ≤ base → read_entry r (x_pos x) = Some x →
  ∃ ret buffer', get_value o r base (x_pos x) buffer = Some (ret, buffer') ∧
    length <$> buffer' = length <$> buffer.
Proof.
  intros Ho Hb Ex. destruct (read_entry_Some _ x Ex) as (_ & _ & _ & Eo & Ei & Es & Eh & _).
  destruct (entry_ranges _ _ Ex) as [Hof Hsz].
  unfold get_value. rewrite Es. cbn [mbind option_bind].
  destruct (_ <? x_size x); [by eexists _, _|]. destruct buffer as [b|]; [|by eexists _, _].
  destruct (Z.ltb_spec (buf_end b) (x_size x)) as [|Hfit]; [by eexists _, _|].
  rewrite Ei. cbn [mbind option_bind]. destruct (x_inum x =? 0); cbn [negb].
  - rewrite Eo. cbn [mbind option_bind]. destruct (Z.ltb_spec (buf_end r) (base + x_offs x + x_size x)); [by eexists _, _|].
    assert (is_Some (bytes_at r (base + x_offs x) (x_size x))) as [v Ev].
    { apply bytes_at_is_Some. unfold buf_end in *. lia. }
    rewrite Ev. cbn [mbind option_bind]. destruct (put_at_0_length b v) as (b' & -> & Hb').
    { by rewrite (bytes_at_length _ _ _ _ Ev). }
    cbn [mbind option_bind]. eexists _, _. split; [done|]. cbn. by rewrite Hb'.
  - rewrite Eh. cbn [mbind option_bind]. destruct (io_ea_inode o _ _ _) as [err|v] eqn:Ev; [by eexists _, _|].
    destruct (put_at_0_length b v) as (b' & -> & Hb'); [by rewrite (Ho _ _ _ _ Ev)|].
    cbn [mbind option_bind]. eexists _, _. split; [done|]. cbn. by rewrite Hb'.
Qed.

(** An entry whose value is in the buffer. *)
Definition plain (base : Z) (x : xentry) : Prop :=
  x_inum x = 0 ∧ base + x_offs x + x_size x ≤ buf_end r.

Lemma get_value_plain o base x buffer :
  0 ≤ base → read_entry r (x_pos x) = Some x → plain base x → x_size x ≤ EXT4_XATTR_SIZE_MAX →
  get_value o r base (x_pos x) buffer = Some (get_answer (Some (value_of base x)) buffer).
Proof.
  intros Hb Ex [Hin Hfit] Hmax. destruct (read_entry_Some _ x Ex) as (_ & _ & _ & Eo & Ei & Es & _).
  destruct (entry_ranges _ _ Ex) as [Hof Hsz].
  assert (is_Some (bytes_at r (base + x_offs x) (x_size x))) as [v Ev].
  { apply bytes_at_is_Some. unfold buf_end in *. lia. }
  unfold get_value, value_of, get_answer. rewrite Ev, Es. cbn [mbind option_bind default]. unfold id.
  rewrite (bytes_at_length _ _ _ _ Ev), (proj2 (Z.ltb_ge _ (x_size x))) by done.
  destruct buffer as [b|]; [|done]. change (Z.of_nat (length b)) with (buf_end b).
  destruct (Z.ltb_spec (buf_end b) (x_size x)); [done|].
  rewrite Ei, Hin. cbn [mbind option_bind Z.eqb negb]. rewrite Eo. cbn [mbind option_bind].
  rewrite (proj2 (Z.ltb_ge _ _)), Ev by done. cbn [mbind option_bind].
  rewrite put_at_0; [done|]. rewrite (bytes_at_length _ _ _ _ Ev). done.
Qed.

(** ** Listing *)

Definition x_line (l : list_env) (x : xentry) : bytes :=
  match ext4_xattr_handler l (x_index x) with
  | Some h => if default true (lh_list h) then lh_prefix h ++ x_name x ++ [0] else []
  | None => []
  end.

Definition lines (l : list_env) (es : list xentry) : bytes := es ≫= x_line l.

Lemma prefix_short l ix h : ext4_xattr_handler l ix = Some h → (length (lh_prefix h) ≤ 24)%nat.
Proof.
  unfold ext4_xattr_handler, ext4_xattr_handler_map.
  destruct (_ && _); [|done].
  repeat (destruct (ix =? _); [destruct l as [? ? ? [] []]; try done; intros [= <-]; vm_compute; lia|]).
  done.
Qed.

(** What a loop over the rest of the entries leaves in the caller's buffer. *)
Definition list_answer (l : list_env) (es : list xentry) (bs rest : Z) (written : bytes)
    (buffer : option bytes) (res : Z * option bytes) : Prop :=
  let n := Z.of_nat (length (lines l es)) in
  match buffer with
  | None => res = (s32 (u64 (bs - rest + n)), None)
  | Some b =>
      if n <=? Z.of_nat (length b)
      then res = (s32 (u64 (bs - rest + n)), Some (written ++ lines l es ++ drop (length (lines l es)) b))
      else res.1 = - ERANGE ∧ ∃ b', res.2 = Some b' ∧ length b' = (length written + length b)%nat
  end.

Lemma u64_sub a b c n : u64 (a - u64 (b - c) + n) = u64 (a - b + (c + n)).
Proof.
  unfold wrapU. replace (a - (b - c) mod 2 ^ 64 + n) with (a + n - (b - c) mod 2 ^ 64) by lia.
  rewrite Zminus_mod_idemp_r. f_equal. lia.
Qed.

Lemma list_loop_chain l e es e_end bs fuel written buffer rest :
  chain r e es e_end → (length es < fuel)%nat →
  0 ≤ rest < 2 ^ 64 → (∀ b, buffer = Some b → rest = buf_end b) →
  ∃ res, list_loop fuel l r e bs written buffer rest = Some res ∧ list_answer l es bs rest written buffer res.
Proof.
  intros H. revert fuel written buffer rest.
  induction H as [e El|e x es e_end El Ex Hn Hz H IH]; intros fuel written buffer rest Hf Hrest Hb;
    (destruct fuel as [|fuel]; [lia|]); cbn [list_loop]; rewrite El; cbn [mbind option_bind].
  { eexists. split; [done|]. unfold list_answer. cbn [lines mbind list_bind length]. rewrite Z.add_0_r.
    destruct buffer as [b|]; [|done]. rewrite (proj2 (Z.leb_le _ _)) by lia. done. }
  destruct (read_entry_Some e x Ex) as (_ & En & Ei & _ & _ & _ & _ & Eb & Enx).
  rewrite Enx. cbn [mbind option_bind]. rewrite Ei. cbn [mbind option_bind].
  assert (lines l (x :: es) = x_line l x ++ lines l es) as Elines by done.
  cbn [length] in Hf. unfold list_answer. rewrite Elines. unfold x_line.
  destruct (ext4_xattr_handler l (x_index x)) as [[p lst]|] eqn:Eh; cbn [lh_list lh_prefix];
    [|apply IH; [lia|done|done]].
  destruct (default true lst); [|apply IH; [lia|done|done]].
  rewrite En. cbn [mbind option_bind].
  set (size := Z.of_nat (length p) + Z.of_nat (length (x_name x)) + 1).
  assert (Z.of_nat (length (p ++ x_name x ++ [0])) = size) as Hsize by (rewrite !length_app; cbn [length]; lia).
  destruct buffer as [b|]; cycle 1.
  { destruct (IH fuel written None (u64 (rest - size))) as (res & E & Hans); [lia|by apply wrapU_range|done|].
    exists res. split; [done|]. unfold list_answer in Hans. rewrite Hans, u64_sub.
    rewrite length_app, Nat2Z.inj_add, Hsize. done. }
  specialize (Hb b eq_refl). unfold buf_end in Hb.
  destruct (Z.ltb_spec rest size) as [Hlt|Hge].
  { eexists. split; [done|]. rewrite (proj2 (Z.leb_gt _ _)) by (rewrite length_app; lia).
    split; [done|]. eexists. split; [done|]. by rewrite length_app. }
  rewrite Eb. cbn [mbind option_bind]. rewrite (proj2 (Z.ltb_ge _ _)) by (unfold buf_end; lia).
  assert (0 ≤ size) by lia.
  rewrite (wrapU_small 64 (rest - size)) by (unfold is_u; lia).
  destruct (IH fuel (written ++ p ++ x_name x ++ [0]) (Some (drop (Z.to_nat size) b)) (rest - size))
    as (res & E & Hans); [lia|lia|intros ? [= <-]; unfold buf_end; rewrite length_drop; lia|].
  exists res. split; [done|]. unfold list_answer in Hans. rewrite length_drop in Hans.
  set (s := p ++ x_name x ++ [0]) in *. rewrite length_app.
  assert ((Z.of_nat (length (lines l es)) <=? Z.of_nat (length b - Z.to_nat size)) =
          (Z.of_nat (length s + length (lines l es)) <=? Z.of_nat (length b))) as Ele.
  { destruct (Z.leb_spec (Z.of_nat (length s + length (lines l es))) (Z.of_nat (length b)));
      [apply Z.leb_le|apply Z.leb_gt]; lia. }
  rewrite Ele in Hans. destruct (_ <=? _).
  - rewrite Hans. f_equal; [do 2 f_equal; lia|]. f_equal. rewrite <-!app_assoc. do 3 f_equal.
    rewrite drop_drop. f_equal. lia.
  - destruct Hans as (H1 & b' & H2 & H3). split; [done|]. exists b'. split; [done|].
    rewrite length_app in H3. lia.
Qed.

Lemma lines_short l es e e_end : chain r e es e_end → (length es < fuel_of r)%nat →
  Z.of_nat (length (lines l es)) < 2 ^ 31.
Proof.
  intros H Hf. assert (Z.of_nat (length (lines l es)) ≤ 280 * Z.of_nat (length es)) as Hb.
  { clear Hf. induction H as [e El|e x es e_end El Ex Hn Hz H IH]; [done|].
    change (lines l (x :: es)) with (x_line l x ++ lines l es). rewrite length_app. cbn [length].
    assert (Z.of_nat (length (x_line l x)) ≤ 280); [|lia].
    destruct (read_entry_Some e x Ex) as (_ & En & _).
    pose proof (rd_range _ _ _ _ (bo_bytes _ Hr) En) as Rn. change (2 ^ (8 * Z.of_nat 1)) with 256 in Rn.
    unfold x_line. destruct (ext4_xattr_handler l (x_index x)) as [h|] eqn:Eh; [|cbn; lia].
    pose proof (prefix_short _ _ _ Eh). destruct (default true _); [|cbn; lia].
    rewrite !length_app. cbn [length]. lia. }
  pose proof (bo_size _ Hr). unfold fuel_of, buf_end in *. lia.
Qed.

End region.

(** ** The inode *)

Definition inode_entries (i : ext4_inode) : list xentry :=
  if state_xattr i then entries (raw_inode i) (IFIRST i) else [].

Definition block_entries (i : ext4_inode) : list xentry :=
  match i_file_acl i with Some b => entries (b_data b) BFIRST | None => [] end.

(** What the rest of the kernel guarantees of an inode in memory: its place for
    attributes begins inside it, and a block marked as verified was checked.
    Nothing is said about what the disk holds. *)
Record inode_ok (i : ext4_inode) : Prop := {
  io_raw : buffer_ok (raw_inode i);
  io_extra : 0 ≤ i_extra_isize i ∧ i_extra_isize i mod 4 = 0;
  io_room : IFIRST i ≤ buf_end (raw_inode i);
  io_block : ∀ b, i_file_acl i = Some b → buffer_ok (b_data b) ∧ BFIRST + 4 ≤ buf_end (b_data b) ∧
    (b_verified b = true → ext4_xattr_check_entries (b_data b) BFIRST 0 = Some 0) }.

(** The bytes of the inode and of its block are the same. *)
Definition same_bytes (i i' : ext4_inode) : Prop :=
  raw_inode i' = raw_inode i ∧ i_extra_isize i' = i_extra_isize i ∧ state_xattr i' = state_xattr i ∧
  b_data <$> i_file_acl i' = b_data <$> i_file_acl i.

(** A buffer that passed the check. *)
Definition checked (r : bytes) (first base : Z) : Prop :=
  ∃ e_end, chain r first (entries r first) e_end ∧ (length (entries r first) < fuel_of r)%nat ∧
    Forall (value_ok r base e_end) (entries r first).

Lemma check_inode_answer i : inode_ok i →
  ∃ z, xattr_check_inode i = Some z ∧ z ≤ 0 ∧ (z = 0 → checked (raw_inode i) (IFIRST i) (IFIRST i)).
Proof.
  intros [Hr [He1 He2] Hroom _]. unfold xattr_check_inode.
  unfold IFIRST, IHDR, EXT4_GOOD_OLD_INODE_SIZE, IBODY_HEADER_SIZE in *.
  pose proof (bo_size _ Hr). rewrite wrapU_small by (unfold is_u; lia).
  destruct (Z.ltb_spec (buf_end (raw_inode i) - (128 + i_extra_isize i)) (4 + 4)); [by exists (- EFSCORRUPTED)|].
  destruct (rd_Some 4 (raw_inode i) (128 + i_extra_isize i)) as [mg ->]; [lia..|].
  cbn [mbind option_bind]. destruct (negb _); [by exists (- EFSCORRUPTED)|].
  destruct (check_entries_ok (raw_inode i) Hr (128 + i_extra_isize i + 4) (128 + i_extra_isize i + 4))
    as (z & Ez & Hzn & Hz); [lia|clear -He2; dlia|lia|].
  exists z. split; [done|]. split; [done|]. intros Hz0. destruct (Hz Hz0) as (es & e_end & Hc & <- & Hlen & _ & Hv).
  by exists e_end.
Qed.

Lemma check_block_answer o i b : inode_ok i → i_file_acl i = Some b →
  ∃ z b', ext4_xattr_check_block o b = Some (z, b') ∧ b_data b' = b_data b ∧ b_blocknr b' = b_blocknr b ∧
    inode_ok (set_block (Some b') i) ∧ (z = 0 → checked (b_data b) BFIRST 0).
Proof.
  intros Hi Hb. pose proof Hi as [H1 H2 H3 H4]. destruct (H4 _ Hb) as (Hr & Hl & Hver).
  assert (∀ b', b_data b' = b_data b →
    (b_verified b' = true → ext4_xattr_check_entries (b_data b) BFIRST 0 = Some 0) →
    inode_ok (set_block (Some b') i)) as Hset.
  { intros b' Ed Hv. split; try done. cbn. intros ? [= <-]. by rewrite Ed. }
  destruct (check_entries_ok (b_data b) Hr BFIRST 0) as (z & Ez & _ & Hz); [done|done|done|].
  assert (z = 0 → checked (b_data b) BFIRST 0) as Hz'.
  { intros Hz0. destruct (Hz Hz0) as (es & e_end & Hc & <- & Hlen & _ & Hv). by exists e_end. }
  unfold BFIRST, HEADER_SIZE in Hl. unfold ext4_xattr_check_block.
  destruct (rd_Some 4 (b_data b) H_MAGIC) as [mg ->]; [unfold H_MAGIC; lia..|]. cbn [mbind option_bind].
  destruct (rd_Some 4 (b_data b) H_BLOCKS) as [nb ->]; [unfold H_BLOCKS; lia..|]. cbn [mbind option_bind].
  destruct (negb _ || _); [exists (- EFSCORRUPTED), b; split_and!; try done; by apply Hset|].
  destruct (b_verified b) eqn:Ev.
  { exists 0, b. split_and!; try done; [apply Hset; [done|intros _; by apply Hver]|].
    intros _. apply Hz'. rewrite Hver in Ez by done. congruence. }
  assert (∃ c, ext4_xattr_block_csum_verify o b = Some c) as [c ->].
  { unfold ext4_xattr_block_csum_verify. destruct (io_metadata_csum o); [|by eexists].
    destruct (rd_Some 4 (b_data b) H_CHECKSUM) as [cs ->]; [unfold H_CHECKSUM; lia..|]. by eexists. }
  cbn [mbind option_bind]. destruct c; cbn [negb].
  2:{ exists (- EFSBADCRC), b. split_and!; try done. apply Hset; [done|]. by rewrite Ev. }
  rewrite Ez. cbn [mbind option_bind]. exists z.
  destruct (Z.eqb_spec z 0) as [->|Hne]; eexists; (split; [done|]); cbn [b_data b_blocknr];
    split_and!; try done; apply Hset; try done. by rewrite Ev.
Qed.

(** Looking for a name in a checked buffer. *)
Lemma find_checked r first base idx name sorted :
  buffer_ok r → 0 ≤ first → checked r first base →
  ∃ code pos, xattr_find_entry r first idx (Some name) sorted = Some (code, pos) ∧
    ((code = 0 ∧ ∃ x, x ∈ entries r first ∧ pos = x_pos x ∧ read_entry r (x_pos x) = Some x ∧
        x_size x ≤ EXT4_XATTR_SIZE_MAX ∧ find_x idx name (entries r first) = Some x) ∨
     (code = - ENODATA ∧ (sorted = false ∨ StronglySorted x_before (entries r first) →
        find_x idx name (entries r first) = None))).
Proof.
  intros Hr Hf (e_end & Hc & Hlen & Hv). unfold xattr_find_entry.
  destruct (find_loop_chain r first _ e_end (fuel_of r) 1 idx name sorted Hc Hlen)
    as (code & pos & E & [(-> & x & Hx & -> & Hfx)|Hno]); [done| |].
  - exists 0, (x_pos x). split; [done|]. left. split; [done|]. exists x.
    destruct (chain_in r first _ e_end x Hc Hf Hx) as (Hrd & _ & _).
    rewrite Forall_forall in Hv. destruct (Hv x Hx) as [Hs _]. done.
  - exists code, pos. split; [done|]. by right.
Qed.

Record well_formed (o : io) (i : ext4_inode) : Prop := {
  wf_inode : state_xattr i = true → xattr_check_inode i = Some 0 ∧
    Forall (plain (raw_inode i) (IFIRST i)) (inode_entries i);
  wf_block : ∀ b, i_file_acl i = Some b → (∃ b', ext4_xattr_check_block o b = Some (0, b')) ∧
    Forall (plain (b_data b) 0) (block_entries i) ∧ StronglySorted x_before (block_entries i) }.

(** The value of an attribute: the inode comes before the block. *)
Definition ext4_attr (i : ext4_inode) (idx : Z) (name : bytes) : option bytes :=
  match find_x idx name (inode_entries i) with
  | Some x => Some (value_of (raw_inode i) (IFIRST i) x)
  | None =>
      match i_file_acl i with
      | None => None
      | Some b => value_of (b_data b) 0 <$> find_x idx name (block_entries i)
      end
  end.

Lemma IFIRST_nonneg i : inode_ok i → 0 ≤ IFIRST i.
Proof. intros [_ [H _] _ _]. unfold IFIRST, IHDR, EXT4_GOOD_OLD_INODE_SIZE, IBODY_HEADER_SIZE. lia. Qed.

Lemma ibody_get_answer o i idx name buffer : io_ok o → inode_ok i →
  (∃ ret buffer', ext4_xattr_ibody_get o i idx (Some name) buffer = Some (ret, buffer') ∧
     length <$> buffer' = length <$> buffer) ∧
  (io_inode_loc o = 0 → well_formed o i →
     ext4_xattr_ibody_get o i idx (Some name) buffer =
       Some (get_answer (value_of (raw_inode i) (IFIRST i) <$> find_x idx name (inode_entries i)) buffer)).
Proof.
  intros Ho Hi. unfold ext4_xattr_ibody_get, inode_entries.
  destruct (state_xattr i) eqn:Hst; cbn [negb]; [|split; [by eexists _, _|done]].
  destruct (check_inode_answer i Hi) as (z & Ez & Hzn & Hz). pose proof (IFIRST_nonneg i Hi) as Hf.
  rewrite Ez. cbn [mbind option_bind]. split.
  - destruct (negb (io_inode_loc o =? 0)); [by eexists _, _|].
    destruct (Z.eqb_spec z 0) as [Hz0|]; cbn [negb]; [|by eexists _, _].
    destruct (find_checked _ _ _ idx name false (io_raw _ Hi) Hf (Hz Hz0))
      as (code & pos & -> & [(-> & x & _ & -> & Hx & _)|(-> & _)]); cbn [mbind option_bind Z.eqb negb];
      [|by eexists _, _].
    apply (get_value_total _ (io_raw _ Hi)); done.
  - intros -> Hwf. cbn [Z.eqb negb]. destruct (wf_inode _ _ Hwf Hst) as [Ec Hp].
    rewrite Ez in Ec. injection Ec as ->. cbn [Z.eqb negb].
    destruct (find_checked _ _ _ idx name false (io_raw _ Hi) Hf (Hz eq_refl))
      as (code & pos & -> & [(-> & x & Hin & -> & Hx & Hs & ->)|(-> & Hn)]); cbn [mbind option_bind Z.eqb negb].
    + unfold inode_entries in Hp. rewrite Hst, Forall_forall in Hp.
      by rewrite (get_value_plain _ (io_raw _ Hi)) by (done || by apply Hp).
    + rewrite Hn by by left. done.
Qed.

Lemma block_get_answer o i idx name buffer : io_ok o → inode_ok i →
  (∃ ret buffer' i', ext4_xattr_block_get o idx (Some name) buffer i = Some ((ret, buffer'), i') ∧
     length <$> buffer' = length <$> buffer ∧ inode_ok i' ∧ same_bytes i i') ∧
  (io_bread o = 0 → well_formed o i →
   ∃ i', ext4_xattr_block_get o idx (Some name) buffer i =
     Some (get_answer (match i_file_acl i with
                       | None => None
                       | Some b => value_of (b_data b) 0 <$> find_x idx name (block_entries i)
                       end) buffer, i')).
Proof.
  intros Ho Hi. unfold ext4_xattr_block_get, get, put, lift, mbind, st_bind, mret, st_ret.
  destruct (i_file_acl i) as [b|] eqn:Hb; [|split; [by eexists _, _, i|by eexists]].
  destruct (io_block _ Hi _ Hb) as (Hr & _ & _).
  destruct (check_block_answer o i b Hi Hb) as (z & b' & Ec & Ed & _ & Hi' & Hz). rewrite Ec.
  assert (same_bytes i (set_block (Some b') i)) as Hsame.
  { unfold same_bytes, set_block. cbn [raw_inode i_extra_isize state_xattr i_file_acl]. rewrite Hb. cbn. by rewrite Ed. }
  assert (0 ≤ BFIRST) as Hf by done. rewrite Ed. split.
  - destruct (negb (io_bread o =? 0)); [by eexists _, _, i|].
    destruct (Z.eqb_spec z 0) as [Hz0|]; cbn [negb]; [|by eexists _, _, _].
    destruct (find_checked _ _ _ idx name true Hr Hf (Hz Hz0))
      as (code & pos & -> & [(-> & x & _ & -> & Hx & _)|(-> & _)]); cbn [Z.eqb negb]; [|by eexists _, _, _].
    destruct (get_value_total _ Hr o 0 x buffer Ho) as (ret & buffer' & -> & Hl); [done..|].
    by eexists _, _, _.
  - intros -> Hwf. cbn [Z.eqb negb]. destruct (wf_block _ _ Hwf _ Hb) as ((b2 & Ec2) & Hp & Hs).
    rewrite Ec in Ec2. injection Ec2 as -> ->. cbn [Z.eqb negb].
    unfold block_entries in *. rewrite Hb in *.
    destruct (find_checked _ _ _ idx name true Hr Hf (Hz eq_refl))
      as (code & pos & -> & [(-> & x & Hin & -> & Hx & Hsz & ->)|(-> & Hn)]); cbn [Z.eqb negb].
    + rewrite Forall_forall in Hp.
      rewrite (get_value_plain _ Hr) by (done || by apply Hp). by eexists.
    + rewrite Hn by by right. by eexists.
Qed.

Lemma same_bytes_refl i : same_bytes i i.
Proof. done. Qed.

(** A well-formed inode answers with its attribute. *)
Lemma xattr_get_answer o i idx name buffer : io_ok o → inode_ok i →
  io_shutdown o = false → io_inode_loc o = 0 → io_bread o = 0 → well_formed o i → (length name ≤ 255)%nat →
  ∃ i', ext4_xattr_get o idx name buffer i = Some (get_answer (ext4_attr i idx name) buffer, i').
Proof.
  intros Ho Hi Hs Hloc Hbr Hwf Hn. destruct (ibody_get_answer o i idx name buffer Ho Hi) as [_ Hspec].
  unfold ext4_xattr_get, get, lift, mbind, st_bind, mret, st_ret. rewrite Hs, (proj2 (Z.ltb_ge 255 _)) by lia.
  rewrite Hspec by done. unfold ext4_attr.
  destruct (find_x idx name (inode_entries i)) as [x|]; cbn [fmap option_fmap option_map get_answer].
  - exists i. unfold get_answer. destruct buffer as [b|]; [|by rewrite (proj2 (Z.eqb_neq _ (- ENODATA))) by (unfold ENODATA; lia)].
    destruct (_ <? _); [done|]. by rewrite (proj2 (Z.eqb_neq _ (- ENODATA))) by (unfold ENODATA; lia).
  - rewrite Z.eqb_refl. by apply block_get_answer.
Qed.

(** C6: ext4_xattr_get on any disk contents: whatever the bytes of the inode
    and of the attribute block are, it ends, reads and writes nothing outside
    the buffers, and changes no byte of them.  When the contents pass the
    checks, the values are stored inside and the block is sorted, the result is
    the attribute's value: its size for a NULL buffer, the bytes if they fit,
    else ERANGE, and ENODATA when neither the inode nor the block has the name;
    the inode is looked at first. *)
Theorem ext4_xattr_get_spec o i idx name buffer (Ho : io_ok o) (Hi : inode_ok i) :
  (∃ ret buffer' i', ext4_xattr_get o idx name buffer i = Some ((ret, buffer'), i') ∧
     length <$> buffer' = length <$> buffer ∧ inode_ok i' ∧ same_bytes i i') ∧
  (io_shutdown o = false → io_inode_loc o = 0 → io_bread o = 0 → well_formed o i →
   (length name ≤ 255)%nat →
   ∃ i', ext4_xattr_get o idx name buffer i = Some (get_answer (ext4_attr i idx name) buffer, i')).
Proof.
  split.
  - destruct (ibody_get_answer o i idx name buffer Ho Hi) as [(ret & buf & E & Hl) _].
    unfold ext4_xattr_get, get, lift, mbind, st_bind, mret, st_ret.
    destruct (io_shutdown o); [by eexists _, _, i|]. destruct (255 <? _); [by eexists _, _, i|].
    rewrite E. destruct (ret =? - ENODATA); [|by eexists _, _, i].
    destruct (block_get_answer o i idx name buf Ho Hi) as [(ret' & buf' & i' & -> & Hl' & ?) _].
    eexists _, _, i'. split; [done|]. by rewrite Hl', Hl.
  - intros Hs Hloc Hbr Hwf Hn. by apply xattr_get_answer.
Qed.

(** ** Listing the inode and the block *)

(** The answer of a list call that writes [s] to the caller's buffer. *)
Definition listed (s : bytes) (buffer : option bytes) (res : Z * option bytes) : Prop :=
  match buffer with
  | None => res = (Z.of_nat (length s), None)
  | Some b =>
      if Z.of_nat (length s) <=? Z.of_nat (length b)
      then res = (Z.of_nat (length s), Some (s ++ drop (length s) b))
      else res.1 = - ERANGE ∧ ∃ b', res.2 = Some b' ∧ length b' = length b
  end.

Lemma list_entries_checked l r first base buffer size :
  buffer_ok r → 0 ≤ first → checked r first base → 0 ≤ size < 2 ^ 64 →
  (∀ b, buffer = Some b → size = buf_end b) →
  ∃ res, ext4_xattr_list_entries l r first buffer size = Some res ∧
    listed (lines l (entries r first)) buffer res.
Proof.
  intros Hr Hf (e_end & Hc & Hlen & _) Hs Hb. unfold ext4_xattr_list_entries.
  destruct (list_loop_chain r l first _ e_end size (fuel_of r) [] buffer size Hc Hlen Hs Hb)
    as (res & E & Ha). exists res. split; [done|].
  pose proof (lines_short r Hr l _ _ _ Hc Hlen) as Hsh.
  unfold list_answer in Ha. unfold listed. rewrite Z.sub_diag, Z.add_0_l in Ha.
  set (n := length (lines l (entries r first))) in *.
  rewrite (wrapU_small 64) in Ha by (unfold is_u; lia).
  rewrite (wrapS_small 32) in Ha by (unfold is_s; lia). done.
Qed.

Lemma listed_nil buffer : listed [] buffer (0, buffer).
Proof. destruct buffer as [b|]; [|done]. unfold listed. cbn [length]. by rewrite (proj2 (Z.leb_le _ _)) by lia. Qed.

Lemma listed_length s buffer res : listed s buffer res → length <$> res.2 = length <$> buffer.
Proof.
  unfold listed. destruct buffer as [b|]; [|by intros ->].
  destruct (Z.leb_spec (Z.of_nat (length s)) (Z.of_nat (length b))) as [H|H].
  - intros ->. cbn. f_equal. rewrite length_app, length_drop. lia.
  - intros (_ & b' & -> & Hb). cbn. by rewrite Hb.
Qed.

Lemma listed_fits s buffer ret buffer' : listed s buffer (ret, buffer') → 0 ≤ ret →
  ∀ b, buffer = Some b → ret ≤ buf_end b.
Proof.
  unfold listed. intros H Hr b ->. destruct (Z.leb_spec (Z.of_nat (length s)) (Z.of_nat (length b))).
  - injection H as -> _. done.
  - destruct H as [H _]. cbn in H. unfold ERANGE in H. lia.
Qed.

Lemma ibody_list_answer o l i buffer size : inode_ok i → 0 ≤ size < 2 ^ 64 → io_inode_loc o ≤ 0 →
  (∀ b, buffer = Some b → size = buf_end b) →
  (∃ ret buffer', ext4_xattr_ibody_list o l i buffer size = Some (ret, buffer') ∧
     length <$> buffer' = length <$> buffer ∧
     (0 ≤ ret → ∀ b, buffer = Some b → ret ≤ buf_end b)) ∧
  (io_inode_loc o = 0 → well_formed o i →
   ∃ res, ext4_xattr_ibody_list o l i buffer size = Some res ∧ listed (lines l (inode_entries i)) buffer res).
Proof.
  intros Hi Hs Hloc Hb. unfold ext4_xattr_ibody_list, inode_entries.
  destruct (state_xattr i) eqn:Hst; cbn [negb]; cycle 1.
  { split; [exists 0, buffer; split_and!; try done; intros; unfold buf_end; lia|].
    intros _ _. exists (0, buffer). split; [done|apply listed_nil]. }
  destruct (check_inode_answer i Hi) as (z & Ez & Hzn & Hz). pose proof (IFIRST_nonneg i Hi) as Hf.
  rewrite Ez. cbn [mbind option_bind]. split.
  - destruct (Z.eqb_spec (io_inode_loc o) 0) as [|Hne]; cbn [negb].
    2:{ eexists _, _. split; [done|]. split; [done|]. intros. lia. }
    destruct (Z.eqb_spec z 0) as [Hz0|]; cbn [negb].
    2:{ eexists _, _. split; [done|]. split; [done|]. intros. lia. }
    destruct (list_entries_checked l _ _ _ buffer size (io_raw _ Hi) Hf (Hz Hz0) Hs Hb) as ([ret b'] & E & Hres).
    exists ret, b'. split; [done|]. split; [by apply listed_length in Hres|]. by eapply listed_fits.
  - intros -> Hwf. cbn [Z.eqb negb]. destruct (wf_inode _ _ Hwf Hst) as [Ec _].
    rewrite Ez in Ec. injection Ec as ->. cbn [Z.eqb negb].
    by apply (list_entries_checked l _ _ _ buffer size (io_raw _ Hi) Hf (Hz eq_refl)).
Qed.

Lemma block_list_answer o l i buffer size : inode_ok i → 0 ≤ size < 2 ^ 64 →
  (∀ b, buffer = Some b → size = buf_end b) →
  (∃ ret buffer' i', ext4_xattr_block_list o l buffer size i = Some ((ret, buffer'), i') ∧
     length <$> buffer' = length <$> buffer ∧ inode_ok i' ∧ same_bytes i i') ∧
  (io_bread o = 0 → well_formed o i →
   ∃ res i', ext4_xattr_block_list o l buffer size i = Some (res, i') ∧
     listed (lines l (block_entries i)) buffer res).
Proof.
  intros Hi Hs Hbuf. unfold ext4_xattr_block_list, get, put, lift, mbind, st_bind, mret, st_ret, block_entries.
  destruct (i_file_acl i) as [b|] eqn:Hb; cycle 1.
  { split; [by eexists _, _, i|]. intros _ _. exists (0, buffer), i. split; [done|apply listed_nil]. }
  destruct (io_block _ Hi _ Hb) as (Hr & _ & _).
  destruct (check_block_answer o i b Hi Hb) as (z & b' & Ec & Ed & _ & Hi' & Hz). rewrite Ec.
  assert (same_bytes i (set_block (Some b') i)) as Hsame.
  { unfold same_bytes, set_block. cbn [raw_inode i_extra_isize state_xattr i_file_acl]. rewrite Hb. cbn. by rewrite Ed. }
  assert (0 ≤ BFIRST) as Hf by done. rewrite Ed. split.
  - destruct (negb (io_bread o =? 0)); [by eexists _, _, i|].
    destruct (Z.eqb_spec z 0) as [Hz0|]; cbn [negb]; [|by eexists _, _, _].
    destruct (list_entries_checked l _ _ _ buffer size Hr Hf (Hz Hz0) Hs Hbuf) as ([ret b2] & -> & Hres).
    eexists _, _, _. split; [done|]. split; [by apply listed_length in Hres|done].
  - intros -> Hwf. cbn [Z.eqb negb]. destruct (wf_block _ _ Hwf _ Hb) as ((b2 & Ec2) & _).
    rewrite Ec in Ec2. injection Ec2 as -> ->. cbn [Z.eqb negb].
    destruct (list_entries_checked l _ _ _ buffer size Hr Hf (Hz eq_refl) Hs Hbuf) as (res & -> & Hres).
    by eexists res, _.
Qed.

Lemma take_drop_length (b : bytes) ret : 0 ≤ ret ≤ buf_end b →
  length (take (Z.to_nat ret) b) = Z.to_nat ret ∧ buf_end (drop (Z.to_nat ret) b) = buf_end b - ret.
Proof. unfold buf_end. intros. rewrite length_take, length_drop. lia. Qed.

(** Two parts of a list in one buffer. *)
Lemma listed_app s1 s2 b buf1 ret2 buf2 :
  listed s1 (Some b) (Z.of_nat (length s1), Some buf1) →
  listed s2 (Some (drop (length s1) buf1)) (ret2, Some buf2) →
  listed (s1 ++ s2) (Some b)
    (if ret2 <? 0 then ret2 else ret2 + Z.of_nat (length s1), Some (take (length s1) buf1 ++ buf2)).
Proof.
  unfold listed. rewrite length_app.
  destruct (Z.leb_spec (Z.of_nat (length s1)) (Z.of_nat (length b))) as [H1|H1]; cycle 1.
  { intros [H _]. cbn in H. unfold ERANGE in H. lia. }
  intros [= ->] H2. rewrite take_app_length.
  rewrite drop_app_length, length_drop in H2.
  destruct (Z.leb_spec (Z.of_nat (length s2)) (Z.of_nat (length b - length s1))) as [H3|H3].
  - injection H2 as -> ->. rewrite (proj2 (Z.ltb_ge _ 0)), (proj2 (Z.leb_le _ _)) by lia.
    f_equal; [lia|]. f_equal. rewrite <-app_assoc. do 2 f_equal. rewrite drop_drop. done.
  - rewrite (proj2 (Z.leb_gt _ _)) by lia. destruct H2 as (H2 & b2 & [= <-] & Hl). cbn [fst snd] in *. subst ret2.
    split; [done|]. eexists. split; [done|]. rewrite length_app. lia.
Qed.

Lemma listxattr_eq o l buffer size i ret buf :
  ext4_xattr_ibody_list o l i buffer size = Some (ret, buf) →
  ext4_listxattr o l buffer size i =
  if ret <? 0 then Some ((ret, buf), i)
  else
    match ext4_xattr_block_list o l ((λ b, drop (Z.to_nat ret) b) <$> buf)
            (match buf with Some _ => size - ret | None => size end) i with
    | Some ((ret', buf'), i') =>
        Some ((if ret' <? 0 then ret' else ret' + ret,
               match (λ b, take (Z.to_nat ret) b) <$> buf, buf' with
               | Some a, Some b => Some (a ++ b) | _, _ => buf end), i')
    | None => None
    end.
Proof.
  intros E. unfold ext4_listxattr, get, lift, mbind, st_bind, mret, st_ret. rewrite E.
  destruct (ret <? 0); [done|]. destruct (ext4_xattr_block_list _ _ _ _ _) as [[[ret' buf'] i']|]; [|done].
  by destruct (ret' <? 0), buf.
Qed.

Lemma fmap_length_Some (b0 : bytes) (x : option bytes) : length <$> x = length <$> Some b0 →
  ∃ b, x = Some b ∧ length b = length b0.
Proof. destruct x as [b|]; [|done]. intros [= H]. eauto. Qed.

Lemma fmap_length_None (x : option bytes) : length <$> x = length <$> (None : option bytes) → x = None.
Proof. by destruct x. Qed.

(** The part of the call after the list of the inode. *)
Lemma list_rest buffer size i ret buf :
  inode_ok i → 0 ≤ size < 2 ^ 64 → 0 ≤ ret →
  (∀ b, buffer = Some b → size = buf_end b ∧ ret ≤ buf_end b) → length <$> buf = length <$> buffer →
  let buf' := (λ b : bytes, drop (Z.to_nat ret) b) <$> buf in
  let size' := match buf with Some _ => size - ret | None => size end in
  0 ≤ size' < 2 ^ 64 ∧ (∀ b, buf' = Some b → size' = buf_end b).
Proof.
  intros Hi Hs Hr Hb Hl buf' size'. subst buf' size'. destruct buffer as [b0|].
  - apply fmap_length_Some in Hl as (b & -> & Hl). destruct (Hb b0 eq_refl) as [-> Hfit].
    unfold buf_end in *. split; [lia|]. intros b1 [= <-]. rewrite length_drop. lia.
  - apply fmap_length_None in Hl as ->. done.
Qed.

(** ext4_listxattr on any disk contents: it ends, stays inside the buffers
    and changes no byte of the inode or block.  When the contents pass the
    checks it gives the names of the inode and then of the block, each with its
    prefix and a NUL: their total length for a NULL buffer, the names if they
    fit, else ERANGE.  A name of the [custom.] namespace is in the list of every
    caller, whatever the list callbacks of the other handlers answer. *)
Theorem ext4_listxattr_spec o l i buffer size (Hi : inode_ok i) (Hs : 0 ≤ size < 2 ^ 64)
    (Hloc : io_inode_loc o ≤ 0) (Hb : ∀ b, buffer = Some b → size = buf_end b) :
  (∃ ret buffer' i', ext4_listxattr o l buffer size i = Some ((ret, buffer'), i') ∧
     length <$> buffer' = length <$> buffer ∧ inode_ok i' ∧ same_bytes i i') ∧
  (io_inode_loc o = 0 → io_bread o = 0 → well_formed o i →
   ∃ res i', ext4_listxattr o l buffer size i = Some (res, i') ∧
     listed (lines l (inode_entries i) ++ lines l (block_entries i)) buffer res) ∧
  (∀ x, x_index x = EXT4_XATTR_INDEX_CUSTOM → x_line l x = XATTR_CUSTOM_PREFIX ++ x_name x ++ [0]).
Proof.
  destruct (ibody_list_answer o l i buffer size Hi Hs Hloc Hb) as [(ret & buf & E & Hl & Hfit) Hspec].
  rewrite (listxattr_eq _ _ _ _ _ _ _ E).
  destruct (Z.ltb_spec ret 0) as [Hneg|Hge].
  { split_and!; [by eexists _, _, i| |by intros x Hx; unfold x_line; rewrite Hx].
    intros H0 _ Hwf. destruct (Hspec H0 Hwf) as (res & E' & Hr). rewrite E in E'. injection E' as <-.
    eexists _, i. split; [done|]. unfold listed in *. destruct buffer as [b|]; [|injection Hr as -> _; lia].
    rewrite length_app. destruct (Z.leb_spec (Z.of_nat (length (lines l (inode_entries i)))) (Z.of_nat (length b))).
    - injection Hr as -> _. lia.
    - by rewrite (proj2 (Z.leb_gt _ _)) by lia. }
  destruct (list_rest buffer size i ret buf Hi Hs Hge) as [Hs' Hb']; [|done|].
  { intros b ->. split; [by apply Hb|by apply Hfit]. }
  destruct (block_list_answer o l i _ _ Hi Hs' Hb') as [(ret2 & buf2 & i2 & E2 & Hl2 & Hok & Hsame) Hspec2].
  rewrite E2. split_and!; [| |by intros x Hx; unfold x_line; rewrite Hx].
  - eexists _, _, i2. split; [done|]. split; [|done]. destruct buffer as [b0|].
    + apply fmap_length_Some in Hl as (b & -> & Hl). cbn in Hl2. destruct buf2 as [b2|]; [|done].
      cbn in Hl2 |- *. injection Hl2 as Hl2. f_equal. rewrite length_app, Hl2, <-length_app, take_drop. done.
    + by apply fmap_length_None in Hl as ->.
  - intros H0 H1 Hwf. destruct (Hspec H0 Hwf) as (res & E' & Hr). rewrite E in E'. injection E' as <-.
    destruct (Hspec2 H1 Hwf) as (res2 & i2' & E2' & Hr2). rewrite E2 in E2'. injection E2' as <- <-.
    eexists _, i2. split; [done|]. destruct buffer as [b0|].
    + apply fmap_length_Some in Hl as (b & -> & Hl). cbn in Hl2. destruct buf2 as [b2|]; [|done].
      assert (ret = Z.of_nat (length (lines l (inode_entries i)))) as ->.
      { unfold listed in Hr. destruct (_ <=? _); [by injection Hr|].
        destruct Hr as [Hr _]. cbn in Hr. unfold ERANGE in Hr. lia. }
      rewrite Nat2Z.id in *. by apply (listed_app _ _ b0 b ret2 b2).
    + apply fmap_length_None in Hl as ->. cbn in Hr, Hr2 |- *. injection Hr as ->. injection Hr2 as -> ->.
      rewrite (proj2 (Z.ltb_ge _ 0)) by lia. unfold listed. rewrite length_app. f_equal. lia.
Qed.

(** ** Witnesses: custom.a = "Hi" in the inode, user.b = "!" in the block *)

Definition demo_raw : bytes :=
  replicate 160 0 ++ le_split 4 EXT4_XATTR_MAGIC ++
  ([1; 11; 88; 0] ++ le_split 4 0 ++ le_split 4 2 ++ le_split 4 0 ++ [97; 0; 0; 0]) ++
  replicate 68 0 ++ [72; 105; 0; 0].

Definition demo_block : bytes :=
  le_split 4 EXT4_XATTR_MAGIC ++ le_split 4 1 ++ le_split 4 1 ++ replicate 20 0 ++
  ([1; 1; 124; 0] ++ le_split 4 0 ++ le_split 4 1 ++ le_split 4 0 ++ [98; 0; 0; 0]) ++
  replicate 72 0 ++ [33; 0; 0; 0].

Definition demo_ext4 : ext4_inode := Ext4Inode demo_raw 32 true (Some (EaBlock demo_block 7 false)).
Definition demo_io : io := Io false 0 0 false (λ c _, c) 0 (λ _ _ _, inl (- EIO)).
Definition demo_list_env : list_env := ListEnv true false false None true.

Lemma is_bytes_check l : forallb (λ b, (0 <=? b) && (b <? 256)) l = true → is_bytes l.
Proof.
  intros H. apply Forall_forall. intros b Hb. rewrite forallb_forall in H.
  apply list_elem_of_In in Hb. apply H in Hb. apply andb_true_iff in Hb as [H1 H2].
  unfold is_u. change (2 ^ 8) with 256. to_prop. lia.
Qed.

Lemma demo_inode_ok : inode_ok demo_ext4.
Proof.
  split.
  - split; [by apply is_bytes_check; vm_compute|by vm_compute|by vm_compute].
  - by vm_compute.
  - by vm_compute.
  - intros b [= <-]. split; [split; [by apply is_bytes_check; vm_compute|by vm_compute|by vm_compute]|].
    split; [by vm_compute|done].
Qed.

Lemma demo_io_ok : io_ok demo_io.
Proof. done. Qed.

Lemma demo_well_formed : well_formed demo_io demo_ext4.
Proof.
  split.
  - intros _. split; [by vm_compute|].
    assert (inode_entries demo_ext4 = [XEntry 164 11 [97] 88 0 2 0]) as -> by by vm_compute.
    constructor; [|constructor]. split; [done|by vm_compute].
  - intros b [= <-].
    assert (block_entries demo_ext4 = [XEntry 32 1 [98] 124 0 1 0]) as -> by by vm_compute.
    split; [eexists; vm_compute; reflexivity|]. split.
    + constructor; [|constructor]. split; [done|by vm_compute].
    + repeat constructor.
Qed.

Lemma ext4_xattr_get_spec_witness :
  ∃ i', ext4_xattr_custom_get demo_io [97] (Some [1; 2; 3]) demo_ext4 = Some ((2, Some [72; 105; 3]), i').
Proof.
  destruct (ext4_xattr_get_spec demo_io demo_ext4 EXT4_XATTR_INDEX_CUSTOM [97] (Some [1; 2; 3])
    demo_io_ok demo_inode_ok) as [_ H].
  destruct (H eq_refl eq_refl eq_refl demo_well_formed) as (i' & E); [cbn; lia|].
  exists i'. unfold ext4_xattr_custom_get. rewrite E. vm_compute. reflexivity.
Defined.

Lemma ext4_listxattr_spec_witness :
  ∃ res i', ext4_listxattr demo_io demo_list_env (Some (replicate 20 7)) 20 demo_ext4 = Some (res, i') ∧
    res = (16, Some (s2b "custom.a" ++ [0] ++ s2b "user.b" ++ [0] ++ [7; 7; 7; 7])).
Proof.
  destruct (ext4_listxattr_spec demo_io demo_list_env demo_ext4 (Some (replicate 20 7)) 20
    demo_inode_ok) as (_ & H & _); [lia|done|by intros b [= <-]|].
  destruct (H eq_refl eq_refl demo_well_formed) as (res & i' & E & Hr).
  exists res, i'. split; [exact E|]. vm_compute in Hr. exact Hr.
Defined.

End Ext4Xattr.
