(* ===== verification/Ext4Set.v ===== *)
(** * Writing extended attributes of ext4

    fs/ext4/xattr.c: the hashes of entries and blocks, ext4_xattr_set_entry
    (replace, insert or remove one attribute of a buffer, in the inode or in a
    block) and its users for the inode, ext4_xattr_ibody_find and
    ext4_xattr_ibody_set.

    The buffer format, the checks and the lookup are those of Ext4Xattr.  The
    functions here take and give the whole buffer; memmove and memset outside it
    are faults.  The inodes that hold large values are given by their outcomes
    ([ea_io]); what is done to them is recorded in order ([ea_op]).

    The theorems relate buffers to lists of attributes: setting is insertion,
    replacement or removal in the list, whatever else is stored stays as it
    was, and the layout stays well formed. *)

From Stdlib Require Import ZArith Lia Sorted.
From stdpp Require Import base numbers list gmap strings.
From S2P Require Import Prelude Xattr Ext4Xattr.

Module Ext4Set.
Import Xattr Ext4Xattr.

(** ** Hashes *)

Definition NAME_HASH_SHIFT : Z := 5.
Definition VALUE_HASH_SHIFT : Z := 16.
Definition BLOCK_HASH_SHIFT : Z := 16.

(** One turn of the hash loops: rotate the 32-bit hash and mix [c] in. *)
Definition hash_step (shift hash c : Z) : Z :=
  Z.lxor (Z.lxor (u32 (Z.shiftl hash shift)) (Z.shiftr hash (32 - shift))) (u32 c).

(** [value_count] words from [value]. *)
Fixpoint hash_words (r : bytes) (value : Z) (value_count : nat) (hash : Z) : option Z :=
  match value_count with
  | O => Some hash
  | S n => w ← rd32 r value; hash_words r (value + 4) n (hash_step VALUE_HASH_SHIFT hash w)
  end.

(** The characters of the name are signed. *)
Definition hash_name (name : bytes) : Z :=
  foldl (λ hash c, hash_step NAME_HASH_SHIFT hash (s8 c)) 0 name.

Definition ext4_xattr_hash_entry (r : bytes) (name name_len value value_count : Z) : option Z :=
  n ← bytes_at r name name_len;
  hash_words r value (Z.to_nat value_count) (hash_name n).

(** The loop of [ext4_xattr_rehash]; an entry with hash 0 makes the result 0. *)
Fixpoint rehash_loop (fuel : nat) (r : bytes) (here hash : Z) : option Z :=
  match fuel with
  | O => None
  | S fuel =>
      last ← IS_LAST_ENTRY r here;
      if last : bool then Some hash
      else
        h ← rd32 r (here + E_HASH);
        if h =? 0 then Some 0
        else
          next ← EXT4_XATTR_NEXT r here;
          rehash_loop fuel r next (hash_step BLOCK_HASH_SHIFT hash h)
  end.

Definition H_REFCOUNT : Z := 4.
Definition H_HASH : Z := 12.

(** [header] is the start of the block. *)
Definition ext4_xattr_rehash (r : bytes) (header : Z) : option bytes :=
  hash ← rehash_loop (fuel_of r) r (header + HEADER_SIZE) 0;
  wr 4 r (header + H_HASH) hash.

(** ** Arguments and search results (xattr.h) *)

(** [EXT4_ZERO_XATTR_VALUE] stands for a value of zero bytes. *)
Inductive xattr_value :=
| EXT4_ZERO_XATTR_VALUE
| ValueBytes (v : bytes).

Record ext4_xattr_info := Ext4XattrInfo {
  i_name : bytes;
  i_value : option xattr_value;
  i_value_len : Z;
  i_name_index : Z;
  i_in_inode : bool }.

(** Positions in the buffer; [s_base] is [None] for NULL. *)
Record ext4_xattr_search := Ext4XattrSearch {
  s_first : Z;
  s_base : option Z;
  s_end : Z;
  s_here : Z;
  s_not_found : Z }.

(** What the value inodes and the inline data answer. *)
Record ea_io := EaIo {
  ea_feature : bool;                        (** ext4_has_feature_ea_inode *)
  ea_iget : Z → Z → Z;                      (** number, hash: error *)
  ea_alloc_quota : Z → Z;
  ea_lookup_create : xattr_value → Z → Z + (Z * Z);   (** error, or number and hash *)
  ea_dec_ref : Z → Z;
  ea_inline : option Z }.                   (** has inline data: what finding it again answers *)

(** What was done to the value inodes and the quota. *)
Inductive ea_op :=
| EaAllocQuota (len : Z)
| EaLookupCreate (num : Z)
| EaDecRef (num : Z)
| EaFreeQuota (num : option Z) (len : Z).

(** ** ext4_xattr_set_entry, part by part *)

(** Compute [min_offs] and [last]: an error, or the two. *)
Fixpoint scan_entries (fuel : nat) (r : bytes) (s_end last min_offs : Z) : option (Z + Z * Z) :=
  match fuel with
  | O => None
  | S fuel =>
      l ← IS_LAST_ENTRY r last;
      if l : bool then Some (inr (last, min_offs))
      else
        next ← EXT4_XATTR_NEXT r last;
        if s_end <=? next then Some (inl (- EFSCORRUPTED))
        else
          inum ← rd32 r (last + E_VALUE_INUM);
          size ← rd32 r (last + E_VALUE_SIZE);
          offs ← rd16 r (last + E_VALUE_OFFS);
          scan_entries fuel r s_end next
            (if (inum =? 0) && negb (size =? 0) && (offs <? min_offs) then offs else min_offs)
  end.

(** Copy the value, padded with zeros to [new_size]. *)
Definition store_value (r : bytes) (val : Z) (value : xattr_value) (value_len new_size : Z) : option bytes :=
  match value with
  | EXT4_ZERO_XATTR_VALUE => memset r val 0 new_size
  | ValueBytes v =>
      b ← bytes_at v 0 value_len;
      r ← put_at r val b;
      memset r (val + value_len) 0 (new_size - value_len)
  end.

Definition EXT4_XATTR_BLOCK_RESERVE (blocksize : Z) : Z := Z.min (blocksize / 8) 1024.

(** Whether there is room: [- ENOSPC] or 0.  The sums are of [size_t]. *)
Definition check_space (o : ea_io) (not_found is_block : bool) (blocksize base last min_offs name_len old_size new_size : Z) : Z :=
  let free := u64 (min_offs - (last - base) - 4) in
  let free := if not_found then free else u64 (free + (EXT4_XATTR_LEN name_len + old_size)) in
  if free <? u64 (EXT4_XATTR_LEN name_len + new_size) then - ENOSPC
  else if ea_feature o && negb (new_size =? 0) && is_block &&
          (u64 (min_offs + old_size - new_size) <? EXT4_XATTR_BLOCK_RESERVE blocksize) then - ENOSPC
  else 0.

(** Getting access to the old and new value inodes: the error or the new
    inode's number and hash, and what was done.  [old] is the number, hash and
    size of the entry's value inode. *)
Definition access_ea_inodes (o : ea_io) (old : option (Z * Z * Z)) (i : ext4_xattr_info) :
    (Z + option (Z * Z)) * list ea_op :=
  let iget_ret := match old with Some (num, hash, _) => ea_iget o num hash | None => 0 end in
  if negb (iget_ret =? 0) then (inl iget_ret, [])
  else
    let new_ea : (Z + option (Z * Z)) * list ea_op :=
      match i_value i, i_in_inode i with
      | Some value, true =>
          let ret := ea_alloc_quota o (i_value_len i) in
          if negb (ret =? 0) then (inl ret, [])
          else
            match ea_lookup_create o value (i_value_len i) with
            | inl ret => (inl ret, [EaAllocQuota (i_value_len i); EaFreeQuota None (i_value_len i)])
            | inr (num, hash) => (inr (Some (num, hash)), [EaAllocQuota (i_value_len i); EaLookupCreate num])
            end
      | _, _ => (inr None, [])
      end in
    match new_ea, old with
    | (inr new, ops), Some (num, _, size) =>
        let ret := ea_dec_ref o num in
        if negb (ret =? 0) then
          (inl ret, ops ++ match new with
                           | Some (new_num, _) => [EaDecRef new_num; EaFreeQuota (Some new_num) (i_value_len i)]
                           | None => []
                           end)
        else (inr new, ops ++ [EaDecRef num; EaFreeQuota (Some num) size])
    | res, _ => res
    end.

(** Adjust the offsets of the values that were moved; the result has the
    position of the end of the names. *)
Fixpoint adjust_offsets (fuel : nat) (r : bytes) (last offs old_size : Z) : option (bytes * Z) :=
  match fuel with
  | O => None
  | S fuel =>
      l ← IS_LAST_ENTRY r last;
      if l : bool then Some (r, last)
      else
        o ← rd16 r (last + E_VALUE_OFFS);
        inum ← rd32 r (last + E_VALUE_INUM);
        size ← rd32 r (last + E_VALUE_SIZE);
        r ← (if (inum =? 0) && negb (size =? 0) && (o <? offs)
             then wr 2 r (last + E_VALUE_OFFS) (o + old_size) else Some r);
        next ← EXT4_XATTR_NEXT r last;
        adjust_offsets fuel r next offs old_size
  end.

(** Remove the value of the entry [here]: the bytes, [last] and [min_offs]. *)
Definition remove_value (r : bytes) (base first here min_offs old_size : Z) : option (bytes * Z * Z) :=
  let first_val := base + min_offs in
  offs ← rd16 r (here + E_VALUE_OFFS);
  let val := base + offs in
  r ← memmove r (first_val + old_size) first_val (val - first_val);
  r ← memset r first_val 0 old_size;
  adj ← adjust_offsets (fuel_of r) r first offs old_size;
  let '(r, last) := adj in
  Some (r, last, min_offs + old_size).

(** The removal is made for a value that is stored in the buffer. *)
Definition drop_value (r : bytes) (base first here last m old_size : Z) : option (bytes * Z * Z) :=
  size ← rd32 r (here + E_VALUE_SIZE);
  inum ← rd32 r (here + E_VALUE_INUM);
  if negb (size =? 0) && (inum =? 0) then remove_value r base first here m old_size else Some (r, last, m).

(** Remove the entry [here] from the names. *)
Definition remove_name (r : bytes) (here last name_len : Z) : option bytes :=
  let size := EXT4_XATTR_LEN name_len in
  let last := last - size in
  r ← memmove r here (here + size) (last - here + 4);
  memset r last 0 size.

(** Insert an entry without value at [here]. *)
Definition insert_name (r : bytes) (here last name_index : Z) (name : bytes) : option bytes :=
  let name_len := Z.of_nat (length name) in
  let size := EXT4_XATTR_LEN name_len in
  let rest := last - here + 4 in
  r ← memmove r (here + size) here rest;
  r ← memset r here 0 size;
  r ← wr 1 r (here + E_NAME_INDEX) name_index;
  r ← wr 1 r (here + E_NAME_LEN) name_len;
  put_at r (here + E_NAME) name.

(** This is an update, reset value info. *)
Definition reset_value_info (r : bytes) (here : Z) : option bytes :=
  r ← wr 4 r (here + E_VALUE_INUM) 0;
  r ← wr 2 r (here + E_VALUE_OFFS) 0;
  wr 4 r (here + E_VALUE_SIZE) 0.

(** Insert new value. *)
Definition insert_value (r : bytes) (base here min_offs new_size : Z) (value : xattr_value)
    (value_len : Z) (in_inode : bool) (new_ea : option (Z * Z)) : option bytes :=
  r ← (if in_inode then
         n ← new_ea; let '(num, _) := (n : Z * Z) in wr 4 r (here + E_VALUE_INUM) num
       else if negb (value_len =? 0) then
         r ← wr 2 r (here + E_VALUE_OFFS) (min_offs - new_size);
         store_value r (base + min_offs - new_size) value value_len new_size
       else Some r);
  wr 4 r (here + E_VALUE_SIZE) value_len.

(** The label [update_hash]. *)
Definition update_hash (r : bytes) (i : ext4_xattr_info) (is_block : bool) (base here new_size : Z)
    (new_ea : option (Z * Z)) : option bytes :=
  r ← match i_value i with
      | None => Some r
      | Some _ =>
          name_len ← rd8 r (here + E_NAME_LEN);
          hash ← (if i_in_inode i then
                    n ← new_ea; let '(_, h) := (n : Z * Z) in
                    name ← bytes_at r (here + E_NAME) name_len;
                    Some (hash_step VALUE_HASH_SHIFT (hash_name name) h)
                  else if is_block then
                    offs ← rd16 r (here + E_VALUE_OFFS);
                    ext4_xattr_hash_entry r (here + E_NAME) name_len (base + offs) (Z.shiftr new_size 2)
                  else Some 0);
          wr 4 r (here + E_HASH) hash
      end;
  if is_block then ext4_xattr_rehash r base else Some r.

(** The part that no failure interrupts, up to [update_hash]: 0, or the error
    of finding the inline data again, and the bytes. *)
Definition modify_entry (o : ea_io) (r : bytes) (i : ext4_xattr_info) (s : ext4_xattr_search) (is_block : bool)
    (base last min_offs old_size new_size : Z) (new_ea : option (Z * Z)) : option (Z * bytes) :=
  let here := s_here s in
  let not_found := negb (s_not_found s =? 0) in
  let name_len := Z.of_nat (length (i_name i)) in
  v ← (if not_found then Some (r, last, min_offs)
       else drop_value r base (s_first s) here last min_offs old_size);
  let '(r, last, min_offs) := v in
  match i_value i with
  | None =>
      r ← remove_name r here last name_len;
      let ret := match ea_inline o with Some e => if negb is_block then e else 0 | None => 0 end in
      if negb (ret =? 0) then Some (ret, r)
      else r ← update_hash r i is_block base here new_size new_ea; Some (0, r)
  | Some value =>
      r ← (if not_found then insert_name r here last (i_name_index i) (i_name i) else reset_value_info r here);
      r ← insert_value r base here min_offs new_size value (i_value_len i) (i_in_inode i) new_ea;
      r ← update_hash r i is_block base here new_size new_ea;
      Some (0, r)
  end.

(** The result code, the bytes, and what was done to value inodes. *)
Definition ext4_xattr_set_entry (o : ea_io) (blocksize : Z) (i : ext4_xattr_info) (s : ext4_xattr_search)
    (is_block : bool) (r : bytes) : option (Z * bytes * list ea_op) :=
  base ← s_base s;
  let here := s_here s in
  let not_found := negb (s_not_found s =? 0) in
  let name_len := Z.of_nat (length (i_name i)) in
  old ← (if not_found then Some None
         else inum ← rd32 r (here + E_VALUE_INUM);
              hash ← rd32 r (here + E_HASH);
              size ← rd32 r (here + E_VALUE_SIZE);
              Some (Some (inum, hash, size)));
  let old_size := match old with
                  | Some (inum, _, size) => if inum =? 0 then EXT4_XATTR_SIZE 32 size else 0
                  | None => 0
                  end in
  let new_size := match i_value i with
                  | Some _ => if i_in_inode i then 0 else EXT4_XATTR_SIZE 64 (i_value_len i)
                  | None => 0
                  end in
  match i_value i, negb (new_size =? 0) && (new_size =? old_size) with
  | Some value, true =>
      offs ← rd16 r (here + E_VALUE_OFFS);
      r ← wr 4 r (here + E_VALUE_SIZE) (i_value_len i);
      r ← store_value r (base + offs) value (i_value_len i) new_size;
      r ← update_hash r i is_block base here new_size None;
      Some (0, r, [])
  | _, _ =>
      scan ← scan_entries (fuel_of r) r (s_end s) (s_first s) (s_end s - base);
      match scan with
      | inl ret => Some (ret, r, [])
      | inr (last, min_offs) =>
          let ret := match i_value i with
                     | Some _ => check_space o not_found is_block blocksize base last min_offs name_len old_size new_size
                     | None => 0
                     end in
          if negb (ret =? 0) then Some (ret, r, [])
          else
            let old_ea := match old with
                          | Some (inum, hash, size) => if inum =? 0 then None else Some (inum, hash, size)
                          | None => None
                          end in
            match access_ea_inodes o old_ea i with
            | (inl ret, ops) => Some (ret, r, ops)
            | (inr new_ea, ops) =>
                m ← modify_entry o r i s is_block base last min_offs old_size new_size new_ea;
                let '(ret, r) := m in
                Some (ret, r, ops)
            end
      end
  end.

(** ** Lists of entries inside a buffer

    A [seg] is a part of a [chain]: entries that follow each other, without the
    zero word at the end. *)

Inductive seg (r : bytes) : Z → list xentry → Z → Prop :=
| seg_nil e : seg r e [] e
| seg_cons e x es e' :
    IS_LAST_ENTRY r e = Some false → read_entry r e = Some x → x_next x < buf_end r →
    strnlen (x_name x) = Z.of_nat (length (x_name x)) →
    seg r (x_next x) es e' → seg r e (x :: es) e'.

Lemma chain_seg r e es e' : chain r e es e' ↔ seg r e es e' ∧ IS_LAST_ENTRY r e' = Some true.
Proof.
  split.
  - induction 1 as [|e x es e' ????? [IH1 IH2]]; [by split; [constructor|]|]. split; [by econstructor|done].
  - intros [H Hl]. induction H; [by constructor|]. econstructor; eauto.
Qed.

Lemma seg_app r e es1 es2 e' : seg r e (es1 ++ es2) e' ↔ ∃ m, seg r e es1 m ∧ seg r m es2 e'.
Proof.
  split.
  - revert e. induction es1 as [|x es1 IH]; intros e H; [exists e; by split; [constructor|]|].
    inversion H; subst. destruct (IH (x_next x)) as (m & ? & ?); [done|].
    exists m. split; [by econstructor|done].
  - intros (m & H1 & H2). induction H1; [done|]. econstructor; eauto.
Qed.

Lemma seg_le r e es e' : seg r e es e' → e + 16 * Z.of_nat (length es) ≤ e'.
Proof.
  induction 1 as [|e x es e' ? Ex ??? IH]; [cbn; lia|].
  destruct (read_entry_Some r e x Ex) as (<- & _). pose proof (x_next_pos x). cbn [length]. lia.
Qed.

Lemma seg_end r e es e' : seg r e es e' → es ≠ [] → e' < buf_end r.
Proof.
  induction 1 as [|e x es e' ????? IH]; [done|]. intros _. destruct es; [|by apply IH].
  by inversion H3; subst.
Qed.

Lemma seg_cons_inv r e x es e' : seg r e (x :: es) e' →
  x_pos x = e ∧ IS_LAST_ENTRY r e = Some false ∧ read_entry r e = Some x ∧ x_next x < buf_end r ∧
  strnlen (x_name x) = Z.of_nat (length (x_name x)) ∧ seg r (x_next x) es e' ∧ e + 16 ≤ x_next x ≤ e'.
Proof.
  intros H. inversion H as [|? ? ? ? Hl Ex Hn Hz Hs]; subst.
  destruct (read_entry_Some r e x Ex) as (Ep & _). pose proof (seg_le _ _ _ _ Hs). pose proof (x_next_pos x).
  split_and!; try done; lia.
Qed.

(** An entry at another place. *)
Definition shift_x (d : Z) (x : xentry) : xentry :=
  XEntry (x_pos x + d) (x_index x) (x_name x) (x_offs x) (x_inum x) (x_size x) (x_hash x).

Lemma x_next_shift d x : x_next (shift_x d x) = x_next x + d.
Proof. unfold x_next. cbn. lia. Qed.

Lemma shift_x_0 x : shift_x 0 x = x.
Proof. destruct x. unfold shift_x. cbn. f_equal. lia. Qed.

Lemma entry_length r e x : is_bytes r → read_entry r e = Some x → (length (x_name x) ≤ 255)%nat.
Proof.
  intros Hr Ex. destruct (read_entry_Some r e x Ex) as (_ & En & _).
  pose proof (rd_range _ _ _ _ Hr En) as Rn. change (2 ^ (8 * Z.of_nat 1)) with 256 in Rn. lia.
Qed.

Lemma read_entry_moved d r r' e x :
  read_entry r e = Some x → 0 ≤ e → 0 ≤ e + d → moved d r r' e (x_next x) → x_next x + d ≤ buf_end r' →
  read_entry r' (e + d) = Some (shift_x d x).
Proof.
  intros Ex He Hd Hm Hend.
  destruct (read_entry_Some r e x Ex) as (Ep & En & Ei & Eo & Eu & Es & Eh & Eb & _).
  pose proof (x_next_pos x) as Hnx. rewrite Ep in Hnx.
  assert (e + 16 + Z.of_nat (length (x_name x)) ≤ x_next x) as Hname.
  { unfold x_next. pose proof (LEN_bounds (Z.of_nat (length (x_name x)))). lia. }
  unfold E_NAME_LEN, E_NAME_INDEX, E_VALUE_OFFS, E_VALUE_INUM, E_VALUE_SIZE, E_HASH, E_NAME in *.
  assert (∀ n f z, rd n r (e + f) = Some z → 0 ≤ f → f + Z.of_nat n ≤ 16 → rd n r' (e + d + f) = Some z) as Hrd.
  { intros n f z Hz ? ?. replace (e + d + f) with (e + f + d) by lia.
    rewrite (rd_moved d n r r' e (x_next x)); unfold buf_end in *; (done || lia || by rewrite Hz). }
  unfold read_entry, E_NAME_LEN, E_NAME_INDEX, E_VALUE_OFFS, E_VALUE_INUM, E_VALUE_SIZE, E_HASH, E_NAME.
  rewrite (Hrd _ _ _ En) by lia. cbn [mbind option_bind].
  rewrite (Hrd _ _ _ Ei), (Hrd _ _ _ Eo), (Hrd _ _ _ Eu), (Hrd _ _ _ Es), (Hrd _ _ _ Eh) by lia.
  cbn [mbind option_bind]. replace (e + d + 16) with (e + 16 + d) by lia.
  rewrite (bytes_at_moved d r r' e (x_next x)); unfold buf_end in *; [|done || lia || by rewrite Eb..].
  rewrite Eb. cbn [mbind option_bind]. unfold shift_x. by rewrite Ep.
Qed.

Lemma last_moved d r r' e b : IS_LAST_ENTRY r e = Some b → 0 ≤ e + d → moved d r r' e (e + 4) →
  e + d + 4 ≤ buf_end r' → IS_LAST_ENTRY r' (e + d) = Some b.
Proof.
  unfold IS_LAST_ENTRY. intros Hl ? Hm ?. apply fmap_Some in Hl as (z & Hz & ->).
  rewrite (rd_moved d 4 r r' e (e + 4)); unfold buf_end in *; [by rewrite Hz|done || lia || by rewrite Hz..].
Qed.

(** The same entries where their bytes were moved to. *)
Lemma seg_moved d r r' e es e' :
  seg r e es e' → 0 ≤ e → 0 ≤ e + d → moved d r r' e e' → length r' = length r →
  (es ≠ [] → e' + d < buf_end r) → seg r' (e + d) (shift_x d <$> es) (e' + d).
Proof.
  intros H. induction H as [|e x es e' Hl Ex Hn Hz H IH]; intros He Hd Hm Hlen Hend; [constructor|].
  destruct (read_entry_Some r e x Ex) as (Ep & _). pose proof (x_next_pos x). pose proof (seg_le _ _ _ _ H).
  assert (buf_end r' = buf_end r) as Eend by (unfold buf_end; by rewrite Hlen).
  assert (e' + d < buf_end r) by by apply Hend.
  cbn [fmap list_fmap]. econstructor.
  - apply (last_moved d r); [done|done| |lia]. eapply moved_weaken; [done|lia|lia].
  - apply (read_entry_moved d r); [done..| |lia]. eapply moved_weaken; [done|lia|lia].
  - rewrite x_next_shift. lia.
  - done.
  - rewrite x_next_shift. apply IH; [lia|lia| |done|].
    + eapply moved_weaken; [done|lia|lia].
    + intros _. lia.
Qed.

Lemma seg_same r r' e es e' :
  seg r e es e' → 0 ≤ e → moved 0 r r' e e' → length r' = length r → seg r' e es e'.
Proof.
  intros H He Hm Hl. pose proof (seg_moved 0 r r' e es e' H) as Hs. rewrite !Z.add_0_r in Hs.
  assert (shift_x 0 <$> es = es) as E.
  { rewrite <-(list_fmap_id es) at 2. apply list_fmap_ext. intros. by rewrite shift_x_0. }
  rewrite E in Hs. apply Hs; try done. intros. by eapply seg_end.
Qed.

Lemma last_same r r' e b : IS_LAST_ENTRY r e = Some b → moved 0 r r' e (e + 4) → length r' = length r →
  IS_LAST_ENTRY r' e = Some b.
Proof.
  intros Hl Hm Hlen. pose proof (last_moved 0 r r' e b Hl) as H. rewrite Z.add_0_r in H.
  unfold IS_LAST_ENTRY in Hl. apply fmap_Some in Hl as (z & Hz & _).
  destruct (proj1 (rd_is_Some 4 r e)) as [??]; [eauto|]. apply H; try done. unfold buf_end. lia.
Qed.

Lemma last_room r e b : IS_LAST_ENTRY r e = Some b → 0 ≤ e ∧ e + 4 ≤ buf_end r.
Proof.
  unfold IS_LAST_ENTRY. intros Hl. apply fmap_Some in Hl as (z & Hz & _).
  destruct (proj1 (rd_is_Some 4 r e)) as [??]; [eauto|]. unfold buf_end. lia.
Qed.

Lemma chain_room r e es e' : chain r e es e' → 0 ≤ e' ∧ e' + 4 ≤ buf_end r.
Proof. intros [_ H]%chain_seg. by eapply last_room. Qed.

(** A word that begins with an index that is not zero does not end the list. *)
Lemma not_last r e idx : is_bytes r → rd8 r (e + E_NAME_INDEX) = Some idx → idx ≠ 0 → 0 ≤ e → e + 4 ≤ buf_end r →
  IS_LAST_ENTRY r e = Some false.
Proof.
  intros Hr Hi Hne He Hb. unfold IS_LAST_ENTRY, E_NAME_INDEX in *.
  destruct (proj2 (bytes_at_is_Some r e (Z.of_nat 4))) as [bs Ebs]; [unfold buf_end in *; lia|].
  unfold rd in *. rewrite Ebs. cbn [fmap option_fmap option_map]. f_equal. apply Z.eqb_neq.
  assert (is_bytes bs) as Hbs.
  { unfold bytes_at in Ebs. destruct (_ && _); [|done]. injection Ebs as <-. by apply Forall_take, Forall_drop. }
  pose proof (bytes_at_length _ _ _ _ Ebs) as L.
  destruct (bytes_at r (e + 1) (Z.of_nat 1)) as [b1|] eqn:E1; [|done].
  pose proof (bytes_at_length _ _ _ _ E1) as L1.
  pose proof (bytes_at_zlookup _ _ _ _ 1 Ebs) as Z1. pose proof (bytes_at_zlookup _ _ _ _ 0 E1) as Z2.
  destruct b1 as [|c [|]]; cbn [length] in L1; try lia.
  destruct bs as [|b [|c' bs]]; cbn [length] in L; try lia.
  rewrite Z.add_0_r in Z2. rewrite <-Z1 in Z2 by lia. specialize (Z2 ltac:(lia)). injection Z2 as <-.
  cbn in Hi. injection Hi as <-. unfold is_bytes in Hbs. rewrite !Forall_cons in Hbs.
  destruct Hbs as (Hb0 & Hb1 & Hbs). unfold is_u in *. pose proof (le_combine_range bs Hbs). cbn [le_combine]. lia.
Qed.

(** ** Writing the fields of an entry *)

Definition set_value_info (offs inum size : Z) (x : xentry) : xentry :=
  XEntry (x_pos x) (x_index x) (x_name x) offs inum size (x_hash x).

Definition set_hash (hash : Z) (x : xentry) : xentry :=
  XEntry (x_pos x) (x_index x) (x_name x) (x_offs x) (x_inum x) (x_size x) hash.

(** Reading an entry whose name part is still there. *)
Lemma read_entry_upd r r' e x o u s h :
  read_entry r e = Some x → 0 ≤ e → length r' = length r → x_next x ≤ buf_end r →
  moved 0 r r' e (e + 2) → moved 0 r r' (e + 16) (x_next x) →
  rd16 r' (e + E_VALUE_OFFS) = Some o → rd32 r' (e + E_VALUE_INUM) = Some u →
  rd32 r' (e + E_VALUE_SIZE) = Some s → rd32 r' (e + E_HASH) = Some h →
  read_entry r' e = Some (XEntry e (x_index x) (x_name x) o u s h).
Proof.
  intros Ex He Hlen Hend Hm1 Hm2 Ho Hu Hs Hh.
  destruct (read_entry_Some r e x Ex) as (Ep & En & Ei & _ & _ & _ & _ & Eb & _).
  assert (e + 16 + Z.of_nat (length (x_name x)) ≤ x_next x) as Hname.
  { unfold x_next. pose proof (LEN_bounds (Z.of_nat (length (x_name x)))). lia. }
  pose proof (x_next_pos x). unfold read_entry, E_NAME_LEN, E_NAME_INDEX, E_NAME in *.
  rewrite <-(Z.add_0_r (e + 0)), (rd_moved 0 1 r r' e (e + 2)), En; unfold buf_end in *;
    [|done || lia || by rewrite En..].
  cbn [mbind option_bind].
  rewrite <-(Z.add_0_r (e + 1)), (rd_moved 0 1 r r' e (e + 2)), Ei; [|done || lia || by rewrite Ei..].
  cbn [mbind option_bind]. rewrite Ho, Hu, Hs, Hh. cbn [mbind option_bind].
  rewrite <-(Z.add_0_r (e + 16)), (bytes_at_moved 0 r r' (e + 16) (x_next x)), Eb; [done|done || lia || by rewrite Eb..].
Qed.

(** Replacing one entry of a list by one with the same name part. *)
Lemma chain_replace r r' first es1 x es2 e_end x' :
  is_bytes r' → chain r first (es1 ++ x :: es2) e_end → 0 ≤ first → length r' = length r →
  moved 0 r r' first (x_pos x) → moved 0 r r' (x_next x) (e_end + 4) →
  read_entry r' (x_pos x) = Some x' → x_name x' = x_name x → x_index x' ≠ 0 →
  chain r' first (es1 ++ x' :: es2) e_end.
Proof.
  intros Hb [Hs Hl]%chain_seg Hf Hlen Hm1 Hm2 Hx Hn Hi. apply chain_seg.
  apply seg_app in Hs as (m & H1 & H2). pose proof (seg_le _ _ _ _ H1).
  destruct (seg_cons_inv _ _ _ _ _ H2) as (<- & Hl2 & Ex & Hnx & Hz & H3 & ? & ?).
  pose proof (seg_le _ _ _ _ H3). pose proof (last_room _ _ _ Hl) as [? ?].
  assert (buf_end r' = buf_end r) as Eb by (unfold buf_end; by rewrite Hlen).
  destruct (read_entry_Some _ _ _ Hx) as (Ep & _ & Ei & _).
  assert (x_next x' = x_next x) as En by (unfold x_next; by rewrite Hn, Ep).
  split; [|eapply last_same; [done|eapply moved_weaken; [done|lia|lia]|done]].
  apply seg_app. exists (x_pos x). split; [by eapply seg_same|]. econstructor.
  - eapply not_last; [done|done|done|lia|lia].
  - done.
  - lia.
  - by rewrite Hn.
  - rewrite En. eapply seg_same; [done|lia|eapply moved_weaken; [done|lia|lia]|done].
Qed.

Lemma wr_in n r off z : 0 ≤ off → off + Z.of_nat n ≤ buf_end r → ∃ r', wr n r off z = Some r' ∧
  length r' = length r.
Proof.
  intros. destruct (wr_Some n r off z) as [r' E]; [done|done|]. exists r'. split; [done|]. by eapply wr_length.
Qed.

(** ** Where the values are *)

Definition has_val (x : xentry) : bool := (x_inum x =? 0) && negb (x_size x =? 0).

(** The size with padding. *)
Definition pad (n : Z) : Z := (n + 3) / 4 * 4.

Lemma pad_bounds n : n ≤ pad n ≤ n + 3.
Proof. unfold pad. dlia. Qed.

Lemma pad_pos n : 0 < n → 0 < pad n.
Proof. unfold pad. dlia. Qed.

Lemma SIZE_pad w n : 0 ≤ n → n + 3 < 2 ^ w → EXT4_XATTR_SIZE w n = pad n.
Proof.
  intros. unfold EXT4_XATTR_SIZE, EXT4_XATTR_ROUND, pad. rewrite land_lnot3, wrapU_small; [done|].
  unfold is_u. lia.
Qed.

(** The spans of the stored values: offset and padded size. *)
Definition vspan (x : xentry) : list (Z * Z) := if has_val x then [(x_offs x, pad (x_size x))] else [].
Definition vspans (es : list xentry) : list (Z * Z) := es ≫= vspan.

Definition disj (p q : Z * Z) : Prop := p.1 + p.2 ≤ q.1 ∨ q.1 + q.2 ≤ p.1.

Fixpoint vdisj (l : list (Z * Z)) : Prop :=
  match l with [] => True | p :: l => Forall (disj p) l ∧ vdisj l end.

#[export] Instance disj_sym : Symmetric disj.
Proof. intros p q [?|?]; [by right|by left]. Qed.

Lemma vdisj_app l1 l2 : vdisj (l1 ++ l2) ↔ vdisj l1 ∧ vdisj l2 ∧ Forall (λ p, Forall (disj p) l2) l1.
Proof.
  induction l1 as [|p l1 IH]; cbn [app vdisj]; [rewrite Forall_nil; tauto|].
  rewrite Forall_app, Forall_cons, IH. tauto.
Qed.

Lemma vdisj_middle l1 p l2 : vdisj (l1 ++ p :: l2) ↔ vdisj (l1 ++ l2) ∧ Forall (disj p) (l1 ++ l2).
Proof.
  rewrite !vdisj_app. cbn [vdisj]. rewrite Forall_app.
  assert (Forall (λ q, Forall (disj q) (p :: l2)) l1 ↔ Forall (disj p) l1 ∧ Forall (λ q, Forall (disj q) l2) l1) as ->.
  { rewrite !Forall_forall. setoid_rewrite Forall_cons. split.
    - intros H. split; intros q Hq; destruct (H q Hq); [by symmetry|done].
    - intros [H1 H2] q Hq. split; [symmetry; by apply H1|by apply H2]. }
  tauto.
Qed.

(** Every span lies in [lo, hi) and no two overlap. *)
Definition spans_ok (lo hi : Z) (l : list (Z * Z)) : Prop :=
  Forall (λ p, lo ≤ p.1 ∧ 0 < p.2 ∧ p.1 + p.2 ≤ hi) l ∧ vdisj l.

Lemma vspans_app es1 es2 : vspans (es1 ++ es2) = vspans es1 ++ vspans es2.
Proof. apply bind_app. Qed.

Lemma vspans_cons x es : vspans (x :: es) = vspan x ++ vspans es.
Proof. done. Qed.

Lemma vspans_shift d es : vspans (shift_x d <$> es) = vspans es.
Proof. induction es as [|x es IH]; [done|]. cbn [fmap list_fmap]. rewrite !vspans_cons. by f_equal. Qed.

Lemma elem_of_vspans es x : x ∈ es → has_val x = true → (x_offs x, pad (x_size x)) ∈ vspans es.
Proof.
  intros Hx Hv. apply list_elem_of_bind. exists x. split; [|done]. unfold vspan. rewrite Hv. left.
Qed.

Lemma vspans_inv es p : p ∈ vspans es → ∃ x, x ∈ es ∧ has_val x = true ∧ p = (x_offs x, pad (x_size x)).
Proof.
  intros (x & Hp & Hx)%list_elem_of_bind. unfold vspan in Hp. destruct (has_val x) eqn:E.
  - apply list_elem_of_singleton in Hp as ->. by exists x.
  - by apply not_elem_of_nil in Hp.
Qed.

Lemma spans_ok_middle lo hi l1 p l2 : spans_ok lo hi (l1 ++ p :: l2) ↔
  spans_ok lo hi (l1 ++ l2) ∧ (lo ≤ p.1 ∧ 0 < p.2 ∧ p.1 + p.2 ≤ hi) ∧ Forall (disj p) (l1 ++ l2).
Proof. unfold spans_ok. rewrite vdisj_middle, !Forall_app, Forall_cons. tauto. Qed.

Lemma spans_ok_lower lo lo' hi l : spans_ok lo hi l → lo' ≤ lo → spans_ok lo' hi l.
Proof. intros [H1 H2] ?. split; [|done]. eapply Forall_impl; [done|]. cbn. intros. lia. Qed.

(** Removing the span at [offs] and closing the gap from below. *)
Definition close_gap (offs n : Z) (p : Z * Z) : Z * Z := if p.1 <? offs then (p.1 + n, p.2) else p.

Lemma vdisj_close_gap offs n l : 0 < n → Forall (λ p, 0 < p.2) l → Forall (disj (offs, n)) l → vdisj l →
  vdisj (close_gap offs n <$> l).
Proof.
  intros Hn. induction l as [|p l IH]; intros Hp Hd Hv; [done|]. cbn [fmap list_fmap vdisj] in *.
  rewrite Forall_cons in Hp, Hd. destruct Hp as [Hp0 Hp], Hd as [Hd0 Hd], Hv as [Hv0 Hv].
  split; [|by apply IH]. apply Forall_fmap. rewrite Forall_forall in *. intros q Hq.
  specialize (Hp q Hq). specialize (Hd q Hq). specialize (Hv0 q Hq).
  unfold disj, close_gap in *. cbn [fst snd] in *. cbn.
  destruct (Z.ltb_spec p.1 offs), (Z.ltb_spec q.1 offs); cbn [fst snd]; lia.
Qed.

Lemma spans_ok_close_gap lo hi offs n l : 0 < n → spans_ok lo hi l → Forall (disj (offs, n)) l →
  lo ≤ offs → offs + n ≤ hi → spans_ok (lo + n) hi (close_gap offs n <$> l).
Proof.
  intros Hn [H1 H2] Hd Hlo Hhi. split.
  - apply Forall_fmap. rewrite Forall_forall in *. intros p Hp. specialize (H1 p Hp). specialize (Hd p Hp).
    unfold close_gap, disj in *. cbn [fst snd] in Hd. cbn [compose].
    destruct (Z.ltb_spec p.1 offs); cbn [fst snd]; lia.
  - apply vdisj_close_gap; [done| |done|done]. eapply Forall_impl; [exact H1|]. cbn beta. intros p (_ & Hp & _). exact Hp.
Qed.

(** The lowest offset of a value. *)
Fixpoint lowest (m : Z) (es : list xentry) : Z :=
  match es with
  | [] => m
  | x :: es => lowest (if has_val x && (x_offs x <? m) then x_offs x else m) es
  end.

Lemma lowest_le m es : lowest m es ≤ m ∧ ∀ x, x ∈ es → has_val x = true → lowest m es ≤ x_offs x.
Proof.
  revert m. induction es as [|x es IH]; intros m; cbn [lowest]; [split; [lia|by intros ? ?%not_elem_of_nil]|].
  destruct (IH (if has_val x && (x_offs x <? m) then x_offs x else m)) as [H1 H2].
  destruct (has_val x) eqn:Hv; cbn [andb] in *; [destruct (Z.ltb_spec (x_offs x) m)|];
    (split; [lia|intros y [->|Hy]%elem_of_cons Hvy; [try lia; congruence|by apply H2]]).
Qed.

Lemma lowest_ge lo m es : lo ≤ m → (∀ x, x ∈ es → has_val x = true → lo ≤ x_offs x) → lo ≤ lowest m es.
Proof.
  revert m. induction es as [|x es IH]; intros m Hm Hx; [done|]. cbn [lowest]. apply IH.
  - destruct (has_val x) eqn:Hv; cbn [andb]; [|done]. destruct (_ <? _); [|done]. apply Hx; [left|done].
  - intros y Hy. apply Hx. by right.
Qed.

Lemma spans_lowest lo hi m es : spans_ok lo hi (vspans es) → spans_ok (lowest m es) hi (vspans es).
Proof.
  intros [H1 H2]. split; [|done]. rewrite Forall_forall in *. intros p Hp. specialize (H1 p Hp).
  apply vspans_inv in Hp as (x & Hx & Hv & ->). pose proof (proj2 (lowest_le m es) x Hx Hv). cbn in *. lia.
Qed.

Lemma spans_lowest_ge lo hi m es : spans_ok lo hi (vspans es) → lo ≤ m → lo ≤ lowest m es.
Proof.
  intros [H1 _] Hm. apply lowest_ge; [done|]. intros x Hx Hv. rewrite Forall_forall in H1.
  by apply (H1 _ (elem_of_vspans _ _ Hx Hv)).
Qed.

Lemma scan_entries_chain r e es e_end m fuel : chain r e es e_end → (length es < fuel)%nat →
  scan_entries fuel r (buf_end r) e m = Some (inr (e_end, lowest m es)).
Proof.
  intros H. revert m fuel. induction H as [e El|e x es e_end El Ex Hn Hz H IH]; intros m fuel Hf;
    (destruct fuel as [|fuel]; [lia|]); cbn [scan_entries]; rewrite El; cbn [mbind option_bind]; [done|].
  destruct (read_entry_Some _ _ _ Ex) as (_ & _ & _ & Eo & Eu & Es & _ & _ & Enx).
  rewrite Enx. cbn [mbind option_bind]. rewrite (proj2 (Z.leb_gt _ _)) by done.
  rewrite Eu, Es, Eo. cbn [mbind option_bind lowest]. apply IH. cbn in Hf. lia.
Qed.

(** Every list of entries is shorter than the fuel. *)
Lemma chain_fuel r e es e_end : 0 ≤ e → chain r e es e_end → (length es < fuel_of r)%nat.
Proof.
  intros He Hc. pose proof (chain_room _ _ _ _ Hc). apply chain_seg in Hc as [Hs _].
  apply seg_le in Hs. unfold fuel_of, buf_end in *. lia.
Qed.

(** ** The values *)

(** An entry whose value, if any, is in the buffer. *)
Record entry_ok (x : xentry) : Prop := {
  eo_index : 0 < x_index x;
  eo_inum : x_inum x = 0;
  eo_size : 0 ≤ x_size x ≤ EXT4_XATTR_SIZE_MAX;
  eo_empty : x_size x = 0 → x_offs x = 0 }.

Lemma entry_ok_val x : entry_ok x → has_val x = true ∨ x_size x = 0.
Proof. unfold has_val. intros [_ -> _ _]. destruct (Z.eqb_spec (x_size x) 0); [by right|by left]. Qed.

Lemma value_of_0 r base x : x_size x = 0 → value_of r base x = [].
Proof.
  intros H. unfold value_of. rewrite H. destruct (bytes_at r _ 0) eqn:E; [|done].
  apply bytes_at_length in E. destruct l; [done|]. cbn in E. lia.
Qed.

Lemma value_of_moved d r r' base x x' : x_offs x' = x_offs x + d → x_size x' = x_size x →
  0 ≤ base + x_offs x → 0 ≤ x_size x → base + x_offs x + x_size x ≤ buf_end r →
  0 ≤ base + x_offs x' → base + x_offs x' + x_size x ≤ buf_end r' →
  moved d r r' (base + x_offs x) (base + x_offs x + x_size x) →
  value_of r' base x' = value_of r base x.
Proof.
  intros Ho Hs ? ? ? ? ? Hm. unfold value_of. rewrite Hs, Ho in *.
  replace (base + (x_offs x + d)) with (base + x_offs x + d) in * by lia.
  rewrite (bytes_at_moved d r r' _ _ _ _ Hm); unfold buf_end in *; [done|lia|lia| |lia|lia].
  apply bytes_at_is_Some. lia.
Qed.

(** The value is the same where the values of the list are. *)
Lemma value_frame r r' base lo es x :
  spans_ok lo (buf_end r - base) (vspans es) → x ∈ es → entry_ok x → 0 ≤ base + lo →
  moved 0 r r' (base + lo) (buf_end r) → length r' = length r → value_of r' base x = value_of r base x.
Proof.
  intros [H _] Hx Hok Hlo Hm Hl. destruct (entry_ok_val x Hok) as [Hv|Hz]; [|by rewrite !value_of_0].
  rewrite Forall_forall in H. specialize (H _ (elem_of_vspans _ _ Hx Hv)). cbn [fst snd] in H.
  pose proof (pad_bounds (x_size x)). destruct Hok as [_ _ Hs _].
  assert (buf_end r' = buf_end r) as Eb by (unfold buf_end; by rewrite Hl).
  apply (value_of_moved 0); [lia|done|lia..|]. eapply moved_weaken; [done|lia|lia].
Qed.

(** What an entry stands for. *)
Definition attr (r : bytes) (base : Z) (x : xentry) : Z * bytes * bytes :=
  (x_index x, x_name x, value_of r base x).

Definition attrs (r : bytes) (base : Z) (es : list xentry) : list (Z * bytes * bytes) := attr r base <$> es.

Lemma attrs_app r base es1 es2 : attrs r base (es1 ++ es2) = attrs r base es1 ++ attrs r base es2.
Proof. apply fmap_app. Qed.

Lemma attrs_shift r base d es : attrs r base (shift_x d <$> es) = attrs r base es.
Proof. unfold attrs. rewrite <-list_fmap_compose. by apply list_fmap_ext. Qed.

Lemma attrs_frame r r' base lo es :
  spans_ok lo (buf_end r - base) (vspans es) → Forall entry_ok es → 0 ≤ base + lo →
  moved 0 r r' (base + lo) (buf_end r) → length r' = length r → attrs r' base es = attrs r base es.
Proof.
  intros Hs Hok Hlo Hm Hl. apply list_fmap_ext. intros i x Hi%list_elem_of_lookup_2. unfold attr. f_equal.
  rewrite Forall_forall in Hok. eapply value_frame; eauto.
Qed.

(** ** Adjusting the offsets, and removing a value *)

Definition adj_x (offs n : Z) (x : xentry) : xentry :=
  if has_val x && (x_offs x <? offs) then set_value_info (x_offs x + n) (x_inum x) (x_size x) x else x.

Lemma adj_x_name offs n x : x_name (adj_x offs n x) = x_name x ∧ x_index (adj_x offs n x) = x_index x ∧
  x_pos (adj_x offs n x) = x_pos x ∧ x_next (adj_x offs n x) = x_next x ∧ x_size (adj_x offs n x) = x_size x ∧
  x_inum (adj_x offs n x) = x_inum x ∧ has_val (adj_x offs n x) = has_val x.
Proof. unfold adj_x. by destruct (has_val x && _). Qed.

Lemma entry_ok_adj offs n x : entry_ok x → entry_ok (adj_x offs n x).
Proof.
  intros Hx. destruct (adj_x_name offs n x) as (_ & Ei & _ & _ & Es & Eu & _).
  destruct Hx as [H1 H2 H3 H4]. split; [by rewrite Ei|congruence|by rewrite Es|]. rewrite Es. intros Hz.
  unfold adj_x, has_val. rewrite Hz. cbn [Z.eqb negb andb]. rewrite andb_false_r. by apply H4.
Qed.

Lemma vspans_adj offs n es : vspans (adj_x offs n <$> es) = close_gap offs n <$> vspans es.
Proof.
  induction es as [|x es IH]; [done|]. cbn [fmap list_fmap]. rewrite !vspans_cons, fmap_app. f_equal; [|done].
  unfold vspan. destruct (adj_x_name offs n x) as (_ & _ & _ & _ & Es & _ & ->).
  destruct (has_val x) eqn:Hv; [|done]. cbn [fmap list_fmap]. f_equal. rewrite Es.
  unfold adj_x, close_gap. rewrite Hv. cbn [andb fst]. by destruct (x_offs x <? offs).
Qed.

Lemma read_entry_same r r' e x : read_entry r e = Some x → 0 ≤ e → length r' = length r → x_next x ≤ buf_end r →
  moved 0 r r' e (x_next x) → read_entry r' e = Some x.
Proof.
  intros Ex He Hl Hn Hm. rewrite <-(Z.add_0_r e) at 1. rewrite <-(shift_x_0 x).
  apply (read_entry_moved 0 r); [done|done|lia|done|unfold buf_end in *; lia].
Qed.

Lemma chain_head r e x es e_end : is_bytes r → read_entry r e = Some x → 0 ≤ e → x_index x ≠ 0 →
  x_next x < buf_end r → strnlen (x_name x) = Z.of_nat (length (x_name x)) → chain r (x_next x) es e_end →
  chain r e (x :: es) e_end.
Proof.
  intros Hb Ex He Hi Hn Hz H. destruct (read_entry_Some r e x Ex) as (Ep & _ & Ei & _).
  pose proof (x_next_pos x). econstructor; try done. eapply not_last; [done|done|done|done|lia].
Qed.

Lemma chain_cons_inv r e x es e_end : chain r e (x :: es) e_end →
  IS_LAST_ENTRY r e = Some false ∧ read_entry r e = Some x ∧ x_next x < buf_end r ∧
  strnlen (x_name x) = Z.of_nat (length (x_name x)) ∧ chain r (x_next x) es e_end ∧
  x_pos x = e ∧ e + 16 ≤ x_next x ≤ e_end.
Proof.
  intros H. inversion H as [|? ? ? ? Hl Ex Hn Hz Hs]; subst. destruct (read_entry_Some r e x Ex) as (Ep & _).
  pose proof (x_next_pos x). apply chain_seg in Hs as Hs'. destruct Hs' as [Hs' _]. apply seg_le in Hs'.
  split_and!; try done; lia.
Qed.

Lemma chain_same r r' e es e_end : chain r e es e_end → 0 ≤ e → moved 0 r r' e (e_end + 4) →
  length r' = length r → chain r' e es e_end.
Proof.
  intros [Hs Hl]%chain_seg He Hm Hlen. pose proof (seg_le _ _ _ _ Hs). apply chain_seg. split.
  - eapply seg_same; [done|done| |done]. eapply moved_weaken; [done|lia|lia].
  - eapply last_same; [done| |done]. eapply moved_weaken; [done|lia|lia].
Qed.

Lemma read_entry_set_offs r r' e x o : read_entry r e = Some x → 0 ≤ e → x_next x ≤ buf_end r →
  wr 2 r (e + E_VALUE_OFFS) o = Some r' → 0 ≤ o < 65536 →
  read_entry r' e = Some (set_value_info o (x_inum x) (x_size x) x).
Proof.
  intros Ex He Hn Hw Ho. destruct (read_entry_Some r e x Ex) as (Ep & _ & _ & _ & Eu & Es & Eh & _).
  pose proof (wr_length _ _ _ _ _ Hw). unfold set_value_info. rewrite Ep.
  unfold E_VALUE_OFFS, E_VALUE_INUM, E_VALUE_SIZE, E_HASH in *.
  apply (read_entry_upd r); try done; unfold E_VALUE_OFFS, E_VALUE_INUM, E_VALUE_SIZE, E_HASH.
  - eapply wr_moved; [done|lia].
  - eapply wr_moved; [done|lia].
  - rewrite (rd_wr_eq _ _ _ _ _ Hw). f_equal. apply Z.mod_small. done.
  - by rewrite (rd_wr_ne _ _ _ _ _ _ _ Hw) by lia.
  - by rewrite (rd_wr_ne _ _ _ _ _ _ _ Hw) by lia.
  - by rewrite (rd_wr_ne _ _ _ _ _ _ _ Hw) by lia.
Qed.

Lemma adjust_offsets_chain offs n es r e e_end fuel :
  is_bytes r → 0 ≤ e → chain r e es e_end → Forall entry_ok es →
  (∀ x, x ∈ es → has_val x = true → x_offs x < offs → 0 ≤ x_offs x + n < 65536) → (length es < fuel)%nat →
  ∃ r', adjust_offsets fuel r e offs n = Some (r', e_end) ∧ chain r' e (adj_x offs n <$> es) e_end ∧
    length r' = length r ∧ is_bytes r' ∧ ∀ k, k < e ∨ e_end ≤ k → zlookup r' k = zlookup r k.
Proof.
  revert r e fuel. induction es as [|x es IH]; intros r e fuel Hb He Hc Hok Hfit Hf;
    (destruct fuel as [|fuel]; [lia|]); cbn [adjust_offsets].
  { inversion Hc as [? El|]; subst. rewrite El. exists r. by split_and!. }
  apply chain_cons_inv in Hc as (El & Ex & Hn & Hz & Hc & Ep & Hpos). rewrite El. cbn [mbind option_bind].
  destruct (read_entry_Some r e x Ex) as (_ & _ & _ & Eo & Eu & Es & _ & _ & Enx).
  rewrite Eo, Eu, Es. cbn [mbind option_bind]. fold (has_val x). cbn [length] in Hf.
  apply Forall_cons in Hok as [Hx Hok].
  assert (∃ r1, (if has_val x && (x_offs x <? offs) then wr 2 r (e + E_VALUE_OFFS) (x_offs x + n) else Some r) = Some r1 ∧
    length r1 = length r ∧ is_bytes r1 ∧ read_entry r1 e = Some (adj_x offs n x) ∧
    (∀ k, k < e ∨ x_next x ≤ k → zlookup r1 k = zlookup r k)) as (r1 & -> & L1 & B1 & X1 & M1).
  { unfold adj_x. destruct (has_val x) eqn:Hv; cbn [andb]; [|by exists r].
    destruct (Z.ltb_spec (x_offs x) offs) as [Ho|]; [|by exists r].
    destruct (wr_in 2 r (e + E_VALUE_OFFS) (x_offs x + n)) as (r1 & Hw & L); [unfold E_VALUE_OFFS; lia..|].
    exists r1. split_and!; [done|done|by eapply wr_bytes|eapply read_entry_set_offs; try done; [lia|]|].
    - apply Hfit; [left|done|done].
    - intros k Hk. rewrite (put_at_zlookup _ _ _ _ k Hw), le_split_length.
      unfold E_VALUE_OFFS. by rewrite decide_False by lia. }
  cbn [mbind option_bind]. destruct (adj_x_name offs n x) as (En & Ei & _ & Enx' & _).
  destruct (read_entry_Some r1 e _ X1) as (_ & _ & _ & _ & _ & _ & _ & _ & Enx1). rewrite Enx1, Enx'.
  cbn [mbind option_bind]. assert (buf_end r1 = buf_end r) as Eb by (unfold buf_end; by rewrite L1).
  destruct (IH r1 (x_next x) fuel) as (r' & -> & Hc' & L' & B' & M').
  { done. } { lia. } { eapply chain_same; [done|lia| |done]. intros k Hk. rewrite Z.add_0_r. apply M1. lia. }
  { done. } { intros y Hy. apply Hfit. by right. } { lia. }
  exists r'. split; [done|]. split; [|split; [lia|split; [done|]]].
  - cbn [fmap list_fmap]. apply chain_head.
    + done.
    + eapply read_entry_same; [done|done|done|lia|]. intros k Hk. rewrite Z.add_0_r. apply M'. lia.
    + done.
    + rewrite Ei. destruct Hx. lia.
    + rewrite Enx'. unfold buf_end in *. lia.
    + by rewrite En.
    + by rewrite Enx'.
  - intros k Hk. rewrite M' by lia. apply M1. lia.
Qed.

Lemma Forall_middle {A} (P : A → Prop) l1 x l2 : Forall P (l1 ++ x :: l2) ↔ Forall P (l1 ++ l2) ∧ P x.
Proof. rewrite !Forall_app, Forall_cons. tauto. Qed.

(** The two moves that close the gap of a value [n] bytes long at [o]. *)
Lemma close_gap_bytes r a o n : is_bytes r → 0 ≤ a ≤ o → 0 < n → o + n ≤ buf_end r →
  ∃ r1 r2, memmove r (a + n) a (o - a) = Some r1 ∧ memset r1 a 0 n = Some r2 ∧
    is_bytes r2 ∧ length r2 = length r ∧ moved n r r2 a o ∧ moved 0 r r2 (o + n) (buf_end r) ∧
    ∀ k, k < a → zlookup r2 k = zlookup r k.
Proof.
  intros Hb Ha Hn Ho. unfold buf_end in *.
  destruct (memmove_Some r (a + n) a (o - a)) as [r1 E1]; [lia..|]. destruct (memmove_spec _ _ _ _ _ E1) as [L1 Z1].
  destruct (memset_Some r1 a 0 n) as [r2 E2]; [lia..|]. destruct (memset_spec _ _ _ _ _ E2) as [L2 Z2].
  exists r1, r2. split_and!; [done|done| |lia| | |].
  - eapply memset_bytes; [done|done|by eapply memmove_bytes].
  - intros k Hk. rewrite Z2, Z1. rewrite decide_False, decide_True by lia. f_equal. lia.
  - intros k Hk. rewrite Z2, Z1. by rewrite Z.add_0_r, !decide_False by lia.
  - intros k Hk. rewrite Z2, Z1. by rewrite !decide_False by lia.
Qed.

(** What closing the gap of the value of [x] does to another value. *)
Lemma close_gap_value r r' base m x y n :
  entry_ok y → 0 ≤ base + m → 0 < n →
  (has_val y = true → m ≤ x_offs y ∧ disj (x_offs x, n) (x_offs y, pad (x_size y)) ∧
     x_offs y + pad (x_size y) ≤ buf_end r - base) → x_offs x + n ≤ buf_end r - base →
  length r' = length r → moved n r r' (base + m) (base + x_offs x) → moved 0 r r' (base + x_offs x + n) (buf_end r) →
  value_of r' base (adj_x (x_offs x) n y) = value_of r base y.
Proof.
  intros Hy Hm Hn Hv Hx Hl M1 M2. destruct (adj_x_name (x_offs x) n y) as (_ & _ & _ & _ & Es & _ & _).
  destruct (entry_ok_val y Hy) as [Hvy|Hz]; [|by rewrite !value_of_0 by congruence].
  destruct (Hv Hvy) as (H1 & H2 & H3). pose proof (pad_bounds (x_size y)). destruct Hy as [_ _ Hs _].
  assert (buf_end r' = buf_end r) as Eb by (unfold buf_end; by rewrite Hl).
  assert (0 < pad (x_size y)) as Hpp.
  { apply pad_pos. unfold has_val in Hvy. to_prop. lia. }
  unfold disj in H2. cbn [fst snd] in H2. revert Es. unfold adj_x. rewrite Hvy. cbn [andb].
  destruct (Z.ltb_spec (x_offs y) (x_offs x)) as [Hlt|Hge]; intros Es.
  - apply (value_of_moved n); cbn; try lia. eapply moved_weaken; [exact M1|lia|lia].
  - apply (value_of_moved 0); try lia. eapply moved_weaken; [exact M2|lia|lia].
Qed.

Section remove.
Context (r : bytes) (base first e_end m : Z) (es1 es2 : list xentry) (x : xentry).
Hypothesis (Hb : is_bytes r) (Hbase : 0 ≤ base ≤ first).
Hypothesis (Hc : chain r first (es1 ++ x :: es2) e_end).
Hypothesis (Hok : Forall entry_ok (es1 ++ x :: es2)).
Hypothesis (Hsp : spans_ok m (buf_end r - base) (vspans (es1 ++ x :: es2))).
Hypothesis (Hm : e_end + 4 ≤ base + m) (Hsmall : buf_end r ≤ 65536) (Hv : has_val x = true).

Let adj := adj_x (x_offs x) (pad (x_size x)).

Lemma remove_spans :
  m ≤ x_offs x ∧ 0 < pad (x_size x) ∧ x_offs x + pad (x_size x) ≤ buf_end r - base ∧
  spans_ok m (buf_end r - base) (vspans (es1 ++ es2)) ∧
  Forall (disj (x_offs x, pad (x_size x))) (vspans (es1 ++ es2)).
Proof.
  rewrite vspans_app, vspans_cons in Hsp. unfold vspan in Hsp. rewrite Hv in Hsp. cbn [app] in Hsp.
  rewrite vspans_app. apply spans_ok_middle in Hsp as (H1 & H2 & H3). cbn [fst snd] in H2. split_and!; try done; lia.
Qed.

Lemma remove_value_chain :
  ∃ r', remove_value r base first (x_pos x) m (pad (x_size x)) = Some (r', e_end, m + pad (x_size x)) ∧
    chain r' first (adj <$> (es1 ++ x :: es2)) e_end ∧ length r' = length r ∧ is_bytes r' ∧
    (∀ k, k < first → zlookup r' k = zlookup r k) ∧
    attrs r' base (adj <$> (es1 ++ es2)) = attrs r base (es1 ++ es2) ∧
    spans_ok (m + pad (x_size x)) (buf_end r - base) (vspans (adj <$> (es1 ++ es2))).
Proof.
  destruct remove_spans as (S1 & S2 & S3 & S4 & S5). set (n := pad (x_size x)) in *.
  assert (0 ≤ first) as Hf by lia. apply chain_seg in Hc as Hcs. destruct Hcs as [Hs _].
  apply seg_le in Hs as Hle. apply seg_app in Hs as (p & Hs1 & Hs2). pose proof (seg_le _ _ _ _ Hs1).
  apply seg_cons_inv in Hs2 as (Ep & _ & Ex & _).
  destruct (read_entry_Some _ _ _ Ex) as (_ & _ & _ & Eo & _). pose proof (rd_range _ _ _ _ Hb Eo) as Ro.
  destruct (close_gap_bytes r (base + m) (base + x_offs x) n) as (r1 & r2 & E1 & E2 & B2 & L2 & Mlo & Mhi & Z2);
    [done|lia|done|lia|].
  destruct (adjust_offsets_chain (x_offs x) n (es1 ++ x :: es2) r2 first e_end (fuel_of r2))
    as (r' & Ea & Hc' & L' & B' & Z').
  - done. - done. - eapply chain_same; [done|done| |done]. intros k Hk. rewrite Z.add_0_r. apply Z2. lia.
  - done.
  - intros y Hy Hvy Hlt. destruct Hsp as [Hsp' _]. rewrite Forall_forall in Hsp'.
    specialize (Hsp' _ (elem_of_vspans _ _ Hy Hvy)). cbn [fst snd] in Hsp'.
    destruct (chain_in r first _ _ y Hc Hf Hy) as (Ey & _).
    destruct (read_entry_Some _ _ _ Ey) as (_ & _ & _ & Eoy & _). pose proof (rd_range _ _ _ _ Hb Eoy) as Roy.
    lia.
  - eapply (chain_fuel r) in Hf; [|done]. unfold fuel_of in *. lia.
  - exists r'. assert (∀ a b d, moved d r r2 a b → e_end ≤ a + d → moved d r r' a b) as Hmv.
    { intros a b d Hmv Hd k Hk. rewrite Z' by lia. by apply Hmv. }
    split_and!.
    + unfold remove_value. rewrite Ep, Eo. cbn [mbind option_bind].
      replace (base + x_offs x - (base + m)) with (base + x_offs x - (base + m)) by done.
      rewrite E1. cbn [mbind option_bind]. rewrite E2. cbn [mbind option_bind]. rewrite Ea. done.
    + done.
    + lia.
    + done.
    + intros k Hk. rewrite Z' by lia. apply Z2. lia.
    + unfold attrs. rewrite <-list_fmap_compose. apply list_fmap_ext. intros i y Hi%list_elem_of_lookup_2.
      unfold compose, attr, adj. destruct (adj_x_name (x_offs x) n y) as (-> & -> & _). f_equal.
      apply (close_gap_value r r' base m); try done; try lia.
      * apply Forall_middle in Hok as [Hok' _]. rewrite Forall_forall in Hok'. by apply Hok'.
      * intros Hvy. pose proof (elem_of_vspans _ _ Hi Hvy) as Hin. destruct S4 as [S4 _].
        rewrite Forall_forall in S4, S5. specialize (S4 _ Hin). specialize (S5 _ Hin). cbn [fst snd] in S4.
        split_and!; try done; lia.
      * apply Hmv; [done|lia].
      * apply Hmv; [done|lia].
    + unfold adj. rewrite vspans_adj. by apply spans_ok_close_gap.
Qed.

End remove.

(** ** Removing and inserting names *)

Definition zeros_at (r : bytes) (a b : Z) : Prop := ∀ k, a ≤ k < b → zlookup r k = Some 0.

Lemma rd_zeros n r off : zeros_at r off (off + Z.of_nat n) → 0 ≤ off → off + Z.of_nat n ≤ buf_end r →
  rd n r off = Some 0.
Proof.
  intros Hz Ha Hb. unfold rd. destruct (proj2 (bytes_at_is_Some r off (Z.of_nat n))) as [bs E]; [unfold buf_end in *; lia|].
  rewrite E. cbn [fmap option_fmap option_map]. f_equal. pose proof (bytes_at_length _ _ _ _ E) as L.
  assert (∀ k : nat, (k < length bs)%nat → bs !! k = Some 0) as H0.
  { intros k Hk. pose proof (bytes_at_zlookup _ _ _ _ (Z.of_nat k) E) as Hk'. rewrite Hz in Hk' by lia.
    unfold zlookup in Hk'. rewrite (proj2 (Z.ltb_ge _ _)), Nat2Z.id in Hk' by lia. apply Hk'. lia. }
  clear -H0. induction bs as [|b bs IH]; [done|]. cbn [le_combine]. rewrite IH.
  - specialize (H0 0%nat). cbn in H0. assert (Some b = Some 0) as [= ->] by (apply H0; lia). done.
  - intros k Hk. apply (H0 (S k)). cbn. lia.
Qed.

Lemma last_zeros r e : zeros_at r e (e + 4) → 0 ≤ e → e + 4 ≤ buf_end r → IS_LAST_ENTRY r e = Some true.
Proof. intros. unfold IS_LAST_ENTRY. by rewrite (rd_zeros 4). Qed.

(** A list out of a first part that stays and a second that was moved. *)
Lemma chain_join r r' first es1 p es2 q e_end d mid : chain r q es2 e_end → 0 ≤ q + d → 0 ≤ q →
  length r' = length r → seg r first es1 p → 0 ≤ first → moved 0 r r' first p → moved d r r' q e_end →
  e_end + d + 4 ≤ buf_end r → IS_LAST_ENTRY r' (e_end + d) = Some true →
  (seg r' first es1 p → seg r' p mid (q + d)) → chain r' first (es1 ++ mid ++ (shift_x d <$> es2)) (e_end + d).
Proof.
  intros [Hs2 _]%chain_seg Hqd Hq Hlen Hs1 Hf M1 M2 Hend Hl Hmid. apply chain_seg. split; [|done].
  assert (seg r' first es1 p) as Hs1' by by eapply seg_same.
  apply seg_app. exists p. split; [done|]. apply seg_app. exists (q + d). split; [by apply Hmid|].
  eapply seg_moved; try done. intros _. lia.
Qed.

Lemma remove_name_chain r first es1 x es2 e_end :
  is_bytes r → 0 ≤ first → chain r first (es1 ++ x :: es2) e_end →
  let size := EXT4_XATTR_LEN (Z.of_nat (length (x_name x))) in
  ∃ r', remove_name r (x_pos x) e_end (Z.of_nat (length (x_name x))) = Some r' ∧
    chain r' first (es1 ++ (shift_x (- size) <$> es2)) (e_end - size) ∧
    length r' = length r ∧ is_bytes r' ∧ moved 0 r r' 0 first ∧ moved 0 r r' (e_end + 4) (buf_end r).
Proof.
  intros Hb Hf Hc size. pose proof (chain_room _ _ _ _ Hc) as [_ Hend]. apply chain_seg in Hc as [Hs Hl].
  apply seg_app in Hs as (p & Hs1 & Hs2). pose proof (seg_le _ _ _ _ Hs1).
  apply seg_cons_inv in Hs2 as (Ep & _ & _ & _ & _ & Hs2 & Hpos).
  pose proof (LEN_bounds (Z.of_nat (length (x_name x)))) as [Hsz _]. fold size in Hsz.
  assert (x_next x = p + size) as En by (unfold x_next; by rewrite Ep).
  unfold remove_name. rewrite Ep. fold size. unfold buf_end in *.
  destruct (memmove_Some r p (p + size) (e_end - size - p + 4)) as [r1 E1]; [lia..|].
  destruct (memmove_spec _ _ _ _ _ E1) as [L1 Z1].
  destruct (memset_Some r1 (e_end - size) 0 size) as [r' E2]; [lia..|]. destruct (memset_spec _ _ _ _ _ E2) as [L2 Z2].
  exists r'. rewrite E1. cbn [mbind option_bind]. split; [done|]. split_and!.
  - replace (e_end - size) with (e_end + - size) by lia.
    eapply (chain_join r r' first es1 p es2 (x_next x) e_end (- size) []); unfold buf_end; try (lia || done).
    + by apply chain_seg.
    + intros k Hk. rewrite Z2, Z1, Z.add_0_r. by rewrite !decide_False by lia.
    + intros k Hk. rewrite Z2, Z1. rewrite decide_False, decide_True by lia. f_equal. lia.
    + apply last_zeros; unfold buf_end; try lia. intros k Hk. rewrite Z2. by rewrite decide_True by lia.
    + intros _. replace (x_next x + - size) with p by lia. constructor.
  - lia.
  - eapply memset_bytes; [done|done|by eapply memmove_bytes].
  - intros k Hk. rewrite Z2, Z1, Z.add_0_r. by rewrite !decide_False by lia.
  - intros k Hk. rewrite Z2, Z1, Z.add_0_r. by rewrite !decide_False by lia.
Qed.

Lemma rd_put_ne n r r' off bs off' : put_at r off bs = Some r' →
  off' + Z.of_nat n ≤ off ∨ off + Z.of_nat (length bs) ≤ off' → rd n r' off' = rd n r off'.
Proof. intros H Hd. unfold rd. by rewrite (bytes_at_put_ne _ _ _ _ _ _ H). Qed.

(** The bytes of a new entry. *)
Lemma new_entry_bytes r p size idx name :
  is_bytes r → 0 ≤ p → zeros_at r p (p + size) → p + size ≤ buf_end r →
  size = EXT4_XATTR_LEN (Z.of_nat (length name)) → 0 < idx < 256 → (length name ≤ 255)%nat → is_bytes name →
  ∃ r1 r2 r3, wr 1 r (p + E_NAME_INDEX) idx = Some r1 ∧ wr 1 r1 (p + E_NAME_LEN) (Z.of_nat (length name)) = Some r2 ∧
    put_at r2 (p + E_NAME) name = Some r3 ∧ length r3 = length r ∧ is_bytes r3 ∧
    read_entry r3 p = Some (XEntry p idx name 0 0 0 0) ∧ moved 0 r r3 0 p ∧ moved 0 r r3 (p + size) (buf_end r).
Proof.
  intros Hb Hp Hz Hend Hsize Hi Hn Hbn. pose proof (LEN_bounds (Z.of_nat (length name))) as [Hsz _].
  rewrite <-Hsize in Hsz. unfold E_NAME_INDEX, E_NAME_LEN, E_NAME, buf_end in *.
  destruct (wr_in 1 r (p + 1) idx) as (r1 & E1 & L1); [unfold buf_end; lia..|].
  destruct (wr_in 1 r1 (p + 0) (Z.of_nat (length name))) as (r2 & E2 & L2); [unfold buf_end; lia..|].
  destruct (put_at_Some r2 (p + 16) name) as [r3 E3]; [lia..|]. pose proof (put_at_length _ _ _ _ E3) as L3.
  assert (∀ k, k < p ∨ p + 2 ≤ k < p + 16 ∨ p + size ≤ k → zlookup r3 k = zlookup r k) as Hsame.
  { intros k Hk. rewrite (put_at_zlookup _ _ _ _ k E3), (put_at_zlookup _ _ _ _ k E2), (put_at_zlookup _ _ _ _ k E1).
    rewrite !le_split_length. by rewrite !decide_False by lia. }
  exists r1, r2, r3. split_and!; try done; try lia.
  - eapply put_at_bytes; [done|done|]. eapply wr_bytes; [done|]. by eapply wr_bytes.
  - unfold read_entry, E_NAME_LEN, E_NAME_INDEX, E_VALUE_OFFS, E_VALUE_INUM, E_VALUE_SIZE, E_HASH, E_NAME.
    assert (∀ n off, p + 2 ≤ off → off + Z.of_nat n ≤ p + 16 → rd n r3 off = Some 0) as H0.
    { intros n off ??. apply rd_zeros; unfold buf_end; try lia. intros k Hk. rewrite Hsame by lia. apply Hz. lia. }
    rewrite (rd_put_ne 1 _ _ _ _ (p + 0) E3) by lia.
    rewrite (rd_wr_eq _ _ _ _ _ E2). cbn [mbind option_bind].
    rewrite (rd_put_ne 1 _ _ _ _ (p + 1) E3) by lia.
    rewrite (rd_wr_ne _ 1 _ _ _ (p + 1) _ E2) by lia. rewrite (rd_wr_eq _ _ _ _ _ E1). cbn [mbind option_bind].
    rewrite !H0 by lia. cbn [mbind option_bind]. change (2 ^ (8 * Z.of_nat 1)) with 256.
    rewrite (Z.mod_small (Z.of_nat (length name))), (Z.mod_small idx) by lia.
    by rewrite (bytes_at_put_eq _ _ _ _ E3).
  - intros k Hk. rewrite Z.add_0_r. apply Hsame. lia.
  - intros k Hk. rewrite Z.add_0_r. apply Hsame. lia.
Qed.

Lemma insert_name_chain r first es1 es2 p e_end idx name :
  is_bytes r → 0 ≤ first → chain r first (es1 ++ es2) e_end → seg r first es1 p → chain r p es2 e_end →
  0 < idx < 256 → (length name ≤ 255)%nat → is_bytes name → strnlen name = Z.of_nat (length name) →
  let size := EXT4_XATTR_LEN (Z.of_nat (length name)) in
  e_end + size + 4 ≤ buf_end r →
  ∃ r', insert_name r p e_end idx name = Some r' ∧
    chain r' first (es1 ++ XEntry p idx name 0 0 0 0 :: (shift_x size <$> es2)) (e_end + size) ∧
    length r' = length r ∧ is_bytes r' ∧ moved 0 r r' 0 first ∧ moved 0 r r' (e_end + size + 4) (buf_end r).
Proof.
  intros Hb Hf Hc Hs1 Hc2 Hi Hn Hbn Hz size Hend.
  pose proof (seg_le _ _ _ _ Hs1). apply chain_seg in Hc2 as Hc2'. destruct Hc2' as [Hs2 Hl]. pose proof (seg_le _ _ _ _ Hs2).
  pose proof (LEN_bounds (Z.of_nat (length name))) as [Hsz _]. fold size in Hsz.
  unfold insert_name. fold size. unfold buf_end in *.
  destruct (memmove_Some r (p + size) p (e_end - p + 4)) as [r1 E1]; [lia..|].
  destruct (memmove_spec _ _ _ _ _ E1) as [L1 Z1].
  destruct (memset_Some r1 p 0 size) as [r2 E2]; [lia..|]. destruct (memset_spec _ _ _ _ _ E2) as [L2 Z2].
  destruct (new_entry_bytes r2 p size idx name) as (r3 & r4 & r' & E3 & E4 & E5 & L5 & B5 & X5 & M1 & M2);
    unfold buf_end; try (lia || done).
  { eapply memset_bytes; [done|done|by eapply memmove_bytes]. }
  { intros k Hk. rewrite Z2. by rewrite decide_True by lia. }
  exists r'. rewrite E1. cbn [mbind option_bind]. rewrite E2. cbn [mbind option_bind].
  rewrite E3. cbn [mbind option_bind]. rewrite E4. cbn [mbind option_bind]. split; [done|].
  unfold buf_end in M2.
  assert (∀ k, k < p → 0 ≤ k → zlookup r' k = zlookup r k) as Hlo.
  { intros k ? ?. rewrite <-(Z.add_0_r k) at 1. rewrite M1 by lia. rewrite Z2, Z1. by rewrite !decide_False by lia. }
  assert (∀ k, p + size ≤ k < Z.of_nat (length r) → zlookup r' k = zlookup r1 k) as Hhi.
  { intros k ?. rewrite <-(Z.add_0_r k) at 1. rewrite M2 by lia. rewrite Z2. by rewrite !decide_False by lia. }
  assert (moved size r r' p (e_end + 4)) as Hmv.
  { intros k Hk. rewrite Hhi, Z1 by lia. rewrite decide_True by lia. f_equal. lia. }
  split_and!; try done; try lia.
  - apply (chain_join r r' first es1 p es2 p e_end size [XEntry p idx name 0 0 0 0]); unfold buf_end; try (lia || done).
    + intros k Hk. rewrite Z.add_0_r. apply Hlo; lia.
    + eapply moved_weaken; [done|lia|lia].
    + eapply last_moved; [done|lia| |unfold buf_end; lia]. eapply moved_weaken; [done|lia|lia].
    + intros _. pose proof (read_entry_Some _ _ _ X5) as (_ & _ & Ei & _).
      assert (x_next (XEntry p idx name 0 0 0 0) = p + size) as En by done.
      econstructor; [|done| |done|rewrite En; constructor].
      * eapply not_last; [done|done|cbn; lia|lia|unfold buf_end; lia].
      * rewrite En. unfold buf_end. lia.
  - intros k Hk. rewrite Z.add_0_r. apply Hlo; lia.
  - intros k Hk. rewrite Z.add_0_r, Hhi, Z1 by lia. by rewrite decide_False by lia.
Qed.

(** ** Writing the value of an entry *)

(** The entry in the middle of a list after writes to its fields. *)
Lemma chain_upd r r' first es1 x es2 e_end o u s h :
  is_bytes r' → chain r first (es1 ++ x :: es2) e_end → 0 ≤ first → length r' = length r → 0 < x_index x →
  (∀ k, first ≤ k < x_pos x + 2 ∨ x_pos x + 16 ≤ k < e_end + 4 → zlookup r' k = zlookup r k) →
  rd16 r' (x_pos x + E_VALUE_OFFS) = Some o → rd32 r' (x_pos x + E_VALUE_INUM) = Some u →
  rd32 r' (x_pos x + E_VALUE_SIZE) = Some s → rd32 r' (x_pos x + E_HASH) = Some h →
  chain r' first (es1 ++ XEntry (x_pos x) (x_index x) (x_name x) o u s h :: es2) e_end.
Proof.
  intros Hb Hc Hf Hlen Hi Hsame Ho Hu Hs Hh. pose proof Hc as Hc0. apply chain_seg in Hc as [Hseg _].
  apply seg_app in Hseg as (p & H1 & H2). pose proof (seg_le _ _ _ _ H1).
  apply seg_cons_inv in H2 as (<- & _ & Ex & Hn & _ & H3 & Hp). pose proof (seg_le _ _ _ _ H3).
  assert (∀ a b, first ≤ a → b ≤ x_pos x + 2 ∨ x_pos x + 16 ≤ a ∧ b ≤ e_end + 4 → moved 0 r r' a b) as Hm.
  { intros a b Ha Hab k Hk. rewrite Z.add_0_r. apply Hsame. lia. }
  eapply chain_replace; try done; try (by apply Hm; lia).
  - eapply read_entry_upd; try done; [lia..|apply Hm; lia|apply Hm; lia].
  - cbn. lia.
Qed.

Lemma chain_middle r first es1 x es2 e_end : chain r first (es1 ++ x :: es2) e_end → 0 ≤ first →
  read_entry r (x_pos x) = Some x ∧ first ≤ x_pos x ∧ x_pos x + 16 ≤ x_next x ≤ e_end ∧ x_next x < buf_end r.
Proof.
  intros [Hs _]%chain_seg Hf. apply seg_app in Hs as (p & H1 & H2). pose proof (seg_le _ _ _ _ H1).
  apply seg_cons_inv in H2 as (<- & _ & Ex & Hn & _ & _ & Hp). split_and!; try done; lia.
Qed.

Lemma wr_zlookup n r r' off z k : wr n r off z = Some r' → k < off ∨ off + Z.of_nat n ≤ k →
  zlookup r' k = zlookup r k.
Proof. intros H Hk. rewrite (put_at_zlookup _ _ _ _ k H), le_split_length. by rewrite decide_False by lia. Qed.

(** The bytes that are stored. *)
Definition value_bytes (value : xattr_value) (len : Z) : bytes :=
  match value with
  | EXT4_ZERO_XATTR_VALUE => replicate (Z.to_nat len) 0
  | ValueBytes v => take (Z.to_nat len) v
  end.

(** The caller's buffer has the length it says. *)
Definition value_valid (value : xattr_value) (len : Z) : Prop :=
  match value with
  | EXT4_ZERO_XATTR_VALUE => True
  | ValueBytes v => is_bytes v ∧ len ≤ Z.of_nat (length v)
  end.

Lemma bytes_at_0 v len : 0 ≤ len ≤ Z.of_nat (length v) → bytes_at v 0 len = Some (take (Z.to_nat len) v).
Proof. intros. unfold bytes_at. rewrite !(proj2 (Z.leb_le _ _)) by lia. done. Qed.

Lemma store_value_spec r val value len n :
  is_bytes r → value_valid value len → 0 ≤ len ≤ n → 0 ≤ val → val + n ≤ buf_end r →
  ∃ r', store_value r val value len n = Some r' ∧ bytes_at r' val len = Some (value_bytes value len) ∧
    length r' = length r ∧ is_bytes r' ∧ ∀ k, k < val ∨ val + n ≤ k → zlookup r' k = zlookup r k.
Proof.
  intros Hb Hv Hn Hval Hend. unfold store_value, buf_end in *. destruct value as [|v].
  - destruct (memset_Some r val 0 n) as [r' E]; [lia..|]. destruct (memset_spec _ _ _ _ _ E) as [L Z0].
    exists r'. split; [done|]. split_and!; [|done|by eapply memset_bytes|intros k Hk; rewrite Z0; by rewrite decide_False by lia].
    destruct (proj2 (bytes_at_is_Some r' val len)) as [bs Ebs]; [lia|]. rewrite Ebs. f_equal.
    pose proof (bytes_at_length _ _ _ _ Ebs). apply list_eq. intros i.
    rewrite (bytes_at_lookup _ _ _ _ _ Ebs). cbn [value_bytes]. case_decide.
    + rewrite lookup_replicate_2 by lia. specialize (Z0 (val + Z.of_nat i)). rewrite decide_True in Z0 by lia.
      unfold zlookup in Z0. rewrite (proj2 (Z.ltb_ge _ _)) in Z0 by lia.
      by rewrite Z2Nat.inj_add, Nat2Z.id in Z0 by lia.
    + symmetry. apply lookup_replicate_None. lia.
  - destruct Hv as [Hbv Hlen]. rewrite bytes_at_0 by lia. cbn [mbind option_bind value_bytes].
    set (b := take (Z.to_nat len) v). assert (Z.of_nat (length b) = len) as Lb by (subst b; rewrite length_take; lia).
    destruct (put_at_Some r val b) as [r1 E1]; [lia..|]. pose proof (put_at_length _ _ _ _ E1).
    rewrite E1. cbn [mbind option_bind].
    destruct (memset_Some r1 (val + len) 0 (n - len)) as [r' E]; [lia..|]. destruct (memset_spec _ _ _ _ _ E) as [L Z0].
    exists r'. split; [done|]. split_and!; [|lia| |].
    + pose proof (bytes_at_put_eq _ _ _ _ E1) as Eb. rewrite Lb in Eb. rewrite <-Eb, <-(Z.add_0_r val) at 1.
      apply (bytes_at_moved 0 r1 r' val (val + len)); try lia; [|by rewrite Eb].
      intros k Hk. rewrite Z.add_0_r, Z0. by rewrite decide_False by lia.
    + eapply memset_bytes; [done|done|]. eapply put_at_bytes; [done| |done]. by apply Forall_take.
    + intros k Hk. rewrite Z0, (put_at_zlookup _ _ _ _ k E1). by rewrite !decide_False by lia.
Qed.

Lemma reset_value_chain r first es1 x es2 e_end :
  is_bytes r → chain r first (es1 ++ x :: es2) e_end → 0 ≤ first → 0 < x_index x →
  ∃ r', reset_value_info r (x_pos x) = Some r' ∧
    chain r' first (es1 ++ set_value_info 0 0 0 x :: es2) e_end ∧ length r' = length r ∧ is_bytes r' ∧
    ∀ k, k < first ∨ e_end ≤ k → zlookup r' k = zlookup r k.
Proof.
  intros Hb Hc Hf Hi. destruct (chain_middle _ _ _ _ _ _ Hc Hf) as (Ex & Hp & Hn & Hn').
  unfold reset_value_info. set (p := x_pos x) in *.
  destruct (wr_in 4 r (p + E_VALUE_INUM) 0) as (r1 & E1 & L1); [unfold E_VALUE_INUM, buf_end in *; lia..|].
  destruct (wr_in 2 r1 (p + E_VALUE_OFFS) 0) as (r2 & E2 & L2); [unfold E_VALUE_OFFS, buf_end in *; lia..|].
  destruct (wr_in 4 r2 (p + E_VALUE_SIZE) 0) as (r3 & E3 & L3); [unfold E_VALUE_SIZE, buf_end in *; lia..|].
  rewrite E1. cbn [mbind option_bind]. rewrite E2. cbn [mbind option_bind]. exists r3. split; [done|].
  destruct (read_entry_Some _ _ _ Ex) as (_ & _ & _ & _ & _ & _ & Eh & _).
  unfold E_VALUE_INUM, E_VALUE_OFFS, E_VALUE_SIZE, E_HASH in *.
  assert (∀ k, k < p + 2 ∨ p + 12 ≤ k → zlookup r3 k = zlookup r k) as Hsame.
  { intros k Hk. by rewrite (wr_zlookup _ _ _ _ _ k E3), (wr_zlookup _ _ _ _ _ k E2), (wr_zlookup _ _ _ _ _ k E1) by lia. }
  assert (is_bytes r3) as B3 by (by repeat (eapply wr_bytes; [eassumption|])).
  split_and!; [|lia|done|intros k Hk; apply Hsame; lia].
  apply (chain_upd r); try done; unfold E_VALUE_INUM, E_VALUE_OFFS, E_VALUE_SIZE, E_HASH; fold p; try lia.
  - intros k Hk. apply Hsame. lia.
  - rewrite (rd_wr_ne _ _ _ _ _ _ _ E3), (rd_wr_eq _ _ _ _ _ E2) by lia. done.
  - rewrite (rd_wr_ne _ _ _ _ _ _ _ E3), (rd_wr_ne _ _ _ _ _ _ _ E2), (rd_wr_eq _ _ _ _ _ E1) by lia. done.
  - by rewrite (rd_wr_eq _ _ _ _ _ E3).
  - by rewrite (rd_wr_ne _ _ _ _ _ _ _ E3), (rd_wr_ne _ _ _ _ _ _ _ E2), (rd_wr_ne _ _ _ _ _ _ _ E1) by lia.
Qed.

Section insert.
Context (r : bytes) (base first e_end m : Z) (es1 es2 : list xentry) (x : xentry).
Context (value : xattr_value) (len : Z).
Hypothesis (Hb : is_bytes r) (Hbase : 0 ≤ base ≤ first) (Hsmall : buf_end r ≤ 65536).
Hypothesis (Hc : chain r first (es1 ++ x :: es2) e_end).
Hypothesis (Hi : 0 < x_index x) (Hu0 : x_inum x = 0).
Hypothesis (Hval : value_valid value len) (Hlen : 0 ≤ len ≤ EXT4_XATTR_SIZE_MAX).
Hypothesis (Hok : Forall entry_ok (es1 ++ es2)).
Hypothesis (Hsp : spans_ok m (buf_end r - base) (vspans (es1 ++ es2))).
Hypothesis (Hm : m ≤ buf_end r - base) (Hroom : e_end + 4 ≤ base + m - pad len).

Let n := pad len.
Let p := x_pos x.
Let o := if len =? 0 then x_offs x else m - n.

(** Before the size is written. *)
Lemma insert_value_bytes :
  ∃ r2, (if negb (len =? 0) then
           r ← wr 2 r (p + E_VALUE_OFFS) (m - n); store_value r (base + m - n) value len n
         else Some r) = Some r2 ∧
    length r2 = length r ∧ is_bytes r2 ∧ rd16 r2 (p + E_VALUE_OFFS) = Some o ∧
    (len ≠ 0 → bytes_at r2 (base + o) len = Some (value_bytes value len)) ∧
    ∀ k, k < p + 2 ∨ p + 4 ≤ k < base + m - n ∨ base + m ≤ k → zlookup r2 k = zlookup r k.
Proof.
  destruct (chain_middle _ _ _ _ _ _ Hc) as (Ex & Hp & Hn & Hn'); [lia|]. fold p in Ex, Hp, Hn.
  destruct (read_entry_Some _ _ _ Ex) as (_ & _ & _ & Eo & _). unfold E_VALUE_OFFS in *.
  pose proof (pad_bounds len) as Hpad. fold n in Hpad, Hroom. unfold o. destruct (Z.eqb_spec len 0) as [->|Hl]; cbn [negb].
  { exists r. by split_and!. }
  destruct (wr_in 2 r (p + 2) (m - n)) as (r1 & E1 & L1); [unfold buf_end in *; lia..|]. rewrite E1. cbn [mbind option_bind].
  destruct (store_value_spec r1 (base + m - n) value len n) as (r2 & E2 & V2 & L2 & B2 & Z2);
    unfold buf_end in *; try (lia || done); [by eapply wr_bytes|].
  exists r2. split; [done|]. split_and!; [lia|done| | |].
  - rewrite <-(Z.add_0_r (p + 2)), (rd_moved 0 2 r1 r2 (p + 2) (p + 4)); [| |lia|lia| |lia|lia].
    + rewrite (rd_wr_eq _ _ _ _ _ E1). f_equal. apply Z.mod_small. change (2 ^ (8 * Z.of_nat 2)) with 65536. lia.
    + intros k Hk. rewrite Z.add_0_r. apply Z2. lia.
    + rewrite (rd_wr_eq _ _ _ _ _ E1). eauto.
  - intros _. replace (base + (m - n)) with (base + m - n) by lia. done.
  - intros k Hk. rewrite Z2 by lia. apply (wr_zlookup _ _ _ _ _ _ E1). lia.
Qed.

Lemma insert_value_chain :
  let x' := set_value_info o 0 len x in
  ∃ r', insert_value r base p m n value len false None = Some r' ∧
    chain r' first (es1 ++ x' :: es2) e_end ∧ value_of r' base x' = value_bytes value len ∧
    spans_ok (m - n) (buf_end r - base) (vspans (es1 ++ x' :: es2)) ∧
    attrs r' base (es1 ++ es2) = attrs r base (es1 ++ es2) ∧ length r' = length r ∧ is_bytes r' ∧
    ∀ k, k < first → zlookup r' k = zlookup r k.
Proof.
  intros x'. destruct insert_value_bytes as (r2 & E2 & L2 & B2 & O2 & V2 & Z2).
  destruct (chain_middle _ _ _ _ _ _ Hc) as (Ex & Hp & Hn & Hn'); [lia|]. fold p in Ex, Hp, Hn.
  destruct (read_entry_Some _ _ _ Ex) as (_ & _ & _ & _ & Eu & _ & Eh & _).
  pose proof (pad_bounds len) as Hpad. fold n in Hpad, Hroom. unfold insert_value, E_VALUE_OFFS, E_VALUE_INUM, E_VALUE_SIZE, E_HASH in *.
  rewrite E2. cbn [mbind option_bind].
  destruct (wr_in 4 r2 (p + 8) len) as (r3 & E3 & L3); [unfold buf_end in *; lia..|]. exists r3. split; [done|].
  assert (∀ k, k < p + 2 ∨ p + 12 ≤ k < base + m - n ∨ base + m ≤ k → zlookup r3 k = zlookup r k) as Hsame.
  { intros k Hk. rewrite (wr_zlookup _ _ _ _ _ k E3) by lia. apply Z2. lia. }
  assert (∀ off, rd32 r off = rd32 r2 off → p + 4 ≤ off → off + 4 ≤ p + 8 ∨ p + 12 ≤ off → rd32 r3 off = rd32 r off) as Hrd.
  { intros off -> ??. apply (rd_wr_ne _ _ _ _ _ _ _ E3). lia. }
  assert (∀ off z, rd32 r off = Some z → p + 4 ≤ off → off + 4 ≤ p + 16 → rd32 r2 off = rd32 r off) as Hrd2.
  { intros off z Hz ??. rewrite <-(Z.add_0_r off) at 1. apply (rd_moved 0 4 r r2 (p + 4) (p + 16)); try lia; [|by rewrite Hz|].
    - intros k Hk. rewrite Z.add_0_r. apply Z2. lia.
    - unfold buf_end in *. lia. }
  assert (moved 0 r r3 (base + m) (buf_end r)) as Hhi by (intros k Hk; rewrite Z.add_0_r; apply Hsame; lia).
  split_and!; [| | | |lia|by eapply wr_bytes|intros k Hk; apply Hsame; lia].
  - apply (chain_upd r); try done; unfold E_VALUE_INUM, E_VALUE_OFFS, E_VALUE_SIZE, E_HASH; fold p; try lia.
    + by eapply wr_bytes.
    + intros k Hk. apply Hsame. lia.
    + by rewrite (rd_wr_ne _ _ _ _ _ _ _ E3) by lia.
    + rewrite <-Hu0, <-Eu. apply Hrd; [symmetry; by eapply Hrd2; [done|lia|lia]|lia|lia].
    + rewrite (rd_wr_eq _ _ _ _ _ E3). f_equal. apply Z.mod_small. unfold EXT4_XATTR_SIZE_MAX in Hlen. lia.
    + rewrite <-Eh. apply Hrd; [symmetry; by eapply Hrd2; [done|lia|lia]|lia|lia].
  - destruct (decide (len = 0)) as [->|Hl0].
    { rewrite value_of_0 by done. destruct value; by cbn. }
    unfold value_of. cbn [x' set_value_info x_offs x_size]. specialize (V2 Hl0).
    assert (base + o = base + m - n) as Eo by (unfold o; rewrite (proj2 (Z.eqb_neq len 0)) by done; lia).
    rewrite (bytes_at_put_ne _ _ _ _ _ _ E3); [by rewrite V2|]. rewrite le_split_length. lia.
  - rewrite vspans_app, vspans_cons. rewrite vspans_app in Hsp. unfold vspan.
    assert (has_val x' = negb (len =? 0)) as -> by done.
    assert (o = if len =? 0 then x_offs x else m - n) as Eo by done.
    destruct (Z.eqb_spec len 0) as [Hl0|Hl0]; cbn [negb app].
    { eapply spans_ok_lower; [done|lia]. }
    apply spans_ok_middle. split; [eapply spans_ok_lower; [done|lia]|].
    cbn [x' set_value_info x_offs x_size fst snd]. fold n. pose proof (pad_pos len). split; [lia|].
    destruct Hsp as [Hs _]. eapply Forall_impl; [exact Hs|]. intros q (Hq & _). left. cbn [fst snd]. lia.
  - eapply attrs_frame; try done; lia.
Qed.

End insert.

(** ** Updating the hashes *)

Lemma rehash_total r e es e_end fuel hash : chain r e es e_end → (length es < fuel)%nat →
  ∃ h, rehash_loop fuel r e hash = Some h.
Proof.
  intros H. revert fuel hash. induction H as [e El|e x es e_end El Ex Hn Hz H IH]; intros fuel hash Hf;
    (destruct fuel as [|fuel]; [lia|]); cbn [rehash_loop]; rewrite El; cbn [mbind option_bind]; [by eexists|].
  destruct (read_entry_Some _ _ _ Ex) as (_ & _ & _ & _ & _ & _ & Eh & _ & Enx).
  rewrite Eh, Enx. cbn [mbind option_bind]. destruct (_ =? 0); [by eexists|]. apply IH. cbn in Hf. lia.
Qed.

Lemma hash_words_total r v n hash : 0 ≤ v → v + 4 * Z.of_nat n ≤ buf_end r → ∃ h, hash_words r v n hash = Some h.
Proof.
  revert v hash. induction n as [|n IH]; intros v hash Hv Hn; [by eexists|]. cbn [hash_words].
  destruct (rd_Some 4 r v) as [w ->]; [lia..|]. cbn [mbind option_bind]. apply IH; lia.
Qed.

(** The bytes before the names are the same, but for the hash of the block. *)
Definition same_below (is_block : bool) (base first : Z) (r r' : bytes) : Prop :=
  ∀ k, k < first → (is_block = true → k < base + H_HASH ∨ base + H_HASH + 4 ≤ k) → zlookup r' k = zlookup r k.

Lemma same_below_all is_block base first r r' : (∀ k, k < first → zlookup r' k = zlookup r k) →
  same_below is_block base first r r'.
Proof. intros H k Hk _. by apply H. Qed.

Lemma same_below_trans is_block base first r1 r2 r3 : same_below is_block base first r1 r2 →
  same_below is_block base first r2 r3 → same_below is_block base first r1 r3.
Proof. intros H1 H2 k Hk Hb. rewrite H2 by done. by apply H1. Qed.

Lemma rehash_chain r base first is_block es e_end : is_bytes r → 0 ≤ base ≤ first →
  (is_block = true → first = base + HEADER_SIZE) → chain r first es e_end →
  ∃ r', (if is_block then ext4_xattr_rehash r base else Some r) = Some r' ∧ chain r' first es e_end ∧
    length r' = length r ∧ is_bytes r' ∧ same_below is_block base first r r' ∧ moved 0 r r' first (buf_end r).
Proof.
  intros Hb Hbase Hblock Hc. destruct is_block; [|by exists r; split_and!; try done; intros k Hk; rewrite Z.add_0_r].
  specialize (Hblock eq_refl). unfold ext4_xattr_rehash. rewrite <-Hblock. assert (0 ≤ first) as Hf by lia.
  destruct (rehash_total r first es e_end (fuel_of r) 0 Hc (chain_fuel _ _ _ _ Hf Hc)) as [h ->].
  cbn [mbind option_bind]. pose proof (chain_room _ _ _ _ Hc). pose proof (proj1 (chain_seg _ _ _ _) Hc) as [Hs _].
  apply seg_le in Hs. unfold HEADER_SIZE in *.
  destruct (wr_in 4 r (base + H_HASH) h) as (r' & E & L); [unfold H_HASH; lia..|]. exists r'. split; [done|].
  unfold same_below, H_HASH in *.
  assert (moved 0 r r' first (buf_end r)) as Hm by (eapply wr_moved; [done|lia]).
  split_and!; [|done|by eapply wr_bytes| |done].
  - eapply chain_same; [done|lia| |done]. eapply moved_weaken; [done|lia|lia].
  - intros k Hk Hk'. apply (wr_zlookup _ _ _ _ _ _ E). apply Hk'. done.
Qed.

(** An entry whose value was stored. *)
Lemma update_hash_chain r base first is_block e_end i value es1 x es2 new_size :
  is_bytes r → 0 ≤ base ≤ first → (is_block = true → first = base + HEADER_SIZE) →
  i_value i = Some value → i_in_inode i = false → chain r first (es1 ++ x :: es2) e_end → 0 < x_index x →
  (is_block = true → 0 ≤ new_size ∧ (new_size = 0 ∨ base + x_offs x + new_size ≤ buf_end r)) →
  ∃ r' h, update_hash r i is_block base (x_pos x) new_size None = Some r' ∧
    chain r' first (es1 ++ set_hash h x :: es2) e_end ∧ length r' = length r ∧ is_bytes r' ∧
    same_below is_block base first r r' ∧ moved 0 r r' e_end (buf_end r).
Proof.
  intros Hb Hbase Hblock Hv Hin Hc Hi Hnew. destruct (chain_middle _ _ _ _ _ _ Hc) as (Ex & Hp & Hn & Hn'); [lia|].
  destruct (read_entry_Some _ _ _ Ex) as (_ & En & _ & Eo & Eu & Es & _ & Ename & _).
  unfold update_hash. rewrite Hv, Hin, En. cbn [mbind option_bind].
  assert (∃ h, (if is_block then offs ← rd16 r (x_pos x + E_VALUE_OFFS);
      ext4_xattr_hash_entry r (x_pos x + E_NAME) (Z.of_nat (length (x_name x))) (base + offs) (Z.shiftr new_size 2)
      else Some 0) = Some h) as [h ->].
  { destruct is_block; [|by eexists]. destruct (Hnew eq_refl) as [Hn0 Hn1]. rewrite Eo. cbn [mbind option_bind].
    unfold ext4_xattr_hash_entry. rewrite Ename. cbn [mbind option_bind].
    pose proof (rd_range _ _ _ _ Hb Eo). rewrite Z.shiftr_div_pow2 by lia. change (2 ^ 2) with 4.
    destruct Hn1 as [->|Hn1]; [by eexists|]. apply hash_words_total; [lia|].
    assert (0 ≤ new_size / 4 ∧ 4 * (new_size / 4) ≤ new_size) by (clear -Hn0; dlia). lia. }
  cbn [mbind option_bind]. unfold E_HASH, E_VALUE_OFFS, E_VALUE_INUM, E_VALUE_SIZE in *. set (p := x_pos x) in *.
  destruct (wr_in 4 r (p + 12) h) as (r1 & E1 & L1); [lia..|].
  rewrite E1. cbn [mbind option_bind]. pose proof (wr_bytes _ _ _ _ _ E1 Hb) as B1.
  assert (chain r1 first (es1 ++ set_hash (h mod 2 ^ 32) x :: es2) e_end) as Hc1.
  { apply (chain_upd r); try done; unfold E_HASH, E_VALUE_OFFS, E_VALUE_INUM, E_VALUE_SIZE; fold p; try lia.
    - intros k Hk. apply (wr_zlookup _ _ _ _ _ _ E1). lia.
    - by rewrite (rd_wr_ne _ _ _ _ _ _ _ E1) by lia.
    - by rewrite (rd_wr_ne _ _ _ _ _ _ _ E1) by lia.
    - by rewrite (rd_wr_ne _ _ _ _ _ _ _ E1) by lia.
    - by rewrite (rd_wr_eq _ _ _ _ _ E1). }
  destruct (rehash_chain r1 base first is_block _ e_end B1 Hbase Hblock Hc1) as (r' & Er & Hc' & L' & B' & S' & M').
  exists r', (h mod 2 ^ 32). split; [done|]. split; [done|]. split; [lia|]. split; [done|]. split.
  - eapply same_below_trans; [|done]. apply same_below_all. intros k Hk. apply (wr_zlookup _ _ _ _ _ _ E1). lia.
  - apply (moved_trans 0 0 r r1 r'); [eapply wr_moved; [done|lia]|].
    eapply moved_weaken; [done|lia|unfold buf_end; lia].
Qed.

(** ** Well-formed buffers, and the whole function *)

(** A buffer with a well-ended list of entries and their values: each value
    behind the names and inside the buffer, none over another. *)
Record region (r : bytes) (base first : Z) (es : list xentry) (e_end : Z) : Prop := {
  rg_buf : buffer_ok r;
  rg_base : 0 ≤ base ≤ first;
  rg_chain : chain r first es e_end;
  rg_entries : Forall entry_ok es;
  rg_vals : spans_ok (e_end + 4 - base) (buf_end r - base) (vspans es) }.

Lemma attrs_app_inj r r' base a1 a2 c1 c2 : attrs r' base (a1 ++ a2) = attrs r base (c1 ++ c2) →
  length a1 = length c1 → attrs r' base a1 = attrs r base c1 ∧ attrs r' base a2 = attrs r base c2.
Proof. rewrite !attrs_app. intros H Hl. apply app_inj_1 in H; [done|]. unfold attrs. by rewrite !length_fmap. Qed.

Lemma buffer_ok_same r r' : buffer_ok r → is_bytes r' → length r' = length r → buffer_ok r'.
Proof. intros [H1 H2 H3] Hb Hl. split; [done|..]; unfold buf_end in *; by rewrite Hl. Qed.

(** Arguments as the callers pass them; the value is stored in the buffer. *)
Record info_ok (i : ext4_xattr_info) : Prop := {
  in_index : 0 < i_name_index i < 256;
  in_length : (length (i_name i) ≤ 255)%nat;
  in_bytes : is_bytes (i_name i);
  in_str : strnlen (i_name i) = Z.of_nat (length (i_name i));
  in_plain : i_in_inode i = false;
  in_len : 0 ≤ i_value_len i ≤ 65536;
  in_valid : ∀ v, i_value i = Some v → value_valid v (i_value_len i) }.

Section finish.
Context (i : ext4_xattr_info) (value : xattr_value) (is_block : bool).
Hypothesis (Hinfo : info_ok i) (Hvalue : i_value i = Some value).

Let len := i_value_len i.

(** Inserting the value and updating the hashes, once there is an entry. *)
Lemma finish_value r base first e_end m es1 x es2 :
  buffer_ok r → 0 ≤ base ≤ first → (is_block = true → first = base + HEADER_SIZE) →
  chain r first (es1 ++ x :: es2) e_end → 0 < x_index x → x_inum x = 0 → x_offs x = 0 →
  Forall entry_ok (es1 ++ es2) → spans_ok m (buf_end r - base) (vspans (es1 ++ es2)) →
  m ≤ buf_end r - base → e_end + 4 ≤ base + m - pad len →
  ∃ r1 r' x', insert_value r base (x_pos x) m (pad len) value len false None = Some r1 ∧
    update_hash r1 i is_block base (x_pos x) (pad len) None = Some r' ∧
    region r' base first (es1 ++ x' :: es2) e_end ∧ x_pos x' = x_pos x ∧
    attr r' base x' = (x_index x, x_name x, value_bytes value len) ∧
    attrs r' base (es1 ++ es2) = attrs r base (es1 ++ es2) ∧
    length r' = length r ∧ same_below is_block base first r r'.
Proof.
  intros Hr Hbase Hblock Hc Hi Hu Ho Hok Hsp Hm Hroom. pose proof Hr as [Hb _ Hsmall].
  destruct Hinfo as [_ _ _ _ Hin Hlen Hval]. fold len in Hlen. specialize (Hval _ Hvalue).
  pose proof (pad_bounds len) as Hpad.
  destruct (insert_value_chain r base first e_end m es1 es2 x value len)
    as (r1 & E1 & C1 & V1 & S1 & A1 & L1 & B1 & F1); try done.
  { unfold EXT4_XATTR_SIZE_MAX. lia. }
  set (x1 := set_value_info _ 0 len x) in *. assert (buf_end r1 = buf_end r) as Eb by (unfold buf_end; by rewrite L1).
  pose proof (chain_room _ _ _ _ C1) as [Hend0 Hend].
  assert (entry_ok x1) as Hx1.
  { split; [done|done| |]; cbn; [unfold EXT4_XATTR_SIZE_MAX; lia|]. fold len. intros ->. by rewrite Ho. }
  destruct (update_hash_chain r1 base first is_block e_end i value es1 x1 es2 (pad len))
    as (r' & h & E2 & C2 & L2 & B2 & F2 & M2); try done.
  { intros _. split; [lia|]. destruct (decide (len = 0)) as [->|Hl0]; [by left|right].
    assert (has_val x1 = true) as Hv1 by (unfold has_val; cbn; by rewrite (proj2 (Z.eqb_neq _ _))).
    destruct S1 as [S1 _]. rewrite Forall_forall in S1.
    specialize (S1 _ (elem_of_vspans (es1 ++ x1 :: es2) x1 ltac:(apply elem_of_app; right; left) Hv1)).
    cbn [fst snd] in S1. change (x_size x1) with len in S1. lia. }
  exists r1, r', (set_hash h x1). split; [done|]. split; [done|].
  assert (∀ es, Forall entry_ok es → spans_ok (m - pad len) (buf_end r - base) (vspans es) →
    attrs r' base es = attrs r1 base es) as Hframe.
  { intros es Hes Hsp'. eapply (attrs_frame r1 r' base (m - pad len)); try done; [by rewrite Eb|lia|].
    eapply moved_weaken; [done|lia|lia]. }
  split; [|split; [done|split; [|split; [|split; [lia|]]]]].
  - split; [eapply buffer_ok_same; [done|done|lia]|done|done| |].
    + apply Forall_middle. split; [done|]. by destruct Hx1.
    + replace (buf_end r') with (buf_end r) by (unfold buf_end in *; lia).
      assert (vspans (es1 ++ set_hash h x1 :: es2) = vspans (es1 ++ x1 :: es2)) as -> by by rewrite !vspans_app, !vspans_cons.
      eapply spans_ok_lower; [done|lia].
  - assert (attrs r' base [x1] = attrs r1 base [x1]) as Ha.
    { apply Hframe; [by constructor|]. destruct S1 as [Sa Sb]. rewrite vspans_app, vspans_cons in Sa, Sb.
      rewrite !Forall_app in Sa. rewrite !vdisj_app in Sb. unfold spans_ok. rewrite vspans_cons. cbn [vspans mbind list_bind].
      rewrite app_nil_r. tauto. }
    injection Ha as Ha. unfold attr, value_of. cbn [set_hash x_index x_name x_offs x_size].
    unfold value_of in Ha, V1. by rewrite Ha, V1.
  - rewrite Hframe, A1; [done|done|]. eapply spans_ok_lower; [done|lia].
  - eapply same_below_trans; [by apply same_below_all|done].
Qed.

End finish.

Section drop.
Context (r : bytes) (base first e_end m : Z) (es1 es2 : list xentry) (x : xentry).
Hypothesis (Hr : region r base first (es1 ++ x :: es2) e_end).
Hypothesis (Hm : m = lowest (buf_end r - base) (es1 ++ x :: es2)).

Lemma region_lowest : e_end + 4 ≤ base + m ∧ m ≤ buf_end r - base ∧
  spans_ok m (buf_end r - base) (vspans (es1 ++ x :: es2)).
Proof.
  destruct Hr as [_ _ Hc _ Hv]. pose proof (chain_room _ _ _ _ Hc). rewrite Hm. split_and!.
  - assert (e_end + 4 - base ≤ lowest (buf_end r - base) (es1 ++ x :: es2)); [|lia].
    eapply spans_lowest_ge; [done|lia].
  - apply lowest_le.
  - by eapply spans_lowest.
Qed.

Lemma drop_value_chain :
  ∃ r' es1' x' es2', drop_value r base first (x_pos x) e_end m (pad (x_size x)) = Some (r', e_end, m + pad (x_size x)) ∧
    chain r' first (es1' ++ x' :: es2') e_end ∧ x_pos x' = x_pos x ∧ x_name x' = x_name x ∧ x_index x' = x_index x ∧
    Forall entry_ok (es1' ++ es2') ∧ spans_ok (m + pad (x_size x)) (buf_end r - base) (vspans (es1' ++ es2')) ∧
    attrs r' base es1' = attrs r base es1 ∧ attrs r' base es2' = attrs r base es2 ∧
    m + pad (x_size x) ≤ buf_end r - base ∧ length r' = length r ∧ is_bytes r' ∧
    ∀ k, k < first → zlookup r' k = zlookup r k.
Proof.
  destruct region_lowest as (Hlo & Hhi & Hsp). destruct Hr as [[Hb _ Hsmall] Hbase Hc Hok _].
  destruct (chain_middle _ _ _ _ _ _ Hc) as (Ex & _); [lia|].
  destruct (read_entry_Some _ _ _ Ex) as (_ & _ & _ & _ & Eu & Es & _).
  pose proof (proj1 (Forall_middle _ _ _ _) Hok) as [Hok' Hx]. unfold drop_value.
  rewrite Es, Eu. cbn [mbind option_bind]. rewrite andb_comm. fold (has_val x).
  destruct (has_val x) eqn:Hv.
  - destruct (remove_value_chain r base first e_end m es1 es2 x) as (r' & E & Hc' & L & B & F & A & S); try done.
    destruct (remove_spans r base m es1 es2 x Hsp Hv) as (? & ? & ? & _).
    set (adj := adj_x _ _) in *. destruct (adj_x_name (x_offs x) (pad (x_size x)) x) as (? & ? & ? & _).
    rewrite fmap_app, fmap_cons in Hc'. rewrite fmap_app in A, S.
    apply attrs_app_inj in A as [A1 A2]; [|by rewrite length_fmap].
    exists r', (adj <$> es1), (adj x), (adj <$> es2). split_and!; try done; [|lia].
    rewrite <-fmap_app. apply Forall_fmap. eapply Forall_impl; [exact Hok'|]. intros y. apply entry_ok_adj.
  - destruct (entry_ok_val x Hx) as [?|Hz]; [congruence|]. rewrite Hz. change (pad 0) with 0. rewrite Z.add_0_r.
    exists r, es1, x, es2. split_and!; try done. unfold vspan in *. rewrite vspans_app, vspans_cons in Hsp.
    unfold vspan in Hsp. rewrite Hv in Hsp. by rewrite vspans_app.
Qed.

End drop.

(** The result for the list of attributes. *)
Definition set_result (r r' : bytes) (base first here : Z) (es1 es2 : list xentry) (is_block : bool)
    (new : list (Z * bytes * bytes)) : Prop :=
  ∃ es1' mid es2' e_end', region r' base first (es1' ++ mid ++ es2') e_end' ∧
    attrs r' base es1' = attrs r base es1 ∧ attrs r' base mid = new ∧ attrs r' base es2' = attrs r base es2 ∧
    (∀ x, x ∈ mid → x_pos x = here) ∧ length r' = length r ∧ same_below is_block base first r r'.

(** The values of the buffer begin at [lo] or later. *)
Definition set_space (r : bytes) (base first lo : Z) : Prop :=
  ∃ es e_end, chain r first es e_end ∧ spans_ok lo (buf_end r - base) (vspans es).

Definition new_attr (i : ext4_xattr_info) : list (Z * bytes * bytes) :=
  match i_value i with
  | Some v => [(i_name_index i, i_name i, value_bytes v (i_value_len i))]
  | None => []
  end.

Section cases.
Context (o : ea_io) (i : ext4_xattr_info) (is_block : bool) (r : bytes) (base first e_end m : Z) (es1 es2 : list xentry).
Hypothesis (Hinfo : info_ok i) (Hblock : is_block = true → first = base + HEADER_SIZE).
Hypothesis (Hinline : default 0 (ea_inline o) = 0).

Let name_len := Z.of_nat (length (i_name i)).

Lemma attrs_values_frame r1 r2 lo es hi : spans_ok lo (hi - base) (vspans es) → Forall entry_ok es → hi = buf_end r1 →
  0 ≤ base + lo → ∀ a, a ≤ base + lo → moved 0 r1 r2 a hi → length r2 = length r1 → attrs r2 base es = attrs r1 base es.
Proof. intros Hs He -> Hlo a Ha Hm Hl. eapply attrs_frame; try done. eapply moved_weaken; [done|lia|lia]. Qed.

Lemma modify_remove x : region r base first (es1 ++ x :: es2) e_end → m = lowest (buf_end r - base) (es1 ++ x :: es2) →
  x_name x = i_name i → i_value i = None →
  ∃ r', modify_entry o r i (Ext4XattrSearch first (Some base) (buf_end r) (x_pos x) 0) is_block base e_end m
          (pad (x_size x)) 0 None = Some (0, r') ∧ set_result r r' base first (x_pos x) es1 es2 is_block [] ∧
          set_space r' base first (m + pad (x_size x)).
Proof.
  intros Hr Hm Hn Hv. destruct (drop_value_chain r base first e_end m es1 es2 x Hr Hm)
    as (r1 & e1 & y & e2 & E1 & C1 & P1 & N1 & I1 & O1 & S1 & A1 & A2 & M1 & L1 & B1 & F1).
  destruct (region_lowest r base first e_end m es1 es2 x Hr Hm) as (Hlo & Hhi & _).
  destruct Hr as [Hbuf Hbase Hc Hok Hvals]. pose proof (pad_bounds (x_size x)) as Hpad.
  assert (0 ≤ x_size x) as Hxs by (apply Forall_middle in Hok as [_ [_ _ ? _]]; lia).
  assert (0 ≤ first) as Hf by lia. destruct (remove_name_chain r1 first e1 y e2 e_end B1 Hf C1)
    as (r2 & E2 & C2 & L2 & B2 & F2 & F2'). rewrite P1, N1, Hn in E2. rewrite N1, Hn in C2.
  pose proof (LEN_bounds (Z.of_nat (length (i_name i)))) as [Hsz _].
  set (size := EXT4_XATTR_LEN _) in *. pose proof (chain_room _ _ _ _ C2) as Hend.
  destruct (rehash_chain r2 base first is_block _ _ B2 Hbase Hblock C2) as (r3 & E3 & C3 & L3 & B3 & F3 & M3).
  exists r3. split.
  - unfold modify_entry, update_hash. cbn [s_here s_not_found s_first Z.eqb negb]. rewrite E1, Hv.
    cbn [mbind option_bind]. rewrite E2. cbn [mbind option_bind].
    assert ((match ea_inline o with Some e => if negb is_block then e else 0 | None => 0 end) = 0) as ->.
    { destruct (ea_inline o); [|done]. cbn in Hinline. unfold id in Hinline. rewrite Hinline. by destruct is_block. }
    cbn [Z.eqb negb]. by rewrite E3.
  - pose proof (proj1 (chain_seg _ _ _ _) C2) as [Hs2 _]. apply seg_le in Hs2.
    assert (∀ es, Forall entry_ok es → spans_ok (m + pad (x_size x)) (buf_end r - base) (vspans es) →
      attrs r3 base es = attrs r1 base es) as Hframe.
    { intros es Hes Hsp. apply (attrs_values_frame r1 r3 (m + pad (x_size x)) es (buf_end r)) with (a := e_end + 4);
        try done; [by unfold buf_end; rewrite L1|lia|lia| |lia].
      apply (moved_trans 0 0 r1 r2 r3); (eapply moved_weaken; [done|unfold buf_end in *; lia..]). }
    split; [|exists (e1 ++ (shift_x (- size) <$> e2)), (e_end - size); split; [done|];
      rewrite vspans_app, vspans_shift, <-vspans_app; replace (buf_end r3) with (buf_end r) by (unfold buf_end in *; lia); done].
    exists e1, [], (shift_x (- size) <$> e2), (e_end - size). cbn [app]. apply Forall_app in O1 as [O1 O2].
    rewrite vspans_app in S1. pose proof S1 as [Sa Sb]. apply Forall_app in Sa as [Sa1 Sa2]. apply vdisj_app in Sb as (Sb1 & Sb2 & _).
    split_and!; try done; [| | |by intros ? ?%not_elem_of_nil|lia|].
    + split; [eapply buffer_ok_same; [done|done|lia]|done|done| |].
      * apply Forall_app. split; [done|]. apply Forall_fmap. eapply Forall_impl; [exact O2|]. intros z []. by split.
      * rewrite vspans_app, vspans_shift. replace (buf_end r3) with (buf_end r) by (unfold buf_end in *; lia).
        eapply spans_ok_lower; [done|lia].
    + by rewrite Hframe.
    + rewrite attrs_shift. by rewrite Hframe.
    + apply (same_below_trans _ _ _ r r2); [|done]. apply same_below_all. intros k Hk.
      destruct (decide (0 ≤ k)); [|unfold zlookup; by rewrite !(proj2 (Z.ltb_lt k 0)) by lia].
      rewrite <-F1 by done. rewrite <-(Z.add_0_r k) at 1. apply F2. lia.
Qed.

Lemma set_result_finish r1 r' e1 x e2 e_end' :
  region r' base first (e1 ++ x :: e2) e_end' → attrs r1 base e1 = attrs r base es1 → attrs r1 base e2 = attrs r base es2 →
  attrs r' base (e1 ++ e2) = attrs r1 base (e1 ++ e2) → length r1 = length r → length r' = length r1 →
  (∀ k, k < first → zlookup r1 k = zlookup r k) → same_below is_block base first r1 r' →
  set_result r r' base first (x_pos x) es1 es2 is_block [attr r' base x].
Proof.
  intros Hreg A1 A2 A L1 L2 F1 F2. apply attrs_app_inj in A as [B1 B2]; [|done].
  exists e1, [x], e2, e_end'. split_and!; try done; [congruence|congruence|by intros y ->%list_elem_of_singleton|congruence|].
  eapply same_below_trans; [by apply same_below_all|done].
Qed.

Lemma modify_update x v : region r base first (es1 ++ x :: es2) e_end → m = lowest (buf_end r - base) (es1 ++ x :: es2) →
  x_name x = i_name i → x_index x = i_name_index i → i_value i = Some v →
  e_end + 4 ≤ base + m + pad (x_size x) - pad (i_value_len i) →
  ∃ r', modify_entry o r i (Ext4XattrSearch first (Some base) (buf_end r) (x_pos x) 0) is_block base e_end m
          (pad (x_size x)) (pad (i_value_len i)) None = Some (0, r') ∧
        set_result r r' base first (x_pos x) es1 es2 is_block [(i_name_index i, i_name i, value_bytes v (i_value_len i))].
Proof.
  intros Hr Hm Hn Hi Hv Hroom. destruct (drop_value_chain r base first e_end m es1 es2 x Hr Hm)
    as (r1 & e1 & y & e2 & E1 & C1 & P1 & N1 & I1 & O1 & S1 & A1 & A2 & M1 & L1 & B1 & F1).
  destruct (region_lowest r base first e_end m es1 es2 x Hr Hm) as (Hlo & _ & _).
  destruct Hr as [Hbuf Hbase Hc Hok Hvals]. assert (0 ≤ first) as Hf by lia. pose proof (in_index _ Hinfo).
  destruct (reset_value_chain r1 first e1 y e2 e_end B1 C1 Hf) as (r2 & E2 & C2 & L2 & B2 & F2); [lia|].
  assert (buf_end r2 = buf_end r) as Eb by (unfold buf_end; lia).
  pose proof (pad_bounds (i_value_len i)) as Hpad. pose proof (in_len _ Hinfo). pose proof (chain_room _ _ _ _ C2) as Hend.
  destruct (finish_value i v is_block Hinfo Hv r2 base first e_end (m + pad (x_size x)) e1 (set_value_info 0 0 0 y) e2)
    as (r3 & r4 & x' & E3 & E4 & R4 & P4 & T4 & A4 & L4 & F4); try done; cbn; try lia.
  { eapply buffer_ok_same; [done|done|lia]. } { by rewrite Eb. }
  exists r4. split.
  - unfold modify_entry. cbn [s_here s_not_found s_first Z.eqb negb]. rewrite E1, Hv. cbn [mbind option_bind].
    rewrite <-P1, E2, (in_plain _ Hinfo). cbn [mbind option_bind]. cbn [set_value_info x_pos] in E3, E4.
    rewrite E3. cbn [mbind option_bind]. by rewrite E4.
  - assert (attr r4 base x' = (i_name_index i, i_name i, value_bytes v (i_value_len i))) as <-.
    { rewrite T4. cbn [set_value_info x_index x_name]. congruence. }
    assert (∀ es, Forall entry_ok es → spans_ok (m + pad (x_size x)) (buf_end r - base) (vspans es) →
      attrs r2 base es = attrs r1 base es) as Hframe.
    { intros es Hes Hsp. apply (attrs_values_frame r1 r2 (m + pad (x_size x)) es (buf_end r)) with (a := e_end);
        try done; [by unfold buf_end; rewrite L1|lia|lia|]. intros k Hk. rewrite Z.add_0_r. apply F2. lia. }
    apply Forall_app in O1 as [O1 O2]. rewrite vspans_app in S1. destruct S1 as [Sa Sb].
    apply Forall_app in Sa as [Sa1 Sa2]. apply vdisj_app in Sb as (Sb1 & Sb2 & _).
    replace (x_pos x) with (x_pos x') by (rewrite P4; cbn; congruence).
    apply (set_result_finish r2 r4 e1 x' e2 e_end); try done; try lia.
    + by rewrite Hframe.
    + by rewrite Hframe.
    + intros k Hk. rewrite F2 by lia. by apply F1.
Qed.

Lemma modify_insert p nf v : region r base first (es1 ++ es2) e_end → m = lowest (buf_end r - base) (es1 ++ es2) →
  seg r first es1 p → chain r p es2 e_end → i_value i = Some v → nf ≠ 0 →
  e_end + EXT4_XATTR_LEN name_len + 4 ≤ base + m - pad (i_value_len i) →
  ∃ r', modify_entry o r i (Ext4XattrSearch first (Some base) (buf_end r) p nf) is_block base e_end m
          0 (pad (i_value_len i)) None = Some (0, r') ∧
        set_result r r' base first p es1 es2 is_block [(i_name_index i, i_name i, value_bytes v (i_value_len i))].
Proof.
  intros [Hbuf Hbase Hc Hok Hvals] Hm Hs1 Hs2 Hv Hnf Hroom. assert (0 ≤ first) as Hf by lia.
  pose proof Hinfo as [Hi Hnl Hnb Hns Hpl Hl _]. pose proof (pad_bounds (i_value_len i)) as Hpad.
  pose proof (chain_room _ _ _ _ Hc) as Hend. pose proof (LEN_bounds name_len) as [Hsz _].
  assert (m ≤ buf_end r - base) as Hm1 by (rewrite Hm; apply lowest_le).
  destruct (insert_name_chain r first es1 es2 p e_end (i_name_index i) (i_name i) (bo_bytes _ Hbuf) Hf Hc Hs1 Hs2)
    as (r1 & E1 & C1 & L1 & B1 & F1 & F1'); try done; fold name_len; try lia.
  fold name_len in C1, F1'. set (size := EXT4_XATTR_LEN name_len) in *.
  assert (buf_end r1 = buf_end r) as Eb by (unfold buf_end; lia).
  pose proof (spans_lowest _ _ (buf_end r - base) _ Hvals) as Hsp. rewrite <-Hm in Hsp.
  apply Forall_app in Hok as [O1 O2].
  assert (Forall entry_ok (es1 ++ (shift_x size <$> es2))) as Hok'.
  { apply Forall_app. split; [done|]. apply Forall_fmap. eapply Forall_impl; [exact O2|]. intros z []. by split. }
  destruct (finish_value i v is_block Hinfo Hv r1 base first (e_end + size) m es1
    (XEntry p (i_name_index i) (i_name i) 0 0 0 0) (shift_x size <$> es2))
    as (r3 & r4 & x' & E3 & E4 & R4 & P4 & T4 & A4 & L4 & F4); try done; cbn; try lia.
  { eapply buffer_ok_same; [done|done|lia]. } { rewrite Eb, vspans_app, vspans_shift, <-vspans_app. done. }
  exists r4. split.
  - unfold modify_entry. cbn [s_here s_not_found s_first]. rewrite (proj2 (Z.eqb_neq nf 0)) by done. cbn [negb].
    rewrite Hv, Hpl. cbn [mbind option_bind]. rewrite E1. cbn [mbind option_bind]. cbn [x_pos] in E3, E4.
    rewrite E3. cbn [mbind option_bind]. by rewrite E4.
  - assert (attr r4 base x' = (i_name_index i, i_name i, value_bytes v (i_value_len i))) as <- by by rewrite T4.
    assert (∀ es, Forall entry_ok es → spans_ok m (buf_end r - base) (vspans es) → attrs r1 base es = attrs r base es) as Hframe.
    { intros es Hes Hs. by apply (attrs_values_frame r r1 m es (buf_end r)) with (a := e_end + size + 4); try (done || lia). }
    rewrite vspans_app in Hsp. destruct Hsp as [Sa Sb].
    apply Forall_app in Sa as [Sa1 Sa2]. apply vdisj_app in Sb as (Sb1 & Sb2 & _).
    replace p with (x_pos x') by done.
    apply (set_result_finish r1 r4 es1 x' (shift_x size <$> es2) (e_end + size)); try done; try lia.
    + by rewrite Hframe.
    + rewrite attrs_shift. by rewrite Hframe.
    + intros k Hk. destruct (decide (0 ≤ k)); [|unfold zlookup; by rewrite !(proj2 (Z.ltb_lt k 0)) by lia].
      rewrite <-(Z.add_0_r k) at 1. apply F1. lia.
Qed.

End cases.

(** The value of the same padded size is written over the old one. *)
Lemma set_in_place i v is_block r base first es1 x es2 e_end :
  info_ok i → (is_block = true → first = base + HEADER_SIZE) → region r base first (es1 ++ x :: es2) e_end →
  x_name x = i_name i → x_index x = i_name_index i → i_value i = Some v →
  pad (i_value_len i) ≠ 0 → pad (x_size x) = pad (i_value_len i) →
  ∃ r1 r2 r', wr 4 r (x_pos x + E_VALUE_SIZE) (i_value_len i) = Some r1 ∧
    store_value r1 (base + x_offs x) v (i_value_len i) (pad (i_value_len i)) = Some r2 ∧
    update_hash r2 i is_block base (x_pos x) (pad (i_value_len i)) None = Some r' ∧
    set_result r r' base first (x_pos x) es1 es2 is_block [(i_name_index i, i_name i, value_bytes v (i_value_len i))].
Proof.
  intros Hinfo Hblock [Hbuf Hbase Hc Hok Hvals] Hn Hi Hv Hne Hpad. pose proof Hinfo as [Hidx _ _ _ Hpl Hl Hval].
  set (len := i_value_len i) in *. pose proof (Hval _ Hv) as Hvalid. pose proof (bo_bytes _ Hbuf) as Hb.
  pose proof (pad_bounds len) as Hpl'. pose proof (pad_bounds (x_size x)) as Hpx.
  destruct (chain_middle _ _ _ _ _ _ Hc) as (Ex & Hp & Hnx & Hnx'); [lia|].
  destruct (read_entry_Some _ _ _ Ex) as (_ & _ & _ & Eo & Eu & Es & Eh & _).
  pose proof (proj1 (Forall_middle _ _ _ _) Hok) as [Hok' [Hxi Hxu Hxs _]].
  assert (x_size x ≠ 0) as Hx0 by (intros Hz; rewrite Hz in Hpad; by cbn in Hpad).
  assert (len ≠ 0) as Hl0 by (intros Hz; rewrite Hz in Hne; by cbn in Hne).
  assert (has_val x = true) as Hvx by (unfold has_val; by rewrite Hxu, (proj2 (Z.eqb_neq _ _) Hx0)).
  rewrite vspans_app, vspans_cons in Hvals. unfold vspan in Hvals. rewrite Hvx in Hvals. cbn [app] in Hvals.
  apply spans_ok_middle in Hvals as (Hsp & (Ho1 & Ho2 & Ho3) & Hdj). cbn [fst snd] in Ho1, Ho2, Ho3. rewrite Hpad in *.
  rewrite <-vspans_app in Hsp, Hdj. pose proof (chain_room _ _ _ _ Hc) as Hend.
  unfold E_VALUE_SIZE, E_VALUE_OFFS, E_VALUE_INUM, E_HASH in *.
  destruct (wr_in 4 r (x_pos x + 8) len) as (r1 & E1 & L1); [lia..|].
  assert (buf_end r1 = buf_end r) as Eb1 by (unfold buf_end; lia). pose proof (wr_bytes _ _ _ _ _ E1 Hb) as B1.
  destruct (store_value_spec r1 (base + x_offs x) v len (pad len)) as (r2 & E2 & V2 & L2 & B2 & Z2); try done; try lia.
  set (x1 := set_value_info (x_offs x) 0 len x).
  assert (chain r1 first (es1 ++ x1 :: es2) e_end) as C1.
  { apply (chain_upd r); try done; unfold E_VALUE_SIZE, E_VALUE_OFFS, E_VALUE_INUM, E_HASH; try lia.
    - intros k Hk. apply (wr_zlookup _ _ _ _ _ _ E1). lia.
    - by rewrite (rd_wr_ne _ _ _ _ _ _ _ E1) by lia.
    - rewrite (rd_wr_ne _ _ _ _ _ _ _ E1) by lia. by rewrite Eu, Hxu.
    - rewrite (rd_wr_eq _ _ _ _ _ E1). f_equal. apply Z.mod_small. change (2 ^ (8 * Z.of_nat 4)) with 4294967296. lia.
    - by rewrite (rd_wr_ne _ _ _ _ _ _ _ E1) by lia. }
  assert (chain r2 first (es1 ++ x1 :: es2) e_end) as C2.
  { eapply chain_same; [done|lia| |lia]. intros k Hk. rewrite Z.add_0_r. apply Z2. lia. }
  destruct (update_hash_chain r2 base first is_block e_end i v es1 x1 es2 (pad len) B2 Hbase Hblock Hv Hpl C2)
    as (r' & h & E3 & C3 & L3 & B3 & F3 & M3); [done|intros _; cbn; unfold buf_end in *; lia|].
  exists r1, r2, r'. split; [done|]. split; [done|]. split; [done|].
  assert (∀ y, y ∈ es1 ++ es2 → value_of r' base y = value_of r base y) as Hvals.
  { intros y Hy. rewrite Forall_forall in Hok'. pose proof (Hok' y Hy) as Hyo.
    destruct (entry_ok_val y Hyo) as [Hvy|Hz]; [|by rewrite !value_of_0].
    destruct Hsp as [Hsp _]. rewrite Forall_forall in Hsp, Hdj. pose proof (elem_of_vspans _ _ Hy Hvy) as Hin.
    specialize (Hsp _ Hin). specialize (Hdj _ Hin). unfold disj in Hdj. cbn [fst snd] in Hsp, Hdj.
    pose proof (pad_bounds (x_size y)). destruct Hyo as [_ _ Hys _].
    apply (value_of_moved 0); try (unfold buf_end in *; lia).
    intros k Hk. rewrite M3 by (unfold buf_end in *; lia). rewrite Z2 by lia. apply (wr_zlookup _ _ _ _ _ _ E1). lia. }
  assert (∀ es, (∀ y, y ∈ es → y ∈ es1 ++ es2) → attrs r' base es = attrs r base es) as Hframe.
  { intros es Hes. apply list_fmap_ext. intros j y Hy%list_elem_of_lookup_2. unfold attr. f_equal. auto. }
  exists es1, [set_hash h x1], es2, e_end. split_and!.
  - split; [eapply buffer_ok_same; [done|done|lia]|done|done| |].
    + apply Forall_middle. split; [done|]. split; [done|done|cbn; unfold EXT4_XATTR_SIZE_MAX; lia|done].
    + cbn [app]. rewrite vspans_app, vspans_cons. unfold vspan.
      assert (has_val (set_hash h x1) = true) as -> by (unfold has_val; cbn; by rewrite (proj2 (Z.eqb_neq _ _) Hl0)).
      cbn [app]. replace (buf_end r') with (buf_end r) by (unfold buf_end in *; lia). apply spans_ok_middle.
      rewrite <-vspans_app. by split_and!.
  - apply Hframe. intros. apply elem_of_app. by left.
  - unfold attrs, attr. cbn [fmap list_fmap set_hash x1 set_value_info x_index x_name]. rewrite Hn, Hi. do 2 f_equal.
    unfold value_of. cbn [set_hash x1 set_value_info x_offs x_size]. rewrite <-(Z.add_0_r (base + x_offs x)).
    rewrite (bytes_at_moved 0 r2 r' e_end (buf_end r2)); [by rewrite V2|done|lia|unfold buf_end in *; lia|by rewrite V2|lia|unfold buf_end in *; lia].
  - apply Hframe. intros. apply elem_of_app. by right.
  - by intros y ->%list_elem_of_singleton.
  - lia.
  - eapply same_below_trans; [|done]. apply same_below_all. intros k Hk. rewrite Z2 by lia.
    apply (wr_zlookup _ _ _ _ _ _ E1). lia.
Qed.

(** What the search found in a list of entries: the place for a new entry
    between the two parts, or the entry of the name. *)
Definition located (i : ext4_xattr_info) (s : ext4_xattr_search) (r : bytes) (base first : Z)
    (es1 : list xentry) (cur : option xentry) (es2 : list xentry) (e_end : Z) : Prop :=
  s_first s = first ∧ s_base s = Some base ∧ s_end s = buf_end r ∧
  match cur with
  | None => s_not_found s ≠ 0 ∧ seg r first es1 (s_here s) ∧ chain r (s_here s) es2 e_end
  | Some x => s_not_found s = 0 ∧ s_here s = x_pos x ∧ x_name x = i_name i ∧ x_index x = i_name_index i
  end.

(** Whether the attribute fits: the bytes between the names and the values, and
    those of the entry that is replaced, are enough; with the feature for value
    inodes, a part of every block stays reserved for names. *)
Definition fits (o : ea_io) (i : ext4_xattr_info) (is_block : bool) (blocksize base hi : Z)
    (es1 : list xentry) (cur : option xentry) (es2 : list xentry) (e_end : Z) : bool :=
  match i_value i with
  | None => true
  | Some _ =>
      let need := EXT4_XATTR_LEN (Z.of_nat (length (i_name i))) + pad (i_value_len i) in
      let old := match cur with Some x => pad (x_size x) | None => 0 end in
      let freed := match cur with Some _ => EXT4_XATTR_LEN (Z.of_nat (length (i_name i))) + old | None => 0 end in
      let m := lowest hi (es1 ++ option_list cur ++ es2) in
      negb (pad (i_value_len i) =? 0) && (pad (i_value_len i) =? old) ||
      (need <=? m - (e_end - base) - 4 + freed) &&
      negb (ea_feature o && negb (pad (i_value_len i) =? 0) && is_block &&
            (m + old - pad (i_value_len i) <? EXT4_XATTR_BLOCK_RESERVE blocksize))
  end.

Lemma check_space_eq o nf is_block blocksize base e_end m name_len old new :
  e_end + 4 ≤ base + m → base ≤ e_end → m ≤ 65536 → 0 ≤ name_len ≤ 255 → 0 ≤ old ≤ 2 ^ 25 → 0 ≤ new ≤ 2 ^ 25 →
  check_space o nf is_block blocksize base e_end m name_len old new =
  if (EXT4_XATTR_LEN name_len + new <=? m - (e_end - base) - 4 + if nf then 0 else EXT4_XATTR_LEN name_len + old) &&
     negb (ea_feature o && negb (new =? 0) && is_block && (u64 (m + old - new) <? EXT4_XATTR_BLOCK_RESERVE blocksize))
  then 0 else - ENOSPC.
Proof.
  intros H1 H2 H3 H4 H5 H6. unfold check_space. pose proof (LEN_bounds name_len) as [Hl _].
  set (size := EXT4_XATTR_LEN name_len) in *.
  assert ((if nf then u64 (m - (e_end - base) - 4) else u64 (u64 (m - (e_end - base) - 4) + (size + old))) =
    m - (e_end - base) - 4 + if nf then 0 else size + old) as ->.
  { rewrite (wrapU_small 64 (m - _ - 4)) by (unfold is_u; lia). destruct nf; [lia|].
    rewrite wrapU_small by (unfold is_u; lia). lia. }
  rewrite (wrapU_small 64 (size + new)) by (unfold is_u; lia).
  set (a := size + new) in *. set (b := m - _ - 4 + _) in *.
  destruct (Z.ltb_spec b a) as [H|H]; [by rewrite (proj2 (Z.leb_gt a b))|].
  rewrite (proj2 (Z.leb_le a b)) by done. cbn [andb]. by destruct (_ && _).
Qed.

Section set_entry.
Context (o : ea_io) (blocksize : Z) (i : ext4_xattr_info) (s : ext4_xattr_search) (is_block : bool).
Context (r : bytes) (base first e_end : Z) (es1 es2 : list xentry) (cur : option xentry).
Hypothesis (Hinfo : info_ok i) (Hblock : is_block = true → first = base + HEADER_SIZE).
Hypothesis (Hinline : default 0 (ea_inline o) = 0).
Hypothesis (Hr : region r base first (es1 ++ option_list cur ++ es2) e_end).
Hypothesis (Hloc : located i s r base first es1 cur es2 e_end).
Hypothesis (Hremove : i_value i = None → cur ≠ None).

Let m := lowest (buf_end r - base) (es1 ++ option_list cur ++ es2).
Let old := match cur with Some x => pad (x_size x) | None => 0 end.
Let new := match i_value i with Some _ => pad (i_value_len i) | None => 0 end.
Let nf := match cur with Some _ => false | None => true end.

Lemma old_range : 0 ≤ old ≤ 2 ^ 25.
Proof.
  unfold old. destruct cur as [x|]; [|lia]. destruct Hr as [_ _ _ Hok _]. cbn [option_list app] in Hok.
  apply Forall_middle in Hok as [_ [_ _ Hs _]]. pose proof (pad_bounds (x_size x)). unfold EXT4_XATTR_SIZE_MAX in Hs. lia.
Qed.

Lemma set_entry_bounds : e_end + 4 ≤ base + m ∧ base ≤ e_end ∧ m ≤ 65536 ∧ m ≤ buf_end r - base.
Proof.
  destruct Hr as [[_ _ Hsz] Hb Hc _ Hv]. pose proof (chain_room _ _ _ _ Hc).
  apply chain_seg in Hc as [Hs _]. apply seg_le in Hs.
  assert (e_end + 4 - base ≤ m) by (eapply spans_lowest_ge; [done|lia]).
  pose proof (proj1 (lowest_le (buf_end r - base) (es1 ++ option_list cur ++ es2))) as Hm. fold m in Hm. lia.
Qed.

(** The general path, once there is room. *)
Lemma modify_entry_result : 
  EXT4_XATTR_LEN (Z.of_nat (length (i_name i))) + new ≤
    m - (e_end - base) - 4 + (if nf then 0 else EXT4_XATTR_LEN (Z.of_nat (length (i_name i))) + old) ∨ i_value i = None →
  ∃ r', modify_entry o r i s is_block base e_end m old new None = Some (0, r') ∧
    set_result r r' base first (s_here s) es1 es2 is_block (new_attr i).
Proof.
  intros Hroom. destruct Hloc as (H1 & H2 & H3 & H4). destruct s as [f b e h n]. cbn [s_first s_base s_end s_here s_not_found] in *.
  subst f b e. pose proof (chain_room _ _ _ _ (rg_chain _ _ _ _ _ Hr)).
  unfold new_attr, new, nf, old in *. destruct cur as [x|] eqn:Hcur; cbn [option_list app] in Hr, m.
  - destruct H4 as (-> & -> & Hn & Hi). destruct (i_value i) as [v|] eqn:Hv.
    + apply (modify_update o i is_block r base first e_end m es1 es2); try done. destruct Hroom; [lia|done].
    + destruct (modify_remove o i is_block r base first e_end m es1 es2 Hblock Hinline x) as (r' & ? & ? & _); [done..|].
      by exists r'.
  - destruct H4 as (Hnf & Hs1 & Hs2). destruct (i_value i) as [v|] eqn:Hv; [|by destruct Hremove].
    apply (modify_insert o i is_block r base first e_end m es1 es2); try done. destruct Hroom; [lia|done].
Qed.

(** The sizes that the code computes. *)
Lemma set_entry_sizes : ∃ oldv,
  (if nf then Some None
   else inum ← rd32 r (s_here s + E_VALUE_INUM); hash ← rd32 r (s_here s + E_HASH);
        size ← rd32 r (s_here s + E_VALUE_SIZE); Some (Some (inum, hash, size))) = Some oldv ∧
  match oldv with Some (inum, _, size) => if inum =? 0 then EXT4_XATTR_SIZE 32 size else 0 | None => 0 end = old ∧
  match oldv with Some (inum, hash, size) => if inum =? 0 then None else Some (inum, hash, size) | None => None end = None ∧
  match i_value i with Some _ => if i_in_inode i then 0 else EXT4_XATTR_SIZE 64 (i_value_len i) | None => 0 end = new ∧
  negb (s_not_found s =? 0) = nf.
Proof.
  destruct Hloc as (_ & _ & _ & H4). pose proof Hinfo as [_ _ _ _ Hpl Hl _]. unfold new, nf, old. rewrite Hpl.
  rewrite SIZE_pad by lia. destruct cur as [x|]; cbn [option_list app] in Hr.
  - destruct H4 as (-> & -> & _). destruct Hr as [_ Hb Hc Hok _]. destruct (chain_middle _ _ _ _ _ _ Hc) as [Ex _]; [lia|].
    destruct (read_entry_Some _ _ _ Ex) as (_ & _ & _ & _ & Eu & Es & Eh & _). rewrite Eu, Es, Eh. cbn [mbind option_bind].
    apply Forall_middle in Hok as [_ [_ Hu Hs _]]. eexists. split; [done|]. cbn beta iota. rewrite Hu. cbn [Z.eqb].
    unfold EXT4_XATTR_SIZE_MAX in Hs. by rewrite SIZE_pad by lia.
  - destruct H4 as (Hn & _). exists None. by rewrite (proj2 (Z.eqb_neq _ 0)).
Qed.

Lemma set_entry_fast v : i_value i = Some v → new ≠ 0 → new = old →
  ∃ r', ext4_xattr_set_entry o blocksize i s is_block r = Some (0, r', []) ∧
    set_result r r' base first (s_here s) es1 es2 is_block (new_attr i).
Proof.
  intros Hv Hn0 Hno. destruct set_entry_sizes as (oldv & E1 & E2 & _ & E4 & E5). pose proof Hloc as (_ & Hb & _ & H4).
  unfold ext4_xattr_set_entry. rewrite Hb. cbn [mbind option_bind]. rewrite E5, E1. cbn [mbind option_bind].
  rewrite E2, E4, Hv, (proj2 (Z.eqb_neq new 0) Hn0), Hno, Z.eqb_refl. cbn [negb andb]. unfold new_attr. rewrite Hv.
  unfold old, new in *. rewrite Hv in *. destruct cur as [x|]; [|by destruct Hn0]. cbn [option_list app] in Hr.
  destruct H4 as (_ & -> & Hxn & Hxi).
  destruct (set_in_place i v is_block r base first es1 x es2 e_end Hinfo Hblock Hr Hxn Hxi Hv Hn0)
    as (r1 & r2 & r3 & F1 & F2 & F3 & F4); [done|].
  destruct Hr as [_ Hbb Hc _ _]. destruct (chain_middle _ _ _ _ _ _ Hc) as [Ex _]; [lia|].
  destruct (read_entry_Some _ _ _ Ex) as (_ & _ & _ & Eo & _). rewrite Eo. cbn [mbind option_bind].
  rewrite F1. cbn [mbind option_bind]. rewrite <-Hno, F2. cbn [mbind option_bind]. rewrite F3. cbn [mbind option_bind].
  by exists r3.
Qed.

Lemma set_entry_general : (i_value i = None ∨ new = 0 ∨ new ≠ old) →
  let ret := match i_value i with
             | Some _ => check_space o nf is_block blocksize base e_end m (Z.of_nat (length (i_name i))) old new
             | None => 0 end in
  ext4_xattr_set_entry o blocksize i s is_block r =
  if negb (ret =? 0) then Some (ret, r, [])
  else x ← modify_entry o r i s is_block base e_end m old new None; let '(ret, r) := x in Some (ret, r, []).
Proof.
  intros Hg ret. destruct set_entry_sizes as (oldv & E1 & E2 & E3 & E4 & E5). pose proof Hloc as (Hf & Hb & He & _).
  unfold ext4_xattr_set_entry. rewrite Hb. cbn [mbind option_bind]. rewrite E5, E1. cbn [mbind option_bind].
  rewrite E2, E4, He, Hf. destruct Hr as [_ Hbb Hc _ _].
  rewrite (scan_entries_chain r first _ e_end) by (done || (eapply chain_fuel; [|done]; lia)). fold m.
  cbn [mbind option_bind].
  assert (access_ea_inodes o (match oldv with Some (inum, hash, size) => if inum =? 0 then None else Some (inum, hash, size) | None => None end) i
    = (inr None, [])) as Ea.
  { rewrite E3. unfold access_ea_inodes. cbn [Z.eqb negb]. rewrite (in_plain _ Hinfo). by destruct (i_value i). }
  rewrite Ea. fold ret. destruct (option_cases (i_value i)) as [Hv|[v Hv]]; [by rewrite Hv|].
  rewrite Hv in *. assert (negb (new =? 0) && (new =? old) = false) as ->; [|done].
  destruct Hg as [Hx|[Hx|Hx]]; [congruence|by rewrite Hx|]. rewrite (proj2 (Z.eqb_neq new old)) by done. apply andb_false_r.
Qed.

(** A removal frees the bytes of the name and of the value. *)
Lemma set_entry_remove x : i_value i = None → cur = Some x →
  ∃ r', ext4_xattr_set_entry o blocksize i s is_block r = Some (0, r', []) ∧
    set_result r r' base first (s_here s) es1 es2 is_block [] ∧ set_space r' base first (m + pad (x_size x)).
Proof.
  intros Hv Hcur. pose proof set_entry_general as Hg. rewrite Hv in Hg. rewrite Hg by by left. cbn [Z.eqb negb].
  destruct Hloc as (H1 & H2 & H3 & H4). destruct s as [f b e h n]. cbn [s_first s_base s_end s_here s_not_found] in *.
  subst f b e. unfold old, new, m, nf in *. rewrite Hv in *. subst cur. cbn [option_list app] in *. destruct H4 as (-> & -> & Hn & Hi).
  change (option_list (Some x)) with [x]. cbn [app].
  destruct (modify_remove o i is_block r base first e_end (lowest (buf_end r - base) (es1 ++ x :: es2)) es1 es2 Hblock Hinline x)
    as (r' & -> & ? & ?); [done..|]. by exists r'.
Qed.

Lemma set_entry_result :
  if fits o i is_block blocksize base (buf_end r - base) es1 cur es2 e_end
  then ∃ r', ext4_xattr_set_entry o blocksize i s is_block r = Some (0, r', []) ∧
         set_result r r' base first (s_here s) es1 es2 is_block (new_attr i)
  else ext4_xattr_set_entry o blocksize i s is_block r = Some (- ENOSPC, r, []).
Proof.
  destruct set_entry_bounds as (B1 & B2 & B3 & B4). pose proof old_range as Ho. pose proof Hinfo as [_ Hnl _ _ _ Hl _].
  pose proof (pad_bounds (i_value_len i)) as Hpad. pose proof set_entry_general as Hg. pose proof modify_entry_result as Hm.
  unfold fits. fold old. fold m. destruct (option_cases (i_value i)) as [Hv|[v Hv]]; rewrite Hv in Hg |- *.
  { destruct Hm as (r' & Em & Hs); [by right|]. rewrite Hg by by left. cbn [Z.eqb negb]. rewrite Em. cbn [mbind option_bind]. by exists r'. }
  assert (new = pad (i_value_len i)) as Enew by (unfold new; by rewrite Hv). rewrite Enew in Hg, Hm.
  destruct (decide (pad (i_value_len i) ≠ 0 ∧ pad (i_value_len i) = old)) as [[Hn0 Hno]|Hno].
  { rewrite (proj2 (Z.eqb_neq _ 0) Hn0), (proj2 (Z.eqb_eq _ _) Hno). cbn [negb andb orb].
    apply (set_entry_fast v); [done|congruence..]. }
  assert (negb (pad (i_value_len i) =? 0) && (pad (i_value_len i) =? old) = false) as ->.
  { destruct (Z.eqb_spec (pad (i_value_len i)) 0), (Z.eqb_spec (pad (i_value_len i)) old); try done. exfalso. by apply Hno. }
  cbn [orb]. rewrite Hg by (right; destruct (decide (pad (i_value_len i) = 0)); [by left|right; intros Hq; by apply Hno]).
  rewrite check_space_eq by lia.
  assert ((if nf then 0 else EXT4_XATTR_LEN (Z.of_nat (length (i_name i))) + old) =
    match cur with Some _ => EXT4_XATTR_LEN (Z.of_nat (length (i_name i))) + old | None => 0 end) as En by (unfold nf; by destruct cur).
  rewrite En in *. destruct (Z.leb_spec (EXT4_XATTR_LEN (Z.of_nat (length (i_name i))) + pad (i_value_len i))
    (m - (e_end - base) - 4 + match cur with Some _ => EXT4_XATTR_LEN (Z.of_nat (length (i_name i))) + old | None => 0 end)) as [Hle|]; [|done].
  cbn [andb].
  assert (0 ≤ m + old - pad (i_value_len i)) as Hge.
  { unfold old in *. pose proof (LEN_bounds (Z.of_nat (length (i_name i)))). destruct cur; lia. }
  rewrite wrapU_small by (unfold is_u; lia).
  destruct (negb (ea_feature o && negb (pad (i_value_len i) =? 0) && is_block && (m + old - pad (i_value_len i) <? EXT4_XATTR_BLOCK_RESERVE blocksize))); [|done].
  cbn [Z.eqb negb]. destruct Hm as (r' & Em & Hs); [by left|]. rewrite Em. cbn [mbind option_bind]. by exists r'.
Qed.

End set_entry.

(** C28: ext4_xattr_set_entry on a well-formed buffer and a place that the search
    found, for a value kept in the buffer: if the attribute fits (or is removed)
    the call succeeds, the list of attributes is the old one with the new
    attribute at that place (replacing the entry that was found), the values of
    all other attributes are the same, the buffer is well formed again and no
    byte before the names changes except the block's hash.  Otherwise it answers
    ENOSPC and changes nothing.  No value inode is touched. *)
Theorem ext4_xattr_set_entry_spec o blocksize i s is_block r base first e_end es1 es2 cur
    (Hinfo : info_ok i) (Hblock : is_block = true → first = base + HEADER_SIZE)
    (Hinline : default 0 (ea_inline o) = 0)
    (Hr : region r base first (es1 ++ option_list cur ++ es2) e_end)
    (Hloc : located i s r base first es1 cur es2 e_end)
    (Hremove : i_value i = None → cur ≠ None) :
  if fits o i is_block blocksize base (buf_end r - base) es1 cur es2 e_end
  then ∃ r' es' e_end', ext4_xattr_set_entry o blocksize i s is_block r = Some (0, r', []) ∧
         region r' base first es' e_end' ∧
         attrs r' base es' = attrs r base es1 ++ new_attr i ++ attrs r base es2 ∧
         length r' = length r ∧ same_below is_block base first r r'
  else ext4_xattr_set_entry o blocksize i s is_block r = Some (- ENOSPC, r, []).
Proof.
  pose proof (set_entry_result o blocksize i s is_block r base first e_end es1 es2 cur
    Hinfo Hblock Hinline Hr Hloc Hremove) as H.
  destruct (fits _ _ _ _ _ _ _ _ _ _); [|done].
  destruct H as (r' & E & es1' & mid & es2' & e_end' & Hreg & A1 & A2 & A3 & _ & Hl & Hf).
  exists r', (es1' ++ mid ++ es2'), e_end'. split_and!; try done. by rewrite !attrs_app, A1, A2, A3.
Qed.

(** ** Witness: replacing custom.a = "Hi" of the sample inode by a longer value *)

Definition demo_set_io : ea_io := EaIo false (λ _ _, - EIO) (λ _, 0) (λ _ _, inl (- EIO)) (λ _, 0) None.
Definition demo_info : ext4_xattr_info := Ext4XattrInfo [97] (Some (ValueBytes (s2b "Hello"))) 5 11 false.
Definition demo_entry : xentry := XEntry 164 11 [97] 88 0 2 0.

Lemma demo_inode_region : region demo_raw 164 164 [demo_entry] 184.
Proof.
  split.
  - apply demo_inode_ok.
  - done.
  - eapply chain_cons; [by vm_compute|by vm_compute|by vm_compute|by vm_compute|]. apply chain_last. by vm_compute.
  - constructor; [|constructor]. split; [done|done|cbn; unfold EXT4_XATTR_SIZE_MAX; lia|done].
  - split; [|by repeat constructor]. constructor; [|constructor]. vm_compute. by split_and!.
Qed.

Lemma demo_info_ok : info_ok demo_info.
Proof.
  split; [by vm_compute|cbn; lia|by apply is_bytes_check; vm_compute|by vm_compute|done|cbn; lia|]. intros v [= <-].
  split; [by apply is_bytes_check; vm_compute|by vm_compute].
Qed.

Lemma ext4_xattr_set_entry_spec_witness :
  ∃ r' es' e_end',
    ext4_xattr_set_entry demo_set_io 4096 demo_info (Ext4XattrSearch 164 (Some 164) 256 164 0) false demo_raw =
      Some (0, r', []) ∧
    region r' 164 164 es' e_end' ∧ attrs r' 164 es' = [(11, [97], s2b "Hello")].
Proof.
  pose proof (ext4_xattr_set_entry_spec demo_set_io 4096 demo_info (Ext4XattrSearch 164 (Some 164) 256 164 0) false
    demo_raw 164 164 184 [] [] (Some demo_entry) demo_info_ok) as H.
  destruct H as (r' & es' & e_end' & E & Hreg & Ha & _); [done|done|exact demo_inode_region|by split_and!|done|].
  exists r', es', e_end'. split; [exact E|]. split; [exact Hreg|]. rewrite Ha. reflexivity.
Defined.

End Ext4Set.
