(* ===== verification/Ext4Store.v ===== *)
(** * Storing extended attributes of ext4

    fs/ext4/xattr.c: setting an attribute of an inode, on top of
    ext4_xattr_set_entry: in the inode (ext4_xattr_ibody_find, ..._set), in the
    attribute block (ext4_xattr_block_find, ..._set), and the choice between the
    two with its retries (ext4_xattr_set_handle, ext4_xattr_set).  A block may be
    shared by inodes: one with a reference count above one is cloned, and a block
    that is found identical in the cache ([ext4_xattr_cmp]) is shared.

    The inode in memory, its raw bytes and its block are those of Ext4Xattr.  The
    journal, the allocator and the cache are given by what they answer
    ([journal]); what happens to blocks and value inodes outside the inode is
    recorded in order ([store_op]).

    The theorems say that setting changes the attribute of that name and no
    other, that what was set is read back by ext4_xattr_get, and that the inode
    stays well formed. *)

From Stdlib Require Import ZArith Lia Sorted.
From stdpp Require Import base numbers list gmap strings.
From S2P Require Import Prelude Xattr Ext4Xattr Ext4Set.

Module Ext4Store.
Import Xattr Ext4Xattr Ext4Set.

(** ** State and environment *)

Inductive store_op :=
| OpEa (op : ea_op)
| OpAllocBlock                     (** dquot_alloc_block *)
| OpFreeBlockQuota                 (** dquot_free_block *)
| OpNewBlock (nr : Z)
| OpFreeBlocks (nr : Z)
| OpShare (b : ea_block)           (** a block with one more reference *)
| OpUnshare (b : ea_block)         (** a block with one reference less *)
| OpDecRefAll (nr : Z)             (** the value inodes of a freed block *)
| OpFcIneligible                   (** ext4_fc_mark_ineligible *)
| OpSync.                          (** ext4_handle_sync *)

Record store := Store {
  sx_inode : ext4_inode;
  sx_new : bool;                   (** EXT4_STATE_NEW *)
  sx_no_expand : bool;             (** EXT4_STATE_NO_EXPAND *)
  sx_feature : bool;               (** ext4_has_feature_xattr *)
  sx_ctime : Z;
  sx_log : list store_op }.

(** What the journal, the allocator and the cache answer in one call of
    ext4_xattr_set_handle.  Each place that asks has an answer of its own; those
    that are asked for every candidate of the cache have one for each, by the
    number of lookups that are left. *)
Record journal := Journal {
  j_valid : bool;
  j_credits : Z;
  j_write_access : Z;              (** to the inode's block, before it is changed *)
  j_create_access : Z;
  j_dirty : Z;                     (** the inode's block, after it was changed in place *)
  j_reserve : Z;                   (** ext4_reserve_inode_write *)
  j_mark_dirty : Z;                (** ext4_mark_iloc_dirty *)
  j_super_access : Z;              (** write access to the super block *)
  j_kmalloc : bool;                (** for the copy of a block, or for a new one *)
  j_alloc_block : nat → Z;         (** dquot_alloc_block, for a candidate *)
  j_new_block : Z + Z;             (** error, or block number *)
  j_getblk : bool;
  j_inc_ref_all : Z;
  j_cache : bool;                  (** there is a cache of blocks *)
  j_cache_busy : bool;             (** mb_cache_entry_delete_or_get finds the block in use *)
  j_lookups : list (list (Z + ea_block));   (** what each lookup reads, in turn *)
  j_lustre : Z → bool;
  j_ea_size : Z → Z;
  j_now : Z;
  j_sync : bool;
  j_quotas : Z;                    (** EXT4_MAXQUOTAS_TRANS_BLOCKS *)
  j_inline_blocks : option Z;      (** has inline data: ext4_writepage_trans_blocks *)
  j_blkbits : Z;
  j_share_access : nat → Z;        (** write access to a candidate *)
  j_share_dirty : Z;
  j_new_dirty : Z;                 (** a newly allocated block *)
  j_release_access : Z;            (** write access to the block that is given up *)
  j_move_kmalloc : bool }.         (** the allocations of ext4_xattr_move_to_block *)

Definition log (ops : list store_op) : st store unit :=
  modify (λ x, Store (sx_inode x) (sx_new x) (sx_no_expand x) (sx_feature x) (sx_ctime x) (sx_log x ++ ops)).

Definition put_inode (n : ext4_inode) : st store unit :=
  modify (λ x, Store n (sx_new x) (sx_no_expand x) (sx_feature x) (sx_ctime x) (sx_log x)).

Definition set_raw (r : bytes) (state : bool) (n : ext4_inode) : ext4_inode :=
  Ext4Inode r (i_extra_isize n) state (i_file_acl n).

(** ** In the inode *)

Definition EXT4_INODE_HAS_XATTR_SPACE (n : ext4_inode) : bool :=
  negb (i_extra_isize n =? 0) &&
  (EXT4_GOOD_OLD_INODE_SIZE + i_extra_isize n + IBODY_HEADER_SIZE + 4 <=? buf_end (raw_inode n)).

(** The search as the callers initialise it. *)
Definition no_search : ext4_xattr_search := Ext4XattrSearch 0 None 0 0 (- ENODATA).

Definition ext4_xattr_ibody_find (n : ext4_inode) (i : ext4_xattr_info) : option (Z * ext4_xattr_search) :=
  if negb (EXT4_INODE_HAS_XATTR_SPACE n) then Some (0, no_search)
  else
    let r := raw_inode n in
    let s := Ext4XattrSearch (IFIRST n) (Some (IFIRST n)) (buf_end r) (IFIRST n) (- ENODATA) in
    if negb (state_xattr n) then Some (0, s)
    else
      error ← xattr_check_inode n;
      if negb (error =? 0) then Some (error, s)
      else
        f ← xattr_find_entry r (IFIRST n) (i_name_index i) (Some (i_name i)) false;
        let '(error, here) := f in
        let s := Ext4XattrSearch (IFIRST n) (Some (IFIRST n)) (buf_end r) here (- ENODATA) in
        if negb (error =? 0) && negb (error =? - ENODATA) then Some (error, s)
        else Some (0, Ext4XattrSearch (IFIRST n) (Some (IFIRST n)) (buf_end r) here error).

Definition ext4_xattr_ibody_set (e : ea_io) (blocksize : Z) (i : ext4_xattr_info) (s : ext4_xattr_search) :
    st store Z :=
  x ← get;
  let n := sx_inode x in
  if negb (EXT4_INODE_HAS_XATTR_SPACE n) then mret (- ENOSPC)
  else
    res ← lift (ext4_xattr_set_entry e blocksize i s false (raw_inode n));
    let '(error, r, ops) := res in
    log (OpEa <$> ops) ;;
    put_inode (set_raw r (state_xattr n) n) ;;
    if negb (error =? 0) then mret error
    else
      last ← lift (IS_LAST_ENTRY r (s_first s));
      r ← lift (wr 4 r (IHDR n) (if last : bool then 0 else EXT4_XATTR_MAGIC));
      put_inode (set_raw r (negb last) n) ;;
      mret 0.

(** Whether the entry that was found has the value already; [r] is its buffer. *)
Definition ext4_xattr_value_same (r : bytes) (s : ext4_xattr_search) (i : ext4_xattr_info) : option bool :=
  inum ← rd32 r (s_here s + E_VALUE_INUM);
  if negb (inum =? 0) then Some false
  else
    size ← rd32 r (s_here s + E_VALUE_SIZE);
    if negb (size =? i_value_len i) then Some false
    else
      base ← s_base s;
      offs ← rd16 r (s_here s + E_VALUE_OFFS);
      value ← bytes_at r (base + offs) (i_value_len i);
      match i_value i with
      | Some (ValueBytes v) => v ← bytes_at v 0 (i_value_len i); Some (memcmp value v =? 0)
      | _ => None
      end.

(** ** In the attribute block *)

Record ext4_xattr_block_find_t := BlockFind { bs_s : ext4_xattr_search; bs_bh : option ea_block }.

Definition ext4_xattr_block_find (o : io) (i : ext4_xattr_info) : st store (Z * ext4_xattr_block_find_t) :=
  x ← get;
  match i_file_acl (sx_inode x) with
  | None => mret (0, BlockFind no_search None)
  | Some b =>
      if negb (io_bread o =? 0) then mret (io_bread o, BlockFind no_search None)
      else
        c ← lift (ext4_xattr_check_block o b);
        let '(error, b) := c in
        put_inode (set_block (Some b) (sx_inode x)) ;;
        if negb (error =? 0) then mret (error, BlockFind no_search (Some b))
        else
          f ← lift (xattr_find_entry (b_data b) BFIRST (i_name_index i) (Some (i_name i)) true);
          let '(error, here) := f in
          let s := Ext4XattrSearch BFIRST (Some 0) (buf_end (b_data b)) here in
          if negb (error =? 0) && negb (error =? - ENODATA) then mret (error, BlockFind (s (- ENODATA)) (Some b))
          else mret (0, BlockFind (s error) (Some b))
  end.

(** The checksum of a block that was changed. *)
Definition ext4_xattr_block_csum_set (o : io) (b : ea_block) : option ea_block :=
  if io_metadata_csum o then
    r ← wr 4 (b_data b) H_CHECKSUM (ext4_xattr_block_csum o (b_blocknr b) (b_data b));
    Some (EaBlock r (b_blocknr b) (b_verified b))
  else Some b.

(** 0 when the two blocks have the same entries and values, else 1. *)
Fixpoint cmp_loop (fuel : nat) (h1 h2 : bytes) (entry1 entry2 : Z) : option Z :=
  match fuel with
  | O => None
  | S fuel =>
      l1 ← IS_LAST_ENTRY h1 entry1;
      l2 ← IS_LAST_ENTRY h2 entry2;
      if l1 : bool then Some (if l2 : bool then 0 else 1)
      else if l2 : bool then Some 1
      else
        x ← read_entry h1 entry1;
        y ← read_entry h2 entry2;
        if negb (x_hash x =? x_hash y) || negb (x_index x =? x_index y) ||
           negb (Z.of_nat (length (x_name x)) =? Z.of_nat (length (x_name y))) ||
           negb (x_size x =? x_size y) || negb (x_inum x =? x_inum y) ||
           negb (memcmp (x_name x) (x_name y) =? 0) then Some 1
        else
          same ← (if x_inum x =? 0 then
                    v1 ← bytes_at h1 (x_offs x) (x_size x);
                    v2 ← bytes_at h2 (x_offs y) (x_size x);
                    Some (memcmp v1 v2 =? 0)
                  else Some true);
          if negb same then Some 1 else cmp_loop fuel h1 h2 (x_next x) (x_next y)
  end.

Definition ext4_xattr_cmp (h1 h2 : bytes) : option Z := cmp_loop (fuel_of h1) h1 h2 HEADER_SIZE HEADER_SIZE.

(** The first block of a lookup that is identical; an entry of the lookup is a
    read error or the block read. *)
Fixpoint cache_loop (h : bytes) (found : list (Z + ea_block)) : option (option ea_block) :=
  match found with
  | [] => Some None
  | inl error :: found => if error =? - ENOMEM then Some None else cache_loop h found
  | inr b :: found =>
      c ← ext4_xattr_cmp h (b_data b);
      if c =? 0 then Some (Some b) else cache_loop h found
  end.

Definition ext4_xattr_block_cache_find (j : journal) (h : bytes) (found : list (Z + ea_block)) :
    option (option ea_block) :=
  if negb (j_cache j) then Some None
  else
    hash ← rd32 h H_HASH;
    if hash =? 0 then Some None else cache_loop h found.

Definition EXT4_XATTR_REFCOUNT_MAX : Z := 1024.

(** Release a block that the inode does not use any more. *)
Definition ext4_xattr_release_block (o : io) (e : ea_io) (j : journal) (b : ea_block) : st store unit :=
  if negb (j_release_access j =? 0) then mret tt
  else
    ref ← lift (rd32 (b_data b) H_REFCOUNT);
    if ref =? 1 then
      log ((if ea_feature e then [OpDecRefAll (b_blocknr b)] else []) ++ [OpFreeBlocks (b_blocknr b)])
    else
      r ← lift (wr 4 (b_data b) H_REFCOUNT (u32 (ref - 1)));
      b ← lift (ext4_xattr_block_csum_set o (EaBlock r (b_blocknr b) (b_verified b)));
      log (OpUnshare b :: (if j_sync j then [OpSync] else []) ++ [OpFreeBlockQuota]).

(** A new block before its entries. *)
Definition new_block_bytes (blocksize : Z) : option bytes :=
  r ← wr 4 (replicate (Z.to_nat blocksize) 0) H_MAGIC EXT4_XATTR_MAGIC;
  r ← wr 4 r H_BLOCKS 1;
  wr 4 r H_REFCOUNT 1.

(** The block under construction: whether it is the inode's own block, its
    bytes, where its entries begin, the quota of a value that is not used any
    more, and a value inode whose extra reference must be dropped. *)
Record block_build := BlockBuild {
  bb_in_place : bool;
  bb_bytes : bytes;
  bb_old_quota : Z;
  bb_ea_inode : option Z }.

(** Setting the entry in a buffer that is not the inode's block yet. *)
Definition build_block (e : ea_io) (blocksize : Z) (i : ext4_xattr_info) (s : ext4_xattr_search)
    (w : bytes) (old_quota : Z) : st store (Z + block_build) :=
  res ← lift (ext4_xattr_set_entry e blocksize i s true w);
  let '(error, w, ops) := res in
  log (OpEa <$> ops) ;;
  if negb (error =? 0) then mret (inl error)
  else
    match i_value i with
    | None => mret (inr (BlockBuild false w old_quota None))
    | Some _ =>
        inum ← lift (rd32 w (s_here s + E_VALUE_INUM));
        if inum =? 0 then mret (inr (BlockBuild false w old_quota None))
        else
          hash ← lift (rd32 w (s_here s + E_HASH));
          if negb (ea_iget e inum hash =? 0) then mret (inl (ea_iget e inum hash))
          else mret (inr (BlockBuild false w old_quota (Some inum)))
    end.

(** The label [clone_block]. *)
Definition clone_block (e : ea_io) (j : journal) (blocksize : Z) (i : ext4_xattr_info) (s : ext4_xattr_search)
    (bh : ea_block) : st store (Z + block_build) :=
  if negb (j_kmalloc j) then mret (inl (- ENOMEM))
  else
    w ← lift (wr 4 (b_data bh) H_REFCOUNT 1);
    inum ← lift (if s_not_found s =? 0 then rd32 w (s_here s + E_VALUE_INUM) else Some 0);
    if inum =? 0 then build_block e blocksize i s w 0
    else
      hash ← lift (rd32 w (s_here s + E_HASH));
      if negb (ea_iget e inum hash =? 0) then mret (inl (ea_iget e inum hash))
      else
        size ← lift (rd32 w (s_here s + E_VALUE_SIZE));
        w ← lift (wr 4 w (s_here s + E_VALUE_INUM) 0);
        w ← lift (wr 4 w (s_here s + E_VALUE_SIZE) 0);
        build_block e blocksize i s w (if j_lustre j inum then 0 else size).

(** From the start to the label [inserted]: modify the block in place, or a
    clone, or a new one. *)
Definition modify_block (o : io) (e : ea_io) (j : journal) (blocksize : Z) (i : ext4_xattr_info)
    (bs : ext4_xattr_block_find_t) : st store (Z + block_build) :=
  let s := bs_s bs in
  match s_base s, bs_bh bs with
  | Some _, Some bh =>
      if negb (j_write_access j =? 0) then mret (inl (j_write_access j))
      else
        ref ← lift (rd32 (b_data bh) H_REFCOUNT);
        if (ref =? 1) && negb (j_cache j && j_cache_busy j) then
          res ← lift (ext4_xattr_set_entry e blocksize i s true (b_data bh));
          let '(error, r, ops) := res in
          log (OpEa <$> ops) ;;
          bh ← lift (ext4_xattr_block_csum_set o (EaBlock r (b_blocknr bh) (b_verified bh)));
          x ← get;
          put_inode (set_block (Some bh) (sx_inode x)) ;;
          let error := if error =? 0 then j_dirty j else error in
          if negb (error =? 0) then mret (inl error)
          else mret (inr (BlockBuild true (b_data bh) 0 None))
        else clone_block e j blocksize i s bh
  | Some _, None => fault
  | None, _ =>
      if negb (j_kmalloc j) then mret (inl (- ENOMEM))
      else
        w ← lift (new_block_bytes blocksize);
        build_block e blocksize i (Ext4XattrSearch HEADER_SIZE (Some 0) blocksize HEADER_SIZE (s_not_found s)) w 0
  end.

(** Write the block under construction to a newly allocated one. *)
Definition write_new_block (o : io) (j : journal) (w : bytes) (ea_inode : option Z) :
    st store ((Z + option ea_block) * option Z) :=
  match j_new_block j with
  | inl error => mret (inl error, ea_inode)
  | inr nr =>
      log [OpNewBlock nr] ;;
      if negb (j_getblk j) then log [OpFreeBlocks nr] ;; mret (inl (- ENOMEM), ea_inode)
      else if negb (j_inc_ref_all j =? 0) then log [OpFreeBlocks nr] ;; mret (inl (j_inc_ref_all j), ea_inode)
      else
        match ea_inode with Some num => log [OpEa (EaDecRef num)] | None => mret tt end ;;
        if negb (j_create_access j =? 0) then log [OpFreeBlocks nr] ;; mret (inl (- EIO), None)
        else
          b ← lift (ext4_xattr_block_csum_set o (EaBlock w nr false));
          if negb (j_new_dirty j =? 0) then mret (inl (j_new_dirty j), None)
          else mret (inr (Some b), None)
  end.

(** The label [inserted]: the block that the inode is to use, [None] for none.
    [bh] is the inode's block as it is now. *)
Fixpoint insert_block (o : io) (j : journal) (lookups : list (list (Z + ea_block))) (bh : option ea_block)
    (first : Z) (in_place : bool) (w : bytes) (ea_inode : option Z) :
    st store ((Z + option ea_block) * option Z) :=
  last ← lift (IS_LAST_ENTRY w first);
  if last : bool then mret (inr None, ea_inode)
  else
    found ← lift (ext4_xattr_block_cache_find j w (default [] (head lookups)));
    match found with
    | Some nb =>
        if bool_decide (Some (b_blocknr nb) = b_blocknr <$> bh) then mret (inr bh, ea_inode)
        else if negb (j_alloc_block j (length lookups) =? 0) then mret (inl (j_alloc_block j (length lookups)), ea_inode)
        else
          log [OpAllocBlock] ;;
          if negb (j_share_access j (length lookups) =? 0)
          then log [OpFreeBlockQuota] ;; mret (inl (j_share_access j (length lookups)), ea_inode)
          else
            ref ← lift (rd32 (b_data nb) H_REFCOUNT);
            let ref := u32 (ref + 1) in
            if EXT4_XATTR_REFCOUNT_MAX <? ref then
              log [OpFreeBlockQuota] ;;
              match lookups with
              | _ :: lookups => insert_block o j lookups bh first in_place w ea_inode
              | [] => fault
              end
            else
              r ← lift (wr 4 (b_data nb) H_REFCOUNT ref);
              nb ← lift (ext4_xattr_block_csum_set o (EaBlock r (b_blocknr nb) (b_verified nb)));
              log [OpShare nb] ;;
              if negb (j_share_dirty j =? 0) then log [OpFreeBlockQuota] ;; mret (inl (j_share_dirty j), ea_inode)
              else mret (inr (Some nb), ea_inode)
    | None =>
        if in_place then mret (inr bh, ea_inode)
        else write_new_block o j w ea_inode
    end.

(** The label [cleanup], for the extra reference on a value inode. *)
Definition cleanup_block (j : journal) (ea_inode : option Z) (error : Z) : st store Z :=
  match ea_inode with
  | Some num =>
      log (OpEa (EaDecRef num) ::
           (if negb (error =? 0) && negb (j_lustre j num) then [OpEa (EaFreeQuota (Some num) (j_ea_size j num))] else []))
  | None => mret tt
  end ;;
  mret error.

Definition ext4_xattr_block_set (o : io) (e : ea_io) (j : journal) (blocksize : Z) (i : ext4_xattr_info)
    (bs : ext4_xattr_block_find_t) : st store Z :=
  m ← modify_block o e j blocksize i bs;
  match m with
  | inl error => mret error
  | inr (BlockBuild in_place w old_quota ea_inode) =>
      x ← get;
      let bh := match bs_bh bs with Some _ => i_file_acl (sx_inode x) | None => None end in
      ins ← insert_block o j (j_lookups j) bh BFIRST in_place w ea_inode;
      let '(res, ea_inode) := ins in
      match res with
      | inl error => cleanup_block j ea_inode error
      | inr new_bh =>
          (if negb (old_quota =? 0) then log [OpEa (EaFreeQuota None old_quota)] else mret tt) ;;
          x ← get;
          put_inode (set_block new_bh (sx_inode x)) ;;
          (match bh with
           | Some b => if bool_decide (b_blocknr <$> bh = b_blocknr <$> new_bh) then mret tt
                       else ext4_xattr_release_block o e j b
           | None => mret tt
           end) ;;
          cleanup_block j ea_inode 0
      end
  end.

(** ** Journal credits *)

(** The entries of a block with a value inode. *)
Fixpoint count_inums (fuel : nat) (r : bytes) (entry : Z) : option Z :=
  match fuel with
  | O => None
  | S fuel =>
      last ← IS_LAST_ENTRY r entry;
      if last : bool then Some 0
      else
        inum ← rd32 r (entry + E_VALUE_INUM);
        next ← EXT4_XATTR_NEXT r entry;
        n ← count_inums fuel r next;
        Some (n + if inum =? 0 then 0 else 1)
  end.

Definition ext4_xattr_set_credits_of (e : ea_io) (j : journal) (blocksize : Z) (block : option ea_block)
    (value_len : Z) (is_create : bool) : option Z :=
  let credits := 7 + j_quotas j in
  let credits := match j_inline_blocks j with Some n => credits + n + 1 | None => credits end in
  if negb (ea_feature e) then Some credits
  else
    let credits := credits + 4 in
    let blocks := s32 (Z.shiftr (u64 (value_len + blocksize - 1)) (j_blkbits j)) + 1 in
    let credits := credits + blocks * 2 + blocks in
    let credits :=
      if is_create then credits
      else let blocks := Z.shiftr XATTR_SIZE_MAX (j_blkbits j) + 1 in credits + 4 + blocks * 2 in
    match block with
    | Some b => n ← count_inums (fuel_of (b_data b)) (b_data b) BFIRST; Some (credits + n)
    | None => Some credits
    end.

Definition ext4_xattr_get_block (o : io) : st store (Z + option ea_block) :=
  x ← get;
  match i_file_acl (sx_inode x) with
  | None => mret (inr None)
  | Some b =>
      if negb (io_bread o =? 0) then mret (inl (io_bread o))
      else
        c ← lift (ext4_xattr_check_block o b);
        let '(error, b) := c in
        put_inode (set_block (Some b) (sx_inode x)) ;;
        if negb (error =? 0) then mret (inl error) else mret (inr (Some b))
  end.

(** ** Choosing between the inode and the block *)

Definition XATTR_CREATE : Z := 1.
Definition XATTR_REPLACE : Z := 2.

Definition with_value (value : option xattr_value) (i : ext4_xattr_info) : ext4_xattr_info :=
  Ext4XattrInfo (i_name i) value (i_value_len i) (i_name_index i) (i_in_inode i).

Definition with_in_inode (in_inode : bool) (i : ext4_xattr_info) : ext4_xattr_info :=
  Ext4XattrInfo (i_name i) (i_value i) (i_value_len i) (i_name_index i) in_inode.

Definition found (s : ext4_xattr_search) : bool := s_not_found s =? 0.

(** The label [retry_inode]; [inl] is a jump to [cleanup]. *)
Fixpoint set_value (turns : nat) (o : io) (e : ea_io) (j : journal) (blocksize : Z) (i : ext4_xattr_info)
    (ibs : ext4_xattr_search) (bs : ext4_xattr_block_find_t) : st store (Z + Z) :=
  error ← ext4_xattr_ibody_set e blocksize i ibs;
  if (error =? 0) && found (bs_s bs) then
    error ← ext4_xattr_block_set o e j blocksize (with_value None i) bs; mret (inr error)
  else if error =? - ENOSPC then
    x ← get;
    again ← (match i_file_acl (sx_inode x), s_base (bs_s bs) with
             | Some _, None => ext4_xattr_block_find o i
             | _, _ => mret (0, bs)
             end);
    let '(error, bs) := again in
    if negb (error =? 0) then mret (inl error)
    else
      error ← ext4_xattr_block_set o e j blocksize i bs;
      if (error =? 0) && found ibs then
        error ← ext4_xattr_ibody_set e blocksize (with_value None i) ibs; mret (inr error)
      else if (error =? - ENOSPC) && ea_feature e && negb (i_value_len i =? 0) && negb (i_in_inode i) then
        match turns with
        | O => fault
        | S turns => set_value turns o e j blocksize (with_in_inode true i) ibs bs
        end
      else mret (inr error)
  else mret (inr error).

Definition EXT4_XATTR_MIN_LARGE_EA_SIZE (blocksize : Z) : Z :=
  blocksize - EXT4_XATTR_LEN 3 - HEADER_SIZE - 4.

(** After a change: the feature flag, the change time, the inode. *)
Definition finish_set (j : journal) : st store Z :=
  modify (λ x, Store (sx_inode x) (sx_new x) (sx_no_expand x)
                 (sx_feature x || (j_super_access j =? 0)) (j_now j) (sx_log x)) ;;
  (if j_sync j then log [OpSync] else mret tt) ;;
  mret (j_mark_dirty j).

(** After the searches: the flags, and the change unless the value is there
    already. *)
Definition set_checked (o : io) (e : ea_io) (j : journal) (blocksize : Z) (i : ext4_xattr_info) (flags : Z)
    (ibs : ext4_xattr_search) (bs : ext4_xattr_block_find_t) : st store (Z * bool) :=
  let nowhere := negb (found ibs) && negb (found (bs_s bs)) in
  if nowhere && negb (Z.land flags XATTR_REPLACE =? 0) then mret (- ENODATA, false)
  else if nowhere && match i_value i with None => true | Some _ => false end then mret (0, false)
  else if negb nowhere && negb (Z.land flags XATTR_CREATE =? 0) then mret (- EEXIST, false)
  else
    x ← get;
    same ← lift (match i_value i with
                 | None => Some false
                 | Some _ =>
                     if found ibs then ext4_xattr_value_same (raw_inode (sx_inode x)) ibs i
                     else if found (bs_s bs) then
                       b ← bs_bh bs; ext4_xattr_value_same (b_data b) (bs_s bs) i
                     else Some false
                 end);
    if same : bool then mret (0, false)
    else
      res ← (match i_value i with
             | None =>
                 if found ibs then error ← ext4_xattr_ibody_set e blocksize i ibs; mret (inr error)
                 else error ← ext4_xattr_block_set o e j blocksize i bs; mret (inr error)
             | Some _ =>
                 let large := ea_feature e &&
                   (EXT4_XATTR_MIN_LARGE_EA_SIZE blocksize <? EXT4_XATTR_SIZE 64 (i_value_len i)) in
                 set_value 1 o e j blocksize (with_in_inode large i) ibs bs
             end);
      match res with
      | inl error => mret (error, false)
      | inr error =>
          if error =? 0 then
            error ← finish_set j;
            log [OpFcIneligible] ;;
            mret (error, match i_value i with None => true | Some _ => false end)
          else log [OpFcIneligible] ;; mret (error, false)
      end.

(** From the lock to the label [cleanup]; the error, and whether the flag that
    was saved is to be cleared ([no_expand = 0]). *)
Definition set_locked (o : io) (e : ea_io) (j : journal) (blocksize : Z) (i : ext4_xattr_info)
    (flags : Z) : st store (Z * bool) :=
  ok ← (if j_valid j then
          b ← ext4_xattr_get_block o;
          match b with
          | inl error => mret error
          | inr b =>
              credits ← lift (ext4_xattr_set_credits_of e j blocksize b (i_value_len i) (negb (Z.land flags XATTR_CREATE =? 0)));
              mret (if j_credits j <? credits then - ENOSPC else 0)
          end
        else mret 0);
  if negb (ok =? 0) then mret (ok, false)
  else if negb (j_reserve j =? 0) then mret (j_reserve j, false)
  else
    x ← get;
    (if sx_new x then
       let n := sx_inode x in
       put (Store (set_raw (replicate (length (raw_inode n)) 0) (state_xattr n) n) false (sx_no_expand x)
              (sx_feature x) (sx_ctime x) (sx_log x))
     else mret tt) ;;
    x ← get;
    f ← lift (ext4_xattr_ibody_find (sx_inode x) i);
    let '(error, ibs) := f in
    if negb (error =? 0) then mret (error, false)
    else
      f ← (if found ibs then mret (0, BlockFind no_search None) else ext4_xattr_block_find o i);
      let '(error, bs) := f in
      if negb (error =? 0) then mret (error, false)
      else set_checked o e j blocksize i flags ibs bs.

Definition set_no_expand (b : bool) : st store unit :=
  modify (λ x, Store (sx_inode x) (sx_new x) b (sx_feature x) (sx_ctime x) (sx_log x)).

Definition ext4_xattr_set_handle (o : io) (e : ea_io) (j : journal) (blocksize name_index : Z) (name : option bytes)
    (value : option xattr_value) (value_len flags : Z) : st store Z :=
  match name with
  | None => mret (- EINVAL)
  | Some name =>
      if 255 <? Z.of_nat (length name) then mret (- ERANGE)
      else
        save ← gets sx_no_expand;
        set_no_expand true ;;
        r ← set_locked o e j blocksize (Ext4XattrInfo name value value_len name_index false) flags;
        let '(error, clear) := r in
        (if negb save || clear then set_no_expand false else mret tt) ;;
        mret error
  end.

(** ** A transaction of its own *)

Record transaction := Transaction {
  t_dquot : Z;                     (** dquot_initialize *)
  t_journal : bool;                (** the file system has a journal *)
  t_start : Z;                     (** ext4_journal_start *)
  t_stop : Z;                      (** ext4_journal_stop *)
  t_retry : list bool }.           (** ext4_should_retry_alloc, in turn *)

(** The error of computing the credits. *)
Definition ext4_xattr_set_credits (o : io) (e : ea_io) (j : journal) (t : transaction) (blocksize value_len : Z)
    (is_create : bool) : st store Z :=
  if negb (t_journal t) then mret 0
  else
    b ← ext4_xattr_get_block o;
    match b with
    | inl err => mret err
    | inr b => lift (ext4_xattr_set_credits_of e j blocksize b value_len is_create) ;; mret 0
    end.

(** The label [retry]: one turn for every time that the allocator is asked
    whether to try again, and one more. *)
Fixpoint set_retry (retries : list bool) (o : io) (e : ea_io) (j : journal) (t : transaction) (blocksize name_index : Z)
    (name : bytes) (value : option xattr_value) (value_len flags : Z) : st store Z :=
  error ← ext4_xattr_set_credits o e j t blocksize value_len (negb (Z.land flags XATTR_CREATE =? 0));
  if negb (error =? 0) then mret error
  else if negb (t_start t =? 0) then mret (t_start t)
  else
    error ← ext4_xattr_set_handle o e j blocksize name_index (Some name) value value_len flags;
    log [OpFcIneligible] ;;
    match retries with
    | true :: retries =>
        if error =? - ENOSPC then set_retry retries o e j t blocksize name_index name value value_len flags
        else mret (if error =? 0 then t_stop t else error)
    | _ => mret (if error =? 0 then t_stop t else error)
    end.

Definition ext4_xattr_set (o : io) (e : ea_io) (j : journal) (t : transaction) (blocksize name_index : Z) (name : bytes)
    (value : option xattr_value) (value_len flags : Z) : st store Z :=
  if negb (t_dquot t =? 0) then mret (t_dquot t)
  else set_retry (t_retry t) o e j t blocksize name_index name value value_len flags.

(** The [set] method of the [custom.] handler. *)
Definition ext4_xattr_custom_set (o : io) (e : ea_io) (j : journal) (t : transaction) (blocksize : Z) (name : bytes)
    (value : option xattr_value) (size flags : Z) : st store Z :=
  ext4_xattr_set o e j t blocksize EXT4_XATTR_INDEX_CUSTOM name value size flags.

(** ** Lists of attributes *)

Abbreviation key := (Z * bytes)%type.

Definition akey (a : Z * bytes * bytes) : key := a.1.
Definition keys (l : list (Z * bytes * bytes)) : list key := akey <$> l.

Fixpoint afind (k : key) (l : list (Z * bytes * bytes)) : option bytes :=
  match l with
  | [] => None
  | a :: l => if decide (akey a = k) then Some a.2 else afind k l
  end.

Lemma afind_None k l : k ∉ keys l → afind k l = None.
Proof.
  induction l as [|a l IH]; [done|]. cbn [keys fmap list_fmap afind]. rewrite not_elem_of_cons. intros [H1 H2].
  rewrite decide_False by congruence. by apply IH.
Qed.

Lemma afind_Some k l : k ∈ keys l → is_Some (afind k l).
Proof.
  induction l as [|a l IH]; [by intros ?%not_elem_of_nil|]. cbn [keys fmap list_fmap afind].
  intros [->|H]%elem_of_cons; [by rewrite decide_True; eauto|]. case_decide; [eauto|by apply IH].
Qed.

Lemma afind_app k l1 l2 : afind k (l1 ++ l2) = match afind k l1 with Some v => Some v | None => afind k l2 end.
Proof. induction l1 as [|a l1 IH]; [done|]. cbn [app afind]. case_decide; [done|exact IH]. Qed.

Lemma keys_app l1 l2 : keys (l1 ++ l2) = keys l1 ++ keys l2.
Proof. apply fmap_app. Qed.

(** The attribute [k] set to [v], or removed. *)
Definition one (k : key) (v : option bytes) : list (Z * bytes * bytes) :=
  match v with Some v => [(k, v)] | None => [] end.

Lemma keys_one k v : keys (one k v) = match v with Some _ => [k] | None => [] end.
Proof. by destruct v. Qed.

Lemma afind_one k v A B : k ∉ keys A → k ∉ keys B → afind k (A ++ one k v ++ B) = v.
Proof.
  intros HA HB. rewrite !afind_app, (afind_None k A), (afind_None k B) by done. destruct v; cbn; [by rewrite decide_True|done].
Qed.

Lemma afind_one_ne k k' v v' A B : k' ≠ k → afind k' (A ++ one k v ++ B) = afind k' (A ++ one k v' ++ B).
Proof.
  intros Hk. rewrite !afind_app. destruct (afind k' A); [done|].
  assert (∀ v, afind k' (one k v) = None) as H by (intros []; cbn; [by rewrite decide_False|done]). by rewrite !H.
Qed.

(** ** The order of the block *)

Definition kcmp (a b : key) : Z :=
  if negb (a.1 - b.1 =? 0) then a.1 - b.1
  else if negb (Z.of_nat (length a.2) - Z.of_nat (length b.2) =? 0)
       then Z.of_nat (length a.2) - Z.of_nat (length b.2) else memcmp a.2 b.2.

Definition klt (a b : key) : Prop := 0 < kcmp b a.

Lemma x_cmp_kcmp idx name x : x_cmp idx name x = kcmp (idx, name) (x_index x, x_name x).
Proof. done. Qed.

Lemma memcmp_opp a b : memcmp b a = - memcmp a b.
Proof.
  revert b. induction a as [|x a IH]; intros [|y b]; try done. cbn [memcmp].
  destruct (Z.eqb_spec x y) as [->|]; [rewrite Z.eqb_refl; apply IH|]. rewrite (proj2 (Z.eqb_neq y x)) by done. lia.
Qed.

Lemma memcmp_trans a b c : length a = length b → length b = length c → 0 < memcmp b a → 0 < memcmp c b → 0 < memcmp c a.
Proof.
  revert b c. induction a as [|x a IH]; intros [|y b] [|z c] H1 H2; try done. cbn [memcmp length] in *.
  destruct (Z.eqb_spec y x), (Z.eqb_spec z y), (Z.eqb_spec z x); subst; try lia. apply IH; lia.
Qed.

Lemma kcmp_opp a b : kcmp b a = - kcmp a b.
Proof.
  unfold kcmp. destruct (Z.eqb_spec (a.1 - b.1) 0), (Z.eqb_spec (b.1 - a.1) 0); cbn [negb]; try lia.
  destruct (Z.eqb_spec (Z.of_nat (length a.2) - Z.of_nat (length b.2)) 0),
    (Z.eqb_spec (Z.of_nat (length b.2) - Z.of_nat (length a.2)) 0); cbn [negb]; try lia.
  apply memcmp_opp.
Qed.

Ltac zeqb_cases := repeat match goal with |- context [?a =? ?b] => destruct (Z.eqb_spec a b) end; cbn [negb]; try lia.

#[export] Instance klt_trans : Transitive klt.
Proof.
  intros a b c. unfold klt, kcmp. zeqb_cases. intros. eapply (memcmp_trans a.2 b.2 c.2); [lia|lia|done|done].
Qed.

#[export] Instance klt_irrefl : Irreflexive klt.
Proof. intros a. unfold complement, klt. pose proof (kcmp_opp a a). lia. Qed.

Lemma kcmp_eq a b : kcmp a b = 0 → a = b.
Proof.
  unfold kcmp. zeqb_cases. intros H. apply memcmp_eq in H; [|lia]. destruct a, b. cbn in *. f_equal; [lia|done].
Qed.

Lemma sorted_NoDup l : StronglySorted klt l → NoDup l.
Proof.
  induction 1 as [|a l _ IH H]; constructor; [|done]. intros Hin. rewrite Forall_forall in H.
  exact (irreflexivity klt a (H a Hin)).
Qed.

Lemma sorted_app_intro l1 l2 : StronglySorted klt l1 → StronglySorted klt l2 →
  (∀ a b, a ∈ l1 → b ∈ l2 → klt a b) → StronglySorted klt (l1 ++ l2).
Proof.
  induction 1 as [|a l1 Hs IH H]; intros H2 Hab; [done|]. cbn [app]. constructor.
  - apply IH; [done|]. intros x y Hx. apply Hab. by right.
  - apply Forall_app. split; [done|]. apply Forall_forall. intros y Hy. apply Hab; [left|done].
Qed.

Lemma sorted_app_inv l1 l2 : StronglySorted klt (l1 ++ l2) → StronglySorted klt l1 ∧ StronglySorted klt l2 ∧
  ∀ a b, a ∈ l1 → b ∈ l2 → klt a b.
Proof.
  induction l1 as [|a l1 IH]; cbn [app].
  { intros H. split_and!; [constructor|done|by intros ? ? ?%not_elem_of_nil]. }
  inversion 1 as [|? ? Hs Hf]; subst. destruct (IH Hs) as (H1 & H2 & H3). apply Forall_app in Hf as [Hf1 Hf2].
  split_and!; [by constructor|done|]. intros x y [->|Hx]%elem_of_cons Hy; [by eapply Forall_forall in Hf2|by apply H3].
Qed.

(** Inserting at the place that the search finds keeps the order. *)
Lemma sorted_insert A B k : StronglySorted klt (A ++ B) → (∀ a, a ∈ A → klt a k) → (∀ b, head B = Some b → klt k b) →
  StronglySorted klt (A ++ k :: B).
Proof.
  intros (HA & HB & HAB)%sorted_app_inv H1 H2. apply sorted_app_intro; [done| |].
  - constructor; [done|]. apply Forall_forall. intros b Hb. destruct B as [|b0 B]; [by apply not_elem_of_nil in Hb|].
    specialize (H2 b0 eq_refl). apply elem_of_cons in Hb as [->|Hb]; [done|].
    inversion HB as [|? ? _ Hf]; subst. rewrite Forall_forall in Hf. etrans; [done|by apply Hf].
  - intros a b Ha [->|Hb]%elem_of_cons; [by apply H1|by apply HAB].
Qed.

Lemma sorted_delete A k B : StronglySorted klt (A ++ k :: B) → StronglySorted klt (A ++ B).
Proof.
  intros (HA & HB & HAB)%sorted_app_inv. inversion HB; subst. apply sorted_app_intro; [done|done|].
  intros a b Ha Hb. apply HAB; [done|by right].
Qed.

(** ** Well-formed buffers pass the checks *)

Lemma check_names_ok r e es e_end fuel : chain r e es e_end → (length es < fuel)%nat →
  check_names fuel r e = Some (inr e_end).
Proof.
  intros H. revert fuel. induction H as [e El|e x es e_end El Ex Hn Hz H IH]; intros fuel Hf;
    (destruct fuel as [|fuel]; [lia|]); cbn [check_names]; rewrite El; cbn [mbind option_bind]; [done|].
  destruct (read_entry_Some _ _ _ Ex) as (_ & En & _ & _ & _ & _ & _ & Eb & Enx).
  rewrite Enx. cbn [mbind option_bind]. rewrite (proj2 (Z.leb_gt _ _)), En by done. cbn [mbind option_bind].
  rewrite Eb. cbn [mbind option_bind]. rewrite (proj2 (Z.eqb_eq _ _) Hz). cbn [negb]. apply IH. cbn in Hf. lia.
Qed.

Lemma check_values_ok r base e es e_end e0 fuel : chain r e es e_end → (length es < fuel)%nat → 0 ≤ base →
  Forall entry_ok es → Forall (λ p, e0 + 4 - base ≤ p.1 ∧ 0 < p.2 ∧ p.1 + p.2 ≤ buf_end r - base) (vspans es) →
  check_values fuel r base e0 e = Some 0.
Proof.
  intros H. revert fuel. induction H as [e El|e x es e_end El Ex Hn Hz H IH]; intros fuel Hf Hb Hok Hv;
    (destruct fuel as [|fuel]; [lia|]); cbn [check_values]; rewrite El; cbn [mbind option_bind]; [done|].
  destruct (read_entry_Some _ _ _ Ex) as (_ & _ & _ & Eo & Eu & Es & _ & _ & Enx).
  rewrite Es, Eu, Eo, Enx. cbn [mbind option_bind]. apply Forall_cons in Hok as [[_ Hu Hs _] Hok].
  rewrite vspans_cons, Forall_app in Hv. destruct Hv as [Hv Hvs]. rewrite (proj2 (Z.ltb_ge _ _)) by lia.
  assert (check_values fuel r base e0 (x_next x) = Some 0) as Hrest by (apply IH; try done; cbn in Hf; lia).
  unfold vspan, has_val in Hv. rewrite Hu in *. cbn [Z.eqb andb] in *. rewrite andb_true_r.
  destruct (Z.eqb_spec (x_size x) 0) as [|Hs0]; cbn [negb] in *; [done|].
  apply Forall_cons in Hv as [(V1 & V2 & V3) _]. cbn [fst snd] in *. pose proof (pad_bounds (x_size x)).
  unfold EXT4_XATTR_SIZE_MAX in Hs. rewrite SIZE_pad by lia.
  rewrite !(proj2 (Z.ltb_ge _ _)) by lia. done.
Qed.

Lemma region_check r base first es e_end : region r base first es e_end →
  ext4_xattr_check_entries r first base = Some 0.
Proof.
  intros [Hr Hb Hc Hok [Hv _]]. unfold ext4_xattr_check_entries. assert (0 ≤ first) as Hf by lia.
  pose proof (chain_fuel _ _ _ _ Hf Hc) as Hfuel. rewrite (check_names_ok r first es e_end) by done.
  cbn [mbind option_bind]. by eapply check_values_ok; [done|done|lia|..].
Qed.

Lemma region_entries r base first es e_end : region r base first es e_end → entries r first = es.
Proof.
  intros [Hr Hb Hc _ _]. eapply chain_entries_from; [done|]. eapply chain_fuel; [|done]. lia.
Qed.

Lemma region_plain r base first es e_end : region r base first es e_end → Forall (plain r base) es.
Proof.
  intros [Hr Hb Hc Hok [Hv _]]. pose proof (chain_room _ _ _ _ Hc). pose proof (proj1 (chain_seg _ _ _ _) Hc) as [Hs _].
  apply seg_le in Hs. apply Forall_forall. intros x Hx. rewrite Forall_forall in Hok. rewrite Forall_forall in Hv.
  pose proof (Hok x Hx) as Hxo. destruct (entry_ok_val x Hxo) as [Hvx|Hz]; destruct Hxo as [_ Hu Hsz He]; (split; [done|]).
  - specialize (Hv _ (elem_of_vspans _ _ Hx Hvx)). cbn [fst snd] in Hv. pose proof (pad_bounds (x_size x)). lia.
  - rewrite Hz, (He Hz). lia.
Qed.

(** ** What a search finds *)

Lemma is_key_eq idx name x : is_key idx name x = true ↔ (x_index x, x_name x) = (idx, name).
Proof.
  unfold is_key. rewrite andb_true_iff, Z.eqb_eq, str_eq_spec. split; [by intros [-> ->]|by intros [= -> ->]].
Qed.

Lemma find_loop_located r e es e_end fuel cmp idx name sorted :
  chain r e es e_end → (length es < fuel)%nat → cmp ≠ 0 →
  ∃ code pos es1 cur es2, find_loop fuel r e cmp idx name sorted = Some (code, pos) ∧
    es = es1 ++ option_list cur ++ es2 ∧
    (∀ y, y ∈ es1 → if sorted then 0 < x_cmp idx name y else x_cmp idx name y ≠ 0) ∧
    match cur with
    | Some x => code = 0 ∧ pos = x_pos x ∧ x_name x = name ∧ x_index x = idx
    | None => code = - ENODATA ∧ seg r e es1 pos ∧ chain r pos es2 e_end ∧
              if sorted then ∀ y, head es2 = Some y → x_cmp idx name y < 0 else es2 = []
    end.
Proof.
  intros H. revert fuel cmp. induction H as [e El|e x es e_end El Ex Hn Hz H IH]; intros fuel cmp Hf Hc;
    (destruct fuel as [|fuel]; [lia|]); cbn [find_loop]; rewrite El; cbn [mbind option_bind].
  { rewrite (proj2 (Z.eqb_neq cmp 0) Hc). exists (- ENODATA), e, [], None, []. split_and!; try done.
    - by intros ? ?%not_elem_of_nil.
    - constructor.
    - by constructor.
    - by destruct sorted. }
  destruct (read_entry_Some r e x Ex) as (Ep & _ & _ & _ & _ & _ & _ & _ & En).
  rewrite En. cbn [mbind option_bind]. rewrite (proj2 (Z.leb_gt _ _) Hn).
  rewrite (entry_cmp_eq _ e x idx name Ex). cbn [mbind option_bind].
  destruct (Z.eqb_spec (x_cmp idx name x) 0) as [Hx|Hx].
  { rewrite Hx, orb_true_r. cbn [Z.leb Z.compare andb negb]. apply x_cmp_eq, is_key_eq in Hx. injection Hx as Hi Hnm.
    exists 0, e, [], (Some x), es. split_and!; try done. by intros ? ?%not_elem_of_nil. }
  rewrite orb_false_r. cbn [negb]. destruct ((x_cmp idx name x <=? 0) && sorted) eqn:Eb.
  { apply andb_true_iff in Eb as [Eb%Z.leb_le ->]. exists (- ENODATA), e, [], None, (x :: es). split_and!; try done.
    - by intros ? ?%not_elem_of_nil.
    - constructor.
    - by econstructor.
    - intros y [= <-]. lia. }
  destruct (IH fuel (x_cmp idx name x)) as (code & pos & es1 & cur & es2 & E & -> & H1 & H2); [cbn [length] in Hf; lia|done|].
  exists code, pos, (x :: es1), cur, es2. split_and!; [done|done| |].
  - intros y [->|Hy]%elem_of_cons; [|by apply H1]. destruct sorted; [|done]. rewrite andb_true_r in Eb. to_prop. lia.
  - destruct cur; [done|]. destruct H2 as (-> & Hs & Hc2 & H3). split_and!; try done. by econstructor.
Qed.

(** ** Buffers whose header was written *)

Lemma region_header r r' base first es e_end : region r base first es e_end → is_bytes r' → length r' = length r →
  moved 0 r r' first (buf_end r) → region r' base first es e_end ∧ attrs r' base es = attrs r base es.
Proof.
  intros [Hr Hb Hc Hok Hv] Hb' Hl Hm. pose proof (chain_room _ _ _ _ Hc). pose proof (proj1 (chain_seg _ _ _ _) Hc) as [Hs _].
  apply seg_le in Hs. assert (buf_end r' = buf_end r) as Eb by (unfold buf_end; by rewrite Hl). split.
  - split; [by eapply buffer_ok_same|done| |done|by rewrite Eb].
    eapply chain_same; [done|lia| |done]. eapply moved_weaken; [done|lia|lia].
  - eapply attrs_frame; [done|done|lia| |done]. eapply moved_weaken; [done|lia|lia].
Qed.

Lemma region_wr r base first es e_end n off z : region r base first es e_end → 0 ≤ off → off + Z.of_nat n ≤ first →
  ∃ r', wr n r off z = Some r' ∧ region r' base first es e_end ∧ attrs r' base es = attrs r base es ∧ length r' = length r.
Proof.
  intros Hreg Ho Hn. pose proof Hreg as [Hr Hb Hc _ _]. pose proof (chain_room _ _ _ _ Hc).
  pose proof (proj1 (chain_seg _ _ _ _) Hc) as [Hs _]. apply seg_le in Hs.
  destruct (wr_in n r off z) as (r' & E & L); [done|lia|]. exists r'. split; [done|].
  destruct (region_header r r' base first es e_end Hreg) as [H1 H2]; [eapply wr_bytes; [done|apply Hr]|done| |done].
  eapply wr_moved; [done|lia].
Qed.

Lemma find_x_afind r base idx name es :
  (value_of r base <$> find_x idx name es) = afind (idx, name) (attrs r base es).
Proof.
  induction es as [|x es IH]; [done|]. cbn [find_x attrs fmap list_fmap afind].
  destruct (is_key idx name x) eqn:E.
  - apply is_key_eq in E. by rewrite decide_True by done.
  - rewrite decide_False; [done|]. intros H. apply is_key_eq in H. congruence.
Qed.

(** The attribute [k] in a list, between the parts that do not have it. *)
Definition split_at (l : list (Z * bytes * bytes)) (k : key) (A : list (Z * bytes * bytes)) (old : option bytes)
    (B : list (Z * bytes * bytes)) : Prop :=
  l = A ++ one k old ++ B ∧ (k ∉ keys A) ∧ (k ∉ keys B).

Lemma split_at_find l k A old B : split_at l k A old B → afind k l = old.
Proof. intros (-> & ? & ?). by apply afind_one. Qed.

Lemma split_at_set l k A old B new : split_at l k A old B → split_at (A ++ one k new ++ B) k A new B ∧
  ∀ k', k' ≠ k → afind k' (A ++ one k new ++ B) = afind k' l.
Proof. intros (-> & ? & ?). split; [done|]. intros k' Hk. by apply afind_one_ne. Qed.

Lemma split_at_NoDup l k A old B new : split_at l k A old B → NoDup (keys l) → NoDup (keys (A ++ one k new ++ B)).
Proof.
  intros (-> & HA & HB). rewrite !keys_app, !keys_one, !NoDup_app. intros (H1 & H2 & _ & H3 & H4).
  split; [done|]. split; [|split; [by destruct new; repeat constructor; intros ?%not_elem_of_nil|split; [|done]]].
  - intros a Ha. rewrite not_elem_of_app. split; [|intros Hb; apply (H2 a Ha), elem_of_app; by right].
    destruct new; [|by intros ?%not_elem_of_nil]. intros ->%list_elem_of_singleton. done.
  - intros a Ha. destruct new; [|by apply not_elem_of_nil in Ha]. by apply list_elem_of_singleton in Ha as ->.
Qed.

Lemma split_at_sorted l k A old B new : split_at l k A old B → StronglySorted klt (keys l) →
  (old = None → (∀ a, a ∈ keys A → klt a k) ∧ ∀ b, head (keys B) = Some b → klt k b) →
  StronglySorted klt (keys (A ++ one k new ++ B)).
Proof.
  intros (-> & HA & HB) Hs Hn. rewrite !keys_app, !keys_one in *.
  destruct old as [v|], new as [v'|]; cbn [app] in *; try done.
  - by eapply sorted_delete.
  - destruct (Hn eq_refl). by apply sorted_insert.
Qed.

(** What the parts of a search mean for the attributes. *)
Lemma located_split r base i s first es1 cur es2 e_end :
  located i s r base first es1 cur es2 e_end → NoDup (keys (attrs r base (es1 ++ option_list cur ++ es2))) →
  (cur = None → ((i_name_index i, i_name i) ∉ keys (attrs r base es1)) ∧ ((i_name_index i, i_name i) ∉ keys (attrs r base es2))) →
  split_at (attrs r base (es1 ++ option_list cur ++ es2)) (i_name_index i, i_name i) (attrs r base es1)
    (value_of r base <$> cur) (attrs r base es2).
Proof.
  intros (_ & _ & _ & Hl) Hnd Hno. rewrite !attrs_app in *. destruct cur as [x|]; cbn [option_list fmap option_fmap option_map] in *.
  - destruct Hl as (_ & _ & Hn & Hi). unfold split_at. rewrite !keys_app in Hnd.
    assert (attrs r base [x] = one (i_name_index i, i_name i) (Some (value_of r base x))) as Ex.
    { unfold attrs, attr, one. cbn [fmap list_fmap]. by rewrite Hn, Hi. }
    change (option_list (Some x)) with [x] in *. rewrite Ex in Hnd |- *. split; [done|]. rewrite keys_one in Hnd.
    apply NoDup_app in Hnd as (_ & H1 & H2). apply NoDup_cons in H2 as [H2 _]. split; [|done].
    intros Hin. apply (H1 _ Hin). left.
  - by split; [|apply Hno].
Qed.

Lemma keys_attrs r base es : keys (attrs r base es) = ((λ x, (x_index x, x_name x)) <$> es).
Proof. unfold keys, attrs. rewrite <-list_fmap_compose. done. Qed.

(** Setting the attribute of a buffer, in terms of its list. *)
Lemma set_entry_attrs e blocksize i s is_block r base first es1 cur es2 e_end A B :
  info_ok i → (is_block = true → first = base + HEADER_SIZE) → default 0 (ea_inline e) = 0 →
  region r base first (es1 ++ option_list cur ++ es2) e_end → located i s r base first es1 cur es2 e_end →
  A = attrs r base es1 → B = attrs r base es2 → (i_value i = None → cur ≠ None) →
  ∃ code r', ext4_xattr_set_entry e blocksize i s is_block r = Some (code, r', []) ∧
    ((code = 0 ∧ ∃ es' e_end', region r' base first es' e_end' ∧
        attrs r' base es' = A ++ one (i_name_index i, i_name i) (flip value_bytes (i_value_len i) <$> i_value i) ++ B ∧
        (i_value i ≠ None → rd32 r' (s_here s + E_VALUE_INUM) = Some 0) ∧
        length r' = length r ∧ same_below is_block base first r r') ∨
     (code = - ENOSPC ∧ r' = r ∧ i_value i ≠ None)).
Proof.
  intros Hinfo Hblock Hinline Hr Hloc -> -> Hrem.
  pose proof (set_entry_result e blocksize i s is_block r base first e_end es1 es2 cur Hinfo Hblock Hinline Hr Hloc Hrem) as H.
  destruct (fits _ _ _ _ _ _ _ _ _ _) eqn:Ef.
  - destruct H as (r' & E & es1' & mid & es2' & e_end' & Hreg & A1 & A2 & A3 & Hpos & Hl & Hf).
    exists 0, r'. split; [done|]. left. split; [done|]. exists (es1' ++ mid ++ es2'), e_end'. split_and!; try done.
    + rewrite !attrs_app, A1, A2, A3. unfold new_attr, one. by destruct (i_value i).
    + intros Hv. destruct mid as [|x mid]; [unfold new_attr in A2; by destruct (i_value i)|].
      rewrite <-(Hpos x) by left. destruct Hreg as [_ Hb Hc Hok _].
      destruct (chain_in r' first _ _ x Hc) as (Ex & _); [lia|apply elem_of_app; right; left|].
      destruct (read_entry_Some _ _ _ Ex) as (_ & _ & _ & _ & -> & _). rewrite Forall_forall in Hok.
      by destruct (Hok x ltac:(apply elem_of_app; right; left)) as [_ -> _ _].
  - exists (- ENOSPC), r. split; [done|]. right. split_and!; try done. intros Hv. unfold fits in Ef. by rewrite Hv in Ef.
Qed.

(** ** The attributes of the inode's own buffer *)

Definition ibody_repr (n : ext4_inode) (l : list (Z * bytes * bytes)) : Prop :=
  if EXT4_INODE_HAS_XATTR_SPACE n then
    ∃ es e_end, region (raw_inode n) (IFIRST n) (IFIRST n) es e_end ∧ attrs (raw_inode n) (IFIRST n) es = l ∧
      NoDup (keys l) ∧
      if state_xattr n then rd32 (raw_inode n) (IHDR n) = Some EXT4_XATTR_MAGIC else es = []
  else state_xattr n = false ∧ l = [].

Definition i_key (i : ext4_xattr_info) : key := (i_name_index i, i_name i).

(** A search in a buffer with the attributes [l]. *)
Definition search_ok (r : bytes) (base first : Z) (i : ext4_xattr_info) (s : ext4_xattr_search)
    (l A : list (Z * bytes * bytes)) (old : option bytes) (B : list (Z * bytes * bytes)) : Prop :=
  ∃ es1 cur es2 e_end, region r base first (es1 ++ option_list cur ++ es2) e_end ∧
    located i s r base first es1 cur es2 e_end ∧ split_at l (i_key i) A old B ∧
    l = attrs r base (es1 ++ option_list cur ++ es2) ∧
    A = attrs r base es1 ∧ B = attrs r base es2 ∧ old = (value_of r base <$> cur).

Lemma space_room n : EXT4_INODE_HAS_XATTR_SPACE n = true → IFIRST n + 4 ≤ buf_end (raw_inode n).
Proof. unfold EXT4_INODE_HAS_XATTR_SPACE, IFIRST, IHDR. intros [_ H%Z.leb_le]%andb_true_iff. lia. Qed.

Lemma check_inode_ok n es e_end : inode_ok n → EXT4_INODE_HAS_XATTR_SPACE n = true →
  region (raw_inode n) (IFIRST n) (IFIRST n) es e_end → rd32 (raw_inode n) (IHDR n) = Some EXT4_XATTR_MAGIC →
  xattr_check_inode n = Some 0.
Proof.
  intros [Hr [He _] _ _] Hs Hreg Hm. apply space_room in Hs. pose proof (bo_size _ Hr).
  unfold xattr_check_inode. unfold IFIRST, IHDR, EXT4_GOOD_OLD_INODE_SIZE, IBODY_HEADER_SIZE in *.
  rewrite wrapU_small by (unfold is_u; lia). rewrite (proj2 (Z.ltb_ge _ _)) by lia. rewrite Hm.
  cbn [mbind option_bind]. rewrite Z.eqb_refl. cbn [negb]. by eapply region_check.
Qed.

(** The result of the search for a key, unsorted. *)
Lemma find_unsorted r base first es e_end i : region r base first es e_end → NoDup (keys (attrs r base es)) →
  ∃ code pos, xattr_find_entry r first (i_name_index i) (Some (i_name i)) false = Some (code, pos) ∧
    (code = 0 ∨ code = - ENODATA) ∧
    ∃ A old B, search_ok r base first i (Ext4XattrSearch first (Some base) (buf_end r) pos code) (attrs r base es) A old B.
Proof.
  intros Hreg Hnd. pose proof Hreg as [Hr Hb Hc _ _]. assert (0 ≤ first) as Hf by lia.
  destruct (find_loop_located r first es e_end (fuel_of r) 1 (i_name_index i) (i_name i) false Hc (chain_fuel _ _ _ _ Hf Hc))
    as (code & pos & es1 & cur & es2 & E & -> & Hk & Hcur); [done|].
  exists code, pos. split; [done|].
  assert (located i (Ext4XattrSearch first (Some base) (buf_end r) pos code) r base first es1 cur es2 e_end) as Hl.
  { unfold located. cbn [s_first s_base s_end s_not_found s_here]. split_and!; [done..|]. destruct cur.
    - by destruct Hcur as (-> & -> & ? & ?).
    - destruct Hcur as (-> & ? & ? & _). done. }
  split; [destruct cur; [left|right]; by destruct Hcur|]. eexists _, _, _. exists es1, cur, es2, e_end. split_and!; try done.
  eapply located_split; [done|done|]. intros ->. destruct Hcur as (_ & _ & _ & ->). split; [|by apply not_elem_of_nil].
  rewrite keys_attrs. intros (x & Hx & Hin)%list_elem_of_fmap. specialize (Hk x Hin). cbn in Hk.
  apply Hk, x_cmp_eq, is_key_eq. done.
Qed.

Lemma ibody_find_repr n i l : inode_ok n → ibody_repr n l →
  ∃ s, ext4_xattr_ibody_find n i = Some (0, s) ∧ (found s = true ↔ is_Some (afind (i_key i) l)) ∧
    if EXT4_INODE_HAS_XATTR_SPACE n then ∃ A old B, search_ok (raw_inode n) (IFIRST n) (IFIRST n) i s l A old B else s = no_search ∧ l = [].
Proof.
  intros Hi Hrep. unfold ext4_xattr_ibody_find, ibody_repr in *.
  destruct (EXT4_INODE_HAS_XATTR_SPACE n) eqn:Hs; cbn [negb].
  2:{ destruct Hrep as [_ ->]. exists no_search. split; [done|]. split; [split; [done|by intros [? ?]]|done]. }
  destruct Hrep as (es & e_end & Hreg & <- & Hnd & Hst).
  assert (∃ s, (if negb (state_xattr n) then Some (0, Ext4XattrSearch (IFIRST n) (Some (IFIRST n)) (buf_end (raw_inode n)) (IFIRST n) (- ENODATA)) else
      error ← xattr_check_inode n;
      if negb (error =? 0) then Some (error, Ext4XattrSearch (IFIRST n) (Some (IFIRST n)) (buf_end (raw_inode n)) (IFIRST n) (- ENODATA))
      else
        f ← xattr_find_entry (raw_inode n) (IFIRST n) (i_name_index i) (Some (i_name i)) false;
        let '(error, here) := f in
        let s := Ext4XattrSearch (IFIRST n) (Some (IFIRST n)) (buf_end (raw_inode n)) here (- ENODATA) in
        if negb (error =? 0) && negb (error =? - ENODATA) then Some (error, s)
        else Some (0, Ext4XattrSearch (IFIRST n) (Some (IFIRST n)) (buf_end (raw_inode n)) here error)) = Some (0, s) ∧
    ∃ A old B, search_ok (raw_inode n) (IFIRST n) (IFIRST n) i s (attrs (raw_inode n) (IFIRST n) es) A old B) as (s & Es & A & old & B & Hso).
  { destruct (state_xattr n) eqn:Hx; cbn [negb].
    - rewrite (check_inode_ok n es e_end) by done. cbn [mbind option_bind Z.eqb negb].
      destruct (find_unsorted _ _ _ _ _ i Hreg Hnd) as (code & pos & E & Hcode & Hso). rewrite E. cbn [mbind option_bind].
      exists (Ext4XattrSearch (IFIRST n) (Some (IFIRST n)) (buf_end (raw_inode n)) pos code).
      split; [|done]. by destruct Hcode as [-> | ->].
    - eexists. split; [done|]. subst es. exists [], None, []. exists [], None, [], e_end. split_and!; try done.
      + unfold located. cbn [s_first s_base s_end s_not_found s_here]. split_and!; try done; [constructor|].
        by destruct Hreg.
      + by split_and!; [|apply not_elem_of_nil..]. }
  exists s. split; [exact Es|]. split; [|by eauto].
  destruct Hso as (es1 & cur & es2 & e2 & _ & (_ & _ & _ & Hl) & Hsp & _ & _ & _ & ->).
  rewrite (split_at_find _ _ _ _ _ Hsp). unfold found. destruct cur; [destruct Hl as (-> & _)|destruct Hl as (Hl & _)]; cbn.
  - split; [by eauto|done].
  - rewrite (proj2 (Z.eqb_neq _ _) Hl). split; [done|by intros [? ?]].
Qed.

Definition new_value (i : ext4_xattr_info) : option bytes := flip value_bytes (i_value_len i) <$> i_value i.

(** [ext4_xattr_set_entry] after a search. *)
Lemma search_set e blocksize i s is_block r base first l A old B :
  info_ok i → (is_block = true → first = base + HEADER_SIZE) → default 0 (ea_inline e) = 0 →
  search_ok r base first i s l A old B → (i_value i = None → old ≠ None) →
  ∃ code r', ext4_xattr_set_entry e blocksize i s is_block r = Some (code, r', []) ∧
    ((code = 0 ∧ ∃ es' e_end', region r' base first es' e_end' ∧
        attrs r' base es' = A ++ one (i_key i) (new_value i) ++ B ∧
        (i_value i ≠ None → rd32 r' (s_here s + E_VALUE_INUM) = Some 0) ∧
        length r' = length r ∧ same_below is_block base first r r') ∨
     (code = - ENOSPC ∧ r' = r ∧ i_value i ≠ None)).
Proof.
  intros Hinfo Hblock Hinline (es1 & cur & es2 & e_end & Hr & Hloc & _ & _ & HA & HB & Hold) Hrem.
  apply (set_entry_attrs e blocksize i s is_block r base first es1 cur es2 e_end); try done.
  intros Hv ->. by apply Hrem.
Qed.

Definition upd_inode (n : ext4_inode) (x : store) : store :=
  Store n (sx_new x) (sx_no_expand x) (sx_feature x) (sx_ctime x) (sx_log x).

Lemma upd_inode_same x : upd_inode (sx_inode x) x = x.
Proof. by destruct x. Qed.

Lemma log_nil_run x : log [] x = Some (tt, x).
Proof. unfold log, modify. rewrite app_nil_r. by destruct x. Qed.

Lemma put_inode_run n x : put_inode n x = Some (tt, upd_inode n x).
Proof. done. Qed.

Lemma set_raw_same n : set_raw (raw_inode n) (state_xattr n) n = n.
Proof. by destruct n. Qed.

Section inode_buffer.
Context (n : ext4_inode) (r : bytes).
Hypothesis (Hn : inode_ok n) (Hr : buffer_ok r) (Hl : length r = length (raw_inode n)).

Lemma inode_ok_raw state : inode_ok (set_raw r state n).
Proof.
  destruct Hn as [H1 H2 H3 H4]. split; try done. unfold IFIRST, IHDR, buf_end in *. cbn. by rewrite Hl.
Qed.

Lemma space_raw state : EXT4_INODE_HAS_XATTR_SPACE (set_raw r state n) = EXT4_INODE_HAS_XATTR_SPACE n.
Proof. unfold EXT4_INODE_HAS_XATTR_SPACE, buf_end. cbn. by rewrite Hl. Qed.

End inode_buffer.

(** Removing every attribute leaves an empty list, and only that. *)
Lemma last_attrs r base first es e_end : region r base first es e_end →
  IS_LAST_ENTRY r first = Some (match attrs r base es with [] => true | _ => false end).
Proof. intros [_ _ Hc _ _]. by destruct Hc. Qed.

Lemma ibody_set_repr e blocksize i s x l A old B :
  info_ok i → default 0 (ea_inline e) = 0 → inode_ok (sx_inode x) → ibody_repr (sx_inode x) l →
  EXT4_INODE_HAS_XATTR_SPACE (sx_inode x) = true →
  search_ok (raw_inode (sx_inode x)) (IFIRST (sx_inode x)) (IFIRST (sx_inode x)) i s l A old B →
  (i_value i = None → old ≠ None) →
  ∃ code x', ext4_xattr_ibody_set e blocksize i s x = Some (code, x') ∧
    ((code = 0 ∧ ∃ n', x' = upd_inode n' x ∧ inode_ok n' ∧ i_file_acl n' = i_file_acl (sx_inode x) ∧
        ibody_repr n' (A ++ one (i_key i) (new_value i) ++ B)) ∨
     (code = - ENOSPC ∧ x' = x ∧ i_value i ≠ None)).
Proof.
  intros Hinfo Hinline Hi Hrep Hs Hso Hrem. set (n := sx_inode x) in *.
  destruct (search_set e blocksize i s false (raw_inode n) (IFIRST n) (IFIRST n) l A old B Hinfo ltac:(done) Hinline Hso Hrem)
    as (code & r' & E & Hres).
  unfold ext4_xattr_ibody_set, get. rewrite (st_bind_step _ _ x x x) by done. fold n. rewrite Hs. cbn [negb].
  unfold lift, mbind, st_bind. rewrite E. cbn [fmap list_fmap]. rewrite log_nil_run, put_inode_run.
  destruct Hres as [(-> & es' & e_end' & Hreg & Ha & _ & Hl & _)|(-> & -> & Hv)]; cbn [Z.eqb negb].
  2:{ exists (- ENOSPC), x. split; [by rewrite set_raw_same; unfold n; rewrite upd_inode_same|]. by right. }
  pose proof Hso as (es1 & cur & es2 & e_end & _ & (-> & _) & Hsp & Hl0 & _).
  rewrite (last_attrs _ _ _ _ _ Hreg). set (new := A ++ _) in *. rewrite Ha. set (b := match new with [] => true | _ => false end).
  pose proof (io_extra _ Hi) as [Hx _].
  destruct (region_wr r' (IFIRST n) (IFIRST n) es' e_end' 4 (IHDR n) (if b then 0 else EXT4_XATTR_MAGIC) Hreg)
    as (r2 & E2 & Hreg2 & A2 & L2).
  { unfold IHDR, EXT4_GOOD_OLD_INODE_SIZE. lia. } { unfold IFIRST, IBODY_HEADER_SIZE. lia. }
  rewrite E2. eexists 0, _. split; [done|]. left. split; [done|]. exists (set_raw r2 (negb b) n).
  assert (length r2 = length (raw_inode n)) as L by lia. pose proof (rg_buf _ _ _ _ _ Hreg2) as Hbuf.
  split; [done|]. split; [by apply inode_ok_raw|]. split; [done|].
  unfold ibody_repr. rewrite space_raw, Hs by done. exists es', e_end'. cbn [raw_inode set_raw state_xattr].
  change (IFIRST (set_raw r2 (negb b) n)) with (IFIRST n). change (IHDR (set_raw r2 (negb b) n)) with (IHDR n).
  split; [done|]. split; [by rewrite A2|]. split.
  - eapply split_at_NoDup; [done|]. unfold ibody_repr in Hrep. rewrite Hs in Hrep.
    by destruct Hrep as (? & ? & _ & _ & ? & _).
  - destruct b eqn:Hb; cbn [negb].
    + subst b. destruct es'; [done|]. cbn in Ha. by rewrite <-Ha in Hb.
    + rewrite (rd_wr_eq _ _ _ _ _ E2). done.
Qed.

(** ** The attributes of a block *)

(** The bytes of a block with the attributes [l], but for the checksum. *)
Definition block_bytes (blocksize : Z) (r : bytes) (l : list (Z * bytes * bytes)) : Prop :=
  (∃ es e_end, region r 0 HEADER_SIZE es e_end ∧ attrs r 0 es = l) ∧ StronglySorted klt (keys l) ∧
  rd32 r H_MAGIC = Some EXT4_XATTR_MAGIC ∧ rd32 r H_BLOCKS = Some 1 ∧ buf_end r = blocksize.

Definition block_repr (o : io) (blocksize : Z) (b : ea_block) (l : list (Z * bytes * bytes)) : Prop :=
  block_bytes blocksize (b_data b) l ∧ (b_verified b = true ∨ ext4_xattr_block_csum_verify o b = Some true).

Lemma block_bytes_unique blocksize r l1 l2 : block_bytes blocksize r l1 → block_bytes blocksize r l2 → l1 = l2.
Proof.
  intros ((es1 & e1 & H1 & <-) & _) ((es2 & e2 & H2 & <-) & _).
  by rewrite <-(region_entries _ _ _ _ _ H1), <-(region_entries _ _ _ _ _ H2).
Qed.

(** Writing a word of the header that is neither magic nor number of blocks. *)
Lemma block_bytes_wr blocksize r l off z : block_bytes blocksize r l →
  0 ≤ off → off + 4 ≤ HEADER_SIZE → off = H_REFCOUNT ∨ off = H_HASH ∨ off = H_CHECKSUM →
  ∃ r', wr 4 r off z = Some r' ∧ block_bytes blocksize r' l ∧ length r' = length r.
Proof.
  intros ((es & e_end & Hreg & Ha) & Hs & Hm & Hn & Hb) Ho Ho' Hoff.
  destruct (region_wr r 0 HEADER_SIZE es e_end 4 off z Hreg Ho Ho') as (r' & E & Hreg' & Ha' & L).
  exists r'. split; [done|]. split; [|done]. unfold block_bytes, H_REFCOUNT, H_HASH, H_CHECKSUM, H_MAGIC, H_BLOCKS in *.
  split; [exists es, e_end; by rewrite Ha'|]. split; [done|].
  rewrite !(rd_wr_ne 4 4 _ _ _ _ _ E) by lia. unfold buf_end in *. by rewrite L.
Qed.

Lemma put_at_parts (l l' : bytes) off bs : put_at l off bs = Some l' →
  take (Z.to_nat off) l' = take (Z.to_nat off) l ∧
  drop (Z.to_nat (off + Z.of_nat (length bs))) l' = drop (Z.to_nat (off + Z.of_nat (length bs))) l.
Proof.
  unfold put_at. destruct (_ && _) eqn:Ec; [|done]. intros [= <-]. to_prop.
  replace (Z.to_nat (off + Z.of_nat (length bs))) with (Z.to_nat off + length bs)%nat by lia.
  assert (length (take (Z.to_nat off) l) = Z.to_nat off) as L by (rewrite length_take; lia). split.
  - by apply take_app_length'.
  - rewrite app_assoc. apply drop_app_length'. by rewrite length_app, L.
Qed.

(** After the checksum is set, it is right. *)
Lemma csum_set_ok o blocksize b l : (∀ c s, 0 ≤ io_chksum o c s < 2 ^ 32) → block_bytes blocksize (b_data b) l →
  ∃ b', ext4_xattr_block_csum_set o b = Some b' ∧ block_repr o blocksize b' l ∧ b_blocknr b' = b_blocknr b.
Proof.
  intros Hcs Hb. unfold ext4_xattr_block_csum_set, block_repr, ext4_xattr_block_csum_verify.
  destruct (io_metadata_csum o) eqn:Hm; [|by exists b; split_and!; [| |right|]].
  destruct (block_bytes_wr _ _ _ H_CHECKSUM (ext4_xattr_block_csum o (b_blocknr b) (b_data b)) Hb)
    as (r' & E & Hb' & L); [done|done|by right; right|].
  rewrite E. cbn [mbind option_bind]. eexists. split; [done|]. cbn [b_data b_blocknr b_verified]. split; [|done].
  split; [done|]. right. rewrite (rd_wr_eq _ _ _ _ _ E). cbn [mbind option_bind]. f_equal. apply Z.eqb_eq.
  change (8 * Z.of_nat 4) with 32. rewrite Z.mod_small by apply Hcs.
  assert (take (Z.to_nat H_CHECKSUM) r' = take (Z.to_nat H_CHECKSUM) (b_data b) ∧
    drop (Z.to_nat (H_CHECKSUM + 4)) r' = drop (Z.to_nat (H_CHECKSUM + 4)) (b_data b)) as [E1 E2];
    [|unfold ext4_xattr_block_csum; by rewrite E1, E2].
  apply put_at_parts in E. by rewrite le_split_length in E.
Qed.

(** ** Identical blocks *)

Lemma cmp_loop_attrs h1 h2 es1 e1 end1 es2 e2 end2 fuel :
  chain h1 e1 es1 end1 → chain h2 e2 es2 end2 → 0 ≤ e1 → 0 ≤ e2 → is_bytes h1 → is_bytes h2 →
  Forall (plain h1 0) es1 → Forall (plain h2 0) es2 → (length es1 < fuel)%nat →
  ∃ c, cmp_loop fuel h1 h2 e1 e2 = Some c ∧ (c = 0 → attrs h1 0 es1 = attrs h2 0 es2).
Proof.
  revert e1 e2 es2 fuel. induction es1 as [|x es1 IH]; intros e1 e2 es2 fuel H1 H2 He1 He2 B1 B2 P1 P2 Hf;
    (destruct fuel as [|fuel]; [lia|]); cbn [cmp_loop].
  { inversion H1 as [? L1|]; subst. rewrite L1. cbn [mbind option_bind]. destruct es2 as [|y es2];
      [inversion H2 as [? L2|]; subst; rewrite L2|apply chain_cons_inv in H2 as (L2 & _); rewrite L2]; cbn [mbind option_bind];
      [by exists 0|by exists 1]. }
  apply chain_cons_inv in H1 as (L1 & X1 & N1 & Z1 & C1 & Q1 & R1). rewrite L1. cbn [mbind option_bind].
  destruct es2 as [|y es2]; [inversion H2 as [? L2|]; subst; rewrite L2; by exists 1|].
  apply chain_cons_inv in H2 as (L2 & X2 & N2 & Z2 & C2 & Q2 & R2). rewrite L2. cbn [mbind option_bind].
  rewrite X1, X2. cbn [mbind option_bind].
  apply Forall_cons in P1 as [[U1 V1] P1]. apply Forall_cons in P2 as [[U2 V2] P2].
  match goal with |- context [if ?c then Some 1 else _] => destruct c eqn:Ec end; [by exists 1|].
  rewrite !orb_false_iff, !negb_false_iff, !Z.eqb_eq in Ec. destruct Ec as (((((_ & Ei) & El) & Es) & Eu) & En).
  apply memcmp_eq in En; [|lia]. rewrite U1. cbn [Z.eqb].
  destruct (read_entry_Some _ _ _ X1) as (_ & _ & _ & O1 & _ & S1 & _). pose proof (rd_range _ _ _ _ B1 O1).
  destruct (read_entry_Some _ _ _ X2) as (_ & _ & _ & O2 & _). pose proof (rd_range _ _ _ _ B2 O2).
  pose proof (rd_range _ _ _ _ B1 S1). unfold buf_end in *.
  destruct (proj2 (bytes_at_is_Some h1 (x_offs x) (x_size x))) as [v1 E1]; [lia|].
  destruct (proj2 (bytes_at_is_Some h2 (x_offs y) (x_size x))) as [v2 E2]; [lia|].
  rewrite E1. cbn [mbind option_bind]. rewrite E2. cbn [mbind option_bind].
  destruct (Z.eqb_spec (memcmp v1 v2) 0) as [Hv|]; cbn [negb]; [|by exists 1].
  apply memcmp_eq in Hv; [|apply bytes_at_length in E1, E2; lia].
  destruct (IH (x_next x) (x_next y) es2 fuel) as (c & Ecmp & Hc); try done; [lia|lia|cbn [length] in Hf; lia|].
  exists c. split; [done|]. intros ->. cbn [attrs fmap list_fmap]. f_equal; [|by apply Hc].
  unfold attr, value_of. rewrite Ei, En, <-Es. change (0 + x_offs x) with (x_offs x). change (0 + x_offs y) with (x_offs y).
  by rewrite E1, E2, Hv.
Qed.

Lemma xattr_cmp_attrs blocksize h1 h2 l1 l2 : block_bytes blocksize h1 l1 → block_bytes blocksize h2 l2 →
  ∃ c, ext4_xattr_cmp h1 h2 = Some c ∧ (c = 0 → l1 = l2).
Proof.
  intros ((es1 & e1 & R1 & <-) & _) ((es2 & e2 & R2 & <-) & _). unfold ext4_xattr_cmp.
  pose proof R1 as [[B1 _ _] _ C1 _ _]. pose proof R2 as [[B2 _ _] _ C2 _ _].
  eapply cmp_loop_attrs; try done; [by eapply region_plain|by eapply region_plain|by eapply chain_fuel; [|done]].
Qed.

(** A candidate of the cache is a block. *)
Definition lookup_ok (o : io) (blocksize : Z) (bh : option ea_block) (found : list (Z + ea_block)) : Prop :=
  ∀ b, inr b ∈ found → (∃ l, block_repr o blocksize b l) ∧
    ∀ b0 l, bh = Some b0 → b_blocknr b = b_blocknr b0 → block_bytes blocksize (b_data b0) l →
      block_bytes blocksize (b_data b) l.

Lemma cache_find_ok o blocksize bh j h l found : block_bytes blocksize h l → lookup_ok o blocksize bh found →
  ∃ res, ext4_xattr_block_cache_find j h found = Some res ∧
    ∀ nb, res = Some nb → block_repr o blocksize nb l ∧ inr nb ∈ found.
Proof.
  intros Hb Hl. unfold ext4_xattr_block_cache_find. destruct (j_cache j); cbn [negb]; [|by exists None].
  pose proof Hb as ((es & e_end & [_ _ Hc _ _] & _) & _). pose proof (chain_room _ _ _ _ Hc).
  pose proof (proj1 (chain_seg _ _ _ _) Hc) as [Hs _]. apply seg_le in Hs. unfold HEADER_SIZE in Hs.
  destruct (rd_Some 4 h H_HASH) as [hash ->]; [done|unfold H_HASH; lia|]. cbn [mbind option_bind].
  destruct (hash =? 0); [by exists None|]. clear Hc Hs. induction found as [|[err|b] found IH]; cbn [cache_loop].
  - by exists None.
  - destruct (err =? - ENOMEM); [by exists None|]. destruct IH as (res & E & Hr).
    { intros b Hin. apply Hl. by right. }
    exists res. split; [done|]. intros nb Hnb. destruct (Hr nb Hnb). split; [done|by right].
  - destruct (Hl b) as [(l2 & Hb2) _]; [left|]. destruct (xattr_cmp_attrs blocksize h (b_data b) l l2 Hb) as (c & -> & Hc); [apply Hb2|].
    cbn [mbind option_bind]. destruct (Z.eqb_spec c 0) as [->|].
    + exists (Some b). split; [done|]. intros nb [= <-]. rewrite (Hc eq_refl). split; [done|left].
    + destruct IH as (res & E & Hr). { intros b' Hin. apply Hl. by right. }
      exists res. split; [done|]. intros nb Hnb. destruct (Hr nb Hnb). split; [done|by right].
Qed.

(** ** Searching the block *)

Definition acl_repr (o : io) (blocksize : Z) (acl : option ea_block) (l : list (Z * bytes * bytes)) : Prop :=
  match acl with None => l = [] | Some b => block_repr o blocksize b l end.

(** Between its neighbours a new key keeps the order. *)
Definition place_ok (A : list (Z * bytes * bytes)) (k : key) (B : list (Z * bytes * bytes)) : Prop :=
  (∀ a, a ∈ keys A → klt a k) ∧ ∀ b, head (keys B) = Some b → klt k b.

(** The result of the search of the block of [acl]. *)
Definition block_search (acl : option ea_block) (i : ext4_xattr_info) (bs : ext4_xattr_block_find_t)
    (l A : list (Z * bytes * bytes)) (old : option bytes) (B : list (Z * bytes * bytes)) : Prop :=
  match acl with
  | None => bs = BlockFind no_search None ∧ l = [] ∧ A = [] ∧ old = None ∧ B = []
  | Some b => bs_bh bs = Some b ∧ search_ok (b_data b) 0 HEADER_SIZE i (bs_s bs) l A old B ∧
      (old = None → place_ok A (i_key i) B)
  end.

Lemma block_search_split acl i bs l A old B : block_search acl i bs l A old B → split_at l (i_key i) A old B.
Proof.
  destruct acl as [b|]; [by intros (_ & (? & ? & ? & ? & _ & _ & ? & _) & _)|].
  intros (_ & -> & -> & -> & ->). split_and!; [done|by apply not_elem_of_nil..].
Qed.

Lemma block_search_found acl i bs l A old B : block_search acl i bs l A old B →
  found (bs_s bs) = match old with Some _ => true | None => false end.
Proof.
  unfold found. destruct acl as [b|].
  - intros (_ & (es1 & cur & es2 & e & _ & (_ & _ & _ & Hl) & _ & _ & _ & _ & ->) & _).
    destruct cur; [by destruct Hl as (-> & _)|]. destruct Hl as (Hl & _). by rewrite (proj2 (Z.eqb_neq _ _) Hl).
  - by intros (-> & _ & _ & -> & _).
Qed.

Lemma find_sorted r es e_end i : region r 0 HEADER_SIZE es e_end → StronglySorted klt (keys (attrs r 0 es)) →
  ∃ code pos, xattr_find_entry r BFIRST (i_name_index i) (Some (i_name i)) true = Some (code, pos) ∧
    (code = 0 ∨ code = - ENODATA) ∧
    ∃ A old B, search_ok r 0 HEADER_SIZE i (Ext4XattrSearch HEADER_SIZE (Some 0) (buf_end r) pos code) (attrs r 0 es) A old B ∧
      (old = None → place_ok A (i_key i) B).
Proof.
  intros Hreg Hs. pose proof Hreg as [Hr Hb Hc _ _]. assert (0 ≤ HEADER_SIZE) as Hf by done.
  destruct (find_loop_located r HEADER_SIZE es e_end (fuel_of r) 1 (i_name_index i) (i_name i) true Hc (chain_fuel _ _ _ _ Hf Hc))
    as (code & pos & es1 & cur & es2 & E & -> & Hk & Hcur); [done|].
  exists code, pos. split; [done|].
  assert (located i (Ext4XattrSearch HEADER_SIZE (Some 0) (buf_end r) pos code) r 0 HEADER_SIZE es1 cur es2 e_end) as Hl.
  { unfold located. cbn [s_first s_base s_end s_not_found s_here]. split_and!; [done..|]. destruct cur.
    - by destruct Hcur as (-> & -> & ? & ?).
    - destruct Hcur as (-> & ? & ? & _). done. }
  split; [destruct cur; [left|right]; by destruct Hcur|].
  assert (cur = None → place_ok (attrs r 0 es1) (i_key i) (attrs r 0 es2)) as Hplace.
  { intros ->. destruct Hcur as (_ & _ & _ & Hh). split.
    - intros a. rewrite keys_attrs. intros (x & -> & Hin)%list_elem_of_fmap. specialize (Hk x Hin). by rewrite x_cmp_kcmp in Hk.
    - intros b. rewrite keys_attrs. destruct es2 as [|y es2]; [done|]. intros [= <-]. specialize (Hh y eq_refl).
      rewrite x_cmp_kcmp in Hh. unfold klt. rewrite kcmp_opp. unfold i_key. lia. }
  eexists _, _, _. split; [exists es1, cur, es2, e_end; split_and!; try done|].
  - apply (located_split r 0 i _ HEADER_SIZE es1 cur es2 e_end Hl); [by apply sorted_NoDup|]. intros ->.
    destruct (Hplace eq_refl) as [P1 P2]. change (option_list None ++ es2) with es2 in Hs. rewrite attrs_app, keys_app in Hs. fold (i_key i). split.
    + intros Hin. exact (irreflexivity klt _ (P1 _ Hin)).
    + intros Hin. apply sorted_app_inv in Hs as (_ & Hs2 & _). destruct (keys (attrs r 0 es2)) as [|b ks]; [by apply not_elem_of_nil in Hin|].
      specialize (P2 b eq_refl). apply StronglySorted_inv in Hs2 as [_ Hall]. rewrite Forall_forall in Hall.
      apply elem_of_cons in Hin as [<-|Hin]; [exact (irreflexivity klt _ P2)|].
      apply (irreflexivity klt b). etrans; [by apply Hall|done].
  - intros Hn. apply Hplace. by destruct cur.
Qed.

Lemma check_block_repr o blocksize b l : block_repr o blocksize b l →
  ∃ b', ext4_xattr_check_block o b = Some (0, b') ∧ b_data b' = b_data b ∧ b_blocknr b' = b_blocknr b ∧
    block_repr o blocksize b' l.
Proof.
  intros [Hbb Hv]. pose proof Hbb as ((es & e_end & Hreg & Ha) & Hs & Hm & Hn & Hb).
  unfold ext4_xattr_check_block. rewrite Hm, Hn. cbn [mbind option_bind]. rewrite !Z.eqb_refl. cbn [negb orb].
  destruct (b_verified b) eqn:Hver; [exists b; split; [done|split; [done|split; [done|split; [done|by left]]]]|].
  destruct Hv as [Hv|Hv]; [done|]. rewrite Hv. cbn [mbind option_bind negb]. unfold BFIRST. rewrite (region_check _ _ _ _ _ Hreg).
  cbn [mbind option_bind Z.eqb]. eexists. split; [done|]. split; [done|split; [done|split; [done|by left]]].
Qed.

Lemma block_find_repr o blocksize i x l : io_bread o = 0 → acl_repr o blocksize (i_file_acl (sx_inode x)) l →
  ∃ bs acl, ext4_xattr_block_find o i x = Some ((0, bs), upd_inode (set_block acl (sx_inode x)) x) ∧
    acl_repr o blocksize acl l ∧ b_blocknr <$> acl = b_blocknr <$> i_file_acl (sx_inode x) ∧
    b_data <$> acl = b_data <$> i_file_acl (sx_inode x) ∧
    ∃ A old B, block_search acl i bs l A old B.
Proof.
  intros Hbr Hacl. unfold ext4_xattr_block_find, get, lift, mbind, st_bind, mret, st_ret. rewrite Hbr.
  destruct (i_file_acl (sx_inode x)) as [b|] eqn:Eb; cycle 1.
  { exists (BlockFind no_search None), None. cbn in Hacl. subst l. split.
    - assert (set_block None (sx_inode x) = sx_inode x) as ->; [|by rewrite upd_inode_same].
      destruct (sx_inode x). cbn in *. by subst.
    - split_and!; try done. by exists [], None, []. }
  cbn [Z.eqb negb]. destruct (check_block_repr o blocksize b l Hacl) as (b' & -> & Ed & En & Hrep).
  rewrite put_inode_run. cbn [Z.eqb negb]. pose proof Hrep as (((es & e_end & Hreg & Ha) & Hs & _) & _).
  rewrite <-Ha in Hs. destruct (find_sorted _ _ _ i Hreg Hs) as (code & pos & -> & Hcode & A & old & B & Hso & Hpl).
  rewrite Ha in Hso. exists (BlockFind (Ext4XattrSearch BFIRST (Some 0) (buf_end (b_data b')) pos code) (Some b')), (Some b').
  split; [by destruct Hcode as [-> | ->]|]. cbn. split; [done|]. split; [by rewrite En|]. split; [by rewrite Ed|].
  exists A, old, B. done.
Qed.

(** ** Setting in the block *)

(** Nothing fails, values stay in the buffers; the cache may answer anything
    that is a block. *)
Record env_ok (o : io) (e : ea_io) (j : journal) (blocksize : Z) (bh : option ea_block) : Prop := {
  en_bread : io_bread o = 0;
  en_chksum : ∀ c s, 0 ≤ io_chksum o c s < 2 ^ 32;
  en_feature : ea_feature e = false;
  en_inline : default 0 (ea_inline e) = 0;
  en_write : j_write_access j = 0;
  en_create : j_create_access j = 0;
  en_dirty : j_dirty j = 0;
  en_kmalloc : j_kmalloc j = true;
  en_alloc : ∀ turn, j_alloc_block j turn = 0;
  en_share_access : ∀ turn, j_share_access j turn = 0;
  en_share_dirty : j_share_dirty j = 0;
  en_new_dirty : j_new_dirty j = 0;
  en_release : j_release_access j = 0;
  en_move_kmalloc : j_move_kmalloc j = true;
  en_new : ∃ nr, j_new_block j = inr nr;
  en_getblk : j_getblk j = true;
  en_inc : j_inc_ref_all j = 0;
  en_blocksize : blocksize mod 4 = 0 ∧ HEADER_SIZE + 4 ≤ blocksize ≤ 65536;
  en_lookups : Forall (lookup_ok o blocksize bh) (j_lookups j) }.

Definition add_log (ops : list store_op) (x : store) : store :=
  Store (sx_inode x) (sx_new x) (sx_no_expand x) (sx_feature x) (sx_ctime x) (sx_log x ++ ops).

Lemma log_run ops x : log ops x = Some (tt, add_log ops x).
Proof. done. Qed.

Lemma add_log_nil x : add_log [] x = x.
Proof. destruct x. unfold add_log. cbn. by rewrite app_nil_r. Qed.

Lemma add_log_app a b x : add_log b (add_log a x) = add_log (a ++ b) x.
Proof. unfold add_log. cbn. by rewrite app_assoc. Qed.

Section block.
Context (o : io) (e : ea_io) (j : journal) (blocksize : Z) (bh0 : option ea_block).
Hypothesis (Henv : env_ok o e j blocksize bh0).

Lemma zeros_block : ∃ r, new_block_bytes blocksize = Some r ∧ block_bytes blocksize r [].
Proof.
  pose proof (en_blocksize _ _ _ _ _ Henv) as [Hm4 Hbs]. unfold new_block_bytes, HEADER_SIZE in *.
  set (z := replicate (Z.to_nat blocksize) 0).
  assert (buf_end z = blocksize) as Hz by (unfold buf_end, z; rewrite length_replicate; lia).
  destruct (wr_in 4 z H_MAGIC EXT4_XATTR_MAGIC) as (r1 & E1 & L1); [done|unfold H_MAGIC; lia|].
  assert (buf_end r1 = blocksize) as Hz1 by (unfold buf_end in *; lia).
  destruct (wr_in 4 r1 H_BLOCKS 1) as (r2 & E2 & L2); [done|unfold H_BLOCKS; lia|].
  assert (buf_end r2 = blocksize) as Hz2 by (unfold buf_end in *; lia).
  destruct (wr_in 4 r2 H_REFCOUNT 1) as (r3 & E3 & L3); [done|unfold H_REFCOUNT; lia|].
  assert (buf_end r3 = blocksize) as Hz3 by (unfold buf_end in *; lia).
  exists r3. rewrite E1. cbn [mbind option_bind]. rewrite E2. cbn [mbind option_bind]. split; [done|].
  assert (is_bytes z) as Bz by by apply Forall_replicate.
  assert (is_bytes r3) as B3 by (by repeat (eapply wr_bytes; [eassumption|])).
  unfold block_bytes, H_MAGIC, H_BLOCKS, H_REFCOUNT in *.
  split; [|split; [constructor|split; [|split; [|done]]]].
  - exists [], HEADER_SIZE. split; [|done]. split; [split; [done|by rewrite Hz3|lia]|done| |constructor|].
    + apply chain_last, last_zeros; [|done|unfold HEADER_SIZE; lia]. intros k Hk. unfold HEADER_SIZE in Hk.
      rewrite (wr_zlookup _ _ _ _ _ k E3), (wr_zlookup _ _ _ _ _ k E2), (wr_zlookup _ _ _ _ _ k E1) by lia.
      unfold zlookup, z. rewrite (proj2 (Z.ltb_ge _ _)) by lia. apply lookup_replicate_2. lia.
    + split; constructor.
  - by rewrite (rd_wr_ne 4 4 _ _ _ _ _ E3), (rd_wr_ne 4 4 _ _ _ _ _ E2), (rd_wr_eq _ _ _ _ _ E1) by lia.
  - by rewrite (rd_wr_ne 4 4 _ _ _ _ _ E3), (rd_wr_eq _ _ _ _ _ E2) by lia.
Qed.

Lemma block_hash_frame r r' l es e_end : block_bytes blocksize r l → region r' 0 HEADER_SIZE es e_end →
  length r' = length r → same_below true 0 HEADER_SIZE r r' →
  rd32 r' H_MAGIC = Some EXT4_XATTR_MAGIC ∧ rd32 r' H_BLOCKS = Some 1 ∧ buf_end r' = blocksize.
Proof.
  intros (_ & _ & Hm & Hn & Hb) Hreg Hl Hs. unfold H_MAGIC, H_BLOCKS in *. pose proof (en_blocksize _ _ _ _ _ Henv) as [_ Hbs].
  unfold HEADER_SIZE, buf_end in *.
  assert (moved 0 r r' 0 12) as Hmv.
  { intros k Hk. rewrite Z.add_0_r. apply Hs; [unfold HEADER_SIZE; lia|]. intros _. unfold H_HASH. lia. }
  split; [|split; [|lia]].
  - rewrite <-(Z.add_0_r 0), (rd_moved 0 4 r r' 0 12); try (done || lia); by rewrite Hm.
  - rewrite <-(Z.add_0_r 8), (rd_moved 0 4 r r' 0 12); try (done || lia); by rewrite Hn.
Qed.

(** Setting an entry of the bytes of a block. *)
Lemma block_set_entry i s r l A old B :
  info_ok i → block_bytes blocksize r l → search_ok r 0 HEADER_SIZE i s l A old B → (old = None → place_ok A (i_key i) B) →
  (i_value i = None → old ≠ None) →
  ∃ code r', ext4_xattr_set_entry e blocksize i s true r = Some (code, r', []) ∧
    ((code = 0 ∧ block_bytes blocksize r' (A ++ one (i_key i) (new_value i) ++ B) ∧
        (i_value i ≠ None → rd32 r' (s_here s + E_VALUE_INUM) = Some 0)) ∨
     (code = - ENOSPC ∧ r' = r ∧ i_value i ≠ None)).
Proof.
  intros Hinfo Hb Hso Hpl Hrem.
  destruct (search_set e blocksize i s true r 0 HEADER_SIZE l A old B Hinfo) as (code & r' & E & Hres);
    [done|by destruct Henv|done|done|].
  exists code, r'. split; [done|]. destruct Hres as [(-> & es' & e_end' & Hreg & Ha & Hin & Hl & Hs)|?]; [left|by right].
  split; [done|]. split; [|done]. destruct Hso as (? & ? & ? & ? & _ & _ & Hsp & _).
  split; [by exists es', e_end'|]. split; [|by eapply block_hash_frame].
  eapply split_at_sorted; [done|by destruct Hb as (_ & ? & _)|done].
Qed.

(** The value inode branches are not taken: values are in the buffers. *)
Lemma search_inum i s r base first l A old B : search_ok r base first i s l A old B → s_not_found s = 0 →
  rd32 r (s_here s + E_VALUE_INUM) = Some 0.
Proof.
  intros (es1 & cur & es2 & e_end & [Hr Hb Hc Hok _] & (_ & _ & _ & Hl) & _) Hnf.
  destruct cur as [x|]; [|by destruct Hl]. destruct Hl as (_ & -> & _).
  destruct (chain_middle _ _ _ _ _ _ Hc) as [Ex _]; [lia|]. destruct (read_entry_Some _ _ _ Ex) as (_ & _ & _ & _ & -> & _).
  apply Forall_middle in Hok as [_ [_ -> _ _]]. done.
Qed.

(** A write to the header changes nothing for the search. *)
Lemma search_header i s r r' l A old B : search_ok r 0 HEADER_SIZE i s l A old B → is_bytes r' → length r' = length r →
  moved 0 r r' HEADER_SIZE (buf_end r) → search_ok r' 0 HEADER_SIZE i s l A old B.
Proof.
  intros (es1 & cur & es2 & e_end & Hreg & Hloc & Hsp & -> & -> & -> & ->) Hb Hl Hm.
  destruct (region_header _ r' _ _ _ _ Hreg Hb Hl Hm) as [Hreg' Ha].
  pose proof Hreg as [_ _ Hc _ _]. pose proof (chain_room _ _ _ _ Hc). pose proof Hc as [Hs _]%chain_seg. apply seg_le in Hs.
  exists es1, cur, es2, e_end. split; [done|].
  rewrite !attrs_app in Ha. apply app_inj_1 in Ha as [Ha1 Ha2]; [|unfold attrs; by rewrite !length_fmap].
  apply app_inj_1 in Ha2 as [Ha2 Ha3]; [|unfold attrs; by rewrite !length_fmap].
  split; [|split; [done|split; [by rewrite !attrs_app, Ha1, Ha2, Ha3|split; [done|split; [done|]]]]].
  - destruct Hloc as (H1 & H2 & H3 & H4). assert (buf_end r' = buf_end r) as Eb by (unfold buf_end; by rewrite Hl).
    split; [done|]. split; [done|]. split; [by rewrite Eb|]. destruct cur as [x|]; [done|].
    destruct H4 as (Hnf & Hs1 & Hs2). pose proof (seg_le _ _ _ _ Hs1). pose proof Hs2 as [Hs2' _]%chain_seg. pose proof (seg_le _ _ _ _ Hs2').
    unfold HEADER_SIZE in *. split; [done|]. split.
    + eapply seg_same; [done|done| |done]. eapply moved_weaken; [done|lia|lia].
    + eapply chain_same; [done|lia| |done]. eapply moved_weaken; [done|lia|lia].
  - destruct cur as [x|]; [|done]. injection Ha2 as Hv. cbn. by rewrite Hv.
Qed.

Lemma build_block_repr i s x r l A old B :
  info_ok i → block_bytes blocksize r l → search_ok r 0 HEADER_SIZE i s l A old B → (old = None → place_ok A (i_key i) B) →
  (i_value i = None → old ≠ None) →
  ∃ res, build_block e blocksize i s r 0 x = Some (res, x) ∧
    ((∃ w, res = inr (BlockBuild false w 0 None) ∧ block_bytes blocksize w (A ++ one (i_key i) (new_value i) ++ B)) ∨
     (res = inl (- ENOSPC) ∧ i_value i ≠ None)).
Proof.
  intros Hinfo Hb Hso Hpl Hrem.
  destruct (block_set_entry i s r l A old B) as (code & w & E & Hw); try done.
  unfold build_block, lift, mbind, st_bind, mret, st_ret. rewrite E. cbn [fmap list_fmap]. rewrite log_nil_run.
  destruct Hw as [(-> & Hw & Hin)|(-> & -> & Hv)]; cbn [Z.eqb negb].
  2:{ eexists. split; [done|]. by right. }
  destruct (i_value i) as [v|] eqn:Hv; cycle 1.
  { eexists. split; [done|]. left. by exists w. }
  rewrite Hin by done. cbn [Z.eqb]. eexists. split; [done|]. left. by exists w.
Qed.

Lemma clone_block_repr i s x bh l A old B :
  info_ok i → block_bytes blocksize (b_data bh) l → search_ok (b_data bh) 0 HEADER_SIZE i s l A old B →
  (old = None → place_ok A (i_key i) B) → (i_value i = None → old ≠ None) →
  ∃ res, clone_block e j blocksize i s bh x = Some (res, x) ∧
    ((∃ w, res = inr (BlockBuild false w 0 None) ∧ block_bytes blocksize w (A ++ one (i_key i) (new_value i) ++ B)) ∨
     (res = inl (- ENOSPC) ∧ i_value i ≠ None)).
Proof.
  intros Hinfo Hb Hso Hpl Hrem. unfold clone_block. rewrite (en_kmalloc _ _ _ _ _ Henv). cbn [negb].
  destruct (block_bytes_wr _ _ _ H_REFCOUNT 1 Hb) as (w & E & Hw & L); [done|done|by left|].
  unfold lift. unfold mbind at 1, st_bind. rewrite E.
  assert (search_ok w 0 HEADER_SIZE i s l A old B) as Hso'.
  { pose proof Hb as ((es & e_end & Hreg & _) & _). eapply search_header; [done| |done|].
    - eapply wr_bytes; [done|]. apply Hreg.
    - eapply wr_moved; [done|right]. done. }
  assert ((if s_not_found s =? 0 then rd32 w (s_here s + E_VALUE_INUM) else Some 0) = Some 0) as Einum.
  { destruct (Z.eqb_spec (s_not_found s) 0); [|done]. by eapply search_inum. }
  unfold mbind at 1, st_bind. rewrite Einum. cbn [Z.eqb]. by eapply build_block_repr.
Qed.

Lemma upd_upd n n' x : upd_inode n' (upd_inode n x) = upd_inode n' x.
Proof. done. Qed.

Lemma modify_block_repr i bs x l A old B :
  info_ok i → acl_repr o blocksize (i_file_acl (sx_inode x)) l →
  block_search (i_file_acl (sx_inode x)) i bs l A old B → (i_value i = None → old ≠ None) →
  let l' := A ++ one (i_key i) (new_value i) ++ B in
  ∃ res acl, modify_block o e j blocksize i bs x = Some (res, upd_inode (set_block acl (sx_inode x)) x) ∧
    (b_blocknr <$> acl) = b_blocknr <$> i_file_acl (sx_inode x) ∧
    ((res = inl (- ENOSPC) ∧ i_value i ≠ None ∧ acl_repr o blocksize acl l) ∨
     (∃ w, res = inr (BlockBuild false w 0 None) ∧ block_bytes blocksize w l' ∧ acl = i_file_acl (sx_inode x)) ∨
     (∃ b w, res = inr (BlockBuild true w 0 None) ∧ acl = Some b ∧ b_data b = w ∧ block_repr o blocksize b l')).
Proof.
  intros Hinfo Hacl Hbs Hrem l'. set (n := sx_inode x) in *.
  assert (upd_inode (set_block (i_file_acl n) n) x = x) as Hsame.
  { unfold n. destruct x as [[]]. done. }
  destruct (i_file_acl n) as [bh|] eqn:Ebh; cbn [acl_repr block_search] in *.
  - destruct Hbs as (Ebs & Hso & Hpl). pose proof Hso as (? & ? & ? & ? & _ & (_ & Ebase & _) & _).
    pose proof Hacl as [Hbb Hcs]. unfold modify_block. rewrite Ebase, Ebs, (en_write _ _ _ _ _ Henv). cbn [Z.eqb negb].
    pose proof Hbb as ((es & e_end & Hreg & _) & _ & _ & _ & Hsz). pose proof (en_blocksize _ _ _ _ _ Henv) as [_ Hbsz].
    destruct (rd_Some 4 (b_data bh) H_REFCOUNT) as [ref Eref]; [done|unfold H_REFCOUNT, HEADER_SIZE in *; lia|].
    unfold lift. unfold mbind at 1, st_bind. rewrite Eref. destruct ((ref =? 1) && _).
    + destruct (block_set_entry i (bs_s bs) (b_data bh) l A old B) as (code & w & E & Hw); try done.
      unfold mbind, st_bind. rewrite E. cbn [fmap list_fmap]. rewrite log_nil_run.
      destruct Hw as [(-> & Hw & _)|(-> & -> & Hv)].
      * destruct (csum_set_ok o blocksize (EaBlock w (b_blocknr bh) (b_verified bh)) l' (en_chksum _ _ _ _ _ Henv) Hw)
          as (b' & -> & Hb' & Enr).
        cbn [get put_inode Z.eqb]. unfold get, modify. rewrite (en_dirty _ _ _ _ _ Henv). cbn [Z.eqb negb].
        eexists _, (Some b'). split; [done|]. split; [cbn; by rewrite Enr|]. right. right. by exists b', (b_data b').
      * destruct (csum_set_ok o blocksize (EaBlock (b_data bh) (b_blocknr bh) (b_verified bh)) l (en_chksum _ _ _ _ _ Henv) Hbb)
          as (b' & -> & Hb' & Enr).
        unfold get, put_inode, modify. cbn [Z.eqb negb].
        eexists _, (Some b'). split; [done|]. split; [cbn; by rewrite Enr|]. left. done.
    + destruct (clone_block_repr i (bs_s bs) x bh l A old B) as (res & -> & Hres); try done.
      exists res, (Some bh). rewrite Hsame. split; [done|]. split; [done|].
      destruct Hres as [(w & -> & Hw)|(-> & Hv)]; [right; left; by exists w|by left].
  - destruct Hbs as (-> & -> & -> & -> & ->). unfold modify_block. cbn [bs_s bs_bh no_search s_base].
    rewrite (en_kmalloc _ _ _ _ _ Henv). cbn [negb]. destruct zeros_block as (w & E & Hw). unfold lift. unfold mbind at 1, st_bind.
    rewrite E. pose proof Hw as ((es & e_end & Hreg & Hes) & _ & _ & _ & Hsz). destruct es; [|done]. cbn [no_search s_not_found].
    destruct (build_block_repr i (Ext4XattrSearch HEADER_SIZE (Some 0) blocksize HEADER_SIZE (- ENODATA)) x w [] [] None [])
      as (res & -> & Hres); try done.
    + exists [], None, [], e_end. split; [done|]. split; [|split; [|done]].
      * unfold located. cbn [s_first s_base s_end s_not_found s_here]. split_and!; try done; [constructor|apply Hreg].
      * by split_and!; [|apply not_elem_of_nil..].
    + intros _. by split; [intros ? ?%not_elem_of_nil|].
    + exists res, None. rewrite Hsame. split; [done|]. split; [done|].
      destruct Hres as [(w' & -> & Hw')|(-> & Hv)]; [right; left; by exists w'|by left].
Qed.

Lemma head_lookup_ok lookups : Forall (lookup_ok o blocksize bh0) lookups →
  lookup_ok o blocksize bh0 (default [] (head lookups)).
Proof. destruct 1; [by intros ? ?%not_elem_of_nil|done]. Qed.

Lemma write_new_block_repr w x l : block_bytes blocksize w l →
  ∃ ops b, write_new_block o j w None x = Some ((inr (Some b), None), add_log ops x) ∧ block_repr o blocksize b l.
Proof.
  intros Hw. destruct (en_new _ _ _ _ _ Henv) as [nr Enr].
  destruct (csum_set_ok o blocksize (EaBlock w nr false) l (en_chksum _ _ _ _ _ Henv) Hw) as (b & Eb & Hb & _).
  exists [OpNewBlock nr], b. split; [|done]. unfold write_new_block, lift, mbind, st_bind, mret, st_ret.
  rewrite Enr, log_run, (en_getblk _ _ _ _ _ Henv), (en_inc _ _ _ _ _ Henv), (en_create _ _ _ _ _ Henv), Eb.
  by rewrite (en_new_dirty _ _ _ _ _ Henv).
Qed.

(** Taking one more reference on a block that is shared. *)
Lemma share_block nb l ref : block_repr o blocksize nb l →
  ∃ r nb', wr 4 (b_data nb) H_REFCOUNT ref = Some r ∧
    ext4_xattr_block_csum_set o (EaBlock r (b_blocknr nb) (b_verified nb)) = Some nb' ∧ block_repr o blocksize nb' l.
Proof.
  intros [Hb _]. destruct (block_bytes_wr _ _ _ H_REFCOUNT ref Hb) as (r & E & Hr & _); [done|done|by left|].
  destruct (csum_set_ok o blocksize (EaBlock r (b_blocknr nb) (b_verified nb)) l (en_chksum _ _ _ _ _ Henv) Hr)
    as (nb' & E' & Hnb & _). by exists r, nb'.
Qed.

Lemma read_refcount nb l : block_repr o blocksize nb l → ∃ ref, rd32 (b_data nb) H_REFCOUNT = Some ref.
Proof.
  intros [(_ & _ & _ & _ & Hsz) _]. pose proof (en_blocksize _ _ _ _ _ Henv) as [_ Hbs]. unfold HEADER_SIZE in Hbs.
  apply rd_Some; [done|]. unfold H_REFCOUNT. lia.
Qed.

(** The inode's block, when the block under construction is it or is like it. *)
Definition own_block (bh : option ea_block) (in_place : bool) (l : list (Z * bytes * bytes)) : Prop :=
  if in_place then ∃ b, bh = Some b ∧ block_repr o blocksize b l else bh = bh0 ∧ ∃ l0, acl_repr o blocksize bh l0.

Lemma own_block_found bh in_place l nb found : own_block bh in_place l → lookup_ok o blocksize bh0 found →
  inr nb ∈ found → block_repr o blocksize nb l → Some (b_blocknr nb) = b_blocknr <$> bh → acl_repr o blocksize bh l.
Proof.
  intros Hown Hl Hin Hnb Hnr. destruct in_place; [by destruct Hown as (b & -> & ?)|]. destruct Hown as (-> & l0 & Hl0).
  destruct bh0 as [b|] eqn:E; [|done]. destruct (Hl nb Hin) as [_ Hd]. injection Hnr as Hnr.
  cbn in Hl0. specialize (Hd b l0 eq_refl Hnr (proj1 Hl0)).
  by rewrite (block_bytes_unique _ _ _ _ (proj1 Hnb) Hd).
Qed.

Lemma insert_none w bh in_place x l : block_bytes blocksize w l → own_block bh in_place l →
  ∃ ops acl, (if in_place then λ x, Some ((inr bh, None), x) else write_new_block o j w None) x =
    Some ((inr acl, None : option Z), add_log ops x) ∧ acl_repr o blocksize acl l.
Proof.
  intros Hw Hown. destruct in_place.
  - exists [], bh. rewrite add_log_nil. split; [done|]. by destruct Hown as (b & -> & ?).
  - destruct (write_new_block_repr w x l Hw) as (ops & b & E & Hb). by exists ops, (Some b).
Qed.

Lemma insert_block_repr lookups bh in_place w x l :
  Forall (lookup_ok o blocksize bh0) lookups → block_bytes blocksize w l → own_block bh in_place l →
  ∃ ops acl, insert_block o j lookups bh BFIRST in_place w None x = Some ((inr acl, None), add_log ops x) ∧
    acl_repr o blocksize acl l.
Proof.
  intros Hlk Hw Hown. revert x. induction lookups as [|found lookups IH] in Hlk |- *; intros x;
    cbn [insert_block]; unfold lift, mbind, st_bind, mret, st_ret;
    pose proof Hw as ((es & e_end & Hreg & Hes) & _); unfold BFIRST; rewrite (last_attrs _ _ _ _ _ Hreg), Hes;
    (destruct l as [|a l]; [exists [], None; by rewrite add_log_nil|]); cbn [head default id].
  - destruct (cache_find_ok o blocksize bh0 j w (a :: l) [] Hw) as (res & E & Hr); [by intros ? ?%not_elem_of_nil|].
    rewrite E. destruct res as [nb|]; [destruct (Hr nb eq_refl) as [_ Hin]; by apply not_elem_of_nil in Hin|].
    destruct in_place; [by apply (insert_none w bh true x (a :: l))|by apply (insert_none w bh false x (a :: l))].
  - apply Forall_cons in Hlk as [Hfound Hlk].
    destruct (cache_find_ok o blocksize bh0 j w (a :: l) found Hw Hfound) as (res & E & Hr). rewrite E.
    destruct res as [nb|]; [|destruct in_place; [by apply (insert_none w bh true x (a :: l))|by apply (insert_none w bh false x (a :: l))]].
    destruct (Hr nb eq_refl) as [Hnb Hin]. case_bool_decide as Hnr.
    { exists [], bh. rewrite add_log_nil. split; [done|]. by eapply own_block_found. }
    rewrite (en_alloc _ _ _ _ _ Henv). cbn [Z.eqb negb]. rewrite log_run, (en_share_access _ _ _ _ _ Henv). cbn [Z.eqb negb].
    destruct (read_refcount nb _ Hnb) as [ref ->]. destruct (EXT4_XATTR_REFCOUNT_MAX <? u32 (ref + 1)).
    + rewrite log_run. destruct (IH Hlk (add_log [OpFreeBlockQuota] (add_log [OpAllocBlock] x))) as (ops & acl & E2 & Hacl).
      unfold BFIRST in E2. rewrite E2. rewrite !add_log_app. by eexists _, acl.
    + destruct (share_block nb _ (u32 (ref + 1)) Hnb) as (r & nb' & E1 & E2 & Hnb'). rewrite E1, E2, log_run.
      rewrite (en_share_dirty _ _ _ _ _ Henv). cbn [Z.eqb negb]. rewrite add_log_app. by eexists _, (Some nb').
Qed.

Lemma release_block_run b x l : block_repr o blocksize b l →
  ∃ ops, ext4_xattr_release_block o e j b x = Some (tt, add_log ops x).
Proof.
  intros Hb. unfold ext4_xattr_release_block. rewrite (en_release _ _ _ _ _ Henv). cbn [Z.eqb negb].
  destruct (read_refcount b l Hb) as [ref Eref]. unfold lift, mbind, st_bind. rewrite Eref.
  destruct (ref =? 1); [by eexists|].
  destruct (share_block b l (u32 (ref - 1)) Hb) as (r & b' & -> & -> & _). by eexists.
Qed.

(** The whole function: the attribute is set in the block, or there is no room
    and the block keeps its attributes. *)
Lemma block_set_repr i bs x l A old B :
  info_ok i → acl_repr o blocksize (i_file_acl (sx_inode x)) l → bh0 = i_file_acl (sx_inode x) →
  block_search (i_file_acl (sx_inode x)) i bs l A old B → (i_value i = None → old ≠ None) →
  ∃ code acl ops, ext4_xattr_block_set o e j blocksize i bs x =
      Some (code, add_log ops (upd_inode (set_block acl (sx_inode x)) x)) ∧
    ((code = 0 ∧ acl_repr o blocksize acl (A ++ one (i_key i) (new_value i) ++ B)) ∨
     (code = - ENOSPC ∧ i_value i ≠ None ∧ acl_repr o blocksize acl l ∧ (b_blocknr <$> acl) = b_blocknr <$> bh0)).
Proof.
  intros Hinfo Hacl Hbh Hbs Hrem.
  destruct (modify_block_repr i bs x l A old B Hinfo Hacl Hbs Hrem) as (res & acl & E & Hnr & Hres).
  set (l' := A ++ _) in *. unfold ext4_xattr_block_set. rewrite (st_bind_step _ _ _ _ _ E).
  destruct Hres as [(-> & Hv & Hacl')|Hres].
  { exists (- ENOSPC), acl, []. rewrite add_log_nil. split; [done|]. right. split_and!; try done. by rewrite Hnr, Hbh. }
  assert (∃ ip w, res = inr (BlockBuild ip w 0 None) ∧ block_bytes blocksize w l' ∧ own_block acl ip l' ∧
    ∃ l1, acl_repr o blocksize acl l1) as (ip & w & -> & Hw & Hown & l1 & Hl1).
  { destruct Hres as [(w & -> & Hw & ->)|(b & w & -> & -> & Hd & Hb)].
    - exists false, w. split_and!; try done; [|by exists l]. split; [done|by exists l].
    - exists true, w. split_and!; try done; [subst w; apply Hb|by exists b|by exists l']. }
  set (x1 := upd_inode _ x). unfold get. rewrite (st_bind_step _ _ x1 x1 x1) by done.
  assert ((match bs_bh bs with Some _ => i_file_acl (sx_inode x1) | None => None end) = acl) as Eacl.
  { unfold block_search in Hbs. destruct (i_file_acl (sx_inode x)); [by destruct Hbs as (-> & _)|].
    destruct Hbs as (-> & _). by destruct acl. }
  rewrite Eacl. destruct (insert_block_repr (j_lookups j) acl ip w x1 l' (en_lookups _ _ _ _ _ Henv) Hw Hown) as (ops & acl' & E2 & Hacl').
  rewrite (st_bind_step _ _ _ _ _ E2). cbn [Z.eqb negb].
  set (x2 := add_log ops x1) in *. unfold mret at 1, st_ret. rewrite (st_bind_step _ _ x2 tt x2) by done.
  rewrite (st_bind_step _ _ x2 x2 x2) by done. rewrite (st_bind_step _ _ _ _ _ (put_inode_run _ _)).
  set (x3 := upd_inode _ x2).
  assert (∃ ops', (match acl with
    | Some b => if bool_decide (b_blocknr <$> acl = b_blocknr <$> acl') then mret tt else ext4_xattr_release_block o e j b
    | None => mret tt end) x3 = Some (tt, add_log ops' x3)) as [ops' E3].
  { destruct acl as [b|]; [|exists []; by rewrite add_log_nil]. case_bool_decide; [exists []; by rewrite add_log_nil|].
    by eapply release_block_run. }
  rewrite (st_bind_step _ _ _ _ _ E3). exists 0, acl', (ops ++ ops'). split; [|by left].
  unfold cleanup_block, x3, x2, x1. destruct x. unfold add_log, upd_inode. cbn. rewrite <-app_assoc. done.
Qed.

End block.

(** ** The inode with its block *)

(** No name is in both. *)
Definition apart (l1 l2 : list (Z * bytes * bytes)) : Prop := ∀ k, afind k l1 = None ∨ afind k l2 = None.

Record inode_repr (o : io) (blocksize : Z) (n : ext4_inode) (l1 l2 : list (Z * bytes * bytes)) : Prop := {
  ir_ok : inode_ok n;
  ir_body : ibody_repr n l1;
  ir_acl : acl_repr o blocksize (i_file_acl n) l2;
  ir_apart : apart l1 l2 }.

(** [l'] is [l] with [k] set to [v]. *)
Definition set_to (k : key) (v : option bytes) (l l' : list (Z * bytes * bytes)) : Prop :=
  ∀ k', afind k' l' = if decide (k' = k) then v else afind k' l.

Lemma split_set_to l k A old B new : split_at l k A old B → set_to k new l (A ++ one k new ++ B).
Proof.
  intros Hs k'. destruct (split_at_set _ _ _ _ _ new Hs) as [Hs' Hne]. case_decide as Hk; [subst|by apply Hne].
  by eapply split_at_find.
Qed.

Lemma set_to_same k v l l1 : set_to k v l l1 → afind k l = v → ∀ k', afind k' l1 = afind k' l.
Proof. intros H Hv k'. rewrite H. by case_decide; [subst|]. Qed.

Lemma acl_inode_ok o blocksize n acl l : inode_ok n → acl_repr o blocksize acl l → HEADER_SIZE + 4 ≤ blocksize →
  inode_ok (set_block acl n).
Proof.
  intros [H1 H2 H3 H4] Hacl Hb. split; try done. cbn [set_block i_file_acl]. intros b ->. destruct Hacl as [Hbb _].
  destruct Hbb as ((es & e_end & Hreg & _) & _ & _ & _ & Hsz). split; [apply Hreg|]. unfold BFIRST.
  split; [lia|]. intros _. by eapply region_check.
Qed.

Lemma env_ok_acl o e j blocksize bh bh' l : env_ok o e j blocksize bh → (b_blocknr <$> bh') = b_blocknr <$> bh →
  acl_repr o blocksize bh l → acl_repr o blocksize bh' l → env_ok o e j blocksize bh'.
Proof.
  intros [] Hn Ha Ha'. split; try done. eapply Forall_impl; [done|]. intros f Hf b Hb. destruct (Hf b Hb) as [H1 H2].
  split; [done|]. intros b0 l0 -> Hnr Hl0. destruct bh as [b1|]; [|done]. injection Hn as Hn.
  rewrite (block_bytes_unique _ _ _ _ Hl0 (proj1 Ha')). apply (H2 b1); [done|congruence|apply Ha].
Qed.

(** The parts of the state that setting leaves alone. *)
Definition same_rest (x x' : store) : Prop :=
  sx_new x' = sx_new x ∧ sx_no_expand x' = sx_no_expand x ∧ sx_feature x' = sx_feature x ∧ sx_ctime x' = sx_ctime x.

#[export] Instance same_rest_trans : Transitive same_rest.
Proof. intros ??? (?&?&?&?) (?&?&?&?). split_and!; congruence. Qed.

#[export] Instance same_rest_refl : Reflexive same_rest.
Proof. by intros. Qed.

Lemma ibody_set_any e blocksize i s x l A old B :
  info_ok i → default 0 (ea_inline e) = 0 → inode_ok (sx_inode x) → ibody_repr (sx_inode x) l →
  (if EXT4_INODE_HAS_XATTR_SPACE (sx_inode x)
   then search_ok (raw_inode (sx_inode x)) (IFIRST (sx_inode x)) (IFIRST (sx_inode x)) i s l A old B
   else i_value i ≠ None) → (i_value i = None → old ≠ None) →
  ∃ code n', ext4_xattr_ibody_set e blocksize i s x = Some (code, upd_inode n' x) ∧
    inode_ok n' ∧ i_file_acl n' = i_file_acl (sx_inode x) ∧
    ((code = 0 ∧ ibody_repr n' (A ++ one (i_key i) (new_value i) ++ B) ∧ split_at l (i_key i) A old B) ∨
     (code = - ENOSPC ∧ n' = sx_inode x ∧ i_value i ≠ None)).
Proof.
  intros Hinfo Hinline Hi Hrep Hso Hrem. destruct (EXT4_INODE_HAS_XATTR_SPACE (sx_inode x)) eqn:Hs.
  - destruct (ibody_set_repr e blocksize i s x l A old B) as (code & x' & E & Hres); try done.
    destruct Hres as [(-> & n' & -> & Hok & Hacl & Hr)|(-> & -> & Hv)].
    + exists 0, n'. split_and!; try done. left. split_and!; try done. by destruct Hso as (? & ? & ? & ? & _ & _ & ? & _).
    + exists (- ENOSPC), (sx_inode x). rewrite upd_inode_same. split_and!; try done. by right.
  - exists (- ENOSPC), (sx_inode x). rewrite upd_inode_same. split; [|split_and!; try done; by right].
    unfold ext4_xattr_ibody_set, get, mbind, st_bind. rewrite Hs. done.
Qed.

(** Whether the block was searched already: it is not when the name is in the inode. *)
Definition bs_state (acl : option ea_block) (i : ext4_xattr_info) (bs : ext4_xattr_block_find_t)
    (l2 A2 : list (Z * bytes * bytes)) (old2 : option bytes) (B2 : list (Z * bytes * bytes)) (in_body : bool) : Prop :=
  if in_body then bs = BlockFind no_search None ∧ old2 = None else block_search acl i bs l2 A2 old2 B2.

Lemma set_to_absent k l : afind k l = None → set_to k None l l.
Proof. intros H k'. by case_decide; [subst|]. Qed.

Lemma apart_set_left k v l1 l2 l1' l2' : apart l1 l2 → set_to k v l1 l1' → set_to k None l2 l2' →
  apart l1' l2' ∧ set_to k v (l1 ++ l2) (l1' ++ l2').
Proof.
  intros Ha H1 H2. split; intros k'.
  - rewrite H1, H2. case_decide; [by right|apply Ha].
  - rewrite !afind_app, H1, H2. case_decide; [by destruct v|done].
Qed.

Lemma apart_set_right k v l1 l2 l1' l2' : apart l1 l2 → set_to k None l1 l1' → set_to k v l2 l2' →
  apart l1' l2' ∧ set_to k v (l1 ++ l2) (l1' ++ l2').
Proof.
  intros Ha H1 H2. split; intros k'.
  - rewrite H1, H2. case_decide; [by left|apply Ha].
  - rewrite !afind_app, H1, H2. by case_decide.
Qed.

Section set_value.
Context (o : io) (e : ea_io) (j : journal) (blocksize : Z) (x : store) (i : ext4_xattr_info).
Context (l1 l2 A1 B1 A2 B2 : list (Z * bytes * bytes)) (old1 old2 : option bytes).
Context (ibs : ext4_xattr_search) (bs : ext4_xattr_block_find_t).
Let n := sx_inode x.
Let k := i_key i.
Hypothesis (Hinfo : info_ok i) (Hval : i_value i ≠ None) (Hrepr : inode_repr o blocksize n l1 l2).
Hypothesis (Henv : env_ok o e j blocksize (i_file_acl n)).
Hypothesis (Hibs : if EXT4_INODE_HAS_XATTR_SPACE n then search_ok (raw_inode n) (IFIRST n) (IFIRST n) i ibs l1 A1 old1 B1
                   else old1 = None ∧ l1 = []).
Hypothesis (Hfound : found ibs = match old1 with Some _ => true | None => false end).
Hypothesis (Hbs : bs_state (i_file_acl n) i bs l2 A2 old2 B2 (found ibs)).

Lemma body_old : afind k l1 = old1.
Proof.
  destruct (EXT4_INODE_HAS_XATTR_SPACE n).
  - destruct Hibs as (? & ? & ? & ? & _ & _ & Hs & _). by eapply split_at_find.
  - by destruct Hibs as [-> ->].
Qed.

(** The result of setting: the attribute is set, or nothing is. *)
Definition set_done (code : Z) (n' : ext4_inode) : Prop :=
  (code = 0 ∧ ∃ l1' l2', inode_repr o blocksize n' l1' l2' ∧ set_to k (new_value i) (l1 ++ l2) (l1' ++ l2')) ∨
  (code = - ENOSPC ∧ inode_repr o blocksize n' l1 l2 ∧ b_blocknr <$> i_file_acl n' = b_blocknr <$> i_file_acl n).

Lemma no_value_info : info_ok (with_value None i).
Proof. by destruct Hinfo. Qed.

Lemma acl_blocksize : HEADER_SIZE + 4 ≤ blocksize.
Proof. by destruct (en_blocksize _ _ _ _ _ Henv) as [_ [? _]]. Qed.

(** The value is in the inode now: remove it from the block. *)
Lemma after_body n1 : inode_ok n1 → i_file_acl n1 = i_file_acl n → ∀ l1', ibody_repr n1 l1' → set_to k (new_value i) l1 l1' →
  ∃ code n' ops, (if (0 =? 0) && found (bs_s bs)
     then error ← ext4_xattr_block_set o e j blocksize (with_value None i) bs; mret (inr error : Z + Z)
     else mret (inr 0)) (upd_inode n1 x) = Some (inr code, add_log ops (upd_inode n' x)) ∧ set_done code n'.
Proof.
  intros Hok Hacl l1' Hb1 Hs1. pose proof (ir_apart _ _ _ _ _ Hrepr) as Hap. pose proof (ir_acl _ _ _ _ _ Hrepr) as Ha2.
  pose proof body_old as Hbo. pose proof acl_blocksize as Hsz. pose proof no_value_info as Hno'.
  cbn [Z.eqb andb]. destruct (found (bs_s bs)) eqn:Hf; cycle 1.
  { exists 0, n1, []. rewrite add_log_nil. split; [done|].
    assert (afind k l2 = None) as Hno.
    { unfold bs_state in Hbs. destruct (found ibs) eqn:Hfi.
      - destruct (Hap k) as [H|]; [|done]. rewrite Hbo in H. rewrite H in Hfound. done.
      - rewrite (block_search_found _ _ _ _ _ _ _ Hbs) in Hf. destruct old2; [done|].
        exact (split_at_find _ _ _ _ _ (block_search_split _ _ _ _ _ _ _ Hbs)). }
    destruct (apart_set_left k (new_value i) l1 l2 l1' l2 Hap Hs1 (set_to_absent _ _ Hno)) as [Hap' Hs'].
    left. split; [done|]. exists l1', l2. split; [by split; rewrite ?Hacl|done]. }
  unfold bs_state in Hbs. destruct (found ibs); [destruct Hbs as [-> _]; done|].
  destruct (block_set_repr o e j blocksize (i_file_acl n) Henv (with_value None i) bs (upd_inode n1 x) l2 A2 old2 B2)
    as (code & acl & ops & E & Hres); try (by cbn; rewrite ?Hacl).
  { intros _ ->. by rewrite (block_search_found _ _ _ _ _ _ _ Hbs) in Hf. }
  rewrite (st_bind_step _ _ _ _ _ E). destruct Hres as [(-> & Hacl')|(_ & ? & _)]; [|done].
  exists 0, (set_block acl n1), ops. split; [done|]. cbn [new_value with_value i_value fmap option_fmap option_map] in Hacl'.
  destruct (apart_set_left k (new_value i) l1 l2 l1' (A2 ++ one k None ++ B2) Hap Hs1) as [Hap' Hs'].
  { apply split_set_to with old2. by apply (block_search_split (i_file_acl n) i bs). }
  left. split; [done|]. exists l1', (A2 ++ one k None ++ B2). split; [|done].
  split; [eapply acl_inode_ok; [done|done|done]|done|done|done].
Qed.

(** Before the block is used it is searched, unless it was. *)
Lemma search_again :
  ∃ bs' acl A2' old2' B2', (match i_file_acl (sx_inode x), s_base (bs_s bs) with
     | Some _, None => ext4_xattr_block_find o i
     | _, _ => mret (0, bs) end) x = Some ((0, bs'), upd_inode (set_block acl n) x) ∧
    acl_repr o blocksize acl l2 ∧ (b_blocknr <$> acl) = b_blocknr <$> i_file_acl n ∧
    (b_data <$> acl) = b_data <$> i_file_acl n ∧ block_search acl i bs' l2 A2' old2' B2'.
Proof.
  pose proof (ir_acl _ _ _ _ _ Hrepr) as Ha2. pose proof (en_bread _ _ _ _ _ Henv) as Hbr.
  assert (upd_inode (set_block (i_file_acl n) n) x = x) as Hsame by (unfold n; by destruct x as [[]]).
  pose proof Hbs as Hb. unfold bs_state in Hb. fold n.
  destruct (option_cases (i_file_acl n)) as [Hacl|[b Hacl]]; rewrite Hacl in Ha2, Hb, Hsame |- *.
  - assert (block_search None i bs l2 (if found ibs then [] else A2) (if found ibs then None else old2) (if found ibs then [] else B2)) as Hs.
    { destruct (found ibs); [|done]. destruct Hb as [-> _]. cbn in Ha2. by rewrite Ha2. }
    exists bs, None. eexists _, _, _. split; [by rewrite Hsame|]. split_and!; try done; exact Hs.
  - destruct (found ibs).
    + destruct Hb as [-> _]. cbn [bs_s no_search s_base].
      destruct (block_find_repr o blocksize i x l2 Hbr) as (bs' & acl & E & Ha & Hn & Hd & A & old & B & Hs).
      { fold n. by rewrite Hacl. }
      exists bs', acl, A, old, B. fold n in E, Hn, Hd. rewrite Hacl in Hn, Hd. done.
    + pose proof Hb as (_ & (? & ? & ? & ? & _ & (_ & -> & _) & _) & _).
      exists bs, (Some b), A2, old2, B2. by rewrite Hsame.
Qed.

(** The value did not fit into the inode. *)
Lemma after_nospace (retry : ext4_xattr_block_find_t → st store (Z + Z)) : ea_feature e = false →
  ∃ code n' ops, (x0 ← get;
     again ← (match i_file_acl (sx_inode x0), s_base (bs_s bs) with
              | Some _, None => ext4_xattr_block_find o i
              | _, _ => mret (0, bs) end);
     let '(error, bs) := again in
     if negb (error =? 0) then mret (inl error)
     else
       error ← ext4_xattr_block_set o e j blocksize i bs;
       if (error =? 0) && found ibs then
         error ← ext4_xattr_ibody_set e blocksize (with_value None i) ibs; mret (inr error)
       else if (error =? - ENOSPC) && ea_feature e && negb (i_value_len i =? 0) && negb (i_in_inode i)
       then retry bs
       else mret (inr error)) x = Some (inr code : Z + Z, add_log ops (upd_inode n' x)) ∧ set_done code n'.
Proof.
  intros Hfeat. pose proof body_old as Hbo. pose proof acl_blocksize as Hsz. pose proof no_value_info as Hno.
  pose proof (ir_apart _ _ _ _ _ Hrepr) as Hap. pose proof (ir_ok _ _ _ _ _ Hrepr) as Hok. pose proof (ir_body _ _ _ _ _ Hrepr) as Hb1.
  destruct search_again as (bs' & acl & A & old & B & E & Ha & Hn & Hd & Hs).
  unfold get. rewrite (st_bind_step _ _ x x x) by done. rewrite (st_bind_step _ _ _ _ _ E). cbn [Z.eqb negb].
  pose proof (env_ok_acl o e j blocksize _ acl l2 Henv Hn (ir_acl _ _ _ _ _ Hrepr) Ha) as Henv'.
  destruct (block_set_repr o e j blocksize acl Henv' i bs' (upd_inode (set_block acl n) x) l2 A old B)
    as (code & acl' & ops & E2 & Hres); try done.
  rewrite (st_bind_step _ _ _ _ _ E2). rewrite Hfeat, andb_false_r. cbn [andb].
  destruct Hres as [(-> & Ha')|(-> & _ & Ha' & Hnr)]; cbn [Z.eqb andb].
  2:{ eexists (- ENOSPC), (set_block acl' n), ops. split; [done|]. right. split; [done|].
      split; [split; [by eapply acl_inode_ok|done|done|done]|]. cbn. by rewrite Hnr. }
  assert (set_to k (new_value i) l2 (A ++ one k (new_value i) ++ B)) as Hs2.
  { apply split_set_to with old. by apply (block_search_split acl i bs'). }
  destruct (found ibs) eqn:Hfi; cycle 1.
  { exists 0, (set_block acl' n), ops. split; [done|]. assert (afind k l1 = None) as Hno1.
    { rewrite Hbo. by destruct old1. }
    destruct (apart_set_right k (new_value i) l1 l2 l1 _ Hap (set_to_absent _ _ Hno1) Hs2) as [Hap' Hs'].
    left. split; [done|]. eexists l1, _. split; [|done]. split; [by eapply acl_inode_ok|done|done|done]. }
  assert (EXT4_INODE_HAS_XATTR_SPACE n = true) as Hspace.
  { destruct (EXT4_INODE_HAS_XATTR_SPACE n); [done|]. by destruct Hibs as [-> _]. }
  rewrite Hspace in Hibs. set (x2 := add_log ops _).
  destruct (ibody_set_any e blocksize (with_value None i) ibs x2 l1 A1 old1 B1 Hno (en_inline _ _ _ _ _ Henv))
    as (code & n' & E3 & Hok' & Hacl' & Hres).
  { exact (acl_inode_ok o blocksize n acl' _ Hok Ha' Hsz). } { exact Hb1. }
  { unfold x2. cbn [add_log upd_inode sx_inode set_block]. change (EXT4_INODE_HAS_XATTR_SPACE _) with (EXT4_INODE_HAS_XATTR_SPACE n).
    rewrite Hspace. exact Hibs. }
  { intros _. intros ->. done. }
  rewrite (st_bind_step _ _ _ _ _ E3). destruct Hres as [(-> & Hb' & Hsp)|(_ & _ & ?)]; [|done].
  exists 0, n', ops. split; [done|].
  assert (set_to k None l1 (A1 ++ one k None ++ B1)) as Hs1 by (by apply split_set_to with old1).
  destruct (apart_set_right k (new_value i) l1 l2 _ _ Hap Hs1 Hs2) as [Hap' Hs'].
  left. split; [done|]. eexists _, _. split; [|done]. split; [done|exact Hb'|by rewrite Hacl'|done].
Qed.

Lemma set_value_repr turns :
  ∃ code n' ops, set_value (S turns) o e j blocksize i ibs bs x = Some (inr code, add_log ops (upd_inode n' x)) ∧ set_done code n'.
Proof.
  pose proof (ir_ok _ _ _ _ _ Hrepr) as Hok. pose proof (ir_body _ _ _ _ _ Hrepr) as Hb1.
  destruct (ibody_set_any e blocksize i ibs x l1 A1 old1 B1 Hinfo (en_inline _ _ _ _ _ Henv) Hok Hb1)
    as (code & n1 & E & Hok1 & Hacl1 & Hres); [|done|].
  { fold n. by destruct (EXT4_INODE_HAS_XATTR_SPACE n). }
  cbn [set_value]. rewrite (st_bind_step _ _ _ _ _ E). destruct Hres as [(-> & Hb' & Hsp)|(-> & -> & _)].
  - apply (after_body n1 Hok1 Hacl1 _ Hb'). by apply split_set_to with old1.
  - rewrite upd_inode_same. cbn [Z.eqb andb]. rewrite Z.eqb_refl.
    apply (after_nospace (set_value turns o e j blocksize (with_in_inode true i) ibs)). apply Henv.
Qed.

End set_value.

(** ** The call with its checks *)

Lemma value_same_repr i v r s base first l A old B :
  info_ok i → i_value i = Some (ValueBytes v) → search_ok r base first i s l A old B → found s = true →
  ∃ b, ext4_xattr_value_same r s i = Some b ∧ (b = true → old = new_value i).
Proof.
  intros Hinfo Hv (es1 & cur & es2 & e_end & Hr & (_ & Hbase & _ & Hl) & _ & _ & _ & _ & ->) Hf.
  pose proof (region_plain _ _ _ _ _ Hr) as Hp. destruct Hr as [Hbuf Hb Hc Hok _]. unfold found in Hf. apply Z.eqb_eq in Hf.
  destruct cur as [x|]; [|by destruct Hl]. destruct Hl as (_ & Hh & _).
  destruct (chain_middle _ _ _ _ _ _ Hc) as [Ex _]; [lia|]. destruct (read_entry_Some _ _ _ Ex) as (_ & _ & _ & Eo & Eu & Es & _).
  apply Forall_middle in Hp as [_ [Hu Hfit]]. unfold ext4_xattr_value_same. rewrite Hh, Eu, Hu. cbn [mbind option_bind Z.eqb negb].
  rewrite Es. cbn [mbind option_bind]. destruct (Z.eqb_spec (x_size x) (i_value_len i)) as [Hsz|]; cbn [negb]; [|by exists false].
  rewrite Hbase. cbn [mbind option_bind]. rewrite Eo. cbn [mbind option_bind]. pose proof (in_valid _ Hinfo _ Hv) as [_ Hlen].
  pose proof (in_len _ Hinfo). pose proof (rd_range _ _ _ _ (bo_bytes _ Hbuf) Eo).
  destruct (proj2 (bytes_at_is_Some r (base + x_offs x) (i_value_len i))) as [w Ew]; [unfold buf_end in *; lia|].
  rewrite Ew, Hv. cbn [mbind option_bind]. rewrite bytes_at_0 by lia. cbn [mbind option_bind].
  eexists. split; [done|]. intros Hm%Z.eqb_eq. apply memcmp_eq in Hm.
  - unfold new_value. rewrite Hv. unfold value_of. cbn. by rewrite Hsz, Ew, Hm.
  - apply bytes_at_length in Ew. rewrite length_take. lia.
Qed.

Record locked_env (o : io) (e : ea_io) (j : journal) (blocksize : Z) (bh : option ea_block) : Prop := {
  le_env : env_ok o e j blocksize bh;
  le_reserve : j_reserve j = 0;
  le_mark : j_mark_dirty j = 0;
  le_credits : 7 + j_quotas j + match j_inline_blocks j with Some n => n + 1 | None => 0 end ≤ j_credits j }.

Lemma get_block_repr o blocksize x l : io_bread o = 0 → acl_repr o blocksize (i_file_acl (sx_inode x)) l →
  ∃ acl, ext4_xattr_get_block o x = Some (inr acl, upd_inode (set_block acl (sx_inode x)) x) ∧
    acl_repr o blocksize acl l ∧ (b_blocknr <$> acl) = b_blocknr <$> i_file_acl (sx_inode x) ∧
    (b_data <$> acl) = b_data <$> i_file_acl (sx_inode x).
Proof.
  intros Hbr Hacl. unfold ext4_xattr_get_block, get, lift, mbind, st_bind, mret, st_ret. rewrite Hbr.
  destruct (i_file_acl (sx_inode x)) as [b|] eqn:Eb; cycle 1.
  { exists None. split; [|done]. assert (set_block None (sx_inode x) = sx_inode x) as ->; [|by rewrite upd_inode_same].
    destruct (sx_inode x). cbn in *. by subst. }
  cbn [Z.eqb negb]. destruct (check_block_repr o blocksize b l Hacl) as (b' & -> & Ed & En & Hrep).
  rewrite put_inode_run. exists (Some b'). cbn. by rewrite Ed, En.
Qed.

Lemma credits_plain e j blocksize b len c : ea_feature e = false →
  ext4_xattr_set_credits_of e j blocksize b len c =
    Some (7 + j_quotas j + match j_inline_blocks j with Some n => n + 1 | None => 0 end).
Proof.
  intros H. unfold ext4_xattr_set_credits_of. rewrite H. cbn [negb]. f_equal. destruct (j_inline_blocks j); lia.
Qed.

Lemma inode_repr_acl o blocksize n l1 l2 acl : inode_repr o blocksize n l1 l2 → acl_repr o blocksize acl l2 →
  HEADER_SIZE + 4 ≤ blocksize → inode_repr o blocksize (set_block acl n) l1 l2.
Proof. intros [H1 H2 H3 H4] Ha Hb. split; [by eapply acl_inode_ok|done|done|done]. Qed.

Section locked.
Context (o : io) (e : ea_io) (j : journal) (blocksize : Z) (i : ext4_xattr_info) (l1 l2 : list (Z * bytes * bytes)).
Hypothesis (Hinfo : info_ok i) (Hvalue : ∀ v, i_value i = Some v → ∃ b, v = ValueBytes b).

Let k := i_key i.

(** The change itself, after the searches. *)
Lemma change_repr x ibs bs A1 B1 A2 B2 old1 old2 :
  let n := sx_inode x in
  inode_repr o blocksize n l1 l2 → env_ok o e j blocksize (i_file_acl n) →
  (if EXT4_INODE_HAS_XATTR_SPACE n then search_ok (raw_inode n) (IFIRST n) (IFIRST n) i ibs l1 A1 old1 B1
   else old1 = None ∧ l1 = []) → found ibs = match old1 with Some _ => true | None => false end →
  bs_state (i_file_acl n) i bs l2 A2 old2 B2 (found ibs) → (i_value i = None → old1 ≠ None ∨ old2 ≠ None) →
  ∃ code n' ops, (match i_value i with
     | None =>
         if found ibs then error ← ext4_xattr_ibody_set e blocksize i ibs; mret (inr error)
         else error ← ext4_xattr_block_set o e j blocksize i bs; mret (inr error)
     | Some _ =>
         set_value 1 o e j blocksize (with_in_inode (ea_feature e &&
           (EXT4_XATTR_MIN_LARGE_EA_SIZE blocksize <? EXT4_XATTR_SIZE 64 (i_value_len i))) i) ibs bs
     end) x = Some (inr code : Z + Z, add_log ops (upd_inode n' x)) ∧
    ((code = 0 ∧ ∃ l1' l2', inode_repr o blocksize n' l1' l2' ∧ set_to k (new_value i) (l1 ++ l2) (l1' ++ l2')) ∨
     (code = - ENOSPC ∧ new_value i ≠ None ∧ inode_repr o blocksize n' l1 l2 ∧
      b_blocknr <$> i_file_acl n' = b_blocknr <$> i_file_acl n)).
Proof.
  intros n Hrepr Henv Hibs Hfound Hbs Hrem. pose proof Hrepr as [Hok Hb1 Ha2 Hap].
  pose proof (proj1 (proj2 (en_blocksize _ _ _ _ _ Henv))) as Hsz.
  assert (new_value i = None ↔ i_value i = None) as Hnv by (unfold new_value; by destruct (i_value i)).
  destruct (i_value i) as [v|] eqn:Hv; cycle 1.
  { destruct (found ibs) eqn:Hfi.
    - assert (EXT4_INODE_HAS_XATTR_SPACE n = true) as Hspace.
      { destruct (EXT4_INODE_HAS_XATTR_SPACE n); [done|]. by destruct Hibs as [-> _]. }
      rewrite Hspace in Hibs.
      destruct (ibody_set_any e blocksize i ibs x l1 A1 old1 B1 Hinfo (en_inline _ _ _ _ _ Henv) Hok Hb1)
        as (code & n' & E & Hok' & Hacl' & Hres); [fold n; by rewrite Hspace|by intros _ ->|].
      rewrite (st_bind_step _ _ _ _ _ E). destruct Hres as [(-> & Hb' & Hsp)|(_ & _ & ?)]; [|done].
      exists 0, n', []. rewrite add_log_nil. split; [done|].
      assert (afind k l2 = None) as Hno.
      { destruct (Hap k) as [H|]; [|done]. unfold k in H. rewrite (split_at_find _ _ _ _ _ Hsp) in H. by subst. }
      destruct (apart_set_left k (new_value i) l1 l2 _ l2 Hap (split_set_to _ _ _ _ _ _ Hsp)) as [Hap' Hs'].
      { by apply set_to_absent. }
      left. split; [done|]. eexists _, l2. split; [by split; rewrite ?Hacl'|done].
    - assert (old1 = None) as -> by by destruct old1.
      destruct (block_set_repr o e j blocksize _ Henv i bs x l2 A2 old2 B2) as (code & acl & ops & E & Hres); try done.
      { intros _. by destruct (Hrem eq_refl). }
      rewrite (st_bind_step _ _ _ _ _ E). destruct Hres as [(-> & Ha')|(_ & ? & _)]; [|done].
      exists 0, (set_block acl n), ops. split; [done|].
      assert (afind k l1 = None) as Hno.
      { destruct (EXT4_INODE_HAS_XATTR_SPACE n); [|by destruct Hibs as [_ ->]].
        destruct Hibs as (? & ? & ? & ? & _ & _ & Hs & _). by eapply split_at_find. }
      destruct (apart_set_right k (new_value i) l1 l2 l1 (A2 ++ one k (new_value i) ++ B2) Hap) as [Hap' Hs'].
      { by apply set_to_absent. } { apply split_set_to with old2. by apply (block_search_split (i_file_acl n) i bs). }
      left. split; [done|]. exists l1, (A2 ++ one k (new_value i) ++ B2). split; [|done]. split; [by eapply acl_inode_ok|done|done|done]. }
  rewrite (en_feature _ _ _ _ _ Henv). cbn [andb].
  assert (with_in_inode false i = i) as -> by (rewrite <-(in_plain _ Hinfo); by destruct i).
  destruct (set_value_repr o e j blocksize x i l1 l2 A1 B1 A2 B2 old1 old2 ibs bs Hinfo) with (turns := 0%nat)
    as (code & n' & ops & E & Hd); try done; [by rewrite Hv|].
  exists code, n', ops. split; [done|]. destruct Hd as [?|(-> & ? & ?)]; [by left|right].
  split; [done|]. split; [|done]. intros Hn%Hnv. done.
Qed.

End locked.

Section set_locked.
Context (o : io) (e : ea_io) (j : journal) (blocksize : Z) (i : ext4_xattr_info) (flags : Z).
Context (l1 l2 : list (Z * bytes * bytes)).
Hypothesis (Hinfo : info_ok i) (Hvalue : ∀ v, i_value i = Some v → ∃ b, v = ValueBytes b).

Let k := i_key i.

(** The state of a call that has not changed the attributes yet. *)
Definition call_ok (x : store) : Prop :=
  inode_repr o blocksize (sx_inode x) l1 l2 ∧ locked_env o e j blocksize (i_file_acl (sx_inode x)) ∧ sx_new x = false.

Lemma call_ok_acl x acl : call_ok x → acl_repr o blocksize acl l2 →
  (b_blocknr <$> acl) = b_blocknr <$> i_file_acl (sx_inode x) → call_ok (upd_inode (set_block acl (sx_inode x)) x).
Proof.
  intros (Hr & [He Hres Hm Hc] & Hn) Ha Hnr. pose proof (proj1 (proj2 (en_blocksize _ _ _ _ _ He))) as Hsz.
  split; [by apply (inode_repr_acl o blocksize (sx_inode x))|]. split; [|done].
  split; try done. eapply env_ok_acl; [done|done|apply Hr|done].
Qed.

Lemma credits_run x : call_ok x →
  ∃ acl, (if j_valid j then
      b ← ext4_xattr_get_block o;
      match b with
      | inl error => mret error
      | inr b =>
          credits ← lift (ext4_xattr_set_credits_of e j blocksize b (i_value_len i) (negb (Z.land flags XATTR_CREATE =? 0)));
          mret (if j_credits j <? credits then - ENOSPC else 0)
      end
    else mret 0) x = Some (0, upd_inode (set_block acl (sx_inode x)) x) ∧
    call_ok (upd_inode (set_block acl (sx_inode x)) x).
Proof.
  intros Hx. pose proof Hx as (Hr & [He _ _ Hc] & Hn). destruct (j_valid j); cycle 1.
  { exists (i_file_acl (sx_inode x)). assert (upd_inode (set_block (i_file_acl (sx_inode x)) (sx_inode x)) x = x) as ->;
      [by destruct x as [[]]|done]. }
  destruct (get_block_repr o blocksize x l2 (en_bread _ _ _ _ _ He) (ir_acl _ _ _ _ _ Hr)) as (acl & E & Ha & Hnr & Hd).
  exists acl. rewrite (st_bind_step _ _ _ _ _ E). rewrite credits_plain by apply He.
  unfold lift, mbind, st_bind, mret, st_ret. rewrite (proj2 (Z.ltb_ge _ _)) by done. split; [done|]. by apply call_ok_acl.
Qed.

(** The two searches of a call. *)
Lemma searches x : call_ok x →
  ∃ ibs bs acl A1 old1 B1 A2 old2 B2,
    ext4_xattr_ibody_find (sx_inode x) i = Some (0, ibs) ∧
    (if found ibs then mret (0, BlockFind no_search None) else ext4_xattr_block_find o i) x =
      Some ((0, bs), upd_inode (set_block acl (sx_inode x)) x) ∧
    call_ok (upd_inode (set_block acl (sx_inode x)) x) ∧
    (if EXT4_INODE_HAS_XATTR_SPACE (sx_inode x)
     then search_ok (raw_inode (sx_inode x)) (IFIRST (sx_inode x)) (IFIRST (sx_inode x)) i ibs l1 A1 old1 B1
     else old1 = None ∧ l1 = []) ∧
    found ibs = (match old1 with Some _ => true | None => false end) ∧
    bs_state acl i bs l2 A2 old2 B2 (found ibs) ∧
    found (bs_s bs) = (match old2 with Some _ => true | None => false end) ∧
    afind k (l1 ++ l2) = match old1 with Some v => Some v | None => old2 end.
Proof.
  intros Hx. pose proof Hx as (Hr & [He _ _ Hc] & Hn). pose proof Hr as [Hok Hb1 Ha2 Hap].
  destruct (ibody_find_repr (sx_inode x) i l1 Hok Hb1) as (ibs & E1 & Hf & Hs).
  assert (∃ A1 old1 B1, (if EXT4_INODE_HAS_XATTR_SPACE (sx_inode x)
     then search_ok (raw_inode (sx_inode x)) (IFIRST (sx_inode x)) (IFIRST (sx_inode x)) i ibs l1 A1 old1 B1
     else old1 = None ∧ l1 = []) ∧ afind k l1 = old1) as (A1 & old1 & B1 & Hs1 & Ho1).
  { destruct (EXT4_INODE_HAS_XATTR_SPACE (sx_inode x)).
    - destruct Hs as (A & old & B & Hs). exists A, old, B. split; [done|].
      destruct Hs as (? & ? & ? & ? & _ & _ & Hsp & _). by eapply split_at_find.
    - destruct Hs as [-> ->]. by exists [], None, []. }
  assert (found ibs = match old1 with Some _ => true | None => false end) as Hf1.
  { fold k in Hf. rewrite Ho1 in Hf. destruct old1; [by apply Hf|]. destruct (found ibs); [|done]. by destruct Hf as [[? ?] _]. }
  rewrite afind_app, Ho1. destruct (found ibs) eqn:Hfi.
  - exists ibs, (BlockFind no_search None), (i_file_acl (sx_inode x)), A1, old1, B1, [], None, [].
    assert (upd_inode (set_block (i_file_acl (sx_inode x)) (sx_inode x)) x = x) as -> by (by destruct x as [[]]).
    rewrite Hfi. split_and!; try done. by destruct old1.
  - destruct (block_find_repr o blocksize i x l2 (en_bread _ _ _ _ _ He) Ha2) as (bs & acl & E2 & Ha & Hnr & Hd & A2 & old2 & B2 & Hs2).
    exists ibs, bs, acl, A1, old1, B1, A2, old2, B2. rewrite Hfi. split_and!; try done.
    + by apply call_ok_acl.
    + by eapply block_search_found.
    + destruct old1; [done|]. eapply split_at_find. by eapply block_search_split.
Qed.

(** What a call answers, and what it does to the attributes. *)
Definition set_outcome (code : Z) (x' : store) : Prop :=
  let present := match afind k (l1 ++ l2) with Some _ => true | None => false end in
  if negb present && negb (Z.land flags XATTR_REPLACE =? 0) then code = - ENODATA ∧ call_ok x'
  else if present && negb (Z.land flags XATTR_CREATE =? 0) then code = - EEXIST ∧ call_ok x'
  else (code = 0 ∧ ∃ l1' l2', inode_repr o blocksize (sx_inode x') l1' l2' ∧ set_to k (new_value i) (l1 ++ l2) (l1' ++ l2')) ∨
       (code = - ENOSPC ∧ new_value i ≠ None ∧ call_ok x').

(** A change after its searches, when something is to be done. *)
Lemma finish_repr x ibs bs A1 B1 A2 B2 old1 old2 :
  call_ok x →
  (if EXT4_INODE_HAS_XATTR_SPACE (sx_inode x)
   then search_ok (raw_inode (sx_inode x)) (IFIRST (sx_inode x)) (IFIRST (sx_inode x)) i ibs l1 A1 old1 B1
   else old1 = None ∧ l1 = []) → found ibs = match old1 with Some _ => true | None => false end →
  bs_state (i_file_acl (sx_inode x)) i bs l2 A2 old2 B2 (found ibs) → (i_value i = None → old1 ≠ None ∨ old2 ≠ None) →
  ∃ code clear x', (res ← (match i_value i with
     | None =>
         if found ibs then error ← ext4_xattr_ibody_set e blocksize i ibs; mret (inr error)
         else error ← ext4_xattr_block_set o e j blocksize i bs; mret (inr error)
     | Some _ =>
         set_value 1 o e j blocksize (with_in_inode (ea_feature e &&
           (EXT4_XATTR_MIN_LARGE_EA_SIZE blocksize <? EXT4_XATTR_SIZE 64 (i_value_len i))) i) ibs bs
     end);
     match res with
     | inl error => mret (error, false)
     | inr error =>
         if error =? 0 then
           error ← finish_set j;
           log [OpFcIneligible] ;;
           mret (error, match i_value i with None => true | Some _ => false end)
         else log [OpFcIneligible] ;; mret (error, false)
     end) x = Some ((code, clear) : Z * bool, x') ∧ sx_no_expand x' = sx_no_expand x ∧ sx_new x' = false ∧
    ((code = 0 ∧ ∃ l1' l2', inode_repr o blocksize (sx_inode x') l1' l2' ∧ set_to k (new_value i) (l1 ++ l2) (l1' ++ l2')) ∨
     (code = - ENOSPC ∧ new_value i ≠ None ∧ call_ok x')).
Proof.
  intros (Hr & [He Hres Hm Hc] & Hn) Hs1 Hf1 Hs2 Hrem.
  destruct (change_repr o e j blocksize i l1 l2 Hinfo Hvalue x ibs bs A1 B1 A2 B2 old1 old2) as (code & n' & ops & E & Hd); try done.
  rewrite (st_bind_step _ _ _ _ _ E). destruct Hd as [(-> & l1' & l2' & Hr' & Hs')|(-> & Hnew & Hr' & Hnr)].
  - cbn [Z.eqb]. unfold finish_set, modify, mbind, st_bind, mret, st_ret. destruct (j_sync j);
      rewrite ?log_run; rewrite Hm; eexists 0, _, _; (split; [done|]); (split; [done|]); (split; [done|]); left; split; try done; by exists l1', l2'.
  - rewrite (proj2 (Z.eqb_neq _ _)) by done. unfold mbind, st_bind, mret, st_ret. rewrite log_run.
    eexists (- ENOSPC), _, _. split; [done|]. split; [done|]. split; [done|]. right. split; [done|]. split; [done|].
    split; [exact Hr'|]. split; [|done]. cbn [add_log upd_inode sx_inode]. split; try done.
    eapply env_ok_acl; [done|done|apply Hr|apply Hr'].
Qed.

Lemma same_repr n ibs bs A1 B1 A2 B2 old1 old2 :
  (if EXT4_INODE_HAS_XATTR_SPACE n
   then search_ok (raw_inode n) (IFIRST n) (IFIRST n) i ibs l1 A1 old1 B1
   else old1 = None ∧ l1 = []) → found ibs = match old1 with Some _ => true | None => false end →
  bs_state (i_file_acl n) i bs l2 A2 old2 B2 (found ibs) →
  found (bs_s bs) = match old2 with Some _ => true | None => false end →
  ∃ b, match i_value i with
       | None => Some false
       | Some _ =>
           if found ibs then ext4_xattr_value_same (raw_inode n) ibs i
           else if found (bs_s bs) then b ← bs_bh bs; ext4_xattr_value_same (b_data b) (bs_s bs) i
           else Some false
       end = Some b ∧ (b = true → match old1 with Some v => Some v | None => old2 end = new_value i).
Proof.
  intros Hs1 Hf1 Hs2 Hf2. destruct (option_cases (i_value i)) as [Hv|[w Hv]]; rewrite Hv; [by exists false|].
  destruct (Hvalue _ Hv) as [v ->]. destruct (found ibs) eqn:Hfi.
  - destruct old1 as [v1|]; [|done]. destruct (EXT4_INODE_HAS_XATTR_SPACE n); [|by destruct Hs1].
    destruct (value_same_repr i v _ _ _ _ _ _ _ _ Hinfo Hv Hs1 Hfi) as (b & -> & Hb). by exists b.
  - destruct old1; [done|]. destruct (found (bs_s bs)) eqn:Hfb; [|by exists false]. cbn [bs_state] in Hs2.
    unfold block_search in Hs2. destruct (i_file_acl n) as [bh|]; [|by destruct Hs2 as (-> & _)].
    destruct Hs2 as (-> & Hs2 & _). cbn [mbind option_bind].
    destruct (value_same_repr i v _ _ _ _ _ _ _ _ Hinfo Hv Hs2 Hfb) as (b & -> & Hb). by exists b.
Qed.

Lemma set_checked_repr x ibs bs A1 B1 A2 B2 old1 old2 :
  call_ok x →
  (if EXT4_INODE_HAS_XATTR_SPACE (sx_inode x)
   then search_ok (raw_inode (sx_inode x)) (IFIRST (sx_inode x)) (IFIRST (sx_inode x)) i ibs l1 A1 old1 B1
   else old1 = None ∧ l1 = []) → found ibs = match old1 with Some _ => true | None => false end →
  bs_state (i_file_acl (sx_inode x)) i bs l2 A2 old2 B2 (found ibs) →
  found (bs_s bs) = match old2 with Some _ => true | None => false end →
  afind k (l1 ++ l2) = match old1 with Some v => Some v | None => old2 end →
  ∃ code clear x', set_checked o e j blocksize i flags ibs bs x = Some ((code, clear), x') ∧
    sx_no_expand x' = sx_no_expand x ∧ sx_new x' = false ∧ set_outcome code x'.
Proof.
  intros Hx Hs1 Hf1 Hs2 Hf2 Hk. unfold set_outcome, set_checked. rewrite Hk, Hf1, Hf2. rewrite Hf1 in Hs2.
  set (present := match match old1 with Some v => Some v | None => old2 end with Some _ => true | None => false end).
  assert (negb (match old1 with Some _ => true | None => false end) && negb (match old2 with Some _ => true | None => false end) = negb present) as ->
    by (unfold present; by destruct old1, old2).
  pose proof Hx as (Hr & _ & Hn). rewrite negb_involutive.
  destruct (negb present && negb (Z.land flags XATTR_REPLACE =? 0)) eqn:Erep.
  { by exists (- ENODATA), false, x. }
  destruct (negb present && match i_value i with None => true | Some _ => false end) eqn:Enone.
  { apply andb_true_iff in Enone as [Ep Ev]. apply negb_true_iff in Ep. rewrite Ep. cbn [andb].
    exists 0, false, x. split_and!; try done. left. split; [done|]. exists l1, l2. split; [done|].
    unfold new_value. destruct (i_value i); [done|]. apply set_to_absent.
    rewrite Hk. unfold present in Ep. by destruct (match old1 with Some v => Some v | None => old2 end). }
  destruct (present && negb (Z.land flags XATTR_CREATE =? 0)) eqn:Ecr; [by exists (- EEXIST), false, x|].
  unfold get. rewrite (st_bind_step _ _ x x x) by done. rewrite <-Hf1, <-Hf2 in *.
  destruct (same_repr (sx_inode x) ibs bs A1 B1 A2 B2 old1 old2 Hs1 Hf1 Hs2 Hf2) as (b & Eb & Hb).
  rewrite (st_bind_step _ _ x b x) by (unfold lift; by rewrite Eb). destruct b.
  { exists 0, false, x. split_and!; try done. left. split; [done|]. exists l1, l2. split; [done|].
    rewrite Hb in Hk by done. intros k'. by case_decide; [subst|]. }
  apply (finish_repr x ibs bs A1 B1 A2 B2 old1 old2 Hx Hs1 Hf1 Hs2). intros Hv. rewrite Hv, andb_true_r in Enone.
  unfold present in Enone. destruct old1; [by left|right]. by destruct old2.
Qed.

Lemma set_locked_repr x : call_ok x →
  ∃ code clear x', set_locked o e j blocksize i flags x = Some ((code, clear), x') ∧
    sx_no_expand x' = sx_no_expand x ∧ sx_new x' = false ∧ set_outcome code x'.
Proof.
  intros Hx. unfold set_locked. destruct (credits_run x Hx) as (acl0 & E0 & Hx0). rewrite (st_bind_step _ _ _ _ _ E0).
  set (x0 := upd_inode _ x) in *. pose proof Hx0 as (Hr0 & [_ Hreserve _ _] & Hn0). cbn [Z.eqb negb]. rewrite Hreserve. cbn [Z.eqb negb].
  unfold get. rewrite (st_bind_step _ _ x0 x0 x0) by done. rewrite Hn0.
  rewrite (st_bind_step _ _ x0 tt x0) by done. rewrite (st_bind_step _ _ x0 x0 x0) by done.
  destruct (searches x0 Hx0) as (ibs & bs & acl & A1 & old1 & B1 & A2 & old2 & B2 & E1 & E2 & Hx1 & Hs1 & Hf1 & Hs2 & Hf2 & Hk).
  rewrite (st_bind_step _ _ x0 (0, ibs) x0) by (unfold lift; by rewrite E1). cbn [Z.eqb negb].
  rewrite (st_bind_step _ _ _ _ _ E2). cbn [Z.eqb negb].
  by apply (set_checked_repr _ ibs bs A1 B1 A2 B2 old1 old2 Hx1).
Qed.

End set_locked.

(** ** The attributes as they are read *)

(** The inode with its block, where a name may be in both. *)
Record inode_parts (o : io) (blocksize : Z) (n : ext4_inode) (l1 l2 : list (Z * bytes * bytes)) : Prop := {
  ip_ok : inode_ok n;
  ip_body : ibody_repr n l1;
  ip_acl : acl_repr o blocksize (i_file_acl n) l2 }.

Lemma repr_parts o blocksize n l1 l2 : inode_repr o blocksize n l1 l2 → inode_parts o blocksize n l1 l2.
Proof. by intros []. Qed.

(** No name is in both, in terms of the entries. *)
Definition no_name_twice (n : ext4_inode) : Prop :=
  ∀ idx name, find_x idx name (inode_entries n) = None ∨ find_x idx name (block_entries n) = None.

Section read.
Context (o : io) (blocksize : Z) (n : ext4_inode) (l1 l2 : list (Z * bytes * bytes)).
Hypothesis (Hparts : inode_parts o blocksize n l1 l2).

Lemma body_entries : if state_xattr n
  then EXT4_INODE_HAS_XATTR_SPACE n = true ∧ ∃ e_end, region (raw_inode n) (IFIRST n) (IFIRST n) (inode_entries n) e_end ∧
    attrs (raw_inode n) (IFIRST n) (inode_entries n) = l1 ∧ rd32 (raw_inode n) (IHDR n) = Some EXT4_XATTR_MAGIC
  else l1 = [].
Proof.
  pose proof (ip_body _ _ _ _ _ Hparts) as Hb. unfold ibody_repr, inode_entries in *.
  destruct (EXT4_INODE_HAS_XATTR_SPACE n); [|destruct Hb as [-> ->]; done].
  destruct Hb as (es & e_end & Hreg & <- & _ & Hs). destruct (state_xattr n); [|by subst].
  split; [done|]. exists e_end. by rewrite (region_entries _ _ _ _ _ Hreg).
Qed.

Lemma acl_entries : match i_file_acl n with
  | Some b => ∃ e_end, region (b_data b) 0 HEADER_SIZE (block_entries n) e_end ∧ attrs (b_data b) 0 (block_entries n) = l2 ∧
      StronglySorted klt (keys l2)
  | None => l2 = []
  end.
Proof.
  pose proof (ip_acl _ _ _ _ _ Hparts) as Ha. unfold acl_repr, block_entries in *.
  destruct (i_file_acl n) as [b|]; [|done]. destruct Ha as [((es & e_end & Hreg & <-) & Hs & _) _].
  exists e_end. unfold BFIRST. by rewrite (region_entries _ _ _ _ _ Hreg).
Qed.

Lemma sorted_before r es : StronglySorted klt (keys (attrs r 0 es)) → StronglySorted x_before es.
Proof.
  rewrite keys_attrs. induction es as [|x es IH]; [constructor|]. cbn [fmap list_fmap].
  intros [Hs Hf]%StronglySorted_inv. constructor; [by apply IH|]. apply Forall_forall. rewrite Forall_forall in Hf. intros y Hy.
  specialize (Hf (x_index y, x_name y) ltac:(apply list_elem_of_fmap; by exists y)). unfold x_before.
  by rewrite x_cmp_kcmp.
Qed.

Lemma parts_well_formed : well_formed o n.
Proof.
  pose proof (ip_ok _ _ _ _ _ Hparts) as Hok. split.
  - intros Hs. pose proof body_entries as Hb. rewrite Hs in Hb. destruct Hb as (Hsp & e_end & Hreg & _ & Hm).
    split; [by eapply check_inode_ok|]. by eapply region_plain.
  - intros b Eb. pose proof acl_entries as Ha. rewrite Eb in Ha. destruct Ha as (e_end & Hreg & Hl & Hs).
    pose proof (ip_acl _ _ _ _ _ Hparts) as Hacl. rewrite Eb in Hacl.
    destruct (check_block_repr _ _ _ _ Hacl) as (b' & E & _). split; [by exists b'|].
    split; [by eapply region_plain|]. apply sorted_before with (b_data b). by rewrite Hl.
Qed.

(** Reading gives what the lists say. *)
Lemma parts_attr idx name : ext4_attr n idx name = afind (idx, name) (l1 ++ l2).
Proof.
  unfold ext4_attr. rewrite afind_app.
  assert ((value_of (raw_inode n) (IFIRST n) <$> find_x idx name (inode_entries n)) = afind (idx, name) l1) as H1.
  { pose proof body_entries as Hb. unfold inode_entries in *. destruct (state_xattr n); [|by subst].
    destruct Hb as (_ & e_end & _ & <- & _). by rewrite find_x_afind. }
  rewrite <-H1. destruct (find_x idx name (inode_entries n)); cbn [fmap option_fmap option_map]; [done|].
  pose proof acl_entries as Ha. destruct (i_file_acl n) as [b|]; [|by subst].
  destruct Ha as (e_end & _ & <- & _). by rewrite find_x_afind.
Qed.

Lemma parts_apart : no_name_twice n ↔ apart l1 l2.
Proof.
  pose proof body_entries as Hb. pose proof acl_entries as Ha.
  assert (∀ idx name, find_x idx name (inode_entries n) = None ↔ afind (idx, name) l1 = None) as H1.
  { intros idx name. unfold inode_entries in *. destruct (state_xattr n); [|by subst].
    destruct Hb as (_ & e_end & _ & <- & _). rewrite <-find_x_afind. by destruct (find_x _ _ _). }
  assert (∀ idx name, find_x idx name (block_entries n) = None ↔ afind (idx, name) l2 = None) as H2.
  { intros idx name. unfold block_entries in *. destruct (i_file_acl n); [|by subst].
    destruct Ha as (e_end & _ & <- & _). rewrite <-find_x_afind. by destruct (find_x _ _ _). }
  split; [intros H [idx name]|intros H idx name].
  - by rewrite <-H1, <-H2.
  - rewrite H1, H2. apply H.
Qed.

End read.

Lemma repr_well_formed o blocksize n l1 l2 : inode_repr o blocksize n l1 l2 → well_formed o n.
Proof. intros H. eapply parts_well_formed. by apply repr_parts. Qed.

Lemma repr_attr o blocksize n l1 l2 : inode_repr o blocksize n l1 l2 →
  ∀ idx name, ext4_attr n idx name = afind (idx, name) (l1 ++ l2).
Proof. intros H. eapply parts_attr. by apply repr_parts. Qed.

(** ** A whole call *)

Section call.
Context (o : io) (e : ea_io) (j : journal) (t : transaction) (blocksize idx : Z) (name : bytes).
Context (value : option xattr_value) (len flags : Z) (l1 l2 : list (Z * bytes * bytes)).
Let i := Ext4XattrInfo name value len idx false.
Hypothesis (Hinfo : info_ok i) (Hvalue : ∀ v, value = Some v → ∃ b, v = ValueBytes b).

Lemma set_handle_repr x : call_ok o e j blocksize l1 l2 x →
  ∃ code x', ext4_xattr_set_handle o e j blocksize idx (Some name) value len flags x = Some (code, x') ∧
    sx_new x' = false ∧ set_outcome o e j blocksize i flags l1 l2 code x'.
Proof.
  intros Hx. unfold ext4_xattr_set_handle. pose proof (in_length _ Hinfo) as Hlen. cbn [i_name i] in Hlen.
  rewrite (proj2 (Z.ltb_ge _ _)) by lia. rewrite (st_bind_step _ _ x (sx_no_expand x) x) by done.
  set (x0 := Store (sx_inode x) (sx_new x) true (sx_feature x) (sx_ctime x) (sx_log x)).
  rewrite (st_bind_step _ _ x tt x0) by done. fold i.
  destruct (set_locked_repr o e j blocksize i flags l1 l2 Hinfo Hvalue x0 Hx) as (code & clear & x' & E & _ & Hn & Ho).
  rewrite (st_bind_step _ _ _ _ _ E). destruct (negb (sx_no_expand x) || clear); eexists code, _; (split; [done|]; by split).
Qed.

Lemma set_credits_repr x : call_ok o e j blocksize l1 l2 x →
  ∃ x', ext4_xattr_set_credits o e j t blocksize len (negb (Z.land flags XATTR_CREATE =? 0)) x = Some (0, x') ∧
    call_ok o e j blocksize l1 l2 x'.
Proof.
  intros Hx. pose proof Hx as (Hr & [He _ _ Hc] & Hn). unfold ext4_xattr_set_credits.
  destruct (t_journal t); [|by exists x]. cbn [negb].
  destruct (get_block_repr o blocksize x l2 (en_bread _ _ _ _ _ He) (ir_acl _ _ _ _ _ Hr)) as (acl & E & Ha & Hnr & _).
  rewrite (st_bind_step _ _ _ _ _ E). rewrite credits_plain by apply He.
  eexists. split; [done|]. by apply call_ok_acl.
Qed.

Lemma set_retry_repr retries x : t_start t = 0 → t_stop t = 0 → call_ok o e j blocksize l1 l2 x →
  ∃ code x', set_retry retries o e j t blocksize idx name value len flags x = Some (code, x') ∧
    sx_new x' = false ∧ set_outcome o e j blocksize i flags l1 l2 code x'.
Proof.
  intros Hstart Hstop. revert x. induction retries as [|r retries IH]; intros x Hx; cbn [set_retry];
    destruct (set_credits_repr x Hx) as (x0 & E0 & Hx0); rewrite (st_bind_step _ _ _ _ _ E0), Hstart, Hstop; cbn [Z.eqb negb];
    destruct (set_handle_repr x0 Hx0) as (code & x1 & E1 & Hn & Ho); rewrite (st_bind_step _ _ _ _ _ E1);
    rewrite (st_bind_step _ _ x1 tt (add_log [OpFcIneligible] x1)) by done;
    assert ((if code =? 0 then 0 else code) = code) as -> by (by destruct (Z.eqb_spec code 0)).
  - by eexists code, _.
  - destruct r; [|by eexists code, _]. destruct (Z.eqb_spec code (- ENOSPC)) as [->|]; [|by eexists code, _].
    apply IH. unfold set_outcome in Ho. destruct (_ && _); [by destruct Ho|]. destruct (_ && _); [by destruct Ho|].
    destruct Ho as [[? _]|(_ & _ & Ho)]; [done|exact Ho].
Qed.

End call.

Lemma ext4_xattr_set_repr o e j t blocksize idx name value len flags l1 l2 x :
  info_ok (Ext4XattrInfo name value len idx false) → (∀ v, value = Some v → ∃ b, v = ValueBytes b) →
  t_dquot t = 0 ∧ t_start t = 0 ∧ t_stop t = 0 → call_ok o e j blocksize l1 l2 x →
  ∃ code x', ext4_xattr_set o e j t blocksize idx name value len flags x = Some (code, x') ∧ sx_new x' = false ∧
    set_outcome o e j blocksize (Ext4XattrInfo name value len idx false) flags l1 l2 code x'.
Proof.
  intros Hinfo Hv (Hd & Hs & Hst) Hx. unfold ext4_xattr_set. rewrite Hd. cbn [Z.eqb negb]. by apply set_retry_repr.
Qed.

(** The same in terms of the attributes that are read. *)
Definition set_answer (flags : Z) (old new : option bytes) (code : Z) : Prop :=
  match old with
  | None => if negb (Z.land flags XATTR_REPLACE =? 0) then code = - ENODATA else code = 0 ∨ (code = - ENOSPC ∧ new ≠ None)
  | Some _ => if negb (Z.land flags XATTR_CREATE =? 0) then code = - EEXIST else code = 0 ∨ (code = - ENOSPC ∧ new ≠ None)
  end.

Lemma set_outcome_attr o e j blocksize i flags l1 l2 code x x' :
  inode_repr o blocksize (sx_inode x) l1 l2 → set_outcome o e j blocksize i flags l1 l2 code x' →
  (∃ l1' l2', inode_repr o blocksize (sx_inode x') l1' l2') ∧
  set_answer flags (ext4_attr (sx_inode x) (i_name_index i) (i_name i)) (new_value i) code ∧
  ∀ idx name, ext4_attr (sx_inode x') idx name =
    if decide ((idx, name) = i_key i) then (if code =? 0 then new_value i else ext4_attr (sx_inode x) idx name)
    else ext4_attr (sx_inode x) idx name.
Proof.
  intros Hr Ho. assert (∀ l1' l2', inode_repr o blocksize (sx_inode x') l1' l2' → ∀ idx name,
    ext4_attr (sx_inode x') idx name = afind (idx, name) (l1' ++ l2')) as Hx'.
  { intros l1' l2' Hr' idx name. by apply repr_attr with o blocksize. }
  assert (∀ idx name, ext4_attr (sx_inode x) idx name = afind (idx, name) (l1 ++ l2)) as Hx.
  { intros idx name. by apply repr_attr with o blocksize. }
  assert (call_ok o e j blocksize l1 l2 x' → (∃ l1' l2', inode_repr o blocksize (sx_inode x') l1' l2') ∧ ∀ idx name,
    ext4_attr (sx_inode x') idx name = ext4_attr (sx_inode x) idx name) as Hsame.
  { intros (Hr' & _). split; [by eexists _, _|]. intros idx name. by rewrite Hx, (Hx' l1 l2 Hr'). }
  assert (∀ c : Z, c ≠ 0 → call_ok o e j blocksize l1 l2 x' → (∃ l1' l2', inode_repr o blocksize (sx_inode x') l1' l2') ∧ ∀ idx name,
    ext4_attr (sx_inode x') idx name = if decide ((idx, name) = i_key i) then (if c =? 0 then new_value i else ext4_attr (sx_inode x) idx name)
    else ext4_attr (sx_inode x) idx name) as Hkeep.
  { intros c Hc Hc'. destruct (Hsame Hc') as [? Ha]. split; [done|]. intros idx name. rewrite Ha, (proj2 (Z.eqb_neq _ _)) by done.
    by case_decide. }
  unfold set_outcome in Ho. unfold set_answer. rewrite Hx. fold (i_key i).
  assert ((code = 0 ∧ ∃ l1' l2', inode_repr o blocksize (sx_inode x') l1' l2' ∧ set_to (i_key i) (new_value i) (l1 ++ l2) (l1' ++ l2')) ∨
    (code = - ENOSPC ∧ new_value i ≠ None ∧ call_ok o e j blocksize l1 l2 x') → (∃ l1' l2', inode_repr o blocksize (sx_inode x') l1' l2') ∧
    (code = 0 ∨ (code = - ENOSPC ∧ new_value i ≠ None)) ∧ ∀ idx name, ext4_attr (sx_inode x') idx name =
      if decide ((idx, name) = i_key i) then (if code =? 0 then new_value i else ext4_attr (sx_inode x) idx name)
      else ext4_attr (sx_inode x) idx name) as Hdone.
  { intros [(-> & l1' & l2' & Hr' & Hs)|(-> & Hn & Hc)].
    - split; [by eexists _, _|]. split; [by left|]. intros idx name. by rewrite (Hx' _ _ Hr'), Hs, Hx.
    - destruct (Hkeep (- ENOSPC) ltac:(done) Hc) as [? Ha]. split; [done|]. split; [by right|done]. }
  destruct (afind (i_key i) (l1 ++ l2)); cbn [negb andb] in Ho;
    (destruct (negb (Z.land flags _ =? 0)); [destruct Ho as [Hcode Hc]; destruct (Hkeep code) as [? ?]; [by rewrite Hcode|done|by split_and!]|by apply Hdone]).
Qed.

Lemma get_of_repr o blocksize n l1 l2 idx name buffer : io_ok o → io_shutdown o = false → io_inode_loc o = 0 → io_bread o = 0 →
  (length name ≤ 255)%nat → inode_repr o blocksize n l1 l2 →
  ∃ n', ext4_xattr_get o idx name buffer n = Some (get_answer (ext4_attr n idx name) buffer, n').
Proof.
  intros Ho Hs Hl Hb Hn Hr. apply xattr_get_answer; try done; [apply Hr|by eapply repr_well_formed].
Qed.

(** C7: ext4_xattr_set with the journal and the allocator working and values kept
    in the buffers, whatever the cache of blocks finds, whether the block is
    shared and however often the allocator lets the call try again: with
    XATTR_REPLACE a name that is not there answers ENODATA, with XATTR_CREATE a
    name that is there answers EEXIST, else the call succeeds, or answers ENOSPC
    for a value that has no room.  When it succeeds the attribute has the new
    value (or is gone) and every other one is as before; when it does not, all
    are as before.  The inode and its block are well formed again. *)
Theorem ext4_xattr_set_spec o e j t blocksize idx name value len flags x l1 l2
    (Hinfo : info_ok (Ext4XattrInfo name value len idx false))
    (Hvalue : ∀ v, value = Some v → ∃ b, v = ValueBytes b)
    (Ht : t_dquot t = 0 ∧ t_start t = 0 ∧ t_stop t = 0)
    (Hrepr : inode_repr o blocksize (sx_inode x) l1 l2)
    (Henv : locked_env o e j blocksize (i_file_acl (sx_inode x))) (Hnew : sx_new x = false) :
  ∃ code x', ext4_xattr_set o e j t blocksize idx name value len flags x = Some (code, x') ∧
    (∃ l1' l2', inode_repr o blocksize (sx_inode x') l1' l2') ∧
    set_answer flags (ext4_attr (sx_inode x) idx name) (flip value_bytes len <$> value) code ∧
    ∀ idx' name', ext4_attr (sx_inode x') idx' name' =
      if decide ((idx', name') = (idx, name))
      then (if code =? 0 then flip value_bytes len <$> value else ext4_attr (sx_inode x) idx' name')
      else ext4_attr (sx_inode x) idx' name'.
Proof.
  destruct (ext4_xattr_set_repr o e j t blocksize idx name value len flags l1 l2 x Hinfo Hvalue Ht) as (code & x' & E & _ & Ho); [done|].
  exists code, x'. split; [done|]. by apply (set_outcome_attr _ _ _ _ _ _ _ _ _ x) in Ho.
Qed.

(** C10: What was set through the [custom.] handler is read back through it: the
    whole value for a large enough buffer, its size for none, ERANGE for a small
    one, and ENODATA after a removal; attributes with other names are read as
    before. *)
Theorem ext4_custom_set_get o e j t blocksize name value len flags x x' l1 l2 idx' name' buffer
    (Hinfo : info_ok (Ext4XattrInfo name value len EXT4_XATTR_INDEX_CUSTOM false))
    (Hvalue : ∀ v, value = Some v → ∃ b, v = ValueBytes b)
    (Ht : t_dquot t = 0 ∧ t_start t = 0 ∧ t_stop t = 0)
    (Hrepr : inode_repr o blocksize (sx_inode x) l1 l2)
    (Henv : locked_env o e j blocksize (i_file_acl (sx_inode x))) (Hnew : sx_new x = false)
    (Hio : io_ok o) (Hup : io_shutdown o = false) (Hloc : io_inode_loc o = 0) (Hname : (length name' ≤ 255)%nat)
    (Hset : ext4_xattr_custom_set o e j t blocksize name value len flags x = Some (0, x')) :
  (∃ n, ext4_xattr_custom_get o name buffer (sx_inode x') = Some (get_answer (flip value_bytes len <$> value) buffer, n)) ∧
  ((idx', name') ≠ (EXT4_XATTR_INDEX_CUSTOM, name) → ∃ n n',
     ext4_xattr_get o idx' name' buffer (sx_inode x') = Some (get_answer (ext4_attr (sx_inode x) idx' name') buffer, n) ∧
     ext4_xattr_get o idx' name' buffer (sx_inode x) = Some (get_answer (ext4_attr (sx_inode x) idx' name') buffer, n')).
Proof.
  destruct (ext4_xattr_set_repr o e j t blocksize EXT4_XATTR_INDEX_CUSTOM name value len flags l1 l2 x Hinfo Hvalue Ht)
    as (code & x1 & E & _ & Ho); [done|].
  unfold ext4_xattr_custom_set in Hset. rewrite E in Hset. injection Hset as -> ->.
  apply (set_outcome_attr _ _ _ _ _ _ _ _ _ x) in Ho as ((l1' & l2' & Hr') & _ & Ha); [|done].
  pose proof (en_bread _ _ _ _ _ (le_env _ _ _ _ _ Henv)) as Hbr. cbn [Z.eqb i_key i_name_index i_name] in Ha. split.
  - unfold ext4_xattr_custom_get.
    destruct (get_of_repr o blocksize (sx_inode x') l1' l2' EXT4_XATTR_INDEX_CUSTOM name buffer) as [n En]; try done; [apply Hinfo|].
    exists n. rewrite En. by rewrite Ha, decide_True.
  - intros Hne. destruct (get_of_repr o blocksize (sx_inode x') l1' l2' idx' name' buffer) as [n En]; try done.
    destruct (get_of_repr o blocksize (sx_inode x) l1 l2 idx' name' buffer) as [n' En']; try done.
    exists n, n'. by rewrite En, Ha, decide_False.
Qed.

(** ** Runs of calls *)

(** Calls that follow one another, each with an environment of its own. *)
Inductive set_run (o : io) (blocksize : Z) (x : store) : store → Prop :=
| run_start : set_run o blocksize x x
| run_set e j t idx name value len flags code x' x'' :
    set_run o blocksize x x' →
    info_ok (Ext4XattrInfo name value len idx false) → (∀ v, value = Some v → ∃ b, v = ValueBytes b) →
    t_dquot t = 0 ∧ t_start t = 0 ∧ t_stop t = 0 → locked_env o e j blocksize (i_file_acl (sx_inode x')) →
    ext4_xattr_set o e j t blocksize idx name value len flags x' = Some (code, x'') →
    set_run o blocksize x x''.

Lemma set_run_repr o blocksize x x' l1 l2 : inode_repr o blocksize (sx_inode x) l1 l2 → sx_new x = false →
  set_run o blocksize x x' → (∃ l1' l2', inode_repr o blocksize (sx_inode x') l1' l2') ∧ sx_new x' = false.
Proof.
  intros Hr Hn. induction 1 as [|e j t idx name value len flags code x' x'' _ IH Hinfo Hv Ht He E].
  - split; [by eexists _, _|done].
  - destruct IH as [(m1 & m2 & Hr') Hn'].
    destruct (ext4_xattr_set_repr o e j t blocksize idx name value len flags m1 m2 x' Hinfo Hv Ht) as (code' & x1 & E' & Hn1 & Ho); [done|].
    rewrite E in E'. injection E' as -> ->. split; [|done]. by apply (set_outcome_attr _ _ _ _ _ _ _ _ _ x') in Ho as [? _].
Qed.

(** As long as the journal, the allocator, memory and the disk work, the format is
    kept well formed by every run of calls, whatever they set, remove or answer,
    and no name gets into both places.  (Ext4Fail says what is kept when they do
    not.) *)
Lemma ext4_set_runs_well_formed o blocksize x x' l1 l2 :
  inode_repr o blocksize (sx_inode x) l1 l2 → sx_new x = false → set_run o blocksize x x' →
  inode_ok (sx_inode x') ∧ well_formed o (sx_inode x') ∧ no_name_twice (sx_inode x').
Proof.
  intros Hrepr Hnew Hrun. destruct (set_run_repr _ _ _ _ _ _ Hrepr Hnew Hrun) as [(m1 & m2 & Hr) _].
  split; [apply Hr|]. split; [by eapply repr_well_formed|].
  apply (parts_apart o blocksize _ m1 m2 (repr_parts _ _ _ _ _ Hr)), Hr.
Qed.

(** ** Witnesses: the sample inode, with a checksum, its block shared with another inode *)

Definition demo_journal : journal :=
  Journal true 1000 0 0 0 0 0 0 true (λ _, 0) (inr 99) true 0 true false [] (λ _, false) (λ _, 0) 7 false 4 None 7
    (λ _, 0) 0 0 0 true.
Definition demo_transaction : transaction := Transaction 0 true 0 0 [true; false].

Definition demo_csum_io : io :=
  Io false 0 0 true (λ c s, (c + foldr Z.add 0 s) mod 2 ^ 32) 0 (λ _ _ _, inl (- EIO)).

Definition demo_shared : ea_block := Eval vm_compute in
  default (EaBlock [] 0 false)
    (r ← wr 4 demo_block H_REFCOUNT 2; ext4_xattr_block_csum_set demo_csum_io (EaBlock r 7 false)).

Definition demo_shared_inode : ext4_inode := Ext4Inode demo_raw 32 true (Some demo_shared).
Definition demo_store : store := Store demo_shared_inode false false false 0 [].

Lemma demo_shared_region : region (b_data demo_shared) 0 32 [XEntry 32 1 [98] 124 0 1 0] 52.
Proof.
  split.
  - split; [by apply is_bytes_check; vm_compute|by vm_compute|by vm_compute].
  - done.
  - eapply chain_cons; [by vm_compute|by vm_compute|by vm_compute|by vm_compute|]. apply chain_last. by vm_compute.
  - constructor; [|constructor]. split; [done|done|cbn; unfold EXT4_XATTR_SIZE_MAX; lia|done].
  - split; [|by repeat constructor]. constructor; [|constructor]. vm_compute. by split_and!.
Qed.

Lemma demo_shared_repr : block_repr demo_csum_io 128 demo_shared [(1, [98], [33])].
Proof.
  split; [|right; by vm_compute]. split; [|split; [by repeat constructor|by split_and!; vm_compute]].
  exists [XEntry 32 1 [98] 124 0 1 0], 52. split; [exact demo_shared_region|by vm_compute].
Qed.

Lemma demo_repr : inode_repr demo_csum_io 128 demo_shared_inode [(11, [97], [72; 105])] [(1, [98], [33])].
Proof.
  split.
  - apply (acl_inode_ok demo_csum_io 128 demo_ext4 (Some demo_shared) [(1, [98], [33])]);
      [exact demo_inode_ok|exact demo_shared_repr|by vm_compute].
  - unfold ibody_repr. assert (EXT4_INODE_HAS_XATTR_SPACE demo_shared_inode = true) as -> by by vm_compute.
    exists [demo_entry], 184. split; [exact demo_inode_region|]. split; [by vm_compute|]. split; [|by vm_compute].
    by apply NoDup_singleton.
  - exact demo_shared_repr.
  - intros k. cbn [afind]. case_decide as H1; [|by left]. right. rewrite decide_False; [done|]. intros <-. done.
Qed.

Lemma demo_locked_env : locked_env demo_csum_io demo_set_io demo_journal 128 (Some demo_shared).
Proof.
  split; [|done|done|cbn; lia]. split; try done; [|by exists 99].
  intros c s. cbn. by apply Z.mod_pos_bound.
Qed.

(** user.b in the shared block. *)
Lemma demo_user_info : info_ok (Ext4XattrInfo [98] (Some (ValueBytes (s2b "Hello"))) 5 EXT4_XATTR_INDEX_USER false).
Proof.
  split; [by vm_compute|cbn; lia|by apply is_bytes_check; vm_compute|by vm_compute|done|cbn; lia|]. intros v [= <-].
  split; [by apply is_bytes_check; vm_compute|by vm_compute].
Qed.

Lemma ext4_xattr_set_spec_witness :
  ∃ code x', ext4_xattr_set demo_csum_io demo_set_io demo_journal demo_transaction 128 EXT4_XATTR_INDEX_USER [98]
      (Some (ValueBytes (s2b "Hello"))) 5 XATTR_REPLACE demo_store = Some (code, x') ∧
    set_answer XATTR_REPLACE (Some [33]) (Some (s2b "Hello")) code ∧
    ext4_attr (sx_inode x') 11 [97] = Some [72; 105].
Proof.
  destruct (ext4_xattr_set_spec demo_csum_io demo_set_io demo_journal demo_transaction 128 EXT4_XATTR_INDEX_USER [98]
    (Some (ValueBytes (s2b "Hello"))) 5 XATTR_REPLACE demo_store _ _ demo_user_info
    ltac:(intros v [= <-]; by eexists) ltac:(by split_and!) demo_repr demo_locked_env eq_refl) as (code & x' & E & _ & Ha & Hx).
  exists code, x'. split; [exact E|]. split; [exact Ha|]. rewrite Hx. vm_compute. reflexivity.
Defined.

Lemma ext4_custom_set_get_witness :
  ∃ x' n, ext4_xattr_custom_set demo_csum_io demo_set_io demo_journal demo_transaction 128 [97]
      (Some (ValueBytes (s2b "Hello"))) 5 0 demo_store = Some (0, x') ∧
    ext4_xattr_custom_get demo_csum_io [97] (Some (replicate 6 0)) (sx_inode x') = Some ((5, Some (s2b "Hello" ++ [0])), n).
Proof.
  assert (∃ x', ext4_xattr_custom_set demo_csum_io demo_set_io demo_journal demo_transaction 128 [97]
      (Some (ValueBytes (s2b "Hello"))) 5 0 demo_store = Some (0, x')) as [x' E] by (eexists; vm_compute; reflexivity).
  destruct (ext4_custom_set_get demo_csum_io demo_set_io demo_journal demo_transaction 128 [97]
    (Some (ValueBytes (s2b "Hello"))) 5 0 demo_store x' _ _ 1 [98] (Some (replicate 6 0)) demo_info_ok
    ltac:(intros v [= <-]; by eexists) ltac:(by split_and!) demo_repr demo_locked_env eq_refl
    ltac:(done) eq_refl eq_refl ltac:(cbn; lia) E) as [[n En] _].
  exists x', n. split; [exact E|]. rewrite En. vm_compute. reflexivity.
Defined.

End Ext4Store.
