(* ===== verification/Ext4Fail.v ===== *)
(** * Setting attributes of ext4 when something fails

    The functions of Ext4Store once more, with any outcome of memory, of the
    journal, of the allocator and of the disk: a call may be refused at every
    place where the code asks for one of them.  (Reading the block has one
    outcome in a call: a block that was read stays in memory.)  The theorem says what a failing
    call can leave behind.  Inode and block are well formed whatever happens,
    attributes with other names read as before, and the attribute itself reads as
    before or has the new value.  What is not kept is that a name is only in one
    of the two places: ext4_xattr_set_handle stores the new value in the inode
    first and then removes the old one from the block, and does not take the
    first step back when the second one fails.  The sample run at the end shows
    that a later removal then uncovers the old value. *)

From Stdlib Require Import ZArith Lia Sorted.
From stdpp Require Import base numbers list gmap strings.
From S2P Require Import Prelude Xattr Ext4Xattr Ext4Set Ext4Store.

Module Ext4Fail.
Import Xattr Ext4Xattr Ext4Set Ext4Store.

(** ** Any outcome *)

(** What is assumed of the environment when everything may fail: checksums are 32
    bits, values are kept in the buffers, there is no inline data, an error is not
    0, and the blocks that the cache finds are attribute blocks. *)
Record env_any (o : io) (e : ea_io) (j : journal) (blocksize : Z) (bh : option ea_block) : Prop := {
  an_chksum : ∀ c s, 0 ≤ io_chksum o c s < 2 ^ 32;
  an_feature : ea_feature e = false;
  an_inline : default 0 (ea_inline e) = 0;
  an_new : ∀ error, j_new_block j = inl error → error ≠ 0;
  an_blocksize : blocksize mod 4 = 0 ∧ HEADER_SIZE + 4 ≤ blocksize ≤ 65536;
  an_lookups : Forall (lookup_ok o blocksize bh) (j_lookups j) }.

Lemma env_ok_any o e j blocksize bh : env_ok o e j blocksize bh → env_any o e j blocksize bh.
Proof. intros H. pose proof (en_new _ _ _ _ _ H) as [nr E]. destruct H. split; try done. by rewrite E. Qed.

Lemma env_any_acl o e j blocksize bh bh' l : env_any o e j blocksize bh → (b_blocknr <$> bh') = b_blocknr <$> bh →
  acl_repr o blocksize bh l → acl_repr o blocksize bh' l → env_any o e j blocksize bh'.
Proof.
  intros [] Hn Ha Ha'. split; try done. eapply Forall_impl; [done|]. intros f Hf b Hb. destruct (Hf b Hb) as [H1 H2].
  split; [done|]. intros b0 l0 -> Hnr Hl0. destruct bh as [b1|]; [|done]. injection Hn as Hn.
  rewrite (block_bytes_unique _ _ _ _ Hl0 (proj1 Ha')). apply (H2 b1); [done|congruence|apply Ha].
Qed.

(** The same environment with nothing failing. *)
Definition working_io (o : io) : io :=
  Io (io_shutdown o) (io_inode_loc o) 0 (io_metadata_csum o) (io_chksum o) (io_csum_seed o) (io_ea_inode o).

Definition working_journal (j : journal) : journal :=
  Journal (j_valid j) (j_credits j) 0 0 0 (j_reserve j) (j_mark_dirty j) (j_super_access j) true (λ _, 0) (inr 0) true 0
    (j_cache j) (j_cache_busy j) (j_lookups j) (j_lustre j) (j_ea_size j) (j_now j) (j_sync j) (j_quotas j)
    (j_inline_blocks j) (j_blkbits j) (λ _, 0) 0 0 0 true.

Lemma working_env o e j blocksize bh : env_any o e j blocksize bh → env_ok (working_io o) e (working_journal j) blocksize bh.
Proof. intros []. split; try done. by exists 0. Qed.

(** ** The block *)

Section block.
Context (o : io) (e : ea_io) (j : journal) (blocksize : Z) (bh0 : option ea_block).
Hypothesis (Hany : env_any o e j blocksize bh0).

Let works := env_ok o e j blocksize bh0.
Let Hwork := working_env o e j blocksize bh0 Hany.

(** What is under construction: an error, with the block as it was, or as it is
    to be when the journal refuses it afterwards; or the new bytes. *)
Definition modified (i : ext4_xattr_info) (acl0 : option ea_block) (l l' : list (Z * bytes * bytes)) (res : Z + block_build)
    (acl : option ea_block) : Prop :=
  (∃ code, res = inl code ∧ code ≠ 0 ∧ (works → code = - ENOSPC ∧ i_value i ≠ None) ∧
     (acl_repr o blocksize acl l ∨ (acl_repr o blocksize acl l' ∧ ¬ works))) ∨
  (∃ w, res = inr (BlockBuild false w 0 None) ∧ block_bytes blocksize w l' ∧ acl = acl0) ∨
  (∃ b w, res = inr (BlockBuild true w 0 None) ∧ acl = Some b ∧ b_data b = w ∧ block_repr o blocksize b l').

Lemma clone_any i s x bh l A old B :
  info_ok i → block_bytes blocksize (b_data bh) l → search_ok (b_data bh) 0 HEADER_SIZE i s l A old B →
  (old = None → place_ok A (i_key i) B) → (i_value i = None → old ≠ None) → acl_repr o blocksize (Some bh) l →
  ∃ res, clone_block e j blocksize i s bh x = Some (res, x) ∧
    modified i (Some bh) l (A ++ one (i_key i) (new_value i) ++ B) res (Some bh).
Proof.
  intros Hinfo Hb Hso Hpl Hrem Hacl. destruct (j_kmalloc j) eqn:Hk; cycle 1.
  { unfold clone_block. rewrite Hk. exists (inl (- ENOMEM)). split; [done|]. left. exists (- ENOMEM). split; [done|].
    split; [done|]. split; [|by left]. intros H. by rewrite (en_kmalloc _ _ _ _ _ H) in Hk. }
  destruct (clone_block_repr _ e (working_journal j) blocksize bh0 Hwork i s x bh l A old B) as (res & E & Hres); try done.
  exists res. split.
  - rewrite <-E. unfold clone_block. by rewrite Hk.
  - destruct Hres as [(w & -> & Hw)|(-> & Hv)]; [right; left; by exists w|left].
    exists (- ENOSPC). split_and!; try done. by left.
Qed.

Lemma modify_any i bs x l A old B :
  info_ok i → acl_repr o blocksize (i_file_acl (sx_inode x)) l →
  block_search (i_file_acl (sx_inode x)) i bs l A old B → (i_value i = None → old ≠ None) →
  ∃ res acl, modify_block o e j blocksize i bs x = Some (res, upd_inode (set_block acl (sx_inode x)) x) ∧
    (b_blocknr <$> acl) = b_blocknr <$> i_file_acl (sx_inode x) ∧
    modified i (i_file_acl (sx_inode x)) l (A ++ one (i_key i) (new_value i) ++ B) res acl.
Proof.
  intros Hinfo Hacl Hbs Hrem. set (n := sx_inode x) in *.
  assert (upd_inode (set_block (i_file_acl n) n) x = x) as Hsame by (unfold n; by destruct x as [[]]).
  destruct (i_file_acl n) as [bh|] eqn:Ebh; cbn [block_search] in *.
  - destruct Hbs as (Ebs & Hso & Hpl). pose proof Hso as (? & ? & ? & ? & _ & (_ & Ebase & _) & _).
    pose proof Hacl as [Hbb Hcs]. unfold modify_block. rewrite Ebase, Ebs.
    destruct (Z.eqb_spec (j_write_access j) 0) as [Hwr|Hwr]; cbn [negb]; cycle 1.
    { exists (inl (j_write_access j)), (Some bh). rewrite Hsame. split; [done|]. split; [done|]. left. eexists. split; [done|].
      split; [done|]. split; [|by left]. intros H. by destruct (Hwr (en_write _ _ _ _ _ H)). }
    destruct (read_refcount (working_io o) _ _ _ _ Hwork bh l Hacl) as [ref Eref]. rewrite (lift_step _ _ _ _ Eref).
    destruct ((ref =? 1) && _); cycle 1.
    { destruct (clone_any i (bs_s bs) x bh l A old B) as (res & -> & Hres); try done.
      exists res, (Some bh). by rewrite Hsame. }
    destruct (block_set_entry _ e _ blocksize bh0 Hwork i (bs_s bs) (b_data bh) l A old B) as (code & w & E & Hw); try done.
    rewrite (lift_step _ _ _ _ E). cbn [fmap list_fmap]. cbv beta iota. rewrite (st_bind_step _ _ x tt x) by apply log_nil_run.
    set (lw := if code =? 0 then A ++ one (i_key i) (new_value i) ++ B else l).
    assert (block_bytes blocksize w lw) as Hlw by (unfold lw; destruct Hw as [(-> & ? & _)|(-> & -> & _)]; done).
    destruct (csum_set_ok o blocksize (EaBlock w (b_blocknr bh) (b_verified bh)) lw (an_chksum _ _ _ _ _ Hany) Hlw) as (b' & Ec & Hb' & Enr).
    rewrite (lift_step _ _ _ _ Ec). unfold get. rewrite (st_bind_step _ _ x x x) by done. rewrite (st_bind_step _ _ _ _ _ (put_inode_run _ _)).
    fold n. destruct (Z.eqb_spec (if code =? 0 then j_dirty j else code) 0) as [Hz|Hz]; cbn [negb].
    + destruct Hw as [(-> & _)|(-> & _)]; [|done]. cbn [Z.eqb] in *.
      eexists _, (Some b'). split; [done|]. split; [cbn; by rewrite Enr|]. right. right. by exists b', (b_data b').
    + eexists _, (Some b'). split; [done|]. split; [cbn; by rewrite Enr|]. left. eexists. split; [done|]. split; [done|].
      destruct Hw as [(-> & _)|(-> & _ & Hv)]; cbn [Z.eqb] in *; [|split; [done|by left]].
      assert (¬ works) as Hnw by (intros H; by destruct (Hz (en_dirty _ _ _ _ _ H))). split; [done|]. right. by split.
  - destruct Hbs as (-> & -> & -> & -> & ->). destruct (j_kmalloc j) eqn:Hk; cycle 1.
    { unfold modify_block. cbn [bs_s bs_bh no_search s_base]. rewrite Hk. exists (inl (- ENOMEM)), None. rewrite Hsame. split; [done|]. split; [done|].
      left. eexists. split; [done|]. split; [done|]. split; [|by left]. intros H. by rewrite (en_kmalloc _ _ _ _ _ H) in Hk. }
    destruct (modify_block_repr _ e _ blocksize bh0 Hwork i (BlockFind no_search None) x [] [] None []) as (res & acl & E & Hnr & Hres); try done.
    { fold n. by rewrite Ebh. } { fold n. by rewrite Ebh. }
    exists res, acl. split; [|split; [by fold n in Hnr; rewrite Ebh in Hnr|]].
    + fold n in E. rewrite <-E. unfold modify_block. cbn [bs_s bs_bh no_search s_base]. by rewrite Hk.
    + fold n in Hres. rewrite Ebh in Hres. destruct Hres as [(-> & Hv & Ha)|[?|?]]; [left|right; by left|by right; right].
      exists (- ENOSPC). split_and!; try done. by left.
Qed.

(** The block that the inode is to use, or an error that is not the caller's. *)
Definition inserted (l : list (Z * bytes * bytes)) (res : Z + option ea_block) : Prop :=
  match res with
  | inr acl => acl_repr o blocksize acl l
  | inl code => code ≠ 0 ∧ ¬ works
  end.

Lemma write_new_any w x l : block_bytes blocksize w l →
  ∃ ops res, write_new_block o j w None x = Some ((res, None), add_log ops x) ∧ inserted l res.
Proof.
  intros Hw. unfold write_new_block. destruct (j_new_block j) as [code|nr] eqn:En.
  { exists [], (inl code). rewrite add_log_nil. split; [done|]. split; [by apply (an_new _ _ _ _ _ Hany)|].
    intros H. destruct (en_new _ _ _ _ _ H) as [nr E]. congruence. }
  rewrite (st_bind_step _ _ _ _ _ (log_run _ _)). destruct (j_getblk j) eqn:Eg; cbn [negb]; cycle 1.
  { rewrite (st_bind_step _ _ _ _ _ (log_run _ _)), add_log_app. eexists _, (inl (- ENOMEM)). split; [done|]. split; [done|].
    intros H. by rewrite (en_getblk _ _ _ _ _ H) in Eg. }
  destruct (Z.eqb_spec (j_inc_ref_all j) 0) as [Ei|Ei]; cbn [negb]; cycle 1.
  { rewrite (st_bind_step _ _ _ _ _ (log_run _ _)), add_log_app. eexists _, (inl (j_inc_ref_all j)). split; [done|]. split; [done|].
    intros H. by destruct (Ei (en_inc _ _ _ _ _ H)). }
  set (x1 := add_log [OpNewBlock nr] x). rewrite (st_bind_step _ _ x1 tt x1) by done.
  destruct (Z.eqb_spec (j_create_access j) 0) as [Ec|Ec]; cbn [negb]; cycle 1.
  { rewrite (st_bind_step _ _ _ _ _ (log_run _ _)). unfold x1. rewrite add_log_app. eexists _, (inl (- EIO)). split; [done|]. split; [done|].
    intros H. by destruct (Ec (en_create _ _ _ _ _ H)). }
  destruct (csum_set_ok o blocksize (EaBlock w nr false) l (an_chksum _ _ _ _ _ Hany) Hw) as (b & Eb & Hb & _).
  rewrite (lift_step _ _ _ _ Eb). destruct (Z.eqb_spec (j_new_dirty j) 0) as [Ed|Ed]; cbn [negb].
  - by eexists _, (inr (Some b)).
  - eexists _, (inl (j_new_dirty j)). split; [done|]. split; [done|]. intros H. by destruct (Ed (en_new_dirty _ _ _ _ _ H)).
Qed.

Lemma insert_none_any w bh in_place x l : block_bytes blocksize w l → own_block o blocksize bh0 bh in_place l →
  ∃ ops res, (if in_place then mret (inr bh, None) else write_new_block o j w None) x =
    Some ((res, None : option Z), add_log ops x) ∧ inserted l res.
Proof.
  intros Hw Hown. destruct in_place; [|by apply write_new_any].
  exists [], (inr bh). rewrite add_log_nil. split; [done|]. by destruct Hown as (b & -> & ?).
Qed.

Lemma share_any turn nb l lookups w bh in_place x : block_repr o blocksize nb l →
  (∀ x, ∃ ops res, insert_block o j lookups bh BFIRST in_place w None x = Some ((res, None), add_log ops x) ∧ inserted l res) →
  ∃ ops res, (if negb (j_alloc_block j turn =? 0) then mret (inl (j_alloc_block j turn), None)
    else
      log [OpAllocBlock] ;;
      if negb (j_share_access j turn =? 0) then log [OpFreeBlockQuota] ;; mret (inl (j_share_access j turn), None)
      else
        ref ← lift (rd32 (b_data nb) H_REFCOUNT);
        let ref := u32 (ref + 1) in
        if EXT4_XATTR_REFCOUNT_MAX <? ref then log [OpFreeBlockQuota] ;; insert_block o j lookups bh BFIRST in_place w None
        else
          r ← lift (wr 4 (b_data nb) H_REFCOUNT ref);
          nb ← lift (ext4_xattr_block_csum_set o (EaBlock r (b_blocknr nb) (b_verified nb)));
          log [OpShare nb] ;;
          if negb (j_share_dirty j =? 0) then log [OpFreeBlockQuota] ;; mret (inl (j_share_dirty j), None)
          else mret (inr (Some nb), None)) x = Some ((res, None : option Z), add_log ops x) ∧ inserted l res.
Proof.
  intros Hnb IH. destruct (Z.eqb_spec (j_alloc_block j turn) 0) as [Ea|Ea]; cbn [negb]; cycle 1.
  { exists [], (inl (j_alloc_block j turn)). rewrite add_log_nil. split; [done|]. split; [done|].
    intros H. by destruct (Ea (en_alloc _ _ _ _ _ H _)). }
  rewrite (st_bind_step _ _ _ _ _ (log_run _ _)). destruct (Z.eqb_spec (j_share_access j turn) 0) as [Ew|Ew]; cbn [negb]; cycle 1.
  { rewrite (st_bind_step _ _ _ _ _ (log_run _ _)), add_log_app. eexists _, (inl (j_share_access j turn)). split; [done|]. split; [done|].
    intros H. by destruct (Ew (en_share_access _ _ _ _ _ H _)). }
  destruct (read_refcount (working_io o) _ _ _ _ Hwork nb l Hnb) as [ref Er]. rewrite (lift_step _ _ _ _ Er). cbv zeta.
  destruct (EXT4_XATTR_REFCOUNT_MAX <? u32 (ref + 1)).
  { rewrite (st_bind_step _ _ _ _ _ (log_run _ _)), add_log_app.
    destruct (IH (add_log ([OpAllocBlock] ++ [OpFreeBlockQuota]) x)) as (ops & res & E & Hres). rewrite E, add_log_app. by eexists _, _. }
  destruct (share_block (working_io o) _ _ _ _ Hwork nb l (u32 (ref + 1)) Hnb) as (r & nb' & E1 & E2 & Hnb').
  rewrite (lift_step _ _ _ _ E1), (lift_step _ _ _ _ E2), (st_bind_step _ _ _ _ _ (log_run _ _)), add_log_app.
  destruct (Z.eqb_spec (j_share_dirty j) 0) as [Ed|Ed]; cbn [negb]; [by eexists _, (inr (Some nb'))|].
  rewrite (st_bind_step _ _ _ _ _ (log_run _ _)), add_log_app. eexists _, (inl (j_share_dirty j)). split; [done|]. split; [done|].
  intros H. by destruct (Ed (en_share_dirty _ _ _ _ _ H)).
Qed.

Lemma insert_any lookups bh in_place w x l :
  Forall (lookup_ok o blocksize bh0) lookups → block_bytes blocksize w l → own_block o blocksize bh0 bh in_place l →
  ∃ ops res, insert_block o j lookups bh BFIRST in_place w None x = Some ((res, None), add_log ops x) ∧ inserted l res.
Proof.
  intros Hlk Hw Hown. revert x. induction lookups as [|found lookups IH] in Hlk |- *; intros x; cbn [insert_block];
    pose proof Hw as ((es & e_end & Hreg & Hes) & _); unfold BFIRST;
    rewrite (lift_step _ _ _ _ (last_attrs _ _ _ _ _ Hreg)), Hes;
    (destruct l as [|a l]; [exists [], (inr None); by rewrite add_log_nil|]); cbn [head default id].
  - destruct (cache_find_ok o blocksize bh0 j w (a :: l) [] Hw) as (res & E & Hr); [by intros ? ?%not_elem_of_nil|].
    rewrite (lift_step _ _ _ _ E). destruct res as [nb|]; [destruct (Hr nb eq_refl) as [_ Hin]; by apply not_elem_of_nil in Hin|].
    by apply insert_none_any.
  - apply Forall_cons in Hlk as [Hfound Hlk].
    destruct (cache_find_ok o blocksize bh0 j w (a :: l) found Hw Hfound) as (res & E & Hr). rewrite (lift_step _ _ _ _ E).
    destruct res as [nb|]; [|by apply insert_none_any]. destruct (Hr nb eq_refl) as [Hnb Hin]. case_bool_decide as Hnr.
    { exists [], (inr bh). rewrite add_log_nil. split; [done|]. exact (own_block_found (working_io o) _ _ _ _ Hwork bh in_place (a :: l) nb found Hown Hfound Hin Hnb Hnr). }
    apply (share_any (S (length lookups)) nb (a :: l) lookups w bh in_place x Hnb). intros x'. by apply IH.
Qed.

Lemma release_any b x l : block_repr o blocksize b l → ∃ ops, ext4_xattr_release_block o e j b x = Some (tt, add_log ops x).
Proof.
  intros Hb. unfold ext4_xattr_release_block. destruct (j_release_access j =? 0); cbn [negb]; [|exists []; by rewrite add_log_nil].
  destruct (read_refcount (working_io o) _ _ _ _ Hwork b l Hb) as [ref Eref]. rewrite (lift_step _ _ _ _ Eref).
  destruct (ref =? 1); [by eexists|].
  destruct (share_block (working_io o) _ _ _ _ Hwork b l (u32 (ref - 1)) Hb) as (r & b' & E1 & E2 & _).
  rewrite (lift_step _ _ _ _ E1), (lift_step _ _ _ _ E2). by eexists.
Qed.

(** What a failing call leaves in the block: what was there, or, when it is not
    the room that was missing, what was to be there. *)
Definition block_outcome (i : ext4_xattr_info) (l l' : list (Z * bytes * bytes)) (code : Z) (acl : option ea_block) : Prop :=
  (code = 0 ∧ acl_repr o blocksize acl l') ∨
  (code ≠ 0 ∧ (works → code = - ENOSPC ∧ i_value i ≠ None) ∧
     (acl_repr o blocksize acl l ∨ (acl_repr o blocksize acl l' ∧ ¬ works))).

Lemma block_set_any i bs x l A old B :
  info_ok i → acl_repr o blocksize (i_file_acl (sx_inode x)) l → bh0 = i_file_acl (sx_inode x) →
  block_search (i_file_acl (sx_inode x)) i bs l A old B → (i_value i = None → old ≠ None) →
  ∃ code acl ops, ext4_xattr_block_set o e j blocksize i bs x =
      Some (code, add_log ops (upd_inode (set_block acl (sx_inode x)) x)) ∧
    block_outcome i l (A ++ one (i_key i) (new_value i) ++ B) code acl.
Proof.
  intros Hinfo Hacl Hbh Hbs Hrem.
  destruct (modify_any i bs x l A old B Hinfo Hacl Hbs Hrem) as (res & acl & E & Hnr & Hres).
  set (l' := A ++ _) in *. unfold ext4_xattr_block_set. rewrite (st_bind_step _ _ _ _ _ E).
  destruct Hres as [(code & -> & Hc & Hw & Ha)|Hres].
  { exists code, acl, []. rewrite add_log_nil. split; [done|]. by right. }
  assert (∃ ip w, res = inr (BlockBuild ip w 0 None) ∧ block_bytes blocksize w l' ∧ own_block o blocksize bh0 acl ip l' ∧
    acl_repr o blocksize acl (if ip then l' else l)) as (ip & w & -> & Hw & Hown & Hl1).
  { destruct Hres as [(w & -> & Hw & ->)|(b & w & -> & -> & Hd & Hb)].
    - exists false, w. split_and!; try done. split; [done|by exists l].
    - exists true, w. split_and!; try done; [subst w; apply Hb|by exists b]. }
  set (x1 := upd_inode _ x). unfold get. rewrite (st_bind_step _ _ x1 x1 x1) by done.
  assert ((match bs_bh bs with Some _ => i_file_acl (sx_inode x1) | None => None end) = acl) as Eacl.
  { unfold block_search in Hbs. destruct (i_file_acl (sx_inode x)); [by destruct Hbs as (-> & _)|].
    destruct Hbs as (-> & _). by destruct acl. }
  rewrite Eacl. destruct (insert_any (j_lookups j) acl ip w x1 l' (an_lookups _ _ _ _ _ Hany) Hw Hown) as (ops & res & E2 & Hres').
  rewrite (st_bind_step _ _ _ _ _ E2). destruct res as [code|acl'].
  { destruct Hres' as [Hc Hnw]. exists code, acl, ops. split; [done|]. right. split; [done|]. split; [done|]. destruct ip; [right|left]; done. }
  cbn [Z.eqb negb]. set (x2 := add_log ops x1) in *. unfold mret at 1, st_ret. rewrite (st_bind_step _ _ x2 tt x2) by done.
  rewrite (st_bind_step _ _ x2 x2 x2) by done. rewrite (st_bind_step _ _ _ _ _ (put_inode_run _ _)).
  set (x3 := upd_inode _ x2).
  assert (∃ ops', (match acl with
    | Some b => if bool_decide (b_blocknr <$> acl = b_blocknr <$> acl') then mret tt else ext4_xattr_release_block o e j b
    | None => mret tt end) x3 = Some (tt, add_log ops' x3)) as [ops' E3].
  { destruct acl as [b|]; [|exists []; by rewrite add_log_nil]. case_bool_decide; [exists []; by rewrite add_log_nil|].
    by eapply release_any. }
  rewrite (st_bind_step _ _ _ _ _ E3). exists 0, acl', (ops ++ ops'). split; [|by left].
  unfold cleanup_block, x3, x2, x1. destruct x. unfold add_log, upd_inode. cbn. rewrite <-app_assoc. done.
Qed.

(** Reading the block may fail, too. *)
Lemma block_find_any i x l : acl_repr o blocksize (i_file_acl (sx_inode x)) l →
  ∃ code bs acl, ext4_xattr_block_find o i x = Some ((code, bs), upd_inode (set_block acl (sx_inode x)) x) ∧
    acl_repr o blocksize acl l ∧ (b_blocknr <$> acl) = b_blocknr <$> i_file_acl (sx_inode x) ∧
    (works → code = 0) ∧ (code = 0 → ∃ A old B, block_search acl i bs l A old B).
Proof.
  intros Hacl. destruct (decide (io_bread o ≠ 0 ∧ is_Some (i_file_acl (sx_inode x)))) as [[Hb [b Eb]]|Hb].
  - exists (io_bread o), (BlockFind no_search None), (i_file_acl (sx_inode x)).
    assert (upd_inode (set_block (i_file_acl (sx_inode x)) (sx_inode x)) x = x) as -> by (by destruct x as [[]]).
    unfold ext4_xattr_block_find, get. rewrite (st_bind_step _ _ x x x) by done. rewrite Eb. rewrite (proj2 (Z.eqb_neq _ _)) by done.
    split; [done|]. rewrite Eb in Hacl. split_and!; try done. intros H. by destruct (Hb (en_bread _ _ _ _ _ H)).
  - assert (ext4_xattr_block_find o i x = ext4_xattr_block_find (working_io o) i x) as ->.
    { unfold ext4_xattr_block_find, get. rewrite !(st_bind_step _ _ x x x) by done. destruct (i_file_acl (sx_inode x)); [|done].
      destruct (decide (io_bread o = 0)) as [->|]; [done|]. destruct Hb. by split. }
    destruct (block_find_repr (working_io o) blocksize i x l eq_refl Hacl) as (bs & acl & E & Ha & Hn & _ & Hs).
    exists 0, bs, acl. by split_and!.
Qed.

Lemma get_block_any x l : acl_repr o blocksize (i_file_acl (sx_inode x)) l →
  ∃ res acl, ext4_xattr_get_block o x = Some (res, upd_inode (set_block acl (sx_inode x)) x) ∧
    acl_repr o blocksize acl l ∧ (b_blocknr <$> acl) = b_blocknr <$> i_file_acl (sx_inode x) ∧
    match res with inl code => code ≠ 0 | inr b => b = acl end.
Proof.
  intros Hacl. destruct (decide (io_bread o ≠ 0 ∧ is_Some (i_file_acl (sx_inode x)))) as [[Hb [b Eb]]|Hb].
  - exists (inl (io_bread o)), (i_file_acl (sx_inode x)).
    assert (upd_inode (set_block (i_file_acl (sx_inode x)) (sx_inode x)) x = x) as -> by (by destruct x as [[]]).
    unfold ext4_xattr_get_block, get. rewrite (st_bind_step _ _ x x x) by done. rewrite Eb. rewrite (proj2 (Z.eqb_neq _ _)) by done.
    split; [done|]. by rewrite Eb in Hacl.
  - assert (ext4_xattr_get_block o x = ext4_xattr_get_block (working_io o) x) as ->.
    { unfold ext4_xattr_get_block, get. rewrite !(st_bind_step _ _ x x x) by done. destruct (i_file_acl (sx_inode x)); [|done].
      destruct (decide (io_bread o = 0)) as [->|]; [done|]. destruct Hb. by split. }
    destruct (get_block_repr (working_io o) blocksize x l eq_refl Hacl) as (acl & E & Ha & Hn & _).
    by exists (inr acl), acl.
Qed.

End block.

(** ** A call *)

Definition first_of (v1 v2 : option bytes) : option bytes := match v1 with Some v => Some v | None => v2 end.

Section call.
Context (o : io) (e : ea_io) (j : journal) (blocksize : Z) (i : ext4_xattr_info) (l1 l2 : list (Z * bytes * bytes)).
Hypothesis (Hinfo : info_ok i).

Let k := i_key i.

(** What a call that answers [code] leaves: the other attributes are where they
    were; when the name was not in both places, it reads as before or has the new
    value, and when the call answers 0 it has the new value, in one place. *)
Definition contained (code : Z) (n' : ext4_inode) : Prop :=
  ∃ l1' l2', inode_parts o blocksize n' l1' l2' ∧
    (∀ k', k' ≠ k → afind k' l1' = afind k' l1 ∧ afind k' l2' = afind k' l2) ∧
    (apart l1 l2 → (code = 0 → apart l1' l2' ∧ afind k (l1' ++ l2') = new_value i) ∧
       (afind k (l1' ++ l2') = afind k (l1 ++ l2) ∨ afind k (l1' ++ l2') = new_value i)).

Lemma set_to_find l : set_to k (afind k l) l l.
Proof. intros k'. by case_decide; [subst|]. Qed.

Lemma contained_intro n' l1' l2' v1 v2 code : inode_parts o blocksize n' l1' l2' → set_to k v1 l1 l1' → set_to k v2 l2 l2' →
  (apart l1 l2 → (code = 0 → (v1 = None ∨ v2 = None) ∧ first_of v1 v2 = new_value i) ∧
    (first_of v1 v2 = first_of (afind k l1) (afind k l2) ∨ first_of v1 v2 = new_value i)) → contained code n'.
Proof.
  intros Hp H1 H2 Hap. exists l1', l2'. split; [done|]. split.
  { intros k' Hk. by rewrite H1, H2, !decide_False. }
  intros Ha. destruct (Hap Ha) as [H0 H]. rewrite !afind_app, H1, H2, !decide_True by done. split; [|exact H].
  intros Hc. destruct (H0 Hc) as [Hv Hn]. split; [|exact Hn]. intros k'. rewrite H1, H2. case_decide; [done|apply Ha].
Qed.

Lemma contained_code c c' n' : contained c n' → (c' = 0 → c = 0) → contained c' n'.
Proof.
  intros (l1' & l2' & Hp & Hk & Ha) Hc. exists l1', l2'. split; [done|]. split; [done|]. intros H. destruct (Ha H) as [H0 H1].
  split; [|done]. intros ?. by apply H0, Hc.
Qed.

Lemma contained_same code n' : inode_parts o blocksize n' l1 l2 → (code = 0 → afind k (l1 ++ l2) = new_value i) → contained code n'.
Proof.
  intros Hp Hc. exists l1, l2. split; [done|]. split; [done|]. intros Ha. split; [|by left]. intros H. split; [done|by apply Hc].
Qed.

Section change.
Context (x : store) (A1 B1 A2 B2 : list (Z * bytes * bytes)) (old1 old2 : option bytes).
Context (ibs : ext4_xattr_search) (bs : ext4_xattr_block_find_t).
Let n := sx_inode x.
Hypothesis (Hparts : inode_parts o blocksize n l1 l2).
Hypothesis (Hany : env_any o e j blocksize (i_file_acl n)).
Hypothesis (Hibs : if EXT4_INODE_HAS_XATTR_SPACE n then search_ok (raw_inode n) (IFIRST n) (IFIRST n) i ibs l1 A1 old1 B1
                   else old1 = None ∧ l1 = []).
Hypothesis (Hfound : found ibs = match old1 with Some _ => true | None => false end).
Hypothesis (Hbs : bs_state (i_file_acl n) i bs l2 A2 old2 B2 (found ibs)).

Lemma in_body : afind k l1 = old1.
Proof.
  destruct (EXT4_INODE_HAS_XATTR_SPACE n); [|by destruct Hibs as [-> ->]].
  destruct Hibs as (? & ? & ? & ? & _ & _ & Hs & _). by eapply split_at_find.
Qed.

Lemma body_space : found ibs = true → EXT4_INODE_HAS_XATTR_SPACE n = true.
Proof. rewrite Hfound. destruct (EXT4_INODE_HAS_XATTR_SPACE n); [done|]. by destruct Hibs as [-> _]. Qed.

Lemma searched : found ibs = false → block_search (i_file_acl n) i bs l2 A2 old2 B2 ∧ afind k l2 = old2 ∧
  found (bs_s bs) = match old2 with Some _ => true | None => false end.
Proof.
  intros Hf. pose proof Hbs as H. unfold bs_state in H. rewrite Hf in H. split; [done|]. split.
  - exact (split_at_find _ _ _ _ _ (block_search_split _ _ _ _ _ _ _ H)).
  - by eapply block_search_found.
Qed.

Lemma with_acl n1 acl l1' l2' : inode_ok n1 → ibody_repr n1 l1' → acl_repr o blocksize acl l2' →
  inode_parts o blocksize (set_block acl n1) l1' l2'.
Proof.
  intros Hok Hb Ha. split; [|exact Hb|exact Ha]. eapply acl_inode_ok; [done|done|].
  by destruct (an_blocksize _ _ _ _ _ Hany) as [_ [? _]].
Qed.

(** The value is in the inode now: remove it from the block. *)
Lemma after_body_any n1 l1' : i_value i ≠ None → inode_ok n1 → i_file_acl n1 = i_file_acl n → ibody_repr n1 l1' →
  set_to k (new_value i) l1 l1' →
  ∃ code n' ops, (if (0 =? 0) && found (bs_s bs)
     then error ← ext4_xattr_block_set o e j blocksize (with_value None i) bs; mret (inr error : Z + Z)
     else mret (inr 0)) (upd_inode n1 x) = Some (inr code, add_log ops (upd_inode n' x)) ∧ contained code n'.
Proof.
  intros Hval Hok Hacl Hb1 Hs1. pose proof in_body as Hbo. pose proof searched as Hse. pose proof Hbs as Hbs'. unfold bs_state in Hbs'.
  pose proof (ip_acl _ _ _ _ _ Hparts) as Ha2. fold n in Ha2.
  assert (∃ v, new_value i = Some v) as [v Hv] by (unfold new_value; destruct (i_value i); [by eexists|done]).
  cbn [Z.eqb andb]. destruct (found (bs_s bs)) eqn:Hf; cycle 1.
  { exists 0, n1, []. rewrite add_log_nil. split; [done|]. apply (contained_intro n1 l1' l2 (new_value i) (afind k l2)); [|done|apply set_to_find|].
    - split; [done|done|by rewrite Hacl].
    - rewrite Hv. intros Hap. split; [|by right]. intros _. split; [|done]. right. destruct (found ibs) eqn:Hfi.
      + destruct (Hap k) as [H|]; [|done]. rewrite Hbo in H. by rewrite H in Hfound.
      + destruct (Hse eq_refl) as (_ & -> & H). by destruct old2. }
  destruct (found ibs) eqn:Hfi; [by destruct Hbs' as [-> _]|].
  destruct (Hse eq_refl) as (Hs & Ho & Hf2).
  destruct (block_set_any o e j blocksize (i_file_acl n) Hany (with_value None i) bs (upd_inode n1 x) l2 A2 old2 B2)
    as (code & acl & ops & E & Hres); try (by cbn; rewrite ?Hacl). { by destruct Hinfo. } { intros _ ->. done. }
  rewrite (st_bind_step _ _ _ _ _ E). exists code, (set_block acl n1), ops. split; [done|].
  cbn [new_value with_value i_value fmap option_fmap option_map] in Hres.
  assert (set_to k None l2 (A2 ++ one k None ++ B2)) as Hs2.
  { apply split_set_to with old2. by apply (block_search_split (i_file_acl n) i bs). }
  destruct Hres as [(-> & Ha)|(Hc & _ & [Ha|[Ha _]])].
  - eapply (contained_intro _ l1' _ (new_value i) None); [by apply with_acl|done|exact Hs2|]. intros _. split; [|by right; rewrite Hv].
    intros _. split; [by right|by rewrite Hv].
  - eapply (contained_intro _ l1' l2 (new_value i) (afind k l2)); [by apply with_acl|done|apply set_to_find|]. intros _.
    split; [done|]. right. by rewrite Hv.
  - eapply (contained_intro _ l1' _ (new_value i) None); [by apply with_acl|done|exact Hs2|]. intros _. split; [done|]. right. by rewrite Hv.
Qed.

(** Before the block is used it is searched, unless it was. *)
Lemma search_again_any :
  ∃ code bs' acl, (match i_file_acl (sx_inode x), s_base (bs_s bs) with
     | Some _, None => ext4_xattr_block_find o i
     | _, _ => mret (0, bs) end) x = Some ((code, bs'), upd_inode (set_block acl n) x) ∧
    acl_repr o blocksize acl l2 ∧ (b_blocknr <$> acl) = b_blocknr <$> i_file_acl n ∧
    (code = 0 → ∃ A old B, block_search acl i bs' l2 A old B).
Proof.
  pose proof (ip_acl _ _ _ _ _ Hparts) as Ha2. fold n in Ha2.
  assert (upd_inode (set_block (i_file_acl n) n) x = x) as Hsame by (unfold n; by destruct x as [[]]).
  pose proof Hbs as Hb. unfold bs_state in Hb. fold n.
  destruct (option_cases (i_file_acl n)) as [Hacl|[b Hacl]]; rewrite Hacl in Ha2, Hb, Hsame |- *.
  - exists 0, bs, None. rewrite Hsame. split_and!; try done. intros _. exists (if found ibs then [] else A2), (if found ibs then None else old2), (if found ibs then [] else B2).
    destruct (found ibs); [|done]. destruct Hb as [-> _]. cbn in Ha2. by rewrite Ha2.
  - destruct (found ibs).
    + destruct Hb as [-> _]. cbn [bs_s no_search s_base].
      destruct (block_find_any o e j blocksize (i_file_acl n) i x l2) as (code & bs' & acl & E & Ha & Hn & _ & Hs).
      { fold n. by rewrite Hacl. }
      exists code, bs', acl. fold n in E, Hn. by rewrite Hacl in Hn.
    + pose proof Hb as (_ & (? & ? & ? & ? & _ & (_ & -> & _) & _) & _).
      exists 0, bs, (Some b). rewrite Hsame. split_and!; try done. intros _. by exists A2, old2, B2.
Qed.

(** The value did not fit into the inode. *)
Lemma after_nospace_any (retry : ext4_xattr_block_find_t → st store (Z + Z)) : i_value i ≠ None →
  ∃ res n' ops, (x0 ← get;
     again ← (match i_file_acl (sx_inode x0), s_base (bs_s bs) with
              | Some _, None => ext4_xattr_block_find o i
              | _, _ => mret (0, bs) end);
     let '(error, bs) := again in
     if negb (error =? 0) then mret (inl error)
     else
       error ← ext4_xattr_block_set o e j blocksize i bs;
       if (error =? 0) && found ibs then
         error ← ext4_xattr_ibody_set e blocksize (with_value None i) ibs; mret (inr error)
       else if (error =? - ENOSPC) && ea_feature e && negb (i_value_len i =? 0) && negb (i_in_inode i)
       then retry bs
       else mret (inr error)) x = Some (res, add_log ops (upd_inode n' x)) ∧
    match res with inl code => code ≠ 0 ∧ contained code n' | inr code => contained code n' end.
Proof.
  intros Hval. pose proof in_body as Hbo. pose proof body_space as Hspace. pose proof Hparts as [Hok Hb1 Ha2]. fold n in Hok, Hb1, Ha2.
  assert (∃ v, new_value i = Some v) as [v Hv] by (unfold new_value; destruct (i_value i); [by eexists|done]).
  destruct search_again_any as (code & bs' & acl & E & Ha & Hn & Hs).
  unfold get. rewrite (st_bind_step _ _ x x x) by done. rewrite (st_bind_step _ _ _ _ _ E).
  destruct (Z.eqb_spec code 0) as [->|Hc]; cbn [negb]; cycle 1.
  { exists (inl code), (set_block acl n), []. rewrite add_log_nil. split; [done|]. split; [done|].
    by apply contained_same; [apply with_acl|]. }
  destruct (Hs eq_refl) as (A & old & B & Hs').
  pose proof (env_any_acl o e j blocksize _ acl l2 Hany Hn Ha2 Ha) as Hany'.
  destruct (block_set_any o e j blocksize acl Hany' i bs' (upd_inode (set_block acl n) x) l2 A old B)
    as (code & acl' & ops & E2 & Hres); try done.
  rewrite (st_bind_step _ _ _ _ _ E2). rewrite (an_feature _ _ _ _ _ Hany), andb_false_r. cbn [andb].
  assert (set_to k (new_value i) l2 (A ++ one k (new_value i) ++ B)) as Hs2.
  { apply split_set_to with old. by apply (block_search_split acl i bs'). }
  destruct Hres as [(-> & Ha')|(Hc & _ & Hl)]; cbn [Z.eqb andb]; cycle 1.
  { rewrite (proj2 (Z.eqb_neq _ _)) by done. cbn [andb]. exists (inr code), (set_block acl' n), ops. split; [done|].
    destruct Hl as [Ha'|[Ha' _]]; [by apply contained_same; [apply with_acl|]|].
    apply (contained_intro _ l1 (A ++ one k (new_value i) ++ B) (afind k l1) (new_value i)); [by apply with_acl|apply set_to_find|exact Hs2|].
    intros _. split; [done|]. destruct (afind k l1); [by left|by right]. }
  destruct (found ibs) eqn:Hfi; cycle 1.
  { exists (inr 0), (set_block acl' n), ops. split; [done|].
    apply (contained_intro _ l1 (A ++ one k (new_value i) ++ B) (afind k l1) (new_value i)); [by apply with_acl|apply set_to_find|exact Hs2|].
    intros _. rewrite Hbo. destruct old1; [done|]. split; [|by right]. intros _. split; [by left|done]. }
  pose proof Hibs as Hibs'. rewrite Hspace in Hibs' by done. set (x2 := add_log ops _).
  destruct (ibody_set_any e blocksize (with_value None i) ibs x2 l1 A1 old1 B1) as (code & n' & E3 & Hok' & Hacl' & Hres).
  { by destruct Hinfo. } { apply (an_inline _ _ _ _ _ Hany). } { exact (ip_ok _ _ _ _ _ (with_acl n acl' l1 _ Hok Hb1 Ha')). } { exact Hb1. }
  { unfold x2. cbn [add_log upd_inode sx_inode set_block]. change (EXT4_INODE_HAS_XATTR_SPACE _) with (EXT4_INODE_HAS_XATTR_SPACE n).
    rewrite Hspace by done. exact Hibs'. } { by intros _ ->. }
  rewrite (st_bind_step _ _ _ _ _ E3). destruct Hres as [(-> & Hb' & Hsp)|(_ & _ & ?)]; [|done].
  exists (inr 0), n', ops. split; [done|].
  apply (contained_intro _ (A1 ++ one k None ++ B1) (A ++ one k (new_value i) ++ B) None (new_value i)); [|by apply split_set_to with old1|exact Hs2|].
  - split; [done|exact Hb'|by rewrite Hacl'].
  - intros _. split; [|by right]. intros _. by split; [left|].
Qed.

Lemma set_value_any turns : i_value i ≠ None →
  ∃ res n' ops, set_value (S turns) o e j blocksize i ibs bs x = Some (res, add_log ops (upd_inode n' x)) ∧
    match res with inl code => code ≠ 0 ∧ contained code n' | inr code => contained code n' end.
Proof.
  intros Hval. pose proof Hparts as [Hok Hb1 _].
  destruct (ibody_set_any e blocksize i ibs x l1 A1 old1 B1 Hinfo (an_inline _ _ _ _ _ Hany) Hok Hb1)
    as (code & n1 & E & Hok1 & Hacl1 & Hres); [|done|].
  { fold n. by destruct (EXT4_INODE_HAS_XATTR_SPACE n). }
  cbn [set_value]. rewrite (st_bind_step _ _ _ _ _ E). destruct Hres as [(-> & Hb' & Hsp)|(-> & -> & _)].
  - destruct (after_body_any n1 _ Hval Hok1 Hacl1 Hb') as (code & n' & ops & E2 & Hc); [by apply split_set_to with old1|].
    exists (inr code), n', ops. split; [|done]. rewrite <-E2. done.
  - rewrite upd_inode_same. cbn [Z.eqb andb]. rewrite Z.eqb_refl.
    by apply (after_nospace_any (set_value turns o e j blocksize (with_in_inode true i) ibs)).
Qed.

(** The removal of an attribute that is there. *)
Lemma remove_any : i_value i = None → (old1 ≠ None ∨ old2 ≠ None) →
  ∃ code n' ops, (if found ibs then error ← ext4_xattr_ibody_set e blocksize i ibs; mret (inr error : Z + Z)
     else error ← ext4_xattr_block_set o e j blocksize i bs; mret (inr error)) x = Some (inr code, add_log ops (upd_inode n' x)) ∧
    contained code n'.
Proof.
  intros Hv Hrem. pose proof in_body as Hbo. pose proof body_space as Hspace. pose proof searched as Hse. pose proof Hparts as [Hok Hb1 Ha2].
  assert (new_value i = None) as Hnv by (unfold new_value; by rewrite Hv). destruct (found ibs) eqn:Hfi.
  - destruct (ibody_set_any e blocksize i ibs x l1 A1 old1 B1 Hinfo (an_inline _ _ _ _ _ Hany) Hok Hb1)
      as (code & n' & E & Hok' & Hacl' & Hres); [|by intros _ ->|].
    { fold n. pose proof Hibs as H. rewrite Hspace in H |- * by done. exact H. }
    rewrite (st_bind_step _ _ _ _ _ E). destruct Hres as [(-> & Hb' & Hsp)|(_ & _ & ?)]; [|done].
    exists 0, n', []. rewrite add_log_nil. split; [done|].
    apply (contained_intro _ (A1 ++ one k (new_value i) ++ B1) l2 (new_value i) (afind k l2)); [|by apply split_set_to with old1|apply set_to_find|].
    + split; [done|exact Hb'|by rewrite Hacl'].
    + intros Hap. rewrite Hnv. cbn [first_of]. assert (afind k l2 = None) as ->; [|by split; [intros _; split; [left|]|right]].
      destruct (Hap k) as [H|]; [|done]. rewrite Hbo in H. by rewrite H in Hfound.
  - destruct (Hse eq_refl) as (Hs & Ho & _). assert (old1 = None) as Ho1 by (by destruct old1).
    destruct (block_set_any o e j blocksize (i_file_acl n) Hany i bs x l2 A2 old2 B2 Hinfo Ha2 eq_refl Hs) as (code & acl & ops & E & Hres).
    { intros _. by destruct Hrem. }
    rewrite (st_bind_step _ _ _ _ _ E). exists code, (set_block acl n), ops. split; [done|].
    assert (set_to k (new_value i) l2 (A2 ++ one k (new_value i) ++ B2)) as Hs2.
    { apply split_set_to with old2. by apply (block_search_split (i_file_acl n) i bs). }
    assert (acl_repr o blocksize acl (A2 ++ one k (new_value i) ++ B2) → contained code (set_block acl n)) as Hdone.
    { intros Ha. apply (contained_intro _ l1 (A2 ++ one k (new_value i) ++ B2) (afind k l1) (new_value i)); [by apply with_acl|apply set_to_find|exact Hs2|].
      intros _. rewrite Hbo, Ho1. split; [|by right]. intros _. by split; [left|]. }
    destruct Hres as [(-> & Ha)|(Hc & _ & [Ha|[Ha _]])]; [by apply Hdone| |by apply Hdone].
    by apply contained_same; [apply with_acl|].
Qed.

End change.

Hypothesis (Hvalue : ∀ v, i_value i = Some v → ∃ b, v = ValueBytes b).

(** The state of a call that has not changed the attributes yet. *)
Definition call_any (x : store) : Prop :=
  inode_parts o blocksize (sx_inode x) l1 l2 ∧ env_any o e j blocksize (i_file_acl (sx_inode x)) ∧ sx_new x = false.

Lemma call_any_acl x acl : call_any x → acl_repr o blocksize acl l2 →
  (b_blocknr <$> acl) = b_blocknr <$> i_file_acl (sx_inode x) → call_any (upd_inode (set_block acl (sx_inode x)) x).
Proof.
  intros ([Hok Hb Ha2] & Hany & Hn) Ha Hnr. split; [by eapply with_acl|]. split; [by eapply env_any_acl|done].
Qed.

Section checked.
Context (x : store) (A1 B1 A2 B2 : list (Z * bytes * bytes)) (old1 old2 : option bytes).
Context (ibs : ext4_xattr_search) (bs : ext4_xattr_block_find_t) (flags : Z).
Hypothesis (Hx : call_any x).
Hypothesis (Hibs : if EXT4_INODE_HAS_XATTR_SPACE (sx_inode x)
  then search_ok (raw_inode (sx_inode x)) (IFIRST (sx_inode x)) (IFIRST (sx_inode x)) i ibs l1 A1 old1 B1
  else old1 = None ∧ l1 = []).
Hypothesis (Hfound : found ibs = match old1 with Some _ => true | None => false end).
Hypothesis (Hbs : bs_state (i_file_acl (sx_inode x)) i bs l2 A2 old2 B2 (found ibs)).

Hypothesis (Hfound2 : found (bs_s bs) = match old2 with Some _ => true | None => false end).
Hypothesis (Hold : afind k (l1 ++ l2) = first_of old1 old2).

Lemma finish_any : (i_value i = None → old1 ≠ None ∨ old2 ≠ None) →
  ∃ code clear x', (res ← (match i_value i with
     | None =>
         if found ibs then error ← ext4_xattr_ibody_set e blocksize i ibs; mret (inr error)
         else error ← ext4_xattr_block_set o e j blocksize i bs; mret (inr error)
     | Some _ =>
         set_value 1 o e j blocksize (with_in_inode (ea_feature e &&
           (EXT4_XATTR_MIN_LARGE_EA_SIZE blocksize <? EXT4_XATTR_SIZE 64 (i_value_len i))) i) ibs bs
     end);
     match res with
     | inl error => mret (error, false)
     | inr error =>
         if error =? 0 then
           error ← finish_set j;
           log [OpFcIneligible] ;;
           mret (error, match i_value i with None => true | Some _ => false end)
         else log [OpFcIneligible] ;; mret (error, false)
     end) x = Some ((code, clear) : Z * bool, x') ∧ contained code (sx_inode x') ∧ sx_new x' = false.
Proof.
  intros Hrem. pose proof Hx as (Hp & Hany & Hn).
  assert (∃ res n' ops, (match i_value i with
     | None =>
         if found ibs then error ← ext4_xattr_ibody_set e blocksize i ibs; mret (inr error)
         else error ← ext4_xattr_block_set o e j blocksize i bs; mret (inr error)
     | Some _ =>
         set_value 1 o e j blocksize (with_in_inode (ea_feature e &&
           (EXT4_XATTR_MIN_LARGE_EA_SIZE blocksize <? EXT4_XATTR_SIZE 64 (i_value_len i))) i) ibs bs
     end) x = Some (res, add_log ops (upd_inode n' x)) ∧
    match res with inl code => code ≠ 0 ∧ contained code n' | inr code => contained code n' end) as (res & n' & ops & E & Hres).
  { destruct (i_value i) as [v|] eqn:Hv; cycle 1.
    - destruct (remove_any x A1 B1 A2 B2 old1 old2 ibs bs Hp Hany Hibs Hfound Hbs Hv (Hrem eq_refl)) as (code & n' & ops & E & Hc).
      by exists (inr code), n', ops.
    - rewrite (an_feature _ _ _ _ _ Hany). cbn [andb].
      assert (with_in_inode false i = i) as -> by (rewrite <-(in_plain _ Hinfo); by destruct i).
      apply (set_value_any x A1 B1 A2 B2 old1 old2 ibs bs Hp Hany Hibs Hfound Hbs 0). by rewrite Hv. }
  rewrite (st_bind_step _ _ _ _ _ E). destruct res as [code|code].
  { exists code, false. eexists. split; [done|]. by destruct Hres. }
  destruct (Z.eqb_spec code 0) as [->|Hc].
  - unfold finish_set, modify, mbind, st_bind, mret, st_ret. destruct (j_sync j); rewrite ?log_run; eexists _, _, _; (split; [done|]); (split; [|done]);
      by eapply contained_code.
  - unfold mbind, st_bind, mret, st_ret. rewrite log_run. eexists _, _, _. split; [done|]. by split.
Qed.

Lemma set_checked_any :
  ∃ code clear x', set_checked o e j blocksize i flags ibs bs x = Some ((code, clear), x') ∧
    contained code (sx_inode x') ∧ sx_new x' = false.
Proof.
  pose proof Hx as (Hp & Hany & Hn).
  destruct (same_repr i l1 l2 Hinfo Hvalue (sx_inode x) ibs bs A1 B1 A2 B2 old1 old2 Hibs Hfound Hbs Hfound2) as (b & Eb & Hb).
  unfold set_checked. destruct (_ && negb (Z.land flags XATTR_REPLACE =? 0)).
  { exists (- ENODATA), false, x. split; [done|]. split; [|done]. by apply contained_same. }
  destruct (negb (found ibs) && negb (found (bs_s bs)) && _) eqn:Enone.
  { exists 0, false, x. split; [done|]. split; [|done]. apply contained_same; [done|]. intros _. rewrite Hold.
    rewrite Hfound, Hfound2, !andb_true_iff, !negb_true_iff in Enone. destruct Enone as [[H1 H2] H3]. destruct old1, old2; try done.
    unfold new_value. by destruct (i_value i). }
  destruct (_ && negb (Z.land flags XATTR_CREATE =? 0)).
  { exists (- EEXIST), false, x. split; [done|]. split; [|done]. by apply contained_same. }
  unfold get. rewrite (st_bind_step _ _ x x x) by done. rewrite (lift_step _ _ _ _ Eb). destruct b.
  { exists 0, false, x. split; [done|]. split; [|done]. apply contained_same; [done|]. intros _. rewrite Hold. by apply Hb. }
  apply finish_any. intros Hv. rewrite Hv, andb_true_r, Hfound, Hfound2 in Enone. destruct old1; [by left|]. destruct old2; [by right|done].
Qed.

End checked.

(** The two searches of a call; the second may be refused. *)
Lemma searches_any x : call_any x →
  ∃ ibs code bs acl A1 old1 B1, ext4_xattr_ibody_find (sx_inode x) i = Some (0, ibs) ∧
    (if found ibs then mret (0, BlockFind no_search None) else ext4_xattr_block_find o i) x =
      Some ((code, bs), upd_inode (set_block acl (sx_inode x)) x) ∧
    call_any (upd_inode (set_block acl (sx_inode x)) x) ∧
    (if EXT4_INODE_HAS_XATTR_SPACE (sx_inode x)
     then search_ok (raw_inode (sx_inode x)) (IFIRST (sx_inode x)) (IFIRST (sx_inode x)) i ibs l1 A1 old1 B1
     else old1 = None ∧ l1 = []) ∧
    found ibs = (match old1 with Some _ => true | None => false end) ∧
    (code = 0 → ∃ A2 old2 B2, bs_state acl i bs l2 A2 old2 B2 (found ibs) ∧
       found (bs_s bs) = (match old2 with Some _ => true | None => false end) ∧ afind k (l1 ++ l2) = first_of old1 old2).
Proof.
  intros Hx. pose proof Hx as ([Hok Hb1 Ha2] & He & Hn).
  destruct (ibody_find_repr (sx_inode x) i l1 Hok Hb1) as (ibs & E1 & Hf & Hs).
  assert (∃ A1 old1 B1, (if EXT4_INODE_HAS_XATTR_SPACE (sx_inode x)
     then search_ok (raw_inode (sx_inode x)) (IFIRST (sx_inode x)) (IFIRST (sx_inode x)) i ibs l1 A1 old1 B1
     else old1 = None ∧ l1 = []) ∧ afind k l1 = old1) as (A1 & old1 & B1 & Hs1 & Ho1).
  { destruct (EXT4_INODE_HAS_XATTR_SPACE (sx_inode x)).
    - destruct Hs as (A & old & B & Hs). exists A, old, B. split; [done|].
      destruct Hs as (? & ? & ? & ? & _ & _ & Hsp & _). by eapply split_at_find.
    - destruct Hs as [-> ->]. by exists [], None, []. }
  assert (found ibs = match old1 with Some _ => true | None => false end) as Hf1.
  { fold k in Hf. rewrite Ho1 in Hf. destruct old1; [by apply Hf|]. destruct (found ibs); [|done]. by destruct Hf as [[? ?] _]. }
  rewrite afind_app, Ho1. destruct (found ibs) eqn:Hfi.
  - exists ibs, 0, (BlockFind no_search None), (i_file_acl (sx_inode x)), A1, old1, B1.
    assert (upd_inode (set_block (i_file_acl (sx_inode x)) (sx_inode x)) x = x) as -> by (by destruct x as [[]]).
    rewrite Hfi. split_and!; try done. intros _. exists [], None, []. split; [done|]. split; [done|]. by destruct old1.
  - destruct (block_find_any o e j blocksize (i_file_acl (sx_inode x)) i x l2 Ha2) as (code & bs & acl & E2 & Ha & Hnr & _ & Hc).
    exists ibs, code, bs, acl, A1, old1, B1. rewrite Hfi. split_and!; try done; [by apply call_any_acl|]. intros Hc0. destruct (Hc Hc0) as (A2 & old2 & B2 & Hs2).
    exists A2, old2, B2. split; [done|]. split; [by eapply block_search_found|].
    destruct old1; [done|]. eapply split_at_find. by eapply block_search_split.
Qed.

Lemma credits_any flags x : call_any x →
  ∃ code acl, (if j_valid j then
      b ← ext4_xattr_get_block o;
      match b with
      | inl error => mret error
      | inr b =>
          credits ← lift (ext4_xattr_set_credits_of e j blocksize b (i_value_len i) (negb (Z.land flags XATTR_CREATE =? 0)));
          mret (if j_credits j <? credits then - ENOSPC else 0)
      end
    else mret 0) x = Some (code, upd_inode (set_block acl (sx_inode x)) x) ∧
    call_any (upd_inode (set_block acl (sx_inode x)) x).
Proof.
  intros Hx. pose proof Hx as ([Hok Hb1 Ha2] & He & Hn). destruct (j_valid j); cycle 1.
  { exists 0, (i_file_acl (sx_inode x)). assert (upd_inode (set_block (i_file_acl (sx_inode x)) (sx_inode x)) x = x) as ->;
      [by destruct x as [[]]|done]. }
  destruct (get_block_any o blocksize x l2 Ha2) as (res & acl & E & Ha & Hnr & _).
  rewrite (st_bind_step _ _ _ _ _ E). destruct res as [code|b].
  { exists code, acl. split; [done|]. by apply call_any_acl. }
  rewrite (lift_step _ _ _ _ (credits_plain e j blocksize b _ _ (an_feature _ _ _ _ _ He))). eexists _, acl. split; [done|]. by apply call_any_acl.
Qed.

Lemma set_locked_any flags x : call_any x →
  ∃ code clear x', set_locked o e j blocksize i flags x = Some ((code, clear), x') ∧
    contained code (sx_inode x') ∧ sx_new x' = false.
Proof.
  intros Hx. unfold set_locked. destruct (credits_any flags x Hx) as (code & acl0 & E0 & Hx0). rewrite (st_bind_step _ _ _ _ _ E0).
  set (x0 := upd_inode _ x) in *. pose proof Hx0 as (Hr0 & _ & Hn0).
  assert (∀ c, c ≠ 0 → ∃ clear x', Some ((c, false), x0) = Some ((c, clear) : Z * bool, x') ∧ contained c (sx_inode x') ∧ sx_new x' = false) as Hsame.
  { intros c Hc. exists false, x0. split; [done|]. split; [|done]. by apply contained_same. }
  destruct (Z.eqb_spec code 0) as [->|Hc]; cbn [negb]; [|by eexists code; apply Hsame].
  destruct (Z.eqb_spec (j_reserve j) 0) as [_|Hc]; cbn [negb]; [|by eexists _; apply Hsame].
  unfold get. rewrite (st_bind_step _ _ x0 x0 x0) by done. rewrite Hn0.
  rewrite (st_bind_step _ _ x0 tt x0) by done. rewrite (st_bind_step _ _ x0 x0 x0) by done.
  destruct (searches_any x0 Hx0) as (ibs & c2 & bs & acl & A1 & old1 & B1 & E1 & E2 & Hx1 & Hs1 & Hf1 & Hc2).
  rewrite (lift_step _ _ _ _ E1). cbn [Z.eqb negb]. rewrite (st_bind_step _ _ _ _ _ E2).
  destruct (Z.eqb_spec c2 0) as [->|Hc]; cbn [negb].
  - destruct (Hc2 eq_refl) as (A2 & old2 & B2 & Hs2 & Hf2 & Hk). by apply (set_checked_any _ A1 B1 A2 B2 old1 old2 ibs bs flags Hx1).
  - eexists c2, false, _. split; [done|]. split; [|done]. apply contained_same; [by apply Hx1|done].
Qed.

End call.

(** ** Whatever fails *)

Lemma set_handle_any o e j blocksize idx name value len flags l1 l2 x :
  info_ok (Ext4XattrInfo name value len idx false) → (∀ v, value = Some v → ∃ b, v = ValueBytes b) →
  call_any o e j blocksize l1 l2 x →
  ∃ code x', ext4_xattr_set_handle o e j blocksize idx (Some name) value len flags x = Some (code, x') ∧
    contained o blocksize (Ext4XattrInfo name value len idx false) l1 l2 code (sx_inode x') ∧ sx_new x' = false.
Proof.
  intros Hinfo Hvalue Hx. unfold ext4_xattr_set_handle. pose proof (in_length _ Hinfo) as Hlen. cbn [i_name] in Hlen.
  rewrite (proj2 (Z.ltb_ge _ _)) by lia. rewrite (st_bind_step _ _ x (sx_no_expand x) x) by done.
  set (x0 := Store (sx_inode x) (sx_new x) true (sx_feature x) (sx_ctime x) (sx_log x)).
  rewrite (st_bind_step _ _ x tt x0) by done.
  destruct (set_locked_any o e j blocksize _ l1 l2 Hinfo Hvalue flags x0 Hx) as (code & clear & x' & E & Hc & Hn).
  rewrite (st_bind_step _ _ _ _ _ E). destruct (negb (sx_no_expand x) || clear); eexists code, _; (split; [done|]; by split).
Qed.

(** Calls that follow one another, any of them failing anywhere. *)
Inductive any_run (o : io) (blocksize : Z) (x : store) : store → Prop :=
| any_start : any_run o blocksize x x
| any_set e j idx name value len flags code x' x'' :
    any_run o blocksize x x' →
    info_ok (Ext4XattrInfo name value len idx false) → (∀ v, value = Some v → ∃ b, v = ValueBytes b) →
    env_any o e j blocksize (i_file_acl (sx_inode x')) →
    ext4_xattr_set_handle o e j blocksize idx (Some name) value len flags x' = Some (code, x'') →
    any_run o blocksize x x''.

(** The format stays well formed. *)
Lemma any_run_parts o blocksize x x' l1 l2 : inode_parts o blocksize (sx_inode x) l1 l2 → sx_new x = false →
  any_run o blocksize x x' → (∃ l1' l2', inode_parts o blocksize (sx_inode x') l1' l2') ∧ sx_new x' = false.
Proof.
  intros Hr Hn. induction 1 as [|e j idx name value len flags code x' x'' _ IH Hinfo Hv He E]; [by split; [eexists _, _|]|].
  destruct IH as [(m1 & m2 & Hr') Hn'].
  destruct (set_handle_any o e j blocksize idx name value len flags m1 m2 x' Hinfo Hv) as (code' & x1 & E' & Hc & Hn1); [done|].
  rewrite E in E'. injection E' as -> ->. split; [|done]. destruct Hc as (l1' & l2' & Hp & _). by exists l1', l2'.
Qed.

Lemma parts_csum o blocksize n l1 l2 : inode_parts o blocksize n l1 l2 →
  ∀ b, i_file_acl n = Some b → b_verified b = true ∨ ext4_xattr_block_csum_verify o b = Some true.
Proof. intros [_ _ Ha] b Hb. rewrite Hb in Ha. apply Ha. Qed.

(** C29: What ext4_xattr_set_handle leaves behind when memory, the journal, the
    allocator or the disk fail at any place of the call, after any number of
    earlier calls that failed in the same way (values kept in the buffers, i.e.
    the ea_inode feature off; no inline data).  The call returns; inode and block
    pass the checks of the code, the block is sorted and its checksum right (or
    verified); every other attribute reads as before.  If no name was both in the
    inode and in the block, the attribute reads as before or has the new value,
    and when the call answers 0 it has the new value (or is gone) and still no name
    is in both.  When it answers an error a name may be in both. *)
Theorem ext4_set_failures_contained o e j blocksize idx name value len flags x0 x l1 l2
    (Hrepr : inode_parts o blocksize (sx_inode x0) l1 l2) (Hnew : sx_new x0 = false)
    (Hrun : any_run o blocksize x0 x)
    (Hinfo : info_ok (Ext4XattrInfo name value len idx false))
    (Hvalue : ∀ v, value = Some v → ∃ b, v = ValueBytes b)
    (Henv : env_any o e j blocksize (i_file_acl (sx_inode x))) :
  ∃ code x', ext4_xattr_set_handle o e j blocksize idx (Some name) value len flags x = Some (code, x') ∧
    inode_ok (sx_inode x') ∧ well_formed o (sx_inode x') ∧
    (∀ b, i_file_acl (sx_inode x') = Some b → b_verified b = true ∨ ext4_xattr_block_csum_verify o b = Some true) ∧
    (∀ idx' name', (idx', name') ≠ (idx, name) →
       ext4_attr (sx_inode x') idx' name' = ext4_attr (sx_inode x) idx' name') ∧
    (no_name_twice (sx_inode x) →
       (ext4_attr (sx_inode x') idx name = ext4_attr (sx_inode x) idx name ∨
        ext4_attr (sx_inode x') idx name = flip value_bytes len <$> value) ∧
       (code = 0 → ext4_attr (sx_inode x') idx name = flip value_bytes len <$> value ∧ no_name_twice (sx_inode x'))).
Proof.
  destruct (any_run_parts _ _ _ _ _ _ Hrepr Hnew Hrun) as [(m1 & m2 & Hp) Hn].
  destruct (set_handle_any o e j blocksize idx name value len flags m1 m2 x Hinfo Hvalue) as (code & x' & E & Hc & _); [done|].
  destruct Hc as (l1' & l2' & Hp' & Hk & Ha). exists code, x'. split; [done|]. split; [apply Hp'|]. split; [by eapply parts_well_formed|].
  split; [by eapply parts_csum|]. split.
  - intros idx' name' Hne. rewrite (parts_attr _ _ _ _ _ Hp'), (parts_attr _ _ _ _ _ Hp), !afind_app.
    by destruct (Hk (idx', name') Hne) as [-> ->].
  - intros Htw. apply (parts_apart _ _ _ _ _ Hp) in Htw. destruct (Ha Htw) as [H0 H1].
    rewrite !(parts_attr _ _ _ _ _ Hp'), (parts_attr _ _ _ _ _ Hp). split; [exact H1|].
    intros Hc. destruct (H0 Hc) as [Hap Hv]. split; [exact Hv|]. by apply (parts_apart _ _ _ _ _ Hp').
Qed.

(** ** The sample inode, with user.b in a block that it shares *)

(** The journal of the sample, and no memory. *)
Definition demo_no_memory : journal :=
  Journal true 1000 0 0 0 0 0 0 false (λ _, 0) (inr 99) true 0 true false [] (λ _, false) (λ _, 0) 7 false 4 None 7
    (λ _, 0) 0 0 0 true.

Definition demo_set (j : journal) (value : option bytes) : st store Z :=
  ext4_xattr_set_handle demo_csum_io demo_set_io j 128 EXT4_XATTR_INDEX_USER (Some [98])
    (ValueBytes <$> value) (Z.of_nat (length (default [] value))) 0.

(** user.b is "!" in the block.  Setting it to Hello stores it in the inode; the
    copy of the block for removing it there needs memory, and the call answers
    ENOMEM.  The attribute reads Hello then.  Removing it answers 0 - and the
    attribute is "!" again. *)
Lemma removal_uncovers_old_value :
  ext4_attr (sx_inode demo_store) EXT4_XATTR_INDEX_USER [98] = Some [33] ∧
  ∃ x1 x2, demo_set demo_no_memory (Some (s2b "Hello")) demo_store = Some (- ENOMEM, x1) ∧
    ext4_attr (sx_inode x1) EXT4_XATTR_INDEX_USER [98] = Some (s2b "Hello") ∧
    demo_set demo_journal None x1 = Some (0, x2) ∧
    ext4_attr (sx_inode x2) EXT4_XATTR_INDEX_USER [98] = Some [33].
Proof.
  split; [vm_compute; reflexivity|].
  eexists _, _. split; [vm_compute; reflexivity|]. split; [vm_compute; reflexivity|]. split; vm_compute; reflexivity.
Qed.

Lemma demo_env_any : env_any demo_csum_io demo_set_io demo_no_memory 128 (Some demo_shared).
Proof. split; try done. intros c s. cbn. by apply Z.mod_pos_bound. Qed.

Lemma ext4_set_failures_contained_witness :
  ∃ x', demo_set demo_no_memory (Some (s2b "Hello")) demo_store = Some (- ENOMEM, x') ∧
    well_formed demo_csum_io (sx_inode x') ∧ ext4_attr (sx_inode x') 11 [97] = Some [72; 105] ∧ ¬ no_name_twice (sx_inode x').
Proof.
  destruct (ext4_set_failures_contained demo_csum_io demo_set_io demo_no_memory 128 EXT4_XATTR_INDEX_USER [98]
    (Some (ValueBytes (s2b "Hello"))) 5 0 demo_store demo_store _ _ (repr_parts _ _ _ _ _ demo_repr) eq_refl
    (any_start _ _ _) demo_user_info ltac:(intros v [= <-]; by eexists) demo_env_any)
    as (code & x' & E & _ & Hw & _ & Ho & _).
  assert (fst <$> demo_set demo_no_memory (Some (s2b "Hello")) demo_store = Some (- ENOMEM)) as Hcode by (vm_compute; reflexivity).
  unfold demo_set in Hcode. change (ValueBytes <$> Some (s2b "Hello")) with (Some (ValueBytes (s2b "Hello"))) in Hcode.
  change (Z.of_nat (length (default [] (Some (s2b "Hello"))))) with 5 in Hcode.
  rewrite E in Hcode. injection Hcode as ->. exists x'. split; [exact E|]. split; [exact Hw|]. split.
  - rewrite Ho; [vm_compute; reflexivity|discriminate].
  - intros H. specialize (H EXT4_XATTR_INDEX_USER [98]). revert E H. vm_compute. intros [= <-]. vm_compute. by intros [?|?].
Defined.

End Ext4Fail.
