(* ===== verification/Ext4Expand.v ===== *)
(** * Making room for the fixed part of an ext4 inode

    fs/ext4/xattr.c: ext4_expand_extra_isize_ea, which enlarges the fixed part of
    an inode (i_extra_isize) in front of its attributes.  When the bytes between
    names and values are not enough, attributes are moved one by one to the
    attribute block ([ext4_xattr_make_inode_space], [ext4_xattr_move_to_block]);
    then the names are shifted and the offsets of the values, which stay where
    they are, are lowered ([ext4_xattr_shift_entries]).

    The searches, the changes and the state are those of Ext4Store.  The theorems
    hold whatever memory, the journal, the allocator and the disk answer
    ([env_any] of Ext4Fail): the loop that moves attributes ends, no attribute is
    lost or changed on any path, and inode and block are well formed afterwards.
    When a move fails half way the name is in both, with the same value; when
    nothing fails ([env_ok]) it is in one of them. *)

From Stdlib Require Import ZArith Lia Sorted.
From stdpp Require Import base numbers list gmap strings.
From S2P Require Import Prelude Xattr Ext4Xattr Ext4Set Ext4Store Ext4Fail.

Module Ext4Expand.
Import Xattr Ext4Xattr Ext4Set Ext4Store Ext4Fail.

(** ** Free space *)

(** The end of the names, the lowest value and the bytes of the names. *)
Fixpoint free_space_loop (fuel : nat) (r : bytes) (last min_offs total : Z) : option (Z * Z * Z) :=
  match fuel with
  | O => None
  | S fuel =>
      l ← IS_LAST_ENTRY r last;
      if l : bool then Some (last, min_offs, total)
      else
        inum ← rd32 r (last + E_VALUE_INUM);
        size ← rd32 r (last + E_VALUE_SIZE);
        offs ← rd16 r (last + E_VALUE_OFFS);
        name_len ← rd8 r (last + E_NAME_LEN);
        next ← EXT4_XATTR_NEXT r last;
        free_space_loop fuel r next
          (if (inum =? 0) && negb (size =? 0) && (offs <? min_offs) then offs else min_offs)
          (total + EXT4_XATTR_LEN name_len)
  end.

(** The free bytes, and the total. *)
Definition ext4_xattr_free_space (r : bytes) (last min_offs base total : Z) : option (Z * Z) :=
  f ← free_space_loop (fuel_of r) r last min_offs total;
  let '(last, min_offs, total) := f in
  Some (u64 (min_offs - (last - base) - 4), total).

(** ** Shifting the entries *)

Fixpoint shift_offsets (fuel : nat) (r : bytes) (last value_offs_shift : Z) : option bytes :=
  match fuel with
  | O => None
  | S fuel =>
      l ← IS_LAST_ENTRY r last;
      if l : bool then Some r
      else
        inum ← rd32 r (last + E_VALUE_INUM);
        size ← rd32 r (last + E_VALUE_SIZE);
        offs ← rd16 r (last + E_VALUE_OFFS);
        r ← (if (inum =? 0) && negb (size =? 0)
             then wr 2 r (last + E_VALUE_OFFS) (offs + value_offs_shift) else Some r);
        next ← EXT4_XATTR_NEXT r last;
        shift_offsets fuel r next value_offs_shift
  end.

(** A positive shift is a BUG. *)
Definition ext4_xattr_shift_entries (r : bytes) (entry value_offs_shift to from n : Z) : option bytes :=
  if 0 <? value_offs_shift then None
  else r ← shift_offsets (fuel_of r) r entry value_offs_shift; memmove r to from n.

(** ** Moving an attribute to the block *)

(** What is known of [entry] in the inode: index, name, value inode, hash and size. *)
Definition entry_info (r : bytes) (entry : Z) : option (Z * bytes * Z * Z * Z) :=
  name_len ← rd8 r (entry + E_NAME_LEN);
  index ← rd8 r (entry + E_NAME_INDEX);
  inum ← rd32 r (entry + E_VALUE_INUM);
  hash ← rd32 r (entry + E_HASH);
  size ← rd32 r (entry + E_VALUE_SIZE);
  name ← bytes_at r (entry + E_NAME) name_len;
  Some (index, take (Z.to_nat (strnlen name)) name, inum, hash, size).

(** The value that is saved: an error, or its bytes. *)
Definition saved_value (o : io) (j : journal) (n : ext4_inode) (entry inum hash size : Z) : option (Z + bytes) :=
  if negb (inum =? 0) then
    if negb (j_move_kmalloc j) then Some (inl (- ENOMEM)) else Some (io_ea_inode o inum hash size)
  else
    offs ← rd16 (raw_inode n) (entry + E_VALUE_OFFS);
    v ← bytes_at (raw_inode n) (IFIRST n + offs) size;
    Some (inr v).

Definition ext4_xattr_move_to_block (o : io) (e : ea_io) (j : journal) (blocksize entry : Z) : st store Z :=
  x ← get;
  let n := sx_inode x in
  info ← lift (entry_info (raw_inode n) entry);
  let '(name_index, name, inum, hash, value_size) := info in
  if negb (j_move_kmalloc j) then mret (- ENOMEM)
  else
    buffer ← lift (saved_value o j n entry inum hash value_size);
    match buffer with
    | inl error => mret error
    | inr buffer =>
        if negb (io_inode_loc o =? 0) then mret (io_inode_loc o)
        else
          let i := Ext4XattrInfo name None 0 name_index (negb (inum =? 0)) in
          f ← lift (ext4_xattr_ibody_find n i);
          let '(error, ibs) := f in
          if negb (error =? 0) then mret error
          else
            let i := Ext4XattrInfo name (Some (ValueBytes buffer)) value_size name_index (negb (inum =? 0)) in
            f ← ext4_xattr_block_find o i;
            let '(error, bs) := f in
            if negb (error =? 0) then mret error
            else
              error ← ext4_xattr_block_set o e j blocksize i bs;
              if negb (error =? 0) then mret error
              else ext4_xattr_ibody_set e blocksize (Ext4XattrInfo name None 0 name_index (negb (inum =? 0))) ibs
    end.

(** ** Choosing what to move *)

Definition EXT4_XATTR_INDEX_SYSTEM : Z := 7.

(** system.data is never moved. *)
Definition is_system_data (index : Z) (name : bytes) : bool :=
  (Z.of_nat (length name) =? 4) && (index =? EXT4_XATTR_INDEX_SYSTEM) && (memcmp name (s2b "data") =? 0).

(** The bytes of an entry with its value, an unsigned int. *)
Definition total_size_of (x : xentry) : Z :=
  u32 (EXT4_XATTR_LEN (Z.of_nat (length (x_name x))) + if x_inum x =? 0 then EXT4_XATTR_SIZE 32 (x_size x) else 0).

(** The loop over the entries: the best entry, and else a small one. *)
Fixpoint choose_entry (fuel : nat) (r : bytes) (last isize_diff ifree bfree : Z) (entry small_entry : option xentry)
    (min_total_size : Z) : option (option xentry * option xentry) :=
  match fuel with
  | O => None
  | S fuel =>
      l ← IS_LAST_ENTRY r last;
      if l : bool then Some (entry, small_entry)
      else
        x ← read_entry r last;
        next ← EXT4_XATTR_NEXT r last;
        if is_system_data (x_index x) (x_name x) then
          choose_entry fuel r next isize_diff ifree bfree entry small_entry min_total_size
        else
          let total_size := total_size_of x in
          if (total_size <=? bfree) && (total_size <? min_total_size) then
            if u64 (total_size + ifree) <? u64 isize_diff then
              choose_entry fuel r next isize_diff ifree bfree entry (Some x) min_total_size
            else choose_entry fuel r next isize_diff ifree bfree (Some x) small_entry total_size
          else choose_entry fuel r next isize_diff ifree bfree entry small_entry min_total_size
  end.

(** The loop [while (isize_diff > ifree)]: the error, and the bytes of the names
    that are left.  [js] is what the journal, the allocator and the cache answer in
    each turn, for the inode as it is then. *)
Fixpoint ext4_xattr_make_inode_space (fuel : nat) (o : io) (e : ea_io) (js : nat → ext4_inode → journal) (turn : nat)
    (blocksize isize_diff ifree bfree total_ino : Z) : st store (Z * Z) :=
  match fuel with
  | O => fault
  | S fuel =>
      if u64 isize_diff <=? ifree then mret (0, total_ino)
      else
        x ← get;
        let n := sx_inode x in
        c ← lift (choose_entry (fuel_of (raw_inode n)) (raw_inode n) (IFIRST n) isize_diff ifree bfree None None (2 ^ 32 - 1));
        match (match c with (Some y, _) => Some y | (None, small) => small end) with
        | None => mret (- ENOSPC, total_ino)
        | Some y =>
            let entry_size := EXT4_XATTR_LEN (Z.of_nat (length (x_name y))) in
            let total_size := total_size_of y in
            error ← ext4_xattr_move_to_block o e (js turn n) blocksize (x_pos y);
            if negb (error =? 0) then mret (error, total_ino)
            else
              ext4_xattr_make_inode_space fuel o e js (S turn) blocksize isize_diff (u64 (ifree + total_size))
                (u64 (bfree - total_size)) (total_ino - entry_size)
        end
  end.

(** ** Expanding *)

(** The free bytes of the attribute block: an error, or their number. *)
Definition block_free (o : io) (blocksize : Z) : st store (Z + (Z * bool)) :=
  x ← get;
  match i_file_acl (sx_inode x) with
  | None => mret (inr (blocksize, false))
  | Some b =>
      if negb (io_bread o =? 0) then mret (inl (io_bread o))
      else
        c ← lift (ext4_xattr_check_block o b);
        let '(error, b) := c in
        put_inode (set_block (Some b) (sx_inode x)) ;;
        if negb (error =? 0) then mret (inl error)
        else
          f ← lift (ext4_xattr_free_space (b_data b) BFIRST (buf_end (b_data b)) 0 0);
          mret (inr (f.1, true))
  end.

(** The label [shift]. *)
Definition shift_inode (e : ea_io) (new_extra_isize total_ino : Z) : st store Z :=
  x ← get;
  let n := sx_inode x in
  r ← lift (ext4_xattr_shift_entries (raw_inode n) (IFIRST n) (i_extra_isize n - new_extra_isize)
              (EXT4_GOOD_OLD_INODE_SIZE + new_extra_isize) (IHDR n) total_ino);
  put_inode (Ext4Inode r new_extra_isize (state_xattr n) (i_file_acl n)) ;;
  mret (default 0 (ea_inline e)).

(** From the label [retry] on; [retry] is what goes back to it, or ENOSPC. *)
Definition expand_once (retry : st store Z) (o : io) (e : ea_io) (js : nat → ext4_inode → journal)
    (blocksize new_extra_isize : Z) : st store Z :=
  x ← get;
  let n := sx_inode x in
  let isize_diff := new_extra_isize - i_extra_isize n in
  if new_extra_isize <=? i_extra_isize n then mret 0
  else
    error ← lift (xattr_check_inode n);
    if negb (error =? 0) then mret error
    else
      f ← lift (ext4_xattr_free_space (raw_inode n) (IFIRST n) (buf_end (raw_inode n) - IFIRST n) (IFIRST n) (IBODY_HEADER_SIZE + 4));
      let '(ifree, total_ino) := f in
      if u64 isize_diff <=? ifree then shift_inode e new_extra_isize total_ino
      else
        b ← block_free o blocksize;
        match b with
        | inl error => mret error
        | inr (bfree, has_block) =>
            if has_block && (u64 (bfree + ifree) <? u64 isize_diff) then retry
            else
              m ← ext4_xattr_make_inode_space (fuel_of (raw_inode n)) o e js 0 blocksize isize_diff ifree bfree total_ino;
              let '(error, total_ino) := m in
              if error =? - ENOSPC then retry
              else if negb (error =? 0) then mret error
              else shift_inode e new_extra_isize total_ino
        end.

(** [tries] is 1 until [tried_min_extra_isize] is set. *)
Fixpoint ext4_expand_extra_isize_ea (tries : nat) (o : io) (e : ea_io) (js : nat → nat → ext4_inode → journal)
    (blocksize s_min_extra_isize new_extra_isize : Z) : st store Z :=
  let retry := match tries with
               | S tries => if negb (s_min_extra_isize =? 0)
                            then ext4_expand_extra_isize_ea tries o e js blocksize s_min_extra_isize s_min_extra_isize
                            else mret (- ENOSPC)
               | O => mret (- ENOSPC)
               end in
  expand_once retry o e (js tries) blocksize new_extra_isize.


(** ** The bytes of the names *)

Definition names_size (l : list (Z * bytes * bytes)) : Z :=
  foldr (λ a s, EXT4_XATTR_LEN (Z.of_nat (length a.1.2)) + s) 0 l.

Lemma chain_end r base e es e_end : chain r e es e_end → e_end = e + names_size (attrs r base es).
Proof.
  induction 1 as [e El|e x es e_end El Ex Hn Hz H IH]; cbn [attrs fmap list_fmap names_size foldr]; [lia|].
  destruct (read_entry_Some _ _ _ Ex) as (Ep & _). fold (attrs r base es). fold (names_size (attrs r base es)).
  unfold x_next in IH. rewrite Ep in IH. cbn. lia.
Qed.

Lemma names_size_app a b : names_size (a ++ b) = names_size a + names_size b.
Proof. unfold names_size. induction a as [|x a IH]; cbn [app foldr]; lia. Qed.

Lemma free_space_loop_chain r base e es e_end m total fuel : chain r e es e_end → (length es < fuel)%nat →
  free_space_loop fuel r e m total = Some (e_end, lowest m es, total + names_size (attrs r base es)).
Proof.
  intros H. revert m total fuel. induction H as [e El|e x es e_end El Ex Hn Hz H IH]; intros m total fuel Hf;
    (destruct fuel as [|fuel]; [lia|]); cbn [free_space_loop]; rewrite El; cbn [mbind option_bind].
  { cbn. by rewrite Z.add_0_r. }
  destruct (read_entry_Some _ _ _ Ex) as (_ & En & _ & Eo & Eu & Es & _ & _ & Enx).
  rewrite Eu, Es, Eo, En, Enx. cbn [mbind option_bind lowest attrs fmap list_fmap names_size foldr].
  fold (has_val x). rewrite IH by (cbn in Hf; lia). fold (attrs r base es). fold (names_size (attrs r base es)).
  do 2 f_equal. cbn. lia.
Qed.

(** The bytes between names and values. *)
Definition gap (r : bytes) (base : Z) (es : list xentry) (e_end : Z) : Z :=
  lowest (buf_end r - base) es - (e_end - base) - 4.

Lemma gap_range r base first es e_end : region r base first es e_end → 0 ≤ gap r base es e_end ≤ 65536.
Proof.
  intros [Hbuf Hb Hc Hok Hv]. pose proof (chain_room _ _ _ _ Hc). pose proof Hc as [Hs _]%chain_seg. apply seg_le in Hs.
  pose proof (spans_lowest_ge _ _ (buf_end r - base) _ Hv ltac:(lia)). pose proof (proj1 (lowest_le (buf_end r - base) es)).
  pose proof (bo_size _ Hbuf). unfold gap. lia.
Qed.

Lemma free_space_region r base first es e_end total : region r base first es e_end →
  ext4_xattr_free_space r first (buf_end r - base) base total =
    Some (gap r base es e_end, total + names_size (attrs r base es)).
Proof.
  intros Hr. pose proof (gap_range _ _ _ _ _ Hr). destruct Hr as [Hbuf Hb Hc Hok Hv]. unfold ext4_xattr_free_space.
  rewrite (free_space_loop_chain r base first es e_end); [|done|eapply chain_fuel; [|done]; lia].
  cbn [mbind option_bind]. unfold gap in *. by rewrite wrapU_small by (unfold is_u; lia).
Qed.

(** ** The attributes of the inode, with the space that is left *)

Record body (n : ext4_inode) (l : list (Z * bytes * bytes)) (es : list xentry) (e_end : Z) : Prop := {
  bd_region : region (raw_inode n) (IFIRST n) (IFIRST n) es e_end;
  bd_attrs : attrs (raw_inode n) (IFIRST n) es = l;
  bd_nodup : NoDup (keys l) }.

Lemma ibody_body n l : EXT4_INODE_HAS_XATTR_SPACE n = true → ibody_repr n l → ∃ es e_end, body n l es e_end.
Proof. unfold ibody_repr. intros ->. intros (es & e_end & ? & ? & ? & _). by exists es, e_end. Qed.

Definition free_of (n : ext4_inode) (es : list xentry) (e_end : Z) : Z := gap (raw_inode n) (IFIRST n) es e_end.

(** At least [f] bytes are free. *)
Definition free_ge (n : ext4_inode) (f : Z) : Prop :=
  ∀ es e_end, chain (raw_inode n) (IFIRST n) es e_end → f ≤ free_of n es e_end.

Lemma chain_unique r e es1 e1 es2 e2 : 0 ≤ e → chain r e es1 e1 → chain r e es2 e2 → es1 = es2 ∧ e1 = e2.
Proof.
  intros He H1. revert es2. induction H1 as [e El|e x es e_end El Ex Hn Hz H IH]; intros es2 H2.
  - inversion H2; subst; [done|congruence].
  - inversion H2 as [|? y ? ? ? Ey]; subst; [congruence|]. rewrite Ex in Ey. injection Ey as <-.
    destruct (read_entry_Some _ _ _ Ex) as (Ep & _). pose proof (x_next_pos x).
    match goal with H : chain r (x_next x) _ e2 |- _ => destruct (IH ltac:(lia) _ H) as [-> ->] end. done.
Qed.

Lemma body_free n l es e_end f : inode_ok n → body n l es e_end → f ≤ free_of n es e_end → free_ge n f.
Proof.
  intros Hi Hb Hf es' e' Hc. pose proof (IFIRST_nonneg n Hi).
  by destruct (chain_unique _ _ _ _ _ _ ltac:(done) (rg_chain _ _ _ _ _ (bd_region _ _ _ _ Hb)) Hc) as [<- <-].
Qed.

(** Removing an attribute frees its bytes. *)
Lemma ibody_remove_free e blocksize i s x x' l es1 y es2 e_end f :
  info_ok i → i_value i = None → default 0 (ea_inline e) = 0 → inode_ok (sx_inode x) →
  EXT4_INODE_HAS_XATTR_SPACE (sx_inode x) = true →
  body (sx_inode x) l (es1 ++ y :: es2) e_end →
  located i s (raw_inode (sx_inode x)) (IFIRST (sx_inode x)) (IFIRST (sx_inode x)) es1 (Some y) es2 e_end →
  f ≤ free_of (sx_inode x) (es1 ++ y :: es2) e_end →
  ext4_xattr_ibody_set e blocksize i s x = Some (0, x') →
  free_ge (sx_inode x') (f + EXT4_XATTR_LEN (Z.of_nat (length (x_name y))) + pad (x_size y)) ∧
  i_extra_isize (sx_inode x') = i_extra_isize (sx_inode x) ∧ length (raw_inode (sx_inode x')) = length (raw_inode (sx_inode x)).
Proof.
  intros Hinfo Hv Hinl Hi Hsp Hb Hloc Hf. set (n := sx_inode x) in *. pose proof (IFIRST_nonneg n Hi) as H0.
  destruct (set_entry_remove e blocksize i s false (raw_inode n) (IFIRST n) (IFIRST n) e_end es1 es2 (Some y) Hinfo)
    with (x := y) as (r' & E & (e1 & mid & e2 & e' & Hreg & A1 & Am & A2 & _ & L & _) & (es' & e'' & Hc' & Hs')); try done.
  { apply Hb. }
  destruct mid as [|z mid]; [|done]. cbn [app] in Hreg.
  destruct (chain_unique _ _ _ _ _ _ H0 (rg_chain _ _ _ _ _ Hreg) Hc') as [<- <-].
  unfold ext4_xattr_ibody_set, get. rewrite (st_bind_step _ _ x x x) by done. fold n. rewrite Hsp. cbn [negb].
  unfold lift, mbind, st_bind. rewrite E. cbn [fmap list_fmap]. rewrite log_nil_run, put_inode_run. cbn [Z.eqb negb].
  pose proof Hloc as (-> & _). destruct (IS_LAST_ENTRY r' (IFIRST n)) as [b|]; [|done].
  destruct (wr 4 r' (IHDR n) (if b then 0 else EXT4_XATTR_MAGIC)) as [r2|] eqn:E2; [|done]. intros [= <-].
  pose proof (io_extra _ Hi) as [Hx _].
  destruct (region_wr r' (IFIRST n) (IFIRST n) (e1 ++ e2) e' 4 (IHDR n) (if b then 0 else EXT4_XATTR_MAGIC) Hreg)
    as (r3 & E3 & Hreg3 & _ & L3).
  { unfold IHDR, EXT4_GOOD_OLD_INODE_SIZE. lia. } { unfold IFIRST, IBODY_HEADER_SIZE. lia. }
  rewrite E2 in E3. injection E3 as <-. split; [|split; [done|cbn [sx_inode raw_inode set_raw]; lia]]. intros es' e'' Hc''. cbn [sx_inode raw_inode set_raw] in Hc''.
  change (IFIRST (set_raw r2 (negb b) n)) with (IFIRST n) in Hc''.
  destruct (chain_unique _ _ _ _ _ _ H0 (rg_chain _ _ _ _ _ Hreg3) Hc'') as [<- <-].
  unfold free_of, gap in *. cbn [sx_inode raw_inode set_raw]. change (IFIRST (set_raw r2 (negb b) n)) with (IFIRST n).
  pose proof (rg_chain _ _ _ _ _ (bd_region _ _ _ _ Hb)) as Hc0.
  rewrite (chain_end _ (IFIRST n) _ _ _ Hc0) in Hf. rewrite (chain_end _ (IFIRST n) _ _ _ (rg_chain _ _ _ _ _ Hreg)).
  rewrite !attrs_app, !names_size_app in *. rewrite A1, A2. cbn [attrs fmap list_fmap names_size foldr attr] in Hf.
  fold (attrs (raw_inode n) (IFIRST n) es2) in Hf. fold (names_size (attrs (raw_inode n) (IFIRST n) es2)) in Hf. cbn [fst snd] in Hf.
  assert (buf_end r2 = buf_end (raw_inode n)) as Eb by (unfold buf_end; by rewrite L3, L). rewrite Eb.
  destruct Hs' as [Hs' _]. rewrite Forall_forall in Hs'.
  set (m := lowest (buf_end (raw_inode n) - IFIRST n) (es1 ++ y :: es2)) in *.
  change (length (attr (raw_inode n) (IFIRST n) y).1.2) with (length (x_name y)) in Hf.
  assert (m + pad (x_size y) ≤ lowest (buf_end (raw_inode n) - IFIRST n) (e1 ++ e2)); [|lia].
  apply lowest_ge.
  - destruct (region_lowest (raw_inode n) (IFIRST n) (IFIRST n) e_end m es1 es2 y (bd_region _ _ _ _ Hb) eq_refl) as (_ & _ & Hy).
    destruct (proj1 (Forall_middle _ _ _ _) (rg_entries _ _ _ _ _ (bd_region _ _ _ _ Hb))) as [_ Hyok].
    destruct (entry_ok_val y Hyok) as [Hval|Hz]; [|rewrite Hz; change (pad 0) with 0; unfold m; pose proof (proj1 (lowest_le (buf_end (raw_inode n) - IFIRST n) (es1 ++ y :: es2))); lia].
    pose proof (rg_vals _ _ _ _ _ (bd_region _ _ _ _ Hb)) as [Hvs _]. rewrite Forall_forall in Hvs.
    specialize (Hvs _ (elem_of_vspans _ y ltac:(apply elem_of_app; right; left) Hval)). cbn in Hvs.
    pose proof (proj2 (lowest_le (buf_end (raw_inode n) - IFIRST n) (es1 ++ y :: es2)) y ltac:(apply elem_of_app; right; left) Hval).
    unfold m. lia.
  - intros z Hz Hvz. specialize (Hs' _ (elem_of_vspans _ _ Hz Hvz)). cbn in Hs'. lia.
Qed.

(** ** Moving an attribute *)

Lemma chain_strnlen r e es e_end x : chain r e es e_end → x ∈ es → strnlen (x_name x) = Z.of_nat (length (x_name x)).
Proof. induction 1 as [|e y es e_end ????? IH]; [by intros ?%not_elem_of_nil|]. by intros [->|]%elem_of_cons; [|apply IH]. Qed.

Lemma bytes_at_bytes r off n bs : is_bytes r → bytes_at r off n = Some bs → is_bytes bs.
Proof. unfold bytes_at. intros Hb. destruct (_ && _); [|done]. intros [= <-]. by apply Forall_take, Forall_drop. Qed.

(** What is read of an entry before it is moved. *)
Lemma moved_entry n l es e_end y : inode_ok n → body n l es e_end → y ∈ es →
  entry_info (raw_inode n) (x_pos y) = Some (x_index y, x_name y, 0, x_hash y, x_size y) ∧
  read_entry (raw_inode n) (x_pos y) = Some y ∧ x_index y ≠ 0 ∧
  info_ok (Ext4XattrInfo (x_name y) None 0 (x_index y) false) ∧
  info_ok (Ext4XattrInfo (x_name y) (Some (ValueBytes (value_of (raw_inode n) (IFIRST n) y))) (x_size y) (x_index y) false) ∧
  bytes_at (raw_inode n) (IFIRST n + x_offs y) (x_size y) = Some (value_of (raw_inode n) (IFIRST n) y) ∧
  0 ≤ x_size y ≤ 65536.
Proof.
  intros Hi [[[Hb _ Hsz] Hbase Hc Hok [Hsp _]] _ _] Hy. pose proof (IFIRST_nonneg n Hi) as H0. set (r := raw_inode n) in *.
  destruct (chain_in r (IFIRST n) es e_end y Hc H0 Hy) as (Ey & Hp & Hnx). rewrite Forall_forall in Hok. destruct (Hok y Hy) as [Y1 Y2 Y3 Y4].
  pose proof (chain_strnlen r (IFIRST n) es e_end y Hc Hy) as Hst. pose proof (entry_length _ _ _ Hb Ey) as Hlen.
  destruct (read_entry_Some _ _ _ Ey) as (_ & En & Ei & Eo & Eu & Es & Eh & Eb & _).
  pose proof (rd_range _ _ _ _ Hb Ei) as Ri. change (2 ^ (8 * Z.of_nat 1)) with 256 in Ri.
  assert (is_bytes (x_name y)) as Hnb by by eapply bytes_at_bytes.
  assert (x_size y ≤ 65536 ∧ ∃ v, bytes_at r (IFIRST n + x_offs y) (x_size y) = Some v) as (Hs & v & Ev).
  { pose proof (io_room _ Hi) as Hroom. fold r in Hroom. pose proof (rd_range _ _ _ _ Hb Eo) as Ro. destruct (entry_ok_val y (Hok y Hy)) as [Hv|Hz].
    - rewrite Forall_forall in Hsp. specialize (Hsp _ (elem_of_vspans _ _ Hy Hv)). cbn [fst snd] in Hsp. pose proof (pad_bounds (x_size y)).
      split; [lia|]. apply bytes_at_is_Some. unfold buf_end in *. lia.
    - rewrite Y4, Hz by done. split; [lia|]. apply bytes_at_is_Some. unfold buf_end in *. lia. }
  assert (value_of r (IFIRST n) y = v) as -> by (unfold value_of; by rewrite Ev).
  unfold entry_info. fold r. rewrite En, Ei, Eu, Eh, Es. cbn [mbind option_bind]. rewrite Eb, Y2. cbn [mbind option_bind]. rewrite Hst, Nat2Z.id, firstn_all.
  split_and!; try done; try lia.
  { split; cbn [i_name_index i_name i_value i_value_len i_in_inode]; done || lia. }
  split; cbn [i_name_index i_name i_value i_value_len i_in_inode]; try done; try lia. intros w [= <-]. cbn [value_valid]. split; [exact (bytes_at_bytes _ _ _ _ Hb Ev)|]. pose proof (bytes_at_length _ _ _ _ Ev). cbn. lia.
Qed.

Lemma NoDup_key n l es e_end y z : body n l es e_end → y ∈ es → z ∈ es → x_index z = x_index y → x_name z = x_name y → z = y.
Proof.
  intros [_ <- Hnd] Hy Hz Hi Hn. rewrite keys_attrs in Hnd.
  apply list_elem_of_lookup_1 in Hy as [a Ha]. apply list_elem_of_lookup_1 in Hz as [b Hb].
  assert (a = b) as ->; [|congruence].
  eapply NoDup_lookup; [exact Hnd|rewrite list_lookup_fmap, Ha; reflexivity|rewrite list_lookup_fmap, Hb]. cbn. by rewrite Hi, Hn.
Qed.

(** The search for an attribute of the body finds its entry. *)
Lemma search_body n l es e_end y s A old B : inode_ok n → body n l es e_end → y ∈ es →
  search_ok (raw_inode n) (IFIRST n) (IFIRST n) (Ext4XattrInfo (x_name y) None 0 (x_index y) false) s l A old B →
  ∃ es1 es2, es = es1 ++ y :: es2 ∧
    located (Ext4XattrInfo (x_name y) None 0 (x_index y) false) s (raw_inode n) (IFIRST n) (IFIRST n) es1 (Some y) es2 e_end ∧
    old = Some (value_of (raw_inode n) (IFIRST n) y) ∧ split_at l (x_index y, x_name y) A old B.
Proof.
  intros Hi Hb Hy (es1 & cur & es2 & e2 & Hr & Hl & Hsp & Hla & -> & -> & ->). pose proof (IFIRST_nonneg n Hi) as H0.
  destruct (chain_unique _ _ _ _ _ _ H0 (rg_chain _ _ _ _ _ Hr) (rg_chain _ _ _ _ _ (bd_region _ _ _ _ Hb))) as [He ->].
  assert ((x_index y, x_name y) ∈ keys l) as Hk.
  { rewrite Hla, He, keys_attrs. apply list_elem_of_fmap. by exists y. }
  destruct cur as [z|].
  - pose proof Hl as (_ & _ & _ & _ & _ & Hn & Hx). cbn in Hn, Hx.
    assert (z = y) as ->.
    { eapply NoDup_key; try done. rewrite <-He. apply elem_of_app. right. left. }
    exists es1, es2. split_and!; try done.
  - pose proof Hsp as (Hl' & HA & HB). rewrite Hl', keys_app in Hk. cbn [one fmap option_fmap option_map app] in Hk.
    apply elem_of_app in Hk as [?|?]; done.
Qed.

Lemma names_size_one k v : names_size (one k (Some v)) = EXT4_XATTR_LEN (Z.of_nat (length k.2)).
Proof. cbn. apply Z.add_0_r. Qed.

Section move.
Context (o : io) (e : ea_io) (blocksize : Z) (works : Prop).

Definition system_data : key := (EXT4_XATTR_INDEX_SYSTEM, s2b "data").

(** A name that is in both places has the same value in both. *)
Definition agree (l1 l2 : list (Z * bytes * bytes)) : Prop :=
  ∀ k v w, afind k l1 = Some v → afind k l2 = Some w → v = w.

(** The same attributes, system.data where it was; names that were in one place
    stay in one as long as everything works. *)
Definition same_attrs (l1 l2 l1' l2' : list (Z * bytes * bytes)) : Prop :=
  (∀ k, afind k (l1' ++ l2') = afind k (l1 ++ l2)) ∧ afind system_data l1' = afind system_data l1 ∧
  (agree l1 l2 → agree l1' l2') ∧ (works → apart l1 l2 → apart l1' l2').

Lemma same_attrs_refl l1 l2 : same_attrs l1 l2 l1 l2.
Proof. done. Qed.

Lemma same_attrs_trans l1 l2 m1 m2 p1 p2 : same_attrs l1 l2 m1 m2 → same_attrs m1 m2 p1 p2 → same_attrs l1 l2 p1 p2.
Proof. intros (H1 & H2 & H3 & H4) (H5 & H6 & H7 & H8). split; [intros k; by rewrite H5|]. split; [congruence|]. auto. Qed.

Lemma not_system_data index name : is_system_data index name = false → (index, name) ≠ system_data.
Proof. by intros H [= -> ->]. Qed.

(** Moving [k] from the one list to the other. *)
Lemma same_attrs_moved k v l1 l2 l1' l2' : k ≠ system_data → afind k l1 = Some v → set_to k None l1 l1' → set_to k (Some v) l2 l2' →
  same_attrs l1 l2 l1' l2'.
Proof.
  intros Hk Hv H1 H2. split; [|split; [|split]].
  - intros k'. rewrite !afind_app, H1, H2. case_decide; [subst; by rewrite Hv|done].
  - by rewrite H1, decide_False.
  - intros Ha k' a b. rewrite H1, H2. case_decide; [done|apply Ha].
  - intros _ Hap. by destruct (apart_set_right k (Some v) l1 l2 l1' l2' Hap H1 H2).
Qed.

(** Half of it. *)
Lemma same_attrs_copied k v l1 l2 l2' : ¬ works → afind k l1 = Some v → set_to k (Some v) l2 l2' → same_attrs l1 l2 l1 l2'.
Proof.
  intros Hw Hv H2. split; [|split; [done|split; [|done]]].
  - intros k'. rewrite !afind_app, H2. case_decide; [subst; by rewrite Hv|done].
  - intros Ha k' a b. rewrite H2. case_decide; [subst|apply Ha]. rewrite Hv. congruence.
Qed.

(** The inode has room for attributes, at least [f] bytes of it free. *)
Definition roomy (n : ext4_inode) (f : Z) : Prop := EXT4_INODE_HAS_XATTR_SPACE n = true ∧ free_ge n f.

Lemma roomy_size n n' f f' : roomy n f → free_ge n' f' → i_extra_isize n' = i_extra_isize n →
  length (raw_inode n') = length (raw_inode n) → roomy n' f'.
Proof. intros [Hs _] Hf He Hl. split; [|done]. unfold EXT4_INODE_HAS_XATTR_SPACE, buf_end in *. by rewrite He, Hl. Qed.

(** The attribute is in the block, its bytes in the inode are free; or the call
    failed and the inode is as it was. *)
Definition moved_out (x x' : store) (l1 l2 : list (Z * bytes * bytes)) (y : xentry) (f code : Z) : Prop :=
  (code = 0 ∧ ∃ l1' l2', inode_parts o blocksize (sx_inode x') l1' l2' ∧ same_attrs l1 l2 l1' l2' ∧
     names_size l1' = names_size l1 - EXT4_XATTR_LEN (Z.of_nat (length (x_name y))) ∧ (length l1 = S (length l1'))%nat ∧
     roomy (sx_inode x') (f + EXT4_XATTR_LEN (Z.of_nat (length (x_name y))) + pad (x_size y))) ∨
  (code ≠ 0 ∧ (works → code = - ENOSPC) ∧
     ∃ l2', inode_parts o blocksize (sx_inode x') l1 l2' ∧ same_attrs l1 l2 l1 l2' ∧ roomy (sx_inode x') f).

Lemma move_run j x ibs l1 es e_end y : inode_ok (sx_inode x) → body (sx_inode x) l1 es e_end → y ∈ es →
  let i := Ext4XattrInfo (x_name y) None 0 (x_index y) false in
  let i' := Ext4XattrInfo (x_name y) (Some (ValueBytes (value_of (raw_inode (sx_inode x)) (IFIRST (sx_inode x)) y))) (x_size y) (x_index y) false in
  ext4_xattr_ibody_find (sx_inode x) i = Some (0, ibs) →
  ext4_xattr_move_to_block o e j blocksize (x_pos y) x =
    (if negb (j_move_kmalloc j) then mret (- ENOMEM)
     else if negb (io_inode_loc o =? 0) then mret (io_inode_loc o)
     else
       f ← ext4_xattr_block_find o i';
       let '(error, bs) := f in
       if negb (error =? 0) then mret error
       else
         error ← ext4_xattr_block_set o e j blocksize i' bs;
         if negb (error =? 0) then mret error else ext4_xattr_ibody_set e blocksize i ibs) x.
Proof.
  intros Hi Hb Hy i i' Ef. destruct (moved_entry _ _ _ _ _ Hi Hb Hy) as (Einf & Er & _ & _ & _ & Ev & _).
  destruct (read_entry_Some _ _ _ Er) as (_ & _ & _ & Eo & _). unfold ext4_xattr_move_to_block, get.
  rewrite (st_bind_step _ _ x x x) by done. cbv zeta. rewrite (lift_step _ _ _ _ Einf).
  cbv beta iota. destruct (j_move_kmalloc j); cbn [negb Z.eqb]; [|done].
  assert (saved_value o j (sx_inode x) (x_pos y) 0 (x_hash y) (x_size y) = Some (inr (value_of (raw_inode (sx_inode x)) (IFIRST (sx_inode x)) y))) as Es.
  { unfold saved_value. cbn [negb Z.eqb]. rewrite Eo. cbn [mbind option_bind]. by rewrite Ev. }
  rewrite (lift_step _ _ _ _ Es). cbv beta iota. destruct (io_inode_loc o =? 0); cbn [negb]; [|done].
  rewrite (lift_step _ _ _ _ Ef). reflexivity.
Qed.

Lemma parts_acl n acl l1 l2 : HEADER_SIZE + 4 ≤ blocksize → inode_ok n → ibody_repr n l1 → acl_repr o blocksize acl l2 →
  inode_parts o blocksize (set_block acl n) l1 l2.
Proof. intros Hbs Hi Hb Ha. split; [by eapply acl_inode_ok|done|done]. Qed.

(** The last step of a move. *)
Lemma move_removed j x x2 l1 l2 l2' es e_end y f ibs acl2 A old B : env_any o e j blocksize (i_file_acl (sx_inode x)) →
  inode_parts o blocksize (sx_inode x) l1 l2 → roomy (sx_inode x) f → body (sx_inode x) l1 es e_end → y ∈ es →
  is_system_data (x_index y) (x_name y) = false →
  search_ok (raw_inode (sx_inode x)) (IFIRST (sx_inode x)) (IFIRST (sx_inode x)) (Ext4XattrInfo (x_name y) None 0 (x_index y) false) ibs l1 A old B →
  sx_inode x2 = set_block acl2 (sx_inode x) → acl_repr o blocksize acl2 l2' →
  set_to (x_index y, x_name y) (Some (value_of (raw_inode (sx_inode x)) (IFIRST (sx_inode x)) y)) l2 l2' →
  ∃ code x', ext4_xattr_ibody_set e blocksize (Ext4XattrInfo (x_name y) None 0 (x_index y) false) ibs x2 = Some (code, x') ∧
    i_extra_isize (sx_inode x') = i_extra_isize (sx_inode x) ∧
    length (raw_inode (sx_inode x')) = length (raw_inode (sx_inode x)) ∧ moved_out x x' l1 l2 y f code.
Proof.
  intros Hany [Hi Hbo Hacl] Hro Hb Hy Hsys Hso Ex2 Ha2 Hs2. pose proof Hro as [Hsp Hfr].
  destruct (moved_entry _ _ _ _ _ Hi Hb Hy) as (_ & _ & _ & Hinf & _). set (i := Ext4XattrInfo (x_name y) None 0 (x_index y) false) in *.
  set (v := value_of (raw_inode (sx_inode x)) _ y) in *. destruct (an_blocksize _ _ _ _ _ Hany) as [_ [Hbs4 _]].
  destruct (search_body _ l1 es e_end y ibs A old B Hi Hb Hy Hso) as (es1 & es2 & -> & Hlocd & -> & Hspl).
  assert (inode_ok (sx_inode x2)) as Hok2 by (rewrite Ex2; by eapply acl_inode_ok).
  assert (EXT4_INODE_HAS_XATTR_SPACE (sx_inode x2) = true) as Hsp2 by by rewrite Ex2.
  destruct (ibody_set_any e blocksize i ibs x2 l1 A (Some v) B Hinf (an_inline _ _ _ _ _ Hany) Hok2) as (code & n3 & E3 & Hok3 & Hac3 & Hres);
    [by rewrite Ex2|by rewrite Hsp2, Ex2|done|].
  destruct Hres as [(-> & Hb3 & _)|(_ & _ & Hn)]; [|done]. exists 0, (upd_inode n3 x2). split; [done|].
  destruct (ibody_remove_free e blocksize i ibs x2 (upd_inode n3 x2) l1 es1 y es2 e_end f) as (Hfree & Hex & Hlen); try done.
  { by apply an_inline in Hany. } { rewrite Ex2. by destruct Hb; split. } { by rewrite Ex2. } { rewrite Ex2. by apply Hfr, Hb. }
  rewrite Ex2 in Hex, Hlen. split; [done|]. split; [done|]. left. split; [done|].
  exists (A ++ one (i_key i) (new_value i) ++ B), l2'. split; [split; [done|exact Hb3|cbn [upd_inode sx_inode]; by rewrite Hac3, Ex2]|]. split; [|split; [|split]].
  - apply (same_attrs_moved (x_index y, x_name y) v); [by apply not_system_data|by eapply split_at_find|by apply split_set_to with (Some v)|done].
  - destruct Hspl as (-> & _ & _). rewrite !names_size_app, names_size_one. cbn. lia.
  - destruct Hspl as (-> & _ & _). rewrite !length_app. cbn. lia.
  - by eapply roomy_size.
Qed.

Lemma move_any j x l1 l2 es e_end y f : env_any o e j blocksize (i_file_acl (sx_inode x)) →
  (works → env_ok o e j blocksize (i_file_acl (sx_inode x)) ∧ io_inode_loc o = 0) →
  inode_parts o blocksize (sx_inode x) l1 l2 → roomy (sx_inode x) f → body (sx_inode x) l1 es e_end → y ∈ es →
  is_system_data (x_index y) (x_name y) = false →
  ∃ code x', ext4_xattr_move_to_block o e j blocksize (x_pos y) x = Some (code, x') ∧
    i_extra_isize (sx_inode x') = i_extra_isize (sx_inode x) ∧
    length (raw_inode (sx_inode x')) = length (raw_inode (sx_inode x)) ∧ moved_out x x' l1 l2 y f code.
Proof.
  intros Hany Hworks [Hi Hbo Hacl] Hro Hb Hy Hsys. destruct (moved_entry _ _ _ _ _ Hi Hb Hy) as (_ & _ & _ & Hinf & Hinf' & Hva & Hsz).
  destruct (an_blocksize _ _ _ _ _ Hany) as [_ [Hbs4 _]]. pose proof Hro as [Hsp Hfr].
  set (i := Ext4XattrInfo (x_name y) None 0 (x_index y) false) in *. set (v := value_of (raw_inode (sx_inode x)) _ y) in *.
  set (i' := Ext4XattrInfo (x_name y) _ (x_size y) (x_index y) false) in *.
  destruct (ibody_find_repr _ i l1 Hi Hbo) as (ibs & Ef & _ & Hso). rewrite Hsp in Hso. destruct Hso as (A & old & B & Hso).
  rewrite (move_run j x ibs l1 es e_end y Hi Hb Hy Ef). fold v. fold i'.
  assert (∀ code n' ops l2', code ≠ 0 → (works → code = - ENOSPC) → (∃ acl, n' = set_block acl (sx_inode x) ∧ acl_repr o blocksize acl l2') →
    same_attrs l1 l2 l1 l2' → ∃ code' x', Some (code, add_log ops (upd_inode n' x)) = Some (code', x') ∧
    i_extra_isize (sx_inode x') = i_extra_isize (sx_inode x) ∧
    length (raw_inode (sx_inode x')) = length (raw_inode (sx_inode x)) ∧ moved_out x x' l1 l2 y f code') as Hfail.
  { intros code n' ops l2' Hc Hw (acl & -> & Ha) Hsa. eexists _, _. split; [done|]. split; [done|]. split; [done|]. right. split; [done|]. split; [done|].
    exists l2'. split; [by apply parts_acl|]. by split. }
  assert (∀ code, code ≠ 0 → (works → code = - ENOSPC) → ∃ code' x', Some (code, x) = Some (code', x') ∧
    i_extra_isize (sx_inode x') = i_extra_isize (sx_inode x) ∧
    length (raw_inode (sx_inode x')) = length (raw_inode (sx_inode x)) ∧ moved_out x x' l1 l2 y f code') as Hsame.
  { intros code Hc Hw. eexists _, _. split; [done|]. split; [done|]. split; [done|]. right. split; [done|]. split; [done|]. by exists l2. }
  destruct (j_move_kmalloc j) eqn:Hk; cbn [negb]; cycle 1.
  { apply Hsame; [done|]. intros H. destruct (Hworks H) as [H' _]. by rewrite (en_move_kmalloc _ _ _ _ _ H') in Hk. }
  destruct (Z.eqb_spec (io_inode_loc o) 0) as [Hloc|Hloc]; cbn [negb]; cycle 1.
  { apply Hsame; [done|]. intros H. by destruct (Hworks H). }
  destruct (block_find_any o e j blocksize (i_file_acl (sx_inode x)) i' x l2 Hacl) as (code & bs & acl & Eg & Hacl' & Hnr & Hw0 & Hbs).
  rewrite (st_bind_step _ _ _ _ _ Eg). destruct (Z.eqb_spec code 0) as [->|Hc]; cbn [negb]; cycle 1.
  { rewrite <-(add_log_nil (upd_inode _ _)). apply (Hfail code _ [] l2); [done| |by eexists|done]. intros H. by destruct (Hc (Hw0 (proj1 (Hworks H)))). }
  destruct (Hbs eq_refl) as (A2 & old2 & B2 & Hbs'). pose proof (env_any_acl o e j blocksize _ acl l2 Hany Hnr Hacl Hacl') as Hany1.
  set (x1 := upd_inode (set_block acl (sx_inode x)) x).
  destruct (block_set_any o e j blocksize acl Hany1 i' bs x1 l2 A2 old2 B2) as (code & acl2 & ops & E2 & Hres); try done.
  rewrite (st_bind_step _ _ _ _ _ E2). change (upd_inode (set_block acl2 (sx_inode x1)) x1) with (upd_inode (set_block acl2 (sx_inode x)) x).
  assert (new_value i' = Some v) as Env.
  { unfold new_value. cbn. f_equal. apply take_ge. pose proof (bytes_at_length _ _ _ _ Hva). lia. }
  pose proof (split_set_to _ _ _ _ _ (Some v) (block_search_split _ _ _ _ _ _ _ Hbs')) as Hs2. rewrite Env in Hres.
  assert (afind (x_index y, x_name y) l1 = Some v) as Hf1.
  { destruct (search_body _ l1 es e_end y ibs A old B Hi Hb Hy Hso) as (? & ? & _ & _ & -> & Hspl). by eapply split_at_find. }
  assert (works → env_ok o e j blocksize acl) as Hw1 by (intros H; destruct (Hworks H) as [H' _]; by apply (env_ok_acl _ _ _ _ _ acl l2 H')).
  destruct Hres as [(-> & Ha2)|(Hc & Hwc & Hl)]; cycle 1.
  { rewrite (proj2 (Z.eqb_neq _ _)) by done. cbn [negb]. destruct Hl as [Ha2|[Ha2 Hnw]].
    - apply (Hfail code _ ops l2); [done| |by eexists|done]. intros H. by destruct (Hwc (Hw1 H)).
    - eapply (Hfail code _ ops); [done| |by eexists|]; [intros H; by destruct (Hwc (Hw1 H))|].
      apply (same_attrs_copied (x_index y, x_name y) v); [by intros H; apply Hnw, Hw1|done|exact Hs2]. }
  cbn [negb Z.eqb]. by eapply (move_removed j x _ l1 l2 _ es e_end y f ibs acl2 A old B).
Qed.

End move.

(** ** The loop that moves attributes *)

Definition picked (c : option xentry * option xentry) : option xentry :=
  match c with (Some y, _) => Some y | (None, small) => small end.

(** The search ends, and picks an entry of the list that is not system.data. *)
Lemma choose_entry_chain r e es e_end fuel diff ifree bfree entry small m :
  chain r e es e_end → (length es < fuel)%nat →
  ∃ a b, choose_entry fuel r e diff ifree bfree entry small m = Some (a, b) ∧
    ∀ y, a = Some y ∨ b = Some y → (y ∈ es ∧ is_system_data (x_index y) (x_name y) = false) ∨ entry = Some y ∨ small = Some y.
Proof.
  intros H. revert fuel entry small m. induction H as [e El|e x es e_end El Ex Hn Hz H IH]; intros fuel entry small m Hf;
    (destruct fuel as [|fuel]; [lia|]); cbn [choose_entry]; rewrite El; cbn [mbind option_bind].
  { exists entry, small. split; [done|]. by right. }
  destruct (read_entry_Some _ _ _ Ex) as (_ & _ & _ & _ & _ & _ & _ & _ & Enx). rewrite Ex, Enx. cbn [mbind option_bind].
  cbn [length] in Hf. assert (length es < fuel)%nat as Hf' by lia.
  assert (∀ entry' small' m', (entry' = entry ∨ (entry' = Some x ∧ is_system_data (x_index x) (x_name x) = false)) →
    (small' = small ∨ (small' = Some x ∧ is_system_data (x_index x) (x_name x) = false)) →
    ∃ a b, choose_entry fuel r (x_next x) diff ifree bfree entry' small' m' = Some (a, b) ∧
      ∀ y, a = Some y ∨ b = Some y →
        (y ∈ x :: es ∧ is_system_data (x_index y) (x_name y) = false) ∨ entry = Some y ∨ small = Some y) as Hstep.
  { intros entry' small' m' He Hs. destruct (IH fuel entry' small' m' Hf') as (a & b & E & Hy). exists a, b. split; [done|].
    intros y Hab. destruct (Hy y Hab) as [[Hin Hns]|[->| ->]].
    - left. split; [by right|done].
    - destruct He as [<-|[[= ->] Hns]]; [by right; left|]. left. split; [by left|done].
    - destruct Hs as [<-|[[= ->] Hns]]; [by right; right|]. left. split; [by left|done]. }
  destruct (is_system_data _ _) eqn:Hsys; [apply Hstep; by left|].
  split_ifs; apply Hstep; auto.
Qed.

Lemma roomy_weaken n f f' : roomy n f → f' ≤ f → roomy n f'.
Proof. intros [Hs Hf] H. split; [done|]. intros es e_end Hc. etrans; [exact H|by apply Hf]. Qed.

(** The size of an entry with its value, and the free bytes, do not wrap around. *)
Lemma total_size_eq n l es e_end y f : inode_ok n → body n l es e_end → y ∈ es → 0 ≤ f → free_ge n f →
  is_u 64 (f + total_size_of y) ∧ total_size_of y = EXT4_XATTR_LEN (Z.of_nat (length (x_name y))) + pad (x_size y).
Proof.
  intros Hi Hb Hy Hf Hfg. destruct (moved_entry _ _ _ _ _ Hi Hb Hy) as (_ & Ery & _ & _ & _ & _ & Hsz).
  pose proof Hb as [Hreg _ _]. pose proof (gap_range _ _ _ _ _ Hreg).
  pose proof (Hfg _ _ (rg_chain _ _ _ _ _ Hreg)) as Hg. unfold free_of in Hg.
  pose proof (pad_bounds (x_size y)). pose proof (LEN_bounds (Z.of_nat (length (x_name y)))).
  pose proof (entry_length _ _ _ (bo_bytes _ (rg_buf _ _ _ _ _ Hreg)) Ery).
  pose proof (rg_entries _ _ _ _ _ Hreg) as Hok. rewrite Forall_forall in Hok. destruct (Hok y Hy) as [_ Hin0 _ _].
  unfold total_size_of. rewrite Hin0. cbn [Z.eqb]. rewrite SIZE_pad by lia.
  rewrite wrapU_small by (unfold is_u; lia). split; [unfold is_u; lia|done].
Qed.

Section make_space.
Context (o : io) (e : ea_io) (blocksize : Z) (js : nat → ext4_inode → journal) (works : Prop).
Hypothesis (Hany : ∀ turn n, env_any o e (js turn n) blocksize (i_file_acl n)).
Hypothesis (Hworks : works → (∀ turn n, env_ok o e (js turn n) blocksize (i_file_acl n)) ∧ io_inode_loc o = 0).

(** What the loop makes of the inode: its attributes are the same, and on success
    [diff] bytes are free. *)
Definition space_made (x x' : store) (l1 l2 : list (Z * bytes * bytes)) (diff code total : Z) : Prop :=
  i_extra_isize (sx_inode x') = i_extra_isize (sx_inode x) ∧
  (works → code = 0 ∨ code = - ENOSPC) ∧
  ∃ l1' l2', inode_parts o blocksize (sx_inode x') l1' l2' ∧ same_attrs works l1 l2 l1' l2' ∧ (length l1' ≤ length l1)%nat ∧
    total = IBODY_HEADER_SIZE + 4 + names_size l1' ∧ roomy (sx_inode x') (if code =? 0 then diff else 0).

Lemma make_inode_space_any diff fuel turn ifree bfree total x l1 l2 : 0 ≤ diff ≤ 65536 → 0 ≤ ifree →
  inode_parts o blocksize (sx_inode x) l1 l2 → roomy (sx_inode x) ifree → (length l1 < fuel)%nat →
  total = IBODY_HEADER_SIZE + 4 + names_size l1 →
  ∃ code total' x', ext4_xattr_make_inode_space fuel o e js turn blocksize diff ifree bfree total x = Some ((code, total'), x') ∧
    space_made x x' l1 l2 diff code total'.
Proof.
  intros Hdiff. revert turn ifree bfree total x l1 l2. induction fuel as [|fuel IH]; intros turn ifree bfree total x l1 l2 Hfr Hr Hro Hf Ht; [lia|].
  cbn [ext4_xattr_make_inode_space]. rewrite wrapU_small by (unfold is_u; lia).
  destruct (Z.leb_spec diff ifree) as [Hle|Hgt].
  { exists 0, total, x. split; [done|]. split; [done|]. split; [by left|]. exists l1, l2. split_and!; try done.
    eapply roomy_weaken; [exact Hro|done]. }
  pose proof Hr as [Hi Hb _]. pose proof Hro as [Hsp Hfg]. destruct (ibody_body _ _ Hsp Hb) as (es & e_end & Hbody).
  pose proof (IFIRST_nonneg _ Hi) as H0. pose proof Hbody as [Hreg Hat _]. pose proof (rg_chain _ _ _ _ _ Hreg) as Hc.
  unfold get. rewrite (st_bind_step _ _ x x x) by done. cbv zeta.
  destruct (choose_entry_chain _ _ _ _ (fuel_of (raw_inode (sx_inode x))) diff ifree bfree None None (2 ^ 32 - 1) Hc (chain_fuel _ _ _ _ H0 Hc))
    as (a & b & Ec & Hpick). rewrite (lift_step _ _ _ _ Ec). fold (picked (a, b)).
  destruct (picked (a, b)) as [y|] eqn:Ep; cycle 1.
  { exists (- ENOSPC), total, x. split; [done|]. split; [done|]. split; [by right|]. exists l1, l2. split_and!; try done.
    eapply roomy_weaken; [exact Hro|done]. }
  assert (y ∈ es ∧ is_system_data (x_index y) (x_name y) = false) as [Hy Hsys].
  { destruct (Hpick y) as [?|[|]]; try done. destruct a; [by left|by right]. }
  destruct (move_any o e blocksize works _ x l1 l2 es e_end y ifree (Hany turn _)
    ltac:(intros H; destruct (Hworks H); done) Hr Hro Hbody Hy Hsys) as (code & x1 & Em & Hx & Hl & Hm).
  rewrite (st_bind_step _ _ _ _ _ Em).
  destruct Hm as [(-> & l1' & l2' & Hr' & Ha' & Hns & Hlen & Hro')|(Hc0 & Hw & l2' & Hr' & Ha' & Hro')]; cbn [negb Z.eqb].
  2:{ rewrite (proj2 (Z.eqb_neq _ _)) by done. exists code, total, x1. split; [done|]. split; [done|]. split; [intros H; right; by apply Hw|].
      exists l1, l2'. split_and!; try done. rewrite (proj2 (Z.eqb_neq _ _)) by done. eapply roomy_weaken; [exact Hro'|done]. }
  destruct (total_size_eq _ _ _ _ _ _ Hi Hbody Hy Hfr Hfg) as [Hu Hts].
  rewrite (wrapU_small 64 (ifree + _)) by done. rewrite Hts. destruct Hu as [Hu _]. rewrite Hts in Hu.
  destruct (IH (S turn) (ifree + (EXT4_XATTR_LEN (Z.of_nat (length (x_name y))) + pad (x_size y)))
    (u64 (bfree - (EXT4_XATTR_LEN (Z.of_nat (length (x_name y))) + pad (x_size y)))) (total - EXT4_XATTR_LEN (Z.of_nat (length (x_name y)))) x1 l1' l2')
    as (code & total' & x2 & E2 & Hx2 & Hcode & m1 & m2 & Hr2 & Ha2 & Hl2 & Ht2 & Hro2); try done; try lia.
  { by rewrite Z.add_assoc. }
  exists code, total', x2. split; [done|]. split; [congruence|]. split; [done|]. exists m1, m2. split; [done|]. split; [by eapply same_attrs_trans|]. split_and!; try done. lia.
Qed.

End make_space.

(** ** Shifting *)

(** The loop over the offsets is the one of ext4_xattr_set_entry, for every value. *)
Lemma shift_offsets_adjust fuel r last d : is_bytes r →
  shift_offsets fuel r last d = fst <$> adjust_offsets fuel r last 65536 d.
Proof.
  revert r last. induction fuel as [|fuel IH]; intros r last Hb; [done|]. cbn [shift_offsets adjust_offsets].
  destruct (IS_LAST_ENTRY r last) as [l|]; cbn [mbind option_bind]; [|done]. destruct l; [done|].
  destruct (rd32 r (last + E_VALUE_INUM)) as [inum|]; cbn [mbind option_bind]; [|by destruct (rd16 r _)].
  destruct (rd32 r (last + E_VALUE_SIZE)) as [size|]; cbn [mbind option_bind]; [|by destruct (rd16 r _)].
  destruct (rd16 r (last + E_VALUE_OFFS)) as [offs|] eqn:Eo; cbn [mbind option_bind]; [|done].
  pose proof (rd_range _ _ _ _ Hb Eo) as Ro. change (2 ^ (8 * Z.of_nat 2)) with 65536 in Ro.
  rewrite (proj2 (Z.ltb_lt offs 65536)), andb_true_r by lia.
  destruct ((inum =? 0) && negb (size =? 0)).
  - destruct (wr 2 r _ _) as [r'|] eqn:Ew; cbn [mbind option_bind]; [|done].
    destruct (EXT4_XATTR_NEXT r' last); cbn [mbind option_bind]; [|done]. apply IH. by eapply wr_bytes.
  - cbn [mbind option_bind]. destruct (EXT4_XATTR_NEXT r last); cbn [mbind option_bind]; [|done]. by apply IH.
Qed.

Lemma spans_ok_translate lo hi lo' hi' d l : spans_ok lo hi l → lo' ≤ lo + d → hi + d ≤ hi' →
  spans_ok lo' hi' ((λ p, (p.1 + d, p.2)) <$> l).
Proof.
  intros [H1 H2] ??. split.
  - apply Forall_fmap. eapply Forall_impl; [exact H1|]. cbn. intros p. lia.
  - clear H1. induction l as [|p l IH]; [done|]. cbn [fmap list_fmap vdisj] in *. destruct H2 as [H2 H3].
    split; [|by apply IH]. apply Forall_fmap. eapply Forall_impl; [exact H2|]. unfold disj. cbn. intros q. lia.
Qed.

Section shift.
Context (n : ext4_inode) (l : list (Z * bytes * bytes)) (es : list xentry) (e_end d : Z).
Hypothesis (Hi : inode_ok n) (Hb : body n l es e_end) (Hd : 0 < d ≤ free_of n es e_end).

Let r := raw_inode n.
Let base := IFIRST n.
Let m := lowest (buf_end r - base) es.

Lemma shift_bounds : 132 ≤ base ∧ base ≤ e_end ∧ e_end + 4 + d ≤ base + m ∧ m ≤ buf_end r - base ∧ spans_ok m (buf_end r - base) (vspans es).
Proof.
  pose proof Hb as [Hreg _ _]. pose proof Hreg as [Hbuf Hbs Hc _ Hsp]. fold r base in Hreg, Hc, Hsp.
  pose proof (proj1 (chain_seg _ _ _ _) Hc) as [Hs%seg_le _]. pose proof (proj1 (lowest_le (buf_end r - base) es)). fold m in H.
  pose proof (io_extra _ Hi). split_and!; try lia.
  - unfold base, IFIRST, IHDR, EXT4_GOOD_OLD_INODE_SIZE, IBODY_HEADER_SIZE. lia.
  - destruct Hd as [_ Hdd]. unfold free_of, gap in Hdd. fold r base m in Hdd. lia.
  - by eapply spans_lowest.
Qed.

Let adj := adj_x 65536 (- d).
Let es' := shift_x d <$> (adj <$> es).

Lemma adj_vspans : vspans es' = (λ p, (p.1 + - d, p.2)) <$> vspans es.
Proof.
  unfold es'. rewrite vspans_shift. unfold adj. rewrite vspans_adj. apply list_fmap_ext. intros i p Hp%list_elem_of_lookup_2.
  apply vspans_inv in Hp as (x & Hx & Hv & ->). unfold close_gap. cbn [fst snd].
  destruct shift_bounds as (_ & _ & _ & _ & Hsp & _). rewrite Forall_forall in Hsp. specialize (Hsp _ (elem_of_vspans _ _ Hx Hv)).
  cbn [fst snd] in Hsp. pose proof (bo_size _ (rg_buf _ _ _ _ _ (bd_region _ _ _ _ Hb))) as Hsz. fold r in Hsz.
  pose proof shift_bounds as (? & _). by rewrite (proj2 (Z.ltb_lt _ _)) by lia.
Qed.

(** The bytes after the shift. *)
Lemma shift_run total : total = IBODY_HEADER_SIZE + 4 + names_size l →
  ∃ r1 r2, ext4_xattr_shift_entries r base (- d) (base - IBODY_HEADER_SIZE + d) (base - IBODY_HEADER_SIZE) total = Some r2 ∧
    chain r1 base (adj <$> es) e_end ∧ is_bytes r2 ∧ length r1 = length r ∧ length r2 = length r ∧
    (∀ k, k < base ∨ e_end ≤ k → zlookup r1 k = zlookup r k) ∧
    moved d r1 r2 (base - IBODY_HEADER_SIZE) (e_end + 4) ∧ moved 0 r1 r2 (e_end + 4 + d) (buf_end r).
Proof.
  intros ->. destruct shift_bounds as (S1 & S2 & S3 & S4 & S5). pose proof Hb as [[Hbuf Hbs Hc Hok _] Hat _]. fold r base in Hbuf, Hbs, Hc, Hat.
  pose proof (bo_size _ Hbuf) as Hsz. assert (0 ≤ base) as H0 by lia. pose proof (chain_end r base base es e_end Hc) as He. rewrite Hat in He.
  destruct (adjust_offsets_chain 65536 (- d) es r base e_end (fuel_of r)) as (r1 & E1 & Hc1 & L1 & B1 & Z1); try done.
  { apply Hbuf. }
  { intros x Hx Hv _. destruct S5 as [S5 _]. rewrite Forall_forall in S5. specialize (S5 _ (elem_of_vspans _ _ Hx Hv)). cbn [fst snd] in S5. lia. }
  { by eapply chain_fuel. }
  unfold ext4_xattr_shift_entries. rewrite (proj2 (Z.ltb_ge 0 (- d))) by lia. rewrite shift_offsets_adjust, E1 by apply Hbuf.
  cbn [fmap option_fmap option_map mbind option_bind fst]. unfold IBODY_HEADER_SIZE, buf_end in *.
  destruct (memmove_Some r1 (base - 4 + d) (base - 4) (4 + 4 + names_size l)) as [r2 E2]; [lia..|].
  destruct (memmove_spec _ _ _ _ _ E2) as [L2 Z2]. exists r1, r2. split_and!; try done; [by eapply memmove_bytes|lia| |].
  - intros k Hk. rewrite Z2, decide_True by lia. f_equal. lia.
  - intros k Hk. rewrite Z2, decide_False by lia. f_equal. lia.
Qed.

Lemma shift_attrs r2 : moved 0 r r2 (base + m) (buf_end r) → length r2 = length r → attrs r2 (base + d) es' = l.
Proof.
  intros Hm Hl. destruct shift_bounds as (S1 & S2 & S3 & S4 & S5). pose proof Hb as [[_ _ _ Hok _] <- _]. fold r base.
  unfold es'. rewrite attrs_shift. unfold attrs. rewrite <-list_fmap_compose. apply list_fmap_ext.
  intros i x Hx%list_elem_of_lookup_2. unfold compose, attr. destruct (adj_x_name 65536 (- d) x) as (En & Ei & _ & _ & Es & _ & _).
  fold adj in En, Ei, Es. rewrite En, Ei. f_equal. rewrite Forall_forall in Hok.
  rewrite <-(value_frame r r2 base m es x S5 Hx (Hok x Hx) ltac:(lia) Hm Hl).
  destruct (entry_ok_val x (Hok x Hx)) as [Hv|Hz]; [|by rewrite !value_of_0 by congruence].
  unfold value_of. rewrite Es. do 2 f_equal. unfold adj, adj_x. rewrite Hv. cbn [andb].
  destruct S5 as [S5 _]. rewrite Forall_forall in S5. specialize (S5 _ (elem_of_vspans _ _ Hx Hv)). cbn [fst snd] in S5.
  pose proof (bo_size _ (rg_buf _ _ _ _ _ (bd_region _ _ _ _ Hb))) as Hsz. fold r in Hsz.
  rewrite (proj2 (Z.ltb_lt _ _)) by lia. cbn. lia.
Qed.

Lemma shift_region total : total = IBODY_HEADER_SIZE + 4 + names_size l →
  ∃ r2, ext4_xattr_shift_entries r base (- d) (base - IBODY_HEADER_SIZE + d) (base - IBODY_HEADER_SIZE) total = Some r2 ∧
    length r2 = length r ∧ region r2 (base + d) (base + d) es' (e_end + d) ∧ attrs r2 (base + d) es' = l ∧
    rd32 r2 (base - IBODY_HEADER_SIZE + d) = rd32 r (base - IBODY_HEADER_SIZE).
Proof.
  intros Ht. destruct (shift_run total Ht) as (r1 & r2 & E & Hc1 & B2 & L1 & L2 & Z1 & M1 & M2).
  destruct shift_bounds as (S1 & S2 & S3 & S4 & S5). pose proof Hb as [[Hbuf Hbs Hc Hok _] _ _]. fold r base in Hbuf, Hbs, Hc.
  assert (buf_end r1 = buf_end r ∧ buf_end r2 = buf_end r) as [B1' B2'] by (unfold buf_end; by rewrite L1, L2).
  exists r2. split; [done|]. split; [done|]. unfold IBODY_HEADER_SIZE in *. split; [split|split].
  - destruct Hbuf. split; [done|by rewrite B2'..].
  - lia.
  - apply chain_seg in Hc1 as [Hs1 Hl1]. apply chain_seg. split.
    + eapply (seg_moved d r1 r2); [exact Hs1|lia|lia| |lia|lia]. eapply moved_weaken; [exact M1|lia|lia].
    + apply (last_moved d r1); [done|lia| |lia]. eapply moved_weaken; [exact M1|lia|lia].
  - unfold es'. rewrite !Forall_fmap. eapply Forall_impl; [exact Hok|]. intros x Hx. cbn [compose].
    apply (entry_ok_adj 65536 (- d)) in Hx. fold adj in Hx. by destruct Hx; split.
  - rewrite adj_vspans, B2'. eapply spans_ok_translate; [exact S5|lia|lia].
  - apply shift_attrs; [|done]. intros k Hk. rewrite M2 by lia. apply Z1. lia.
  - assert (∀ q, buf_end q = buf_end r → is_Some (rd32 q (base - 4))) as Hs.
    { intros q Hq. apply rd_is_Some. unfold buf_end in *. lia. }
    rewrite (rd_moved d 4 r1 r2 (base - 4) (e_end + 4)); [|exact M1|lia|lia|by apply Hs|lia|unfold buf_end in *; lia].
    rewrite <-(Z.add_0_r (base - 4)) at 1. rewrite (rd_moved 0 4 r r1 (base - 4) base); [done| |lia|lia|by apply Hs|lia|unfold buf_end in *; lia].
    intros k Hk. rewrite Z.add_0_r. apply Z1. lia.
Qed.
End shift.

(** ** Expanding *)

Lemma shift_inode_parts o e blocksize new total x l1 l2 : default 0 (ea_inline e) = 0 →
  inode_parts o blocksize (sx_inode x) l1 l2 → i_extra_isize (sx_inode x) < new → new mod 4 = 0 →
  roomy (sx_inode x) (new - i_extra_isize (sx_inode x)) → total = IBODY_HEADER_SIZE + 4 + names_size l1 →
  ∃ x', shift_inode e new total x = Some (0, x') ∧ inode_parts o blocksize (sx_inode x') l1 l2 ∧ i_extra_isize (sx_inode x') = new.
Proof.
  intros Hinl [Hi Hb Ha] Hn Hm [Hsp Hfg] Ht. set (n := sx_inode x) in *. set (d := new - i_extra_isize n) in *.
  pose proof Hb as Hst. unfold ibody_repr in Hst. fold n in Hst. rewrite Hsp in Hst. destruct Hst as (es & e_end & Hreg0 & Hat0 & Hnd & Hst).
  assert (body n l1 es e_end) as Hbody by done. pose proof (Hfg _ _ (rg_chain _ _ _ _ _ (bd_region _ _ _ _ Hbody))) as Hfr.
  assert (0 < d ≤ free_of n es e_end) as Hd by lia.
  destruct (shift_region n l1 es e_end d Hi Hbody Hd total Ht) as (r2 & E & L & Hreg & Hat & Hmg).
  destruct (shift_bounds n l1 es e_end d Hi Hbody Hd) as (S1 & S2 & S3 & S4 & _).
  unfold shift_inode, get. rewrite (st_bind_step _ _ x x x) by done. cbv zeta. fold n.
  replace (i_extra_isize n - new) with (- d) by lia. replace (EXT4_GOOD_OLD_INODE_SIZE + new) with (IFIRST n - IBODY_HEADER_SIZE + d) by (unfold IFIRST, IHDR; lia).
  replace (IHDR n) with (IFIRST n - IBODY_HEADER_SIZE) by (unfold IFIRST; lia). rewrite (lift_step _ _ _ _ E).
  rewrite (st_bind_step _ _ _ _ _ (put_inode_run _ _)), Hinl. eexists. split; [reflexivity|]. split; [|done]. cbn [upd_inode sx_inode].
  set (n' := Ext4Inode r2 new (state_xattr n) (i_file_acl n)). destruct Hi as [H1 [H2 _] H3 H4].
  assert (IFIRST n' = IFIRST n + d) as Ef by (unfold n', IFIRST, IHDR; cbn; lia).
  assert (buf_end r2 = buf_end (raw_inode n)) as Eb by (unfold buf_end; by rewrite L).
  split; [|unfold ibody_repr|done].
  - split; [apply Hreg|cbn; lia| |done]. rewrite Ef. cbn [raw_inode n']. lia.
  - assert (EXT4_INODE_HAS_XATTR_SPACE n' = true) as ->.
    { unfold EXT4_INODE_HAS_XATTR_SPACE. cbn [raw_inode i_extra_isize n']. rewrite (proj2 (Z.eqb_neq new 0)) by lia. cbn [negb andb].
      apply Z.leb_le. unfold IFIRST, IHDR in *. lia. }
    rewrite Ef. cbn [raw_inode state_xattr n']. eexists _, _. split; [exact Hreg|]. split; [done|].
    split; [done|]. destruct (state_xattr n); [|by subst es].
    replace (IHDR n') with (IFIRST n - IBODY_HEADER_SIZE + d) by (unfold IFIRST, IHDR, n'; cbn; lia). rewrite Hmg.
    replace (IFIRST n - IBODY_HEADER_SIZE) with (IHDR n) by (unfold IFIRST; lia). done.
Qed.

Section expand.
Context (o : io) (e : ea_io) (blocksize : Z) (works : Prop).

(** The inode is well formed, with the attributes it had, and of size [size] on success. *)
Definition expanded (x x' : store) (l1 l2 : list (Z * bytes * bytes)) (size : Z → Prop) (code : Z) : Prop :=
  (works → code = 0 ∨ code = - ENOSPC ∨ code = - EFSCORRUPTED) ∧
  (∃ l1' l2', inode_parts o blocksize (sx_inode x') l1' l2' ∧ same_attrs works l1 l2 l1' l2') ∧
  if code =? 0 then size (i_extra_isize (sx_inode x')) else i_extra_isize (sx_inode x') = i_extra_isize (sx_inode x).

Lemma block_free_any x l : acl_repr o blocksize (i_file_acl (sx_inode x)) l →
  ∃ f acl, block_free o blocksize x = Some (f, upd_inode (set_block acl (sx_inode x)) x) ∧ acl_repr o blocksize acl l ∧
    match f with inl code => code ≠ 0 ∧ io_bread o ≠ 0 | inr _ => True end.
Proof.
  intros Hacl. unfold block_free, get. rewrite (st_bind_step _ _ x x x) by done.
  assert (upd_inode (set_block (i_file_acl (sx_inode x)) (sx_inode x)) x = x) as Hsame by (by destruct x as [[]]).
  destruct (i_file_acl (sx_inode x)) as [b|] eqn:Eb; [|by exists (inr (blocksize, false)), None; rewrite Hsame].
  destruct (Z.eqb_spec (io_bread o) 0) as [_|Hb]; cbn [negb]; [|by exists (inl (io_bread o)), (Some b); rewrite Hsame].
  destruct (check_block_repr o blocksize b l Hacl) as (b' & Ec & Ed & En & Hrep).
  rewrite (lift_step _ _ _ _ Ec). rewrite (st_bind_step _ _ _ _ _ (put_inode_run _ _)). cbn [Z.eqb negb].
  pose proof Hrep as (((es & e_end & Hreg & _) & _) & _). pose proof (free_space_region _ _ _ _ _ 0 Hreg) as Ef. rewrite Z.sub_0_r in Ef.
  rewrite (lift_step _ _ _ _ Ef). by exists (inr (gap (b_data b') 0 es e_end, true)), (Some b').
Qed.

Lemma check_code n es e_end : inode_ok n → EXT4_INODE_HAS_XATTR_SPACE n = true →
  region (raw_inode n) (IFIRST n) (IFIRST n) es e_end →
  xattr_check_inode n = Some 0 ∨ xattr_check_inode n = Some (- EFSCORRUPTED).
Proof.
  intros Hi Hs Hreg. pose proof (space_room _ Hs) as Hroom. pose proof (io_extra _ Hi) as [He _]. pose proof (bo_size _ (io_raw _ Hi)).
  destruct (rd_Some 4 (raw_inode n) (IHDR n)) as [mg Em].
  { unfold IHDR, EXT4_GOOD_OLD_INODE_SIZE. lia. } { unfold IFIRST, IBODY_HEADER_SIZE, buf_end in *. lia. }
  destruct (decide (mg = EXT4_XATTR_MAGIC)) as [->|Hne]; [left; by eapply check_inode_ok|right].
  unfold xattr_check_inode. rewrite Em. unfold IFIRST, IHDR, EXT4_GOOD_OLD_INODE_SIZE, IBODY_HEADER_SIZE in *.
  rewrite wrapU_small by (unfold is_u; lia). rewrite (proj2 (Z.ltb_ge _ _)) by lia. cbn [mbind option_bind].
  by rewrite (proj2 (Z.eqb_neq _ _) Hne).
Qed.

Section once.
Context (retry : st store Z) (js : nat → ext4_inode → journal) (new old : Z) (size : Z → Prop).
Hypothesis (Hany : ∀ turn n, env_any o e (js turn n) blocksize (i_file_acl n)).
Hypothesis (Hworks : works → (∀ turn n, env_ok o e (js turn n) blocksize (i_file_acl n)) ∧ io_inode_loc o = 0).
Hypothesis (Hnew : 0 ≤ new ≤ 65535 ∧ new mod 4 = 0).
Hypothesis (Hretry : ∀ x l1 l2, inode_parts o blocksize (sx_inode x) l1 l2 → EXT4_INODE_HAS_XATTR_SPACE (sx_inode x) = true →
  i_extra_isize (sx_inode x) = old → ∃ code x', retry x = Some (code, x') ∧ expanded x x' l1 l2 size code).

Definition once_size (z : Z) : Prop := z = Z.max old new ∨ size z.

Lemma retry_any x x1 l1 l2 l1' l2' : inode_parts o blocksize (sx_inode x1) l1' l2' → same_attrs works l1 l2 l1' l2' →
  EXT4_INODE_HAS_XATTR_SPACE (sx_inode x1) = true → i_extra_isize (sx_inode x1) = old → i_extra_isize (sx_inode x) = old →
  ∃ code x', retry x1 = Some (code, x') ∧ expanded x x' l1 l2 once_size code.
Proof.
  intros Hr Ha Hs He He0. destruct (Hretry x1 _ _ Hr Hs He) as (code & x' & E & Hc & (m1 & m2 & Hr' & Ha') & Hz).
  exists code, x'. split; [done|]. split; [done|]. split.
  - exists m1, m2. split; [done|]. by eapply same_attrs_trans.
  - destruct (code =? 0); [by right|congruence].
Qed.

(** An error that does not lead to another try. *)
Lemma failed_any (x x' : store) l1 l2 l1' l2' code : code ≠ 0 → (works → code = - ENOSPC ∨ code = - EFSCORRUPTED) →
  inode_parts o blocksize (sx_inode x') l1' l2' → same_attrs works l1 l2 l1' l2' → i_extra_isize (sx_inode x') = i_extra_isize (sx_inode x) →
  ∃ code' x'', Some (code, x') = Some (code', x'') ∧ expanded x x'' l1 l2 once_size code'.
Proof.
  intros Hc Hw Hr Ha He. exists code, x'. split; [done|]. split; [intros H; right; by apply Hw|]. split; [by exists l1', l2'|].
  by rewrite (proj2 (Z.eqb_neq _ _)).
Qed.

Lemma expand_once_any x l1 l2 : inode_parts o blocksize (sx_inode x) l1 l2 → EXT4_INODE_HAS_XATTR_SPACE (sx_inode x) = true →
  i_extra_isize (sx_inode x) = old →
  ∃ code x', expand_once retry o e js blocksize new x = Some (code, x') ∧ expanded x x' l1 l2 once_size code.
Proof.
  intros Hr Hsp Hold. pose proof Hr as [Hi Hb Ha]. destruct (ibody_body _ _ Hsp Hb) as (es & e_end & Hbody).
  pose proof Hbody as [Hreg Hat _]. pose proof (Hany 0 (sx_inode x)) as Hany0. pose proof (io_extra _ Hi) as [Hex _].
  unfold expand_once, get. rewrite (st_bind_step _ _ x x x) by done. cbv zeta.
  destruct (Z.leb_spec new (i_extra_isize (sx_inode x))) as [Hle|Hgt].
  { exists 0, x. split; [done|]. split; [by left|]. split; [by exists l1, l2|]. left. lia. }
  destruct (check_code _ _ _ Hi Hsp Hreg) as [Ec|Ec]; rewrite (lift_step _ _ _ _ Ec); cbn [Z.eqb negb]; cycle 1.
  { apply (failed_any x x l1 l2 l1 l2); try done. by right. }
  rewrite (lift_step _ _ _ _ (free_space_region _ _ _ _ _ (IBODY_HEADER_SIZE + 4) Hreg)). cbv beta iota. rewrite Hat.
  set (d := new - i_extra_isize (sx_inode x)). rewrite (wrapU_small 64 d) by (unfold is_u; lia).
  assert (roomy (sx_inode x) (free_of (sx_inode x) es e_end)) as Hro by (split; [done|by eapply body_free]).
  fold (free_of (sx_inode x) es e_end). pose proof (gap_range _ _ _ _ _ Hreg) as Hgap. fold (free_of (sx_inode x) es e_end) in Hgap.
  destruct (Z.leb_spec d (free_of (sx_inode x) es e_end)) as [Hfit|Hnofit].
  { destruct (shift_inode_parts o e blocksize new (IBODY_HEADER_SIZE + 4 + names_size l1) x l1 l2 (an_inline _ _ _ _ _ Hany0) Hr) as (x' & E & Hr' & Hx');
      [lia|apply Hnew|by eapply roomy_weaken|done|].
    exists 0, x'. split; [done|]. split; [by left|]. split; [by exists l1, l2|]. left. lia. }
  destruct (block_free_any x l2 Ha) as (bf & acl & Ef & Ha' & Hbf). rewrite (st_bind_step _ _ _ _ _ Ef).
  set (x1 := upd_inode _ x).
  assert (inode_parts o blocksize (sx_inode x1) l1 l2) as Hr1.
  { apply parts_acl; [by destruct (an_blocksize _ _ _ _ _ Hany0) as [_ [? _]]|done..]. }
  destruct bf as [code|[bfree hb]].
  { destruct Hbf as [Hc Hb0]. apply (failed_any x x1 l1 l2 l1 l2); try done. intros H. destruct (Hworks H) as [He _].
    by destruct (Hb0 (en_bread _ _ _ _ _ (He 0%nat (sx_inode x)))). }
  destruct (hb && _); [by apply (retry_any x x1 l1 l2 l1 l2)|].
  assert (length l1 < fuel_of (raw_inode (sx_inode x)))%nat as Hfuel.
  { rewrite <-Hat. unfold attrs. rewrite length_fmap. eapply chain_fuel; [|exact (rg_chain _ _ _ _ _ Hreg)]. by apply IFIRST_nonneg. }
  destruct (make_inode_space_any o e blocksize js works Hany Hworks d _ 0 _ bfree _ x1 l1 l2 ltac:(lia) (proj1 Hgap) Hr1 Hro Hfuel eq_refl)
    as (code & total & x2 & Em & Hx2 & Hcode & m1 & m2 & Hr2 & Hs2 & _ & Ht & Hro2).
  rewrite (st_bind_step _ _ _ _ _ Em). cbn beta iota. destruct (Z.eqb_spec code (- ENOSPC)) as [->|Hns].
  { apply (retry_any x x2 l1 l2 m1 m2); try done; [apply Hro2|by rewrite Hx2]. }
  destruct (Z.eqb_spec code 0) as [->|Hc]; cbn [negb]; cycle 1.
  { apply (failed_any x x2 l1 l2 m1 m2); try done. intros H. by destruct (Hcode H). }
  destruct (shift_inode_parts o e blocksize new total x2 m1 m2 (an_inline _ _ _ _ _ Hany0) Hr2) as (x' & E & Hr' & Hx');
    [rewrite Hx2; cbn; lia|apply Hnew|by rewrite Hx2|done|].
  exists 0, x'. split; [done|]. split; [by left|]. split; [by exists m1, m2|]. left. lia.
Qed.

End once.

Lemma expand_any tries js s_min new x l1 l2 :
  (∀ tries turn n, env_any o e (js tries turn n) blocksize (i_file_acl n)) →
  (works → (∀ tries turn n, env_ok o e (js tries turn n) blocksize (i_file_acl n)) ∧ io_inode_loc o = 0) →
  0 ≤ new ≤ 65535 ∧ new mod 4 = 0 → 0 ≤ s_min ≤ 65535 ∧ s_min mod 4 = 0 →
  inode_parts o blocksize (sx_inode x) l1 l2 → EXT4_INODE_HAS_XATTR_SPACE (sx_inode x) = true →
  ∃ code x', ext4_expand_extra_isize_ea tries o e js blocksize s_min new x = Some (code, x') ∧
    expanded x x' l1 l2 (λ z, z = Z.max (i_extra_isize (sx_inode x)) new ∨ z = Z.max (i_extra_isize (sx_inode x)) s_min) code.
Proof.
  intros Hany Hworks Hnew Hmin. revert new x l1 l2 Hnew.
  assert (∀ old tries new x l1 l2, 0 ≤ new ≤ 65535 ∧ new mod 4 = 0 → inode_parts o blocksize (sx_inode x) l1 l2 →
    EXT4_INODE_HAS_XATTR_SPACE (sx_inode x) = true → i_extra_isize (sx_inode x) = old →
    ∃ code x', ext4_expand_extra_isize_ea tries o e js blocksize s_min new x = Some (code, x') ∧
      expanded x x' l1 l2 (λ z, z = Z.max old new ∨ z = Z.max old s_min) code) as H; [|intros; by apply H].
  intros old. clear tries. induction tries as [|tries IH]; intros new x l1 l2 Hnew Hr Hs Ho; cbn [ext4_expand_extra_isize_ea].
  - apply (expand_once_any _ (js 0%nat) new old (λ z, z = Z.max old s_min)); try done; [intros H; by destruct (Hworks H)|]. intros x1 m1 m2 Hr1 _ _.
    exists (- ENOSPC), x1. split; [done|]. split; [by right; left|]. split; [by exists m1, m2|done].
  - apply (expand_once_any _ (js (S tries)) new old (λ z, z = Z.max old s_min)); try done; [intros H; by destruct (Hworks H)|]. intros x1 m1 m2 Hr1 Hs1 Ho1.
    destruct (s_min =? 0); cbn [negb].
    + exists (- ENOSPC), x1. split; [done|]. split; [by right; left|]. split; [by exists m1, m2|done].
    + destruct (IH s_min x1 m1 m2 Hmin Hr1 Hs1 Ho1) as (code & x' & E & Hc & Hrest & Hz). exists code, x'.
      split; [done|]. split; [done|]. split; [done|]. by destruct (code =? 0); [destruct Hz|].
Qed.

End expand.

(** C31: Termination of the loop that moves attributes from the inode to the block
    until [diff] bytes are free: one turn more than there are attributes is enough,
    whatever memory, the journal, the allocator, the cache and the disk answer in
    each turn (values kept in the buffers, no inline data), since every turn that
    does not end the loop leaves an attribute less.  When the loop answers 0 the
    bytes are free; else it answers the error that it met, which is ENOSPC when
    nothing failed.  In each case the bytes of the names that are left are counted
    right, every attribute reads as before, system.data is where it was, and inode
    and block are well formed. *)
Theorem ext4_xattr_make_inode_space_ends o e js blocksize diff fuel turn ifree bfree total x l1 l2
    (Henv : ∀ turn n, env_any o e (js turn n) blocksize (i_file_acl n))
    (Hdiff : 0 ≤ diff ≤ 65536) (Hifree : 0 ≤ ifree)
    (Hrepr : inode_parts o blocksize (sx_inode x) l1 l2) (Hroomy : roomy (sx_inode x) ifree)
    (Htotal : total = IBODY_HEADER_SIZE + 4 + names_size l1) (Hfuel : (length l1 < fuel)%nat) :
  ∃ code total' x',
    ext4_xattr_make_inode_space fuel o e js turn blocksize diff ifree bfree total x = Some ((code, total'), x') ∧
    (code = 0 → free_ge (sx_inode x') diff) ∧
    ((∀ turn n, env_ok o e (js turn n) blocksize (i_file_acl n)) → io_inode_loc o = 0 → code = 0 ∨ code = - ENOSPC) ∧
    (∃ l1' l2', inode_parts o blocksize (sx_inode x') l1' l2' ∧ (length l1' ≤ length l1)%nat ∧
       total' = IBODY_HEADER_SIZE + 4 + names_size l1' ∧ afind system_data l1' = afind system_data l1) ∧
    ∀ idx name, ext4_attr (sx_inode x') idx name = ext4_attr (sx_inode x) idx name.
Proof.
  destruct (make_inode_space_any o e blocksize js ((∀ turn n, env_ok o e (js turn n) blocksize (i_file_acl n)) ∧ io_inode_loc o = 0)
    Henv ltac:(done) diff fuel turn ifree bfree total x l1 l2 Hdiff Hifree Hrepr Hroomy Hfuel Htotal)
    as (code & total' & x' & E & _ & Hc & m1 & m2 & Hr & (Ha & Hsys & _) & Hl & Ht & Hro).
  exists code, total', x'. split; [done|]. split; [intros ->; apply Hro|]. split; [intros ? ?; by apply Hc|]. split; [by exists m1, m2|].
  intros idx name. rewrite (parts_attr o blocksize _ _ _ Hr), (parts_attr o blocksize _ _ _ Hrepr). apply Ha.
Qed.

(** C30: ext4_expand_extra_isize_ea returns, whatever memory, the journal, the
    allocator, the cache and the disk answer in each try and turn (values kept in
    the buffers, no inline data), and whatever it returns: every attribute reads as
    before, be it still in the inode or moved to the block, system.data is not
    moved, inode and block are well formed, and a name that is both in the inode and
    in the block (after a move that failed half way) has the same value in both.  On
    success the fixed part has the size asked for, or the minimum that the file
    system asks for when that is all that fits (it never shrinks); on an error it
    keeps its size.  When nothing fails, the error is ENOSPC or a corrupted header,
    and no name gets into both places. *)
Theorem ext4_expand_extra_isize_ea_spec o e js blocksize s_min_extra_isize new_extra_isize x l1 l2
    (Henv : ∀ tries turn n, env_any o e (js tries turn n) blocksize (i_file_acl n))
    (Hnew : 0 ≤ new_extra_isize ≤ 65535 ∧ new_extra_isize mod 4 = 0)
    (Hmin : 0 ≤ s_min_extra_isize ≤ 65535 ∧ s_min_extra_isize mod 4 = 0)
    (Hrepr : inode_parts o blocksize (sx_inode x) l1 l2) (Hagree : agree l1 l2)
    (Hspace : EXT4_INODE_HAS_XATTR_SPACE (sx_inode x) = true) :
  ∃ code x', ext4_expand_extra_isize_ea 1 o e js blocksize s_min_extra_isize new_extra_isize x = Some (code, x') ∧
    (∃ l1' l2', inode_parts o blocksize (sx_inode x') l1' l2' ∧ afind system_data l1' = afind system_data l1 ∧ agree l1' l2') ∧
    well_formed o (sx_inode x') ∧
    (∀ idx name, ext4_attr (sx_inode x') idx name = ext4_attr (sx_inode x) idx name) ∧
    (if code =? 0
     then i_extra_isize (sx_inode x') = Z.max (i_extra_isize (sx_inode x)) new_extra_isize ∨
          i_extra_isize (sx_inode x') = Z.max (i_extra_isize (sx_inode x)) s_min_extra_isize
     else i_extra_isize (sx_inode x') = i_extra_isize (sx_inode x)) ∧
    ((∀ tries turn n, env_ok o e (js tries turn n) blocksize (i_file_acl n)) → io_inode_loc o = 0 →
     (code = 0 ∨ code = - ENOSPC ∨ code = - EFSCORRUPTED) ∧ (no_name_twice (sx_inode x) → no_name_twice (sx_inode x'))).
Proof.
  destruct (expand_any o e blocksize ((∀ tries turn n, env_ok o e (js tries turn n) blocksize (i_file_acl n)) ∧ io_inode_loc o = 0)
    1 js s_min_extra_isize new_extra_isize x l1 l2 Henv ltac:(done) Hnew Hmin Hrepr Hspace)
    as (code & x' & E & Hc & (m1 & m2 & Hr & Ha & Hsys & Hag & Hap) & Hz).
  exists code, x'. split; [done|]. split; [exists m1, m2; by split_and!; auto|]. split; [by eapply parts_well_formed|]. split.
  { intros idx name. rewrite (parts_attr o blocksize _ _ _ Hr), (parts_attr o blocksize _ _ _ Hrepr). apply Ha. }
  split; [done|]. intros He Hl. split; [by apply Hc|]. rewrite (parts_apart _ _ _ _ _ Hr), (parts_apart _ _ _ _ _ Hrepr). by apply Hap.
Qed.

(** ** Witnesses: the sample inode, from which custom.a has to go to the block *)

Lemma demo_env bh : env_any demo_csum_io demo_set_io demo_journal 128 bh.
Proof. split; try done. intros c s; cbn; by apply Z.mod_pos_bound. Qed.

(** The journal of the sample, refusing what was changed. *)
Definition demo_refusing : journal :=
  Journal true 1000 0 0 0 0 0 0 true (λ _, 0) (inr 99) true 0 true false [] (λ _, false) (λ _, 0) 7 false 4 None 7
    (λ _, 0) 0 (- EIO) 0 true.

Lemma demo_refused bh : env_any demo_csum_io demo_set_io demo_refusing 128 bh.
Proof. split; try done. intros c s; cbn; by apply Z.mod_pos_bound. Qed.

Lemma demo_agree : agree [(11, [97], [72; 105])] [(1, [98], [33])].
Proof. intros k v w. cbn [afind]. case_decide as H1; [|done]. rewrite decide_False; [done|]. intros <-. done. Qed.

Lemma demo_roomy : roomy demo_shared_inode 64.
Proof.
  split; [by vm_compute|]. apply (body_free _ [(11, [97], [72; 105])] [demo_entry] 184).
  - apply (acl_inode_ok demo_csum_io 128 demo_ext4 (Some demo_shared) [(1, [98], [33])]);
      [exact demo_inode_ok|exact demo_shared_repr|by vm_compute].
  - split; [exact demo_inode_region|by vm_compute|by apply NoDup_singleton].
  - by vm_compute.
Qed.

Lemma ext4_xattr_make_inode_space_ends_witness :
  ∃ x', ext4_xattr_make_inode_space 2 demo_csum_io demo_set_io (λ _ _, demo_journal) 0 128 80 64 68 28 demo_store =
      Some ((0, 8), x') ∧ free_ge (sx_inode x') 80 ∧ ext4_attr (sx_inode x') 11 [97] = Some [72; 105].
Proof.
  destruct (ext4_xattr_make_inode_space_ends demo_csum_io demo_set_io (λ _ _, demo_journal) 128 80 2 0 64 68 28 demo_store _ _
    (λ _ n, demo_env (i_file_acl n)) ltac:(lia) ltac:(lia) (repr_parts _ _ _ _ _ demo_repr) demo_roomy eq_refl ltac:(cbn; lia))
    as (code & total & x' & E & Hf & _ & _ & Ha).
  assert (code = 0 ∧ total = 8) as [-> ->].
  { apply (f_equal (fmap fst)) in E. vm_compute in E. injection E as <- <-. done. }
  exists x'. split; [exact E|]. split; [by apply Hf|]. rewrite Ha. vm_compute. reflexivity.
Defined.

Lemma ext4_expand_extra_isize_ea_spec_witness :
  (∃ x', ext4_expand_extra_isize_ea 1 demo_csum_io demo_set_io (λ _ _ _, demo_journal) 128 0 112 demo_store = Some (0, x') ∧
    i_extra_isize (sx_inode x') = 112 ∧ ext4_attr (sx_inode x') 11 [97] = Some [72; 105]) ∧
  ∃ x', ext4_expand_extra_isize_ea 1 demo_csum_io demo_set_io (λ _ _ _, demo_refusing) 128 0 112 demo_store = Some (- EIO, x') ∧
    i_extra_isize (sx_inode x') = 32 ∧ ext4_attr (sx_inode x') 11 [97] = Some [72; 105].
Proof.
  split.
  - destruct (ext4_expand_extra_isize_ea_spec demo_csum_io demo_set_io (λ _ _ _, demo_journal) 128 0 112 demo_store _ _
      (λ _ _ n, demo_env (i_file_acl n)) ltac:(by split) ltac:(by split) (repr_parts _ _ _ _ _ demo_repr) demo_agree ltac:(by vm_compute))
      as (code & x' & E & _ & _ & Ha & _ & _).
    assert (code = 0 ∧ i_extra_isize (sx_inode x') = 112) as [-> Hx].
    { apply (f_equal (fmap (λ p, (fst p, i_extra_isize (sx_inode (snd p)))))) in E.
      change (Some (0, 112) = Some (code, i_extra_isize (sx_inode x'))) in E. by injection E as <- <-. }
    exists x'. split; [exact E|]. split; [exact Hx|]. rewrite Ha. vm_compute. reflexivity.
  - destruct (ext4_expand_extra_isize_ea_spec demo_csum_io demo_set_io (λ _ _ _, demo_refusing) 128 0 112 demo_store _ _
      (λ _ _ n, demo_refused (i_file_acl n)) ltac:(by split) ltac:(by split) (repr_parts _ _ _ _ _ demo_repr) demo_agree ltac:(by vm_compute))
      as (code & x' & E & _ & _ & Ha & Hz & _).
    assert (code = - EIO) as ->.
    { apply (f_equal (fmap fst)) in E. change (Some (- EIO) = Some code) in E. by injection E as <-. }
    exists x'. split; [exact E|]. split; [exact Hz|]. rewrite Ha. vm_compute. reflexivity.
Defined.

End Ext4Expand.
