(* ===== verification/Ext4Ea.v ===== *)
(** * The inodes that hold large attribute values of ext4

    fs/ext4/xattr.c: with the feature ea_inode, a value too large for the inode
    and the block is kept in an inode of its own, which attributes with the same
    value share and which counts its references.  Here are its reading and
    writing, its reference count, the cache that finds a value again, the
    references of a whole buffer of entries, the usage count, and the deletion of
    an inode.

    The state [ea_state] is the file system's table of value inodes with their
    handles (iget and iput), the orphan list, the cache and the quota.  Journal,
    allocator and memory are a list of outcomes, one for each call that can fail,
    in order ([ext]); an exhausted list stands for success.  The buffers of
    entries are those of Ext4Xattr. *)

From Stdlib Require Import ZArith Lia.
From stdpp Require Import base numbers list gmap strings.
From S2P Require Import Prelude Xattr Ext4Xattr Ext4Set Ext4Store.

Module Ext4Ea.
Import Xattr Ext4Xattr Ext4Set Ext4Store.

(** ** State *)

(** The fields of struct inode that the code uses for a value inode; the
    reference count is in the change time and the version, the hash in the access
    time, the parent of an old inode in the modification time. *)
Record ea_inode := EaInode {
  ea_ctime : Z;
  ea_iversion : Z;
  ea_atime : Z;
  ea_mtime : Z;
  ea_generation : Z;
  ea_nlink : Z;
  ea_lustre : bool;                (** EXT4_STATE_LUSTRE_EA_INODE *)
  ea_noquota : bool;               (** S_NOQUOTA *)
  ea_size : Z;
  ea_blocks : gmap Z bytes;
  ea_count : Z }.                  (** handles *)

Record ea_state := EaState {
  ea_inodes : gmap Z ea_inode;
  ea_orphans : gset Z;
  ea_cache : option (list (Z * Z));    (** hash and number, in the order of a search *)
  ea_quota : Z * Z;                    (** inodes and bytes charged to the owner *)
  ea_outcomes : list Z;
  ea_log : list store_op }.

(** The file system and the owner of the attributes. *)
Record ea_env := EaEnv {
  ev_chksum : bytes → Z;
  ev_blkbits : Z;
  ev_cluster_bits : Z;
  ev_ino : Z;                      (** the owner *)
  ev_generation : Z;
  ev_root : bool;                  (** s_root *)
  ev_missing : Z;                  (** ext4_iget of a number without inode *)
  ev_new : ea_inode;               (** a new inode *)
  ev_csum : io;                    (** checksums of blocks *)
  ev_sync : bool }.                (** IS_SYNC of the owner *)

Definition with_inodes (m : gmap Z ea_inode) (s : ea_state) : ea_state :=
  EaState m (ea_orphans s) (ea_cache s) (ea_quota s) (ea_outcomes s) (ea_log s).
Definition with_orphans (o : gset Z) (s : ea_state) : ea_state :=
  EaState (ea_inodes s) o (ea_cache s) (ea_quota s) (ea_outcomes s) (ea_log s).
Definition with_cache (c : option (list (Z * Z))) (s : ea_state) : ea_state :=
  EaState (ea_inodes s) (ea_orphans s) c (ea_quota s) (ea_outcomes s) (ea_log s).
Definition with_quota (q : Z * Z) (s : ea_state) : ea_state :=
  EaState (ea_inodes s) (ea_orphans s) (ea_cache s) q (ea_outcomes s) (ea_log s).
Definition with_outcomes (o : list Z) (s : ea_state) : ea_state :=
  EaState (ea_inodes s) (ea_orphans s) (ea_cache s) (ea_quota s) o (ea_log s).
Definition with_log (l : list store_op) (s : ea_state) : ea_state :=
  EaState (ea_inodes s) (ea_orphans s) (ea_cache s) (ea_quota s) (ea_outcomes s) l.

Definition eput (ino : Z) (i : ea_inode) : st ea_state unit :=
  modify (λ s, with_inodes (<[ino := i]> (ea_inodes s)) s).

(** The inode behind a handle. *)
Definition eget (ino : Z) : st ea_state ea_inode :=
  s ← get; lift (ea_inodes s !! ino).

(** The outcome of the next call that can fail; [d] when the list is at its end. *)
Definition ext (d : Z) : st ea_state Z :=
  s ← get;
  match ea_outcomes s with
  | [] => mret d
  | z :: o => put (with_outcomes o s) ;; mret z
  end.

(** ** The fields of a value inode *)

Definition set_times (c v : Z) (i : ea_inode) : ea_inode :=
  EaInode c v (ea_atime i) (ea_mtime i) (ea_generation i) (ea_nlink i) (ea_lustre i) (ea_noquota i) (ea_size i) (ea_blocks i) (ea_count i).
Definition set_atime (h : Z) (i : ea_inode) : ea_inode :=
  EaInode (ea_ctime i) (ea_iversion i) h (ea_mtime i) (ea_generation i) (ea_nlink i) (ea_lustre i) (ea_noquota i) (ea_size i) (ea_blocks i) (ea_count i).
Definition set_nlink (n : Z) (i : ea_inode) : ea_inode :=
  EaInode (ea_ctime i) (ea_iversion i) (ea_atime i) (ea_mtime i) (ea_generation i) n (ea_lustre i) (ea_noquota i) (ea_size i) (ea_blocks i) (ea_count i).
Definition set_flags (lustre noquota : bool) (i : ea_inode) : ea_inode :=
  EaInode (ea_ctime i) (ea_iversion i) (ea_atime i) (ea_mtime i) (ea_generation i) (ea_nlink i) lustre noquota (ea_size i) (ea_blocks i) (ea_count i).
Definition set_data (size : Z) (blocks : gmap Z bytes) (i : ea_inode) : ea_inode :=
  EaInode (ea_ctime i) (ea_iversion i) (ea_atime i) (ea_mtime i) (ea_generation i) (ea_nlink i) (ea_lustre i) (ea_noquota i) size blocks (ea_count i).
Definition set_count (n : Z) (i : ea_inode) : ea_inode :=
  EaInode (ea_ctime i) (ea_iversion i) (ea_atime i) (ea_mtime i) (ea_generation i) (ea_nlink i) (ea_lustre i) (ea_noquota i) (ea_size i) (ea_blocks i) n.

Definition ext4_xattr_inode_get_ref (i : ea_inode) : Z :=
  Z.lor (u64 (Z.shiftl (u64 (ea_ctime i)) 32)) (u32 (ea_iversion i)).

Definition ext4_xattr_inode_set_ref (ref_count : Z) (i : ea_inode) : ea_inode :=
  set_times (u32 (Z.shiftr ref_count 32)) (Z.land ref_count 0xffffffff) i.

Definition ext4_xattr_inode_get_hash (i : ea_inode) : Z := u32 (ea_atime i).
Definition ext4_xattr_inode_set_hash (hash : Z) (i : ea_inode) : ea_inode := set_atime hash i.

Definition EXT4_XATTR_INODE_GET_PARENT (i : ea_inode) : Z := u32 (ea_mtime i).

(** ** Handles *)

(** ext4_iget *)
Definition ext4_iget (v : ea_env) (ino : Z) : st ea_state Z :=
  e ← ext 0;
  s ← get;
  match ea_inodes s !! ino with
  | None => mret (ev_missing v)
  | Some i =>
      if negb (e =? 0) then mret e
      else eput ino (set_count (ea_count i + 1) i) ;; mret 0
  end.

(** ext4_evict_ea_inode: the cache forgets the inode. *)
Definition ext4_evict_ea_inode (ino hash : Z) : st ea_state unit :=
  modify (λ s, with_cache (filter (λ c, c ≠ (hash, ino)) <$> ea_cache s) s).

(** iput: the last handle of an inode without links evicts it. *)
Definition iput (ino : Z) : st ea_state unit :=
  i ← eget ino;
  if ea_count i <=? 0 then fault
  else if (ea_count i =? 1) && (ea_nlink i =? 0) then
    ext4_evict_ea_inode ino (ext4_xattr_inode_get_hash i) ;;
    modify (λ s, with_orphans (ea_orphans s ∖ {[ino]}) (with_inodes (delete ino (ea_inodes s)) s))
  else eput ino (set_count (ea_count i - 1) i).

(** 0 and a handle, or an error. *)
Definition ext4_xattr_inode_iget (v : ea_env) (ea_ino ea_inode_hash : Z) : st ea_state Z :=
  if ev_ino v =? ea_ino then mret (- EFSCORRUPTED)
  else
    err ← ext4_iget v ea_ino;
    if negb (err =? 0) then mret err
    else
      i ← eget ea_ino;
      if negb (ea_inode_hash =? ext4_xattr_inode_get_hash i) &&
         (EXT4_XATTR_INODE_GET_PARENT i =? ev_ino v) && (ea_generation i =? ev_generation v) then
        eput ea_ino (ext4_xattr_inode_set_ref 1 (set_flags true (ea_noquota i) i)) ;; mret 0
      else eput ea_ino (set_flags (ea_lustre i) true i) ;; mret 0.

(** ** Contents *)

(** The loop over the blocks: the error, and the buffer. *)
Fixpoint read_blocks (blocks : gmap Z bytes) (blocksize bh_count tail_size : Z) (idx : list Z) (buf : bytes) :
    option (Z * bytes) :=
  match idx with
  | [] => Some (0, buf)
  | i :: idx =>
      match blocks !! i with
      | None => Some (- EFSCORRUPTED, buf)
      | Some data =>
          b ← bytes_at data 0 (if i <? bh_count - 1 then blocksize else tail_size);
          buf ← put_at buf (blocksize * i) b;
          read_blocks blocks blocksize bh_count tail_size idx buf
      end
  end.

(** The number of blocks is an int. *)
Definition ext4_xattr_inode_read (v : ea_env) (ino : Z) (buf : bytes) (size : Z) : st ea_state (Z * bytes) :=
  let blocksize := Z.shiftl 1 (ev_blkbits v) in
  let bh_count := Z.shiftr (size + blocksize - 1) (ev_blkbits v) in
  let tail_size := if size mod blocksize =? 0 then blocksize else size mod blocksize in
  mem ← (if 8 <? bh_count then ext 0 else mret 0);
  if negb (mem =? 0) then mret (- ENOMEM, buf)
  else
    ret ← ext 0;
    if negb (ret =? 0) then mret (ret, buf)
    else
      i ← eget ino;
      lift (read_blocks (ea_blocks i) blocksize bh_count tail_size (seqZ 0 bh_count) buf).

(** [entry] is the name and the hash of an entry. *)
Definition ext4_xattr_inode_verify_hashes (v : ea_env) (i : ea_inode) (entry : option (bytes * Z)) (buffer : bytes) : Z :=
  let hash := ev_chksum v buffer in
  if negb (hash =? ext4_xattr_inode_get_hash i) then - EFSCORRUPTED
  else
    match entry with
    | None => 0
    | Some (name, e_hash) =>
        if negb (hash_step VALUE_HASH_SHIFT (hash_name name) hash =? e_hash) then - EFSCORRUPTED else 0
    end.

(** mb_cache_entry_create, whose result is not used. *)
Definition cache_insert (hash ino : Z) : st ea_state unit :=
  s ← get;
  match ea_cache s with
  | None => mret tt
  | Some c =>
      e ← ext 0;
      if negb (e =? 0) || bool_decide ((hash, ino) ∈ c) then mret tt
      else modify (with_cache (Some (c ++ [(hash, ino)])))
  end.

(** The value of an attribute with value inode [inum]: the error and the buffer. *)
Definition ext4_xattr_inode_get (v : ea_env) (name : bytes) (inum e_hash : Z) (buffer : bytes) (size : Z) :
    st ea_state (Z * bytes) :=
  err ← ext4_xattr_inode_iget v inum e_hash;
  if negb (err =? 0) then mret (err, buffer)
  else
    i ← eget inum;
    res ← (if negb (ea_size i =? size) then mret (- EFSCORRUPTED, buffer)
           else
             r ← ext4_xattr_inode_read v inum buffer size;
             let '(err, buffer) := r in
             if negb (err =? 0) || ea_lustre i then mret (err, buffer)
             else
               let err := ext4_xattr_inode_verify_hashes v i (Some (name, e_hash)) buffer in
               if negb (err =? 0) then mret (err, buffer)
               else cache_insert (ext4_xattr_inode_get_hash i) inum ;; mret (0, buffer));
    iput inum ;;
    mret res.

(** ** References *)

Definition upd_orphans (f : gset Z → gset Z) : st ea_state unit :=
  modify (λ s, with_orphans (f (ea_orphans s)) s).

(** The first reference and the last: links and orphan list. *)
Definition update_links (ino ref_change ref_count : Z) (i : ea_inode) : st ea_state unit :=
  if 0 <? ref_change then
    if ref_count =? 1 then eput ino (set_nlink 1 i) ;; upd_orphans (λ o, o ∖ {[ino]}) else mret tt
  else
    if ref_count =? 0 then eput ino (set_nlink 0 i) ;; upd_orphans (λ o, {[ino]} ∪ o) else mret tt.

Definition ext4_xattr_inode_update_ref (ino ref_change : Z) : st ea_state Z :=
  ret ← ext 0;
  if negb (ret =? 0) then mret ret
  else
    i ← eget ino;
    let ref_count := wrapS 64 (wrapS 64 (ext4_xattr_inode_get_ref i) + ref_change) in
    let i := ext4_xattr_inode_set_ref (u64 ref_count) i in
    eput ino i ;;
    update_links ino ref_change ref_count i ;;
    ext 0.

Definition ext4_xattr_inode_inc_ref (ino : Z) : st ea_state Z := ext4_xattr_inode_update_ref ino 1.
Definition ext4_xattr_inode_dec_ref (ino : Z) : st ea_state Z := ext4_xattr_inode_update_ref ino (-1).

(** ** Writing a value *)

(** Allocate the blocks: 0 or the error.  A result of ext4_map_blocks is the
    number of blocks that it mapped. *)
Fixpoint map_loop (fuel : nat) (ret max_blocks : Z) : st ea_state Z :=
  match fuel with
  | O => fault
  | S fuel =>
      if negb ((0 <=? ret) && (ret <? max_blocks)) then mret ret
      else
        let max_blocks := max_blocks - ret in
        ret ← ext max_blocks;
        if ret <=? 0 then
          ext 0 ;;
          retry ← (if ret =? - ENOSPC then ext 0 else mret 0);
          if negb (retry =? 0) then map_loop fuel 0 max_blocks else mret ret
        else map_loop fuel ret max_blocks
  end.

(** Fill the blocks: the result, and whether the label [out] was reached early. *)
Fixpoint write_loop (fuel : nat) (ino blocksize : Z) (buf : bytes) (block ret : Z) : st ea_state (Z * bool) :=
  match fuel with
  | O => fault
  | S fuel =>
      if Z.of_nat (length buf) <=? 0 then mret (ret, false)
      else
        let csize := if blocksize <? Z.of_nat (length buf) then blocksize else Z.of_nat (length buf) in
        bh ← ext 0;
        if bh <? 0 then mret (bh, true)
        else if negb (bh =? 0) then mret (- EFSCORRUPTED, true)
        else
          ret ← ext 0;
          if negb (ret =? 0) then mret (ret, true)
          else
            i ← eget ino;
            let data := take (Z.to_nat csize) buf ++ replicate (Z.to_nat (blocksize - csize)) 0 in
            eput ino (set_data (ea_size i) (<[block := data]> (ea_blocks i)) i) ;;
            ext 0 ;;
            write_loop fuel ino blocksize (drop (Z.to_nat csize) buf) (block + 1) ret
  end.

Definition ext4_xattr_inode_write (v : ea_env) (ino : Z) (buf : bytes) : st ea_state Z :=
  let blocksize := Z.shiftl 1 (ev_blkbits v) in
  let bufsize := Z.of_nat (length buf) in
  let max_blocks := Z.shiftr (bufsize + blocksize - 1) (ev_blkbits v) in
  s ← get;
  ret ← map_loop (S (length (ea_outcomes s)) + 1) 0 max_blocks;
  if ret <? 0 then mret ret
  else
    w ← write_loop (S (length buf)) ino blocksize buf 0 ret;
    let '(ret, out) := w in
    if (out : bool) then mret ret
    else
      i ← eget ino;
      eput ino (set_data bufsize (ea_blocks i) i) ;;
      ret2 ← ext 0;
      mret (if negb (ret2 =? 0) && (ret =? 0) then ret2 else ret).

(** ** Creating and finding value inodes *)

(** A new inode with one reference: an error, or its number [ino], which the
    allocator chose. *)
Definition ext4_xattr_inode_create (v : ea_env) (ino hash : Z) : st ea_state (Z + Z) :=
  if negb (ev_root v) then mret (inl (- EINVAL))
  else
    e ← ext 0;
    if negb (e =? 0) then mret (inl e)
    else
      eput ino (ext4_xattr_inode_set_hash hash (ext4_xattr_inode_set_ref 1 (ev_new v))) ;;
      err ← ext 0;
      err ← (if err =? 0 then ext 0 else mret err);
      if negb (err =? 0) then
        ext4_xattr_inode_dec_ref ino ;;
        iput ino ;;
        mret (inl err)
      else
        i ← eget ino;
        eput ino (set_flags (ea_lustre i) true i) ;;
        mret (inr ino).

(** Whether the inode [i] has the value. *)
Definition same_value (v : ea_env) (i : ea_inode) (ino : Z) (value : bytes) : st ea_state bool :=
  if negb (ea_size i =? Z.of_nat (length value)) then mret false
  else
    r ← ext4_xattr_inode_read v ino (replicate (length value) 0) (Z.of_nat (length value));
    let '(err, data) := r in
    mret ((err =? 0) && (ext4_xattr_inode_verify_hashes v i None data =? 0) && (memcmp value data =? 0)).

(** The loop over the entries of the cache with the hash. *)
Fixpoint cache_find_loop (v : ea_env) (value : bytes) (inos : list Z) : st ea_state (option Z) :=
  match inos with
  | [] => mret None
  | ino :: inos =>
      e ← ext4_iget v ino;
      if negb (e =? 0) then cache_find_loop v value inos
      else
        i ← eget ino;
        same ← same_value v i ino value;
        if (same : bool) then mret (Some ino)
        else iput ino ;; cache_find_loop v value inos
  end.

Definition ext4_xattr_inode_cache_find (v : ea_env) (value : bytes) (hash : Z) : st ea_state (option Z) :=
  s ← get;
  match ea_cache s with
  | None => mret None
  | Some c =>
      match (filter (λ c, c.1 = hash) c).*2 with
      | [] => mret None
      | inos =>
          mem ← ext 0;
          if negb (mem =? 0) then mret None else cache_find_loop v value inos
      end
  end.

(** An error, or the number of an inode with the value and a reference more;
    [new_ino] is the number of the inode that may be created. *)
Definition ext4_xattr_inode_lookup_create (v : ea_env) (new_ino : Z) (value : bytes) : st ea_state (Z + Z) :=
  let hash := ev_chksum v value in
  found ← ext4_xattr_inode_cache_find v value hash;
  match found with
  | Some ino =>
      err ← ext4_xattr_inode_inc_ref ino;
      if negb (err =? 0) then iput ino ;; mret (inl err) else mret (inr ino)
  | None =>
      c ← ext4_xattr_inode_create v new_ino hash;
      match c with
      | inl err => mret (inl err)
      | inr ino =>
          err ← ext4_xattr_inode_write v ino value;
          if negb (err =? 0) then
            ext4_xattr_inode_dec_ref ino ;; iput ino ;; mret (inl err)
          else cache_insert hash ino ;; mret (inr ino)
      end
  end.

(** ** Quota *)

Definition round_up_cluster (v : ea_env) (length : Z) : Z :=
  let cluster_size := Z.shiftl 1 (ev_cluster_bits v + ev_blkbits v) in
  Z.land (u64 (length + cluster_size - 1)) (u64 (Z.lnot (cluster_size - 1))).

Definition charge (inodes space : Z) : st ea_state unit :=
  modify (λ s, with_quota ((ea_quota s).1 + inodes, (ea_quota s).2 + space) s).

Definition ext4_xattr_inode_alloc_quota (v : ea_env) (len : Z) : st ea_state Z :=
  err ← ext 0;
  if negb (err =? 0) then mret err
  else
    charge 1 0 ;;
    err ← ext 0;
    if negb (err =? 0) then charge (-1) 0 ;; mret err
    else charge 0 (round_up_cluster v len) ;; mret 0.

(** [ino] is [None] for NULL. *)
Definition ext4_xattr_inode_free_quota (v : ea_env) (ino : option Z) (len : Z) : st ea_state unit :=
  lustre ← match ino with Some ino => i ← eget ino; mret (ea_lustre i) | None => mret false end;
  if (lustre : bool) then mret tt else charge (-1) (- round_up_cluster v len).

(** ** The references of the entries of a buffer *)

(** The entries that have a value inode, up to the position [stop]: drop the
    references again; errors are only reported. *)
Fixpoint dec_ref_until (fuel : nat) (v : ea_env) (r : bytes) (entry stop : Z) : st ea_state unit :=
  match fuel with
  | O => fault
  | S fuel =>
      if entry =? stop then mret tt
      else
        inum ← lift (rd32 r (entry + E_VALUE_INUM));
        next ← lift (EXT4_XATTR_NEXT r entry);
        (if inum =? 0 then mret tt
         else
           hash ← lift (rd32 r (entry + E_HASH));
           err ← ext4_xattr_inode_iget v inum hash;
           if negb (err =? 0) then mret tt
           else ext4_xattr_inode_dec_ref inum ;; iput inum) ;;
        dec_ref_until fuel v r next stop
  end.

(** The error, with the entry that failed. *)
Fixpoint inc_ref_loop (fuel : nat) (v : ea_env) (r : bytes) (entry : Z) : st ea_state (Z * Z) :=
  match fuel with
  | O => fault
  | S fuel =>
      last ← lift (IS_LAST_ENTRY r entry);
      if last : bool then mret (0, entry)
      else
        inum ← lift (rd32 r (entry + E_VALUE_INUM));
        next ← lift (EXT4_XATTR_NEXT r entry);
        if inum =? 0 then inc_ref_loop fuel v r next
        else
          hash ← lift (rd32 r (entry + E_HASH));
          err ← ext4_xattr_inode_iget v inum hash;
          if negb (err =? 0) then mret (err, entry)
          else
            err ← ext4_xattr_inode_inc_ref inum;
            iput inum ;;
            if negb (err =? 0) then mret (err, entry) else inc_ref_loop fuel v r next
  end.

Definition ext4_xattr_inode_inc_ref_all (v : ea_env) (r : bytes) (first : Z) : st ea_state Z :=
  res ← inc_ref_loop (fuel_of r) v r first;
  let '(err, failed_entry) := res in
  if err =? 0 then mret 0
  else dec_ref_until (fuel_of r) v r first failed_entry ;; mret err.

(** ** The inodes that are put at the end of a deletion *)

Definition EIA_INCR : Z := 16.
Definition EIA_MASK : Z := EIA_INCR - 1.

(** The array and the number of its slots. *)
Record ea_inode_array := EaInodeArray { ar_inodes : list Z; ar_slots : Z }.

(** The error and the array. *)
Definition ext4_expand_inode_array (a : option ea_inode_array) (ino : Z) : st ea_state (Z * option ea_inode_array) :=
  let add a := if Z.of_nat (length (ar_inodes a)) <? ar_slots a
               then mret (0, Some (EaInodeArray (ar_inodes a ++ [ino]) (ar_slots a))) else fault in
  match a with
  | None =>
      mem ← ext 0;
      if negb (mem =? 0) then mret (- ENOMEM, None) else add (EaInodeArray [] EIA_MASK)
  | Some a =>
      let count := Z.of_nat (length (ar_inodes a)) in
      if Z.land count EIA_MASK =? EIA_MASK then
        mem ← ext 0;
        if negb (mem =? 0) then mret (- ENOMEM, Some a) else add (EaInodeArray (ar_inodes a) (count + EIA_INCR))
      else add a
  end.

Definition ext4_xattr_inode_array_free (a : option ea_inode_array) : st ea_state unit :=
  match a with None => mret tt | Some a => for_each (ar_inodes a) iput end.

(** ** Dropping all references of a buffer *)

(** What the step for one entry may change. *)
Record dec_all := DecAll { da_bytes : bytes; da_array : option ea_inode_array; da_dirty : bool }.

(** [block] is the number of the block when the buffer is one, for its checksum. *)
Definition ext4_xattr_restart_fn (v : ea_env) (block : option Z) (d : dec_all) : st ea_state (Z * dec_all) :=
  if da_dirty d then
    r ← match block with
        | Some nr => b ← lift (ext4_xattr_block_csum_set (ev_csum v) (EaBlock (da_bytes d) nr false)); mret (b_data b)
        | None => mret (da_bytes d)
        end;
    e ← ext 0;
    mret (e, DecAll r (da_array d) (da_dirty d))
  else mret (0, d).

(** The body of the loop, for an entry with a value inode.  A positive outcome of
    ext4_journal_ensure_credits_fn stands for a new transaction: the function, the
    restart and access to the buffer follow. *)
Definition dec_ref_entry (v : ea_env) (block : option Z) (skip_quota : bool) (entry inum : Z) (d : dec_all) :
    st ea_state dec_all :=
  hash ← lift (rd32 (da_bytes d) (entry + E_HASH));
  err ← ext4_xattr_inode_iget v inum hash;
  if negb (err =? 0) then mret d
  else
    x ← ext4_expand_inode_array (da_array d) inum;
    let '(err, array) := x in
    let d := DecAll (da_bytes d) array (da_dirty d) in
    if negb (err =? 0) then iput inum ;; mret d
    else
      restart ← ext 0;
      x ← (if 0 <? restart then ext4_xattr_restart_fn v block d else mret (restart, d));
      let '(err, d) := x in
      err ← (if (0 <? restart) && (err =? 0) then ext 0 else mret err);
      err ← (if (0 <? restart) && (err =? 0) then ext 0 else mret err);
      if negb (err =? 0) then mret d
      else
        err ← ext4_xattr_inode_dec_ref inum;
        if negb (err =? 0) then mret d
        else
          size ← lift (rd32 (da_bytes d) (entry + E_VALUE_SIZE));
          (if skip_quota then mret tt else ext4_xattr_inode_free_quota v (Some inum) size) ;;
          r ← lift (wr 4 (da_bytes d) (entry + E_VALUE_INUM) 0);
          r ← lift (wr 4 r (entry + E_VALUE_SIZE) 0);
          mret (DecAll r array true).

Fixpoint dec_ref_loop (fuel : nat) (v : ea_env) (block : option Z) (skip_quota : bool) (entry : Z) (d : dec_all) :
    st ea_state dec_all :=
  match fuel with
  | O => fault
  | S fuel =>
      last ← lift (IS_LAST_ENTRY (da_bytes d) entry);
      if last : bool then mret d
      else
        inum ← lift (rd32 (da_bytes d) (entry + E_VALUE_INUM));
        d ← (if inum =? 0 then mret d else dec_ref_entry v block skip_quota entry inum d);
        next ← lift (EXT4_XATTR_NEXT (da_bytes d) entry);
        dec_ref_loop fuel v block skip_quota next d
  end.

Definition ext4_xattr_inode_dec_ref_all (v : ea_env) (r : bytes) (block : option Z) (first : Z) (skip_quota : bool)
    (array : option ea_inode_array) : st ea_state (bytes * option ea_inode_array) :=
  d ← dec_ref_loop (fuel_of r) v block skip_quota first (DecAll r array false);
  (if da_dirty d then ext 0 ;; mret tt else mret tt) ;;
  mret (da_bytes d, da_array d).

(** ** Usage *)

(** One for the inode and one for every reference to a value inode. *)
Definition ext4_get_inode_usage (o : io) (n : ext4_inode) : option (Z * option Z) :=
  a ← (if state_xattr n then
         if negb (io_inode_loc o =? 0) then Some (inl (io_inode_loc o))
         else
           ret ← xattr_check_inode n;
           if negb (ret =? 0) then Some (inl ret)
           else inr <$> count_inums (fuel_of (raw_inode n)) (raw_inode n) (IFIRST n)
       else Some (inr 0));
  match a with
  | inl ret => Some (ret, None)
  | inr a =>
      match i_file_acl n with
      | None => Some (0, Some (a + 1))
      | Some b =>
          if negb (io_bread o =? 0) then Some (io_bread o, None)
          else
            c ← ext4_xattr_check_block o b;
            if negb (c.1 =? 0) then Some (c.1, None)
            else
              k ← count_inums (fuel_of (b_data b)) (b_data b) BFIRST;
              Some (0, Some (a + k + 1))
      end
  end.

(** ** Deleting an inode *)

(** The array afterwards; the cache of blocks only makes the code wait. *)
Definition release_block (v : ea_env) (feature : bool) (b : ea_block) (array : option ea_inode_array) :
    st ea_state (option ea_inode_array) :=
  error ← ext 0;
  if negb (error =? 0) then mret array
  else
    ref ← lift (rd32 (b_data b) H_REFCOUNT);
    if ref =? 1 then
      array ← (if feature then
                 d ← ext4_xattr_inode_dec_ref_all v (b_data b) (Some (b_blocknr b)) BFIRST true array; mret d.2
               else mret array);
      modify (λ s, with_log (ea_log s ++ [OpFreeBlocks (b_blocknr b)]) s) ;;
      mret array
    else
      r ← lift (wr 4 (b_data b) H_REFCOUNT (u32 (ref - 1)));
      b ← lift (ext4_xattr_block_csum_set (ev_csum v) (EaBlock r (b_blocknr b) (b_verified b)));
      ext 0 ;;
      modify (λ s, with_log (ea_log s ++ OpUnshare b :: (if ev_sync v then [OpSync] else []) ++ [OpFreeBlockQuota]) s) ;;
      mret array.

(** The quota of the values of a block is given back here, once for each inode
    that shares the block. *)
Fixpoint free_quotas (fuel : nat) (v : ea_env) (r : bytes) (entry : Z) : st ea_state unit :=
  match fuel with
  | O => fault
  | S fuel =>
      last ← lift (IS_LAST_ENTRY r entry);
      if last : bool then mret tt
      else
        inum ← lift (rd32 r (entry + E_VALUE_INUM));
        next ← lift (EXT4_XATTR_NEXT r entry);
        (if inum =? 0 then mret tt
         else
           hash ← lift (rd32 r (entry + E_HASH));
           error ← ext4_xattr_inode_iget v inum hash;
           if negb (error =? 0) then mret tt
           else
             size ← lift (rd32 r (entry + E_VALUE_SIZE));
             ext4_xattr_inode_free_quota v (Some inum) size ;;
             iput inum) ;;
        free_quotas fuel v r next
  end.

(** The part for the block: the error, the inode and the array. *)
Definition delete_block (v : ea_env) (feature : bool) (n : ext4_inode) (array : option ea_inode_array) :
    st ea_state (Z * ext4_inode * option ea_inode_array) :=
  match i_file_acl n with
  | None => mret (0, n, array)
  | Some b =>
      error ← ext 0;
      if negb (error =? 0) then mret (error, n, array)
      else
        c ← lift (ext4_xattr_check_block (ev_csum v) b);
        let '(error, b) := c in
        if negb (error =? 0) then mret (error, set_block (Some b) n, array)
        else
          (if feature then free_quotas (fuel_of (b_data b)) v (b_data b) BFIRST else mret tt) ;;
          array ← release_block v feature b array;
          error ← ext 0;
          if negb (error =? 0) then mret (error, set_block None n, array)
          else
            modify (λ s, with_log (ea_log s ++ [OpFcIneligible]) s) ;;
            mret (0, set_block None n, array)
  end.

Definition ext4_xattr_delete_inode (v : ea_env) (feature : bool) (n : ext4_inode) (array : option ea_inode_array) :
    st ea_state (Z * ext4_inode * option ea_inode_array) :=
  error ← ext 0;
  if error <? 0 then mret (error, n, array)
  else if feature && state_xattr n then
    error ← ext 0;
    if negb (error =? 0) then mret (error, n, array)
    else
      error ← ext 0;
      if negb (error =? 0) then mret (error, n, array)
      else
        magic ← lift (rd32 (raw_inode n) (IHDR n));
        d ← (if magic =? EXT4_XATTR_MAGIC then ext4_xattr_inode_dec_ref_all v (raw_inode n) None (IFIRST n) false array
             else mret (raw_inode n, array));
        delete_block v feature (set_raw d.1 (state_xattr n) n) d.2
  else delete_block v feature n array.

(** ** Running the steps *)

(** The state after one outcome was taken. *)
Definition popped (s : ea_state) : ea_state := with_outcomes (tail (ea_outcomes s)) s.

Lemma ext_run d s : ext d s = Some (default d (head (ea_outcomes s)), popped s).
Proof. unfold ext, get, mbind, st_bind, popped. destruct s as [? ? ? ? [|z o] ?]; done. Qed.

Lemma get_run {S} (s : S) : get s = Some (s, s).
Proof. done. Qed.

Lemma eget_run ino s i : ea_inodes s !! ino = Some i → eget ino s = Some (i, s).
Proof. intros E. unfold eget. rewrite (st_bind_step _ _ _ _ _ (get_run s)). unfold lift. by rewrite E. Qed.

Lemma eput_run ino i s : eput ino i s = Some (tt, with_inodes (<[ino := i]> (ea_inodes s)) s).
Proof. done. Qed.

Ltac run H := rewrite (st_bind_step _ _ _ _ _ H).

Lemma ref_set_get r i : is_u 64 r → ext4_xattr_inode_get_ref (ext4_xattr_inode_set_ref r i) = r.
Proof.
  intros [H0 H1]. unfold ext4_xattr_inode_get_ref, ext4_xattr_inode_set_ref. cbn [ea_ctime ea_iversion set_times].
  change 0xffffffff with (Z.ones 32).
  assert (0 ≤ Z.shiftr r 32 < 2 ^ 32) as Hq.
  { rewrite Z.shiftr_div_pow2 by lia. split; [apply Z.div_pos; lia|apply Z.div_lt_upper_bound; lia]. }
  assert (0 ≤ Z.land r (Z.ones 32) < 2 ^ 32) as Hl by (rewrite Z.land_ones by lia; apply Z.mod_pos_bound; lia).
  rewrite (wrapU_small 32 (Z.shiftr r 32)), (wrapU_small 64 (Z.shiftr r 32)), (wrapU_small 32 (Z.land _ _)) by (unfold is_u; lia).
  rewrite wrapU_small by (unfold is_u; rewrite Z.shiftl_mul_pow2 by lia; lia).
  apply Z.bits_inj'. intros k Hk. rewrite Z.lor_spec, Z.land_spec. destruct (decide (k < 32)) as [Hk'|Hk'].
  - rewrite Z.shiftl_spec_low, Z.ones_spec_low by lia. by rewrite andb_true_r.
  - rewrite Z.shiftl_spec, Z.shiftr_spec, Z.ones_spec_high by lia. rewrite andb_false_r, orb_false_r. f_equal. lia.
Qed.

(** ** Contents: what was written is read *)

Lemma bytes_at_sub l off n : 0 ≤ off → 0 ≤ n → off + n ≤ Z.of_nat (length l) →
  bytes_at l off n = Some (take (Z.to_nat n) (drop (Z.to_nat off) l)).
Proof.
  intros. unfold bytes_at. rewrite (proj2 (Z.leb_le 0 off)), (proj2 (Z.leb_le 0 n)), (proj2 (Z.leb_le (off + n) _)) by done. done.
Qed.

Lemma put_at_same l off n b : bytes_at l off n = Some b → put_at l off b = Some l.
Proof.
  intros E. destruct (proj1 (bytes_at_is_Some l off n)) as (? & ? & ?); [eauto|]. pose proof (bytes_at_length _ _ _ _ E).
  destruct (put_at_Some l off b) as [l' E']; [lia..|]. rewrite E'. f_equal. apply zlookup_eq. intros k.
  rewrite (put_at_zlookup _ _ _ _ k E'). case_decide; [|done].
  rewrite (bytes_at_zlookup _ _ _ _ _ E) by lia. f_equal. lia.
Qed.

Section contents.
Context (B : gmap Z bytes) (bs count tail_size : Z).
Hypothesis (Hbs : 0 < bs).

Let len (i : Z) : Z := if i <? count - 1 then bs else tail_size.

(** Where the last of [m] blocks from [k] on ends. *)
Let reach (k : Z) (m : nat) : Z := match m with O => bs * k | S m => bs * (k + Z.of_nat m) + len (k + Z.of_nat m) end.

(** The result does not depend on what was in the buffer. *)
Lemma read_blocks_agree m k b1 b2 o1 : 0 ≤ k → k + Z.of_nat m = count → length b1 = length b2 →
  (∀ j, j < bs * k → zlookup b1 j = zlookup b2 j) →
  read_blocks B bs count tail_size (seqZ k (Z.of_nat m)) b1 = Some (0, o1) →
  ∃ o2, read_blocks B bs count tail_size (seqZ k (Z.of_nat m)) b2 = Some (0, o2) ∧ length o2 = length o1 ∧
    ∀ j, j < reach k m → zlookup o1 j = zlookup o2 j.
Proof.
  revert k b1 b2. induction m as [|m IH]; intros k b1 b2 Hk Hc Hl Ha; [cbn; intros [= <-]; by exists b2|].
  rewrite seqZ_cons by lia. replace (Z.pred (Z.of_nat (S m))) with (Z.of_nat m) by lia. cbn [read_blocks]. fold (len k).
  destruct (B !! k) as [data|]; [|done].
  destruct (bytes_at data 0 (len k)) as [b|] eqn:Eb; cbn [mbind option_bind]; [|done].
  destruct (put_at b1 (bs * k) b) as [c1|] eqn:E1; cbn [mbind option_bind]; [|done]. intros Hrd.
  pose proof (bytes_at_length _ _ _ _ Eb) as Lb. pose proof (put_at_length _ _ _ _ E1) as L1.
  destruct (put_at_Some b2 (bs * k) b) as [c2 E2].
  { lia. } { unfold put_at in E1. destruct (_ && _) eqn:Ec; [|done]. to_prop. lia. }
  pose proof (put_at_length _ _ _ _ E2) as L2. rewrite E2. cbn [mbind option_bind].
  assert (∀ j, j < bs * k + len k → zlookup c1 j = zlookup c2 j) as Hc12.
  { intros j Hj. rewrite (put_at_zlookup _ _ _ _ j E1), (put_at_zlookup _ _ _ _ j E2). case_decide; [done|]. apply Ha. lia. }
  destruct m as [|m].
  - rewrite seqZ_nil in * by lia. cbn in Hrd |- *. injection Hrd as <-. exists c2. split; [done|]. split; [lia|].
    cbn [reach]. replace (k + Z.of_nat 0) with k by lia. exact Hc12.
  - assert (len k = bs) as Hlen by (unfold len; by rewrite (proj2 (Z.ltb_lt _ _)) by lia).
    destruct (IH (Z.succ k) c1 c2) as (o2 & E & Lo & Ho); [lia|lia|lia| |exact Hrd|].
    { intros j Hj. apply Hc12. lia. }
    exists o2. split; [exact E|]. split; [done|]. unfold reach in *.
    replace (k + Z.of_nat (S m)) with (Z.succ k + Z.of_nat m) by lia. exact Ho.
Qed.

(** Blocks that hold the parts of [value] are read as [value]. *)
Lemma read_blocks_parts value m k : 0 ≤ k → k + Z.of_nat m = count →
  (∀ i, 0 ≤ i < count → ∃ data, B !! i = Some data ∧ ∃ b, bytes_at data 0 (len i) = Some b ∧ bytes_at value (bs * i) (len i) = Some b) →
  read_blocks B bs count tail_size (seqZ k (Z.of_nat m)) value = Some (0, value).
Proof.
  intros Hk Hc Hp. revert k Hk Hc. induction m as [|m IH]; intros k Hk Hc; [done|].
  rewrite seqZ_cons by lia. replace (Z.pred (Z.of_nat (S m))) with (Z.of_nat m) by lia. cbn [read_blocks]. fold (len k).
  destruct (Hp k) as (data & -> & b & -> & Hv); [lia|]. cbn [mbind option_bind].
  rewrite (put_at_same _ _ _ _ Hv). cbn [mbind option_bind]. apply IH; lia.
Qed.

End contents.

Section sizes.
Context (v : ea_env).
Hypothesis (Hbits : 0 ≤ ev_blkbits v ≤ 16).

Definition block_size : Z := Z.shiftl 1 (ev_blkbits v).
Definition block_count (size : Z) : Z := Z.shiftr (size + block_size - 1) (ev_blkbits v).
Definition tail_of (size : Z) : Z := if size mod block_size =? 0 then block_size else size mod block_size.

Lemma block_size_eq : block_size = 2 ^ ev_blkbits v ∧ 0 < block_size.
Proof. unfold block_size. rewrite Z.shiftl_1_l. split; [done|]. apply Z.pow_pos_nonneg; lia. Qed.

Lemma tail_range size : 0 < tail_of size ≤ block_size.
Proof.
  pose proof block_size_eq as [_ Hp]. unfold tail_of. pose proof (Z.mod_pos_bound size block_size Hp).
  destruct (Z.eqb_spec (size mod block_size) 0); lia.
Qed.

Lemma block_count_eq size : 0 ≤ size → 0 ≤ block_count size ∧
  (size = 0 → block_count size = 0) ∧ (0 < size → size = block_size * (block_count size - 1) + tail_of size).
Proof.
  intros H. pose proof block_size_eq as [He Hp]. unfold block_count. rewrite Z.shiftr_div_pow2, <-He by lia.
  split; [apply Z.div_pos; lia|]. split.
  - intros ->. apply Z.div_small. lia.
  - intros Hpos. unfold tail_of. pose proof (Z.div_mod size block_size ltac:(lia)) as Hdm. pose proof (Z.mod_pos_bound size block_size Hp).
    set (q := size / block_size) in *. set (r := size mod block_size) in *.
    destruct (Z.eqb_spec r 0) as [Hr|Hr].
    + assert ((size + block_size - 1) / block_size = q) as ->; [|lia]. symmetry. apply (Z.div_unique _ _ _ (block_size - 1)); lia.
    + assert ((size + block_size - 1) / block_size = q + 1) as ->; [|lia]. symmetry. apply (Z.div_unique _ _ _ (r - 1)); lia.
Qed.

(** The buffer read from blocks [B], when nothing else fails. *)
Definition read_all (B : gmap Z bytes) (buf : bytes) : option (Z * bytes) :=
  let size := Z.of_nat (length buf) in
  read_blocks B block_size (block_count size) (tail_of size) (seqZ 0 (block_count size)) buf.

Lemma read_all_any B buf value : length buf = length value → read_all B buf = Some (0, value) →
  ∀ buf', length buf' = length value → read_all B buf' = Some (0, value).
Proof.
  intros Hl Hr buf' Hl'. unfold read_all in *. rewrite Hl' , Hl in *. set (size := Z.of_nat (length value)) in *.
  destruct (block_count_eq size ltac:(lia)) as (Hc & Hc0 & Hc1). pose proof block_size_eq as [_ Hp]. pose proof (tail_range size).
  replace (seqZ 0 (block_count size)) with (seqZ 0 (Z.of_nat (Z.to_nat (block_count size)))) in Hr |- * by (f_equal; lia).
  destruct (read_blocks_agree B block_size (block_count size) (tail_of size) Hp (Z.to_nat (block_count size)) 0 buf buf' value) as (o2 & E & L & Ha);
    [lia|lia|lia| |exact Hr|].
  { intros j Hj. rewrite !zlookup_neg by lia. done. }
  rewrite E. do 2 f_equal. symmetry. apply zlookup_eq. intros j.
  destruct (decide (0 ≤ j < size)) as [Hj|Hj].
  - apply Ha. destruct (Z.to_nat (block_count size)) as [|m] eqn:Em; [lia|].
    rewrite (proj2 (Z.ltb_ge _ _)) by lia. replace (0 + Z.of_nat m) with (block_count size - 1) by lia. lia.
  - destruct (zlookup value j) eqn:Ev; [apply zlookup_range in Ev; lia|].
    destruct (zlookup o2 j) eqn:Eo; [apply zlookup_range in Eo; lia|done].
Qed.

(** The block [j] of a value, as it is written. *)
Definition block_data (value : bytes) (j : Z) : bytes :=
  let part := take (Z.to_nat block_size) (drop (Z.to_nat (block_size * j)) value) in
  part ++ replicate (Z.to_nat block_size - length part) 0.

Lemma read_all_written B value : (∀ j, 0 ≤ j → block_size * j < Z.of_nat (length value) → B !! j = Some (block_data value j)) →
  read_all B value = Some (0, value).
Proof.
  intros HB. unfold read_all. set (size := Z.of_nat (length value)) in *.
  destruct (block_count_eq size ltac:(lia)) as (Hc & Hc0 & Hc1). pose proof block_size_eq as [_ Hp]. pose proof (tail_range size).
  replace (seqZ 0 (block_count size)) with (seqZ 0 (Z.of_nat (Z.to_nat (block_count size)))) by (f_equal; lia).
  apply read_blocks_parts; [lia|lia|]. intros i Hi. assert (0 < size) as Hs by (destruct (decide (size = 0)); [rewrite Hc0 in Hi|]; lia).
  exists (block_data value i). split; [apply HB; [lia|]; nia|].
  set (n := if i <? block_count size - 1 then block_size else tail_of size).
  assert (0 < n ≤ block_size ∧ block_size * i + n ≤ size) as [Hn Hni].
  { unfold n. destruct (Z.ltb_spec i (block_count size - 1)); nia. }
  exists (take (Z.to_nat n) (drop (Z.to_nat (block_size * i)) value)). split; [|by apply bytes_at_sub; lia].
  unfold block_data. set (part := take _ _).
  assert (Z.to_nat n ≤ length part)%nat as Hlp by (unfold part; rewrite length_take, length_drop; lia).
  rewrite bytes_at_sub by (rewrite ?length_app, ?length_replicate; lia). f_equal. rewrite drop_0. rewrite (take_app_le part) by done.
  unfold part. rewrite take_take. f_equal. lia.
Qed.

End sizes.

(** ** Handles and contents on every path *)

(** The part of an inode that holds its value. *)
Definition contents (i : ea_inode) : Z * gmap Z bytes * Z := (ea_size i, ea_blocks i, ea_atime i).

(** A table of inodes between two calls. *)
Definition table_ok (m : gmap Z ea_inode) : Prop :=
  ∀ ino i, m !! ino = Some i → 0 ≤ ea_count i ∧ (ea_nlink i = 0 → 0 < ea_count i).

(** The inodes of [m] are still there with their contents, links and handles, and
    with [d] handles more; [own] is the inode that the call created. *)
Record since (m : gmap Z ea_inode) (own : option Z) (d : Z → Z) (s : ea_state) : Prop := {
  sn_old : ∀ ino i0, m !! ino = Some i0 → ∃ i, ea_inodes s !! ino = Some i ∧ contents i = contents i0 ∧
    ea_count i = ea_count i0 + d ino ∧ (ea_nlink i = 0 → ea_nlink i0 = 0);
  sn_new : ∀ ino i, m !! ino = None → ea_inodes s !! ino = Some i → own = Some ino ∧ ea_count i = d ino }.

Definition plus (ino c : Z) (d : Z → Z) : Z → Z := λ k, if decide (k = ino) then d k + c else d k.

Lemma since_refl m own s : ea_inodes s = m → since m own (λ _, 0) s.
Proof.
  intros <-. split; [|congruence]. intros ino i0 H. exists i0. split; [done|]. split; [done|]. split; [lia|done].
Qed.

(** Only the table of inodes matters. *)
Lemma since_inodes m own d s s' : since m own d s → ea_inodes s' = ea_inodes s → since m own d s'.
Proof. intros [H1 H2] E. split; rewrite E; done. Qed.

Lemma since_ext m own d d' s : since m own d s → (∀ k, d k = d' k) → since m own d' s.
Proof. intros [H1 H2] E. split; [intros ino i0 H; rewrite <-E; by apply H1|intros ino i Hm Hs; rewrite <-E; by apply H2]. Qed.

(** An inode of the table is replaced by one with [c] handles more. *)
Lemma since_put m own d s ino i i' c : since m own d s → ea_inodes s !! ino = Some i →
  ea_count i' = ea_count i + c →
  (own ≠ Some ino → contents i' = contents i ∧ (ea_nlink i' = 0 → ea_nlink i = 0)) → (own = Some ino → m !! ino = None) →
  since m own (plus ino c d) (with_inodes (<[ino := i']> (ea_inodes s)) s).
Proof.
  intros [H1 H2] Hi Hc Hk Hown. split; unfold plus; cbn [ea_inodes with_inodes].
  - intros k k0 Hm. destruct (H1 k k0 Hm) as (j & Hj & Hco & Hct & Hn). case_decide as Hd.
    + subst k. rewrite lookup_insert_eq. exists i'. assert (j = i) as -> by congruence. split; [done|].
      destruct Hk as [Hk1 Hk2]; [intros ->; rewrite Hown in Hm; done|]. split; [congruence|]. split; [lia|auto].
    + rewrite lookup_insert_ne by done. by exists j.
  - intros k k1 Hm Hs. case_decide as Hd.
    + subst k. rewrite lookup_insert_eq in Hs. injection Hs as ->. destruct (H2 ino i Hm Hi). split; [done|]. lia.
    + rewrite lookup_insert_ne in Hs by done. by apply H2.
Qed.

Lemma since_same m own d s ino i i' : since m own d s → ea_inodes s !! ino = Some i → ea_count i' = ea_count i →
  (own ≠ Some ino → contents i' = contents i ∧ (ea_nlink i' = 0 → ea_nlink i = 0)) → (own = Some ino → m !! ino = None) →
  since m own d (with_inodes (<[ino := i']> (ea_inodes s)) s).
Proof.
  intros H Hi Hc Hk Ho. apply (since_ext m own (plus ino 0 d)); [eapply since_put; try done; lia|].
  intros k. unfold plus. case_decide; lia.
Qed.

Lemma iget_since v m own d s ino : since m own d s → (own = Some ino → m !! ino = None) → ev_missing v ≠ 0 →
  ∃ e s', ext4_iget v ino s = Some (e, s') ∧
    if e =? 0 then since m own (plus ino 1 d) s' ∧ (∃ i, ea_inodes s !! ino = Some i ∧ ea_inodes s' !! ino = Some (set_count (ea_count i + 1) i))
    else since m own d s'.
Proof.
  intros Hs Ho Hmiss. unfold ext4_iget. run (ext_run 0 s). run (get_run (popped s)). change (ea_inodes (popped s)) with (ea_inodes s).
  assert (since m own d (popped s)) as Hp by by eapply since_inodes.
  destruct (ea_inodes s !! ino) as [i|] eqn:Ei.
  2:{ exists (ev_missing v), (popped s). split; [done|]. by rewrite (proj2 (Z.eqb_neq _ _) Hmiss). }
  destruct (Z.eqb_spec (default 0 (head (ea_outcomes s))) 0) as [H|H]; cbn [negb].
  - exists 0. eexists. split; [reflexivity|]. cbn [Z.eqb]. split.
    + by eapply since_put.
    + exists i. split; [done|]. apply lookup_insert_eq.
  - exists (default 0 (head (ea_outcomes s))), (popped s). split; [done|]. by rewrite (proj2 (Z.eqb_neq _ _) H).
Qed.

Lemma iput_since m own d s ino i : table_ok m → since m own d s → (own = Some ino → m !! ino = None) →
  ea_inodes s !! ino = Some i → 0 < d ino →
  ∃ s', iput ino s = Some (tt, s') ∧ since m own (plus ino (-1) d) s'.
Proof.
  intros Hm Hs Ho Hi Hd. unfold iput. run (eget_run ino s i Hi). pose proof Hs as [H1 H2].
  assert (0 < ea_count i ∧ (ea_count i = 1 → ea_nlink i = 0 → m !! ino = None)) as [Hpos Hev].
  { destruct (m !! ino) as [i0|] eqn:Em.
    - destruct (H1 _ _ Em) as (j & Hj & _ & Hc & Hn). assert (j = i) as -> by congruence. destruct (Hm _ _ Em) as [? Hn0]. split; [lia|].
      intros Hc1 Hl. specialize (Hn0 (Hn Hl)). lia.
    - destruct (H2 _ _ Em Hi). split; [lia|done]. }
  rewrite (proj2 (Z.leb_gt _ _)) by done.
  destruct (Z.eqb_spec (ea_count i) 1) as [Hc|Hc]; [destruct (Z.eqb_spec (ea_nlink i) 0) as [Hn|Hn]|]; cbn [andb].
  - eexists. split; [reflexivity|]. specialize (Hev Hc Hn). split; cbn [ea_inodes with_inodes with_orphans with_cache]; unfold plus.
    + intros k k0 Hk. rewrite lookup_delete_ne, decide_False by congruence. by apply H1.
    + intros k k1 Hk Hk1. destruct (decide (k = ino)) as [->|Hne]; [by rewrite lookup_delete_eq in Hk1|].
      rewrite lookup_delete_ne in Hk1 by done. by apply H2.
  - eexists. split; [reflexivity|]. by eapply since_put.
  - eexists. split; [reflexivity|]. by eapply since_put.
Qed.

(** ** Reference counts *)

Definition bump (change : Z) (i : ea_inode) : ea_inode :=
  let ref_count := wrapS 64 (wrapS 64 (ext4_xattr_inode_get_ref i) + change) in
  let i := ext4_xattr_inode_set_ref (u64 ref_count) i in
  if 0 <? change then (if ref_count =? 1 then set_nlink 1 i else i)
  else if ref_count =? 0 then set_nlink 0 i else i.

Lemma bump_same change i : contents (bump change i) = contents i ∧ ea_count (bump change i) = ea_count i ∧
  ea_lustre (bump change i) = ea_lustre i ∧ ea_mtime (bump change i) = ea_mtime i ∧ ea_generation (bump change i) = ea_generation i.
Proof. unfold bump. by destruct (0 <? change), (_ =? _). Qed.

Lemma bump_nlink change i : 0 < change → ea_nlink (bump change i) = 0 → ea_nlink i = 0.
Proof. intros H. unfold bump. rewrite (proj2 (Z.ltb_lt _ _)) by done. by destruct (_ =? _). Qed.

(** The whole call: nothing happens, or the count changes and the result is that
    of writing the inode. *)
Lemma update_ref_run ino change s i : ea_inodes s !! ino = Some i →
  (∃ e, e ≠ 0 ∧ head (ea_outcomes s) = Some e ∧ ext4_xattr_inode_update_ref ino change s = Some (e, popped s)) ∨
  (default 0 (head (ea_outcomes s)) = 0 ∧ ∃ o, ext4_xattr_inode_update_ref ino change s =
    Some (default 0 (head (tail (ea_outcomes s))), with_orphans o (popped (popped (with_inodes (<[ino := bump change i]> (ea_inodes s)) s)))) ∧
    o = if 0 <? change then (if wrapS 64 (wrapS 64 (ext4_xattr_inode_get_ref i) + change) =? 1 then ea_orphans s ∖ {[ino]} else ea_orphans s)
        else if wrapS 64 (wrapS 64 (ext4_xattr_inode_get_ref i) + change) =? 0 then {[ino]} ∪ ea_orphans s else ea_orphans s).
Proof.
  intros Hi. unfold ext4_xattr_inode_update_ref. run (ext_run 0 s).
  destruct (Z.eqb_spec (default 0 (head (ea_outcomes s))) 0) as [H|H]; cbn [negb].
  2:{ left. destruct (head (ea_outcomes s)) as [e|] eqn:Eh; [|done]. by exists e. }
  right. split; [done|]. assert (ea_inodes (popped s) !! ino = Some i) as Hi' by done. run (eget_run _ _ _ Hi').
  set (rc := wrapS 64 _). set (i1 := ext4_xattr_inode_set_ref _ i). unfold bump. fold rc. fold i1.
  run (eput_run ino i1 (popped s)). set (s1 := with_inodes _ (popped s)).
  assert (update_links ino change rc i1 s1 = Some (tt,
    with_orphans (if 0 <? change then (if rc =? 1 then ea_orphans s ∖ {[ino]} else ea_orphans s)
      else if rc =? 0 then {[ino]} ∪ ea_orphans s else ea_orphans s)
    (with_inodes (<[ino := if 0 <? change then (if rc =? 1 then set_nlink 1 i1 else i1)
      else if rc =? 0 then set_nlink 0 i1 else i1]> (ea_inodes s)) s1))) as E.
  { unfold update_links. destruct (0 <? change), (rc =? _); unfold mbind, st_bind, eput, upd_orphans, modify, mret, st_ret, s1; cbn;
      rewrite ?insert_insert_eq; by destruct s. }
  run E. rewrite ext_run. eexists. split; [|reflexivity]. by destruct s as [? ? ? ? [|? [|? ?]] ?].
Qed.

Lemma update_since m own d s ino change i : since m own d s → (own = Some ino → m !! ino = None) → ea_inodes s !! ino = Some i →
  0 < change ∨ own = Some ino →
  ∃ e s' i', ext4_xattr_inode_update_ref ino change s = Some (e, s') ∧ since m own d s' ∧
    ea_inodes s' !! ino = Some i' ∧ contents i' = contents i.
Proof.
  intros Hs Ho Hi Hc. destruct (update_ref_run ino change s i Hi) as [(e & _ & _ & E)|(_ & o & E & _)].
  - exists e, (popped s), i. split; [done|]. split; [by eapply since_inodes|done].
  - eexists _, _, (bump change i). split; [exact E|]. destruct (bump_same change i) as (Hk & Hn & _). split; [|split; [|done]].
    + eapply since_inodes; [eapply (since_same m own d s ino i (bump change i)); try done|done].
      intros Hne. split; [done|]. destruct Hc; [by apply bump_nlink|done].
    + apply lookup_insert_eq.
Qed.

(** ** Reading on every path *)

Section paths.
Context (v : ea_env).
Hypothesis (Hbits : 0 ≤ ev_blkbits v ≤ 16) (Hmiss : ev_missing v ≠ 0).
Hypothesis (Hsum : ∀ b, is_u 32 (ev_chksum v b)).

(** Whole blocks. *)
Definition blocks_full (B : gmap Z bytes) : Prop := ∀ b data, B !! b = Some data → Z.of_nat (length data) = block_size v.

Lemma read_blocks_total B count tail m k buf : blocks_full B → 0 < tail ≤ block_size v → 0 ≤ k → k + Z.of_nat m = count →
  (0 < count → block_size v * (count - 1) + tail ≤ Z.of_nat (length buf)) →
  ∃ code buf', read_blocks B (block_size v) count tail (seqZ k (Z.of_nat m)) buf = Some (code, buf') ∧ length buf' = length buf.
Proof.
  intros HB Ht. revert k buf. induction m as [|m IH]; intros k buf Hk Hc Hl; [by exists 0, buf|].
  rewrite seqZ_cons by lia. replace (Z.pred (Z.of_nat (S m))) with (Z.of_nat m) by lia. cbn [read_blocks].
  destruct (B !! k) as [data|] eqn:Ed; [|by exists (- EFSCORRUPTED), buf]. apply HB in Ed.
  set (n := if k <? count - 1 then block_size v else tail).
  assert (0 < n ≤ block_size v ∧ block_size v * k + n ≤ Z.of_nat (length buf)) as [Hn Hni].
  { unfold n. destruct (Z.ltb_spec k (count - 1)); [|replace k with (count - 1) by lia; lia]. specialize (Hl ltac:(lia)). nia. }
  destruct (proj2 (bytes_at_is_Some data 0 n)) as [b Eb]; [lia|]. rewrite Eb. cbn [mbind option_bind].
  pose proof (bytes_at_length _ _ _ _ Eb). destruct (put_at_Some buf (block_size v * k) b) as [c Ec]; [nia|lia|].
  rewrite Ec. cbn [mbind option_bind]. pose proof (put_at_length _ _ _ _ Ec) as Lc.
  destruct (IH (Z.succ k) c) as (code & buf' & E & L); [lia|lia|rewrite Lc; exact Hl|]. exists code, buf'. split; [done|lia].
Qed.

Lemma read_run ino i s buf : ea_inodes s !! ino = Some i → blocks_full (ea_blocks i) →
  ∃ code buf' s', ext4_xattr_inode_read v ino buf (Z.of_nat (length buf)) s = Some ((code, buf'), s') ∧
    ea_inodes s' = ea_inodes s ∧ length buf' = length buf ∧ (code = 0 → read_all v (ea_blocks i) buf = Some (0, buf')).
Proof.
  intros Hi HB. unfold ext4_xattr_inode_read. cbv zeta. fold (block_size v). set (size := Z.of_nat (length buf)).
  fold (block_count v size). fold (tail_of v size).
  assert (∃ z s1, (if 8 <? block_count v size then ext 0 else mret 0) s = Some (z, s1) ∧ ea_inodes s1 = ea_inodes s) as (z & s1 & E1 & Hs1).
  { destruct (8 <? _); [|by exists 0, s]. rewrite ext_run. eexists _, _. done. }
  run E1. destruct (z =? 0); cbn [negb]; [|by exists (- ENOMEM), buf, s1].
  run (ext_run 0 s1). destruct (Z.eqb_spec (default 0 (head (ea_outcomes s1))) 0) as [H|H]; cbn [negb].
  2:{ eexists _, buf, (popped s1). split; [reflexivity|]. by split_and!; [| |intros Hx; rewrite Hx in H]. }
  assert (ea_inodes (popped s1) !! ino = Some i) as Hi1 by (cbn; by rewrite Hs1). run (eget_run _ _ _ Hi1).
  destruct (block_count_eq v Hbits size ltac:(lia)) as (Hc & Hc0 & Hc1).
  destruct (read_blocks_total (ea_blocks i) (block_count v size) (tail_of v size) (Z.to_nat (block_count v size)) 0 buf HB (tail_range v Hbits size))
    as (code & buf' & E & L); [lia|lia| |].
  { intros Hp. destruct (decide (size = 0)); [rewrite Hc0 in Hp; lia|]. fold size. lia. }
  replace (seqZ 0 (Z.of_nat _)) with (seqZ 0 (block_count v size)) in E by (f_equal; lia).
  exists code, buf', (popped s1). unfold lift. rewrite E. split_and!; try done. intros ->. exact E.
Qed.

(** What the value inode holds. *)
Definition holds (i : ea_inode) (value : bytes) : Prop :=
  ea_size i = Z.of_nat (length value) ∧ ext4_xattr_inode_get_hash i = ev_chksum v value ∧
  read_all v (ea_blocks i) value = Some (0, value).

Lemma holds_contents i i' value : contents i' = contents i → holds i value → holds i' value.
Proof. intros [= E1 E2 E3]. unfold holds, ext4_xattr_inode_get_hash. by rewrite E1, E2, E3. Qed.

Definition table_full (m : gmap Z ea_inode) : Prop := ∀ ino i, m !! ino = Some i → blocks_full (ea_blocks i).

Lemma since_full m d s ino i : table_full m → since m None d s → ea_inodes s !! ino = Some i → blocks_full (ea_blocks i).
Proof.
  intros Hm [H1 H2] Hi. destruct (m !! ino) as [i0|] eqn:E.
  - destruct (H1 _ _ E) as (j & Hj & [= _ Hb _] & _). assert (j = i) as -> by congruence. rewrite Hb. by eapply Hm.
  - by destruct (H2 _ _ E Hi).
Qed.

Lemma memcmp_0 a b : length a = length b → memcmp a b = 0 → a = b.
Proof.
  revert b. induction a as [|x a IH]; intros [|y b] Hl; try done. cbn [memcmp]. destruct (Z.eqb_spec x y) as [->|]; [|lia].
  intros H. f_equal. apply IH; [by injection Hl|done].
Qed.

Lemma same_value_run i ino value s : ea_inodes s !! ino = Some i → blocks_full (ea_blocks i) →
  ∃ b s', same_value v i ino value s = Some (b, s') ∧ ea_inodes s' = ea_inodes s ∧ (b = true → holds i value).
Proof.
  intros Hi HB. unfold same_value. destruct (Z.eqb_spec (ea_size i) (Z.of_nat (length value))) as [Hz|Hz]; cbn [negb]; [|by exists false, s].
  destruct (read_run ino i s (replicate (length value) 0) Hi HB) as (code & data & s' & E & Hs' & L & Hrd).
  rewrite length_replicate in E, L. run E. eexists _, s'. split; [reflexivity|]. split; [done|].
  intros [[Hc%Z.eqb_eq Hh%Z.eqb_eq]%andb_true_iff Hm%Z.eqb_eq]%andb_true_iff. apply memcmp_0 in Hm as <-; [|done].
  split; [done|]. split.
  - unfold ext4_xattr_inode_verify_hashes in Hh. destruct (Z.eqb_spec (ev_chksum v value) (ext4_xattr_inode_get_hash i)); [done|]. by cbn in Hh.
  - apply (read_all_any v Hbits _ (replicate (length value) 0)); [by rewrite length_replicate|by apply Hrd|done].
Qed.

Lemma cache_find_since m value inos s : table_ok m → table_full m → since m None (λ _, 0) s →
  ∃ res s', cache_find_loop v value inos s = Some (res, s') ∧
    match res with
    | None => since m None (λ _, 0) s'
    | Some ino => since m None (plus ino 1 (λ _, 0)) s' ∧ ∃ i, ea_inodes s' !! ino = Some i ∧ holds i value
    end.
Proof.
  intros Hm Hf. revert s. induction inos as [|ino inos IH]; intros s Hs; cbn [cache_find_loop]; [by exists None, s|].
  destruct (iget_since v m None (λ _, 0) s ino Hs ltac:(done) Hmiss) as (e & s1 & E1 & H1). run E1.
  destruct (Z.eqb_spec e 0) as [->|He]; cbn [negb Z.eqb] in *; [|by apply IH].
  destruct H1 as [Hs1 (i & _ & Hi1)]. run (eget_run _ _ _ Hi1). set (i1 := set_count _ i) in *.
  destruct (same_value_run i1 ino value s1 Hi1 (since_full _ _ _ _ _ Hf Hs1 Hi1)) as (b & s2 & E2 & Hs2 & Hb).
  run E2. assert (since m None (plus ino 1 (λ _, 0)) s2) as Hs2' by by eapply since_inodes.
  destruct b; [by exists (Some ino), s2; split; [|split; [|exists i1; rewrite Hs2; auto]]|].
  destruct (iput_since m None _ s2 ino i1 Hm Hs2' ltac:(done)) as (s3 & E3 & Hs3); [by rewrite Hs2|unfold plus; by rewrite decide_True|].
  run E3. apply IH. eapply since_ext; [exact Hs3|]. intros k. unfold plus. case_decide; lia.
Qed.


(** ** Writing and creating on every path *)

Lemma map_run fuel (ret max : Z) s : (length (ea_outcomes s) + (if (ret <? max)%Z then 1 else 0) < fuel)%nat →
  ∃ r s', map_loop fuel ret max s = Some (r, s') ∧ ea_inodes s' = ea_inodes s.
Proof.
  revert ret max s. induction fuel as [|fuel IH]; intros ret max s Hf; [lia|]. cbn [map_loop].
  destruct (Z.leb_spec 0 ret) as [H0|H0]; [|by exists ret, s]. destruct (Z.ltb_spec ret max) as [H1|H1]; cbn [andb negb]; [|by exists ret, s].
  run (ext_run (max - ret) s). set (z := default _ (head _)). set (s1 := popped s).
  assert (length (ea_outcomes s1) + (if (z <? max - ret)%Z then 1 else 0) < fuel)%nat as Hf1.
  { unfold s1, z, popped. destruct (ea_outcomes s) as [|z0 o]; cbn in *; [|by destruct (z0 <? max - ret); lia].
    unfold id. rewrite Z.ltb_irrefl. lia. }
  destruct (Z.leb_spec z 0) as [Hz|Hz]; [|by destruct (IH z (max - ret) s1 Hf1) as (r & s' & E & Hs'); exists r, s'].
  run (ext_run 0 s1). set (s2 := popped s1).
  assert (∃ y s3, (if z =? - ENOSPC then ext 0 else mret 0) s2 = Some (y, s3) ∧ ea_inodes s3 = ea_inodes s ∧
    (y ≠ 0 → (length (ea_outcomes s3) + 1 < fuel)%nat)) as (y & s3 & E3 & Hs3 & Hy).
  { destruct (z =? - ENOSPC); [|by exists 0, s2]. rewrite ext_run. eexists _, _. split; [reflexivity|]. split; [done|].
    unfold s2, s1, popped in *. destruct (ea_outcomes s) as [|? [|? [|? ?]]]; cbn in *; destruct (_ <? _); try done; lia. }
  run E3. destruct (Z.eqb_spec y 0) as [->|Hne]; cbn [negb]; [by exists z, s3|].
  destruct (IH 0 (max - ret) s3) as (r & s' & E & Hs'); [specialize (Hy Hne); destruct (0 <? _); lia|]. exists r, s'. by rewrite Hs'.
Qed.

Lemma block_data_0 buf : let csize := if block_size v <? Z.of_nat (length buf) then block_size v else Z.of_nat (length buf) in
  take (Z.to_nat csize) buf ++ replicate (Z.to_nat (block_size v - csize)) 0 = block_data v buf 0.
Proof.
  pose proof (block_size_eq v Hbits) as [_ Hp]. unfold block_data. rewrite Z.mul_0_r, drop_0.
  destruct (Z.ltb_spec (block_size v) (Z.of_nat (length buf))) as [H|H].
  - f_equal. f_equal. rewrite length_take. lia.
  - rewrite !take_ge by lia. f_equal. f_equal. lia.
Qed.

Lemma block_data_S buf j : 0 ≤ j → block_data v (drop (Z.to_nat (block_size v)) buf) j = block_data v buf (j + 1).
Proof.
  intros Hj. pose proof (block_size_eq v Hbits) as [_ Hp]. unfold block_data. rewrite drop_drop.
  replace (Z.to_nat (block_size v) + Z.to_nat (block_size v * j))%nat with (Z.to_nat (block_size v * (j + 1))) by lia. done.
Qed.

(** What the loop over the blocks leaves of the inode. *)
Definition wrote (ino : Z) (i : ea_inode) (buf : bytes) (block : Z) (s : ea_state) (ret : Z) (out : bool) (s' : ea_state) : Prop :=
  ∃ B, ea_inodes s' = <[ino := set_data (ea_size i) B i]> (ea_inodes s) ∧ (out = true → ret ≠ 0) ∧
    (∀ b, b < block → B !! b = ea_blocks i !! b) ∧
    (out = false → ∀ j, 0 ≤ j → block_size v * j < Z.of_nat (length buf) → B !! (block + j) = Some (block_data v buf j)).

Lemma wrote_stop ino i buf block s ret out s' : ea_inodes s !! ino = Some i → ea_inodes s' = ea_inodes s →
  (out = true ∧ ret ≠ 0) ∨ (out = false ∧ buf = []) → wrote ino i buf block s ret out s'.
Proof.
  intros Hi Hs Ho. pose proof (block_size_eq v Hbits) as [_ Hp]. exists (ea_blocks i). split; [|split; [|split; [done|]]].
  - rewrite Hs, insert_id; [done|]. by destruct i.
  - intros ->. by destruct Ho as [[_ ?]|[? _]].
  - intros -> j Hj Hl. destruct Ho as [[? _]|[_ ->]]; [done|]. cbn in Hl. nia.
Qed.

Lemma write_loop_run fuel ino buf block ret s i : (length buf < fuel)%nat → ea_inodes s !! ino = Some i →
  ∃ ret' out s', write_loop fuel ino (block_size v) buf block ret s = Some ((ret', out), s') ∧ wrote ino i buf block s ret' out s'.
Proof.
  pose proof (block_size_eq v Hbits) as [_ Hp]. revert buf block ret s i. induction fuel as [|fuel IH]; intros buf block ret s i Hf Hi; [lia|].
  cbn [write_loop]. destruct (Z.leb_spec (Z.of_nat (length buf)) 0) as [Hz|Hz].
  { exists ret, false, s. split; [done|]. apply wrote_stop; [done|done|right; split; [done|by destruct buf]]. }
  run (ext_run 0 s). set (z := default 0 _). destruct (Z.ltb_spec z 0) as [H0|H0].
  { exists z, true, (popped s). split; [done|]. apply wrote_stop; [done|done|left; split; [done|lia]]. }
  destruct (Z.eqb_spec z 0) as [H1|H1]; cbn [negb].
  2:{ exists (- EFSCORRUPTED), true, (popped s). split; [done|]. apply wrote_stop; [done|done|by left]. }
  run (ext_run 0 (popped s)). set (y := default 0 _). destruct (Z.eqb_spec y 0) as [H2|H2]; cbn [negb].
  2:{ exists y, true, (popped (popped s)). split; [done|]. apply wrote_stop; [done|done|by left]. }
  assert (ea_inodes (popped (popped s)) !! ino = Some i) as Hi2 by done. run (eget_run _ _ _ Hi2).
  pose proof (block_data_0 buf) as Hd. cbv zeta in Hd. rewrite Hd. clear Hd.
  set (csize := if _ <? _ then _ else _). run (eput_run ino (set_data (ea_size i) (<[block:=block_data v buf 0]> (ea_blocks i)) i) (popped (popped s))).
  set (i1 := set_data _ _ i). set (s1 := with_inodes _ _). run (ext_run 0 s1).
  assert (0 < csize ∧ csize ≤ Z.of_nat (length buf) ∧ (block_size v < Z.of_nat (length buf) → csize = block_size v) ∧
    (csize = Z.of_nat (length buf) ∨ csize = block_size v)) as (Hc & Hcl & Hcb & Hcc).
  { unfold csize. destruct (Z.ltb_spec (block_size v) (Z.of_nat (length buf))); split_and!; try lia; auto. }
  destruct (IH (drop (Z.to_nat csize) buf) (block + 1) y (popped s1) i1) as (ret' & out & s' & E & B & Hs' & Ho & Hb & Hn).
  { rewrite length_drop. lia. } { apply lookup_insert_eq. }
  exists ret', out, s'. split; [done|]. exists B. split; [rewrite Hs'; cbn [ea_inodes popped with_outcomes s1 with_inodes]; by rewrite insert_insert_eq|].
  split; [done|]. split.
  - intros b Hb'. rewrite Hb by lia. cbn. by rewrite lookup_insert_ne by lia.
  - intros -> j Hj Hl. destruct (decide (j = 0)) as [->|Hj0].
    + rewrite Z.add_0_r, Hb by lia. apply lookup_insert_eq.
    + assert (csize = block_size v) as Hcs by (apply Hcb; nia). rewrite Hcs in Hn.
      replace (block + j) with (block + 1 + (j - 1)) by lia. rewrite Hn; [|done|lia|rewrite length_drop; nia].
      rewrite block_data_S by lia. do 2 f_equal. lia.
Qed.

Lemma write_run ino buf s i : ea_inodes s !! ino = Some i →
  ∃ code s' B size, ext4_xattr_inode_write v ino buf s = Some (code, s') ∧
    ea_inodes s' = <[ino := set_data size B i]> (ea_inodes s) ∧
    (code = 0 → size = Z.of_nat (length buf) ∧ read_all v B buf = Some (0, buf)).
Proof.
  intros Hi. unfold ext4_xattr_inode_write. cbv zeta. fold (block_size v). run (get_run s).
  destruct (map_run (S (length (ea_outcomes s)) + 1) 0 (Z.shiftr (Z.of_nat (length buf) + block_size v - 1) (ev_blkbits v)) s) as (r & s1 & E1 & Hs1).
  { destruct (_ <? _); lia. }
  run E1. destruct (Z.ltb_spec r 0) as [Hr|Hr].
  { exists r, s1, (ea_blocks i), (ea_size i). split; [done|]. split; [rewrite Hs1, insert_id; [done|by destruct i]|lia]. }
  assert (ea_inodes s1 !! ino = Some i) as Hi1 by by rewrite Hs1.
  destruct (write_loop_run (S (length buf)) ino buf 0 r s1 i ltac:(lia) Hi1) as (ret & out & s2 & E2 & B & Hs2 & Ho & _ & Hn).
  run E2. destruct out.
  { exists ret, s2, B, (ea_size i). split; [done|]. split; [by rewrite Hs2, Hs1|]. intros ->. by destruct Ho. }
  assert (ea_inodes s2 !! ino = Some (set_data (ea_size i) B i)) as Hi2 by (rewrite Hs2; apply lookup_insert_eq).
  run (eget_run _ _ _ Hi2). run (eput_run ino (set_data (Z.of_nat (length buf)) (ea_blocks (set_data (ea_size i) B i)) (set_data (ea_size i) B i)) s2).
  rewrite (st_bind_step _ _ _ _ _ (ext_run 0 _)). eexists _, _, B, (Z.of_nat (length buf)). split; [reflexivity|]. split.
  - cbn. by rewrite Hs2, insert_insert_eq, Hs1.
  - intros _. split; [done|]. by apply (read_all_written v Hbits), Hn.
Qed.


(** ** Creating and looking up *)

Lemma since_create m s ino i : since m None (λ _, 0) s → m !! ino = None → ea_count i = 1 →
  since m (Some ino) (plus ino 1 (λ _, 0)) (with_inodes (<[ino := i]> (ea_inodes s)) s).
Proof.
  intros [H1 H2] Hm Hc. split; unfold plus; cbn [ea_inodes with_inodes].
  - intros k k0 Hk. rewrite lookup_insert_ne, decide_False by congruence. by apply H1.
  - intros k k1 Hk Hs. destruct (decide (k = ino)) as [->|Hne].
    + rewrite lookup_insert_eq in Hs. by injection Hs as ->.
    + rewrite lookup_insert_ne in Hs by done. by destruct (H2 _ _ Hk Hs).
Qed.

Lemma since_own m ino d s : since m None d s → since m (Some ino) d s.
Proof. intros [H1 H2]. split; [done|]. intros k k1 Hk Hs. by destruct (H2 _ _ Hk Hs). Qed.

(** Dropping the reference and the handle of the inode that was created. *)
Lemma undo_create m s ino i : table_ok m → since m (Some ino) (plus ino 1 (λ _, 0)) s → m !! ino = None → ea_inodes s !! ino = Some i →
  ∃ s', (ext4_xattr_inode_dec_ref ino ;; iput ino) s = Some (tt, s') ∧ since m (Some ino) (λ _, 0) s'.
Proof.
  intros Hm Hs Hn Hi. destruct (update_since m (Some ino) _ s ino (-1) i Hs ltac:(by intros [= ]) Hi) as (e & s1 & i1 & E1 & H1 & Hi1 & _); [by right|].
  unfold ext4_xattr_inode_dec_ref. run E1.
  destruct (iput_since m (Some ino) _ s1 ino i1 Hm H1 ltac:(done) Hi1) as (s2 & E2 & H2); [unfold plus; rewrite decide_True by done; lia|].
  exists s2. split; [done|]. eapply since_ext; [exact H2|]. intros k. unfold plus. case_decide; lia.
Qed.

(** An inode that the allocator gives: one handle, no reference to the owner. *)
Hypothesis (Hnew : ea_count (ev_new v) = 1).

Lemma create_since m s ino hash : table_ok m → since m None (λ _, 0) s → m !! ino = None → is_u 32 hash →
  ∃ res s', ext4_xattr_inode_create v ino hash s = Some (res, s') ∧
    match res with
    | inl err => err ≠ 0 ∧ since m (Some ino) (λ _, 0) s'
    | inr k => k = ino ∧ since m (Some ino) (plus ino 1 (λ _, 0)) s' ∧
        ∃ i, ea_inodes s' !! ino = Some i ∧ ext4_xattr_inode_get_hash i = hash
    end.
Proof.
  intros Hm Hs Hn Hh. unfold ext4_xattr_inode_create. destruct (ev_root v); cbn [negb].
  2:{ exists (inl (- EINVAL)), s. split; [done|]. split; [done|by apply since_own]. }
  run (ext_run 0 s). set (e := default 0 _). destruct (Z.eqb_spec e 0) as [He|He]; cbn [negb].
  2:{ exists (inl e), (popped s). split; [done|]. split; [done|]. apply since_own. by eapply since_inodes. }
  set (i0 := ext4_xattr_inode_set_hash _ _). run (eput_run ino i0 (popped s)).
  assert (since m (Some ino) (plus ino 1 (λ _, 0)) (with_inodes (<[ino:=i0]> (ea_inodes (popped s))) (popped s))) as H1.
  { apply since_create; [by eapply since_inodes|done|done]. }
  set (s1 := with_inodes _ _) in *. assert (ea_inodes s1 !! ino = Some i0) as Hi1 by apply lookup_insert_eq.
  run (ext_run 0 s1). set (y := default 0 _).
  assert (∃ z s2, (if y =? 0 then ext 0 else mret y) (popped s1) = Some (z, s2) ∧ ea_inodes s2 = ea_inodes s1) as (z & s2 & E2 & Hs2).
  { destruct (y =? 0); [rewrite ext_run; by eexists _, _|by exists y, (popped s1)]. }
  run E2. assert (since m (Some ino) (plus ino 1 (λ _, 0)) s2) as H2 by by eapply since_inodes.
  rewrite <-Hs2 in Hi1. destruct (Z.eqb_spec z 0) as [Hz|Hz]; cbn [negb].
  - run (eget_run _ _ _ Hi1). run (eput_run ino (set_flags (ea_lustre i0) true i0) s2). eexists (inr ino), _. split; [reflexivity|].
    split; [done|]. split; [by eapply since_same|]. eexists. split; [apply lookup_insert_eq|]. by apply wrapU_small.
  - destruct (undo_create m s2 ino i0 Hm H2 Hn Hi1) as (s3 & E3 & H3). exists (inl z), s3. split; [|done].
    unfold mbind, st_bind in E3 |- *. destruct (ext4_xattr_inode_dec_ref ino s2) as [[??]|]; [|done]. by rewrite E3.
Qed.

Lemma cache_insert_run hash ino s : ∃ s', cache_insert hash ino s = Some (tt, s') ∧ ea_inodes s' = ea_inodes s.
Proof.
  unfold cache_insert. run (get_run s). destruct (ea_cache s) as [c|]; [|by exists s].
  run (ext_run 0 s). destruct (_ || _); [by exists (popped s)|]. by eexists.
Qed.

Lemma find_since m s value hash : table_ok m → table_full m → since m None (λ _, 0) s →
  ∃ res s', ext4_xattr_inode_cache_find v value hash s = Some (res, s') ∧
    match res with
    | None => since m None (λ _, 0) s'
    | Some ino => since m None (plus ino 1 (λ _, 0)) s' ∧ ∃ i, ea_inodes s' !! ino = Some i ∧ holds i value
    end.
Proof.
  intros Hm Hf Hs. unfold ext4_xattr_inode_cache_find. run (get_run s). destruct (ea_cache s) as [c|]; [|by exists None, s].
  destruct ((filter _ c).*2) as [|ino inos]; [by exists None, s|]. run (ext_run 0 s). set (e := default 0 _).
  assert (since m None (λ _, 0) (popped s)) as Hs' by by eapply since_inodes.
  destruct (negb _); [by exists None, (popped s)|]. by apply cache_find_since.
Qed.

(** After the call the value is in the inode that it answers, with a handle; or
    there is an error and no handle. *)
Definition stored (m : gmap Z ea_inode) (new_ino : Z) (value : bytes) (res : Z + Z) (s : ea_state) : Prop :=
  match res with
  | inl err => err ≠ 0 ∧ since m (Some new_ino) (λ _, 0) s
  | inr ino => since m (Some new_ino) (plus ino 1 (λ _, 0)) s ∧ (m !! ino ≠ None ∨ ino = new_ino) ∧
      ∃ i, ea_inodes s !! ino = Some i ∧ holds i value
  end.

Lemma stored_found m s new_ino value ino i : table_ok m → m !! new_ino = None → since m None (plus ino 1 (λ _, 0)) s →
  ea_inodes s !! ino = Some i → holds i value →
  ∃ res s', (err ← ext4_xattr_inode_inc_ref ino; if negb (err =? 0) then iput ino ;; mret (inl err) else mret (inr ino)) s = Some (res, s') ∧
    stored m new_ino value res s'.
Proof.
  intros Hm Hn Hs Hi Hh.
  destruct (update_since m None _ s ino 1 i Hs ltac:(done) Hi) as (e & s1 & i1 & E1 & H1 & Hi1 & Hc); [by left|].
  unfold ext4_xattr_inode_inc_ref. run E1. destruct (Z.eqb_spec e 0) as [He|He]; cbn [negb].
  - exists (inr ino), s1. split; [done|]. split; [by apply since_own|]. split; [left|exists i1; split; [done|by eapply holds_contents]].
    intros Hno. by destruct (sn_new _ _ _ _ H1 _ _ Hno Hi1).
  - destruct (iput_since m None _ s1 ino i1 Hm H1 ltac:(done) Hi1) as (s2 & E2 & H2); [unfold plus; rewrite decide_True by done; lia|].
    run E2. exists (inl e), s2. split; [done|]. split; [done|]. apply since_own. eapply since_ext; [exact H2|]. intros k. unfold plus. case_decide; lia.
Qed.

Lemma lookup_create_since s new_ino value : table_ok (ea_inodes s) → table_full (ea_inodes s) → ea_inodes s !! new_ino = None →
  ∃ res s', ext4_xattr_inode_lookup_create v new_ino value s = Some (res, s') ∧ stored (ea_inodes s) new_ino value res s'.
Proof.
  set (m := ea_inodes s). intros Hm Hf Hn. unfold ext4_xattr_inode_lookup_create. cbv zeta.
  destruct (find_since m s value (ev_chksum v value) Hm Hf (since_refl m None s eq_refl)) as (res & s1 & E1 & H1). run E1.
  destruct res as [ino|]; [destruct H1 as (H1 & i & Hi & Hh); by eapply stored_found|].
  destruct (create_since m s1 new_ino (ev_chksum v value) Hm H1 Hn (Hsum value)) as (c & s2 & E2 & H2). run E2.
  destruct c as [err|k]; [by exists (inl err), s2|]. destruct H2 as (-> & H2 & i & Hi & Hh).
  destruct (write_run new_ino value s2 i Hi) as (err & s3 & B & size & E3 & Hs3 & Hw). run E3.
  set (i3 := set_data size B i) in *. assert (ea_inodes s3 !! new_ino = Some i3) as Hi3 by (rewrite Hs3; apply lookup_insert_eq).
  assert (since m (Some new_ino) (plus new_ino 1 (λ _, 0)) s3) as H3.
  { eapply since_inodes; [by eapply (since_same _ _ _ s2 new_ino i i3)|done]. }
  destruct (Z.eqb_spec err 0) as [He|He]; cbn [negb].
  - destruct (cache_insert_run (ev_chksum v value) new_ino s3) as (s4 & E4 & Hs4). run E4. exists (inr new_ino), s4.
    split; [done|]. destruct (Hw He) as [-> Hr]. split; [by eapply since_inodes|]. split; [by right|]. exists i3. rewrite Hs4. done.
  - destruct (undo_create m s3 new_ino i3 Hm H3 Hn Hi3) as (s4 & E4 & H4). exists (inl err), s4. split; [|done].
    unfold mbind, st_bind in E4 |- *. destruct (ext4_xattr_inode_dec_ref new_ino s3) as [[??]|]; [|done]. by rewrite E4.
Qed.

End paths.

(** ** When nothing fails *)

Lemma ext_nil d s : ea_outcomes s = [] → ext d s = Some (d, s).
Proof. intros E. rewrite ext_run, E. unfold popped. rewrite E. destruct s. cbn in *. by subst. Qed.

Definition lustre_like (v : ea_env) (hash : Z) (i : ea_inode) : bool :=
  negb (hash =? ext4_xattr_inode_get_hash i) && (EXT4_XATTR_INODE_GET_PARENT i =? ev_ino v) && (ea_generation i =? ev_generation v).

(** The inode with one handle more, as it is after [ext4_xattr_inode_iget]. *)
Definition held (v : ea_env) (hash : Z) (i : ea_inode) : ea_inode :=
  let i := set_count (ea_count i + 1) i in
  if lustre_like v hash i then ext4_xattr_inode_set_ref 1 (set_flags true (ea_noquota i) i) else set_flags (ea_lustre i) true i.

Lemma held_same v hash i : contents (held v hash i) = contents i ∧ ea_count (held v hash i) = ea_count i + 1 ∧
  ea_nlink (held v hash i) = ea_nlink i ∧ ea_mtime (held v hash i) = ea_mtime i ∧ ea_generation (held v hash i) = ea_generation i.
Proof. unfold held. cbv zeta. by destruct (lustre_like _ _ _). Qed.

Lemma xattr_iget_nil v ino hash s i : ea_outcomes s = [] → ea_inodes s !! ino = Some i → ino ≠ ev_ino v →
  ext4_xattr_inode_iget v ino hash s = Some (0, with_inodes (<[ino := held v hash i]> (ea_inodes s)) s).
Proof.
  intros Ho Hi Hne. unfold ext4_xattr_inode_iget. rewrite (proj2 (Z.eqb_neq _ _)) by done.
  assert (ext4_iget v ino s = Some (0, with_inodes (<[ino := set_count (ea_count i + 1) i]> (ea_inodes s)) s)) as E.
  { unfold ext4_iget. run (ext_nil 0 s Ho). run (get_run s). by rewrite Hi. }
  run E. cbn [Z.eqb negb]. set (s1 := with_inodes _ s). set (i1 := set_count _ i) in *.
  assert (ea_inodes s1 !! ino = Some i1) as Hi1 by apply lookup_insert_eq. run (eget_run _ _ _ Hi1).
  fold (lustre_like v hash i1). unfold held. cbv zeta. fold i1. destruct (lustre_like v hash i1);
    unfold s1, eput, modify, mbind, st_bind, mret, st_ret; cbn; by rewrite insert_insert_eq.
Qed.

Lemma read_nil v ino i s buf value : 0 ≤ ev_blkbits v ≤ 16 → ea_outcomes s = [] → ea_inodes s !! ino = Some i →
  read_all v (ea_blocks i) value = Some (0, value) → length buf = length value →
  ext4_xattr_inode_read v ino buf (Z.of_nat (length value)) s = Some ((0, value), s).
Proof.
  intros Hb Ho Hi Hr Hl. unfold ext4_xattr_inode_read. cbv zeta. fold (block_size v). set (size := Z.of_nat (length value)).
  fold (block_count v size). fold (tail_of v size).
  assert ((if 8 <? block_count v size then ext 0 else mret 0) s = Some (0, s)) as E by (destruct (8 <? _); [by apply ext_nil|done]).
  run E. cbn [Z.eqb negb]. run (ext_nil 0 s Ho). cbn [Z.eqb negb]. run (eget_run _ _ _ Hi).
  pose proof (read_all_any v Hb _ value value eq_refl Hr buf Hl) as Hbuf. unfold read_all in Hbuf. rewrite Hl in Hbuf. fold size in Hbuf.
  unfold lift. by rewrite Hbuf.
Qed.

Lemma iput_total ino s i : ea_inodes s !! ino = Some i → 0 < ea_count i → ∃ s', iput ino s = Some (tt, s').
Proof.
  intros Hi Hc. unfold iput. run (eget_run _ _ _ Hi). rewrite (proj2 (Z.leb_gt _ _)) by done. destruct (_ && _); by eexists.
Qed.

Lemma inode_get_holds v name ino s i value buffer : 0 ≤ ev_blkbits v ≤ 16 → ea_outcomes s = [] → ea_inodes s !! ino = Some i →
  0 ≤ ea_count i → ino ≠ ev_ino v → holds v i value → length buffer = length value →
  ∃ s', ext4_xattr_inode_get v name ino (hash_step VALUE_HASH_SHIFT (hash_name name) (ev_chksum v value)) buffer (Z.of_nat (length value)) s =
    Some ((0, value), s').
Proof.
  intros Hb Ho Hi Hc Hne Hh Hl. set (e_hash := hash_step _ _ _). unfold ext4_xattr_inode_get.
  run (xattr_iget_nil v ino e_hash s i Ho Hi Hne). cbn [Z.eqb negb]. set (s1 := with_inodes _ s). set (i1 := held v e_hash i) in *.
  destruct (held_same v e_hash i) as (Hct & Hcn & _). fold i1 in Hct, Hcn. apply (holds_contents v i i1) in Hh; [|done].
  assert (ea_inodes s1 !! ino = Some i1) as Hi1 by apply lookup_insert_eq. assert (ea_outcomes s1 = []) as Ho1 by done.
  run (eget_run _ _ _ Hi1). pose proof Hh as (Hz & Hhash & Hr). rewrite Hz, Z.eqb_refl. cbn [negb].
  assert (∃ s2 i2, (r ← ext4_xattr_inode_read v ino buffer (Z.of_nat (length value));
     let '(err, buffer) := r in
     if negb (err =? 0) || ea_lustre i1 then mret (err, buffer)
     else
       let err := ext4_xattr_inode_verify_hashes v i1 (Some (name, e_hash)) buffer in
       if negb (err =? 0) then mret (err, buffer)
       else cache_insert (ext4_xattr_inode_get_hash i1) ino ;; mret (0, buffer)) s1 = Some ((0, value), s2) ∧
     ea_inodes s2 !! ino = Some i2 ∧ 0 < ea_count i2) as (s2 & i2 & E2 & Hi2 & Hc2).
  { run (read_nil v ino i1 s1 buffer value Hb Ho1 Hi1 Hr Hl). cbn [Z.eqb negb orb].
    destruct (ea_lustre i1); [exists s1, i1; split_and!; [done|done|lia]|].
    unfold ext4_xattr_inode_verify_hashes. rewrite Hhash, Z.eqb_refl. cbn [negb]. fold e_hash. rewrite Z.eqb_refl. cbn [negb Z.eqb].
    destruct (cache_insert_run (ev_chksum v value) ino s1) as (s2 & E2 & Hs2). run E2. exists s2, i1. rewrite Hs2. split_and!; [done|done|lia]. }
  run E2. destruct (iput_total ino s2 i2 Hi2 Hc2) as [s3 E3]. run E3. by exists s3.
Qed.

(** C35: A value that was stored in a value inode is read back from it, whether the
    inode is new or one that the cache knew: the attribute's entry is checked with
    the hash of its name and of the value, and the whole value is copied. *)
Theorem value_inode_roundtrip v new_ino value s s' ino name buffer
    (Hbits : 0 ≤ ev_blkbits v ≤ 16) (Hmiss : ev_missing v ≠ 0) (Hsum : ∀ b, is_u 32 (ev_chksum v b))
    (Hnew : ea_count (ev_new v) = 1)
    (Hok : table_ok (ea_inodes s)) (Hfull : table_full v (ea_inodes s)) (Hfresh : ea_inodes s !! new_ino = None)
    (Howner : ea_inodes s !! ev_ino v = None ∧ new_ino ≠ ev_ino v)
    (Hset : ext4_xattr_inode_lookup_create v new_ino value s = Some (inr ino, s'))
    (Hbuf : length buffer = length value) :
  ∃ s'', ext4_xattr_inode_get v name ino (hash_step VALUE_HASH_SHIFT (hash_name name) (ev_chksum v value))
           buffer (Z.of_nat (length value)) (with_outcomes [] s') = Some ((0, value), s'').
Proof.
  destruct (lookup_create_since v Hbits Hmiss Hsum Hnew s new_ino value Hok Hfull Hfresh) as (res & s1 & E & H).
  rewrite Hset in E. injection E as <- <-. destruct H as (Hs & Hin & i & Hi & Hh).
  apply (inode_get_holds v name ino (with_outcomes [] s') i value buffer Hbits); try done.
  - destruct (ea_inodes s !! ino) as [i0|] eqn:E0.
    + destruct (sn_old _ _ _ _ Hs _ _ E0) as (j & Hj & _ & Hc & _). assert (j = i) as -> by congruence.
      destruct (Hok _ _ E0). unfold plus in Hc. rewrite decide_True in Hc by done. lia.
    + destruct (sn_new _ _ _ _ Hs _ _ E0 Hi) as [_ Hc]. unfold plus in Hc. rewrite decide_True in Hc by done. lia.
  - destruct Howner as [Hw Hw2]. destruct Hin as [Hin| ->]; [|done]. intros ->. by rewrite Hw in Hin.
Qed.

(** Looking a value up, or storing it in a new inode, on every path, whatever
    fails: the call returns; the inodes that were there keep their values and, but
    for the one that is answered, their handles; an error leaves no handle behind,
    not even on the inode that was created; an answer is an inode that was there or
    the new one, with one handle for the caller. *)
Theorem lookup_create_balanced v new_ino value s
    (Hbits : 0 ≤ ev_blkbits v ≤ 16) (Hmiss : ev_missing v ≠ 0) (Hsum : ∀ b, is_u 32 (ev_chksum v b))
    (Hnew : ea_count (ev_new v) = 1)
    (Hok : table_ok (ea_inodes s)) (Hfull : table_full v (ea_inodes s)) (Hfresh : ea_inodes s !! new_ino = None) :
  ∃ res s', ext4_xattr_inode_lookup_create v new_ino value s = Some (res, s') ∧
    (∀ ino, res = inr ino → ea_inodes s !! ino ≠ None ∨ ino = new_ino) ∧
    (∀ ino i0, ea_inodes s !! ino = Some i0 → ∃ i, ea_inodes s' !! ino = Some i ∧ contents i = contents i0 ∧
       ea_count i = ea_count i0 + if decide (res = inr ino) then 1 else 0) ∧
    (∀ ino i, ea_inodes s !! ino = None → ea_inodes s' !! ino = Some i →
       ino = new_ino ∧ ea_count i = if decide (res = inr ino) then 1 else 0).
Proof.
  destruct (lookup_create_since v Hbits Hmiss Hsum Hnew s new_ino value Hok Hfull Hfresh) as (res & s1 & E & H).
  exists res, s1. split; [done|]. destruct res as [err|ino].
  - destruct H as [_ [H1 H2]]. split; [done|]. split.
    + intros ino i0 H0. destruct (H1 _ _ H0) as (i & ? & ? & ? & _). exists i. rewrite decide_False by done. auto.
    + intros ino i H0 Hi. destruct (H2 _ _ H0 Hi) as [[= ->] Hc]. rewrite decide_False by done. done.
  - destruct H as ([H1 H2] & Hin & _). split; [intros k [= <-]; done|]. split.
    + intros k i0 H0. destruct (H1 _ _ H0) as (i & ? & ? & Hc & _). exists i. split; [done|]. split; [done|].
      unfold plus in Hc. rewrite Hc. destruct (decide (k = ino)) as [->|]; [by rewrite decide_True|]. rewrite decide_False by congruence. lia.
    + intros k i H0 Hi. destruct (H2 _ _ H0 Hi) as [[= ->] Hc]. split; [done|]. unfold plus in Hc. rewrite Hc.
      destruct (decide (k = ino)) as [->|]; [by rewrite decide_True|]. by rewrite decide_False by congruence.
Qed.

(** ** An example *)

Definition demo_new : ea_inode := EaInode 0 0 0 0 7 1 false false 0 ∅ 1.

Definition demo_env : ea_env :=
  EaEnv (λ b, foldr Z.add 0 b mod 2 ^ 32) 2 0 2 9 true (-2) demo_new demo_csum_io false.

(** Inode 12 holds the value 1, 2, 3, 4, 5 with two references. *)
Definition demo_value_inode : ea_inode :=
  EaInode 0 2 15 0 7 1 false true 5 (<[0 := [1; 2; 3; 4]]> {[1 := [5; 0; 0; 0]]}) 0.

Definition demo_ea : ea_state := EaState {[12 := demo_value_inode]} ∅ (Some [(15, 12)]) (1, 8) [] [].

Lemma demo_table_ok : table_ok (ea_inodes demo_ea).
Proof. intros ino i. cbn. rewrite lookup_singleton_Some. intros [<- <-]. cbn. lia. Qed.

Lemma demo_table_full : table_full demo_env (ea_inodes demo_ea).
Proof.
  intros ino i. cbn. rewrite lookup_singleton_Some. intros [<- <-] b data. cbn. rewrite lookup_insert_Some, lookup_singleton_Some.
  by intros [[_ <-]|[_ [_ <-]]].
Qed.

Lemma demo_sum b : is_u 32 (ev_chksum demo_env b).
Proof. by apply Z.mod_pos_bound. Qed.

(** A new value is stored in inode 20 and read back. *)
Lemma value_inode_roundtrip_witness : ∃ s' s'',
  ext4_xattr_inode_lookup_create demo_env 20 [9; 8; 7; 6; 5; 4] demo_ea = Some (inr 20, s') ∧
  ext4_xattr_inode_get demo_env [97] 20 (hash_step VALUE_HASH_SHIFT (hash_name [97]) 39) (replicate 6 0) 6 (with_outcomes [] s') =
    Some ((0, [9; 8; 7; 6; 5; 4]), s'').
Proof.
  assert (∃ s', ext4_xattr_inode_lookup_create demo_env 20 [9; 8; 7; 6; 5; 4] demo_ea = Some (inr 20, s')) as [s' E]
    by (eexists; vm_compute; reflexivity).
  exists s'. destruct (value_inode_roundtrip demo_env 20 [9; 8; 7; 6; 5; 4] demo_ea s' 20 [97] (replicate 6 0)
    ltac:(by vm_compute) ltac:(done) demo_sum eq_refl demo_table_ok demo_table_full eq_refl ltac:(by vm_compute) E eq_refl) as [s'' E2].
  exists s''. split; [exact E|exact E2].
Defined.

(** The allocation of a block fails: the error, and inode 12 as it was. *)
Lemma lookup_create_balanced_witness : ∃ err s' i,
  ext4_xattr_inode_lookup_create demo_env 20 [9; 8; 7] (with_outcomes [0; 0; 0; -28; 0; 0] demo_ea) = Some (inl err, s') ∧
  ea_inodes s' !! 12 = Some i ∧ contents i = contents demo_value_inode.
Proof.
  destruct (lookup_create_balanced demo_env 20 [9; 8; 7] (with_outcomes [0; 0; 0; -28; 0; 0] demo_ea)
    ltac:(by vm_compute) ltac:(done) demo_sum eq_refl demo_table_ok demo_table_full eq_refl) as (res & s' & E & _ & Hold & _).
  destruct (Hold 12 demo_value_inode eq_refl) as (i & Hi & Hc & _).
  assert (∃ err s'', ext4_xattr_inode_lookup_create demo_env 20 [9; 8; 7] (with_outcomes [0; 0; 0; -28; 0; 0] demo_ea) = Some (inl err, s''))
    as (err & s'' & E2) by (eexists _, _; vm_compute; reflexivity).
  exists err, s', i. split; [|done]. rewrite E in E2. injection E2 as -> _. exact E.
Defined.


End Ext4Ea.
