(* ===== verification/Ext4EaRefs.v ===== *)
(** * The references of value inodes of ext4

    fs/ext4/xattr.c: what Ext4Ea's operations do to the reference counts and handles
    when nothing fails but the search for an inode that is not there.
    ext4_xattr_inode_inc_ref_all takes all references of a buffer or none, and
    ext4_xattr_delete_inode with ext4_xattr_inode_array_free gives up those of an
    inode and of a block that no other inode shares. *)

From Stdlib Require Import ZArith Lia.
From stdpp Require Import base numbers list gmap strings.
From S2P Require Import Prelude Xattr Ext4Xattr Ext4Set Ext4Store Ext4Ea.

Module Ext4EaRefs.
Import Xattr Ext4Xattr Ext4Set Ext4Store Ext4Ea.

(** ** Counting references

    From here on nothing fails but the search for an inode that is not there. *)

(** What the reference counts are about: references, handles, and the rest. *)
Record view := View { vw_ref : Z; vw_count : Z; vw_rest : Z * gmap Z bytes * Z }.

Definition view_of (i : ea_inode) : view := View (ext4_xattr_inode_get_ref i) (ea_count i) (contents i).
Definition views (s : ea_state) : gmap Z view := view_of <$> ea_inodes s.

(** An inode with links exactly when it is referenced, at most [N] times, and not
    of the old kind that points back to its owner. *)
Record sound (v : ea_env) (N : Z) (i : ea_inode) : Prop := {
  so_ref : 0 ≤ ext4_xattr_inode_get_ref i ≤ N;
  so_links : ea_nlink i = 0 ↔ ext4_xattr_inode_get_ref i = 0;
  so_count : 0 ≤ ea_count i;
  so_plain : EXT4_XATTR_INODE_GET_PARENT i ≠ ev_ino v ∨ ea_generation i ≠ ev_generation v;
  so_lustre : ea_lustre i = false }.

Record sound_table (v : ea_env) (N : Z) (s : ea_state) : Prop := {
  st_outcomes : ea_outcomes s = [];
  st_inodes : ∀ ino i, ea_inodes s !! ino = Some i → sound v N i }.

Definition add_view (r c : Z) (w : view) : view := View (vw_ref w + r) (vw_count w + c) (vw_rest w).

Lemma add_view_0 w : add_view 0 0 w = w.
Proof. destruct w. unfold add_view. cbn [vw_ref vw_count vw_rest]. by rewrite !Z.add_0_r. Qed.

Lemma add_view_add r c r' c' w : add_view r' c' (add_view r c w) = add_view (r + r') (c + c') w.
Proof. unfold add_view. cbn [vw_ref vw_count vw_rest]. by rewrite !Z.add_assoc. Qed.

(** References and handles change by [f] and [g]. *)
Definition shifted (f g : Z → Z) (s s' : ea_state) : Prop :=
  ∀ ino, views s' !! ino = (λ w, add_view (f ino) (g ino) w) <$> views s !! ino.

(** What only the quota and the log of the disk see. *)
Definition ledger (s : ea_state) : (Z * Z) * list store_op := (ea_quota s, ea_log s).

Definition delta (ino c : Z) : Z → Z := λ k, if decide (k = ino) then c else 0.

Lemma shifted_refl s : shifted (λ _, 0) (λ _, 0) s s.
Proof. intros ino. destruct (views s !! ino) as [w|]; [|done]. cbn [fmap option_fmap option_map]. by rewrite add_view_0. Qed.

Lemma shifted_trans f g f' g' s s1 s2 : shifted f g s s1 → shifted f' g' s1 s2 →
  shifted (λ k, f k + f' k) (λ k, g k + g' k) s s2.
Proof.
  intros H1 H2 ino. rewrite H2, H1. destruct (views s !! ino) as [w|]; [|done]. cbn [fmap option_fmap option_map]. by rewrite add_view_add.
Qed.

Lemma shifted_ext f g f' g' s s' : shifted f g s s' → (∀ k, f k = f' k) → (∀ k, g k = g' k) → shifted f' g' s s'.
Proof. intros H Hf Hg ino. by rewrite H, Hf, Hg. Qed.

Lemma shifted_inode f g s s' ino i : shifted f g s s' → ea_inodes s !! ino = Some i →
  ∃ i', ea_inodes s' !! ino = Some i' ∧ ext4_xattr_inode_get_ref i' = ext4_xattr_inode_get_ref i + f ino ∧
    ea_count i' = ea_count i + g ino ∧ contents i' = contents i.
Proof.
  intros H Hi. specialize (H ino). unfold views in H. rewrite !lookup_fmap, Hi in H. cbn in H.
  destruct (ea_inodes s' !! ino) as [i'|]; [|done]. cbn in H. injection H as H1 H2 H3 H4 H5. exists i'. split_and!; try done. unfold contents. congruence.
Qed.

Lemma shifted_back f g s s' ino i' : shifted f g s s' → ea_inodes s' !! ino = Some i' →
  ∃ i, ea_inodes s !! ino = Some i ∧ ext4_xattr_inode_get_ref i' = ext4_xattr_inode_get_ref i + f ino ∧ ea_count i' = ea_count i + g ino.
Proof.
  intros H Hi. pose proof (H ino) as Hv. unfold views in Hv. rewrite !lookup_fmap, Hi in Hv.
  destruct (ea_inodes s !! ino) as [i|] eqn:Ei; [|done]. destruct (shifted_inode _ _ _ _ _ _ H Ei) as (j & Hj & R & C & _).
  exists i. split; [done|]. by assert (j = i') as <- by congruence.
Qed.

Lemma shifted_present f g s s' ino : shifted f g s s' → ea_inodes s' !! ino = None ↔ ea_inodes s !! ino = None.
Proof.
  intros H. specialize (H ino). unfold views in H. rewrite !lookup_fmap in H.
  by destruct (ea_inodes s !! ino), (ea_inodes s' !! ino).
Qed.

(** Replacing one inode. *)
Lemma shifted_put s ino i i' r c : ea_inodes s !! ino = Some i → view_of i' = add_view r c (view_of i) →
  shifted (delta ino r) (delta ino c) s (with_inodes (<[ino := i']> (ea_inodes s)) s).
Proof.
  intros Hi Hv k. unfold views, delta. cbn [ea_inodes with_inodes]. rewrite fmap_insert, lookup_fmap.
  destruct (decide (k = ino)) as [->|Hne].
  - rewrite lookup_insert_eq, Hi. cbn. by rewrite Hv.
  - rewrite lookup_insert_ne, lookup_fmap by done. destruct (ea_inodes s !! k); [|done]. cbn [fmap option_fmap option_map]. by rewrite add_view_0.
Qed.

Lemma sound_mono v N N' s : sound_table v N s → N ≤ N' → sound_table v N' s.
Proof. intros [Ho Hs] HN. split; [done|]. intros k j Hj. destruct (Hs _ _ Hj) as [[? ?] ? ? ? ?]. split; try done. lia. Qed.

Lemma sound_put v N N' s ino i' : sound_table v N s → sound v N' i' → N ≤ N' → sound_table v N' (with_inodes (<[ino := i']> (ea_inodes s)) s).
Proof.
  intros [Ho Hs] Hi HN. split; [done|]. intros k j. cbn [ea_inodes with_inodes]. rewrite lookup_insert_Some. intros [[_ <-]|[_ Hj]]; [done|].
  destruct (Hs _ _ Hj) as [[? ?] ? ? ? ?]. split; try done. lia.
Qed.

Lemma same_inodes v N s s' : sound_table v N s → ea_inodes s' = ea_inodes s → ea_outcomes s' = [] → sound_table v N s'.
Proof. intros [Ho Hs] E Eo. split; [done|]. by rewrite E. Qed.

Lemma shifted_same f g s s1 s2 : shifted f g s s1 → ea_inodes s2 = ea_inodes s1 → shifted f g s s2.
Proof. intros H E ino. unfold views. rewrite E. apply H. Qed.

Section steps.
Context (v : ea_env).
Hypothesis (Hmiss : ev_missing v ≠ 0).

Lemma held_plain N hash i : sound v N i → held v hash i = set_flags (ea_lustre i) true (set_count (ea_count i + 1) i).
Proof.
  intros [_ _ _ Hp _]. unfold held, lustre_like. cbn zeta.
  set (i1 := set_count _ i). change (EXT4_XATTR_INODE_GET_PARENT i1) with (EXT4_XATTR_INODE_GET_PARENT i).
  change (ea_generation i1) with (ea_generation i).
  destruct Hp as [Hp|Hp]; rewrite (proj2 (Z.eqb_neq _ _) Hp), ?andb_false_r; done.
Qed.

(** iget: a handle more, or an error for an inode that is not there. *)
Lemma iget_step N s ino hash : sound_table v N s →
  if bool_decide (ino ≠ ev_ino v ∧ is_Some (ea_inodes s !! ino))
  then ∃ s', ext4_xattr_inode_iget v ino hash s = Some (0, s') ∧ sound_table v N s' ∧ ledger s' = ledger s ∧
         shifted (λ _, 0) (delta ino 1) s s'
  else ∃ e, e ≠ 0 ∧ ext4_xattr_inode_iget v ino hash s = Some (e, s).
Proof.
  intros Hs. case_bool_decide as Hp.
  - destruct Hp as [Hne [i Hi]]. pose proof (st_inodes _ _ _ Hs _ _ Hi) as Hi'. eexists. split; [by apply xattr_iget_nil; [apply Hs|..]|].
    rewrite (held_plain N) by done. destruct Hi' as [H1 H2 H3 H4 H5]. split; [|split; [done|]].
    + eapply sound_put; [exact Hs| |lia]. split; try done. cbn. lia.
    + eapply (shifted_ext (delta ino 0)); [apply (shifted_put s ino i _ 0 1 Hi)| |done].
      * unfold view_of, add_view. cbn [vw_ref vw_count vw_rest]. by rewrite Z.add_0_r.
      * intros k. unfold delta. by case_decide.
  - unfold ext4_xattr_inode_iget. destruct (Z.eqb_spec (ev_ino v) ino) as [|Hne]; [by exists (- EFSCORRUPTED)|].
    destruct (ea_inodes s !! ino) as [i|] eqn:Ei; [destruct Hp; split; [done|eauto]|]. exists (ev_missing v). split; [done|].
    assert (ext4_iget v ino s = Some (ev_missing v, s)) as E.
    { unfold ext4_iget. run (ext_nil 0 s (st_outcomes _ _ _ Hs)). run (get_run s). by rewrite Ei. }
    run E. by rewrite (proj2 (Z.eqb_neq _ _) Hmiss).
Qed.

Lemma bump_view c i N : sound v N i → 0 ≤ ext4_xattr_inode_get_ref i + c < 2 ^ 63 → N < 2 ^ 63 → c = 1 ∨ c = -1 →
  view_of (bump c i) = add_view c 0 (view_of i) ∧ sound v (Z.max N (ext4_xattr_inode_get_ref i + c)) (bump c i).
Proof.
  intros [H1 H2 H3 H4 H5] Hr HN Hc. set (rf := ext4_xattr_inode_get_ref i) in *.
  assert (wrapS 64 (wrapS 64 rf + c) = rf + c) as Ew.
  { rewrite (wrapS_small 64 rf) by (unfold is_s; lia). rewrite wrapS_small by (unfold is_s; lia). done. }
  assert (ext4_xattr_inode_get_ref (ext4_xattr_inode_set_ref (u64 (rf + c)) i) = rf + c) as Er.
  { rewrite (wrapU_small 64 (rf + c)) by (unfold is_u; lia). apply ref_set_get. unfold is_u. lia. }
  destruct (bump_same c i) as (B1 & B2 & B3 & B4 & B5).
  assert (ext4_xattr_inode_get_ref (bump c i) = rf + c) as Eb.
  { unfold bump. fold rf. rewrite Ew. by destruct (0 <? c), (rf + c =? _). }
  split; [unfold view_of, add_view; cbn; rewrite B1, B2, Eb; by rewrite Z.add_0_r|]. split.
  - lia.
  - rewrite Eb. unfold bump. fold rf. rewrite Ew. destruct Hc as [-> | ->]; cbn [Z.ltb Z.compare].
    + destruct (Z.eqb_spec (rf + 1) 1); cbn [ea_nlink set_nlink ext4_xattr_inode_set_ref set_times]; [lia|]. rewrite H2. lia.
    + destruct (Z.eqb_spec (rf + -1) 0); cbn [ea_nlink set_nlink ext4_xattr_inode_set_ref set_times]; [lia|]. rewrite H2. lia.
  - by rewrite B2.
  - unfold EXT4_XATTR_INODE_GET_PARENT in *. by rewrite B4, B5.
  - by rewrite B3.
Qed.

Lemma update_step N s ino i c : sound_table v N s → ea_inodes s !! ino = Some i →
  0 ≤ ext4_xattr_inode_get_ref i + c < 2 ^ 63 → N < 2 ^ 63 → c = 1 ∨ c = -1 →
  ∃ s', ext4_xattr_inode_update_ref ino c s = Some (0, s') ∧ sound_table v (Z.max N (ext4_xattr_inode_get_ref i + c)) s' ∧
    ledger s' = ledger s ∧ shifted (delta ino c) (λ _, 0) s s'.
Proof.
  intros Hs Hi Hr HN Hc. pose proof (st_outcomes _ _ _ Hs) as Ho.
  destruct (bump_view c i N (st_inodes _ _ _ Hs _ _ Hi) Hr HN Hc) as [Hv Hso].
  destruct (update_ref_run ino c s i Hi) as [(e & _ & He & _)|(_ & o & E & _)]; [by rewrite Ho in He|]. rewrite Ho in E. cbn in E.
  eexists. split; [exact E|]. split; [|split; [done|]].
  - eapply same_inodes; [by eapply (sound_put v N _ s ino); [exact Hs|exact Hso|lia]|done|]. cbn. by rewrite Ho.
  - eapply shifted_same; [|reflexivity]. eapply (shifted_ext (delta ino c) (delta ino 0)); [by eapply shifted_put|done|].
    intros k. unfold delta. by case_decide.
Qed.

(** iput of an inode that stays. *)
Lemma iput_step N s ino i : sound_table v N s → ea_inodes s !! ino = Some i → 0 < ea_count i →
  (ext4_xattr_inode_get_ref i = 0 → 1 < ea_count i) →
  ∃ s', iput ino s = Some (tt, s') ∧ sound_table v N s' ∧ ledger s' = ledger s ∧ shifted (λ _, 0) (delta ino (-1)) s s'.
Proof.
  intros Hs Hi Hc Hk. pose proof (st_inodes _ _ _ Hs _ _ Hi) as [H1 H2 H3 H4 H5]. unfold iput. run (eget_run _ _ _ Hi).
  rewrite (proj2 (Z.leb_gt _ _)) by done.
  assert ((ea_count i =? 1) && (ea_nlink i =? 0) = false) as ->.
  { destruct (Z.eqb_spec (ea_nlink i) 0) as [Hn|]; [|by rewrite andb_false_r]. specialize (Hk (proj1 H2 Hn)).
    by rewrite (proj2 (Z.eqb_neq _ _)) by lia. }
  eexists. split; [reflexivity|]. split; [|split; [done|]].
  - eapply sound_put; [exact Hs| |lia]. split; try done. cbn. lia.
  - eapply (shifted_ext (delta ino 0)); [apply (shifted_put s ino i _ 0 (-1) Hi)| |done].
    + unfold view_of, add_view. cbn [vw_ref vw_count vw_rest]. by rewrite Z.add_0_r.
    + intros k. unfold delta. by case_decide.
Qed.

End steps.

(** ** The references of a list of entries *)

(** How often [k] is in a list. *)
Definition occ (l : list Z) (k : Z) : Z := foldr (λ i s, (if decide (k = i) then 1 else 0) + s) 0 l.

Lemma occ_app a b k : occ (a ++ b) k = occ a k + occ b k.
Proof. unfold occ. induction a as [|i a IH]; cbn [app foldr]; lia. Qed.

Lemma occ_nonneg l k : 0 ≤ occ l k.
Proof. unfold occ. induction l as [|i l IH]; cbn [foldr]; [lia|]. case_decide; lia. Qed.

Lemma occ_le l k : occ l k ≤ Z.of_nat (length l).
Proof. unfold occ. induction l as [|i l IH]; cbn [foldr length]; [lia|]. case_decide; lia. Qed.

Lemma occ_cons i l k : occ (i :: l) k = delta i 1 k + occ l k.
Proof. done. Qed.

Lemma occ_in l k : k ∈ l → 1 ≤ occ l k.
Proof.
  induction l as [|i l IH]; [by intros ?%not_elem_of_nil|]. rewrite occ_cons. unfold delta. pose proof (occ_nonneg l k).
  intros [->|Hin]%elem_of_cons; [rewrite decide_True by done; lia|]. specialize (IH Hin). case_decide; lia.
Qed.

(** The value inodes of the entries, in order. *)
Definition inums (es : list xentry) : list Z := filter (λ i, i ≠ 0) (x_inum <$> es).

Lemma inums_cons x es : inums (x :: es) = if decide (x_inum x = 0) then inums es else x_inum x :: inums es.
Proof. unfold inums. rewrite fmap_cons, filter_cons. by destruct (decide (x_inum x = 0)), (decide (x_inum x ≠ 0)). Qed.

Lemma inums_app a b : inums (a ++ b) = inums a ++ inums b.
Proof. unfold inums. by rewrite fmap_app, filter_app. Qed.

Lemma inums_length es : (length (inums es) ≤ length es)%nat.
Proof. unfold inums. rewrite <-(length_fmap x_inum es). apply length_filter. Qed.

(** No inode is without references and without handles. *)
Definition quiet (s : ea_state) : Prop := ∀ ino i, ea_inodes s !! ino = Some i → ext4_xattr_inode_get_ref i = 0 → 0 < ea_count i.

Definition present (v : ea_env) (s : ea_state) (ino : Z) : Prop := ino ≠ ev_ino v ∧ is_Some (ea_inodes s !! ino).

Lemma present_shifted v f g s s' ino : shifted f g s s' → present v s' ino ↔ present v s ino.
Proof.
  intros H. unfold present. pose proof (shifted_present f g s s' ino H) as Hp.
  destruct (ea_inodes s !! ino), (ea_inodes s' !! ino); rewrite ?is_Some_alt; try tauto; destruct Hp; naive_solver.
Qed.

Section inc_all.
Context (v : ea_env) (r : bytes).
Hypothesis (Hmiss : ev_missing v ≠ 0).

(** A reference more or less, through a handle that is given back. *)
Lemma ref_entry N s ino hash i c : sound_table v N s → ino ≠ ev_ino v → ea_inodes s !! ino = Some i → N + 1 < 2 ^ 63 → c = 1 ∨ c = -1 →
  0 ≤ ext4_xattr_inode_get_ref i + c → (ext4_xattr_inode_get_ref i + c = 0 → 0 < ea_count i) →
  ∃ s1 s2 s3, ext4_xattr_inode_iget v ino hash s = Some (0, s1) ∧ ext4_xattr_inode_update_ref ino c s1 = Some (0, s2) ∧
    iput ino s2 = Some (tt, s3) ∧ sound_table v (N + 1) s3 ∧ ledger s3 = ledger s ∧ shifted (delta ino c) (λ _, 0) s s3.
Proof.
  intros Hs Hne Hi HN Hc Hr Hk. pose proof (iget_step v Hmiss N s ino hash Hs) as Hg. rewrite bool_decide_eq_true_2 in Hg by eauto.
  destruct Hg as (s1 & E1 & H1 & Q1 & Sh1).
  destruct (shifted_inode _ _ _ _ _ _ Sh1 Hi) as (i1 & Hi1 & R1 & C1 & _). pose proof (so_ref _ _ _ (st_inodes _ _ _ Hs _ _ Hi)) as Rr.
  pose proof (so_count _ _ _ (st_inodes _ _ _ Hs _ _ Hi)) as Rc.
  destruct (update_step v N s1 ino i1 c H1 Hi1) as (s2 & E2 & H2 & Q2 & Sh2); [lia|lia|done|].
  destruct (shifted_inode _ _ _ _ _ _ Sh2 Hi1) as (i2 & Hi2 & R2 & C2 & _).
  unfold delta in C1, R2. rewrite decide_True in C1, R2 by done.
  destruct (iput_step v _ s2 ino i2 H2 Hi2) as (s3 & E3 & H3 & Q3 & Sh3); [lia|lia|]. exists s1, s2, s3. split_and!; try done.
  - eapply sound_mono; [exact H3|lia].
  - congruence.
  - eapply shifted_ext; [exact (shifted_trans _ _ _ _ _ _ _ (shifted_trans _ _ _ _ _ _ _ Sh1 Sh2) Sh3)| |];
      intros k; unfold delta; cbn; case_decide; lia.
Qed.

Lemma quiet_shifted f s s' : quiet s → shifted f (λ _, 0) s s' → (∀ k i, ea_inodes s !! k = Some i → 0 ≤ ext4_xattr_inode_get_ref i) →
  (∀ k, 0 ≤ f k) → quiet s'.
Proof.
  intros Hq Sh Hr Hf k i' Hi' H0. destruct (shifted_back _ _ _ _ _ _ Sh Hi') as (i & Hi & R & C).
  specialize (Hq _ _ Hi). specialize (Hr _ _ Hi). specialize (Hf k). lia.
Qed.

(** The first pass over the entries [es], up to the first one whose inode is not there. *)
Lemma inc_loop N es e e_end fuel s : chain r e es e_end → (length es < fuel)%nat → sound_table v N s → quiet s →
  N + Z.of_nat (length es) < 2 ^ 63 →
  (∃ s', inc_ref_loop fuel v r e s = Some ((0, e_end), s') ∧ Forall (present v s) (inums es) ∧
     sound_table v (N + Z.of_nat (length es)) s' ∧ ledger s' = ledger s ∧ shifted (occ (inums es)) (λ _, 0) s s') ∨
  (∃ es1 x es2 code s', es = es1 ++ x :: es2 ∧ x_inum x ≠ 0 ∧ ¬ present v s (x_inum x) ∧ Forall (present v s) (inums es1) ∧ code ≠ 0 ∧
     inc_ref_loop fuel v r e s = Some ((code, x_pos x), s') ∧
     sound_table v (N + Z.of_nat (length es)) s' ∧ ledger s' = ledger s ∧ shifted (occ (inums es1)) (λ _, 0) s s').
Proof.
  intros Hc. revert N s fuel. induction Hc as [e El|e x es e_end El Ex Hn Hz Hc IH]; intros N s fuel Hf Hs Hq HN;
    (destruct fuel as [|fuel]; [cbn in Hf; lia|]); cbn [inc_ref_loop]; rewrite (lift_step _ _ _ _ El).
  { left. exists s. split; [done|]. split; [constructor|]. split; [eapply sound_mono; [done|cbn; lia]|]. split; [done|apply shifted_refl]. }
  cbn [length] in Hf, HN. destruct (read_entry_Some _ _ _ Ex) as (Ep & _ & _ & _ & Eu & _ & Eh & _ & En).
  rewrite (lift_step _ _ _ _ Eu), (lift_step _ _ _ _ En). rewrite inums_cons. destruct (Z.eqb_spec (x_inum x) 0) as [H0|H0].
  - rewrite decide_True by done. destruct (IH N s fuel) as [(s' & E & Hp & H1 & Q & Sh)|(es1 & y & es2 & code & s' & -> & Hy & Hny & Hps & Hcd & E & H1 & Q & Sh)]; [lia|done..|lia| |].
    + left. exists s'. split_and!; try done. eapply sound_mono; [done|cbn [length]; lia].
    + right. exists (x :: es1), y, es2, code, s'. rewrite inums_cons, decide_True by done. split_and!; try done.
      eapply sound_mono; [done|cbn [length]; lia].
  - rewrite (lift_step _ _ _ _ Eh), decide_False by done.
    destruct (decide (present v s (x_inum x))) as [Hp|Hp].
    2:{ pose proof (iget_step v Hmiss N s (x_inum x) (x_hash x) Hs) as Hg. rewrite bool_decide_eq_false_2 in Hg by done.
        destruct Hg as (code & Hcd & E). run E. rewrite (proj2 (Z.eqb_neq _ _) Hcd). cbn [negb]. right.
        exists [], x, es, code, s. rewrite Ep. split_and!; try done; [eapply sound_mono; [done|cbn [length]; lia]|apply shifted_refl]. }
    pose proof Hp as [Hne [i Hi]]. pose proof (so_ref _ _ _ (st_inodes _ _ _ Hs _ _ Hi)) as Rr.
    destruct (ref_entry N s (x_inum x) (x_hash x) i 1 Hs Hne Hi) as (s1 & s2 & s3 & E1 & E2 & E3 & H3 & Q3 & Sh3); [lia|by left|lia|lia|].
    run E1. cbn [Z.eqb negb]. unfold ext4_xattr_inode_inc_ref. run E2. run E3. cbn [Z.eqb negb].
    assert (quiet s3) as Hq3.
    { eapply quiet_shifted; [done..| |intros k; unfold delta; by case_decide]. intros k j Hj. apply (so_ref _ _ _ (st_inodes _ _ _ Hs _ _ Hj)). }
    destruct (IH (N + 1) s3 fuel) as [(s' & E & Hps & H1 & Q & Sh)|(es1 & y & es2 & code & s' & -> & Hy & Hny & Hps & Hcd & E & H1 & Q & Sh)]; [lia|done..|lia| |].
    + left. exists s'. split_and!; [done| | |congruence|].
      * constructor; [done|]. eapply Forall_impl; [exact Hps|]. intros k Hk. by rewrite (present_shifted _ _ _ _ _ _ Sh3) in Hk.
      * eapply sound_mono; [done|cbn [length]; lia].
      * eapply shifted_ext; [exact (shifted_trans _ _ _ _ _ _ _ Sh3 Sh)| |]; intros k; [by rewrite occ_cons|done].
    + right. exists (x :: es1), y, es2, code, s'. rewrite inums_cons, decide_False by done. split_and!; try done; [| |eapply sound_mono; [done|cbn [length]; lia]|congruence|].
      * rewrite <-(present_shifted _ _ _ _ _ _ Sh3). done.
      * constructor; [done|]. eapply Forall_impl; [exact Hps|]. intros k Hk. by rewrite (present_shifted _ _ _ _ _ _ Sh3) in Hk.
      * eapply shifted_ext; [exact (shifted_trans _ _ _ _ _ _ _ Sh3 Sh)| |]; intros k; [by rewrite occ_cons|done].
Qed.

(** The inodes of a list can lose the references of the list. *)
Definition covers (s : ea_state) (l : list Z) : Prop := ∀ k i, ea_inodes s !! k = Some i →
  0 ≤ ext4_xattr_inode_get_ref i - occ l k ∧ (ext4_xattr_inode_get_ref i - occ l k = 0 → 0 < ea_count i).

Lemma covers_step s s' k l : covers s (k :: l) → shifted (delta k (-1)) (λ _, 0) s s' → covers s' l.
Proof.
  intros H Sh j i' Hj. destruct (shifted_back _ _ _ _ _ _ Sh Hj) as (i & Hi & R & C).
  destruct (H j i Hi) as [H1 H2]. rewrite occ_cons in H1, H2. unfold delta in *. case_decide; split; lia.
Qed.

(** The second pass: up to the entry that failed. *)
Lemma dec_until N es1 x es2 e e_end fuel s : chain r e (es1 ++ x :: es2) e_end → (length es1 < fuel)%nat → sound_table v N s →
  N + Z.of_nat (length es1) < 2 ^ 63 → Forall (present v s) (inums es1) → covers s (inums es1) → 0 ≤ e →
  ∃ s', dec_ref_until fuel v r e (x_pos x) s = Some (tt, s') ∧ ledger s' = ledger s ∧ ea_outcomes s' = [] ∧
    shifted (λ k, - occ (inums es1) k) (λ _, 0) s s'.
Proof.
  revert N e fuel s. induction es1 as [|y es1 IH]; intros N e fuel s Hc Hf Hs HN Hp Hcov He; (destruct fuel as [|fuel]; [cbn in Hf; lia|]);
    cbn [dec_ref_until].
  { destruct (chain_cons_inv _ _ _ _ _ Hc) as (_ & _ & _ & _ & _ & Ep & _). rewrite Ep, Z.eqb_refl.
    exists s. split; [done|]. split; [done|]. split; [apply Hs|apply shifted_refl]. }
  rewrite <-app_comm_cons in Hc. destruct (chain_cons_inv _ _ _ _ _ Hc) as (_ & Ex & _ & _ & Hc' & _ & Hb).
  destruct (chain_middle _ _ _ _ _ _ Hc') as (_ & Hlo & _); [lia|]. rewrite (proj2 (Z.eqb_neq _ _)) by lia.
  cbn [length] in Hf, HN. destruct (read_entry_Some _ _ _ Ex) as (_ & _ & _ & _ & Eu & _ & Eh & _ & En).
  rewrite (lift_step _ _ _ _ Eu), (lift_step _ _ _ _ En). rewrite inums_cons in *. destruct (Z.eqb_spec (x_inum y) 0) as [H0|H0].
  { rewrite decide_True in * by done. rewrite (st_bind_step (mret tt) _ s tt s) by done. apply (IH N); try done; lia. }
  rewrite decide_False in * by done. apply Forall_cons in Hp as [[Hne [i Hi]] Hp]. destruct (Hcov _ _ Hi) as [Hr1 Hr2].
  rewrite occ_cons in Hr1, Hr2. unfold delta in Hr1, Hr2. rewrite decide_True in Hr1, Hr2 by done.
  pose proof (occ_nonneg (inums es1) (x_inum y)).
  destruct (ref_entry N s (x_inum y) (x_hash y) i (-1) Hs Hne Hi) as (s1 & s2 & s3 & E1 & E2 & E3 & H3 & Q3 & Sh3); [lia|by right|lia|lia|].
  assert ((hash ← lift (rd32 r (e + E_HASH)); err ← ext4_xattr_inode_iget v (x_inum y) hash;
    if negb (err =? 0) then mret tt else ext4_xattr_inode_dec_ref (x_inum y) ;; iput (x_inum y)) s = Some (tt, s3)) as E.
  { rewrite (lift_step _ _ _ _ Eh). run E1. cbn [Z.eqb negb]. unfold ext4_xattr_inode_dec_ref. by run E2. }
  run E. destruct (IH (N + 1) (x_next y) fuel s3) as (s' & E' & Q' & O' & Sh'); try done; try lia.
  - eapply Forall_impl; [exact Hp|]. intros k Hk. by rewrite (present_shifted _ _ _ _ _ _ Sh3).
  - by eapply covers_step.
  - exists s'. split; [done|]. split; [congruence|]. split; [done|].
    eapply shifted_ext; [exact (shifted_trans _ _ _ _ _ _ _ Sh3 Sh')| |]; intros k; [rewrite occ_cons; unfold delta; case_decide; lia|done].
Qed.

End inc_all.

(** ** All or nothing *)

(** The references of a buffer are taken all or, when an inode is not there,
    not at all: no reference count, handle, value or quota differs then. *)
Theorem inc_ref_all_or_nothing v r first es e_end N s :
  ev_missing v ≠ 0 → chain r first es e_end → 0 ≤ first → sound_table v N s → quiet s → N + 2 * Z.of_nat (length es) < 2 ^ 63 →
  ∃ code s', ext4_xattr_inode_inc_ref_all v r first s = Some (code, s') ∧ (code = 0 ↔ Forall (present v s) (inums es)) ∧
    ledger s' = ledger s ∧ shifted (if code =? 0 then occ (inums es) else λ _, 0) (λ _, 0) s s'.
Proof.
  intros Hm Hc Hf Hs Hq HN. pose proof (chain_fuel _ _ _ _ Hf Hc) as Hfu. unfold ext4_xattr_inode_inc_ref_all.
  destruct (inc_loop v r Hm N es first e_end (fuel_of r) s Hc Hfu Hs Hq) as
    [(s1 & E & Hp & H1 & Q & Sh)|(es1 & x & es2 & code & s1 & -> & Hx & Hn & Hps & Hcd & E & H1 & Q & Sh)]; [lia|..]; run E.
  { exists 0, s1. done. }
  rewrite (proj2 (Z.eqb_neq _ _) Hcd). rewrite length_app in Hfu, HN, H1. cbn [length] in Hfu, HN, H1.
  destruct (dec_until v r Hm (N + Z.of_nat (length es1 + S (length es2))) es1 x es2 first e_end (fuel_of r) s1 Hc) as (s2 & E2 & Q2 & _ & Sh2); try done; try lia.
  - eapply Forall_impl; [exact Hps|]. intros k Hk. by rewrite (present_shifted _ _ _ _ _ _ Sh).
  - intros k i' Hi'. destruct (shifted_back _ _ _ _ _ _ Sh Hi') as (i & Hi & R & C). pose proof (so_ref _ _ _ (st_inodes _ _ _ Hs _ _ Hi)).
    specialize (Hq _ _ Hi). lia.
  - run E2. exists code, s2. split; [done|]. split; [|split; [congruence|]].
    + split; [done|]. intros Hall. exfalso. apply Hn. rewrite Forall_forall in Hall. apply Hall.
      rewrite inums_app, inums_cons, decide_False by done. apply elem_of_app. right. left.
    + rewrite (proj2 (Z.eqb_neq _ _) Hcd). eapply shifted_ext; [exact (shifted_trans _ _ _ _ _ _ _ Sh Sh2)| |]; intros k; cbn; lia.
Qed.

(** ** Dropping the references of a buffer *)

Definition array_inodes (a : option ea_inode_array) : list Z := match a with None => [] | Some a => ar_inodes a end.

(** The array has room up to its number of slots, which grows by 16. *)
Definition array_ok (a : option ea_inode_array) : Prop :=
  match a with None => True | Some a => ar_slots a mod 16 = 15 ∧ Z.of_nat (length (ar_inodes a)) ≤ ar_slots a end.

Lemma expand_array_run a ino s : ea_outcomes s = [] → array_ok a →
  ∃ a', ext4_expand_inode_array a ino s = Some ((0, a'), s) ∧ array_ok a' ∧ array_inodes a' = array_inodes a ++ [ino].
Proof.
  intros Ho Ha. unfold ext4_expand_inode_array. destruct a as [[l n]|]; cbv zeta; cbn [ar_inodes ar_slots].
  2:{ run (ext_nil 0 s Ho). exists (Some (EaInodeArray [ino] EIA_MASK)). done. }
  destruct Ha as [H1 H2]. cbn [ar_inodes ar_slots] in H1, H2. change EIA_MASK with (Z.ones 4). rewrite Z.land_ones by lia.
  change (2 ^ 4) with 16. change (Z.ones 4) with 15. destruct (Z.eqb_spec (Z.of_nat (length l) mod 16) 15) as [H|H].
  - run (ext_nil 0 s Ho). cbn [Z.eqb negb]. unfold EIA_INCR. rewrite (proj2 (Z.ltb_lt _ _)) by lia.
    eexists. split; [reflexivity|]. split; [|done]. cbn. rewrite length_app. cbn. split; [|lia].
    rewrite Z.add_mod, H by lia. done.
  - rewrite (proj2 (Z.ltb_lt _ _)); [|destruct (decide (Z.of_nat (length l) = n)) as [<-|]; [done|lia]].
    eexists. split; [reflexivity|]. split; [|done]. cbn. rewrite length_app. cbn. split; [done|].
    destruct (decide (Z.of_nat (length l) = n)) as [<-|]; [done|lia].
Qed.

(** An entry without its value. *)
Definition strip (x : xentry) : xentry := if decide (x_inum x = 0) then x else set_value_info (x_offs x) 0 0 x.

Lemma clear_entry r e x : read_entry r e = Some x → 0 ≤ e → x_next x ≤ buf_end r → x_inum x ≠ 0 →
  ∃ r1 r2, wr 4 r (e + E_VALUE_INUM) 0 = Some r1 ∧ wr 4 r1 (e + E_VALUE_SIZE) 0 = Some r2 ∧ length r2 = length r ∧
    (∀ a b, b ≤ e + 4 ∨ e + 12 ≤ a → moved 0 r r2 a b) ∧ read_entry r2 e = Some (strip x).
Proof.
  intros Ex He Hn Hi. destruct (read_entry_Some _ _ _ Ex) as (Ep & _ & _ & Eo & _ & _ & Eh & _). pose proof (x_next_pos x) as Hp.
  unfold strip. rewrite decide_False by done. unfold E_VALUE_INUM, E_VALUE_SIZE.
  destruct (wr_in 4 r (e + 4) 0) as (r1 & W1 & L1); [lia|lia|].
  destruct (wr_in 4 r1 (e + 8) 0) as (r2 & W2 & L2); [lia|unfold buf_end in *; lia|].
  assert (∀ a b, b ≤ e + 4 ∨ e + 12 ≤ a → moved 0 r r2 a b) as Hm.
  { intros a b Hab. apply (moved_trans 0 0 r r1 r2); (eapply wr_moved; [done|lia]). }
  exists r1, r2. split; [done|]. split; [done|]. split; [congruence|]. split; [done|]. unfold set_value_info. rewrite Ep.
  apply (read_entry_upd r); try done; [congruence|apply Hm; lia|apply Hm; lia|..];
    unfold E_VALUE_OFFS, E_VALUE_INUM, E_VALUE_SIZE, E_HASH in *.
  - rewrite (rd_wr_ne 4 2 _ _ _ _ _ W2), (rd_wr_ne 4 2 _ _ _ _ _ W1) by lia. done.
  - rewrite (rd_wr_ne 4 4 _ _ _ _ _ W2) by lia. by rewrite (rd_wr_eq _ _ _ _ _ W1).
  - by rewrite (rd_wr_eq _ _ _ _ _ W2).
  - rewrite (rd_wr_ne 4 4 _ _ _ _ _ W2), (rd_wr_ne 4 4 _ _ _ _ _ W1) by lia. done.
Qed.

(** What the values of a list of entries take from the quota. *)
Definition space (v : ea_env) (es : list xentry) : Z :=
  foldr (λ x q, (if decide (x_inum x = 0) then 0 else round_up_cluster v (x_size x)) + q) 0 es.

Definition given_back (v : ea_env) (es : list xentry) (q : Z * Z) : Z * Z :=
  (q.1 - Z.of_nat (length (inums es)), q.2 - space v es).

Lemma given_back_nil v q : given_back v [] q = q.
Proof. unfold given_back. cbn. rewrite !Z.sub_0_r. by destruct q. Qed.

Lemma given_back_cons v x es q : given_back v (x :: es) q =
  given_back v es (if decide (x_inum x = 0) then q else (q.1 - 1, q.2 - round_up_cluster v (x_size x))).
Proof.
  unfold given_back. rewrite inums_cons. cbn [space foldr]. fold (space v es).
  destruct (decide (x_inum x = 0)); cbn [fst snd length]; f_equal; lia.
Qed.

Lemma free_quota_run v N s ino i len : sound_table v N s → ea_inodes s !! ino = Some i →
  ext4_xattr_inode_free_quota v (Some ino) len s =
  Some (tt, with_quota ((ea_quota s).1 - 1, (ea_quota s).2 - round_up_cluster v len) s).
Proof.
  intros Hs Hi. unfold ext4_xattr_inode_free_quota. unfold mbind at 1, st_bind at 1. run (eget_run _ _ _ Hi).
  unfold mret, st_ret. rewrite (so_lustre _ _ _ (st_inodes _ _ _ Hs _ _ Hi)). done.
Qed.

Section dec_all.
Context (v : ea_env) (N : Z) (block : option Z) (skip_quota : bool).
Hypothesis (Hmiss : ev_missing v ≠ 0) (HN : N < 2 ^ 63).

(** The bytes, the array and the state after the references of [es] were dropped. *)
Record dropped (es : list xentry) (e e_end : Z) (r r' : bytes) (a a' : option ea_inode_array) (s s' : ea_state) : Prop := {
  dr_chain : chain r' e (strip <$> es) e_end;
  dr_length : length r' = length r;
  dr_before : ∀ lo hi, hi ≤ e → moved 0 r r' lo hi;
  dr_ok : array_ok a';
  dr_array : array_inodes a' = array_inodes a ++ inums es;
  dr_sound : sound_table v N s';
  dr_ledger : ledger s' = (if skip_quota then ea_quota s else given_back v es (ea_quota s), ea_log s);
  dr_shifted : shifted (λ k, - occ (inums es) k) (occ (inums es)) s s' }.

Lemma dec_entry r x a dirty s i : read_entry r (x_pos x) = Some x → 0 ≤ x_pos x → x_next x ≤ buf_end r → x_inum x ≠ 0 →
  sound_table v N s → x_inum x ≠ ev_ino v → ea_inodes s !! x_inum x = Some i → 1 ≤ ext4_xattr_inode_get_ref i → array_ok a →
  ∃ r' a' s', dec_ref_entry v block skip_quota (x_pos x) (x_inum x) (DecAll r a dirty) s = Some (DecAll r' a' true, s') ∧
    length r' = length r ∧ (∀ lo hi, hi ≤ x_pos x + 4 ∨ x_pos x + 12 ≤ lo → moved 0 r r' lo hi) ∧
    read_entry r' (x_pos x) = Some (strip x) ∧ array_ok a' ∧ array_inodes a' = array_inodes a ++ [x_inum x] ∧
    sound_table v N s' ∧
    ledger s' = (if skip_quota then ea_quota s else ((ea_quota s).1 - 1, (ea_quota s).2 - round_up_cluster v (x_size x)), ea_log s) ∧
    shifted (delta (x_inum x) (-1)) (delta (x_inum x) 1) s s'.
Proof.
  intros Ex He Hn Hi Hs Hne Hino Hr Ha. destruct (read_entry_Some _ _ _ Ex) as (_ & _ & _ & _ & _ & Es & Eh & _).
  unfold dec_ref_entry. cbn [da_bytes da_array da_dirty]. rewrite (lift_step _ _ _ _ Eh).
  pose proof (iget_step v Hmiss N s (x_inum x) (x_hash x) Hs) as Hg. rewrite bool_decide_eq_true_2 in Hg by eauto.
  destruct Hg as (s1 & E1 & H1 & Q1 & Sh1). run E1. cbn [Z.eqb negb].
  destruct (expand_array_run a (x_inum x) s1 (st_outcomes _ _ _ H1) Ha) as (a' & Ea & Ha' & Hl). run Ea. cbn [Z.eqb negb].
  run (ext_nil 0 s1 (st_outcomes _ _ _ H1)). cbn [Z.ltb Z.compare andb].
  rewrite (st_bind_step _ _ s1 (0, DecAll r a' dirty) s1) by done. cbv beta iota zeta. rewrite !(st_bind_step (mret 0) _ s1 0 s1) by done.
  cbn [Z.eqb negb].
  destruct (shifted_inode _ _ _ _ _ _ Sh1 Hino) as (i1 & Hi1 & R1 & C1 & _). pose proof (so_ref _ _ _ (st_inodes _ _ _ Hs _ _ Hino)) as Rr.
  destruct (update_step v N s1 (x_inum x) i1 (-1) H1 Hi1) as (s2 & E2 & H2 & Q2 & Sh2); [lia|lia|by right|].
  unfold ext4_xattr_inode_dec_ref. run E2. cbn [Z.eqb negb da_bytes]. rewrite (lift_step _ _ _ _ Es).
  destruct (shifted_inode _ _ _ _ _ _ Sh2 Hi1) as (i2 & Hi2 & _).
  destruct (clear_entry _ _ _ Ex He Hn Hi) as (r1 & r2 & W1 & W2 & L & Hm & Er).
  set (q := if skip_quota then ea_quota s2 else ((ea_quota s2).1 - 1, (ea_quota s2).2 - round_up_cluster v (x_size x))).
  assert ((if skip_quota then mret tt else ext4_xattr_inode_free_quota v (Some (x_inum x)) (x_size x)) s2 =
    Some (tt, with_quota q s2)) as E3.
  { unfold q. destruct skip_quota; [by destruct s2|by eapply free_quota_run]. }
  run E3. rewrite (lift_step _ _ _ _ W1), (lift_step _ _ _ _ W2). exists r2, a', (with_quota q s2).
  assert (ledger s2 = ledger s) as Q by congruence. split_and!; try done.
  - eapply same_inodes; [eapply sound_mono; [exact H2|lia]|done|apply H2].
  - unfold ledger in *. cbn [ea_quota ea_log with_quota]. unfold q. by injection Q as -> ->.
  - eapply shifted_same; [|reflexivity]. eapply shifted_ext; [exact (shifted_trans _ _ _ _ _ _ _ Sh1 Sh2)| |];
      intros k; unfold delta; case_decide; lia.
Qed.

Lemma strip_next x : x_next (strip x) = x_next x ∧ x_name (strip x) = x_name x.
Proof. unfold strip. by case_decide. Qed.

Lemma dec_loop es e e_end fuel r a dirty s : chain r e es e_end → 0 ≤ e → (length es < fuel)%nat → sound_table v N s →
  Forall (present v s) (inums es) → (∀ k i, ea_inodes s !! k = Some i → occ (inums es) k ≤ ext4_xattr_inode_get_ref i) → array_ok a →
  ∃ r' a' dirty' s', dec_ref_loop fuel v block skip_quota e (DecAll r a dirty) s = Some (DecAll r' a' dirty', s') ∧
    dropped es e e_end r r' a a' s s'.
Proof.
  revert e fuel r a dirty s. induction es as [|x es IH]; intros e fuel r a dirty s Hc He Hf Hs Hp Hr Ha;
    (destruct fuel as [|fuel]; [cbn in Hf; lia|]); cbn [dec_ref_loop da_bytes].
  { inversion Hc as [? El|]; subst. rewrite (lift_step _ _ _ _ El). exists r, a, dirty, s. split; [done|]. split; try done.
    - intros lo hi _ k _. by rewrite Z.add_0_r.
    - by rewrite app_nil_r.
    - destruct skip_quota; [done|]. by rewrite given_back_nil.
    - apply shifted_refl. }
  destruct (chain_cons_inv _ _ _ _ _ Hc) as (El & Ex & Hn & Hz & Hc' & Ep & Hb). cbn [length] in Hf.
  destruct (read_entry_Some _ _ _ Ex) as (_ & _ & _ & _ & Eu & _ & _ & _ & En). destruct (strip_next x) as [Sn Snm].
  rewrite (lift_step _ _ _ _ El), (lift_step _ _ _ _ Eu). rewrite inums_cons in Hp, Hr.
  assert (∀ r1 r', length r1 = length r → read_entry r1 e = Some (strip x) → moved 0 r r1 e (e + 4) →
    length r' = length r1 → (∀ lo hi, hi ≤ x_next x → moved 0 r1 r' lo hi) → chain r' (x_next x) (strip <$> es) e_end →
    chain r' e (strip <$> x :: es) e_end) as Hcons.
  { intros r1 r' L1 Er1 M1 L' M' Hch. cbn [fmap list_fmap]. pose proof (x_next_pos x). unfold buf_end in *. econstructor.
    - eapply last_same; [by eapply last_same|apply M'; lia|done].
    - eapply read_entry_same; [done|done|done|unfold buf_end; rewrite Sn; lia|apply M'; lia].
    - rewrite Sn. unfold buf_end. by rewrite L', L1.
    - by rewrite Snm.
    - by rewrite Sn. }
  destruct (Z.eqb_spec (x_inum x) 0) as [H0|H0].
  - rewrite decide_True in Hp, Hr by done. rewrite (st_bind_step (mret _) _ s (DecAll r a dirty) s) by done. cbn [da_bytes].
    rewrite (lift_step _ _ _ _ En).
    destruct (IH (x_next x) fuel r a dirty s) as (r' & a' & d' & s' & E & [D1 D2 D3 D4 D5 D6 D7 D8]); try done; [lia..|].
    exists r', a', d', s'. split; [done|]. assert (strip x = x) as Hst by (unfold strip; by rewrite decide_True).
    split; try done; rewrite ?inums_cons, ?given_back_cons, ?decide_True by done; try done.
    + apply (Hcons r); try done; [by rewrite Hst|]. intros k Hk. by rewrite Z.add_0_r.
    + intros lo hi Hlo. apply D3. lia.
  - rewrite decide_False in Hp, Hr by done. apply Forall_cons in Hp as [[Hne [i Hi]] Hp]. pose proof (Hr _ _ Hi) as Hri.
    rewrite occ_cons in Hri. unfold delta in Hri. rewrite decide_True in Hri by done. pose proof (occ_nonneg (inums es) (x_inum x)).
    rewrite <-Ep in Ex, He.
    destruct (dec_entry r x a dirty s i Ex He) as (r1 & a1 & s1 & E1 & L1 & M1 & Er1 & A1 & A2 & H1 & Q1 & Sh1); try done; [lia|lia|].
    rewrite Ep in E1, Ex, He, M1, Er1. run E1. cbn [da_bytes].
    destruct (read_entry_Some _ _ _ Er1) as (_ & _ & _ & _ & _ & _ & _ & _ & En1). rewrite Sn in En1. rewrite (lift_step _ _ _ _ En1).
    destruct (IH (x_next x) fuel r1 a1 true s1) as (r' & a' & d' & s' & E & [D1 D2 D3 D4 D5 D6 D7 D8]); try done; try lia.
    + eapply chain_same; [done|lia|apply M1; lia|done].
    + eapply Forall_impl; [exact Hp|]. intros k Hk. by rewrite (present_shifted _ _ _ _ _ _ Sh1).
    + intros k j Hj. destruct (shifted_back _ _ _ _ _ _ Sh1 Hj) as (j0 & Hj0 & R & _). specialize (Hr _ _ Hj0).
      rewrite occ_cons in Hr. unfold delta in *. case_decide; lia.
    + exists r', a', d', s'. split; [done|]. split; try done; rewrite ?inums_cons, ?given_back_cons, ?decide_False by done.
      * apply (Hcons r1); try done. apply M1. lia.
      * congruence.
      * intros lo hi Hlo. apply (moved_trans 0 0 r r1 r'); [apply M1; lia|]. apply D3. lia.
      * rewrite D5, A2, <-app_assoc. done.
      * rewrite D7. unfold ledger in Q1. injection Q1 as -> ->. by destruct skip_quota.
      * eapply shifted_ext; [exact (shifted_trans _ _ _ _ _ _ _ Sh1 D8)| |]; intros k; rewrite occ_cons; unfold delta; case_decide; lia.
Qed.

Lemma dec_ref_all_run es e e_end r a s : chain r e es e_end → 0 ≤ e → sound_table v N s →
  Forall (present v s) (inums es) → (∀ k i, ea_inodes s !! k = Some i → occ (inums es) k ≤ ext4_xattr_inode_get_ref i) → array_ok a →
  ∃ r' a' s', ext4_xattr_inode_dec_ref_all v r block e skip_quota a s = Some ((r', a'), s') ∧ dropped es e e_end r r' a a' s s'.
Proof.
  intros Hc He Hs Hp Hr Ha. unfold ext4_xattr_inode_dec_ref_all.
  destruct (dec_loop es e e_end (fuel_of r) r a false s) as (r' & a' & d' & s' & E & D); try done; [by eapply chain_fuel|].
  run E. cbn [da_bytes da_array da_dirty]. exists r', a', s'. split; [|done]. pose proof (dr_sound _ _ _ _ _ _ _ _ _ D) as Hs'.
  destruct d'; [|done]. assert ((ext 0 ;; mret tt) s' = Some (tt, s')) as E1 by (by run (ext_nil 0 s' (st_outcomes _ _ _ Hs'))).
  by run E1.
Qed.

End dec_all.

Section releasing.
Context (v : ea_env) (N : Z).
Hypothesis (Hmiss : ev_missing v ≠ 0) (HN : N < 2 ^ 63).

(** Only the quota is given back; every handle too. *)
Lemma free_quotas_run r es e e_end fuel s : chain r e es e_end → (length es < fuel)%nat → sound_table v N s →
  Forall (present v s) (inums es) → (∀ k i, ea_inodes s !! k = Some i → k ∈ inums es → 1 ≤ ext4_xattr_inode_get_ref i) →
  ∃ s', free_quotas fuel v r e s = Some (tt, s') ∧ sound_table v N s' ∧
    ledger s' = (given_back v es (ea_quota s), ea_log s) ∧ shifted (λ _, 0) (λ _, 0) s s'.
Proof.
  intros Hc. revert fuel s. induction Hc as [e El|e x es e_end El Ex Hn Hz Hc IH]; intros fuel s Hf Hs Hp Hr;
    (destruct fuel as [|fuel]; [cbn in Hf; lia|]); cbn [free_quotas]; rewrite (lift_step _ _ _ _ El).
  { exists s. rewrite given_back_nil. split_and!; try done. apply shifted_refl. }
  cbn [length] in Hf. destruct (read_entry_Some _ _ _ Ex) as (_ & _ & _ & _ & Eu & Es & Eh & _ & En).
  rewrite (lift_step _ _ _ _ Eu), (lift_step _ _ _ _ En). rewrite inums_cons in Hp, Hr. rewrite given_back_cons.
  destruct (Z.eqb_spec (x_inum x) 0) as [H0|H0].
  { rewrite decide_True in Hp, Hr by done. rewrite decide_True by done. rewrite (st_bind_step (mret tt) _ s tt s) by done. apply IH; try done. lia. }
  rewrite decide_False in Hp, Hr by done. rewrite decide_False by done. apply Forall_cons in Hp as [[Hne [i Hi]] Hp]. pose proof (Hr _ _ Hi ltac:(by left)) as Hri.
  pose proof (iget_step v Hmiss N s (x_inum x) (x_hash x) Hs) as Hg. rewrite bool_decide_eq_true_2 in Hg by eauto.
  destruct Hg as (s1 & E1 & H1 & Q1 & Sh1). destruct (shifted_inode _ _ _ _ _ _ Sh1 Hi) as (i1 & Hi1 & R1 & C1 & _).
  pose proof (so_count _ _ _ (st_inodes _ _ _ Hs _ _ Hi)) as Hct. unfold delta in C1. rewrite decide_True in C1 by done.
  set (q := ((ea_quota s).1 - 1, (ea_quota s).2 - round_up_cluster v (x_size x))).
  assert (sound_table v N (with_quota q s1)) as H2 by (eapply same_inodes; [done..|apply H1]).
  destruct (iput_step v N (with_quota q s1) (x_inum x) i1 H2 Hi1) as (s2 & E2 & H3 & Q3 & Sh2); [lia|lia|].
  assert ((hash ← lift (rd32 r (e + E_HASH)); error ← ext4_xattr_inode_iget v (x_inum x) hash;
    if negb (error =? 0) then mret tt else size ← lift (rd32 r (e + E_VALUE_SIZE));
      ext4_xattr_inode_free_quota v (Some (x_inum x)) size ;; iput (x_inum x)) s = Some (tt, s2)) as E.
  { rewrite (lift_step _ _ _ _ Eh). run E1. cbn [Z.eqb negb]. rewrite (lift_step _ _ _ _ Es).
    run (free_quota_run v N s1 _ i1 (x_size x) H1 Hi1). injection Q1 as -> _. exact E2. }
  run E. assert (shifted (λ _, 0) (λ _, 0) s s2) as Sh.
  { eapply shifted_ext; [exact (shifted_trans _ _ _ _ _ _ _ (shifted_same _ _ _ _ (with_quota q s1) Sh1 eq_refl) Sh2)| |];
      intros k; unfold delta; cbn; try case_decide; lia. }
  destruct (IH fuel s2) as (s' & E' & H' & Q' & Sh'); [lia|done| | |].
  - eapply Forall_impl; [exact Hp|]. intros k Hk. by rewrite (present_shifted _ _ _ _ _ _ Sh).
  - intros k j Hj Hk. destruct (shifted_back _ _ _ _ _ _ Sh Hj) as (j0 & Hj0 & R & _).
    specialize (Hr _ _ Hj0 ltac:(by right)). lia.
  - exists s'. split; [done|]. split; [done|]. injection Q3 as Qq Ql. injection Q1 as _ Ql1. split; [rewrite Q', Qq, Ql; cbn; by rewrite Ql1|].
    eapply shifted_ext; [exact (shifted_trans _ _ _ _ _ _ _ Sh Sh')| |]; done.
Qed.

(** Giving back the handles of [l]: an inode without references goes with its last one. *)
Definition let_go (l : list Z) (k : Z) (w : view) : option view :=
  if bool_decide (0 < occ l k ∧ vw_ref w = 0 ∧ vw_count w = occ l k) then None else Some (add_view 0 (- occ l k) w).

Lemma iput_let_go s ino i : sound_table v N s → ea_inodes s !! ino = Some i → 0 < ea_count i →
  ∃ s', iput ino s = Some (tt, s') ∧ sound_table v N s' ∧ ledger s' = ledger s ∧
    ∀ k, views s' !! k = views s !! k ≫= let_go [ino] k.
Proof.
  intros Hs Hi Hc. pose proof (st_inodes _ _ _ Hs _ _ Hi) as Hso.
  assert (∀ k, occ [ino] k = delta ino 1 k) as Ho by (intros k; unfold occ, delta; cbn; case_decide; lia).
  destruct (decide (ext4_xattr_inode_get_ref i = 0 ∧ ea_count i = 1)) as [[H0 H1]|Hk].
  - unfold iput. run (eget_run _ _ _ Hi). rewrite (proj2 (Z.leb_gt _ _)) by done. rewrite H1, (proj2 (so_links _ _ _ Hso) H0).
    cbn [Z.eqb Z.compare Pos.compare andb]. eexists. split; [reflexivity|]. split; [|split; [done|]].
    + split; [apply Hs|]. intros k j. cbn [ea_inodes with_inodes with_orphans with_cache]. rewrite lookup_delete_Some. intros [_ Hj].
      by apply (st_inodes _ _ _ Hs k).
    + intros k. unfold views. cbn [ea_inodes with_inodes with_orphans with_cache]. rewrite fmap_delete, lookup_fmap. unfold let_go. rewrite Ho. unfold delta.
      destruct (decide (k = ino)) as [->|Hne].
      * rewrite lookup_delete_eq, Hi. cbn. rewrite bool_decide_eq_true_2; [done|]. split; [lia|done].
      * rewrite lookup_delete_ne, lookup_fmap by done. destruct (ea_inodes s !! k); [|done]. cbn.
        by rewrite add_view_0.
  - destruct (iput_step v N s ino i Hs Hi Hc) as (s' & E & H' & Q & Sh); [lia|]. exists s'. split_and!; try done.
    intros k. rewrite Sh. unfold let_go. rewrite Ho. unfold views, delta. rewrite lookup_fmap. destruct (decide (k = ino)) as [->|Hne].
    + rewrite Hi. cbn. rewrite bool_decide_eq_false_2; [done|]. intros (_ & H1 & H2). by apply Hk.
    + destruct (ea_inodes s !! k); [|done]. done.
Qed.

Lemma let_go_cons ino l k w : occ (ino :: l) k ≤ vw_count w → let_go (ino :: l) k w = let_go [ino] k w ≫= let_go l k.
Proof.
  intros Hc. pose proof (occ_nonneg l k). unfold let_go. rewrite (occ_cons ino l k), (occ_cons ino [] k) in *. unfold delta in *.
  change (occ [] k) with 0. destruct w as [a c rest]. cbn [vw_ref vw_count add_view] in *.
  destruct (decide (k = ino)); repeat case_bool_decide; cbn [mbind option_bind vw_ref vw_count add_view] in *; try lia;
    repeat case_bool_decide; try lia; try done; f_equal; unfold add_view; cbn [vw_ref vw_count vw_rest]; f_equal; lia.
Qed.

Lemma views_back s k w : views s !! k = Some w → ∃ i, ea_inodes s !! k = Some i ∧ w = view_of i.
Proof. unfold views. rewrite lookup_fmap. intros (i & -> & Hi)%fmap_Some. eauto. Qed.

Lemma array_free_run l s : sound_table v N s → (∀ k, k ∈ l → is_Some (ea_inodes s !! k)) →
  (∀ k i, ea_inodes s !! k = Some i → occ l k ≤ ea_count i) →
  ∃ s', for_each l iput s = Some (tt, s') ∧ sound_table v N s' ∧ ledger s' = ledger s ∧ ∀ k, views s' !! k = views s !! k ≫= let_go l k.
Proof.
  revert s. induction l as [|ino l IH]; intros s Hs Hp Hc; cbn [for_each].
  { exists s. split_and!; try done. intros k. destruct (views s !! k) as [w|]; [|done]. cbn. unfold let_go.
    rewrite bool_decide_eq_false_2; [by rewrite add_view_0|]. cbn. lia. }
  destruct (Hp ino ltac:(by left)) as [i Hi]. pose proof (Hc _ _ Hi) as Hci. rewrite occ_cons in Hci. unfold delta in Hci.
  rewrite decide_True in Hci by done. pose proof (occ_nonneg l ino).
  destruct (iput_let_go s ino i Hs Hi) as (s1 & E1 & H1 & Q1 & V1); [lia|]. run E1.
  assert (∀ k i1, ea_inodes s1 !! k = Some i1 → occ l k ≤ ea_count i1) as Hc1.
  { intros k i1 Hi1. specialize (V1 k). unfold views in V1. rewrite !lookup_fmap, Hi1 in V1.
    destruct (ea_inodes s !! k) as [j|] eqn:Ej; [|done]. specialize (Hc _ _ Ej). rewrite occ_cons in Hc.
    cbn [mbind option_bind fmap option_fmap option_map view_of vw_ref vw_count vw_rest add_view] in V1. unfold let_go in V1. case_bool_decide; [done|].
    assert (ea_count i1 = ea_count j + - occ [ino] k) as V2 by (unfold view_of, add_view in V1; cbn [vw_count] in V1; congruence).
    rewrite (occ_cons ino [] k) in V2.
    change (occ [] k) with 0 in V2. lia. }
  destruct (IH s1 H1) as (s' & E' & H' & Q' & V'); [|done|].
  - intros k Hk. specialize (V1 k). unfold views in V1. rewrite !lookup_fmap in V1. destruct (Hp k ltac:(by right)) as [j Ej].
    rewrite Ej in V1. cbn [mbind option_bind fmap option_fmap option_map view_of vw_ref vw_count vw_rest add_view] in V1. unfold let_go in V1.
    destruct (ea_inodes s1 !! k); [eauto|]. case_bool_decide as Hb; [|done]. cbn [view_of vw_ref vw_count] in Hb. specialize (Hc _ _ Ej). rewrite occ_cons in Hc. rewrite (occ_cons ino [] k) in Hb. change (occ [] k) with 0 in Hb.
    pose proof (occ_in _ _ Hk). unfold delta in *. case_decide; lia.
  - exists s'. split; [done|]. split; [done|]. split; [congruence|]. intros k. rewrite V', V1.
    destruct (views s !! k) as [w|] eqn:Ew; [|done]. cbn [mbind option_bind]. symmetry. apply let_go_cons.
    apply views_back in Ew as (j & Ej & ->). by apply Hc.
Qed.

End releasing.

(** ** Deleting an inode *)

Section deletion.
Context (v : ea_env) (N : Z).
Hypothesis (Hmiss : ev_missing v ≠ 0) (HN : N < 2 ^ 63).

(** The block of the inode [n], if any, has the entries [bs] and the reference count [rc]. *)
Definition block_entries (n : ext4_inode) (bs : list xentry) (rc : Z) : Prop :=
  match i_file_acl n with
  | None => bs = [] ∧ rc = 0
  | Some b => ∃ b' b_end, ext4_xattr_check_block (ev_csum v) b = Some (0, b') ∧ b_blocknr b' = b_blocknr b ∧
      chain (b_data b') BFIRST bs b_end ∧ rd32 (b_data b') H_REFCOUNT = Some rc
  end.

(** The inodes that lose a reference with the block: those of its entries, when no
    other inode shares it. *)
Definition block_refs (bs : list xentry) (rc : Z) : list Z := if rc =? 1 then inums bs else [].

(** What the disk sees of the block. *)
Definition block_ops (n : ext4_inode) (rc : Z) (ops : list store_op) : Prop :=
  match i_file_acl n with
  | None => ops = []
  | Some b =>
      if rc =? 1 then ops = [OpFreeBlocks (b_blocknr b); OpFcIneligible]
      else ∃ b', ops = OpUnshare b' :: (if ev_sync v then [OpSync] else []) ++ [OpFreeBlockQuota; OpFcIneligible] ∧ b_blocknr b' = b_blocknr b ∧
        rd32 (b_data b') H_REFCOUNT = Some (u32 (rc - 1))
  end.

Lemma csum_set_refcount b c : 20 ≤ buf_end (b_data b) → rd32 (b_data b) H_REFCOUNT = Some c →
  ∃ b', ext4_xattr_block_csum_set (ev_csum v) b = Some b' ∧ b_blocknr b' = b_blocknr b ∧ rd32 (b_data b') H_REFCOUNT = Some c.
Proof.
  intros Hl Hc. unfold ext4_xattr_block_csum_set. destruct (io_metadata_csum (ev_csum v)); [|by exists b].
  destruct (wr_in 4 (b_data b) H_CHECKSUM (ext4_xattr_block_csum (ev_csum v) (b_blocknr b) (b_data b))) as (r & W & _); [done|done|].
  rewrite W. eexists. split; [reflexivity|]. split; [done|]. cbn [b_data]. by rewrite (rd_wr_ne 4 4 _ _ _ _ _ W) by (by left).
Qed.

Lemma release_run b bs b_end rc a s : chain (b_data b) BFIRST bs b_end → rd32 (b_data b) H_REFCOUNT = Some rc → sound_table v N s →
  Forall (present v s) (inums bs) → (∀ k i, ea_inodes s !! k = Some i → occ (inums bs) k ≤ ext4_xattr_inode_get_ref i) → array_ok a →
  ∃ a' ops s', release_block v true b a s = Some (a', s') ∧ array_ok a' ∧ array_inodes a' = array_inodes a ++ block_refs bs rc ∧
    sound_table v N s' ∧ ledger s' = (ea_quota s, ea_log s ++ ops) ∧
    (if rc =? 1 then ops = [OpFreeBlocks (b_blocknr b)]
     else ∃ b', ops = OpUnshare b' :: (if ev_sync v then [OpSync] else []) ++ [OpFreeBlockQuota] ∧ b_blocknr b' = b_blocknr b ∧
        rd32 (b_data b') H_REFCOUNT = Some (u32 (rc - 1))) ∧
    shifted (λ k, - occ (block_refs bs rc) k) (occ (block_refs bs rc)) s s'.
Proof.
  intros Hc Hrc Hs Hp Hr Ha. unfold release_block, block_refs. run (ext_nil 0 s (st_outcomes _ _ _ Hs)). cbn [Z.eqb negb].
  rewrite (lift_step _ _ _ _ Hrc). destruct (Z.eqb_spec rc 1) as [->|Hne].
  - destruct (dec_ref_all_run v N (Some (b_blocknr b)) true Hmiss HN bs BFIRST b_end (b_data b) a s Hc) as
      (r' & a' & s' & E & [D1 D2 D3 D4 D5 D6 D7 D8]); try done.
    assert ((d ← ext4_xattr_inode_dec_ref_all v (b_data b) (Some (b_blocknr b)) BFIRST true a; mret d.2) s = Some (a', s')) as E1 by (by run E).
    run E1. eexists a', [OpFreeBlocks (b_blocknr b)], _. split; [reflexivity|]. injection D7 as Dq Dl. split_and!; try done.
    + eapply same_inodes; [done|done|apply D6].
    + unfold ledger. cbn. by rewrite Dq, Dl.
  - pose proof (chain_room _ _ _ _ Hc) as [_ Hroom]. apply chain_seg in Hc as [Hseg _]. apply seg_le in Hseg.
    unfold BFIRST, HEADER_SIZE in Hseg.
    destruct (wr_in 4 (b_data b) H_REFCOUNT (u32 (rc - 1))) as (r & W & L); [done|unfold H_REFCOUNT; lia|]. rewrite (lift_step _ _ _ _ W).
    destruct (csum_set_refcount (EaBlock r (b_blocknr b) (b_verified b)) (u32 (rc - 1))) as (b' & Eb & Hnr & Hb').
    { unfold buf_end in *. cbn [b_data]. lia. }
    { cbn [b_data]. rewrite (rd_wr_eq _ _ _ _ _ W). f_equal. change (2 ^ (8 * Z.of_nat 4)) with (2 ^ 32). apply Z.mod_mod. done. }
    rewrite (lift_step _ _ _ _ Eb). run (ext_nil 0 s (st_outcomes _ _ _ Hs)). eexists a, _, _. split; [reflexivity|].
    split; [done|]. split; [by rewrite app_nil_r|]. split; [by eapply same_inodes; [..|apply Hs]|]. split; [reflexivity|].
    split; [by exists b'|]. eapply shifted_same; [apply shifted_refl|done].
Qed.

Lemma delete_block_run n bs rc a s : block_entries n bs rc → sound_table v N s → Forall (present v s) (inums bs) →
  (∀ k i, ea_inodes s !! k = Some i → occ (inums bs) k ≤ ext4_xattr_inode_get_ref i) → array_ok a →
  ∃ n' a' ops s', delete_block v true n a s = Some ((0, n', a'), s') ∧ raw_inode n' = raw_inode n ∧ i_file_acl n' = None ∧
    array_inodes a' = array_inodes a ++ block_refs bs rc ∧ sound_table v N s' ∧
    ledger s' = (given_back v bs (ea_quota s), ea_log s ++ ops) ∧ block_ops n rc ops ∧
    shifted (λ k, - occ (block_refs bs rc) k) (occ (block_refs bs rc)) s s'.
Proof.
  unfold block_entries, delete_block, block_ops. intros Hb Hs Hp Hr Ha. destruct (i_file_acl n) as [b|] eqn:En.
  2:{ destruct Hb as [-> ->]. exists n, a, [], s. split_and!; try done; [by rewrite app_nil_r|by rewrite given_back_nil, app_nil_r|apply shifted_refl]. }
  destruct Hb as (b' & b_end & Ec & Enr & Hc & Hrc). pose proof (st_outcomes _ _ _ Hs) as Ho. run (ext_nil 0 s Ho). cbn [Z.eqb negb].
  rewrite (lift_step _ _ _ _ Ec). cbn [Z.eqb negb].
  destruct (free_quotas_run v N Hmiss (b_data b') bs BFIRST b_end (fuel_of (b_data b')) s Hc) as (s1 & E1 & H1 & Q1 & Sh1); try done.
  { by apply (chain_fuel _ BFIRST _ b_end). }
  { intros k i Hk Hin. specialize (Hr _ _ Hk). pose proof (occ_in _ _ Hin). lia. }
  run E1. destruct (release_run b' bs b_end rc a s1 Hc Hrc H1) as (a' & ops & s2 & E2 & A1 & A2 & H2 & Q2 & Hops & Sh2); try done.
  { eapply Forall_impl; [exact Hp|]. intros k Hk. by rewrite (present_shifted _ _ _ _ _ _ Sh1). }
  { intros k j Hj. destruct (shifted_back _ _ _ _ _ _ Sh1 Hj) as (j0 & Hj0 & R & _). specialize (Hr _ _ Hj0). lia. }
  run E2. run (ext_nil 0 s2 (st_outcomes _ _ _ H2)). cbn [Z.eqb negb].
  eexists _, a', (ops ++ [OpFcIneligible]), _. split; [reflexivity|]. injection Q1 as Qq Ql. injection Q2 as Qq2 Ql2. split_and!; try done.
  - eapply same_inodes; [done|done|apply H2].
  - unfold ledger. cbn [ea_quota ea_log with_log]. by rewrite Qq2, Ql2, Qq, Ql, app_assoc.
  - rewrite Enr in Hops. destruct (rc =? 1); [by subst|]. destruct Hops as (b2 & -> & Hb2). exists b2. split; [|done]. by destruct (ev_sync v).
  - eapply shifted_same; [|reflexivity]. eapply shifted_ext; [exact (shifted_trans _ _ _ _ _ _ _ Sh1 Sh2)| |]; intros k; cbn; lia.
Qed.

End deletion.

Lemma given_back_app v es bs q : given_back v bs (given_back v es q) = given_back v (es ++ bs) q.
Proof.
  revert q. induction es as [|x es IH]; intros q; [by rewrite given_back_nil|]. rewrite <-app_comm_cons, !given_back_cons. apply IH.
Qed.

(** An inode without its references of [l]: it goes with the last one when nobody
    has a handle. *)
Definition release (l : list Z) (k : Z) (w : view) : option view :=
  if bool_decide (0 < occ l k ∧ vw_ref w = occ l k ∧ vw_count w = 0) then None else Some (add_view (- occ l k) 0 w).

Lemma let_go_release l k w : let_go l k (add_view (- occ l k) (occ l k) w) = release l k w.
Proof.
  unfold let_go, release. destruct w as [a c rest]. unfold add_view. cbn [vw_ref vw_count vw_rest].
  repeat case_bool_decide; try lia; [done|]. do 2 f_equal; lia.
Qed.

(** Deleting an inode: of every value inode go as many references as the entries
    of the inode have, and those of its block when no other inode shares it; an
    inode that loses the last one goes too unless somebody has a handle; all handles
    are given back; the owner's quota gets back every value of the inode and of the
    block; the entries of the inode have no value any more; the block is freed, or
    counts one inode less. *)
Theorem delete_inode_releases v n es e_end bs rc N s :
  ev_missing v ≠ 0 → N < 2 ^ 63 → state_xattr n = true → rd32 (raw_inode n) (IHDR n) = Some EXT4_XATTR_MAGIC → 0 ≤ IFIRST n →
  chain (raw_inode n) (IFIRST n) es e_end → block_entries v n bs rc → sound_table v N s →
  Forall (present v s) (inums (es ++ bs)) →
  (∀ k i, ea_inodes s !! k = Some i → occ (inums (es ++ bs)) k ≤ ext4_xattr_inode_get_ref i) →
  ∃ n' a ops s1 s2, ext4_xattr_delete_inode v true n None s = Some ((0, n', a), s1) ∧
    ext4_xattr_inode_array_free a s1 = Some (tt, s2) ∧
    chain (raw_inode n') (IFIRST n) (strip <$> es) e_end ∧ i_file_acl n' = None ∧
    ledger s2 = (given_back v (es ++ bs) (ea_quota s), ea_log s ++ ops) ∧ block_ops v n rc ops ∧
    ∀ k, views s2 !! k = views s !! k ≫= release (inums es ++ block_refs bs rc) k.
Proof.
  intros Hm HN Hst Hmg Hf Hc Hb Hs Hp Hr. pose proof (st_outcomes _ _ _ Hs) as Ho. rewrite inums_app in Hp, Hr.
  apply Forall_app in Hp as [Hp1 Hp2]. unfold ext4_xattr_delete_inode. run (ext_nil 0 s Ho). rewrite Hst. cbn [Z.ltb Z.compare andb].
  run (ext_nil 0 s Ho). cbn [Z.eqb negb]. run (ext_nil 0 s Ho). cbn [Z.eqb negb]. rewrite (lift_step _ _ _ _ Hmg), Z.eqb_refl.
  destruct (dec_ref_all_run v N None false Hm HN es (IFIRST n) e_end (raw_inode n) None s Hc) as
    (r1 & a1 & s1 & E1 & [D1 D2 D3 D4 D5 D6 D7 D8]); try done.
  { intros k i Hk. specialize (Hr _ _ Hk). rewrite occ_app in Hr. pose proof (occ_nonneg (inums bs) k). lia. }
  run E1. cbn [fst snd].
  destruct (delete_block_run v N Hm HN (set_raw r1 true n) bs rc a1 s1) as
    (n' & a & ops & s2 & E2 & Hraw & Hacl & A & H2 & Q2 & Hops & Sh2); try done.
  { eapply Forall_impl; [exact Hp2|]. intros k Hk. by rewrite (present_shifted _ _ _ _ _ _ D8). }
  { intros k j Hj. destruct (shifted_back _ _ _ _ _ _ D8 Hj) as (j0 & Hj0 & R & _). specialize (Hr _ _ Hj0). rewrite occ_app in Hr. lia. }
  rewrite E2. rewrite D5 in A. cbn [array_inodes app] in A. set (l := inums es ++ block_refs bs rc) in *.
  assert (shifted (λ k, - occ l k) (occ l) s s2) as Sh.
  { eapply shifted_ext; [exact (shifted_trans _ _ _ _ _ _ _ D8 Sh2)| |]; intros k; unfold l; rewrite occ_app; lia. }
  assert (∀ k, k ∈ l → present v s2 k) as Hpl.
  { intros k Hk. rewrite (present_shifted _ _ _ _ _ _ Sh). rewrite !Forall_forall in Hp1, Hp2. unfold l, block_refs in Hk.
    apply elem_of_app in Hk as [Hk|Hk]; [by apply Hp1|]. destruct (rc =? 1); [by apply Hp2|by apply not_elem_of_nil in Hk]. }
  destruct (array_free_run v N l s2 H2) as (s3 & E3 & _ & Q3 & V3).
  { intros k Hk. by apply Hpl. }
  { intros k j Hj. destruct (shifted_back _ _ _ _ _ _ Sh Hj) as (j0 & Hj0 & _ & C).
    pose proof (so_count _ _ _ (st_inodes _ _ _ Hs _ _ Hj0)). lia. }
  exists n', a, ops, s2, s3. injection D7 as Dq Dl. injection Q2 as Qq Ql. split_and!; try done.
  - unfold ext4_xattr_inode_array_free. unfold array_inodes in A. destruct a as [a|]; [by rewrite A|]. by rewrite <-A in E3.
  - rewrite Hraw. done.
  - rewrite Q3. unfold ledger. by rewrite Qq, Ql, Dq, Dl, given_back_app.
  - intros k. rewrite V3, Sh. destruct (views s !! k) as [w|]; [|done]. cbn [fmap option_fmap option_map mbind option_bind]. apply let_go_release.
Qed.

(** ** An example *)

Definition demo_ea_entry (name : Z) : bytes := [1; 1; 0; 0; 12; 0; 0; 0; 5; 0; 0; 0; 0; 0; 0; 0; name; 0; 0; 0].

Definition demo_ea_ibody : bytes := replicate 160 0 ++ [0; 0; 2; 234] ++ demo_ea_entry 97 ++ replicate 72 0.
Definition demo_ea_block : bytes := [0; 0; 2; 234; 1; 0; 0; 0; 1; 0; 0; 0] ++ replicate 20 0 ++ demo_ea_entry 98 ++ replicate 76 0.

Definition demo_ea_owner : ext4_inode := Ext4Inode demo_ea_ibody 32 true (Some (EaBlock demo_ea_block 77 true)).

Lemma demo_sound : sound_table demo_env 2 demo_ea.
Proof.
  split; [done|]. intros ino i. cbn. rewrite lookup_singleton_Some. intros [<- <-]. split; try done; first [by vm_compute|by split; vm_compute|left; by vm_compute].
Qed.

Lemma demo_ibody_chain : chain demo_ea_ibody 164 [XEntry 164 1 [97] 0 12 5 0] 184.
Proof. eapply chain_cons; [by vm_compute..|]. by apply chain_last. Qed.

Lemma demo_block_chain : chain demo_ea_block BFIRST [XEntry 32 1 [98] 0 12 5 0] 52.
Proof. eapply chain_cons; [by vm_compute..|]. by apply chain_last. Qed.

Lemma demo_block_entries : block_entries demo_env demo_ea_owner [XEntry 32 1 [98] 0 12 5 0] 1.
Proof. exists (EaBlock demo_ea_block 77 true), 52. split; [by vm_compute|]. split; [done|]. split; [apply demo_block_chain|by vm_compute]. Qed.

Lemma demo_present : present demo_env demo_ea 12.
Proof. split; [done|]. eexists. by vm_compute. Qed.

(** The block's references are taken. *)
Lemma inc_ref_all_or_nothing_witness : ∃ code s',
  ext4_xattr_inode_inc_ref_all demo_env demo_ea_block BFIRST demo_ea = Some (code, s') ∧ code = 0.
Proof.
  destruct (inc_ref_all_or_nothing demo_env demo_ea_block BFIRST _ _ 2 demo_ea ltac:(done) demo_block_chain ltac:(done) demo_sound)
    as (code & s' & E & H & _); [|cbn; lia|].
  { intros ino i. cbn. rewrite lookup_singleton_Some. by intros [<- <-]. }
  exists code, s'. split; [exact E|]. apply H. change (Forall (present demo_env demo_ea) [12]).
  constructor; [exact demo_present|constructor].
Defined.

(** Both references go, and inode 12 with them. *)
Lemma delete_inode_releases_witness : ∃ n' a s1 s2,
  ext4_xattr_delete_inode demo_env true demo_ea_owner None demo_ea = Some ((0, n', a), s1) ∧
  ext4_xattr_inode_array_free a s1 = Some (tt, s2) ∧ views s2 !! 12 = None.
Proof.
  destruct (delete_inode_releases demo_env demo_ea_owner [XEntry 164 1 [97] 0 12 5 0] 184 [XEntry 32 1 [98] 0 12 5 0] 1 2 demo_ea)
    as (n' & a & ops & s1 & s2 & E1 & E2 & _ & _ & _ & _ & V); try done.
  - exact demo_ibody_chain.
  - exact demo_block_entries.
  - exact demo_sound.
  - change (Forall (present demo_env demo_ea) [12; 12]). do 2 (constructor; [exact demo_present|]). constructor.
  - intros k i. cbn [ea_inodes demo_ea]. rewrite lookup_singleton_Some. intros [<- <-]. by vm_compute.
  - exists n', a, s1, s2. split; [exact E1|]. split; [exact E2|]. rewrite V. by vm_compute.
Defined.

End Ext4EaRefs.
