(* ===== verification/SysctlText.v ===== *)
(** * Numbers in the text of sysctl files

    kernel/sysctl.c, the functions that read and write one number or one character:
    [strtoul_lenient], [proc_get_long], [proc_put_long], [proc_put_char] and the
    skipping of characters.

    A pointer with the size that is left behind it is a list of bytes; the buffer
    of a read is what was put there so far with the room that is left.  The
    functions of lib/kstrtox.c and lib/ctype.c that the code calls are the class
    [KernelText], with what they document as laws; [c_text] is an instance. *)

From Stdlib Require Import ZArith Lia.
From stdpp Require Import base numbers list.
From S2P Require Import Prelude Decimal.

Module SysctlText.
Import Decimal.

(** ** What the kernel library offers *)

(** [parse_integer] answers [None] when it reports KSTRTOX_OVERFLOW, otherwise the
    number of characters that it used and their value.  [fixup_radix] answers the
    string behind the prefix of the base, and the base. *)
Class KernelText := {
  kisspace : Z → bool;
  fixup_radix : bytes → Z → bytes * Z;
  parse_integer : bytes → Z → option (nat * Z);
}.

(** A decimal number as it is printed, followed by something that cannot belong to it. *)
Definition plain_number (d r : bytes) : Prop :=
  d ≠ [] ∧ Forall (λ c, is_digit c = true) d ∧ (head d = Some 48 → d = [48]) ∧
  ∀ c, head r = Some c → is_digit c = false ∧ c ≠ 88 ∧ c ≠ 120.

Class KernelTextLaws `{KernelText} := {
  space_blank : ∀ c, c = 32 ∨ 9 ≤ c ≤ 13 → kisspace c = true;
  space_graphic : ∀ c, 33 ≤ c ≤ 126 → kisspace c = false;
  fixup_suffix : ∀ s b, ∃ n, (n ≤ length s)%nat ∧ (fixup_radix s b).1 = drop n s;
  parse_bound : ∀ s b n v, parse_integer s b = Some (n, v) → (n ≤ length s)%nat ∧ is_u 64 v;
  parse_plain : ∀ d r, plain_number d r → ∃ b, fixup_radix (d ++ r) 0 = (d ++ r, b) ∧
    parse_integer (d ++ r) b = if digits_val 0 d <? 2 ^ 64 then Some (length d, digits_val 0 d) else None;
}.

Section text.
Context `{KernelText}.

(** ** Reading *)

Fixpoint proc_skip_spaces (buf : bytes) : bytes :=
  match buf with
  | c :: buf' => if kisspace c then proc_skip_spaces buf' else buf
  | [] => []
  end.

Fixpoint proc_skip_char (buf : bytes) (v : Z) : bytes :=
  match buf with
  | c :: buf' => if c =? v then proc_skip_char buf' v else buf
  | [] => []
  end.

(** The error, or the rest of the string and the value. *)
Definition strtoul_lenient (cp : bytes) (base : Z) : Z + (bytes * Z) :=
  let '(cp, base) := fixup_radix cp base in
  match parse_integer cp base with
  | None => inl (- ERANGE)
  | Some (rv, result) => if negb (result =? u64 result) then inl (- ERANGE) else inr (drop rv cp, u64 result)
  end.

Definition TMPBUFLEN : nat := 22.

(** The string that starts here. *)
Definition c_string (l : bytes) : bytes := default l (cstr l).

(** The error, or the value, the sign, the trailing character and the rest.  [None]:
    the pointer leaves [tmp]. *)
Definition proc_get_long (buf perm_tr : bytes) : option (Z + (Z * bool * option Z * bytes)) :=
  match buf with
  | [] => Some (inl (- EINVAL))
  | _ =>
      let tmp := take (TMPBUFLEN - 1) buf ++ [0] in
      let neg := bool_decide (head tmp = Some 45) && (1 <? length buf)%nat in
      let p := drop (if neg then 1 else 0) tmp in
      c ← head p;
      if negb (is_digit c) then Some (inl (- EINVAL))
      else
        match strtoul_lenient (c_string p) 0 with
        | inl _ => Some (inl (- EINVAL))
        | inr (endp, val) =>
            let len := ((if neg then 1 else 0) + (length (c_string p) - length endp))%nat in
            if (len =? TMPBUFLEN - 1)%nat then Some (inl (- EINVAL))
            else
              t ← tmp !! len;
              if (len <? length buf)%nat && negb (bool_decide (perm_tr = [])) && negb (bool_decide (t ∈ perm_tr)) then Some (inl (- EINVAL))
              else Some (inr (val, neg, if (len <? length buf)%nat then Some t else None, drop len buf))
        end
  end.

(** ** Writing *)

(** What [sprintf] makes of a number. *)
Definition long_text (val : Z) (neg : bool) : bytes := (if neg then [45] else []) ++ dec val.

Definition proc_put_long (buf : bytes * Z) (val : Z) (neg : bool) : bytes * Z :=
  let tmp := long_text val neg in
  let len := if buf.2 <? Z.of_nat (length tmp) then buf.2 else Z.of_nat (length tmp) in
  (buf.1 ++ take (Z.to_nat len) tmp, buf.2 - len).

Definition proc_put_char (buf : bytes * Z) (c : Z) : bytes * Z :=
  if buf.2 =? 0 then buf else (buf.1 ++ [c], buf.2 - 1).

(** ** What they promise *)

Context `{!KernelTextLaws}.

Lemma skip_spaces_suffix buf : ∃ n, proc_skip_spaces buf = drop n buf.
Proof. induction buf as [|c buf [n IH]]; [by exists O|]. cbn. destruct (kisspace c); [exists (S n); exact IH|by exists O]. Qed.

Lemma skip_char_length buf v : (length (proc_skip_char buf v) ≤ length buf)%nat.
Proof. induction buf as [|c buf IH]; [done|]. cbn. destruct (c =? v); cbn; lia. Qed.

Lemma skip_spaces_app a b : Forall (λ c, kisspace c = true) a → proc_skip_spaces (a ++ b) = proc_skip_spaces b.
Proof. induction 1 as [|c a Hc _ IH]; [done|]. cbn. by rewrite Hc. Qed.

Lemma skip_spaces_stop c b : kisspace c = false → proc_skip_spaces (c :: b) = c :: b.
Proof. cbn. by intros ->. Qed.

Lemma c_string_app (a b : bytes) : Forall (λ c, c ≠ 0) a → c_string (a ++ b) = a ++ c_string b.
Proof.
  induction 1 as [|c a Hc _ IH]; [done|]. unfold c_string in *. cbn [app cstr]. rewrite (proj2 (Z.eqb_neq _ _) Hc).
  destruct (cstr (a ++ b)); cbn in *; congruence.
Qed.

Lemma c_string_prefix (l : bytes) : ∃ r, l = c_string l ++ r.
Proof.
  induction l as [|c l [r IH]]; [by exists []|]. unfold c_string in *. cbn [cstr]. destruct (Z.eqb_spec c 0) as [->|].
  - by exists (0 :: l).
  - destruct (cstr l); cbn in *; [exists r; by f_equal|by exists []; rewrite app_nil_r].
Qed.

Lemma c_string_nul (l : bytes) : (length (c_string (l ++ [0%Z])) ≤ length l)%nat.
Proof.
  unfold c_string. destruct (cstr_Some (l ++ [0])) as (s & -> & Hs); [by apply elem_of_app; right; left|]. cbn.
  rewrite length_app in Hs. cbn in Hs. lia.
Qed.

Lemma strtoul_lenient_bound cp base endp val : strtoul_lenient cp base = inr (endp, val) →
  (length endp ≤ length cp)%nat ∧ is_u 64 val.
Proof.
  unfold strtoul_lenient. destruct (fixup_suffix cp base) as (n & Hn & E). destruct (fixup_radix cp base) as [cp' b]. cbn in E. subst cp'.
  destruct (parse_integer _ _) as [[k v]|] eqn:E; [|done]. apply parse_bound in E as [_ Hv]. destruct (negb _); [done|].
  intros [= <- <-]. rewrite !length_drop. split; [lia|]. by rewrite wrapU_small.
Qed.

(** The pointer never leaves the buffer; a number that is read is an unsigned long, and
    reading it uses at least one character. *)
Lemma get_long_total buf perm_tr : perm_tr ≠ [] → (∀ c, c ∈ perm_tr → is_digit c = false) →
  ∃ r, proc_get_long buf perm_tr = Some r ∧
    match r with
    | inl err => err = - EINVAL
    | inr (val, neg, tr, rest) => is_u 64 val ∧ (length rest < length buf)%nat ∧ tr = head rest
    end.
Proof.
  intros Hp Hd. unfold proc_get_long. destruct buf as [|c0 buf']; [by eexists|]. set (buf := c0 :: buf'). cbv zeta.
  set (k := take (TMPBUFLEN - 1) buf). set (neg := bool_decide _ && _).
  assert (length k = Nat.min 21 (length buf)) as Hk by apply length_take.
  assert (Hneg : neg = true → (1 < length buf)%nat) by (unfold neg; rewrite andb_true_iff; intros [_ ?%Nat.ltb_lt]; done).
  assert (drop (if neg then 1 else 0)%nat (k ++ [0]) = drop (if neg then 1 else 0)%nat k ++ [0]) as ->.
  { rewrite drop_app_le; [done|]. rewrite Hk. destruct neg; [specialize (Hneg eq_refl); lia|lia]. }
  set (p := drop (if neg then 1 else 0)%nat k). assert (Hlen : (length p = length k - if neg then 1 else 0)%nat) by apply length_drop.
  destruct (p ++ [0]) as [|c p'] eqn:Ep; [by destruct p|]. rewrite <-Ep. assert (head (p ++ [0]) = Some c) as -> by by rewrite Ep.
  cbn [mbind option_bind]. destruct (is_digit c) eqn:Hc; [|by eexists]. cbn [negb].
  destruct (strtoul_lenient _ _) as [e|[endp val]] eqn:E; [by eexists|]. apply strtoul_lenient_bound in E as [Hend Hval].
  pose proof (c_string_nul p) as Hnul. set (len := (_ + (_ - _))%nat). destruct (len =? _)%nat eqn:E21; [by eexists|].
  apply Nat.eqb_neq in E21. change (TMPBUFLEN - 1)%nat with 21%nat in E21.
  assert (Hnegk : neg = true → (1 ≤ length k)%nat) by (intros Hn; specialize (Hneg Hn); lia).
  assert ((len ≤ length k)%nat) as Hlk by (unfold len; destruct neg; [specialize (Hnegk eq_refl); lia|lia]).
  destruct (lookup_lt_is_Some_2 (k ++ [0]) len) as [t Et]; [rewrite length_app; change (length [0]) with 1%nat; lia|]. rewrite Et. cbn [mbind option_bind].
  rewrite (bool_decide_eq_false_2 (perm_tr = [])) by done. cbn [negb andb]. rewrite andb_true_r.
  assert (Hrest : (len < length buf)%nat → head (drop len buf) = Some t ∧ (t ∈ perm_tr → (0 < len)%nat)).
  { intros Hl. assert (len < length k)%nat as Hl' by lia. rewrite lookup_app_l in Et by done. unfold k in Et.
    rewrite lookup_take_lt in Et by (cbn; lia). split; [by rewrite head_lookup, lookup_drop, Nat.add_0_r|].
    intros Ht%Hd. destruct len eqn:El; [|lia]. exfalso. destruct neg eqn:En; [cbn in El; lia|].
    unfold p, k, buf in Ep. cbn in Ep, Et. congruence. }
  destruct (Nat.ltb_spec len (length buf)) as [Hl|Hl]; cbn [andb].
  - destruct (Hrest Hl) as [Hh Hpos]. case_bool_decide as Ht; cbn [negb]; [|by eexists]. eexists. split; [done|]. cbn beta iota.
    split_and!; [done| |done]. rewrite length_drop. specialize (Hpos Ht). lia.
  - eexists. split; [done|]. cbn beta iota. rewrite drop_ge by done. split_and!; [done|cbn; lia|done].
Qed.

Lemma long_text_length val neg : is_u 64 val → (2 ≤ length (long_text val neg) + (if neg then 0 else 1) ≤ 21)%nat.
Proof.
  intros Hv. unfold long_text. rewrite length_app. destruct (dec_spec val) as (_ & _ & Hl & Hp); [apply Hv|].
  assert (length (dec val) ≤ 20)%nat; [|destruct neg; cbn [length]; lia].
  destruct (decide (val = 0)) as [->|]; [cbn; lia|]. unfold is_u in Hv. specialize (Hp ltac:(lia)).
  enough (Z.of_nat (length (dec val)) - 1 < 20) by lia. apply (Z.pow_lt_mono_r_iff 10); [lia..|].
  assert (2 ^ 64 < 10 ^ 20) by done. lia.
Qed.

(** What is printed is read back, up to 20 characters, when a permitted trailer follows
    or nothing does. *)
Lemma get_long_text val neg r perm_tr : is_u 64 val → (length (long_text val neg) ≤ 20)%nat →
  (∀ c, head r = Some c → c ∈ perm_tr ∧ is_digit c = false ∧ c ≠ 88 ∧ c ≠ 120) →
  proc_get_long (long_text val neg ++ r) perm_tr = Some (inr (val, neg, head r, r)).
Proof.
  intros Hv Hl Hr. destruct (dec_spec val) as (Hd & Hdv & Hd0 & Hdz); [apply Hv|]. set (d := dec val) in *.
  assert (∃ c d', d = c :: d' ∧ is_digit c = true) as (c & d' & Ed & Hc).
  { destruct d as [|c d']; [cbn in Hd0; lia|]. exists c, d'. split; [done|]. by apply Forall_cons in Hd as [? _]. }
  assert (plain_number d (take (21 - length (long_text val neg)) r)) as Hplain.
  { split; [by rewrite Ed|]. split; [done|]. split.
    - destruct (decide (val = 0)) as [E0|]; [unfold d; by rewrite E0|]. specialize (Hdz ltac:(destruct Hv; lia)). rewrite Ed. intros [= ->]. exfalso.
      rewrite Ed in Hdv, Hdz. rewrite Ed in Hd. apply Forall_cons in Hd as [_ Hd']. pose proof (digits_val_range _ Hd') as Hb.
      cbn [digits_val foldl] in Hdv. fold (digits_val (10 * 0 + (48 - 48)) d') in Hdv. cbn [length] in Hdz.
      replace (Z.of_nat (S (length d')) - 1) with (Z.of_nat (length d')) in Hdz by lia. change (10 * 0 + (48 - 48)) with 0 in Hdv. lia.
    - intros c0 Hh. destruct r as [|c1 r]; [by rewrite take_nil in Hh|]. destruct (21 - _)%nat; [done|]. cbn in Hh.
      destruct (Hr c0 Hh) as (_ & ? & ? & ?). done. }
  unfold proc_get_long, long_text in *. fold d in Hl, Hplain |- *. set (sg := if neg then [45] else []) in *.
  destruct ((sg ++ d) ++ r) as [|b0 buf'] eqn:Eb; [destruct sg, d; discriminate|]. rewrite <-Eb. cbv zeta.
  change (TMPBUFLEN - 1)%nat with 21%nat. rewrite take_app_ge by lia. set (r' := take (21 - length (sg ++ d)) r) in *.
  set (x := (r' ++ [0])). assert (((sg ++ d) ++ r') ++ [0] = sg ++ d ++ x) as -> by (unfold x; by rewrite <-!app_assoc).
  assert (plain_number d (c_string x)) as Hplain'.
  { destruct Hplain as (P1 & P2 & P3 & P4). split_and!; try done. intros c0 Hc0. apply P4. unfold x in Hc0.
    destruct r' as [|c1 r']; [done|]. unfold c_string in Hc0. cbn [app cstr] in Hc0. destruct (c1 =? 0); [done|].
    cbn. destruct (cstr (r' ++ [0])); exact Hc0. }
  apply is_digit_spec in Hc as Hc'. apply parse_plain in Hplain' as (b & Efix & Epar).
  assert ((digits_val 0 d <? 2 ^ 64) = true) as Hlt by (rewrite Hdv; apply Z.ltb_lt, Hv). rewrite Hlt, Hdv in Epar.
  assert (bool_decide (head (sg ++ d ++ x) = Some 45) && (1 <? length ((sg ++ d) ++ r))%nat = neg) as ->.
  { unfold sg. rewrite Ed. destruct neg; cbn [app head]; [by rewrite bool_decide_eq_true_2|].
    rewrite bool_decide_eq_false_2; [done|]. intros [= ->]. lia. }
  assert (drop (if neg then 1 else 0)%nat (sg ++ d ++ x) = d ++ x) as -> by (unfold sg; by destruct neg).
  assert (head (d ++ x) = Some c) as -> by by rewrite Ed. cbn [mbind option_bind]. rewrite Hc. cbn [negb].
  rewrite c_string_app.
  2:{ eapply Forall_impl; [exact Hd|]. intros z Hz%is_digit_spec. lia. }
  unfold strtoul_lenient. rewrite Efix, Epar. rewrite wrapU_small, Z.eqb_refl by done. cbn [negb].
  rewrite length_drop, length_app.
  assert (∀ a b : nat, (a + b - (a + b - a) = a)%nat) as -> by lia.
  assert ((if neg then 1 else 0) + length d = length (sg ++ d))%nat as -> by (rewrite length_app; unfold sg; by destruct neg).
  rewrite (proj2 (Nat.eqb_neq _ _)) by lia. rewrite app_assoc, lookup_app_r by done. rewrite Nat.sub_diag, drop_app_length, (length_app (sg ++ d) r). unfold x, r'. destruct r as [|c1 r1].
  - rewrite take_nil. cbn [app lookup list_lookup mbind option_bind length]. rewrite Nat.add_0_r, (proj2 (Nat.ltb_ge _ _)) by done. done.
  - destruct (21 - length (sg ++ d))%nat eqn:E21; [lia|]. cbn [take app lookup list_lookup mbind option_bind length].
    rewrite (proj2 (Nat.ltb_lt _ _)) by lia. destruct (Hr c1 eq_refl) as (Hin & _). rewrite (bool_decide_eq_true_2 (c1 ∈ perm_tr)) by done.
    by rewrite andb_false_r.
Qed.

End text.

(** ** Writing, as text that is cut at the end of the buffer *)

Definition put_text (b : bytes * Z) (s : bytes) : bytes * Z :=
  (b.1 ++ take (Z.to_nat b.2) s, b.2 - Z.min b.2 (Z.of_nat (length s))).

Lemma put_text_room b s : 0 ≤ b.2 → 0 ≤ (put_text b s).2.
Proof. cbn. lia. Qed.

Lemma put_text_full b s : b.2 = 0 → put_text b s = b.
Proof. destruct b as [o l]. cbn. intros ->. unfold put_text. cbn [fst snd Z.to_nat]. rewrite take_0, app_nil_r. f_equal. lia. Qed.

Lemma put_text_app b s1 s2 : 0 ≤ b.2 → put_text (put_text b s1) s2 = put_text b (s1 ++ s2).
Proof.
  destruct b as [o l]. unfold put_text. cbn [fst snd]. intros Hl. rewrite <-app_assoc, length_app. f_equal; [f_equal|lia].
  rewrite take_app. do 2 f_equal. lia.
Qed.

Lemma put_long_text b val neg : 0 ≤ b.2 → proc_put_long b val neg = put_text b (long_text val neg).
Proof.
  destruct b as [o l]. unfold proc_put_long, put_text. cbn [fst snd]. intros Hl. destruct (Z.ltb_spec l (Z.of_nat (length (long_text val neg)))).
  - f_equal. lia.
  - rewrite Nat2Z.id, !take_ge by lia. f_equal. lia.
Qed.

Lemma put_char_text b c : 0 ≤ b.2 → proc_put_char b c = put_text b [c].
Proof.
  destruct b as [o l]. unfold proc_put_char. cbn [fst snd]. intros Hl. destruct (Z.eqb_spec l 0) as [->|]; [by rewrite put_text_full|].
  unfold put_text. cbn [fst snd length]. rewrite take_ge by (cbn [length]; lia). f_equal. lia.
Qed.

(** What a read puts into its buffer. *)
Lemma put_text_start lenp s : 0 ≤ lenp →
  put_text ([], lenp) s = (take (Z.to_nat lenp) s, lenp - Z.of_nat (length (take (Z.to_nat lenp) s))).
Proof. intros Hl. unfold put_text. cbn [fst snd app]. rewrite length_take. f_equal. lia. Qed.

(** ** An instance: the functions for the C locale *)

Definition c_xdigit (c : Z) : Z :=
  if is_digit c then c - 48
  else let l := Z.lor c 32 in if (97 <=? l) && (l <=? 102) then l - 87 else 255.

Definition c_fixup (s : bytes) (base : Z) : bytes * Z :=
  if base =? 0 then
    match s with
    | 48 :: x :: y :: s' => if ((x =? 88) || (x =? 120)) && (c_xdigit y <? 16) then (y :: s', 16) else (s, 8)
    | 48 :: _ => (s, 8)
    | _ => (s, 10)
    end
  else (s, base).

Fixpoint c_run (s : bytes) (base : Z) : bytes :=
  match s with
  | c :: s' => if c_xdigit c <? base then c_xdigit c :: c_run s' base else []
  | [] => []
  end.

Definition c_parse (s : bytes) (base : Z) : option (nat * Z) :=
  let ds := c_run s base in
  let v := foldl (λ v d, base * v + d) 0 ds in
  if (0 <=? v) && (v <? 2 ^ 64) then Some (length ds, v) else None.

#[export] Instance c_text : KernelText := {| kisspace := isspace; fixup_radix := c_fixup; parse_integer := c_parse |}.

Lemma c_run_length s base : (length (c_run s base) ≤ length s)%nat.
Proof. induction s as [|c s IH]; [done|]. cbn. destruct (_ <? _); cbn; lia. Qed.

Lemma c_run_digits d r base : 8 ≤ base ≤ 10 → Forall (λ c, is_digit c = true ∧ c - 48 < base) d →
  (∀ c, head r = Some c → is_digit c = false) → c_run (d ++ r) base = (λ c, c - 48) <$> d.
Proof.
  intros Hb Hd Hr. induction Hd as [|c d [Hc Hlt] _ IH]; cbn [app c_run fmap list_fmap].
  - destruct r as [|c r]; [done|]. cbn [c_run]. rewrite (proj2 (Z.ltb_ge _ _)); [done|]. unfold c_xdigit.
    rewrite Hr by done. cbv zeta. destruct (Z.leb_spec 97 (Z.lor c 32)); cbn [andb]; [|lia]. destruct (_ <=? _); lia.
  - unfold c_xdigit. rewrite Hc, (proj2 (Z.ltb_lt _ _)) by done. by f_equal.
Qed.

Lemma run_value d acc : foldl (λ v c, 10 * v + c) acc ((λ c, c - 48) <$> d) = digits_val acc d.
Proof. revert acc. induction d as [|c d IH]; intros acc; [done|]. apply IH. Qed.

#[export] Instance c_text_laws : KernelTextLaws.
Proof.
  split.
  - intros c Hc. cbn. unfold isspace. destruct (Z.eqb_spec c 32); [done|]. cbn. rewrite andb_true_iff, !Z.leb_le. lia.
  - intros c Hc. cbn. unfold isspace. rewrite (proj2 (Z.eqb_neq _ _)), (proj2 (Z.leb_gt c 13)) by lia. by rewrite andb_false_r.
  - intros s b. cbn. unfold c_fixup. destruct (b =? 0); [|exists 0%nat; split; [lia|done]].
    destruct s as [|c s]; [by exists 0%nat|]. repeat (case_match; try (exists 0%nat; split; [lia|done])).
    simplify_eq. exists 2%nat. cbn. split; [lia|done].
  - intros s b n v. cbn. unfold c_parse. destruct (_ && _) eqn:E; [|done]. intros [= <- <-].
    apply andb_true_iff in E as [?%Z.leb_le ?%Z.ltb_lt]. split; [apply c_run_length|]. by split.
  - intros d r (Hne & Hd & H48 & Hr). cbn. destruct (decide (head d = Some 48)) as [H|H].
    + specialize (H48 H). subst d. exists 8. split.
      * unfold c_fixup. cbn. destruct r as [|x [|y r]]; [done..|]. destruct (Hr x eq_refl) as (_ & H1 & H2). by rewrite (proj2 (Z.eqb_neq x 88)), (proj2 (Z.eqb_neq x 120)).
      * unfold c_parse. change ([48] ++ r) with ((48 :: []) ++ r). rewrite c_run_digits; [done|lia|by repeat constructor|].
        intros c Hc. by apply Hr.
    + exists 10. split.
      * unfold c_fixup. destruct d as [|c d]; [done|]. cbn [app head Z.eqb] in *. repeat (case_match; try done).
      * unfold c_parse. rewrite c_run_digits; [|lia| |intros c Hc; by apply Hr].
        2:{ eapply Forall_impl; [exact Hd|]. intros c Hc. split; [done|]. apply is_digit_spec in Hc. lia. }
        rewrite run_value, length_fmap. destruct (digits_val_range _ Hd) as [H0 _]. by rewrite (proj2 (Z.leb_le _ _)).
Qed.
End SysctlText.
