(* ===== verification/Sysctl.v ===== *)
(** * The files of /proc/sys

    kernel/sysctl.c, the handlers behind the files: text to numbers and back, with
    bounds, for arrays of int, one unsigned int or byte, arrays of unsigned long,
    strings, times in other units, and the handlers that keep a state of their own.

    A request [req] is a read of so many bytes or a write of bytes; a handler answers
    with the error, the bytes that it put into the buffer of a read, and what it left
    in [*lenp] and [*ppos].  Data behind a table entry is a list of the numbers there.
    [None] is an access outside that data. *)

From Stdlib Require Import ZArith Lia.
From stdpp Require Import base numbers list sets.
From S2P Require Import Prelude Decimal SysctlText.

Module Sysctl.
Import Decimal SysctlText.

Definition INT_MAX : Z := 2 ^ 31 - 1.
Definition UINT_MAX : Z := 2 ^ 32 - 1.
Definition PAGE_SIZE : Z := 4096.
Definition ESRCH : Z := 3.

Inductive req := ReadReq (lenp : Z) | WriteReq (buf : bytes).

Definition req_len (rq : req) : Z := match rq with ReadReq n => n | WriteReq b => Z.of_nat (length b) end.
Definition is_write (rq : req) : bool := match rq with WriteReq _ => true | ReadReq _ => false end.

Record sysctl_res := Res { r_err : Z; r_out : bytes; r_len : Z; r_pos : Z }.

(** A table entry; [extra1] and [extra2] point to the bounds. *)
Record ctl_table := CtlTable { t_data : option (list Z); t_maxlen : Z; extra1 : option Z; extra2 : option Z }.

(** [*lenp -= left; *ppos += *lenp]. *)
Definition moved_on (err : Z) (out : bytes) (lenp left ppos : Z) : sysctl_res :=
  Res err out (u64 (lenp - left)) (s64 (ppos + u64 (lenp - left))).

Definition nothing (err ppos : Z) : sysctl_res := Res err [] 0 ppos.

Definition SYSCTL_WRITES_STRICT : Z := 1.

(** A conversion function, for a write and for a read: the error, or the new value of the
    slot, and the error, or sign and size of the number that is printed. *)
Record int_conv := IntConv { conv_write : bool → Z → Z → Z + Z; conv_read : Z → Z + (bool * Z) }.

Record uint_conv := UintConv { uconv_write : Z → Z → Z + Z; uconv_read : Z → Z }.

(** The units of time that the conversions use. *)
Class KernelTime := {
  HZ : Z;
  USER_HZ : Z;
  clock_t_to_jiffies : Z → Z;
  jiffies_to_clock_t : Z → Z;
  msecs_to_jiffies : Z → Z;
  jiffies_to_msecs : Z → Z;
}.

(** ** Conversions *)

Definition do_proc_dobool_conv : int_conv :=
  IntConv (λ _ lval _, inr (if lval =? 0 then 0 else 1)) (λ v, inr (false, v)).

(** Sign and size of an int. *)
Definition int_abs (v : Z) : bool * Z := if v <? 0 then (true, u64 (- u64 v)) else (false, u64 v).

Definition do_proc_dointvec_conv : int_conv := IntConv
  (λ neg lval _,
    if neg : bool then if u64 (INT_MAX + 1) <? lval then inl (- EINVAL) else inr (s32 (u64 (- lval)))
    else if INT_MAX <? lval then inl (- EINVAL) else inr (s32 lval))
  (λ v, inr (int_abs v)).

Definition do_proc_douintvec_conv : uint_conv := UintConv
  (λ lval _, if UINT_MAX <? lval then inl (- EINVAL) else inr (u32 lval))
  (λ v, v).

(** Outside the bounds; a bound that is not there does not count. *)
Definition out_of_bounds (min max : option Z) (v : Z) : bool :=
  (match min with Some m => v <? m | None => false end) || (match max with Some m => m <? v | None => false end).

Definition do_proc_dointvec_minmax_conv (min max : option Z) : int_conv := IntConv
  (λ neg lval v,
    match conv_write do_proc_dointvec_conv neg lval v with
    | inl ret => inl ret
    | inr tmp => if out_of_bounds min max tmp then inl (- EINVAL) else inr tmp
    end)
  (conv_read do_proc_dointvec_conv).

Definition do_proc_douintvec_minmax_conv (min max : option Z) : uint_conv := UintConv
  (λ lval v,
    match uconv_write do_proc_douintvec_conv lval v with
    | inl ret => inl ret
    | inr tmp => if out_of_bounds min max tmp then inl (- ERANGE) else inr tmp
    end)
  (uconv_read do_proc_douintvec_conv).

Definition do_proc_dopipe_max_size_conv (round_pipe_size : Z → Z) : uint_conv := UintConv
  (λ lval _, let val := u32 (round_pipe_size lval) in if val =? 0 then inl (- EINVAL) else inr val)
  (λ v, v).

Definition do_proc_dointvec_jiffies_conv `{KernelTime} : int_conv := IntConv
  (λ neg lval _,
    if INT_MAX / HZ <? lval then inl 1
    else inr (s32 (if neg : bool then u64 (u64 (- lval) * HZ) else u64 (lval * HZ))))
  (λ v, let '(neg, lval) := int_abs v in inr (neg, lval / HZ)).

Definition do_proc_dointvec_userhz_jiffies_conv `{KernelTime} : int_conv := IntConv
  (λ neg lval _,
    if (USER_HZ <? HZ) && (LONG_MAX / HZ * USER_HZ <? lval) then inl 1
    else inr (s32 (clock_t_to_jiffies (if neg : bool then u64 (- lval) else lval))))
  (λ v, let '(neg, lval) := int_abs v in inr (neg, jiffies_to_clock_t lval)).

Definition do_proc_dointvec_ms_jiffies_conv `{KernelTime} : int_conv := IntConv
  (λ neg lval _,
    let jif := msecs_to_jiffies (u32 (if neg : bool then u64 (- lval) else lval)) in
    if INT_MAX <? jif then inl 1 else inr (s32 jif))
  (λ v, let '(neg, lval) := int_abs v in inr (neg, jiffies_to_msecs lval)).

Definition proc_wspace_sep : bytes := [32; 9; 10].

Section handlers.
Context `{KernelText} (sysctl_writes_strict : Z).

(** The warning of the other modes is only printed. *)
Definition proc_first_pos_non_zero_ignore (ppos : Z) : bool :=
  negb (ppos =? 0) && (sysctl_writes_strict =? SYSCTL_WRITES_STRICT).

(** ** Strings *)

(** The turns of the loop: the characters of the buffer up to a NUL or a newline, as
    long as there is room. *)
Fixpoint string_write (data p : bytes) (len maxlen : Z) : option (bytes * Z) :=
  match p with
  | c :: p =>
      if negb (len <? u64 (maxlen - 1)) then Some (data, len)
      else if (c =? 0) || (c =? 10) then Some (data, len)
      else data ← zinsert data len c; string_write data p (len + 1) maxlen
  | [] => Some (data, len)
  end.

Definition _proc_do_string (data : option bytes) (maxlen : Z) (rq : req) (ppos : Z) : option (option bytes * sysctl_res) :=
  match data with
  | None => Some (None, nothing 0 ppos)
  | Some d =>
      if (maxlen =? 0) || (req_len rq =? 0) then Some (data, nothing 0 ppos)
      else
        match rq with
        | WriteReq buf =>
            start ← (if sysctl_writes_strict =? SYSCTL_WRITES_STRICT then
                       s ← cstr d;
                       let len := Z.of_nat (length s) in
                       let len := if u64 (maxlen - 1) <? len then u64 (maxlen - 1) else len in
                       Some (if len <? u64 ppos then None else Some (u64 ppos))
                     else Some (Some 0));
            match start with
            | None => Some (data, Res 0 [] (req_len rq) ppos)
            | Some len =>
                '(d, len) ← string_write d buf len maxlen;
                d ← zinsert d len 0;
                Some (Some d, Res 0 [] (req_len rq) (s64 (ppos + req_len rq)))
            end
        | ReadReq lenp =>
            s ← cstr d;
            let len := Z.of_nat (length s) in
            let len := if u64 maxlen <? len then u64 maxlen else len in
            if len <? u64 ppos then Some (data, nothing 0 ppos)
            else
              let len := len - u64 ppos in
              let len := if lenp <? len then lenp else len in
              out ← bytes_at d (u64 ppos) len;
              let '(out, len) := if len <? lenp then (out ++ [10], len + 1) else (out, len) in
              Some (data, Res 0 out len (s64 (ppos + len)))
        end
  end.

Definition proc_dostring (t : ctl_table) (rq : req) (ppos : Z) : option (option bytes * sysctl_res) :=
  _proc_do_string (t_data t) (t_maxlen t) rq ppos.

(** ** Arrays of int *)

(** [n] is the number of slots that are left: the error, the slots, the rest of the
    text, and whether this is still the first slot. *)
Fixpoint intvec_write (conv : int_conv) (n : nat) (i : list Z) (p : bytes) (first : bool) : option (Z * list Z * bytes * bool) :=
  match n, p with
  | O, _ | _, [] => Some (0, i, p, first)
  | S n, _ =>
      let p := proc_skip_spaces p in
      match p with
      | [] => Some (0, i, p, first)
      | _ =>
          r ← proc_get_long p proc_wspace_sep;
          match r with
          | inl err => Some (err, i, p, first)
          | inr (lval, neg, _, p) =>
              v ← head i;
              match conv_write conv neg lval v with
              | inl _ => Some (- EINVAL, i, p, first)
              | inr v =>
                  '(err, i', p, first) ← intvec_write conv n (tail i) p false;
                  Some (err, v :: i', p, first)
              end
          end
      end
  end.

Fixpoint intvec_read (conv : int_conv) (n : nat) (i : list Z) (b : bytes * Z) (first : bool) : option (Z * (bytes * Z) * bool) :=
  match n with
  | O => Some (0, b, first)
  | S n =>
      if b.2 =? 0 then Some (0, b, first)
      else
        v ← head i;
        match conv_read conv v with
        | inl _ => Some (- EINVAL, b, first)
        | inr (neg, lval) =>
            let b := if first then b else proc_put_char b 9 in
            intvec_read conv n (tail i) (proc_put_long b lval neg) false
        end
  end.

(** [vleft] is counted down to 0, modulo 2^32. *)
Definition slots (maxlen size : Z) : nat := Z.to_nat (u32 (u64 maxlen / size)).

(** What a write may use of the buffer. *)
Definition one_page (buf : bytes) : bytes := take (Z.to_nat (PAGE_SIZE - 1)) buf.

Definition __do_proc_dointvec (tbl_data : option (list Z)) (maxlen : Z) (rq : req) (ppos : Z) (conv : int_conv) :
    option (option (list Z) * sysctl_res) :=
  match tbl_data with
  | None => Some (None, nothing 0 ppos)
  | Some i =>
      let lenp := req_len rq in
      if (maxlen =? 0) || (lenp =? 0) || (negb (ppos =? 0) && negb (is_write rq)) then Some (tbl_data, nothing 0 ppos)
      else
        match rq with
        | WriteReq buf =>
            if proc_first_pos_non_zero_ignore ppos then Some (tbl_data, moved_on 0 [] lenp 0 ppos)
            else
              '(err, i, p, first) ← intvec_write conv (slots maxlen 4) i (one_page buf) true;
              let p := if err =? 0 then proc_skip_spaces p else p in
              Some (Some i,
                if first : bool then Res (if err =? 0 then - EINVAL else err) [] lenp ppos
                else moved_on err [] lenp (Z.of_nat (length p)) ppos)
        | ReadReq _ =>
            '(err, b, first) ← intvec_read conv (slots maxlen 4) i ([], lenp) true;
            let b := if negb first && negb (b.2 =? 0) && (err =? 0) then proc_put_char b 10 else b in
            Some (tbl_data, moved_on err b.1 lenp b.2 ppos)
        end
  end.

Definition do_proc_dointvec (t : ctl_table) (rq : req) (ppos : Z) (conv : int_conv) : option (option (list Z) * sysctl_res) :=
  __do_proc_dointvec (t_data t) (t_maxlen t) rq ppos conv.

Definition proc_dobool t rq ppos := do_proc_dointvec t rq ppos do_proc_dobool_conv.
Definition proc_dointvec t rq ppos := do_proc_dointvec t rq ppos do_proc_dointvec_conv.

Definition proc_dointvec_minmax (t : ctl_table) rq ppos :=
  do_proc_dointvec t rq ppos (do_proc_dointvec_minmax_conv (extra1 t) (extra2 t)).

Definition proc_dointvec_jiffies `{KernelTime} t rq ppos := do_proc_dointvec t rq ppos do_proc_dointvec_jiffies_conv.
Definition proc_dointvec_userhz_jiffies `{KernelTime} t rq ppos := do_proc_dointvec t rq ppos do_proc_dointvec_userhz_jiffies_conv.
Definition proc_dointvec_ms_jiffies `{KernelTime} t rq ppos := do_proc_dointvec t rq ppos do_proc_dointvec_ms_jiffies_conv.

(** ** One unsigned int *)

(** A success leaves [*lenp] and [*ppos] alone. *)
Definition do_proc_douintvec_w (i : Z) (buf : bytes) (ppos : Z) (conv : uint_conv) : option (Z * sysctl_res) :=
  let lenp := Z.of_nat (length buf) in
  if proc_first_pos_non_zero_ignore ppos then Some (i, moved_on 0 [] lenp 0 ppos)
  else
    match proc_skip_spaces (one_page buf) with
    | [] => Some (i, Res (- EINVAL) [] lenp ppos)
    | p =>
        r ← proc_get_long p proc_wspace_sep;
        match r with
        | inl _ => Some (i, Res (- EINVAL) [] lenp ppos)
        | inr (lval, neg, _, _) =>
            if neg : bool then Some (i, Res (- EINVAL) [] lenp ppos)
            else
              match uconv_write conv lval i with
              | inl _ => Some (i, Res (- EINVAL) [] lenp ppos)
              | inr v => Some (v, Res 0 [] lenp ppos)
              end
        end
    end.

Definition do_proc_douintvec_r (i lenp ppos : Z) (conv : uint_conv) : sysctl_res :=
  let b := proc_put_long ([], lenp) (uconv_read conv i) false in
  let b := if b.2 =? 0 then b else proc_put_char b 10 in
  moved_on 0 b.1 lenp b.2 ppos.

Definition __do_proc_douintvec (tbl_data : option (list Z)) (maxlen : Z) (rq : req) (ppos : Z) (conv : uint_conv) :
    option (option (list Z) * sysctl_res) :=
  match tbl_data with
  | None => Some (None, nothing 0 ppos)
  | Some i =>
      let lenp := req_len rq in
      if (maxlen =? 0) || (lenp =? 0) || (negb (ppos =? 0) && negb (is_write rq)) then Some (tbl_data, nothing 0 ppos)
      else if negb (u32 (u64 maxlen / 4) =? 1) then Some (tbl_data, nothing (- EINVAL) ppos)
      else
        v ← head i;
        match rq with
        | WriteReq buf => '(v, r) ← do_proc_douintvec_w v buf ppos conv; Some (Some (v :: tail i), r)
        | ReadReq _ => Some (tbl_data, do_proc_douintvec_r v lenp ppos conv)
        end
  end.

Definition do_proc_douintvec (t : ctl_table) (rq : req) (ppos : Z) (conv : uint_conv) : option (option (list Z) * sysctl_res) :=
  __do_proc_douintvec (t_data t) (t_maxlen t) rq ppos conv.

Definition proc_douintvec t rq ppos := do_proc_douintvec t rq ppos do_proc_douintvec_conv.

Definition proc_douintvec_minmax (t : ctl_table) rq ppos :=
  do_proc_douintvec t rq ppos (do_proc_douintvec_minmax_conv (extra1 t) (extra2 t)).

Definition proc_dopipe_max_size (round_pipe_size : Z → Z) t rq ppos :=
  do_proc_douintvec t rq ppos (do_proc_dopipe_max_size_conv round_pipe_size).

(** One byte, through an unsigned int. *)
Definition proc_dou8vec_minmax (t : ctl_table) (rq : req) (ppos : Z) : option (option (list Z) * sysctl_res) :=
  if negb (t_maxlen t =? 1) then Some (t_data t, Res (- EINVAL) [] (req_len rq) ppos)
  else if match extra1 t with Some m => 255 <? m | None => false end then Some (t_data t, Res (- EINVAL) [] (req_len rq) ppos)
  else if match extra2 t with Some m => 255 <? m | None => false end then Some (t_data t, Res (- EINVAL) [] (req_len rq) ppos)
  else
    d ← t_data t;
    v ← head d;
    '(v', r) ← __do_proc_douintvec (Some [v]) 4 rq ppos
      (do_proc_douintvec_minmax_conv (Some (default 0 (extra1 t))) (Some (default 255 (extra2 t))));
    if negb (r_err r =? 0) then Some (t_data t, r)
    else if is_write rq then
      v' ← v';
      v' ← head v';
      Some (Some (u8 v' :: tail d), r)
    else Some (t_data t, r).

(** ** Arrays of unsigned long *)

(** A negative number is read and its slot left alone. *)
Fixpoint ulongvec_write (min max : option Z) (convmul convdiv : Z) (n : nat) (i : list Z) (p : bytes) (first : bool) :
    option (Z * list Z * bytes * bool) :=
  match n, p with
  | O, _ | _, [] => Some (0, i, p, first)
  | S n, _ =>
      let p := proc_skip_spaces p in
      match p with
      | [] => Some (0, i, p, first)
      | _ =>
          r ← proc_get_long p proc_wspace_sep;
          match r with
          | inl err => Some (err, i, p, first)
          | inr (val, neg, _, p) =>
              v ← head i;
              if neg : bool then
                '(err, i', p, first) ← ulongvec_write min max convmul convdiv n (tail i) p false;
                Some (err, v :: i', p, first)
              else
                let val := u64 (convmul * val) / convdiv in
                if out_of_bounds min max val then Some (- EINVAL, i, p, first)
                else
                  '(err, i', p, first) ← ulongvec_write min max convmul convdiv n (tail i) p false;
                  Some (err, val :: i', p, first)
          end
      end
  end.

Fixpoint ulongvec_read (convmul convdiv : Z) (n : nat) (i : list Z) (b : bytes * Z) (first : bool) : option ((bytes * Z) * bool) :=
  match n with
  | O => Some (b, first)
  | S n =>
      if b.2 =? 0 then Some (b, first)
      else
        v ← head i;
        let b := if first then b else proc_put_char b 9 in
        ulongvec_read convmul convdiv n (tail i) (proc_put_long b (u64 (convdiv * v) / convmul) false) false
  end.

Definition __do_proc_doulongvec_minmax (data : option (list Z)) (t : ctl_table) (rq : req) (ppos convmul convdiv : Z) :
    option (option (list Z) * sysctl_res) :=
  match data with
  | None => Some (None, nothing 0 ppos)
  | Some i =>
      let lenp := req_len rq in
      if (t_maxlen t =? 0) || (lenp =? 0) || (negb (ppos =? 0) && negb (is_write rq)) then Some (data, nothing 0 ppos)
      else
        match rq with
        | WriteReq buf =>
            if proc_first_pos_non_zero_ignore ppos then Some (data, moved_on 0 [] lenp 0 ppos)
            else
              '(err, i, p, first) ← ulongvec_write (extra1 t) (extra2 t) convmul convdiv (slots (t_maxlen t) 8) i (one_page buf) true;
              let p := if err =? 0 then proc_skip_spaces p else p in
              Some (Some i,
                if first : bool then Res (if err =? 0 then - EINVAL else err) [] lenp ppos
                else moved_on err [] lenp (Z.of_nat (length p)) ppos)
        | ReadReq _ =>
            '(b, first) ← ulongvec_read convmul convdiv (slots (t_maxlen t) 8) i ([], lenp) true;
            let b := if negb first && negb (b.2 =? 0) then proc_put_char b 10 else b in
            Some (data, moved_on 0 b.1 lenp b.2 ppos)
        end
  end.

Definition do_proc_doulongvec_minmax t rq ppos convmul convdiv :=
  __do_proc_doulongvec_minmax (t_data t) t rq ppos convmul convdiv.

Definition proc_doulongvec_minmax t rq ppos := do_proc_doulongvec_minmax t rq ppos 1 1.
Definition proc_doulongvec_ms_jiffies_minmax `{KernelTime} t rq ppos := do_proc_doulongvec_minmax t rq ppos HZ 1000.

(** ** Handlers with a state of their own *)

(** The table that several of them make for one int between 0 and 1. *)
Definition bool_table (val : Z) : ctl_table := CtlTable (Some [val]) 4 (Some 0) (Some 1).

(** The int in a table of one slot. *)
Definition slot0 (d : option (list Z)) : option Z := d ≫= head.

(** Calls into other parts of the kernel, which are recorded in order: the count
    of the static key, a flag of the kernel's taint mask, and the notice of a new
    state of BPF for users. *)
Inductive kcall :=
| SlowInc                          (** static_key_slow_inc *)
| SlowDec                          (** static_key_slow_dec *)
| AddTaint (flag : Z)              (** add_taint *)
| Notify (new_state : Z).          (** unpriv_ebpf_notify *)

(** [saved_val] is the static variable of the function. *)
Definition bpf_stats_handler (capable : bool) (saved_val : Z) (rq : req) (ppos : Z) : option (Z * list kcall * sysctl_res) :=
  if is_write rq && negb capable then Some (saved_val, [], Res (- EPERM) [] (req_len rq) ppos)
  else
    '(d, r) ← proc_dointvec_minmax (bool_table saved_val) rq ppos;
    val ← slot0 d;
    if is_write rq && (r_err r =? 0) && negb (val =? saved_val)
    then Some (val, [if negb (val =? 0) then SlowInc else SlowDec], r)
    else Some (saved_val, [], r).

(** The int of the table that switches BPF off for users. *)
Definition bpf_unpriv_handler (capable : bool) (t : ctl_table) (unpriv : Z) (rq : req) (ppos : Z) :
    option (Z * list kcall * sysctl_res) :=
  let locked_state := unpriv =? 1 in
  if is_write rq && negb capable then Some (unpriv, [], Res (- EPERM) [] (req_len rq) ppos)
  else
    '(d, r) ← proc_dointvec_minmax (CtlTable (Some [unpriv]) (t_maxlen t) (extra1 t) (extra2 t)) rq ppos;
    unpriv_enable ← slot0 d;
    if is_write rq && (r_err r =? 0) then
      if locked_state && negb (unpriv_enable =? 1) then Some (unpriv, [], Res (- EPERM) (r_out r) (r_len r) (r_pos r))
      else Some (unpriv_enable, [Notify unpriv_enable], r)
    else Some (unpriv, [Notify unpriv_enable], r).

Definition proc_dointvec_minmax_sysadmin (capable : bool) (t : ctl_table) (rq : req) (ppos : Z) :=
  if is_write rq && negb capable then Some (t_data t, Res (- EPERM) [] (req_len rq) ppos)
  else proc_dointvec_minmax t rq ppos.

(** The warning of PREEMPT_RT is only printed. *)
Definition proc_dointvec_minmax_warn_RT_change (t : ctl_table) (rq : req) (ppos : Z) :=
  proc_dointvec_minmax t rq ppos.

Definition proc_dointvec_minmax_coredump (t : ctl_table) (rq : req) (ppos : Z) := proc_dointvec_minmax t rq ppos.
Definition proc_dostring_coredump (t : ctl_table) (rq : req) (ppos : Z) := proc_dostring t rq ppos.

(** [taint] is what get_taint answers. *)
Definition proc_taint (capable nousertaint : bool) (panic_on_taint TAINT_FLAGS_COUNT : Z) (t : ctl_table) (taint : Z) (rq : req) (ppos : Z) :
    option (list kcall * sysctl_res) :=
  if is_write rq && negb capable then Some ([], Res (- EPERM) [] (req_len rq) ppos)
  else
    '(d, r) ← proc_doulongvec_minmax (CtlTable (Some [taint]) (t_maxlen t) (extra1 t) (extra2 t)) rq ppos;
    if r_err r <? 0 then Some ([], r)
    else
      tmptaint ← slot0 d;
      if is_write rq then
        if nousertaint && negb (Z.land tmptaint panic_on_taint =? 0) then Some ([], Res (- EINVAL) (r_out r) (r_len r) (r_pos r))
        else Some (AddTaint <$> filter (λ i, Z.land (Z.shiftl 1 i) tmptaint ≠ 0) (seqZ 0 TAINT_FLAGS_COUNT), r)
      else Some ([], r).

(** The mask that sysrq_toggle_support is given, if it is called. *)
Definition sysrq_sysctl_handler (sysrq_mask : Z) (t : ctl_table) (rq : req) (ppos : Z) : option (option Z * sysctl_res) :=
  '(d, r) ← __do_proc_dointvec (Some [sysrq_mask]) (t_maxlen t) rq ppos do_proc_dointvec_conv;
  if negb (r_err r =? 0) || negb (is_write rq) then Some (None, r)
  else
    tmp ← slot0 d;
    Some (Some tmp, r).

(** The process that is told of Ctrl-Alt-Del, and the references to processes. *)
Record cad := Cad { cad_pid : Z; pid_refs : Z → Z }.

Definition pid_ref (refs : Z → Z) (p d : Z) : Z → Z := λ q, if q =? p then refs q + d else refs q.

Definition proc_do_cad_pid (pid_vnr : Z → Z) (find_pid : Z → option Z) (t : ctl_table) (s : cad) (rq : req) (ppos : Z) :
    option (cad * sysctl_res) :=
  '(d, r) ← __do_proc_dointvec (Some [pid_vnr (cad_pid s)]) (t_maxlen t) rq ppos do_proc_dointvec_conv;
  if negb (r_err r =? 0) || negb (is_write rq) then Some (s, r)
  else
    tmp ← slot0 d;
    match find_pid tmp with
    | None => Some (s, Res (- ESRCH) (r_out r) (r_len r) (r_pos r))
    | Some new_pid => Some (Cad new_pid (pid_ref (pid_ref (pid_refs s) new_pid 1) (cad_pid s) (-1)), r)
    end.

(** Whether the key is enabled. *)
Definition proc_do_static_key (capable : bool) (enabled : bool) (rq : req) (ppos : Z) : option (bool * sysctl_res) :=
  if is_write rq && negb capable then Some (enabled, Res (- EPERM) [] (req_len rq) ppos)
  else
    '(d, r) ← proc_dointvec_minmax (bool_table (if enabled then 1 else 0)) rq ppos;
    val ← slot0 d;
    if is_write rq && (r_err r =? 0) then Some (negb (val =? 0), r) else Some (enabled, r).

(** ** What a read shows *)

(** A conversion shows a value as [show]. *)
Definition shows (conv : int_conv) (show : Z → bytes) (v : Z) : Prop :=
  ∃ neg lval, conv_read conv v = inr (neg, lval) ∧ show v = long_text lval neg.

Definition tabbed (show : Z → bytes) (vs : list Z) : bytes := concat ((λ v, 9 :: show v) <$> vs).

(** The numbers with tabs between them and a newline behind. *)
Definition vector_text (show : Z → bytes) (vs : list Z) : bytes :=
  match vs with [] => [] | v :: vs => show v ++ tabbed show vs ++ [10] end.

Definition newline (b : bytes * Z) : bytes * Z := if b.2 =? 0 then b else proc_put_char b 10.

Lemma newline_text b : 0 ≤ b.2 → newline b = put_text b [10].
Proof. intros Hb. unfold newline. destruct (Z.eqb_spec b.2 0); [by rewrite put_text_full|by rewrite put_char_text]. Qed.

Lemma intvec_read_tail conv show n i b : 0 ≤ b.2 → Forall (shows conv show) i → n = length i →
  ∃ b', intvec_read conv n i b false = Some (0, b', false) ∧ newline b' = put_text b (tabbed show i ++ [10]).
Proof.
  intros Hb Hs ->. revert b Hb. induction Hs as [|v i (neg & lval & E & Ev) _ IH]; intros b Hb.
  { exists b. split; [done|]. by rewrite newline_text. }
  cbn [length intvec_read]. destruct (Z.eqb_spec b.2 0) as [H0|H0].
  { exists b. split; [done|]. unfold newline. by rewrite H0, put_text_full. }
  cbn [head mbind option_bind tail]. rewrite E, put_char_text, put_long_text by (try apply put_text_room; lia). rewrite put_text_app, <-Ev by lia.
  destruct (IH (put_text b ([9] ++ show v))) as (b' & E' & E2); [by apply put_text_room|]. exists b'. split; [exact E'|].
  rewrite E2, put_text_app by done. unfold tabbed. cbn [fmap list_fmap concat app]. by rewrite <-app_assoc.
Qed.

Lemma slots_exact maxlen size n : 0 < size → maxlen = size * Z.of_nat n → 0 ≤ maxlen < 2 ^ 31 → slots maxlen size = n.
Proof.
  intros Hs -> Hm. unfold slots. rewrite (wrapU_small 64) by (unfold is_u; lia).
  replace (size * Z.of_nat n / size) with (Z.of_nat n) by (rewrite Z.mul_comm, Z.div_mul; lia).
  rewrite wrapU_small by (unfold is_u; nia). lia.
Qed.

(** A file position and a length that do not overflow. *)
Lemma moved_on_small err out lenp n ppos : 0 ≤ n ≤ lenp → 0 ≤ ppos → ppos + lenp < 2 ^ 63 →
  moved_on err out lenp n ppos = Res err out (lenp - n) (ppos + (lenp - n)).
Proof.
  intros Hl Hp Ho. unfold moved_on. rewrite wrapU_small by (unfold is_u; lia). by rewrite wrapS_small by (unfold is_s; lia).
Qed.

Lemma dointvec_shows conv show i rq_len maxlen : Forall (shows conv show) i → i ≠ [] → maxlen = 4 * Z.of_nat (length i) → maxlen < 2 ^ 31 →
  0 < rq_len < 2 ^ 63 →
  __do_proc_dointvec (Some i) maxlen (ReadReq rq_len) 0 conv =
    Some (Some i, let out := take (Z.to_nat rq_len) (vector_text show i) in Res 0 out (Z.of_nat (length out)) (Z.of_nat (length out))).
Proof.
  intros Hs Hi Hm H31 Hl. unfold __do_proc_dointvec. cbn [req_len is_write Z.eqb negb andb].
  rewrite (slots_exact maxlen 4 (length i)) by lia.
  rewrite (proj2 (Z.eqb_neq maxlen 0)), (proj2 (Z.eqb_neq rq_len 0)) by (destruct i; [done|cbn [length] in Hm; lia]). cbn [orb].
  destruct i as [|v i]; [done|]. apply Forall_cons in Hs as [(neg & lval & E & Ev) Hs]. cbn [length intvec_read snd].
  rewrite (proj2 (Z.eqb_neq rq_len 0)) by lia. cbn [head mbind option_bind tail]. rewrite E, put_long_text, <-Ev by (cbn; lia).
  destruct (intvec_read_tail conv show (length i) i (put_text ([], rq_len) (show v))) as (b & -> & Hb); [by apply put_text_room; cbn; lia|done..|].
  cbn [mbind option_bind negb andb Z.eqb]. rewrite andb_true_r.
  assert ((if negb (b.2 =? 0) then proc_put_char b 10 else b) = newline b) as -> by (unfold newline; by destruct (b.2 =? 0)).
  rewrite Hb, put_text_app, put_text_start by (cbn; lia). change (show v ++ tabbed show i ++ [10]) with (vector_text show (v :: i)).
  assert (Z.of_nat (length (take (Z.to_nat rq_len) (vector_text show (v :: i)))) ≤ rq_len) as Hout by (rewrite length_take; lia).
  set (out := take _ (vector_text _ _)) in *. cbn [fst snd]. rewrite moved_on_small by lia. cbv zeta. do 3 f_equal; lia.
Qed.

(** ** What a write stores *)

Context `{!KernelTextLaws}.

Definition blank (c : Z) : Prop := c ∈ proc_wspace_sep.

(** The text ends, or goes on with a separator. *)
Definition separated (r : bytes) : Prop := ∀ c, head r = Some c → blank c.

Lemma blank_cases c : blank c ↔ c = 32 ∨ c = 9 ∨ c = 10.
Proof. unfold blank, proc_wspace_sep. rewrite !elem_of_cons. split; [|tauto]. by intros [?|[?|[?|?%not_elem_of_nil]]]; auto. Qed.

Lemma blank_space c : blank c → kisspace c = true.
Proof. rewrite blank_cases. intros Hc. apply space_blank. lia. Qed.

Lemma blank_trailer c : blank c → c ∈ proc_wspace_sep ∧ is_digit c = false ∧ c ≠ 88 ∧ c ≠ 120.
Proof. intros Hc. split; [done|]. rewrite blank_cases in Hc. by destruct Hc as [->|[->| ->]]. Qed.

Lemma long_text_head val neg : is_u 64 val → ∃ c l, long_text val neg = c :: l ∧ 45 ≤ c ≤ 57.
Proof.
  intros [Hv _]. unfold long_text. destruct neg; [eexists _, _; split; [done|lia]|]. destruct (dec_spec val Hv) as (Hd & _ & Hl & _). cbn [app].
  destruct (dec val) as [|c l]; [cbn in Hl; lia|]. exists c, l. split; [done|]. apply Forall_cons in Hd as [Hc%is_digit_spec _]. lia.
Qed.

(** A number, then the rest. *)
Lemma intvec_write_step conv n i lval neg r first v o : is_u 64 lval → (length (long_text lval neg) ≤ 20)%nat → separated r →
  head i = Some o → conv_write conv neg lval o = inr v →
  intvec_write conv (S n) i (long_text lval neg ++ r) first =
    '(err, i', p, first) ← intvec_write conv n (tail i) r false; Some (err, v :: i', p, first).
Proof.
  intros Hv Hl Hr Ho Hc. destruct (long_text_head lval neg Hv) as (c & l & E & Hc'). cbn [intvec_write].
  assert (proc_skip_spaces (long_text lval neg ++ r) = long_text lval neg ++ r) as ->.
  { rewrite E. cbn [app]. apply skip_spaces_stop, space_graphic. lia. }
  destruct (long_text lval neg ++ r) as [|c0 l0] eqn:E0; [by rewrite E in E0|]. rewrite <-E0, get_long_text; [|done..|].
  2:{ intros c1 H1. apply blank_trailer, Hr, H1. }
  cbn [mbind option_bind]. rewrite Ho. cbn [mbind option_bind]. by rewrite Hc.
Qed.

(** White space in front does not matter. *)
Lemma intvec_write_blank conv n i c r first : blank c → intvec_write conv (S n) i (c :: r) first = intvec_write conv (S n) i r first.
Proof.
  intros Hc%blank_space. destruct r as [|c' r']; cbn [intvec_write proc_skip_spaces]; rewrite Hc; [done|]. reflexivity.
Qed.

(** A conversion takes what it shows of [v] for [v]. *)
Definition takes (conv : int_conv) (show : Z → bytes) (v : Z) : Prop :=
  ∃ neg lval, show v = long_text lval neg ∧ is_u 64 lval ∧ (length (show v) ≤ 20)%nat ∧ ∀ o, conv_write conv neg lval o = inr v.

Lemma intvec_write_tabbed conv show vs m i i' r : Forall (takes conv show) vs → length i = length vs → separated r →
  intvec_write conv (length vs + m) (i ++ i') (tabbed show vs ++ r) false =
    '(err, j, p, first) ← intvec_write conv m i' r false; Some (err, vs ++ j, p, first).
Proof.
  intros Hvs Hl Hr. revert i Hl. induction Hvs as [|v vs (neg & lval & E & Hv & Hlen & Hc) Hvs IH]; intros i Hl.
  { destruct i; [|done]. cbn [app length Nat.add tabbed concat fmap list_fmap]. by destruct (intvec_write conv m i' r false) as [[[[? ?] ?] ?]|]. }
  destruct i as [|o i]; [done|]. injection Hl as Hl. unfold tabbed. cbn [length Nat.add fmap list_fmap concat app]. fold (tabbed show vs).
  rewrite intvec_write_blank by (apply blank_cases; lia). rewrite <-app_assoc, E.
  rewrite (intvec_write_step conv _ _ lval neg _ false v o); [|done|by rewrite <-E|..|done|by apply Hc].
  - cbn [tail]. rewrite IH by done. by destruct (intvec_write conv m i' r false) as [[[[? ?] ?] ?]|].
  - destruct vs as [|v' vs']; [exact Hr|]. unfold tabbed. cbn. intros c [= <-]. apply blank_cases. lia.
Qed.

(** The numbers [v :: vs] in front of [r], into a table with room for them. *)
Lemma intvec_write_vector conv show v vs i i' r : Forall (takes conv show) (v :: vs) → length i = S (length vs) → separated r →
  intvec_write conv (length (i ++ i')) (i ++ i') (show v ++ tabbed show vs ++ r) true =
    '(err, j, p, first) ← intvec_write conv (length i') i' r false; Some (err, (v :: vs) ++ j, p, first).
Proof.
  intros [(neg & lval & E & Hv & Hlen & Hc) Hvs]%Forall_cons Hl Hr. destruct i as [|o i]; [done|]. injection Hl as Hl. rewrite length_app.
  cbn [length app Nat.add]. rewrite E.
  rewrite (intvec_write_step conv _ _ lval neg _ true v o); [|done|by rewrite <-E|..|done|by apply Hc].
  - cbn [tail]. rewrite Hl, intvec_write_tabbed by done. by destruct (intvec_write conv (length i') i' r false) as [[[[? ?] ?] ?]|].
  - destruct vs as [|v' vs']; [exact Hr|]. unfold tabbed. cbn. intros c [= <-]. apply blank_cases. lia.
Qed.

(** The text of an int. *)
Definition int_text (v : Z) : bytes := let '(neg, lval) := int_abs v in long_text lval neg.

Lemma int_abs_range v : is_s 32 v → ∃ neg lval, int_abs v = (neg, lval) ∧ is_u 64 lval ∧ 0 ≤ lval ≤ 2 ^ 31 ∧
  (if neg : bool then v = - lval ∧ 0 < lval else v = lval ∧ lval ≤ INT_MAX).
Proof.
  unfold is_s, INT_MAX. intros Hv. unfold int_abs. destruct (Z.ltb_spec v 0).
  - exists true, (- v). assert (u64 (- u64 v) = - v) as ->; [|unfold is_u; split_and!; try done; lia]. unfold wrapU. dlia.
  - exists false, v. rewrite wrapU_small by (unfold is_u; lia). unfold is_u. split_and!; try done; lia.
Qed.

Lemma int_text_length v : is_s 32 v → (length (int_text v) ≤ 20)%nat.
Proof.
  intros Hv. unfold int_text. destruct (int_abs_range v Hv) as (neg & lval & -> & _ & Hl & _).
  unfold long_text. rewrite length_app. destruct (dec_spec lval) as (_ & _ & _ & Hp); [lia|].
  assert (length (dec lval) ≤ 10)%nat; [|destruct neg; cbn [length]; lia].
  destruct (decide (lval = 0)) as [->|]; [cbn; lia|]. specialize (Hp ltac:(lia)).
  enough (Z.of_nat (length (dec lval)) - 1 < 10) by lia. apply (Z.pow_lt_mono_r_iff 10); lia.
Qed.

Lemma int_conv_shows min max v : shows (do_proc_dointvec_minmax_conv min max) int_text v.
Proof. unfold shows, int_text. cbn. destruct (int_abs v) as [neg lval]. eauto. Qed.

Lemma conv_write_abs v o : is_s 32 v → let '(neg, lval) := int_abs v in conv_write do_proc_dointvec_conv neg lval o = inr v.
Proof.
  intros Hv. destruct (int_abs_range v Hv) as (neg & lval & -> & Hu & Hl & Hn). cbn. destruct neg; destruct Hn as [-> Hn].
  - change (u64 (INT_MAX + 1)) with (2 ^ 31). rewrite (proj2 (Z.ltb_ge _ _)) by lia. f_equal. unfold wrapS, wrapU. dlia.
  - rewrite (proj2 (Z.ltb_ge _ _)) by lia. by rewrite wrapS_small.
Qed.

Lemma int_conv_takes min max v : is_s 32 v → out_of_bounds min max v = false → takes (do_proc_dointvec_minmax_conv min max) int_text v.
Proof.
  intros Hv Hb. pose proof (conv_write_abs v) as Hc. pose proof (int_text_length v Hv) as Hlen. unfold takes. unfold int_text in *.
  destruct (int_abs_range v Hv) as (neg & lval & E & Hu & _). rewrite E in *. exists neg, lval. split_and!; try done.
  intros o. cbn [conv_write do_proc_dointvec_minmax_conv]. rewrite (Hc o) by done. by rewrite Hb.
Qed.

Lemma one_page_all buf : Z.of_nat (length buf) < PAGE_SIZE → one_page buf = buf.
Proof. intros Hb. apply take_ge. lia. Qed.

(** Both handlers of ints, as one: without bounds every int is inside. *)
Lemma dointvec_is_minmax maxlen data rq ppos :
  __do_proc_dointvec data maxlen rq ppos do_proc_dointvec_conv =
  __do_proc_dointvec data maxlen rq ppos (do_proc_dointvec_minmax_conv None None).
Proof.
  assert (∀ n i p first, intvec_write do_proc_dointvec_conv n i p first = intvec_write (do_proc_dointvec_minmax_conv None None) n i p first) as Hw.
  { intros n. induction n as [|n IH]; intros i p first; [done|]. cbn [intvec_write]. destruct p as [|c p]; [done|].
    destruct (proc_skip_spaces (c :: p)) as [|c' p']; [done|]. destruct (proc_get_long _ _) as [[e|[[[lval neg] tr] r]]|]; [done| |done].
    cbn [mbind option_bind]. destruct (head i) as [v|]; [|done]. cbn [mbind option_bind].
    unfold do_proc_dointvec_minmax_conv. cbn [conv_write]. fold (do_proc_dointvec_minmax_conv None None).
    destruct (conv_write do_proc_dointvec_conv neg lval v); [done|]. cbn [out_of_bounds orb]. by rewrite IH. }
  assert (∀ n i b first, intvec_read do_proc_dointvec_conv n i b first = intvec_read (do_proc_dointvec_minmax_conv None None) n i b first) as Hr.
  { intros n. induction n as [|n IH]; intros i b first; [done|]. cbn [intvec_read conv_read do_proc_dointvec_conv do_proc_dointvec_minmax_conv].
    destruct (b.2 =? 0); [done|]. destruct (head i) as [v|]; [|done]. cbn [mbind option_bind]. destruct (int_abs v). apply IH. }
  unfold __do_proc_dointvec. destruct data as [i|]; [|done]. destruct (_ || _); [done|]. destruct rq as [n|buf].
  - by rewrite Hr.
  - destruct (proc_first_pos_non_zero_ignore ppos); [done|]. by rewrite Hw.
Qed.

(** C34: What a file of ints shows can be written back: a read puts the numbers with tabs
    between them and a newline into the buffer, cut at its end, and writing that
    text into a table of the same size, whatever it held, stores the same numbers. *)
Theorem proc_dointvec_roundtrip t i old lenp :
  t_data t = Some i → i ≠ [] → length old = length i → t_maxlen t = 4 * Z.of_nat (length i) → t_maxlen t < 2 ^ 31 → Forall (is_s 32) i →
  0 < lenp < 2 ^ 63 → Z.of_nat (length (vector_text int_text i)) < PAGE_SIZE →
  proc_dointvec t (ReadReq lenp) 0 =
    Some (Some i, let out := take (Z.to_nat lenp) (vector_text int_text i) in Res 0 out (Z.of_nat (length out)) (Z.of_nat (length out))) ∧
  proc_dointvec (CtlTable (Some old) (t_maxlen t) (extra1 t) (extra2 t)) (WriteReq (vector_text int_text i)) 0 =
    Some (Some i, Res 0 [] (Z.of_nat (length (vector_text int_text i))) (Z.of_nat (length (vector_text int_text i)))).
Proof.
  intros Hd Hi Hold Hm H31 Hr Hl Hp. unfold proc_dointvec, do_proc_dointvec. cbn [t_data t_maxlen]. rewrite Hd, !dointvec_is_minmax. split.
  { apply dointvec_shows; try done. apply Forall_true. intros v. apply int_conv_shows. }
  unfold __do_proc_dointvec. cbn [req_len is_write]. rewrite (proj2 (Z.eqb_neq _ 0)) by (destruct i; [done|cbn [length] in Hm; lia]).
  set (text := vector_text int_text i) in *. assert (0 < Z.of_nat (length text)) as Ht0.
  { unfold text. destruct i; [done|]. cbn [vector_text]. rewrite !length_app. cbn [length]. lia. }
  rewrite (proj2 (Z.eqb_neq _ 0)) by lia. cbn [orb andb negb Z.eqb]. unfold proc_first_pos_non_zero_ignore. cbn [Z.eqb negb andb].
  rewrite one_page_all, (slots_exact _ 4 (length old)) by lia. destruct i as [|v i]; [done|].
  pose proof (intvec_write_vector (do_proc_dointvec_minmax_conv None None) int_text v i old [] [10]) as E. rewrite app_nil_r in E.
  change (int_text v ++ tabbed int_text i ++ [10]) with text in E. rewrite E; [|eapply Forall_impl; [exact Hr|]; intros w Hw; by apply int_conv_takes|done|].
  2:{ cbn. intros c [= <-]. apply blank_cases. lia. }
  cbn [length intvec_write mbind option_bind proc_skip_spaces]. rewrite (blank_space 10) by (apply blank_cases; lia). cbn [Z.eqb length].
  unfold PAGE_SIZE in Hp. rewrite app_nil_r, moved_on_small by lia. do 3 f_equal; lia.
Qed.

(** Text that is not a number. *)
Definition no_number (junk : bytes) : Prop := ∃ c, head junk = Some c ∧ 33 ≤ c ≤ 126 ∧ is_digit c = false ∧ c ≠ 45.

(** A number outside the bounds, and what follows it. *)
Definition refused_number (min max : option Z) (junk : bytes) : Prop :=
  ∃ w r, junk = int_text w ++ r ∧ is_s 32 w ∧ out_of_bounds min max w = true ∧ separated r.

Lemma get_long_no_number junk sep : no_number junk → proc_get_long junk sep = Some (inl (- EINVAL)).
Proof.
  intros (c & Hh & _ & Hd & H45). destruct junk as [|c' junk]; [done|]. injection Hh as ->. unfold proc_get_long. cbv zeta.
  cbn [take TMPBUFLEN Nat.sub app head]. rewrite (bool_decide_eq_false_2 (Some c = Some 45)) by congruence. cbn [andb drop head mbind option_bind].
  by rewrite Hd.
Qed.

Lemma intvec_write_refused min max n i o junk : no_number junk ∨ refused_number min max junk → head i = Some o →
  ∃ p, intvec_write (do_proc_dointvec_minmax_conv min max) (S n) i (32 :: junk) false = Some (- EINVAL, i, p, false) ∧
    (length p ≤ length junk)%nat.
Proof.
  intros Hj Ho. rewrite intvec_write_blank by (apply blank_cases; lia). destruct Hj as [Hn|(w & r & -> & Hw & Hb & Hr)].
  - pose proof (get_long_no_number junk proc_wspace_sep Hn) as E. destruct Hn as (c & Hh & Hc & _). exists junk. split; [|done].
    destruct junk as [|c' junk]; [done|]. injection Hh as ->. cbn [intvec_write]. rewrite skip_spaces_stop by by apply space_graphic.
    by rewrite E.
  - exists r. split; [|rewrite length_app; lia]. pose proof (conv_write_abs w o Hw) as Hc. pose proof (int_text_length w Hw) as Hlen.
    unfold int_text in *. destruct (int_abs_range w Hw) as (neg & lval & E & Hu & _). rewrite E in *.
    destruct (long_text_head lval neg Hu) as (c & l & Et & Hc'). cbn [intvec_write].
    assert (proc_skip_spaces (long_text lval neg ++ r) = long_text lval neg ++ r) as ->.
    { rewrite Et. cbn [app]. apply skip_spaces_stop, space_graphic. lia. }
    destruct (long_text lval neg ++ r) as [|c0 l0] eqn:E0; [by rewrite Et in E0|]. rewrite <-E0, get_long_text; [|done..|].
    2:{ intros c1 H1. apply blank_trailer, Hr, H1. }
    cbn [mbind option_bind]. rewrite Ho. cbn [mbind option_bind conv_write do_proc_dointvec_minmax_conv]. rewrite Hc. by rewrite Hb.
Qed.

(** A write is not all or nothing: when the text has good numbers, then something that
    is not a number or a number outside the bounds of the file, the good numbers are
    stored, the slots behind them keep what they had, and the answer is EINVAL. *)
Theorem dointvec_minmax_stores_prefix t old v vs i o i' junk :
  t_data t = Some old → old = i ++ o :: i' → length i = S (length vs) → t_maxlen t = 4 * Z.of_nat (length old) → t_maxlen t < 2 ^ 31 →
  Forall (λ w, is_s 32 w ∧ out_of_bounds (extra1 t) (extra2 t) w = false) (v :: vs) →
  no_number junk ∨ refused_number (extra1 t) (extra2 t) junk →
  Z.of_nat (length (int_text v ++ tabbed int_text vs ++ 32 :: junk)) < PAGE_SIZE →
  ∃ r, proc_dointvec_minmax t (WriteReq (int_text v ++ tabbed int_text vs ++ 32 :: junk)) 0 = Some (Some ((v :: vs) ++ o :: i'), r) ∧
    r_err r = - EINVAL ∧ r_pos r = r_len r ∧ Z.of_nat (length (int_text v ++ tabbed int_text vs)) < r_len r.
Proof.
  intros Hd Hold Hl Hm H31 Hvs Hj Hp. unfold proc_dointvec_minmax, do_proc_dointvec, __do_proc_dointvec. rewrite Hd. cbn [req_len is_write].
  assert (length old ≠ 0%nat) as Hne by (rewrite Hold, length_app; cbn; lia). set (text := int_text v ++ _) in *.
  assert (length text = S (length (int_text v ++ tabbed int_text vs) + length junk)) as Ht.
  { unfold text. rewrite app_assoc, length_app. cbn [length]. lia. }
  rewrite (proj2 (Z.eqb_neq (t_maxlen t) 0)), (proj2 (Z.eqb_neq (Z.of_nat (length text)) 0)) by lia. cbn [orb andb negb Z.eqb].
  unfold proc_first_pos_non_zero_ignore. cbn [Z.eqb negb andb]. rewrite one_page_all, (slots_exact _ 4 (length old)) by lia.
  destruct (intvec_write_refused (extra1 t) (extra2 t) (length i') (o :: i') o junk Hj eq_refl) as (p & E & Hlp).
  pose proof (intvec_write_vector (do_proc_dointvec_minmax_conv (extra1 t) (extra2 t)) int_text v vs i (o :: i') (32 :: junk)) as E2.
  rewrite <-Hold in E2. change (int_text v ++ tabbed int_text vs ++ 32 :: junk) with text in E2. rewrite E2; [|eapply Forall_impl; [exact Hvs|]|done|].
  2:{ intros w [H1 H2]. by apply int_conv_takes. }
  2:{ cbn. intros c [= <-]. apply blank_cases. lia. }
  cbn [length]. rewrite E. cbn [mbind option_bind Z.eqb Z.opp]. unfold EINVAL, PAGE_SIZE in *. cbn [Z.opp Z.eqb].
  eexists. split; [reflexivity|]. change (- (22) =? 0) with false. cbn iota. rewrite moved_on_small by lia. cbn [r_err r_pos r_len]. split_and!; try done; lia.
Qed.

(** ** Bounds hold whatever is written *)

(** Every slot keeps its value or gets one with [P]. *)
Definition kept (P : Z → Prop) : list Z → list Z → Prop := Forall2 (λ v v', v' = v ∨ P v').

Lemma kept_refl P i : kept P i i.
Proof. induction i; constructor; auto. Qed.

Lemma separators_ok : proc_wspace_sep ≠ [] ∧ ∀ c, c ∈ proc_wspace_sep → is_digit c = false.
Proof. split; [done|]. intros c Hc. by apply blank_trailer. Qed.

Lemma get_number buf : ∃ r, proc_get_long buf proc_wspace_sep = Some r ∧
  match r with
  | inl err => err = - EINVAL
  | inr (val, neg, tr, rest) => is_u 64 val ∧ (length rest < length buf)%nat ∧ tr = head rest
  end.
Proof. apply get_long_total; apply separators_ok. Qed.

Lemma skip_spaces_length p : (length (proc_skip_spaces p) ≤ length p)%nat.
Proof. destruct (skip_spaces_suffix p) as [n ->]. rewrite length_drop. lia. Qed.

(** A write always ends, with 0 or EINVAL. *)
Lemma intvec_write_total conv P n i p first : (n ≤ length i)%nat →
  (∀ neg lval o v, is_u 64 lval → conv_write conv neg lval o = inr v → P v) →
  ∃ err i' p' first', intvec_write conv n i p first = Some (err, i', p', first') ∧ (err = 0 ∨ err = - EINVAL) ∧ kept P i i' ∧
    (length p' ≤ length p)%nat.
Proof.
  intros Hn HP. revert i p first Hn. induction n as [|n IH]; intros i p first Hn.
  { exists 0, i, p, first. split_and!; [by destruct p|by left|apply kept_refl|done]. }
  destruct i as [|o i]; [cbn in Hn; lia|]. cbn [intvec_write]. destruct p as [|c p]; [exists 0, (o :: i), [], first; split_and!; eauto using kept_refl|].
  pose proof (skip_spaces_length (c :: p)) as Hsk. destruct (proc_skip_spaces (c :: p)) as [|c' p'] eqn:Ep.
  { exists 0, (o :: i), [], first. split_and!; eauto using kept_refl. }
  rewrite <-Ep in *. destruct (get_number (proc_skip_spaces (c :: p))) as (r & -> & Hr). cbn [mbind option_bind].
  destruct r as [err|[[[lval neg] tr] rest]]; [subst err; eexists _, _, _, _; split_and!; eauto using kept_refl|].
  destruct Hr as (Hv & Hl & _). cbn [head mbind option_bind tail]. destruct (conv_write conv neg lval o) as [e|v] eqn:Ec.
  { eexists _, _, _, _. split_and!; [reflexivity|by right|apply kept_refl|lia]. }
  destruct (IH i rest false) as (err & i' & p2 & f & -> & He & Hk & Hl2); [cbn in Hn; lia|]. cbn [mbind option_bind].
  eexists _, _, _, _. split_and!; [reflexivity|done| |lia]. constructor; [right; by eapply HP|done].
Qed.

Lemma intvec_read_total conv n i b first : (n ≤ length i)%nat → (∀ v, ∃ neg lval, conv_read conv v = inr (neg, lval)) →
  ∃ b' first', intvec_read conv n i b first = Some (0, b', first').
Proof.
  intros Hn HP. revert i b first Hn. induction n as [|n IH]; intros i b first Hn; [by eexists _, _|].
  cbn [intvec_read]. destruct (b.2 =? 0); [by eexists _, _|]. destruct i as [|v i]; [cbn in Hn; lia|].
  cbn [head mbind option_bind tail]. destruct (HP v) as (neg & lval & ->). apply IH. cbn in Hn. lia.
Qed.

(** What every handler promises for its data. *)
Definition handler_keeps (P : Z → Prop) (i : list Z) (rq : req) (res : option (option (list Z) * sysctl_res)) : Prop :=
  ∃ i' r, res = Some (Some i', r) ∧ kept P i i' ∧ (is_write rq = false → i' = i) ∧ (r_err r = 0 ∨ r_err r = - EINVAL).

Lemma dointvec_total conv P i maxlen rq ppos : maxlen = 4 * Z.of_nat (length i) → maxlen < 2 ^ 31 →
  (∀ neg lval o v, is_u 64 lval → conv_write conv neg lval o = inr v → P v) →
  (∀ v, ∃ neg lval, conv_read conv v = inr (neg, lval)) →
  handler_keeps P i rq (__do_proc_dointvec (Some i) maxlen rq ppos conv).
Proof.
  intros Hm H31 HP HR. unfold __do_proc_dointvec. rewrite (slots_exact _ 4 (length i)) by lia.
  destruct (_ || _); [eexists _, _; split_and!; [done|apply kept_refl|done|by left]|]. destruct rq as [lenp|buf].
  - destruct (intvec_read_total conv (length i) i ([], req_len (ReadReq lenp)) true) as (b & f & ->); [done|done|].
    cbn [mbind option_bind]. eexists _, _. split_and!; [reflexivity|apply kept_refl|done|by left].
  - destruct (proc_first_pos_non_zero_ignore ppos); [eexists _, _; split_and!; [done|apply kept_refl|done|by left]|].
    destruct (intvec_write_total conv P (length i) i (one_page buf) true) as (err & i' & p & f & -> & He & Hk & _); [done|done|].
    cbn [mbind option_bind]. eexists _, _. split_and!; [reflexivity|done|done|].
    destruct f; cbn [r_err moved_on]; [|done]. destruct He as [->| ->]; [by right|by right].
Qed.

Lemma ulongvec_write_total min max convmul convdiv n i p first : 0 < convdiv → (n ≤ length i)%nat →
  ∃ err i' p' first', ulongvec_write min max convmul convdiv n i p first = Some (err, i', p', first') ∧ (err = 0 ∨ err = - EINVAL) ∧
    kept (λ v, is_u 64 v ∧ out_of_bounds min max v = false) i i'.
Proof.
  intros Hdiv Hn. revert i p first Hn. induction n as [|n IH]; intros i p first Hn.
  { exists 0, i, p, first. split_and!; [by destruct p|by left|apply kept_refl]. }
  destruct i as [|o i]; [cbn in Hn; lia|]. cbn [ulongvec_write]. destruct p as [|c p]; [eexists _, _, _, _; split_and!; eauto using kept_refl|].
  destruct (proc_skip_spaces (c :: p)) as [|c' p'] eqn:Ep; [eexists _, _, _, _; split_and!; eauto using kept_refl|].
  rewrite <-Ep. destruct (get_number (proc_skip_spaces (c :: p))) as (r & -> & Hr). cbn [mbind option_bind].
  destruct r as [err|[[[lval neg] tr] rest]]; [subst err; eexists _, _, _, _; split_and!; eauto using kept_refl|].
  destruct Hr as (Hv & _). cbn [head mbind option_bind tail]. destruct (IH i rest false) as (err & i' & p2 & f & E & He & Hk); [cbn in Hn; lia|].
  destruct neg. { rewrite E. eexists _, _, _, _. split_and!; [reflexivity|done|]. constructor; [by left|done]. }
  cbv zeta. destruct (out_of_bounds _ _ _) eqn:Eb; [eexists _, _, _, _; split_and!; eauto using kept_refl|]. rewrite E.
  eexists _, _, _, _. split_and!; [reflexivity|done|]. constructor; [right|done]. split; [|done]. unfold is_u in *.
  pose proof (wrapU_range 64 (convmul * lval)) as [H1 H2]; [lia|]. split; [apply Z.div_pos; lia|].
  eapply Z.le_lt_trans; [apply Z.div_le_upper_bound with (q := u64 (convmul * lval)); nia|done].
Qed.

Lemma ulongvec_read_total convmul convdiv n i b first : (n ≤ length i)%nat →
  ∃ b' first', ulongvec_read convmul convdiv n i b first = Some (b', first').
Proof.
  revert i b first. induction n as [|n IH]; intros i b first Hn; [by eexists _, _|].
  cbn [ulongvec_read]. destruct (b.2 =? 0); [by eexists _, _|]. destruct i as [|v i]; [cbn in Hn; lia|].
  cbn [head mbind option_bind tail]. apply IH. cbn in Hn. lia.
Qed.

Lemma doulongvec_total t i rq ppos convmul convdiv : t_maxlen t = 8 * Z.of_nat (length i) → t_maxlen t < 2 ^ 31 → 0 < convdiv →
  handler_keeps (λ v, is_u 64 v ∧ out_of_bounds (extra1 t) (extra2 t) v = false) i rq
    (__do_proc_doulongvec_minmax (Some i) t rq ppos convmul convdiv).
Proof.
  intros Hm H31 Hdiv. unfold __do_proc_doulongvec_minmax. rewrite (slots_exact _ 8 (length i)) by lia.
  destruct (_ || _); [eexists _, _; split_and!; [done|apply kept_refl|done|by left]|]. destruct rq as [lenp|buf].
  - destruct (ulongvec_read_total convmul convdiv (length i) i ([], req_len (ReadReq lenp)) true) as (b & f & ->); [done|].
    cbn [mbind option_bind]. eexists _, _. split_and!; [reflexivity|apply kept_refl|done|by left].
  - destruct (proc_first_pos_non_zero_ignore ppos); [eexists _, _; split_and!; [done|apply kept_refl|done|by left]|].
    destruct (ulongvec_write_total (extra1 t) (extra2 t) convmul convdiv (length i) i (one_page buf) true Hdiv) as (err & i' & p & f & -> & He & Hk); [done|].
    cbn [mbind option_bind]. eexists _, _. split_and!; [reflexivity|done|done|].
    destruct f; cbn [r_err moved_on]; [|done]. destruct He as [->| ->]; [by right|by right].
Qed.

Lemma douintvec_total conv P v rq ppos : (∀ lval o v', is_u 64 lval → uconv_write conv lval o = inr v' → P v') →
  handler_keeps P [v] rq (__do_proc_douintvec (Some [v]) 4 rq ppos conv).
Proof.
  intros HP. unfold __do_proc_douintvec. destruct (_ || _); [eexists _, _; split_and!; [done|apply kept_refl|done|by left]|].
  change (negb (u32 (u64 4 / 4) =? 1)) with false. cbn iota. cbn [head mbind option_bind tail]. destruct rq as [lenp|buf].
  { eexists _, _. split_and!; [reflexivity|apply kept_refl|done|by left]. }
  unfold do_proc_douintvec_w. destruct (proc_first_pos_non_zero_ignore ppos); [eexists _, _; split_and!; [done|apply kept_refl|done|by left]|].
  destruct (proc_skip_spaces _) as [|c p]; [eexists _, _; split_and!; [done|apply kept_refl|done|by right]|].
  destruct (get_number (c :: p)) as (r & -> & Hr). cbn [mbind option_bind].
  destruct r as [err|[[[lval neg] tr] rest]]; [eexists _, _; split_and!; [done|apply kept_refl|done|by right]|].
  destruct neg; [eexists _, _; split_and!; [done|apply kept_refl|done|by right]|].
  destruct (uconv_write conv lval v) as [e|v'] eqn:E; [eexists _, _; split_and!; [done|apply kept_refl|done|by right]|].
  eexists _, _. split_and!; [done| |done|by left]. constructor; [right; eapply HP; [apply Hr|exact E]|constructor].
Qed.

(** What a file with bounds promises: the call ends, a value inside stays inside, a read
    changes nothing. *)
Definition stays (P : Z → Prop) (i : list Z) (rq : req) (res : option (option (list Z) * sysctl_res)) : Prop :=
  ∃ i' r, res = Some (Some i', r) ∧ length i' = length i ∧ Forall P i' ∧ (is_write rq = false → i' = i) ∧ (r_err r = 0 ∨ r_err r = - EINVAL).

Lemma keeps_stays P i rq res : Forall P i → handler_keeps P i rq res → stays P i rq res.
Proof.
  intros Hi (i' & r & E & Hk & Hr & He). exists i', r. split_and!; [done|by symmetry; eapply Forall2_length| |done|done].
  clear E Hr He. induction Hk as [|v v' i i' Hv _ IH]; [constructor|]. apply Forall_cons in Hi as [H1 H2].
  constructor; [by destruct Hv as [->|]|by apply IH].
Qed.

Definition bounded (w : Z) (t : ctl_table) (v : Z) : Prop := is_s w v ∧ out_of_bounds (extra1 t) (extra2 t) v = false.
Definition ubounded (w : Z) (t : ctl_table) (v : Z) : Prop := is_u w v ∧ out_of_bounds (extra1 t) (extra2 t) v = false.

Lemma int_conv_writes min max neg lval o v : conv_write (do_proc_dointvec_minmax_conv min max) neg lval o = inr v →
  is_s 32 v ∧ out_of_bounds min max v = false.
Proof.
  cbn. destruct neg; split_ifs; intros [= <-]; (split; [by apply wrapS_range|done]).
Qed.

Lemma uint_conv_writes min max lval o v : uconv_write (do_proc_douintvec_minmax_conv min max) lval o = inr v →
  is_u 32 v ∧ out_of_bounds min max v = false.
Proof. cbn. split_ifs; intros [= <-]; (split; [by apply wrapU_range|done]). Qed.

(** C32: Whatever bytes are written to a file with bounds, and whatever is read, at any position
    and in any mode, the call ends without leaving the table, and every number in the
    table is still inside the bounds: for arrays of int, arrays of unsigned long, an
    unsigned int, and one byte. *)
Theorem bounded_files t i v rq ppos :
  (t_data t = Some i → t_maxlen t = 4 * Z.of_nat (length i) → t_maxlen t < 2 ^ 31 → Forall (bounded 32 t) i →
     stays (bounded 32 t) i rq (proc_dointvec_minmax t rq ppos)) ∧
  (t_data t = Some i → t_maxlen t = 8 * Z.of_nat (length i) → t_maxlen t < 2 ^ 31 → Forall (ubounded 64 t) i →
     stays (ubounded 64 t) i rq (proc_doulongvec_minmax t rq ppos)) ∧
  (t_data t = Some [v] → t_maxlen t = 4 → ubounded 32 t v → stays (ubounded 32 t) [v] rq (proc_douintvec_minmax t rq ppos)) ∧
  (t_data t = Some [v] → t_maxlen t = 1 → (∀ m, extra1 t = Some m → is_u 8 m) → (∀ m, extra2 t = Some m → is_u 8 m) → ubounded 8 t v →
     ∃ v' r, proc_dou8vec_minmax t rq ppos = Some (Some [v'], r) ∧ ubounded 8 t v' ∧ (is_write rq = false → v' = v)).
Proof.
  split; [|split; [|split]].
  - intros Hd Hm H31 Hi. apply keeps_stays; [done|]. unfold proc_dointvec_minmax, do_proc_dointvec. rewrite Hd. apply dointvec_total; try done.
    + intros neg lval o w _. apply int_conv_writes.
    + intros w. cbn. destruct (int_abs w). eauto.
  - intros Hd Hm H31 Hi. apply keeps_stays; [done|]. unfold proc_doulongvec_minmax, do_proc_doulongvec_minmax. rewrite Hd.
    by apply doulongvec_total.
  - intros Hd Hm Hv. apply keeps_stays; [by constructor|]. unfold proc_douintvec_minmax, do_proc_douintvec. rewrite Hd, Hm.
    apply douintvec_total. intros lval o w _. apply uint_conv_writes.
  - intros Hd Hm H1 H2 Hv. unfold proc_dou8vec_minmax. rewrite Hm, Hd. cbn [Z.eqb negb].
    assert (match extra1 t with Some m => 255 <? m | None => false end = false) as ->.
    { destruct (extra1 t) as [m|]; [|done]. specialize (H1 m eq_refl). unfold is_u in H1. apply Z.ltb_ge. lia. }
    assert (match extra2 t with Some m => 255 <? m | None => false end = false) as ->.
    { destruct (extra2 t) as [m|]; [|done]. specialize (H2 m eq_refl). unfold is_u in H2. apply Z.ltb_ge. lia. }
    cbn [mbind option_bind head tail]. set (conv := do_proc_douintvec_minmax_conv _ _).
    assert (Hc : ∀ lval o w, is_u 64 lval → uconv_write conv lval o = inr w → ubounded 8 t w).
    { intros lval o w _ [[Hw _] Hb]%uint_conv_writes. unfold ubounded, is_u, out_of_bounds in *. apply orb_false_iff in Hb as [Hlo%Z.ltb_ge Hhi%Z.ltb_ge].
      destruct (extra1 t) as [m1|], (extra2 t) as [m2|]; cbn [default] in Hlo, Hhi;
        repeat match goal with H : ∀ m, Some ?x = Some m → _ |- _ => specialize (H x eq_refl) end;
        (split; [cbn in *; lia|]); apply orb_false_iff; split; try done; by apply Z.ltb_ge. }
    destruct (douintvec_total conv (ubounded 8 t) v rq ppos Hc) as (d & r & -> & Hk & Hr & _). cbn [mbind option_bind].
    apply Forall2_cons_inv_l in Hk as (v' & d' & Hv' & Hk & ->). apply Forall2_nil_inv_l in Hk as ->.
    assert (ubounded 8 t v') as Hb by (destruct Hv' as [->|]; done).
    destruct (negb (r_err r =? 0)); [by exists v, r|]. destruct rq as [n|buf]; cbn [is_write]; [by exists v, r|].
    cbn [mbind option_bind head tail]. exists v', r. rewrite wrapU_small by apply Hb. done.
Qed.

(** ** The flags of the kernel behind three files *)

(** The entries of kern_table; the handlers set the data themselves. *)
Definition unprivileged_bpf_disabled_entry : ctl_table := CtlTable None 4 (Some 0) (Some 2).
Definition tainted_entry : ctl_table := CtlTable None 8 None None.

Record flags := Flags { bpf_saved : Z; unpriv : Z }.

Inductive file := BpfStats | BpfUnpriv | Tainted.

(** A call of a handler: the file, whether the caller has CAP_SYS_ADMIN, what
    get_taint answers, the request. *)
Record access := Access { a_file : file; a_admin : bool; a_taint : Z; a_req : req; a_pos : Z }.

Section flags.
Context (nousertaint : bool) (panic_on_taint TAINT_FLAGS_COUNT : Z).

Definition step (s : flags) (a : access) : option (flags * list kcall) :=
  match a_file a with
  | BpfStats =>
      '(v, calls, _) ← bpf_stats_handler (a_admin a) (bpf_saved s) (a_req a) (a_pos a);
      Some (Flags v (unpriv s), calls)
  | BpfUnpriv =>
      '(u, calls, _) ← bpf_unpriv_handler (a_admin a) unprivileged_bpf_disabled_entry (unpriv s) (a_req a) (a_pos a);
      Some (Flags (bpf_saved s) u, calls)
  | Tainted =>
      '(calls, _) ← proc_taint (a_admin a) nousertaint panic_on_taint TAINT_FLAGS_COUNT tainted_entry (a_taint a) (a_req a) (a_pos a);
      Some (s, calls)
  end.

Fixpoint run (l : list access) (s : flags) : option (flags * list kcall) :=
  match l with
  | [] => Some (s, [])
  | a :: l =>
      '(s, calls) ← step s a;
      '(s, more) ← run l s;
      Some (s, calls ++ more)
  end.

Definition flags_ok (s : flags) : Prop := 0 ≤ bpf_saved s ≤ 1 ∧ 0 ≤ unpriv s ≤ 2.

(** The share of the file in the count of the static key, 0 or 1; [None] when it
    is given twice or taken back without having been given. *)
Fixpoint key_share (share : Z) (calls : list kcall) : option Z :=
  match calls with
  | [] => Some share
  | SlowInc :: calls => if share =? 0 then key_share 1 calls else None
  | SlowDec :: calls => if share =? 1 then key_share 0 calls else None
  | _ :: calls => key_share share calls
  end.

(** The flags that may be added. *)
Definition taint_allowed (c : kcall) : Prop :=
  match c with
  | AddTaint i => 0 ≤ i < TAINT_FLAGS_COUNT ∧ (nousertaint = true → Z.testbit panic_on_taint i = false)
  | _ => True
  end.

(** What calls of the handlers do between [s] and [s']. *)
Definition flags_rel (s s' : flags) (calls : list kcall) : Prop :=
  key_share (bpf_saved s) calls = Some (bpf_saved s') ∧
  (unpriv s = 1 → unpriv s' = 1 ∧ ∀ n, Notify n ∈ calls → n = 1) ∧
  Forall taint_allowed calls.

Lemma flags_rel_refl s : flags_rel s s [].
Proof. split_and!; [done| |constructor]. intros Hv1. split; [done|]. by intros n ?%not_elem_of_nil. Qed.

Lemma key_share_app v c1 c2 : key_share v (c1 ++ c2) = key_share v c1 ≫= λ w, key_share w c2.
Proof. revert v. induction c1 as [|[] c1 IH]; intros v; cbn; try done; by case_match. Qed.

Lemma flags_rel_trans s1 s2 s3 c1 c2 : flags_rel s1 s2 c1 → flags_rel s2 s3 c2 → flags_rel s1 s3 (c1 ++ c2).
Proof.
  intros (A1 & A2 & A3) (B1 & B2 & B3). split; [by rewrite key_share_app, A1|]. split; [|by apply Forall_app].
  intros Hv1. destruct (A2 Hv1) as [H2 N1]. destruct (B2 H2) as [H3 N2]. split; [done|]. intros n [?|?]%elem_of_app; auto.
Qed.

Lemma one_int_total lo hi v rq ppos : 0 ≤ v ≤ hi → lo = 0 →
  ∃ v' r, proc_dointvec_minmax (CtlTable (Some [v]) 4 (Some lo) (Some hi)) rq ppos = Some (Some [v'], r) ∧ 0 ≤ v' ≤ hi ∧
    (is_write rq = false → v' = v).
Proof.
  intros Hv ->. set (t := CtlTable _ _ _ _). unfold proc_dointvec_minmax, do_proc_dointvec.
  destruct (dointvec_total (do_proc_dointvec_minmax_conv (extra1 t) (extra2 t)) (λ v, 0 ≤ v ≤ hi) [v] 4 rq ppos) as (i' & r & E & Hk & Hr & _); [done|done|..].
  - intros neg lval o w _ [_ Hb]%int_conv_writes. apply orb_false_iff in Hb as [?%Z.ltb_ge ?%Z.ltb_ge]. lia.
  - intros w. cbn. destruct (int_abs w). eauto.
  - apply Forall2_cons_inv_l in Hk as (v' & d' & Hv' & Hk & ->). apply Forall2_nil_inv_l in Hk as ->.
    exists v', r. split; [exact E|]. split; [destruct Hv' as [->|]; done|]. intros Hw. by specialize (Hr Hw) as [= ->].
Qed.

(** Only flags that were written are added, and none that the boot option reserves. *)
Lemma taints_allowed tmp : (nousertaint && negb (Z.land tmp panic_on_taint =? 0)) = false →
  Forall taint_allowed (AddTaint <$> filter (λ i, Z.land (Z.shiftl 1 i) tmp ≠ 0) (seqZ 0 TAINT_FLAGS_COUNT)).
Proof.
  intros Hn. apply Forall_fmap, Forall_forall. intros i Hi. apply list_elem_of_filter in Hi as [Hb Hi].
  apply elem_of_seqZ in Hi. cbn. split; [lia|]. intros ->. cbn in Hn. apply negb_false_iff, Z.eqb_eq in Hn.
  destruct (Z.testbit panic_on_taint i) eqn:Ep; [|done]. destruct Hb. apply Z.bits_inj'. intros j Hj.
  rewrite Z.land_spec, Z.shiftl_1_l, Z.pow2_bits_eqb, Z.bits_0 by lia. destruct (Z.eqb_spec i j) as [->|]; [|done].
  assert (Z.testbit (Z.land tmp panic_on_taint) j = false) as F by (rewrite Hn; apply Z.bits_0).
  rewrite Z.land_spec, Ep, andb_true_r in F. by rewrite F.
Qed.

(** A write to one int that fails has not stored it. *)
Lemma one_slot_kept conv v buf ppos d r : __do_proc_dointvec (Some [v]) 4 (WriteReq buf) ppos conv = Some (d, r) →
  r_err r ≠ 0 → d = Some [v].
Proof.
  unfold __do_proc_dointvec. change (slots 4 4) with 1%nat. destruct (_ || _); [by intros [= <- <-]|].
  destruct (proc_first_pos_non_zero_ignore ppos); [by intros [= <- <-]|]. cbn [intvec_write].
  destruct (one_page buf) as [|c p]; [by intros [= <- <-]|]. destruct (proc_skip_spaces (c :: p)) as [|c' p']; [by intros [= <- <-]|].
  destruct (proc_get_long _ _) as [[err|[[[lval neg] tr] rest]]|]; cbn [mbind option_bind head tail]; [by intros [= <- <-]| |done].
  destruct (conv_write conv neg lval v) as [err|w]; [by intros [= <- <-]|]. cbn [mbind option_bind]. by intros [= <- <-].
Qed.

Lemma unpriv_int_total v rq ppos : 0 ≤ v ≤ 2 →
  ∃ v' r, proc_dointvec_minmax (CtlTable (Some [v]) 4 (Some 0) (Some 2)) rq ppos = Some (Some [v'], r) ∧ 0 ≤ v' ≤ 2 ∧
    (is_write rq && (r_err r =? 0) = false → v' = v).
Proof.
  intros Hv. destruct (one_int_total 0 2 v rq ppos Hv eq_refl) as (v' & r & E & Hv' & Hr). exists v', r. split; [done|]. split; [done|].
  destruct rq as [n|buf]; [intros _; by apply Hr|]. cbn [is_write andb]. intros He%Z.eqb_neq.
  by apply (one_slot_kept _ _ _ _ _ _ E) in He as [= ->].
Qed.

(** A caller without the capability at most has the state notified again. *)
Definition unprivileged (s s' : flags) (calls : list kcall) : Prop := s' = s ∧ ∀ c, c ∈ calls → c = Notify (unpriv s).

Lemma step_stats s a : flags_ok s → a_file a = BpfStats →
  ∃ s' calls, step s a = Some (s', calls) ∧ flags_ok s' ∧ flags_rel s s' calls ∧ (a_admin a = false → unprivileged s s' calls).
Proof.
  intros [H1 H2] Hf. destruct s as [sv un], a as [f adm ta rq pos]. cbn in *. subst f. unfold step, bpf_stats_handler. cbn [a_file a_admin a_req a_pos bpf_saved unpriv].
  assert (∃ s' calls, Some (Flags sv un, []) = Some (s', calls) ∧ flags_ok s' ∧ flags_rel (Flags sv un) s' calls ∧ (adm = false → unprivileged (Flags sv un) s' calls)) as Hsame.
  { exists (Flags sv un), []. split; [done|]. split; [by split|]. split; [apply flags_rel_refl|]. intros _. split; [done|]. by intros c ?%not_elem_of_nil. }
  destruct (is_write rq && negb adm) eqn:Ew; [exact Hsame|].
  destruct (one_int_total 0 1 sv rq pos H1 eq_refl) as (v & r & E & Hv & Hr). unfold bool_table. rewrite E. cbn [mbind option_bind slot0 head].
  destruct (_ && _ && _) eqn:Ec; [|exact Hsame].
  apply andb_true_iff in Ec as [[Hw _]%andb_true_iff Hne%negb_true_iff%Z.eqb_neq]. eexists _, _. split; [reflexivity|].
  split; [by split|]. split; [|by intros ->; rewrite Hw in Ew]. split_and!.
  - cbn. destruct (Z.eqb_spec v 0) as [->|]; cbn [negb]; [by replace sv with 1 by lia|]. by replace sv with 0 by lia; replace v with 1 by lia.
  - cbn. intros ->. split; [done|]. intros n. destruct (negb (v =? 0)); by intros [?|?%not_elem_of_nil]%elem_of_cons.
  - constructor; [|constructor]. by destruct (negb (v =? 0)).
Qed.

Lemma step_unpriv s a : flags_ok s → a_file a = BpfUnpriv →
  ∃ s' calls, step s a = Some (s', calls) ∧ flags_ok s' ∧ flags_rel s s' calls ∧ (a_admin a = false → unprivileged s s' calls).
Proof.
  intros [H1 H2] Hf. destruct s as [sv un], a as [f adm ta rq pos]. cbn in *. subst f. unfold step, bpf_unpriv_handler, unprivileged_bpf_disabled_entry. cbn [a_file a_admin a_req a_pos bpf_saved unpriv t_maxlen extra1 extra2].
  assert (∃ s' calls, Some (Flags sv un, []) = Some (s', calls) ∧ flags_ok s' ∧ flags_rel (Flags sv un) s' calls ∧ (adm = false → unprivileged (Flags sv un) s' calls)) as Hsame.
  { exists (Flags sv un), []. split; [done|]. split; [by split|]. split; [apply flags_rel_refl|]. intros _. split; [done|]. by intros c ?%not_elem_of_nil. }
  destruct (is_write rq && negb adm) eqn:Ew; [exact Hsame|].
  destruct (unpriv_int_total un rq pos H2) as (v & r & -> & Hv & Hkeep). cbn [mbind option_bind slot0 head].
  destruct (is_write rq && (r_err r =? 0)) eqn:Ec.
  - destruct ((un =? 1) && negb (v =? 1)) eqn:El; [exact Hsame|]. apply andb_true_iff in Ec as [Hw _]. eexists _, _. split; [reflexivity|].
    split; [by split|]. split; [|by intros ->; rewrite Hw in Ew]. split_and!; [done| |by repeat constructor]. cbn. intros ->. cbn in El.
    apply negb_false_iff, Z.eqb_eq in El as ->. split; [done|]. by intros n [[= ->]|?%not_elem_of_nil]%elem_of_cons.
  - rewrite (Hkeep eq_refl). eexists _, _. split; [reflexivity|]. split; [by split|]. split.
    + split_and!; [done| |by repeat constructor]. cbn. intros ->. split; [done|]. by intros n [[= ->]|?%not_elem_of_nil]%elem_of_cons.
    + intros _. split; [done|]. by intros c [->|?%not_elem_of_nil]%elem_of_cons.
Qed.

Lemma step_taint s a : flags_ok s → is_u 64 (a_taint a) → a_file a = Tainted →
  ∃ s' calls, step s a = Some (s', calls) ∧ flags_ok s' ∧ flags_rel s s' calls ∧ (a_admin a = false → unprivileged s s' calls).
Proof.
  intros Hok Ht Hf. destruct a as [f adm ta rq pos]. cbn in *. subst f. unfold step, proc_taint. cbn [a_file a_admin a_req a_pos a_taint].
  assert (∃ s' calls, Some (s, []) = Some (s', calls) ∧ flags_ok s' ∧ flags_rel s s' calls ∧ (adm = false → unprivileged s s' calls)) as Hsame.
  { exists s, []. split; [done|]. split; [done|]. split; [apply flags_rel_refl|]. intros _. split; [done|]. by intros c ?%not_elem_of_nil. }
  destruct (is_write rq && negb adm) eqn:Ew; [exact Hsame|].
  destruct (doulongvec_total (CtlTable (Some [ta]) 8 None None) [ta] rq pos 1 1) as (i' & r & E & Hk & Hr & _); [done..|].
  unfold proc_doulongvec_minmax, do_proc_doulongvec_minmax, tainted_entry. cbn [t_data t_maxlen extra1 extra2]. rewrite E. cbn [mbind option_bind].
  destruct (r_err r <? 0); [exact Hsame|].
  apply Forall2_cons_inv_l in Hk as (v' & d' & Hv' & Hk & ->). apply Forall2_nil_inv_l in Hk as ->. cbn [slot0 mbind option_bind head].
  destruct rq as [n|buf]; cbn [is_write] in *; [exact Hsame|].
  destruct (nousertaint && _) eqn:En; [exact Hsame|].
  eexists _, _. split; [reflexivity|]. split; [done|]. split; [|by intros ->].
  assert (∀ l v, key_share v (AddTaint <$> l) = Some v) as Hks by (by induction l).
  split; [apply Hks|]. split; [|by apply taints_allowed]. intros Hv1. split; [done|]. by intros n (? & ? & _)%list_elem_of_fmap.
Qed.

(** Any sequence of calls on the three files ends, and whatever was written, by
    whom, and whatever the taint mask of the kernel is: the calls that the handlers
    make on the static key of the BPF statistics alternate, so that the file holds
    one count of it when its saved value is 1 and none when it is 0; once users'
    access to BPF is locked off (the value 1; 2 is the value that root may take
    back) it stays off, and nothing else is notified; only flags that exist are
    added to the kernel's taint mask, and none that the boot option reserves;
    callers without CAP_SYS_ADMIN change nothing and add no flag. *)
Theorem kernel_flags_invariant l s : flags_ok s → Forall (λ a, is_u 64 (a_taint a)) l →
  ∃ s' calls, run l s = Some (s', calls) ∧ flags_ok s' ∧ flags_rel s s' calls ∧
    (Forall (λ a, a_admin a = false) l → unprivileged s s' calls).
Proof.
  revert s. induction l as [|a l IH]; intros s Hs Hl.
  { exists s, []. split; [done|]. split; [done|]. split; [apply flags_rel_refl|]. intros _. split; [done|]. by intros c ?%not_elem_of_nil. }
  apply Forall_cons in Hl as [Ha Hl].
  assert (∃ s1 c1, step s a = Some (s1, c1) ∧ flags_ok s1 ∧ flags_rel s s1 c1 ∧ (a_admin a = false → unprivileged s s1 c1)) as (s1 & c1 & E1 & Hs1 & R1 & A1).
  { destruct (a_file a) eqn:Ef; [by apply step_stats|by apply step_unpriv|by apply step_taint]. }
  destruct (IH s1 Hs1 Hl) as (s2 & c2 & E2 & Hs2 & R2 & A2).
  exists s2, (c1 ++ c2). cbn [run]. rewrite E1. cbn [mbind option_bind]. rewrite E2. split; [done|]. split; [done|]. split; [by eapply flags_rel_trans|].
  intros [Had Hadl]%Forall_cons. destruct (A1 Had) as [-> N1]. destruct (A2 Hadl) as [-> N2]. split; [done|]. intros c [?|?]%elem_of_app; auto.
Qed.

End flags.

(** ** Strings *)

(** What a write takes from the buffer: up to a NUL or a newline. *)
Fixpoint line_of (p : bytes) : bytes :=
  match p with c :: p => if (c =? 0) || (c =? 10) then [] else c :: line_of p | [] => [] end.

Lemma line_of_chars p : Forall (λ c, c ≠ 0) (line_of p).
Proof.
  induction p as [|c p IH]; [constructor|]. cbn. destruct (Z.eqb_spec c 0); [constructor|]. cbn. destruct (c =? 10); by constructor.
Qed.

(** The loop of a write: [line] goes behind the first [len] bytes, cut at the end. *)
Lemma string_write_spec d p len maxlen : 0 ≤ len < maxlen → maxlen ≤ Z.of_nat (length d) → maxlen < 2 ^ 31 →
  let w := take (Z.to_nat (maxlen - 1 - len)) (line_of p) in
  string_write d p len maxlen = Some (take (Z.to_nat len) d ++ w ++ drop (Z.to_nat len + length w) d, len + Z.of_nat (length w)).
Proof.
  intros Hlen Hm H31. revert d len Hlen Hm. induction p as [|c p IH]; intros d len Hlen Hm; cbv zeta.
  { cbn [line_of string_write]. rewrite take_nil. cbn [app length]. by rewrite Nat.add_0_r, take_drop, Z.add_0_r. }
  cbn [string_write line_of]. rewrite wrapU_small by (unfold is_u; lia). destruct (Z.ltb_spec len (maxlen - 1)) as [Hl|Hl]; cbn [negb].
  2:{ assert (maxlen - 1 - len = 0) as -> by lia. change (Z.to_nat 0) with 0%nat. rewrite take_0. cbn [app length]. by rewrite Nat.add_0_r, take_drop, Z.add_0_r. }
  destruct (_ || _); [rewrite take_nil; cbn [app length]; by rewrite Nat.add_0_r, take_drop, Z.add_0_r|].
  unfold zinsert. rewrite (proj2 (Z.leb_le 0 len)), (proj2 (Z.ltb_lt len (Z.of_nat (length d)))) by lia. cbn [negb andb orb mbind option_bind].
  rewrite IH; [|lia|rewrite length_insert; lia]. cbv zeta.
  replace (Z.to_nat (maxlen - 1 - len)) with (S (Z.to_nat (maxlen - 1 - (len + 1)))) by lia. cbn [take length].
  set (w := take _ (line_of p)). replace (Z.to_nat (len + 1)) with (S (Z.to_nat len)) by lia. f_equal. f_equal; [|lia].
  rewrite (take_S_r _ _ c) by (apply list_lookup_insert_eq; lia). rewrite take_insert_ge, drop_insert_lt by lia.
  rewrite <-app_assoc. cbn [app]. do 4 f_equal. lia.
Qed.

Lemma cstr_inv d s : cstr d = Some s → Forall (λ c, c ≠ 0) s ∧ ∃ r, d = s ++ 0 :: r.
Proof.
  revert s. induction d as [|c d IH]; intros s; cbn [cstr]; [done|]. destruct (Z.eqb_spec c 0) as [->|Hc].
  - intros [= <-]. split; [constructor|by exists d].
  - destruct (cstr d) as [s'|]; [|done]. intros [= <-]. destruct (IH s' eq_refl) as [Hs [r ->]]. split; [by constructor|by exists r].
Qed.

(** The buffer of [m] bytes holds the string [s]. *)
Definition holds_string (m : Z) (d s : bytes) : Prop := cstr d = Some s ∧ Z.of_nat (length s) < m ≤ Z.of_nat (length d).

(** A file with a string of less than [m] bytes: the string and the answer after a request. *)
Definition string_file (m : Z) (s : bytes) (rq : req) (ppos : Z) : bytes * sysctl_res :=
  if req_len rq =? 0 then (s, nothing 0 ppos)
  else
    match rq with
    | ReadReq lenp =>
        if Z.of_nat (length s) <? ppos then (s, nothing 0 ppos)
        else
          let out := take (Z.to_nat lenp) (drop (Z.to_nat ppos) s ++ [10]) in
          (s, Res 0 out (Z.of_nat (length out)) (ppos + Z.of_nat (length out)))
    | WriteReq buf =>
        if sysctl_writes_strict =? SYSCTL_WRITES_STRICT then
          if Z.of_nat (length s) <? ppos then (s, Res 0 [] (req_len rq) ppos)
          else (take (Z.to_nat (m - 1)) (take (Z.to_nat ppos) s ++ line_of buf), Res 0 [] (req_len rq) (ppos + req_len rq))
        else (take (Z.to_nat (m - 1)) (line_of buf), Res 0 [] (req_len rq) (ppos + req_len rq))
    end.

(** Storing a line behind the first [len] bytes. *)
Lemma string_store m d s buf len : holds_string m d s → 0 ≤ len ≤ Z.of_nat (length s) → m < 2 ^ 31 →
  ∃ d1 d2 len', string_write d buf len m = Some (d1, len') ∧ zinsert d1 len' 0 = Some d2 ∧
    holds_string m d2 (take (Z.to_nat (m - 1)) (take (Z.to_nat len) s ++ line_of buf)).
Proof.
  intros [Hs Hm] Hlen H31. destruct (cstr_inv d s Hs) as (Hns & r & ->). rewrite length_app in Hm. cbn [length] in Hm.
  rewrite (string_write_spec _ _ len m) by (try rewrite length_app; cbn [length]; lia). set (w := take _ (line_of buf)).
  assert (length w ≤ Z.to_nat (m - 1 - len))%nat as Hw by (unfold w; rewrite length_take; lia).
  set (n := Z.to_nat len). set (d := s ++ 0 :: r) in *. assert (length d = length s + S (length r))%nat as Hd by (unfold d; by rewrite length_app).
  destruct (lookup_lt_is_Some_2 d (n + length w)) as [y Hy]; [lia|].
  assert (drop (n + length w) d = y :: drop (S (n + length w)) d) as -> by by apply drop_S.
  assert (take n d = take n s) as -> by (unfold d; rewrite take_app_le by lia; done).
  set (rest := drop (S (n + length w)) d). assert (length rest = length d - S (n + length w))%nat as Hrest by apply length_drop.
  assert (length (take n s ++ w) = n + length w)%nat as Hl by (rewrite length_app, length_take; lia).
  eexists _, ((take n s ++ w) ++ 0 :: rest), _. split; [reflexivity|]. split; [|split].
  - unfold zinsert. rewrite (proj2 (Z.leb_le 0 _)) by lia. rewrite (proj2 (Z.ltb_lt _ (Z.of_nat _))).
    2:{ rewrite app_assoc, length_app, Hl. cbn [length]. lia. }
    cbn [andb]. f_equal. rewrite app_assoc. replace (Z.to_nat (len + Z.of_nat (length w))) with (length (take n s ++ w) + 0)%nat by lia.
    by rewrite insert_app_r.
  - rewrite cstr_app.
    + f_equal. rewrite take_app, (take_ge (take n s)) by (rewrite length_take; lia). f_equal. unfold w. f_equal. rewrite length_take. lia.
    + apply Forall_app. split; [by apply Forall_take|]. apply Forall_take, line_of_chars.
  - rewrite !length_app, !length_take. cbn [length]. rewrite length_app, length_take in Hl. lia.
Qed.

(** A file with a string behaves, request after request, as the string alone: a read
    gives the string from the position on with a newline; a write puts a line behind
    what is in front of the position, in the strict mode, or over everything, in the
    others, cut to the size of the buffer, which always keeps its NUL. *)
Theorem proc_dostring_refines t d s rq ppos : t_data t = Some d → holds_string (t_maxlen t) d s → t_maxlen t < 2 ^ 31 →
  0 ≤ ppos → 0 ≤ req_len rq → ppos + req_len rq < 2 ^ 63 →
  let '(s', r) := string_file (t_maxlen t) s rq ppos in
  ∃ d', proc_dostring t rq ppos = Some (Some d', r) ∧ holds_string (t_maxlen t) d' s'.
Proof.
  intros Hd Hs H31 Hp Hl Ho. unfold proc_dostring, _proc_do_string, string_file. rewrite Hd. set (m := t_maxlen t) in *.
  pose proof Hs as [Hc Hm]. rewrite (proj2 (Z.eqb_neq m 0)) by lia. cbn [orb].
  destruct (Z.eqb_spec (req_len rq) 0); [by exists d|]. rewrite (wrapU_small 64 ppos) by (unfold is_u; lia). destruct rq as [lenp|buf]; cbn [req_len] in *.
  - rewrite Hc. cbn [mbind option_bind]. rewrite wrapU_small by (unfold is_u; lia). rewrite (proj2 (Z.ltb_ge m _)) by lia.
    destruct (Z.ltb_spec (Z.of_nat (length s)) ppos); [by exists d|]. exists d. split; [|done].
    set (k := Z.of_nat (length s) - ppos). set (cut := if lenp <? k then lenp else k). destruct (cstr_inv d s Hc) as (_ & r & ->).
    assert (cut = Z.min lenp k) as Hn by (unfold cut; destruct (Z.ltb_spec lenp k); lia).
    destruct (proj2 (bytes_at_is_Some (s ++ 0 :: r) ppos cut)) as [b Eb]; [rewrite length_app; cbn [length]; lia|]. rewrite Eb. cbn [mbind option_bind].
    assert (b = take (Z.to_nat cut) (drop (Z.to_nat ppos) s)) as ->.
    { unfold bytes_at in Eb. destruct (_ && _); [|done]. injection Eb as <-. rewrite drop_app_le by lia. rewrite take_app_le by (rewrite length_drop; lia). done. }
    assert (length (drop (Z.to_nat ppos) s) = Z.to_nat k) as Hk by (rewrite length_drop; lia). set (s' := drop (Z.to_nat ppos) s) in *.
    destruct (Z.ltb_spec cut lenp) as [Hlt|Hlt].
    + rewrite (take_ge s') by lia. rewrite (take_ge (s' ++ [10])) by (rewrite length_app; cbn [length]; lia). rewrite length_app. cbn [length].
      rewrite wrapS_small by (unfold is_s; lia). do 3 f_equal; lia.
    + assert (cut = lenp) as -> by lia. rewrite take_app_le, length_take by lia. rewrite wrapS_small by (unfold is_s; lia). do 3 f_equal; lia.
  - destruct (sysctl_writes_strict =? SYSCTL_WRITES_STRICT).
    + rewrite Hc. cbn [mbind option_bind]. rewrite wrapU_small by (unfold is_u; lia). rewrite (proj2 (Z.ltb_ge (m - 1) _)) by lia.
      destruct (Z.ltb_spec (Z.of_nat (length s)) ppos); [by exists d|].
      destruct (string_store m d s buf ppos Hs ltac:(lia) H31) as (d1 & d2 & len' & -> & E2 & Hh). cbn [mbind option_bind]. rewrite E2. cbn [mbind option_bind].
      rewrite wrapS_small by (unfold is_s; lia). by exists d2.
    + cbn [mbind option_bind]. destruct (string_store m d s buf 0 Hs ltac:(lia) H31) as (d1 & d2 & len' & -> & E2 & Hh). cbn [mbind option_bind].
      rewrite E2. cbn [mbind option_bind]. rewrite wrapS_small by (unfold is_s; lia). exists d2. split; [done|].
      change (Z.to_nat 0) with 0%nat in Hh. by rewrite take_0 in Hh.
Qed.

End handlers.

(** ** Examples *)

Definition demo_ints : ctl_table := CtlTable (Some [5; -7]) 8 None None.

Lemma proc_dointvec_roundtrip_witness :
  proc_dointvec 1 demo_ints (ReadReq 3) 0 = Some (Some [5; -7], Res 0 [53; 9; 45] 3 3) ∧
  proc_dointvec 1 (CtlTable (Some [0; 0]) 8 None None) (WriteReq [53; 9; 45; 55; 10]) 0 = Some (Some [5; -7], Res 0 [] 5 5).
Proof.
  apply (proc_dointvec_roundtrip 1 demo_ints [5; -7] [0; 0] 3); [done..|by vm_compute|by repeat constructor|done|by vm_compute].
Defined.

(** Bounds 0 and 100, the text "10 500". *)
Definition demo_bounded : ctl_table := CtlTable (Some [1; 2; 3]) 12 (Some 0) (Some 100).

Lemma dointvec_minmax_stores_prefix_witness : ∃ r,
  proc_dointvec_minmax 1 demo_bounded (WriteReq [49; 48; 32; 53; 48; 48]) 0 = Some (Some [10; 2; 3], r) ∧ r_err r = - EINVAL.
Proof.
  destruct (dointvec_minmax_stores_prefix 1 demo_bounded [1; 2; 3] 10 [] [1] 2 [3] [53; 48; 48]) as (r & E & He & _); [done..|by repeat constructor| |by vm_compute|].
  - right. exists 500, []. by split_and!.
  - by exists r.
Defined.

Lemma bounded_files_witness : stays (bounded 32 demo_bounded) [1; 2; 3] (WriteReq [45; 49]) (proc_dointvec_minmax 1 demo_bounded (WriteReq [45; 49]) 0).
Proof. apply (bounded_files 1 demo_bounded [1; 2; 3] 0); [done..|]. repeat (constructor; [by split|]). constructor. Defined.

(** Locking BPF off, then trying to switch it on again, as root; taint flag 2 with flag 0
    set already; the statistics on, and off without the right to. *)
Definition demo_accesses : list access :=
  [Access BpfUnpriv true 1 (WriteReq [49]) 0; Access BpfUnpriv true 1 (WriteReq [48]) 0; Access Tainted true 1 (WriteReq [52]) 0;
   Access BpfStats true 1 (WriteReq [49]) 0; Access BpfStats false 1 (WriteReq [48]) 0; Access BpfUnpriv false 1 (ReadReq 9) 0].

Lemma kernel_flags_invariant_witness : ∃ s' calls,
  run 1 true 8 18 demo_accesses (Flags 0 2) = Some (s', calls) ∧ s' = Flags 1 1 ∧ calls = [Notify 1; AddTaint 2; SlowInc; Notify 1] ∧
  flags_rel true 8 18 (Flags 0 2) s' calls.
Proof.
  destruct (kernel_flags_invariant 1 true 8 18 demo_accesses (Flags 0 2)) as (s' & calls & E & _ & R & _); [by split|by repeat constructor|].
  exists s', calls. split; [exact E|]. split; [|split; [|exact R]]; revert E; vm_compute; by intros [= <- <-].
Defined.

(** A buffer of 8 bytes with "ab": writing "cde" at the end. *)
Lemma proc_dostring_refines_witness : ∃ d',
  proc_dostring 1 (CtlTable (Some [97; 98; 0; 0; 0; 0; 0; 0]) 8 None None) (WriteReq [99; 100; 101; 10]) 2 = Some (Some d', Res 0 [] 4 6) ∧
  holds_string 8 d' [97; 98; 99; 100; 101].
Proof.
  apply (proc_dostring_refines 1 (CtlTable (Some [97; 98; 0; 0; 0; 0; 0; 0]) 8 None None) [97; 98; 0; 0; 0; 0; 0; 0] [97; 98]
    (WriteReq [99; 100; 101; 10]) 2); done.
Defined.

End Sysctl.
