(* ===== verification/SysctlBitmap.v ===== *)
(** * Bitmaps as lists of ranges

    kernel/sysctl.c, [proc_do_large_bitmap]: a bitmap is shown as a list of numbers and
    ranges, [1,3-5], and written in the same form. *)

From Stdlib Require Import ZArith Lia.
From stdpp Require Import base numbers list sets.
From S2P Require Import Prelude Decimal SysctlText Sysctl.

Module SysctlBitmap.
Import Decimal SysctlText Sysctl.

(** What the code uses of lib/bitmap.c and lib/find_bit.c.  A bitmap is the list of its
    bits. *)
Class KernelBits := {
  find_next_bit : list bool → Z → Z → Z;
  find_next_zero_bit : list bool → Z → Z → Z;
  bitmap_set : list bool → Z → Z → list bool;
}.

(** [i] is the first bit from [off] on that is [v]; the size when there is none. *)
Definition first_bit (v : bool) (bits : list bool) (off i : Z) : Prop :=
  off ≤ i ≤ Z.of_nat (length bits) ∧ (∀ j, off ≤ j < i → zlookup bits j = Some (negb v)) ∧
  (i < Z.of_nat (length bits) → zlookup bits i = Some v).

Class KernelBitsLaws `{KernelBits} := {
  find_next_bit_spec : ∀ bits off, 0 ≤ off ≤ Z.of_nat (length bits) →
    first_bit true bits off (find_next_bit bits (Z.of_nat (length bits)) off);
  find_next_zero_bit_spec : ∀ bits off, 0 ≤ off ≤ Z.of_nat (length bits) →
    first_bit false bits off (find_next_zero_bit bits (Z.of_nat (length bits)) off);
  bitmap_set_spec : ∀ bits a n, 0 ≤ a → 0 ≤ n → a + n ≤ Z.of_nat (length bits) →
    length (bitmap_set bits a n) = length bits ∧
    ∀ j, 0 ≤ j < Z.of_nat (length bits) →
      zlookup (bitmap_set bits a n) j = if (a <=? j) && (j <? a + n) then Some true else zlookup bits j;
}.

Section bitmap.
Context `{KernelText} `{KernelBits}.

Definition tr_a : bytes := [45; 44; 10].
Definition tr_b : bytes := [44; 10; 0].

(** The turns of the loop: the error, what is left, and the bits.  [c] is the last
    trailing character, at first what the stack holds. *)
Fixpoint bitmap_write (fuel : nat) (bitmap_len skipped : Z) (p : bytes) (c : Z) (tmp_bitmap : list bool) : option (Z * Z * list bool) :=
  match fuel, p with
  | O, _ => None
  | S _, [] => Some (0, 0, tmp_bitmap)
  | S fuel, _ =>
      let saved_left := Z.of_nat (length p) in
      r ← proc_get_long p tr_a;
      let p := match r with inl _ => p | inr (_, _, _, p) => p end in
      if (length p <=? 1)%nat && negb (skipped =? 0) then
        Some (match r with inl err => err | inr _ => 0 end, saved_left, tmp_bitmap)
      else
        match r with
        | inl err => Some (err, Z.of_nat (length p), tmp_bitmap)
        | inr (val_a, neg, tr, _) =>
            let c := default c tr in
            if (bitmap_len <=? val_a) || neg then Some (- EINVAL, Z.of_nat (length p), tmp_bitmap)
            else
              let p := tail p in
              if c =? 45 then
                r ← proc_get_long p tr_b;
                let p := match r with inl _ => p | inr (_, _, _, p) => p end in
                if (length p =? 0)%nat && negb (skipped =? 0) then
                  Some (match r with inl err => err | inr _ => 0 end, saved_left, tmp_bitmap)
                else
                  match r with
                  | inl err => Some (err, Z.of_nat (length p), tmp_bitmap)
                  | inr (val_b, neg, tr, _) =>
                      let c := default c tr in
                      if (bitmap_len <=? val_b) || neg || (val_b <? val_a) then Some (- EINVAL, Z.of_nat (length p), tmp_bitmap)
                      else
                        bitmap_write fuel bitmap_len skipped (proc_skip_char (tail p) 10) c
                          (bitmap_set tmp_bitmap val_a (val_b - val_a + 1))
                  end
              else bitmap_write fuel bitmap_len skipped (proc_skip_char p 10) c (bitmap_set tmp_bitmap val_a 1)
        end
  end.

Fixpoint bitmap_read (fuel : nat) (bitmap : list bool) (bitmap_len : Z) (b : bytes * Z) (bit_b : Z) (first : bool) : option (bytes * Z) :=
  match fuel with
  | O => None
  | S fuel =>
      if b.2 =? 0 then Some b
      else
        let bit_a := find_next_bit bitmap bitmap_len bit_b in
        if bitmap_len <=? bit_a then Some b
        else
          let bit_b := find_next_zero_bit bitmap bitmap_len (bit_a + 1) - 1 in
          let b := if first then b else proc_put_char b 44 in
          let b := proc_put_long b bit_a false in
          let b := if negb (bit_a =? bit_b) then proc_put_long (proc_put_char b 45) bit_b false else b in
          bitmap_read fuel bitmap bitmap_len b (bit_b + 1) false
  end.

(** [mem]: there is memory for another bitmap. *)
Definition proc_do_large_bitmap (mem : bool) (stack : Z) (data : option (list bool)) (maxlen : Z) (rq : req) (ppos : Z) :
    option (option (list bool) * sysctl_res) :=
  let lenp := req_len rq in
  let bitmap_len := u64 maxlen in
  match data with
  | None => Some (None, nothing 0 ppos)
  | Some bitmap =>
      if (bitmap_len =? 0) || (lenp =? 0) || (negb (ppos =? 0) && negb (is_write rq)) then Some (data, nothing 0 ppos)
      else
        match rq with
        | WriteReq buf =>
            let p := one_page buf in
            let skipped := lenp - Z.of_nat (length p) in
            if negb mem then Some (data, Res (- ENOMEM) [] lenp ppos)
            else
              '(err, left_n, tmp_bitmap) ← bitmap_write (S (length p)) bitmap_len skipped (proc_skip_char p 10) stack
                (replicate (Z.to_nat bitmap_len) false);
              if err =? 0 then
                Some (Some (if negb (ppos =? 0) then zip_with orb bitmap tmp_bitmap else tmp_bitmap),
                  moved_on 0 [] lenp (left_n + skipped) ppos)
              else Some (data, Res err [] lenp ppos)
        | ReadReq _ =>
            b ← bitmap_read (S (Z.to_nat bitmap_len)) bitmap bitmap_len ([], lenp) 0 true;
            let b := proc_put_char b 10 in
            Some (data, moved_on 0 b.1 lenp b.2 ppos)
        end
  end.

(** ** The list of ranges *)

(** The maximal ranges of set bits, the first bit having the number [i]. *)
Fixpoint runs (i : Z) (bits : list bool) : list (Z * Z) :=
  match bits with
  | [] => []
  | false :: bits => runs (i + 1) bits
  | true :: bits =>
      match runs (i + 1) bits with
      | (a, b) :: rs => if a =? i + 1 then (i, b) :: rs else (i, i) :: (a, b) :: rs
      | [] => [(i, i)]
      end
  end.

Definition run_text (r : Z * Z) : bytes := dec r.1 ++ (if r.1 =? r.2 then [] else 45 :: dec r.2).

Definition comma_runs (rs : list (Z * Z)) : bytes := concat ((λ r, 44 :: run_text r) <$> rs).

Definition bitmap_text (rs : list (Z * Z)) : bytes :=
  match rs with [] => [10] | r :: rs => run_text r ++ comma_runs rs ++ [10] end.

Lemma runs_skip k i bits : runs i (replicate k false ++ bits) = runs (i + Z.of_nat k) bits.
Proof.
  revert i. induction k as [|k IH]; intros i; [by rewrite Z.add_0_r|]. cbn [replicate app runs]. rewrite IH. f_equal. lia.
Qed.

Lemma runs_above i bits : Forall (λ r, i ≤ r.1 ≤ r.2 ∧ r.2 < i + Z.of_nat (length bits)) (runs i bits).
Proof.
  revert i. induction bits as [|v bits IH]; intros i; [constructor|]. specialize (IH (i + 1)). cbn [runs length].
  assert (Forall (λ r, i ≤ r.1 ≤ r.2 ∧ r.2 < i + Z.of_nat (S (length bits))) (runs (i + 1) bits)) as IH'.
  { eapply Forall_impl; [exact IH|]. intros [a b]. cbn. lia. }
  destruct v; [|done]. destruct (runs (i + 1) bits) as [|[a b] rs]; [repeat constructor; cbn; lia|].
  apply Forall_cons in IH as [H1 _]. apply Forall_cons in IH' as [H2 H3]. cbn in H1, H2.
  destruct (a =? i + 1); repeat constructor; cbn; try lia; done.
Qed.

Lemma runs_block k i bits : head bits ≠ Some true →
  runs i (replicate (S k) true ++ bits) = (i, i + Z.of_nat k) :: runs (i + Z.of_nat (S k)) bits.
Proof.
  intros Hh. revert i. induction k as [|k IH]; intros i.
  - cbn [replicate app runs]. rewrite Z.add_0_r. change (Z.of_nat 1) with 1. destruct bits as [|[] bits]; [done|done|]. cbn [runs].
    pose proof (runs_above (i + 1 + 1) bits) as Ha. destruct (runs (i + 1 + 1) bits) as [|[a b] rs]; [done|].
    apply Forall_cons in Ha as [Ha _]. cbn in Ha. by rewrite (proj2 (Z.eqb_neq a (i + 1))) by lia.
  - change (replicate (S (S k)) true ++ bits) with (true :: (replicate (S k) true ++ bits)). cbn [runs].
    rewrite IH, Z.eqb_refl. f_equal; [f_equal; lia|f_equal; lia].
Qed.

Context `{!KernelTextLaws} `{!KernelBitsLaws}.

(** The loop of a read puts out the ranges from [bit_b] on. *)
Lemma zlookup_drop {A} (l : list A) n j : 0 ≤ n → 0 ≤ j → zlookup (drop (Z.to_nat n) l) j = zlookup l (n + j).
Proof.
  intros Hn Hj. unfold zlookup. rewrite (proj2 (Z.ltb_ge j 0)), (proj2 (Z.ltb_ge (n + j) 0)) by lia.
  rewrite lookup_drop. f_equal. lia.
Qed.

Lemma block_of_bits (v : bool) bits off i : 0 ≤ off → first_bit v bits off i →
  drop (Z.to_nat off) bits = replicate (Z.to_nat (i - off)) (negb v) ++ drop (Z.to_nat i) bits ∧ head (drop (Z.to_nat i) bits) ≠ Some (negb v).
Proof.
  intros Ho (Hi & Hlow & Hat). split.
  - apply list_eq. intros k. destruct (decide (k < Z.to_nat (i - off))%nat) as [Hk|Hk].
    + rewrite lookup_app_l by (rewrite length_replicate; done). rewrite lookup_drop, (proj2 (lookup_replicate _ _ _ _)) by done.
      specialize (Hlow (off + Z.of_nat k) ltac:(lia)). unfold zlookup in Hlow. rewrite (proj2 (Z.ltb_ge _ 0)) in Hlow by lia. rewrite <-Hlow. f_equal. lia.
    + rewrite lookup_app_r by (rewrite length_replicate; lia). rewrite length_replicate, !lookup_drop. f_equal. lia.
  - rewrite head_lookup, lookup_drop, Nat.add_0_r. destruct (Z.ltb_spec i (Z.of_nat (length bits))) as [Hl|Hl].
    + specialize (Hat Hl). unfold zlookup in Hat. rewrite (proj2 (Z.ltb_ge _ 0)) in Hat by lia. rewrite Hat. intros [= E]. by destruct v.
    + rewrite lookup_ge_None_2 by lia. done.
Qed.

Lemma next_run bits off : 0 ≤ off ≤ Z.of_nat (length bits) →
  let size := Z.of_nat (length bits) in
  let a := find_next_bit bits size off in
  if size <=? a then runs off (drop (Z.to_nat off) bits) = []
  else
    let b := find_next_zero_bit bits size (a + 1) - 1 in
    off ≤ a ≤ b ∧ b < size ∧ runs off (drop (Z.to_nat off) bits) = (a, b) :: runs (b + 1) (drop (Z.to_nat (b + 1)) bits).
Proof.
  intros Ho size a. pose proof (find_next_bit_spec bits off Ho) as Ha. fold size a in Ha. pose proof (block_of_bits true bits off a (proj1 Ho) Ha) as [E _].
  destruct Ha as (Hr & _ & Hat). cbn [negb] in E. rewrite E, runs_skip. replace (off + Z.of_nat (Z.to_nat (a - off))) with a by lia.
  destruct (Z.leb_spec size a) as [Hl|Hl]; [rewrite drop_ge by lia; done|]. cbv zeta.
  assert (0 ≤ a + 1 ≤ size) as Ho2 by lia. pose proof (find_next_zero_bit_spec bits (a + 1) Ho2) as Hz. fold size in Hz.
  set (z := find_next_zero_bit bits size (a + 1)) in *. pose proof (block_of_bits false bits (a + 1) z ltac:(lia) Hz) as [E2 Hh]. destruct Hz as (Hzr & _).
  cbn [negb] in E2, Hh. specialize (Hat Hl). unfold zlookup in Hat. rewrite (proj2 (Z.ltb_ge a 0)) in Hat by lia.
  replace (z - 1 + 1) with z by lia. split; [lia|]. split; [lia|]. rewrite (drop_S _ _ _ Hat).
  replace (S (Z.to_nat a)) with (Z.to_nat (a + 1)) by lia. rewrite E2.
  change (true :: (replicate (Z.to_nat (z - (a + 1))) true ++ drop (Z.to_nat z) bits)) with (replicate (S (Z.to_nat (z - (a + 1)))) true ++ drop (Z.to_nat z) bits).
  rewrite runs_block by done. f_equal; [f_equal; lia|f_equal; lia].
Qed.

Lemma bitmap_read_text fuel bits b off first : 0 ≤ b.2 → 0 ≤ off ≤ Z.of_nat (length bits) →
  (Z.to_nat (Z.of_nat (length bits) - off) < fuel)%nat →
  ∃ b', bitmap_read fuel bits (Z.of_nat (length bits)) b off first = Some b' ∧
    proc_put_char b' 10 = put_text b (let rs := runs off (drop (Z.to_nat off) bits) in
      if first then bitmap_text rs else comma_runs rs ++ [10]).
Proof.
  revert b off first. induction fuel as [|fuel IH]; intros b off first Hb Ho Hf; [lia|]. cbn [bitmap_read].
  destruct (Z.eqb_spec b.2 0) as [Hb0|Hb0].
  { exists b. split; [done|]. unfold proc_put_char. by rewrite Hb0, put_text_full. }
  pose proof (next_run bits off Ho) as Hrun. cbv zeta in Hrun |- *. set (size := Z.of_nat (length bits)) in *. set (a := find_next_bit bits size off) in *.
  destruct (size <=? a).
  { exists b. split; [done|]. rewrite put_char_text, Hrun by done. by destruct first. }
  set (z := find_next_zero_bit bits size (a + 1) - 1) in *. destruct Hrun as (Ha & Hz & ->).
  set (sep := if first then [] else [44]). set (b2 := proc_put_long (if first then b else proc_put_char b 44) a false).
  assert (b2 = put_text b (sep ++ dec a)) as Hb2.
  { assert ((if first then b else proc_put_char b 44) = put_text b sep) as Hs.
    { unfold sep. destruct first; [|by rewrite put_char_text]. unfold put_text. rewrite take_nil, app_nil_r. destruct b; cbn [fst snd length].
      f_equal. cbn in Hb. lia. }
    unfold b2. rewrite Hs, put_long_text by by apply put_text_room. by rewrite put_text_app. }
  assert (0 ≤ b2.2) as Hb20 by (rewrite Hb2; by apply put_text_room).
  assert ((if negb (a =? z) then proc_put_long (proc_put_char b2 45) z false else b2) = put_text b (sep ++ run_text (a, z))) as ->.
  { unfold run_text. cbn [fst snd]. destruct (a =? z); cbn [negb]; [by rewrite app_nil_r|]. rewrite put_char_text by done.
    rewrite put_long_text, Hb2, !put_text_app by (try apply put_text_room; done). f_equal. unfold long_text. cbn [app]. by rewrite <-!app_assoc. }
  destruct (IH (put_text b (sep ++ run_text (a, z))) (z + 1) false) as (b' & E & E2); [by apply put_text_room|lia|lia|].
  exists b'. split; [exact E|]. rewrite E2, put_text_app by done. f_equal. cbv zeta.
  unfold sep. destruct first; cbn [bitmap_text app]; unfold comma_runs; cbn [fmap list_fmap concat app]; by rewrite <-?app_assoc.
Qed.

(** ** What a write stores *)

Definition set_runs (bits : list bool) (rs : list (Z * Z)) : list bool := foldl (λ t r, bitmap_set t r.1 (r.2 - r.1 + 1)) bits rs.

Definition covered (rs : list (Z * Z)) (j : Z) : bool := existsb (λ r, (r.1 <=? j) && (j <=? r.2)) rs.

(** The ranges are inside the bitmap. *)
Definition runs_ok (size : Z) (rs : list (Z * Z)) : Prop := Forall (λ r, 0 ≤ r.1 ≤ r.2 ∧ r.2 < size) rs.

Lemma set_runs_spec bits rs : runs_ok (Z.of_nat (length bits)) rs → length (set_runs bits rs) = length bits ∧
  ∀ j, 0 ≤ j < Z.of_nat (length bits) → zlookup (set_runs bits rs) j = if covered rs j then Some true else zlookup bits j.
Proof.
  revert bits. induction rs as [|[a b] rs IH]; intros bits Hrs; [done|]. apply Forall_cons in Hrs as [Hr Hrs]. cbn in Hr.
  destruct (bitmap_set_spec bits a (b - a + 1)) as [Hl Hset]; [lia..|]. cbn [set_runs foldl fst snd]. fold (set_runs (bitmap_set bits a (b - a + 1)) rs).
  destruct (IH (bitmap_set bits a (b - a + 1))) as [Hl2 Hlk]; [by rewrite Hl|]. rewrite Hl in Hl2, Hlk. split; [done|].
  intros j Hj. rewrite Hlk, Hset by done. cbn [covered existsb fst snd]. fold (covered rs j).
  destruct (covered rs j), (Z.leb_spec a j), (Z.ltb_spec j (a + (b - a + 1))), (Z.leb_spec j b); cbn [andb orb]; try done; lia.
Qed.

Lemma runs_covered bits i k : 0 ≤ k < Z.of_nat (length bits) → zlookup bits k = Some (covered (runs i bits) (i + k)).
Proof.
  revert i k. induction bits as [|v bits IH]; intros i k Hk; [cbn in Hk; lia|]. cbn [length] in Hk. pose proof (runs_above (i + 1) bits) as Hab.
  destruct (decide (k = 0)) as [->|Hk0].
  - rewrite Z.add_0_r. change (zlookup (v :: bits) 0) with (Some v). f_equal.
    assert (∀ rs, Forall (λ r : Z * Z, i + 1 ≤ r.1) rs → covered rs i = false) as Hno.
    { induction 1 as [|[a b] rs Ha _ IH']; [done|]. cbn [covered existsb fst snd] in *. rewrite (proj2 (Z.leb_gt a i)) by (cbn in Ha; lia). exact IH'. }
    cbn [runs]. assert (Forall (λ r : Z * Z, i + 1 ≤ r.1) (runs (i + 1) bits)) as Hf by (eapply Forall_impl; [exact Hab|]; intros [a b]; cbn; lia).
    destruct v; [|by rewrite Hno]. destruct (runs (i + 1) bits) as [|[a b] rs]; cbn [covered existsb fst snd]; [by rewrite Z.leb_refl|].
    apply Forall_cons in Hab as [Hab _]. cbn in Hab. destruct (a =? i + 1); cbn [covered existsb fst snd]; rewrite Z.leb_refl; cbn [andb]; [|done].
    by rewrite (proj2 (Z.leb_le i b)) by lia.
  - assert (zlookup (v :: bits) k = zlookup bits (k - 1)) as ->.
    { unfold zlookup. rewrite (proj2 (Z.ltb_ge _ _)), (proj2 (Z.ltb_ge (k - 1) 0)) by lia. replace (Z.to_nat k) with (S (Z.to_nat (k - 1))) by lia. done. }
    rewrite (IH (i + 1)) by lia. replace (i + 1 + (k - 1)) with (i + k) by lia. f_equal. cbn [runs]. destruct v; [|done].
    destruct (runs (i + 1) bits) as [|[a b] rs]; cbn [covered existsb fst snd].
    { rewrite (proj2 (Z.leb_gt (i + k) i)) by lia. by rewrite andb_false_r. }
    destruct (Z.eqb_spec a (i + 1)) as [->|]; cbn [covered existsb fst snd].
    + rewrite (proj2 (Z.leb_le i (i + k))), (proj2 (Z.leb_le (i + 1) (i + k))) by lia. done.
    + rewrite (proj2 (Z.leb_gt (i + k) i)) by lia. by rewrite andb_false_r.
Qed.

(** Setting the ranges of a bitmap gives the bitmap. *)
Lemma set_runs_runs bits : set_runs (replicate (length bits) false) (runs 0 bits) = bits.
Proof.
  destruct (set_runs_spec (replicate (length bits) false) (runs 0 bits)) as [Hl Hlk].
  { rewrite length_replicate. eapply Forall_impl; [apply runs_above|]. intros [a b]. cbn. lia. }
  rewrite length_replicate in *. apply zlookup_eq. intros k. destruct (decide (0 ≤ k < Z.of_nat (length bits))) as [Hk|Hk].
  - rewrite Hlk, (runs_covered bits 0 k Hk) by done. rewrite Z.add_0_l. destruct (covered _ k); [done|]. unfold zlookup.
    rewrite (proj2 (Z.ltb_ge _ _)) by lia. apply lookup_replicate. split; [done|lia].
  - assert (zlookup (set_runs (replicate (length bits) false) (runs 0 bits)) k = None ∧ zlookup bits k = None) as [-> ->]; [|done].
    unfold zlookup. destruct (Z.ltb_spec k 0); [done|]. split; apply lookup_ge_None_2; lia.
Qed.

Lemma dec_text z : dec z = long_text z false.
Proof. done. Qed.

Lemma dec_length z : is_u 64 z → (1 ≤ length (dec z) ≤ 20)%nat.
Proof. intros Hz. pose proof (long_text_length z false Hz). unfold long_text in *. cbn [app] in *. lia. Qed.

(** A number with its trailer. *)
Lemma get_dec z t r sep : is_u 64 z → t ∈ sep → (t = 44 ∨ t = 45 ∨ t = 10) →
  proc_get_long (dec z ++ t :: r) sep = Some (inr (z, false, Some t, t :: r)).
Proof.
  intros Hz Ht Hc. rewrite dec_text. apply get_long_text; [done|pose proof (dec_length z Hz); unfold long_text; cbn [app]; lia|].
  intros c [= <-]. split; [done|]. by destruct Hc as [->|[->| ->]].
Qed.

Lemma write_turn fuel size p c tmp : p ≠ [] →
  bitmap_write (S fuel) size 0 p c tmp =
    (r ← proc_get_long p tr_a;
     match r with
     | inl err => Some (err, Z.of_nat (length p), tmp)
     | inr (val_a, neg, tr, p) =>
         let c := default c tr in
         if (size <=? val_a) || neg then Some (- EINVAL, Z.of_nat (length p), tmp)
         else if c =? 45 then
           r ← proc_get_long (tail p) tr_b;
           match r with
           | inl err => Some (err, Z.of_nat (length (tail p)), tmp)
           | inr (val_b, neg, tr, p) =>
               let c := default c tr in
               if (size <=? val_b) || neg || (val_b <? val_a) then Some (- EINVAL, Z.of_nat (length p), tmp)
               else bitmap_write fuel size 0 (proc_skip_char (tail p) 10) c (bitmap_set tmp val_a (val_b - val_a + 1))
           end
         else bitmap_write fuel size 0 (proc_skip_char (tail p) 10) c (bitmap_set tmp val_a 1)
     end).
Proof.
  intros Hp. destruct p as [|c0 p]; [done|]. cbn [bitmap_write]. destruct (proc_get_long (c0 :: p) tr_a) as [[e|[[[va neg] tr] p1]]|]; [|cbn [mbind option_bind]|done].
  - cbn [mbind option_bind Z.eqb negb]. by rewrite andb_false_r.
  - cbn [Z.eqb negb]. rewrite andb_false_r. cbv zeta. destruct (_ || _); [done|]. destruct (_ =? 45); [|done].
    destruct (proc_get_long (tail p1) tr_b) as [[e|[[[vb neg2] tr2] p2]]|]; [|cbn [mbind option_bind]|done].
    + cbn [mbind option_bind]. by rewrite andb_false_r.
    + by rewrite andb_false_r.
Qed.

(** One range with a comma or a newline behind it. *)
Lemma bitmap_write_run fuel size a b t r c tmp : 0 ≤ a ≤ b → b < size → size < 2 ^ 64 → (t = 44 ∨ t = 10) →
  bitmap_write (S fuel) size 0 (run_text (a, b) ++ t :: r) c tmp =
    bitmap_write fuel size 0 (proc_skip_char r 10) t (bitmap_set tmp a (b - a + 1)).
Proof.
  intros Ha Hb Hs Ht. assert (is_u 64 a ∧ is_u 64 b) as [Hau Hbu] by (unfold is_u; lia). unfold run_text. cbn [fst snd].
  rewrite write_turn. 2: { pose proof (dec_length a Hau). destruct (dec a); cbn [length] in *; [lia|done]. }
  assert (t ∈ tr_a ∧ t ∈ tr_b) as [Hta Htb] by (destruct Ht as [-> | ->]; split; by apply (bool_decide_unpack _)).
  assert ((size <=? a) = false ∧ (size <=? b) = false) as [Hsa Hsb] by (split; apply Z.leb_gt; lia).
  destruct (Z.eqb_spec a b) as [->|Hne].
  - rewrite app_nil_r, get_dec; [|done|done|lia]. cbn [mbind option_bind]. cbv zeta. change (default c (Some t)) with t. rewrite Hsb. cbn [orb].
    rewrite (proj2 (Z.eqb_neq t 45)) by lia. cbn [tail]. by replace (b - b + 1) with 1 by lia.
  - rewrite <-app_assoc. cbn [app]. rewrite get_dec; [|done|by apply (bool_decide_unpack _)|lia]. cbn [mbind option_bind]. cbv zeta. change (default c (Some 45)) with 45.
    rewrite Hsa. cbn [orb Z.eqb Pos.eqb tail]. rewrite get_dec; [|done|done|lia]. cbn [mbind option_bind]. rewrite Hsb, (proj2 (Z.ltb_ge b a)) by lia.
    done.
Qed.

Lemma run_text_head r : 0 ≤ r.1 → ∃ c l, run_text r = c :: l ∧ c ≠ 10.
Proof.
  intros Hr. unfold run_text. destruct (dec_spec r.1 Hr) as (Hd & _ & Hl & _). destruct (dec r.1) as [|c l]; [cbn in Hl; lia|].
  apply Forall_cons in Hd as [Hc%is_digit_spec _]. eexists c, _. split; [reflexivity|lia].
Qed.

Lemma bitmap_write_runs fuel size r rs c tmp : runs_ok size (r :: rs) → size < 2 ^ 64 → (length rs + 1 < fuel)%nat →
  bitmap_write fuel size 0 (run_text r ++ comma_runs rs ++ [10]) c tmp = Some (0, 0, set_runs tmp (r :: rs)).
Proof.
  intros Hok Hs. revert r c tmp fuel Hok. induction rs as [|r2 rs IH]; intros [a b] c tmp fuel Hok Hf;
    (destruct fuel as [|fuel]; [lia|]); apply Forall_cons in Hok as [Hr Hok]; cbn in Hr.
  - cbn [comma_runs fmap list_fmap concat app]. rewrite bitmap_write_run by lia. cbn [proc_skip_char set_runs foldl fst snd].
    destruct fuel; [cbn in Hf; lia|done].
  - unfold comma_runs. cbn [fmap list_fmap concat app]. fold (comma_runs rs). rewrite bitmap_write_run by lia.
    pose proof Hok as Hr2. apply Forall_cons in Hr2 as [Hr2 _]. destruct (run_text_head r2 (proj1 (proj1 Hr2))) as (c2 & l & E & Hc2).
    rewrite <-app_assoc. assert (proc_skip_char (run_text r2 ++ comma_runs rs ++ [10]) 10 = run_text r2 ++ comma_runs rs ++ [10]) as ->.
    { rewrite E. cbn [app proc_skip_char]. by rewrite (proj2 (Z.eqb_neq _ _) Hc2). }
    rewrite IH by (done || (cbn [length] in Hf; lia)). done.
Qed.

Lemma comma_runs_length rs : (length rs ≤ length (comma_runs rs))%nat.
Proof. unfold comma_runs. induction rs as [|r rs IH]; [done|]. cbn [fmap list_fmap concat length app]. rewrite length_app. lia. Qed.

(** A bitmap is shown as the list of its maximal ranges, cut at the end of the buffer, and
    writing that list at the start of the file gives the same bitmap, whatever was in it. *)
Theorem large_bitmap_roundtrip stack bits old lenp : bits ≠ [] → length old = length bits → Z.of_nat (length bits) < 2 ^ 31 →
  0 < lenp < 2 ^ 63 → Z.of_nat (length (bitmap_text (runs 0 bits))) < PAGE_SIZE →
  let text := bitmap_text (runs 0 bits) in
  proc_do_large_bitmap true stack (Some bits) (Z.of_nat (length bits)) (ReadReq lenp) 0 =
    Some (Some bits, let out := take (Z.to_nat lenp) text in Res 0 out (Z.of_nat (length out)) (Z.of_nat (length out))) ∧
  proc_do_large_bitmap true stack (Some old) (Z.of_nat (length bits)) (WriteReq text) 0 =
    Some (Some bits, Res 0 [] (Z.of_nat (length text)) (Z.of_nat (length text))).
Proof.
  intros Hne Hold H31 Hl Hp text. unfold proc_do_large_bitmap. set (size := Z.of_nat (length bits)) in *. cbv zeta. cbn [req_len is_write Z.eqb negb andb].
  rewrite (wrapU_small 64 size) by (unfold is_u; lia). assert (size ≠ 0) as Hs0 by (destruct bits; [done|cbn in size; lia]).
  rewrite (proj2 (Z.eqb_neq size 0)), (proj2 (Z.eqb_neq lenp 0)) by lia. cbn [orb]. split.
  - destruct (bitmap_read_text (S (Z.to_nat size)) bits ([], lenp) 0 true) as (b & E & Hb); [cbn; lia|lia|lia|]. fold size in E. rewrite E.
    cbn [mbind option_bind]. rewrite Hb, put_text_start by lia. change (Z.to_nat 0) with 0%nat. rewrite drop_0. cbv zeta. fold text.
    assert (Z.of_nat (length (take (Z.to_nat lenp) text)) ≤ lenp) by (rewrite length_take; lia). cbn [fst snd]. rewrite moved_on_small by lia. do 3 f_equal; lia.
  - assert (0 < length text)%nat as Ht by (unfold text, bitmap_text; destruct (runs 0 bits); [cbn; lia|rewrite !length_app; cbn [length]; lia]).
    rewrite (proj2 (Z.eqb_neq (Z.of_nat (length text)) 0)) by lia. cbn [negb]. rewrite one_page_all by done. rewrite Z.sub_diag.
    assert (bitmap_write (S (length text)) size 0 (proc_skip_char text 10) stack (replicate (Z.to_nat size) false) = Some (0, 0, bits)) as ->.
    { unfold size. rewrite Nat2Z.id. fold size. assert (∀ x : list bool, x = bits → Some (0, 0, bits) = Some (0, 0, x)) as Hx by (by intros x ->).
      rewrite (Hx _ (set_runs_runs bits)). clear Hx. unfold text, bitmap_text.
      pose proof (runs_above 0 bits) as Hab. destruct (runs 0 bits) as [|r rs] eqn:Er; [done|].
      assert (runs_ok size (r :: rs)) as Hok by (eapply Forall_impl; [exact Hab|]; intros [x y]; cbn; lia).
      pose proof Hok as Hr. apply Forall_cons in Hr as [Hr _]. destruct (run_text_head r (proj1 (proj1 Hr))) as (c2 & l & E & Hc2).
      assert (∀ x, proc_skip_char (run_text r ++ x) 10 = run_text r ++ x) as Hskip.
      { intros x. rewrite E. cbn [app proc_skip_char]. by rewrite (proj2 (Z.eqb_neq _ _) Hc2). }
      rewrite Hskip. apply bitmap_write_runs; [done|lia|]. rewrite !length_app. pose proof (comma_runs_length rs). cbn [length]. lia. }
    cbn [mbind option_bind Z.eqb negb]. unfold PAGE_SIZE in Hp. fold text in Hp. rewrite moved_on_small by lia. do 3 f_equal; lia.
Qed.

(** ** Every write *)

Lemma get_range sep p : sep = tr_a ∨ sep = tr_b → ∃ r, proc_get_long p sep = Some r ∧
  match r with
  | inl err => err = - EINVAL
  | inr (val, neg, tr, rest) => is_u 64 val ∧ (length rest < length p)%nat ∧ tr = head rest
  end.
Proof.
  intros Hs. apply get_long_total; destruct Hs as [-> | ->]; try done; intros c Hc.
  - assert (c = 45 ∨ c = 44 ∨ c = 10) as [-> | [-> | ->]] by (revert Hc; unfold tr_a; rewrite !elem_of_cons; intros [?|[?|[?|?%not_elem_of_nil]]]; tauto); done.
  - assert (c = 44 ∨ c = 10 ∨ c = 0) as [-> | [-> | ->]] by (revert Hc; unfold tr_b; rewrite !elem_of_cons; intros [?|[?|[?|?%not_elem_of_nil]]]; tauto); done.
Qed.

Lemma tail_length (p : bytes) : (length (tail p) ≤ length p)%nat.
Proof. destruct p; cbn; lia. Qed.

Lemma bitmap_write_total fuel skipped p c tmp : (length p < fuel)%nat →
  ∃ err n tmp', bitmap_write fuel (Z.of_nat (length tmp)) skipped p c tmp = Some (err, n, tmp') ∧ (err = 0 ∨ err = - EINVAL) ∧
    length tmp' = length tmp ∧ 0 ≤ n ≤ Z.of_nat (length p).
Proof.
  revert p c tmp. induction fuel as [|fuel IH]; intros p c tmp Hf; [lia|]. destruct p as [|c0 p0]; [exists 0, 0, tmp; split_and!; auto; done|].
  cbn [bitmap_write]. set (p := c0 :: p0) in *. destruct (get_range tr_a p (or_introl eq_refl)) as (r & -> & Hr). cbn [mbind option_bind]. cbv zeta.
  destruct (_ && negb (skipped =? 0)).
  { eexists _, _, _. split; [reflexivity|]. split; [destruct r as [e|[[[? ?] ?] ?]]; auto|]. split; [done|lia]. }
  destruct r as [e|[[[va neg] tr] p1]]; [eexists _, _, _; split_and!; eauto; lia|]. destruct Hr as (Hva & Hl1 & _). pose proof (tail_length p1) as Ht1.
  destruct (_ || neg) eqn:Ea; [eexists _, _, _; split_and!; eauto; lia|]. apply orb_false_iff in Ea as [Ea%Z.leb_gt _]. unfold is_u in Hva.
  destruct (_ =? 45).
  - destruct (get_range tr_b (tail p1) (or_intror eq_refl)) as (r2 & -> & Hr2). cbn [mbind option_bind].
    destruct (_ && negb (skipped =? 0)).
    { eexists _, _, _. split; [reflexivity|]. split; [destruct r2 as [e|[[[? ?] ?] ?]]; auto|]. split; [done|lia]. }
    destruct r2 as [e|[[[vb neg2] tr2] p2]]; [eexists _, _, _; split_and!; eauto; lia|]. destruct Hr2 as (Hvb & Hl2 & _). pose proof (tail_length p2) as Ht2.
    destruct (_ || _) eqn:Eb; [eexists _, _, _; split_and!; eauto; lia|].
    apply orb_false_iff in Eb as [[Eb%Z.leb_gt _]%orb_false_iff Eab%Z.ltb_ge].
    destruct (bitmap_set_spec tmp va (vb - va + 1)) as [Hlen _]; [lia..|]. pose proof (skip_char_length (tail p2) 10) as Hsk.
    destruct (IH (proc_skip_char (tail p2) 10) (default (default c tr) tr2) (bitmap_set tmp va (vb - va + 1))) as (err & n & tmp' & E & He & Hl & Hn); [lia|].
    rewrite Hlen in E, Hl. eexists _, _, _. split; [exact E|]. split_and!; [done|done|lia..].
  - destruct (bitmap_set_spec tmp va 1) as [Hlen _]; [lia..|]. pose proof (skip_char_length (tail p1) 10) as Hsk.
    destruct (IH (proc_skip_char (tail p1) 10) (default c tr) (bitmap_set tmp va 1)) as (err & n & tmp' & E & He & Hl & Hn); [lia|].
    rewrite Hlen in E, Hl. eexists _, _, _. split; [exact E|]. split_and!; [done|done|lia..].
Qed.

(** C7: Writing a bitmap is all or nothing: whatever the bytes, the call ends, and when it fails
    no bit, position or length has changed.  A write behind the start of the file never
    clears a bit. *)
Theorem large_bitmap_write_atomic mem stack bits buf ppos : bits ≠ [] → Z.of_nat (length bits) < 2 ^ 31 →
  0 ≤ ppos → ppos + Z.of_nat (length buf) < 2 ^ 63 →
  ∃ bits' r, proc_do_large_bitmap mem stack (Some bits) (Z.of_nat (length bits)) (WriteReq buf) ppos = Some (Some bits', r) ∧
    length bits' = length bits ∧ (r_err r = 0 ∨ r_err r = - EINVAL ∨ r_err r = - ENOMEM) ∧
    (r_err r ≠ 0 → bits' = bits ∧ r_len r = Z.of_nat (length buf) ∧ r_pos r = ppos) ∧
    (r_err r = 0 → 0 ≤ r_len r ≤ Z.of_nat (length buf) ∧ r_pos r = ppos + r_len r) ∧
    (ppos ≠ 0 → ∀ j, zlookup bits j = Some true → zlookup bits' j = Some true).
Proof.
  intros Hne H31 Hp Ho. unfold proc_do_large_bitmap. cbn [req_len is_write negb]. rewrite andb_false_r, orb_false_r. cbv zeta.
  rewrite (wrapU_small 64) by (unfold is_u; lia). rewrite (proj2 (Z.eqb_neq _ 0)) by (destruct bits; [done|cbn; lia]). cbn [orb].
  destruct (Z.eqb_spec (Z.of_nat (length buf)) 0) as [Hbuf|Hbuf].
  { exists bits, (nothing 0 ppos). cbn [nothing r_err r_len r_pos]. split_and!; auto; try done; lia. }
  destruct mem; cbn [negb]; [|eexists bits, _; cbn [r_err r_len r_pos]; split_and!; [reflexivity|auto..|done|done]].
  set (p := one_page buf). assert (length p ≤ length buf)%nat as Hlp by (unfold p, one_page; rewrite length_take; lia).
  pose proof (skip_char_length p 10) as Hsk.
  destruct (bitmap_write_total (S (length p)) (Z.of_nat (length buf) - Z.of_nat (length p)) (proc_skip_char p 10) stack (replicate (length bits) false))
    as (err & n & tmp' & E & He & Hl & Hn); [lia|]. rewrite length_replicate in E, Hl. rewrite Nat2Z.id, E. cbn [mbind option_bind].
  destruct (Z.eqb_spec err 0) as [->|Herr].
  - eexists _, _. split; [reflexivity|]. rewrite moved_on_small by lia. cbn [r_err r_len r_pos]. split.
    { destruct (negb (ppos =? 0)); [|done]. by rewrite length_zip_with, Hl, Nat.min_id. }
    split; [by left|]. split; [done|]. split; [lia|]. intros Hpos j Hj. rewrite (proj2 (Z.eqb_neq _ _) Hpos). cbn [negb].
    unfold zlookup in *. destruct (j <? 0); [done|]. rewrite lookup_zip_with, Hj. cbn [mbind option_bind].
    destruct (lookup_lt_is_Some_2 tmp' (Z.to_nat j)) as [v ->]; [rewrite Hl; by eapply lookup_lt_Some|]. done.
  - exists bits, (Res err [] (Z.of_nat (length buf)) ppos). cbn [r_err r_len r_pos]. split_and!; try done. destruct He; auto.
Qed.

(** A single number without a newline: what the call answers is what the stack held. *)
Lemma large_bitmap_reads_stack stack bits v : Z.of_nat (length bits) < 2 ^ 31 → 0 ≤ v < Z.of_nat (length bits) →
  ∃ r, snd <$> proc_do_large_bitmap true stack (Some bits) (Z.of_nat (length bits)) (WriteReq (dec v)) 0 = Some r ∧
    r_err r = if stack =? 45 then - EINVAL else 0.
Proof.
  intros H31 Hv. assert (is_u 64 v) as Hu by (unfold is_u; lia). pose proof (dec_length v Hu) as Hl. unfold proc_do_large_bitmap. cbn [req_len is_write negb].
  rewrite andb_false_r, orb_false_r. cbv zeta. rewrite (wrapU_small 64) by (unfold is_u; lia). rewrite !(proj2 (Z.eqb_neq _ 0)) by lia. cbn [orb negb].
  rewrite one_page_all by (unfold PAGE_SIZE; lia). rewrite Z.sub_diag. pose proof (get_long_text v false [] tr_a Hu) as Hg. rewrite app_nil_r in Hg.
  change (long_text v false) with (dec v) in Hg. destruct (run_text_head (v, v)) as (c & l & E & Hc); [cbn; lia|]. unfold run_text in E. cbn [fst snd] in E.
  rewrite Z.eqb_refl, app_nil_r in E. assert (proc_skip_char (dec v) 10 = dec v) as -> by (rewrite E; cbn; by rewrite (proj2 (Z.eqb_neq _ _) Hc)).
  rewrite write_turn by by rewrite E. rewrite Hg by (done || lia). cbn [mbind option_bind head]. cbv zeta. change (default stack (@None Z)) with stack.
  rewrite (proj2 (Z.leb_gt _ v)) by lia. cbn [orb tail]. destruct (stack =? 45).
  - cbn [proc_get_long mbind option_bind length]. by eexists.
  - destruct (length (dec v)) as [|n] eqn:En; [lia|]. cbn [proc_skip_char bitmap_write mbind option_bind Z.eqb]. by eexists.
Qed.

End bitmap.

(** ** An instance *)

Fixpoint lead (v : bool) (bits : list bool) : nat :=
  match bits with b :: bits => if Bool.eqb b v then 0 else S (lead v bits) | [] => 0 end.

Definition c_find (v : bool) (bits : list bool) (size off : Z) : Z := off + Z.of_nat (lead v (drop (Z.to_nat off) bits)).

Definition c_set (bits : list bool) (a n : Z) : list bool :=
  take (Z.to_nat a) bits ++ replicate (Z.to_nat n) true ++ drop (Z.to_nat (a + n)) bits.

#[export] Instance c_bits : KernelBits := {| find_next_bit := c_find true; find_next_zero_bit := c_find false; bitmap_set := c_set |}.

Lemma lead_spec v bits : (lead v bits ≤ length bits)%nat ∧ (∀ k, (k < lead v bits)%nat → bits !! k = Some (negb v)) ∧
  ((lead v bits < length bits)%nat → bits !! lead v bits = Some v).
Proof.
  induction bits as [|b bits (I1 & I2 & I3)]; cbn [lead length]; [split_and!; [lia|lia|lia]|]. destruct (Bool.eqb b v) eqn:E.
  - apply Bool.eqb_prop in E as ->. split_and!; [lia|lia|done].
  - apply Bool.eqb_false_iff in E. split_and!; [lia| |intros; apply I3; lia]. intros [|k] Hk; [|apply I2; lia]. cbn. f_equal. by destruct b, v.
Qed.

Lemma c_find_spec v bits off : 0 ≤ off ≤ Z.of_nat (length bits) → first_bit v bits off (c_find v bits (Z.of_nat (length bits)) off).
Proof.
  intros Ho. unfold c_find, first_bit. destruct (lead_spec v (drop (Z.to_nat off) bits)) as (L1 & L2 & L3). rewrite length_drop in L1, L3.
  set (n := lead v (drop (Z.to_nat off) bits)) in *. split; [lia|]. split.
  - intros j Hj. unfold zlookup. rewrite (proj2 (Z.ltb_ge j 0)) by lia. specialize (L2 (Z.to_nat (j - off)) ltac:(lia)). rewrite lookup_drop in L2.
    rewrite <-L2. f_equal. lia.
  - intros Hl. specialize (L3 ltac:(lia)). rewrite lookup_drop in L3. unfold zlookup. rewrite (proj2 (Z.ltb_ge _ 0)) by lia. rewrite <-L3. f_equal. lia.
Qed.

#[export] Instance c_bits_laws : KernelBitsLaws.
Proof.
  split; [apply (c_find_spec true)|apply (c_find_spec false)|]. intros bits a n Ha Hn Hl. cbn. unfold c_set.
  assert (length (take (Z.to_nat a) bits) = Z.to_nat a) as La by (rewrite length_take; lia).
  split; [rewrite !length_app, length_replicate, length_drop; lia|]. intros j Hj. unfold zlookup. rewrite (proj2 (Z.ltb_ge j 0)) by lia.
  destruct (Z.leb_spec a j); cbn [andb].
  - rewrite lookup_app_r by lia. rewrite La. destruct (Z.ltb_spec j (a + n)).
    + rewrite lookup_app_l by (rewrite length_replicate; lia). apply lookup_replicate. split; [done|lia].
    + rewrite lookup_app_r by (rewrite length_replicate; lia). rewrite length_replicate, lookup_drop. f_equal. lia.
  - rewrite lookup_app_l by lia. apply lookup_take_lt. lia.
Qed.

(** ** Examples *)

(** The bits 1, 3, 4 and 5 of eight: [1,3-5]. *)
Definition demo_bits : list bool := [false; true; false; true; true; true; false; false].

Lemma large_bitmap_roundtrip_witness : 
  proc_do_large_bitmap true 0 (Some demo_bits) 8 (ReadReq 100) 0 = Some (Some demo_bits, Res 0 [49; 44; 51; 45; 53; 10] 6 6) ∧
  proc_do_large_bitmap true 0 (Some (replicate 8 true)) 8 (WriteReq [49; 44; 51; 45; 53; 10]) 0 = Some (Some demo_bits, Res 0 [] 6 6).
Proof. apply (large_bitmap_roundtrip 0 demo_bits (replicate 8 true) 100); done. Defined.

(** A range that ends outside. *)
Lemma large_bitmap_write_atomic_witness : ∃ r,
  proc_do_large_bitmap true 0 (Some demo_bits) 8 (WriteReq [48; 44; 50; 45; 57; 10]) 0 = Some (Some demo_bits, r) ∧ r_err r = - EINVAL.
Proof.
  destruct (large_bitmap_write_atomic true 0 demo_bits [48; 44; 50; 45; 57; 10] 0) as (bits' & r & E & _ & _ & Hf & _); [done..|].
  assert (r_err r = - EINVAL) as He by (revert E; vm_compute; by intros [= <- <-]).
  destruct (Hf ltac:(by rewrite He)) as [-> _]. exists r. split; [exact E|done].
Defined.

End SysctlBitmap.
