(* ===== verification/RuntimeInfo.v ===== *)
(** * The hardware information from firmware to sysfs

    MyPkg/RuntimeInfoDxe/RuntimeInfoDxe.c stores a text in two UEFI variables;
    linux drivers/firmware/efi/my_runtime_info.c reads one of them into a
    buffer of 256 bytes and shows it in /sys/firmware/runtime_info/info.

    The UEFI variable service lies between the two: it is an interface with
    the behaviour that the UEFI specification documents, and the theorem holds
    for every implementation of it. *)

From Stdlib Require Import ZArith Lia.
From stdpp Require Import base numbers list strings.
From S2P Require Import Prelude.

Module RuntimeInfo.

Definition EFI_SUCCESS : Z := 0.
Definition EFI_BUFFER_TOO_SMALL : Z := 2 ^ 63 + 5.
Definition EFI_OUT_OF_RESOURCES : Z := 2 ^ 63 + 9.

(** [EFI_ERROR]: the highest bit. *)
Definition EFI_ERROR (Status : Z) : bool := 2 ^ 63 <=? Status.

Definition EFI_VARIABLE_NON_VOLATILE : Z := 1.
Definition EFI_VARIABLE_BOOTSERVICE_ACCESS : Z := 2.
Definition EFI_VARIABLE_RUNTIME_ACCESS : Z := 4.

Definition variable_attributes : Z :=
  Z.lor (Z.lor EFI_VARIABLE_BOOTSERVICE_ACCESS EFI_VARIABLE_RUNTIME_ACCESS)
    EFI_VARIABLE_NON_VOLATILE.

(** GUIDs as 128-bit numbers; the kernel spells its own copy of each. *)
Definition gEfiGlobalVariableGuid : Z := 0x8be4df6193ca11d2aa0d00e098032b8c.
Definition gMyRuntimeInfoProtocolGuid : Z := 0x123456789abcdef012345678abcdef00.
Definition EFI_GLOBAL_VARIABLE_GUID : Z := 0x8be4df6193ca11d2aa0d00e098032b8c.
Definition MY_GUID : Z := 0x123456789abcdef012345678abcdef00.

(** The variable service.  [get_variable v name guid size] is the status, the
    new size and the bytes written to the start of the buffer. *)
Class VariableService := {
  vars : Type;
  set_variable : vars → string → Z → Z → list Z → Z * vars;
  get_variable : vars → string → Z → Z → Z * Z * list Z;
  (** nothing beyond the given size is written, and on success the size is
      the number of bytes written *)
  get_bounds v name guid size status size' data :
    get_variable v name guid size = (status, size', data) →
    Z.of_nat (length data) ≤ Z.max 0 size ∧
    (status = EFI_SUCCESS → size' = Z.of_nat (length data));
  (** a variable that was stored with runtime access is read back *)
  get_set v v' name guid attr data size :
    set_variable v name guid attr data = (EFI_SUCCESS, v') →
    Z.land attr EFI_VARIABLE_RUNTIME_ACCESS ≠ 0 → data ≠ [] →
    Z.of_nat (length data) ≤ size →
    get_variable v' name guid size = (EFI_SUCCESS, Z.of_nat (length data), data);
  (** other variables are not affected, and a refused call stores nothing *)
  get_set_ne v name guid attr data name' guid' size :
    (name, guid) ≠ (name', guid') →
    get_variable (set_variable v name guid attr data).2 name' guid' size =
      get_variable v name' guid' size;
  set_status v name guid attr data :
    (set_variable v name guid attr data).1 = EFI_SUCCESS ∨
    EFI_ERROR (set_variable v name guid attr data).1 = true;
  set_refused v name guid attr data :
    EFI_ERROR (set_variable v name guid attr data).1 = true →
    (set_variable v name guid attr data).2 = v }.

(** ** Strings in memory *)

Definition Msg : list Z := s2b "Hardware Info from Runtime Protocol".

Definition AsciiStrSize (s : list Z) : Z := Z.of_nat (length s) + 1.

(** ** RuntimeInfoDxe.c *)

(** [Buffer] is the caller's buffer; the new size and contents. *)
Definition MyGetInfoImpl (Buffer : list Z) (BufferSize : Z) : option (Z * Z * list Z) :=
  let Len := Z.of_nat (length Msg) + 1 in
  if BufferSize <? Len then Some (EFI_BUFFER_TOO_SMALL, Len, Buffer)
  else
    match put_at Buffer 0 (Msg ++ [0]) with
    | None => None
    | Some Buffer => Some (EFI_SUCCESS, Len, Buffer)
    end.

Section service.
Context {VS : VariableService}.

(** [AsciiStrCpyS]: the string with its NUL, when it fits in [DestMax]. *)
Definition AsciiStrCpyS (Dest : list Z) (DestMax : Z) (Src : list Z) : option (list Z) :=
  if DestMax <=? Z.of_nat (length Src) then Some Dest else put_at Dest 0 (Src ++ [0]).

(** Firmware: the variables, and the runtime pool blocks still allocated. *)
Record firmware := Firmware { fw_vars : vars; fw_pool : Z; fw_protocol : bool }.

(** [pool] is the block that [AllocateRuntimePool] returns, [installed] the
    status of [InstallMultipleProtocolInterfaces]. *)
Definition RuntimeInfoEntryPoint (pool : option (list Z)) (installed : Z) (fw : firmware) :
    option (Z * firmware) :=
  match pool with
  | None => Some (EFI_OUT_OF_RESOURCES, fw)
  | Some Info =>
      let fw := Firmware (fw_vars fw) (fw_pool fw + 1) (fw_protocol fw) in
      match AsciiStrCpyS Info (AsciiStrSize Msg) Msg with
      | None => None
      | Some Info =>
          match cstr Info with
          | None => None
          | Some s =>
              let Size := AsciiStrSize s in
              if EFI_ERROR installed then
                Some (installed, Firmware (fw_vars fw) (fw_pool fw - 1) (fw_protocol fw))
              else
                let data := take (Z.to_nat Size) Info in
                let '(_, v) := set_variable (fw_vars fw) "MyTestInfo" gEfiGlobalVariableGuid
                                 variable_attributes data in
                let '(_, v) := set_variable v "MyRuntimeInfo" gMyRuntimeInfoProtocolGuid
                                 variable_attributes data in
                Some (EFI_SUCCESS, Firmware v (fw_pool fw) true)
          end
      end
  end.

(** ** my_runtime_info.c *)

(** The module: its buffer, whether [runtime_kobj] is set, whether the object
    exists and whether the attribute file does. *)
Record module_state := ModuleState {
  info_buf : list Z;
  runtime_kobj : bool;
  kobj_live : bool;
  info_file : bool }.

Definition module0 : module_state := ModuleState (replicate 256 0) false false false.

Definition set_buf (b : list Z) (m : module_state) : module_state :=
  ModuleState b (runtime_kobj m) (kobj_live m) (info_file m).

Definition write_buf (off : Z) (bs : list Z) : st module_state unit :=
  m ← get;
  b ← lift (put_at (info_buf m) off bs);
  put (set_buf b m).

(** The text that [sysfs_emit] puts in the page. *)
Definition info_show : st module_state (list Z) :=
  m ← get;
  s ← lift (cstr (info_buf m));
  mret (take 4095 (s ++ [10])).

(** [efi_get_variable] is NULL when [available] is false. *)
Definition call_runtime_protocol (available : bool) (v : vars) : st module_state Z :=
  if negb available then mret (- ENOSYS)
  else
    let size := 256 - 1 in
    let '(status, size, data) := get_variable v "MyTestInfo" EFI_GLOBAL_VARIABLE_GUID size in
    write_buf 0 data ;;
    if status =? EFI_SUCCESS then write_buf size [0] ;; mret 0
    else
      let size := 256 - 1 in
      let '(status, size, data) := get_variable v "MyRuntimeInfo" MY_GUID size in
      write_buf 0 data ;;
      if negb (status =? EFI_SUCCESS) then mret (- ENODEV)
      else write_buf size [0] ;; mret 0.

(** [kobj]: the object could be created; [file]: the error of creating the
    attribute file. *)
Definition my_runtime_info_init (runtime_services available : bool) (v : vars) (kobj : bool)
    (file : Z) : st module_state Z :=
  if negb runtime_services then mret (- ENODEV)
  else
    ret ← call_runtime_protocol available v;
    (if negb (ret =? 0) then write_buf 0 (take 255 (s2b "Failed to get EFI variable") ++ [0])
     else mret tt) ;;
    if negb kobj then
      modify (λ m, ModuleState (info_buf m) false (kobj_live m) (info_file m)) ;;
      mret (- ENOMEM)
    else
      modify (λ m, ModuleState (info_buf m) true true (info_file m)) ;;
      if negb (file =? 0) then
        modify (λ m, ModuleState (info_buf m) (runtime_kobj m) false (info_file m)) ;;
        mret (- EFAULT)
      else
        modify (λ m, ModuleState (info_buf m) (runtime_kobj m) (kobj_live m) true) ;;
        mret 0.

(** Releasing an object that does not exist any more is a fault. *)
Definition my_runtime_info_exit : st module_state unit :=
  m ← get;
  if runtime_kobj m then
    if kobj_live m then put (ModuleState (info_buf m) (runtime_kobj m) false false) else fault
  else mret tt.

End service.

(** ** Buffers *)

Lemma Msg_nonzero : Forall (λ c, c ≠ 0) Msg.
Proof. vm_compute. repeat constructor; discriminate. Qed.

Section facts.
Context {VS : VariableService}.

Definition data0 : list Z := Msg ++ [0].

(** The text of the firmware reaches both variables. *)
Lemma entry_stores pool installed fw :
  36 ≤ Z.of_nat (length pool) → EFI_ERROR installed = false →
  let r1 := set_variable (fw_vars fw) "MyTestInfo" gEfiGlobalVariableGuid variable_attributes data0 in
  let r2 := set_variable r1.2 "MyRuntimeInfo" gMyRuntimeInfoProtocolGuid variable_attributes data0 in
  RuntimeInfoEntryPoint (Some pool) installed fw =
    Some (EFI_SUCCESS, Firmware r2.2 (fw_pool fw + 1) true).
Proof.
  intros Hp Hi r1 r2. unfold RuntimeInfoEntryPoint, AsciiStrCpyS.
  change (AsciiStrSize Msg <=? Z.of_nat (length Msg)) with false. cbn iota.
  rewrite put_at_0 by (vm_compute (length _) at 1; lia).
  rewrite <-app_assoc. cbn [app]. rewrite cstr_app by apply Msg_nonzero. rewrite Hi.
  assert (take (Z.to_nat (AsciiStrSize Msg)) (Msg ++ 0 :: drop (length (Msg ++ [0])) pool) = data0) as ->.
  { by vm_compute. }
  cbn [fw_vars fw_pool fw_protocol]. fold data0 r1. destruct r1 as [s1 v1] eqn:E1. cbn [snd] in r2.
  fold r2. by destruct r2 as [s2 v2].
Qed.

Lemma write_buf_ok off bs m b :
  put_at (info_buf m) off bs = Some b → write_buf off bs m = Some (tt, set_buf b m).
Proof. intros H. unfold write_buf, get, lift, put, mbind, st_bind. by rewrite H. Qed.

(** The result of reading a variable into the module's buffer. *)
Lemma read_variable v name guid m status size data :
  length (info_buf m) = 256%nat →
  get_variable v name guid 255 = (status, size, data) →
  ∃ b, write_buf 0 data m = Some (tt, set_buf b m) ∧ length b = 256%nat ∧
    b = data ++ drop (length data) (info_buf m) ∧
    (status = EFI_SUCCESS → ∃ b', put_at b size [0] = Some b' ∧ length b' = 256%nat ∧ 0 ∈ b' ∧
       b' = data ++ 0 :: drop (1 + length data) (info_buf m)).
Proof.
  intros Hl Hg. destruct (get_bounds _ _ _ _ _ _ _ Hg) as [Hb Hs].
  exists (data ++ drop (length data) (info_buf m)). split_and!.
  - apply write_buf_ok, put_at_0. lia.
  - rewrite length_app, length_drop. lia.
  - done.
  - intros ->%Hs. unfold put_at.
    rewrite (proj2 (Z.leb_le _ _)), (proj2 (Z.leb_le _ (Z.of_nat (length (_ ++ _))))) by
      (rewrite ?length_app, ?length_drop; cbn; lia).
    cbn [andb]. eexists. split; [done|]. rewrite Nat2Z.id, take_app_length, drop_app, drop_ge by lia.
    cbn [app length]. replace (length data + 1 - length data)%nat with 1%nat by lia.
    rewrite drop_drop. split_and!.
    + rewrite length_app. cbn. rewrite length_drop. lia.
    + apply elem_of_app. right. left.
    + do 3 f_equal. lia.
Qed.

(** Reading never leaves the buffer; a result 0 leaves a terminated text. *)
Lemma call_safe available v m :
  length (info_buf m) = 256%nat →
  ∃ r b, call_runtime_protocol available v m = Some (r, set_buf b m) ∧ length b = 256%nat ∧
    (r = 0 → 0 ∈ b).
Proof.
  intros Hl. unfold call_runtime_protocol. destruct available; cbn [negb].
  2:{ exists (- ENOSYS), (info_buf m). destruct m. done. }
  destruct (get_variable v "MyTestInfo" _ (256 - 1)) as [[s1 z1] d1] eqn:E1.
  destruct (read_variable _ _ _ m _ _ _ Hl E1) as (b1 & W1 & L1 & _ & S1).
  rewrite (st_bind_step _ _ _ _ _ W1). destruct (Z.eqb_spec s1 EFI_SUCCESS) as [Hs|_].
  { destruct (S1 Hs) as (b2 & P2 & L2 & Z2 & _).
    rewrite (st_bind_step _ _ _ _ _ (write_buf_ok z1 [0] (set_buf b1 m) b2 P2)). by exists 0, b2. }
  destruct (get_variable v "MyRuntimeInfo" _ (256 - 1)) as [[s2 z2] d2] eqn:E2.
  destruct (read_variable _ _ _ (set_buf b1 m) _ _ _ L1 E2) as (b2 & W2 & L2 & _ & S2').
  rewrite (st_bind_step _ _ _ _ _ W2). destruct (Z.eqb_spec s2 EFI_SUCCESS) as [Hs|_]; cbn [negb].
  2:{ exists (- ENODEV), b2. split_and!; [done|done|]. unfold ENODEV. lia. }
  destruct (S2' Hs) as (b3 & P3 & L3 & Z3 & _).
  rewrite (st_bind_step _ _ _ _ _ (write_buf_ok z2 [0] (set_buf b2 (set_buf b1 m)) b3 P3)).
  by exists 0, b3.
Qed.

(** The rest of the initialisation, after the buffer is filled. *)
Lemma init_after rs available v kobj file m :
  length (info_buf m) = 256%nat → rs = true →
  ∃ r b, my_runtime_info_init rs available v kobj file m =
    Some (r, if kobj then ModuleState b true (file =? 0) (if file =? 0 then true else info_file m)
             else ModuleState b false (kobj_live m) (info_file m)) ∧
    0 ∈ b ∧ length b = 256%nat ∧
    r = (if kobj then if file =? 0 then 0 else - EFAULT else - ENOMEM) ∧
    ∀ b', call_runtime_protocol available v m = Some (0, set_buf b' m) → b = b'.
Proof.
  intros Hl ->. destruct (call_safe available v m Hl) as (r & b & E & Lb & Zb).
  unfold my_runtime_info_init. cbn [negb]. rewrite (st_bind_step _ _ _ _ _ E).
  assert (∃ b1, (if negb (r =? 0) then write_buf 0 (take 255 (s2b "Failed to get EFI variable") ++ [0])
                 else mret tt) (set_buf b m) = Some (tt, set_buf b1 m) ∧ 0 ∈ b1 ∧ length b1 = 256%nat ∧
                (r = 0 → b1 = b)) as (b1 & E1 & Z1 & L1 & R1).
  { destruct (Z.eqb_spec r 0) as [Hr|Hr]; cbn [negb]; [exists b; split_and!; by try apply Zb|].
    set (text := take 255 (s2b "Failed to get EFI variable") ++ [0]).
    assert (put_at b 0 text = Some (text ++ drop (length text) b)) as P.
    { apply put_at_0. rewrite Lb. by vm_compute. }
    exists (text ++ drop (length text) b). split_and!; [exact (write_buf_ok 0 text (set_buf b m) _ P)| | |done].
    - unfold text. rewrite <-app_assoc. apply elem_of_app. right. left.
    - rewrite length_app, length_drop, Lb. by vm_compute. }
  rewrite (st_bind_step _ _ _ _ _ E1).
  exists (if kobj then if file =? 0 then 0 else - EFAULT else - ENOMEM), b1.
  split; [|split; [done|split; [done|split; [done|]]]].
  - destruct kobj; cbn [negb]; [|done]. by destruct (file =? 0).
  - intros b' Hb'. rewrite E in Hb'. injection Hb' as -> Hb'. rewrite R1 by done.
    unfold set_buf in Hb'. congruence.
Qed.

(** What the module reads when the firmware stored the text. *)
Lemma call_reads v m :
  length (info_buf m) = 256%nat →
  get_variable v "MyTestInfo" gEfiGlobalVariableGuid 255 = (EFI_SUCCESS, 36, data0) ∨
  (get_variable v "MyTestInfo" gEfiGlobalVariableGuid 255).1.1 ≠ EFI_SUCCESS ∧
  get_variable v "MyRuntimeInfo" gMyRuntimeInfoProtocolGuid 255 = (EFI_SUCCESS, 36, data0) →
  ∃ r, call_runtime_protocol true v m = Some (0, set_buf (Msg ++ 0 :: r) m).
Proof.
  intros Hl H. unfold call_runtime_protocol. cbn [negb]. change (256 - 1) with 255.
  change EFI_GLOBAL_VARIABLE_GUID with gEfiGlobalVariableGuid.
  change MY_GUID with gMyRuntimeInfoProtocolGuid.
  destruct (get_variable v "MyTestInfo" _ 255) as [[s1 z1] d1] eqn:E1.
  destruct (read_variable _ _ _ m _ _ _ Hl E1) as (b1 & W1 & L1 & _ & S1).
  rewrite (st_bind_step _ _ _ _ _ W1). destruct H as [[= -> -> ->]|[Hs E2]].
  - destruct (S1 eq_refl) as (b2 & P2 & _ & _ & ->). rewrite Z.eqb_refl.
    rewrite (st_bind_step _ _ _ _ _ (write_buf_ok 36 [0] (set_buf b1 m) _ P2)).
    unfold data0. rewrite <-app_assoc. eexists. done.
  - rewrite (proj2 (Z.eqb_neq s1 EFI_SUCCESS)), E2 by exact Hs.
    destruct (read_variable _ _ _ (set_buf b1 m) _ _ _ L1 E2) as (b2 & W2 & _ & _ & S2').
    rewrite (st_bind_step _ _ _ _ _ W2). rewrite Z.eqb_refl. cbn [negb].
    destruct (S2' eq_refl) as (b3 & P3 & _ & _ & ->).
    rewrite (st_bind_step _ _ _ _ _ (write_buf_ok 36 [0] (set_buf b2 (set_buf b1 m)) _ P3)).
    unfold data0. rewrite <-app_assoc. eexists. done.
Qed.

(** The variables hold the text when the firmware could store it. *)
Lemma stored_vars v0 :
  let r1 := set_variable v0 "MyTestInfo" gEfiGlobalVariableGuid variable_attributes data0 in
  let r2 := set_variable r1.2 "MyRuntimeInfo" gMyRuntimeInfoProtocolGuid variable_attributes data0 in
  r1.1 = EFI_SUCCESS ∨
  r2.1 = EFI_SUCCESS ∧ (get_variable v0 "MyTestInfo" gEfiGlobalVariableGuid 255).1.1 ≠ EFI_SUCCESS →
  get_variable r2.2 "MyTestInfo" gEfiGlobalVariableGuid 255 = (EFI_SUCCESS, 36, data0) ∨
  (get_variable r2.2 "MyTestInfo" gEfiGlobalVariableGuid 255).1.1 ≠ EFI_SUCCESS ∧
  get_variable r2.2 "MyRuntimeInfo" gMyRuntimeInfoProtocolGuid 255 = (EFI_SUCCESS, 36, data0).
Proof.
  intros r1 r2 H.
  assert (∀ v v' name guid, set_variable v name guid variable_attributes data0 = (EFI_SUCCESS, v') →
    get_variable v' name guid 255 = (EFI_SUCCESS, 36, data0)) as Hget.
  { intros v v' name guid E. by eapply (get_set v v' name guid variable_attributes data0 255). }
  unfold r2. rewrite get_set_ne by discriminate. fold r2.
  destruct (decide (r1.1 = EFI_SUCCESS)) as [E1|E1].
  - left. apply (Hget v0). rewrite <-E1. apply surjective_pairing.
  - destruct H as [?|[E2 Hn]]; [done|]. right. split.
    + destruct (set_status v0 "MyTestInfo" gEfiGlobalVariableGuid variable_attributes data0) as [?|Ee];
        [done|]. unfold r1. by rewrite (set_refused _ _ _ _ _ Ee).
    + apply (Hget r1.2). rewrite <-E2. apply surjective_pairing.
Qed.

(** C13: the text of RuntimeInfoDxe is what sysfs shows.  For every variable
    service: the driver allocates, installs its protocol and stores the text;
    if the first SetVariable succeeded, or the second did and there was no
    readable MyTestInfo, then my_runtime_info_init creates the object and the
    file and info_show gives the text and a newline; the module can then be
    removed.  And whatever the variables hold, initialisation stays in its
    buffer, info_show gives at most 256 bytes, the result is 0 exactly when the
    object and the file were created, and otherwise no object is left. *)
Theorem runtime_info_roundtrip pool installed fw (Hp : 42 ≤ Z.of_nat (length pool))
    (Hi : EFI_ERROR installed = false) :
  let r1 := set_variable (fw_vars fw) "MyTestInfo" gEfiGlobalVariableGuid variable_attributes (Msg ++ [0]) in
  let r2 := set_variable r1.2 "MyRuntimeInfo" gMyRuntimeInfoProtocolGuid variable_attributes (Msg ++ [0]) in
  RuntimeInfoEntryPoint (Some pool) installed fw =
    Some (EFI_SUCCESS, Firmware r2.2 (fw_pool fw + 1) true) ∧
  (r1.1 = EFI_SUCCESS ∨
   r2.1 = EFI_SUCCESS ∧ (get_variable (fw_vars fw) "MyTestInfo" gEfiGlobalVariableGuid 255).1.1 ≠ EFI_SUCCESS →
   ∃ m, my_runtime_info_init true true r2.2 true 0 module0 = Some (0, m) ∧
     info_show m = Some (Msg ++ [10], m) ∧ info_file m = true ∧
     ∃ m', my_runtime_info_exit m = Some (tt, m') ∧ kobj_live m' = false ∧ info_file m' = false) ∧
  ∀ available v kobj file, ∃ r m,
    my_runtime_info_init true available v kobj file module0 = Some (r, m) ∧
    (∃ s, info_show m = Some (s, m) ∧ (length s ≤ 256)%nat) ∧
    (r = 0 ↔ kobj = true ∧ file = 0) ∧ kobj_live m = (r =? 0) ∧ info_file m = (r =? 0).
Proof.
  intros r1 r2. split; [apply entry_stores; [lia|done]|]. split.
  - intros H%stored_vars. destruct (call_reads r2.2 module0 eq_refl H) as [r Hc].
    destruct (init_after true true r2.2 true 0 module0 eq_refl eq_refl) as (z & b & E & _ & _ & -> & Hb).
    specialize (Hb _ Hc) as ->. eexists. split; [exact E|]. split.
    + unfold info_show, get, lift, mbind, st_bind, mret, st_ret. cbn [info_buf].
      by rewrite (cstr_app Msg r Msg_nonzero).
    + split; [done|]. eexists. split; [reflexivity|done].
  - intros available v kobj file.
    destruct (init_after true available v kobj file module0 eq_refl eq_refl) as (z & b & E & Zb & Lb & -> & _).
    destruct (cstr_Some b Zb) as (s & Es & Ls).
    eexists _, _. split; [exact E|].
    split; [|destruct kobj; [destruct (Z.eqb_spec file 0)|]; (split; [|done]);
      (split; [try discriminate|intros [? ?]]); done].
    exists (take 4095 (s ++ [10])). split; [|rewrite length_take, length_app; change (length [10]) with 1%nat; lia].
    unfold info_show, get, lift, mbind, st_bind, mret, st_ret. destruct kobj; cbn [info_buf]; by rewrite Es.
Qed.

End facts.

(** ** A variable service: a list of stored variables, newest first *)

Fixpoint find_var (v : list (string * Z * list Z)) (name : string) (guid : Z) : option (list Z) :=
  match v with
  | [] => None
  | (n, g, d) :: v => if bool_decide (n = name) && (g =? guid) then Some d else find_var v name guid
  end.

Definition EFI_NOT_FOUND : Z := 2 ^ 63 + 14.

(** Variables of more than 1024 bytes, and variables without runtime access,
    are refused. *)
#[export] Program Instance list_service : VariableService := {
  vars := list (string * Z * list Z);
  set_variable v name guid attr data :=
    if (1024 <? Z.of_nat (length data)) || (Z.land attr 4 =? 0) then (EFI_OUT_OF_RESOURCES, v)
    else (EFI_SUCCESS, (name, guid, data) :: v);
  get_variable v name guid size :=
    match find_var v name guid with
    | None => (EFI_NOT_FOUND, size, [])
    | Some d =>
        if size <? Z.of_nat (length d) then (EFI_BUFFER_TOO_SMALL, Z.of_nat (length d), [])
        else (EFI_SUCCESS, Z.of_nat (length d), d)
    end }.
Next Obligation.
  intros v name guid size status size' data. cbn. destruct (find_var _ _ _) as [d|].
  - destruct (size <? _) eqn:E; intros [= <- <- <-]; to_prop; split; (done || cbn; lia).
  - intros [= <- <- <-]. split; [cbn; lia|done].
Qed.
Next Obligation.
  intros v v' name guid attr data size. cbn beta. destruct (_ || _); [done|].
  intros [= <-] _ _ Hs. cbn [find_var]. rewrite bool_decide_true by done. rewrite Z.eqb_refl. cbn [andb].
  by rewrite (proj2 (Z.ltb_ge _ _) Hs).
Qed.
Next Obligation.
  intros v name guid attr data name' guid' size Hne. cbn beta. destruct (_ || _); [done|].
  cbn [snd find_var]. destruct (bool_decide_reflect (name = name')), (Z.eqb_spec guid guid'); cbn [andb];
    congruence.
Qed.
Next Obligation. intros v name guid attr data. cbn beta. destruct (_ || _); [right|left]; done. Qed.
Next Obligation. intros v name guid attr data. cbn beta. destruct (_ || _); done. Qed.

Definition firmware0 : firmware := Firmware (VS := list_service) [] 0 false.

(** From the firmware to the file, with an empty variable store. *)
Lemma runtime_info_roundtrip_witness :
  ∃ fw m, RuntimeInfoEntryPoint (Some (replicate 42 255)) 0 firmware0 = Some (EFI_SUCCESS, fw) ∧
    my_runtime_info_init true true (fw_vars fw) true 0 module0 = Some (0, m) ∧
    info_show m = Some (s2b "Hardware Info from Runtime Protocol" ++ [10], m).
Proof.
  destruct (runtime_info_roundtrip (replicate 42 255) 0 firmware0) as (E & R & _);
    [by vm_compute|done|].
  destruct R as (m & R1 & R2 & _); [left; by vm_compute|].
  eexists _, m. split; [exact E|]. split; [exact R1|exact R2].
Defined.

End RuntimeInfo.
