(* ===== verification/Ramfs.v ===== *)
(** * The backup on fsync of ramfs

    fs/ramfs/file-mmu.c: [fsync] of a ramfs file runs mkdir and cp in user space
    to copy the file to /var/backup/ramfs.  The programs are an interface with
    their documented effect on files; the one block of kernel memory of the
    function is modelled with its contents, so that a use after it is freed is
    a fault. *)

From Stdlib Require Import ZArith Lia Ascii String.
From stdpp Require Import base numbers list strings gmap.
From S2P Require Import Prelude.

Module Ramfs.

Open Scope string_scope.
Open Scope Z_scope.

(** The last component of a path. *)
Fixpoint basename_from (acc s : string) : string :=
  match s with
  | EmptyString => acc
  | String c s =>
      if bool_decide (c = "/"%char) then basename_from "" s
      else basename_from (String.append acc (String c EmptyString)) s
  end.
Definition basename (s : string) : string := basename_from "" s.

Definition target (dir src : string) : string := String.append dir (String.append "/" (basename src)).

(** [call_usermodehelper] with UMH_WAIT_PROC, for the two programs used: its
    result is 0 when the program ran and exited with 0. *)
Class UserModeHelper := {
  fs : Type;
  call_usermodehelper : list string → list string → fs → Z * fs;
  content : fs → string → option (list Z);
  is_dir : fs → string → Prop;
  mkdir_p env h h' d :
    call_usermodehelper ["/bin/mkdir"; "-p"; d] env h = (0, h') →
    is_dir h' d ∧ ∀ p, content h' p = content h p;
  cp_f env h h' s d :
    call_usermodehelper ["/bin/cp"; "-f"; s; d] env h = (0, h') → is_dir h d →
    is_Some (content h s) ∧ content h' (target d s) = content h s ∧
    ∀ p, p ≠ target d s → content h' p = content h p }.

Section helper.
Context {UMH : UserModeHelper}.

(** The block [src_path] with its contents, if allocated. *)
Record kstate := KState { src_path : option string; helper : fs }.

Definition kmalloc (ok : bool) : st kstate bool :=
  if ok then modify (λ k, KState (Some "") (helper k)) ;; mret true else mret false.

Definition kfree : st kstate unit :=
  k ← get;
  match src_path k with
  | None => fault
  | Some _ => put (KState None (helper k))
  end.

(** [d_path] writes the path into the block, or fails. *)
Definition d_path (path : Z + string) : st kstate Z :=
  k ← get;
  match src_path k with
  | None => fault
  | Some _ =>
      match path with
      | inl err => mret err
      | inr s => put (KState (Some s) (helper k)) ;; mret 0
      end
  end.

Definition run (argv envp : list string) : st kstate Z :=
  k ← get;
  let '(ret, h) := call_usermodehelper argv envp (helper k) in
  put (KState (src_path k) h) ;;
  mret ret.

Definition backup_dir : string := "/var/backup/ramfs".
Definition envp : list string := ["HOME=/"; "PATH=/sbin:/bin:/usr/sbin:/usr/bin"].

(** [path] is the error of [d_path], or the path of the file. *)
Definition ramfs_backup_fsync (alloc : bool) (path : Z + string) : st kstate Z :=
  ok ← kmalloc alloc;
  if negb ok then mret (- ENOMEM)
  else
    err ← d_path path;
    if negb (err =? 0) then kfree ;; mret err
    else
      ret ← run ["/bin/mkdir"; "-p"; backup_dir] envp;
      if negb (ret =? 0) then kfree ;; mret ret
      else
        k ← get;
        path_ptr ← lift (src_path k);
        ret ← run ["/bin/cp"; "-f"; path_ptr; backup_dir] envp;
        kfree ;;
        mret (if negb (ret =? 0) then ret else 0).

(** Every way the function ends: the memory is freed. *)
Lemma fsync_runs alloc path h :
  (∀ err, path = inl err → err ≠ 0) →
  ∃ r h', ramfs_backup_fsync alloc path (KState None h) = Some (r, KState None h') ∧
    (r = 0 ↔ alloc = true ∧ ∃ s h1, path = inr s ∧
       call_usermodehelper ["/bin/mkdir"; "-p"; backup_dir] envp h = (0, h1) ∧
       call_usermodehelper ["/bin/cp"; "-f"; s; backup_dir] envp h1 = (0, h')) ∧
    (r ≠ 0 → alloc = true → ∀ s, path = inr s →
       (call_usermodehelper ["/bin/mkdir"; "-p"; backup_dir] envp h).1 = r ∨
       (call_usermodehelper ["/bin/cp"; "-f"; s; backup_dir] envp
          (call_usermodehelper ["/bin/mkdir"; "-p"; backup_dir] envp h).2).1 = r).
Proof.
  intros Hp. destruct alloc; cycle 1.
  { exists (- ENOMEM), h. split; [done|]. split; [|done].
    split; [discriminate|intros [? _]; done]. }
  unfold ramfs_backup_fsync, kmalloc, d_path, kfree, run, get, put, modify, lift, fault,
    mbind, st_bind, mret, st_ret. cbn [negb src_path helper].
  destruct path as [err|s].
  { specialize (Hp err eq_refl). exists err, h. rewrite (proj2 (Z.eqb_neq err 0)) by done.
    split; [done|]. split; [|done]. split; [done|]. by intros (_ & ? & ? & ? & _). }
  cbn [Z.eqb negb src_path helper].
  destruct (call_usermodehelper ["/bin/mkdir"; "-p"; backup_dir] envp h) as [r1 h1] eqn:E1.
  cbn [src_path helper fst snd]. destruct (Z.eqb_spec r1 0) as [->|Hr1]; cbn [negb src_path helper]; cycle 1.
  { exists r1, h1. split; [done|]. split; [|by intros; left]. split; [done|].
    intros (_ & ? & ? & _ & ? & _). congruence. }
  destruct (call_usermodehelper ["/bin/cp"; "-f"; s; backup_dir] envp h1) as [r2 h2] eqn:E2.
  cbn [src_path helper]. exists (if negb (r2 =? 0) then r2 else 0), h2. split; [done|].
  destruct (Z.eqb_spec r2 0) as [->|Hr2]; cbn [negb]; split.
  - split; [|done]. intros _. split; [done|]. by exists s, h1.
  - done.
  - split; [done|]. intros (_ & s' & h' & [= <-] & H1 & H2).
    injection H1 as <-. rewrite E2 in H2. congruence.
  - intros _ _ s' [= <-]. right. by rewrite E2.
Qed.

(** A result 0 means that the backup was made. *)
Lemma fsync_copies alloc path h h' :
  ramfs_backup_fsync alloc path (KState None h) = Some (0, KState None h') →
  (∀ err, path = inl err → err ≠ 0) →
  ∃ s, path = inr s ∧ alloc = true ∧ is_Some (content h s) ∧
    content h' (target backup_dir s) = content h s ∧
    ∀ p, p ≠ target backup_dir s → content h' p = content h p.
Proof.
  intros E Hp. destruct (fsync_runs alloc path h Hp) as (r & h2 & E' & Hr & _).
  rewrite E in E'. injection E' as <- <-.
  destruct Hr as [Hr _]. destruct (Hr eq_refl) as (-> & s & h1 & -> & H1 & H2).
  destruct (mkdir_p _ _ _ _ H1) as [Hd Hc1]. destruct (cp_f _ _ _ _ _ H2 Hd) as (Hs & Ht & Ho).
  exists s. rewrite <-(Hc1 s). split_and!; try done.
  intros p Hne. by rewrite Ho, Hc1.
Qed.

(** C15: fsync on ramfs makes the backup.  It never touches freed memory and
    frees its block on every path; when it returns 0 the file
    /var/backup/ramfs/<name> holds the bytes the file had, and no other file
    changed.  Its result is 0 exactly when the memory and the path were
    available and both programs succeeded; so a second fsync of a file with
    the same name in another directory replaces the first backup. *)
Theorem ramfs_fsync_backup alloc path h (Hpath : ∀ err, path = inl err → err ≠ 0) :
  ∃ r h', ramfs_backup_fsync alloc path (KState None h) = Some (r, KState None h') ∧
    (r = 0 → ∃ s, path = inr s ∧ alloc = true ∧ is_Some (content h s) ∧
       content h' (target backup_dir s) = content h s ∧
       (∀ p, p ≠ target backup_dir s → content h' p = content h p) ∧
       ∀ s2 h2, basename s2 = basename s → s ≠ target backup_dir s →
         s2 ≠ target backup_dir s →
         ramfs_backup_fsync true (inr s2) (KState None h') = Some (0, KState None h2) →
         content h2 (target backup_dir s) = content h s2 ∧ content h2 s = content h s) ∧
    (r ≠ 0 → alloc = true → ∀ s, path = inr s →
       (call_usermodehelper ["/bin/mkdir"; "-p"; backup_dir] envp h).1 = r ∨
       (call_usermodehelper ["/bin/cp"; "-f"; s; backup_dir] envp
          (call_usermodehelper ["/bin/mkdir"; "-p"; backup_dir] envp h).2).1 = r).
Proof.
  destruct (fsync_runs alloc path h Hpath) as (r & h' & E & _ & Hf). exists r, h'.
  split; [done|]. split; [|done]. intros ->.
  destruct (fsync_copies _ _ _ _ E Hpath) as (s & -> & -> & Hs & Ht & Ho). exists s. split_and!; try done.
  intros s2 h2 Hb Hs1 Hs2 E2.
  destruct (fsync_copies _ _ _ _ E2) as (s' & [= <-] & _ & _ & Ht2 & Ho2); [done|].
  assert (target backup_dir s2 = target backup_dir s) as Et by (unfold target; by rewrite Hb).
  rewrite Et in *. rewrite Ht2, (Ho2 s Hs1), (Ho s Hs1), (Ho s2 Hs2). done.
Qed.

End helper.

(** ** User space with two files *)

Definition cp (s d : string) (h : gmap string (list Z)) : Z * gmap string (list Z) :=
  match h !! s with
  | None => (256, h)
  | Some b => if bool_decide (s = target d s) then (256, h) else (0, <[target d s := b]> h)
  end.

Definition programs (argv env : list string) (h : gmap string (list Z)) : Z * gmap string (list Z) :=
  match argv with
  | [c; _; a] => if bool_decide (c = "/bin/mkdir") then (0, h) else (- ENOENT, h)
  | [c; _; a; b] => if bool_decide (c = "/bin/cp") then cp a b h else (- ENOENT, h)
  | _ => (- ENOENT, h)
  end.

(** The directories always exist; the exit status of cp is in bits 8 to 15. *)
#[export] Program Instance demo_helper : UserModeHelper := {
  fs := gmap string (list Z);
  call_usermodehelper := programs;
  content h p := h !! p;
  is_dir h d := True }.
Next Obligation. intros env h h' d. unfold programs. rewrite bool_decide_true by done. by intros [= <-]. Qed.
Next Obligation.
  intros env h h' s d. unfold programs. rewrite bool_decide_true by done. unfold cp. destruct (h !! s) as [b|] eqn:E; [|done].
  case_bool_decide as Ht; [done|]. intros [= <-] _. split; [eauto|]. split.
  - by rewrite lookup_insert_eq.
  - intros p Hp. by rewrite lookup_insert_ne.
Qed.

Definition demo_files : gmap string (list Z) := <["/tmp/a" := [1; 2]]> (<["/mnt/a" := [3]]> ∅).

Lemma ramfs_fsync_backup_witness :
  ∃ h', ramfs_backup_fsync true (inr "/tmp/a") (KState (UMH := demo_helper) None demo_files) =
      Some (0, KState None h') ∧
    content h' "/var/backup/ramfs/a" = Some [1; 2] ∧ content h' "/mnt/a" = Some [3].
Proof.
  destruct (ramfs_fsync_backup (UMH := demo_helper) true (inr "/tmp/a") demo_files) as (r & h' & E & H & _);
    [done|].
  assert (r = 0) as ->.
  { apply (f_equal (fmap fst)) in E. vm_compute in E. by injection E as <-. }
  destruct (H eq_refl) as (s & [= <-] & _ & _ & Ht & Ho & _).
  exists h'. split; [exact E|]. split; [exact Ht|]. by rewrite Ho by discriminate.
Defined.

End Ramfs.
