(* ===== verification/MmapTask.v ===== *)
(** * Writing a file through a mapping

    Memory/Task1/impl.c: [mmap_remap] copies a memory area to a new anonymous
    mapping; [file_mmap_write] writes text at an offset of a file through a
    shared mapping.  The process has files, open descriptors and mapped areas;
    a shared mapping is a window on the file.  Which system calls succeed is an
    argument; the calls that cannot succeed (a mapping of length 0, a negative
    file size) fail whatever the argument says. *)

From Stdlib Require Import ZArith Lia.
From stdpp Require Import base numbers list gmap strings.
From S2P Require Import Prelude.

Module MmapTask.

Inductive area :=
| Anon (bytes : list Z)
| Shared (filename : string) (len : Z).

Record process := Process {
  files : gmap string (list Z);
  fds : gmap Z string;
  areas : gmap Z area }.

Definition set_files (f : gmap string (list Z)) (p : process) : process := Process f (fds p) (areas p).
Definition set_fds (f : gmap Z string) (p : process) : process := Process (files p) f (areas p).
Definition set_areas (a : gmap Z area) (p : process) : process := Process (files p) (fds p) a.

(** What the system calls do, when they are possible: the descriptor that
    [open] returns, the address of each [mmap], and which calls succeed. *)
Record outcome := Outcome {
  o_open : option Z;
  o_fstat : bool;
  o_ftruncate : bool;
  o_mmap : option Z;
  o_msync : bool;
  o_munmap : bool }.

Definition page_up (n : Z) : Z := (n + 4095) / 4096 * 4096.

(** Result 0 is NULL. *)
Definition mmap_remap (o : outcome) (addr : option Z) (size : Z) : st process Z :=
  match o_mmap o with
  | None => mret 0
  | Some new_addr =>
      if size =? 0 then mret 0
      else
        p ← get;
        put (set_areas (<[new_addr := Anon (replicate (Z.to_nat (page_up size)) 0)]> (areas p)) p) ;;
        match addr with
        | None => mret new_addr
        | Some a =>
            p ← get;
            old ← lift (areas p !! a);
            new ← lift (areas p !! new_addr);
            match old, new with
            | Anon b, Anon b' =>
                src ← lift (bytes_at b 0 size);
                dst ← lift (put_at b' 0 src);
                put (set_areas (<[new_addr := Anon dst]> (areas p)) p) ;;
                mret new_addr
            | _, _ => fault
            end
        end
  end.

(** O_CREAT: a file that does not exist is created empty. *)
Definition sys_open (o : outcome) (filename : string) : st process Z :=
  match o_open o with
  | None => mret (-1)
  | Some fd =>
      modify (λ p, Process (match files p !! filename with
                            | None => <[filename := []]> (files p) | Some _ => files p end)
                     (<[fd := filename]> (fds p)) (areas p)) ;;
      mret fd
  end.

Definition sys_close (fd : Z) : st process unit := modify (λ p, set_fds (delete fd (fds p)) p).

(** The file of a descriptor; an unknown descriptor is a fault here. *)
Definition file_of (fd : Z) : st process (string * list Z) :=
  p ← get;
  f ← lift (fds p !! fd);
  b ← lift (files p !! f);
  mret (f, b).

Definition resize (n : nat) (b : list Z) : list Z := take n b ++ replicate (n - length b) 0.

(** [size] is converted to a signed file offset. *)
Definition sys_ftruncate (o : outcome) (fd size : Z) : st process Z :=
  if negb (o_ftruncate o) || (s64 size <? 0) then mret (-1)
  else
    fb ← file_of fd;
    modify (λ p, set_files (<[fb.1 := resize (Z.to_nat size) fb.2]> (files p)) p) ;;
    mret 0.

(** [None] is MAP_FAILED. *)
Definition sys_mmap (o : outcome) (fd len : Z) : st process (option Z) :=
  if len =? 0 then mret None
  else
    match o_mmap o with
    | None => mret None
    | Some a =>
        fb ← file_of fd;
        modify (λ p, set_areas (<[a := Shared fb.1 len]> (areas p)) p) ;;
        mret (Some a)
    end.

Definition sys_munmap (o : outcome) (a : Z) : st process Z :=
  if negb (o_munmap o) then mret (-1)
  else modify (λ p, set_areas (delete a (areas p)) p) ;; mret 0.

(** A store through a shared mapping; outside the mapping or the file it is a
    fault. *)
Definition store (a off : Z) (bs : list Z) : st process unit :=
  p ← get;
  v ← lift (areas p !! a);
  match v with
  | Anon _ => fault
  | Shared f len =>
      b ← lift (files p !! f);
      if len <? off + Z.of_nat (length bs) then fault
      else
        b' ← lift (put_at b off bs);
        put (set_files (<[f := b']> (files p)) p)
  end.

(** [content]: the characters before the NUL. *)
Definition file_mmap_write (o : outcome) (filename : string) (offset : Z) (content : list Z) :
    st process Z :=
  let content_len := Z.of_nat (length content) in
  let tot_size := u64 (offset + content_len) in
  fd ← sys_open o filename;
  if fd =? -1 then mret (-1)
  else if negb (o_fstat o) then sys_close fd ;; mret (-1)
  else
    fb ← file_of fd;
    t ← (if u64 (Z.of_nat (length fb.2)) <? tot_size then sys_ftruncate o fd tot_size else mret 0);
    if t =? -1 then sys_close fd ;; mret (-1)
    else
      map_addr ← sys_mmap o fd tot_size;
      match map_addr with
      | None => sys_close fd ;; mret (-1)
      | Some a =>
          store a offset content ;;
          if negb (o_msync o) then sys_munmap o a ;; sys_close fd ;; mret (-1)
          else
            u ← sys_munmap o a;
            if u =? -1 then sys_close fd ;; mret (-1)
            else sys_close fd ;; mret 0
      end.

(** ** The system calls *)

Section write.
Context (o : outcome) (filename : string) (offset : Z) (content : list Z) (p : process).

Definition old_bytes : list Z := default [] (files p !! filename).
Definition tot : Z := offset + Z.of_nat (length content).

Hypothesis (Hoff : 0 ≤ offset).
Hypothesis (Htot : tot < 2 ^ 63).
Hypothesis (Hold : Z.of_nat (length old_bytes) < 2 ^ 63).
Hypothesis (Hfd : ∀ fd, o_open o = Some fd → 0 ≤ fd ∧ fds p !! fd = None).
Hypothesis (Harea : ∀ a, o_mmap o = Some a → areas p !! a = None).

(** The process while the file is open: its bytes are [b], its descriptor [fd]. *)
Definition opened (fd : Z) (b : list Z) (ar : gmap Z area) : process :=
  Process (<[filename := b]> (files p)) (<[fd := filename]> (fds p)) ar.

Lemma open_step fd : o_open o = Some fd →
  sys_open o filename p = Some (fd, opened fd old_bytes (areas p)).
Proof.
  intros E. unfold sys_open. rewrite E. unfold modify, opened, old_bytes, mbind, st_bind, mret, st_ret.
  do 3 f_equal. destruct (files p !! filename) as [b|] eqn:Ef; cbn [default]; [|done].
  symmetry. by apply insert_id.
Qed.

Lemma file_of_step fd b ar : file_of fd (opened fd b ar) = Some ((filename, b), opened fd b ar).
Proof.
  unfold file_of, get, lift, mbind, st_bind, mret, st_ret, opened. cbn [fds files].
  by rewrite !lookup_insert_eq.
Qed.

Lemma close_step fd b ar : o_open o = Some fd →
  sys_close fd (opened fd b ar) = Some (tt, Process (<[filename := b]> (files p)) (fds p) ar).
Proof.
  intros E. destruct (Hfd _ E) as [_ Hf]. unfold sys_close, modify, set_fds, opened. cbn.
  by rewrite delete_insert_id.
Qed.

(** The bytes after the file was made long enough. *)
Definition grown : list Z :=
  if Z.of_nat (length old_bytes) <? tot then resize (Z.to_nat tot) old_bytes else old_bytes.

Lemma resize_length n b : length (resize n b) = n.
Proof. unfold resize. autorewrite with oshw_len. lia. Qed.

Lemma grown_length : Z.of_nat (length grown) = Z.max tot (Z.of_nat (length old_bytes)).
Proof.
  unfold grown. destruct (_ <? _) eqn:E; to_prop; rewrite ?resize_length; unfold tot in *; lia.
Qed.

Lemma grow_step fd ar :
  (if u64 (Z.of_nat (length old_bytes)) <? tot then sys_ftruncate o fd tot else mret 0)
    (opened fd old_bytes ar) =
  if (Z.of_nat (length old_bytes) <? tot) && negb (o_ftruncate o)
  then Some (-1, opened fd old_bytes ar) else Some (0, opened fd grown ar).
Proof.
  rewrite wrapU_small by (unfold is_u; lia). unfold grown.
  destruct (_ <? _) eqn:E; cbn [andb]; [|done].
  unfold sys_ftruncate. destruct (o_ftruncate o); cbn [negb orb]; [|done].
  rewrite wrapS_small by (unfold is_s, tot in *; lia).
  rewrite (proj2 (Z.ltb_ge tot 0)) by (unfold tot; lia).
  rewrite (st_bind_step _ _ _ _ _ (file_of_step fd old_bytes ar)). cbn [fst snd].
  unfold modify, set_files, opened, mbind, st_bind, mret, st_ret. cbn [files fds areas].
  by rewrite insert_insert_eq.
Qed.

Lemma mmap_step fd b : sys_mmap o fd tot (opened fd b (areas p)) =
  match (if tot =? 0 then None else o_mmap o) with
  | None => Some (None, opened fd b (areas p))
  | Some a => Some (Some a, opened fd b (<[a := Shared filename tot]> (areas p)))
  end.
Proof.
  unfold sys_mmap. destruct (tot =? 0); [done|]. destruct (o_mmap o) as [a|]; [|done].
  rewrite (st_bind_step _ _ _ _ _ (file_of_step fd b (areas p))). done.
Qed.

(** The new contents. *)
Definition written : list Z :=
  take (Z.to_nat offset) grown ++ content ++ drop (Z.to_nat offset + length content) grown.

Lemma store_step fd a : store a offset content
    (opened fd grown (<[a := Shared filename tot]> (areas p))) =
  Some (tt, opened fd written (<[a := Shared filename tot]> (areas p))).
Proof.
  unfold store, get, lift, put, set_files, mbind, st_bind, opened. cbn [areas files fds].
  rewrite !lookup_insert_eq. rewrite (proj2 (Z.ltb_ge tot _)) by (unfold tot; lia).
  pose proof grown_length. unfold put_at.
  rewrite (proj2 (Z.leb_le 0 offset)), (proj2 (Z.leb_le _ (Z.of_nat (length grown)))) by
    (unfold tot in *; lia).
  cbn [andb]. by rewrite insert_insert_eq.
Qed.

Lemma munmap_step fd b a : o_mmap o = Some a →
  sys_munmap o a (opened fd b (<[a := Shared filename tot]> (areas p))) =
  if o_munmap o then Some (0, opened fd b (areas p))
  else Some (-1, opened fd b (<[a := Shared filename tot]> (areas p))).
Proof.
  intros E. unfold sys_munmap. destruct (o_munmap o); cbn [negb]; [|done].
  unfold modify, set_areas, opened, mbind, st_bind, mret, st_ret. cbn [areas files fds].
  by rewrite delete_insert_id by by apply Harea.
Qed.

(** The byte at each position afterwards. *)
Lemma written_lookup i : written !! i =
  if decide (offset ≤ Z.of_nat i < tot) then content !! (i - Z.to_nat offset)%nat
  else if decide (i < length old_bytes)%nat then old_bytes !! i
  else if decide (Z.of_nat i < offset) then Some 0 else None.
Proof.
  pose proof grown_length as Hg.
  assert (put_at grown offset content = Some written) as Hp.
  { unfold put_at. rewrite (proj2 (Z.leb_le 0 offset)), (proj2 (Z.leb_le _ (Z.of_nat (length grown)))) by
      (unfold tot in *; lia). done. }
  rewrite (put_at_lookup _ _ _ _ i Hp). fold tot. case_decide; [done|].
  assert (grown !! i = if decide (i < length old_bytes)%nat then old_bytes !! i
    else if decide (Z.of_nat i < tot) then Some 0 else None) as ->.
  { unfold grown in *. destruct (_ <? _) eqn:E; to_prop.
    - unfold resize. rewrite take_ge by lia. case_decide; [by rewrite lookup_app_l by lia|].
      rewrite lookup_app_r by lia. case_decide; [apply lookup_replicate_2; lia|].
      apply lookup_ge_None. rewrite length_replicate. lia.
    - repeat case_decide; try done; [lia|]. apply lookup_ge_None. lia. }
  repeat case_decide; done || (unfold tot in *; lia).
Qed.

Definition is_some {A} (x : option A) : bool := match x with Some _ => true | None => false end.

(** Every call that is made succeeds, and there is something to map. *)
Definition succeeds : bool :=
  is_some (o_open o) && o_fstat o && ((tot <=? Z.of_nat (length old_bytes)) || o_ftruncate o) &&
  negb (tot =? 0) && is_some (o_mmap o) && o_msync o && o_munmap o.

Lemma write_runs :
  ∃ p', file_mmap_write o filename offset content p = Some (if succeeds then 0 else -1, p') ∧
    fds p' = fds p ∧
    (if succeeds then p' = Process (<[filename := written]> (files p)) (fds p) (areas p)
     else (∀ f, f ≠ filename → files p' !! f = files p !! f) ∧ (o_munmap o = true → areas p' = areas p)).
Proof.
  unfold file_mmap_write, succeeds. fold tot. rewrite (wrapU_small 64 tot) by (unfold is_u, tot in *; lia).
  destruct (option_cases (o_open o)) as [Eo|[fd Eo]].
  { exists p. unfold sys_open. by rewrite Eo. }
  rewrite Eo. cbn [is_some andb].
  destruct (Hfd _ Eo) as [Hfd0 _].
  rewrite (st_bind_step _ _ _ _ _ (open_step fd Eo)). rewrite (proj2 (Z.eqb_neq fd (-1))) by lia.
  assert (∀ b ar, (o_munmap o = true → ar = areas p) →
    ∃ p', (sys_close fd ;; mret (-1)) (opened fd b ar) = Some (-1, p') ∧ fds p' = fds p ∧
      (∀ f, f ≠ filename → files p' !! f = files p !! f) ∧ (o_munmap o = true → areas p' = areas p)) as Hfail.
  { intros b ar Har. rewrite (st_bind_step _ _ _ _ _ (close_step fd b ar Eo)).
    eexists. split; [done|]. split; [done|]. split; [|done]. intros. by apply lookup_insert_ne. }
  destruct (o_fstat o); cbn [negb andb]; [|by apply Hfail].
  rewrite (st_bind_step _ _ _ _ _ (file_of_step fd _ _)). cbn [snd].
  assert ((tot <=? Z.of_nat (length old_bytes)) || o_ftruncate o =
          negb ((Z.of_nat (length old_bytes) <? tot) && negb (o_ftruncate o))) as ->.
  { rewrite Z.leb_antisym. by destruct (_ <? _), (o_ftruncate o). }
  pose proof (grow_step fd (areas p)) as Eg. destruct (_ && negb (o_ftruncate o)); cbn [negb andb];
    rewrite (st_bind_step _ _ _ _ _ Eg); cbn [Z.eqb]; [by apply Hfail|].
  pose proof (mmap_step fd grown) as Em. destruct (tot =? 0); cbn [negb andb].
  { rewrite (st_bind_step _ _ _ _ _ Em). by apply Hfail. }
  destruct (option_cases (o_mmap o)) as [Ea|[a Ea]]; rewrite Ea in Em |- *; cbn [is_some andb];
    rewrite (st_bind_step _ _ _ _ _ Em); [by apply Hfail|].
  rewrite (st_bind_step _ _ _ _ _ (store_step fd a)).
  pose proof (munmap_step fd written a Ea) as Eu.
  destruct (o_msync o), (o_munmap o); cbn [negb andb]; rewrite (st_bind_step _ _ _ _ _ Eu); cbn [Z.eqb];
    try (by apply Hfail).
  rewrite (st_bind_step _ _ _ _ _ (close_step fd _ _ Eo)). by eexists.
Qed.

End write.

(** C12: file_mmap_write on every combination of failing calls: it returns 0
    exactly when every call it makes succeeds and offset plus length is not 0,
    and -1 otherwise; the descriptor is always closed again, and the mapping
    removed unless munmap itself fails; other files never change; and after a
    result 0 the file has the text at the offset, its old bytes elsewhere, and
    zeros between its old end and the offset. *)
Theorem file_mmap_write_spec o filename offset content p
    (Hoff : 0 ≤ offset) (Htot : tot offset content < 2 ^ 63)
    (Hold : Z.of_nat (length (old_bytes filename p)) < 2 ^ 63)
    (Hfd : ∀ fd, o_open o = Some fd → 0 ≤ fd ∧ fds p !! fd = None)
    (Harea : ∀ a, o_mmap o = Some a → areas p !! a = None) :
  let old := old_bytes filename p in
  let n := offset + Z.of_nat (length content) in
  ∃ r p', file_mmap_write o filename offset content p = Some (r, p') ∧
    r = (if succeeds o filename offset content p then 0 else -1) ∧
    fds p' = fds p ∧ (o_munmap o = true → areas p' = areas p) ∧
    (∀ f, f ≠ filename → files p' !! f = files p !! f) ∧
    (r = 0 → ∃ new, files p' !! filename = Some new ∧ ∀ i, new !! i =
       if decide (offset ≤ Z.of_nat i < n) then content !! (i - Z.to_nat offset)%nat
       else if decide (i < length old)%nat then old !! i
       else if decide (Z.of_nat i < offset) then Some 0 else None).
Proof.
  intros old n. destruct (write_runs o filename offset content p) as (p' & E & Hf & H); try done.
  eexists _, p'. split; [exact E|]. split; [done|]. split; [done|].
  destruct (succeeds _ _ _ _ _).
  - subst p'. cbn [areas files]. split; [done|]. split; [intros; by apply lookup_insert_ne|].
    intros _. exists (written filename offset content p). split; [by rewrite lookup_insert_eq|].
    intros i. by apply written_lookup.
  - destruct H as [H1 H2]. split; [done|]. by split.
Qed.

Lemma file_mmap_write_spec_witness :
  let o := Outcome (Some 3) true true (Some 4096) true true in
  let p := Process {["f" := [1; 2; 3; 4; 5]]} ∅ ∅ in
  ∃ p', file_mmap_write o "f" 2 [7; 8] p = Some (0, p') ∧ fds p' = ∅ ∧ areas p' = ∅ ∧
    files p' !! "f" = Some [1; 2; 7; 8; 5].
Proof.
  intros o p. destruct (file_mmap_write_spec o "f" 2 [7; 8] p) as (r & p' & E & Hr & Hf & Ha & _);
    [lia|by vm_compute|by vm_compute|by intros fd [= <-]|by intros a [= <-]|].
  exists p'. split; [rewrite E, Hr; done|]. split; [done|]. split; [by apply Ha|].
  vm_compute in E. injection E as _ <-. by vm_compute.
Defined.

(** mmap_remap returns NULL exactly when the mapping is refused or the size
    is 0, and then changes nothing; otherwise the new area is page-rounded and
    starts with the first bytes of the old one, followed by zeros, and every
    other area, the old one included, is still mapped and unchanged. *)
Theorem mmap_remap_spec o a size b p (Hsize : 0 ≤ size) (Ha : areas p !! a = Some (Anon b))
    (Hb : size ≤ Z.of_nat (length b)) (Hfresh : ∀ n, o_mmap o = Some n → 0 < n ∧ areas p !! n = None) :
  ∃ r p', mmap_remap o (Some a) size p = Some (r, p') ∧ files p' = files p ∧ fds p' = fds p ∧
    (r = 0 ↔ o_mmap o = None ∨ size = 0) ∧ (r = 0 → p' = p) ∧
    (r ≠ 0 → areas p' = <[r := Anon (take (Z.to_nat size) b ++
                replicate (Z.to_nat (page_up size - size)) 0)]> (areas p) ∧
       areas p' !! a = Some (Anon b)).
Proof.
  unfold mmap_remap. destruct (o_mmap o) as [n|] eqn:E; cycle 1.
  { exists 0, p. split_and!; try done. split; [by left|done]. }
  destruct (Z.eqb_spec size 0) as [->|Hs].
  { exists 0, p. split_and!; try done. split; [by right|done]. }
  destruct (Hfresh n eq_refl) as [Hn Hna].
  unfold get, put, lift, set_areas, mbind, st_bind, mret, st_ret. cbn [areas].
  rewrite lookup_insert_ne, Ha by congruence. rewrite lookup_insert_eq.
  unfold bytes_at. rewrite (proj2 (Z.leb_le 0 size)), (proj2 (Z.leb_le (0 + size) _)) by lia.
  change (Z.to_nat 0) with 0%nat. rewrite drop_0. cbn [andb Z.leb Z.compare].
  assert (size ≤ page_up size) as Hp by (unfold page_up; dlia).
  unfold put_at. rewrite (proj2 (Z.leb_le (0 + _) _)) by (rewrite length_replicate, length_take; lia).
  cbn [andb Z.leb Z.compare]. rewrite length_take, Nat.min_l by lia. rewrite drop_replicate.
  eexists n, _. split; [done|]. cbn [files fds areas]. rewrite insert_insert_eq.
  split; [done|]. split; [done|]. split; [split; [lia|intros [?|?]; [done|lia]]|].
  split; [lia|]. intros _. split; [|by rewrite lookup_insert_ne by congruence].
  change (Z.to_nat 0) with 0%nat. cbn [take app Nat.add]. by replace (Z.to_nat (page_up size) - Z.to_nat size)%nat
    with (Z.to_nat (page_up size - size)) by lia.
Qed.

Lemma mmap_remap_spec_witness :
  let o := Outcome None true true (Some 8192) true true in
  ∃ p', mmap_remap o (Some 4096) 2 (Process ∅ ∅ {[4096 := Anon [5; 6; 7]]}) = Some (8192, p') ∧
    areas p' !! 4096 = Some (Anon [5; 6; 7]).
Proof.
  intros o.
  destruct (mmap_remap_spec o 4096 2 [5; 6; 7] (Process ∅ ∅ {[4096 := Anon [5; 6; 7]]}))
    as (r & p' & E & _ & _ & _ & _ & H); [lia|done|by vm_compute|by intros n [= <-]|].
  assert (r = 8192) as -> by (vm_compute in E; congruence).
  exists p'. split; [exact E|]. by apply H.
Defined.

End MmapTask.
