(* ===== verification/NcclWrapper.v ===== *)
(** * The collective operations of the network task

    Net/Task2/nccl_wrapper.c: [nccl_broadcast_data] and [nccl_allreduce_data]
    run one NCCL operation on a CUDA stream of their own.  CUDA and NCCL are
    given by their documented effect: an operation that is accepted is queued
    on its stream, a successful synchronisation completes what is queued, and
    destroying a stream releases it.  Which calls succeed is an argument. *)

From Stdlib Require Import ZArith Lia.
From stdpp Require Import base numbers list gmap.
From S2P Require Import Prelude.

Module NcclWrapper.

Definition cudaSuccess : Z := 0.
Definition ncclSuccess : Z := 0.
Definition ncclUnhandledCudaError : Z := 1.
Definition ncclFloat : Z := 7.

Inductive operation :=
| Broadcast (sendbuff recvbuff count datatype root comm : Z)
| AllReduce (sendbuff recvbuff count datatype op comm : Z).

(** The streams that exist with what is queued on them, and the operations
    completed, in order. *)
Record device := Device {
  streams : gmap Z (list operation);
  completed : list operation }.

(** The new stream, or the error of creating it; the results of the operation,
    of the synchronisation and of the destruction. *)
Record outcome := Outcome {
  o_create : Z + Z;
  o_nccl : Z;
  o_sync : Z;
  o_destroy : Z }.

Definition cudaStreamCreate (o : outcome) : st device (Z * Z) :=
  match o_create o with
  | inl err => mret (err, 0)
  | inr s => modify (λ d, Device (<[s := []]> (streams d)) (completed d)) ;; mret (cudaSuccess, s)
  end.

(** A stream that does not exist is a fault in each of the three. *)
Definition enqueue (o : outcome) (op : operation) (s : Z) : st device Z :=
  d ← get;
  q ← lift (streams d !! s);
  (if o_nccl o =? ncclSuccess then put (Device (<[s := q ++ [op]]> (streams d)) (completed d))
   else mret tt) ;;
  mret (o_nccl o).

Definition cudaStreamSynchronize (o : outcome) (s : Z) : st device Z :=
  d ← get;
  q ← lift (streams d !! s);
  (if o_sync o =? cudaSuccess then put (Device (<[s := []]> (streams d)) (completed d ++ q))
   else mret tt) ;;
  mret (o_sync o).

Definition cudaStreamDestroy (o : outcome) (s : Z) : st device Z :=
  d ← get;
  _ ← lift (streams d !! s);
  (if o_destroy o =? cudaSuccess then put (Device (delete s (streams d)) (completed d)) else mret tt) ;;
  mret (o_destroy o).

Definition nccl_broadcast_data (o : outcome) (data count root comm : Z) : st device Z :=
  let dataType := ncclFloat in
  cs ← cudaStreamCreate o;
  if negb (cs.1 =? cudaSuccess) then mret ncclUnhandledCudaError
  else
    let stream := cs.2 in
    result ← enqueue o (Broadcast data data count dataType root comm) stream;
    cudaErr ← cudaStreamSynchronize o stream;
    if negb (cudaErr =? cudaSuccess) then
      cudaStreamDestroy o stream ;; mret ncclUnhandledCudaError
    else
      cudaErr ← cudaStreamDestroy o stream;
      if negb (cudaErr =? cudaSuccess) then mret ncclUnhandledCudaError else mret result.

Definition nccl_allreduce_data (o : outcome) (sendbuff recvbuff count datatype op comm : Z) :
    st device Z :=
  cs ← cudaStreamCreate o;
  if negb (cs.1 =? cudaSuccess) then mret ncclUnhandledCudaError
  else
    let stream := cs.2 in
    result ← enqueue o (AllReduce sendbuff recvbuff count datatype op comm) stream;
    cudaErr ← cudaStreamSynchronize o stream;
    if negb (cudaErr =? cudaSuccess) then
      cudaStreamDestroy o stream ;; mret ncclUnhandledCudaError
    else
      cudaErr ← cudaStreamDestroy o stream;
      if negb (cudaErr =? cudaSuccess) then mret ncclUnhandledCudaError else mret result.

(** ** Both functions run one operation *)

(** The result the wrappers give for the outcomes of their calls. *)
Definition wrapper_result (o : outcome) : Z :=
  match o_create o with
  | inl err => ncclUnhandledCudaError
  | inr _ => if (o_sync o =? 0) && (o_destroy o =? 0) then o_nccl o else ncclUnhandledCudaError
  end.

(** What a wrapper promises for its operation [op]. *)
Definition runs (o : outcome) (op : operation) (f : st device Z) (d : device) : Prop :=
  ∃ d', f d = Some (wrapper_result o, d') ∧
    completed d' = completed d ++
      (match o_create o with
       | inr _ => if (o_sync o =? 0) && (o_nccl o =? 0) then [op] else []
       | inl _ => [] end) ∧
    (o_destroy o = 0 → streams d' = streams d) ∧
    (o_destroy o ≠ 0 → ∀ s, o_create o = inr s → streams d' !! s ≠ None).

Lemma with_stream_runs o op d :
  (∀ err, o_create o = inl err → err ≠ 0) → (∀ s, o_create o = inr s → streams d !! s = None) →
  runs o op
   (cs ← cudaStreamCreate o;
    if negb (cs.1 =? cudaSuccess) then mret ncclUnhandledCudaError
    else
      result ← enqueue o op cs.2;
      cudaErr ← cudaStreamSynchronize o cs.2;
      if negb (cudaErr =? cudaSuccess) then cudaStreamDestroy o cs.2 ;; mret ncclUnhandledCudaError
      else
        cudaErr ← cudaStreamDestroy o cs.2;
        if negb (cudaErr =? cudaSuccess) then mret ncclUnhandledCudaError else mret result) d.
Proof.
  intros He Hs. unfold runs, wrapper_result.
  unfold cudaStreamCreate, enqueue, cudaStreamSynchronize, cudaStreamDestroy, modify, get, put, lift,
    mbind, st_bind, mret, st_ret.
  destruct (o_create o) as [err|s].
  { specialize (He err eq_refl). unfold cudaSuccess. cbn [fst]. rewrite (proj2 (Z.eqb_neq err 0)) by done.
    exists d. rewrite app_nil_r. done. }
  specialize (Hs s eq_refl). unfold cudaSuccess, ncclSuccess. cbn [fst snd streams completed Z.eqb negb].
  rewrite lookup_insert_eq.
  destruct (o_nccl o =? 0) eqn:Hn, (o_sync o =? 0) eqn:Hy, (o_destroy o =? 0) eqn:Hd;
    repeat (progress (cbn [streams completed negb andb app]; rewrite ?lookup_insert_eq, ?Hn, ?Hy, ?Hd));
    to_prop; (eexists; split; [done|]; cbn [streams completed]; rewrite ?insert_insert_eq;
     split; [by rewrite ?app_nil_r|]; split;
     [intros; (done || by rewrite delete_insert_id) | intros ? s' [= <-]; (done || by rewrite lookup_insert_eq)]).
Qed.

(** the two wrappers on every combination of failing calls: success is
    reported only when the operation, and only this operation, has been
    completed; a failure of CUDA hides the result of NCCL; the stream is gone
    whenever destroying it works, and is left behind when it does not. *)
Theorem nccl_wrappers_run o d data sendbuff recvbuff count root datatype op comm
    (Herr : ∀ err, o_create o = inl err → err ≠ 0)
    (Hfresh : ∀ s, o_create o = inr s → streams d !! s = None) :
  runs o (Broadcast data data count ncclFloat root comm) (nccl_broadcast_data o data count root comm) d ∧
  runs o (AllReduce sendbuff recvbuff count datatype op comm)
    (nccl_allreduce_data o sendbuff recvbuff count datatype op comm) d ∧
  (wrapper_result o = ncclSuccess → (∀ err, o_create o ≠ inl err) ∧ o_nccl o = 0 ∧ o_sync o = 0).
Proof.
  split; [by apply with_stream_runs|]. split; [by apply with_stream_runs|].
  unfold wrapper_result, ncclSuccess, ncclUnhandledCudaError. destruct (o_create o); [done|].
  destruct (Z.eqb_spec (o_sync o) 0), (Z.eqb_spec (o_destroy o) 0); done.
Qed.

Lemma nccl_wrappers_run_witness :
  ∃ d', nccl_broadcast_data (Outcome (inr 5) 0 0 0) 4096 10 0 77 (Device ∅ []) = Some (ncclSuccess, d') ∧
    completed d' = [Broadcast 4096 4096 10 ncclFloat 0 77] ∧ streams d' = ∅.
Proof.
  destruct (nccl_wrappers_run (Outcome (inr 5) 0 0 0) (Device ∅ []) 4096 0 0 10 0 0 0 77)
    as ((d' & E & Hc & Hs & _) & _); [done|by intros s [= <-]|].
  exists d'. split; [exact E|]. split; [exact Hc|]. by apply Hs.
Defined.

End NcclWrapper.
