(* ===== verification/Tcpdump.v ===== *)
(** * tcpdump with a filter on the packet length

    src/Net/Task1/tcpdump/tcpdump.c: the option [-g min-max] that the repository
    adds, the options that rotate the output ([-C], [-G], [-W]), and the three
    callbacks that libpcap calls for every packet ([print_packet], [dump_packet],
    [dump_packet_and_trunc]), which all filter by length first.

    The state [td] has the globals that the callbacks change, the file being
    written and the files closed before it, and what is printed.  What libpcap
    and the C library answer during a packet (time, strftime, allocation,
    opening a file, its size) is an [env].  A call of [error] ends the program
    ([Exited]); [Fault] is undefined behaviour.

    The theorems say which packets are written or shown in every mode, that
    rotation loses and repeats none, what names the files of a ring have, and
    what the option accepts. *)

From Stdlib Require Import ZArith Lia.
From stdpp Require Import base numbers list.
From S2P Require Import Prelude Decimal.

Module Tcpdump.
Import Decimal.

(** ** Options *)

Record config := Config {
  filter_by_length : bool;
  min_length : Z;                  (** u_int *)
  max_length : Z;
  packets_to_skip : Z;             (** --skip *)
  count_mode : bool;               (** --count *)
  Cflag : Z;
  Gflag : Z;
  Wflag : Z;
  WflagChars : Z;
  Uflag : bool;
  zflag : bool;                    (** a command to compress closed files *)
  print : bool;                    (** --print: ndo is set with -w *)
  WFileName : option bytes }.

Definition strchr (s : bytes) (c : Z) : option nat := fst <$> list_find (λ x, x = c) s.

Definition set_range (min max : Z) (c : config) : config :=
  Config true min max (packets_to_skip c) (count_mode c) (Cflag c) (Gflag c) (Wflag c) (WflagChars c)
    (Uflag c) (zflag c) (print c) (WFileName c).

(** The option [-g]; [None] ends the program with a message. *)
Definition option_g (optarg : bytes) (c : config) : option config :=
  dash ← strchr optarg 45;
  let '(min, endptr, _) := strtoul (take dash optarg) in
  match endptr with
  | _ :: _ => None
  | [] =>
      let '(max, endptr, _) := strtoul (drop (S dash) optarg) in
      match endptr with
      | _ :: _ => None
      | [] => let '(min, max) := (u32 min, u32 max) in
              if max <? min then None else Some (set_range min max c)
      end
  end.

Definition INT_MAX : Z := 2 ^ 31 - 1.
Definition INT64_MAX : Z := 2 ^ 63 - 1.

(** The number and the rest of the string; without [endpp] there may be none. *)
Definition parse_int (string : bytes) (endpp : bool) (minval maxval : Z) : option (Z * bytes) :=
  let '(val, endp, erange) := strtol string in
  if bool_decide (endp = string) || (negb endpp && negb (bool_decide (endp = []))) then None
  else if ((val =? LONG_MAX) || (val =? LONG_MIN)) && erange || (val <? minval) || (maxval <? val) then None
  else Some (s32 val, endp).

Definition parse_int64 (string : bytes) (endpp : bool) (minval maxval : Z) : option (Z * bytes) :=
  let '(val, endp, erange) := strtol string in
  if bool_decide (endp = string) || (negb endpp && negb (bool_decide (endp = []))) then None
  else if ((val =? INT64_MAX) || (val =? LONG_MIN)) && erange || (val <? minval) || (maxval <? val) then None
  else Some (s64 val, endp).

(** The option [-C]: the size in bytes. *)
Definition option_C (optarg : bytes) : option Z :=
  p ← parse_int64 optarg true 1 INT64_MAX;
  let '(flag, endp) := p in
  mult ← match endp with
         | [] => Some 1000000
         | u :: endp =>
             m ← (if (u =? 107) || (u =? 75) then Some 1024
                  else if (u =? 109) || (u =? 77) then Some (1024 * 1024)
                  else if (u =? 103) || (u =? 71) then Some (1024 * 1024 * 1024)
                  else None);
             match endp with [] => Some m | _ => None end
         end;
  if INT64_MAX / mult <? flag then None else Some (flag * mult).

(** The loop of [getWflagChars], for [x] after the decrement. *)
Fixpoint count_chars (fuel : nat) (x c : Z) : Z :=
  match fuel with
  | O => c
  | S fuel => if 0 <? x then count_chars fuel (x / 10) (c + 1) else c
  end.

Definition getWflagChars (x : Z) : Z := count_chars (S (Z.to_nat (Z.log2 (x - 1)))) (x - 1) 0.

(** The option [-W]: the number of files and the width of their numbers. *)
Definition option_W (optarg : bytes) : option (Z * Z) :=
  p ← parse_int optarg false 1 INT_MAX;
  Some (p.1, getWflagChars p.1).

Definition option_G (optarg : bytes) : option Z := fst <$> parse_int optarg false 0 INT_MAX.

(** ** State *)

Record pkt := Pkt { h_len : Z; h_data : bytes }.

Inductive event :=
| Passed (len : Z)                 (** "Packet length: ... (passed filter: ...)" *)
| Pretty (h : pkt) (number : Z)    (** pretty_print_packet *)
| Info (verbose : bool) (captured : Z)
| Flush
| Compress (name : bytes)
| MaximumFileLimit.

Record td := Td {
  packets_captured : Z;            (** u_int *)
  infodelay : Z;
  infoprint : Z;
  Cflag_count : Z;
  Gflag_count : Z;
  Gflag_time : Z;
  cur : option (bytes * list pkt); (** the open file: name and packets *)
  closed : list (bytes * list pkt);
  out : list event }.

(** What is answered while a packet is handled. *)
Record env := Env {
  e_request : bool;                (** SIGINFO arrives meanwhile *)
  e_time : option Z;
  e_malloc : nat → bool;           (** the allocations of the call, in order *)
  e_strftime : bytes → Z → option bytes;
  e_open : bytes → bool;
  e_size : list pkt → Z;           (** pcap_dump_ftell64 of the open file *)
  e_stats : bool }.                (** pcap_stats *)

Inductive res (A : Type) :=
| Ret (a : A) (s : td)
| Exited (code : Z) (s : td)
| Fault.
Arguments Ret {A}. Arguments Exited {A}. Arguments Fault {A}.

Definition proc (A : Type) : Type := td → res A.

#[export] Instance proc_ret : MRet proc := λ A a s, Ret a s.
#[export] Instance proc_bind : MBind proc := λ A B f m s,
  match m s with Ret a s' => f a s' | Exited code s' => Exited code s' | Fault => Fault end.

Definition S_SUCCESS : Z := 0.
Definition S_ERR_HOST_PROGRAM : Z := 1.
Definition exit_tcpdump {A} (code : Z) : proc A := λ s, Exited code s.
Definition error {A} : proc A := exit_tcpdump S_ERR_HOST_PROGRAM.
Definition ask {A} (f : td → A) : proc A := λ s, Ret (f s) s.

(** Assignments to the globals. *)
Definition emit (ev : event) : proc unit := λ s, Ret tt
  (Td (packets_captured s) (infodelay s) (infoprint s) (Cflag_count s) (Gflag_count s) (Gflag_time s)
     (cur s) (closed s) (out s ++ [ev])).
Definition set_captured (n : Z) : proc unit := λ s, Ret tt
  (Td n (infodelay s) (infoprint s) (Cflag_count s) (Gflag_count s) (Gflag_time s) (cur s) (closed s) (out s)).
Definition set_infodelay (n : Z) : proc unit := λ s, Ret tt
  (Td (packets_captured s) n (infoprint s) (Cflag_count s) (Gflag_count s) (Gflag_time s) (cur s) (closed s) (out s)).
Definition set_infoprint (n : Z) : proc unit := λ s, Ret tt
  (Td (packets_captured s) (infodelay s) n (Cflag_count s) (Gflag_count s) (Gflag_time s) (cur s) (closed s) (out s)).
Definition set_Cflag_count (n : Z) : proc unit := λ s, Ret tt
  (Td (packets_captured s) (infodelay s) (infoprint s) n (Gflag_count s) (Gflag_time s) (cur s) (closed s) (out s)).
Definition set_Gflag (count time : Z) : proc unit := λ s, Ret tt
  (Td (packets_captured s) (infodelay s) (infoprint s) (Cflag_count s) count time (cur s) (closed s) (out s)).
Definition set_files (c : option (bytes * list pkt)) (l : list (bytes * list pkt)) : proc unit := λ s, Ret tt
  (Td (packets_captured s) (infodelay s) (infoprint s) (Cflag_count s) (Gflag_count s) (Gflag_time s) c l (out s)).

(** ** Files *)

Definition PATH_MAX : Z := 4096.

(** [k] numbers the allocation.  A name that fills the buffer is not terminated. *)
Definition MakeFilename (c : config) (e : env) (k : nat) (orig_name : bytes) (cnt max_chars : Z) : proc bytes :=
  if negb (e_malloc e k) then error
  else if bool_decide (orig_name = []) then error
  else
    time ← ask Gflag_time;
    filename ← (if negb (Gflag c =? 0) then
                  match e_strftime e orig_name time with None => error | Some f => mret f end
                else if PATH_MAX <=? Z.of_nat (length orig_name) then λ _, Fault
                else mret orig_name);
    if (cnt =? 0) && (max_chars =? 0) then mret filename
    else
      let buffer := filename ++ dec_padded max_chars cnt in
      if PATH_MAX <? Z.of_nat (length buffer) then error else mret buffer.

Definition close_old_dump_file (c : config) : proc unit :=
  f ← ask cur;
  l ← ask closed;
  match f with
  | None => λ _, Fault
  | Some f => set_files None (l ++ [f]) ;; if zflag c then emit (Compress f.1) else mret tt
  end.

Definition open_new_dump_file (e : env) (name : bytes) : proc unit :=
  if negb (e_open e name) then error
  else l ← ask closed; set_files (Some (name, [])) l.

Definition pcap_dump (h : pkt) : proc unit :=
  f ← ask cur;
  l ← ask closed;
  match f with
  | None => λ _, Fault
  | Some (name, pkts) => set_files (Some (name, pkts ++ [h])) l
  end.

(** ** Reports *)

Definition info (e : env) (verbose : bool) : proc unit :=
  (if e_stats e then n ← ask packets_captured; emit (Info verbose n) else mret tt) ;;
  set_infoprint 0.

(** The handler of SIGINFO. *)
Definition requestinfo (e : env) : proc unit :=
  d ← ask infodelay;
  if negb (d =? 0) then n ← ask infoprint; set_infoprint (n + 1) else info e false.

(** ** The callbacks *)

Definition is_length_in_range (length min_length max_length : Z) : bool :=
  (min_length <=? length) && (length <=? max_length).

(** The start of every callback: whether the packet is to be handled. *)
Definition count_and_filter (c : config) (e : env) (h : pkt) : proc bool :=
  n ← ask packets_captured;
  set_captured (u32 (n + 1)) ;;
  d ← ask infodelay;
  set_infodelay (d + 1) ;;
  (if e_request e then requestinfo e else mret tt) ;;
  if filter_by_length c then
    if (h_len h <? min_length c) || (max_length c <? h_len h) then
      d ← ask infodelay;
      set_infodelay (d - 1) ;;
      mret false
    else emit (Passed (h_len h)) ;; mret true
  else mret true.

(** The end of every callback. *)
Definition end_packet (e : env) : proc unit :=
  d ← ask infodelay;
  set_infodelay (d - 1) ;;
  n ← ask infoprint;
  if negb (n =? 0) then info e false else mret tt.

Definition print_packet (c : config) (e : env) (h : pkt) : proc unit :=
  go ← count_and_filter c e h;
  if negb go then mret tt
  else
    n ← ask packets_captured;
    (if negb (count_mode c) && (packets_to_skip c <? n) then emit (Pretty h n) else mret tt) ;;
    end_packet e.

(** Writing the packet, after the rotation. *)
Definition write_packet (c : config) (e : env) (h : pkt) : proc unit :=
  pcap_dump h ;;
  (if Uflag c then emit Flush else mret tt) ;;
  n ← ask packets_captured;
  (if print c then emit (Pretty h n) else mret tt) ;;
  end_packet e.

Definition dump_packet (c : config) (e : env) (h : pkt) : proc unit :=
  go ← count_and_filter c e h;
  if negb go then mret tt
  else
    n ← ask packets_captured;
    if n <=? packets_to_skip c then mret tt else write_packet c e h.

(** Rotation by time. *)
Definition rotate_G (c : config) (e : env) : proc unit :=
  if Gflag c =? 0 then mret tt
  else
    match e_time e with
    | None => error
    | Some t =>
        time ← ask Gflag_time;
        if t - time <? Gflag c then mret tt
        else
          count ← ask Gflag_count;
          set_Gflag (count + 1) t ;;
          close_old_dump_file c ;;
          if (Cflag c =? 0) && (0 <? Wflag c) && (Wflag c <=? count + 1) then
            emit MaximumFileLimit ;; info e true ;; exit_tcpdump S_SUCCESS
          else if negb (e_malloc e 0) then error
          else
            set_Cflag_count 0 ;;
            name ← MakeFilename c e 1 (default [] (WFileName c)) 0 (if negb (Cflag c =? 0) then WflagChars c else 0);
            open_new_dump_file e name
    end.

(** Rotation by size. *)
Definition rotate_C (c : config) (e : env) : proc unit :=
  if Cflag c =? 0 then mret tt
  else
    f ← ask cur;
    let size := e_size e (default [] (snd <$> f)) in
    if size =? -1 then error
    else if size <=? Cflag c then mret tt
    else
      close_old_dump_file c ;;
      n ← ask Cflag_count;
      let n := n + 1 in
      let n := if (0 <? Wflag c) && (Wflag c <=? n) then 0 else n in
      set_Cflag_count n ;;
      if negb (e_malloc e 2) then error
      else
        name ← MakeFilename c e 3 (default [] (WFileName c)) n (WflagChars c);
        open_new_dump_file e name.

Definition dump_packet_and_trunc (c : config) (e : env) (h : pkt) : proc unit :=
  go ← count_and_filter c e h;
  if negb go then mret tt
  else
    n ← ask packets_captured;
    if n <=? packets_to_skip c then mret tt
    else rotate_G c e ;; rotate_C c e ;; write_packet c e h.

(** Opening the first file, in [main]. *)
Definition open_first (c : config) (e : env) : proc unit :=
  match WFileName c with
  | None => mret tt
  | Some w =>
      if negb (e_malloc e 0) then error
      else
        name ← MakeFilename c e 1 w 0 (if negb (Cflag c =? 0) then WflagChars c else 0);
        open_new_dump_file e name ;;
        if Uflag c then emit Flush else mret tt
  end.

(** The callback that [main] chooses. *)
Definition callback (c : config) : env → pkt → proc unit :=
  match WFileName c with
  | None => print_packet c
  | Some _ => if negb (Cflag c =? 0) || negb (Gflag c =? 0) then dump_packet_and_trunc c else dump_packet c
  end.

(** The packets that libpcap delivers, one after the other. *)
Fixpoint capture (c : config) (l : list (env * pkt)) : proc unit :=
  match l with
  | [] => mret tt
  | (e, h) :: l => callback c e h ;; capture c l
  end.

(** What [--count] prints in the end, when a file was read. *)
Definition print_count (c : config) (reading : bool) : proc (option Z) :=
  n ← ask packets_captured; mret (if count_mode c && reading then Some n else None).

(** ** What the callbacks are to do *)

Definition in_range (c : config) (h : pkt) : bool :=
  negb (filter_by_length c) || is_length_in_range (h_len h) (min_length c) (max_length c).

(** The packets to write or show, [n] having been counted before. *)
Fixpoint kept (c : config) (n : Z) (l : list pkt) : list pkt :=
  match l with
  | [] => []
  | h :: l => (if in_range c h && (packets_to_skip c <? n + 1) then [h] else []) ++ kept c (n + 1) l
  end.

(** The packets in range among those that are skipped. *)
Fixpoint skipped (c : config) (n : Z) (l : list pkt) : Z :=
  match l with
  | [] => 0
  | h :: l => (if in_range c h && (n + 1 <=? packets_to_skip c) then 1 else 0) + skipped c (n + 1) l
  end.

(** All packets written, in the order of the files. *)
Definition files (s : td) : list pkt := concat (snd <$> closed s) ++ default [] (snd <$> cur s).

Definition shown (s : td) : list pkt :=
  omap (λ ev, match ev with Pretty h _ => Some h | _ => None end) (out s).

(** Only reports and their globals change. *)
Definition quiet (s s' : td) : Prop :=
  packets_captured s' = packets_captured s ∧ cur s' = cur s ∧ closed s' = closed s ∧ shown s' = shown s ∧
  Cflag_count s' = Cflag_count s ∧ Gflag_count s' = Gflag_count s ∧ Gflag_time s' = Gflag_time s.

#[export] Instance quiet_refl : Reflexive quiet.
Proof. by intros s. Qed.

#[export] Instance quiet_trans : Transitive quiet.
Proof. intros ??? (?&?&?&?&?&?&?) (?&?&?&?&?&?&?). split_and!; congruence. Qed.

Lemma proc_bind_Ret {A B} (m : proc A) (f : A → proc B) s a s' : m s = Ret a s' → (m ≫= f) s = f a s'.
Proof. intros H. unfold mbind, proc_bind. by rewrite H. Qed.

Lemma proc_bind_Exited {A B} (m : proc A) (f : A → proc B) s code s' : m s = Exited code s' → (m ≫= f) s = Exited code s'.
Proof. intros H. unfold mbind, proc_bind. by rewrite H. Qed.

Lemma files_quiet s s' : quiet s s' → files s' = files s.
Proof. intros (_ & Hc & Hl & _). unfold files. by rewrite Hc, Hl. Qed.

Lemma shown_app s ev : omap (λ ev, match ev with Pretty h _ => Some h | _ => None end) (out s ++ [ev]) =
  shown s ++ match ev with Pretty h _ => [h] | _ => [] end.
Proof. unfold shown. rewrite omap_app. by destruct ev. Qed.

Lemma emit_run ev s : ∃ s', emit ev s = Ret tt s' ∧ infodelay s' = infodelay s ∧
  packets_captured s' = packets_captured s ∧ cur s' = cur s ∧ closed s' = closed s ∧
  shown s' = shown s ++ match ev with Pretty h _ => [h] | _ => [] end ∧
  Cflag_count s' = Cflag_count s ∧ Gflag_count s' = Gflag_count s ∧ Gflag_time s' = Gflag_time s.
Proof. eexists. split; [done|]. cbn. split_and!; try done. unfold shown at 1. apply shown_app. Qed.

Lemma emit_quiet ev s : (match ev with Pretty _ _ => False | _ => True end) →
  ∃ s', emit ev s = Ret tt s' ∧ quiet s s' ∧ infodelay s' = infodelay s.
Proof.
  intros H. destruct (emit_run ev s) as (s' & E & ? & ? & ? & ? & Hs & ? & ? & ?). exists s'. split; [done|].
  split; [|done]. split_and!; try done. rewrite Hs. destruct ev; by rewrite ?app_nil_r.
Qed.

Lemma info_run e v s : ∃ s', info e v s = Ret tt s' ∧ quiet s s' ∧ infodelay s' = infodelay s ∧ infoprint s' = 0.
Proof.
  unfold info, ask. destruct (e_stats e).
  - destruct (emit_quiet (Info v (packets_captured s)) s) as (s1 & E & Hq & Hd); [done|].
    unfold mbind, proc_bind. rewrite E. eexists. split; [done|]. by split.
  - eexists. split; [done|]. by split.
Qed.

Lemma requestinfo_run e s : ∃ s', requestinfo e s = Ret tt s' ∧ quiet s s' ∧ infodelay s' = infodelay s.
Proof.
  unfold requestinfo, ask, mbind, proc_bind. destruct (negb _).
  - eexists. split; [done|]. by split.
  - destruct (info_run e false s) as (s' & -> & ? & ? & _). by exists s'.
Qed.

Lemma end_packet_run e s : ∃ s', end_packet e s = Ret tt s' ∧ quiet s s' ∧ infodelay s' = infodelay s - 1 ∧
  infoprint s' = 0.
Proof.
  unfold end_packet, ask, mbind, proc_bind. cbn [set_infodelay infodelay infoprint].
  set (s1 := Td _ _ _ _ _ _ _ _ _). destruct (Z.eqb_spec (infoprint s) 0) as [H|H]; cbn [negb].
  - exists s1. by split_and!.
  - destruct (info_run e false s1) as (s' & -> & Hq & Hd & Hp). exists s'. split; [done|].
    split; [|split; [by rewrite Hd|done]]. etrans; [|done]. by unfold s1.
Qed.

Lemma count_and_filter_run c e h s : is_u 32 (packets_captured s + 1) →
  ∃ s', count_and_filter c e h s = Ret (in_range c h) s' ∧
    quiet (Td (packets_captured s + 1) (infodelay s) (infoprint s) (Cflag_count s) (Gflag_count s) (Gflag_time s)
             (cur s) (closed s) (out s)) s' ∧
    infodelay s' = infodelay s + (if in_range c h then 1 else 0).
Proof.
  intros Hn. unfold count_and_filter, ask. unfold mbind, proc_bind. cbn [set_captured set_infodelay infodelay].
  rewrite (wrapU_small 32) by done. set (s1 := Td _ _ _ _ _ _ _ _ _).
  set (s0 := Td (packets_captured s + 1) (infodelay s) _ _ _ _ _ _ _).
  assert (∃ s2, (if e_request e then requestinfo e else mret tt) s1 = Ret tt s2 ∧ quiet s0 s2 ∧ infodelay s2 = infodelay s + 1)
    as (s2 & -> & Hq & Hd).
  { destruct (e_request e); [|by exists s1]. destruct (requestinfo_run e s1) as (s2 & E2 & Hq2 & Hd2).
    exists s2. split; [done|]. split; [by etrans; [|done]|by rewrite Hd2]. }
  unfold in_range, is_length_in_range. destruct (filter_by_length c); cbn [negb orb].
  - assert ((h_len h <? min_length c) || (max_length c <? h_len h) =
      negb ((min_length c <=? h_len h) && (h_len h <=? max_length c))) as ->.
    { rewrite negb_andb, !(Z.ltb_antisym). done. }
    destruct ((min_length c <=? h_len h) && (h_len h <=? max_length c)); cbn [negb].
    + destruct (emit_quiet (Passed (h_len h)) s2) as (s3 & -> & Hq' & Hd'); [done|]. exists s3. split; [done|].
      split; [by etrans|]. by rewrite Hd', Hd.
    + eexists. split; [done|]. split; [by etrans; [apply Hq|]|]. cbn [infodelay]. lia.
  - exists s2. split; [done|]. by split.
Qed.

(** ** One packet *)

Definition show (c : config) (h : pkt) : list pkt := if print c then [h] else [].

(** The run of a function on the files: the ring counter and the times may change. *)
Definition kept_all (s s' : td) : Prop :=
  packets_captured s' = packets_captured s ∧ infodelay s' = infodelay s ∧ files s' = files s ∧ shown s' = shown s.

Lemma write_packet_run c e h s f : cur s = Some f → ∃ s', write_packet c e h s = Ret tt s' ∧
  packets_captured s' = packets_captured s ∧ infodelay s' = infodelay s - 1 ∧ infoprint s' = 0 ∧
  files s' = files s ++ [h] ∧ shown s' = shown s ++ show c h ∧ cur s' = Some (f.1, f.2 ++ [h]) ∧ closed s' = closed s ∧
  Cflag_count s' = Cflag_count s.
Proof.
  intros Hf. destruct f as [nm pkts]. unfold write_packet, pcap_dump, ask, mbind, proc_bind. rewrite Hf. cbn [set_files].
  set (s1 := Td _ _ _ _ _ _ _ _ _).
  assert (∃ s2, (if Uflag c then emit Flush else mret tt) s1 = Ret tt s2 ∧ quiet s1 s2 ∧ infodelay s2 = infodelay s1)
    as (s2 & E2 & Hq2 & Hd2).
  { destruct (Uflag c); [|by exists s1]. by apply emit_quiet. }
  rewrite E2. assert (∃ s3, (if print c then emit (Pretty h (packets_captured s2)) else mret tt) s2 = Ret tt s3 ∧
    infodelay s3 = infodelay s2 ∧ packets_captured s3 = packets_captured s2 ∧ cur s3 = cur s2 ∧ closed s3 = closed s2 ∧
    shown s3 = shown s2 ++ show c h ∧ Cflag_count s3 = Cflag_count s2) as (s3 & E3 & Hd3 & Hn3 & Hc3 & Hl3 & Hs3 & Hk3).
  { unfold show. destruct (print c); [|exists s2; by rewrite app_nil_r].
    destruct (emit_run (Pretty h (packets_captured s2)) s2) as (s3 & -> & ? & ? & ? & ? & ? & ? & _). by exists s3. }
  rewrite E3. destruct (end_packet_run e s3) as (s4 & -> & (Hn4 & Hc4 & Hl4 & Hs4 & Hk4 & _) & Hd4 & Hp4).
  destruct Hq2 as (Hn2 & Hc2 & Hl2 & Hs2 & Hk2 & _). exists s4. split; [done|].
  assert (cur s4 = Some (nm, pkts ++ [h])) as Hc by by rewrite Hc4, Hc3, Hc2.
  assert (closed s4 = closed s) as Hl by by rewrite Hl4, Hl3, Hl2.
  split_and!; try done.
  - by rewrite Hn4, Hn3, Hn2.
  - by rewrite Hd4, Hd3, Hd2.
  - unfold files. rewrite Hc, Hl, Hf. cbn. by rewrite app_assoc.
  - by rewrite Hs4, Hs3, Hs2.
  - by rewrite Hk4, Hk3, Hk2.
Qed.

Definition name_fits (c : config) : Prop := Z.of_nat (length (default [] (WFileName c))) < PATH_MAX.

(** A rotation goes on with an open file or ends the program; nothing is lost. *)
Definition rotated (s : td) (r : res unit) : Prop :=
  match r with
  | Ret _ s' => kept_all s s' ∧ is_Some (cur s')
  | Exited _ s' => files s' = files s ∧ shown s' = shown s
  | Fault => False
  end.

Lemma MakeFilename_run c e k cnt max s : name_fits c →
  (∃ name, MakeFilename c e k (default [] (WFileName c)) cnt max s = Ret name s) ∨
  MakeFilename c e k (default [] (WFileName c)) cnt max s = Exited S_ERR_HOST_PROGRAM s.
Proof.
  intros Hn. unfold MakeFilename, ask, mbind, proc_bind. unfold name_fits in Hn.
  destruct (negb (e_malloc e k)); [by right|]. case_bool_decide; [by right|].
  assert (∃ f, (if negb (Gflag c =? 0) then
      match e_strftime e (default [] (WFileName c)) (Gflag_time s) with None => error | Some f => mret f end
    else if PATH_MAX <=? Z.of_nat (length (default [] (WFileName c))) then λ _, Fault
    else mret (default [] (WFileName c))) s = f ∧ (f = Exited S_ERR_HOST_PROGRAM s ∨ ∃ b, f = Ret b s)) as (f & -> & [-> | [b ->]]).
  { eexists. split; [done|]. destruct (negb _).
    - destruct (e_strftime _ _ _); [right; by eexists|by left].
    - rewrite (proj2 (Z.leb_gt _ _)) by done. right. by eexists. }
  { by right. }
  destruct (_ && _); [left; by eexists|]. destruct (_ <? _); [by right|left; by eexists].
Qed.

Lemma close_run c s f : cur s = Some f → ∃ s', close_old_dump_file c s = Ret tt s' ∧
  packets_captured s' = packets_captured s ∧ infodelay s' = infodelay s ∧ cur s' = None ∧ closed s' = closed s ++ [f] ∧
  shown s' = shown s ∧ files s' = files s ∧ Cflag_count s' = Cflag_count s.
Proof.
  intros Hf. unfold close_old_dump_file, ask, mbind, proc_bind. rewrite Hf. cbn [set_files].
  set (s1 := Td _ _ _ _ _ _ _ _ _). assert (files s1 = files s) as E.
  { unfold files, s1. cbn [cur closed]. rewrite Hf, fmap_app, concat_app. cbn. by rewrite !app_nil_r. }
  destruct (zflag c).
  - destruct (emit_quiet (Compress f.1) s1 I) as (s2 & -> & Hq & Hd). exists s2.
    pose proof (files_quiet _ _ Hq) as E2. destruct Hq as (? & ? & ? & ? & ? & _). split_and!; try done. by rewrite E2.
  - by exists s1.
Qed.

Lemma open_run e name s : cur s = None →
  open_new_dump_file e name s = Exited S_ERR_HOST_PROGRAM s ∨
  ∃ s', open_new_dump_file e name s = Ret tt s' ∧ cur s' = Some (name, []) ∧ closed s' = closed s ∧ kept_all s s' ∧
    Cflag_count s' = Cflag_count s.
Proof.
  intros Hc. unfold open_new_dump_file, ask, mbind, proc_bind. destruct (negb _); [by left|right].
  eexists. split; [done|]. split; [done|]. split; [done|]. split; [|done]. split_and!; try done. unfold files. by rewrite Hc.
Qed.

Lemma rotate_C_run c e s f : name_fits c → cur s = Some f → rotated s (rotate_C c e s).
Proof.
  intros Hn Hf. unfold rotate_C, ask, mbind, proc_bind. destruct (Cflag c =? 0); [by split; [|exists f]|].
  destruct (_ =? -1); [by split|]. destruct (_ <=? Cflag c); [by split; [|exists f]|].
  destruct (close_run c s f Hf) as (s1 & -> & Hn1 & Hd1 & Hc1 & Hl1 & Hs1 & Hf1 & Hk1). cbn [set_Cflag_count].
  set (s2 := Td _ _ _ _ _ _ _ _ _). destruct (negb (e_malloc e 2)); [by split|].
  destruct (MakeFilename_run c e 3 (if (0 <? Wflag c) && (Wflag c <=? Cflag_count s1 + 1) then 0 else Cflag_count s1 + 1) (WflagChars c) s2 Hn)
    as [[name ->]| ->]; [|by split].
  destruct (open_run e name s2 Hc1) as [-> |(s3 & -> & Hc3 & _ & (? & ? & Hf3 & ?) & _)]; [by split|].
  split; [|by exists (name, [])]. unfold kept_all. rewrite <-Hn1, <-Hd1, <-Hf1, <-Hs1. split_and!; done.
Qed.

Lemma rotate_G_run c e s f : name_fits c → cur s = Some f → rotated s (rotate_G c e s).
Proof.
  intros Hn Hf. unfold rotate_G, ask, mbind, proc_bind. destruct (Gflag c =? 0); [by split; [|exists f]|].
  destruct (e_time e) as [t|]; [|by split]. destruct (_ <? Gflag c); [by split; [|exists f]|]. cbn [set_Gflag].
  set (s0 := Td _ _ _ _ _ _ _ _ _). assert (cur s0 = Some f) as Hf0 by done.
  destruct (close_run c s0 f Hf0) as (s1 & -> & Hn1 & Hd1 & Hc1 & Hl1 & Hs1 & Hf1 & Hk1).
  destruct (_ && _ && _).
  { destruct (emit_quiet MaximumFileLimit s1 I) as (s2 & -> & Hq & _).
    destruct (info_run e true s2) as (s3 & -> & Hq' & _). pose proof (files_quiet _ _ (transitivity Hq Hq')) as Hf3.
    split; [by rewrite Hf3, Hf1|]. destruct Hq as (_ & _ & _ & Hs2 & _), Hq' as (_ & _ & _ & Hs3 & _). by rewrite Hs3, Hs2, Hs1. }
  destruct (negb (e_malloc e 0)); [by split|]. cbn [set_Cflag_count]. set (s2 := Td _ _ _ _ _ _ _ _ _).
  destruct (MakeFilename_run c e 1 0 (if negb (Cflag c =? 0) then WflagChars c else 0) s2 Hn) as [[name ->]| ->]; [|by split].
  destruct (open_run e name s2 Hc1) as [-> |(s3 & -> & Hc3 & _ & (? & ? & Hf3 & ?) & _)]; [by split|].
  split; [|by exists (name, [])]. unfold kept_all. change (packets_captured s) with (packets_captured s0).
  change (infodelay s) with (infodelay s0). change (files s) with (files s0). change (shown s) with (shown s0).
  rewrite <-Hn1, <-Hd1, <-Hf1, <-Hs1. split_and!; done.
Qed.

(** ** A capture *)

(** After the packets [l]. *)
Definition advanced (c : config) (l : list pkt) (s s' : td) : Prop :=
  packets_captured s' = packets_captured s + Z.of_nat (length l) ∧
  match WFileName c with
  | None =>
      files s' = files s ∧ infodelay s' = infodelay s ∧
      shown s' = shown s ++ (if count_mode c then [] else kept c (packets_captured s) l)
  | Some _ =>
      files s' = files s ++ kept c (packets_captured s) l ∧
      infodelay s' = infodelay s + skipped c (packets_captured s) l ∧
      shown s' = shown s ++ (if print c then kept c (packets_captured s) l else []) ∧ is_Some (cur s')
  end.

Definition file_open (c : config) (s : td) : Prop := is_Some (WFileName c) → is_Some (cur s).

Definition handled (c : config) (h : pkt) (s : td) (r : res unit) : Prop :=
  match r with
  | Ret _ s' => advanced c [h] s s'
  | Exited _ s' => is_Some (WFileName c) ∧ files s' = files s ∧ shown s' = shown s
  | Fault => False
  end.

Lemma print_packet_run c e h s : WFileName c = None → is_u 32 (packets_captured s + 1) →
  handled c h s (print_packet c e h s).
Proof.
  intros Hw Hn. unfold print_packet. destruct (count_and_filter_run c e h s Hn) as (s1 & E & Hq & Hd).
  rewrite (proc_bind_Ret _ _ _ _ _ E). pose proof (files_quiet _ _ Hq) as Hf. destruct Hq as (Hn1 & _ & _ & Hs1 & _).
  unfold handled, advanced. rewrite Hw. cbn [kept length packets_captured] in *.
  destruct (in_range c h); cbn [negb andb]; [|split_and!; try done; [cbn; lia|rewrite Hs1; destruct (count_mode c); by rewrite app_nil_r]].
  unfold ask. rewrite (proc_bind_Ret _ _ s1 (packets_captured s1) s1) by done. rewrite Hn1.
  assert (∃ s2, (if negb (count_mode c) && (packets_to_skip c <? packets_captured s + 1) then emit (Pretty h (packets_captured s + 1)) else mret tt) s1 =
    Ret tt s2 ∧ infodelay s2 = infodelay s1 ∧ packets_captured s2 = packets_captured s1 ∧ files s2 = files s1 ∧
    shown s2 = shown s1 ++ (if count_mode c then [] else (if packets_to_skip c <? packets_captured s + 1 then [h] else [])))
    as (s2 & E2 & Hd2 & Hn2 & Hf2 & Hs2).
  { destruct (emit_run (Pretty h (packets_captured s + 1)) s1) as (s2 & E2 & ? & ? & Hc & Hl & ? & _).
    assert (files s2 = files s1) by (unfold files; by rewrite Hc, Hl).
    destruct (count_mode c); cbn [negb andb]; [exists s1; by rewrite app_nil_r|].
    destruct (_ <? _); [by exists s2|exists s1; by rewrite app_nil_r]. }
  rewrite (proc_bind_Ret _ _ _ _ _ E2). destruct (end_packet_run e s2) as (s3 & -> & Hq3 & Hd3 & _).
  pose proof (files_quiet _ _ Hq3) as Hf3. destruct Hq3 as (Hn3 & _ & _ & Hs3 & _).
  split; [cbn; lia|]. rewrite Hf3, Hf2, Hf, Hs3, Hs2, Hs1. split; [done|]. split; [lia|]. by rewrite app_nil_r.
Qed.

(** The two callbacks that write, with the rotation [m] before writing. *)
Lemma dump_run c e h s (m : proc unit) w f : WFileName c = Some w → is_u 32 (packets_captured s + 1) →
  cur s = Some f → (∀ s f, cur s = Some f → rotated s (m s)) →
  handled c h s ((go ← count_and_filter c e h;
    if negb go then mret tt
    else n ← ask packets_captured; if n <=? packets_to_skip c then mret tt else m ;; write_packet c e h) s).
Proof.
  intros Hw Hn Hf Hm. destruct (count_and_filter_run c e h s Hn) as (s1 & E & Hq & Hd).
  rewrite (proc_bind_Ret _ _ _ _ _ E). pose proof (files_quiet _ _ Hq) as Hf1. destruct Hq as (Hn1 & Hc1 & Hl1 & Hs1 & _).
  unfold handled, advanced. rewrite Hw. cbn [kept skipped length packets_captured cur] in *.
  assert (files s1 = files s) as Hfs by exact Hf1. assert (shown s1 = shown s) as Hsh by exact Hs1.
  assert (is_Some (cur s1)) as Hcs by (rewrite Hc1, Hf; by eexists).
  assert ((if print c then [] else []) = @nil pkt) as Hpr by (by destruct (print c)).
  destruct (in_range c h); cbn [negb andb]; [|split; [lia|]; rewrite Hfs, Hsh, !app_nil_r, Hpr, app_nil_r; split_and!; [done|lia|done|done]].
  unfold ask. rewrite (proc_bind_Ret _ _ s1 (packets_captured s1) s1) by done. rewrite Hn1, (Z.ltb_antisym (packets_captured s + 1)).
  destruct (Z.leb_spec (packets_captured s + 1) (packets_to_skip c)); cbn [negb].
  { split; [cbn; lia|]. rewrite Hfs, Hsh, !app_nil_r, Hpr, app_nil_r. split_and!; [done|lia|done|done]. }
  destruct Hcs as [f1 Hf1']. specialize (Hm s1 f1 Hf1'). destruct (m s1) as [[] s2|code s2|] eqn:Em; [| |done].
  - rewrite (proc_bind_Ret _ _ _ _ _ Em). destruct Hm as [(Hn2 & Hd2 & Hf2 & Hs2) [f2 Hc2]].
    destruct (write_packet_run c e h s2 f2 Hc2) as (s3 & -> & Hn3 & Hd3 & _ & Hf3 & Hs3 & Hc3 & _).
    split; [cbn; lia|]. rewrite Hf3, Hf2, Hfs, Hs3, Hs2, Hsh, !app_nil_r. split; [done|]. split; [lia|]. split; [done|].
    rewrite Hc3. by eexists.
  - rewrite (proc_bind_Exited _ _ _ _ _ Em). destruct Hm as [Hf2 Hs2]. split; [by eexists|]. by rewrite Hf2, Hs2.
Qed.

Lemma trunc_bind c e h s : dump_packet_and_trunc c e h s =
  (go ← count_and_filter c e h;
    if negb go then mret tt
    else n ← ask packets_captured;
         if n <=? packets_to_skip c then mret tt else (rotate_G c e ;; rotate_C c e) ;; write_packet c e h) s.
Proof.
  unfold dump_packet_and_trunc, mbind, proc_bind. destruct (count_and_filter c e h s) as [[] s1| |]; [|done..]. cbn [negb].
  unfold ask. destruct (_ <=? _); [done|]. by destruct (rotate_G c e s1).
Qed.

Lemma rotate_both c e s f : name_fits c → cur s = Some f → rotated s ((rotate_G c e ;; rotate_C c e) s).
Proof.
  intros Hn Hf. pose proof (rotate_G_run c e s f Hn Hf) as HG. destruct (rotate_G c e s) as [[] s1|code s1|] eqn:E; [| |done].
  - rewrite (proc_bind_Ret _ _ _ _ _ E). destruct HG as [(H1 & H2 & H3 & H4) [f1 Hf1]].
    pose proof (rotate_C_run c e s1 f1 Hn Hf1) as HC. destruct (rotate_C c e s1) as [[] s2|code s2|]; [| |done].
    + destruct HC as [(K1 & K2 & K3 & K4) ?]. split; [|done]. split_and!; congruence.
    + destruct HC as [K1 K2]. split; congruence.
  - by rewrite (proc_bind_Exited _ _ _ _ _ E).
Qed.

Lemma callback_run c e h s : name_fits c → is_u 32 (packets_captured s + 1) → file_open c s →
  handled c h s (callback c e h s).
Proof.
  intros Hn Hc Ho. unfold callback. destruct (option_cases (WFileName c)) as [Hw|[w Hw]]; rewrite Hw.
  { by apply print_packet_run. }
  destruct Ho as [f Hf]; [by eexists|]. destruct (_ || _).
  - rewrite trunc_bind. eapply dump_run; [done|done|done|]. intros s' f' Hf'. by eapply rotate_both.
  - assert (∀ s, dump_packet c e h s = (go ← count_and_filter c e h;
      if negb go then mret tt
      else n ← ask packets_captured; if n <=? packets_to_skip c then mret tt else mret tt ;; write_packet c e h) s) as ->.
    { intros s0. unfold dump_packet, mbind, proc_bind. by destruct (count_and_filter c e h s0) as [[] s1| |]. }
    eapply dump_run; [done|done|done|]. intros s' f' Hf'. by split; [|exists f'].
Qed.

Lemma advanced_trans c l1 l2 s s1 s2 : advanced c l1 s s1 → advanced c l2 s1 s2 → advanced c (l1 ++ l2) s s2.
Proof.
  assert (∀ l1 l2 n, kept c n (l1 ++ l2) = kept c n l1 ++ kept c (n + Z.of_nat (length l1)) l2) as Ek.
  { clear. induction l1 as [|h l1 IH]; intros l2 n; [by rewrite Z.add_0_r|]. cbn [app kept length].
    rewrite IH, <-app_assoc. by replace (n + Z.of_nat (S (length l1))) with (n + 1 + Z.of_nat (length l1)) by lia. }
  assert (∀ l1 l2 n, skipped c n (l1 ++ l2) = skipped c n l1 + skipped c (n + Z.of_nat (length l1)) l2) as Es.
  { clear. induction l1 as [|h l1 IH]; intros l2 n; [by rewrite Z.add_0_r|]. cbn [app skipped length].
    rewrite IH. replace (n + Z.of_nat (S (length l1))) with (n + 1 + Z.of_nat (length l1)) by lia. lia. }
  unfold advanced. rewrite Ek, Es, length_app. intros [H1 H2] [K1 K2]. rewrite H1 in K2. split; [lia|].
  destruct (WFileName c).
  - destruct H2 as (F1 & D1 & S1 & _), K2 as (F2 & D2 & S2 & O2). rewrite F2, F1, S2, S1, <-!app_assoc.
    split_and!; [done|lia|by destruct (print c)|done].
  - destruct H2 as (F1 & D1 & S1), K2 as (F2 & D2 & S2). rewrite F2, S2, S1, <-!app_assoc. split_and!; [done|lia|by destruct (count_mode c)].
Qed.

(** What a capture that goes on or ends early has done. *)
Definition captured_ok (c : config) (l : list pkt) (s : td) (r : res unit) : Prop :=
  match r with
  | Ret _ s' => advanced c l s s'
  | Exited _ s' => is_Some (WFileName c) ∧ ∃ l1 h l2, l = l1 ++ h :: l2 ∧
      files s' = files s ++ kept c (packets_captured s) l1 ∧
      shown s' = shown s ++ (if print c then kept c (packets_captured s) l1 else [])
  | Fault => False
  end.

Lemma capture_run c l s : name_fits c → packets_captured s + Z.of_nat (length l) < 2 ^ 32 → 0 ≤ packets_captured s →
  file_open c s → captured_ok c l.*2 s (capture c l s).
Proof.
  intros Hn. revert s. induction l as [|[e h] l IH]; intros s Hc H0 Ho; cbn [capture fmap list_fmap snd].
  { split; [cbn; lia|]. cbn [kept skipped]. destruct (WFileName c) eqn:Hw.
    - rewrite !app_nil_r. split_and!; [done|lia|by destruct (print c); rewrite app_nil_r|]. apply Ho. by eexists.
    - split_and!; try done. destruct (count_mode c); by rewrite app_nil_r. }
  cbn [length] in Hc. pose proof (callback_run c e h s Hn ltac:(unfold is_u; lia) Ho) as H.
  destruct (callback c e h s) as [[] s1|code s1|] eqn:E; [| |done].
  - rewrite (proc_bind_Ret _ _ _ _ _ E). pose proof H as [Hn1 Hrest]. cbn [length] in Hn1.
    assert (file_open c s1) as Ho1 by (intros [w Hw]; rewrite Hw in Hrest; apply Hrest).
    specialize (IH s1 ltac:(lia) ltac:(lia) Ho1). destruct (capture c l s1) as [[] s2|code s2|]; [| |done].
    + exact (advanced_trans c [h] _ s s1 s2 H IH).
    + destruct IH as [[w Hw] (l1 & h' & l2 & El & Hf2 & Hs2)]. split; [by eexists|]. exists (h :: l1), h', l2.
      split; [by rewrite El|]. cbn [handled] in H.
      assert (advanced c (h :: l1) s (Td (packets_captured s1 + Z.of_nat (length l1)) (infodelay s1 + skipped c (packets_captured s1) l1) 0 0 0 0
        (Some ([], kept c (packets_captured s1) l1)) [([], files s1)] (out s2))) as Ha.
      { apply (advanced_trans c [h] l1 s s1 _ H). unfold advanced. rewrite Hw. cbn. rewrite app_nil_r. by split_and!; try eexists. }
      destruct Ha as [_ Ha]. rewrite Hw in Ha. destruct Ha as (Hf & _ & Hs & _). cbn in Hf. rewrite app_nil_r in Hf.
      split; [by rewrite Hf2|exact Hs].
  - rewrite (proc_bind_Exited _ _ _ _ _ E). destruct H as (Hw & Hf & Hs). split; [done|]. exists [], h, l.*2.
    cbn [kept]. rewrite !app_nil_r. split_and!; [done|done|]. rewrite Hs. by destruct (print c); rewrite app_nil_r.
Qed.

(** ** The ring of files *)

Lemma count_chars_spec fuel x c : 0 ≤ x < 2 ^ Z.of_nat fuel → ∃ d, count_chars fuel x c = c + d ∧ 0 ≤ d ∧ x < 10 ^ d ∧ (d = 0 → x = 0).
Proof.
  revert x c. induction fuel as [|fuel IH]; intros x c Hx; cbn [count_chars].
  { exists 0. cbn in *. split_and!; lia. }
  rewrite Nat2Z.inj_succ, Z.pow_succ_r in Hx by lia. destruct (Z.ltb_spec 0 x); [|exists 0; cbn; split_and!; lia].
  destruct (IH (x / 10) (c + 1)) as (d & -> & Hd & Hlt & _); [dlia|]. exists (1 + d). split; [lia|]. split; [lia|].
  split; [rewrite Z.pow_add_r by lia; dlia|lia].
Qed.

(** The width is enough for the numbers below [x]; it is 0 only for one file. *)
Lemma getWflagChars_spec x : 1 ≤ x → 0 ≤ getWflagChars x ∧ x - 1 < 10 ^ getWflagChars x ∧ (getWflagChars x = 0 → x = 1).
Proof.
  intros Hx. unfold getWflagChars.
  destruct (count_chars_spec (S (Z.to_nat (Z.log2 (x - 1)))) (x - 1) 0) as (d & -> & Hd & Hlt & H0).
  - split; [lia|]. rewrite Nat2Z.inj_succ, Z2Nat.id by apply Z.log2_nonneg. destruct (decide (x = 1)) as [->|]; [done|].
    apply Z.log2_spec. lia.
  - split_and!; [done|done|lia].
Qed.

Definition ring_name (w : bytes) (chars k : Z) : bytes :=
  if (k =? 0) && (chars =? 0) then w else w ++ dec_padded chars k.

Section ring.
Context (c : config) (w : bytes).
Hypothesis (Hw : WFileName c = Some w) (HG : Gflag c = 0) (HC : Cflag c ≠ 0) (HW : 1 ≤ Wflag c).
Hypothesis (Hchars : WflagChars c = getWflagChars (Wflag c)).

Lemma ring_name_length k : 0 ≤ k < Wflag c → Z.of_nat (length (ring_name w (WflagChars c) k)) = Z.of_nat (length w) + WflagChars c.
Proof.
  intros Hk. unfold ring_name. rewrite Hchars. destruct (getWflagChars_spec (Wflag c) HW) as (Hd & Hlt & H0).
  destruct (Z.eqb_spec (getWflagChars (Wflag c)) 0) as [E|E].
  - rewrite (H0 E) in Hk. assert (k = 0) as -> by lia. rewrite E. cbn. lia.
  - rewrite andb_false_r, length_app, Nat2Z.inj_add, dec_padded_length by lia. done.
Qed.

Lemma ring_name_inj a b : 0 ≤ a < Wflag c → 0 ≤ b < Wflag c →
  ring_name w (WflagChars c) a = ring_name w (WflagChars c) b ↔ a = b.
Proof.
  intros Ha Hb. split; [|by intros ->]. unfold ring_name. rewrite Hchars.
  destruct (getWflagChars_spec (Wflag c) HW) as (_ & _ & H0). destruct (Z.eqb_spec (getWflagChars (Wflag c)) 0) as [E|E].
  - rewrite (H0 E) in *. lia.
  - rewrite !andb_false_r. intros E'%app_inv_head. apply dec_padded_inj in E'; lia.
Qed.

(** The files opened so far have the numbers 0, 1, ... round the ring. *)
Definition ring (s : td) : Prop :=
  (closed s).*1 = (λ i, ring_name w (WflagChars c) (i mod Wflag c)) <$> seqZ 0 (Z.of_nat (length (closed s))) ∧
  Cflag_count s = Z.of_nat (length (closed s)) mod Wflag c ∧
  fst <$> cur s = Some (ring_name w (WflagChars c) (Cflag_count s)).

Lemma ring_same s s' : cur s' = cur s → closed s' = closed s → Cflag_count s' = Cflag_count s → ring s → ring s'.
Proof. unfold ring. by intros -> -> ->. Qed.

Lemma MakeFilename_ring e k cnt s name s' : MakeFilename c e k w cnt (WflagChars c) s = Ret name s' →
  name = ring_name w (WflagChars c) cnt ∧ s' = s.
Proof.
  unfold MakeFilename, ask, mbind, proc_bind, ring_name. destruct (negb (e_malloc e k)); [done|].
  case_bool_decide; [done|]. rewrite HG. cbn [Z.eqb negb]. destruct (PATH_MAX <=? _); [done|].
  unfold mret, proc_ret. destruct (_ && _); [by intros [= -> ->]|]. destruct (_ <? _); [done|]. by intros [= <- ->].
Qed.

Lemma next_number m : 0 ≤ m → (if (0 <? Wflag c) && (Wflag c <=? m mod Wflag c + 1) then 0 else m mod Wflag c + 1) =
  (m + 1) mod Wflag c.
Proof.
  intros Hm. rewrite (proj2 (Z.ltb_lt 0 _)) by lia. cbn [andb].
  pose proof (Z.mod_pos_bound m (Wflag c)) as Hb. pose proof (Z.div_mod m (Wflag c)) as Hd.
  destruct (Z.leb_spec (Wflag c) (m mod Wflag c + 1)).
  - apply (Z.mod_unique _ _ (m / Wflag c + 1)); lia.
  - apply (Z.mod_unique _ _ (m / Wflag c)); lia.
Qed.

Lemma rotate_C_ring e s s' : ring s → rotate_C c e s = Ret tt s' → ring s'.
Proof.
  intros (Hl & Hk & Hc). unfold rotate_C, ask, mbind, proc_bind. rewrite (proj2 (Z.eqb_neq _ _)) by done.
  destruct (_ =? -1); [done|]. destruct (_ <=? Cflag c); [by intros [= <-]|].
  destruct (cur s) as [f|] eqn:Hf; [|done]. injection Hc as Hc.
  destruct (close_run c s f Hf) as (s1 & -> & _ & _ & Hc1 & Hl1 & _ & _ & Hk1). cbn [set_Cflag_count].
  set (s2 := Td _ _ _ _ _ _ _ _ _). destruct (negb (e_malloc e 2)); [done|]. rewrite Hw. cbn [default].
  destruct (MakeFilename _ _ _ _ _ _ _) as [name s3|code s3|] eqn:E; [|done..].
  apply MakeFilename_ring in E as [-> ->].
  destruct (open_run e (ring_name w (WflagChars c) (if (0 <? Wflag c) && (Wflag c <=? Cflag_count s1 + 1) then 0 else Cflag_count s1 + 1)) s2 Hc1)
    as [-> |(s4 & -> & Hc4 & Hl4 & _ & Hk4)]; [done|]. intros [= <-].
  assert (length (closed s1) = S (length (closed s))) as El by (rewrite Hl1, length_app; cbn; lia).
  unfold ring. rewrite Hl4, Hk4, Hc4. cbn [closed Cflag_count s2]. rewrite Hk1, Hk, El, Nat2Z.inj_succ, next_number by lia.
  split; [|done]. rewrite Hl1, fmap_app, Hl, <-Nat2Z.inj_succ, seqZ_S, fmap_app by lia. cbn [fmap list_fmap]. by rewrite Hc, Hk, Z.add_0_l.
Qed.

Lemma callback_ring e h s s' : ring s → is_u 32 (packets_captured s + 1) → callback c e h s = Ret tt s' → ring s'.
Proof.
  intros Hr Hn. unfold callback. rewrite Hw, (proj2 (Z.eqb_neq (Cflag c) 0)) by done. cbn [negb orb].
  unfold dump_packet_and_trunc. destruct (count_and_filter_run c e h s Hn) as (s1 & E & (Hn1 & Hc1 & Hl1 & _ & Hk1 & _) & _).
  rewrite (proc_bind_Ret _ _ _ _ _ E). assert (ring s1) as Hr1 by (by apply (ring_same s)).
  destruct (negb (in_range c h)); [by intros [= <-]|]. unfold ask. rewrite (proc_bind_Ret _ _ s1 (packets_captured s1) s1) by done.
  destruct (_ <=? _); [by intros [= <-]|]. unfold rotate_G. rewrite HG. cbn [Z.eqb].
  rewrite (proc_bind_Ret _ _ s1 tt s1) by done. unfold mbind, proc_bind.
  destruct (rotate_C c e s1) as [[] s2|code s2|] eqn:E2; [|done..]. apply rotate_C_ring in E2; [|done].
  pose proof E2 as (_ & _ & Hc2). destruct (cur s2) as [f|] eqn:Hf; [|done].
  destruct (write_packet_run c e h s2 f Hf) as (s3 & -> & _ & _ & _ & _ & _ & Hc3 & Hl3 & Hk3). intros [= <-].
  destruct E2 as (R1 & R2 & R3). rewrite Hf in R3. unfold ring. rewrite Hl3, Hk3, Hc3. split_and!; done.
Qed.

Lemma capture_ring l s s' : name_fits c → file_open c s → ring s → 0 ≤ packets_captured s →
  packets_captured s + Z.of_nat (length l) < 2 ^ 32 → capture c l s = Ret tt s' → ring s'.
Proof.
  intros Hfit. revert s. induction l as [|[e h] l IH]; intros s Ho Hr H0 Hn; cbn [capture length] in *; [by intros [= <-]|].
  pose proof (callback_run c e h s Hfit ltac:(unfold is_u; lia) Ho) as H.
  destruct (callback c e h s) as [[] s1|code s1|] eqn:E; [|by rewrite (proc_bind_Exited _ _ _ _ _ E)|done].
  rewrite (proc_bind_Ret _ _ _ _ _ E). destruct H as [Hn1 Hrest]. cbn [length] in Hn1. intros Hrun.
  eapply IH; [|by eapply callback_ring; [done|unfold is_u; lia|done]|lia|lia|exact Hrun].
  intros _. rewrite Hw in Hrest. apply Hrest.
Qed.

End ring.

(** ** Reading -g *)

Lemma strchr_dec a r : 0 ≤ a → strchr (dec a ++ 45 :: r) 45 = Some (length (dec a)).
Proof.
  intros Ha. unfold strchr. destruct (dec_spec a Ha) as (Hd & _).
  assert (list_find (λ x : Z, x = 45) (dec a ++ 45 :: r) = Some (length (dec a), 45)) as ->; [|done].
  apply list_find_Some. split; [by apply list_lookup_middle|]. split; [done|]. intros k y Hk Hlt.
  rewrite lookup_app_l in Hk by done. rewrite Forall_lookup in Hd. specialize (Hd k y Hk). apply is_digit_spec in Hd. lia.
Qed.

Lemma option_g_numbers a b c : 0 ≤ a ≤ ULONG_MAX → 0 ≤ b ≤ ULONG_MAX →
  option_g (dec a ++ 45 :: dec b) c = if u32 b <? u32 a then None else Some (set_range (u32 a) (u32 b) c).
Proof.
  intros Ha Hb. unfold option_g. rewrite strchr_dec by lia. cbn [mbind option_bind].
  rewrite take_app_length, drop_app_ge by lia. replace (S (length (dec a)) - length (dec a))%nat with 1%nat by lia. cbn [drop].
  pose proof (strtoul_dec a [] Ha) as Ea. pose proof (strtoul_dec b [] Hb) as Eb. rewrite app_nil_r in Ea, Eb.
  rewrite Ea by done. rewrite ?drop_0. by rewrite Eb.
Qed.

Lemma option_g_Some arg c c' : option_g arg c = Some c' → ∃ a b, c' = set_range a b c ∧ 0 ≤ a ≤ b ∧ b < 2 ^ 32.
Proof.
  unfold option_g. destruct (strchr arg 45) as [k|]; [|done]. cbn [mbind option_bind].
  destruct (strtoul (take k arg)) as [[a r1] e1]. destruct r1; [|done]. destruct (strtoul (drop (S k) arg)) as [[b r2] e2]. destruct r2; [|done].
  destruct (Z.ltb_spec (u32 b) (u32 a)); [done|]. intros [= <-]. exists (u32 a), (u32 b).
  pose proof (wrapU_range 32 a). pose proof (wrapU_range 32 b). unfold is_u in *. split; [done|]. lia.
Qed.

Lemma option_C_bounds optarg size : option_C optarg = Some size → 1 ≤ size ≤ INT64_MAX.
Proof.
  unfold option_C. destruct (parse_int64 optarg true 1 INT64_MAX) as [[flag endp]|] eqn:E; [|done]. cbn [mbind option_bind].
  assert (1 ≤ flag ≤ INT64_MAX) as Hf.
  { unfold parse_int64 in E. destruct (strtol optarg) as [[val r] er].
    destruct (bool_decide (r = optarg) || _); [done|]. destruct (_ || (INT64_MAX <? val)) eqn:Er; [done|]. apply orb_false_iff in Er as [Er H2%Z.ltb_ge].
    apply orb_false_iff in Er as [_ H1%Z.ltb_ge]. injection E as <- _. unfold INT64_MAX in *.
    rewrite wrapS_small by (unfold is_s; lia). lia. }
  destruct (match endp with [] => Some 1000000 | _ :: _ => _ end) as [mult|] eqn:Em; [|done].
  assert (1 ≤ mult) as Hm.
  { destruct endp as [|u endp]; [injection Em as <-; lia|]. destruct (_ || _); [|destruct (_ || _); [|destruct (_ || _); [|done]]];
      cbn [mbind option_bind] in Em; destruct endp; try done; injection Em as <-; lia. }
  cbn [mbind option_bind]. destruct (Z.ltb_spec (INT64_MAX / mult) flag); [done|]. intros [= <-].
  pose proof (Z.mul_div_le INT64_MAX mult). nia.
Qed.

(** ** Properties *)

(** C36: The packets that a capture keeps, in every mode.  Of the packets that
    libpcap delivers, those in the range of [-g] that are not among the first
    [--skip] are, in their order and each once, the contents of the files
    written (all files of a rotation together), or are shown, when no file is
    written and [--count] is not given.  When the program ends early (a failing
    call, the limit of [-W]), this holds for the packets before the last one.
    Nothing else is written or shown and no call is undefined.  Packets out of
    range are counted all the same ([--count] and [-c] include them), and in the
    modes that write a file a packet that is skipped leaves [infodelay]
    incremented, after which requests for statistics are not answered at once. *)
Theorem capture_keeps c l s
    (Hname : name_fits c) (Hnum : 0 ≤ packets_captured s) (Hcount : packets_captured s + Z.of_nat (length l) < 2 ^ 32)
    (Hopen : file_open c s) :
  match capture c l s with
  | Ret _ s' =>
      packets_captured s' = packets_captured s + Z.of_nat (length l) ∧
      let k := kept c (packets_captured s) l.*2 in
      match WFileName c with
      | Some _ => files s' = files s ++ k ∧ shown s' = shown s ++ (if print c then k else []) ∧
                  infodelay s' = infodelay s + skipped c (packets_captured s) l.*2
      | None => files s' = files s ∧ shown s' = shown s ++ (if count_mode c then [] else k) ∧ infodelay s' = infodelay s
      end
  | Exited _ s' =>
      is_Some (WFileName c) ∧ ∃ l1 h l2, l.*2 = l1 ++ h :: l2 ∧
        files s' = files s ++ kept c (packets_captured s) l1 ∧
        shown s' = shown s ++ (if print c then kept c (packets_captured s) l1 else [])
  | Fault => False
  end.
Proof.
  pose proof (capture_run c l s Hname Hcount Hnum Hopen) as H. destruct (capture c l s) as [[] s'|code s'|]; [|done..].
  destruct H as [Hn H]. rewrite length_fmap in Hn. split; [done|]. destruct (WFileName c); [|by destruct H as (? & ? & ?)].
  by destruct H as (? & ? & ? & _).
Qed.

(** The files of a ring ([-C] with [-W n]): the i-th file that is opened has
    the number i mod n, padded so that all names have the same length, and two
    files have the same name exactly when their numbers are the same; so the
    last n files are never overwritten by one another. *)
Theorem ring_files c w l s s'
    (Hw : WFileName c = Some w) (HG : Gflag c = 0) (HC : Cflag c ≠ 0) (HW : 1 ≤ Wflag c)
    (Hchars : WflagChars c = getWflagChars (Wflag c)) (Hname : name_fits c)
    (Hfirst : closed s = [] ∧ Cflag_count s = 0 ∧ fst <$> cur s = Some (ring_name w (WflagChars c) 0))
    (Hcount : 0 ≤ packets_captured s ∧ packets_captured s + Z.of_nat (length l) < 2 ^ 32)
    (Hrun : capture c l s = Ret tt s') :
  let names := (closed s').*1 ++ option_list (fst <$> cur s') in
  (∀ i name, names !! i = Some name →
     name = ring_name w (WflagChars c) (Z.of_nat i mod Wflag c) ∧
     Z.of_nat (length name) = Z.of_nat (length w) + WflagChars c) ∧
  ∀ i j a b, names !! i = Some a → names !! j = Some b →
    a = b ↔ Z.of_nat i mod Wflag c = Z.of_nat j mod Wflag c.
Proof.
  destruct Hfirst as (Hl & Hk & Hc). assert (ring c w s) as Hr by (unfold ring; rewrite Hl, Hk, Hc; by split_and!).
  assert (file_open c s) as Ho by (intros _; destruct (cur s); [by eexists|done]).
  destruct (capture_ring c w Hw HG HC HW l s s' Hname Ho Hr (proj1 Hcount) (proj2 Hcount) Hrun) as (R1 & R2 & R3).
  set (names := _ ++ _). assert (∀ i name, names !! i = Some name → name = ring_name w (WflagChars c) (Z.of_nat i mod Wflag c)) as Hi.
  { intros i name. unfold names. rewrite R3, R1. cbn [option_list]. intros [H|[Hge H]]%lookup_app_Some.
    - apply list_lookup_fmap_Some in H as (k & -> & H%lookup_seqZ). by destruct H as [-> _].
    - rewrite length_fmap, length_seqZ, Nat2Z.id in *. apply list_lookup_singleton_Some in H as [H <-].
      rewrite R2. by replace i with (length (closed s')) by lia. }
  assert (∀ i : nat, 0 ≤ Z.of_nat i mod Wflag c < Wflag c) as Hm by (intros i; apply Z.mod_pos_bound; lia).
  split.
  - intros i name E. apply Hi in E as ->. split; [done|]. by apply ring_name_length.
  - intros i j a b E1 E2. apply Hi in E1 as ->. apply Hi in E2 as ->. by apply ring_name_inj.
Qed.

(** The option -g reads back the range "min-max" of decimal numbers and
    refuses an empty one; whatever it accepts is a range of 32-bit lengths.
    Numbers of more than 32 bits are cut without a message, so "0-4294967296"
    keeps only packets of length 0. *)
Theorem option_g_roundtrip c :
  (∀ a b, 0 ≤ a < 2 ^ 32 → 0 ≤ b < 2 ^ 32 →
     option_g (dec a ++ 45 :: dec b) c = if a <=? b then Some (set_range a b c) else None) ∧
  (∀ arg c', option_g arg c = Some c' → ∃ a b, c' = set_range a b c ∧ 0 ≤ a ≤ b ∧ b < 2 ^ 32) ∧
  (∀ arg, 45 ∉ arg → option_g arg c = None) ∧
  option_g (dec 0 ++ 45 :: dec (2 ^ 32)) c = Some (set_range 0 0 c).
Proof.
  split_and!.
  - intros a b Ha Hb. rewrite option_g_numbers by (unfold ULONG_MAX; lia). rewrite !(wrapU_small 32) by done.
    rewrite Z.ltb_antisym. by destruct (a <=? b).
  - intros arg c'. apply option_g_Some.
  - intros arg H. unfold option_g, strchr. assert (list_find (λ x : Z, x = 45) arg = None) as ->; [|done].
    apply list_find_None, Forall_forall. by intros x Hx ->.
  - rewrite option_g_numbers by done. done.
Qed.

(** ** Witnesses: three packets, a ring of two files *)

Definition demo_config : config :=
  Config true 10 100 0 false 1000 0 2 1 true false false (Some [102]).
Definition demo_env (size : Z) : env :=
  Env true (Some 0) (λ _, true) (λ b _, Some b) (λ _, true) (λ _, size) true.
Definition demo_stream : list (env * pkt) :=
  [(demo_env 24, Pkt 50 [1]); (demo_env 2000, Pkt 500 [2]); (demo_env 2000, Pkt 60 [3])].
Definition demo_td : td := Td 0 0 0 0 0 0 (Some ([102; 48], [])) [] [].

Lemma capture_keeps_witness :
  ∃ s', capture demo_config demo_stream demo_td = Ret tt s' ∧ files s' = [Pkt 50 [1]; Pkt 60 [3]] ∧ length (closed s') = 1%nat.
Proof.
  pose proof (capture_keeps demo_config demo_stream demo_td) as H.
  assert (∃ s', capture demo_config demo_stream demo_td = Ret tt s' ∧ length (closed s') = 1%nat) as (s' & E & Hl).
  { eexists. vm_compute. split; reflexivity. }
  rewrite E in H. exists s'. split; [exact E|]. split; [|exact Hl].
  destruct H as [_ [H _]]; [by vm_compute|by vm_compute|by vm_compute|by eexists|]. exact H.
Defined.

Lemma ring_files_witness :
  ∃ s', capture demo_config demo_stream demo_td = Ret tt s' ∧
    ∀ i name, ((closed s').*1 ++ option_list (fst <$> cur s')) !! i = Some name → Z.of_nat (length name) = 2.
Proof.
  assert (∃ s', capture demo_config demo_stream demo_td = Ret tt s') as [s' E] by (eexists; vm_compute; reflexivity).
  destruct (ring_files demo_config [102] demo_stream demo_td s' eq_refl eq_refl ltac:(discriminate) ltac:(cbn; lia) eq_refl
    ltac:(unfold name_fits, PATH_MAX; cbn; lia) ltac:(split_and!; reflexivity) ltac:(cbn; lia) E) as [H _].
  exists s'. split; [exact E|]. intros i name Hi. by destruct (H i name Hi) as [_ ->].
Defined.

End Tcpdump.
